(* ===== verification/_CoqProject ===== *)
-Q . S2P
Prelude.v
Mmu.v
Cstring.v
Kstate.v
Spinlock.v
Kalloc.v
Vm.v
Proc.v
Pagetable.v
Uvm.v
Copyuvm.v
Container.v
Sched.v
Fork.v
Life.v
Sleeplock.v
Bio.v
Log.v
Fs.v
Tx.v
Balloc.v
Inodes.v
Icache.v
Writei.v
Content.v
Dirs.v
Paths.v
Itrunc.v
Pipe.v
File.v
Forking.v
Args.v
Exec.v
Sysfile.v
Sysproc.v
Syscall.v
Trap.v
Msg.v
Ulib.v
Umem.v
Printf.v
Console.v
Lined.v
Kbd.v
Ide.v
Boot.v
Mp.v
Apic.v
Mkfs.v
Image.v
Built.v
Rootfs.v
Grep.v
Programs.v
Sh.v
Shparse.v
Shprint.v
Shrun.v
Shmain.v
Umalloc.v
Uheap.v
