(* ===== verification/Prelude.v ===== *)
(** * xv6-Container: a verification library

    The repository holds two versions of a teaching operating system for the
    x86: src/xv6-structured, a kernel with containers (groups of processes with
    their own scheduling turn, page pool and file names), and src/xv6, the
    earlier version with message passing.  This library models the container
    kernel as shallowly embedded functions and proves what its parts promise;
    of the earlier version it models the message calls.

    ** The parts of the program and the files that model them

    - param.h, memlayout.h, mmu.h, x86.h: [Mmu.v] (constants, address macros,
      descriptors).
    - proc.h, spinlock.h, sleeplock.h, buf.h, file.h, fs.h, stat.h, ...:
      [Kstate.v], the records of the kernel's data and the one record [kst] of
      the whole kernel state (memory, CPU, process table, container table,
      buffers, inodes, log, open files, pipes, message queues, disk, console
      input, input and output so far, locks held).
    - string.c: [Cstring.v].  spinlock.c: [Spinlock.v] (the operations of one
      CPU, and in Module [Spin] the xchg protocol of several CPUs as a
      transition system).  kalloc.c: [Kalloc.v] (the free list threaded through
      the free pages).
    - vm.c: [Vm.v] (every function, on page tables in memory); its theorems are
      in [Pagetable.v] (page tables as maps from addresses to entries, copying
      out), [Uvm.v] (growing and freeing an address space) and [Copyuvm.v]
      (fork's copy).
    - proc.c: [Proc.v] (allocation, sched, sleep, wakeup, kill, listings),
      [Container.v], [Sched.v] (the container scheduler), [Fork.v] (fork, exit,
      wait, growproc, joinContainer; against the interface [FileApi.FileOps])
      with the theorems on exit and wait in [Life.v] and on fork in
      [Forking.v] (against the laws [FileOpsOk] of that interface, which
      file.c and fs.c satisfy).
    - sleeplock.c: [Sleeplock.v].  bio.c and memide.c: [Bio.v], the cache over
      the interface [BlockDev] and the memory disk as its instance [memide].
      log.c: [Log.v].  ide.c: [Ide.v], the queue of the disk and its
      controller, a second instance of [BlockDev].  bootmain.c: [Boot.v], on
      the same controller.
    - fs.c: [Fs.v] (every function).  Its theorems climb from the disk to the
      files: [Tx.v] (a transaction: the disk as the thread inside it sees it),
      [Balloc.v] (the free map), [Inodes.v] (the content of a file, readi), [Icache.v]
      (references and locks of the inode cache: iget, ilock, iput), [Writei.v] (bmap, iupdate, writei), [Content.v] (what reading and writing
      mean), [Dirs.v] (directories), [Paths.v] (namex against following the
      elements of a path), [Itrunc.v] (giving blocks back).
    - pipe.c: [Pipe.v].  file.c: [File.v] (devices behind the interface
      [DevSw]; the instance of [FileOps]).
    - syscall.c: [Args.v] (user arguments) and [Syscall.v] (dispatch);
      exec.c: [Exec.v]; sysfile.c: [Sysfile.v]; sysproc.c: [Sysproc.v];
      trap.c: [Trap.v] (device handlers behind the interface [Irqs]).
    - console.c, uart.c: [Console.v] (output down to the ports and the screen's
      memory; input; reading and writing the console, an instance of [DevSw]),
      [Lined.v] (the line discipline); kbd.c: [Kbd.v].  The formatted output of
      console.c and of the user library's printf.c: [Printf.v].
    - mp.c: [Mp.v]; lapic.c, ioapic.c, picirq.c, and mycpu by APIC number:
      [Apic.v], where trap.c's device handlers are put together.
    - mkfs.c, the tool that makes the disk's image: [Mkfs.v] on a list of blocks,
      [Image.v] (what the image holds while it grows), [Built.v] (the finished
      image as the kernel's definitions read it), [Rootfs.v] (path names on it).
    - the message queues of src/xv6/proc.c: [Msg.v].
    - user programs: ulib.c in [Ulib.v] and [Umem.v], grep.c in [Grep.v], as
      functions on what the system calls deliver; cat, wc, ls, init, the container
      manager cm and the other small ones in [Programs.v], as interaction trees of
      system calls, because some of them do not end.
    - the shell, sh.c: [Sh.v] (the parser, on the text of a line), [Shparse.v]
      (it ends, and what its pointers denote), [Shprint.v] (it inverts the
      grammar), [Shrun.v] (runcmd as a program of system calls, and an
      interpreter of such programs), [Shmain.v] (whole sessions).
    - umalloc.c: [Umalloc.v] (malloc and free on the bytes of a process) and
      [Uheap.v] (the heap they keep).

    ** How state and operations correspond to the code

    A C function of the kernel is a function of the monad [K] on [kst], under
    the C function's name and with its statements in order.  Its outcome is a
    value ([Done]), [panic] ([Panic]), giving up the CPU through [swtch]
    ([Switch], with what the thread does when it is resumed, in whatever state
    the others have left), or an access that C leaves undefined ([Fault]).
    Concurrency inside the kernel thus appears at the points where the code
    gives up the CPU; the interleaving of several CPUs is modelled where the
    code handles it: below the locks in [Spinlock.Spin], and in [Proc.v] for
    [sleep], which pauses there after each lock operation ([sleep_at]) while
    another CPU takes its steps.  Machine integers are
    [Z] with [u8]/[u16]/[u32]/[i32] written where the code wraps around.  Memory
    is byte addressed; page tables, free pages, user memory, message nodes and
    trap frames on kernel stacks live in it.  Tables of the kernel (processes,
    containers, buffers, inodes, files) are lists of records indexed like the
    arrays; an index out of range is a [Fault].

    Loops whose bound the code does not show take fuel.  The fuel of a loop
    over memory or a table is computed from its size, so it never runs out;
    [Fuel]'s [patience] bounds how often a thread that waits (for a lock, for
    room, for a child, for a buffer) is woken up in vain, and theorems about
    such loops state how much of it they need.

    In user programs the shell's parser gets 4 rounds per character of the line
    and 4 more; malloc as many as the process could have blocks, twice; these
    are proved to be enough.  The programs of
    [Programs.v] have no fuel: their loops are the library's iteration.

    Code outside the repository's C functions is a parameter: [Linker] is the
    addresses the linker chooses ([LinkerOk]: what kernel.ld documents about
    them), [vectors] the entry points vectors.pl generates, [swtch_to] the run of
    a process until it switches back, [Ports] what reading an I/O port delivers
    after the input and output so far (with the documented behaviour of the
    screen's adapter, the serial line, the keyboard, the clock and the ATA
    controller as named hypotheses: [AtaOk], [RtcOk], ...), [Mmio] the same for
    the registers of the interrupt controllers, [Host] the files and failures of
    the machine mkfs runs on.  What user programs call is answered by a handler
    of their events, or left open where the theorem does not depend on it.

    ** What the theorems show

    - Locks: mutual exclusion for every interleaving, refinement of an abstract
      lock with an owner; [sched]'s discipline; no lost wakeup in any
      interleaving with the CPU that wakes; sleep locks
      exclude and their waiters are woken.
    - Memory: memset, memmove, safestrcpy; the page allocator never hands out a
      page twice and loses none; [mappages] against page tables as maps from
      addresses to entries; [copyout] is confined to user pages; [allocuvm],
      [freevm] and [copyuvm] give or undo everything they promise.
    - Disk: the buffer cache presents one disk; a crash at any point of a commit
      followed by recovery is all or nothing; absorption and limits of
      [log_write]; inode, directory entry and block map formats; the driver
      executes its requests in order and returns each buffer valid and clean.
    - Files: inside a transaction a file is a list of bytes that [writei]
      updates and [readi] reads, whatever blocks, direct or indirect, hold it;
      no other file changes; a directory is a map from names to inodes;
      [itrunc] frees the blocks of a file and no other; [namex] finds what a path
      means on any sound tree and keeps the count of references.
    - The image: mkfs makes a sound file system, and in a kernel on that image
      namei, ilock and readi of "/name" deliver the bytes the host's file had.
    - Start-up: the boot loader puts the kernel's segments where they belong
      and jumps to its entry point; mpinit reads the BIOS's table; the clock is
      read right.
    - Processes and containers: allocation, fork, exit and wait, kill, listings, the
      scheduler's choice turn after turn, isolation of its turns, the log protocol, container
      creation and its memory.
    - Pipes, message queues, user arguments, system call dispatch, interrupt
      gates.
    - The console: its interrupt handler is a line editor, readers get lines,
      what cprintf formats reaches the serial line and the screen; every
      printable character can be typed; numbers are printed right and within
      the buffer, by the kernel and by users, whose two printers agree.
    - grep: its matcher decides the language of the pattern, its loop writes
      the matching lines.  cat copies, wc counts however reads split the text,
      init never ends.
    - The shell: its parser ends on every line and inverts the grammar; a
      session runs the right programs with the right descriptors.
    - The user heap: blocks never overlap, no memory is lost, and every call
      returns.
    - Defects of the code, as theorems: a stack overflow in [sys_open], unbounded
      container tables, a null page table in [uva2ka], [kill(0)], the pages fork
      loses when a container is full, the lost wakeup of [recv], disk errors that
      the driver hides, mpinit's endless loop, the size mkfs gives a full root
      directory, the partial lines grep drops, malloc's size that wraps around,
      a memmove that moves upwards only, cm's file names without an end.

    ** Not modelled

    The order of initialisation in main and the assembly; the test programs;
    cm behind its call of printf without a descriptor, which C does
    not define.  Outside [Console.v] a call of cprintf is one event of [k_out];
    the system calls that create and remove files are definitions, with theorems
    for their arguments and for the operations they are made of, not for the
    whole calls.  Files of src/xv6 that differ from the container version are
    modelled only for what the container version dropped. *)
From stdpp Require Export base numbers list gmap strings.
From Stdlib Require Import FunctionalExtensionality.
#[global] Open Scope Z_scope.

(** ** Outcomes of a run of kernel code

    [Done a s]: the C function returned [a], leaving the state [s].
    [Panic msg s]: the kernel called [panic(msg)] in state [s].
    [Switch s k]: the thread gave up its CPU (it called [swtch]) in state [s];
    when the scheduler resumes it in a state [s'], [k s'] is what it does then.
    [Fault why]: the code performs an access that C leaves undefined. *)
Inductive outcome (S A : Type) : Type :=
  | Done (a : A) (s : S)
  | Panic (msg : string) (s : S)
  | Switch (s : S) (k : S → outcome S A)
  | Fault (why : string).
Arguments Done {S A} a s.
Arguments Panic {S A} msg s.
Arguments Switch {S A} s k.
Arguments Fault {S A} why.

Definition M (S A : Type) : Type := S → outcome S A.

Fixpoint obind {S A B} (f : A → M S B) (o : outcome S A) : outcome S B :=
  match o with
  | Done a s => f a s
  | Panic msg s => Panic msg s
  | Switch s k => Switch s (λ s', obind f (k s'))
  | Fault w => Fault w
  end.

#[export] Instance M_ret S : MRet (M S) := λ A a s, Done a s.
#[export] Instance M_bind S : MBind (M S) := λ A B f m s, obind f (m s).

Section ops.
Context {S : Type}.
Definition gets {A} (f : S → A) : M S A := λ s, Done (f s) s.
Definition modify (f : S → S) : M S unit := λ s, Done tt (f s).
Definition panic {A} (msg : string) : M S A := λ s, Panic msg s.
Definition fault {A} (why : string) : M S A := λ _, Fault why.
(** A C pointer or index that must denote something: [None] is undefined. *)
Definition deref {A} (why : string) (o : option A) : M S A :=
  match o with Some a => mret a | None => fault why end.
(** The context switch itself: away, and back when the scheduler decides. *)
Definition swtch : M S unit := λ s, Switch s (λ s', Done tt s').
Definition mwhen (b : bool) (m : M S unit) : M S unit :=
  if b then m else mret tt.

Lemma bind_done {A B} (m : M S A) (f : A → M S B) s a s' :
  m s = Done a s' → (m ≫= f) s = f a s'.
Proof. intros H. unfold mbind, M_bind. by rewrite H. Qed.
Lemma bind_panic {A B} (m : M S A) (f : A → M S B) s msg s' :
  m s = Panic msg s' → (m ≫= f) s = Panic msg s'.
Proof. intros H. unfold mbind, M_bind. by rewrite H. Qed.
Lemma bind_switch {A B} (m : M S A) (f : A → M S B) s s' k :
  m s = Switch s' k → (m ≫= f) s = Switch s' (λ s'', obind f (k s'')).
Proof. intros H. unfold mbind, M_bind. by rewrite H. Qed.
Lemma bind_fault {A B} (m : M S A) (f : A → M S B) s w :
  m s = Fault w → (m ≫= f) s = Fault w.
Proof. intros H. unfold mbind, M_bind. by rewrite H. Qed.
Lemma bind_inv_done {A B} (m : M S A) (f : A → M S B) s b s' :
  (m ≫= f) s = Done b s' → ∃ a s1, m s = Done a s1 ∧ f a s1 = Done b s'.
Proof. unfold mbind, M_bind. destruct (m s); intros; simplify_eq; eauto. Qed.
Lemma bind_assoc {A B C} (m : M S A) (f : A → M S B) (g : B → M S C) s :
  ((m ≫= f) ≫= g) s = (m ≫= (λ a, f a ≫= g)) s.
Proof.
  unfold mbind, M_bind. induction (m s) as [| | s' k IH |]; cbn; try done.
  f_equal. apply functional_extensionality. intros s''. apply IH.
Qed.
Lemma bind_gets {A B} (g : S → A) (f : A → M S B) s :
  (gets g ≫= f) s = f (g s) s.
Proof. done. Qed.
Lemma bind_modify {B} (g : S → S) (f : unit → M S B) s :
  (modify g ≫= f) s = f tt (g s).
Proof. done. Qed.
Lemma bind_ret {A B} (a : A) (f : A → M S B) s : (mret a ≫= f) s = f a s.
Proof. done. Qed.
End ops.

(** ** Record fields that can be updated: [r <| field := v |>] *)
Class Setter {R T} (proj : R → T) := set : (T → T) → R → R.
Arguments set {R T} proj {_} _ _.
Notation "r <| proj := v |>" := (set proj (λ _, v) r)
  (at level 1, left associativity, format "r  <| proj  :=  v |>").
Notation "r <| proj ::= f |>" := (set proj f r)
  (at level 1, left associativity, format "r  <| proj  ::=  f |>").

(** ** Machine integers

    The kernel runs on a 32-bit x86: [int] and [uint] are 32 bits wide, [char]
    is signed.  Values are mathematical integers; [uW]/[iW] are the
    conversions to the unsigned/signed type of width W. *)
Definition u8 (z : Z) : Z := z mod 256.
Definition u16 (z : Z) : Z := z mod 65536.
Definition u32 (z : Z) : Z := z mod 4294967296.
Definition i8 (z : Z) : Z := (z + 128) mod 256 - 128.
Definition i16 (z : Z) : Z := (z + 32768) mod 65536 - 32768.
Definition i32 (z : Z) : Z := (z + 2147483648) mod 4294967296 - 2147483648.

Definition is_u32 (z : Z) : Prop := 0 ≤ z < 4294967296.
Definition is_i32 (z : Z) : Prop := -2147483648 ≤ z < 2147483648.

(** [lia] with division and modulo by constants turned into equations. *)
Ltac zlia := unfold is_u32, is_i32 in *; Z.to_euclidean_division_equations; lia.

Lemma u32_id z : is_u32 z → u32 z = z.
Proof. unfold is_u32, u32. intros. by rewrite Z.mod_small. Qed.
Lemma u32_range z : is_u32 (u32 z).
Proof. unfold is_u32, u32. apply Z.mod_pos_bound. lia. Qed.
Lemma u32_idem z : u32 (u32 z) = u32 z.
Proof. apply u32_id, u32_range. Qed.
Lemma u32_add_l a b : u32 (u32 a + b) = u32 (a + b).
Proof. unfold u32. by rewrite Zplus_mod_idemp_l. Qed.
Lemma u32_add_r a b : u32 (a + u32 b) = u32 (a + b).
Proof. unfold u32. by rewrite Zplus_mod_idemp_r. Qed.
Lemma u32_sub_l a b : u32 (u32 a - b) = u32 (a - b).
Proof. unfold u32. by rewrite Zminus_mod_idemp_l. Qed.
Lemma u32_sub_r a b : u32 (a - u32 b) = u32 (a - b).
Proof. unfold u32. by rewrite Zminus_mod_idemp_r. Qed.
Lemma u32_period z k : u32 (z + 4294967296 * k) = u32 z.
Proof. unfold u32. rewrite Z.mul_comm. apply Z_mod_plus_full. Qed.
Lemma u32_eq_sub a b : is_u32 a → is_u32 b → u32 (a - b) = 0 → a = b.
Proof. unfold is_u32, u32. intros. zlia. Qed.
Lemma i32_id z : is_i32 z → i32 z = z.
Proof. unfold is_i32, i32. intros. rewrite Z.mod_small; lia. Qed.
Lemma i32_range z : is_i32 (i32 z).
Proof.
  unfold is_i32, i32.
  pose proof (Z.mod_pos_bound (z + 2147483648) 4294967296). lia.
Qed.
Lemma u8_range z : 0 ≤ u8 z < 256.
Proof. unfold u8. apply Z.mod_pos_bound. lia. Qed.
Lemma u8_id z : 0 ≤ z < 256 → u8 z = z.
Proof. unfold u8. intros. by rewrite Z.mod_small. Qed.

Create HintDb ints.
Create Rewrite HintDb ints.
#[export] Hint Resolve u32_range i32_range u8_range : ints.
#[export] Hint Rewrite u32_idem u32_add_l u32_add_r u32_sub_l u32_sub_r : ints.

(** Masks made of low-order ones, and their complements. *)
Lemma land_low_mask z n : 0 ≤ n → Z.land z (2 ^ n - 1) = z mod 2 ^ n.
Proof. intros. by rewrite <- Z.land_ones, Z.ones_equiv, Z.sub_1_r by lia. Qed.

Lemma u32_testbit z i : Z.testbit (u32 z) i = (Z.testbit z i && (i <? 32)%Z)%bool.
Proof.
  unfold u32. change 4294967296 with (2 ^ 32).
  destruct (Z.ltb_spec i 32).
  - destruct (decide (0 ≤ i)) as [Hi | Hi].
    + by rewrite Z.mod_pow2_bits_low, andb_true_r by lia.
    + by rewrite !Z.testbit_neg_r by lia.
  - rewrite Z.mod_pow2_bits_high by lia. by rewrite andb_false_r.
Qed.

(** [x & ~(2^n - 1)] rounds the 32-bit [x] down to a multiple of [2^n]. *)
Lemma land_high_mask z n :
  0 ≤ n ≤ 32 → is_u32 z → Z.land z (u32 (Z.lnot (2 ^ n - 1))) = z - z mod 2 ^ n.
Proof.
  intros Hn Hz.
  assert (z - z mod 2 ^ n = Z.shiftl (Z.shiftr z n) n) as ->.
  { rewrite Z.shiftl_mul_pow2, Z.shiftr_div_pow2 by lia.
    pose proof (Z.div_mod z (2 ^ n)) as H.
    assert (2 ^ n ≠ 0) by (apply Z.pow_nonzero; lia). specialize (H H0). lia. }
  rewrite <- Z.ldiff_ones_r by lia. apply Z.bits_inj'. intros i Hi.
  rewrite Z.land_spec, u32_testbit, Z.lnot_spec, Z.ldiff_spec by lia.
  replace (2 ^ n - 1) with (Z.ones n) by (rewrite Z.ones_equiv; lia).
  destruct (Z.ltb_spec i 32); [by rewrite andb_true_r |].
  replace (Z.testbit z i) with false; [done |].
  rewrite <- (u32_id z) by done. rewrite u32_testbit.
  destruct (Z.ltb_spec i 32); [lia |]. by rewrite andb_false_r.
Qed.

(** A multiple of [2^n] and a number below [2^n] have no bit in common: or-ing
    them is adding them. *)
Lemma land_disjoint a b n :
  0 ≤ n → a mod 2 ^ n = 0 → 0 ≤ b < 2 ^ n → Z.land a b = 0.
Proof.
  intros Hn Ha Hb. apply Z.bits_inj'. intros i Hi. rewrite Z.land_spec, Z.bits_0.
  destruct (Z.ltb_spec i n).
  - rewrite <- (Z.mod_pow2_bits_low a n i), Ha, Z.bits_0 by lia. done.
  - rewrite <- (Z.mod_small b (2 ^ n)) by done.
    rewrite Z.mod_pow2_bits_high by lia. apply andb_false_r.
Qed.
Lemma lor_disjoint_add a b n :
  0 ≤ n → a mod 2 ^ n = 0 → 0 ≤ b < 2 ^ n → Z.lor a b = a + b.
Proof.
  intros Hn Ha Hb. rewrite <- Z.add_lor_land, (land_disjoint a b n) by done. lia.
Qed.

(** Little-endian words as lists of bytes. *)
Definition word_of (l : list Z) : Z := foldr (λ b acc, b + 256 * acc) 0 l.
Definition word_bytes (v : Z) : list Z :=
  [u8 v; u8 (Z.shiftr v 8); u8 (Z.shiftr v 16); u8 (Z.shiftr v 24)].
Definition half_bytes (v : Z) : list Z := [u8 v; u8 (Z.shiftr v 8)].

(** What four (two) bytes give back. *)
Lemma word_of_bytes v : is_u32 v → word_of (word_bytes v) = v.
Proof.
  intros Hv. unfold word_of, word_bytes, is_u32, u8 in *. cbn [foldr].
  rewrite !Z.shiftr_div_pow2 by lia.
  change (2 ^ 8) with 256. change (2 ^ 16) with 65536. change (2 ^ 24) with 16777216. zlia.
Qed.
Lemma word_of_half v : i16 (word_of (half_bytes v)) = i16 v.
Proof.
  unfold word_of, half_bytes, i16, u8. cbn [foldr].
  rewrite Z.shiftr_div_pow2 by lia. change (2 ^ 8) with 256. zlia.
Qed.
Lemma i16_id v : -32768 ≤ v < 32768 → i16 v = v.
Proof. unfold i16. intros. rewrite Z.mod_small; lia. Qed.

(** ** The first entry of a table that satisfies a test *)
Fixpoint find_idx {A} (P : A → bool) (l : list A) : option nat :=
  match l with
  | [] => None
  | x :: l => if P x then Some O else S <$> find_idx P l
  end.

Section find_idx.
Context {A : Type}.
Implicit Types (P : A → bool) (l : list A).

Lemma find_idx_Some P l i :
  find_idx P l = Some i →
  (∃ x, l !! i = Some x ∧ P x = true) ∧
  (∀ j y, (j < i)%nat → l !! j = Some y → P y = false).
Proof.
  revert i. induction l as [| x l IH]; intros i; cbn; [done |].
  destruct (P x) eqn:Hx; [intros [= <-] |].
  - split; [by exists x |]. intros; lia.
  - destruct (find_idx P l) as [k |] eqn:Hk; [| done]. intros [= <-].
    destruct (IH k eq_refl) as [Hs Hb]. split; [done |].
    intros [| j] y Hj Hy; [cbn in Hy; by simplify_eq | apply (Hb j); [lia | done]].
Qed.

Lemma find_idx_None P l :
  find_idx P l = None ↔ (∀ j y, l !! j = Some y → P y = false).
Proof.
  induction l as [| x l IH]; cbn; [done |]. destruct (P x) eqn:Hx.
  - split; [done |]. intros H. specialize (H O x eq_refl). congruence.
  - destruct (find_idx P l) as [k |].
    + split; [done |]. intros H. enough (Some k = None) by done.
      apply IH. intros j y. apply (H (S j)).
    + split; [| done]. intros _ [| j] y Hy; [cbn in Hy; by simplify_eq |].
      by apply (proj1 IH eq_refl j).
Qed.

Lemma find_idx_is_Some P l i x :
  l !! i = Some x → P x = true → ∃ j, find_idx P l = Some j ∧ (j ≤ i)%nat.
Proof.
  intros Hi Hx. destruct (find_idx P l) as [j |] eqn:Hj.
  - exists j. split; [done |]. destruct (decide (j ≤ i)%nat); [done |].
    apply find_idx_Some in Hj as [_ Hb]. specialize (Hb i x ltac:(lia) Hi). congruence.
  - rewrite find_idx_None in Hj. specialize (Hj i x Hi). congruence.
Qed.
(** Changing an entry without changing the outcome of the test. *)
Lemma find_idx_alter P (f : A → A) l i :
  (∀ x, l !! i = Some x → P (f x) = P x) → find_idx P (alter f i l) = find_idx P l.
Proof.
  revert i. induction l as [| x l IH]; intros [| i] Hf; try done; cbn.
  - by rewrite (Hf x eq_refl).
  - rewrite (IH i); [done |]. exact Hf.
Qed.
End find_idx.

Lemma forallb_false_ex {A} (f : A → bool) l :
  forallb f l = false → ∃ x, x ∈ l ∧ f x = false.
Proof.
  induction l as [| x l IH]; cbn; [done |]. destruct (f x) eqn:Hx; cbn.
  - intros (y & Hy & ?)%IH. exists y. split; [by right | done].
  - intros _. exists x. split; [left | done].
Qed.
Lemma forallb_true_all {A} (f : A → bool) l x :
  forallb f l = true → x ∈ l → f x = true.
Proof. rewrite forallb_forall. intros H Hx. by apply H, list_elem_of_In. Qed.

(** ** Counting: no more than [n] numbers satisfy [P] *)
Definition at_most (n : Z) (P : Z → Prop) : Prop :=
  ∃ ps : list Z, Z.of_nat (length ps) ≤ n ∧ ∀ p, P p → p ∈ ps.
Lemma at_most_mono n m (P Q : Z → Prop) :
  n ≤ m → (∀ p, Q p → P p) → at_most n P → at_most m Q.
Proof. intros Hn HQ (ps & Hl & HP). exists ps. split; [lia | auto]. Qed.
Lemma at_most_or n m (P Q : Z → Prop) :
  at_most n P → at_most m Q → at_most (n + m) (λ p, P p ∨ Q p).
Proof.
  intros (ps & Hp & HP) (qs & Hq & HQ). exists (ps ++ qs). rewrite length_app. split; [lia |].
  intros p [H | H]; apply elem_of_app; auto.
Qed.
Lemma at_most_image n (f : Z → Z) : 0 ≤ n → at_most n (λ p, ∃ k, 0 ≤ k < n ∧ p = f k).
Proof.
  intros Hn. exists (f <$> seqZ 0 n). rewrite length_fmap, length_seqZ. split; [lia |].
  intros p (k & Hk & ->). apply list_elem_of_fmap. exists k. split; [done |]. apply elem_of_seqZ. lia.
Qed.
Lemma at_most_one x : at_most 1 (λ p, p = x).
Proof. exists [x]. split; [done |]. intros p ->. by left. Qed.
(** A list without repetition is no longer than that. *)
Lemma at_most_length n l : NoDup l → at_most n (λ p, p ∈ l) → Z.of_nat (length l) ≤ n.
Proof.
  intros Hl (ps & Hps & Hin). pose proof (submseteq_length _ _ (NoDup_submseteq _ _ Hl Hin)). lia.
Qed.
