(* ===== verification/Mmu.v ===== *)
(** * Params, memory layout and page arithmetic

    [param.h], [memlayout.h] and [mmu.h]: the kernel's constants, the address
    macros and the descriptor formats.  Addresses are 32-bit values, so every
    macro is written with its wrap-around. *)
From S2P Require Import Prelude.

(** ** param.h *)
Definition NPROC : nat := 64.
Definition KSTACKSIZE : Z := 4096.
Definition NOFILE : nat := 16.
Definition NFILE : nat := 100.
Definition NINODE : nat := 50.
Definition NDEV : Z := 10.
Definition ROOTDEV : Z := 1.
Definition MAXARG : nat := 32.
Definition MAXOPBLOCKS : Z := 10.
Definition LOGSIZE : Z := MAXOPBLOCKS * 3.
Definition NBUF : nat := 30.
Definition FSSIZE : Z := 1000.

(** ** memlayout.h *)
Definition EXTMEM : Z := 0x100000.
Definition PHYSTOP : Z := 0xE000000.
Definition DEVSPACE : Z := 0xFE000000.
Definition KERNBASE : Z := 0x80000000.
Definition KERNLINK : Z := KERNBASE + EXTMEM.
Definition V2P (a : Z) : Z := u32 (a - KERNBASE).
Definition P2V (a : Z) : Z := u32 (a + KERNBASE).

(** ** mmu.h: paging *)
Definition PGSIZE : Z := 4096.
Definition NPDENTRIES : Z := 1024.
Definition NPTENTRIES : Z := 1024.
Definition PTXSHIFT : Z := 12.
Definition PDXSHIFT : Z := 22.

Definition PTE_P : Z := 1.
Definition PTE_W : Z := 2.
Definition PTE_U : Z := 4.
Definition PTE_PS : Z := 0x80.
Definition FL_IF : Z := 0x200.
Definition SEG_KCODE : Z := 1.
Definition SEG_KDATA : Z := 2.
Definition SEG_UCODE : Z := 3.
Definition SEG_UDATA : Z := 4.
Definition SEG_TSS : Z := 5.
Definition DPL_USER : Z := 3.

Definition PDX (va : Z) : Z := Z.land (Z.shiftr (u32 va) PDXSHIFT) 0x3FF.
Definition PTX (va : Z) : Z := Z.land (Z.shiftr (u32 va) PTXSHIFT) 0x3FF.
Definition PGADDR (d t o : Z) : Z :=
  u32 (Z.lor (Z.lor (Z.shiftl d PDXSHIFT) (Z.shiftl t PTXSHIFT)) o).
Definition PGROUNDUP (sz : Z) : Z :=
  Z.land (u32 (sz + PGSIZE - 1)) (u32 (Z.lnot (PGSIZE - 1))).
Definition PGROUNDDOWN (a : Z) : Z :=
  Z.land (u32 a) (u32 (Z.lnot (PGSIZE - 1))).
Definition PTE_ADDR (pte : Z) : Z := Z.land (u32 pte) (u32 (Z.lnot 0xFFF)).
Definition PTE_FLAGS (pte : Z) : Z := Z.land (u32 pte) 0xFFF.

(** ** mmu.h: segment and gate descriptors *)
Record segdesc := mkSegdesc {
  lim_15_0 : Z; base_15_0 : Z; base_23_16 : Z; seg_type : Z; seg_s : Z;
  seg_dpl : Z; seg_p : Z; lim_19_16 : Z; seg_avl : Z; seg_rsv1 : Z;
  seg_db : Z; seg_g : Z; base_31_24 : Z }.

(** Bit-fields keep the low-order bits of what is stored in them. *)
Definition bits (w z : Z) : Z := z mod 2 ^ w.

(** A descriptor of static storage: all zero. *)
Definition seg_null : segdesc := mkSegdesc 0 0 0 0 0 0 0 0 0 0 0 0 0.

Definition SEG (type base lim dpl : Z) : segdesc :=
  mkSegdesc (bits 16 (Z.land (Z.shiftr lim 12) 0xffff))
    (bits 16 (Z.land (u32 base) 0xffff))
    (bits 8 (Z.land (Z.shiftr (u32 base) 16) 0xff))
    (bits 4 type) 1 (bits 2 dpl) 1 (bits 4 (Z.shiftr (u32 lim) 28)) 0 0 1 1
    (bits 8 (Z.shiftr (u32 base) 24)).
Definition SEG16 (type base lim dpl : Z) : segdesc :=
  mkSegdesc (bits 16 (Z.land lim 0xffff))
    (bits 16 (Z.land (u32 base) 0xffff))
    (bits 8 (Z.land (Z.shiftr (u32 base) 16) 0xff))
    (bits 4 type) 1 (bits 2 dpl) 1 (bits 4 (Z.shiftr (u32 lim) 16)) 0 0 1 0
    (bits 8 (Z.shiftr (u32 base) 24)).

Record gatedesc := mkGate {
  off_15_0 : Z; gate_cs : Z; gate_args : Z; gate_rsv1 : Z; gate_type : Z;
  gate_s : Z; gate_dpl : Z; gate_p : Z; off_31_16 : Z }.
Definition STA_X : Z := 0x8.
Definition STA_W : Z := 0x2.
Definition STA_R : Z := 0x2.
Definition STS_T32A : Z := 0x9.
Definition STS_IG32 : Z := 0xE.
Definition STS_TG32 : Z := 0xF.
Definition SETGATE (istrap : bool) (sel off d : Z) : gatedesc :=
  mkGate (bits 16 (Z.land (u32 off) 0xffff)) (bits 16 sel) 0 0
    (if istrap then STS_TG32 else STS_IG32) 0 (bits 2 d) 1
    (bits 16 (Z.shiftr (u32 off) 16)).

(** The linear address the processor reads out of a gate. *)
Definition gate_offset (g : gatedesc) : Z :=
  Z.lor (off_15_0 g) (Z.shiftl (off_31_16 g) 16).
(** The base address the processor reads out of a segment descriptor. *)
Definition seg_base (d : segdesc) : Z :=
  Z.lor (Z.lor (base_15_0 d) (Z.shiftl (base_23_16 d) 16))
    (Z.shiftl (base_31_24 d) 24).

(** ** Lemmas *)

Definition page_aligned (a : Z) : Prop := a mod PGSIZE = 0.

Lemma PGROUNDDOWN_spec a : PGROUNDDOWN a = u32 a - u32 a mod PGSIZE.
Proof.
  unfold PGROUNDDOWN, PGSIZE. change 4096 with (2 ^ 12).
  apply land_high_mask; [lia | apply u32_range].
Qed.

Lemma PGROUNDUP_spec sz :
  PGROUNDUP sz = u32 (sz + PGSIZE - 1) - u32 (sz + PGSIZE - 1) mod PGSIZE.
Proof.
  unfold PGROUNDUP, PGSIZE. change 4096 with (2 ^ 12).
  apply land_high_mask; [lia | apply u32_range].
Qed.

Lemma PTE_ADDR_spec pte : PTE_ADDR pte = u32 pte - u32 pte mod PGSIZE.
Proof. exact (PGROUNDDOWN_spec pte). Qed.

Lemma PTE_FLAGS_spec pte : PTE_FLAGS pte = u32 pte mod PGSIZE.
Proof.
  unfold PTE_FLAGS. change 0xFFF with (2 ^ 12 - 1).
  by rewrite land_low_mask by lia.
Qed.

Lemma PDX_spec va : PDX va = u32 va / 4194304.
Proof.
  unfold PDX, PDXSHIFT. change 0x3FF with (2 ^ 10 - 1).
  rewrite land_low_mask, Z.shiftr_div_pow2 by lia.
  change (2 ^ 22) with 4194304. change (2 ^ 10) with 1024.
  pose proof (u32_range va). apply Z.mod_small. zlia.
Qed.

Lemma PTX_spec va : PTX va = (u32 va / PGSIZE) mod 1024.
Proof.
  unfold PTX, PTXSHIFT. change 0x3FF with (2 ^ 10 - 1).
  by rewrite land_low_mask, Z.shiftr_div_pow2 by lia.
Qed.

Lemma PGADDR_spec d t o :
  0 ≤ d < 1024 → 0 ≤ t < 1024 → 0 ≤ o < PGSIZE →
  PGADDR d t o = d * 4194304 + t * PGSIZE + o.
Proof.
  unfold PGADDR, PGSIZE, PDXSHIFT, PTXSHIFT. intros Hd Ht Ho.
  rewrite !Z.shiftl_mul_pow2 by lia.
  change (2 ^ 22) with 4194304. change (2 ^ 12) with 4096.
  rewrite (lor_disjoint_add (d * 4194304) _ 22); [| lia | | lia];
    [| change (2 ^ 22) with 4194304; zlia].
  rewrite (lor_disjoint_add _ o 12); [| lia | | lia];
    [| change (2 ^ 12) with 4096; zlia].
  apply u32_id. zlia.
Qed.

Lemma P2V_V2P a : is_u32 a → P2V (V2P a) = a.
Proof.
  intros. unfold P2V, V2P. rewrite u32_add_l.
  replace (a - KERNBASE + KERNBASE) with a by lia. by apply u32_id.
Qed.
Lemma V2P_P2V a : is_u32 a → V2P (P2V a) = a.
Proof.
  intros. unfold P2V, V2P. rewrite u32_sub_l.
  replace (a + KERNBASE - KERNBASE) with a by lia. by apply u32_id.
Qed.

(** ** Properties *)

(** page rounding.  For every size that leaves room for the rounding in
    32 bits, [PGROUNDUP] is the least multiple of [PGSIZE] that is not below
    it; at the top of the address space it wraps to 0. *)
Theorem PGROUNDUP_least sz :
  0 ≤ sz < 4294967296 →
  (sz ≤ 4294967296 - PGSIZE →
     page_aligned (PGROUNDUP sz) ∧ sz ≤ PGROUNDUP sz < sz + PGSIZE ∧
     (∀ a, page_aligned a → sz ≤ a → PGROUNDUP sz ≤ a)) ∧
  (4294967296 - PGSIZE < sz → PGROUNDUP sz = 0).
Proof.
  unfold page_aligned, PGSIZE. intros Hsz. rewrite PGROUNDUP_spec. unfold PGSIZE, u32.
  split; [intros Hle; split_and! | intros Hgt]; intros; zlia.
Qed.

(** splitting a virtual address into directory index, table index and
    offset loses nothing, and the three parts of an address built by [PGADDR]
    are the ones it was built from. *)
Theorem PGADDR_roundtrip :
  (∀ va, is_u32 va → PGADDR (PDX va) (PTX va) (PTE_FLAGS va) = va) ∧
  (∀ d t o, 0 ≤ d < 1024 → 0 ≤ t < 1024 → 0 ≤ o < PGSIZE →
     PDX (PGADDR d t o) = d ∧ PTX (PGADDR d t o) = t ∧ PTE_FLAGS (PGADDR d t o) = o).
Proof.
  split.
  - intros va Hva.
    rewrite PDX_spec, PTX_spec, PTE_FLAGS_spec, u32_id by done.
    unfold is_u32, PGSIZE in *. rewrite PGADDR_spec; unfold PGSIZE; zlia.
  - intros d t o Hd Ht Ho. rewrite PGADDR_spec by done.
    rewrite PDX_spec, PTX_spec, PTE_FLAGS_spec. unfold PGSIZE in *.
    rewrite !u32_id by zlia. split_and!; zlia.
Qed.

Lemma field16 z : bits 16 (Z.land (u32 z) 0xffff) = u32 z mod 65536.
Proof.
  unfold bits. change 0xffff with (2 ^ 16 - 1). rewrite land_low_mask by lia.
  change (2 ^ 16) with 65536. by rewrite Z.mod_mod.
Qed.

(** A gate descriptor built by [SETGATE] sends the processor to the handler it
    was given, with the privilege level and gate type asked for; the interrupt
    gates (and only they) are of the type that clears [FL_IF]. *)
Lemma SETGATE_handler istrap sel off d :
  is_u32 off → 0 ≤ d < 4 →
  gate_offset (SETGATE istrap sel off d) = off ∧
  gate_dpl (SETGATE istrap sel off d) = d ∧
  (gate_type (SETGATE istrap sel off d) = STS_IG32 ↔ istrap = false).
Proof.
  intros Hoff Hd. unfold gate_offset, SETGATE; cbn [off_15_0 off_31_16 gate_dpl gate_type].
  rewrite field16. unfold bits. rewrite Z.shiftr_div_pow2, Z.shiftl_mul_pow2 by lia.
  rewrite u32_id by done. change (2 ^ 16) with 65536. change (2 ^ 2) with 4.
  split_and!; [| zlia | destruct istrap; done].
  rewrite Z.lor_comm, (lor_disjoint_add _ _ 16); [zlia | lia | zlia |].
  change (2 ^ 16) with 65536. zlia.
Qed.

Lemma PGROUNDUP_least_witness :
  page_aligned (PGROUNDUP 4097) ∧ PGROUNDUP 4294967295 = 0.
Proof.
  split; [| apply (PGROUNDUP_least 4294967295); unfold PGSIZE; lia].
  apply (PGROUNDUP_least 4097); unfold PGSIZE; lia.
Defined.
