(* ===== verification/Cstring.v ===== *)
(** * Memory and string.c

    Physical memory is a finite map from byte addresses (kernel virtual
    addresses) to bytes; a byte never written reads as 0.  Words are stored
    little-endian.  [string.c] is translated loop by loop on this memory. *)
From S2P Require Import Prelude Mmu.

Abbreviation mem := (gmap Z Z).

Definition load8 (m : mem) (a : Z) : Z := u8 (default 0 (m !! a)).
Definition store8 (m : mem) (a v : Z) : mem := <[a := u8 v]> m.
Definition load32 (m : mem) (a : Z) : Z :=
  load8 m a + 256 * load8 m (a + 1) + 65536 * load8 m (a + 2)
  + 16777216 * load8 m (a + 3).
Definition store32 (m : mem) (a v : Z) : mem :=
  store8 (store8 (store8 (store8 m a v) (a + 1) (Z.shiftr v 8))
            (a + 2) (Z.shiftr v 16)) (a + 3) (Z.shiftr v 24).

(** ** x86.h: rep stosb, rep stosl *)
Fixpoint stosb (m : mem) (dst c : Z) (cnt : nat) : mem :=
  match cnt with
  | O => m
  | S cnt => stosb (store8 m dst c) (dst + 1) c cnt
  end.
Fixpoint stosl (m : mem) (dst w : Z) (cnt : nat) : mem :=
  match cnt with
  | O => m
  | S cnt => stosl (store32 m dst w) (dst + 4) w cnt
  end.

(** ** string.c *)
Definition memset (m : mem) (dst c n : Z) : mem :=
  if ((dst mod 4 =? 0) && (n mod 4 =? 0))%Z%bool then
    let c := Z.land c 0xFF in
    stosl m dst (Z.lor (Z.lor (Z.lor (Z.shiftl c 24) (Z.shiftl c 16))
                          (Z.shiftl c 8)) c) (Z.to_nat (n / 4))
  else stosb m dst c (Z.to_nat n).

Fixpoint memcmp_loop (m : mem) (s1 s2 : Z) (n : nat) : Z :=
  match n with
  | O => 0
  | S n =>
      if load8 m s1 =? load8 m s2 then memcmp_loop m (s1 + 1) (s2 + 1) n
      else load8 m s1 - load8 m s2
  end.
Definition memcmp (m : mem) (v1 v2 n : Z) : Z := memcmp_loop m v1 v2 (Z.to_nat n).

(** [while(n-- > 0) *--d = *--s;] *)
Fixpoint copy_down (m : mem) (d s : Z) (n : nat) : mem :=
  match n with
  | O => m
  | S n => copy_down (store8 m (d - 1) (load8 m (s - 1))) (d - 1) (s - 1) n
  end.
(** [while(n-- > 0) *d++ = *s++;] *)
Fixpoint copy_up (m : mem) (d s : Z) (n : nat) : mem :=
  match n with
  | O => m
  | S n => copy_up (store8 m d (load8 m s)) (d + 1) (s + 1) n
  end.
Definition memmove (m : mem) (dst src n : Z) : mem :=
  if ((src <? dst) && (src + n >? dst))%Z%bool then
    copy_down m (dst + n) (src + n) (Z.to_nat n)
  else copy_up m dst src (Z.to_nat n).
Definition memcpy (m : mem) (dst src n : Z) : mem := memmove m dst src n.

Fixpoint strncmp_loop (m : mem) (p q : Z) (n : nat) : Z :=
  match n with
  | O => 0
  | S n' =>
      if (negb (load8 m p =? 0) && (load8 m p =? load8 m q))%Z%bool
      then strncmp_loop m (p + 1) (q + 1) n'
      else load8 m p - load8 m q
  end.
Definition strncmp (m : mem) (p q n : Z) : Z := strncmp_loop m p q (Z.to_nat n).

(** The first loop of [strncpy]: copy until [n] runs out or a NUL has been
    copied; returns the memory, [s] and what is left of [n]. *)
Fixpoint strncpy_copy (m : mem) (s t : Z) (n : nat) : mem * Z * nat :=
  match n with
  | O => (m, s, O)
  | S n =>
      let c := load8 m t in
      let m := store8 m s c in
      if c =? 0 then (m, s + 1, n) else strncpy_copy m (s + 1) (t + 1) n
  end.
Definition strncpy (m : mem) (s t n : Z) : mem :=
  let '(m, s, rest) := strncpy_copy m s t (Z.to_nat n) in stosb m s 0 rest.

(** [while(--n > 0 && ( *s++ = *t++ ) != 0);] with [n] the value after the
    decrement. *)
Fixpoint safestrcpy_copy (m : mem) (s t : Z) (n : nat) : mem * Z :=
  match n with
  | O => (m, s)
  | S n =>
      let c := load8 m t in
      let m := store8 m s c in
      if c =? 0 then (m, s + 1) else safestrcpy_copy m (s + 1) (t + 1) n
  end.
Definition safestrcpy (m : mem) (s t n : Z) : mem :=
  if n <=? 0 then m
  else let '(m, s) := safestrcpy_copy m s t (Z.to_nat (n - 1)) in store8 m s 0.

(** [safestrcpy] into the character array [dst] of a structure, from the
    NUL-terminated characters [src]; [n] is the size of the array. *)
Fixpoint cstr (n : nat) (src : list Z) : list Z :=
  match n, src with
  | S n, c :: src => if c =? 0 then [] else c :: cstr n src
  | _, _ => []
  end.
Definition safestrcpy_into (dst src : list Z) (n : nat) : list Z :=
  let c := cstr (n - 1) src ++ [0] in c ++ drop (length c) dst.

(** [strlen] walks to the first NUL; [fuel] bounds the walk. *)
Fixpoint strlen (fuel : nat) (m : mem) (s : Z) : option Z :=
  match fuel with
  | O => None
  | S fuel =>
      if load8 m s =? 0 then Some 0
      else match strlen fuel m (s + 1) with
           | Some n => Some (n + 1)
           | None => None
           end
  end.

(** ** Lemmas: bytes and words *)

Lemma load8_range m a : 0 ≤ load8 m a < 256.
Proof. apply u8_range. Qed.
Lemma load8_store8 m a b v :
  load8 (store8 m a v) b = if decide (a = b) then u8 v else load8 m b.
Proof.
  unfold load8, store8. case_decide as Hd; subst.
  - rewrite lookup_insert_eq. apply u8_id, u8_range.
  - by rewrite lookup_insert_ne.
Qed.
Lemma load8_store8_eq m a v : load8 (store8 m a v) a = u8 v.
Proof. rewrite load8_store8. by case_decide. Qed.
Lemma load8_store8_ne m a b v : a ≠ b → load8 (store8 m a v) b = load8 m b.
Proof. rewrite load8_store8. by case_decide. Qed.
Lemma load32_range m a : is_u32 (load32 m a).
Proof.
  unfold is_u32, load32.
  pose proof (load8_range m a). pose proof (load8_range m (a + 1)).
  pose proof (load8_range m (a + 2)). pose proof (load8_range m (a + 3)). lia.
Qed.
Lemma load8_store32_ne m a b v :
  b < a ∨ a + 4 ≤ b → load8 (store32 m a v) b = load8 m b.
Proof. intros. unfold store32. by rewrite !load8_store8_ne by lia. Qed.
Lemma load32_store32_ne m a b v :
  b + 4 ≤ a ∨ a + 4 ≤ b → load32 (store32 m a v) b = load32 m b.
Proof. intros. unfold load32. by rewrite !load8_store32_ne by lia. Qed.
Lemma load8_store32 m a v i :
  0 ≤ i < 4 → load8 (store32 m a v) (a + i) = u8 (Z.shiftr v (8 * i)).
Proof.
  intros Hi. assert (i = 0 ∨ i = 1 ∨ i = 2 ∨ i = 3) as [-> | [-> | [-> | ->]]] by lia;
    unfold store32; rewrite !load8_store8; repeat case_decide; try lia; try done.
Qed.
Lemma load32_store32_eq m a v : load32 (store32 m a v) a = u32 v.
Proof.
  unfold load32.
  replace (load8 (store32 m a v) a) with (load8 (store32 m a v) (a + 0))
    by (f_equal; lia).
  rewrite !load8_store32 by lia.
  unfold u8, u32. rewrite !Z.shiftr_div_pow2 by lia.
  change (2 ^ (8 * 0)) with 1. change (2 ^ (8 * 1)) with 256.
  change (2 ^ (8 * 2)) with 65536. change (2 ^ (8 * 3)) with 16777216. zlia.
Qed.
Lemma load32_ext m m' a :
  (∀ i, 0 ≤ i < 4 → load8 m (a + i) = load8 m' (a + i)) → load32 m a = load32 m' a.
Proof.
  intros H. unfold load32. pose proof (H 0 ltac:(lia)) as H0.
  rewrite Z.add_0_r in H0. by rewrite H0, !H by lia.
Qed.

Lemma load8_stosb cnt m d c a :
  load8 (stosb m d c cnt) a =
    if decide (d ≤ a < d + Z.of_nat cnt) then u8 c else load8 m a.
Proof.
  revert m d. induction cnt as [| cnt IH]; intros m d; cbn [stosb].
  - case_decide; [lia | done].
  - rewrite IH, load8_store8. repeat case_decide; try done; lia.
Qed.
Lemma load8_stosl cnt m d c a :
  0 ≤ c < 256 →
  load8 (stosl m d (Z.lor (Z.lor (Z.lor (Z.shiftl c 24) (Z.shiftl c 16))
                            (Z.shiftl c 8)) c) cnt) a =
    if decide (d ≤ a < d + 4 * Z.of_nat cnt) then c else load8 m a.
Proof.
  intros Hc. assert (Hw : Z.lor (Z.lor (Z.lor (Z.shiftl c 24) (Z.shiftl c 16))
                            (Z.shiftl c 8)) c = 16843009 * c).
  { rewrite !Z.shiftl_mul_pow2 by lia.
    change (2 ^ 24) with 16777216. change (2 ^ 16) with 65536. change (2 ^ 8) with 256.
    rewrite (lor_disjoint_add (c * 16777216) _ 24) by zlia.
    rewrite (lor_disjoint_add (c * 16777216 + _) _ 16) by zlia.
    rewrite (lor_disjoint_add _ c 8) by zlia. lia. }
  rewrite Hw. clear Hw. revert m d. induction cnt as [| cnt IH]; intros m d; cbn [stosl].
  - case_decide; [lia | done].
  - rewrite IH. destruct (decide (d ≤ a < d + 4)) as [Hin | Hout].
    + assert (∃ i, a = d + i ∧ 0 ≤ i < 4) as (i & -> & Hi) by (exists (a - d); lia).
      rewrite load8_store32 by lia.
      assert (u8 (Z.shiftr (16843009 * c) (8 * i)) = c) as ->.
      { unfold u8. rewrite Z.shiftr_div_pow2 by lia.
        assert (i = 0 ∨ i = 1 ∨ i = 2 ∨ i = 3) as [-> | [-> | [-> | ->]]] by lia.
        all: match goal with |- context [2 ^ ?e] =>
               let v := eval cbv in (2 ^ e) in change (2 ^ e) with v end; zlia. }
      repeat case_decide; done || lia.
    + rewrite load8_store32_ne by lia. repeat case_decide; done || lia.
Qed.

Lemma load8_copy_up n m d s a :
  d ≤ s ∨ s + Z.of_nat n ≤ d →
  load8 (copy_up m d s n) a =
    if decide (d ≤ a < d + Z.of_nat n) then load8 m (s + (a - d)) else load8 m a.
Proof.
  revert m d s. induction n as [| n IH]; intros m d s Hd; cbn [copy_up].
  - case_decide; [lia | done].
  - rewrite IH, !load8_store8, (u8_id (load8 m s)) by (lia || apply load8_range).
    repeat case_decide; try lia; try done; try (by f_equal; lia).
    all: subst; (f_equal; lia) || (replace (s + (a - a)) with s by lia; done).
Qed.
Lemma load8_copy_down n m d s a :
  s ≤ d →
  load8 (copy_down m d s n) a =
    if decide (d - Z.of_nat n ≤ a < d) then load8 m (s + (a - d)) else load8 m a.
Proof.
  revert m d s. induction n as [| n IH]; intros m d s Hd; cbn [copy_down].
  - case_decide; [lia | done].
  - rewrite IH, !load8_store8, (u8_id (load8 m (s - 1))) by (lia || apply load8_range).
    repeat case_decide; try lia; try done; try (by f_equal; lia).
Qed.

Lemma memset_load8 m d c n a :
  0 ≤ n → load8 (memset m d c n) a = if decide (d ≤ a < d + n) then u8 c else load8 m a.
Proof.
  intros Hn. unfold memset. destruct (_ && _)%bool eqn:Hal.
  - apply andb_true_iff in Hal as [_ Hn4]. rewrite Z.eqb_eq in Hn4.
    change 0xFF with (2 ^ 8 - 1). rewrite land_low_mask by lia. change (2 ^ 8) with 256.
    rewrite load8_stosl by (apply u8_range).
    replace (4 * Z.of_nat (Z.to_nat (n / 4))) with n by zlia. done.
  - rewrite load8_stosb. by rewrite Z2Nat.id by lia.
Qed.

(** ** Properties *)

(** [memset] fills exactly the [n] bytes from [dst], whichever of its two
    loops (word stores or byte stores) the alignment selects. *)
Theorem memset_fills m d c n a :
  0 ≤ n →
  load8 (memset m d c n) a = if decide (d ≤ a < d + n) then u8 c else load8 m a.
Proof. apply memset_load8. Qed.

Lemma memmove_load8 m d s n a :
  0 ≤ n →
  load8 (memmove m d s n) a =
    if decide (d ≤ a < d + n) then load8 m (s + (a - d)) else load8 m a.
Proof.
  intros Hn. unfold memmove. destruct (_ && _)%bool eqn:Hov.
  - apply andb_true_iff in Hov as [H1 H2]. rewrite Z.ltb_lt in H1.
    rewrite load8_copy_down by lia. rewrite Z2Nat.id by lia.
    replace (d + n - n) with d by lia.
    replace (s + n + (a - (d + n))) with (s + (a - d)) by lia. done.
  - assert (d ≤ s ∨ s + n ≤ d) by (apply andb_false_iff in Hov as [H | H]; lia).
    rewrite load8_copy_up; rewrite Z2Nat.id by lia; done.
Qed.

(** [memmove] delivers the bytes the source range held before the call,
    overlapping ranges included, and touches nothing else. *)
Theorem memmove_snapshot m d s n a :
  0 ≤ n →
  load8 (memmove m d s n) a =
    if decide (d ≤ a < d + n) then load8 m (s + (a - d)) else load8 m a.
Proof. apply memmove_load8. Qed.

(** [len] is the length of the string at [t] as far as [max] bytes show it:
    no NUL before [len], and a NUL at [len] if [len] is below [max]. *)
Definition str_prefix (m : mem) (t len max : Z) : Prop :=
  0 ≤ len ≤ max ∧ (∀ i, 0 ≤ i < len → load8 m (t + i) ≠ 0) ∧
  (len < max → load8 m (t + len) = 0).

Lemma str_prefix_S m t len max :
  str_prefix m t (len + 1) (max + 1) → 0 ≤ len → str_prefix m (t + 1) len max.
Proof.
  intros (Hr & Hnz & Hz) Hlen. split_and!; [lia | lia | |].
  - intros i Hi. replace (t + 1 + i) with (t + (i + 1)) by lia. apply Hnz. lia.
  - intros Hlt. replace (t + 1 + len) with (t + (len + 1)) by lia. apply Hz. lia.
Qed.

Lemma safestrcpy_copy_spec n m s t len m' s' :
  str_prefix m t len (Z.of_nat n) →
  (s + Z.of_nat n < t ∨ t + Z.of_nat n < s) →
  safestrcpy_copy m s t n = (m', s') →
  s + len ≤ s' ≤ s + Z.of_nat n ∧
  (∀ i, 0 ≤ i < len → load8 m' (s + i) = load8 m (t + i)) ∧
  (s + len < s' → load8 m' (s + len) = 0) ∧
  (∀ a, (a < s ∨ s + Z.of_nat n ≤ a) → load8 m' a = load8 m a).
Proof.
  revert m s t len. induction n as [| n IH]; intros m s t len Hp Hd; cbn [safestrcpy_copy].
  { destruct Hp as (Hr & _). intros [= <- <-]. split_and!; intros; lia || done. }
  pose proof Hp as (Hr & Hnz & Hz).
  destruct (Z.eqb_spec (load8 m t) 0) as [H0 | H0].
  - intros [= <- <-].
    assert (len = 0) as ->.
    { destruct (decide (len = 0)); [done |]. exfalso.
      apply (Hnz 0); [lia |]. by rewrite Z.add_0_r. }
    split_and!; [lia | lia | intros; lia | |].
    + intros _. rewrite Z.add_0_r, load8_store8_eq, H0. done.
    + intros a Ha. apply load8_store8_ne. lia.
  - intros Hrun.
    assert (0 < len).
    { destruct (decide (len = 0)) as [-> |]; [| lia]. exfalso.
      apply H0. rewrite <- Hz by lia. f_equal. lia. }
    assert (Hp' : str_prefix (store8 m s (load8 m t)) (t + 1) (len - 1) (Z.of_nat n)).
    { replace len with (len - 1 + 1) in Hp by lia.
      rewrite Nat2Z.inj_succ, <- Z.add_1_r in Hp. apply str_prefix_S in Hp; [| lia].
      destruct Hp as (? & Hn1 & Hz1).
      split_and!; [lia | lia | |]; intros; rewrite load8_store8_ne by lia; auto. }
    destruct (IH _ (s + 1) (t + 1) (len - 1) Hp' ltac:(lia) Hrun) as (Hs & Hc & Hn & Ho).
    split_and!; [lia | lia | | |].
    + intros i Hi. destruct (decide (i = 0)) as [-> | Hi0].
      * rewrite !Z.add_0_r, Ho, load8_store8_eq, u8_id by (lia || apply load8_range). done.
      * replace (s + i) with (s + 1 + (i - 1)) by lia. rewrite Hc by lia.
        rewrite load8_store8_ne by lia. f_equal. lia.
    + intros Hlt. replace (s + len) with (s + 1 + (len - 1)) by lia. apply Hn. lia.
    + intros a Ha. rewrite Ho by lia. apply load8_store8_ne. lia.
Qed.

(** [safestrcpy] into a buffer of [n] bytes that does not overlap the
    source: the result is the source string truncated to [n-1] characters, it
    is always NUL-terminated, and no byte outside the buffer changes. *)
Theorem safestrcpy_bounded m s t n len :
  1 ≤ n → str_prefix m t len (n - 1) → (s + n ≤ t ∨ t + n ≤ s) →
  let m' := safestrcpy m s t n in
  (∀ i, 0 ≤ i < len → load8 m' (s + i) = load8 m (t + i)) ∧
  load8 m' (s + len) = 0 ∧
  (∀ a, (a < s ∨ s + n ≤ a) → load8 m' a = load8 m a).
Proof.
  intros Hn Hp Hd. cbn zeta. unfold safestrcpy.
  destruct (Z.leb_spec n 0); [lia |].
  destruct (safestrcpy_copy m s t (Z.to_nat (n - 1))) as [m1 s1] eqn:Hrun.
  apply safestrcpy_copy_spec with (len := len) in Hrun; rewrite ?Z2Nat.id by lia; try done; [| lia].
  destruct Hrun as (Hs1 & Hc & Hz & Ho). rewrite Z2Nat.id in * by lia.
  pose proof Hp as (Hr & _). split_and!.
  - intros i Hi. rewrite load8_store8_ne by lia. auto.
  - destruct (decide (s1 = s + len)) as [-> | Hne]; [by rewrite load8_store8_eq |].
    rewrite load8_store8_ne by lia. apply Hz. lia.
  - intros a Ha. rewrite load8_store8_ne by lia. apply Ho. lia.
Qed.

Lemma safestrcpy_bounded_witness :
  let m := store8 (store8 (store8 ∅ 100 104) 101 105) 102 0 in
  str_prefix m 100 2 15 ∧ load8 (safestrcpy m 0 100 16) 2 = 0.
Proof.
  cbn zeta.
  assert (Hp : str_prefix (store8 (store8 (store8 ∅ 100 104) 101 105) 102 0) 100 2 15).
  { split_and!; [lia | lia | | intros _; vm_compute; reflexivity].
    intros i Hi. assert (i = 0 ∨ i = 1) as [-> | ->] by lia; vm_compute; discriminate. }
  split; [exact Hp |].
  apply (safestrcpy_bounded _ 0 100 16 2); [lia | exact Hp | lia].
Defined.

Lemma strlen_spec m s len :
  str_prefix m s len (len + 1) →
  ∀ fuel, (Z.to_nat len < fuel)%nat → strlen fuel m s = Some len.
Proof.
  intros Hp fuel. revert s len Hp. induction fuel as [| fuel IH]; intros s len Hp Hf; [lia |].
  pose proof Hp as (Hr & Hnz & Hz). cbn [strlen].
  destruct (Z.eqb_spec (load8 m s) 0) as [H0 | H0].
  - assert (len = 0) as ->; [| done]. destruct (decide (len = 0)); [done |].
    exfalso. apply (Hnz 0); [lia |]. by rewrite Z.add_0_r.
  - assert (0 < len).
    { destruct (decide (len = 0)) as [-> |]; [| lia]. exfalso.
      apply H0. rewrite <- Hz by lia. f_equal. lia. }
    rewrite (IH (s + 1) (len - 1)); [f_equal; lia | | lia].
    replace len with (len - 1 + 1) in Hp at 1 by lia.
    apply str_prefix_S in Hp; [| lia]. by replace (len - 1 + 1) with len by lia.
Qed.

Lemma memset_fills_witness :
  load8 (memset ∅ 4096 1 8) 4103 = 1 ∧ load8 (memset ∅ 4097 1 7) 4104 = 0.
Proof.
  split.
  - rewrite (memset_fills ∅ 4096 1 8 4103) by lia. vm_compute. reflexivity.
  - rewrite (memset_fills ∅ 4097 1 7 4104) by lia. vm_compute. reflexivity.
Defined.

Lemma memmove_snapshot_witness :
  let m := store8 (store8 ∅ 10 1) 11 2 in load8 (memmove m 11 10 2) 12 = 2.
Proof.
  cbn zeta. rewrite (memmove_snapshot _ 11 10 2 12) by lia. vm_compute. reflexivity.
Defined.

(** ** [cstr] *)
Lemma cstr_app_nul n (l rest : list Z) :
  Forall (λ b, b ≠ 0) l → (length l < n)%nat → cstr n (l ++ 0 :: rest) = l.
Proof.
  revert n. induction l as [| b l IH]; intros n Hnz Hn; destruct n as [| n]; cbn in *; try lia.
  - done.
  - apply Forall_cons_1 in Hnz as [Hb Hnz].
    destruct (Z.eqb_spec b 0); [done |]. by rewrite IH by (done || lia).
Qed.
Lemma cstr_nz n (l : list Z) : Forall (λ b, b ≠ 0) (cstr n l).
Proof.
  revert l. induction n as [| n IH]; intros [| b l]; cbn; try done.
  destruct (Z.eqb_spec b 0); [done |]. by constructor.
Qed.
Lemma cstr_length n (l : list Z) : (length (cstr n l) ≤ n)%nat.
Proof.
  revert l. induction n as [| n IH]; intros [| b l]; cbn; try lia.
  destruct (b =? 0); cbn; [lia |]. specialize (IH l). lia.
Qed.
Lemma cstr_id n (l : list Z) :
  Forall (λ b, b ≠ 0) l → cstr n l = take n l.
Proof.
  revert l. induction n as [| n IH]; intros [| b l] Hl; cbn; try done.
  apply Forall_cons_1 in Hl as [Hb Hl]. destruct (Z.eqb_spec b 0); [done |].
  by rewrite IH.
Qed.
