(* ===== verification/Kstate.v ===== *)
(** * The kernel state

    The data of the kernel's headers ([proc.h], [file.h], [fs.h], [buf.h],
    [sleeplock.h], [x86.h]) and of the globals the modules keep.  A pointer
    into a fixed table ([struct proc*], [struct file*], [struct inode*],
    [struct buf*]) is the index of the entry ([None] for the null pointer);
    a page obtained from [kalloc] is its address in physical memory.

    One record [kst] holds everything; every kernel function is a value of
    [K A := kst → outcome kst A], run by the CPU [k_cpu] on behalf of its
    current process. *)
From S2P Require Import Prelude Mmu Cstring.

(** ** Locks and wait channels *)
Inductive slockid := SLInode (i : nat) | SLBuf (i : nat).
#[export] Instance slockid_eq_dec : EqDecision slockid.
Proof. solve_decision. Defined.

(** One constructor per [struct spinlock] of the kernel. *)
Inductive lockid :=
  | LPtable | LCtable | LKmem | LTicks | LFtable | LBcache | LIcache | LLog
  | LIde | LCons | LPipe (p : Z) | LSleep (l : slockid) | LMsg (i : nat).
#[export] Instance lockid_eq_dec : EqDecision lockid.
Proof. solve_decision. Defined.

(** The addresses processes sleep on. *)
Inductive chan :=
  | CProc (i : nat) | CTicks | CLog | CInput | CBuf (i : nat)
  | CPipeR (p : Z) | CPipeW (p : Z) | CSleep (l : slockid).
#[export] Instance chan_eq_dec : EqDecision chan.
Proof. solve_decision. Defined.

(** ** proc.h *)

(** struct cpu: [ncli], [intena] and [proc] are the fields of that name;
    [if_flag] is FL_IF of this CPU's EFLAGS, [ts_ss0], [ts_esp0] and [ts_iomb]
    the fields of its task state the kernel sets, [cr3] the page directory loaded. *)
Record cpu := mkCpu {
  ncli : Z;
  intena : bool;
  if_flag : bool;
  c_proc : option nat;
  gdt : list segdesc;
  ts_ss0 : Z;
  ts_esp0 : Z;
  ts_iomb : Z;
  cr3 : Z }.
#[export] Instance set_ncli : Setter ncli := λ g x,
  mkCpu (g (ncli x)) (intena x) (if_flag x) (c_proc x) (gdt x) (ts_ss0 x)
    (ts_esp0 x) (ts_iomb x) (cr3 x).
#[export] Instance set_intena : Setter intena := λ g x,
  mkCpu (ncli x) (g (intena x)) (if_flag x) (c_proc x) (gdt x) (ts_ss0 x)
    (ts_esp0 x) (ts_iomb x) (cr3 x).
#[export] Instance set_if_flag : Setter if_flag := λ g x,
  mkCpu (ncli x) (intena x) (g (if_flag x)) (c_proc x) (gdt x) (ts_ss0 x)
    (ts_esp0 x) (ts_iomb x) (cr3 x).
#[export] Instance set_c_proc : Setter c_proc := λ g x,
  mkCpu (ncli x) (intena x) (if_flag x) (g (c_proc x)) (gdt x) (ts_ss0 x)
    (ts_esp0 x) (ts_iomb x) (cr3 x).
#[export] Instance set_gdt : Setter gdt := λ g x,
  mkCpu (ncli x) (intena x) (if_flag x) (c_proc x) (g (gdt x)) (ts_ss0 x)
    (ts_esp0 x) (ts_iomb x) (cr3 x).
#[export] Instance set_ts_ss0 : Setter ts_ss0 := λ g x,
  mkCpu (ncli x) (intena x) (if_flag x) (c_proc x) (gdt x) (g (ts_ss0 x))
    (ts_esp0 x) (ts_iomb x) (cr3 x).
#[export] Instance set_ts_esp0 : Setter ts_esp0 := λ g x,
  mkCpu (ncli x) (intena x) (if_flag x) (c_proc x) (gdt x) (ts_ss0 x)
    (g (ts_esp0 x)) (ts_iomb x) (cr3 x).
#[export] Instance set_ts_iomb : Setter ts_iomb := λ g x,
  mkCpu (ncli x) (intena x) (if_flag x) (c_proc x) (gdt x) (ts_ss0 x)
    (ts_esp0 x) (g (ts_iomb x)) (cr3 x).
#[export] Instance set_cr3 : Setter cr3 := λ g x,
  mkCpu (ncli x) (intena x) (if_flag x) (c_proc x) (gdt x) (ts_ss0 x)
    (ts_esp0 x) (ts_iomb x) (g (cr3 x)).

Inductive procstate := UNUSED | EMBRYO | SLEEPING | RUNNABLE | RUNNING | ZOMBIE | WAITING.
#[export] Instance procstate_eq_dec : EqDecision procstate.
Proof. solve_decision. Defined.

(** x86.h: struct trapframe (without its padding) *)
Record trapframe := mkTf {
  tf_edi : Z;
  tf_esi : Z;
  tf_ebp : Z;
  tf_oesp : Z;
  tf_ebx : Z;
  tf_edx : Z;
  tf_ecx : Z;
  tf_eax : Z;
  tf_gs : Z;
  tf_fs : Z;
  tf_es : Z;
  tf_ds : Z;
  tf_trapno : Z;
  tf_err : Z;
  tf_eip : Z;
  tf_cs : Z;
  tf_eflags : Z;
  tf_esp : Z;
  tf_ss : Z }.
#[export] Instance set_tf_edi : Setter tf_edi := λ g x,
  mkTf (g (tf_edi x)) (tf_esi x) (tf_ebp x) (tf_oesp x) (tf_ebx x) (tf_edx x)
    (tf_ecx x) (tf_eax x) (tf_gs x) (tf_fs x) (tf_es x) (tf_ds x)
    (tf_trapno x) (tf_err x) (tf_eip x) (tf_cs x) (tf_eflags x) (tf_esp x)
    (tf_ss x).
#[export] Instance set_tf_esi : Setter tf_esi := λ g x,
  mkTf (tf_edi x) (g (tf_esi x)) (tf_ebp x) (tf_oesp x) (tf_ebx x) (tf_edx x)
    (tf_ecx x) (tf_eax x) (tf_gs x) (tf_fs x) (tf_es x) (tf_ds x)
    (tf_trapno x) (tf_err x) (tf_eip x) (tf_cs x) (tf_eflags x) (tf_esp x)
    (tf_ss x).
#[export] Instance set_tf_ebp : Setter tf_ebp := λ g x,
  mkTf (tf_edi x) (tf_esi x) (g (tf_ebp x)) (tf_oesp x) (tf_ebx x) (tf_edx x)
    (tf_ecx x) (tf_eax x) (tf_gs x) (tf_fs x) (tf_es x) (tf_ds x)
    (tf_trapno x) (tf_err x) (tf_eip x) (tf_cs x) (tf_eflags x) (tf_esp x)
    (tf_ss x).
#[export] Instance set_tf_oesp : Setter tf_oesp := λ g x,
  mkTf (tf_edi x) (tf_esi x) (tf_ebp x) (g (tf_oesp x)) (tf_ebx x) (tf_edx x)
    (tf_ecx x) (tf_eax x) (tf_gs x) (tf_fs x) (tf_es x) (tf_ds x)
    (tf_trapno x) (tf_err x) (tf_eip x) (tf_cs x) (tf_eflags x) (tf_esp x)
    (tf_ss x).
#[export] Instance set_tf_ebx : Setter tf_ebx := λ g x,
  mkTf (tf_edi x) (tf_esi x) (tf_ebp x) (tf_oesp x) (g (tf_ebx x)) (tf_edx x)
    (tf_ecx x) (tf_eax x) (tf_gs x) (tf_fs x) (tf_es x) (tf_ds x)
    (tf_trapno x) (tf_err x) (tf_eip x) (tf_cs x) (tf_eflags x) (tf_esp x)
    (tf_ss x).
#[export] Instance set_tf_edx : Setter tf_edx := λ g x,
  mkTf (tf_edi x) (tf_esi x) (tf_ebp x) (tf_oesp x) (tf_ebx x) (g (tf_edx x))
    (tf_ecx x) (tf_eax x) (tf_gs x) (tf_fs x) (tf_es x) (tf_ds x)
    (tf_trapno x) (tf_err x) (tf_eip x) (tf_cs x) (tf_eflags x) (tf_esp x)
    (tf_ss x).
#[export] Instance set_tf_ecx : Setter tf_ecx := λ g x,
  mkTf (tf_edi x) (tf_esi x) (tf_ebp x) (tf_oesp x) (tf_ebx x) (tf_edx x)
    (g (tf_ecx x)) (tf_eax x) (tf_gs x) (tf_fs x) (tf_es x) (tf_ds x)
    (tf_trapno x) (tf_err x) (tf_eip x) (tf_cs x) (tf_eflags x) (tf_esp x)
    (tf_ss x).
#[export] Instance set_tf_eax : Setter tf_eax := λ g x,
  mkTf (tf_edi x) (tf_esi x) (tf_ebp x) (tf_oesp x) (tf_ebx x) (tf_edx x)
    (tf_ecx x) (g (tf_eax x)) (tf_gs x) (tf_fs x) (tf_es x) (tf_ds x)
    (tf_trapno x) (tf_err x) (tf_eip x) (tf_cs x) (tf_eflags x) (tf_esp x)
    (tf_ss x).
#[export] Instance set_tf_gs : Setter tf_gs := λ g x,
  mkTf (tf_edi x) (tf_esi x) (tf_ebp x) (tf_oesp x) (tf_ebx x) (tf_edx x)
    (tf_ecx x) (tf_eax x) (g (tf_gs x)) (tf_fs x) (tf_es x) (tf_ds x)
    (tf_trapno x) (tf_err x) (tf_eip x) (tf_cs x) (tf_eflags x) (tf_esp x)
    (tf_ss x).
#[export] Instance set_tf_fs : Setter tf_fs := λ g x,
  mkTf (tf_edi x) (tf_esi x) (tf_ebp x) (tf_oesp x) (tf_ebx x) (tf_edx x)
    (tf_ecx x) (tf_eax x) (tf_gs x) (g (tf_fs x)) (tf_es x) (tf_ds x)
    (tf_trapno x) (tf_err x) (tf_eip x) (tf_cs x) (tf_eflags x) (tf_esp x)
    (tf_ss x).
#[export] Instance set_tf_es : Setter tf_es := λ g x,
  mkTf (tf_edi x) (tf_esi x) (tf_ebp x) (tf_oesp x) (tf_ebx x) (tf_edx x)
    (tf_ecx x) (tf_eax x) (tf_gs x) (tf_fs x) (g (tf_es x)) (tf_ds x)
    (tf_trapno x) (tf_err x) (tf_eip x) (tf_cs x) (tf_eflags x) (tf_esp x)
    (tf_ss x).
#[export] Instance set_tf_ds : Setter tf_ds := λ g x,
  mkTf (tf_edi x) (tf_esi x) (tf_ebp x) (tf_oesp x) (tf_ebx x) (tf_edx x)
    (tf_ecx x) (tf_eax x) (tf_gs x) (tf_fs x) (tf_es x) (g (tf_ds x))
    (tf_trapno x) (tf_err x) (tf_eip x) (tf_cs x) (tf_eflags x) (tf_esp x)
    (tf_ss x).
#[export] Instance set_tf_trapno : Setter tf_trapno := λ g x,
  mkTf (tf_edi x) (tf_esi x) (tf_ebp x) (tf_oesp x) (tf_ebx x) (tf_edx x)
    (tf_ecx x) (tf_eax x) (tf_gs x) (tf_fs x) (tf_es x) (tf_ds x)
    (g (tf_trapno x)) (tf_err x) (tf_eip x) (tf_cs x) (tf_eflags x)
    (tf_esp x) (tf_ss x).
#[export] Instance set_tf_err : Setter tf_err := λ g x,
  mkTf (tf_edi x) (tf_esi x) (tf_ebp x) (tf_oesp x) (tf_ebx x) (tf_edx x)
    (tf_ecx x) (tf_eax x) (tf_gs x) (tf_fs x) (tf_es x) (tf_ds x)
    (tf_trapno x) (g (tf_err x)) (tf_eip x) (tf_cs x) (tf_eflags x)
    (tf_esp x) (tf_ss x).
#[export] Instance set_tf_eip : Setter tf_eip := λ g x,
  mkTf (tf_edi x) (tf_esi x) (tf_ebp x) (tf_oesp x) (tf_ebx x) (tf_edx x)
    (tf_ecx x) (tf_eax x) (tf_gs x) (tf_fs x) (tf_es x) (tf_ds x)
    (tf_trapno x) (tf_err x) (g (tf_eip x)) (tf_cs x) (tf_eflags x)
    (tf_esp x) (tf_ss x).
#[export] Instance set_tf_cs : Setter tf_cs := λ g x,
  mkTf (tf_edi x) (tf_esi x) (tf_ebp x) (tf_oesp x) (tf_ebx x) (tf_edx x)
    (tf_ecx x) (tf_eax x) (tf_gs x) (tf_fs x) (tf_es x) (tf_ds x)
    (tf_trapno x) (tf_err x) (tf_eip x) (g (tf_cs x)) (tf_eflags x)
    (tf_esp x) (tf_ss x).
#[export] Instance set_tf_eflags : Setter tf_eflags := λ g x,
  mkTf (tf_edi x) (tf_esi x) (tf_ebp x) (tf_oesp x) (tf_ebx x) (tf_edx x)
    (tf_ecx x) (tf_eax x) (tf_gs x) (tf_fs x) (tf_es x) (tf_ds x)
    (tf_trapno x) (tf_err x) (tf_eip x) (tf_cs x) (g (tf_eflags x))
    (tf_esp x) (tf_ss x).
#[export] Instance set_tf_esp : Setter tf_esp := λ g x,
  mkTf (tf_edi x) (tf_esi x) (tf_ebp x) (tf_oesp x) (tf_ebx x) (tf_edx x)
    (tf_ecx x) (tf_eax x) (tf_gs x) (tf_fs x) (tf_es x) (tf_ds x)
    (tf_trapno x) (tf_err x) (tf_eip x) (tf_cs x) (tf_eflags x)
    (g (tf_esp x)) (tf_ss x).
#[export] Instance set_tf_ss : Setter tf_ss := λ g x,
  mkTf (tf_edi x) (tf_esi x) (tf_ebp x) (tf_oesp x) (tf_ebx x) (tf_edx x)
    (tf_ecx x) (tf_eax x) (tf_gs x) (tf_fs x) (tf_es x) (tf_ds x)
    (tf_trapno x) (tf_err x) (tf_eip x) (tf_cs x) (tf_eflags x) (tf_esp x)
    (g (tf_ss x)).

(** struct context *)
Record context := mkCtx {
  cx_edi : Z;
  cx_esi : Z;
  cx_ebx : Z;
  cx_ebp : Z;
  cx_eip : Z }.
#[export] Instance set_cx_edi : Setter cx_edi := λ g x,
  mkCtx (g (cx_edi x)) (cx_esi x) (cx_ebx x) (cx_ebp x) (cx_eip x).
#[export] Instance set_cx_esi : Setter cx_esi := λ g x,
  mkCtx (cx_edi x) (g (cx_esi x)) (cx_ebx x) (cx_ebp x) (cx_eip x).
#[export] Instance set_cx_ebx : Setter cx_ebx := λ g x,
  mkCtx (cx_edi x) (cx_esi x) (g (cx_ebx x)) (cx_ebp x) (cx_eip x).
#[export] Instance set_cx_ebp : Setter cx_ebp := λ g x,
  mkCtx (cx_edi x) (cx_esi x) (cx_ebx x) (g (cx_ebp x)) (cx_eip x).
#[export] Instance set_cx_eip : Setter cx_eip := λ g x,
  mkCtx (cx_edi x) (cx_esi x) (cx_ebx x) (cx_ebp x) (g (cx_eip x)).

(** struct proc.  [p_tfp]/[p_contextp] are the pointers [tf]/[context] into the
    kernel stack, [p_tf]/[p_context] what they point to. *)
Record proc := mkProc {
  p_sz : Z;
  p_pgdir : Z;
  p_kstack : Z;
  p_state : procstate;
  p_pid : Z;
  p_parent : option nat;
  p_tfp : Z;
  p_tf : trapframe;
  p_contextp : Z;
  p_context : context;
  p_chan : option chan;
  p_killed : Z;
  p_ofile : list (option nat);
  p_cwd : option nat;
  p_name : list Z;
  p_containerID : Z }.
#[export] Instance set_p_sz : Setter p_sz := λ g x,
  mkProc (g (p_sz x)) (p_pgdir x) (p_kstack x) (p_state x) (p_pid x)
    (p_parent x) (p_tfp x) (p_tf x) (p_contextp x) (p_context x) (p_chan x)
    (p_killed x) (p_ofile x) (p_cwd x) (p_name x) (p_containerID x).
#[export] Instance set_p_pgdir : Setter p_pgdir := λ g x,
  mkProc (p_sz x) (g (p_pgdir x)) (p_kstack x) (p_state x) (p_pid x)
    (p_parent x) (p_tfp x) (p_tf x) (p_contextp x) (p_context x) (p_chan x)
    (p_killed x) (p_ofile x) (p_cwd x) (p_name x) (p_containerID x).
#[export] Instance set_p_kstack : Setter p_kstack := λ g x,
  mkProc (p_sz x) (p_pgdir x) (g (p_kstack x)) (p_state x) (p_pid x)
    (p_parent x) (p_tfp x) (p_tf x) (p_contextp x) (p_context x) (p_chan x)
    (p_killed x) (p_ofile x) (p_cwd x) (p_name x) (p_containerID x).
#[export] Instance set_p_state : Setter p_state := λ g x,
  mkProc (p_sz x) (p_pgdir x) (p_kstack x) (g (p_state x)) (p_pid x)
    (p_parent x) (p_tfp x) (p_tf x) (p_contextp x) (p_context x) (p_chan x)
    (p_killed x) (p_ofile x) (p_cwd x) (p_name x) (p_containerID x).
#[export] Instance set_p_pid : Setter p_pid := λ g x,
  mkProc (p_sz x) (p_pgdir x) (p_kstack x) (p_state x) (g (p_pid x))
    (p_parent x) (p_tfp x) (p_tf x) (p_contextp x) (p_context x) (p_chan x)
    (p_killed x) (p_ofile x) (p_cwd x) (p_name x) (p_containerID x).
#[export] Instance set_p_parent : Setter p_parent := λ g x,
  mkProc (p_sz x) (p_pgdir x) (p_kstack x) (p_state x) (p_pid x)
    (g (p_parent x)) (p_tfp x) (p_tf x) (p_contextp x) (p_context x)
    (p_chan x) (p_killed x) (p_ofile x) (p_cwd x) (p_name x)
    (p_containerID x).
#[export] Instance set_p_tfp : Setter p_tfp := λ g x,
  mkProc (p_sz x) (p_pgdir x) (p_kstack x) (p_state x) (p_pid x) (p_parent x)
    (g (p_tfp x)) (p_tf x) (p_contextp x) (p_context x) (p_chan x)
    (p_killed x) (p_ofile x) (p_cwd x) (p_name x) (p_containerID x).
#[export] Instance set_p_tf : Setter p_tf := λ g x,
  mkProc (p_sz x) (p_pgdir x) (p_kstack x) (p_state x) (p_pid x) (p_parent x)
    (p_tfp x) (g (p_tf x)) (p_contextp x) (p_context x) (p_chan x)
    (p_killed x) (p_ofile x) (p_cwd x) (p_name x) (p_containerID x).
#[export] Instance set_p_contextp : Setter p_contextp := λ g x,
  mkProc (p_sz x) (p_pgdir x) (p_kstack x) (p_state x) (p_pid x) (p_parent x)
    (p_tfp x) (p_tf x) (g (p_contextp x)) (p_context x) (p_chan x)
    (p_killed x) (p_ofile x) (p_cwd x) (p_name x) (p_containerID x).
#[export] Instance set_p_context : Setter p_context := λ g x,
  mkProc (p_sz x) (p_pgdir x) (p_kstack x) (p_state x) (p_pid x) (p_parent x)
    (p_tfp x) (p_tf x) (p_contextp x) (g (p_context x)) (p_chan x)
    (p_killed x) (p_ofile x) (p_cwd x) (p_name x) (p_containerID x).
#[export] Instance set_p_chan : Setter p_chan := λ g x,
  mkProc (p_sz x) (p_pgdir x) (p_kstack x) (p_state x) (p_pid x) (p_parent x)
    (p_tfp x) (p_tf x) (p_contextp x) (p_context x) (g (p_chan x))
    (p_killed x) (p_ofile x) (p_cwd x) (p_name x) (p_containerID x).
#[export] Instance set_p_killed : Setter p_killed := λ g x,
  mkProc (p_sz x) (p_pgdir x) (p_kstack x) (p_state x) (p_pid x) (p_parent x)
    (p_tfp x) (p_tf x) (p_contextp x) (p_context x) (p_chan x)
    (g (p_killed x)) (p_ofile x) (p_cwd x) (p_name x) (p_containerID x).
#[export] Instance set_p_ofile : Setter p_ofile := λ g x,
  mkProc (p_sz x) (p_pgdir x) (p_kstack x) (p_state x) (p_pid x) (p_parent x)
    (p_tfp x) (p_tf x) (p_contextp x) (p_context x) (p_chan x) (p_killed x)
    (g (p_ofile x)) (p_cwd x) (p_name x) (p_containerID x).
#[export] Instance set_p_cwd : Setter p_cwd := λ g x,
  mkProc (p_sz x) (p_pgdir x) (p_kstack x) (p_state x) (p_pid x) (p_parent x)
    (p_tfp x) (p_tf x) (p_contextp x) (p_context x) (p_chan x) (p_killed x)
    (p_ofile x) (g (p_cwd x)) (p_name x) (p_containerID x).
#[export] Instance set_p_name : Setter p_name := λ g x,
  mkProc (p_sz x) (p_pgdir x) (p_kstack x) (p_state x) (p_pid x) (p_parent x)
    (p_tfp x) (p_tf x) (p_contextp x) (p_context x) (p_chan x) (p_killed x)
    (p_ofile x) (p_cwd x) (g (p_name x)) (p_containerID x).
#[export] Instance set_p_containerID : Setter p_containerID := λ g x,
  mkProc (p_sz x) (p_pgdir x) (p_kstack x) (p_state x) (p_pid x) (p_parent x)
    (p_tfp x) (p_tf x) (p_contextp x) (p_context x) (p_chan x) (p_killed x)
    (p_ofile x) (p_cwd x) (p_name x) (g (p_containerID x)).

Definition PROCESS_COUNT : nat := 10.
Definition NCONT : nat := 10.
Definition MCONT : nat := 10.
Inductive cntState := BLANK | WORKING | FAULT | OVERLOAD.
#[export] Instance cntState_eq_dec : EqDecision cntState.
Proof. solve_decision. Defined.

(** struct cmap *)
Record cmap := mkCmap {
  cm_virt : Z;
  cm_phys_start : Z;
  cm_phys_end : Z;
  cm_pid : Z }.
#[export] Instance set_cm_virt : Setter cm_virt := λ g x,
  mkCmap (g (cm_virt x)) (cm_phys_start x) (cm_phys_end x) (cm_pid x).
#[export] Instance set_cm_phys_start : Setter cm_phys_start := λ g x,
  mkCmap (cm_virt x) (g (cm_phys_start x)) (cm_phys_end x) (cm_pid x).
#[export] Instance set_cm_phys_end : Setter cm_phys_end := λ g x,
  mkCmap (cm_virt x) (cm_phys_start x) (g (cm_phys_end x)) (cm_pid x).
#[export] Instance set_cm_pid : Setter cm_pid := λ g x,
  mkCmap (cm_virt x) (cm_phys_start x) (cm_phys_end x) (g (cm_pid x)).

(** struct container (the field [fileList] is never used) *)
Record container := mkCont {
  ct_state : cntState;
  ct_process : list (option nat);
  ct_schedulerHelper : list Z;
  ct_done : Z;
  ct_generatedProcess : Z;
  ct_startAddr : list Z;
  ct_used : Z;
  ct_memory : list cmap }.
#[export] Instance set_ct_state : Setter ct_state := λ g x,
  mkCont (g (ct_state x)) (ct_process x) (ct_schedulerHelper x) (ct_done x)
    (ct_generatedProcess x) (ct_startAddr x) (ct_used x) (ct_memory x).
#[export] Instance set_ct_process : Setter ct_process := λ g x,
  mkCont (ct_state x) (g (ct_process x)) (ct_schedulerHelper x) (ct_done x)
    (ct_generatedProcess x) (ct_startAddr x) (ct_used x) (ct_memory x).
#[export] Instance set_ct_schedulerHelper : Setter ct_schedulerHelper := λ g x,
  mkCont (ct_state x) (ct_process x) (g (ct_schedulerHelper x)) (ct_done x)
    (ct_generatedProcess x) (ct_startAddr x) (ct_used x) (ct_memory x).
#[export] Instance set_ct_done : Setter ct_done := λ g x,
  mkCont (ct_state x) (ct_process x) (ct_schedulerHelper x) (g (ct_done x))
    (ct_generatedProcess x) (ct_startAddr x) (ct_used x) (ct_memory x).
#[export] Instance set_ct_generatedProcess : Setter ct_generatedProcess := λ g x,
  mkCont (ct_state x) (ct_process x) (ct_schedulerHelper x) (ct_done x)
    (g (ct_generatedProcess x)) (ct_startAddr x) (ct_used x) (ct_memory x).
#[export] Instance set_ct_startAddr : Setter ct_startAddr := λ g x,
  mkCont (ct_state x) (ct_process x) (ct_schedulerHelper x) (ct_done x)
    (ct_generatedProcess x) (g (ct_startAddr x)) (ct_used x) (ct_memory x).
#[export] Instance set_ct_used : Setter ct_used := λ g x,
  mkCont (ct_state x) (ct_process x) (ct_schedulerHelper x) (ct_done x)
    (ct_generatedProcess x) (ct_startAddr x) (g (ct_used x)) (ct_memory x).
#[export] Instance set_ct_memory : Setter ct_memory := λ g x,
  mkCont (ct_state x) (ct_process x) (ct_schedulerHelper x) (ct_done x)
    (ct_generatedProcess x) (ct_startAddr x) (ct_used x) (g (ct_memory x)).

(** The scalar globals of proc.c *)
Record pvars := mkPvars {
  nextpid : Z;
  initproc : option nat;
  allocFor : Z;
  containerNum : Z;
  scheduler_log : Z;
  scheduler_history : Z;
  memory_log : Z;
  memory_history : Z }.
#[export] Instance set_nextpid : Setter nextpid := λ g x,
  mkPvars (g (nextpid x)) (initproc x) (allocFor x) (containerNum x)
    (scheduler_log x) (scheduler_history x) (memory_log x)
    (memory_history x).
#[export] Instance set_initproc : Setter initproc := λ g x,
  mkPvars (nextpid x) (g (initproc x)) (allocFor x) (containerNum x)
    (scheduler_log x) (scheduler_history x) (memory_log x)
    (memory_history x).
#[export] Instance set_allocFor : Setter allocFor := λ g x,
  mkPvars (nextpid x) (initproc x) (g (allocFor x)) (containerNum x)
    (scheduler_log x) (scheduler_history x) (memory_log x)
    (memory_history x).
#[export] Instance set_containerNum : Setter containerNum := λ g x,
  mkPvars (nextpid x) (initproc x) (allocFor x) (g (containerNum x))
    (scheduler_log x) (scheduler_history x) (memory_log x)
    (memory_history x).
#[export] Instance set_scheduler_log : Setter scheduler_log := λ g x,
  mkPvars (nextpid x) (initproc x) (allocFor x) (containerNum x)
    (g (scheduler_log x)) (scheduler_history x) (memory_log x)
    (memory_history x).
#[export] Instance set_scheduler_history : Setter scheduler_history := λ g x,
  mkPvars (nextpid x) (initproc x) (allocFor x) (containerNum x)
    (scheduler_log x) (g (scheduler_history x)) (memory_log x)
    (memory_history x).
#[export] Instance set_memory_log : Setter memory_log := λ g x,
  mkPvars (nextpid x) (initproc x) (allocFor x) (containerNum x)
    (scheduler_log x) (scheduler_history x) (g (memory_log x))
    (memory_history x).
#[export] Instance set_memory_history : Setter memory_history := λ g x,
  mkPvars (nextpid x) (initproc x) (allocFor x) (containerNum x)
    (scheduler_log x) (scheduler_history x) (memory_log x)
    (g (memory_history x)).

(** ** kalloc.c *)

(** struct kmem (its lock is [LKmem]) *)
Record kmem_t := mkKmem {
  use_lock : bool;
  freelist : Z }.
#[export] Instance set_use_lock : Setter use_lock := λ g x,
  mkKmem (g (use_lock x)) (freelist x).
#[export] Instance set_freelist : Setter freelist := λ g x,
  mkKmem (use_lock x) (g (freelist x)).

(** ** file.h, pipe.c *)
Inductive ftype := FD_NONE | FD_PIPE | FD_INODE.
#[export] Instance ftype_eq_dec : EqDecision ftype.
Proof. solve_decision. Defined.

(** struct file *)
Record file := mkFile {
  f_type : ftype;
  f_ref : Z;
  f_readable : bool;
  f_writable : bool;
  f_pipe : Z;
  f_ip : option nat;
  f_off : Z }.
#[export] Instance set_f_type : Setter f_type := λ g x,
  mkFile (g (f_type x)) (f_ref x) (f_readable x) (f_writable x) (f_pipe x)
    (f_ip x) (f_off x).
#[export] Instance set_f_ref : Setter f_ref := λ g x,
  mkFile (f_type x) (g (f_ref x)) (f_readable x) (f_writable x) (f_pipe x)
    (f_ip x) (f_off x).
#[export] Instance set_f_readable : Setter f_readable := λ g x,
  mkFile (f_type x) (f_ref x) (g (f_readable x)) (f_writable x) (f_pipe x)
    (f_ip x) (f_off x).
#[export] Instance set_f_writable : Setter f_writable := λ g x,
  mkFile (f_type x) (f_ref x) (f_readable x) (g (f_writable x)) (f_pipe x)
    (f_ip x) (f_off x).
#[export] Instance set_f_pipe : Setter f_pipe := λ g x,
  mkFile (f_type x) (f_ref x) (f_readable x) (f_writable x) (g (f_pipe x))
    (f_ip x) (f_off x).
#[export] Instance set_f_ip : Setter f_ip := λ g x,
  mkFile (f_type x) (f_ref x) (f_readable x) (f_writable x) (f_pipe x)
    (g (f_ip x)) (f_off x).
#[export] Instance set_f_off : Setter f_off := λ g x,
  mkFile (f_type x) (f_ref x) (f_readable x) (f_writable x) (f_pipe x) (f_ip x)
    (g (f_off x)).

Definition PIPESIZE : Z := 512.

(** struct pipe, kept at the address of the page [kalloc] gave for it *)
Record pipe := mkPipe {
  pi_data : list Z;
  pi_nread : Z;
  pi_nwrite : Z;
  pi_readopen : bool;
  pi_writeopen : bool }.
#[export] Instance set_pi_data : Setter pi_data := λ g x,
  mkPipe (g (pi_data x)) (pi_nread x) (pi_nwrite x) (pi_readopen x)
    (pi_writeopen x).
#[export] Instance set_pi_nread : Setter pi_nread := λ g x,
  mkPipe (pi_data x) (g (pi_nread x)) (pi_nwrite x) (pi_readopen x)
    (pi_writeopen x).
#[export] Instance set_pi_nwrite : Setter pi_nwrite := λ g x,
  mkPipe (pi_data x) (pi_nread x) (g (pi_nwrite x)) (pi_readopen x)
    (pi_writeopen x).
#[export] Instance set_pi_readopen : Setter pi_readopen := λ g x,
  mkPipe (pi_data x) (pi_nread x) (pi_nwrite x) (g (pi_readopen x))
    (pi_writeopen x).
#[export] Instance set_pi_writeopen : Setter pi_writeopen := λ g x,
  mkPipe (pi_data x) (pi_nread x) (pi_nwrite x) (pi_readopen x)
    (g (pi_writeopen x)).

(** struct sleeplock (its spin lock is [LSleep]) *)
Record sleeplock := mkSleeplock {
  sl_locked : bool;
  sl_pid : Z }.
#[export] Instance set_sl_locked : Setter sl_locked := λ g x,
  mkSleeplock (g (sl_locked x)) (sl_pid x).
#[export] Instance set_sl_pid : Setter sl_pid := λ g x,
  mkSleeplock (sl_locked x) (g (sl_pid x)).

(** struct inode *)
Record inode := mkInode {
  i_dev : Z;
  i_inum : Z;
  i_ref : Z;
  i_lock : sleeplock;
  i_valid : bool;
  i_type : Z;
  i_major : Z;
  i_minor : Z;
  i_nlink : Z;
  i_size : Z;
  i_addrs : list Z;
  i_containerID : Z }.
#[export] Instance set_i_dev : Setter i_dev := λ g x,
  mkInode (g (i_dev x)) (i_inum x) (i_ref x) (i_lock x) (i_valid x) (i_type x)
    (i_major x) (i_minor x) (i_nlink x) (i_size x) (i_addrs x)
    (i_containerID x).
#[export] Instance set_i_inum : Setter i_inum := λ g x,
  mkInode (i_dev x) (g (i_inum x)) (i_ref x) (i_lock x) (i_valid x) (i_type x)
    (i_major x) (i_minor x) (i_nlink x) (i_size x) (i_addrs x)
    (i_containerID x).
#[export] Instance set_i_ref : Setter i_ref := λ g x,
  mkInode (i_dev x) (i_inum x) (g (i_ref x)) (i_lock x) (i_valid x) (i_type x)
    (i_major x) (i_minor x) (i_nlink x) (i_size x) (i_addrs x)
    (i_containerID x).
#[export] Instance set_i_lock : Setter i_lock := λ g x,
  mkInode (i_dev x) (i_inum x) (i_ref x) (g (i_lock x)) (i_valid x) (i_type x)
    (i_major x) (i_minor x) (i_nlink x) (i_size x) (i_addrs x)
    (i_containerID x).
#[export] Instance set_i_valid : Setter i_valid := λ g x,
  mkInode (i_dev x) (i_inum x) (i_ref x) (i_lock x) (g (i_valid x)) (i_type x)
    (i_major x) (i_minor x) (i_nlink x) (i_size x) (i_addrs x)
    (i_containerID x).
#[export] Instance set_i_type : Setter i_type := λ g x,
  mkInode (i_dev x) (i_inum x) (i_ref x) (i_lock x) (i_valid x) (g (i_type x))
    (i_major x) (i_minor x) (i_nlink x) (i_size x) (i_addrs x)
    (i_containerID x).
#[export] Instance set_i_major : Setter i_major := λ g x,
  mkInode (i_dev x) (i_inum x) (i_ref x) (i_lock x) (i_valid x) (i_type x)
    (g (i_major x)) (i_minor x) (i_nlink x) (i_size x) (i_addrs x)
    (i_containerID x).
#[export] Instance set_i_minor : Setter i_minor := λ g x,
  mkInode (i_dev x) (i_inum x) (i_ref x) (i_lock x) (i_valid x) (i_type x)
    (i_major x) (g (i_minor x)) (i_nlink x) (i_size x) (i_addrs x)
    (i_containerID x).
#[export] Instance set_i_nlink : Setter i_nlink := λ g x,
  mkInode (i_dev x) (i_inum x) (i_ref x) (i_lock x) (i_valid x) (i_type x)
    (i_major x) (i_minor x) (g (i_nlink x)) (i_size x) (i_addrs x)
    (i_containerID x).
#[export] Instance set_i_size : Setter i_size := λ g x,
  mkInode (i_dev x) (i_inum x) (i_ref x) (i_lock x) (i_valid x) (i_type x)
    (i_major x) (i_minor x) (i_nlink x) (g (i_size x)) (i_addrs x)
    (i_containerID x).
#[export] Instance set_i_addrs : Setter i_addrs := λ g x,
  mkInode (i_dev x) (i_inum x) (i_ref x) (i_lock x) (i_valid x) (i_type x)
    (i_major x) (i_minor x) (i_nlink x) (i_size x) (g (i_addrs x))
    (i_containerID x).
#[export] Instance set_i_containerID : Setter i_containerID := λ g x,
  mkInode (i_dev x) (i_inum x) (i_ref x) (i_lock x) (i_valid x) (i_type x)
    (i_major x) (i_minor x) (i_nlink x) (i_size x) (i_addrs x)
    (g (i_containerID x)).

(** ** fs.h, buf.h, log.c *)

(** struct superblock *)
Record superblock := mkSb {
  sb_size : Z;
  sb_nblocks : Z;
  sb_ninodes : Z;
  sb_nlog : Z;
  sb_logstart : Z;
  sb_inodestart : Z;
  sb_bmapstart : Z }.
#[export] Instance set_sb_size : Setter sb_size := λ g x,
  mkSb (g (sb_size x)) (sb_nblocks x) (sb_ninodes x) (sb_nlog x)
    (sb_logstart x) (sb_inodestart x) (sb_bmapstart x).
#[export] Instance set_sb_nblocks : Setter sb_nblocks := λ g x,
  mkSb (sb_size x) (g (sb_nblocks x)) (sb_ninodes x) (sb_nlog x)
    (sb_logstart x) (sb_inodestart x) (sb_bmapstart x).
#[export] Instance set_sb_ninodes : Setter sb_ninodes := λ g x,
  mkSb (sb_size x) (sb_nblocks x) (g (sb_ninodes x)) (sb_nlog x)
    (sb_logstart x) (sb_inodestart x) (sb_bmapstart x).
#[export] Instance set_sb_nlog : Setter sb_nlog := λ g x,
  mkSb (sb_size x) (sb_nblocks x) (sb_ninodes x) (g (sb_nlog x))
    (sb_logstart x) (sb_inodestart x) (sb_bmapstart x).
#[export] Instance set_sb_logstart : Setter sb_logstart := λ g x,
  mkSb (sb_size x) (sb_nblocks x) (sb_ninodes x) (sb_nlog x)
    (g (sb_logstart x)) (sb_inodestart x) (sb_bmapstart x).
#[export] Instance set_sb_inodestart : Setter sb_inodestart := λ g x,
  mkSb (sb_size x) (sb_nblocks x) (sb_ninodes x) (sb_nlog x) (sb_logstart x)
    (g (sb_inodestart x)) (sb_bmapstart x).
#[export] Instance set_sb_bmapstart : Setter sb_bmapstart := λ g x,
  mkSb (sb_size x) (sb_nblocks x) (sb_ninodes x) (sb_nlog x) (sb_logstart x)
    (sb_inodestart x) (g (sb_bmapstart x)).

(** struct buf; [b_valid]/[b_dirty] are the bits B_VALID/B_DIRTY of [flags].  The
    list links [prev]/[next] are the order [k_mru] of the whole cache. *)
Record buf := mkBuf {
  b_valid : bool;
  b_dirty : bool;
  b_dev : Z;
  b_blockno : Z;
  b_lock : sleeplock;
  b_refcnt : Z;
  b_data : list Z;
  b_qnext : option nat }.
#[export] Instance set_b_valid : Setter b_valid := λ g x,
  mkBuf (g (b_valid x)) (b_dirty x) (b_dev x) (b_blockno x) (b_lock x)
    (b_refcnt x) (b_data x) (b_qnext x).
#[export] Instance set_b_dirty : Setter b_dirty := λ g x,
  mkBuf (b_valid x) (g (b_dirty x)) (b_dev x) (b_blockno x) (b_lock x)
    (b_refcnt x) (b_data x) (b_qnext x).
#[export] Instance set_b_dev : Setter b_dev := λ g x,
  mkBuf (b_valid x) (b_dirty x) (g (b_dev x)) (b_blockno x) (b_lock x)
    (b_refcnt x) (b_data x) (b_qnext x).
#[export] Instance set_b_blockno : Setter b_blockno := λ g x,
  mkBuf (b_valid x) (b_dirty x) (b_dev x) (g (b_blockno x)) (b_lock x)
    (b_refcnt x) (b_data x) (b_qnext x).
#[export] Instance set_b_lock : Setter b_lock := λ g x,
  mkBuf (b_valid x) (b_dirty x) (b_dev x) (b_blockno x) (g (b_lock x))
    (b_refcnt x) (b_data x) (b_qnext x).
#[export] Instance set_b_refcnt : Setter b_refcnt := λ g x,
  mkBuf (b_valid x) (b_dirty x) (b_dev x) (b_blockno x) (b_lock x)
    (g (b_refcnt x)) (b_data x) (b_qnext x).
#[export] Instance set_b_data : Setter b_data := λ g x,
  mkBuf (b_valid x) (b_dirty x) (b_dev x) (b_blockno x) (b_lock x) (b_refcnt x)
    (g (b_data x)) (b_qnext x).
#[export] Instance set_b_qnext : Setter b_qnext := λ g x,
  mkBuf (b_valid x) (b_dirty x) (b_dev x) (b_blockno x) (b_lock x) (b_refcnt x)
    (b_data x) (g (b_qnext x)).

(** struct log, with its [struct logheader lh] *)
Record logst := mkLog {
  lg_start : Z;
  lg_size : Z;
  lg_outstanding : Z;
  lg_committing : bool;
  lg_dev : Z;
  lh_n : Z;
  lh_block : list Z }.
#[export] Instance set_lg_start : Setter lg_start := λ g x,
  mkLog (g (lg_start x)) (lg_size x) (lg_outstanding x) (lg_committing x)
    (lg_dev x) (lh_n x) (lh_block x).
#[export] Instance set_lg_size : Setter lg_size := λ g x,
  mkLog (lg_start x) (g (lg_size x)) (lg_outstanding x) (lg_committing x)
    (lg_dev x) (lh_n x) (lh_block x).
#[export] Instance set_lg_outstanding : Setter lg_outstanding := λ g x,
  mkLog (lg_start x) (lg_size x) (g (lg_outstanding x)) (lg_committing x)
    (lg_dev x) (lh_n x) (lh_block x).
#[export] Instance set_lg_committing : Setter lg_committing := λ g x,
  mkLog (lg_start x) (lg_size x) (lg_outstanding x) (g (lg_committing x))
    (lg_dev x) (lh_n x) (lh_block x).
#[export] Instance set_lg_dev : Setter lg_dev := λ g x,
  mkLog (lg_start x) (lg_size x) (lg_outstanding x) (lg_committing x)
    (g (lg_dev x)) (lh_n x) (lh_block x).
#[export] Instance set_lh_n : Setter lh_n := λ g x,
  mkLog (lg_start x) (lg_size x) (lg_outstanding x) (lg_committing x)
    (lg_dev x) (g (lh_n x)) (lh_block x).
#[export] Instance set_lh_block : Setter lh_block := λ g x,
  mkLog (lg_start x) (lg_size x) (lg_outstanding x) (lg_committing x)
    (lg_dev x) (lh_n x) (g (lh_block x)).

(** ** console.c, proc.c message queues *)

(** The console input buffer *)
Record input_t := mkInput {
  in_buf : list Z;
  in_r : Z;
  in_w : Z;
  in_e : Z }.
#[export] Instance set_in_buf : Setter in_buf := λ g x,
  mkInput (g (in_buf x)) (in_r x) (in_w x) (in_e x).
#[export] Instance set_in_r : Setter in_r := λ g x,
  mkInput (in_buf x) (g (in_r x)) (in_w x) (in_e x).
#[export] Instance set_in_w : Setter in_w := λ g x,
  mkInput (in_buf x) (in_r x) (g (in_w x)) (in_e x).
#[export] Instance set_in_e : Setter in_e := λ g x,
  mkInput (in_buf x) (in_r x) (in_w x) (g (in_e x)).

(** struct Queue: the addresses of the first and last node (0 = NULL) *)
Record queue := mkQueue {
  q_front : Z;
  q_rear : Z }.
#[export] Instance set_q_front : Setter q_front := λ g x,
  mkQueue (g (q_front x)) (q_rear x).
#[export] Instance set_q_rear : Setter q_rear := λ g x,
  mkQueue (q_front x) (g (q_rear x)).

(** The characters of a C string literal. *)
Fixpoint bytes (s : string) : list Z :=
  match s with
  | EmptyString => []
  | String a s => Z.of_N (Ascii.N_of_ascii a) :: bytes s
  end.

(** The statics of console.c ([cons.locking]), uart.c ([uart]) and kbd.c
    ([shift]). *)
Record cons_t := mkCons {
  cn_locking : bool;
  cn_uart : bool;
  cn_shift : Z }.
#[export] Instance set_cn_locking : Setter cn_locking := λ g x,
  mkCons (g (cn_locking x)) (cn_uart x) (cn_shift x).
#[export] Instance set_cn_uart : Setter cn_uart := λ g x,
  mkCons (cn_locking x) (g (cn_uart x)) (cn_shift x).
#[export] Instance set_cn_shift : Setter cn_shift := λ g x,
  mkCons (cn_locking x) (cn_uart x) (g (cn_shift x)).

(** The statics of ide.c: [idequeue] and [havedisk1]. *)
Record ide_t := mkIde {
  id_queue : option nat;
  id_disk1 : bool }.
#[export] Instance set_id_queue : Setter id_queue := λ g x,
  mkIde (g (id_queue x)) (id_disk1 x).
#[export] Instance set_id_disk1 : Setter id_disk1 := λ g x,
  mkIde (id_queue x) (g (id_disk1 x)).

(** The variables of mp.c and lapic.c: the APIC numbers in [cpus], [ncpu],
    [ioapicid] and the pointer [lapic]. *)
Record mp_t := mkMp {
  mp_apicids : list Z;
  mp_ncpu : Z;
  mp_ioapicid : Z;
  mp_lapic : Z }.
#[export] Instance set_mp_apicids : Setter mp_apicids := λ g x,
  mkMp (g (mp_apicids x)) (mp_ncpu x) (mp_ioapicid x) (mp_lapic x).
#[export] Instance set_mp_ncpu : Setter mp_ncpu := λ g x,
  mkMp (mp_apicids x) (g (mp_ncpu x)) (mp_ioapicid x) (mp_lapic x).
#[export] Instance set_mp_ioapicid : Setter mp_ioapicid := λ g x,
  mkMp (mp_apicids x) (mp_ncpu x) (g (mp_ioapicid x)) (mp_lapic x).
#[export] Instance set_mp_lapic : Setter mp_lapic := λ g x,
  mkMp (mp_apicids x) (mp_ncpu x) (mp_ioapicid x) (g (mp_lapic x)).

(** What passes between the kernel and the outside: a [cprintf] call with its
    arguments, a byte written to or read from an I/O port, the bytes of a string
    of words written to or read from one, a word stored to or read from a device
    register in memory, a block written to the disk. *)
Inductive parg := PInt (z : Z) | PStr (s : list Z).
Inductive outev :=
  | Cprintf (fmt : string) (args : list parg)
  | Outb (port v : Z)
  | Inb (port v : Z)
  | Outsl (port : Z) (data : list Z)
  | Insl (port : Z) (data : list Z)
  | Outm (addr v : Z)
  | Inm (addr v : Z)
  | DiskWrite (blockno : Z) (data : list Z).

(** ** The state *)

(** Every kernel global, plus the state of the executing CPU, the spin locks it
    holds ([k_held], most recent first) and what has been sent out so far
    ([k_out], most recent first). *)
Record kst := mkK {
  k_cpu : cpu;
  k_held : list lockid;
  k_mem : mem;
  k_kmem : kmem_t;
  k_kpgdir : Z;
  k_procs : list proc;
  k_pv : pvars;
  k_conts : list container;
  k_files : list file;
  k_pipes : gmap Z pipe;
  k_icache : list inode;
  k_sb : superblock;
  k_bufs : list buf;
  k_mru : list nat;
  k_log : logst;
  k_disk : gmap Z (list Z);
  k_input : input_t;
  k_cons : cons_t;
  k_ide : ide_t;
  k_mp : mp_t;
  k_ticks : Z;
  k_Trace : Z;
  k_count : list Z;
  k_msgQueue : list queue;
  k_request : list Z;
  k_out : list outev }.
#[export] Instance set_k_cpu : Setter k_cpu := λ g x,
  mkK (g (k_cpu x)) (k_held x) (k_mem x) (k_kmem x) (k_kpgdir x) (k_procs x)
    (k_pv x) (k_conts x) (k_files x) (k_pipes x) (k_icache x) (k_sb x)
    (k_bufs x) (k_mru x) (k_log x) (k_disk x) (k_input x) (k_cons x)
    (k_ide x) (k_mp x) (k_ticks x) (k_Trace x) (k_count x) (k_msgQueue x)
    (k_request x) (k_out x).
#[export] Instance set_k_held : Setter k_held := λ g x,
  mkK (k_cpu x) (g (k_held x)) (k_mem x) (k_kmem x) (k_kpgdir x) (k_procs x)
    (k_pv x) (k_conts x) (k_files x) (k_pipes x) (k_icache x) (k_sb x)
    (k_bufs x) (k_mru x) (k_log x) (k_disk x) (k_input x) (k_cons x)
    (k_ide x) (k_mp x) (k_ticks x) (k_Trace x) (k_count x) (k_msgQueue x)
    (k_request x) (k_out x).
#[export] Instance set_k_mem : Setter k_mem := λ g x,
  mkK (k_cpu x) (k_held x) (g (k_mem x)) (k_kmem x) (k_kpgdir x) (k_procs x)
    (k_pv x) (k_conts x) (k_files x) (k_pipes x) (k_icache x) (k_sb x)
    (k_bufs x) (k_mru x) (k_log x) (k_disk x) (k_input x) (k_cons x)
    (k_ide x) (k_mp x) (k_ticks x) (k_Trace x) (k_count x) (k_msgQueue x)
    (k_request x) (k_out x).
#[export] Instance set_k_kmem : Setter k_kmem := λ g x,
  mkK (k_cpu x) (k_held x) (k_mem x) (g (k_kmem x)) (k_kpgdir x) (k_procs x)
    (k_pv x) (k_conts x) (k_files x) (k_pipes x) (k_icache x) (k_sb x)
    (k_bufs x) (k_mru x) (k_log x) (k_disk x) (k_input x) (k_cons x)
    (k_ide x) (k_mp x) (k_ticks x) (k_Trace x) (k_count x) (k_msgQueue x)
    (k_request x) (k_out x).
#[export] Instance set_k_kpgdir : Setter k_kpgdir := λ g x,
  mkK (k_cpu x) (k_held x) (k_mem x) (k_kmem x) (g (k_kpgdir x)) (k_procs x)
    (k_pv x) (k_conts x) (k_files x) (k_pipes x) (k_icache x) (k_sb x)
    (k_bufs x) (k_mru x) (k_log x) (k_disk x) (k_input x) (k_cons x)
    (k_ide x) (k_mp x) (k_ticks x) (k_Trace x) (k_count x) (k_msgQueue x)
    (k_request x) (k_out x).
#[export] Instance set_k_procs : Setter k_procs := λ g x,
  mkK (k_cpu x) (k_held x) (k_mem x) (k_kmem x) (k_kpgdir x) (g (k_procs x))
    (k_pv x) (k_conts x) (k_files x) (k_pipes x) (k_icache x) (k_sb x)
    (k_bufs x) (k_mru x) (k_log x) (k_disk x) (k_input x) (k_cons x)
    (k_ide x) (k_mp x) (k_ticks x) (k_Trace x) (k_count x) (k_msgQueue x)
    (k_request x) (k_out x).
#[export] Instance set_k_pv : Setter k_pv := λ g x,
  mkK (k_cpu x) (k_held x) (k_mem x) (k_kmem x) (k_kpgdir x) (k_procs x)
    (g (k_pv x)) (k_conts x) (k_files x) (k_pipes x) (k_icache x) (k_sb x)
    (k_bufs x) (k_mru x) (k_log x) (k_disk x) (k_input x) (k_cons x)
    (k_ide x) (k_mp x) (k_ticks x) (k_Trace x) (k_count x) (k_msgQueue x)
    (k_request x) (k_out x).
#[export] Instance set_k_conts : Setter k_conts := λ g x,
  mkK (k_cpu x) (k_held x) (k_mem x) (k_kmem x) (k_kpgdir x) (k_procs x)
    (k_pv x) (g (k_conts x)) (k_files x) (k_pipes x) (k_icache x) (k_sb x)
    (k_bufs x) (k_mru x) (k_log x) (k_disk x) (k_input x) (k_cons x)
    (k_ide x) (k_mp x) (k_ticks x) (k_Trace x) (k_count x) (k_msgQueue x)
    (k_request x) (k_out x).
#[export] Instance set_k_files : Setter k_files := λ g x,
  mkK (k_cpu x) (k_held x) (k_mem x) (k_kmem x) (k_kpgdir x) (k_procs x)
    (k_pv x) (k_conts x) (g (k_files x)) (k_pipes x) (k_icache x) (k_sb x)
    (k_bufs x) (k_mru x) (k_log x) (k_disk x) (k_input x) (k_cons x)
    (k_ide x) (k_mp x) (k_ticks x) (k_Trace x) (k_count x) (k_msgQueue x)
    (k_request x) (k_out x).
#[export] Instance set_k_pipes : Setter k_pipes := λ g x,
  mkK (k_cpu x) (k_held x) (k_mem x) (k_kmem x) (k_kpgdir x) (k_procs x)
    (k_pv x) (k_conts x) (k_files x) (g (k_pipes x)) (k_icache x) (k_sb x)
    (k_bufs x) (k_mru x) (k_log x) (k_disk x) (k_input x) (k_cons x)
    (k_ide x) (k_mp x) (k_ticks x) (k_Trace x) (k_count x) (k_msgQueue x)
    (k_request x) (k_out x).
#[export] Instance set_k_icache : Setter k_icache := λ g x,
  mkK (k_cpu x) (k_held x) (k_mem x) (k_kmem x) (k_kpgdir x) (k_procs x)
    (k_pv x) (k_conts x) (k_files x) (k_pipes x) (g (k_icache x)) (k_sb x)
    (k_bufs x) (k_mru x) (k_log x) (k_disk x) (k_input x) (k_cons x)
    (k_ide x) (k_mp x) (k_ticks x) (k_Trace x) (k_count x) (k_msgQueue x)
    (k_request x) (k_out x).
#[export] Instance set_k_sb : Setter k_sb := λ g x,
  mkK (k_cpu x) (k_held x) (k_mem x) (k_kmem x) (k_kpgdir x) (k_procs x)
    (k_pv x) (k_conts x) (k_files x) (k_pipes x) (k_icache x) (g (k_sb x))
    (k_bufs x) (k_mru x) (k_log x) (k_disk x) (k_input x) (k_cons x)
    (k_ide x) (k_mp x) (k_ticks x) (k_Trace x) (k_count x) (k_msgQueue x)
    (k_request x) (k_out x).
#[export] Instance set_k_bufs : Setter k_bufs := λ g x,
  mkK (k_cpu x) (k_held x) (k_mem x) (k_kmem x) (k_kpgdir x) (k_procs x)
    (k_pv x) (k_conts x) (k_files x) (k_pipes x) (k_icache x) (k_sb x)
    (g (k_bufs x)) (k_mru x) (k_log x) (k_disk x) (k_input x) (k_cons x)
    (k_ide x) (k_mp x) (k_ticks x) (k_Trace x) (k_count x) (k_msgQueue x)
    (k_request x) (k_out x).
#[export] Instance set_k_mru : Setter k_mru := λ g x,
  mkK (k_cpu x) (k_held x) (k_mem x) (k_kmem x) (k_kpgdir x) (k_procs x)
    (k_pv x) (k_conts x) (k_files x) (k_pipes x) (k_icache x) (k_sb x)
    (k_bufs x) (g (k_mru x)) (k_log x) (k_disk x) (k_input x) (k_cons x)
    (k_ide x) (k_mp x) (k_ticks x) (k_Trace x) (k_count x) (k_msgQueue x)
    (k_request x) (k_out x).
#[export] Instance set_k_log : Setter k_log := λ g x,
  mkK (k_cpu x) (k_held x) (k_mem x) (k_kmem x) (k_kpgdir x) (k_procs x)
    (k_pv x) (k_conts x) (k_files x) (k_pipes x) (k_icache x) (k_sb x)
    (k_bufs x) (k_mru x) (g (k_log x)) (k_disk x) (k_input x) (k_cons x)
    (k_ide x) (k_mp x) (k_ticks x) (k_Trace x) (k_count x) (k_msgQueue x)
    (k_request x) (k_out x).
#[export] Instance set_k_disk : Setter k_disk := λ g x,
  mkK (k_cpu x) (k_held x) (k_mem x) (k_kmem x) (k_kpgdir x) (k_procs x)
    (k_pv x) (k_conts x) (k_files x) (k_pipes x) (k_icache x) (k_sb x)
    (k_bufs x) (k_mru x) (k_log x) (g (k_disk x)) (k_input x) (k_cons x)
    (k_ide x) (k_mp x) (k_ticks x) (k_Trace x) (k_count x) (k_msgQueue x)
    (k_request x) (k_out x).
#[export] Instance set_k_input : Setter k_input := λ g x,
  mkK (k_cpu x) (k_held x) (k_mem x) (k_kmem x) (k_kpgdir x) (k_procs x)
    (k_pv x) (k_conts x) (k_files x) (k_pipes x) (k_icache x) (k_sb x)
    (k_bufs x) (k_mru x) (k_log x) (k_disk x) (g (k_input x)) (k_cons x)
    (k_ide x) (k_mp x) (k_ticks x) (k_Trace x) (k_count x) (k_msgQueue x)
    (k_request x) (k_out x).
#[export] Instance set_k_cons : Setter k_cons := λ g x,
  mkK (k_cpu x) (k_held x) (k_mem x) (k_kmem x) (k_kpgdir x) (k_procs x)
    (k_pv x) (k_conts x) (k_files x) (k_pipes x) (k_icache x) (k_sb x)
    (k_bufs x) (k_mru x) (k_log x) (k_disk x) (k_input x) (g (k_cons x))
    (k_ide x) (k_mp x) (k_ticks x) (k_Trace x) (k_count x) (k_msgQueue x)
    (k_request x) (k_out x).
#[export] Instance set_k_ide : Setter k_ide := λ g x,
  mkK (k_cpu x) (k_held x) (k_mem x) (k_kmem x) (k_kpgdir x) (k_procs x)
    (k_pv x) (k_conts x) (k_files x) (k_pipes x) (k_icache x) (k_sb x)
    (k_bufs x) (k_mru x) (k_log x) (k_disk x) (k_input x) (k_cons x)
    (g (k_ide x)) (k_mp x) (k_ticks x) (k_Trace x) (k_count x)
    (k_msgQueue x) (k_request x) (k_out x).
#[export] Instance set_k_mp : Setter k_mp := λ g x,
  mkK (k_cpu x) (k_held x) (k_mem x) (k_kmem x) (k_kpgdir x) (k_procs x)
    (k_pv x) (k_conts x) (k_files x) (k_pipes x) (k_icache x) (k_sb x)
    (k_bufs x) (k_mru x) (k_log x) (k_disk x) (k_input x) (k_cons x)
    (k_ide x) (g (k_mp x)) (k_ticks x) (k_Trace x) (k_count x)
    (k_msgQueue x) (k_request x) (k_out x).
#[export] Instance set_k_ticks : Setter k_ticks := λ g x,
  mkK (k_cpu x) (k_held x) (k_mem x) (k_kmem x) (k_kpgdir x) (k_procs x)
    (k_pv x) (k_conts x) (k_files x) (k_pipes x) (k_icache x) (k_sb x)
    (k_bufs x) (k_mru x) (k_log x) (k_disk x) (k_input x) (k_cons x)
    (k_ide x) (k_mp x) (g (k_ticks x)) (k_Trace x) (k_count x)
    (k_msgQueue x) (k_request x) (k_out x).
#[export] Instance set_k_Trace : Setter k_Trace := λ g x,
  mkK (k_cpu x) (k_held x) (k_mem x) (k_kmem x) (k_kpgdir x) (k_procs x)
    (k_pv x) (k_conts x) (k_files x) (k_pipes x) (k_icache x) (k_sb x)
    (k_bufs x) (k_mru x) (k_log x) (k_disk x) (k_input x) (k_cons x)
    (k_ide x) (k_mp x) (k_ticks x) (g (k_Trace x)) (k_count x)
    (k_msgQueue x) (k_request x) (k_out x).
#[export] Instance set_k_count : Setter k_count := λ g x,
  mkK (k_cpu x) (k_held x) (k_mem x) (k_kmem x) (k_kpgdir x) (k_procs x)
    (k_pv x) (k_conts x) (k_files x) (k_pipes x) (k_icache x) (k_sb x)
    (k_bufs x) (k_mru x) (k_log x) (k_disk x) (k_input x) (k_cons x)
    (k_ide x) (k_mp x) (k_ticks x) (k_Trace x) (g (k_count x))
    (k_msgQueue x) (k_request x) (k_out x).
#[export] Instance set_k_msgQueue : Setter k_msgQueue := λ g x,
  mkK (k_cpu x) (k_held x) (k_mem x) (k_kmem x) (k_kpgdir x) (k_procs x)
    (k_pv x) (k_conts x) (k_files x) (k_pipes x) (k_icache x) (k_sb x)
    (k_bufs x) (k_mru x) (k_log x) (k_disk x) (k_input x) (k_cons x)
    (k_ide x) (k_mp x) (k_ticks x) (k_Trace x) (k_count x)
    (g (k_msgQueue x)) (k_request x) (k_out x).
#[export] Instance set_k_request : Setter k_request := λ g x,
  mkK (k_cpu x) (k_held x) (k_mem x) (k_kmem x) (k_kpgdir x) (k_procs x)
    (k_pv x) (k_conts x) (k_files x) (k_pipes x) (k_icache x) (k_sb x)
    (k_bufs x) (k_mru x) (k_log x) (k_disk x) (k_input x) (k_cons x)
    (k_ide x) (k_mp x) (k_ticks x) (k_Trace x) (k_count x) (k_msgQueue x)
    (g (k_request x)) (k_out x).
#[export] Instance set_k_out : Setter k_out := λ g x,
  mkK (k_cpu x) (k_held x) (k_mem x) (k_kmem x) (k_kpgdir x) (k_procs x)
    (k_pv x) (k_conts x) (k_files x) (k_pipes x) (k_icache x) (k_sb x)
    (k_bufs x) (k_mru x) (k_log x) (k_disk x) (k_input x) (k_cons x)
    (k_ide x) (k_mp x) (k_ticks x) (k_Trace x) (k_count x) (k_msgQueue x)
    (k_request x) (g (k_out x)).

Abbreviation K := (M kst).

(** Output. *)
Definition cprintf (fmt : string) (args : list parg) : K unit :=
  modify (λ s, s <| k_out ::= cons (Cprintf fmt args) |>).
Definition outb (port v : Z) : K unit :=
  modify (λ s, s <| k_out ::= cons (Outb port v) |>).

(** Entries of the fixed tables.  An index outside its table is an access C
    leaves undefined. *)
Definition get_proc (i : nat) : K proc :=
  s ← gets k_procs; deref "ptable.proc: index out of range" (s !! i).
Definition upd_proc (i : nat) (f : proc → proc) : K unit :=
  p ← get_proc i; modify (λ s, s <| k_procs ::= <[i := f p]> |>).
(** [l[i]] for a C array: reading outside it is undefined. *)
Definition at_ {A} (why : string) (l : list A) (i : Z) : K A :=
  if decide (0 ≤ i) then deref why (l !! Z.to_nat i) else fault why.
Definition get_cont (i : Z) : K container :=
  s ← gets k_conts;
  if decide (0 ≤ i) then deref "ctable.container: index out of range" (s !! Z.to_nat i)
  else fault "ctable.container: negative index".
Definition upd_cont (i : Z) (f : container → container) : K unit :=
  c ← get_cont i; modify (λ s, s <| k_conts ::= <[Z.to_nat i := f c]> |>).
Definition get_file (i : nat) : K file :=
  s ← gets k_files; deref "ftable.file: index out of range" (s !! i).
Definition upd_file (i : nat) (f : file → file) : K unit :=
  x ← get_file i; modify (λ s, s <| k_files ::= <[i := f x]> |>).
Definition get_inode (i : nat) : K inode :=
  s ← gets k_icache; deref "icache.inode: index out of range" (s !! i).
Definition upd_inode (i : nat) (f : inode → inode) : K unit :=
  x ← get_inode i; modify (λ s, s <| k_icache ::= <[i := f x]> |>).
Definition get_buf (i : nat) : K buf :=
  s ← gets k_bufs; deref "bcache.buf: index out of range" (s !! i).
Definition upd_buf (i : nat) (f : buf → buf) : K unit :=
  x ← get_buf i; modify (λ s, s <| k_bufs ::= <[i := f x]> |>).
Definition get_pipe (p : Z) : K pipe :=
  s ← gets k_pipes; deref "pipe: not a pipe" (s !! p).
Definition upd_pipe (p : Z) (f : pipe → pipe) : K unit :=
  x ← get_pipe p; modify (λ s, s <| k_pipes ::= <[p := f x]> |>).

(** Zero-initialised entries (C's static storage). *)
Definition tf0 : trapframe := mkTf 0 0 0 0 0 0 0 0 0 0 0 0 0 0 0 0 0 0 0.
Definition ctx0 : context := mkCtx 0 0 0 0 0.
Definition proc0 : proc :=
  mkProc 0 0 0 UNUSED 0 None 0 tf0 0 ctx0 None 0 (replicate NOFILE None) None
    (replicate 16 0) 0.
Definition cont0 : container :=
  mkCont BLANK (replicate PROCESS_COUNT None) (replicate PROCESS_COUNT 0) 0 0
    (replicate MCONT 0) 0 (replicate MCONT (mkCmap 0 0 0 0)).
Definition file0 : file := mkFile FD_NONE 0 false false 0 None 0.
Definition slock0 : sleeplock := mkSleeplock false 0.
Definition inode0 : inode := mkInode 0 0 0 slock0 false 0 0 0 0 0 (replicate 13 0) 0.
Definition buf0 : buf := mkBuf false false 0 0 slock0 0 (replicate 512 0) None.
Definition pvars0 : pvars := mkPvars 1 None 0 0 0 0 0 0.
Definition cpu0 : cpu := mkCpu 0 false false None (replicate 6 seg_null) 0 0 0 0.
(** The state in which the kernel's data segment is loaded. *)
Definition kst0 : kst :=
  mkK cpu0 [] ∅ (mkKmem false 0) 0 (replicate NPROC proc0) pvars0
    (replicate NCONT cont0) (replicate NFILE file0) ∅ (replicate NINODE inode0)
    (mkSb 0 0 0 0 0 0 0) (replicate NBUF buf0) [] (mkLog 0 0 0 false 0 0 (replicate 30 0))
    ∅ (mkInput (replicate 128 0) 0 0 0) (mkCons false false 0) (mkIde None false)
    (mkMp (replicate 8 0) 0 0 0) 0 0
    (replicate 37 0)
    (replicate NPROC (mkQueue 0 0)) (replicate NPROC 0) [].

(** [ksimpl] computes the projections of updated records; [kunfold] turns an
    updated record into its constructor form. *)
Ltac kunfold := cbv beta delta [set set_ncli set_intena set_if_flag set_c_proc set_gdt set_ts_ss0 set_ts_esp0
  set_ts_iomb set_cr3 set_tf_edi set_tf_esi set_tf_ebp set_tf_oesp
  set_tf_ebx set_tf_edx set_tf_ecx set_tf_eax set_tf_gs set_tf_fs set_tf_es
  set_tf_ds set_tf_trapno set_tf_err set_tf_eip set_tf_cs set_tf_eflags
  set_tf_esp set_tf_ss set_cx_edi set_cx_esi set_cx_ebx set_cx_ebp
  set_cx_eip set_p_sz set_p_pgdir set_p_kstack set_p_state set_p_pid
  set_p_parent set_p_tfp set_p_tf set_p_contextp set_p_context set_p_chan
  set_p_killed set_p_ofile set_p_cwd set_p_name set_p_containerID
  set_cm_virt set_cm_phys_start set_cm_phys_end set_cm_pid set_ct_state
  set_ct_process set_ct_schedulerHelper set_ct_done set_ct_generatedProcess
  set_ct_startAddr set_ct_used set_ct_memory set_nextpid set_initproc
  set_allocFor set_containerNum set_scheduler_log set_scheduler_history
  set_memory_log set_memory_history set_use_lock set_freelist set_f_type
  set_f_ref set_f_readable set_f_writable set_f_pipe set_f_ip set_f_off
  set_pi_data set_pi_nread set_pi_nwrite set_pi_readopen set_pi_writeopen
  set_sl_locked set_sl_pid set_i_dev set_i_inum set_i_ref set_i_lock
  set_i_valid set_i_type set_i_major set_i_minor set_i_nlink set_i_size
  set_i_addrs set_i_containerID set_sb_size set_sb_nblocks set_sb_ninodes
  set_sb_nlog set_sb_logstart set_sb_inodestart set_sb_bmapstart set_b_valid
  set_b_dirty set_b_dev set_b_blockno set_b_lock set_b_refcnt set_b_data set_b_qnext
  set_lg_start set_lg_size set_lg_outstanding set_lg_committing set_lg_dev
  set_lh_n set_lh_block set_in_buf set_in_r set_in_w set_in_e set_cn_locking set_cn_uart set_cn_shift set_id_queue set_id_disk1 set_mp_apicids set_mp_ncpu set_mp_ioapicid
  set_mp_lapic set_q_front
  set_q_rear set_k_cpu set_k_held set_k_mem set_k_kmem set_k_kpgdir
  set_k_procs set_k_pv set_k_conts set_k_files set_k_pipes set_k_icache
  set_k_sb set_k_bufs set_k_mru set_k_log set_k_disk set_k_input set_k_cons set_k_ide set_k_mp set_k_ticks
  set_k_Trace set_k_count set_k_msgQueue set_k_request set_k_out] in *.
Ltac ksimpl := cbn in *.
(** Compute the applications of the projection [f] in the goal. *)
Ltac kproj f :=
  repeat match goal with
  | |- context [f ?x] =>
      progress (let v := eval cbn in (f x) in change (f x) with v)
  end.

Lemma kst_ext (s s' : kst) :
  k_cpu s = k_cpu s' → k_held s = k_held s' → k_mem s = k_mem s' →
  k_kmem s = k_kmem s' → k_kpgdir s = k_kpgdir s' → k_procs s = k_procs s' →
  k_pv s = k_pv s' → k_conts s = k_conts s' → k_files s = k_files s' →
  k_pipes s = k_pipes s' → k_icache s = k_icache s' → k_sb s = k_sb s' →
  k_bufs s = k_bufs s' → k_mru s = k_mru s' → k_log s = k_log s' →
  k_disk s = k_disk s' → k_input s = k_input s' → k_cons s = k_cons s' → k_ide s = k_ide s' → k_mp s = k_mp s' → k_ticks s = k_ticks s' →
  k_Trace s = k_Trace s' → k_count s = k_count s' → k_msgQueue s = k_msgQueue s' →
  k_request s = k_request s' → k_out s = k_out s' →
  s = s'.
Proof. destruct s, s'; cbn; intros; subst; done. Qed.
(** Two states are equal when their (computed) fields are: leaves the fields
    on which they differ. *)
Ltac kfields := cbn [set set_k_cpu set_k_held set_k_mem set_k_kmem set_k_kpgdir set_k_procs set_k_pv set_k_conts set_k_files set_k_pipes set_k_icache set_k_sb set_k_bufs set_k_mru set_k_log set_k_disk set_k_input set_k_cons set_k_ide set_k_mp set_k_ticks set_k_Trace set_k_count set_k_msgQueue set_k_request set_k_out
  k_cpu k_held k_mem k_kmem k_kpgdir k_procs k_pv k_conts k_files k_pipes k_icache k_sb k_bufs k_mru k_log k_disk k_input k_cons k_ide k_mp k_ticks k_Trace k_count k_msgQueue k_request k_out].
Ltac kst_eq :=
  try match goal with
  | |- Done _ _ = Done _ _ => apply (f_equal2 Done); [try reflexivity |]
  | |- Switch _ = Switch _ => apply (f_equal Switch)
  | |- Panic _ _ = Panic _ _ => apply (f_equal (Panic _))
  end;
  try match goal with
  | |- @eq kst _ _ => apply kst_ext; kfields; try reflexivity
  end.

(** ** Equations for the table accessors *)

Lemma get_proc_run i x s : k_procs s !! i = Some x → get_proc i s = Done x s.
Proof. intros H. unfold get_proc. by rewrite bind_gets, H. Qed.
Lemma get_proc_bind {B} i (k : proc → K B) x s :
  k_procs s !! i = Some x → (get_proc i ≫= k) s = k x s.
Proof. intros H. by apply bind_done, get_proc_run. Qed.
Lemma upd_proc_run i g x s :
  k_procs s !! i = Some x → upd_proc i g s = Done tt (s <| k_procs ::= <[i := g x]> |>).
Proof. intros H. unfold upd_proc. by rewrite (get_proc_bind _ _ x). Qed.
Lemma upd_proc_bind {B} i g (k : unit → K B) x s :
  k_procs s !! i = Some x → (upd_proc i g ≫= k) s = k tt (s <| k_procs ::= <[i := g x]> |>).
Proof. intros H. by apply bind_done, upd_proc_run. Qed.

Lemma get_file_run i x s : k_files s !! i = Some x → get_file i s = Done x s.
Proof. intros H. unfold get_file. by rewrite bind_gets, H. Qed.
Lemma get_file_bind {B} i (k : file → K B) x s :
  k_files s !! i = Some x → (get_file i ≫= k) s = k x s.
Proof. intros H. by apply bind_done, get_file_run. Qed.
Lemma upd_file_run i g x s :
  k_files s !! i = Some x → upd_file i g s = Done tt (s <| k_files ::= <[i := g x]> |>).
Proof. intros H. unfold upd_file. by rewrite (get_file_bind _ _ x). Qed.
Lemma upd_file_bind {B} i g (k : unit → K B) x s :
  k_files s !! i = Some x → (upd_file i g ≫= k) s = k tt (s <| k_files ::= <[i := g x]> |>).
Proof. intros H. by apply bind_done, upd_file_run. Qed.

Lemma get_inode_run i x s : k_icache s !! i = Some x → get_inode i s = Done x s.
Proof. intros H. unfold get_inode. by rewrite bind_gets, H. Qed.
Lemma get_inode_bind {B} i (k : inode → K B) x s :
  k_icache s !! i = Some x → (get_inode i ≫= k) s = k x s.
Proof. intros H. by apply bind_done, get_inode_run. Qed.
Lemma upd_inode_run i g x s :
  k_icache s !! i = Some x → upd_inode i g s = Done tt (s <| k_icache ::= <[i := g x]> |>).
Proof. intros H. unfold upd_inode. by rewrite (get_inode_bind _ _ x). Qed.
Lemma upd_inode_bind {B} i g (k : unit → K B) x s :
  k_icache s !! i = Some x → (upd_inode i g ≫= k) s = k tt (s <| k_icache ::= <[i := g x]> |>).
Proof. intros H. by apply bind_done, upd_inode_run. Qed.

Lemma get_buf_run i x s : k_bufs s !! i = Some x → get_buf i s = Done x s.
Proof. intros H. unfold get_buf. by rewrite bind_gets, H. Qed.
Lemma get_buf_bind {B} i (k : buf → K B) x s :
  k_bufs s !! i = Some x → (get_buf i ≫= k) s = k x s.
Proof. intros H. by apply bind_done, get_buf_run. Qed.
Lemma upd_buf_run i g x s :
  k_bufs s !! i = Some x → upd_buf i g s = Done tt (s <| k_bufs ::= <[i := g x]> |>).
Proof. intros H. unfold upd_buf. by rewrite (get_buf_bind _ _ x). Qed.
Lemma upd_buf_bind {B} i g (k : unit → K B) x s :
  k_bufs s !! i = Some x → (upd_buf i g ≫= k) s = k tt (s <| k_bufs ::= <[i := g x]> |>).
Proof. intros H. by apply bind_done, upd_buf_run. Qed.

Lemma get_pipe_run i x s : k_pipes s !! i = Some x → get_pipe i s = Done x s.
Proof. intros H. unfold get_pipe. by rewrite bind_gets, H. Qed.
Lemma get_pipe_bind {B} i (k : pipe → K B) x s :
  k_pipes s !! i = Some x → (get_pipe i ≫= k) s = k x s.
Proof. intros H. by apply bind_done, get_pipe_run. Qed.
Lemma upd_pipe_run i g x s :
  k_pipes s !! i = Some x → upd_pipe i g s = Done tt (s <| k_pipes ::= <[i := g x]> |>).
Proof. intros H. unfold upd_pipe. by rewrite (get_pipe_bind _ _ x). Qed.
Lemma upd_pipe_bind {B} i g (k : unit → K B) x s :
  k_pipes s !! i = Some x → (upd_pipe i g ≫= k) s = k tt (s <| k_pipes ::= <[i := g x]> |>).
Proof. intros H. by apply bind_done, upd_pipe_run. Qed.

Lemma get_cont_bind {B} i (k : container → K B) x s :
  0 ≤ i → k_conts s !! Z.to_nat i = Some x → (get_cont i ≫= k) s = k x s.
Proof.
  intros Hi H. apply bind_done. unfold get_cont.
  by rewrite bind_gets, decide_True, H by done.
Qed.
Lemma upd_cont_run i g x s :
  0 ≤ i → k_conts s !! Z.to_nat i = Some x →
  upd_cont i g s = Done tt (s <| k_conts ::= <[Z.to_nat i := g x]> |>).
Proof. intros Hi H. unfold upd_cont. by rewrite (get_cont_bind _ _ x). Qed.
Lemma upd_cont_bind {B} i g (k : unit → K B) x s :
  0 ≤ i → k_conts s !! Z.to_nat i = Some x →
  (upd_cont i g ≫= k) s = k tt (s <| k_conts ::= <[Z.to_nat i := g x]> |>).
Proof. intros Hi H. by apply bind_done, upd_cont_run. Qed.
Lemma at_bind {A B} why (l : list A) i (k : A → K B) x s :
  0 ≤ i → l !! Z.to_nat i = Some x → (at_ why l i ≫= k) s = k x s.
Proof. intros Hi H. apply bind_done. unfold at_. by rewrite decide_True, H by done. Qed.
Lemma at_out {A} why (l : list A) i (s : kst) :
  ¬ (0 ≤ i < Z.of_nat (length l)) → at_ why l i s = Fault why.
Proof.
  intros Hi. unfold at_. case_decide; [| done].
  by rewrite lookup_ge_None_2 by lia.
Qed.
