(* ===== verification/Spinlock.v ===== *)
(** * spinlock.c

    Two views of the spin locks.  The first half is what the rest of the
    library runs on: [pushcli], [popcli], [holding], [acquire] and [release] as
    the executing CPU performs them on the kernel state ([k_held] is the set of
    locks whose [cpu] field points to this CPU).  The second half, Module
    [Spin], is the protocol itself with several CPUs interleaving at the atomic
    [xchg], and its refinement to an abstract lock. *)
From S2P Require Import Prelude Mmu Cstring Kstate.

Definition cli : K unit := modify (λ s, s <| k_cpu ::= λ c, c <| if_flag := false |> |>).
Definition sti : K unit := modify (λ s, s <| k_cpu ::= λ c, c <| if_flag := true |> |>).
Definition upd_cpu (f : cpu → cpu) : K unit := modify (λ s, s <| k_cpu ::= f |>).

(** proc.c: the search through [cpus] for this CPU's APIC id always ends at the
    executing CPU, [k_cpu]. *)
Definition mycpu : K cpu :=
  c ← gets k_cpu;
  if if_flag c then panic "mycpu called with interrupts enabled" else mret c.

Definition pushcli : K unit :=
  eflags ← gets (λ s, if_flag (k_cpu s));
  cli;;
  c ← mycpu;
  mwhen (ncli c =? 0) (upd_cpu (λ c, c <| intena := eflags |>));;
  upd_cpu (λ c, c <| ncli ::= λ n, n + 1 |>).

Definition popcli : K unit :=
  c0 ← gets k_cpu;
  if if_flag c0 then panic "popcli - interruptible" else
  upd_cpu (λ c, c <| ncli ::= λ n, n - 1 |>);;
  c ← mycpu;
  if ncli c <? 0 then panic "popcli" else
  mwhen ((ncli c =? 0) && intena c)%bool sti.

Definition holding (l : lockid) : K bool :=
  pushcli;; h ← gets k_held; popcli;; mret (bool_decide (l ∈ h)).

Definition acquire (l : lockid) : K unit :=
  pushcli;;
  h ← holding l;
  if h : bool then panic "acquire" else
  modify (λ s, s <| k_held ::= cons l |>).

Definition release (l : lockid) : K unit :=
  h ← holding l;
  if negb h then panic "release" else
  modify (λ s, s <| k_held ::= filter (λ x, x ≠ l) |>);;
  popcli.

(** proc.c *)
Definition myproc : K (option nat) :=
  pushcli;; c ← mycpu; popcli;; mret (c_proc c).

(** ** What the lock operations do to the CPU *)

(** The state of a CPU between kernel instructions: [pushcli] depth is not
    negative, and interrupts are off while it is positive. *)
Definition cpu_ok (c : cpu) : Prop := 0 ≤ ncli c ∧ (0 < ncli c → if_flag c = false).

Definition push_cpu (c : cpu) : cpu :=
  c <| intena := if ncli c =? 0 then if_flag c else intena c |>
    <| if_flag := false |> <| ncli := ncli c + 1 |>.
(** A matched [pushcli]/[popcli] pair records the interrupt flag and changes
    nothing else. *)
Definition sync_cpu (c : cpu) : cpu :=
  c <| intena := if ncli c =? 0 then if_flag c else intena c |>.
Definition ksync (s : kst) : kst := s <| k_cpu ::= sync_cpu |>.
(** The state just after [acquire l] in state [s]. *)
Definition locked (l : lockid) (s : kst) : kst :=
  s <| k_cpu ::= push_cpu |> <| k_held ::= cons l |>.

Lemma push_cpu_ok c : cpu_ok c → cpu_ok (push_cpu c).
Proof. unfold cpu_ok. destruct c; cbn. intros [? ?]. split; [lia | done]. Qed.
Lemma sync_cpu_ok c : cpu_ok c → cpu_ok (sync_cpu c).
Proof. unfold cpu_ok. by destruct c. Qed.
Lemma sync_cpu_idem c : sync_cpu (sync_cpu c) = sync_cpu c.
Proof. unfold sync_cpu. destruct c as [n i f]; cbn. by destruct (n =? 0). Qed.
Lemma push_sync_cpu c : push_cpu (sync_cpu c) = push_cpu c.
Proof. unfold sync_cpu, push_cpu. destruct c as [n i f]; cbn. by destruct (n =? 0). Qed.
Lemma sync_push_cpu c : cpu_ok c → sync_cpu (push_cpu c) = push_cpu c.
Proof.
  unfold cpu_ok, sync_cpu, push_cpu. destruct c as [n i f]; cbn. intros [? _].
  destruct (Z.eqb_spec (n + 1) 0); [lia | done].
Qed.

Lemma pushcli_run s : pushcli s = Done tt (s <| k_cpu ::= push_cpu |>).
Proof.
  unfold pushcli, cli, mycpu, upd_cpu, mwhen, mbind, M_bind, obind, gets, modify, mret, M_ret, push_cpu.
  cbn. kunfold. cbn. by destruct (ncli (k_cpu s) =? 0).
Qed.

Lemma popcli_run c s :
  cpu_ok c → k_cpu s = push_cpu c → popcli s = Done tt (s <| k_cpu := sync_cpu c |>).
Proof.
  intros [Hn Hif] Hc. destruct s; cbn in Hc; subst. destruct c as [n i f]; cbn in Hn, Hif.
  unfold popcli, mycpu, upd_cpu, mwhen, sync_cpu, push_cpu, mbind, M_bind, obind, gets, modify, mret, M_ret.
  kunfold. cbn. replace (n + 1 - 1) with n by lia.
  destruct (Z.ltb_spec n 0); [lia |].
  destruct (Z.eqb_spec n 0) as [-> | Hne]; cbn; [by destruct f |].
  by rewrite Hif by lia.
Qed.

Lemma kpush_ok s : cpu_ok (k_cpu s) → cpu_ok (k_cpu (s <| k_cpu ::= push_cpu |>)).
Proof. exact (push_cpu_ok _). Qed.
Lemma popcli_push s :
  cpu_ok (k_cpu s) → popcli (s <| k_cpu ::= push_cpu |>) = Done tt (ksync s).
Proof. intros Hc. by rewrite (popcli_run (k_cpu s)). Qed.

Lemma holding_run l s :
  cpu_ok (k_cpu s) → holding l s = Done (bool_decide (l ∈ k_held s)) (ksync s).
Proof.
  intros Hc. unfold holding. rewrite (bind_done _ _ _ _ _ (pushcli_run s)), bind_gets.
  by rewrite (bind_done _ _ _ _ _ (popcli_push s Hc)).
Qed.

Lemma myproc_run s :
  cpu_ok (k_cpu s) → myproc s = Done (c_proc (k_cpu s)) (ksync s).
Proof.
  intros Hc. unfold myproc. rewrite (bind_done _ _ _ _ _ (pushcli_run s)).
  unfold mycpu. rewrite bind_assoc, bind_gets.
  change (if_flag (k_cpu (s <| k_cpu ::= push_cpu |>))) with false. cbv iota.
  rewrite bind_ret.
  by rewrite (bind_done _ _ _ _ _ (popcli_push s Hc)).
Qed.

Lemma acquire_run l s :
  cpu_ok (k_cpu s) → l ∉ k_held s → acquire l s = Done tt (locked l s).
Proof.
  intros Hc Hl. unfold acquire. rewrite (bind_done _ _ _ _ _ (pushcli_run s)).
  rewrite (bind_done _ _ _ _ _ (holding_run l _ (kpush_ok s Hc))).
  change (k_held (s <| k_cpu ::= push_cpu |>)) with (k_held s).
  rewrite bool_decide_eq_false_2 by done. unfold modify, locked, ksync.
  do 2 f_equal. destruct s; cbn in *. unfold set, set_k_cpu; cbn.
  by rewrite sync_push_cpu.
Qed.

Lemma acquire_held l s :
  cpu_ok (k_cpu s) → l ∈ k_held s → ∃ s', acquire l s = Panic "acquire" s'.
Proof.
  intros Hc Hl. unfold acquire. rewrite (bind_done _ _ _ _ _ (pushcli_run s)).
  rewrite (bind_done _ _ _ _ _ (holding_run l _ (kpush_ok s Hc))).
  change (k_held (s <| k_cpu ::= push_cpu |>)) with (k_held s).
  rewrite bool_decide_eq_true_2 by done. by eexists.
Qed.

Lemma filter_ne_id (l : lockid) (h : list lockid) : l ∉ h → filter (λ x, x ≠ l) h = h.
Proof.
  induction h as [| x h IH]; intros Hl; [done |].
  rewrite filter_cons_True by (intros ->; apply Hl; left).
  f_equal. apply IH. intros ?. apply Hl. by right.
Qed.

(** [release l] with CPU state [push_cpu c], [l] being one of the locks held. *)
Lemma release_in l s c :
  cpu_ok c → k_cpu s = push_cpu c → l ∈ k_held s →
  release l s =
    Done tt (s <| k_cpu := sync_cpu c |> <| k_held := filter (λ x, x ≠ l) (k_held s) |>).
Proof.
  intros Hc Hcpu Hl. unfold release.
  rewrite (bind_done _ _ _ _ _ (holding_run l s ltac:(rewrite Hcpu; by apply push_cpu_ok))).
  rewrite bool_decide_eq_true_2 by done. cbn [negb]. rewrite bind_modify.
  rewrite (popcli_run c); [done | done |].
  cbn. rewrite Hcpu. by apply sync_push_cpu.
Qed.

(** [release l] at the end of a critical section that began in CPU state [c]
    with the locks [h] held. *)
Lemma release_run l s c h :
  cpu_ok c → k_cpu s = push_cpu c → k_held s = l :: h → l ∉ h →
  release l s = Done tt (s <| k_cpu := sync_cpu c |> <| k_held := h |>).
Proof.
  intros Hc Hcpu Hh Hl. rewrite (release_in l s c) by (done || (rewrite Hh; left)).
  by rewrite Hh, filter_cons_False, filter_ne_id by tauto.
Qed.

(** The same, followed by the rest of the function. *)
Lemma myproc_bind {B} (f : option nat → K B) s :
  cpu_ok (k_cpu s) → (myproc ≫= f) s = f (c_proc (k_cpu s)) (ksync s).
Proof. intros. by apply bind_done, myproc_run. Qed.
Lemma acquire_bind {B} l (f : unit → K B) s :
  cpu_ok (k_cpu s) → l ∉ k_held s → (acquire l ≫= f) s = f tt (locked l s).
Proof. intros. by apply bind_done, acquire_run. Qed.
Lemma release_bind {B} l (f : unit → K B) s c h :
  cpu_ok c → k_cpu s = push_cpu c → k_held s = l :: h → l ∉ h →
  (release l ≫= f) s = f tt (s <| k_cpu := sync_cpu c |> <| k_held := h |>).
Proof. intros. by apply bind_done, release_run. Qed.

Lemma upd_cpu_bind {B} g (f : unit → K B) s :
  (upd_cpu g ≫= f) s = f tt (s <| k_cpu ::= g |>).
Proof. done. Qed.

(** getcallerpcs: follow the chain of saved frame pointers from [ebp]; at most
    ten return addresses, the rest of the array is zero. *)
Fixpoint getcallerpcs_walk (m : mem) (ebp : Z) (n : nat) : list Z :=
  match n with
  | O => []
  | S n =>
      if ((ebp =? 0) || (ebp <? KERNBASE) || (ebp =? 0xffffffff))%Z%bool
      then replicate (S n) 0
      else load32 m (u32 (ebp + 4)) :: getcallerpcs_walk m (load32 m ebp) n
  end.
Definition getcallerpcs (m : mem) (v : Z) : list Z :=
  getcallerpcs_walk m (u32 (v - 8)) 10.

Lemma getcallerpcs_length m v : length (getcallerpcs m v) = 10%nat.
Proof.
  unfold getcallerpcs. generalize (u32 (v - 8)). generalize 10%nat.
  induction n as [| n IH]; intros e; cbn [getcallerpcs_walk]; [done |].
  destruct (_ || _)%bool; [apply length_replicate | cbn; by rewrite IH].
Qed.

(** ** The protocol with several CPUs *)
Module Spin.
(** Where a CPU is in [acquire]/[release] of one lock.  [Spinning]: in the
    [xchg] loop.  [Got]: its [xchg] returned 0, [lk->cpu] not yet set.
    [Critical]: between the return of [acquire] and the call of [release].
    [Leaving]: [lk->cpu] cleared, [lk->locked] not yet. *)
Inductive pc := Idle | Spinning | Got | Critical | Leaving.
#[export] Instance pc_eq_dec : EqDecision pc.
Proof. solve_decision. Defined.

(** struct spinlock ([lk_cpu] is an index of [cpus], [None] for 0) and the
    program counters of the CPUs. *)
Record st := mkSt { lk_locked : Z; lk_cpu : option nat; pcs : list pc }.

Definition init (ncpu : nat) : st := mkSt 0 None (replicate ncpu Idle).

(** [holding(lk)] evaluated by CPU [i]. *)
Definition spin_holding (s : st) (i : nat) : bool :=
  (negb (lk_locked s =? 0) && bool_decide (lk_cpu s = Some i))%bool.

(** x86.h: xchg *)
Definition xchg (newval : Z) (s : st) : Z * st :=
  (lk_locked s, mkSt newval (lk_cpu s) (pcs s)).

Definition goto (i : nat) (p : pc) (s : st) : st :=
  mkSt (lk_locked s) (lk_cpu s) (<[i := p]> (pcs s)).

(** One atomic step of CPU [i]; [None]: the CPU panics. *)
Definition cpu_step (i : nat) (s : st) : option st :=
  match pcs s !! i with
  | None => Some s
  | Some Idle => (* acquire: if(holding(lk)) panic("acquire"); *)
      if spin_holding s i then None else Some (goto i Spinning s)
  | Some Spinning => (* while(xchg(&lk->locked, 1) != 0) ; *)
      let '(old, s') := xchg 1 s in
      Some (if old =? 0 then goto i Got s' else s')
  | Some Got => (* lk->cpu = mycpu(); *)
      Some (goto i Critical (mkSt (lk_locked s) (Some i) (pcs s)))
  | Some Critical => (* release: if(!holding(lk)) panic("release"); lk->cpu = 0; *)
      if negb (spin_holding s i) then None
      else Some (goto i Leaving (mkSt (lk_locked s) None (pcs s)))
  | Some Leaving => (* movl $0, lk->locked *)
      Some (goto i Idle (mkSt 0 (lk_cpu s) (pcs s)))
  end.

Inductive reachable (ncpu : nat) : st → Prop :=
  | reach_init : reachable ncpu (init ncpu)
  | reach_step s i s' : reachable ncpu s → cpu_step i s = Some s' → reachable ncpu s'.

(** CPU [i] owns the lock word. *)
Definition owns (p : pc) : bool :=
  match p with Got | Critical | Leaving => true | _ => false end.

(** The abstract lock: it has an owner or it has none. *)
Definition spec_step (o o' : option nat) : Prop :=
  (∃ i, o = None ∧ o' = Some i) ∨ (∃ i, o = Some i ∧ o' = None).

Definition owner_is (s : st) (o : option nat) : Prop :=
  ∀ i p, pcs s !! i = Some p → owns p = true ↔ o = Some i.

Record inv (s : st) (o : option nat) : Prop := {
  inv_owner : owner_is s o;
  inv_word : lk_locked s = match o with None => 0 | Some _ => 1 end;
  inv_dom : ∀ i, o = Some i → is_Some (pcs s !! i);
  inv_cpu : ∀ i, lk_cpu s = Some i ↔ pcs s !! i = Some Critical }.

Lemma spin_holding_iff s o i : inv s o → spin_holding s i = true ↔ pcs s !! i = Some Critical.
Proof.
  intros I. unfold spin_holding. rewrite andb_true_iff, bool_decide_eq_true, (inv_cpu _ _ I).
  split; [by intros [_ ?] | intros Hi; split; [| done]].
  pose proof (proj1 (inv_owner _ _ I i _ Hi) eq_refl) as Ho.
  by rewrite (inv_word _ _ I), Ho.
Qed.

(** Rebuilding the invariant when CPU [i] moves from [p] to [q]. *)
Lemma inv_move s i p q o o' w c :
  inv s o → pcs s !! i = Some p →
  (if owns p then o = Some i else True) →
  o' = (if owns q then Some i else if owns p then None else o) →
  (owns q = true → owns p = true ∨ o = None) →
  w = match o' with None => 0 | Some _ => 1 end →
  c = (if decide (q = Critical) then Some i
       else if decide (p = Critical) then None else lk_cpu s) →
  inv (goto i q (mkSt w c (pcs s))) o'.
Proof.
  intros I Hi Hp -> Hq -> ->.
  pose proof (inv_owner _ _ I) as Ho.
  split; cbn [goto lk_locked lk_cpu pcs] in *.
  - intros j r Hj. cbn in Hj. destruct (decide (i = j)) as [-> | Hne].
    + rewrite list_lookup_insert_eq in Hj by (by eapply lookup_lt_Some).
      simplify_eq. destruct (owns r) eqn:Er; [done |].
      split; [done |]. destruct (owns p) eqn:Ep; [done |].
      intros ->. pose proof (proj2 (Ho j p Hi) eq_refl). congruence.
    + rewrite list_lookup_insert_ne in Hj by done. rewrite (Ho j r Hj).
      destruct (owns q) eqn:Eq.
      * destruct (Hq eq_refl) as [Ep | ->]; [rewrite Ep in Hp; subst |]; split; congruence.
      * destruct (owns p); [subst; split; congruence | done].
  - done.
  - intros j Hj. destruct (decide (i = j)) as [-> | Hne].
    + rewrite list_lookup_insert_eq; eauto. by eapply lookup_lt_Some.
    + rewrite list_lookup_insert_ne by done. apply (inv_dom _ _ I).
      destruct (owns q); [congruence |]. by destruct (owns p).
  - intros j. destruct (decide (i = j)) as [-> | Hne].
    + rewrite list_lookup_insert_eq by (by eapply lookup_lt_Some).
      destruct (decide (q = Critical)) as [-> | Hqc]; [done |].
      destruct (decide (p = Critical)); [split; congruence |].
      rewrite (inv_cpu _ _ I), Hi. split; congruence.
    + rewrite list_lookup_insert_ne by done. rewrite <- (inv_cpu _ _ I).
      destruct (decide (q = Critical)) as [-> | Hqc].
      * split; [congruence |]. intros Hc. apply (inv_cpu _ _ I) in Hc.
        pose proof (proj1 (Ho _ _ Hc) eq_refl) as Hoj.
        destruct (Hq eq_refl) as [Ep | ->]; [rewrite Ep in Hp |]; congruence.
      * destruct (decide (p = Critical)) as [-> |]; [| done].
        split; [done |]. intros Hc. apply (inv_cpu _ _ I) in Hi. congruence.
Qed.

Lemma inv_init n : inv (init n) None.
Proof.
  split; cbn; [| done | done |].
  - intros i p Hp. apply lookup_replicate in Hp as [-> _]. done.
  - intros i. split; [done |]. intros Hp. apply lookup_replicate in Hp as [? _]. done.
Qed.

(** Every step keeps the invariant and is a step of the abstract lock or
    leaves its owner unchanged. *)
Lemma cpu_step_inv s o i s' :
  inv s o → cpu_step i s = Some s' →
  ∃ o', inv s' o' ∧ (o' = o ∨ spec_step o o').
Proof.
  intros I Hstep. unfold cpu_step in Hstep.
  destruct (pcs s !! i) as [p |] eqn:Hi; [| simplify_eq; eauto].
  assert (Hown : if owns p then o = Some i else True).
  { destruct (owns p) eqn:Ep; [| done]. by apply (inv_owner _ _ I i p Hi). }
  pose proof (inv_word _ _ I) as Hw.
  assert (Hmove : ∀ q o' w c, (if owns p then o = Some i else True) →
     o' = (if owns q then Some i else if owns p then None else o) →
     (owns q = true → owns p = true ∨ o = None) →
     w = match o' with None => 0 | Some _ => 1 end →
     c = (if decide (q = Critical) then Some i
          else if decide (p = Critical) then None else lk_cpu s) →
     inv (goto i q (mkSt w c (pcs s))) o') by (intros; by eapply inv_move).
  assert (Hid : s = mkSt (lk_locked s) (lk_cpu s) (pcs s)) by (by destruct s).
  destruct p; cbn in Hstep, Hown.
  - destruct (spin_holding s i); simplify_eq. exists o. split; [| by left].
    rewrite Hid. by apply Hmove.
  - destruct (Z.eqb_spec (lk_locked s) 0) as [H0 | H0]; simplify_eq.
    + destruct o as [o |]; [lia |]. exists (Some i). split; [| right; left; by eexists].
      apply Hmove; cbn; auto.
    + destruct o as [o |]; [| lia]. exists (Some o). split; [| by left].
      by rewrite <- Hw, <- Hid.
  - simplify_eq. exists (Some i). split; [| by left]. apply Hmove; cbn; auto.
  - destruct (negb (spin_holding s i)); simplify_eq. exists (Some i). split; [| by left].
    apply Hmove; cbn; auto.
  - simplify_eq. exists None. split; [| right; right; by eexists].
    apply Hmove; cbn; auto.
Qed.

Lemma reachable_inv n s : reachable n s → ∃ o, inv s o.
Proof.
  induction 1 as [| s i s' _ [o I] Hstep]; [eexists; apply inv_init |].
  destruct (cpu_step_inv _ _ _ _ I Hstep) as (o' & I' & _). eauto.
Qed.

(** C2: mutual exclusion, for every interleaving of the CPUs' atomic steps:
    at most one CPU is past its [xchg], and neither [panic("acquire")] nor
    [panic("release")] can be reached by CPUs that follow the protocol. *)
Theorem mutual_exclusion ncpu s :
  reachable ncpu s →
  (∀ i j p q, pcs s !! i = Some p → pcs s !! j = Some q →
     owns p = true → owns q = true → i = j) ∧
  (∀ i, cpu_step i s ≠ None).
Proof.
  intros [o I]%reachable_inv. split.
  - intros i j p q Hi Hj Hp Hq.
    apply (inv_owner _ _ I i p Hi) in Hp. apply (inv_owner _ _ I j q Hj) in Hq. congruence.
  - intros i. unfold cpu_step. destruct (pcs s !! i) as [p |] eqn:Hi; [| done].
    destruct p; try done.
    + destruct (spin_holding s i) eqn:Hh; [| done].
      apply (spin_holding_iff _ _ _ I) in Hh. congruence.
    + apply (spin_holding_iff _ _ _ I) in Hi. by rewrite Hi.
Qed.

Lemma mutual_exclusion_witness :
  ∃ s, cpu_step 1 (goto 0 Critical (mkSt 1 (Some 0%nat) (pcs (goto 1 Spinning (init 2))))) = Some s ∧
       ∀ i, cpu_step i s ≠ None.
Proof.
  eexists. split; [vm_compute; reflexivity |].
  apply (mutual_exclusion 2).
  apply (reach_step 2 (goto 0 Critical (mkSt 1 (Some 0%nat) (pcs (goto 1 Spinning (init 2))))) 1);
    [| vm_compute; reflexivity].
  apply (reach_step 2 (goto 0 Got (mkSt 1 None (pcs (goto 1 Spinning (init 2))))) 0);
    [| vm_compute; reflexivity].
  apply (reach_step 2 (goto 0 Spinning (goto 1 Spinning (init 2))) 0);
    [| vm_compute; reflexivity].
  apply (reach_step 2 (goto 1 Spinning (init 2)) 0); [| vm_compute; reflexivity].
  apply (reach_step 2 (init 2) 1); [constructor | vm_compute; reflexivity].
Defined.

(** the protocol implements the abstract lock: along every run there is
    an owner, changed only by taking a free lock and by its owner giving it
    up, such that the lock word says whether there is one and [holding]
    answers exactly "this CPU is in its critical section". *)
Theorem protocol_refines_lock ncpu s :
  reachable ncpu s →
  ∃ o, owner_is s o ∧ (lk_locked s = 0 ↔ o = None) ∧
    (∀ i, spin_holding s i = true ↔ pcs s !! i = Some Critical) ∧
    (∀ i s', cpu_step i s = Some s' →
       ∃ o', owner_is s' o' ∧ (o' = o ∨ spec_step o o')).
Proof.
  intros [o I]%reachable_inv. exists o. split_and!.
  - apply (inv_owner _ _ I).
  - rewrite (inv_word _ _ I). by destruct o.
  - intros i. by apply (spin_holding_iff _ _ _ I).
  - intros i s' Hs'. destruct (cpu_step_inv _ _ _ _ I Hs') as (o' & I' & ?).
    exists o'. split; [apply (inv_owner _ _ I') | done].
Qed.

Lemma protocol_refines_lock_witness :
  ∃ o, owner_is (goto 1 Spinning (init 2)) o ∧ o = None.
Proof.
  assert (Hr : reachable 2 (goto 1 Spinning (init 2)))
    by (apply (reach_step 2 (init 2) 1); [constructor | vm_compute; reflexivity]).
  destruct (protocol_refines_lock 2 _ Hr) as (o & Ho & Hw & _).
  exists o. split; [exact Ho | apply Hw; reflexivity].
Defined.
End Spin.
