(* ===== verification/Kalloc.v ===== *)
(** * kalloc.c: the physical page allocator

    The free list is threaded through the free pages themselves: the first
    word of a free page holds the address of the next one.  [kmem_inv s l] says
    that walking the list from [kmem.freelist] visits exactly the pages [l]. *)
From S2P Require Import Prelude Mmu Cstring Kstate Spinlock.

(** Addresses fixed by the linker (kernel.ld) and the boot blobs. *)
Class Linker := {
  kend : Z;          (* end: first address after the kernel image *)
  kdata : Z;         (* data: start of the kernel's read/write data *)
  trapret_addr : Z;  (* trapret, forkret: code addresses *)
  forkret_addr : Z;
  cpu_ts_addr : Z    (* &cpus[0].ts *)
}.
Class LinkerOk `{Linker} : Prop := {
  kend_range : KERNBASE + EXTMEM ≤ kend < KERNBASE + PHYSTOP;
  kdata_range : KERNLINK < kdata ≤ kend;
  kdata_aligned : page_aligned kdata
}.

Section kalloc.
Context {LK : Linker}.

Definition kfree (v : Z) : K unit :=
  if (negb (u32 v mod PGSIZE =? 0) || (v <? kend) || (V2P v >=? PHYSTOP))%Z%bool
  then panic "kfree" else
  modify (λ s, s <| k_mem ::= λ m, memset m v 1 PGSIZE |>);;
  ul ← gets (λ s, use_lock (k_kmem s));
  mwhen ul (acquire LKmem);;
  modify (λ s, s <| k_mem ::= λ m, store32 m v (freelist (k_kmem s)) |>);;
  modify (λ s, s <| k_kmem ::= λ k, k <| freelist := v |> |>);;
  mwhen ul (release LKmem).

Definition kalloc : K Z :=
  ul ← gets (λ s, use_lock (k_kmem s));
  mwhen ul (acquire LKmem);;
  r ← gets (λ s, freelist (k_kmem s));
  mwhen (negb (r =? 0))
    (modify (λ s, s <| k_kmem ::= λ k, k <| freelist := load32 (k_mem s) r |> |>));;
  mwhen ul (release LKmem);;
  mret r.

Fixpoint freerange_loop (fuel : nat) (p vend : Z) : K unit :=
  match fuel with
  | O => fault "freerange: out of fuel"
  | S fuel =>
      if p + PGSIZE <=? vend then kfree p;; freerange_loop fuel (p + PGSIZE) vend
      else mret tt
  end.
Definition freerange (vstart vend : Z) : K unit :=
  let p := PGROUNDUP vstart in
  freerange_loop (S (Z.to_nat ((vend - p) / PGSIZE))) p vend.

Definition kinit1 (vstart vend : Z) : K unit :=
  modify (λ s, s <| k_kmem ::= λ k, k <| use_lock := false |> |>);;
  freerange vstart vend.
Definition kinit2 (vstart vend : Z) : K unit :=
  freerange vstart vend;;
  modify (λ s, s <| k_kmem ::= λ k, k <| use_lock := true |> |>).

Fixpoint getContainerMemory_loop (n : nat) : K unit :=
  match n with
  | O => mret tt
  | S n =>
      r ← gets (λ s, freelist (k_kmem s));
      (if r =? 0 then cprintf "address : %p \n" [PInt r]
       else modify (λ s, s <| k_kmem ::= λ k, k <| freelist := load32 (k_mem s) r |> |>));;
      getContainerMemory_loop n
  end.
Definition getContainerMemory : K Z :=
  ul ← gets (λ s, use_lock (k_kmem s));
  mwhen ul (acquire LKmem);;
  temp ← gets (λ s, freelist (k_kmem s));
  getContainerMemory_loop 10;;
  mwhen ul (release LKmem);;
  mret temp.

(** ** The free list *)

Definition valid_page (a : Z) : Prop :=
  is_u32 a ∧ page_aligned a ∧ kend ≤ a ∧ V2P a < PHYSTOP.

Fixpoint free_list (m : mem) (h : Z) (l : list Z) : Prop :=
  match l with
  | [] => h = 0
  | a :: l => h = a ∧ free_list m (load32 m a) l
  end.

Record kmem_inv (s : kst) (l : list Z) : Prop := {
  ki_list : free_list (k_mem s) (freelist (k_kmem s)) l;
  ki_nodup : NoDup l;
  ki_valid : Forall valid_page l }.

(** The allocator can be entered: the CPU is between instructions and does
    not hold [kmem.lock]. *)
Definition kmem_ready (s : kst) : Prop := cpu_ok (k_cpu s) ∧ LKmem ∉ k_held s.

(** What locking leaves behind: with [use_lock] the interrupt flag has been
    recorded, without it nothing happened. *)
Definition locksync (s : kst) : kst := if use_lock (k_kmem s) then ksync s else s.

Lemma pages_apart a b : page_aligned a → page_aligned b → a ≠ b →
  a + PGSIZE ≤ b ∨ b + PGSIZE ≤ a.
Proof. unfold page_aligned, PGSIZE. intros. zlia. Qed.

Lemma free_list_frame m m' h l :
  free_list m h l → (∀ a, a ∈ l → load32 m' a = load32 m a) → free_list m' h l.
Proof.
  revert h. induction l as [| a l IH]; intros h; cbn; [done |].
  intros [-> Hl] Hm. split; [done |]. rewrite Hm by left.
  apply IH; [done |]. intros b Hb. apply Hm. by right.
Qed.

(** The page [p] may be overwritten without disturbing the other pages. *)
Definition same_outside (p : Z) (m m' : mem) : Prop :=
  ∀ a, a < p ∨ p + PGSIZE ≤ a → load8 m' a = load8 m a.

Lemma same_outside_load32 p m m' a :
  page_aligned p → page_aligned a → a ≠ p → same_outside p m m' →
  load32 m' a = load32 m a.
Proof.
  intros Hp Ha Hne Hm. apply load32_ext. intros i Hi. apply Hm.
  destruct (pages_apart a p); unfold PGSIZE in *; auto; lia.
Qed.

Lemma free_list_outside p m m' h l :
  page_aligned p → Forall valid_page l → p ∉ l → same_outside p m m' →
  free_list m h l → free_list m' h l.
Proof.
  intros Hp Hv Hnp Hm Hl. eapply free_list_frame; [done |]. intros a Ha.
  rewrite Forall_forall in Hv. destruct (Hv a Ha) as (_ & Hal & _).
  apply (same_outside_load32 p); [done | done | | done].
  intros Heq. apply Hnp. by rewrite <- Heq.
Qed.

Context `{!LinkerOk}.

Lemma valid_page_pos a : valid_page a → 0 < a.
Proof.
  intros (_ & _ & Hge & _). pose proof kend_range. unfold KERNBASE, EXTMEM in *. lia.
Qed.

Lemma valid_page_range a :
  valid_page a → KERNBASE + EXTMEM ≤ a ∧ a + PGSIZE ≤ KERNBASE + PHYSTOP.
Proof.
  intros (Hu & Hal & Hge & Hlt). pose proof kend_range.
  unfold page_aligned, V2P, KERNBASE, EXTMEM, PHYSTOP, PGSIZE in *.
  rewrite u32_id in Hlt by zlia. zlia.
Qed.

Lemma kfree_guard v :
  is_u32 v →
  (negb (u32 v mod PGSIZE =? 0) || (v <? kend) || (V2P v >=? PHYSTOP))%Z%bool = false
  ↔ valid_page v.
Proof.
  intros Hv. unfold valid_page, page_aligned. rewrite u32_id by done.
  rewrite !orb_false_iff, negb_false_iff, Z.eqb_eq, Z.ltb_ge, Z.geb_leb, Z.leb_gt. tauto.
Qed.

Lemma kfree_run v s :
  valid_page v → kmem_ready s →
  kfree v s = Done tt (locksync (s
    <| k_mem ::= λ m, store32 (memset m v 1 PGSIZE) v (freelist (k_kmem s)) |>
    <| k_kmem ::= λ k, k <| freelist := v |> |>)).
Proof.
  intros Hv [Hc Hl]. unfold kfree. rewrite (proj2 (kfree_guard v (proj1 Hv)) Hv).
  rewrite bind_modify, bind_gets. unfold locksync. kproj use_lock.
  destruct (use_lock (k_kmem s)) eqn:Hu; cbn [mwhen].
  - rewrite acquire_bind, !bind_modify by done.
    by rewrite (release_run _ _ (k_cpu s) (k_held s)).
  - done.
Qed.

Lemma kalloc_run s :
  kmem_ready s →
  kalloc s = Done (freelist (k_kmem s)) (locksync
    (if freelist (k_kmem s) =? 0 then s
     else s <| k_kmem ::= λ k, k <| freelist := load32 (k_mem s) (freelist (k_kmem s)) |> |>)).
Proof.
  intros [Hc Hl]. unfold kalloc, locksync. rewrite bind_gets.
  destruct (use_lock (k_kmem s)) eqn:Hu; cbn [mwhen].
  - rewrite acquire_bind, bind_gets by done. kproj freelist.
    destruct (Z.eqb_spec (freelist (k_kmem s)) 0) as [H0 | H0]; cbn [negb mwhen].
    + rewrite bind_ret, (release_bind _ _ _ (k_cpu s) (k_held s)) by done.
      kproj use_lock. by rewrite Hu.
    + rewrite bind_modify, (release_bind _ _ _ (k_cpu s) (k_held s)) by done.
      kproj use_lock. by rewrite Hu.
  - rewrite bind_ret, bind_gets.
    destruct (Z.eqb_spec (freelist (k_kmem s)) 0) as [H0 | H0]; cbn [negb mwhen].
    + by rewrite Hu.
    + rewrite bind_modify. kproj use_lock. by rewrite Hu.
Qed.

(** The states [kfree v] and [kalloc] leave. *)
Definition kfreed (v : Z) (s : kst) : kst := locksync (s
  <| k_mem ::= λ m, store32 (memset m v 1 PGSIZE) v (freelist (k_kmem s)) |>
  <| k_kmem ::= λ k, k <| freelist := v |> |>).

Lemma locksync_fields s :
  k_mem (locksync s) = k_mem s ∧ k_kmem (locksync s) = k_kmem s ∧
  k_held (locksync s) = k_held s.
Proof. unfold locksync. by destruct (use_lock _). Qed.

Lemma locksync_mem s : k_mem (locksync s) = k_mem s.
Proof. apply locksync_fields. Qed.

Lemma locksync_ready s : kmem_ready s → kmem_ready (locksync s).
Proof.
  unfold locksync. destruct (use_lock _); [| done].
  intros [Hc Hl]. split; [by apply sync_cpu_ok | done].
Qed.

Lemma kmem_inv_locksync s l : kmem_inv s l → kmem_inv (locksync s) l.
Proof.
  destruct (locksync_fields s) as (Hm & Hk & _).
  intros [? ? ?]. split; rewrite ?Hm, ?Hk; done.
Qed.

Lemma kfree_page_outside m v x :
  same_outside v m (store32 (memset m v 1 PGSIZE) v x).
Proof.
  intros a Ha. unfold PGSIZE in *. rewrite load8_store32_ne by lia.
  rewrite memset_load8 by lia. case_decide; [lia | done].
Qed.

Lemma kfree_inv v s l :
  kmem_inv s l → valid_page v → v ∉ l → kmem_inv (kfreed v s) (v :: l).
Proof.
  intros [Hl Hnd Hv] Hpv Hnv. apply kmem_inv_locksync.
  split; [| by constructor | by constructor]. cbn.
  split; [done |]. rewrite load32_store32_eq.
  pose proof Hpv as (_ & Hal & _).
  assert (is_u32 (freelist (k_kmem s))) as Hu.
  { destruct l as [| a l]; cbn in Hl; [by rewrite Hl |].
    destruct Hl as [-> _]. by apply Forall_cons_1 in Hv as [[? _] _]. }
  rewrite (u32_id _ Hu).
  eapply (free_list_outside v); [done | done | done | apply kfree_page_outside | done].
Qed.

Lemma kfree_spec v s l :
  kmem_inv s l → kmem_ready s → valid_page v → v ∉ l →
  kfree v s = Done tt (kfreed v s) ∧ kmem_inv (kfreed v s) (v :: l) ∧
  kmem_ready (kfreed v s).
Proof.
  intros Hi Hr Hv Hn. split_and!; [by apply kfree_run | by apply kfree_inv |].
  apply locksync_ready. exact Hr.
Qed.

Lemma kalloc_spec s l :
  kmem_inv s l → kmem_ready s →
  ∃ s', kalloc s = Done (hd 0 l) s' ∧ kmem_inv s' (tl l) ∧ kmem_ready s' ∧
    k_mem s' = k_mem s.
Proof.
  intros Hi Hr. pose proof Hi as [Hl Hnd Hv]. rewrite (kalloc_run s Hr).
  destruct l as [| a l]; cbn in Hl.
  - rewrite Hl. eexists. split; [done |]. cbn. split_and!.
    + by apply kmem_inv_locksync.
    + by apply locksync_ready.
    + by rewrite locksync_mem.
  - destruct Hl as [-> Hl]. apply Forall_cons_1 in Hv as [Ha Hv].
    apply NoDup_cons in Hnd as [_ Hnd]. apply valid_page_pos in Ha.
    destruct (Z.eqb_spec a 0); [lia |].
    eexists. split; [done |]. split_and!.
    + by apply kmem_inv_locksync.
    + by apply locksync_ready.
    + by rewrite locksync_mem.
Qed.

(** ** Handing a range to the allocator *)

(** The [n] pages from [p] up, in the order [freerange] leaves them in the
    free list (last freed first). *)
Fixpoint pages_from (p : Z) (n : nat) : list Z :=
  match n with O => [] | S n => pages_from (p + PGSIZE) n ++ [p] end.

Lemma elem_of_pages_from p n a :
  a ∈ pages_from p n → p ≤ a < p + PGSIZE * Z.of_nat n.
Proof.
  revert p. induction n as [| n IH]; intros p; cbn [pages_from]; [by intros ?%elem_of_nil |].
  rewrite elem_of_app, list_elem_of_singleton. unfold PGSIZE in *.
  intros [Ha%IH | ->]; lia.
Qed.

Lemma freerange_loop_spec n p vend fuel s l :
  kmem_inv s l → kmem_ready s → page_aligned p → kend ≤ p →
  vend ≤ KERNBASE + PHYSTOP → (∀ a, a ∈ l → a < p ∨ vend ≤ a) →
  p + PGSIZE * Z.of_nat n ≤ vend < p + PGSIZE * (Z.of_nat n + 1) → (n < fuel)%nat →
  ∃ s', freerange_loop fuel p vend s = Done tt s' ∧
    kmem_inv s' (pages_from p n ++ l) ∧ kmem_ready s'.
Proof.
  revert p fuel s l. induction n as [| n IH];
    intros p fuel s l Hi Hr Hal Hp Hend Hl Hn Hf; (destruct fuel as [| fuel]; [lia |]);
    cbn [freerange_loop]; unfold PGSIZE in Hn.
  - destruct (Z.leb_spec (p + PGSIZE) vend); unfold PGSIZE in *; [lia |]. by exists s.
  - destruct (Z.leb_spec (p + PGSIZE) vend); unfold PGSIZE in *; [| lia].
    pose proof kend_range. assert (Hv : valid_page p).
    { split_and!; [| done | done |];
        unfold is_u32, V2P, KERNBASE, EXTMEM, PHYSTOP in *; [lia |].
      rewrite u32_id by (unfold is_u32; lia). lia. }
    assert (Hnl : p ∉ l) by (intros Hin; destruct (Hl p Hin); lia).
    destruct (kfree_spec p s l Hi Hr Hv Hnl) as (Hk & Hi' & Hr').
    erewrite bind_done by exact Hk.
    destruct (IH (p + 4096) fuel (kfreed p s) (p :: l) Hi' Hr') as (s' & ? & ? & ?); try lia.
    + unfold page_aligned, PGSIZE in *. zlia.
    + intros a Ha. apply elem_of_cons in Ha as [-> | Ha]; [lia |].
      destruct (Hl a Ha); lia.
    + exists s'. cbn [pages_from]. rewrite <- app_assoc. done.
Qed.

(** [freerange] (and with it [kinit1] and [kinit2]) terminates and puts
    on the free list exactly the whole pages that lie in the range. *)
Theorem freerange_pages vstart vend s l :
  kmem_inv s l → kmem_ready s → kend ≤ vstart → vstart + PGSIZE ≤ vend →
  vend ≤ KERNBASE + PHYSTOP →
  (∀ a, a ∈ l → a < vstart ∨ vend ≤ a) →
  ∃ s' n, freerange vstart vend s = Done tt s' ∧
    kmem_inv s' (pages_from (PGROUNDUP vstart) n ++ l) ∧
    PGROUNDUP vstart + PGSIZE * Z.of_nat n ≤ vend
      < PGROUNDUP vstart + PGSIZE * (Z.of_nat n + 1).
Proof.
  intros Hi Hr Hs Hse He Hl. pose proof kend_range.
  unfold KERNBASE, EXTMEM, PHYSTOP, PGSIZE in *.
  assert (Hup : PGROUNDUP vstart = (vstart + 4095) - (vstart + 4095) mod 4096).
  { rewrite PGROUNDUP_spec. unfold PGSIZE. rewrite u32_id by (unfold is_u32; lia).
    by replace (vstart + 4096 - 1) with (vstart + 4095) by lia. }
  unfold freerange. set (n := Z.to_nat ((vend - PGROUNDUP vstart) / PGSIZE)).
  assert (Hn : PGROUNDUP vstart + 4096 * Z.of_nat n ≤ vend
               < PGROUNDUP vstart + 4096 * (Z.of_nat n + 1)).
  { subst n. rewrite Hup. unfold PGSIZE. zlia. }
  destruct (freerange_loop_spec n (PGROUNDUP vstart) vend (S n) s l)
    as (s' & ? & ? & _); try done; try lia.
  - unfold page_aligned, PGSIZE. rewrite Hup. zlia.
  - rewrite Hup. zlia.
  - intros a Ha. destruct (Hl a Ha); [| by right]. left. rewrite Hup. zlia.
  - by exists s', n.
Qed.

(** ** A client that allocates, writes into what it owns, and frees *)

Inductive op := OpAlloc | OpFree (i : nat) | OpWrite (i : nat) (off v : Z).

(** [own]: the pages the client holds, most recent first.  Operations on an
    entry the client does not have do nothing. *)
Definition run_op (o : op) (own : list Z) : K (list Z) :=
  match o with
  | OpAlloc => p ← kalloc; mret (if p =? 0 then own else p :: own)
  | OpFree i =>
      match own !! i with
      | Some p => kfree p;; mret (delete i own)
      | None => mret own
      end
  | OpWrite i off v =>
      match own !! i with
      | Some p => modify (λ s, s <| k_mem ::= λ m, store8 m (p + off mod PGSIZE) v |>);; mret own
      | None => mret own
      end
  end.
Fixpoint run_ops (ops : list op) (own : list Z) : K (list Z) :=
  match ops with
  | [] => mret own
  | o :: ops => own' ← run_op o own; run_ops ops own'
  end.

(** Client and allocator together: no page is in two places. *)
Definition client_inv (s : kst) (own l : list Z) : Prop :=
  kmem_inv s l ∧ kmem_ready s ∧ NoDup (own ++ l) ∧ Forall valid_page own.

Lemma run_op_inv o s own l :
  client_inv s own l →
  ∃ own' s' l', run_op o own s = Done own' s' ∧ client_inv s' own' l' ∧
    own' ++ l' ≡ₚ own ++ l.
Proof.
  intros (Hi & Hr & Hnd & Hv). destruct o as [| i | i off v]; cbn [run_op].
  - destruct (kalloc_spec s l Hi Hr) as (s' & Hk & Hi' & Hr' & _).
    erewrite bind_done by exact Hk. destruct l as [| a l]; cbn in *.
    + exists own, s', []. done.
    + assert (Ha : valid_page a) by (by destruct Hi as [_ _ [? _]%Forall_cons_1]).
      pose proof (valid_page_pos a Ha).
      destruct (Z.eqb_spec a 0); [lia |]. exists (a :: own), s', l.
      assert (Hp : a :: own ++ l ≡ₚ own ++ a :: l) by apply Permutation_middle.
      split_and!; [done | | exact Hp]. split_and!; [done | done | | by constructor].
      cbn. by rewrite Hp.
  - destruct (own !! i) as [p |] eqn:Hp; [| by exists own, s, l].
    assert (Hvp : valid_page p) by (by apply (Forall_lookup_1 valid_page own i)).
    pose proof (delete_Permutation own i p Hp) as Hperm.
    rewrite Hperm in Hnd. cbn in Hnd. apply NoDup_cons in Hnd as [Hn Hnd].
    assert (Hnl : p ∉ l) by set_solver.
    destruct (kfree_spec p s l Hi Hr Hvp Hnl) as (Hk & Hi' & Hr').
    erewrite bind_done by exact Hk. exists (delete i own), (kfreed p s), (p :: l).
    assert (Hp' : delete i own ++ p :: l ≡ₚ own ++ l)
      by (rewrite <- Permutation_middle; symmetry; exact (Permutation_app_tail l Hperm)).
    split_and!; [done | | done]. split_and!; [done | done | |].
    + rewrite <- Permutation_middle. by constructor.
    + rewrite Hperm in Hv. by apply Forall_cons_1 in Hv as [_ ?].
  - destruct (own !! i) as [p |] eqn:Hp; [| by exists own, s, l].
    rewrite bind_modify. exists own. eexists. exists l. split_and!; [done | | done].
    split_and!; [| exact Hr | done | done].
    pose proof Hi as [Hl Hndl Hvl]. split; [| done | done].
    assert (Hvp : valid_page p) by (by apply (Forall_lookup_1 valid_page own i)).
    cbn. eapply (free_list_outside p); [apply Hvp | done | | | exact Hl].
    + apply NoDup_app in Hnd as (_ & Hd & _). apply Hd.
      by eapply list_elem_of_lookup_2.
    + intros a Ha. apply load8_store8_ne.
      pose proof (Z.mod_pos_bound off PGSIZE). unfold PGSIZE in *. lia.
Qed.

(** C13: the allocator under any sequence of calls of a client that frees
    only what it owns and writes only into what it owns: nothing panics, no
    page is ever owned twice or both owned and free, and none is lost. *)
Theorem allocator_safe ops s own l :
  client_inv s own l →
  ∃ own' s' l', run_ops ops own s = Done own' s' ∧ client_inv s' own' l' ∧
    own' ++ l' ≡ₚ own ++ l.
Proof.
  revert s own l. induction ops as [| o ops IH]; intros s own l Hinv; cbn [run_ops].
  - by exists own, s, l.
  - destruct (run_op_inv o s own l Hinv) as (own1 & s1 & l1 & Ho & Hinv1 & Hp1).
    erewrite bind_done by exact Ho.
    destruct (IH s1 own1 l1 Hinv1) as (own2 & s2 & l2 & H2 & Hinv2 & Hp2).
    exists own2, s2, l2. split_and!; [done | done |]. by rewrite Hp2.
Qed.

(** [kfree] panics exactly on addresses that are not allocatable pages;
    on the others it makes the page the first of the free list, fills the
    rest of it with the byte 1, and the next [kalloc] returns it. *)
Theorem kfree_then_kalloc v s l :
  is_u32 v → kmem_inv s l → kmem_ready s → v ∉ l →
  (¬ valid_page v → kfree v s = Panic "kfree" s) ∧
  (valid_page v →
     ∃ s1 s2, kfree v s = Done tt s1 ∧ kmem_inv s1 (v :: l) ∧
       (∀ a, v + 4 ≤ a < v + PGSIZE → load8 (k_mem s1) a = 1) ∧
       kalloc s1 = Done v s2 ∧ kmem_inv s2 l).
Proof.
  intros Hu Hi Hr Hn. split.
  - intros Hv. unfold kfree. destruct (_ || _)%bool eqn:Hg; [done |].
    by apply (kfree_guard v Hu) in Hg.
  - intros Hv. destruct (kfree_spec v s l Hi Hr Hv Hn) as (Hk & Hi1 & Hr1).
    destruct (kalloc_spec _ _ Hi1 Hr1) as (s2 & Hk2 & Hi2 & _).
    exists (kfreed v s), s2. split_and!; try done.
    intros a Ha. unfold kfreed. rewrite locksync_mem. cbn.
    rewrite load8_store32_ne by lia. rewrite memset_load8 by (unfold PGSIZE; lia).
    by rewrite decide_True by lia.
Qed.
End kalloc.

(** ** Witnesses: a machine whose kernel image ends at 2 MB *)
Definition linker_2M : Linker :=
  {| kend := KERNBASE + 0x200000; kdata := KERNBASE + 0x108000;
     trapret_addr := KERNBASE + 0x105000; forkret_addr := KERNBASE + 0x104000;
     cpu_ts_addr := KERNBASE + 0x110808 |}.
Lemma linker_2M_ok : @LinkerOk linker_2M.
Proof.
  split; cbn; unfold KERNLINK, KERNBASE, EXTMEM, PHYSTOP; [lia | lia |].
  vm_compute. done.
Qed.
(** Two free pages, at 2 MB and 2 MB + 4096. *)
Definition two_pages : kst :=
  kst0 <| k_mem := store32 ∅ (KERNBASE + 0x201000) (KERNBASE + 0x200000) |>
       <| k_kmem := mkKmem true (KERNBASE + 0x201000) |>.
Lemma two_pages_inv :
  @kmem_inv linker_2M two_pages [KERNBASE + 0x201000; KERNBASE + 0x200000].
Proof.
  split.
  - vm_compute. done.
  - refine (bool_decide_unpack _ _). vm_compute. done.
  - repeat constructor; vm_compute; done.
Qed.
Lemma two_pages_ready : kmem_ready two_pages.
Proof. split; [split; [done | by intros _] | by intros ?%elem_of_nil]. Qed.

Lemma allocator_safe_witness :
  ∃ own' s' l',
    @run_ops linker_2M [OpAlloc; OpWrite 0 5 7; OpAlloc; OpFree 1; OpAlloc] [] two_pages
      = Done own' s' ∧
    own' ++ l' ≡ₚ [KERNBASE + 0x201000; KERNBASE + 0x200000].
Proof.
  destruct (@allocator_safe linker_2M linker_2M_ok
    [OpAlloc; OpWrite 0 5 7; OpAlloc; OpFree 1; OpAlloc] two_pages []
    [KERNBASE + 0x201000; KERNBASE + 0x200000]) as (own' & s' & l' & H & _ & Hp).
  - split_and!; [apply two_pages_inv | apply two_pages_ready | | constructor].
    apply (ki_nodup _ _ two_pages_inv).
  - exists own', s', l'. split; [exact H | exact Hp].
Defined.

Lemma kfree_then_kalloc_witness :
  ∃ s1 s2, @kfree linker_2M (KERNBASE + 0x203000) two_pages = Done tt s1 ∧
    kalloc s1 = Done (KERNBASE + 0x203000) s2.
Proof.
  destruct (@kfree_then_kalloc linker_2M linker_2M_ok (KERNBASE + 0x203000) two_pages
    [KERNBASE + 0x201000; KERNBASE + 0x200000]) as [_ H].
  - vm_compute. split; done.
  - apply two_pages_inv.
  - apply two_pages_ready.
  - refine (bool_decide_unpack _ _). vm_compute. done.
  - destruct H as (s1 & s2 & H1 & _ & _ & H2 & _); [repeat split; vm_compute; done |].
    exists s1, s2. split; [exact H1 | exact H2].
Defined.

Lemma freerange_pages_witness :
  ∃ s' n, @freerange linker_2M (KERNBASE + 0x202010) (KERNBASE + 0x206000) two_pages
    = Done tt s' ∧
    @kmem_inv linker_2M s' (pages_from (PGROUNDUP (KERNBASE + 0x202010)) n ++
       [KERNBASE + 0x201000; KERNBASE + 0x200000]).
Proof.
  destruct (@freerange_pages linker_2M linker_2M_ok
    (KERNBASE + 0x202010) (KERNBASE + 0x206000) two_pages
    [KERNBASE + 0x201000; KERNBASE + 0x200000]) as (s' & n & H & Hi & _).
  - apply two_pages_inv.
  - apply two_pages_ready.
  - vm_compute. done.
  - vm_compute. done.
  - vm_compute. done.
  - intros a Ha. left. unfold KERNBASE in *. repeat (apply elem_of_cons in Ha as [-> | Ha]; [lia |]); by apply elem_of_nil in Ha.
  - exists s', n. split; [exact H | exact Hi].
Defined.
