(* ===== verification/Vm.v ===== *)
(** * vm.c: page tables and user address spaces

    Page directories and page tables live in physical memory, which the kernel
    sees at [KERNBASE + physical address]; the definitions read and write them
    there, with [load32]/[store32] on [k_mem].

    The specification half describes a page directory by the function
    [pte_at]: the page-table entry that governs an address, 0 when there is no
    table for it. *)
From S2P Require Import Prelude Mmu Cstring Kstate Spinlock Kalloc.

(** Where bytes go to and come from: memory at an address, or a variable of the
    calling C function. *)
Inductive place := AtAddr (a : Z) | ToLocal.
Inductive source := FromAddr (a : Z) | FromLocal (l : list Z).

Section vm.
Context {LK : Linker}.

Definition ld32 (a : Z) : K Z := gets (λ s, load32 (k_mem s) a).
Definition st32 (a v : Z) : K unit := modify (λ s, s <| k_mem ::= λ m, store32 m a v |>).

Definition seginit : K unit :=
  upd_cpu (λ c, c <| gdt ::= λ g,
    <[Z.to_nat SEG_UDATA := SEG STA_W 0 0xffffffff DPL_USER]>
    (<[Z.to_nat SEG_UCODE := SEG (Z.lor STA_X STA_R) 0 0xffffffff DPL_USER]>
    (<[Z.to_nat SEG_KDATA := SEG STA_W 0 0xffffffff 0]>
    (<[Z.to_nat SEG_KCODE := SEG (Z.lor STA_X STA_R) 0 0xffffffff 0]> g))) |>).

Definition walkpgdir (pgdir va : Z) (alloc : bool) : K Z :=
  let pde := pgdir + 4 * PDX va in
  e ← ld32 pde;
  if negb (Z.land e PTE_P =? 0) then mret (P2V (PTE_ADDR e) + 4 * PTX va) else
  if negb alloc then mret 0 else
  pgtab ← kalloc;
  if pgtab =? 0 then mret 0 else
  modify (λ s, s <| k_mem ::= λ m, memset m pgtab 0 PGSIZE |>);;
  st32 pde (Z.lor (Z.lor (Z.lor (V2P pgtab) PTE_P) PTE_W) PTE_U);;
  mret (pgtab + 4 * PTX va).

Fixpoint mappages_loop (fuel : nat) (pgdir a last pa perm : Z) : K Z :=
  match fuel with
  | O => fault "mappages: out of fuel"
  | S fuel =>
      pte ← walkpgdir pgdir a true;
      if pte =? 0 then mret (-1) else
      e ← ld32 pte;
      if negb (Z.land e PTE_P =? 0) then panic "remap" else
      st32 pte (Z.lor (Z.lor pa perm) PTE_P);;
      if a =? last then mret 0 else
      mappages_loop fuel pgdir (u32 (a + PGSIZE)) last (u32 (pa + PGSIZE)) perm
  end.
Definition mappages (pgdir va size pa perm : Z) : K Z :=
  let a := PGROUNDDOWN va in
  let last := PGROUNDDOWN (u32 (u32 (va + size) - 1)) in
  mappages_loop (S (Z.to_nat (u32 (last - a) / PGSIZE))) pgdir a last pa perm.

(** [oldsz] down to [newsz]; [a] runs over page boundaries and skips to the
    next directory entry when there is no page table. *)
Fixpoint deallocuvm_loop (fuel : nat) (pgdir a oldsz : Z) : K unit :=
  match fuel with
  | O => fault "deallocuvm: out of fuel"
  | S fuel =>
      if a <? oldsz then
        pte ← walkpgdir pgdir a false;
        if pte =? 0 then
          deallocuvm_loop fuel pgdir
            (u32 (u32 (PGADDR (PDX a + 1) 0 0 - PGSIZE) + PGSIZE)) oldsz
        else
        e ← ld32 pte;
        (if negb (Z.land e PTE_P =? 0) then
           let pa := PTE_ADDR e in
           if pa =? 0 then panic "kfree" else
           kfree (P2V pa);; st32 pte 0
         else mret tt);;
        deallocuvm_loop fuel pgdir (u32 (a + PGSIZE)) oldsz
      else mret tt
  end.
Definition deallocuvm (pgdir oldsz newsz : Z) : K Z :=
  if newsz >=? oldsz then mret oldsz else
  let a := PGROUNDUP newsz in
  deallocuvm_loop (S (Z.to_nat ((oldsz - a) / PGSIZE + 1))) pgdir a oldsz;;
  mret newsz.

Fixpoint freevm_loop (n : nat) (pgdir i : Z) : K unit :=
  match n with
  | O => mret tt
  | S n =>
      e ← ld32 (pgdir + 4 * i);
      mwhen (negb (Z.land e PTE_P =? 0)) (kfree (P2V (PTE_ADDR e)));;
      freevm_loop n pgdir (i + 1)
  end.
Definition freevm (pgdir : Z) : K unit :=
  if pgdir =? 0 then panic "freevm: no pgdir" else
  deallocuvm pgdir KERNBASE 0;;
  freevm_loop (Z.to_nat NPDENTRIES) pgdir 0;;
  kfree pgdir.

Record kmap := mkKmap { km_virt : Z; km_start : Z; km_end : Z; km_perm : Z }.
Definition kmaps : list kmap :=
  [ mkKmap KERNBASE 0 EXTMEM PTE_W;
    mkKmap KERNLINK (V2P KERNLINK) (V2P kdata) 0;
    mkKmap kdata (V2P kdata) PHYSTOP PTE_W;
    mkKmap DEVSPACE DEVSPACE 0 PTE_W ].

Fixpoint setupkvm_loop (ks : list kmap) (pgdir : Z) : K Z :=
  match ks with
  | [] => mret pgdir
  | k :: ks =>
      r ← mappages pgdir (km_virt k) (u32 (km_end k - km_start k)) (km_start k) (km_perm k);
      if r <? 0 then freevm pgdir;; mret 0 else setupkvm_loop ks pgdir
  end.
Definition setupkvm : K Z :=
  pgdir ← kalloc;
  if pgdir =? 0 then mret 0 else
  modify (λ s, s <| k_mem ::= λ m, memset m pgdir 0 PGSIZE |>);;
  if P2V PHYSTOP >? DEVSPACE then panic "PHYSTOP too high" else
  setupkvm_loop kmaps pgdir.

Definition lcr3 (v : Z) : K unit := upd_cpu (λ c, c <| cr3 := v |>).
Definition switchkvm : K unit := d ← gets k_kpgdir; lcr3 (V2P d).
Definition kvmalloc : K unit :=
  d ← setupkvm; modify (λ s, s <| k_kpgdir := d |>);; switchkvm.

Definition switchuvm (op : option nat) : K unit :=
  match op with
  | None => panic "switchuvm: no process"
  | Some i =>
      p ← get_proc i;
      if p_kstack p =? 0 then panic "switchuvm: no kstack" else
      if p_pgdir p =? 0 then panic "switchuvm: no pgdir" else
      pushcli;;
      mycpu;;
      upd_cpu (λ c, c <| gdt ::= λ g, <[Z.to_nat SEG_TSS :=
        let d := SEG16 STS_T32A cpu_ts_addr 103 0 in
        mkSegdesc (lim_15_0 d) (base_15_0 d) (base_23_16 d) (seg_type d) 0 (seg_dpl d)
          (seg_p d) (lim_19_16 d) (seg_avl d) (seg_rsv1 d) (seg_db d) (seg_g d)
          (base_31_24 d)]> g |>);;
      upd_cpu (λ c, c <| ts_ss0 := Z.shiftl SEG_KDATA 3 |>);;
      upd_cpu (λ c, c <| ts_esp0 := u32 (p_kstack p + KSTACKSIZE) |>);;
      upd_cpu (λ c, c <| ts_iomb := 0xFFFF |>);;
      lcr3 (V2P (p_pgdir p));;
      popcli
  end.

Definition inituvm (pgdir init sz : Z) : K unit :=
  if sz >=? PGSIZE then panic "inituvm: more than a page" else
  mem ← kalloc;
  modify (λ s, s <| k_mem ::= λ m, memset m mem 0 PGSIZE |>);;
  mappages pgdir 0 PGSIZE (V2P mem) (Z.lor PTE_W PTE_U);;
  modify (λ s, s <| k_mem ::= λ m, memmove m mem init sz |>).

(** [readi ip dst off n] (fs.c) is an argument here. *)
Fixpoint loaduvm_loop (readi : nat → Z → Z → Z → K Z) (fuel : nat)
    (pgdir addr : Z) (ip : nat) (offset sz i : Z) : K Z :=
  match fuel with
  | O => fault "loaduvm: out of fuel"
  | S fuel =>
      if i <? sz then
        pte ← walkpgdir pgdir (u32 (addr + i)) false;
        if pte =? 0 then panic "loaduvm: address should exist" else
        e ← ld32 pte;
        let pa := PTE_ADDR e in
        let n := if sz - i <? PGSIZE then sz - i else PGSIZE in
        r ← readi ip (P2V pa) (u32 (offset + i)) n;
        if negb (r =? n) then mret (-1)
        else loaduvm_loop readi fuel pgdir addr ip offset sz (i + PGSIZE)
      else mret 0
  end.
Definition loaduvm (readi : nat → Z → Z → Z → K Z) (pgdir addr : Z) (ip : nat)
    (offset sz : Z) : K Z :=
  if negb (addr mod PGSIZE =? 0) then panic "loaduvm: addr must be page aligned"
  else loaduvm_loop readi (S (Z.to_nat (sz / PGSIZE + 1))) pgdir addr ip offset sz 0.

Fixpoint allocuvm_loop (fuel : nat) (pgdir oldsz newsz a : Z) : K Z :=
  match fuel with
  | O => fault "allocuvm: out of fuel"
  | S fuel =>
      if a <? newsz then
        mem ← kalloc;
        if mem =? 0 then
          cprintf "allocuvm out of memory\n" [];;
          deallocuvm pgdir newsz oldsz;; mret 0
        else
        modify (λ s, s <| k_mem ::= λ m, memset m mem 0 PGSIZE |>);;
        r ← mappages pgdir a PGSIZE (V2P mem) (Z.lor PTE_W PTE_U);
        if r <? 0 then
          cprintf "allocuvm out of memory (2)\n" [];;
          deallocuvm pgdir newsz oldsz;; kfree mem;; mret 0
        else allocuvm_loop fuel pgdir oldsz newsz (u32 (a + PGSIZE))
      else mret newsz
  end.
Definition allocuvm (pgdir oldsz newsz : Z) : K Z :=
  if newsz >=? KERNBASE then mret 0 else
  if newsz <? oldsz then mret oldsz else
  let a := PGROUNDUP oldsz in
  allocuvm_loop (S (Z.to_nat ((newsz - a) / PGSIZE + 1))) pgdir oldsz newsz a.

Definition clearpteu (pgdir uva : Z) : K unit :=
  pte ← walkpgdir pgdir uva false;
  if pte =? 0 then panic "clearpteu" else
  e ← ld32 pte;
  st32 pte (Z.land e (u32 (Z.lnot PTE_U))).

(** [false]: out of memory ([goto bad]). *)
Fixpoint copyuvm_loop (fuel : nat) (pgdir d sz i : Z) : K bool :=
  match fuel with
  | O => fault "copyuvm: out of fuel"
  | S fuel =>
      if i <? sz then
        pte ← walkpgdir pgdir i false;
        if pte =? 0 then panic "copyuvm: pte should exist" else
        e ← ld32 pte;
        if Z.land e PTE_P =? 0 then panic "copyuvm: page not present" else
        let pa := PTE_ADDR e in
        let flags := PTE_FLAGS e in
        mem ← kalloc;
        if mem =? 0 then mret false else
        modify (λ s, s <| k_mem ::= λ m, memmove m mem (P2V pa) PGSIZE |>);;
        r ← mappages d i PGSIZE (V2P mem) flags;
        if r <? 0 then kfree mem;; mret false
        else copyuvm_loop fuel pgdir d sz (u32 (i + PGSIZE))
      else mret true
  end.
Definition copyuvm (pgdir sz : Z) : K Z :=
  d ← setupkvm;
  if d =? 0 then mret 0 else
  ok ← copyuvm_loop (S (Z.to_nat (sz / PGSIZE + 1))) pgdir d sz 0;
  if ok : bool then mret d else freevm d;; mret 0.

(** [walkpgdir]'s result is not tested here: with no page table, [*pte] reads
    the null pointer. *)
Definition uva2ka (pgdir uva : Z) : K Z :=
  pte ← walkpgdir pgdir uva false;
  if pte =? 0 then fault "uva2ka: null page table entry" else
  e ← ld32 pte;
  if Z.land e PTE_P =? 0 then mret 0 else
  if Z.land e PTE_U =? 0 then mret 0 else
  mret (P2V (PTE_ADDR e)).

(** ** How the processor reads and writes

    The kernel's half of the address space is mapped one to one; below
    [KERNBASE] an access goes through the page table in [cr3].  In supervisor
    mode [PTE_U] is not needed; a write needs [PTE_W] (CR0_WP is set).  A page
    fault in the kernel ends in [panic("trap")]: it is a [Fault] here. *)
Definition linear (m : mem) (pgdir : Z) (write : bool) (a : Z) : option Z :=
  if KERNBASE <=? a then Some a else
  let pde := load32 m (pgdir + 4 * PDX a) in
  if Z.land pde PTE_P =? 0 then None else
  let pte := load32 m (P2V (PTE_ADDR pde) + 4 * PTX a) in
  if Z.land pte PTE_P =? 0 then None else
  if (write && (Z.land pte PTE_W =? 0))%Z%bool then None else
  Some (P2V (PTE_ADDR pte) + PTE_FLAGS a).

Definition translate (write : bool) (a : Z) : K Z :=
  c ← gets k_cpu;
  m ← gets k_mem;
  deref "page fault in the kernel" (linear m (P2V (cr3 c)) write a).
Definition ldb (a : Z) : K Z :=
  x ← translate false a; gets (λ s, load8 (k_mem s) x).
Definition stb (a v : Z) : K unit :=
  x ← translate true a; modify (λ s, s <| k_mem ::= λ m, store8 m x v |>).
Fixpoint ld_bytes (a : Z) (n : nat) : K (list Z) :=
  match n with
  | O => mret []
  | S n => b ← ldb a; l ← ld_bytes (u32 (a + 1)) n; mret (b :: l)
  end.
Fixpoint st_bytes (a : Z) (l : list Z) : K unit :=
  match l with
  | [] => mret tt
  | b :: l => stb a b;; st_bytes (u32 (a + 1)) l
  end.
Definition ldw (a : Z) : K Z := l ← ld_bytes a 4; mret (word_of l).
Definition stw (a v : Z) : K unit := st_bytes a (word_bytes v).

(** ** Copying out to another address space *)
Definition src_bytes (src : source) (off n : Z) : K (list Z) :=
  match src with
  | FromAddr a => ld_bytes (u32 (a + off)) (Z.to_nat n)
  | FromLocal l => mret (take (Z.to_nat n) (drop (Z.to_nat off) l))
  end.

(** [off] is how far [buf] has advanced. *)
Fixpoint copyout_loop (fuel : nat) (pgdir va : Z) (p : source) (off len : Z) : K Z :=
  match fuel with
  | O => fault "copyout: out of fuel"
  | S fuel =>
      if len >? 0 then
        let va0 := PGROUNDDOWN va in
        pa0 ← uva2ka pgdir va0;
        if pa0 =? 0 then mret (-1) else
        let n := PGSIZE - (va - va0) in
        let n := if n >? len then len else n in
        l ← src_bytes p off n;
        st_bytes (pa0 + (va - va0)) l;;
        copyout_loop fuel pgdir (u32 (va0 + PGSIZE)) p (off + n) (len - n)
      else mret 0
  end.
Definition copyout (pgdir va : Z) (p : source) (len : Z) : K Z :=
  copyout_loop (S (S (Z.to_nat (len / PGSIZE + 1)))) pgdir va p 0 len.
End vm.

(** ** Byte-wise access, specified

    [mapped s w a n ph fp]: the [n] bytes from the linear address [a] are at the
    physical-window addresses [ph 0], [ph 1], ..., all different and in the
    footprint [fp], and stay there whatever is stored in the footprint (it
    holds no page table in use). *)
Section access.
Context {LK : Linker}.

Record mapped (s : kst) (w : bool) (a : Z) (n : nat) (ph : nat → Z) (fp : Z → Prop)
    : Prop := {
  mp_in : ∀ i, (i < n)%nat → fp (ph i);
  mp_inj : ∀ i j, (i < n)%nat → (j < n)%nat → ph i = ph j → i = j;
  mp_lin : ∀ m, (∀ x, ¬ fp x → load8 m x = load8 (k_mem s) x) →
    ∀ i, (i < n)%nat → linear m (P2V (cr3 (k_cpu s))) w (u32 (a + Z.of_nat i)) = Some (ph i) }.

(** Bytes in the kernel's window are where their address says. *)
Lemma mapped_kernel s w a n (fp : Z → Prop) :
  KERNBASE ≤ a → a + Z.of_nat n ≤ 4294967296 →
  (∀ i, (i < n)%nat → fp (a + Z.of_nat i)) → mapped s w a n (λ i, a + Z.of_nat i) fp.
Proof.
  intros Ha Hn Hfp. split; [done | intros; lia |]. intros m _ i Hi. unfold linear.
  unfold KERNBASE in *. rewrite u32_id by (unfold is_u32; lia).
  destruct (Z.leb_spec 0x80000000 (a + Z.of_nat i)); [done | lia].
Qed.

(** Storing the bytes [l] at [ph 0], [ph 1], ... *)
Fixpoint store_all (m : mem) (ph : nat → Z) (l : list Z) : mem :=
  match l with
  | [] => m
  | b :: l => store_all (store8 m (ph O) b) (λ i, ph (S i)) l
  end.

Lemma store_all_other l : ∀ m ph x,
  (∀ i, (i < length l)%nat → x ≠ ph i) → load8 (store_all m ph l) x = load8 m x.
Proof.
  induction l as [| b l IH]; intros m ph x Hx; [done |]. cbn.
  rewrite IH by (intros i Hi; apply Hx; cbn; lia).
  apply load8_store8_ne. intros Heq. apply (Hx O); [cbn; lia | done].
Qed.
Lemma store_all_at l : ∀ m ph i b,
  (∀ i j, (i < length l)%nat → (j < length l)%nat → ph i = ph j → i = j) →
  l !! i = Some b → load8 (store_all m ph l) (ph i) = u8 b.
Proof.
  induction l as [| c l IH]; intros m ph i b Hinj Hi; [done |].
  destruct i as [| i]; cbn in *.
  - simplify_eq. rewrite store_all_other; [apply load8_store8_eq |].
    intros i Hi Heq. apply Hinj in Heq; lia.
  - apply (IH _ (λ i, ph (S i))); [| done]. intros x y Hx Hy Heq.
    apply Hinj in Heq; lia.
Qed.

Lemma mapped_tail s w a n ph fp :
  mapped s w a (S n) ph fp → mapped s w (u32 (a + 1)) n (λ i, ph (S i)) fp.
Proof.
  intros [Hf Hi Hl]. split.
  - intros i Hx. apply Hf. lia.
  - intros i j Hx Hy Heq. apply Hi in Heq; lia.
  - intros m Hm i Hx. rewrite u32_add_l.
    replace (a + 1 + Z.of_nat i) with (a + Z.of_nat (S i)) by lia.
    apply Hl; [done | lia].
Qed.
(** Storing into the footprint moves nothing. *)
Lemma mapped_mem s s' w a n ph (fp : Z → Prop) :
  (∀ x, ¬ fp x → load8 (k_mem s') x = load8 (k_mem s) x) →
  cr3 (k_cpu s') = cr3 (k_cpu s) → mapped s w a n ph fp → mapped s' w a n ph fp.
Proof.
  intros Hm Hc [Hf Hi Hl]. split; [done | done |]. rewrite Hc. intros m Hm'.
  apply Hl. intros x Hx. rewrite Hm' by done. by apply Hm.
Qed.
Lemma mapped_head s w a n ph fp :
  mapped s w a (S n) ph fp → linear (k_mem s) (P2V (cr3 (k_cpu s))) w (u32 a) = Some (ph O).
Proof.
  intros [_ _ Hl]. specialize (Hl (k_mem s) ltac:(done) O ltac:(lia)).
  cbn in Hl. by rewrite Z.add_0_r in Hl.
Qed.
Lemma mapped_le s w a n n' ph fp :
  (n' ≤ n)%nat → mapped s w a n ph fp → mapped s w a n' ph fp.
Proof.
  intros Hn [Hf Hi Hl]. split.
  - intros i Hx. apply Hf. lia.
  - intros i j Hx Hy. apply Hi; lia.
  - intros m Hm i Hx. apply Hl; [done | lia].
Qed.

Lemma stb_run a v x s :
  linear (k_mem s) (P2V (cr3 (k_cpu s))) true a = Some x →
  stb a v s = Done tt (s <| k_mem ::= λ m, store8 m x v |>).
Proof. intros H. unfold stb, translate. rewrite bind_assoc, bind_gets, bind_assoc, bind_gets, H. done. Qed.
Lemma ldb_run a x s :
  linear (k_mem s) (P2V (cr3 (k_cpu s))) false a = Some x →
  ldb a s = Done (load8 (k_mem s) x) s.
Proof. intros H. unfold ldb, translate. rewrite bind_assoc, bind_gets, bind_assoc, bind_gets, H. done. Qed.

Lemma st_bytes_run fp l : ∀ a ph s,
  is_u32 a → mapped s true a (length l) ph fp →
  st_bytes a l s = Done tt (s <| k_mem ::= λ m, store_all m ph l |>).
Proof.
  induction l as [| b l IH]; intros a ph s Ha Hm; cbn [st_bytes].
  - unfold mret, M_ret. kst_eq.
  - pose proof (mapped_head _ _ _ _ _ _ Hm) as Hh. rewrite (u32_id a Ha) in Hh.
    rewrite (bind_done _ _ _ _ _ (stb_run _ b _ _ Hh)).
    rewrite (IH _ (λ i, ph (S i))); [unfold modify; kst_eq | apply u32_range |].
    apply (mapped_mem s); [| done | by apply mapped_tail].
    intros x Hx. apply load8_store8_ne. intros <-. apply Hx, (mp_in _ _ _ _ _ _ Hm).
    cbn. lia.
Qed.

Lemma ld_bytes_run fp n : ∀ a ph s,
  is_u32 a → mapped s false a n ph fp →
  ld_bytes a n s = Done ((λ i, load8 (k_mem s) (ph i)) <$> seq 0 n) s.
Proof.
  induction n as [| n IH]; intros a ph s Ha Hm; cbn [ld_bytes]; [done |].
  pose proof (mapped_head _ _ _ _ _ _ Hm) as Hh. rewrite (u32_id a Ha) in Hh.
  rewrite (bind_done _ _ _ _ _ (ldb_run _ _ _ Hh)).
  rewrite (bind_done _ _ _ _ _ (IH _ (λ i, ph (S i)) s (u32_range _) (mapped_tail _ _ _ _ _ _ Hm))).
  cbn [seq fmap list_fmap]. unfold mret, M_ret. f_equal. f_equal.
  rewrite <- fmap_S_seq, <- list_fmap_compose. done.
Qed.
(** Loads change nothing. *)
Lemma ldb_inv a s b s' : ldb a s = Done b s' → s' = s.
Proof.
  unfold ldb, translate. intros (x & s1 & H1 & H2)%bind_inv_done.
  rewrite bind_gets, bind_gets in H1. unfold deref in H1.
  destruct (linear _ _ _ _); [| done]. unfold mret, M_ret in H1. unfold gets in H2. by simplify_eq.
Qed.
Lemma ld_bytes_inv n : ∀ a s l s', ld_bytes a n s = Done l s' → s' = s ∧ length l = n.
Proof.
  induction n as [| n IH]; intros a s l s'; cbn [ld_bytes].
  - unfold mret, M_ret. intros. by simplify_eq.
  - intros (b & s1 & ->%ldb_inv & (r & s2 & [-> Hr]%IH & H)%bind_inv_done)%bind_inv_done.
    unfold mret, M_ret in H. simplify_eq. by split.
Qed.
Lemma ldw_inv a s v s' : ldw a s = Done v s' → s' = s.
Proof.
  unfold ldw. intros (l & s1 & [-> _]%ld_bytes_inv & H)%bind_inv_done.
  unfold mret, M_ret in H. by simplify_eq.
Qed.
End access.

(** ** Switching address spaces *)
Section switch.
Context {LK : Linker}.

(** The descriptor of the task state segment. *)
Definition tss_desc : segdesc :=
  let d := SEG16 STS_T32A cpu_ts_addr 103 0 in
  mkSegdesc (lim_15_0 d) (base_15_0 d) (base_23_16 d) (seg_type d) 0 (seg_dpl d)
    (seg_p d) (lim_19_16 d) (seg_avl d) (seg_rsv1 d) (seg_db d) (seg_g d) (base_31_24 d).
Definition uvm_cpu (p : proc) (c : cpu) : cpu :=
  c <| gdt ::= <[Z.to_nat SEG_TSS := tss_desc]> |> <| ts_ss0 := Z.shiftl SEG_KDATA 3 |>
    <| ts_esp0 := u32 (p_kstack p + KSTACKSIZE) |> <| ts_iomb := 0xFFFF |>
    <| cr3 := V2P (p_pgdir p) |>.

Lemma switchuvm_run i p s :
  cpu_ok (k_cpu s) → k_procs s !! i = Some p → p_kstack p ≠ 0 → p_pgdir p ≠ 0 →
  switchuvm (Some i) s = Done tt (s <| k_cpu ::= λ c, sync_cpu (uvm_cpu p c) |>).
Proof.
  intros Hc Hp Hk Hd. unfold switchuvm. rewrite (get_proc_bind _ _ p) by done.
  destruct (Z.eqb_spec (p_kstack p) 0); [done |].
  destruct (Z.eqb_spec (p_pgdir p) 0); [done |].
  rewrite (bind_done _ _ _ _ _ (pushcli_run s)).
  assert (Hm : mycpu (s <| k_cpu ::= push_cpu |>) =
    Done (push_cpu (k_cpu s)) (s <| k_cpu ::= push_cpu |>)) by done.
  rewrite (bind_done _ _ _ _ _ Hm). unfold lcr3, upd_cpu. rewrite !bind_modify.
  rewrite (popcli_run (uvm_cpu p (k_cpu s))).
  - kst_eq.
  - destruct Hc as [Hn Hif]. split; [exact Hn | exact Hif].
  - destruct s as [c]. destruct c. done.
Qed.
End switch.
