(* ===== verification/Proc.v ===== *)
(** * proc.c: the process table

    Slot allocation, the hand-over to the scheduler ([sched], [yield],
    [sleep]), [wakeup], [kill] and the listing functions; and [conalloc],
    which [allocproc] calls for kernel stacks of contained processes.
    [fork], [exit], [wait] and [joinContainer] are in [Fork.v].  The theorem on
    [sleep] is about all its interleavings with a CPU that wakes. *)
From S2P Require Import Prelude Mmu Cstring Kstate Spinlock Kalloc.

Definition upd_pv (f : pvars → pvars) : K unit := modify (λ s, s <| k_pv ::= f |>).

(** How often a blocked thread may be woken up within one wait: the bound on
    the loops around [sleep].  A thread woken more often has no result. *)
Class Fuel := patience : nat.

Section proc.
Context {LK : Linker}.

(** Hand out the next page reserved for a container ([startAddr]) and record
    whom it went to. *)
Definition conalloc (containerID pid : Z) : K Z :=
  acquire LCtable;;
  c ← get_cont containerID;
  let next := ct_used c in
  upd_cont containerID (λ c, c <| ct_used ::= λ u, u + 1 |>);;
  mem ← at_ "startAddr[next]" (ct_startAddr c) next;
  _ ← at_ "memory[next]" (ct_memory c) next;
  upd_cont containerID (λ c, c <| ct_memory ::=
    <[Z.to_nat next := mkCmap next mem (u32 (mem + 4096)) pid]> |>);;
  release LCtable;;
  cprintf "memory %x  of container : %d  with next : %d with pid : %d\n"
    [PInt mem; PInt containerID; PInt next; PInt pid];;
  mret mem.

Definition sizeof_trapframe : Z := 76.
Definition sizeof_context : Z := 20.

Definition allocproc : K (option nat) :=
  acquire LPtable;;
  ps ← gets k_procs;
  match find_idx (λ p, bool_decide (p_state p = UNUSED)) ps with
  | None => release LPtable;; mret None
  | Some i =>
      upd_proc i (λ p, p <| p_state := EMBRYO |>);;
      pid ← gets (λ s, nextpid (k_pv s));
      upd_proc i (λ p, p <| p_pid := pid |>);;
      upd_pv (λ v, v <| nextpid := i32 (pid + 1) |>);;
      release LPtable;;
      a ← gets (λ s, allocFor (k_pv s));
      p ← get_proc i;
      ks ← (if a =? 0 then kalloc else conalloc a (p_pid p));
      upd_proc i (λ p, p <| p_kstack := ks |>);;
      if ks =? 0 then upd_proc i (λ p, p <| p_state := UNUSED |>);; mret None else
      let sp := u32 (ks + KSTACKSIZE - sizeof_trapframe) in
      upd_proc i (λ p, p <| p_tfp := sp |>);;
      let sp := u32 (sp - 4) in
      modify (λ s, s <| k_mem ::= λ m, store32 m sp trapret_addr |>);;
      let sp := u32 (sp - sizeof_context) in
      upd_proc i (λ p, p <| p_contextp := sp |>);;
      upd_proc i (λ p, p <| p_context := ctx0 <| cx_eip := forkret_addr |> |>);;
      mret (Some i)
  end.

(** ** Giving up the CPU *)

Definition sched : K unit :=
  op ← myproc;
  h ← holding LPtable;
  if negb h then panic "sched ptable.lock" else
  c ← mycpu;
  if negb (ncli c =? 1) then panic "sched locks" else
  i ← deref "sched: no current process" op;
  p ← get_proc i;
  if bool_decide (p_state p = RUNNING) then panic "sched running" else
  c ← gets k_cpu;
  if if_flag c then panic "sched interruptible" else
  let saved := intena c in
  swtch;;
  upd_cpu (λ c, c <| intena := saved |>).

Definition yield : K unit :=
  acquire LPtable;;
  op ← myproc;
  i ← deref "yield: no current process" op;
  upd_proc i (λ p, p <| p_state := RUNNABLE |>);;
  sched;;
  release LPtable.

(** What other CPUs do between two lock operations of [sleep] shows only if they
    get a chance to: [pause] runs after each one on the way to sleep.  The
    function itself is the instance in which nothing happens there. *)
Definition sleep_at (pause : K unit) (ch : chan) (lk : lockid) : K unit :=
  let acquire_at := λ l, acquire l;; pause in
  let release_at := λ l, release l;; pause in
  op ← myproc;
  match op with
  | None => panic "sleep"
  | Some i =>
      mwhen (negb (bool_decide (lk = LPtable))) (acquire_at LPtable;; release_at lk);;
      upd_proc i (λ p, p <| p_chan := Some ch |>);;
      upd_proc i (λ p, p <| p_state := SLEEPING |>);;
      sched;;
      upd_proc i (λ p, p <| p_chan := None |>);;
      mwhen (negb (bool_decide (lk = LPtable))) (release LPtable;; acquire lk)
  end.
Definition sleep : chan → lockid → K unit := sleep_at (mret tt).

(** One iteration of [wakeup1]'s loop. *)
Definition wake (ch : option chan) (p : proc) : proc :=
  if bool_decide (p_state p = SLEEPING ∧ p_chan p = ch)
  then p <| p_state := RUNNABLE |> else p.
Definition wakeup1 (ch : option chan) : K unit :=
  modify (λ s, s <| k_procs ::= fmap (wake ch) |>).
Definition wakeup (ch : chan) : K unit :=
  acquire LPtable;; wakeup1 (Some ch);; release LPtable.

Definition kill (pid : Z) : K Z :=
  acquire LPtable;;
  ps ← gets k_procs;
  match find_idx (λ p, p_pid p =? pid) ps with
  | Some i =>
      upd_proc i (λ p, p <| p_killed := 1 |>);;
      p ← get_proc i;
      mwhen (bool_decide (p_state p = SLEEPING))
        (upd_proc i (λ p, p <| p_state := RUNNABLE |>));;
      release LPtable;;
      mret 0
  | None => release LPtable;; mret (-1)
  end.

(** A fork child's first scheduling: [first] is the function's static. *)
Definition forkret (first : bool) (iinit initlog : Z → K unit) : K unit :=
  release LPtable;;
  mwhen first (iinit ROOTDEV;; initlog ROOTDEV).

(** ** Listings *)
Definition state_name (st : procstate) : string :=
  match st with
  | UNUSED => "unused" | EMBRYO => "embryo" | SLEEPING => "sleep "
  | RUNNABLE => "runble" | RUNNING => "run   " | ZOMBIE => "zombie"
  | WAITING => "waiting"
  end.

Fixpoint mforM {A} (f : A → K unit) (l : list A) : K unit :=
  match l with [] => mret tt | x :: l => f x;; mforM f l end.

Definition ps_print : K unit :=
  op ← myproc;
  i ← deref "ps_print: no current process" op;
  me ← get_proc i;
  acquire LPtable;;
  ps ← gets k_procs;
  mforM (λ p,
    mwhen (p_containerID p =? p_containerID me)
      (cprintf "pid:%d name:%s state: %s container : %d \n"
         [PInt (p_pid p); PStr (p_name p); PStr (bytes (state_name (p_state p)));
          PInt (p_containerID me)])) ps;;
  release LPtable.

Definition procdump : K unit :=
  ps ← gets k_procs;
  mforM (λ p,
    mwhen (negb (bool_decide (p_state p = UNUSED)))
      (cprintf "%d %s %s" [PInt (p_pid p); PStr (bytes (state_name (p_state p)));
                           PStr (p_name p)];;
       mwhen (bool_decide (p_state p = SLEEPING))
         (m ← gets k_mem;
          let pc := getcallerpcs m (u32 (cx_ebp (p_context p) + 8)) in
          mforM (λ a, cprintf " %p" [PInt a])
            (take (default 10%nat (find_idx (λ a, a =? 0) pc)) pc));;
       cprintf "\n" [])) ps.

Definition printall : K unit :=
  acquire LPtable;;
  ps ← gets k_procs;
  mforM (λ '(loop, p),
    mwhen (negb (bool_decide (p_state p = UNUSED)))
      (cprintf "ITR : %d pid %d : %d :: %s\n"
         [PInt (Z.of_nat loop); PInt (p_pid p); PInt (p_containerID p);
          PStr (bytes (state_name (p_state p)))]))
    (imap pair ps);;
  release LPtable;;
  cprintf "\n\n\n\n\n" [].

(** ** Looking processes up *)
Definition pidToProcid (pid : Z) : K Z :=
  acquire LPtable;;
  ps ← gets k_procs;
  let loop := find_idx (λ p, p_pid p =? pid) ps in
  release LPtable;;
  mret (match loop with None => -1 | Some i => Z.of_nat i end).

Definition proc_container (pid : Z) : K Z :=
  acquire LPtable;;
  ps ← gets k_procs;
  match find_idx (λ p, p_pid p =? pid) ps with
  | Some i => release LPtable;; p ← get_proc i; mret (p_containerID p)
  | None => release LPtable;; mret (-1)
  end.

(** The first loop of [proc_container_num] does not stop at a match: [id] ends
    as the container of the last entry with that pid, [-1] without one. *)
Definition last_container (pid : Z) (ps : list proc) : Z :=
  foldl (λ id p, if p_pid p =? pid then p_containerID p else id) (-1) ps.
(** The second loop counts entries of that container up to and including the
    first entry with that pid, and returns there. *)
Fixpoint count_until (id pid : Z) (val : Z) (ps : list proc) : option Z :=
  match ps with
  | [] => None
  | p :: ps =>
      let val := if p_containerID p =? id then val + 1 else val in
      if p_pid p =? pid then Some val else count_until id pid val ps
  end.
Definition proc_container_num (pid : Z) : K Z :=
  acquire LPtable;;
  ps ← gets k_procs;
  let id := last_container pid ps in
  match count_until id pid 0 ps with
  | Some val => release LPtable;; mret val
  | None => release LPtable;; mret (-1)
  end.

(** ** Equations *)

Definition ptable_ready (s : kst) : Prop := cpu_ok (k_cpu s) ∧ LPtable ∉ k_held s.

Lemma ptable_ready_ksync s : ptable_ready s → ptable_ready (ksync s).
Proof. intros [Hc Hl]. split; [by apply sync_cpu_ok | exact Hl]. Qed.

Lemma wakeup_run ch s :
  ptable_ready s → wakeup ch s = Done tt (ksync (s <| k_procs ::= fmap (wake (Some ch)) |>)).
Proof.
  intros [Hc Hl]. unfold wakeup, wakeup1. rewrite acquire_bind, bind_modify by done.
  by rewrite (release_run _ _ (k_cpu s) (k_held s)).
Qed.
Lemma wakeup_bind {B} ch (k : unit → K B) s :
  ptable_ready s →
  (wakeup ch ≫= k) s = k tt (ksync (s <| k_procs ::= fmap (wake (Some ch)) |>)).
Proof. intros. by apply bind_done, wakeup_run. Qed.

(** What [kill] does to the process it finds. *)
Definition killed_proc (p : proc) : proc :=
  p <| p_killed := 1 |>
    <| p_state := if bool_decide (p_state p = SLEEPING) then RUNNABLE else p_state p |>.

Lemma kill_run pid s :
  ptable_ready s →
  kill pid s =
    match find_idx (λ p, p_pid p =? pid) (k_procs s) with
    | Some i => Done 0 (ksync (s <| k_procs ::= alter killed_proc i |>))
    | None => Done (-1) (ksync s)
    end.
Proof.
  intros [Hc Hl]. unfold kill. rewrite acquire_bind, bind_gets by done.
  change (k_procs (locked LPtable s)) with (k_procs s).
  destruct (find_idx _ _) as [i |] eqn:Hf.
  - apply find_idx_Some in Hf as [(p & Hp & _) _].
    erewrite upd_proc_bind by exact Hp.
    erewrite get_proc_bind by (cbn; apply list_lookup_insert_eq; by eapply lookup_lt_Some).
    cbn [p_state set set_p_killed].
    assert (Hst : ∀ q, killed_proc p = q → alter killed_proc i (k_procs s) = <[i := q]> (k_procs s)).
    { intros q <-. apply list_eq. intros j. rewrite list_lookup_alter.
      destruct (decide (i = j)) as [<- |]; [| by rewrite list_lookup_insert_ne].
      rewrite Hp, list_lookup_insert_eq; [done | by eapply lookup_lt_Some]. }
    destruct (bool_decide (p_state p = SLEEPING)) eqn:Hs; cbn [mwhen].
    + erewrite upd_proc_bind by (cbn; apply list_lookup_insert_eq; by eapply lookup_lt_Some).
      rewrite (release_bind _ _ _ (k_cpu s) (k_held s)) by done. unfold mret, M_ret.
      kst_eq. rewrite list_insert_insert_eq. symmetry. apply Hst.
      unfold killed_proc. by rewrite Hs.
    + rewrite bind_ret, (release_bind _ _ _ (k_cpu s) (k_held s)) by done.
      unfold mret, M_ret. kst_eq. symmetry. apply Hst. unfold killed_proc. rewrite Hs.
      by destruct p.
  - rewrite (release_bind _ _ _ (k_cpu s) (k_held s)) by done. unfold mret, M_ret. kst_eq.
Qed.

(** ** Allocating a slot *)

(** What [kalloc] changes of the state: the interrupt bookkeeping and the head
    of the free list. *)
Lemma kalloc_frame `{!LinkerOk} s l :
  kmem_inv s l → kmem_ready s →
  ∃ c km, kalloc s = Done (hd 0 l) (s <| k_cpu := c |> <| k_kmem := km |>) ∧
    kmem_inv (s <| k_cpu := c |> <| k_kmem := km |>) (tl l) ∧
    (c = k_cpu s ∨ c = sync_cpu (k_cpu s)) ∧ use_lock km = use_lock (k_kmem s).
Proof.
  intros Hi Hr. destruct (kalloc_spec s l Hi Hr) as (s' & Hk & Hi' & _).
  rewrite (kalloc_run s Hr) in Hk. injection Hk as Hhd Hs'.
  assert (Hc : s' = s <| k_cpu := k_cpu s' |> <| k_kmem := k_kmem s' |> ∧
    (k_cpu s' = k_cpu s ∨ k_cpu s' = sync_cpu (k_cpu s)) ∧
    use_lock (k_kmem s') = use_lock (k_kmem s)).
  { subst s'. unfold locksync, ksync.
    destruct (freelist (k_kmem s) =? 0); kproj use_lock; destruct (use_lock (k_kmem s)) eqn:Hu;
      (split; [kst_eq | split; [by (left + right) | done]]). }
  exists (k_cpu s'), (k_kmem s'). rewrite (kalloc_run s Hr), Hs'. destruct Hc as (Heq & Hc & Hu).
  rewrite <- Heq. split_and!; [by rewrite Hhd | done | done | done].
Qed.

Definition unused (p : proc) : bool := bool_decide (p_state p = UNUSED).

(** The slot [allocproc] returns: a kernel stack with a trap frame on top, the
    address of [trapret] below it and below that a context that makes [swtch]
    "return" to [forkret]. *)
Definition embryo (pid ks : Z) (p : proc) : proc :=
  p <| p_state := EMBRYO |> <| p_pid := pid |> <| p_kstack := ks |>
    <| p_tfp := u32 (ks + KSTACKSIZE - sizeof_trapframe) |>
    <| p_contextp := u32 (u32 (u32 (ks + KSTACKSIZE - sizeof_trapframe) - 4) - sizeof_context) |>
    <| p_context := ctx0 <| cx_eip := forkret_addr |> |>.

(** The kernel stack of a new process comes from the general pool or, for a
    contained process, from the container's reserve. *)
Definition kstack_for (a pid : Z) : K Z := if a =? 0 then kalloc else conalloc a pid.

Lemma allocproc_full s :
  ptable_ready s → find_idx unused (k_procs s) = None →
  allocproc s = Done None (ksync s).
Proof.
  intros [Hc Hl] Hf. unfold allocproc. rewrite acquire_bind, bind_gets by done.
  change (k_procs (locked LPtable s)) with (k_procs s). fold unused. rewrite Hf.
  rewrite (release_bind _ _ _ (k_cpu s) (k_held s)) by done. unfold mret, M_ret. kst_eq.
Qed.

(** The state in which [allocproc] asks for the kernel stack. *)
Definition claimed (i : nat) (p : proc) (s : kst) : kst :=
  ksync (s <| k_procs ::= <[i := p <| p_state := EMBRYO |> <| p_pid := nextpid (k_pv s) |>]> |>
           <| k_pv ::= λ v, v <| nextpid := i32 (nextpid v + 1) |> |>).

Lemma allocproc_some s i p ks s' :
  ptable_ready s → find_idx unused (k_procs s) = Some i → k_procs s !! i = Some p →
  kstack_for (allocFor (k_pv s)) (nextpid (k_pv s)) (claimed i p s) = Done ks s' →
  k_procs s' = k_procs (claimed i p s) →
  allocproc s =
    if ks =? 0
    then Done None (s' <| k_procs ::= <[i := p <| p_state := UNUSED |>
                        <| p_pid := nextpid (k_pv s) |> <| p_kstack := ks |>]> |>)
    else Done (Some i) (s' <| k_procs ::= <[i := embryo (nextpid (k_pv s)) ks p]> |>
           <| k_mem ::= λ m, store32 m
                (u32 (u32 (ks + KSTACKSIZE - sizeof_trapframe) - 4)) trapret_addr |>).
Proof.
  intros [Hc Hl] Hf Hp Hk Hps. unfold allocproc. rewrite acquire_bind, bind_gets by done.
  change (k_procs (locked LPtable s)) with (k_procs s). fold unused. rewrite Hf.
  pose proof (lookup_lt_Some _ _ _ Hp) as Hlen.
  erewrite upd_proc_bind by exact Hp. rewrite bind_gets.
  erewrite upd_proc_bind by (cbn; by apply list_lookup_insert_eq).
  unfold upd_pv. rewrite bind_modify.
  rewrite (release_bind _ _ _ (k_cpu s) (k_held s)) by done. rewrite bind_gets.
  erewrite get_proc_bind by (kfields; rewrite list_insert_insert_eq;
    by apply list_lookup_insert_eq).
  match goal with |- ((if ?b then _ else _) ≫= _) ?st = _ =>
    assert (st = claimed i p s) as -> end.
  { unfold claimed, locked, ksync. kst_eq. by rewrite list_insert_insert_eq. }
  erewrite bind_done by exact Hk.
  assert (Hp' : k_procs s' !! i =
    Some (p <| p_state := EMBRYO |> <| p_pid := nextpid (k_pv s) |>)).
  { rewrite Hps. cbn. by apply list_lookup_insert_eq. }
  assert (Hlen' : (i < length (k_procs s'))%nat) by (by eapply lookup_lt_Some).
  erewrite upd_proc_bind by exact Hp'.
  destruct (ks =? 0).
  - erewrite upd_proc_bind by (cbn; by apply list_lookup_insert_eq).
    unfold mret, M_ret. kst_eq. by rewrite !list_insert_insert_eq.
  - erewrite upd_proc_bind by (cbn; by apply list_lookup_insert_eq).
    rewrite bind_modify.
    erewrite upd_proc_bind by (cbn; rewrite list_insert_insert_eq;
      by apply list_lookup_insert_eq).
    erewrite upd_proc_bind by (cbn; rewrite !list_insert_insert_eq;
      by apply list_lookup_insert_eq).
    unfold mret, M_ret. kst_eq.
    by rewrite !list_insert_insert_eq.
Qed.
Lemma kmem_inv_write s l pg a v :
  kmem_inv s l → page_aligned pg → pg ∉ l → pg ≤ a → a + 4 ≤ pg + PGSIZE →
  kmem_inv (s <| k_mem ::= λ m, store32 m a v |>) l.
Proof.
  intros [Hl Hnd Hv] Hpg Hn Ha Ha'. split; [| done | done]. cbn.
  apply (free_list_outside pg (k_mem s)); [done | done | done | | done].
  intros b Hb. apply load8_store32_ne. lia.
Qed.

(** allocation of a process (outside containers): with a free slot and
    a free page, the first unused slot becomes an EMBRYO with a fresh pid and a
    kernel stack laid out for [swtch] and [trapret]; without a page the slot is
    given back; without a slot nothing happens.  In every case the locks held
    are as before. *)
Theorem allocproc_spec `{!LinkerOk} s l :
  ptable_ready s → LKmem ∉ k_held s → kmem_inv s l → allocFor (k_pv s) = 0 →
  ∃ r s', allocproc s = Done r s' ∧ k_held s' = k_held s ∧
  match find_idx unused (k_procs s), l with
  | None, _ => r = None ∧ k_procs s' = k_procs s ∧ kmem_inv s' l
  | Some i, [] => r = None ∧ kmem_inv s' [] ∧ (∃ p, k_procs s' !! i = Some p ∧ unused p = true) ∧
      ∀ j, j ≠ i → k_procs s' !! j = k_procs s !! j
  | Some i, pg :: l => r = Some i ∧ kmem_inv s' l ∧
      (∃ p, k_procs s !! i = Some p ∧ p_state p = UNUSED ∧
        k_procs s' = <[i := embryo (nextpid (k_pv s)) pg p]> (k_procs s)) ∧
      load32 (k_mem s') (pg + (4096 - 76 - 4)) = u32 trapret_addr ∧
      nextpid (k_pv s') = i32 (nextpid (k_pv s) + 1)
  end.
Proof.
  intros Hpt Hlk Hi Ha. destruct (find_idx unused (k_procs s)) as [i |] eqn:Hf.
  2: { exists None, (ksync s). split_and!; try done; [by apply allocproc_full |].
       by destruct Hi. }
  pose proof (find_idx_Some _ _ _ Hf) as [(p & Hp & Hun) _].
  apply bool_decide_eq_true in Hun.
  assert (Hr : kmem_ready (claimed i p s)) by (split; [by apply sync_cpu_ok, Hpt | exact Hlk]).
  assert (Hic : kmem_inv (claimed i p s) l) by (by destruct Hi).
  destruct (kalloc_frame _ _ Hic Hr) as (c & km & Hk & Hi' & Hcc & Hul).
  pose proof (allocproc_some s i p (hd 0 l) _ Hpt Hf Hp ltac:(by rewrite Ha) eq_refl) as Hrun.
  pose proof (lookup_lt_Some _ _ _ Hp) as Hlen.
  destruct l as [| pg l]; cbn [hd tl] in *; [| destruct Hi as [_ Hnd Hv]].
  - do 2 eexists. split_and!; [exact Hrun | done | done | by destruct Hi' | |].
    + eexists. split; [cbn; rewrite list_insert_insert_eq; by apply list_lookup_insert_eq |].
      done.
    + intros j Hj. cbn. by rewrite !list_lookup_insert_ne by done.
  - apply Forall_cons_1 in Hv as [Hpg Hv]. apply NoDup_cons in Hnd as [Hnin Hnd].
    pose proof (valid_page_pos pg Hpg) as Hpos. destruct (Z.eqb_spec pg 0); [lia |].
    pose proof (valid_page_range pg Hpg) as Hrg.
    unfold KERNBASE, EXTMEM, PHYSTOP, PGSIZE in Hrg.
    assert (Hsp : u32 (u32 (pg + KSTACKSIZE - sizeof_trapframe) - 4) = pg + (4096 - 76 - 4)).
    { unfold KSTACKSIZE, sizeof_trapframe. rewrite u32_sub_l, u32_id by (unfold is_u32; lia). lia. }
    rewrite Hsp in Hrun. do 2 eexists. split; [exact Hrun |].
    split; [done |]. split; [done |]. split; [| split; [| split]].
    + apply (kmem_inv_write _ _ pg); [by destruct Hi' | apply Hpg | done | lia |
        unfold PGSIZE; lia].
    + exists p. split_and!; [done | done |]. cbn. by rewrite list_insert_insert_eq.
    + cbn. apply load32_store32_eq.
    + done.
Qed.
(** ** Giving up the CPU *)

(** Every spin lock held accounts for one level of [pushcli]. *)
Definition locks_ok (s : kst) : Prop :=
  cpu_ok (k_cpu s) ∧ Z.of_nat (length (k_held s)) ≤ ncli (k_cpu s).

Lemma mycpu_run s : if_flag (k_cpu s) = false → mycpu s = Done (k_cpu s) s.
Proof. intros H. unfold mycpu. by rewrite bind_gets, H. Qed.

Lemma sched_run s i p :
  locks_ok s → c_proc (k_cpu s) = Some i → k_procs s !! i = Some p →
  sched s =
    if bool_decide (LPtable ∈ k_held s) then
      if ncli (k_cpu s) =? 1 then
        if bool_decide (p_state p = RUNNING) then Panic "sched running" (ksync s)
        else Switch (ksync s) (λ s',
          Done tt (s' <| k_cpu ::= λ c, c <| intena := intena (k_cpu (ksync s)) |> |>))
      else Panic "sched locks" (ksync s)
    else Panic "sched ptable.lock" (ksync s).
Proof.
  intros [Hc Hl] Hi Hp. unfold sched. rewrite myproc_bind by done.
  assert (Hsync : cpu_ok (k_cpu (ksync s))) by by apply sync_cpu_ok.
  assert (Hss : ksync (ksync s) = ksync s) by (unfold ksync; kst_eq; apply sync_cpu_idem).
  rewrite (bind_done _ _ _ _ _ (holding_run LPtable _ Hsync)), Hss.
  change (k_held (ksync s)) with (k_held s).
  case_bool_decide as Hh; cbn [negb]; [| done].
  assert (Hn : 0 < ncli (k_cpu s)).
  { destruct (k_held s); [by apply elem_of_nil in Hh | cbn in Hl; lia]. }
  assert (Hif : if_flag (k_cpu (ksync s)) = false) by exact (proj2 Hc Hn).
  rewrite (bind_done _ _ _ _ _ (mycpu_run _ Hif)).
  change (ncli (k_cpu (ksync s))) with (ncli (k_cpu s)).
  destruct (ncli (k_cpu s) =? 1); cbn [negb]; [| done].
  rewrite Hi. cbn [deref]. rewrite bind_ret.
  erewrite get_proc_bind by exact Hp.
  case_bool_decide; [done |]. by rewrite bind_gets, Hif.
Qed.

(** [sched] hands the CPU over only when the process holds [ptable.lock]
    and no other lock, and is not RUNNING any more; in every other case it
    panics, and its last check ("sched interruptible") never fires. *)
Theorem sched_discipline s i p :
  locks_ok s → c_proc (k_cpu s) = Some i → k_procs s !! i = Some p →
  (∀ s' k, sched s = Switch s' k →
     LPtable ∈ k_held s ∧ ncli (k_cpu s) = 1 ∧ k_held s' = [LPtable] ∧
     p_state p ≠ RUNNING ∧ if_flag (k_cpu s') = false ∧ k_procs s' = k_procs s) ∧
  (∀ a s', sched s ≠ Done a s') ∧ (∀ w, sched s ≠ Fault w) ∧
  (∀ s', sched s ≠ Panic "sched interruptible" s').
Proof.
  intros Hl Hi Hp. rewrite (sched_run s i p Hl Hi Hp).
  destruct (Z.eqb_spec (ncli (k_cpu s)) 1), (decide (LPtable ∈ k_held s)) as [Hin |];
    rewrite ?bool_decide_eq_true_2, ?bool_decide_eq_false_2 by done;
    repeat case_bool_decide;
    (split_and!; [intros s' k Hs'; simplify_eq | done | done | done]).
  destruct Hl as [Hc Hlen]. split_and!; try done.
  - change (k_held (ksync s)) with (k_held s).
    destruct (k_held s) as [| x [| y h]]; cbn in *; [by apply elem_of_nil in Hin | | lia].
    by apply list_elem_of_singleton in Hin as <-.
  - apply Hc. lia.
Qed.

Definition asleep (ch : chan) (p : proc) : proc :=
  p <| p_chan := Some ch |> <| p_state := SLEEPING |>.

(** The caller holds exactly the spin lock [lk]. *)
Record holds_only (lk : lockid) (s : kst) : Prop := {
  ho_held : k_held s = [lk];
  ho_ncli : ncli (k_cpu s) = 1;
  ho_if : if_flag (k_cpu s) = false }.

Lemma holds_only_push l s :
  holds_only l s →
  let c := (k_cpu s) <| ncli := 0 |> <| if_flag := intena (k_cpu s) |> in
  cpu_ok c ∧ k_cpu s = push_cpu c.
Proof.
  intros [_ Hn Hif]. split; [split; cbn; lia |].
  destruct (k_cpu s); cbn in *. by subst.
Qed.
Lemma holds_only_release l s :
  holds_only l s →
  release l s = Done tt (s <| k_cpu ::= λ c,
    c <| ncli := 0 |> <| if_flag := intena c |> |> <| k_held := [] |>).
Proof.
  intros Hl. destruct (holds_only_push _ _ Hl) as [Hc Hp].
  rewrite (release_run _ _ _ [] Hc Hp (ho_held _ _ Hl)); [done | set_solver].
Qed.
Lemma holds_only_acquire l s :
  ncli (k_cpu s) = 0 → k_held s = [] → holds_only l (locked l s).
Proof. intros Hn Hh. by split; cbn; rewrite ?Hn, ?Hh. Qed.

(** The second half of [sleep]. *)
Lemma sleep_resume i lk b s p :
  holds_only LPtable s → k_procs s !! i = Some p →
  ∃ s', (upd_cpu (λ c, c <| intena := b |>);;
    upd_proc i (λ p, p <| p_chan := None |>);;
    mwhen (negb (bool_decide (lk = LPtable))) (release LPtable;; acquire lk)) s = Done tt s' ∧
    holds_only lk s' ∧
    s' = s <| k_cpu := (k_cpu s') <| c_proc := c_proc (k_cpu s) |> |> <| k_held := [lk] |>
           <| k_procs ::= <[i := p <| p_chan := None |>]> |>.
Proof.
  intros Hh Hp. unfold upd_cpu. rewrite bind_modify. erewrite upd_proc_bind by exact Hp.
  case_bool_decide as Hlk; cbn [negb mwhen].
  - subst lk. eexists. split; [done |]. destruct Hh. split; [by split |].
    kst_eq. done.
  - erewrite bind_done by (apply holds_only_release; destruct Hh; by split).
    destruct Hh as [Hheld Hn Hif].
    rewrite acquire_run; [| split; cbn; lia | cbn; set_solver].
    eexists. split; [done |]. split; [by apply holds_only_acquire |].
    unfold locked. kst_eq.
Qed.

Lemma sleep_run ch lk s i p :
  holds_only lk s → c_proc (k_cpu s) = Some i → k_procs s !! i = Some p →
  ∃ s1 k, sleep ch lk s = Switch s1 k ∧ holds_only LPtable s1 ∧
    s1 = s <| k_cpu := k_cpu s1 |> <| k_held := [LPtable] |>
           <| k_procs ::= <[i := asleep ch p]> |> ∧
    ∀ s2 p2, holds_only LPtable s2 → k_procs s2 !! i = Some p2 →
      ∃ s3, k s2 = Done tt s3 ∧ holds_only lk s3 ∧
        s3 = s2 <| k_cpu := (k_cpu s3) <| c_proc := c_proc (k_cpu s2) |> |> <| k_held := [lk] |>
                <| k_procs ::= <[i := p2 <| p_chan := None |>]> |>.
Proof.
  intros [Hh Hn Hif] Hi Hp.
  assert (Hc : cpu_ok (k_cpu s)) by (split; [lia | done]).
  unfold sleep, sleep_at. rewrite myproc_bind by done. rewrite Hi.
  pose proof (lookup_lt_Some _ _ _ Hp) as Hlen.
  set (rest := upd_proc i (λ p, p <| p_chan := None |>);;
    mwhen (negb (bool_decide (lk = LPtable))) (release LPtable;; acquire lk)).
  assert (Hfin : ∀ st, holds_only LPtable st → c_proc (k_cpu st) = Some i →
    k_procs st = k_procs s →
    ∃ b, (upd_proc i (λ p, p <| p_chan := Some ch |>);;
     upd_proc i (λ p, p <| p_state := SLEEPING |>);; sched;; rest) st =
    Switch (ksync (st <| k_procs ::= <[i := asleep ch p]> |>))
      (λ s', (upd_cpu (λ c, c <| intena := b |>);; rest) s')).
  { intros st [Hh' Hn' Hif'] Hi' Hps. eexists.
    erewrite upd_proc_bind by (by rewrite Hps).
    erewrite upd_proc_bind by (cbn; rewrite Hps; by apply list_lookup_insert_eq).
    set (st' := set k_procs _ (set k_procs _ st)).
    assert (Hst : st' = st <| k_procs ::= <[i := asleep ch p]> |>).
    { unfold st'. kst_eq. by rewrite list_insert_insert_eq. }
    erewrite bind_switch; [reflexivity |]. rewrite Hst.
    erewrite (sched_run _ i (asleep ch p)).
    - rewrite bool_decide_eq_true_2 by (cbn; rewrite Hh'; left).
      change (ncli (k_cpu (st <| k_procs ::= <[i:=asleep ch p]> |>))) with (ncli (k_cpu st)).
      rewrite Hn'. done.
    - split; [split; cbn; [lia | done] |]. cbn. rewrite Hh', Hn'. cbn. lia.
    - done.
    - cbn. apply list_lookup_insert_eq. by rewrite Hps. }
  pose proof (λ b, sleep_resume i lk b) as Hres. fold rest in Hres. clearbody rest.
  case_bool_decide as Hlk; cbn [negb mwhen].
  - subst lk. rewrite bind_ret.
    destruct (Hfin (ksync s)) as [b ->]; [by split | done | done |].
    do 2 eexists. split; [done |]. split; [by split |]. split; [unfold ksync; kst_eq; done |].
    intros s2 p2 H2 Hp2. by apply Hres.
  - rewrite !bind_assoc, acquire_bind; [| by apply sync_cpu_ok |].
    2: { cbn. rewrite Hh, list_elem_of_singleton. done. }
    rewrite bind_ret, !bind_assoc.
    rewrite (bind_done _ _ _ _ _ (release_in lk (locked LPtable (ksync s)) (k_cpu (ksync s))
      ltac:(by apply sync_cpu_ok) eq_refl ltac:(cbn; rewrite Hh; set_solver))).
    assert (Hf : filter (λ x, x ≠ lk) (k_held (locked LPtable (ksync s))) = [LPtable]).
    { change (k_held (locked LPtable (ksync s))) with (LPtable :: k_held s).
      by rewrite Hh, filter_cons_True, filter_cons_False by (tauto || congruence). }
    rewrite Hf, bind_ret. destruct (Hfin ((locked LPtable (ksync s)) <| k_cpu := sync_cpu (k_cpu (ksync s)) |>
      <| k_held := [LPtable] |>)) as [b ->];
      [split; [done | exact Hn | exact Hif] | exact Hi | done |].
    do 2 eexists. split; [done |].
    split; [split; [done | exact Hn | exact Hif] |].
    split; [unfold ksync, locked; kst_eq |].
    intros s2 p2 H2 Hp2. by apply Hres.
Qed.

(** Waking, on the table. *)
Lemma wake_lookup ch (ps : list proc) (i : nat) p :
  ps !! i = Some p → fmap (wake ch) ps !! i = Some (wake ch p).
Proof. intros Hp. by rewrite list_lookup_fmap, Hp. Qed.
Lemma wake_asleep ch p : wake (Some ch) (asleep ch p) = (asleep ch p) <| p_state := RUNNABLE |>.
Proof. unfold wake. by rewrite bool_decide_eq_true_2 by (by split). Qed.
Lemma wake_other ch p :
  ¬ (p_state p = SLEEPING ∧ p_chan p = ch) → wake ch p = p.
Proof. intros H. unfold wake. by rewrite bool_decide_eq_false_2. Qed.

(** no lost wakeup.  A process that sleeps on [ch] while holding only [lk]
    gives up the CPU: when it is in the scheduler's hands it is SLEEPING on
    [ch], [lk] is free and [ptable.lock] is the only lock held.  Whoever then
    calls [wakeup(ch)] finds it and makes it RUNNABLE; a wakeup of another
    channel does not touch it; no other process is changed by either.  When it
    is scheduled again it returns with [lk], and nothing else, held. *)
Theorem sleep_wakeup ch lk s i p :
  holds_only lk s → c_proc (k_cpu s) = Some i → k_procs s !! i = Some p →
  ∃ s1 k, sleep ch lk s = Switch s1 k ∧ holds_only LPtable s1 ∧
    k_procs s1 = <[i := asleep ch p]> (k_procs s) ∧
    (∀ s2 ch', ptable_ready s2 → k_procs s2 = k_procs s1 →
      ∃ s3, wakeup ch' s2 = Done tt s3 ∧ k_held s3 = k_held s2 ∧
        k_procs s3 !! i = Some (if decide (ch' = ch)
          then (asleep ch p) <| p_state := RUNNABLE |> else asleep ch p) ∧
        ∀ j q, j ≠ i → k_procs s !! j = Some q →
          ¬ (p_state q = SLEEPING ∧ p_chan q = Some ch') → k_procs s3 !! j = Some q) ∧
    (∀ s2 p2, holds_only LPtable s2 → k_procs s2 !! i = Some p2 →
      ∃ s3, k s2 = Done tt s3 ∧ holds_only lk s3 ∧
        k_procs s3 = <[i := p2 <| p_chan := None |>]> (k_procs s2)).
Proof.
  intros Hh Hi Hp. pose proof (lookup_lt_Some _ _ _ Hp) as Hlen.
  destruct (sleep_run ch lk s i p Hh Hi Hp) as (s1 & k & Hs & Ho & Heq & Hk).
  assert (Hps : k_procs s1 = <[i := asleep ch p]> (k_procs s)) by (by rewrite Heq).
  exists s1, k. split_and!; [done | done | done | |].
  - intros s2 ch' Hr H2.
    eexists. split; [by apply wakeup_run |]. split; [done |]. cbn. rewrite H2, Hps. split.
    + erewrite wake_lookup by (by apply list_lookup_insert_eq).
      case_decide as Hch; [subst; by rewrite wake_asleep |].
      rewrite wake_other; [done |]. cbn. intros [_ [= ->]]. done.
    + intros j q Hj Hq Hn. erewrite wake_lookup by (by rewrite list_lookup_insert_ne).
      by rewrite wake_other.
  - intros s2 p2 H2 Hp2. destruct (Hk s2 p2 H2 Hp2) as (s3 & H3 & Ho3 & Heq3).
    exists s3. split; [done |]. split; [done |]. by rewrite Heq3.
Qed.

(** ** Going to sleep while another CPU wakes

    The process [i] calls [sleep(ch, lk)], [lk] in its hands; another CPU is about
    to do what makes waiting pointless: acquire [lk], change what the process
    waits for, [wakeup(ch)], release [lk]. *)
Inductive waker := Before | Waking | Woken | After.
#[export] Instance waker_eq : EqDecision waker.
Proof. solve_decision. Defined.

Section interleaving.
Context (ch : chan) (lk : lockid) (i : nat).

Definition state_of (s : kst) : option procstate := p_state <$> k_procs s !! i.

(** One step of either CPU, or of the scheduler on the first; a lock that is
    held makes the others wait. *)
Inductive sw_step : waker * outcome kst unit → waker * outcome kst unit → Prop :=
  (* the process goes on after a pause *)
  | sw_run w s k : state_of s = Some RUNNING → sw_step (w, Switch s k) (w, k s)
  (* it has given up the CPU: the scheduler releases ptable.lock ... *)
  | sw_leave w s k s' : state_of s ≠ Some RUNNING → LPtable ∈ k_held s → release LPtable s = Done tt s' →
      sw_step (w, Switch s k) (w, Switch s' k)
  (* ... and comes back to it when it is RUNNABLE and can have [lk] *)
  | sw_resume w s k s' : state_of s = Some RUNNABLE → w ≠ Waking → w ≠ Woken → acquire LPtable s = Done tt s' →
      sw_step (w, Switch s k) (w, k (s' <| k_procs ::= alter (λ p, p <| p_state := RUNNING |>) i |>))
  (* the other CPU *)
  | sw_lock s k : lk ∉ k_held s → sw_step (Before, Switch s k) (Waking, Switch s k)
  | sw_wake s k c s' : LPtable ∉ k_held s → cpu_ok c →
      wakeup ch (s <| k_cpu := c |> <| k_held := [lk] |>) = Done tt s' →
      sw_step (Waking, Switch s k) (Woken, Switch (s <| k_procs := k_procs s' |>) k)
  | sw_unlock s k : sw_step (Woken, Switch s k) (After, Switch s k).

(** The pauses on the way to sleep; behind them is [sleep] as it is. *)
Lemma sleep_at_run s p :
  holds_only lk s → lk ≠ LPtable → c_proc (k_cpu s) = Some i → k_procs s !! i = Some p →
  ∃ a1 k1 a2 k2, sleep_at swtch ch lk s = Switch a1 k1 ∧ k1 a1 = Switch a2 k2 ∧ k2 a2 = sleep ch lk s ∧
    lk ∈ k_held a1 ∧ LPtable ∈ k_held a1 ∧ k_held a2 = [LPtable] ∧ k_procs a1 = k_procs s ∧ k_procs a2 = k_procs s.
Proof.
  intros [Hh Hn Hif] Hne Hi Hp. assert (Hc : cpu_ok (k_cpu s)) by (split; [lia | done]).
  unfold sleep, sleep_at. rewrite !myproc_bind, Hi by done. rewrite bool_decide_eq_false_2 by done. cbn [negb mwhen].
  rewrite !bind_assoc.
  assert (Hnin : LPtable ∉ k_held (ksync s)) by (cbn; rewrite Hh; by intros ?%list_elem_of_singleton).
  rewrite !acquire_bind by (done || by apply sync_cpu_ok). rewrite bind_ret.
  set (rest := (upd_proc i _ ≫= _) : K unit). set (a1 := locked LPtable (ksync s)).
  pose proof (release_in lk a1 (k_cpu (ksync s)) ltac:(by apply sync_cpu_ok) eq_refl
    ltac:(cbn; rewrite Hh; set_solver)) as Hr.
  assert (Hf : filter (λ x, x ≠ lk) (k_held a1) = [LPtable]).
  { change (k_held a1) with (LPtable :: k_held s).
    by rewrite Hh, filter_cons_True, filter_cons_False by (tauto || congruence). }
  rewrite Hf in Hr. rewrite bind_assoc, (bind_done _ _ _ _ _ Hr), bind_ret.
  eexists a1, _, _, _. split; [reflexivity |]. cbn [obind]. split.
  { unfold mret, M_ret. cbn [obind]. rewrite bind_assoc, (bind_done _ _ _ _ _ Hr). reflexivity. }
  split; [reflexivity |]. cbn. rewrite Hh. split; [set_solver |]. split; [set_solver |]. done.
Qed.

(** Where the two can be; the number falls with every step. *)
Section places.
Context (a1 a2 a3 a4 : kst) (k1 k2 k3 : kst → outcome kst unit) (p : proc).

(** What the wakeup does to the table, when it has happened. *)
Definition woken (w : waker) : bool := match w with Woken | After => true | _ => false end.
Definition table (w : waker) (ps : list proc) : list proc := if woken w then wake (Some ch) <$> ps else ps.
Definition left_of (w : waker) : nat := match w with Before => 4 | Waking => 3 | Woken => 2 | After => 1 end.
Inductive sw_at : nat → waker * outcome kst unit → Prop :=
  | at_pause1 : sw_at 9 (Before, Switch a1 k1)
  | at_pause2 w : w = Before ∨ w = Waking → sw_at (4 + left_of w) (w, Switch a2 k2)
  | at_sched w : w = Before ∨ w = Waking → sw_at (2 + left_of w) (w, Switch a3 k3)
  | at_asleep w : sw_at (left_of w) (w, Switch (a4 <| k_procs ::= table w |>) k3)
  | at_end s : holds_only lk s → k_procs s = <[i := p <| p_chan := None |>]> (wake (Some ch) <$> k_procs a1) →
      sw_at 0 (After, Done tt s).

(** The states at these places. *)
Record sw_facts : Prop := {
  sf_ne : lk ≠ LPtable;
  sf_k1 : k1 a1 = Switch a2 k2;
  sf_k2 : k2 a2 = Switch a3 k3;
  sf_h1 : lk ∈ k_held a1 ∧ LPtable ∈ k_held a1;
  sf_h2 : k_held a2 = [LPtable];
  sf_p : k_procs a1 !! i = Some p ∧ p_state p = RUNNING;
  sf_p2 : k_procs a2 = k_procs a1;
  sf_o3 : holds_only LPtable a3;
  sf_p3 : k_procs a3 = <[i := asleep ch p]> (k_procs a1);
  sf_a4 : release LPtable a3 = Done tt a4 ∧ k_procs a4 = k_procs a3 ∧ k_held a4 = [] ∧ ncli (k_cpu a4) = 0 ∧ cpu_ok (k_cpu a4);
  sf_k3 s p2 : holds_only LPtable s → k_procs s !! i = Some p2 →
    ∃ s', k3 s = Done tt s' ∧ holds_only lk s' ∧ k_procs s' = <[i := p2 <| p_chan := None |>]> (k_procs s) }.
Context (F : sw_facts).

Lemma state_asleep w :
  state_of (a4 <| k_procs ::= table w |>) = Some (if woken w then RUNNABLE else SLEEPING).
Proof.
  destruct (sf_a4 F) as (_ & Hp4 & _). destruct (sf_p F) as [Hp _].
  pose proof (lookup_lt_Some _ _ _ Hp) as Hlt.
  unfold state_of. cbn. rewrite Hp4, (sf_p3 F). unfold table. destruct (woken w).
  - rewrite list_lookup_fmap, list_lookup_insert_eq by done. cbn. by rewrite wake_asleep.
  - by rewrite list_lookup_insert_eq.
Qed.
Lemma state_pause a : k_procs a = k_procs a1 → state_of a = Some RUNNING.
Proof. destruct (sf_p F) as [Hp Hs]. unfold state_of. intros ->. by rewrite Hp, <- Hs. Qed.
Lemma state_sched : state_of a3 = Some SLEEPING.
Proof.
  destruct (sf_p F) as [Hp _]. unfold state_of. rewrite (sf_p3 F), list_lookup_insert_eq; [done |].
  by eapply lookup_lt_Some.
Qed.
Lemma wakeup_other s c :
  lk ≠ LPtable → cpu_ok c → ∃ s', wakeup ch (s <| k_cpu := c |> <| k_held := [lk] |>) = Done tt s' ∧
    k_procs s' = wake (Some ch) <$> k_procs s.
Proof.
  intros Hne Hc. eexists. split; [apply wakeup_run; split; [done |] | done].
  cbn. intros Heq%list_elem_of_singleton. congruence.
Qed.

(** The scheduler's return to the process. *)
Lemma resumed s w :
  s = a4 <| k_procs ::= table w |> → woken w = true →
  ∃ s', acquire LPtable s = Done tt s' ∧
    ∃ s2, k3 (s' <| k_procs ::= alter (λ p, p <| p_state := RUNNING |>) i |>) = Done tt s2 ∧ sw_at 0 (After, Done tt s2).
Proof.
  intros -> Hw. destruct (sf_a4 F) as (_ & Hp4 & Hh4 & Hn4 & Hc4). destruct (sf_p F) as [Hp Hs].
  pose proof (lookup_lt_Some _ _ _ Hp) as Hlt. eexists. split.
  { apply acquire_run; [done |]. cbn. rewrite Hh4. by intros ?%elem_of_nil. }
  unfold table. rewrite Hw.
  match goal with |- ∃ _, k3 ?st = _ ∧ _ => set (s2 := st) end.
  assert (k_procs s2 = <[i := p <| p_chan := Some ch |>]> (wake (Some ch) <$> k_procs a1)) as Hp2.
  { unfold s2. cbn. rewrite Hp4, (sf_p3 F), list_fmap_insert, wake_asleep.
    rewrite !list_insert_alter, list_alter_alter_eq. apply list_alter_ext; [| done].
    intros x _. destruct p; cbn in *. by subst. }
  destruct (sf_k3 F s2 (p <| p_chan := Some ch |>)) as (s3 & Hk & Ho & Hp3).
  - split; cbn; [by rewrite Hh4 | by rewrite Hn4 | done].
  - rewrite Hp2. apply list_lookup_insert_eq. by rewrite length_fmap.
  - exists s3. split; [done |]. constructor; [done |]. rewrite Hp3, Hp2, list_insert_insert_eq. done.
Qed.

Lemma at_asleep_same w : w = Before ∨ w = Waking → sw_at (left_of w) (w, Switch a4 k3).
Proof.
  intros Hw. assert (a4 = a4 <| k_procs ::= table w |>) as Heq by (destruct Hw as [-> | ->]; by destruct a4).
  rewrite Heq. apply at_asleep.
Qed.
Lemma sw_at_step n c c' : sw_at n c → sw_step c c' → ∃ m, (m < n)%nat ∧ sw_at m c'.
Proof.
  intros Ha Hst. destruct F as [Hne Hk1 Hk2 [Hl1 Hl1'] Hh2 _ Hp2 Ho3 _ (Hr & _ & Hh4 & _) _].
  inversion Ha as [| w Hw | w Hw | w | s Ho Hp]; subst; inversion Hst; subst; try done;
    rewrite ?(state_pause a1), ?(state_pause a2), ?state_sched, ?state_asleep in * by done; try done.
  - rewrite Hk1. eexists. split; [| apply at_pause2; by left]. cbn. lia.
  - rewrite Hk2. eexists. split; [| by apply at_sched]. lia.
  - eexists. split; [| apply at_pause2; by right]. cbn. lia.
  - match goal with H : LPtable ∉ _ |- _ => destruct H end. rewrite Hh2. by left.
  - destruct Hw; discriminate.
  - assert (s' = a4) as -> by congruence. eexists. split; [| apply (at_asleep_same w Hw)]. lia.
  - eexists. split; [| apply at_sched; by right]. cbn. lia.
  - match goal with H : LPtable ∉ _ |- _ => destruct H end. rewrite (ho_held _ _ Ho3). by left.
  - destruct Hw; discriminate.
  - by destruct w.
  - match goal with H : LPtable ∈ _ |- _ => cbn in H; rewrite Hh4 in H; by apply elem_of_nil in H end.
  - destruct (woken w) eqn:Hw; [| done]. destruct (resumed _ w eq_refl Hw) as (s2 & Hacq & s3 & Hk3 & Hat).
    match goal with H : acquire LPtable _ = Done tt s' |- _ => rewrite Hacq in H; injection H as <- end.
    rewrite Hk3. assert (w = After) as -> by (by destruct w). exists O. split; [cbn; lia | done].
  - eexists. split; [| exact (at_asleep Waking)]. cbn. lia.
  - match goal with H : wakeup _ (_ <| k_cpu := ?c |> <| k_held := _ |>) = _, H' : cpu_ok ?c |- _ =>
      destruct (wakeup_other (a4 <| k_procs ::= table Waking |>) c Hne H') as (s2 & Hw2 & Hps); rewrite Hw2 in H; injection H as <- end.
    rewrite Hps. exists 2%nat. split; [cbn; lia | exact (at_asleep Woken)].
  - eexists. split; [| exact (at_asleep After)]. cbn. lia.
Qed.

(** Nobody is ever stuck before the end. *)
Lemma sw_at_moves n c : sw_at n c → n = O ∨ ∃ c', sw_step c c'.
Proof.
  intros Ha. destruct F as [Hne Hk1 Hk2 _ _ _ Hp2 Ho3 _ (Hr & _ & Hh4 & _ & Hc4) _].
  inversion Ha as [| w Hw | w Hw | w | s Ho Hp]; subst; [right .. | by left].
  - eexists. apply sw_run. by apply state_pause.
  - eexists. apply sw_run. by apply state_pause.
  - eexists. eapply sw_leave; [by rewrite state_sched | rewrite (ho_held _ _ Ho3); by left | exact Hr].
  - destruct w.
    + eexists. apply sw_lock. cbn. rewrite Hh4. by intros ?%elem_of_nil.
    + destruct (wakeup_other (a4 <| k_procs ::= table Waking |>) (k_cpu a4) Hne Hc4) as (s2 & Hw2 & _).
      eexists. eapply sw_wake; [cbn; rewrite Hh4; by intros ?%elem_of_nil | exact Hc4 | exact Hw2].
    + eexists. apply sw_unlock.
    + destruct (resumed _ After eq_refl eq_refl) as (s2 & Hacq & _).
      eexists. eapply sw_resume; [by rewrite state_asleep | done | done | exact Hacq].
Qed.

Lemma sw_at_here n w o :
  sw_at n (w, o) →
  match o with
  | Switch s' _ => (woken w = true → state_of s' = Some RUNNABLE) ∧ ∃ c, sw_step (w, o) c
  | Done _ s' => w = After ∧ holds_only lk s' ∧
      k_procs s' = <[i := p <| p_chan := None |>]> (wake (Some ch) <$> k_procs a1)
  | _ => False
  end.
Proof.
  intros Ha. destruct (sw_at_moves n _ Ha) as [Hn | Hm].
  - inversion Ha as [Hn' | w' Hw Hn' | w' Hw Hn' | w' Hn' | s' Ho Hp Hn']; [congruence | lia | lia | destruct w'; cbn in *; lia | done].
  - inversion Ha as [| w' Hw | w' Hw | w' | s' Ho Hp]; subst; [.. | done]; (split; [| exact Hm]).
    + discriminate.
    + by destruct Hw as [-> | ->].
    + by destruct Hw as [-> | ->].
    + intros Hw. by rewrite state_asleep, Hw.
Qed.
End places.

Lemma sleep_facts s p :
  holds_only lk s → lk ≠ LPtable → c_proc (k_cpu s) = Some i → k_procs s !! i = Some p → p_state p = RUNNING →
  ∃ a1 a2 a3 a4 k1 k2 k3, sw_facts a1 a2 a3 a4 k1 k2 k3 p ∧ k_procs a1 = k_procs s ∧
    sleep_at swtch ch lk s = Switch a1 k1.
Proof.
  intros Hh Hne Hi Hp Hst.
  destruct (sleep_at_run s p Hh Hne Hi Hp) as (a1 & k1 & a2 & k2 & H0 & H1 & H2 & Hl & Hl' & Hh2 & Hp1 & Hp2).
  destruct (sleep_run ch lk s i p Hh Hi Hp) as (a3 & k3 & H3 & Ho3 & Heq3 & Hk3).
  exists a1, a2, a3. eexists. exists k1, k2, k3. split; [| done]. split; try done.
  - congruence.
  - by rewrite Hp1.
  - congruence.
  - by rewrite Heq3, Hp1.
  - split_and!; [by apply holds_only_release | done .. | by split; cbn; [lia | intros ?; lia]].
  - intros s2 p2 Ho Hp'. destruct (Hk3 s2 p2 Ho Hp') as (s3 & Hk & Ho' & Heq). exists s3.
    split_and!; [done | done | by rewrite Heq].
Qed.
End interleaving.

(** C14: no lost wakeup.  Let process [i] call [sleep(ch, lk)] while another CPU
    is about to acquire [lk], call [wakeup(ch)] and release [lk], and let the two
    CPUs take their steps in any order.  Nothing panics, somebody can always move
    and no run is endless; from the wakeup on the process is RUNNABLE, whenever
    the wakeup came, until it returns from [sleep], which it does after the
    wakeup only, with [lk] and nothing else held; the wakeup makes every sleeper
    on [ch] RUNNABLE and touches no other entry. *)
Theorem no_lost_wakeup ch lk i s p :
  holds_only lk s → lk ≠ LPtable → c_proc (k_cpu s) = Some i → k_procs s !! i = Some p → p_state p = RUNNING →
  ∀ w o, rtc (sw_step ch lk i) (Before, sleep_at swtch ch lk s) (w, o) →
    Acc (flip (sw_step ch lk i)) (w, o) ∧
    match o with
    | Switch s' _ => (woken w = true → state_of i s' = Some RUNNABLE) ∧ ∃ c, sw_step ch lk i (w, o) c
    | Done _ s' => w = After ∧ holds_only lk s' ∧
        k_procs s' = <[i := p <| p_chan := None |>]> (wake (Some ch) <$> k_procs s)
    | _ => False
    end.
Proof.
  intros Hh Hne Hi Hp Hst w o Hrun.
  destruct (sleep_facts ch lk i s p Hh Hne Hi Hp Hst) as (a1 & a2 & a3 & a4 & k1 & k2 & k3 & F & Hp1 & H0).
  assert (∃ n, sw_at ch lk i a1 a2 a3 a4 k1 k2 k3 p n (w, o)) as [n Hat].
  { assert (∃ n, sw_at ch lk i a1 a2 a3 a4 k1 k2 k3 p n (Before, sleep_at swtch ch lk s)) as Hs
      by (rewrite H0; eexists; apply at_pause1).
    revert Hs. generalize (Before, sleep_at swtch ch lk s), (w, o), Hrun. clear -F. intros c c' Hr.
    induction Hr as [| c1 c2 c3 Hst _ IH]; [done |]. intros [n Hn]. apply IH.
    destruct (sw_at_step _ _ _ _ _ _ _ _ _ _ _ F n _ _ Hn Hst) as (m & _ & Hm). by exists m. }
  split.
  - clear Hrun. generalize (w, o) as c, Hat. clear Hat w o. induction (lt_wf n) as [n _ IH]. intros c Hn.
    constructor. intros c' Hst'. destruct (sw_at_step _ _ _ _ _ _ _ _ _ _ _ F n _ _ Hn Hst') as (m & Hm & Hat).
    by apply (IH m).
  - rewrite <- Hp1. exact (sw_at_here _ _ _ _ _ _ _ _ _ _ _ F n w o Hat).
Qed.

(** ** Kill *)
(** [kill pid] fails with -1 exactly when no entry has that pid, and then
    changes nothing; otherwise it marks the first such entry killed and makes
    sure that it is not left SLEEPING, and touches no other entry. *)
Theorem kill_delivers pid s :
  ptable_ready s →
  ∃ r s', kill pid s = Done r s' ∧ k_held s' = k_held s ∧
    (r = -1 ∧ (∀ p, p ∈ k_procs s → p_pid p ≠ pid) ∧ k_procs s' = k_procs s ∨
     r = 0 ∧ ∃ i p p', k_procs s !! i = Some p ∧ p_pid p = pid ∧
       k_procs s' !! i = Some p' ∧ p_killed p' = 1 ∧ p_state p' ≠ SLEEPING ∧
       (p_state p ≠ SLEEPING → p_state p' = p_state p) ∧ p_pid p' = pid ∧
       ∀ j, j ≠ i → k_procs s' !! j = k_procs s !! j).
Proof.
  intros Hr. rewrite (kill_run pid s Hr).
  destruct (find_idx _ _) as [i |] eqn:Hf.
  - apply find_idx_Some in Hf as [(p & Hp & Hpid%Z.eqb_eq) _].
    do 2 eexists. split; [done |]. split; [done |]. right. split; [done |].
    exists i, p, (killed_proc p). cbn. rewrite list_lookup_alter, decide_True, Hp by done.
    split_and!; try done.
    + unfold killed_proc. cbn. by case_bool_decide.
    + intros Hne. unfold killed_proc. cbn. by rewrite bool_decide_eq_false_2.
    + intros j Hj. by rewrite list_lookup_alter_ne.
  - do 2 eexists. split; [done |]. split; [done |]. left.
    split_and!; [done | | done].
    intros p [j Hj]%list_elem_of_lookup_1. rewrite find_idx_None in Hf.
    by apply Z.eqb_neq, (Hf j).
Qed.

(** a defect of [kill]: it does not skip unused slots, whose [pid] is 0 until
    they are first used, and [allocproc] does not reset [killed].  So [kill(0)]
    succeeds, and the next process created in that slot is born killed. *)
Theorem kill_zero_poisons `{!LinkerOk} s i p pg l :
  ptable_ready s → LKmem ∉ k_held s → kmem_inv s (pg :: l) → allocFor (k_pv s) = 0 →
  find_idx unused (k_procs s) = Some i → k_procs s !! i = Some p →
  find_idx (λ p, p_pid p =? 0) (k_procs s) = Some i →
  ∃ s1 s2 q, kill 0 s = Done 0 s1 ∧ allocproc s1 = Done (Some i) s2 ∧
    k_procs s2 !! i = Some q ∧ p_state q = EMBRYO ∧ p_killed q = 1.
Proof.
  intros Hr Hlk Hi Ha Hf Hp H0. rewrite (kill_run 0 s Hr), H0.
  set (s1 := ksync (s <| k_procs ::= alter killed_proc i |>)).
  assert (Hun : p_state p = UNUSED).
  { apply find_idx_Some in Hf as [(p' & Hp' & Hu) _]. simplify_eq.
    by apply bool_decide_eq_true in Hu. }
  assert (Hp1 : k_procs s1 !! i = Some (killed_proc p)).
  { cbn. by rewrite list_lookup_alter, decide_True, Hp. }
  assert (Hf1 : find_idx unused (k_procs s1) = Some i).
  { cbn. rewrite find_idx_alter; [done |]. intros q Hq. simplify_eq.
    unfold unused, killed_proc. cbn. by rewrite Hun. }
  destruct Hr as [Hc Hl].
  assert (Hr1 : ptable_ready s1) by (split; [by apply sync_cpu_ok | exact Hl]).
  assert (Hm : kmem_ready (claimed i (killed_proc p) s1))
    by (split; [by apply sync_cpu_ok, sync_cpu_ok | exact Hlk]).
  assert (Hi1 : kmem_inv (claimed i (killed_proc p) s1) (pg :: l)) by (by destruct Hi).
  destruct (kalloc_frame _ _ Hi1 Hm) as (c & km & Hk & _).
  pose proof (allocproc_some s1 i (killed_proc p) pg _ Hr1 Hf1 Hp1
    ltac:(change (allocFor (k_pv s1)) with (allocFor (k_pv s)); by rewrite Ha) eq_refl) as Hrun.
  pose proof (lookup_lt_Some _ _ _ Hp1) as Hlen.
  destruct Hi as [_ _ [Hpg%valid_page_pos _]%Forall_cons_1].
  destruct (Z.eqb_spec pg 0); [lia |].
  exists s1. do 2 eexists. split; [done |]. split; [exact Hrun |].
  split; [cbn; rewrite list_insert_insert_eq; by apply list_lookup_insert_eq |].
  done.
Qed.
(** ** What the listing shows *)
Definition ps_line (cid : Z) (p : proc) : outev :=
  Cprintf "pid:%d name:%s state: %s container : %d \n"
    [PInt (p_pid p); PStr (p_name p); PStr (bytes (state_name (p_state p))); PInt cid].

Lemma mforM_print {A} (P : A → bool) (line : A → outev) (f : A → K unit) l s :
  (∀ x s, f x s = Done tt (if P x then s <| k_out ::= cons (line x) |> else s)) →
  mforM f l s =
    Done tt (s <| k_out ::= app (reverse (line <$> filter (λ x, P x = true) l)) |>).
Proof.
  intros Hf. revert s. induction l as [| x l IH]; intros s; cbn [mforM].
  - unfold mret, M_ret. kst_eq.
  - rewrite (bind_done _ _ _ _ _ (Hf x s)), IH.
    destruct (P x) eqn:Hx.
    + rewrite filter_cons_True by done. kst_eq.
      by rewrite fmap_cons, reverse_cons, <- app_assoc.
    + by rewrite filter_cons_False by (by rewrite Hx).
Qed.

(** isolation of the listing: [ps_print], called by a process of container
    [c], prints one line for each table entry whose container is [c], in table
    order, and no information about any other entry; it changes nothing else
    (the table included). *)
Theorem ps_print_isolated s i me :
  ptable_ready s → c_proc (k_cpu s) = Some i → k_procs s !! i = Some me →
  ∃ s', ps_print s = Done tt s' ∧
    k_out s' = reverse (ps_line (p_containerID me) <$>
      filter (λ p, p_containerID p = p_containerID me) (k_procs s)) ++ k_out s ∧
    s' <| k_out := k_out s |> = ksync s.
Proof.
  intros [Hc Hl] Hi Hme. unfold ps_print. rewrite myproc_bind, Hi by done.
  cbn [deref]. rewrite bind_ret. erewrite get_proc_bind by exact Hme.
  rewrite acquire_bind, bind_gets by (done || by apply sync_cpu_ok).
  change (k_procs (locked LPtable (ksync s))) with (k_procs s).
  erewrite bind_done.
  2: { apply (mforM_print (λ p, p_containerID p =? p_containerID me)
        (ps_line (p_containerID me))). intros p st.
       destruct (p_containerID p =? p_containerID me); done. }
  rewrite (release_run _ _ (sync_cpu (k_cpu s)) (k_held s)) by (done || by apply sync_cpu_ok).
  eexists. split; [done |]. split.
  - kfields. f_equal. f_equal. f_equal. clear. induction (k_procs s) as [| p l IH]; [done |].
    rewrite !filter_cons, IH. destruct (Z.eqb_spec (p_containerID p) (p_containerID me));
    repeat case_decide; done.
  - unfold ksync. kst_eq. apply sync_cpu_idem.
Qed.

(** ** Counting within a container *)
Lemma count_until_spec id pid ps : ∀ val,
  count_until id pid val ps =
    match find_idx (λ p, p_pid p =? pid) ps with
    | Some i => Some (val + Z.of_nat (length
        (filter (λ p, p_containerID p = id) (take (S i) ps))))
    | None => None
    end.
Proof.
  induction ps as [| p ps IH]; intros val; cbn [count_until find_idx]; [done |].
  destruct (Z.eqb_spec (p_containerID p) id), (p_pid p =? pid); cbn [take].
  - rewrite filter_cons_True by done. done.
  - rewrite IH. destruct (find_idx _ ps); [| done]. cbn [fmap option_fmap option_map take].
    rewrite filter_cons_True by done. f_equal. cbn [length]. lia.
  - rewrite filter_cons_False by done. f_equal. rewrite take_0, filter_nil. cbn. lia.
  - rewrite IH. destruct (find_idx _ ps); [| done]. cbn [fmap option_fmap option_map take].
    by rewrite filter_cons_False by done.
Qed.

Lemma last_container_spec pid ps i p :
  ps !! i = Some p → p_pid p = pid →
  (∀ j q, (i < j)%nat → ps !! j = Some q → p_pid q ≠ pid) →
  last_container pid ps = p_containerID p.
Proof.
  intros Hi Hpid Hlast. unfold last_container.
  rewrite <- (take_drop_middle ps i p Hi), foldl_app. cbn.
  rewrite Hpid, Z.eqb_refl.
  assert (Hd : ∀ q, q ∈ drop (S i) ps → p_pid q ≠ pid).
  { intros q [j Hj]%list_elem_of_lookup_1. rewrite lookup_drop in Hj.
    eapply Hlast; [| exact Hj]. lia. }
  induction (drop (S i) ps) as [| q l IH]; [done |]. cbn.
  destruct (Z.eqb_spec (p_pid q) pid) as [He |].
  - by destruct (Hd q ltac:(left)).
  - apply IH. intros r Hr. apply Hd. by right.
Qed.

(** [proc_container_num pid] numbers a process within its container: for a pid
    that one entry has, the number of entries of the same container at or
    before it in the table (stale and unused entries counted too); [-1] for a
    pid no entry has. *)
Theorem proc_container_num_spec pid s :
  ptable_ready s →
  (∀ i j p q, k_procs s !! i = Some p → k_procs s !! j = Some q →
     p_pid p = pid → p_pid q = pid → i = j) →
  ∃ r s', proc_container_num pid s = Done r s' ∧ k_procs s' = k_procs s ∧
    k_held s' = k_held s ∧
    ((∀ p, p ∈ k_procs s → p_pid p ≠ pid) ∧ r = -1 ∨
     ∃ i p, k_procs s !! i = Some p ∧ p_pid p = pid ∧
       r = Z.of_nat (length (filter (λ q, p_containerID q = p_containerID p)
                              (take (S i) (k_procs s)))) ∧ 1 ≤ r).
Proof.
  intros [Hc Hl] Huniq. unfold proc_container_num. rewrite acquire_bind, bind_gets by done.
  change (k_procs (locked LPtable s)) with (k_procs s). rewrite count_until_spec.
  destruct (find_idx _ _) as [i |] eqn:Hf;
    rewrite (release_bind _ _ _ (k_cpu s) (k_held s)) by done;
    (do 2 eexists; split; [reflexivity |]; split; [done |]; split; [done |]).
  - right. apply find_idx_Some in Hf as [(p & Hp & Hpid%Z.eqb_eq) _].
    assert (Hlc : last_container pid (k_procs s) = p_containerID p).
    { apply (last_container_spec pid _ i); [done | done |].
      intros j q Hj Hq Hqp. assert (i = j) by (by apply (Huniq i j p q)). lia. }
    rewrite Hlc. exists i, p. split_and!; try done; try lia.
    rewrite (take_S_r _ _ p Hp), filter_app, length_app, filter_cons_True by done.
    cbn. lia.
  - left. split; [| done]. intros p [j Hj]%list_elem_of_lookup_1.
    rewrite find_idx_None in Hf. by apply Z.eqb_neq, (Hf j).
Qed.
End proc.

(** ** Witnesses *)

(** Process 0 is running and about to wait, holding [tickslock]. *)
Definition ticking : kst :=
  kst0 <| k_cpu := cpu0 <| ncli := 1 |> <| intena := true |> <| c_proc := Some 0%nat |> |> <| k_held := [LTicks] |>
       <| k_procs ::= <[0%nat := proc0 <| p_state := RUNNING |> <| p_pid := 1 |>]> |>.
(** The same process, running user code. *)
Definition running : kst :=
  ticking <| k_cpu := cpu0 <| intena := true |> <| if_flag := true |> <| c_proc := Some 0%nat |> |> <| k_held := [] |>.
Lemma kst0_ready s : k_cpu s = k_cpu running → k_held s = [] → ptable_ready s.
Proof. intros Hc Hh. unfold ptable_ready. rewrite Hc, Hh. split; [done | set_solver]. Qed.

Lemma allocproc_spec_witness :
  ∃ s', @allocproc linker_2M two_pages = Done (Some 0%nat) s'.
Proof.
  destruct (@allocproc_spec linker_2M linker_2M_ok two_pages
    [KERNBASE + 0x201000; KERNBASE + 0x200000]) as (r & s' & Hr & _ & H).
  - split; [apply two_pages_ready | by intros ?%elem_of_nil].
  - apply two_pages_ready.
  - apply two_pages_inv.
  - reflexivity.
  - exists s'. rewrite Hr. destruct H as [-> _]. reflexivity.
Defined.

(** Process 0 on its way into the scheduler. *)
Definition leaving : kst :=
  ticking <| k_held := [LPtable] |>
          <| k_procs ::= <[0%nat := proc0 <| p_state := RUNNABLE |> <| p_pid := 1 |>]> |>.
Lemma sched_discipline_witness :
  ∃ s' k, sched leaving = Switch s' k ∧ k_held s' = [LPtable] ∧ if_flag (k_cpu s') = false.
Proof.
  destruct (sched_discipline leaving 0
    (proc0 <| p_state := RUNNABLE |> <| p_pid := 1 |>)) as [H _].
  - split; [split; [done | by intros _] | done].
  - reflexivity.
  - reflexivity.
  - assert (∃ s' k, sched leaving = Switch s' k) as (s' & k & Hs)
      by (eexists; eexists; vm_compute; reflexivity).
    exists s', k. destruct (H s' k Hs) as (_ & _ & Hh & _ & Hf & _). done.
Defined.

Lemma sleep_wakeup_witness :
  ∃ s1 k, sleep CTicks LTicks ticking = Switch s1 k ∧ k_held s1 = [LPtable] ∧
    ∃ s3, wakeup CTicks (running <| k_procs := k_procs s1 |>) = Done tt s3 ∧
      p_state <$> (k_procs s3 !! 0%nat) = Some RUNNABLE.
Proof.
  destruct (sleep_wakeup CTicks LTicks ticking 0
    (proc0 <| p_state := RUNNING |> <| p_pid := 1 |>)) as (s1 & k & Hs & Hh & _ & Hw & _).
  - by split.
  - reflexivity.
  - reflexivity.
  - exists s1, k. split; [exact Hs |]. split; [apply Hh |].
    destruct (Hw (running <| k_procs := k_procs s1 |>) CTicks) as (s3 & Hw3 & _ & Hp & _).
    + by apply kst0_ready.
    + reflexivity.
    + exists s3. split; [exact Hw3 |]. rewrite Hp. reflexivity.
Defined.

(** Some run ends, with the process back from [sleep]: follow the steps. *)
Lemma no_lost_wakeup_witness :
  ∃ s', rtc (sw_step CTicks LTicks 0) (Before, sleep_at swtch CTicks LTicks ticking) (After, Done tt s') ∧
    k_held s' = [LTicks] ∧ p_state <$> (k_procs s' !! 0%nat) = Some RUNNING.
Proof.
  pose proof (no_lost_wakeup CTicks LTicks 0 ticking (proc0 <| p_state := RUNNING |> <| p_pid := 1 |>)
    ltac:(by split) ltac:(done) eq_refl eq_refl eq_refl) as H.
  pose proof (rtc_refl (sw_step CTicks LTicks 0) (Before, sleep_at swtch CTicks LTicks ticking)) as Hr.
  destruct (H _ _ Hr) as [Hacc _]. revert Hacc Hr. generalize (Before, sleep_at swtch CTicks LTicks ticking) at 1 3 as c.
  intros c Hacc. induction Hacc as [[w o] _ IH]. intros Hr. destruct (H _ _ Hr) as [_ Ho].
  destruct o as [[] s' | | s' k |]; [| done | | done].
  - destruct Ho as (-> & Hh & Hp). exists s'. split; [exact Hr |]. split; [apply Hh |]. rewrite Hp. reflexivity.
  - destruct Ho as [_ [c Hc]]. apply (IH c Hc). by eapply rtc_r.
Defined.

Lemma kill_delivers_witness :
  ∃ s', kill 1 running = Done 0 s'.
Proof.
  destruct (kill_delivers 1 running) as (r & s' & Hk & _ & [(_ & Hn & _) | [-> _]]).
  - by apply kst0_ready.
  - exfalso. apply (Hn (proc0 <| p_state := RUNNING |> <| p_pid := 1 |>)); [left | done].
  - by exists s'.
Defined.

Lemma kill_zero_poisons_witness :
  ∃ s1 s2, kill 0 two_pages = Done 0 s1 ∧ @allocproc linker_2M s1 = Done (Some 0%nat) s2 ∧
    p_killed <$> (k_procs s2 !! 0%nat) = Some 1.
Proof.
  destruct (@kill_zero_poisons linker_2M linker_2M_ok two_pages 0 proc0
    (KERNBASE + 0x201000) [KERNBASE + 0x200000]) as (s1 & s2 & q & H1 & H2 & Hq & _ & Hk).
  - split; [apply two_pages_ready | by intros ?%elem_of_nil].
  - apply two_pages_ready.
  - apply two_pages_inv.
  - reflexivity.
  - reflexivity.
  - reflexivity.
  - reflexivity.
  - exists s1, s2. rewrite Hq. cbn. by rewrite Hk.
Defined.

Lemma ps_print_isolated_witness :
  ∃ s', ps_print (running <| k_procs := [proc0 <| p_pid := 4 |> <| p_containerID := 2 |>;
                                         proc0 <| p_pid := 5 |>] |>) = Done tt s' ∧
    length (k_out s') = 1%nat.
Proof.
  destruct (ps_print_isolated (running <| k_procs :=
      [proc0 <| p_pid := 4 |> <| p_containerID := 2 |>; proc0 <| p_pid := 5 |>] |>) 0
      (proc0 <| p_pid := 4 |> <| p_containerID := 2 |>)) as (s' & Hs & Ho & _).
  - by apply kst0_ready.
  - reflexivity.
  - reflexivity.
  - exists s'. split; [exact Hs |]. rewrite Ho. reflexivity.
Defined.

Lemma proc_container_num_spec_witness :
  ∃ s', proc_container_num 5 (running <| k_procs :=
      [proc0 <| p_pid := 4 |>; proc0 <| p_pid := 5 |>] |>) = Done 2 s'.
Proof.
  destruct (proc_container_num_spec 5 (running <| k_procs :=
      [proc0 <| p_pid := 4 |>; proc0 <| p_pid := 5 |>] |>)) as (r & s' & Hr & _ & _ & H).
  - by apply kst0_ready.
  - intros [| [| i]] [| [| j]] p q; cbn; intros; simplify_eq; done.
  - exists s'. rewrite Hr. destruct H as [[Hn _] | (i & p & Hp & Hpid & -> & _)].
    + exfalso. apply (Hn (proc0 <| p_pid := 5 |>)); [right; left | done].
    + destruct i as [| [| i]]; cbn in Hp; simplify_eq; done.
Defined.
