(* ===== verification/Pagetable.v ===== *)
(** * vm.c, specified: page tables as finite maps

    [pt_ok m d T]: the page directory at [d] has, in memory [m], exactly the
    page tables [T] (a map from directory indices to the tables' addresses).
    [pte_of m T va] is the entry that governs [va], 0 when there is no table. *)
From S2P Require Import Prelude Mmu Cstring Kstate Spinlock Kalloc Proc Vm.

(** ** Entries *)
Lemma pte_add x f : page_aligned x → 0 ≤ f < PGSIZE → Z.lor x f = x + f.
Proof. intros Hx Hf. by apply (lor_disjoint_add x f 12). Qed.
(** Reading the flag bits [b] out of an entry. *)
Lemma pte_land x f b : page_aligned x → 0 ≤ b < PGSIZE → Z.land (Z.lor x f) b = Z.land f b.
Proof. intros Hx Hb. by rewrite Z.land_lor_distr_l, (land_disjoint x b 12) by done. Qed.
Lemma pte_addr x f :
  page_aligned x → is_u32 x → 0 ≤ f < PGSIZE → x + PGSIZE ≤ 4294967296 →
  PTE_ADDR (Z.lor x f) = x ∧ is_u32 (Z.lor x f).
Proof.
  unfold page_aligned. intros Hx Hu Hf Hm. rewrite (pte_add x f Hx Hf), PTE_ADDR_spec.
  unfold PGSIZE, is_u32 in *. rewrite u32_id by (unfold is_u32; lia). split; [zlia | lia].
Qed.

(** The entry [pa | perm | PTE_P]. *)
Definition entry (pa perm : Z) : Z := Z.lor (Z.lor pa perm) PTE_P.
Lemma entry_flags pa perm : entry pa perm = Z.lor pa (Z.lor perm PTE_P).
Proof. unfold entry. by rewrite Z.lor_assoc. Qed.
Lemma lor_small a b n : 0 ≤ n → 0 ≤ a < 2 ^ n → 0 ≤ b < 2 ^ n → 0 ≤ Z.lor a b < 2 ^ n.
Proof.
  intros Hn Ha Hb. split; [apply Z.lor_nonneg; lia |].
  rewrite <- (Z.mod_small a (2 ^ n)), <- (Z.mod_small b (2 ^ n)) by done.
  rewrite <- !Z.land_ones, <- Z.land_lor_distr_l, Z.land_ones by done.
  apply Z.mod_pos_bound. lia.
Qed.
Lemma entry_present pa perm : page_aligned pa → Z.land (entry pa perm) PTE_P ≠ 0.
Proof.
  intros Hp. rewrite entry_flags, pte_land by (done || (unfold PTE_P, PGSIZE; lia)).
  rewrite Z.land_lor_distr_l. intros H. apply Z.lor_eq_0_iff in H as [_ H]. done.
Qed.
Lemma entry_addr pa perm :
  page_aligned pa → is_u32 pa → 0 ≤ perm < PGSIZE → pa + PGSIZE ≤ 4294967296 →
  PTE_ADDR (entry pa perm) = pa ∧ is_u32 (entry pa perm).
Proof.
  intros. rewrite entry_flags. apply pte_addr; try done.
  apply (lor_small _ _ 12); [lia | done | unfold PTE_P; lia].
Qed.

(** Two addresses with the same indices are in the same page. *)
Lemma same_page va va' :
  is_u32 va → is_u32 va' → PDX va = PDX va' → PTX va = PTX va' → va / PGSIZE = va' / PGSIZE.
Proof.
  intros Hv Hv'. rewrite !PDX_spec, !PTX_spec, !u32_id by done. unfold PGSIZE. intros. zlia.
Qed.
Lemma PDX_range va : 0 ≤ PDX va < 1024.
Proof. rewrite PDX_spec. pose proof (u32_range va). zlia. Qed.
Lemma PTX_range va : 0 ≤ PTX va < 1024.
Proof. rewrite PTX_spec. unfold PGSIZE. zlia. Qed.

Section pt.
Context {LK : Linker}.

Record pt_ok (m : mem) (d : Z) (T : gmap Z Z) : Prop := {
  pt_dir : valid_page d;
  pt_page : ∀ i t, T !! i = Some t → 0 ≤ i < 1024 ∧ valid_page t ∧ t ≠ d;
  pt_inj : ∀ i j t, T !! i = Some t → T !! j = Some t → i = j;
  pt_pde : ∀ i, 0 ≤ i < 1024 →
    let e := load32 m (d + 4 * i) in
    match T !! i with
    | Some t => Z.land e PTE_P ≠ 0 ∧ P2V (PTE_ADDR e) = t
    | None => Z.land e PTE_P = 0
    end }.

Definition pte_of (m : mem) (T : gmap Z Z) (va : Z) : Z :=
  match T !! PDX va with Some t => load32 m (t + 4 * PTX va) | None => 0 end.

(** The pages the address space consists of. *)
Definition pt_owns (d : Z) (T : gmap Z Z) (p : Z) : Prop := p = d ∨ ∃ i, T !! i = Some p.

(** The address space and the allocator, side by side. *)
Record vm_ok (s : kst) (d : Z) (T : gmap Z Z) (l : list Z) : Prop := {
  vo_kmem : kmem_inv s l;
  vo_ready : kmem_ready s;
  vo_pt : pt_ok (k_mem s) d T;
  vo_apart : ∀ p, pt_owns d T p → p ∉ l }.

(** A directory and its 1024 tables at most. *)
Lemma pt_owns_at_most m d T : pt_ok m d T → at_most 1025 (pt_owns d T).
Proof.
  intros Hpt. apply (at_most_mono (1 + 1024) _ (λ p, p = d ∨ ∃ k, 0 ≤ k < 1024 ∧ p = default 0 (T !! k)));
    [done | | apply at_most_or; [apply at_most_one | by apply at_most_image]].
  intros p [-> | [i Hi]]; [by left | right]. exists i. rewrite Hi.
  by destruct (pt_page _ _ _ Hpt _ _ Hi) as (? & _).
Qed.

(** What the page-table code changes of the state. *)
Definition vm_step (s s' : kst) : Prop :=
  (∃ c km m, s' = s <| k_cpu := c |> <| k_kmem := km |> <| k_mem := m |>) ∧
  (k_cpu s' = k_cpu s ∨ k_cpu s' = sync_cpu (k_cpu s)).
Lemma vm_step_refl s : vm_step s s.
Proof. split; [| by left]. exists (k_cpu s), (k_kmem s), (k_mem s). by destruct s. Qed.
Lemma vm_step_trans s1 s2 s3 : vm_step s1 s2 → vm_step s2 s3 → vm_step s1 s3.
Proof.
  intros [(c & km & m & ->) H1] [(c' & km' & m' & ->) H2]. cbn in *. split.
  - by exists c', km', m'.
  - cbn. destruct H1 as [-> | ->], H2 as [-> | ->]; auto. right. by rewrite sync_cpu_idem.
Qed.

(** Memory outside the address space's own pages. *)
Definition same_but (P : Z → Prop) (m m' : mem) : Prop :=
  ∀ a, (∀ p, P p → ¬ p ≤ a < p + PGSIZE) → load8 m' a = load8 m a.
Lemma same_but_refl P m : same_but P m m.
Proof. by intros a _. Qed.
Lemma same_but_trans (P Q R : Z → Prop) m1 m2 m3 :
  (∀ p, P p → R p) → (∀ p, Q p → R p) → same_but P m1 m2 → same_but Q m2 m3 → same_but R m1 m3.
Proof. intros HP HQ H1 H2 a Ha. rewrite H2, H1; [done | |]; intros p Hp; apply Ha; auto. Qed.

(** Growing the tables takes pages from the free list, and loses none. *)
Record grown (d : Z) (T : gmap Z Z) (l : list Z) (T' : gmap Z Z) (l' : list Z) : Prop := {
  gr_tables : T ⊆ T';
  gr_free : l' `suffix_of` l;
  gr_pages : ∀ p, p ∈ l' ∨ pt_owns d T' p ↔ p ∈ l ∨ pt_owns d T p }.
Lemma grown_refl d T l : grown d T l T l.
Proof. by split. Qed.
Lemma grown_trans d T1 l1 T2 l2 T3 l3 :
  grown d T1 l1 T2 l2 → grown d T2 l2 T3 l3 → grown d T1 l1 T3 l3.
Proof.
  intros [? ? H1] [? ? H2]. split; [by etrans | by etrans |]. intros p. by rewrite H2, H1.
Qed.
Lemma grown_owns d T l T' l' p : grown d T l T' l' → pt_owns d T p → pt_owns d T' p.
Proof.
  intros [HT _ _] [-> | [i Hi]]; [by left | right]. exists i. by eapply lookup_weaken.
Qed.

Lemma same_but_chain (P : Z → Prop) m1 m2 m3 : same_but P m1 m2 → same_but P m2 m3 → same_but P m1 m3.
Proof. by apply same_but_trans. Qed.
Lemma pt_owns_insert d T i pg p :
  T !! i = None → pt_owns d (<[i := pg]> T) p ↔ p = pg ∨ pt_owns d T p.
Proof.
  intros Hi. unfold pt_owns. split.
  - intros [-> | [j [[<- <-] | [_ Hj]]%lookup_insert_Some]]; eauto.
  - intros [-> | [-> | [j Hj]]]; [right; exists i; apply lookup_insert_eq | by left | right].
    exists j. rewrite lookup_insert_ne by congruence. done.
Qed.

Lemma slot_in_page t j : 0 ≤ j < 1024 → t ≤ t + 4 * j ∧ t + 4 * j + 4 ≤ t + PGSIZE.
Proof. unfold PGSIZE. lia. Qed.

(** Storing into one page leaves the words of another alone. *)
Lemma load32_other_page m p q a v b :
  page_aligned p → page_aligned q → p ≠ q → p ≤ a → a + 4 ≤ p + PGSIZE →
  q ≤ b → b + 4 ≤ q + PGSIZE → load32 (store32 m a v) b = load32 m b.
Proof.
  intros Hp Hq Hne Ha Ha' Hb Hb'. apply load32_store32_ne.
  destruct (pages_apart p q Hp Hq Hne); lia.
Qed.

(** Storing an entry in the table of directory slot [i]. *)
Lemma pt_write m d T i t j v :
  pt_ok m d T → T !! i = Some t → 0 ≤ j < 1024 →
  pt_ok (store32 m (t + 4 * j) v) d T ∧
  ∀ va, pte_of (store32 m (t + 4 * j) v) T va =
    if decide (PDX va = i ∧ PTX va = j) then u32 v else pte_of m T va.
Proof.
  intros H Hi Hj. pose proof H as [Hd Hp Hinj Hpde].
  destruct (Hp i t Hi) as (Hir & Ht & Htd). pose proof (slot_in_page t j Hj). split.
  - split; [done | done | done |]. intros k Hk. pose proof (slot_in_page d k Hk).
    rewrite (load32_other_page m t d) by (apply Ht || apply Hd || done || lia). by apply Hpde.
  - intros va. unfold pte_of. destruct (T !! PDX va) as [t' |] eqn:Hva.
    + destruct (decide (t' = t)) as [-> | Hne].
      * assert (PDX va = i) as Heq by (by apply (Hinj _ _ t)).
        pose proof (PTX_range va). case_decide as Hc.
        -- destruct Hc as [_ ->]. apply load32_store32_eq.
        -- apply load32_store32_ne. assert (PTX va ≠ j) by tauto. lia.
      * destruct (Hp _ _ Hva) as (_ & Ht' & _). pose proof (slot_in_page t' _ (PTX_range va)).
        rewrite (load32_other_page m t t') by (apply Ht || apply Ht' || done || lia || congruence).
        rewrite decide_False; [done |]. intros [Hc _]. congruence.
    + rewrite decide_False; [done |]. intros [Hc _]. congruence.
Qed.

Context {LO : LinkerOk}.

Lemma load32_memset_other m p c q b :
  page_aligned p → page_aligned q → p ≠ q → q ≤ b → b + 4 ≤ q + PGSIZE →
  load32 (memset m p c PGSIZE) b = load32 m b.
Proof.
  intros Hp Hq Hne Hb Hb'. apply load32_ext. intros k Hk.
  rewrite memset_load8 by (unfold PGSIZE; lia). rewrite decide_False; [done |].
  destruct (pages_apart p q Hp Hq Hne); lia.
Qed.
Lemma load32_memset_zero m p b :
  p ≤ b → b + 4 ≤ p + PGSIZE → load32 (memset m p 0 PGSIZE) b = 0.
Proof.
  intros Hb Hb'. unfold load32. rewrite !memset_load8 by (unfold PGSIZE; lia).
  by rewrite !decide_True by lia.
Qed.
Lemma kmem_inv_outside s l p m' :
  kmem_inv s l → page_aligned p → p ∉ l → same_outside p (k_mem s) m' →
  kmem_inv (s <| k_mem := m' |>) l.
Proof.
  intros [Hl Hnd Hv] Hp Hn Hm. split; [| done | done]. cbn.
  by apply (free_list_outside p (k_mem s)).
Qed.
Lemma valid_page_mapped pg :
  valid_page pg → is_u32 (V2P pg) ∧ page_aligned (V2P pg) ∧ P2V (V2P pg) = pg ∧
    V2P pg + PGSIZE ≤ 4294967296.
Proof.
  intros Hv. pose proof (valid_page_range pg Hv). destruct Hv as (Hu & Hal & _).
  split_and!; [apply u32_range | | by apply P2V_V2P |];
    unfold V2P, page_aligned, KERNBASE, EXTMEM, PHYSTOP, PGSIZE in *;
    rewrite u32_id by (unfold is_u32; lia); zlia.
Qed.

(** The directory gets a new, empty table [pg] in slot [i]. *)
Definition pde_new (pg : Z) : Z := Z.lor (Z.lor (Z.lor (V2P pg) PTE_P) PTE_W) PTE_U.
Lemma pde_new_entry pg : pde_new pg = entry (V2P pg) 6.
Proof.
  unfold pde_new. rewrite entry_flags, <- !Z.lor_assoc. done.
Qed.
Definition new_table (m : mem) (d i pg : Z) : mem :=
  store32 (memset m pg 0 PGSIZE) (d + 4 * i) (pde_new pg).

Lemma pt_new m d T i pg :
  pt_ok m d T → valid_page pg → ¬ pt_owns d T pg → T !! i = None → 0 ≤ i < 1024 →
  pt_ok (new_table m d i pg) d (<[i := pg]> T) ∧
  ∀ va, pte_of (new_table m d i pg) (<[i := pg]> T) va = pte_of m T va.
Proof.
  intros [Hd Hp Hinj Hpde] Hpg Hno Hi Hir. unfold new_table.
  assert (Hpd : pg ≠ d) by (intros ->; apply Hno; by left).
  assert (HpT : ∀ k, T !! k ≠ Some pg) by (intros k Hk; apply Hno; right; eauto).
  pose proof (slot_in_page d i Hir) as Hs.
  destruct (valid_page_mapped pg Hpg) as (Hu & Hal & Hpv & Hm).
  destruct (entry_addr (V2P pg) 6 Hal Hu ltac:(unfold PGSIZE; lia) Hm) as [Ha Heu].
  split.
  - split; [done | | |].
    + intros k t [[<- <-] | [Hne Hk]]%lookup_insert_Some; [done | by apply Hp].
    + intros j k t Hj Hk. apply lookup_insert_Some in Hj, Hk.
      destruct Hj as [[<- <-] | [? Hj]], Hk as [[<- Hk] | [? Hk]]; try done;
        [by destruct (HpT k) | subst t; by destruct (HpT j) | by apply (Hinj j k t)].
    + intros k Hk. pose proof (slot_in_page d k Hk). cbv zeta.
      destruct (decide (i = k)) as [<- | Hne].
      * rewrite lookup_insert_eq, load32_store32_eq, pde_new_entry, (u32_id _ Heu).
        split; [by apply entry_present | by rewrite Ha].
      * rewrite lookup_insert_ne by done. rewrite load32_store32_ne by lia.
        rewrite (load32_memset_other m pg 0 d) by (apply Hpg || apply Hd || done || lia).
        by apply Hpde.
  - intros va. unfold pte_of. pose proof (slot_in_page pg _ (PTX_range va)).
    destruct (decide (i = PDX va)) as [-> | Hne].
    + rewrite lookup_insert_eq, Hi.
      rewrite (load32_other_page _ d pg) by (apply Hpg || apply Hd || done || lia).
      apply load32_memset_zero; lia.
    + rewrite lookup_insert_ne by done. destruct (T !! PDX va) as [t |] eqn:Ht; [| done].
      destruct (Hp _ _ Ht) as (_ & Hvt & Htd). pose proof (slot_in_page t _ (PTX_range va)).
      rewrite (load32_other_page _ d t) by (apply Hvt || apply Hd || done || lia || congruence).
      apply (load32_memset_other m pg 0 t); (apply Hpg || apply Hvt || lia || idtac).
      intros ->. by destruct (HpT (PDX va)).
Qed.

Lemma walkpgdir_found s d T va alloc t :
  pt_ok (k_mem s) d T → T !! PDX va = Some t →
  walkpgdir d va alloc s = Done (t + 4 * PTX va) s.
Proof.
  intros H Ht. pose proof (pt_pde _ _ _ H (PDX va) (PDX_range va)) as Hp. cbv zeta in Hp.
  rewrite Ht in Hp. destruct Hp as [Hp Ha]. unfold walkpgdir, ld32. rewrite bind_gets.
  destruct (Z.eqb_spec (Z.land (load32 (k_mem s) (d + 4 * PDX va)) PTE_P) 0); [done |].
  cbn [negb]. by rewrite Ha.
Qed.
Lemma walkpgdir_absent s d T va :
  pt_ok (k_mem s) d T → T !! PDX va = None → walkpgdir d va false s = Done 0 s.
Proof.
  intros H Ht. pose proof (pt_pde _ _ _ H (PDX va) (PDX_range va)) as Hp. cbv zeta in Hp.
  rewrite Ht in Hp. unfold walkpgdir, ld32. rewrite bind_gets, Hp. done.
Qed.

(** [walkpgdir] that may allocate: a slot for [va], or 0 when memory is out. *)
Lemma walkpgdir_alloc s d T l va :
  vm_ok s d T l →
  ∃ r s' T' l', walkpgdir d va true s = Done r s' ∧ vm_ok s' d T' l' ∧ vm_step s s' ∧
    grown d T l T' l' ∧ same_but (pt_owns d T') (k_mem s) (k_mem s') ∧
    (∀ x, pte_of (k_mem s') T' x = pte_of (k_mem s) T x) ∧
    (r = 0 ∧ l' = [] ∨ ∃ t, T' !! PDX va = Some t ∧ r = t + 4 * PTX va ∧ r ≠ 0).
Proof.
  intros Hvm. pose proof Hvm as [Hi Hr Hpt Hap].
  destruct (T !! PDX va) as [t |] eqn:Ht.
  - exists (t + 4 * PTX va), s, T, l. split; [by apply (walkpgdir_found s d T) |].
    split; [done |]. split; [apply vm_step_refl |]. split; [apply grown_refl |].
    split; [apply same_but_refl |]. split; [done |]. right. exists t. split; [done |]. split; [done |].
    destruct (pt_page _ _ _ Hpt _ _ Ht) as (_ & Hv%valid_page_pos & _). pose proof (PTX_range va). lia.
  - destruct (kalloc_frame s l Hi Hr) as (c & km & Hk & Hi1 & Hc & Hul).
    set (s1 := s <| k_cpu := c |> <| k_kmem := km |>) in *.
    assert (Hr1 : kmem_ready s1).
    { destruct Hr as [Hc0 Hl0]. split; [| done]. cbn.
      destruct Hc as [-> | ->]; [done | by apply sync_cpu_ok]. }
    pose proof (pt_pde _ _ _ Hpt (PDX va) (PDX_range va)) as Hp. cbv zeta in Hp. rewrite Ht in Hp.
    unfold walkpgdir, ld32. rewrite bind_gets, Hp. cbn [negb Z.eqb].
    rewrite (bind_done _ _ _ _ _ Hk). destruct l as [| pg l]; cbn [hd tl] in *.
    + exists 0, s1, T, []. split; [done |].
      split; [split; [done | done | done | intros p _; by intros ?%elem_of_nil] |].
      split; [split; [by exists c, km, (k_mem s); unfold s1; kst_eq | exact Hc] |].
      split; [apply grown_refl |]. split; [apply same_but_refl |]. split; [done | by left].
    + pose proof (ki_valid _ _ Hi) as [Hv Hvl]%Forall_cons_1.
      pose proof (ki_nodup _ _ Hi) as [Hnin Hnd]%NoDup_cons.
      pose proof (valid_page_pos pg Hv) as Hpos. destruct (Z.eqb_spec pg 0); [lia |].
      unfold st32. rewrite !bind_modify.
      assert (Hno : ¬ pt_owns d T pg) by (intros Ho; apply (Hap pg Ho); left).
      destruct (pt_new (k_mem s) d T (PDX va) pg Hpt Hv Hno Ht (PDX_range va)) as [Hpt' Hpte].
      set (m' := new_table (k_mem s) d (PDX va) pg) in *.
      eexists (pg + 4 * PTX va), _, (<[PDX va := pg]> T), l. split; [done |].
      fold (pde_new pg). fold (new_table (k_mem s) d (PDX va) pg).
      assert (Hst : set k_mem (λ m, store32 m (d + 4 * PDX va) (pde_new pg))
        (set k_mem (λ m, memset m pg 0 PGSIZE) s1) = s1 <| k_mem := m' |>) by (kst_eq; done).
      rewrite Hst. split; [split; [| done | exact Hpt' |] |].
      * pose proof (pt_dir _ _ _ Hpt) as Hd.
        assert (Hdl : d ∉ pg :: l) by (apply Hap; by left).
        assert (Hi2 : kmem_inv (s1 <| k_mem := memset (k_mem s1) pg 0 PGSIZE |>) l).
        { apply (kmem_inv_outside _ _ pg); [done | apply Hv | done |].
          intros a Ha. rewrite memset_load8 by (unfold PGSIZE; lia). case_decide; [lia | done]. }
        apply (kmem_inv_outside _ _ d) with (m' := m') in Hi2; [by destruct Hi2 | apply Hd | |].
        { intros ?. apply Hdl. by right. }
        intros a Ha. unfold m', new_table. pose proof (slot_in_page d _ (PDX_range va)).
        rewrite load8_store32_ne by lia. done.
      * intros p [-> | [k [[<- <-] | [_ Hpk]]%lookup_insert_Some]]; [| done |].
        -- intros ?. apply (Hap d); [by left | by right].
        -- intros ?. apply (Hap p); [right; by exists k | by right].
      * split; [split; [by exists c, km, m'; unfold s1; kst_eq | exact Hc] |].
        split; [split; [by apply insert_subseteq | by exists [pg] |] |].
        { intros p. rewrite pt_owns_insert by done. rewrite elem_of_cons. tauto. }
        split; [| split; [done |]].
        -- intros a Ha. cbn. unfold m', new_table. pose proof (slot_in_page d _ (PDX_range va)).
           rewrite load8_store32_ne.
           2: { pose proof (Ha d ltac:(by left)). lia. }
           rewrite memset_load8 by (unfold PGSIZE; lia). rewrite decide_False; [done |].
           apply Ha. right. exists (PDX va). apply lookup_insert_eq.
        -- right. exists pg. rewrite lookup_insert_eq. pose proof (PTX_range va).
           split; [done |]. split; [done | lia].
Qed.

Lemma vm_ok_write s d T l i t j v :
  vm_ok s d T l → T !! i = Some t → 0 ≤ j < 1024 →
  vm_ok (s <| k_mem ::= λ m, store32 m (t + 4 * j) v |>) d T l.
Proof.
  intros [Hi Hr Hpt Hap] Ht Hj. destruct (pt_page _ _ _ Hpt _ _ Ht) as (_ & Hv & _).
  pose proof (slot_in_page t j Hj). split; [| exact Hr | by eapply pt_write | done].
  apply (kmem_inv_write _ _ t); [done | apply Hv | | lia | lia].
  apply Hap. right. by exists i.
Qed.

(** [va] is in the [k]-th page from [a] up. *)
Definition in_page (a : Z) (k : nat) (va : Z) : Prop :=
  a + PGSIZE * Z.of_nat k ≤ va < a + PGSIZE * (Z.of_nat k + 1).

Lemma page_index a va :
  page_aligned a → is_u32 a → is_u32 va →
  PDX va = PDX a ∧ PTX va = PTX a ↔ a ≤ va < a + PGSIZE.
Proof.
  intros Ha Hu Hv. split.
  - intros [H1 H2]. pose proof (same_page va a Hv Hu H1 H2).
    unfold page_aligned, PGSIZE in *. zlia.
  - intros Hr. rewrite !PDX_spec, !PTX_spec, !u32_id by done.
    unfold page_aligned, PGSIZE in *. split; zlia.
Qed.

(** One turn of [mappages]' loop, up to its test for the last page. *)
Lemma map_one s d T l a pa perm (rest : K Z) :
  vm_ok s d T l → page_aligned a → page_aligned pa → is_u32 a → is_u32 pa →
  0 ≤ perm < PGSIZE → pa + PGSIZE ≤ 4294967296 → Z.land (pte_of (k_mem s) T a) PTE_P = 0 →
  let body := pte ← walkpgdir d a true;
    if pte =? 0 then mret (-1) else
    e ← ld32 pte;
    if negb (Z.land e PTE_P =? 0) then panic "remap" else
    st32 pte (Z.lor (Z.lor pa perm) PTE_P);; rest in
  ∃ s' T' l', vm_ok s' d T' l' ∧ vm_step s s' ∧ grown d T l T' l' ∧
    same_but (pt_owns d T') (k_mem s) (k_mem s') ∧
    (body s = Done (-1) s' ∧ l' = [] ∧
       (∀ va, pte_of (k_mem s') T' va = pte_of (k_mem s) T va) ∨
     body s = rest s' ∧ ∀ va, is_u32 va → pte_of (k_mem s') T' va =
       if decide (a ≤ va < a + PGSIZE) then entry pa perm else pte_of (k_mem s) T va).
Proof.
  intros Hvm Ha Hpa Hau Hpu Hperm Hm Hfree body.
  destruct (walkpgdir_alloc s d T l a Hvm) as
    (r & s1 & T1 & l1 & Hw & Hvm1 & Hst1 & Hg1 & Hm1 & Hpte1 & Hr).
  unfold body. rewrite (bind_done _ _ _ _ _ Hw).
  destruct Hr as [[-> ->] | (t & Ht & -> & Hnz)].
  - exists s1, T1, []. split_and!; try done. left. done.
  - destruct (Z.eqb_spec (t + 4 * PTX a) 0); [done |]. unfold ld32, st32.
    pose proof (Hpte1 a) as He. unfold pte_of at 1 in He. rewrite Ht in He.
    rewrite bind_gets, He, Hfree. cbn [negb Z.eqb]. rewrite bind_modify. fold (entry pa perm).
    destruct (pt_write (k_mem s1) d T1 (PDX a) t (PTX a) (entry pa perm)
      (vo_pt _ _ _ _ Hvm1) Ht (PTX_range a)) as [_ Hpte].
    eexists _, T1, l1. split; [apply (vm_ok_write s1 d T1 l1 (PDX a) t (PTX a)); [done | done | apply PTX_range] |].
    split; [| split; [done |]; split].
    + apply (vm_step_trans _ s1); [done |]. split; [| by left].
      by exists (k_cpu s1), (k_kmem s1), (store32 (k_mem s1) (t + 4 * PTX a) (entry pa perm)).
    + apply (same_but_trans (pt_owns d T1) (pt_owns d T1) _ _ (k_mem s1)); [done | done | done |].
      intros x Hx. cbn. apply load8_store32_ne. pose proof (slot_in_page t _ (PTX_range a)).
      pose proof (Hx t ltac:(right; by exists (PDX a))). lia.
    + right. split; [done |]. intros va Hva. cbn. rewrite Hpte, Hpte1.
      destruct (entry_addr pa perm Hpa Hpu Hperm Hm) as [_ Hu].
      rewrite (u32_id _ Hu). by rewrite (decide_ext _ _ _ _ (page_index a va Ha Hau Hva)).
Qed.

Lemma mappages_loop_spec d perm last n : ∀ fuel s T l a pa,
  last = a + PGSIZE * Z.of_nat n →
  vm_ok s d T l → page_aligned a → page_aligned pa → 0 ≤ a → 0 ≤ pa → 0 ≤ perm < PGSIZE →
  a + PGSIZE * (Z.of_nat n + 1) ≤ 4294967296 → pa + PGSIZE * (Z.of_nat n + 1) ≤ 4294967296 →
  (n < fuel)%nat →
  (∀ va, a ≤ va < a + PGSIZE * (Z.of_nat n + 1) → Z.land (pte_of (k_mem s) T va) PTE_P = 0) →
  ∃ r s' T' l', mappages_loop fuel d a last pa perm s = Done r s' ∧
    vm_ok s' d T' l' ∧ vm_step s s' ∧ grown d T l T' l' ∧
    same_but (pt_owns d T') (k_mem s) (k_mem s') ∧
    (∀ va, is_u32 va → ¬ (a ≤ va < a + PGSIZE * (Z.of_nat n + 1)) →
       pte_of (k_mem s') T' va = pte_of (k_mem s) T va) ∧
    (r = 0 ∧ (∀ k va, (k ≤ n)%nat → in_page a k va →
        pte_of (k_mem s') T' va = entry (pa + PGSIZE * Z.of_nat k) perm) ∨
     r = -1 ∧ l' = []).
Proof.
  induction n as [| n IH]; intros fuel s T l a pa Hlast Hvm Ha Hpa Ha0 Hpa0 Hperm Hae Hpae Hf Hfree;
    (destruct fuel as [| fuel]; [lia |]); cbn [mappages_loop]; unfold PGSIZE in Hae, Hpae, Hfree.
  all: destruct (map_one s d T l a pa perm
      (if a =? last then mret 0
       else mappages_loop fuel d (u32 (a + PGSIZE)) last (u32 (pa + PGSIZE)) perm)
      Hvm Ha Hpa ltac:(unfold is_u32; lia) ltac:(unfold is_u32; lia) Hperm
      ltac:(unfold PGSIZE; lia) (Hfree a ltac:(lia)))
    as (s1 & T1 & l1 & Hvm1 & Hst1 & Hg1 & Hm1 & [(Hrun & -> & Hpte) | [Hrun Hpte]]);
    cbv zeta in Hrun; rewrite Hrun.
  - exists (-1), s1, T1, []. split_and!; try done. by right.
  - rewrite Hlast, Z.mul_0_r, Z.add_0_r, Z.eqb_refl. exists 0, s1, T1, l1.
    split_and!; try done.
    + intros va Hva Hn. rewrite Hpte by done. apply decide_False. unfold PGSIZE in *. lia.
    + left. split; [done |]. intros k va Hk Hin. assert (k = 0)%nat as -> by lia.
      unfold in_page, PGSIZE in Hin. rewrite Hpte by (unfold is_u32; lia).
      rewrite decide_True by (unfold PGSIZE; lia). f_equal. lia.
  - exists (-1), s1, T1, []. split_and!; try done. by right.
  - destruct (Z.eqb_spec a last) as [He |]; [unfold PGSIZE in Hlast; lia |].
    change PGSIZE with 4096 at 1 2. rewrite !u32_id by (unfold is_u32; lia).
    assert (Hal : ∀ x, page_aligned x → page_aligned (x + 4096))
      by (unfold page_aligned, PGSIZE; intros; zlia).
    destruct (IH fuel s1 T1 l1 (a + 4096) (pa + 4096)) as
      (r & s2 & T2 & l2 & Hrun2 & Hvm2 & Hst2 & Hg2 & Hm2 & Hpte2 & Hr);
      [unfold PGSIZE in *; lia | done | by apply Hal | by apply Hal | lia | lia | done | unfold PGSIZE; lia | unfold PGSIZE; lia | lia | |].
    { unfold PGSIZE. intros va Hva. rewrite Hpte by (unfold is_u32; lia).
      rewrite decide_False by (unfold PGSIZE; lia). apply Hfree. lia. }
    exists r, s2, T2, l2. split; [done |]. split; [done |].
    split; [by apply (vm_step_trans _ s1) |]. split; [by eapply grown_trans |].
    split; [| split].
    + apply (same_but_trans (pt_owns d T1) (pt_owns d T2) _ _ (k_mem s1)); [| done..].
      intros p. by eapply grown_owns.
    + intros va Hva Hn. unfold PGSIZE in Hn. rewrite Hpte2 by (done || (unfold PGSIZE; lia)).
      rewrite Hpte by done. apply decide_False. unfold PGSIZE. lia.
    + destruct Hr as [[-> Hr] | ?]; [left | by right]. split; [done |].
      intros [| k] va Hk Hin; unfold in_page, PGSIZE in Hin.
      * rewrite Hpte2 by (unfold is_u32, PGSIZE; lia). rewrite Hpte by (unfold is_u32; lia).
        rewrite decide_True by (unfold PGSIZE; lia). f_equal. lia.
      * rewrite (Hr k va); [f_equal; unfold PGSIZE; lia | lia | unfold in_page, PGSIZE; lia].
Qed.

Lemma mappages_run s d T l va size pa perm :
  let first := PGROUNDDOWN va in
  let last := PGROUNDDOWN (va + size - 1) in
  vm_ok s d T l → 0 ≤ va → 0 < size → va + size ≤ 4294967296 →
  page_aligned pa → 0 ≤ pa → pa + (last - first) + PGSIZE ≤ 4294967296 → 0 ≤ perm < PGSIZE →
  (∀ x, first ≤ x < last + PGSIZE → Z.land (pte_of (k_mem s) T x) PTE_P = 0) →
  ∃ r s' T' l', mappages d va size pa perm s = Done r s' ∧ vm_ok s' d T' l' ∧ vm_step s s' ∧
     grown d T l T' l' ∧ same_but (pt_owns d T') (k_mem s) (k_mem s') ∧
     (∀ x, is_u32 x → ¬ (first ≤ x < last + PGSIZE) →
        pte_of (k_mem s') T' x = pte_of (k_mem s) T x) ∧
     (r = 0 ∧ (∀ x, first ≤ x < last + PGSIZE →
         pte_of (k_mem s') T' x = entry (pa + (PGROUNDDOWN x - first)) perm) ∨
      r = -1 ∧ l' = []).
Proof.
  intros first last Hvm Hva Hsize Hend Hpa Hpa0 Hpae Hperm Hfree. unfold mappages.
  replace (u32 (u32 (va + size) - 1)) with (va + size - 1)
    by (unfold u32; zlia). fold first last.
  assert (Hfirst : first = va - va mod 4096)
    by (unfold first; rewrite PGROUNDDOWN_spec, u32_id by (unfold is_u32; lia); done).
  assert (Hlast : last = (va + size - 1) - (va + size - 1) mod 4096)
    by (unfold last; rewrite PGROUNDDOWN_spec, u32_id by (unfold is_u32; lia); done).
  set (n := Z.to_nat ((last - first) / PGSIZE)).
  assert (Hn : last = first + PGSIZE * Z.of_nat n) by (unfold n, PGSIZE; zlia).
  rewrite (u32_id (last - first)) by (unfold is_u32; zlia). fold n.
  assert (Hal : page_aligned first) by (unfold page_aligned, PGSIZE; zlia).
  unfold PGSIZE in Hn, Hpae.
  destruct (mappages_loop_spec d perm last n (S n) s T l first pa) as
    (r & s' & T' & l' & Hrun & Hvm' & Hst & Hg & Hm & Hpte & Hr);
    [unfold PGSIZE; lia | done | done | done | zlia | done | done | unfold PGSIZE; zlia |
     unfold PGSIZE; zlia | lia | |].
  { intros x Hx. apply Hfree. unfold PGSIZE in *. lia. }
  exists r, s', T', l'. split_and!; try done.
  + intros x Hx Hnx. apply Hpte; [done |]. unfold PGSIZE in *. lia.
  + destruct Hr as [[-> Hr] | ?]; [left | by right]. split; [done |].
    intros x Hx. unfold PGSIZE in Hx.
    assert (Hxd : PGROUNDDOWN x = x - x mod 4096)
      by (rewrite PGROUNDDOWN_spec, u32_id by (unfold is_u32; zlia); done).
    rewrite (Hr (Z.to_nat ((x - first) / 4096)) x);
      [f_equal | | ]; unfold in_page, PGSIZE; rewrite ?Hxd; unfold page_aligned, PGSIZE in Hal; zlia.
Qed.

(** C16: mapping a range.  In an address space whose tables and the allocator's free
    pages are apart, [mappages] of a range none of whose pages is mapped ends
    with every page of the range mapped, in order, to consecutive physical
    pages with exactly the permissions asked for, or with -1 when memory ran
    out; the entries of all other addresses are what they were, nothing outside
    the address space's own tables is written, and tables and free pages are
    still apart.  A range whose first page is mapped already is refused. *)
Theorem mappages_spec s d T l va size pa perm :
  let first := PGROUNDDOWN va in
  let last := PGROUNDDOWN (va + size - 1) in
  vm_ok s d T l → 0 ≤ va → 0 < size → va + size ≤ 4294967296 →
  page_aligned pa → 0 ≤ pa → pa + (last - first) + PGSIZE ≤ 4294967296 → 0 ≤ perm < PGSIZE →
  (Z.land (pte_of (k_mem s) T first) PTE_P ≠ 0 → mappages d va size pa perm s = Panic "remap" s) ∧
  ((∀ x, first ≤ x < last + PGSIZE → Z.land (pte_of (k_mem s) T x) PTE_P = 0) →
   ∃ r s' T' l', mappages d va size pa perm s = Done r s' ∧ vm_ok s' d T' l' ∧ vm_step s s' ∧
     grown d T l T' l' ∧ same_but (pt_owns d T') (k_mem s) (k_mem s') ∧
     (∀ x, is_u32 x → ¬ (first ≤ x < last + PGSIZE) →
        pte_of (k_mem s') T' x = pte_of (k_mem s) T x) ∧
     (r = 0 ∧ (∀ x, first ≤ x < last + PGSIZE →
         pte_of (k_mem s') T' x = entry (pa + (PGROUNDDOWN x - first)) perm) ∨
      r = -1 ∧ l' = [])).
Proof.
  intros first last Hvm Hva Hsize Hend Hpa Hpa0 Hpae Hperm.
  split; [| by apply mappages_run]. intros Hpres. unfold mappages. fold first.
  cbn [mappages_loop]. destruct (T !! PDX first) as [t |] eqn:Ht.
  2: { unfold pte_of in Hpres. by rewrite Ht in Hpres. }
  rewrite (bind_done _ _ _ _ _ (walkpgdir_found s d T first true t (vo_pt _ _ _ _ Hvm) Ht)).
  destruct (pt_page _ _ _ (vo_pt _ _ _ _ Hvm) _ _ Ht) as (_ & Hv%valid_page_pos & _).
  pose proof (PTX_range first). destruct (Z.eqb_spec (t + 4 * PTX first) 0); [lia |].
  unfold ld32. rewrite bind_gets. unfold pte_of in Hpres. rewrite Ht in Hpres.
  by rewrite (proj2 (Z.eqb_neq _ _) Hpres).
Qed.

(** ** Writing into another address space *)

(** A user program may use the page of entry [e]; where that page is. *)
Definition user_entry (e : Z) : bool :=
  (negb (Z.land e PTE_P =? 0) && negb (Z.land e PTE_U =? 0))%bool.
Definition page_of (e : Z) : Z := P2V (PTE_ADDR e).
(** Where the byte at user address [x] is. *)
Definition phys (m : mem) (T : gmap Z Z) (x : Z) : Z := page_of (pte_of m T x) + x mod PGSIZE.

(** The pages users of the address space can reach: none of them is one of its
    tables, and no two addresses share a byte. *)
Record user_pages (m : mem) (d : Z) (T : gmap Z Z) : Prop := {
  up_page : ∀ x, is_u32 x → user_entry (pte_of m T x) = true →
    valid_page (page_of (pte_of m T x)) ∧ ¬ pt_owns d T (page_of (pte_of m T x));
  up_inj : ∀ x y, is_u32 x → is_u32 y →
    user_entry (pte_of m T x) = true → user_entry (pte_of m T y) = true →
    phys m T x = phys m T y → x = y }.
Definition user_page (m : mem) (T : gmap Z Z) (p : Z) : Prop :=
  ∃ x, is_u32 x ∧ user_entry (pte_of m T x) = true ∧ p = page_of (pte_of m T x).

Lemma pte_of_page m T x y :
  is_u32 x → is_u32 y → x / PGSIZE = y / PGSIZE → pte_of m T x = pte_of m T y.
Proof.
  intros Hx Hy H. unfold pte_of.
  assert (PDX x = PDX y ∧ PTX x = PTX y) as [-> ->]; [| done].
  rewrite !PDX_spec, !PTX_spec, !u32_id by done. unfold PGSIZE in *. split; zlia.
Qed.

Lemma uva2ka_run s d T va :
  pt_ok (k_mem s) d T → T !! PDX va ≠ None →
  uva2ka d va s = Done (let e := pte_of (k_mem s) T va in
    if user_entry e then page_of e else 0) s.
Proof.
  intros H HT. destruct (T !! PDX va) as [t |] eqn:Ht; [| done]. unfold uva2ka.
  rewrite (bind_done _ _ _ _ _ (walkpgdir_found s d T va false t H Ht)).
  destruct (pt_page _ _ _ H _ _ Ht) as (_ & Hv%valid_page_pos & _).
  pose proof (PTX_range va). destruct (Z.eqb_spec (t + 4 * PTX va) 0); [lia |].
  unfold ld32. rewrite bind_gets. unfold pte_of, user_entry. rewrite Ht.
  destruct (_ =? 0); [done |]. by destruct (_ =? 0).
Qed.
(** With no page table for the address, [uva2ka] follows a null pointer. *)
Lemma uva2ka_null s d T va :
  pt_ok (k_mem s) d T → T !! PDX va = None →
  uva2ka d va s = Fault "uva2ka: null page table entry".
Proof.
  intros H Ht. unfold uva2ka.
  by rewrite (bind_done _ _ _ _ _ (walkpgdir_absent s d T va H Ht)).
Qed.

(** Writing pages that are not tables does not change the translation. *)
Lemma pt_frame (P : Z → Prop) m m' d T :
  pt_ok m d T → (∀ p, P p → page_aligned p ∧ ¬ pt_owns d T p) → same_but P m m' →
  pt_ok m' d T ∧ ∀ x, pte_of m' T x = pte_of m T x.
Proof.
  intros Hpt HP Hm.
  assert (Hown : ∀ p a, pt_owns d T p → p ≤ a → a + 4 ≤ p + PGSIZE → load32 m' a = load32 m a).
  { intros p a Hp Ha Ha'. apply load32_ext. intros k Hk. apply Hm.
    intros q [Hq Hno]%HP Hin.
    assert (Hpp : page_aligned p).
    { destruct Hp as [-> | [j Hj]]; [apply (pt_dir _ _ _ Hpt) | apply (pt_page _ _ _ Hpt _ _ Hj)]. }
    destruct (pages_apart p q Hpp Hq) as [? | ?]; [by intros -> | lia | lia]. }
  split.
  - destruct Hpt as [Hd Hp Hi Hpde]. split; [done | done | done |]. intros i Hir.
    pose proof (slot_in_page d i Hir). cbv zeta.
    rewrite (Hown d) by (by left || lia). by apply Hpde.
  - intros x. unfold pte_of. destruct (T !! PDX x) as [t |] eqn:Ht; [| done].
    pose proof (slot_in_page t _ (PTX_range x)). apply (Hown t); [right; by exists (PDX x) | lia | lia].
Qed.
Lemma pt_same_but m m' d T :
  pt_ok m d T → user_pages m d T → same_but (user_page m T) m m' →
  pt_ok m' d T ∧ ∀ x, pte_of m' T x = pte_of m T x.
Proof.
  intros Hpt Hup. apply pt_frame; [done |]. intros p (x & Hx & Hu & ->).
  destruct (up_page _ _ _ Hup x Hx Hu) as [(_ & Hq & _) Hno]. done.
Qed.

Lemma store_run s a l :
  KERNBASE ≤ a < 4294967296 → a + Z.of_nat (length l) ≤ 4294967296 →
  st_bytes a l s = Done tt (s <| k_mem := store_all (k_mem s) (λ i, a + Z.of_nat i) l |>).
Proof.
  intros Ha Hl. rewrite (st_bytes_run (λ _, True) l a (λ i, a + Z.of_nat i));
    [done | unfold is_u32, KERNBASE in *; lia | apply mapped_kernel; [lia | lia | done]].
Qed.

Section copyout.
Context (s : kst) (d : Z) (T : gmap Z Z) (va0 : Z) (l : list Z).
Context (Hpt : pt_ok (k_mem s) d T) (Hup : user_pages (k_mem s) d T).
Context (Hva : 0 ≤ va0) (Hend : va0 + Z.of_nat (length l) ≤ KERNBASE).
Context (Htab : ∀ x, va0 ≤ x < va0 + Z.of_nat (length l) → T !! PDX x ≠ None).

#[local] Abbreviation ent x := (pte_of (k_mem s) T x).
#[local] Abbreviation at_ x := (phys (k_mem s) T x).

(** What [copyout] of the bytes from number [off] on does to memory [m]. *)
Definition copied (off : nat) (m : mem) (r : Z) (m' : mem) : Prop :=
  same_but (user_page (k_mem s) T) m m' ∧
  (∀ a, (∀ i, (off ≤ i < length l)%nat → a ≠ at_ (va0 + Z.of_nat i)) → load8 m' a = load8 m a) ∧
  (r = 0 ∧ (∀ i b, (off ≤ i)%nat → l !! i = Some b →
      user_entry (ent (va0 + Z.of_nat i)) = true ∧ load8 m' (at_ (va0 + Z.of_nat i)) = u8 b) ∨
   r = -1 ∧ ∃ i, (off ≤ i < length l)%nat ∧ user_entry (ent (va0 + Z.of_nat i)) = false).

(** One chunk: the bytes [off, off + n) of [l], all in one page. *)
Lemma copied_chunk off n m r m' :
  let va := va0 + Z.of_nat off in
  (off + n ≤ length l)%nat → (0 < n)%nat → va mod PGSIZE + Z.of_nat n ≤ PGSIZE →
  user_entry (ent va) = true →
  let base := page_of (ent va) + va mod PGSIZE in
  let m2 := store_all m (λ i, base + Z.of_nat i) (take n (drop off l)) in
  same_but (user_page (k_mem s) T) m m2 ∧ (copied (off + n) m2 r m' → copied off m r m').
Proof.
  intros va Hn Hn0 Hpg Hu base m2. unfold KERNBASE in Hend.
  assert (Hchunk : length (take n (drop off l)) = n) by (rewrite length_take, length_drop; lia).
  assert (Hx : ∀ k, (k < n)%nat → let x := va0 + Z.of_nat (off + k) in
    is_u32 x ∧ ent x = ent va ∧ at_ x = base + Z.of_nat k).
  { intros k Hk x. assert (Hxu : is_u32 x) by (unfold is_u32; lia).
    unfold PGSIZE in Hpg. assert (He : ent x = ent va).
    { apply pte_of_page; [done | unfold is_u32; lia |]. unfold x, va, PGSIZE in *. zlia. }
    split; [done |]. split; [done |]. unfold phys, base. rewrite He.
    unfold x, va, PGSIZE in *. zlia. }
  assert (Hm2 : same_but (user_page (k_mem s) T) m m2).
  { intros a Ha. apply store_all_other. rewrite Hchunk. intros k Hk Heq.
    destruct (Hx k Hk) as (Hxu & He & Hat). apply (Ha (page_of (ent va))).
    - exists va. split; [unfold is_u32; lia | done].
    - unfold base in Heq. pose proof (Z.mod_pos_bound va PGSIZE ltac:(done)). lia. }
  split; [done |]. intros (Hsb & Hoth & Hr). split; [| split].
  - by apply (same_but_trans (user_page (k_mem s) T) (user_page (k_mem s) T) _ _ m2).
  - intros a Ha. rewrite Hoth by (intros k Hk; apply Ha; lia). apply store_all_other.
    rewrite Hchunk. intros k Hk ->. destruct (Hx k Hk) as (_ & _ & Hat).
    apply (Ha (off + k)%nat); [lia | by rewrite Hat].
  - destruct Hr as [[-> Hr] | [-> (k & Hk & ?)]]; [left | right; split; [done | exists k; split; [lia | done]]].
    split; [done |]. intros k b Hk Hb. destruct (decide (off + n ≤ k)%nat) as [Hge |]; [by apply Hr |].
    destruct (Hx (k - off)%nat ltac:(lia)) as (Hxu & He & Hat).
    replace (off + (k - off))%nat with k in * by lia.
    rewrite He. split; [done |]. rewrite Hoth.
    + rewrite Hat. unfold m2.
      apply (store_all_at _ m (λ i, base + Z.of_nat i)); [intros; lia |].
      rewrite lookup_take_lt, lookup_drop by lia. rewrite <- Hb. f_equal. lia.
    + intros j Hj Heq. destruct (lookup_lt_is_Some_2 l j) as [c Hc]; [lia |].
      destruct (user_entry (ent (va0 + Z.of_nat j))) eqn:Huj.
      * assert (va0 + Z.of_nat k = va0 + Z.of_nat j); [| lia].
        apply (up_inj _ _ _ Hup); [done | unfold is_u32; lia | by rewrite He | done | done].
      * destruct (Hr j c ltac:(lia) Hc). congruence.
Qed.

Lemma copyout_loop_spec fuel : ∀ off va m len,
  Z.of_nat (length l) = Z.of_nat off + len → 0 ≤ len → (0 < len → va = va0 + Z.of_nat off) →
  (0 < len → (va + len - 1) / PGSIZE - va / PGSIZE + 2 ≤ Z.of_nat fuel) → (0 < fuel)%nat →
  same_but (user_page (k_mem s) T) (k_mem s) m →
  ∃ r m', copyout_loop fuel d va (FromLocal l) (Z.of_nat off) len (s <| k_mem := m |>)
    = Done r (s <| k_mem := m' |>) ∧ copied off m r m'.
Proof.
  induction fuel as [| fuel IH]; intros off va m len Hlen Hl0 Hvaq Hfuel Hf Hm; [lia |].
  cbn [copyout_loop]. destruct (Z.gtb_spec len 0) as [Hpos |].
  2: { exists 0, m. split; [done |]. split; [apply same_but_refl |]. split; [done |].
       left. split; [done |]. intros i b Hi Hb. apply lookup_lt_Some in Hb. lia. }
  specialize (Hvaq Hpos). specialize (Hfuel Hpos). unfold KERNBASE in Hend.
  assert (Hvu : is_u32 va) by (unfold is_u32; lia).
  assert (Hrd : PGROUNDDOWN va = va - va mod 4096) by (by rewrite PGROUNDDOWN_spec, u32_id by done).
  rewrite Hrd.
  destruct (pt_same_but _ m d T Hpt Hup Hm) as [Hptm Hpte].
  assert (Hpg : pte_of m T (va - va mod 4096) = ent va).
  { rewrite Hpte. apply pte_of_page; [unfold is_u32 in *; zlia | done | unfold PGSIZE; zlia]. }
  assert (Hndx : T !! PDX (va - va mod 4096) ≠ None).
  { replace (PDX (va - va mod 4096)) with (PDX va); [apply Htab; lia |].
    rewrite !PDX_spec, !u32_id by (unfold is_u32 in *; zlia). zlia. }
  set (sm := s <| k_mem := m |>).
  assert (Hptm' : pt_ok (k_mem sm) d T) by exact Hptm.
  rewrite (bind_done _ _ _ _ _ (uva2ka_run sm d T _ Hptm' Hndx)).
  change (k_mem sm) with m. rewrite Hpg. cbv zeta.
  destruct (user_entry (ent va)) eqn:Hu.
  2: { exists (-1), m. split; [done |]. split; [apply same_but_refl |]. split; [done |].
       right. split; [done |]. exists off. split; [lia | by rewrite <- Hvaq]. }
  destruct (up_page _ _ _ Hup va Hvu Hu) as [Hvp Hno].
  pose proof (valid_page_pos _ Hvp). destruct (Z.eqb_spec (page_of (ent va)) 0) as [| _]; [lia |].
  pose proof (valid_page_range _ Hvp) as Hrg. unfold KERNBASE, EXTMEM, PHYSTOP, PGSIZE in Hrg.
  set (n := if PGSIZE - (va - (va - va mod 4096)) >? len then len
            else PGSIZE - (va - (va - va mod 4096))).
  assert (Hn : 0 < n ≤ len ∧ va mod 4096 + n ≤ 4096 ∧ (n = len ∨ va mod 4096 + n = 4096)).
  { unfold n, PGSIZE. destruct (Z.gtb_spec (4096 - (va - (va - va mod 4096))) len); zlia. }
  cbn [src_bytes]. rewrite bind_ret, !Nat2Z.id.
  set (chunk := take (Z.to_nat n) (drop off l)).
  assert (Hcl : length chunk = Z.to_nat n) by (unfold chunk; rewrite length_take, length_drop; lia).
  rewrite (bind_done _ _ _ _ _ (store_run sm
    (page_of (ent va) + (va - (va - va mod 4096))) chunk ltac:(unfold KERNBASE; zlia) ltac:(rewrite Hcl; zlia))).
  change (k_mem sm) with m.
  replace (page_of (ent va) + (va - (va - va mod 4096))) with (page_of (ent va) + va mod 4096) by lia.
  set (m2 := store_all m (λ i, page_of (ent va) + va mod 4096 + Z.of_nat i) chunk).
  assert (Hch := λ r m', copied_chunk off (Z.to_nat n) m r m' ltac:(lia) ltac:(lia)
    ltac:(rewrite <- Hvaq; unfold PGSIZE; lia) ltac:(by rewrite <- Hvaq)).
  cbv zeta in Hch. rewrite <- Hvaq in Hch. unfold PGSIZE in Hch. fold chunk m2 in Hch.
  destruct (Hch 0 m2) as [Hm2 _].
  destruct (IH (off + Z.to_nat n)%nat (u32 (va - va mod 4096 + PGSIZE)) m2 (len - n)) as (r & m' & Hrun & Hc).
  - lia.
  - lia.
  - intros Hlt. unfold PGSIZE. rewrite u32_id by (unfold is_u32; zlia). lia.
  - intros Hlt. unfold PGSIZE in *. rewrite u32_id by (unfold is_u32; zlia). zlia.
  - destruct fuel; [| lia]. unfold PGSIZE in *. zlia.
  - by apply (same_but_trans (user_page (k_mem s) T) (user_page (k_mem s) T) _ _ m).
  - exists r, m'. rewrite <- (Z2Nat.id n), <- Nat2Z.inj_add by lia. rewrite Z2Nat.id by lia.
    split; [exact Hrun |]. by apply Hch.
Qed.
End copyout.

(** C17: copying out is confined to user pages.  With a page table present for the
    whole range, [copyout] of [l] to user address [va] always returns: 0 when
    the user may access every page of the range, and then reading [va + i]
    through the page tables gives byte [i]; -1 when some page of the range is
    not the user's.  Either way nothing but user pages of this address space is
    written, and its translation does not change. *)
Theorem copyout_confined s d T va l :
  pt_ok (k_mem s) d T → user_pages (k_mem s) d T →
  0 ≤ va → va + Z.of_nat (length l) ≤ KERNBASE →
  (∀ x, va ≤ x < va + Z.of_nat (length l) → T !! PDX x ≠ None) →
  ∃ r m', copyout d va (FromLocal l) (Z.of_nat (length l)) s = Done r (s <| k_mem := m' |>) ∧
    same_but (user_page (k_mem s) T) (k_mem s) m' ∧
    pt_ok m' d T ∧ (∀ x, pte_of m' T x = pte_of (k_mem s) T x) ∧
    (r = 0 ∧ (∀ i b, l !! i = Some b →
        user_entry (pte_of m' T (va + Z.of_nat i)) = true ∧
        load8 m' (phys m' T (va + Z.of_nat i)) = u8 b) ∨
     r = -1 ∧ ∃ i, (i < length l)%nat ∧ user_entry (pte_of m' T (va + Z.of_nat i)) = false).
Proof.
  intros Hpt Hup Hva Hend Htab. unfold copyout.
  destruct (copyout_loop_spec s d T va l Hpt Hup Hva Hend Htab
    (S (S (Z.to_nat (Z.of_nat (length l) / PGSIZE + 1)))) 0 va (k_mem s) (Z.of_nat (length l)))
    as (r & m' & Hrun & Hsb & _ & Hr);
    [lia | lia | lia | unfold PGSIZE; zlia | lia | apply same_but_refl |].
  change (Z.of_nat 0) with 0 in Hrun. replace (s <| k_mem := k_mem s |>) with s in Hrun by kst_eq.
  destruct (pt_same_but _ m' d T Hpt Hup Hsb) as [Hpt' Hpte].
  exists r, m'. split; [done |]. split; [done |]. split; [done |]. split; [done |].
  destruct Hr as [[-> Hr] | [-> (i & Hi & Hu)]]; [left | right]; (split; [done |]).
  - intros i b Hb. unfold phys. rewrite Hpte. apply Hr; [lia | done].
  - exists i. rewrite Hpte. split; [lia | done].
Qed.

(** a missing test: [uva2ka] uses [walkpgdir]'s result without testing it, so
    [copyout] to an address for which the address space has no page table reads
    through the null pointer instead of failing with -1. *)
Theorem copyout_null_pte s d T va src len :
  pt_ok (k_mem s) d T → is_u32 va → T !! PDX va = None → 0 < len →
  copyout d va src len s = Fault "uva2ka: null page table entry".
Proof.
  intros Hpt Hva HT Hlen. unfold copyout. cbn [copyout_loop].
  destruct (Z.gtb_spec len 0); [| lia].
  assert (HPD : PDX (PGROUNDDOWN va) = PDX va).
  { rewrite PGROUNDDOWN_spec, (u32_id va) by done. unfold PGSIZE.
    rewrite !PDX_spec, !u32_id by (unfold is_u32 in *; zlia). unfold is_u32 in *. zlia. }
  erewrite bind_fault; [done |]. apply (uva2ka_null s d T); [done | by rewrite HPD].
Qed.
End pt.

(** ** Witness: an empty page directory at 2 MB + 8192 *)
Definition dir_2M : Z := KERNBASE + 0x202000.
Lemma two_pages_vm : @vm_ok linker_2M two_pages dir_2M ∅ [KERNBASE + 0x201000; KERNBASE + 0x200000].
Proof.
  split.
  - apply two_pages_inv.
  - apply two_pages_ready.
  - split; [repeat split; vm_compute; done | done | done |].
    intros i Hi e. rewrite lookup_empty. unfold e.
    change (k_mem two_pages) with (store32 ∅ (KERNBASE + 0x201000) (KERNBASE + 0x200000)).
    rewrite load32_store32_ne by (unfold dir_2M; lia). done.
  - intros p [-> | [k Hk]]; [| done]. refine (bool_decide_unpack _ _). vm_compute. done.
Qed.

Lemma mappages_spec_witness :
  ∃ r s' T' l', mappages dir_2M 0x5000 0x1800 0x300000 6 two_pages = Done r s' ∧
    (r = 0 ∧ pte_of (k_mem s') T' 0x6010 = entry 0x301000 6 ∨ r = -1 ∧ l' = ([] : list Z)).
Proof.
  destruct (@mappages_spec linker_2M linker_2M_ok two_pages dir_2M ∅
    [KERNBASE + 0x201000; KERNBASE + 0x200000] 0x5000 0x1800 0x300000 6) as [_ H].
  - exact two_pages_vm.
  - lia.
  - lia.
  - lia.
  - reflexivity.
  - lia.
  - vm_compute. done.
  - unfold PGSIZE. lia.
  - destruct H as (r & s' & T' & l' & Hrun & _ & _ & _ & _ & _ & Hr);
      [intros x _; reflexivity |].
    exists r, s', T', l'. split; [exact Hrun |].
    destruct Hr as [[-> Hr] | Hr]; [left | by right].
    split; [done |]. rewrite Hr; [reflexivity |]. split; vm_compute; done.
Defined.

(** A user page at address [k * PGSIZE], its table at 2 MB + 12288, the page
    itself at 2 MB + 16384. *)
Definition user_mem (k : Z) : mem :=
  store32 (store32 ∅ (KERNBASE + 0x203000 + 4 * k) (entry 0x204000 6))
    (KERNBASE + 0x202000) (entry 0x203000 6).
Abbreviation user_mem_3000 := (user_mem 3).
Definition user_T : gmap Z Z := {[ 0 := KERNBASE + 0x203000 ]}.
Lemma user_mem_other k a : a ≠ KERNBASE + 0x203000 + 4 * k → a ≠ KERNBASE + 0x202000 →
  a mod 4 = 0 → load32 (user_mem k) a = 0.
Proof.
  intros H1 H2 H3. unfold user_mem, KERNBASE in *. rewrite !load32_store32_ne by zlia. done.
Qed.
Lemma user_T_Some i t : user_T !! i = Some t → i = 0 ∧ t = KERNBASE + 0x203000.
Proof. unfold user_T. by intros [<- <-]%lookup_singleton_Some. Qed.
Lemma user_mem_ok k : 0 ≤ k → @pt_ok linker_2M (user_mem k) dir_2M user_T.
Proof.
  intros Hk. split.
  - repeat split; vm_compute; done.
  - intros i t [-> ->]%user_T_Some. split; [lia |]. split; [repeat split; vm_compute; done | done].
  - by intros i j t [-> _]%user_T_Some [-> _]%user_T_Some.
  - intros i Hi e. unfold user_T. destruct (decide (i = 0)) as [-> |].
    + rewrite lookup_singleton_eq. unfold e, user_mem.
      change (dir_2M + 4 * 0) with (KERNBASE + 0x202000). rewrite load32_store32_eq. vm_compute. done.
    + rewrite lookup_singleton_ne by done. unfold e.
      rewrite user_mem_other; [done | unfold dir_2M, KERNBASE; lia | unfold dir_2M, KERNBASE; lia |
        unfold dir_2M, KERNBASE; zlia].
Qed.
Lemma user_mem_pte k x : 0 ≤ k < 512 → is_u32 x →
  pte_of (user_mem k) user_T x = if decide (x / PGSIZE = k) then entry 0x204000 6 else 0.
Proof.
  intros Hk Hx. unfold pte_of, user_T. destruct (decide (PDX x = 0)) as [H0 | H0].
  - rewrite H0, lookup_singleton_eq. rewrite PDX_spec, u32_id in H0 by done.
    pose proof (PTX_range x) as Hr. rewrite PTX_spec, u32_id in * by done. unfold PGSIZE in *.
    case_decide as H3.
    + rewrite H3, Z.mod_small by lia. unfold user_mem.
      rewrite load32_store32_ne by (unfold KERNBASE; lia). rewrite load32_store32_eq. vm_compute. done.
    + apply user_mem_other; unfold KERNBASE, is_u32 in *; zlia.
  - rewrite lookup_singleton_ne by congruence. rewrite PDX_spec, u32_id in H0 by done.
    case_decide; [| done]. unfold PGSIZE in *. zlia.
Qed.

Lemma copyout_confined_witness :
  ∃ m', copyout dir_2M 0x3ffe (FromLocal [65; 66]) 2 (running <| k_mem := user_mem_3000 |>)
    = Done 0 (running <| k_mem := user_mem_3000 |> <| k_mem := m' |>) ∧
    load8 m' (KERNBASE + 0x204fff) = 66.
Proof.
  assert (Hent : ∀ x, is_u32 x → user_entry (pte_of user_mem_3000 user_T x) = true →
    x / PGSIZE = 3 ∧ pte_of user_mem_3000 user_T x = entry 0x204000 6).
  { intros x Hx. rewrite user_mem_pte by (done || lia). by case_decide. }
  destruct (@copyout_confined linker_2M linker_2M_ok (running <| k_mem := user_mem_3000 |>)
    dir_2M user_T 0x3ffe [65; 66]) as (r & m' & Hrun & _ & _ & Hpte & Hr).
  - by apply user_mem_ok.
  - change (k_mem (running <| k_mem := user_mem_3000 |>)) with user_mem_3000. split.
    + intros x Hx [_ ->]%Hent; [| done]. split; [repeat split; vm_compute; done |].
      intros [H | [k [-> H]%user_T_Some]]; vm_compute in H; done.
    + intros x y Hx Hy Hux Huy. destruct (Hent x Hx Hux) as [Hx3 Hxe].
      destruct (Hent y Hy Huy) as [Hy3 Hye]. unfold phys. rewrite Hxe, Hye. unfold PGSIZE in *. zlia.
  - lia.
  - vm_compute. done.
  - intros x Hx. replace (PDX x) with 0; [done |]. rewrite PDX_spec, u32_id by (unfold is_u32; cbn in Hx; lia).
    cbn in Hx. zlia.
  - destruct Hr as [[-> Hr] | [_ (i & Hi & Hu)]].
    + exists m'. split; [exact Hrun |]. destruct (Hr 1%nat 66 eq_refl) as [_ H]. unfold phys in H.
      rewrite Hpte in H. exact H.
    + exfalso. rewrite Hpte in Hu.
      change (k_mem (running <| k_mem := user_mem_3000 |>)) with user_mem_3000 in Hu. cbn in Hi.
      rewrite user_mem_pte in Hu by (unfold is_u32; lia).
      rewrite decide_True in Hu by (unfold PGSIZE; zlia). done.
Defined.

Lemma copyout_null_pte_witness :
  copyout dir_2M 0x400000 (FromLocal [65]) 1 (running <| k_mem := user_mem_3000 |>)
    = Fault "uva2ka: null page table entry".
Proof.
  apply (@copyout_null_pte linker_2M _ dir_2M user_T); [by apply user_mem_ok | | reflexivity | lia].
  unfold is_u32. lia.
Defined.
