(* ===== verification/Uvm.v ===== *)
(** * vm.c, specified: the pages of a process

    [space_ok s d T l]: the address space with directory [d] and tables [T]
    maps below [KERNBASE] pages of its own: valid ones, no two addresses
    sharing a page, none of them a table or on the free list [l].  With it the
    effect of [deallocuvm], [allocuvm] and [freevm] is stated on the map from
    addresses to entries ([pte_of]) and on who owns which page. *)
From S2P Require Import Prelude Mmu Cstring Kstate Spinlock Kalloc Proc Vm Pagetable.

Definition present (e : Z) : bool := negb (Z.land e PTE_P =? 0).
Definition user_addr (x : Z) : Prop := 0 ≤ x < KERNBASE.
Lemma user_addr_u32 x : user_addr x → is_u32 x.
Proof. unfold user_addr, is_u32, KERNBASE. lia. Qed.

Section space.
Context {LK : Linker} {LO : LinkerOk}.

(** [p] is the page some user address is mapped to. *)
Definition mapped_page (m : mem) (T : gmap Z Z) (p : Z) : Prop :=
  ∃ x, user_addr x ∧ present (pte_of m T x) = true ∧ p = page_of (pte_of m T x).

Record space_ok (s : kst) (d : Z) (T : gmap Z Z) (l : list Z) : Prop := {
  so_vm : vm_ok s d T l;
  so_page : ∀ p, mapped_page (k_mem s) T p → valid_page p ∧ ¬ pt_owns d T p ∧ p ∉ l;
  so_inj : ∀ x y, user_addr x → user_addr y → present (pte_of (k_mem s) T x) = true →
    present (pte_of (k_mem s) T y) = true →
    page_of (pte_of (k_mem s) T x) = page_of (pte_of (k_mem s) T y) → x / PGSIZE = y / PGSIZE }.

(** All the pages of the address space. *)
Definition owns (m : mem) (d : Z) (T : gmap Z Z) (p : Z) : Prop :=
  pt_owns d T p ∨ mapped_page m T p.

Lemma vm_step_kfreed v s : vm_step s (kfreed v s).
Proof.
  unfold kfreed, locksync, vm_step. destruct (use_lock _); cbn; (split; [| auto]).
  - eexists (sync_cpu (k_cpu s)), _, _. unfold ksync. kst_eq; reflexivity.
  - eexists (k_cpu s), _, _. kst_eq; reflexivity.
Qed.

(** The heart of [deallocuvm]: free the page at [a] and clear its entry. *)
Lemma unmap_one s d T l a t :
  space_ok s d T l → user_addr a → page_aligned a → T !! PDX a = Some t →
  present (pte_of (k_mem s) T a) = true →
  let pg := page_of (pte_of (k_mem s) T a) in
  ∃ s', (kfree pg;; st32 (t + 4 * PTX a) 0) s = Done tt s' ∧ space_ok s' d T (pg :: l) ∧
    vm_step s s' ∧ same_but (λ p, pt_owns d T p ∨ p = pg) (k_mem s) (k_mem s') ∧
    (∀ x, is_u32 x → pte_of (k_mem s') T x =
       if decide (a ≤ x < a + PGSIZE) then 0 else pte_of (k_mem s) T x).
Proof.
  intros [Hvm Hpg Hinj] Ha Hal Ht Hpr pg. pose proof Hvm as [Hi Hr Hpt Hap].
  destruct (Hpg pg) as (Hv & Hno & Hnl); [by exists a |].
  destruct (kfree_spec pg s l Hi Hr Hv Hnl) as (Hk & Hi1 & Hr1).
  set (s1 := kfreed pg s) in *.
  assert (Hm1 : same_but (λ p, p = pg) (k_mem s) (k_mem s1)).
  { intros x Hx. unfold s1, kfreed. rewrite locksync_mem. apply kfree_page_outside.
    specialize (Hx pg eq_refl). lia. }
  destruct (pt_frame (λ p, p = pg) (k_mem s) (k_mem s1) d T Hpt) as [Hpt1 Hpte1];
    [intros p ->; split; [apply Hv | done] | done |].
  destruct (pt_write (k_mem s1) d T (PDX a) t (PTX a) 0 Hpt1 Ht (PTX_range a)) as [Hpt2 Hpte2].
  assert (Hvm1 : vm_ok s1 d T (pg :: l)).
  { split; [done | done | done |]. intros p Hp. apply not_elem_of_cons.
    split; [by intros -> | by apply Hap]. }
  assert (Hpte : ∀ x, is_u32 x → pte_of (store32 (k_mem s1) (t + 4 * PTX a) 0) T x =
    if decide (a ≤ x < a + PGSIZE) then 0 else pte_of (k_mem s) T x).
  { intros x Hx. rewrite Hpte2, Hpte1.
    by rewrite (decide_ext _ _ _ _ (page_index a x Hal (user_addr_u32 a Ha) Hx)). }
  set (s2 := s1 <| k_mem ::= λ m, store32 m (t + 4 * PTX a) 0 |>).
  assert (Hpr2 : ∀ x, user_addr x → present (pte_of (k_mem s2) T x) = true →
    pte_of (k_mem s2) T x = pte_of (k_mem s) T x ∧ present (pte_of (k_mem s) T x) = true ∧
    ¬ a ≤ x < a + PGSIZE).
  { intros x Hx. change (k_mem s2) with (store32 (k_mem s1) (t + 4 * PTX a) 0).
    rewrite Hpte by by apply user_addr_u32. by case_decide. }
  exists s2. split; [| split; [split |]].
  - rewrite (bind_done _ _ _ _ _ Hk). reflexivity.
  - by apply vm_ok_write with (i := PDX a); [| | apply PTX_range].
  - intros p (x & Hx & Hxp & ->). destruct (Hpr2 x Hx Hxp) as (-> & Hxp' & Hxa).
    destruct (Hpg (page_of (pte_of (k_mem s) T x))) as (? & ? & ?); [by exists x |].
    split_and!; [done | done |]. apply not_elem_of_cons. split; [| done].
    intros Heq. pose proof (Hinj x a Hx Ha Hxp' Hpr Heq).
    unfold page_aligned, PGSIZE in *. apply Hxa. zlia.
  - intros x y Hx Hy Hxp Hyp. destruct (Hpr2 x Hx Hxp) as (-> & ? & _).
    destruct (Hpr2 y Hy Hyp) as (-> & ? & _). by apply Hinj.
  - split; [| split].
    + apply (vm_step_trans _ s1); [apply vm_step_kfreed |]. split; [| by left].
      eexists (k_cpu s1), (k_kmem s1), _. unfold s2. kst_eq; reflexivity.
    + apply (same_but_trans (λ p, p = pg) (pt_owns d T) _ _ (k_mem s1)); [auto | auto | done |].
      intros x Hx. apply load8_store32_ne. pose proof (slot_in_page t _ (PTX_range a)).
      pose proof (Hx t ltac:(right; by exists (PDX a))). lia.
    + exact Hpte.
Qed.

(** ** Unmapping a set of addresses

    [unmapped d T R s l s' l']: the pages of the addresses in [R] went from the
    address space to the free list, and nothing else happened. *)
Definition page_in (m : mem) (T : gmap Z Z) (R : Z → Prop) (p : Z) : Prop :=
  ∃ x, user_addr x ∧ R x ∧ present (pte_of m T x) = true ∧ p = page_of (pte_of m T x).

Lemma page_in_at_most m T a b :
  page_aligned a → page_aligned b → a ≤ b →
  at_most ((b - a) / PGSIZE) (page_in m T (λ x, a ≤ x < b)).
Proof.
  intros Ha Hb Hab. eapply at_most_mono; [reflexivity | |
    apply (at_most_image _ (λ k, page_of (pte_of m T (a + PGSIZE * k)))); unfold PGSIZE; zlia].
  intros p (x & Hx & Hin & _ & ->). exists ((x - a) / PGSIZE).
  unfold page_aligned, user_addr, KERNBASE, PGSIZE in *. split; [zlia |]. f_equal.
  assert (a + 4096 * ((x - a) / 4096) = 4096 * (x / 4096)) as -> by zlia.
  apply pte_of_page; unfold is_u32, PGSIZE; zlia.
Qed.

Record unmapped (d : Z) (T : gmap Z Z) (R : Z → Prop) (s : kst) (l : list Z) (s' : kst)
    (l' : list Z) : Prop := {
  un_ok : space_ok s' d T l';
  un_step : vm_step s s';
  un_free : l `suffix_of` l';
  un_pte : ∀ x, is_u32 x → R x ∧ present (pte_of (k_mem s') T x) = false ∨
    ¬ R x ∧ pte_of (k_mem s') T x = pte_of (k_mem s) T x;
  un_mem : same_but (λ p, pt_owns d T p ∨ page_in (k_mem s) T R p) (k_mem s) (k_mem s');
  un_pages : ∀ p, p ∈ l' ↔ p ∈ l ∨ page_in (k_mem s) T R p }.

Lemma unmapped_none d T (R : Z → Prop) s l :
  space_ok s d T l → (∀ x, is_u32 x → R x → present (pte_of (k_mem s) T x) = false) →
  (∀ x, R x ∨ ¬ R x) →
  unmapped d T R s l s l.
Proof.
  intros Hs Hv Hdec. split; [done | apply vm_step_refl | done | | apply same_but_refl |].
  - intros x Hx. destruct (Hdec x); auto.
  - intros p. split; [by left |]. intros [? | (x & Hx%user_addr_u32 & HR & Hp & _)]; [done |].
    by rewrite (Hv x Hx HR) in Hp.
Qed.

Lemma unmapped_iff d T (R R' : Z → Prop) s l s' l' :
  (∀ x, R x ↔ R' x) → unmapped d T R s l s' l' → unmapped d T R' s l s' l'.
Proof.
  intros HR [? ? ? Hpte Hm Hp].
  assert (Hin : ∀ p, page_in (k_mem s) T R p ↔ page_in (k_mem s) T R' p).
  { intros p. unfold page_in. by setoid_rewrite HR. }
  split; [done | done | done | | |].
  - intros x Hx. rewrite <- HR. auto.
  - intros a Ha. apply Hm. intros p [? | ?%Hin]; apply Ha; auto.
  - intros p. by rewrite Hp, Hin.
Qed.

Lemma unmapped_trans d T (R1 R2 : Z → Prop) s l s1 l1 s2 l2 :
  unmapped d T R1 s l s1 l1 → unmapped d T R2 s1 l1 s2 l2 →
  unmapped d T (λ x, R1 x ∨ R2 x) s l s2 l2.
Proof.
  intros [H1 Hs1 Hf1 Hp1 Hm1 Hl1] [H2 Hs2 Hf2 Hp2 Hm2 Hl2].
  assert (Hin : ∀ p, page_in (k_mem s) T (λ x, R1 x ∨ R2 x) p ↔
    page_in (k_mem s) T R1 p ∨ page_in (k_mem s1) T R2 p).
  { intros p. split.
    - intros (x & Hx & HR & Hpr & ->). destruct (Hp1 x (user_addr_u32 x Hx)) as [[HR1 _] | [HR1 Heq]].
      + left. by exists x.
      + right. exists x. rewrite Heq. tauto.
    - intros [(x & Hx & HR & Hpr & ->) | (x & Hx & HR & Hpr & ->)]; [exists x; tauto |].
      destruct (Hp1 x (user_addr_u32 x Hx)) as [[_ Heq] | [HR1 Heq]]; [congruence |]. rewrite Heq in Hpr |- *.
      exists x. tauto. }
  split.
  - done.
  - by apply (vm_step_trans _ s1).
  - by etrans.
  - intros x Hx. destruct (Hp1 x Hx) as [[? Heq] | [? Heq]], (Hp2 x Hx) as [[? ?] | [? Heq2]];
      [tauto | left; rewrite Heq2; tauto | tauto | right; rewrite Heq2; tauto].
  - eapply same_but_trans; [| | exact Hm1 | exact Hm2]; intros p; rewrite Hin; tauto.
  - intros p. rewrite Hl2, Hl1, Hin. tauto.
Qed.

Lemma unmapped_one s d T l a t :
  space_ok s d T l → user_addr a → page_aligned a → T !! PDX a = Some t →
  present (pte_of (k_mem s) T a) = true →
  ∃ s' l', (kfree (page_of (pte_of (k_mem s) T a));; st32 (t + 4 * PTX a) 0) s = Done tt s' ∧
    unmapped d T (λ x, a ≤ x < a + PGSIZE) s l s' l'.
Proof.
  intros Hs Ha Hal Ht Hpr.
  destruct (unmap_one s d T l a t Hs Ha Hal Ht Hpr) as (s' & Hrun & Hs' & Hst & Hm & Hpte).
  assert (Hin : ∀ p, page_in (k_mem s) T (λ x, a ≤ x < a + PGSIZE) p ↔
    p = page_of (pte_of (k_mem s) T a)).
  { intros p. split.
    - intros (x & Hx & HR & _ & ->). f_equal. apply pte_of_page; [by apply user_addr_u32 .. |].
      unfold page_aligned, PGSIZE in *. zlia.
    - intros ->. exists a. unfold PGSIZE. split_and!; [done | lia | lia | done | done]. }
  exists s', (page_of (pte_of (k_mem s) T a) :: l). split; [done |]. split.
  - done.
  - done.
  - by exists [page_of (pte_of (k_mem s) T a)].
  - intros x Hx. rewrite Hpte by done. case_decide; auto.
  - intros b Hb. apply Hm. intros p [? | ->]; apply Hb; [by left | right; by apply Hin].
  - intros p. rewrite elem_of_cons, Hin. tauto.
Qed.

(** ** [deallocuvm] *)

(** The addresses whose page starts in [a..oldsz). *)
Definition from_to (a oldsz x : Z) : Prop := a ≤ x ∧ PGSIZE * (x / PGSIZE) < oldsz.

Lemma space_slot s d T l a :
  space_ok s d T l → user_addr a →
  match T !! PDX a with
  | Some t => walkpgdir d a false s = Done (t + 4 * PTX a) s ∧ t + 4 * PTX a ≠ 0 ∧
      load32 (k_mem s) (t + 4 * PTX a) = pte_of (k_mem s) T a
  | None => walkpgdir d a false s = Done 0 s ∧
      ∀ x, is_u32 x → PDX x = PDX a → pte_of (k_mem s) T x = 0
  end.
Proof.
  intros [[_ _ Hpt _] _ _] Ha. destruct (T !! PDX a) as [t |] eqn:Ht.
  - split; [by apply (walkpgdir_found s d T) |].
    destruct (pt_page _ _ _ Hpt _ _ Ht) as (_ & Hv%valid_page_pos & _). pose proof (PTX_range a).
    split; [lia |]. unfold pte_of. by rewrite Ht.
  - split; [by apply (walkpgdir_absent s d T) |]. intros x _ Hx. unfold pte_of. by rewrite Hx, Ht.
Qed.

Lemma deallocuvm_loop_spec d T oldsz fuel : ∀ s l a,
  space_ok s d T l → page_aligned a → 0 ≤ a → oldsz ≤ KERNBASE →
  (0 < fuel)%nat → oldsz ≤ a + PGSIZE * (Z.of_nat fuel - 1) →
  ∃ s' l', deallocuvm_loop fuel d a oldsz s = Done tt s' ∧
    unmapped d T (from_to a oldsz) s l s' l'.
Proof.
  induction fuel as [| fuel IH]; intros s l a Hs Hal Ha Hold Hf Hfuel; [lia |].
  cbn [deallocuvm_loop]. destruct (Z.ltb_spec a oldsz) as [Hlt | Hge].
  2: { exists s, l. split; [done |]. unfold from_to, page_aligned, PGSIZE in *.
       apply unmapped_none; [done | intros x _ Hx; zlia | intros x; right; zlia]. }
  assert (Hua : user_addr a) by (unfold user_addr; lia). unfold page_aligned in Hal.
  pose proof (space_slot s d T l a Hs Hua) as Hslot.
  destruct (T !! PDX a) as [t |] eqn:Ht; [destruct Hslot as (Hw & Hnz & He) | destruct Hslot as [Hw He]];
    rewrite (bind_done _ _ _ _ _ Hw).
  - destruct (Z.eqb_spec (t + 4 * PTX a) 0); [done |]. unfold ld32. rewrite bind_gets, He.
    rewrite u32_id by (unfold is_u32, KERNBASE, PGSIZE in *; lia).
    assert (Hsplit : ∀ x, a ≤ x < a + PGSIZE ∨ from_to (a + PGSIZE) oldsz x ↔ from_to a oldsz x)
      by (intros x; unfold from_to, PGSIZE in *; split; zlia).
    destruct (present (pte_of (k_mem s) T a)) eqn:Hpr; unfold present in Hpr; rewrite Hpr.
    + destruct (so_page _ _ _ _ Hs (page_of (pte_of (k_mem s) T a))) as (Hv & _); [by exists a |].
      destruct (unmapped_one s d T l a t Hs Hua Hal Ht Hpr) as (s1 & l1 & Hrun & Hu1).
      unfold page_of in Hv, Hrun. apply valid_page_range in Hv as Hvr.
      destruct (Z.eqb_spec (PTE_ADDR (pte_of (k_mem s) T a)) 0) as [H0 | _].
      { rewrite H0 in Hvr. destruct Hvr as [Hvr _]. vm_compute in Hvr. done. }
      rewrite (bind_done _ _ _ _ _ Hrun).
      destruct (IH s1 l1 (a + PGSIZE)) as (s2 & l2 & Hrun2 & Hu2).
      * apply Hu1.
      * unfold page_aligned, PGSIZE in *. zlia.
      * unfold PGSIZE. lia.
      * done.
      * unfold PGSIZE in *. lia.
      * unfold PGSIZE in *. lia.
      * exists s2, l2. split; [done |]. eapply unmapped_iff; [exact Hsplit |].
        by eapply unmapped_trans.
    + cbn [negb]. rewrite bind_ret.
      destruct (IH s l (a + PGSIZE)) as (s2 & l2 & Hrun2 & Hu2); try done.
      * unfold page_aligned, PGSIZE in *. zlia.
      * unfold PGSIZE. lia.
      * unfold PGSIZE in *. lia.
      * unfold PGSIZE in *. lia.
      * exists s2, l2. split; [done |]. eapply unmapped_iff; [exact Hsplit |].
        eapply unmapped_trans; [| exact Hu2]. apply unmapped_none; [done | | intros; lia].
        intros x Hx Hin. rewrite (pte_of_page _ T x a); [done | done | by apply user_addr_u32 |].
        unfold PGSIZE in *. zlia.
  - cbn [Z.eqb]. assert (HP : PDX a = a / 4194304 ∧ a / 4194304 ≤ 511).
    { rewrite PDX_spec, u32_id by by apply user_addr_u32. unfold user_addr, KERNBASE in Hua. zlia. }
    rewrite PGADDR_spec by (unfold PGSIZE; unfold user_addr in Hua; zlia).
    set (b := (PDX a + 1) * 4194304).
    replace (u32 (u32 (b + 0 * PGSIZE + 0 - PGSIZE) + PGSIZE)) with b
      by (unfold b, u32, PGSIZE; unfold user_addr in Hua; zlia).
    destruct (IH s l b) as (s2 & l2 & Hrun2 & Hu2); try done.
    + unfold page_aligned, b, PGSIZE. zlia.
    + unfold b. unfold user_addr in Hua. zlia.
    + unfold PGSIZE in *. lia.
    + unfold PGSIZE, b in *. unfold user_addr in Hua. zlia.
    + exists s2, l2. split; [done |].
      apply (unmapped_iff d T (λ x, (a ≤ x < b ∧ PGSIZE * (x / PGSIZE) < oldsz) ∨ from_to b oldsz x)).
      { intros x. unfold from_to, b, PGSIZE in *. split; zlia. }
      eapply unmapped_trans; [| exact Hu2].
      apply unmapped_none; [done | | intros; unfold PGSIZE; zlia].
      intros x Hx [Hin _]. rewrite He; [done | done |].
      rewrite !PDX_spec, !u32_id by (done || by apply user_addr_u32). unfold b in Hin. zlia.
Qed.

Lemma deallocuvm_run s d T l oldsz newsz :
  space_ok s d T l → 0 ≤ newsz < oldsz → oldsz ≤ KERNBASE →
  ∃ s' l', deallocuvm d oldsz newsz s = Done newsz s' ∧
    unmapped d T (from_to (PGROUNDUP newsz) oldsz) s l s' l'.
Proof.
  intros Hs Hn Ho. unfold deallocuvm. rewrite Z.geb_leb. destruct (Z.leb_spec oldsz newsz); [lia |].
  assert (Hup : PGROUNDUP newsz = (newsz + 4095) - (newsz + 4095) mod 4096).
  { rewrite PGROUNDUP_spec. unfold PGSIZE. rewrite u32_id by (unfold is_u32, KERNBASE in *; lia).
    by replace (newsz + 4096 - 1) with (newsz + 4095) by lia. }
  set (fuel := S (Z.to_nat ((oldsz - PGROUNDUP newsz) / PGSIZE + 1))).
  destruct (deallocuvm_loop_spec d T oldsz fuel s l (PGROUNDUP newsz) Hs) as (s' & l' & Hrun & Hu).
  - unfold page_aligned, PGSIZE. rewrite Hup. zlia.
  - rewrite Hup. zlia.
  - done.
  - unfold fuel. lia.
  - unfold fuel, PGSIZE. zlia.
  - exists s', l'. by rewrite (bind_done _ _ _ _ _ Hrun).
Qed.

(** ** [freevm] *)

Lemma kfree_table s l t P :
  kmem_inv s l → kmem_ready s → valid_page t → t ∉ l → (P t : Prop) →
  ∃ s', kfree t s = Done tt s' ∧ kmem_inv s' (t :: l) ∧ kmem_ready s' ∧ vm_step s s' ∧
    same_but P (k_mem s) (k_mem s').
Proof.
  intros Hi Hr Hv Hn HP. destruct (kfree_spec t s l Hi Hr Hv Hn) as (Hk & Hi' & Hr').
  exists (kfreed t s). split_and!; [done | done | done | apply vm_step_kfreed |].
  intros a Ha. unfold kfreed. rewrite locksync_mem. apply kfree_page_outside. specialize (Ha t HP). lia.
Qed.

Section freevm.
Context (m0 : mem) (d : Z) (T : gmap Z Z) (Hpt : pt_ok m0 d T).

Lemma freevm_loop_spec n : ∀ s l i,
  i + Z.of_nat n = 1024 → 0 ≤ i → kmem_inv s l → kmem_ready s →
  (∀ a, d ≤ a < d + PGSIZE → load8 (k_mem s) a = load8 m0 a) →
  (∀ j t, i ≤ j → T !! j = Some t → t ∉ l) →
  ∃ s' l', freevm_loop n d i s = Done tt s' ∧ kmem_inv s' l' ∧ kmem_ready s' ∧ vm_step s s' ∧
    (∀ p, p ∈ l' ↔ p ∈ l ∨ ∃ j, i ≤ j ∧ T !! j = Some p) ∧
    same_but (λ p, ∃ j, T !! j = Some p) (k_mem s) (k_mem s').
Proof.
  induction n as [| n IH]; intros s l i Hn Hi0 Hi Hr Hd Hap; cbn [freevm_loop].
  - exists s, l. split_and!; [done | done | done | apply vm_step_refl | | apply same_but_refl].
    intros p. split; [by left |]. intros [? | (j & Hj & Ht)]; [done |].
    destruct (pt_page _ _ _ Hpt _ _ Ht). lia.
  - unfold ld32. rewrite bind_gets. pose proof (slot_in_page d i ltac:(lia)).
    assert (He : load32 (k_mem s) (d + 4 * i) = load32 m0 (d + 4 * i))
      by (apply load32_ext; intros k Hk; apply Hd; lia).
    rewrite He. pose proof (pt_pde _ _ _ Hpt i ltac:(lia)) as Hpde. cbv zeta in Hpde.
    destruct (T !! i) as [t |] eqn:Ht.
    + destruct Hpde as [Hp Ha]. rewrite (proj2 (Z.eqb_neq _ _) Hp). cbn [negb mwhen]. rewrite Ha.
      destruct (pt_page _ _ _ Hpt i t Ht) as (_ & Hv & Htd).
      destruct (kfree_table s l t (λ p, ∃ j, T !! j = Some p) Hi Hr Hv (Hap i t ltac:(lia) Ht))
        as (s1 & Hk & Hi1 & Hr1 & Hst1 & Hm1); [by exists i |].
      rewrite (bind_done _ _ _ _ _ Hk).
      destruct (IH s1 (t :: l) (i + 1)) as (s2 & l2 & Hrun & Hi2 & Hr2 & Hst2 & Hl2 & Hm2); try done.
      * lia.
      * lia.
      * intros a Ha'. rewrite <- (Hd a Ha'). apply Hm1. intros p (j & Hj) Hin.
        destruct (pt_page _ _ _ Hpt _ _ Hj) as (_ & (_ & Hpa & _) & Hpd).
        pose proof (pt_dir _ _ _ Hpt) as (_ & Hda & _).
        destruct (pages_apart p d Hpa Hda Hpd); lia.
      * intros j u Hj Hu. apply not_elem_of_cons. split; [| apply (Hap j); [lia | done]].
        intros ->. pose proof (pt_inj _ _ _ Hpt _ _ _ Ht Hu). lia.
      * exists s2, l2. split_and!; try done.
        -- by apply (vm_step_trans _ s1).
        -- intros p. rewrite Hl2, elem_of_cons. split.
           ++ intros [[-> | ?] | (j & Hj & Hp')]; [right; exists i; split; [lia | done] | by left |].
              right. exists j. split; [lia | done].
           ++ intros [? | (j & Hj & Hp')]; [by left; right |].
              destruct (decide (j = i)) as [-> | Hne]; [left; left; congruence |].
              right. exists j. split; [lia | done].
        -- by eapply same_but_trans; [| | exact Hm1 | exact Hm2].
    + rewrite Hpde. cbn [negb mwhen Z.eqb]. rewrite bind_ret.
      destruct (IH s l (i + 1)) as (s2 & l2 & Hrun & Hi2 & Hr2 & Hst2 & Hl2 & Hm2); try done.
      * lia.
      * lia.
      * intros j u Hj. apply Hap. lia.
      * exists s2, l2. split_and!; try done. intros p. rewrite Hl2. split.
        -- intros [? | (j & Hj & ?)]; [by left | right]. exists j. split; [lia | done].
        -- intros [? | (j & Hj & Hp')]; [by left | right]. exists j. split; [| done].
           destruct (decide (j = i)); [congruence | lia].
Qed.
End freevm.

Lemma page_in_all m T p : page_in m T (from_to (PGROUNDUP 0) KERNBASE) p ↔ mapped_page m T p.
Proof.
  change (PGROUNDUP 0) with 0. split.
  - intros (x & Hx & _ & Hp & ->). by exists x.
  - intros (x & Hx & Hp & ->). exists x. split; [done |]. split; [| done].
    unfold user_addr, from_to, PGSIZE in *. zlia.
Qed.

Lemma freevm_run s d T l :
  space_ok s d T l →
  ∃ s' l', freevm d s = Done tt s' ∧ kmem_inv s' l' ∧ kmem_ready s' ∧ vm_step s s' ∧
    (∀ p, p ∈ l' ↔ p ∈ l ∨ owns (k_mem s) d T p) ∧
    same_but (owns (k_mem s) d T) (k_mem s) (k_mem s').
Proof.
  intros Hs. pose proof (so_vm _ _ _ _ Hs) as [_ _ Hpt0 _].
  pose proof (pt_dir _ _ _ Hpt0) as Hdv. pose proof (valid_page_pos d Hdv). unfold freevm.
  destruct (Z.eqb_spec d 0); [lia |].
  destruct (deallocuvm_run s d T l KERNBASE 0 Hs) as (s1 & l1 & Hrun1 & [Hs1 Hst1 _ _ Hm1 Hl1]);
    [unfold KERNBASE; lia | lia |].
  rewrite (bind_done _ _ _ _ _ Hrun1). setoid_rewrite page_in_all in Hl1.
  pose proof (so_vm _ _ _ _ Hs1) as [Hi1 Hr1 Hpt1 Hap1].
  destruct (freevm_loop_spec (k_mem s1) d T Hpt1 (Z.to_nat NPDENTRIES) s1 l1 0) as
    (s2 & l2 & Hrun2 & Hi2 & Hr2 & Hst2 & Hl2 & Hm2); try done.
  { intros j t _ Ht. apply Hap1. right. by exists j. }
  rewrite (bind_done _ _ _ _ _ Hrun2).
  destruct (kfree_table s2 l2 d (λ p, p = d) Hi2 Hr2 Hdv) as (s3 & Hrun3 & Hi3 & Hr3 & Hst3 & Hm3);
    [| done |].
  { rewrite Hl2. intros [Hin | (j & _ & Hj)].
    - by apply (Hap1 d); [left |].
    - by destruct (pt_page _ _ _ Hpt1 _ _ Hj) as (_ & _ & []). }
  exists s3, (d :: l2). split_and!; [done | done | done | | |].
  - by apply (vm_step_trans _ s2); [apply (vm_step_trans _ s1) |].
  - intros p. rewrite elem_of_cons, Hl2, Hl1. unfold owns, pt_owns. split.
    + intros [-> | [[? | ?] | (j & _ & Hj)]]; eauto 6.
    + intros [? | [[-> | (j & Hj)] | ?]]; eauto 6.
      right. right. exists j. split; [| done]. destruct (pt_page _ _ _ Hpt1 _ _ Hj). lia.
  - assert (Hm12 : same_but (owns (k_mem s) d T) (k_mem s) (k_mem s2)).
    { eapply same_but_trans; [| | exact Hm1 | exact Hm2]; cbv beta.
      - intros p [? | ?%page_in_all]; [by left | by right].
      - intros p ?. left. by right. }
    eapply same_but_trans; [| | exact Hm12 | exact Hm3]; [done |]. intros p ->. left. by left.
Qed.

(** C26: freeing an address space gives every page of it back: after
    [freevm] the free list holds what it held before and exactly the pages the
    address space consisted of, its directory, its page tables and the pages
    mapped below [KERNBASE]; no other memory is touched and nothing panics. *)
Theorem freevm_spec s d T l :
  space_ok s d T l →
  ∃ s' l', freevm d s = Done tt s' ∧ kmem_inv s' l' ∧ kmem_ready s' ∧ vm_step s s' ∧
    (∀ p, p ∈ l' ↔ p ∈ l ∨ owns (k_mem s) d T p) ∧
    same_but (owns (k_mem s) d T) (k_mem s) (k_mem s').
Proof. apply freevm_run. Qed.

(** ** Taking a page and mapping it *)

(** [pg] is a page nobody has: it was just taken from the allocator. *)
Record held_page (s : kst) (d : Z) (T : gmap Z Z) (l : list Z) (pg : Z) : Prop := {
  hp_valid : valid_page pg;
  hp_free : pg ∉ l;
  hp_space : ¬ owns (k_mem s) d T pg }.

Lemma kmem_inv_frame (P : Z → Prop) s l m' :
  kmem_inv s l → (∀ p, P p → page_aligned p ∧ p ∉ l) → same_but P (k_mem s) m' →
  kmem_inv (s <| k_mem := m' |>) l.
Proof.
  intros [Hl Hnd Hv] HP Hm. split; [| done | done]. cbn.
  apply (free_list_frame (k_mem s)); [done |]. intros a Ha. apply load32_ext. intros k Hk. apply Hm.
  intros p [Hp Hpl]%HP Hin. rewrite Forall_forall in Hv. destruct (Hv a Ha) as (_ & Hal & _).
  destruct (pages_apart a p Hal Hp); [by intros -> | unfold PGSIZE in *; lia | lia].
Qed.

Lemma space_frame (P : Z → Prop) s d T l m' :
  space_ok s d T l → (∀ p, P p → page_aligned p ∧ ¬ pt_owns d T p ∧ p ∉ l) →
  same_but P (k_mem s) m' →
  space_ok (s <| k_mem := m' |>) d T l ∧ ∀ x, pte_of m' T x = pte_of (k_mem s) T x.
Proof.
  intros [[Hi Hr Hpt Hap] Hpg Hinj] HP Hm.
  destruct (pt_frame P (k_mem s) m' d T Hpt) as [Hpt' Hpte]; [| done |].
  { intros p Hp. destruct (HP p Hp) as (? & ? & _). done. }
  split; [| done]. split; [split | |]; cbn.
  - apply (kmem_inv_frame P); [done | | done]. intros p Hp. destruct (HP p Hp) as (? & _ & ?). done.
  - exact Hr.
  - done.
  - done.
  - intros p (x & Hx & Hp & ->). rewrite Hpte in Hp |- *. apply Hpg. by exists x.
  - intros x y Hx Hy. rewrite !Hpte. by apply Hinj.
Qed.

(** Changes of the state beside the memory. *)
Lemma space_step s s' d T l l' :
  space_ok s d T l → k_mem s' = k_mem s → kmem_inv s' l' → kmem_ready s' →
  (∀ p, p ∈ l' → p ∈ l) → space_ok s' d T l'.
Proof.
  intros [[Hi Hr Hpt Hap] Hpg Hinj] Hm Hi' Hr' Hl. split; [split | |]; rewrite ?Hm; try done.
  - intros p Hp Hin. by apply (Hap p Hp), Hl.
  - intros p Hp. destruct (Hpg p Hp) as (? & ? & ?). split_and!; [done | done |]. auto.
Qed.

Lemma take_page s d T l :
  space_ok s d T l →
  ∃ s', kalloc s = Done (hd 0 l) s' ∧ space_ok s' d T (tl l) ∧ vm_step s s' ∧ k_mem s' = k_mem s ∧
    match l with [] => True | pg :: l => held_page s' d T l pg end.
Proof.
  intros Hs. pose proof (so_vm _ _ _ _ Hs) as [Hi Hr Hpt Hap].
  destruct (kalloc_frame s l Hi Hr) as (c & km & Hk & Hi1 & Hc & Hul).
  set (s1 := s <| k_cpu := c |> <| k_kmem := km |>) in *.
  assert (Hr1 : kmem_ready s1).
  { destruct Hr as [Hc0 Hl0]. split; [| done]. destruct Hc as [-> | ->]; [done | by apply sync_cpu_ok]. }
  exists s1. split_and!; [done | | | done |].
  - apply (space_step s s1 d T l); [done | done | done | done |]. destruct l; [done | by right].
  - split; [| exact Hc]. exists c, km, (k_mem s). unfold s1. kst_eq; reflexivity.
  - destruct l as [| pg l]; [done |]. split.
    + by destruct Hi as [_ _ [? _]%Forall_cons_1].
    + by destruct Hi as [_ [? _]%NoDup_cons _].
    + intros [Ho | Ho]; [by apply (Hap pg Ho); left |].
      destruct (so_page _ _ _ _ Hs pg Ho) as (_ & _ & []). left.
Qed.

Lemma page_of_entry pg perm :
  valid_page pg → 0 ≤ perm < PGSIZE →
  page_of (entry (V2P pg) perm) = pg ∧ present (entry (V2P pg) perm) = true.
Proof.
  intros Hv Hp. destruct (valid_page_mapped pg Hv) as (Hu & Hal & Hpv & Hm).
  destruct (entry_addr (V2P pg) perm Hal Hu Hp Hm) as [Ha _]. unfold page_of, present.
  rewrite Ha. split; [done |]. apply negb_true_iff, Z.eqb_neq. by apply entry_present.
Qed.

Lemma map_page s d T l a pg perm :
  vm_ok s d T l → user_addr a → page_aligned a → valid_page pg → 0 ≤ perm < PGSIZE →
  present (pte_of (k_mem s) T a) = false →
  ∃ r s' T' l', mappages d a PGSIZE (V2P pg) perm s = Done r s' ∧ vm_ok s' d T' l' ∧
    vm_step s s' ∧ grown d T l T' l' ∧ same_but (pt_owns d T') (k_mem s) (k_mem s') ∧
    (r = 0 ∧ (∀ x, is_u32 x → pte_of (k_mem s') T' x =
       if decide (a ≤ x < a + PGSIZE) then entry (V2P pg) perm else pte_of (k_mem s) T x) ∨
     r = -1 ∧ l' = [] ∧ ∀ x, pte_of (k_mem s') T' x = pte_of (k_mem s) T x).
Proof.
  intros Hvm Ha Hal Hv Hperm Hpr. destruct (valid_page_mapped pg Hv) as (Hu & Hpa & _ & Hm).
  unfold mappages. unfold user_addr, KERNBASE, page_aligned in *.
  assert (Hd : PGROUNDDOWN a = a)
    by (rewrite PGROUNDDOWN_spec, u32_id by (unfold is_u32; lia); unfold PGSIZE in *; zlia).
  assert (Hl : PGROUNDDOWN (u32 (u32 (a + PGSIZE) - 1)) = a).
  { change PGSIZE with 4096 in *. rewrite (u32_id (a + 4096)), u32_id by (unfold is_u32; lia).
    rewrite PGROUNDDOWN_spec, u32_id by (unfold is_u32; lia). unfold PGSIZE. zlia. }
  rewrite Hd, Hl, Z.sub_diag. change (S (Z.to_nat (u32 0 / PGSIZE))) with 1%nat. cbn [mappages_loop].
  destruct (map_one s d T l a (V2P pg) perm (if a =? a then mret 0 else fault "mappages: out of fuel")
    Hvm Hal Hpa) as (s1 & T1 & l1 & Hvm1 & Hst1 & Hg1 & Hm1 & Hr); try done.
  - unfold is_u32. lia.
  - unfold present in Hpr. by apply negb_false_iff, Z.eqb_eq in Hpr.
  - cbv zeta in Hr. destruct Hr as [(Hrun & -> & Hpte) | (Hrun & Hpte)]; rewrite Hrun.
    + exists (-1), s1, T1, []. split_and!; try done. by right.
    + rewrite Z.eqb_refl. exists 0, s1, T1, l1. split_and!; try done. by left.
Qed.

Lemma map_held s d T l a pg perm :
  space_ok s d T l → held_page s d T l pg → user_addr a → page_aligned a → 0 ≤ perm < PGSIZE →
  present (pte_of (k_mem s) T a) = false →
  ∃ r s' T' l', mappages d a PGSIZE (V2P pg) perm s = Done r s' ∧ space_ok s' d T' l' ∧
    vm_step s s' ∧ grown d T l T' l' ∧ same_but (pt_owns d T') (k_mem s) (k_mem s') ∧
    (r = 0 ∧ (∀ x, is_u32 x → pte_of (k_mem s') T' x =
       if decide (a ≤ x < a + PGSIZE) then entry (V2P pg) perm else pte_of (k_mem s) T x) ∨
     r = -1 ∧ l' = [] ∧ held_page s' d T' l' pg ∧
       ∀ x, pte_of (k_mem s') T' x = pte_of (k_mem s) T x).
Proof.
  intros Hs [Hv Hf Ho] Ha Hal Hperm Hpr.
  destruct (map_page s d T l a pg perm (so_vm _ _ _ _ Hs) Ha Hal Hv Hperm Hpr) as
    (r & s' & T' & l' & Hrun & Hvm & Hst & Hg & Hm & Hr).
  exists r, s', T', l'.
  assert (Hold : ∀ p, p ∉ l → ¬ pt_owns d T p → ¬ pt_owns d T' p ∧ p ∉ l').
  { intros p Hp Hnp. pose proof (gr_pages _ _ _ _ _ Hg p). tauto. }
  destruct (Hold pg Hf) as [Ho' Hf']; [intros ?; apply Ho; by left |].
  destruct (page_of_entry pg perm Hv Hperm) as [Hpe Hpp].
  assert (Hso : (∀ x, is_u32 x → pte_of (k_mem s') T' x = pte_of (k_mem s) T x ∨
      a ≤ x < a + PGSIZE ∧ pte_of (k_mem s') T' x = entry (V2P pg) perm) → space_ok s' d T' l').
  { intros Hpte. split; [done | |].
    - intros p (x & Hx & Hp & ->). destruct (Hpte x (user_addr_u32 x Hx)) as [Heq | [_ Heq]];
        rewrite Heq in Hp |- *.
      + destruct (so_page _ _ _ _ Hs (page_of (pte_of (k_mem s) T x))) as (? & Hn1 & Hn2); [by exists x |].
        destruct (Hold _ Hn2 Hn1). done.
      + by rewrite Hpe.
    - assert (Hfresh : ∀ x, user_addr x → present (pte_of (k_mem s) T x) = true →
        page_of (pte_of (k_mem s) T x) ≠ pg).
      { intros x Hx Hp <-. apply Ho. right. by exists x. }
      intros x y Hx Hy Hxp Hyp.
      destruct (Hpte x (user_addr_u32 x Hx)) as [Hxe | [Hxa Hxe]],
        (Hpte y (user_addr_u32 y Hy)) as [Hye | [Hya Hye]];
        rewrite Hxe in Hxp |- *; rewrite Hye in Hyp |- *; rewrite ?Hpe.
      + by apply (so_inj _ _ _ _ Hs).
      + intros Heq. by destruct (Hfresh x Hx Hxp).
      + intros Heq. by destruct (Hfresh y Hy Hyp).
      + intros _. unfold page_aligned, PGSIZE in *. zlia. }
  destruct Hr as [[-> Hpte] | (-> & -> & Hpte)].
  - split_and!; try done; [| by left]. apply Hso. intros x Hx. rewrite Hpte by done.
    case_decide; auto.
  - split_and!; try done; [apply Hso; auto |]. right. split_and!; try done. split; [done | done |].
    intros [? | (x & Hx & Hp & Heq)]; [done |]. rewrite Hpte in Hp, Heq. apply Ho. right. by exists x.
Qed.

(** ** Growing an address space

    [grew d R perm V X s T l s' T' l']: the addresses in [R] got pages of their
    own, mapped with the permissions [perm] and holding the bytes [V]; the pages
    [X] were taken too, nobody's yet; everything else is as it was. *)
Record grew (d : Z) (R : Z → Prop) (perm V : Z → Z) (X : list Z)
    (s : kst) (T : gmap Z Z) (l : list Z) (s' : kst) (T' : gmap Z Z) (l' : list Z) : Prop := {
  gw_ok : space_ok s' d T' l';
  gw_step : vm_step s s';
  gw_pages : ∀ p, (p ∈ l' ∨ p ∈ X) ∨ owns (k_mem s') d T' p ↔ p ∈ l ∨ owns (k_mem s) d T p;
  gw_tables : ∀ p, p ∈ l' ∨ pt_owns d T' p → p ∈ l ∨ pt_owns d T p;
  gw_mem : same_but (λ p, p ∈ l ∨ pt_owns d T p) (k_mem s) (k_mem s');
  gw_pte : ∀ x, is_u32 x →
    R x ∧ (∃ pg, valid_page pg ∧ pte_of (k_mem s') T' x = entry (V2P pg) (perm x)) ∧
      load8 (k_mem s') (phys (k_mem s') T' x) = V x ∨
    ¬ R x ∧ pte_of (k_mem s') T' x = pte_of (k_mem s) T x }.

(** The byte at a mapped address is in a page that is neither free nor a table. *)
Lemma mapped_page_kept (P : Z → Prop) s d T l m' x :
  space_ok s d T l → user_addr x → present (pte_of (k_mem s) T x) = true →
  (∀ p, P p → page_aligned p ∧ (p ∈ l ∨ pt_owns d T p)) → same_but P (k_mem s) m' →
  load8 m' (phys (k_mem s) T x) = load8 (k_mem s) (phys (k_mem s) T x).
Proof.
  intros Hs Hx Hp HP Hm. apply Hm. intros q [Hq Hin]%HP Hr.
  destruct (so_page _ _ _ _ Hs (page_of (pte_of (k_mem s) T x))) as ((_ & Hal & _) & Hn1 & Hn2); [by exists x |].
  unfold phys in Hr.
  assert (q = page_of (pte_of (k_mem s) T x)) as ->; [| by destruct Hin].
  unfold page_aligned, PGSIZE in *. zlia.
Qed.

Lemma grew_pages_aligned s d T l p :
  space_ok s d T l → p ∈ l ∨ pt_owns d T p → page_aligned p.
Proof.
  intros [[[_ _ Hv] _ Hpt _] _ _] [Hp | [-> | [i Hi]]].
  - rewrite Forall_forall in Hv. by destruct (Hv p Hp) as (_ & ? & _).
  - by destruct (pt_dir _ _ _ Hpt) as (_ & ? & _).
  - by destruct (pt_page _ _ _ Hpt _ _ Hi) as (_ & (_ & ? & _) & _).
Qed.

Lemma grew_kept d R perm V X s T l s' T' l' x :
  space_ok s d T l → grew d R perm V X s T l s' T' l' → user_addr x → ¬ R x →
  present (pte_of (k_mem s) T x) = true →
  pte_of (k_mem s') T' x = pte_of (k_mem s) T x ∧
  load8 (k_mem s') (phys (k_mem s') T' x) = load8 (k_mem s) (phys (k_mem s) T x).
Proof.
  intros Hs [_ _ _ _ Hm Hpte] Hx HR Hp.
  destruct (Hpte x (user_addr_u32 x Hx)) as [[? _] | [_ Heq]]; [done |]. split; [done |].
  unfold phys at 1. rewrite Heq.
  apply (mapped_page_kept (λ p, p ∈ l ∨ pt_owns d T p) s d T l); try done.
  intros p Hin. split; [by apply (grew_pages_aligned s d T l) | done].
Qed.

Lemma grew_refl d (R : Z → Prop) perm V s T l : (∀ x, ¬ R x) → space_ok s d T l →
  grew d R perm V [] s T l s T l.
Proof.
  intros HR Hs. split; [done | apply vm_step_refl | | done | apply same_but_refl | by right].
  intros p. split; [intros [[? | ?%elem_of_nil] | ?]; tauto | tauto].
Qed.

Lemma grew_trans d (R1 R2 R : Z → Prop) perm V X s T l s1 T1 l1 s2 T2 l2 :
  space_ok s d T l → (∀ x, R1 x → user_addr x) → (∀ x, R1 x → ¬ R2 x) → (∀ x, R x ↔ R1 x ∨ R2 x) →
  (∀ x, 0 ≤ perm x < PGSIZE) →
  grew d R1 perm V [] s T l s1 T1 l1 → grew d R2 perm V X s1 T1 l1 s2 T2 l2 →
  grew d R perm V X s T l s2 T2 l2.
Proof.
  intros Hs Hu Hdisj HR Hperm [H1 Hst1 Hp1 Ht1 Hm1 Hpte1] G2. pose proof G2 as [H2 Hst2 Hp2 Ht2 Hm2 Hpte2].
  assert (Hp1' : ∀ p, p ∈ l1 ∨ owns (k_mem s1) d T1 p ↔ p ∈ l ∨ owns (k_mem s) d T p).
  { intros p. rewrite <- Hp1. split; [tauto | intros [[? | ?%elem_of_nil] | ?]; tauto]. }
  split.
  - done.
  - by apply (vm_step_trans _ s1).
  - intros p. by rewrite Hp2, Hp1'.
  - auto.
  - intros a Ha. rewrite Hm2; [by apply Hm1 |]. intros p Hp Hin. apply (Ha p); auto.
  - intros x Hx. destruct (Hpte2 x Hx) as [(HR2 & Hpg & HV) | [HR2 Heq]].
    + left. split_and!; [apply HR; by right | done | done].
    + destruct (Hpte1 x Hx) as [(HR1 & Hpg & HV) | [HR1 Heq1]].
      * left. destruct Hpg as (pg & Hv & Hpg).
        destruct (page_of_entry pg (perm x) Hv (Hperm x)) as [_ Hpp].
        destruct (grew_kept d R2 perm V X s1 T1 l1 s2 T2 l2 x H1 G2) as [Heq' Hb];
          [auto | done | by rewrite Hpg |].
        rewrite Hb, Heq'. split_and!; [apply HR; by left | by exists pg | done].
      * right. rewrite Heq, Heq1, HR. tauto.
Qed.

(** With no page left, what was free is in tables, in new pages or held: so it
    was not much. *)
Lemma grew_used d a b perm V X s0 T0 l0 s T :
  space_ok s0 d T0 l0 → page_aligned a → page_aligned b → a ≤ b →
  grew d (λ x, a ≤ x < b) perm V X s0 T0 l0 s T [] →
  at_most (1025 + Z.of_nat (length X) + (b - a) / PGSIZE) (λ p, p ∈ l0 ∨ pt_owns d T0 p).
Proof.
  intros Hs0 Ha Hb Hab [Hs _ Hp _ _ Hpte]. pose proof (so_vm _ _ _ _ Hs) as [_ _ Hpt _].
  apply (at_most_mono (1025 + Z.of_nat (length X) + (b - a) / PGSIZE) _
    (λ p, (pt_owns d T p ∨ p ∈ X) ∨ page_in (k_mem s) T (λ x, a ≤ x < b) p)); [done | |
    apply at_most_or; [apply at_most_or; [by eapply pt_owns_at_most | by exists X] | by apply page_in_at_most]].
  intros p Hin. destruct (proj2 (Hp p)) as [[?%elem_of_nil | ?] | [? | (x & Hx & Hxp & ->)]];
    [unfold owns; tauto | done | auto ..].
  destruct (Hpte x (user_addr_u32 x Hx)) as [(HR & _) | [_ Heq]]; [right; by exists x |].
  rewrite Heq in *. destruct (so_page _ _ _ _ Hs0 (page_of (pte_of (k_mem s0) T0 x))) as (_ & Hn1 & Hn2);
    [by exists x | by destruct Hin].
Qed.
Lemma grew_short d a b perm V X s0 T0 l0 s T :
  space_ok s0 d T0 l0 → page_aligned a → page_aligned b → a ≤ b →
  grew d (λ x, a ≤ x < b) perm V X s0 T0 l0 s T [] →
  Z.of_nat (length l0) ≤ 1025 + Z.of_nat (length X) + (b - a) / PGSIZE.
Proof.
  intros Hs0 Ha Hb Hab G.
  apply at_most_length; [apply (vo_kmem _ _ _ _ (so_vm _ _ _ _ Hs0)) |].
  eapply at_most_mono; [reflexivity | | exact (grew_used _ _ _ _ _ _ _ _ _ _ _ Hs0 Ha Hb Hab G)]. by left.
Qed.

(** One page: taken from the allocator, filled, and mapped at [a]. *)
Lemma grow_one s d T l a perm (fill : Z → mem → mem) (V : Z → Z) (permf : Z → Z) pg l1 :
  space_ok s d T l → l = pg :: l1 → user_addr a → page_aligned a → 0 ≤ perm < PGSIZE →
  present (pte_of (k_mem s) T a) = false → (∀ x, a ≤ x < a + PGSIZE → permf x = perm) →
  (∀ m, same_but (λ p, p = pg) m (fill pg m)) →
  (∀ i, 0 ≤ i < PGSIZE → load8 (fill pg (k_mem s)) (pg + i) = V (a + i)) →
  ∃ s1 r s' T' l', kalloc s = Done pg s1 ∧
    mappages d a PGSIZE (V2P pg) perm (s1 <| k_mem ::= fill pg |>) = Done r s' ∧ pg ≠ 0 ∧
    (r = 0 ∧ grew d (λ x, a ≤ x < a + PGSIZE) permf V [] s T l s' T' l' ∨
     r = -1 ∧ grew d (λ _, False) permf V [pg] s T l s' T' l' ∧ held_page s' d T' l' pg ∧ l' = []).
Proof.
  intros Hs -> Ha Hal Hperm Hpr Hpf Hfill HV.
  destruct (take_page s d T (pg :: l1) Hs) as (s1 & Hk & Hs1 & Hst1 & Hm1 & Hh1). cbn [hd tl] in *.
  destruct (space_frame (λ p, p = pg) s1 d T l1 (fill pg (k_mem s1)) Hs1) as [Hs2 Hpte2];
    [| apply Hfill |].
  { intros p ->. split; [| split]; [apply Hh1 | | apply Hh1]. intros ?. apply (hp_space _ _ _ _ _ Hh1).
    by left. }
  set (s2 := s1 <| k_mem := fill pg (k_mem s1) |>) in *.
  assert (Hh2 : held_page s2 d T l1 pg).
  { destruct Hh1 as [Hv Hf Ho]. split; [done | done |]. intros [? | (x & Hx & Hp & Heq)].
    - apply Ho. by left.
    - change (k_mem s2) with (fill pg (k_mem s1)) in Hp, Heq. rewrite Hpte2 in Hp, Heq.
      apply Ho. right. by exists x. }
  destruct (map_held s2 d T l1 a pg perm Hs2 Hh2 Ha Hal Hperm) as
    (r & s3 & T3 & l3 & Hrun & Hs3 & Hst3 & Hg & Hm3 & Hr).
  { change (k_mem s2) with (fill pg (k_mem s1)). by rewrite Hpte2, Hm1. }
  exists s1, r, s3, T3, l3. split; [done |]. split; [exact Hrun |].
  pose proof (valid_page_pos pg (hp_valid _ _ _ _ _ Hh1)). split; [lia |].
  assert (Hpt3 : ∀ x, is_u32 x → a ≤ x < a + PGSIZE ∧ r = 0 ∧ pte_of (k_mem s3) T3 x = entry (V2P pg) perm ∨
    ¬ (a ≤ x < a + PGSIZE ∧ r = 0) ∧ pte_of (k_mem s3) T3 x = pte_of (k_mem s) T x).
  { intros x Hx. change (k_mem s2) with (fill pg (k_mem s1)) in Hr. destruct Hr as [[-> Hr] | (-> & _ & _ & Hr)].
    - rewrite (Hr x Hx), Hpte2, Hm1. case_decide; [by left | right]. tauto.
    - right. rewrite Hr, Hpte2, Hm1. split; [lia | done]. }
  destruct (page_of_entry pg perm (hp_valid _ _ _ _ _ Hh1) Hperm) as [Hpe Hpp].
  assert (Hmap : ∀ p, mapped_page (k_mem s3) T3 p ↔ r = 0 ∧ p = pg ∨ mapped_page (k_mem s) T p).
  { intros p. split.
    - intros (x & Hx & Hp & ->). destruct (Hpt3 x (user_addr_u32 x Hx)) as [(_ & ? & Heq) | [_ Heq]];
        rewrite Heq in Hp |- *; [left; by rewrite Hpe | right; by exists x].
    - intros [[H0 ->] | (x & Hx & Hp & ->)].
      + exists a. destruct (Hpt3 a (user_addr_u32 a Ha)) as [(_ & _ & Heq) | [Hn _]].
        * by rewrite Heq, Hpe.
        * destruct Hn. unfold PGSIZE. lia.
      + destruct (Hpt3 x (user_addr_u32 x Hx)) as [(Hin & _) | [_ Heq]]; [| exists x; by rewrite Heq].
        rewrite (pte_of_page _ T x a) in Hp; [congruence | by apply user_addr_u32 .. |].
        unfold page_aligned, PGSIZE in *. zlia. }
  assert (Htab : ∀ p, p ∈ l3 ∨ pt_owns d T3 p ↔ p ∈ l1 ∨ pt_owns d T p) by apply Hg.
  assert (Hstep : vm_step s s3).
  { apply (vm_step_trans _ s2); [| done]. apply (vm_step_trans _ s1); [done |]. split; [| by left].
    eexists (k_cpu s1), (k_kmem s1), _. unfold s2. kst_eq; reflexivity. }
  assert (Hmem : same_but (λ p, p ∈ pg :: l1 ∨ pt_owns d T p) (k_mem s) (k_mem s3)).
  { rewrite <- Hm1. eapply same_but_trans; [| | apply Hfill | exact Hm3]; cbv beta.
    - intros p ->. left. by left.
    - intros p Hp. destruct (proj1 (Htab p)); [by right | left; by right | by right]. }
  assert (Htl : ∀ p, p ∈ l3 ∨ pt_owns d T3 p → p ∈ pg :: l1 ∨ pt_owns d T p).
  { intros p [? | ?]%Htab; [left; by right | by right]. }
  assert (Hpgs : ∀ p, (p ∈ l3 ∨ p = pg) ∨ owns (k_mem s3) d T3 p ↔ p ∈ pg :: l1 ∨ owns (k_mem s) d T p).
  { intros p. unfold owns. rewrite Hmap, elem_of_cons. specialize (Htab p). tauto. }
  assert (r = 0 ∨ r = -1 ∧ held_page s3 d T3 l3 pg ∧ l3 = []) as [-> | (-> & Hh3 & Hl3)]
    by (destruct Hr as [[-> _] | (-> & ? & ? & _)]; auto).
  - left. split; [done |]. split; [done | done | | done | done |].
    + intros p. rewrite <- Hpgs. unfold owns. rewrite Hmap.
      split; [intros [[? | ?%elem_of_nil] | ?]; tauto | tauto].
    + intros x Hx. destruct (Hpt3 x Hx) as [(Hin & _ & Heq) | [Hn Heq]]; [left | right; tauto].
      split; [done |]. split; [exists pg; rewrite Hpf by done; split; [apply Hh1 | done] |].
      unfold phys. rewrite Heq, Hpe. rewrite Hm3.
      * change (k_mem s2) with (fill pg (k_mem s1)).
        replace (x mod PGSIZE) with (x - a) by (unfold page_aligned, PGSIZE in *; zlia).
        rewrite Hm1, HV by lia. f_equal. lia.
      * intros q Hq Hin'. destruct (so_page _ _ _ _ Hs3 pg) as (Hv & Hno & _); [apply Hmap; by left |].
        apply Hno. assert (q = pg) as <-; [| done].
        pose proof (grew_pages_aligned s3 d T3 l3 q Hs3 ltac:(by right)).
        destruct Hv as (_ & Hva & _). unfold page_aligned, PGSIZE in *. zlia.
  - right. split; [done |]. split; [| done]. split; [done | done | | done | done |].
    + intros p. rewrite <- Hpgs, list_elem_of_singleton. done.
    + intros x Hx. destruct (Hpt3 x Hx) as [(_ & ? & _) | [_ Heq]]; [lia | by right; split; [intros [] |]].
Qed.

(** ** Undoing growth

    [restored d X s T l s' T' l']: the mapping and the contents are what they
    were; page tables may have been added.  The pages [X] are nobody's. *)
Record restored (d : Z) (X : list Z) (s : kst) (T : gmap Z Z) (l : list Z)
    (s' : kst) (T' : gmap Z Z) (l' : list Z) : Prop := {
  rs_ok : space_ok s' d T' l';
  rs_step : vm_step (s <| k_out := k_out s' |>) s';
  rs_pages : ∀ p, (p ∈ l' ∨ p ∈ X) ∨ owns (k_mem s') d T' p ↔ p ∈ l ∨ owns (k_mem s) d T p;
  rs_pte : ∀ x, user_addr x → present (pte_of (k_mem s') T' x) = present (pte_of (k_mem s) T x);
  rs_kept : ∀ x, user_addr x → present (pte_of (k_mem s) T x) = true →
    pte_of (k_mem s') T' x = pte_of (k_mem s) T x ∧
    load8 (k_mem s') (phys (k_mem s') T' x) = load8 (k_mem s) (phys (k_mem s) T x) }.

Lemma vm_step_out s s' o s'' :
  vm_step s s' → vm_step (s' <| k_out := o |>) s'' → k_out s'' = o ∧ vm_step (s <| k_out := o |>) s''.
Proof.
  intros [(c & km & m & ->) H1] [(c' & km' & m' & ->) H2]. cbn in *. split; [done |]. split.
  - by exists c', km', m'.
  - cbn. destruct H1 as [-> | ->], H2 as [-> | ->]; auto. right. by rewrite sync_cpu_idem.
Qed.

Lemma space_out s d T l o : space_ok s d T l → space_ok (s <| k_out := o |>) d T l.
Proof.
  intros Hs. pose proof (so_vm _ _ _ _ Hs) as [[? ? ?] Hr _ _].
  apply (space_step s _ d T l l); [done | done | by split | done | done].
Qed.

(** The set consists of whole pages. *)
Definition page_closed (R : Z → Prop) : Prop := ∀ x y, x / PGSIZE = y / PGSIZE → R x → R y.
Lemma from_to_closed a oldsz : page_aligned a → page_closed (from_to a oldsz).
Proof. unfold page_closed, from_to, page_aligned, PGSIZE. intros. split; zlia. Qed.

Lemma unmapped_kept d T R s l s' l' x :
  space_ok s d T l → unmapped d T R s l s' l' → page_closed R → user_addr x → ¬ R x →
  present (pte_of (k_mem s) T x) = true →
  pte_of (k_mem s') T x = pte_of (k_mem s) T x ∧
  load8 (k_mem s') (phys (k_mem s') T x) = load8 (k_mem s) (phys (k_mem s) T x).
Proof.
  intros Hs [_ _ _ Hpte Hm _] HRc Hx HR Hp.
  destruct (Hpte x (user_addr_u32 x Hx)) as [[? _] | [_ Heq]]; [done |]. split; [done |].
  unfold phys. rewrite Heq. apply Hm. intros q Hq Hin.
  destruct (so_page _ _ _ _ Hs (page_of (pte_of (k_mem s) T x))) as ((_ & Hal & _) & Hno & _); [by exists x |].
  assert (page_aligned q) as Hqa.
  { destruct Hq as [? | (y & Hy & _ & Hyp & ->)]; [by apply (grew_pages_aligned s d T l); auto |].
    by destruct (so_page _ _ _ _ Hs (page_of (pte_of (k_mem s) T y))) as ((_ & ? & _) & _); [exists y |]. }
  assert (q = page_of (pte_of (k_mem s) T x)) as Hqe by (unfold page_aligned, PGSIZE in *; zlia).
  destruct Hq as [? | (y & Hy & HRy & Hyp & Hye)]; [by subst q |].
  apply HR, (HRc y); [| done]. apply (so_inj _ _ _ _ Hs); congruence.
Qed.

Lemma unmapped_pages d T R s l s' l' p :
  page_closed R → space_ok s d T l → unmapped d T R s l s' l' →
  p ∈ l' ∨ owns (k_mem s') d T p ↔ p ∈ l ∨ owns (k_mem s) d T p.
Proof.
  intros HRc Hs [_ _ _ Hpte _ Hl]. rewrite Hl. unfold owns. split.
  - intros [[? | (x & Hx & _ & Hp & ->)] | [? | (x & Hx & Hp & ->)]]; auto.
    + right. right. by exists x.
    + destruct (Hpte x (user_addr_u32 x Hx)) as [[_ ?] | [_ Heq]]; [congruence |].
      rewrite Heq in Hp |- *. right. right. by exists x.
  - intros [? | [? | (x & Hx & Hp & ->)]]; auto.
    destruct (Hpte x (user_addr_u32 x Hx)) as [[HR _] | [_ Heq]].
    + left. right. by exists x.
    + right. right. exists x. by rewrite Heq.
Qed.

Lemma undo_growth d R R' perm V X s0 T0 l0 s T l o s' l' :
  space_ok s0 d T0 l0 → grew d R perm V X s0 T0 l0 s T l →
  unmapped d T R' (s <| k_out := o |>) l s' l' →
  page_closed R' → (∀ x, R x → R' x) → (∀ x, R' x → present (pte_of (k_mem s0) T0 x) = false) →
  restored d X s0 T0 l0 s' T l'.
Proof.
  intros Hs0 G Hu HRc Hsub Hnew. pose proof G as [Hs Hst Hp _ _ Hpte].
  pose proof (space_out s d T l o Hs) as Hso. pose proof Hu as [Hs' Hst' _ Hpte' _ _].
  destruct (vm_step_out s0 s o s' Hst Hst') as [Ho Hstep].
  assert (Hsame : ∀ x, user_addr x → ¬ R' x → pte_of (k_mem s') T x = pte_of (k_mem s0) T0 x).
  { intros x Hx HR'. destruct (Hpte' x (user_addr_u32 x Hx)) as [[? _] | [_ ->]]; [done |].
    destruct (Hpte x (user_addr_u32 x Hx)) as [[? _] | [_ Heq]]; [by destruct HR'; auto | done]. }
  split.
  - done.
  - by rewrite Ho.
  - intros p. rewrite <- Hp. pose proof (unmapped_pages d T R' _ l s' l' p HRc Hso Hu) as Hpp.
    change (k_mem (s <| k_out := o |>)) with (k_mem s) in Hpp. tauto.
  - intros x Hx. destruct (Hpte' x (user_addr_u32 x Hx)) as [[HR Hn] | [HR _]].
    + by rewrite Hn, Hnew.
    + by rewrite Hsame.
  - intros x Hx Hpr.
    assert (HR' : ¬ R' x) by (intros HR'; rewrite Hnew in Hpr by done; done).
    destruct (grew_kept d R perm V X s0 T0 l0 s T l x Hs0 G Hx) as [Heq Hb]; [auto | done |].
    destruct (unmapped_kept d T R' _ l s' l' x Hso Hu HRc Hx HR') as [Heq' Hb'];
      change (k_mem (s <| k_out := o |>)) with (k_mem s) in *; [by rewrite Heq |].
    by rewrite Heq', Heq, Hb', Hb.
Qed.

(** Giving back a page that was taken and not used. *)
Lemma free_held s d T l pg :
  space_ok s d T l → held_page s d T l pg →
  ∃ s', kfree pg s = Done tt s' ∧ space_ok s' d T (pg :: l) ∧ vm_step s s' ∧
    same_but (λ p, p = pg) (k_mem s) (k_mem s') ∧ ∀ x, pte_of (k_mem s') T x = pte_of (k_mem s) T x.
Proof.
  intros Hs [Hv Hf Ho]. pose proof (so_vm _ _ _ _ Hs) as [Hi Hr _ _].
  destruct (kfree_spec pg s l Hi Hr Hv Hf) as (Hrun & Hi' & Hr').
  set (s1 := kfreed pg s) in *. exists s1.
  assert (Hm1 : same_but (λ p, p = pg) (k_mem s) (k_mem s1)).
  { intros x Hx. unfold s1, kfreed. rewrite locksync_mem. apply kfree_page_outside.
    specialize (Hx pg eq_refl). lia. }
  destruct (space_frame (λ p, p = pg) s d T l (k_mem s1) Hs) as [Hs2 Hpte]; [| done |].
  { intros p ->. split; [apply Hv | split; [intros ?; apply Ho; by left | done]]. }
  split; [done |]. split; [| split; [apply vm_step_kfreed | by split]].
  destruct Hs2 as [[_ _ Hpt2 Hap2] Hpg2 Hinj2].
  change (k_mem (s <| k_mem := k_mem s1 |>)) with (k_mem s1) in *.
  split; [split | |]; try done.
  - intros p Hpo. apply not_elem_of_cons. split; [intros -> | by apply Hap2].
    apply Ho. by left.
  - intros p Hpo. destruct (Hpg2 p Hpo) as (? & ? & ?). split_and!; [done | done |].
    apply not_elem_of_cons. split; [intros -> | done]. apply Ho. right.
    destruct Hpo as (x & Hx & Hp & Heq). rewrite Hpte in Hp, Heq. by exists x.
Qed.
Lemma mapped_page_ext m T m' T' p :
  (∀ x, user_addr x → pte_of m' T' x = pte_of m T x) → mapped_page m' T' p ↔ mapped_page m T p.
Proof.
  intros H. split; intros (x & Hx & Hp & ->); exists x; rewrite (H x Hx) in *; done.
Qed.
(** No mapped byte is in a page that is held. *)
Lemma held_apart s d T l pg m' x :
  space_ok s d T l → held_page s d T l pg → user_addr x → present (pte_of (k_mem s) T x) = true →
  same_but (λ p, p = pg) (k_mem s) m' →
  load8 m' (phys (k_mem s) T x) = load8 (k_mem s) (phys (k_mem s) T x).
Proof.
  intros Hs [Hv Hf Ho] Hx Hp Hm. apply Hm. intros q -> Hin. apply Ho. right. exists x.
  split; [done |]. split; [done |]. unfold phys in Hin.
  destruct (so_page _ _ _ _ Hs (page_of (pte_of (k_mem s) T x))) as ((_ & Hal & _) & _); [by exists x |].
  destruct Hv as (_ & Hva & _). unfold page_aligned, PGSIZE in *. zlia.
Qed.

Lemma restored_free d pg s0 T0 l0 s T l :
  restored d [pg] s0 T0 l0 s T l → held_page s d T l pg →
  ∃ s', kfree pg s = Done tt s' ∧ restored d [] s0 T0 l0 s' T (pg :: l).
Proof.
  intros [Hs Hst Hp Hpr Hk] Hh. destruct (free_held s d T l pg Hs Hh) as (s1 & Hrun & Hs1 & Hst1 & Hm1 & Hpte).
  exists s1. split; [done |].
  destruct (vm_step_out (s0 <| k_out := k_out s |>) s (k_out s) s1 Hst) as [Ho1 Hst2].
  { replace (s <| k_out := k_out s |>) with s by (destruct s; done). done. }
  split.
  - done.
  - rewrite Ho1. exact Hst2.
  - intros p. rewrite <- Hp. unfold owns.
    rewrite (mapped_page_ext (k_mem s) T (k_mem s1) T) by done.
    rewrite elem_of_cons, list_elem_of_singleton, elem_of_nil. tauto.
  - intros x Hx. by rewrite Hpte, Hpr.
  - intros x Hx Hp0. destruct (Hk x Hx Hp0) as [Heq Hb]. rewrite Hpte. split; [done |].
    rewrite <- Hb. unfold phys. rewrite Hpte. apply (held_apart s d T l pg); [done | done | done | | done].
    by rewrite Heq.
Qed.

Lemma PGROUNDUP_user sz : 0 ≤ sz ≤ KERNBASE → page_aligned (PGROUNDUP sz) ∧ sz ≤ PGROUNDUP sz < sz + PGSIZE.
Proof.
  intros H. rewrite PGROUNDUP_spec. unfold page_aligned, PGSIZE, KERNBASE in *.
  rewrite u32_id by (unfold is_u32; lia). split; zlia.
Qed.

(** ** [allocuvm] *)

Lemma held_unmapped d T R s l s1 s' l' pg :
  held_page s d T l pg → k_mem s1 = k_mem s → unmapped d T R s1 l s' l' → held_page s' d T l' pg.
Proof.
  intros [Hv Hf Ho] Hm1 [_ _ _ Hpte _ Hl]. rewrite Hm1 in *. split; [done | |].
  - rewrite Hl. intros [? | (x & Hx & _ & Hp & ->)]; [done |]. apply Ho. right. by exists x.
  - intros [? | (x & Hx & Hp & ->)]; [apply Ho; by left |].
    destruct (Hpte x (user_addr_u32 x Hx)) as [[_ ?] | [_ Heq]]; [congruence |].
    apply Ho. right. exists x. by rewrite <- Heq.
Qed.
Lemma vm_step_same_out s s' : vm_step s s' → vm_step (s <| k_out := k_out s' |>) s'.
Proof.
  intros H. replace (s <| k_out := k_out s' |>) with s; [done |].
  destruct H as [(c & km & m & ->) _]. by destruct s.
Qed.

Section allocuvm.
Context (s0 : kst) (d : Z) (T0 : gmap Z Z) (l0 : list Z) (oldsz newsz : Z).
Context (Hs0 : space_ok s0 d T0 l0) (Hold : 0 ≤ oldsz) (Hnew : newsz < KERNBASE).
#[local] Abbreviation b := (PGROUNDUP oldsz).
Context (Hfree : ∀ x, user_addr x → from_to b newsz x → present (pte_of (k_mem s0) T0 x) = false).

(** [allocuvm]'s two outcomes. *)
Definition allocated (r : Z) (s' : kst) (T' : gmap Z Z) (l' : list Z) : Prop :=
  r = newsz ∧ grew d (from_to b newsz) (λ _, 6) (λ _, 0) [] s0 T0 l0 s' T' l' ∨
  r = 0 ∧ restored d [] s0 T0 l0 s' T' l' ∧ Z.of_nat (length l0) ≤ 1026 + newsz / PGSIZE.

Lemma allocuvm_fail R X fmt s T l :
  oldsz < newsz → (∀ x, R x → from_to b newsz x) → grew d R (λ _, 6) (λ _, 0) X s0 T0 l0 s T l →
  ∃ s1 s' l', cprintf fmt [] s = Done tt s1 ∧ k_mem s1 = k_mem s ∧ deallocuvm d newsz oldsz s1 = Done oldsz s' ∧
    unmapped d T (from_to b newsz) s1 l s' l' ∧ restored d X s0 T0 l0 s' T l'.
Proof.
  intros Hlt HR G. pose proof (gw_ok _ _ _ _ _ _ _ _ _ _ _ G) as Hs.
  set (s1 := s <| k_out := Cprintf fmt [] :: k_out s |>).
  destruct (deallocuvm_run s1 d T l newsz oldsz) as (s' & l' & Hrun & Hu);
    [by apply space_out | lia | lia |].
  exists s1, s', l'. split; [done |]. split; [done |]. split; [done |]. split; [done |].
  destruct (PGROUNDUP_user oldsz) as [Hal _]; [lia |].
  eapply (undo_growth d R (from_to b newsz)); [done | exact G | exact Hu | | exact HR |].
  - by apply from_to_closed.
  - intros x Hin. apply Hfree; [| done]. unfold from_to, user_addr, PGSIZE, KERNBASE in *.
    destruct (PGROUNDUP_user oldsz) as [_ ?]; [unfold KERNBASE; lia |]. zlia.
Qed.

Lemma allocuvm_loop_spec fuel : ∀ s T l a,
  grew d (λ x, b ≤ x < a) (λ _, 6) (λ _, 0) [] s0 T0 l0 s T l →
  page_aligned a → b ≤ a → (a = b ∨ a < newsz + PGSIZE) → oldsz ≤ newsz →
  (0 < fuel)%nat → newsz ≤ a + PGSIZE * (Z.of_nat fuel - 1) →
  ∃ r s' T' l', allocuvm_loop fuel d oldsz newsz a s = Done r s' ∧ allocated r s' T' l'.
Proof.
  assert (Hb : oldsz ≤ newsz → page_aligned b ∧ oldsz ≤ b)
    by (intros ?; destruct (PGROUNDUP_user oldsz) as [? [? _]]; [lia | done]).
  induction fuel as [| fuel IH]; intros s T l a G Hal Hba Hend Hon Hf Hfuel; [lia |].
  destruct (Hb Hon) as [Hbal Hbo].
  assert (Hin : ∀ x, b ≤ x < a → a < newsz → from_to b newsz x)
    by (intros x Hx Ha; unfold from_to, PGSIZE in *; zlia).
  cbn [allocuvm_loop]. destruct (Z.ltb_spec a newsz) as [Hlt | Hge].
  2: { exists newsz, s, T, l. split; [done |]. left. split; [done |].
       assert (HR : ∀ x, b ≤ x < a ↔ from_to b newsz x)
         by (intros x; unfold from_to, page_aligned, PGSIZE in *; split; zlia).
       destruct G as [? ? ? ? ? Hp]. split; try done. intros x Hx. rewrite <- HR. by apply Hp. }
  pose proof (gw_ok _ _ _ _ _ _ _ _ _ _ _ G) as Hs.
  assert (Hua : user_addr a) by (unfold user_addr, page_aligned in *; lia).
  assert (Hpa : present (pte_of (k_mem s) T a) = false).
  { destruct (gw_pte _ _ _ _ _ _ _ _ _ _ _ G a (user_addr_u32 a Hua)) as [[? _] | [_ ->]]; [lia |].
    apply Hfree; [done |]. unfold from_to, page_aligned, PGSIZE in *. zlia. }
  assert (HR : ∀ R, (∀ x, R x → b ≤ x < a) → ∀ x, R x → from_to b newsz x) by auto.
  assert (Hdis : ∀ x, b ≤ x < a → user_addr x) by (unfold user_addr in *; intros; lia).
  destruct l as [| pg l1].
  - destruct (take_page s d T [] Hs) as (s1 & Hk & Hs1 & Hst1 & Hm1 & _). cbn [hd tl] in *.
    assert (G1 : grew d (λ x, b ≤ x < a) (λ _, 6) (λ _, 0) [] s0 T0 l0 s1 T []).
    { destruct G as [? ? ? ? ? ?]. split; rewrite ?Hm1; try done. by apply (vm_step_trans _ s). }
    rewrite (bind_done _ _ _ _ _ Hk). cbn [Z.eqb].
    destruct (allocuvm_fail (λ x, b ≤ x < a) [] "allocuvm out of memory\n" s1 T []) as
      (s2 & s3 & l3 & Hc & _ & Hd & _ & Hres); [lia | auto | done |].
    rewrite (bind_done _ _ _ _ _ Hc), (bind_done _ _ _ _ _ Hd).
    exists 0, s3, T, l3. split; [done |]. right. split; [done |]. split; [done |].
    pose proof (grew_short _ _ _ _ _ _ _ _ _ _ _ Hs0 Hbal Hal Hba G1) as Hshort. cbn [length] in Hshort.
    unfold page_aligned, PGSIZE in *. zlia.
  - destruct (grow_one s d T (pg :: l1) a 6 (λ mem m, memset m mem 0 PGSIZE) (λ _, 0) (λ _, 6) pg l1)
      as (s1 & r & s2 & T2 & l2 & Hk & Hmap & Hnz & Hr); try done.
    { intros m x Hx. rewrite memset_load8 by (unfold PGSIZE; lia). rewrite decide_False; [done |].
      by apply Hx. }
    { intros i Hi. rewrite memset_load8 by (unfold PGSIZE; lia). by rewrite decide_True by lia. }
    rewrite (bind_done _ _ _ _ _ Hk). destruct (Z.eqb_spec pg 0); [done |].
    rewrite bind_modify. change (Z.lor PTE_W PTE_U) with 6. rewrite (bind_done _ _ _ _ _ Hmap).
    destruct Hr as [[-> G2] | (-> & G2 & Hh & Hl2)].
    + change (0 <? 0) with false. cbv iota. rewrite u32_id by (unfold is_u32, PGSIZE, KERNBASE in *; lia).
      apply (IH s2 T2 l2); [| unfold page_aligned, PGSIZE in *; zlia | unfold PGSIZE; lia |
        right; unfold PGSIZE; lia | done | unfold PGSIZE in *; lia | unfold PGSIZE in *; lia].
      apply (grew_trans d (λ x, b ≤ x < a) (λ x, a ≤ x < a + PGSIZE) _ (λ _, 6) (λ _, 0) []
        s0 T0 l0 s T (pg :: l1) s2 T2 l2); try done.
      * intros; lia.
      * intros x. unfold PGSIZE. lia.
    + change (-1 <? 0) with true. cbv iota.
      assert (G3 : grew d (λ x, b ≤ x < a) (λ _, 6) (λ _, 0) [pg] s0 T0 l0 s2 T2 l2).
      { apply (grew_trans d (λ x, b ≤ x < a) (λ _, False) _ (λ _, 6) (λ _, 0) [pg]
          s0 T0 l0 s T (pg :: l1) s2 T2 l2); try done; [tauto | tauto]. }
      destruct (allocuvm_fail (λ x, b ≤ x < a) [pg] "allocuvm out of memory (2)\n" s2 T2 l2) as
        (s3 & s4 & l4 & Hc & Hm3 & Hd & Hu & Hres); [lia | auto | done |].
      rewrite (bind_done _ _ _ _ _ Hc), (bind_done _ _ _ _ _ Hd).
      destruct (restored_free d pg s0 T0 l0 s4 T2 l4 Hres) as (s5 & Hkf & Hres5).
      { by apply (held_unmapped d T2 (from_to b newsz) s2 l2 s3). }
      rewrite (bind_done _ _ _ _ _ Hkf). exists 0, s5, T2, (pg :: l4). split; [done |]. right.
      split; [done |]. split; [done |]. subst l2.
      pose proof (grew_short _ _ _ _ _ _ _ _ _ _ _ Hs0 Hbal Hal Hba G3) as Hshort. cbn [length] in Hshort.
      unfold page_aligned, PGSIZE in *. zlia.
Qed.
End allocuvm.

(** C27: growing a process.  [allocuvm] refuses sizes that reach the kernel
    (0) and does not shrink.  Otherwise either every address from the old size's
    page boundary up to the new size gets a page of its own, zeroed, which the
    user may read and write, or the result is 0, which only happens when the free
    pages were no more than the new size's and 1026 more; in both
    cases every address that was mapped keeps its page and its content, no page
    is lost, and in the second nothing else is mapped. *)
Theorem allocuvm_spec s d T l oldsz newsz :
  space_ok s d T l → 0 ≤ oldsz →
  (∀ x, user_addr x → from_to (PGROUNDUP oldsz) newsz x → present (pte_of (k_mem s) T x) = false) →
  (KERNBASE ≤ newsz → allocuvm d oldsz newsz s = Done 0 s) ∧
  (newsz < KERNBASE → newsz < oldsz → allocuvm d oldsz newsz s = Done oldsz s) ∧
  (newsz < KERNBASE → oldsz ≤ newsz →
   ∃ r s' T' l', allocuvm d oldsz newsz s = Done r s' ∧ space_ok s' d T' l' ∧
     vm_step (s <| k_out := k_out s' |>) s' ∧
     (∀ p, p ∈ l' ∨ owns (k_mem s') d T' p ↔ p ∈ l ∨ owns (k_mem s) d T p) ∧
     (∀ x, user_addr x → present (pte_of (k_mem s) T x) = true →
        pte_of (k_mem s') T' x = pte_of (k_mem s) T x ∧
        load8 (k_mem s') (phys (k_mem s') T' x) = load8 (k_mem s) (phys (k_mem s) T x)) ∧
     (r = newsz ∧ (∀ x, user_addr x → from_to (PGROUNDUP oldsz) newsz x →
        (∃ pg, valid_page pg ∧ pte_of (k_mem s') T' x = entry (V2P pg) (Z.lor PTE_W PTE_U)) ∧
        load8 (k_mem s') (phys (k_mem s') T' x) = 0) ∨
      r = 0 ∧ Z.of_nat (length l) ≤ 1026 + newsz / PGSIZE ∧ ∀ x, user_addr x →
        present (pte_of (k_mem s') T' x) = present (pte_of (k_mem s) T x))).
Proof.
  intros Hs Hold Hfree. unfold allocuvm. rewrite Z.geb_leb. split_and!.
  - intros H. by rewrite (proj2 (Z.leb_le _ _) H).
  - intros H H'. rewrite (proj2 (Z.leb_gt _ _) H). by rewrite (proj2 (Z.ltb_lt _ _) H').
  - intros H H'. rewrite (proj2 (Z.leb_gt _ _) H), (proj2 (Z.ltb_ge _ _) H').
    destruct (PGROUNDUP_user oldsz) as [Hal Hup]; [lia |].
    set (fuel := S (Z.to_nat ((newsz - PGROUNDUP oldsz) / PGSIZE + 1))).
    destruct (allocuvm_loop_spec s d T l oldsz newsz Hs Hold H Hfree fuel s T l (PGROUNDUP oldsz)) as
      (r & s' & T' & l' & Hrun & Hr);
      [apply grew_refl; [intros; lia | done] | done | lia | by left | done | unfold fuel; lia |
       unfold fuel, PGSIZE in *; zlia |].
    exists r, s', T', l'. split; [exact Hrun |].
    destruct Hr as [[-> G] | (-> & Rs & Hshort)].
    + pose proof G as [? Hst Hp _ _ Hpte]. split; [done |]. split; [by apply vm_step_same_out |]. split; [| split].
      * intros p. rewrite <- Hp, elem_of_nil. tauto.
      * intros x Hx Hpr. eapply grew_kept; [done | exact G | done | | done].
        intros Hin. by rewrite Hfree in Hpr.
      * left. split; [done |]. intros x Hx Hin.
        destruct (Hpte x (user_addr_u32 x Hx)) as [(_ & ? & ?) | [? _]]; done.
    + destruct Rs as [? Hst Hp ? ?]. split; [done |]. split; [done |]. split; [| split]; [| done | by right].
      intros p. rewrite <- Hp, elem_of_nil. tauto.
Qed.
End space.

(** ** Witnesses *)

(** The address space with one user page, number [k], and no free page. *)
Lemma user_space_ok k :
  0 ≤ k < 512 → @space_ok linker_2M (running <| k_mem := user_mem k |>) dir_2M user_T [].
Proof.
  intros Hk.
  assert (Hent : ∀ x, user_addr x → present (pte_of (user_mem k) user_T x) = true →
    x / PGSIZE = k ∧ pte_of (user_mem k) user_T x = entry 0x204000 6).
  { intros x Hx%user_addr_u32. rewrite user_mem_pte by done. by case_decide. }
  split; [split | |].
  - split; [done | constructor | constructor].
  - split; [split; [done | done] | by intros ?%elem_of_nil].
  - apply user_mem_ok; lia.
  - intros p _. by intros ?%elem_of_nil.
  - intros p (x & Hx & Hp & ->). change (k_mem (running <| k_mem := user_mem k |>)) with (user_mem k) in *.
    destruct (Hent x Hx Hp) as [_ ->]. split; [repeat split; vm_compute; done |].
    split; [| by intros ?%elem_of_nil].
    intros [H | [j [-> H]%user_T_Some]]; vm_compute in H; done.
  - intros x y Hx Hy Hxp Hyp _. destruct (Hent x Hx Hxp) as [-> _], (Hent y Hy Hyp) as [-> _]. done.
Qed.

Lemma freevm_spec_witness :
  ∃ s' (l' : list Z), @freevm linker_2M dir_2M (running <| k_mem := user_mem_3000 |>) = Done tt s' ∧
    dir_2M ∈ l' ∧ KERNBASE + 0x203000 ∈ l' ∧ KERNBASE + 0x204000 ∈ l'.
Proof.
  destruct (@freevm_spec linker_2M linker_2M_ok _ _ _ _ (user_space_ok 3 ltac:(lia))) as
    (s' & l' & Hrun & _ & _ & _ & Hl & _).
  exists s', l'. split; [exact Hrun |]. split; [| split]; apply Hl; right.
  - left. by left.
  - left. right. exists 0. reflexivity.
  - right. exists 0x3000. split; [split; vm_compute; done |]. split; vm_compute; reflexivity.
Defined.

Lemma two_pages_space :
  @space_ok linker_2M two_pages dir_2M ∅ [KERNBASE + 0x201000; KERNBASE + 0x200000].
Proof.
  split; [exact two_pages_vm | |].
  - intros p (x & _ & Hp & _). done.
  - intros x y _ _ Hp. done.
Qed.
Lemma allocuvm_spec_witness :
  ∃ r s' T', @allocuvm linker_2M dir_2M 0x2345 0x3800 two_pages = Done r s' ∧
    (r = 0x3800 ∧ load8 (k_mem s') (phys (k_mem s') T' 0x3456) = 0 ∨ r = 0).
Proof.
  destruct (@allocuvm_spec linker_2M linker_2M_ok _ _ _ _ 0x2345 0x3800 two_pages_space)
    as (_ & _ & H); [lia | done |].
  destruct H as (r & s' & T' & l' & Hrun & _ & _ & _ & _ & Hr);
    [vm_compute; done | lia |].
  exists r, s', T'. split; [exact Hrun |]. destruct Hr as [[-> Hr] | [-> _]]; [left | by right].
  split; [done |]. apply Hr; split; vm_compute; done.
Defined.
