(* ===== verification/Copyuvm.v ===== *)
(** * vm.c, specified: the kernel half of an address space, and copying one

    [setupkvm] builds an address space with nothing mapped below [KERNBASE], or
    gives back every page it took; [copyuvm] gives a child the same bytes at the
    same addresses, in pages of its own. *)
From S2P Require Import Prelude Mmu Cstring Kstate Spinlock Kalloc Proc Vm Pagetable Uvm.

Section setupkvm.
Context {LK : Linker} {LO : LinkerOk}.

Definition no_user (m : mem) (T : gmap Z Z) : Prop :=
  ∀ x, user_addr x → present (pte_of m T x) = false.

Lemma empty_space s d T l : vm_ok s d T l → no_user (k_mem s) T → space_ok s d T l.
Proof.
  intros Hvm Hn. split; [done | |].
  - intros p (x & Hx & Hp & _). by rewrite (Hn x Hx) in Hp.
  - intros x y Hx _ Hp. by rewrite (Hn x Hx) in Hp.
Qed.
Lemma no_user_owns m d T p : no_user m T → owns m d T p ↔ pt_owns d T p.
Proof.
  intros Hn. split; [| by left]. intros [? | (x & Hx & Hp & _)]; [done |]. by rewrite (Hn x Hx) in Hp.
Qed.

(** The ranges of [kmap] ascend, from [bnd] up, in whole pages. *)
Definition km_size (k : kmap) : Z := u32 (km_end k - km_start k).
Fixpoint kmaps_ok (bnd : Z) (ks : list kmap) : Prop :=
  match ks with
  | [] => True
  | k :: ks => bnd ≤ km_virt k ∧ page_aligned (km_virt k) ∧ page_aligned (km_size k) ∧
      0 < km_size k ∧ km_virt k + km_size k ≤ 4294967296 ∧ page_aligned (km_start k) ∧
      0 ≤ km_start k ∧ km_start k + km_size k ≤ 4294967296 ∧ 0 ≤ km_perm k < PGSIZE ∧
      kmaps_ok (km_virt k + km_size k) ks
  end.
Lemma kmaps_fine : kmaps_ok KERNBASE kmaps.
Proof.
  pose proof kend_range as He. pose proof kdata_range as Hd. pose proof kdata_aligned as Ha.
  unfold kmaps, kmaps_ok, km_size, KERNLINK, KERNBASE, EXTMEM, PHYSTOP, DEVSPACE, page_aligned in *.
  cbn [km_virt km_start km_end km_perm].
  assert (H1 : V2P (2147483648 + 1048576) = 1048576) by reflexivity.
  assert (H2 : V2P kdata = kdata - 2147483648)
    by (unfold V2P, KERNBASE; rewrite u32_id by (unfold is_u32; lia); done).
  rewrite H1, H2. unfold PGSIZE, PTE_W in *. rewrite !u32_id by (unfold is_u32; lia).
  change (u32 (0 - 4261412864)) with 33554432. split_and!; try lia; zlia.
Qed.

Lemma setupkvm_loop_spec d ks : ∀ bnd s T l,
  kmaps_ok bnd ks → KERNBASE ≤ bnd → vm_ok s d T l → no_user (k_mem s) T →
  (∀ x, is_u32 x → bnd ≤ x → present (pte_of (k_mem s) T x) = false) →
  ∃ r s' T' l', setupkvm_loop ks d s = Done r s' ∧ kmem_inv s' l' ∧ kmem_ready s' ∧ vm_step s s' ∧
    same_but (λ p, p ∈ l ∨ pt_owns d T p) (k_mem s) (k_mem s') ∧
    (r = d ∧ vm_ok s' d T' l' ∧ no_user (k_mem s') T' ∧
       (∀ p, p ∈ l' ∨ pt_owns d T' p ↔ p ∈ l ∨ pt_owns d T p) ∨
     r = 0 ∧ (∀ p, p ∈ l' ↔ p ∈ l ∨ pt_owns d T p) ∧ at_most 1025 (λ p, p ∈ l ∨ pt_owns d T p)).
Proof.
  induction ks as [| k ks IH]; intros bnd s T l Hks Hbnd Hvm Hnu Habove; cbn [setupkvm_loop].
  { exists d, s, T, l. destruct Hvm as [? ? ? ?] eqn:E.
    split_and!; try done; [apply vm_step_refl | by left]. }
  destruct Hks as (Hv & Hva & Hza & Hz & Hve & Hsa & Hs0 & Hse & Hp & Hks). fold (km_size k).
  unfold KERNBASE in *.
  set (va := km_virt k) in *. set (sz := km_size k) in *.
  assert (Hfirst : PGROUNDDOWN va = va)
    by (rewrite PGROUNDDOWN_spec, u32_id by (unfold is_u32; lia); unfold page_aligned, PGSIZE in *; zlia).
  assert (Hlast : PGROUNDDOWN (va + sz - 1) = va + sz - PGSIZE)
    by (rewrite PGROUNDDOWN_spec, u32_id by (unfold is_u32; lia); unfold page_aligned, PGSIZE in *; zlia).
  destruct (mappages_run s d T l va sz (km_start k) (km_perm k) Hvm) as
    (r & s1 & T1 & l1 & Hrun & Hvm1 & Hst1 & Hg1 & Hm1 & Hpte1 & Hr);
    try lia; try done; rewrite ?Hfirst, ?Hlast in *.
  { intros x Hx. assert (Hpx : present (pte_of (k_mem s) T x) = false)
      by (apply Habove; [unfold is_u32 | ]; lia).
    unfold present in Hpx. by apply negb_false_iff, Z.eqb_eq in Hpx. }
  rewrite (bind_done _ _ _ _ _ Hrun).
  assert (Hnu1 : no_user (k_mem s1) T1).
  { intros x Hx. rewrite Hpte1; [by apply Hnu | by apply user_addr_u32 |].
    unfold user_addr, KERNBASE in Hx. lia. }
  assert (Hm1' : same_but (λ p, p ∈ l ∨ pt_owns d T p) (k_mem s) (k_mem s1)).
  { eapply same_but_trans; [| | exact Hm1 | apply (same_but_refl (λ _, False))]; [| done].
    intros p Hpo. apply (gr_pages _ _ _ _ _ Hg1). by right. }
  destruct Hr as [[-> _] | [-> ->]].
  - change (0 <? 0) with false. cbv iota.
    destruct (IH (va + sz) s1 T1 l1) as
      (r & s2 & T2 & l2 & Hrun2 & Hi2 & Hr2 & Hst2 & Hm2 & Hres); [done | lia | done | done | |].
    { intros x Hx Hxb. rewrite Hpte1 by (done || lia). apply Habove; [done | lia]. }
    exists r, s2, T2, l2. pose proof (gr_pages _ _ _ _ _ Hg1) as Hgp.
    split_and!; try done.
    + by apply (vm_step_trans _ s1).
    + eapply same_but_trans; [| | exact Hm1' | exact Hm2]; [done | intros p; apply Hgp].
    + destruct Hres as [(-> & ? & ? & Hpg) | (-> & Hpg & Hf)]; [left | right].
      * split_and!; try done. intros p. by rewrite Hpg.
      * split; [done |]. split; [intros p; by rewrite Hpg |].
        eapply at_most_mono; [reflexivity | | exact Hf]. intros p. apply Hgp.
  - change (-1 <? 0) with true. cbv iota.
    destruct (freevm_run s1 d T1 []) as (s2 & l2 & Hrun2 & Hi2 & Hr2 & Hst2 & Hpg & Hm2);
      [by apply empty_space |].
    rewrite (bind_done _ _ _ _ _ Hrun2). exists 0, s2, T1, l2.
    assert (Hpg' : ∀ p, p ∈ l2 ↔ p ∈ l ∨ pt_owns d T p).
    { intros p. rewrite Hpg, no_user_owns by done. apply (gr_pages _ _ _ _ _ Hg1). }
    split_and!; try done.
    + by apply (vm_step_trans _ s1).
    + eapply same_but_trans; [| | exact Hm1' | exact Hm2]; [done |]. cbv beta.
      intros p Hpo. apply Hpg', Hpg. by right.
    + right. split; [done |]. split; [done |].
      eapply at_most_mono; [reflexivity | | by apply (pt_owns_at_most (k_mem s1) d T1), Hvm1].
      intros p Hpl. destruct (proj2 (gr_pages _ _ _ _ _ Hg1 p) Hpl) as [?%elem_of_nil |]; done.
Qed.

Lemma setupkvm_run s l :
  kmem_inv s l → kmem_ready s →
  ∃ r s' T' l', setupkvm s = Done r s' ∧ kmem_inv s' l' ∧ kmem_ready s' ∧ vm_step s s' ∧
    same_but (λ p, p ∈ l) (k_mem s) (k_mem s') ∧
    (r ≠ 0 ∧ space_ok s' r T' l' ∧ no_user (k_mem s') T' ∧
       (∀ p, p ∈ l' ∨ pt_owns r T' p ↔ p ∈ l) ∨
     r = 0 ∧ (∀ p, p ∈ l' ↔ p ∈ l) ∧ at_most 1025 (λ p, p ∈ l)).
Proof.
  intros Hi Hr. unfold setupkvm. destruct (kalloc_frame s l Hi Hr) as (c & km & Hk & Hi1 & Hc & _).
  set (s1 := s <| k_cpu := c |> <| k_kmem := km |>) in *.
  assert (Hr1 : kmem_ready s1).
  { destruct Hr as [Hc0 Hl0]. split; [| done]. destruct Hc as [-> | ->]; [done | by apply sync_cpu_ok]. }
  assert (Hst1 : vm_step s s1).
  { split; [| exact Hc]. exists c, km, (k_mem s). unfold s1. kst_eq; reflexivity. }
  rewrite (bind_done _ _ _ _ _ Hk). destruct l as [| d l]; cbn [hd tl] in *.
  { exists 0, s1, ∅, []. split_and!; try done. right. split_and!; try done. by exists []. }
  pose proof (ki_valid _ _ Hi) as [Hv Hvl]%Forall_cons_1.
  pose proof (ki_nodup _ _ Hi) as [Hnin Hnd]%NoDup_cons.
  pose proof (valid_page_pos d Hv) as Hpos. destruct (Z.eqb_spec d 0); [lia |].
  rewrite bind_modify. change (P2V PHYSTOP >? DEVSPACE) with false. cbv iota.
  set (m2 := memset (k_mem s) d 0 PGSIZE). set (s2 := s1 <| k_mem := m2 |>).
  assert (Hm2 : same_but (λ p, p = d) (k_mem s) m2).
  { intros x Hx. unfold m2. rewrite memset_load8 by (unfold PGSIZE; lia).
    rewrite decide_False; [done |]. by apply Hx. }
  assert (Hvm2 : vm_ok s2 d ∅ l).
  { split.
    - apply (kmem_inv_frame (λ p, p = d)); [done | | exact Hm2]. intros p ->. split; [apply Hv | done].
    - exact Hr1.
    - split; [done | done | done |]. intros i Hir e. rewrite lookup_empty. unfold e.
      pose proof (slot_in_page d i Hir).
      change (k_mem s2) with m2. unfold m2. rewrite load32_memset_zero by lia. done.
    - intros p [-> | [i Hp]]; [done | by rewrite lookup_empty in Hp]. }
  change (set k_mem (λ m, memset m d 0 PGSIZE) s1) with s2.
  destruct (setupkvm_loop_spec d kmaps KERNBASE s2 ∅ l kmaps_fine) as
    (r & s3 & T3 & l3 & Hrun & Hi3 & Hr3 & Hst3 & Hm3 & Hres); [done | done | done | done |].
  exists r, s3, T3, l3.
  assert (Hown : ∀ p, pt_owns d ∅ p ↔ p = d).
  { intros p. split; [intros [? | [i Hp]]; [done | by rewrite lookup_empty in Hp] | by left]. }
  split_and!; try done.
  - apply (vm_step_trans _ s2); [| done]. apply (vm_step_trans _ s1); [done |]. split; [| by left].
    eexists (k_cpu s1), (k_kmem s1), _. unfold s2. kst_eq; reflexivity.
  - eapply same_but_trans; [| | exact Hm2 | exact Hm3]; cbv beta; [intros p ->; left |].
    intros p [? | ->%Hown]; [by right | left].
  - destruct Hres as [(-> & ? & ? & Hpg) | (-> & Hpg & Hf)]; [left | right]; (split; [done |]).
    + split; [by apply empty_space |]. split; [done |]. intros p. rewrite Hpg, Hown, elem_of_cons. tauto.
    + split; [intros p; rewrite Hpg, Hown, elem_of_cons; tauto |].
      eapply at_most_mono; [reflexivity | | exact Hf]. intros p [-> | ?]%elem_of_cons; [right; by left | by left].
Qed.
End setupkvm.

(** ** [copyuvm] *)

Section copyuvm.
Context {LK : Linker} {LO : LinkerOk}.
Context (s0 : kst) (d1 : Z) (T1 : gmap Z Z) (d : Z) (T0 : gmap Z Z) (l0 : list Z) (sz : Z).
#[local] Abbreviation m0 := (k_mem s0).
(** The parent [d1], and the child [d] with nothing of the user's in it yet. *)
Context (Hpar : space_ok s0 d1 T1 l0) (Hch : space_ok s0 d T0 l0) (Hnu : no_user m0 T0).
Context (Hapart : ∀ p, pt_owns d T0 p → ¬ owns m0 d1 T1 p).
Context (Hsz : 0 ≤ sz ≤ KERNBASE).
Context (Hall : ∀ x, user_addr x → from_to 0 sz x → present (pte_of m0 T1 x) = true).

Definition par_perm (x : Z) : Z := PTE_FLAGS (pte_of m0 T1 x).
Definition par_byte (x : Z) : Z := load8 m0 (phys m0 T1 x).
Definition child_page (p : Z) : Prop := p ∈ l0 ∨ pt_owns d T0 p.

(** What the copying writes is not the parent's. *)
Lemma child_page_apart p : child_page p → page_aligned p ∧ ¬ owns m0 d1 T1 p.
Proof.
  intros Hp. split; [by apply (grew_pages_aligned s0 d T0 l0) |].
  destruct Hp as [Hp | Hp]; [| by apply Hapart]. intros [Ho | Ho].
  - by apply (vo_apart _ _ _ _ (so_vm _ _ _ _ Hpar) p Ho).
  - by destruct (so_page _ _ _ _ Hpar p Ho) as (_ & _ & []).
Qed.
Lemma parent_kept m :
  same_but child_page m0 m →
  pt_ok m d1 T1 ∧ (∀ x, pte_of m T1 x = pte_of m0 T1 x) ∧
  (∀ x i, user_addr x → present (pte_of m0 T1 x) = true → 0 ≤ i < PGSIZE →
     load8 m (page_of (pte_of m0 T1 x) + i) = load8 m0 (page_of (pte_of m0 T1 x) + i)).
Proof.
  intros Hm. destruct (pt_frame child_page m0 m d1 T1) as [Hpt Hpte];
    [apply Hpar | | done |].
  { intros p [Hal Ho]%child_page_apart. split; [done |]. intros ?. apply Ho. by left. }
  split; [done |]. split; [done |]. intros x i Hx Hp Hi. apply Hm.
  intros q [Hal Ho]%child_page_apart Hin. apply Ho. right. exists x. split; [done |]. split; [done |].
  destruct (so_page _ _ _ _ Hpar (page_of (pte_of m0 T1 x))) as ((_ & Hpa & _) & _); [by exists x |].
  unfold page_aligned, PGSIZE in *. zlia.
Qed.

Lemma aligned0 : page_aligned 0.
Proof. done. Qed.
(** The child is given up: it is in order, and no page is lost. *)
Record copy_failed (s' : kst) (T' : gmap Z Z) (l' : list Z) : Prop := {
  cf_ok : space_ok s' d T' l';
  cf_step : vm_step s0 s';
  cf_mem : same_but child_page m0 (k_mem s');
  cf_pages : ∀ p, p ∈ l' ∨ owns (k_mem s') d T' p ↔ child_page p;
  cf_short : at_most (1026 + sz / PGSIZE) child_page }.

Lemma copyuvm_loop_spec fuel : ∀ s T l i,
  grew d (λ x, 0 ≤ x < i) par_perm par_byte [] s0 T0 l0 s T l →
  page_aligned i → 0 ≤ i → (i = 0 ∨ i < sz + PGSIZE) →
  (0 < fuel)%nat → sz ≤ i + PGSIZE * (Z.of_nat fuel - 1) →
  ∃ ok s' T' l', copyuvm_loop fuel d1 d sz i s = Done ok s' ∧
    (ok = true ∧ grew d (from_to 0 sz) par_perm par_byte [] s0 T0 l0 s' T' l' ∨
     ok = false ∧ copy_failed s' T' l').
Proof.
  induction fuel as [| fuel IH]; intros s T l i G Hal Hi0 Hend Hf Hfuel; [lia |].
  cbn [copyuvm_loop]. pose proof G as [Hs Hst Hpg _ Hmem Hpte].
  destruct (Z.ltb_spec i sz) as [Hlt | Hge].
  2: { exists true, s, T, l. split; [done |]. left. split; [done |].
       assert (HR : ∀ x, 0 ≤ x < i ↔ from_to 0 sz x)
         by (intros x; unfold from_to, page_aligned, PGSIZE in *; split; zlia).
       destruct G. split; try done. intros x Hx. rewrite <- HR. by apply Hpte. }
  assert (Hui : user_addr i) by (unfold user_addr; lia).
  assert (Hpi : present (pte_of m0 T1 i) = true).
  { apply Hall; [done |]. unfold from_to, page_aligned, PGSIZE in *. zlia. }
  destruct (parent_kept (k_mem s) Hmem) as (Hpt1 & Hpte1 & Hbytes).
  destruct (T1 !! PDX i) as [t |] eqn:Ht.
  2: { unfold pte_of in Hpi. by rewrite Ht in Hpi. }
  rewrite (bind_done _ _ _ _ _ (walkpgdir_found s d1 T1 i false t Hpt1 Ht)).
  destruct (pt_page _ _ _ Hpt1 _ _ Ht) as (_ & Hv%valid_page_pos & _). pose proof (PTX_range i).
  destruct (Z.eqb_spec (t + 4 * PTX i) 0); [lia |]. unfold ld32. rewrite bind_gets.
  assert (He : load32 (k_mem s) (t + 4 * PTX i) = pte_of m0 T1 i)
    by (rewrite <- Hpte1; unfold pte_of; by rewrite Ht).
  rewrite He. set (e := pte_of m0 T1 i) in *.
  assert (Hpz : (Z.land e PTE_P =? 0) = false) by by apply negb_true_iff.
  rewrite Hpz. fold (page_of e).
  assert (Hpc : present (pte_of (k_mem s) T i) = false).
  { destruct (Hpte i (user_addr_u32 i Hui)) as [[? _] | [_ ->]]; [lia | by apply Hnu]. }
  destruct l as [| pg l1].
  - destruct (take_page s d T [] Hs) as (s1 & Hk & Hs1 & Hst1 & Hm1 & _). cbn [hd tl] in *.
    rewrite (bind_done _ _ _ _ _ Hk). cbn [Z.eqb]. exists false, s1, T, []. split; [done |]. right.
    split; [done |]. split; rewrite ?Hm1; try done.
    + by apply (vm_step_trans _ s).
    + intros p. unfold child_page. rewrite <- (no_user_owns m0 d T0 p Hnu), <- Hpg, elem_of_nil. tauto.
    + apply (at_most_mono (1025 + 0 + (i - 0) / PGSIZE) _ child_page);
        [unfold page_aligned, PGSIZE in *; zlia | done | by apply (grew_used _ _ _ _ _ _ _ _ _ _ _ Hch aligned0 Hal Hi0 G)].
  - assert (Hperm : 0 ≤ PTE_FLAGS e < PGSIZE) by (rewrite PTE_FLAGS_spec; apply Z.mod_pos_bound; done).
    assert (Hpage : ∀ x, i ≤ x < i + PGSIZE → user_addr x ∧ pte_of m0 T1 x = e).
    { intros x Hx. assert (user_addr x) by (unfold user_addr, page_aligned, KERNBASE, PGSIZE in *; zlia).
      split; [done |]. apply pte_of_page; [by apply user_addr_u32 .. |].
      unfold page_aligned, PGSIZE in *. zlia. }
    destruct (grow_one s d T (pg :: l1) i (PTE_FLAGS e) (λ mem m, memmove m mem (page_of e) PGSIZE)
      par_byte par_perm pg l1) as (s1 & r & s2 & T2 & l2 & Hk & Hmap & Hnz & Hr); try done.
    { intros x Hx. unfold par_perm. by destruct (Hpage x Hx) as [_ ->]. }
    { intros m x Hx. rewrite memmove_load8 by (unfold PGSIZE; lia). rewrite decide_False; [done |].
      by apply Hx. }
    { intros j Hj. rewrite memmove_load8 by (unfold PGSIZE; lia). rewrite decide_True by lia.
      replace (pg + j - pg) with j by lia. rewrite (Hbytes i j Hui Hpi Hj : load8 _ (page_of e + j) = _). unfold par_byte, phys.
      destruct (Hpage (i + j)) as [_ ->]; [lia |]. do 2 f_equal.
      unfold page_aligned, PGSIZE in *. zlia. }
    rewrite (bind_done _ _ _ _ _ Hk). rewrite (proj2 (Z.eqb_neq _ _) Hnz).
    rewrite bind_modify, (bind_done _ _ _ _ _ Hmap).
    destruct Hr as [[-> G2] | (-> & G2 & Hh & Hl2)].
    + change (0 <? 0) with false. cbv iota. rewrite u32_id by (unfold is_u32, PGSIZE, KERNBASE in *; lia).
      apply (IH s2 T2 l2); [| unfold page_aligned, PGSIZE in *; zlia | unfold PGSIZE; lia |
        right; unfold PGSIZE; lia | unfold PGSIZE in *; lia | unfold PGSIZE in *; lia].
      apply (grew_trans d (λ x, 0 ≤ x < i) (λ x, i ≤ x < i + PGSIZE) _ par_perm par_byte []
        s0 T0 l0 s T (pg :: l1) s2 T2 l2); try done.
      * intros x Hx. unfold user_addr. lia.
      * intros; lia.
      * intros x. unfold PGSIZE. lia.
      * intros x. unfold par_perm. rewrite PTE_FLAGS_spec. by apply Z.mod_pos_bound.
    + change (-1 <? 0) with true. cbv iota.
      assert (G3 : grew d (λ x, 0 ≤ x < i) par_perm par_byte [pg] s0 T0 l0 s2 T2 l2).
      { apply (grew_trans d (λ x, 0 ≤ x < i) (λ _, False) _ par_perm par_byte [pg]
          s0 T0 l0 s T (pg :: l1) s2 T2 l2); try done.
        - intros x Hx. unfold user_addr. lia.
        - tauto.
        - tauto.
        - intros x. unfold par_perm. rewrite PTE_FLAGS_spec. by apply Z.mod_pos_bound. }
      assert (Hused : at_most (1026 + sz / PGSIZE) child_page).
      { rewrite Hl2 in G3. apply (at_most_mono (1025 + 1 + (i - 0) / PGSIZE) _ child_page);
          [unfold page_aligned, PGSIZE in *; zlia | done | by apply (grew_used _ _ _ _ _ _ _ _ _ _ _ Hch aligned0 Hal Hi0 G3)]. }
      destruct (free_held s2 d T2 l2 pg (gw_ok _ _ _ _ _ _ _ _ _ _ _ G3) Hh) as
        (s3 & Hkf & Hs3 & Hst3 & Hm3 & Hpte3).
      rewrite (bind_done _ _ _ _ _ Hkf). exists false, s3, T2, (pg :: l2). split; [done |]. right.
      split; [done |]. destruct G3 as [_ Hst2 Hpg2 _ Hmem2 _]. split.
      * done.
      * by apply (vm_step_trans _ s2).
      * eapply same_but_trans; [| | exact Hmem2 | exact Hm3]; [done |]. cbv beta. intros p ->.
        destruct (proj1 (Hpg2 pg)) as [? | [? | Hmp]]; [left; right; by left | by left | by right |].
        exfalso. destruct Hmp as (x & Hx & Hp & _). by rewrite (Hnu x Hx) in Hp.
      * intros p. unfold child_page. rewrite <- (no_user_owns m0 d T0 p Hnu), <- Hpg2. unfold owns.
        rewrite (mapped_page_ext (k_mem s2) T2 (k_mem s3) T2) by done.
        rewrite elem_of_cons, list_elem_of_singleton. tauto.
      * exact Hused.
Qed.
End copyuvm.

Section fork_copy.
Context {LK : Linker} {LO : LinkerOk}.

(** Code that only takes pages from the free list, writes them, and may keep
    them, leaves an address space as it was. *)
Lemma space_untouched s s' d T l l' :
  space_ok s d T l → same_but (λ p, p ∈ l) (k_mem s) (k_mem s') → kmem_inv s' l' → kmem_ready s' →
  (∀ p, p ∈ l' → p ∈ l) →
  space_ok s' d T l' ∧ (∀ x, pte_of (k_mem s') T x = pte_of (k_mem s) T x) ∧
  (∀ x, user_addr x → present (pte_of (k_mem s) T x) = true →
     load8 (k_mem s') (phys (k_mem s') T x) = load8 (k_mem s) (phys (k_mem s) T x)).
Proof.
  intros Hs Hm Hi' Hr' Hl. pose proof Hs as [[Hi Hr Hpt Hap] Hpg Hinj].
  destruct (pt_frame (λ p, p ∈ l) (k_mem s) (k_mem s') d T Hpt) as [Hpt' Hpte]; [| done |].
  { intros p Hp. split; [by apply (grew_pages_aligned s d T l); auto |]. intros Ho. by apply (Hap p Ho). }
  split; [| split; [done |]].
  - split; [split | |]; try done.
    + intros p Hp Hin. by apply (Hap p Hp), Hl.
    + intros p (x & Hx & Hp & ->). rewrite Hpte in Hp |- *.
      destruct (Hpg (page_of (pte_of (k_mem s) T x))) as (? & ? & ?); [by exists x |].
      split_and!; [done | done |]. auto.
    + intros x y Hx Hy. rewrite !Hpte. by apply Hinj.
  - intros x Hx Hp. unfold phys. rewrite Hpte.
    apply (mapped_page_kept (λ p, p ∈ l) s d T l); try done.
    intros p Hp'. split; [by apply (grew_pages_aligned s d T l); auto | by left].
Qed.

(** The address space [T'] of [s'] is a copy of what [T1] maps in [s] below
    [sz]: pages of its own with the same permissions and bytes, nothing else. *)
Definition copied_below (sz : Z) (s : kst) (T1 : gmap Z Z) (s' : kst) (T' : gmap Z Z) : Prop :=
  (∀ x, user_addr x → from_to 0 sz x →
     (∃ pg, valid_page pg ∧
        pte_of (k_mem s') T' x = entry (V2P pg) (PTE_FLAGS (pte_of (k_mem s) T1 x))) ∧
     load8 (k_mem s') (phys (k_mem s') T' x) = load8 (k_mem s) (phys (k_mem s) T1 x)) ∧
  (∀ x, user_addr x → ¬ from_to 0 sz x → present (pte_of (k_mem s') T' x) = false).

Lemma copyuvm_run s d1 T1 l sz :
  space_ok s d1 T1 l → 0 ≤ sz ≤ KERNBASE →
  (∀ x, user_addr x → from_to 0 sz x → present (pte_of (k_mem s) T1 x) = true) →
  ∃ r s' T' l', copyuvm d1 sz s = Done r s' ∧ vm_step s s' ∧
    same_but (λ p, p ∈ l) (k_mem s) (k_mem s') ∧ space_ok s' d1 T1 l' ∧
    (∀ x, user_addr x → present (pte_of (k_mem s) T1 x) = true →
       pte_of (k_mem s') T1 x = pte_of (k_mem s) T1 x ∧
       load8 (k_mem s') (phys (k_mem s') T1 x) = load8 (k_mem s) (phys (k_mem s) T1 x)) ∧
    (r ≠ 0 ∧ space_ok s' r T' l' ∧ (∀ p, p ∈ l' ∨ owns (k_mem s') r T' p ↔ p ∈ l) ∧
       copied_below sz s T1 s' T' ∨
     r = 0 ∧ (∀ p, p ∈ l' ↔ p ∈ l) ∧ Z.of_nat (length l) ≤ 1026 + sz / PGSIZE).
Proof.
  intros Hs Hsz Hall. pose proof (so_vm _ _ _ _ Hs) as [Hi Hr _ Hap]. unfold copyuvm, copied_below.
  destruct (setupkvm_run s l Hi Hr) as (d & s1 & T0 & l1 & Hrun1 & Hi1 & Hr1 & Hst1 & Hm1 & Hres).
  rewrite (bind_done _ _ _ _ _ Hrun1). destruct Hres as [(Hnz & Hch & Hnu & Hpg1) | (-> & Hpg1 & Hf)].
  2: { destruct (space_untouched s s1 d1 T1 l l1 Hs Hm1 Hi1 Hr1) as (Hs1 & Hpte & Hb); [apply Hpg1 |].
       exists 0, s1, ∅, l1. split_and!; try done.
       - intros x Hx Hp. split; [done | by apply Hb].
       - right. split; [done |]. split; [done |]. apply at_most_length; [apply Hi |].
         eapply at_most_mono; [| | exact Hf]; [unfold PGSIZE; zlia | done]. }
  rewrite (proj2 (Z.eqb_neq _ _) Hnz).
  destruct (space_untouched s s1 d1 T1 l l1 Hs Hm1 Hi1 Hr1) as (Hs1 & Hpte1 & Hb1).
  { intros p ?. apply Hpg1. by left. }
  assert (Hapart : ∀ p, pt_owns d T0 p → ¬ owns (k_mem s1) d1 T1 p).
  { intros p Hp. assert (Hin : p ∈ l) by (apply Hpg1; by right). intros [Ho | (x & Hx & Hxp & ->)].
    - by apply (Hap p Ho).
    - rewrite Hpte1 in Hxp, Hin. by destruct (so_page _ _ _ _ Hs (page_of (pte_of (k_mem s) T1 x)))
        as (_ & _ & []); [exists x |]. }
  set (fuel := S (Z.to_nat (sz / PGSIZE + 1))).
  destruct (copyuvm_loop_spec s1 d1 T1 d T0 l1 sz Hs1 Hch Hnu Hapart Hsz) with
    (fuel := fuel) (s := s1) (T := T0) (l := l1) (i := 0) as (ok & s2 & T2 & l2 & Hrun2 & Hr2).
  { intros x Hx Hin. rewrite Hpte1. by apply Hall. }
  { apply grew_refl; [intros; lia | done]. }
  { done. }
  { done. }
  { by left. }
  { unfold fuel. lia. }
  { unfold fuel, PGSIZE. zlia. }
  rewrite (bind_done _ _ _ _ _ Hrun2).
  assert (Hcp : ∀ p, child_page d T0 l1 p ↔ p ∈ l) by exact Hpg1.
  assert (Hm12 : ∀ m', same_but (child_page d T0 l1) (k_mem s1) m' → same_but (λ p, p ∈ l) (k_mem s) m').
  { intros m' Hm'. eapply same_but_trans; [| | exact Hm1 | exact Hm']; [done |]. intros p. apply Hcp. }
  assert (Hparent : ∀ s' l', same_but (child_page d T0 l1) (k_mem s1) (k_mem s') → kmem_inv s' l' →
    kmem_ready s' → (∀ p, p ∈ l' → p ∈ l) → space_ok s' d1 T1 l' ∧
    (∀ x, user_addr x → present (pte_of (k_mem s) T1 x) = true →
       pte_of (k_mem s') T1 x = pte_of (k_mem s) T1 x ∧
       load8 (k_mem s') (phys (k_mem s') T1 x) = load8 (k_mem s) (phys (k_mem s) T1 x))).
  { intros s' l' Hm' Hi' Hr' Hl'. destruct (space_untouched s s' d1 T1 l l' Hs) as (? & Hpte & Hb);
      [by apply Hm12 | done | done | done |]. split; [done |]. intros x Hx Hp. split; [done | by apply Hb]. }
  destruct Hr2 as [[-> G] | [-> F]].
  - pose proof G as [Hs2 Hst2 Hp2 _ Hm2 Hpte2]. pose proof (so_vm _ _ _ _ Hs2) as [Hi2 Hr2 _ _].
    assert (Hpgs : ∀ p, p ∈ l2 ∨ owns (k_mem s2) d T2 p ↔ p ∈ l).
    { intros p. rewrite <- Hcp. unfold child_page. rewrite <- (no_user_owns (k_mem s1) d T0 p Hnu), <- Hp2,
        elem_of_nil. tauto. }
    destruct (Hparent s2 l2 Hm2 Hi2 Hr2) as [Hsp Hkept]; [intros p ?; apply Hpgs; by left |].
    exists d, s2, T2, l2. split; [done |]. split; [by apply (vm_step_trans _ s1) |].
    split; [by apply Hm12 |]. split; [done |]. split; [done |]. left. split_and!; try done.
    + intros x Hx Hin. destruct (Hpte2 x (user_addr_u32 x Hx)) as [(_ & Hpg & Hv) | [? _]]; [| done].
      unfold par_perm in Hpg. rewrite Hpte1 in Hpg. split; [done |]. rewrite Hv. unfold par_byte.
      apply Hb1; [done | by apply Hall].
    + intros x Hx Hn. destruct (Hpte2 x (user_addr_u32 x Hx)) as [(? & _) | [_ ->]]; [done | by apply Hnu].
  - destruct F as [Hs2 Hst2 Hm2 Hp2 Hf].
    destruct (freevm_run s2 d T2 l2 Hs2) as (s3 & l3 & Hrun3 & Hi3 & Hr3 & Hst3 & Hp3 & Hm3).
    rewrite (bind_done _ _ _ _ _ Hrun3).
    assert (Hpgs : ∀ p, p ∈ l3 ↔ p ∈ l) by (intros p; by rewrite Hp3, Hp2, Hcp).
    assert (Hm13 : same_but (child_page d T0 l1) (k_mem s1) (k_mem s3)).
    { eapply same_but_trans; [| | exact Hm2 | exact Hm3]; [done |]. intros p Hp. apply Hp2. by right. }
    destruct (Hparent s3 l3 Hm13 Hi3 Hr3) as [Hsp Hkept]; [apply Hpgs |].
    exists 0, s3, T2, l3. split; [done |].
    split; [apply (vm_step_trans _ s2); [by apply (vm_step_trans _ s1) | done] |].
    split; [by apply Hm12 |]. split; [done |]. split; [done |]. right.
    split; [done |]. split; [done |]. apply at_most_length; [apply Hi |].
    eapply at_most_mono; [reflexivity | | exact Hf]. intros p. apply Hcp.
Qed.

(** C15: the copy [fork] makes.  Given a parent whose whole range below [sz] is
    mapped, [copyuvm] either builds a new address space in which every address
    below [sz] has a page of its own, with the parent's permissions and the
    parent's bytes, and nothing else of the user's is mapped; or it returns 0 and
    every page it took is free again, which only happens when the free pages were
    no more than the parent's and 1026 more.  Either way the parent's mapping and
    content are untouched, and no page is lost. *)
Theorem copyuvm_spec s d1 T1 l sz :
  space_ok s d1 T1 l → 0 ≤ sz ≤ KERNBASE →
  (∀ x, user_addr x → from_to 0 sz x → present (pte_of (k_mem s) T1 x) = true) →
  ∃ r s' T' l', copyuvm d1 sz s = Done r s' ∧ vm_step s s' ∧ space_ok s' d1 T1 l' ∧
    (∀ x, user_addr x → present (pte_of (k_mem s) T1 x) = true →
       pte_of (k_mem s') T1 x = pte_of (k_mem s) T1 x ∧
       load8 (k_mem s') (phys (k_mem s') T1 x) = load8 (k_mem s) (phys (k_mem s) T1 x)) ∧
    (r ≠ 0 ∧ space_ok s' r T' l' ∧ (∀ p, p ∈ l' ∨ owns (k_mem s') r T' p ↔ p ∈ l) ∧
       copied_below sz s T1 s' T' ∨
     r = 0 ∧ (∀ p, p ∈ l' ↔ p ∈ l) ∧ Z.of_nat (length l) ≤ 1026 + sz / PGSIZE).
Proof.
  intros Hs Hsz Hall. destruct (copyuvm_run s d1 T1 l sz Hs Hsz Hall) as
    (r & s' & T' & l' & Hrun & Hst & _ & Hres). by exists r, s', T', l'.
Qed.
End fork_copy.

(** ** Witness: copying the address space with one page, at 0 *)
Lemma copyuvm_spec_witness :
  ∃ r s' T', @copyuvm linker_2M dir_2M 0x1000 (running <| k_mem := user_mem 0 |>) = Done r s' ∧
    load8 (k_mem s') (phys (k_mem s') user_T 0x123) = load8 (user_mem 0) (phys (user_mem 0) user_T 0x123) ∧
    (r ≠ 0 ∧ load8 (k_mem s') (phys (k_mem s') T' 0x123) =
               load8 (user_mem 0) (phys (user_mem 0) user_T 0x123) ∨ r = 0).
Proof.
  assert (Hx : user_addr 0x123) by (split; vm_compute; done).
  destruct (@copyuvm_spec linker_2M linker_2M_ok _ _ _ _ 0x1000 (user_space_ok 0 ltac:(lia))) as
    (r & s' & T' & l' & Hrun & _ & _ & Hk & Hr).
  - unfold KERNBASE. lia.
  - intros x Hux [Hx0 Hin]. change (k_mem (running <| k_mem := user_mem 0 |>)) with (user_mem 0).
    rewrite user_mem_pte by (lia || by apply user_addr_u32).
    rewrite decide_True by (unfold PGSIZE in *; zlia). reflexivity.
  - exists r, s', T'. split; [exact Hrun |]. split; [by apply Hk |].
    destruct Hr as [(Hnz & _ & _ & Hc & _) | [-> _]]; [left | by right].
    split; [done |]. apply Hc; [done |]. split; vm_compute; done.
Defined.
