(* ===== verification/Container.v ===== *)
(** * proc.c: the container table

    Creation and inspection of containers and the log switches that the
    container manager reads back; the bounds of [conalloc] (defined in
    [Proc.v]). *)
From S2P Require Import Prelude Mmu Cstring Kstate Spinlock Kalloc Proc.

Section container.
Context {LK : Linker}.

Definition totaleContainers : K Z := gets (λ s, containerNum (k_pv s)).

Fixpoint addContainer_loop (n : nat) (c itr : Z) : K unit :=
  match n with
  | O => mret tt
  | S n =>
      a ← kalloc;
      x ← get_cont c;
      _ ← at_ "startAddr[itr]" (ct_startAddr x) itr;
      upd_cont c (λ x, x <| ct_startAddr ::= <[Z.to_nat itr := a]> |>);;
      addContainer_loop n c (itr + 1)
  end.
Definition addContainer : K unit :=
  upd_pv (λ v, v <| containerNum ::= λ n, i32 (n + 1) |>);;
  acquire LCtable;;
  n ← totaleContainers;
  upd_cont (n - 1) (λ c, c <| ct_generatedProcess := 0 |>);;
  addContainer_loop MCONT (n - 1) 0;;
  release LCtable.

Definition containerProcessNum (containerID : Z) : K Z :=
  acquire LCtable;;
  c ← get_cont containerID;
  let val := ct_generatedProcess c in
  release LCtable;;
  mret val.

Definition switch_scheduler_log : K unit := upd_pv (λ v, v <| scheduler_log := 1 |>).
Definition check_schedule_log (arg : Z) : K Z :=
  v ← gets k_pv;
  mret (if ((arg =? scheduler_log v) || ((arg =? 1) && (scheduler_history v =? 1)))%bool
        then 1 else 0).
Definition switch_memory_log : K unit :=
  upd_pv (λ v, v <| memory_log := 1 |>);;
  upd_pv (λ v, v <| memory_history ::= λ n, i32 (n + 1) |>).
Definition check_memory_log (arg : Z) : K Z :=
  v ← gets k_pv;
  mret (if ((arg =? 0) && (memory_log v =? 0))%bool then 1
        else if arg =? 1 then memory_history v else 0).
End container.

(** ** A container's reserve of pages *)
Section container_spec.
Context {LK : Linker} `{!LinkerOk}.

(** The arrays of a container have the sizes of their declarations. *)
Record cont_ok (c : container) : Prop := {
  co_process : length (ct_process c) = PROCESS_COUNT;
  co_start : length (ct_startAddr c) = MCONT;
  co_memory : length (ct_memory c) = MCONT }.

Definition ctable_ready (s : kst) : Prop := cpu_ok (k_cpu s) ∧ LCtable ∉ k_held s.

(** [conalloc] hands out the pages of the container in order and records
    each; it does not test the bound of its array: once all [MCONT] pages are
    out, the next call reads past the end of [startAddr]. *)
Theorem conalloc_spec cid pid s c :
  ctable_ready s → 0 ≤ cid → k_conts s !! Z.to_nat cid = Some c → cont_ok c →
  0 ≤ ct_used c →
  match ct_startAddr c !! Z.to_nat (ct_used c) with
  | Some mem => ct_used c < Z.of_nat MCONT ∧
      ∃ s' c', conalloc cid pid s = Done mem s' ∧ k_held s' = k_held s ∧
        k_conts s' = <[Z.to_nat cid := c']> (k_conts s) ∧ cont_ok c' ∧
        ct_used c' = ct_used c + 1 ∧ ct_startAddr c' = ct_startAddr c ∧
        ct_memory c' !! Z.to_nat (ct_used c) =
          Some (mkCmap (ct_used c) mem (u32 (mem + 4096)) pid)
  | None => Z.of_nat MCONT ≤ ct_used c ∧
      conalloc cid pid s = Fault "startAddr[next]"
  end.
Proof.
  intros [Hc Hl] Hcid Hco [Hp Hs Hm] Hu. unfold conalloc.
  rewrite acquire_bind by done. rewrite (get_cont_bind _ _ c) by done.
  rewrite (upd_cont_bind _ _ _ c) by done.
  destruct (ct_startAddr c !! Z.to_nat (ct_used c)) as [mem |] eqn:Hst.
  - pose proof (lookup_lt_Some _ _ _ Hst) as Hlt. rewrite Hs in Hlt.
    unfold MCONT in *. split; [lia |].
    rewrite (at_bind _ _ _ _ mem) by done.
    destruct (lookup_lt_is_Some_2 (ct_memory c) (Z.to_nat (ct_used c))) as [old Hold]; [lia |].
    rewrite (at_bind _ _ _ _ old) by done.
    pose proof (lookup_lt_Some _ _ _ Hco) as Hcl.
    erewrite upd_cont_bind by (done || (cbn; by apply list_lookup_insert_eq)).
    rewrite (release_bind _ _ _ (k_cpu s) (k_held s)) by done.
    unfold cprintf. rewrite bind_modify.
    do 2 eexists. split; [done |]. split; [done |]. split.
    { cbn. by rewrite list_insert_insert_eq. }
    split; [split; cbn; by rewrite ?length_insert |]. split; [done |]. split; [done |].
    cbn. apply list_lookup_insert_eq. lia.
  - apply lookup_ge_None in Hst. rewrite Hs in Hst. split; [lia |].
    apply bind_fault. unfold at_. rewrite decide_True by done.
    rewrite lookup_ge_None_2 by lia. done.
Qed.

Lemma addContainer_loop_run n : ∀ c itr s l x,
  kmem_ready s → kmem_inv s l → 0 ≤ c → k_conts s !! Z.to_nat c = Some x → cont_ok x →
  0 ≤ itr → itr + Z.of_nat n ≤ Z.of_nat MCONT →
  ∃ s' x', addContainer_loop n c itr s = Done tt s' ∧ kmem_inv s' (drop n l) ∧
    s' = s <| k_cpu := k_cpu s' |> <| k_kmem := k_kmem s' |>
           <| k_conts ::= <[Z.to_nat c := x']> |> ∧
    (k_cpu s' = k_cpu s ∨ k_cpu s' = sync_cpu (k_cpu s)) ∧ cont_ok x' ∧
    x' = x <| ct_startAddr := ct_startAddr x' |> ∧
    (∀ k, (k < n)%nat → ct_startAddr x' !! (Z.to_nat itr + k)%nat = Some (nth k l 0)) ∧
    (∀ k, (k < Z.to_nat itr)%nat → ct_startAddr x' !! k = ct_startAddr x !! k).
Proof.
  induction n as [| n IH]; intros c itr s l x Hr Hi Hc Hx Hok Hit Hn; cbn [addContainer_loop].
  - exists s, x. split_and!; try done; [kst_eq; by rewrite list_insert_id | by left | by destruct x |].
    intros. lia.
  - destruct (kalloc_frame s l Hi Hr) as (cp & km & Hk & Hi' & Hcp & Hul).
    rewrite (bind_done _ _ _ _ _ Hk). set (s1 := set k_kmem _ _) in *.
    rewrite (get_cont_bind _ _ x) by done. unfold MCONT in *.
    destruct (lookup_lt_is_Some_2 (ct_startAddr x) (Z.to_nat itr)) as [old Hold].
    { rewrite (co_start _ Hok). unfold MCONT. lia. }
    rewrite (at_bind _ _ _ _ old) by done. erewrite upd_cont_bind by done.
    match goal with |- context [addContainer_loop n c (itr + 1) ?st] => set (s2 := st) end.
    pose proof (lookup_lt_Some _ _ _ Hx) as Hcl.
    assert (Hr2 : kmem_ready s2).
    { destruct Hr as [Hcpu Hl]. split; [| done]. cbn. destruct Hcp as [-> | ->]; [done |].
      by apply sync_cpu_ok. }
    assert (Hi2 : kmem_inv s2 (tl l)) by (by destruct Hi').
    assert (Hx2 : k_conts s2 !! Z.to_nat c = Some (x <| ct_startAddr ::= <[Z.to_nat itr := hd 0 l]> |>)).
    { cbn. by apply list_lookup_insert_eq. }
    destruct (IH c (itr + 1) s2 (tl l) _ Hr2 Hi2 Hc Hx2) as
      (s' & x' & Hrun & Hinv & Heq & Hcpu & Hok' & Hxeq & Hnew & Hold').
    { destruct Hok as [? ? ?]. split; cbn; by rewrite ?length_insert. }
    { lia. }
    { lia. }
    replace (Z.to_nat (itr + 1)) with (S (Z.to_nat itr)) in * by lia.
    exists s', x'. split; [exact Hrun |]. split.
    { destruct l; [by rewrite drop_nil in * | done]. }
    split.
    { rewrite Heq. unfold s2, s1. kst_eq. by rewrite list_insert_insert_eq. }
    split.
    { destruct Hcpu as [-> | ->]; destruct Hcp as [-> | ->]; cbn; rewrite ?sync_cpu_idem; auto. }
    split; [done |]. split; [rewrite Hxeq; by destruct x |]. split.
    + intros [| k] Hk'.
      * rewrite Nat.add_0_r, Hold' by lia. cbn.
        rewrite list_lookup_insert_eq by (by eapply lookup_lt_Some).
        by destruct l.
      * replace (Z.to_nat itr + S k)%nat with (S (Z.to_nat itr) + k)%nat by lia.
        rewrite Hnew by lia. by destruct l as [| ? []]; destruct k.
    + intros k Hk'. rewrite Hold' by lia. cbn. by rewrite list_lookup_insert_ne by lia.
Qed.

(** creating a container gives it the next identifier and ten pages of the
    free list (null pointers once the list is exhausted, unchecked), owned by
    nobody else any more.  There is no test for [NCONT]: with ten containers
    the next call writes outside the table. *)
Theorem addContainer_spec s l n :
  ctable_ready s → LKmem ∉ k_held s → kmem_inv s l →
  containerNum (k_pv s) = Z.of_nat n → length (k_conts s) = NCONT →
  (∀ c, c ∈ k_conts s → cont_ok c) → (n ≤ NCONT)%nat →
  if decide (n < NCONT)%nat then
    ∃ s' c', addContainer s = Done tt s' ∧ k_held s' = k_held s ∧
      kmem_inv s' (drop MCONT l) ∧ containerNum (k_pv s') = Z.of_nat (S n) ∧
      k_conts s' = <[n := c']> (k_conts s) ∧ cont_ok c' ∧ ct_generatedProcess c' = 0 ∧
      ∀ k, (k < MCONT)%nat → ct_startAddr c' !! k = Some (nth k l 0)
  else ∃ w, addContainer s = Fault w.
Proof.
  intros [Hc Hl] Hlk Hi Hn Hlen Hok Hle. unfold addContainer, upd_pv. rewrite bind_modify.
  assert (Hi32 : i32 (Z.of_nat n + 1) = Z.of_nat (S n)).
  { rewrite i32_id; [lia |]. unfold is_i32, NCONT in *. lia. }
  rewrite acquire_bind by done. unfold totaleContainers. rewrite bind_gets.
  set (s1 := locked _ _).
  assert (Hn1 : containerNum (k_pv s1) = Z.of_nat (S n)) by (cbn; by rewrite Hn).
  rewrite Hn1. replace (Z.of_nat (S n) - 1) with (Z.of_nat n) by lia.
  case_decide as Hlt.
  - destruct (lookup_lt_is_Some_2 (k_conts s) n) as [c Hco]; [lia |].
    pose proof (Hok c (list_elem_of_lookup_2 _ _ _ Hco)) as Hcok.
    rewrite (upd_cont_bind _ _ _ c) by (lia || by rewrite Nat2Z.id).
    set (s2 := set k_conts _ _).
    assert (Hr2 : kmem_ready s2).
    { split; [by apply push_cpu_ok |]. by intros [? | ?]%elem_of_cons. }
    assert (Hi2 : kmem_inv s2 l) by (by destruct Hi).
    destruct (addContainer_loop_run MCONT (Z.of_nat n) 0 s2 l
      (c <| ct_generatedProcess := 0 |>) Hr2 Hi2) as
      (s3 & c' & Hrun & Hinv & Heq & Hcpu & Hok' & Hceq & Hnew & _); try lia.
    { rewrite Nat2Z.id. cbn. rewrite Nat2Z.id. apply list_lookup_insert_eq. lia. }
    { by destruct Hcok. }
    rewrite (bind_done _ _ _ _ _ Hrun).
    assert (Hcpu3 : k_cpu s3 = push_cpu (k_cpu s)).
    { destruct Hcpu as [-> | ->]; [done |]. cbn. by apply sync_push_cpu. }
    rewrite (release_run _ _ (k_cpu s) (k_held s)); [| done | done | by rewrite Heq | done].
    do 2 eexists. split; [done |]. split; [done |]. split; [by destruct Hinv |].
    split; [cbn; rewrite Heq; cbn; by rewrite Hn |].
    split; [cbn; rewrite Heq; cbn; rewrite Nat2Z.id; by rewrite list_insert_insert_eq |].
    split; [done |]. split; [by rewrite Hceq |]. exact Hnew.
  - eexists. apply bind_fault. unfold upd_cont, get_cont. rewrite bind_assoc, bind_gets.
    rewrite decide_True by lia. rewrite Nat2Z.id, lookup_ge_None_2; [reflexivity |].
    change (k_conts s1) with (k_conts s). lia.
Qed.
End container_spec.

Lemma cont0_ok : cont_ok cont0.
Proof. by split. Qed.

(** All ten pages of container 1 are out. *)
Lemma conalloc_spec_witness :
  conalloc 1 7 (running <| k_conts ::= alter (λ c, c <| ct_used := 10 |>) 1%nat |>)
    = Fault "startAddr[next]".
Proof.
  destruct (conalloc_spec 1 7 (running <| k_conts ::= alter (λ c, c <| ct_used := 10 |>) 1%nat |>)
    (cont0 <| ct_used := 10 |>)) as [_ H].
  - split; [done | set_solver].
  - lia.
  - reflexivity.
  - by split.
  - cbn. lia.
  - exact H.
Defined.

Lemma addContainer_spec_witness :
  ∃ s', addContainer two_pages = Done tt s' ∧ containerNum (k_pv s') = 1.
Proof.
  pose proof (@addContainer_spec linker_2M linker_2M_ok two_pages
    [KERNBASE + 0x201000; KERNBASE + 0x200000] 0) as H.
  rewrite decide_True in H by (unfold NCONT; lia).
  destruct H as (s' & c' & Hr & _ & _ & Hn & _).
  - split; [apply two_pages_ready | set_solver].
  - apply two_pages_ready.
  - apply two_pages_inv.
  - reflexivity.
  - reflexivity.
  - intros c Hc. change (k_conts two_pages) with (replicate NCONT cont0) in Hc.
    apply elem_of_replicate_inv in Hc as ->. apply cont0_ok.
  - unfold NCONT. lia.
  - exists s'. split; [exact Hr | exact Hn].
Defined.
