(* ===== verification/Sched.v ===== *)
(** * proc.c: the scheduler

    [scheduler] never returns: it repeats a pass over the containers.  A pass
    is a function here; what happens between [swtch] to a process and its
    [swtch] back is the argument [swtch_to]. *)
From S2P Require Import Prelude Mmu Cstring Kstate Spinlock Kalloc Vm Proc.

(** The scheduler's own variables that live across passes. *)
Record svars := mkSvars { curLocation : list Z; s_pid : Z }.
Definition svars0 : svars := mkSvars (replicate NCONT 0) (-1).

Section sched.
Context {LK : Linker}.
Context (swtch_to : nat → K unit).

(** [for(itr = curLocation; num < PROCESS_COUNT; itr++)]: the first occupied
    process slot from [itr] on, cyclically; [n] slots are left to look at.
    ([num] counts the empty slots seen, so it is [PROCESS_COUNT - n].) *)
Fixpoint pick (procs : list (option nat)) (n : nat) (itr : Z) : option (Z * nat) :=
  match n with
  | O => None
  | S n =>
      let itr := itr mod Z.of_nat PROCESS_COUNT in
      match procs !! Z.to_nat itr with
      | Some (Some i) => Some (itr, i)
      | _ => pick procs n (itr + 1)
      end
  end.

(** Choose the process of container [cntNum] that runs next. *)
Definition choose (cntNum : Z) (v : svars) : K svars :=
  acquire LCtable;;
  cur ← at_ "curLocation" (curLocation v) cntNum;
  c ← get_cont cntNum;
  v' ← match pick (ct_process c) PROCESS_COUNT cur with
       | Some (itr, i) =>
           p ← get_proc i;
           lg ← gets (λ s, scheduler_log (k_pv s));
           mwhen (negb (lg =? 0))
             (upd_cont cntNum (λ c, c <| ct_schedulerHelper ::= <[Z.to_nat itr := 1]> |>));;
           mret (mkSvars (<[Z.to_nat cntNum := itr + 1]> (curLocation v)) (p_pid p))
       | None => mret v
       end;
  release LCtable;;
  mret v'.

(** The table loop's body for entry [i]. *)
Definition eligible (cntNum pid : Z) (p : proc) : bool :=
  (negb (negb (p_pid p =? pid) && negb (cntNum =? 0)) &&
   (p_containerID p =? cntNum) && bool_decide (p_state p = RUNNABLE))%bool.
Definition run_entry (cntNum pid : Z) (i : nat) : K unit :=
  p ← get_proc i;
  if negb (eligible cntNum pid p) then mret tt else
  upd_cpu (λ c, c <| c_proc := Some i |>);;
  switchuvm (Some i);;
  upd_proc i (λ p, p <| p_state := RUNNING |>);;
  swtch_to i;;
  switchkvm;;
  upd_cpu (λ c, c <| c_proc := None |>).

Definition all_helped (c : container) : bool :=
  forallb (λ '(p, h), match p with Some _ => (h =? 1)%Z | None => true end)
    (combine (ct_process c) (ct_schedulerHelper c)).

(** The body of the loop over the containers. *)
Definition sched_container (cntNum : Z) (v : svars) : K svars :=
  sti;;
  v ← choose cntNum v;
  acquire LPtable;;
  mforM (run_entry cntNum (s_pid v)) (seq 0 NPROC);;
  release LPtable;;
  lg ← gets (λ s, scheduler_log (k_pv s));
  mwhen (negb (lg =? 0))
    (acquire LCtable;;
     c ← get_cont cntNum;
     mwhen (all_helped c) (upd_cont cntNum (λ c, c <| ct_done := 1 |>));;
     release LCtable);;
  mret v.

(** [for(cntNum = 0; cntNum < containerNum; cntNum++)]: the bound is read at
    every turn; [fuel] bounds the number of turns. *)
Fixpoint sched_containers (fuel : nat) (cntNum : Z) (v : svars) : K svars :=
  match fuel with
  | O => fault "scheduler: out of fuel"
  | S fuel =>
      n ← gets (λ s, containerNum (k_pv s));
      if cntNum <? n then
        v ← sched_container cntNum v; sched_containers fuel (cntNum + 1) v
      else mret v
  end.

Fixpoint all_done (cs : list Z) : K bool :=
  match cs with
  | [] => mret true
  | c :: cs => x ← get_cont c; if negb (ct_done x =? 1) then mret false else all_done cs
  end.
(** Once every container has run all its processes: switch the log off. *)
Definition sched_log_end : K unit :=
  lg ← gets (λ s, scheduler_log (k_pv s));
  mwhen (negb (lg =? 0))
    (acquire LCtable;;
     n ← gets (λ s, containerNum (k_pv s));
     ok ← all_done (Z.of_nat <$> seq 1 (Z.to_nat (n - 1)));
     release LCtable;;
     mwhen ok
       (upd_pv (λ v, v <| scheduler_log := 0 |>);;
        acquire LCtable;;
        mforM (λ c, upd_cont (Z.of_nat c) (λ x, x <| ct_done := 0 |>
                      <| ct_schedulerHelper := replicate PROCESS_COUNT 0 |>))
          (seq 1 (Z.to_nat (n - 1)));;
        release LCtable)).

Definition sched_pass (v : svars) : K svars :=
  v ← sched_containers (S NCONT) 0 v;
  sched_log_end;;
  mret v.

(** [scheduler] up to its [n]-th pass. *)
Fixpoint sched_passes (n : nat) (v : svars) : K svars :=
  match n with O => mret v | S n => v ← sched_pass v; sched_passes n v end.
Definition scheduler (n : nat) : K svars :=
  mycpu;;
  upd_cpu (λ c, c <| c_proc := None |>);;
  sched_passes n svars0.
End sched.

(** ** Round robin within a container *)

(** How far slot [j] is ahead of position [cur]. *)
Definition ahead (cur j : Z) : Z := (j - cur) mod Z.of_nat PROCESS_COUNT.

Lemma pick_spec procs n cur j i :
  0 ≤ j < Z.of_nat PROCESS_COUNT → procs !! Z.to_nat j = Some (Some i) →
  ahead cur j < Z.of_nat n →
  ∃ itr i', pick procs n cur = Some (itr, i') ∧
    0 ≤ itr < Z.of_nat PROCESS_COUNT ∧ procs !! Z.to_nat itr = Some (Some i') ∧
    (itr = j ∨ ahead (itr + 1) j < ahead cur j).
Proof.
  revert cur. induction n as [| n IH]; intros cur Hj Hi Hn.
  { unfold ahead, PROCESS_COUNT in *. zlia. }
  cbn [pick]. unfold ahead, PROCESS_COUNT in *. change (Z.of_nat 10) with 10 in *.
  destruct (procs !! Z.to_nat (cur mod 10)) as [[i' |] |] eqn:Hc.
  - exists (cur mod 10), i'. split; [done |]. split; [zlia |]. split; [done |]. zlia.
  - destruct (IH (cur mod 10 + 1)) as (itr & i' & Hp & Hr & Ho & Hd); [done | done | |].
    + assert (cur mod 10 ≠ j) by (intros Hx; rewrite Hx in Hc; congruence). zlia.
    + exists itr, i'. split_and!; [done | lia | lia | done |]. destruct Hd; [by left | right].
      assert (cur mod 10 ≠ j) by (intros Hx; rewrite Hx in Hc; congruence). zlia.
  - destruct (IH (cur mod 10 + 1)) as (itr & i' & Hp & Hr & Ho & Hd); [done | done | |].
    + assert (cur mod 10 ≠ j) by (intros Hx; rewrite Hx in Hc; congruence). zlia.
    + exists itr, i'. split_and!; [done | lia | lia | done |]. destruct Hd; [by left | right].
      assert (cur mod 10 ≠ j) by (intros Hx; rewrite Hx in Hc; congruence). zlia.
Qed.

Section sched_spec.
Context {LK : Linker}.
Context (swtch_to : nat → K unit).

(** the scheduler respects containers: at a table entry it either passes
    on without any effect, or the entry is a RUNNABLE process of the container
    being scheduled (and, outside container 0, the one that was chosen), and it
    runs that process: RUNNING, current on this CPU, with the process's own
    page table and kernel stack loaded, no other entry changed. *)
Theorem run_entry_isolated cnt pid i s p :
  cpu_ok (k_cpu s) → k_procs s !! i = Some p → p_kstack p ≠ 0 → p_pgdir p ≠ 0 →
  run_entry swtch_to cnt pid i s = Done tt s ∨
  (p_state p = RUNNABLE ∧ p_containerID p = cnt ∧ (cnt ≠ 0 → p_pid p = pid) ∧
   ∃ s1, run_entry swtch_to cnt pid i s =
       (swtch_to i;; switchkvm;; upd_cpu (λ c, c <| c_proc := None |>)) s1 ∧
     c_proc (k_cpu s1) = Some i ∧ cr3 (k_cpu s1) = V2P (p_pgdir p) ∧
     ts_esp0 (k_cpu s1) = u32 (p_kstack p + KSTACKSIZE) ∧
     k_procs s1 = <[i := p <| p_state := RUNNING |>]> (k_procs s) ∧
     k_held s1 = k_held s ∧ ncli (k_cpu s1) = ncli (k_cpu s)).
Proof.
  intros Hc Hp Hk Hd. unfold run_entry. rewrite (get_proc_bind _ _ p) by done.
  destruct (eligible cnt pid p) eqn:He; cbn [negb]; [right | by left].
  unfold eligible in He. rewrite !andb_true_iff, negb_true_iff, andb_false_iff in He.
  destruct He as [[Hpid Hcnt%Z.eqb_eq] Hst%bool_decide_eq_true].
  split; [done |]. split; [done |]. split.
  { intros Hne. destruct Hpid as [Hpid | Hz].
    - apply negb_false_iff in Hpid. by apply Z.eqb_eq in Hpid.
    - apply negb_false_iff in Hz. by apply Z.eqb_eq in Hz. }
  rewrite upd_cpu_bind.
  erewrite bind_done.
  2: { apply (switchuvm_run i p); [exact Hc | exact Hp | done | done]. }
  erewrite upd_proc_bind by exact Hp.
  eexists. split; [reflexivity |]. split_and!; done.
Qed.

Lemma choose_run cnt v s c cur :
  0 ≤ cnt → cpu_ok (k_cpu s) → LCtable ∉ k_held s →
  curLocation v !! Z.to_nat cnt = Some cur → k_conts s !! Z.to_nat cnt = Some c →
  (∀ itr i, pick (ct_process c) PROCESS_COUNT cur = Some (itr, i) → is_Some (k_procs s !! i)) →
  ∃ v' s', choose cnt v s = Done v' s' ∧ k_held s' = k_held s ∧ k_procs s' = k_procs s ∧
    match pick (ct_process c) PROCESS_COUNT cur with
    | Some (itr, i) => ∃ p, k_procs s !! i = Some p ∧
        v' = mkSvars (<[Z.to_nat cnt := itr + 1]> (curLocation v)) (p_pid p) ∧
        k_conts s' = if scheduler_log (k_pv s) =? 0 then k_conts s
          else <[Z.to_nat cnt := c <| ct_schedulerHelper ::= <[Z.to_nat itr := 1]> |>]>
                 (k_conts s)
    | None => v' = v ∧ k_conts s' = k_conts s
    end.
Proof.
  intros Hcnt Hc Hl Hcur Hco Hps. unfold choose. rewrite acquire_bind by done.
  rewrite (at_bind _ _ _ _ cur) by done. rewrite (get_cont_bind _ _ c) by done.
  destruct (pick _ _ cur) as [[itr i] |].
  - destruct (Hps itr i eq_refl) as [p Hp]. rewrite bind_assoc, (get_proc_bind _ _ p) by done.
    rewrite bind_assoc, bind_gets. change (k_pv (locked LCtable s)) with (k_pv s).
    destruct (scheduler_log (k_pv s) =? 0); cbn [negb mwhen].
    + rewrite bind_assoc, bind_ret, bind_ret, (release_bind _ _ _ (k_cpu s) (k_held s)) by done.
      do 2 eexists. split; [done |]. split; [done |]. split; [done |]. by exists p.
    + rewrite bind_assoc, (upd_cont_bind _ _ _ c), bind_ret by done.
      rewrite (release_bind _ _ _ (k_cpu s) (k_held s)) by done.
      do 2 eexists. split; [done |]. split; [done |]. split; [done |]. by exists p.
  - rewrite bind_ret, (release_bind _ _ _ (k_cpu s) (k_held s)) by done.
    do 2 eexists. split; [done |]. done.
Qed.
(** ** The end of a logging round *)
Lemma all_done_run cs s :
  Forall (λ c, 0 ≤ c < Z.of_nat (length (k_conts s))) cs →
  all_done cs s = Done (forallb (λ c, bool_decide
    (ct_done <$> k_conts s !! Z.to_nat c = Some 1)) cs) s.
Proof.
  induction 1 as [| c cs Hc _ IH]; [done |]. cbn [all_done forallb].
  destruct (lookup_lt_is_Some_2 (k_conts s) (Z.to_nat c)) as [x Hx]; [lia |].
  rewrite (get_cont_bind _ _ x) by (lia || done). rewrite Hx. cbn [fmap option_fmap option_map].
  destruct (Z.eqb_spec (ct_done x) 1) as [-> | Hne]; cbn [negb].
  - by rewrite bool_decide_eq_true_2, IH by done.
  - by rewrite bool_decide_eq_false_2 by congruence.
Qed.

Lemma upd_conts_run f n : ∀ a s,
  (a + n ≤ length (k_conts s))%nat →
  ∃ cs, mforM (λ c, upd_cont (Z.of_nat c) f) (seq a n) s = Done tt (s <| k_conts := cs |>) ∧
    ∀ c, cs !! c = if decide (a ≤ c < a + n)%nat then f <$> k_conts s !! c
                   else k_conts s !! c.
Proof.
  induction n as [| n IH]; intros a s Hn; cbn [seq mforM].
  - exists (k_conts s). split; [unfold mret, M_ret; kst_eq |].
    intros c. by rewrite decide_False by lia.
  - destruct (lookup_lt_is_Some_2 (k_conts s) a) as [x Hx]; [lia |].
    rewrite (upd_cont_bind _ _ _ x) by (lia || by rewrite Nat2Z.id). rewrite Nat2Z.id.
    destruct (IH (S a) (s <| k_conts ::= <[a := f x]> |>)) as (cs & Hr & Hcs).
    { cbn. rewrite length_insert. lia. }
    exists cs. rewrite Hr. split; [kst_eq |]. intros c. rewrite Hcs. cbn.
    destruct (decide (c = a)) as [-> |].
    + rewrite decide_False, decide_True, Hx, list_lookup_insert_eq by lia. done.
    + rewrite list_lookup_insert_ne by done. repeat case_decide; lia || done.
Qed.

(** the log protocol: while logging, the end of a scheduling pass either
    finds a container (from 1 on) that is not done yet and changes nothing in
    the table, or switches the log off and clears the [done] and
    [schedulerHelper] fields of the containers 1 to [containerNum - 1]. *)
Theorem sched_log_end_spec s n :
  cpu_ok (k_cpu s) → LCtable ∉ k_held s → scheduler_log (k_pv s) ≠ 0 →
  containerNum (k_pv s) = Z.of_nat n → (1 ≤ n ≤ length (k_conts s))%nat →
  ∃ s', sched_log_end s = Done tt s' ∧ k_held s' = k_held s ∧
    (((∃ c, (1 ≤ c < n)%nat ∧ ct_done <$> k_conts s !! c ≠ Some 1) ∧
      k_conts s' = k_conts s ∧ k_pv s' = k_pv s) ∨
     ((∀ c, (1 ≤ c < n)%nat → ct_done <$> k_conts s !! c = Some 1) ∧
      k_pv s' = (k_pv s) <| scheduler_log := 0 |> ∧
      ∀ c, k_conts s' !! c =
        if decide (1 ≤ c < n)%nat
        then (λ x, x <| ct_done := 0 |> <| ct_schedulerHelper := replicate PROCESS_COUNT 0 |>)
               <$> k_conts s !! c
        else k_conts s !! c)).
Proof.
  intros Hc Hl Hlog Hn Hlen. unfold sched_log_end. rewrite bind_gets.
  destruct (Z.eqb_spec (scheduler_log (k_pv s)) 0); [done |]. cbn [negb mwhen].
  rewrite acquire_bind, bind_gets by done.
  change (k_pv (locked LCtable s)) with (k_pv s). rewrite Hn.
  replace (Z.to_nat (Z.of_nat n - 1)) with (n - 1)%nat by lia.
  assert (Hin : Forall (λ c, 0 ≤ c < Z.of_nat (length (k_conts (locked LCtable s))))
    (Z.of_nat <$> seq 1 (n - 1))).
  { apply Forall_forall. intros z (c & -> & Hz%elem_of_seq)%list_elem_of_fmap. cbn. lia. }
  rewrite (bind_done _ _ _ _ _ (all_done_run _ _ Hin)).
  rewrite (release_bind _ _ _ (k_cpu s) (k_held s)) by done.
  change (k_conts (locked LCtable s)) with (k_conts s).
  set (s1 := set k_held _ _). destruct (forallb _ _) eqn:Hall; cbn [mwhen].
  - unfold upd_pv. rewrite bind_modify.
    rewrite acquire_bind by (apply sync_cpu_ok, Hc || exact Hl).
    set (s2 := locked _ _).
    destruct (upd_conts_run (λ x, x <| ct_done := 0 |>
      <| ct_schedulerHelper := replicate PROCESS_COUNT 0 |>) (n - 1) 1 s2) as (cs & Hr & Hcs).
    { cbn. lia. }
    rewrite (bind_done _ _ _ _ _ Hr).
    rewrite (release_run _ _ (sync_cpu (k_cpu s)) (k_held s))
      by (done || apply sync_cpu_ok, Hc).
    eexists. split; [done |]. split; [done |]. right. split_and!.
    + intros c Hcn. apply (forallb_true_all _ _ (Z.of_nat c)) in Hall.
      * by rewrite bool_decide_eq_true, Nat2Z.id in Hall.
      * apply list_elem_of_fmap. exists c. split; [done |]. apply elem_of_seq. lia.
    + done.
    + intros c. cbn. rewrite Hcs. replace (1 + (n - 1))%nat with n by lia. done.
  - eexists. split; [done |]. split; [done |]. left. split; [| done].
    apply forallb_false_ex in Hall as (z & (c & -> & Hc')%list_elem_of_fmap & Hz).
    apply elem_of_seq in Hc'. rewrite bool_decide_eq_false, Nat2Z.id in Hz.
    exists c. split; [lia | done].
Qed.
End sched_spec.

(** ** Round robin *)

(** A turn of another container leaves this one's position alone. *)
Lemma choose_other c cnt v s v' s' :
  0 ≤ c → 0 ≤ cnt → c ≠ cnt → choose c v s = Done v' s' →
  curLocation v' !! Z.to_nat cnt = curLocation v !! Z.to_nat cnt.
Proof.
  intros Hc Hcnt Hne H. unfold choose in H.
  apply bind_inv_done in H as ([] & s1 & _ & H). apply bind_inv_done in H as (cur & s2 & _ & H).
  apply bind_inv_done in H as (x & s3 & _ & H). apply bind_inv_done in H as (w & s4 & Hw & H).
  apply bind_inv_done in H as ([] & s5 & _ & H). unfold mret, M_ret in H. simplify_eq.
  destruct (pick _ _ cur) as [[itr i] |]; [| unfold mret, M_ret in Hw; by simplify_eq].
  apply bind_inv_done in Hw as (p & s6 & _ & Hw). apply bind_inv_done in Hw as (lg & s7 & _ & Hw).
  apply bind_inv_done in Hw as ([] & s8 & _ & Hw). unfold mret, M_ret in Hw. simplify_eq. cbn [curLocation].
  apply list_lookup_insert_ne. lia.
Qed.

(** The scheduler's variables between two turns of container [cnt]: the turns of
    the others. *)
Inductive others_turns (cnt : Z) : svars → svars → Prop :=
  | ot_none v : others_turns cnt v v
  | ot_turn c v s v' s' v'' : 0 ≤ c → c ≠ cnt → choose c v s = Done v' s' → others_turns cnt v' v'' →
      others_turns cnt v v''.
Lemma others_location cnt v v' :
  0 ≤ cnt → others_turns cnt v v' → curLocation v' !! Z.to_nat cnt = curLocation v !! Z.to_nat cnt.
Proof. intros Hcnt. induction 1 as [| c v s v' s' v'' Hc Hne Hch _ IH]; [done |]. rewrite IH. by eapply choose_other. Qed.

(** What the scheduler finds when it comes to container [cnt]. *)
Record turn_ready (cnt : Z) (procs : list (option nat)) (s : kst) : Prop := {
  tr_cpu : cpu_ok (k_cpu s);
  tr_lock : LCtable ∉ k_held s;
  tr_procs : ct_process <$> k_conts s !! Z.to_nat cnt = Some procs;
  tr_table i : Some i ∈ procs → is_Some (k_procs s !! i) }.

(** One turn: an occupied slot, and either the one looked for or one that brings
    it nearer. *)
Lemma choose_nearer cnt procs v s cur j i :
  0 ≤ cnt → turn_ready cnt procs s → curLocation v !! Z.to_nat cnt = Some cur →
  0 ≤ j < Z.of_nat PROCESS_COUNT → procs !! Z.to_nat j = Some (Some i) →
  ∃ v' s' i' p, choose cnt v s = Done v' s' ∧ Some i' ∈ procs ∧ k_procs s !! i' = Some p ∧ s_pid v' = p_pid p ∧
    ∃ cur', curLocation v' !! Z.to_nat cnt = Some cur' ∧ (i' = i ∨ ahead cur' j < ahead cur j).
Proof.
  intros Hcnt [Hc Hl Hps Htab] Hcur Hj Hi.
  destruct (pick_spec procs PROCESS_COUNT cur j i) as (itr & i' & Hp & Hr & Ho & Hst);
    [done | done | unfold ahead, PROCESS_COUNT; zlia |].
  apply fmap_Some in Hps as (c & Hco & ->).
  destruct (choose_run cnt v s c cur) as (v' & s' & Hrun & _ & _ & Hm); try done.
  { intros itr' i'' Hp'. apply Htab. rewrite Hp in Hp'. injection Hp' as <- <-. by eapply list_elem_of_lookup_2. }
  rewrite Hp in Hm. destruct Hm as (p & Hpi & -> & _).
  exists (mkSvars (<[Z.to_nat cnt := itr + 1]> (curLocation v)) (p_pid p)), s', i', p.
  split; [done |]. split; [by eapply list_elem_of_lookup_2 |]. split; [done |]. split; [done |].
  exists (itr + 1). split; [apply list_lookup_insert_eq; by eapply lookup_lt_Some |].
  destruct Hst as [-> | Hlt]; [left | by right]. congruence.
Qed.

(** C38: no starvation within a container.  Let the scheduler come to container
    [cnt] again and again, [v k] its variables and [σ k] the state it finds at the
    [k]-th time; the container's process list is the same each time, everything
    else may have changed, and in between the scheduler has had turns of other
    containers.  Every turn chooses the pid of an occupied slot, and within
    [PROCESS_COUNT] turns it is the one of any slot [j] that is occupied. *)
Theorem round_robin cnt procs j i (v : nat → svars) (σ : nat → kst) :
  0 ≤ cnt → 0 ≤ j < Z.of_nat PROCESS_COUNT → procs !! Z.to_nat j = Some (Some i) →
  is_Some (curLocation (v O) !! Z.to_nat cnt) →
  (∀ k, turn_ready cnt procs (σ k)) →
  (∀ k v' s', choose cnt (v k) (σ k) = Done v' s' → others_turns cnt v' (v (S k))) →
  (∀ k, ∃ v' s' i' p, choose cnt (v k) (σ k) = Done v' s' ∧ Some i' ∈ procs ∧ k_procs (σ k) !! i' = Some p ∧
     s_pid v' = p_pid p) ∧
  ∃ k v' s' p, (k < PROCESS_COUNT)%nat ∧ choose cnt (v k) (σ k) = Done v' s' ∧ k_procs (σ k) !! i = Some p ∧
    s_pid v' = p_pid p.
Proof.
  intros Hcnt Hj Hi H0 Hr Hv.
  assert (∀ k, is_Some (curLocation (v k) !! Z.to_nat cnt)) as Hcur.
  { induction k as [| k [cur IH]]; [done |].
    destruct (choose_nearer cnt procs (v k) (σ k) cur j i) as (v' & s' & i' & p & Hch & _ & _ & _ & cur' & Hc & _); try done.
    rewrite (others_location cnt v'); [by eexists | done | by eapply Hv]. }
  split.
  { intros k. destruct (Hcur k) as [cur Hk].
    destruct (choose_nearer cnt procs (v k) (σ k) cur j i) as (v' & s' & i' & p & Hch & Hin & Hp & Hpid & _); try done.
    by exists v', s', i', p. }
  assert (∀ d k cur, curLocation (v k) !! Z.to_nat cnt = Some cur → ahead cur j < Z.of_nat d →
    ∃ k' v' s' p, (k ≤ k' < k + d)%nat ∧ choose cnt (v k') (σ k') = Done v' s' ∧ k_procs (σ k') !! i = Some p ∧
      s_pid v' = p_pid p) as Hgen.
  { induction d as [| d IH]; intros k cur Hk Hd; [unfold ahead, PROCESS_COUNT in Hd; zlia |].
    destruct (choose_nearer cnt procs (v k) (σ k) cur j i) as (v' & s' & i' & p & Hch & _ & Hp & Hpid & cur' & Hc & Hn);
      try done.
    destruct Hn as [-> | Hlt]; [exists k, v', s', p; split; [lia | done] |].
    destruct (IH (S k) cur') as (k' & v2 & s2 & p2 & Hk' & Hrest); [| lia |].
    - rewrite (others_location cnt v'); [done | done | by eapply Hv].
    - exists k', v2, s2, p2. split; [lia | done]. }
  destruct H0 as [cur H0]. destruct (Hgen PROCESS_COUNT O cur H0) as (k & v' & s' & p & Hk & Hrest).
  { unfold ahead, PROCESS_COUNT. zlia. }
  exists k, v', s', p. split; [lia | done].
Qed.

(** A container with two processes, of pids 7 and 9. *)
Definition two_slots : list (option nat) := [Some 0%nat; None; Some 1%nat; None; None; None; None; None; None; None].
Definition two_in_container : kst :=
  running <| k_procs := [proc0 <| p_pid := 7 |>; proc0 <| p_pid := 9 |>] |>
          <| k_conts ::= <[1%nat := cont0 <| ct_process := two_slots |>]> |>.
Fixpoint turn_by_turn (n : nat) : svars :=
  match n with
  | O => svars0
  | S n => match choose 1 (turn_by_turn n) two_in_container with Done v _ => v | _ => svars0 end
  end.
Lemma round_robin_witness :
  ∃ k v' s', (k < PROCESS_COUNT)%nat ∧ choose 1 (turn_by_turn k) two_in_container = Done v' s' ∧ s_pid v' = 9.
Proof.
  destruct (round_robin 1 two_slots 2 1 turn_by_turn (λ _, two_in_container))
    as (_ & k & v' & s' & p & Hk & Hch & Hp & Hpid).
  - lia.
  - unfold PROCESS_COUNT. lia.
  - reflexivity.
  - by eexists.
  - intros _. split; [by split | by intros ?%elem_of_nil | reflexivity |].
    intros i Hi. unfold two_slots in Hi. rewrite !elem_of_cons, elem_of_nil in Hi.
    destruct_or! Hi; simplify_eq; by eexists.
  - intros k v' s' Hch. cbn [turn_by_turn]. rewrite Hch. constructor.
  - exists k, v', s'. split; [exact Hk |]. split; [exact Hch |]. rewrite Hpid. by injection Hp as <-.
Defined.

Lemma run_entry_isolated_witness :
  ∃ s1, c_proc (k_cpu s1) = Some 0%nat ∧
    run_entry (LK := linker_2M) (λ _, mret tt) 2 7 0
      (running <| k_procs := [proc0 <| p_pid := 7 |> <| p_state := RUNNABLE |>
        <| p_containerID := 2 |> <| p_kstack := 4096 |> <| p_pgdir := 8192 |>] |>) =
    (switchkvm;; upd_cpu (λ c, c <| c_proc := None |>)) s1.
Proof.
  destruct (run_entry_isolated (LK := linker_2M) (λ _, mret tt) 2 7 0
    (running <| k_procs := [proc0 <| p_pid := 7 |> <| p_state := RUNNABLE |>
        <| p_containerID := 2 |> <| p_kstack := 4096 |> <| p_pgdir := 8192 |>] |>)
    (proc0 <| p_pid := 7 |> <| p_state := RUNNABLE |>
        <| p_containerID := 2 |> <| p_kstack := 4096 |> <| p_pgdir := 8192 |>))
    as [H | (_ & _ & _ & s1 & H & Hc & _)].
  - by split.
  - reflexivity.
  - done.
  - done.
  - exfalso. apply (f_equal (λ o, match o with Done _ s => k_procs s | _ => [] end)) in H.
    vm_compute in H. discriminate H.
  - exists s1. split; [exact Hc | exact H].
Defined.

Lemma sched_log_end_spec_witness :
  ∃ s', sched_log_end (running <| k_pv ::= λ v, v <| scheduler_log := 1 |>
      <| containerNum := 1 |> |>) = Done tt s' ∧ scheduler_log (k_pv s') = 0.
Proof.
  destruct (sched_log_end_spec (running <| k_pv ::= λ v, v <| scheduler_log := 1 |>
      <| containerNum := 1 |> |>) 1) as (s' & Hr & _ & [[(c & Hc & _) _] | (_ & Hpv & _)]).
  - by split.
  - set_solver.
  - done.
  - reflexivity.
  - cbn. lia.
  - exfalso. lia.
  - exists s'. split; [exact Hr |]. rewrite Hpv. reflexivity.
Defined.
