(* ===== verification/Fork.v ===== *)
(** * proc.c: the life of a process

    [userinit], [growproc], [fork], [exit], [wait] and [joinContainer].  They
    use the file system through the interface [FileOps]. *)
From S2P Require Import Prelude Mmu Cstring Kstate Spinlock Kalloc Vm Proc.

(** What the process code calls of the file system (file.c, fs.c, log.c); the
    instance is in [File.v]. *)
Module FileApi.
Class FileOps := {
  filedup : nat → K unit;
  fileclose : nat → K unit;
  idup : nat → K unit;
  iput : nat → K unit;
  begin_op : K unit;
  end_op : K unit;
  namei : list Z → K (option nat)
}.
End FileApi.

Section fork.
Context {LK : Linker} {FO : FileApi.FileOps}.

(** The boot blob that becomes the first process's memory. *)
Definition userinit (initcode_start initcode_size : Z) : K unit :=
  op ← allocproc;
  i ← deref "userinit: no process" op;
  upd_proc i (λ p, p <| p_containerID := 0 |>);;
  upd_pv (λ v, v <| initproc := Some i |>);;
  d ← setupkvm;
  upd_proc i (λ p, p <| p_pgdir := d |>);;
  if d =? 0 then panic "userinit: out of memory?" else
  inituvm d initcode_start initcode_size;;
  upd_proc i (λ p, p <| p_sz := PGSIZE |>);;
  let ucode := Z.lor (Z.shiftl SEG_UCODE 3) DPL_USER in
  let udata := Z.lor (Z.shiftl SEG_UDATA 3) DPL_USER in
  upd_proc i (λ p, p <| p_tf := tf0 <| tf_cs := ucode |> <| tf_ds := udata |>
    <| tf_es := udata |> <| tf_ss := udata |> <| tf_eflags := FL_IF |>
    <| tf_esp := PGSIZE |> <| tf_eip := 0 |> |>);;
  upd_proc i (λ p, p <| p_name ::= λ n, safestrcpy_into n (bytes "initcode") 16 |>);;
  c ← FileApi.namei (bytes "/");
  upd_proc i (λ p, p <| p_cwd := c |>);;
  acquire LPtable;;
  upd_proc i (λ p, p <| p_state := RUNNABLE |>);;
  release LPtable;;
  upd_pv (λ v, v <| containerNum := 1 |>);;
  acquire LCtable;;
  mforM (λ c, upd_cont (Z.of_nat c) (λ c, c <| ct_state := BLANK |> <| ct_used := 0 |>
      <| ct_process := replicate PROCESS_COUNT None |>
      <| ct_schedulerHelper := replicate PROCESS_COUNT 0 |> <| ct_done := 0 |>))
    (seq 0 NCONT);;
  upd_cont 0 (λ c, c <| ct_state := WORKING |>);;
  upd_cont 0 (λ c, c <| ct_generatedProcess := 1 |>);;
  upd_cont 0 (λ c, c <| ct_process ::= <[0%nat := Some i]> |>);;
  release LCtable.

Definition curproc : K nat :=
  op ← myproc; deref "no current process" op.

Definition growproc (n : Z) : K Z :=
  i ← curproc;
  p ← get_proc i;
  let sz := p_sz p in
  r ← (if n >? 0 then
         sz' ← allocuvm (p_pgdir p) sz (u32 (sz + n));
         mret (if sz' =? 0 then None else Some sz')
       else if n <? 0 then
         sz' ← deallocuvm (p_pgdir p) sz (u32 (sz + n));
         mret (if sz' =? 0 then None else Some sz')
       else mret (Some sz));
  match r with
  | None => mret (-1)
  | Some sz => upd_proc i (λ p, p <| p_sz := sz |>);; switchuvm (Some i);; mret 0
  end.

(** Undo [allocproc]: [kfree(np->kstack); np->kstack = 0; np->state = UNUSED]. *)
Definition drop_proc (np : nat) : K unit :=
  p ← get_proc np;
  kfree (p_kstack p);;
  upd_proc np (λ p, p <| p_kstack := 0 |>);;
  upd_proc np (λ p, p <| p_state := UNUSED |>).

(** Enter [np] in the first empty process slot of a container; [false]: full. *)
Definition add_to_container (c : Z) (np : nat) (verbose : bool) : K bool :=
  acquire LCtable;;
  x ← get_cont c;
  r ← match find_idx (λ o, bool_decide (o = None)) (ct_process x) with
      | Some k =>
          mwhen verbose (cprintf "Forked at id : %d\n" [PInt (Z.of_nat k)]);;
          upd_cont c (λ x, x <| ct_process ::= <[k := Some np]> |>);;
          upd_cont c (λ x, x <| ct_generatedProcess ::= λ n, i32 (n + 1) |>);;
          mret true
      | None => mret false
      end;
  release LCtable;;
  mret r.

(** for(i = 0; i < NOFILE; i++) if(curproc->ofile[i]) np->ofile[i] = filedup(...) *)
Fixpoint dup_files (np : nat) (i : nat) (fs : list (option nat)) : K unit :=
  match fs with
  | [] => mret tt
  | o :: fs =>
      match o with
      | Some f => FileApi.filedup f;; upd_proc np (λ p, p <| p_ofile ::= <[i := Some f]> |>)
      | None => mret tt
      end;;
      dup_files np (S i) fs
  end.

(** The part [fork] and [joinContainer] have in common: what the child
    inherits from [cur], and making it RUNNABLE in container [c]. *)
Definition inherit (cur np : nat) (c : Z) : K Z :=
  me ← get_proc cur;
  upd_proc np (λ p, p <| p_sz := p_sz me |>);;
  upd_proc np (λ p, p <| p_parent := Some cur |>);;
  upd_proc np (λ p, p <| p_tf := p_tf me |>);;
  upd_proc np (λ p, p <| p_containerID := c |>);;
  upd_proc np (λ p, p <| p_tf ::= λ tf, tf <| tf_eax := 0 |> |>);;
  dup_files np 0 (p_ofile me);;
  cwd ← deref "idup(0)" (p_cwd me);
  FileApi.idup cwd;;
  upd_proc np (λ p, p <| p_cwd := Some cwd |>);;
  upd_proc np (λ p, p <| p_name ::= λ n, safestrcpy_into n (p_name me) 16 |>);;
  p ← get_proc np;
  let pid := p_pid p in
  acquire LPtable;;
  upd_proc np (λ p, p <| p_state := RUNNABLE |>);;
  release LPtable;;
  mret pid.

Definition fork : K Z :=
  cur ← curproc;
  onp ← allocproc;
  match onp with
  | None => mret (-1)
  | Some np =>
      me ← get_proc cur;
      d ← copyuvm (p_pgdir me) (p_sz me);
      upd_proc np (λ p, p <| p_pgdir := d |>);;
      if d =? 0 then drop_proc np;; mret (-1) else
      ok ← (if negb (p_containerID me =? 0)
            then add_to_container (p_containerID me) np (p_containerID me =? 0) else mret true);
      if negb ok then
        drop_proc np;;
        cprintf "Container - FULL  %d \n" [PInt (p_containerID me)];;
        mret (-2)
      else inherit cur np (p_containerID me)
  end.

Fixpoint close_files (cur fd : nat) (n : nat) : K unit :=
  match n with
  | O => mret tt
  | S n =>
      p ← get_proc cur;
      match p_ofile p !! fd with
      | Some (Some f) =>
          FileApi.fileclose f;; upd_proc cur (λ p, p <| p_ofile ::= <[fd := None]> |>)
      | _ => mret tt
      end;;
      close_files cur (S fd) n
  end.

(** Hand one abandoned child to init. *)
Definition reparent (cur : nat) (j : nat) : K unit :=
  p ← get_proc j;
  mwhen (bool_decide (p_parent p = Some cur))
    (ini ← gets (λ s, initproc (k_pv s));
     upd_proc j (λ p, p <| p_parent := ini |>);;
     mwhen (bool_decide (p_state p = ZOMBIE)) (wakeup1 (CProc <$> ini))).

(** [exit] closes the open files and leaves the current directory... *)
Definition exit_files (cur : nat) : K unit :=
  close_files cur 0 NOFILE;;
  FileApi.begin_op;;
  p ← get_proc cur;
  cwd ← deref "iput(0)" (p_cwd p);
  FileApi.iput cwd;;
  FileApi.end_op;;
  upd_proc cur (λ p, p <| p_cwd := None |>).
(** ... and then tells its family and disappears. *)
Definition exit_rest {A} (cur : nat) : K A :=
  acquire LPtable;;
  p ← get_proc cur;
  wakeup1 (CProc <$> p_parent p);;
  mforM (reparent cur) (seq 0 NPROC);;
  upd_proc cur (λ p, p <| p_state := ZOMBIE |>);;
  sched;;
  panic "zombie exit".
Definition exit {A} : K A :=
  cur ← curproc;
  ini ← gets (λ s, initproc (k_pv s));
  if bool_decide (Some cur = ini) then panic "init exiting" else
  exit_files cur;;
  exit_rest cur.

Definition is_child (cur : nat) (p : proc) : bool := bool_decide (p_parent p = Some cur).
Definition is_zombie (p : proc) : bool := bool_decide (p_state p = ZOMBIE).

(** Free the zombie in slot [i]; its pid. *)
Definition reap (i : nat) : K Z :=
  p ← get_proc i;
  let pid := p_pid p in
  kfree (p_kstack p);;
  upd_proc i (λ p, p <| p_kstack := 0 |>);;
  freevm (p_pgdir p);;
  upd_proc i (λ p, p <| p_pid := 0 |>);;
  upd_proc i (λ p, p <| p_parent := None |>);;
  upd_proc i (λ p, p <| p_name ::= <[0%nat := 0]> |>);;
  upd_proc i (λ p, p <| p_killed := 0 |>);;
  upd_proc i (λ p, p <| p_state := UNUSED |>);;
  release LPtable;;
  mret pid.

(** [fuel] bounds the number of times the caller is woken up. *)
Fixpoint wait_loop (fuel : nat) (cur : nat) : K Z :=
  match fuel with
  | O => fault "wait: out of fuel"
  | S fuel =>
      ps ← gets k_procs;
      match find_idx (λ p, is_child cur p && is_zombie p)%bool ps with
      | Some i => reap i
      | None =>
          me ← get_proc cur;
          if (negb (existsb (is_child cur) ps) || negb (p_killed me =? 0))%bool
          then release LPtable;; mret (-1)
          else sleep (CProc cur) LPtable;; wait_loop fuel cur
      end
  end.
Definition wait (fuel : nat) : K Z :=
  cur ← curproc;
  acquire LPtable;;
  wait_loop fuel cur.

(** ** Joining a container *)

(** offsetof(struct proc, pid) *)
Definition off_pid : Z := 16.
(** [process[i]->pid]; with [process[i] == 0] the load is from address 16, in the
    user memory of the process whose page table is loaded. *)
Definition slot_pid (o : option nat) : K Z :=
  match o with
  | Some j => p ← get_proc j; mret (p_pid p)
  | None => v ← ldw off_pid; mret (i32 v)
  end.

(** Take the caller out of its container's process list; whether it was there. *)
Fixpoint leave_loop (n : nat) (c parentpid : Z) (i : Z) : K bool :=
  match n with
  | O => mret false
  | S n =>
      x ← get_cont c;
      o ← at_ "process[i]" (ct_process x) i;
      q ← slot_pid o;
      if q =? parentpid then
        upd_cont c (λ x, x <| ct_process ::= <[Z.to_nat i := None]> |>);;
        upd_cont c (λ x, x <| ct_generatedProcess ::= λ n, i32 (n - 1) |>);;
        mret true
      else leave_loop n c parentpid (i + 1)
  end.

Definition joinContainer (containerID : Z) : K Z :=
  cur ← curproc;
  me ← get_proc cur;
  let parentpid := p_pid me in
  upd_pv (λ v, v <| allocFor := containerID |>);;
  onp ← allocproc;
  match onp with
  | None => mret (-1)
  | Some np =>
      upd_pv (λ v, v <| allocFor := 0 |>);;
      me ← get_proc cur;
      d ← copyuvm (p_pgdir me) (p_sz me);
      upd_proc np (λ p, p <| p_pgdir := d |>);;
      if d =? 0 then drop_proc np;; mret (-1) else
      ok ← add_to_container containerID np false;
      if negb ok then
        drop_proc np;; cprintf "Container FULL\n" [];; mret (-2)
      else
      inherit cur np containerID;;
      me ← get_proc cur;
      cprintf "KILLED pid : %d \n" [PInt (p_pid me)];;
      acquire LCtable;;
      leave_loop PROCESS_COUNT (p_containerID me) parentpid 0;;
      release LCtable;;
      exit
  end.
End fork.
