(* ===== verification/Life.v ===== *)
(** * proc.c, specified: the end of a process

    What [exit] does to the exiting process and to its family, and what [wait]
    finds, frees and returns. *)
From S2P Require Import Prelude Mmu Cstring Kstate Spinlock Kalloc Vm Proc Pagetable Uvm Fork.

Section life.
Context {LK : Linker} {LO : LinkerOk} {FO : FileApi.FileOps}.

Lemma curproc_bind {B} i (k : nat → K B) s :
  cpu_ok (k_cpu s) → c_proc (k_cpu s) = Some i → (curproc ≫= k) s = k i (ksync s).
Proof. intros Hc Hi. apply bind_done. unfold curproc. by rewrite myproc_bind, Hi. Qed.

Lemma locked_ksync l s : locked l (ksync s) = locked l s.
Proof. unfold locked, ksync. kst_eq. by rewrite push_sync_cpu. Qed.

(** The process between two system calls' locks: it runs, holding nothing. *)
Record at_ease (i : nat) (s : kst) : Prop := {
  ae_cur : c_proc (k_cpu s) = Some i;
  ae_held : k_held s = [];
  ae_ncli : ncli (k_cpu s) = 0 }.
Lemma at_ease_ok i s : at_ease i s → cpu_ok (k_cpu s).
Proof. intros [_ _ Hn]. split; lia. Qed.
Lemma at_ease_lock i s : at_ease i s → holds_only LPtable (locked LPtable s).
Proof. intros [_ Hh Hn]. by apply holds_only_acquire. Qed.
Lemma at_ease_acquire {B} i (k : unit → K B) s :
  at_ease i s → (acquire LPtable ≫= k) s = k tt (locked LPtable s).
Proof.
  intros Ha. apply acquire_bind; [by apply (at_ease_ok i) |]. rewrite (ae_held _ _ Ha). by intros ?%elem_of_nil.
Qed.

Lemma holds_only_locks l s : holds_only l s → locks_ok s.
Proof.
  intros [Hh Hn Hif]. split; [split; [lia | by intros _] |]. by rewrite Hh, Hn.
Qed.
Lemma holds_only_vm_step l s s' : holds_only l s → vm_step s s' → holds_only l s'.
Proof.
  intros [Hh Hn Hif] [(c & km & m & ->) Hc]. cbn in Hc.
  destruct Hc as [-> | ->]; (split; [exact Hh | exact Hn | exact Hif]).
Qed.
Lemma vm_step_procs s s' : vm_step s s' → k_procs s' = k_procs s.
Proof. by intros [(c & km & m & ->) _]. Qed.

(** ** [reap] *)

(** A slot after its process has been reaped. *)
Definition reaped (p : proc) : proc :=
  p <| p_kstack := 0 |> <| p_pid := 0 |> <| p_parent := None |>
    <| p_name ::= <[0%nat := 0]> |> <| p_killed := 0 |> <| p_state := UNUSED |>.

Lemma space_procs s d T l f : space_ok s d T l → space_ok (s <| k_procs ::= f |>) d T l.
Proof.
  intros Hs. pose proof (so_vm _ _ _ _ Hs) as [[? ? ?] Hr _ _].
  apply (space_step s _ d T l l); [done | done | by split | done | done].
Qed.

Lemma reap_run s i z T l :
  holds_only LPtable s → k_procs s !! i = Some z →
  space_ok s (p_pgdir z) T l → held_page s (p_pgdir z) T l (p_kstack z) →
  ∃ s' l', reap i s = Done (p_pid z) s' ∧ k_held s' = [] ∧ kmem_inv s' l' ∧
    k_procs s' = <[i := reaped z]> (k_procs s) ∧
    ∀ p, p ∈ l' ↔ p ∈ l ∨ p = p_kstack z ∨ owns (k_mem s) (p_pgdir z) T p.
Proof.
  intros Hh Hz Hs Hk. pose proof (lookup_lt_Some _ _ _ Hz) as Hlen. unfold reap.
  erewrite get_proc_bind by exact Hz.
  destruct (free_held s (p_pgdir z) T l (p_kstack z) Hs Hk) as (s1 & Hrun1 & Hs1 & Hst1 & Hm1 & Hpte1).
  rewrite (bind_done _ _ _ _ _ Hrun1).
  assert (Hz1 : k_procs s1 !! i = Some z) by (by rewrite (vm_step_procs s s1)).
  erewrite upd_proc_bind by exact Hz1.
  set (s2 := s1 <| k_procs ::= <[i := z <| p_kstack := 0 |>]> |>).
  destruct (freevm_run s2 (p_pgdir z) T (p_kstack z :: l)) as
    (s3 & l3 & Hrun3 & Hi3 & _ & Hst3 & Hp3 & _); [by apply space_procs |].
  rewrite (bind_done _ _ _ _ _ Hrun3).
  assert (Hps3 : k_procs s3 = <[i := z <| p_kstack := 0 |>]> (k_procs s)).
  { rewrite (vm_step_procs s2 s3 Hst3). unfold s2. cbn. by rewrite (vm_step_procs s s1 Hst1). }
  assert (Hh3 : holds_only LPtable s3).
  { apply (holds_only_vm_step _ s2); [| done].
    destruct (holds_only_vm_step _ s s1 Hh Hst1). by split. }
  erewrite upd_proc_bind by (rewrite Hps3; by apply list_lookup_insert_eq).
  do 4 (erewrite upd_proc_bind by (cbn; rewrite Hps3, ?list_insert_insert_eq; by apply list_lookup_insert_eq)).
  erewrite bind_done by (apply holds_only_release; destruct Hh3; by split).
  eexists _, l3. split; [done |]. split; [done |]. split; [by destruct Hi3 |]. split.
  - cbn. rewrite Hps3, !list_insert_insert_eq. done.
  - intros p. rewrite Hp3. unfold owns. change (k_mem s2) with (k_mem s1).
    rewrite (mapped_page_ext (k_mem s) T (k_mem s1) T) by done. rewrite elem_of_cons. tauto.
Qed.

(** ** [exit]'s loop over its children *)

Lemma wake_fields ch p :
  p_parent (wake ch p) = p_parent p ∧ is_zombie (wake ch p) = is_zombie p ∧ p_chan (wake ch p) = p_chan p.
Proof.
  unfold wake, is_zombie. case_bool_decide as H; [| done]. cbn. split; [done |]. split; [| done].
  destruct H as [-> _]. done.
Qed.
Lemma wake_idem ch p : wake ch (wake ch p) = wake ch p.
Proof.
  unfold wake at 2 3. case_bool_decide as H; [| unfold wake; by rewrite bool_decide_eq_false_2].
  apply wake_other. cbn. by intros [? _].
Qed.
Lemma wake_reparent ch o p : wake ch (p <| p_parent := o |>) = (wake ch p) <| p_parent := o |>.
Proof. unfold wake. cbn. case_bool_decide; done. Qed.
Lemma is_child_wake cur ch p : is_child cur (wake ch p) = is_child cur p.
Proof. unfold is_child. by destruct (wake_fields ch p) as [-> _]. Qed.

Section reparent.
Context (cur : nat) (s0 : kst) (ps0 : list proc).
#[local] Abbreviation ini := (initproc (k_pv s0)).
Definition zombie_child (q : proc) : bool := (is_child cur q && is_zombie q)%bool.

(** Entry number [i] when the loop has passed [n] entries. *)
Definition adopted (n : nat) (z : bool) (i : nat) (q : proc) : proc :=
  let q := if (Nat.ltb i n && is_child cur q)%bool then q <| p_parent := ini |> else q in
  if z then wake (CProc <$> ini) q else q.

Lemma adopted_later n m z i q :
  (i < n ↔ i < m)%nat → adopted n z i q = adopted m z i q.
Proof.
  intros H. unfold adopted. replace (Nat.ltb i m) with (Nat.ltb i n); [done |].
  destruct (Nat.ltb_spec i n), (Nat.ltb_spec i m); done || tauto || lia.
Qed.
Lemma adopted_wake n i q z : wake (CProc <$> ini) (adopted n z i q) = adopted n true i q.
Proof. unfold adopted. destruct z; [apply wake_idem | done]. Qed.

Lemma reparent_step n q z ps :
  ps0 !! n = Some q → (∀ i, ps !! i = adopted n z i <$> ps0 !! i) →
  ∃ ps', reparent cur n (s0 <| k_procs := ps |>) = Done tt (s0 <| k_procs := ps' |>) ∧
    ∀ i, ps' !! i = adopted (S n) (z || zombie_child q) i <$> ps0 !! i.
Proof.
  intros Hq Hps. unfold reparent.
  set (q' := if z then wake (CProc <$> ini) q else q).
  assert (Hq' : ps !! n = Some q').
  { rewrite Hps, Hq. unfold adopted. by rewrite (proj2 (Nat.ltb_ge n n)). }
  assert (Hpar : p_parent q' = p_parent q ∧ is_zombie q' = is_zombie q).
  { unfold q'. destruct z; [| done]. destruct (wake_fields (CProc <$> ini) q) as (? & ? & _). done. }
  destruct Hpar as [Hpar Hzom]. erewrite get_proc_bind by exact Hq'. rewrite Hpar.
  unfold zombie_child. fold (is_child cur q). destruct (is_child cur q) eqn:Hc; cbn [andb].
  2: { cbn [mwhen]. exists ps. split; [done |]. intros i. rewrite orb_false_r, Hps.
       destruct (ps0 !! i) as [x |] eqn:Hx; [| done]. cbn. f_equal.
       destruct (decide (i = n)) as [-> | Hne].
       - assert (x = q) as -> by congruence. unfold adopted. by rewrite Hc, !andb_false_r.
       - by rewrite (adopted_later n (S n) z i x ltac:(lia)). }
  cbn [mwhen]. rewrite bind_gets. erewrite upd_proc_bind by exact Hq'.
  change (bool_decide (p_state q' = ZOMBIE)) with (is_zombie q'). rewrite Hzom.
  assert (Hins : ∀ i, <[n := q' <| p_parent := ini |>]> ps !! i = adopted (S n) z i <$> ps0 !! i).
  { intros i. destruct (decide (n = i)) as [<- | Hne].
    - rewrite list_lookup_insert_eq by (by eapply lookup_lt_Some). rewrite Hq. cbn. f_equal.
      unfold adopted, q'. rewrite (proj2 (Nat.ltb_lt n (S n))) by lia. rewrite Hc. cbn [andb].
      destruct z; [by rewrite wake_reparent | done].
    - rewrite list_lookup_insert_ne, Hps by done. destruct (ps0 !! i); [| done]. cbn. f_equal.
      apply adopted_later. lia. }
  destruct (is_zombie q); cbn [mwhen andb].
  - eexists. split; [unfold wakeup1, modify; kst_eq; reflexivity |].
    intros i. cbn. rewrite list_lookup_fmap, Hins. destruct (ps0 !! i); [| done]. cbn. f_equal.
    rewrite adopted_wake. by rewrite orb_true_r.
  - eexists. split; [done |]. intros i. cbn. by rewrite orb_false_r, Hins.
Qed.

Lemma reparent_loop k : ∀ n z ps,
  (n + k)%nat = length ps0 → (∀ i, ps !! i = adopted n z i <$> ps0 !! i) →
  ∃ ps', mforM (reparent cur) (seq n k) (s0 <| k_procs := ps |>) = Done tt (s0 <| k_procs := ps' |>) ∧
    ∀ i, ps' !! i = adopted (n + k) (z || existsb zombie_child (drop n ps0)) i <$> ps0 !! i.
Proof.
  induction k as [| k IH]; intros n z ps Hn Hps; cbn [seq mforM].
  - exists ps. split; [done |]. intros i. rewrite drop_ge by lia. cbn. by rewrite orb_false_r, Nat.add_0_r.
  - destruct (lookup_lt_is_Some_2 ps0 n) as [q Hq]; [lia |].
    destruct (reparent_step n q z ps Hq Hps) as (ps1 & Hrun & Hps1).
    rewrite (bind_done _ _ _ _ _ Hrun).
    destruct (IH (S n) (z || zombie_child q)%bool ps1) as (ps2 & Hrun2 & Hps2); [lia | done |].
    exists ps2. split; [done |]. intros i. rewrite Hps2. rewrite (drop_S ps0 q n Hq). cbn [existsb].
    by rewrite orb_assoc, Nat.add_succ_r.
Qed.
End reparent.

(** What [exit] of process [cur], child of [par], makes of another process:
    the parent is woken; children are handed to init, and init is woken when
    one of them is a zombie already. *)
Definition bereaved (cur : nat) (par ini : option nat) (orphan_zombie : bool) (q : proc) : proc :=
  let q := wake (CProc <$> par) q in
  let q := if is_child cur q then q <| p_parent := ini |> else q in
  if orphan_zombie then wake (CProc <$> ini) q else q.

Lemma exit_rest_run {A} s cur p :
  at_ease cur s → length (k_procs s) = NPROC → k_procs s !! cur = Some p → p_state p = RUNNING →
  p_parent p ≠ Some cur →
  ∃ s2 k, exit_rest (A := A) cur s = Switch s2 k ∧ holds_only LPtable s2 ∧
    k_procs s2 !! cur = Some (p <| p_state := ZOMBIE |>) ∧
    (∀ j q, j ≠ cur → k_procs s !! j = Some q → k_procs s2 !! j =
       Some (bereaved cur (p_parent p) (initproc (k_pv s)) (existsb (zombie_child cur) (k_procs s)) q)) ∧
    ∀ s3, ∃ s4, k s3 = Panic "zombie exit" s4.
Proof.
  intros Ha Hlen Hp Hrun Hpar. unfold exit_rest. rewrite (at_ease_acquire cur) by done.
  set (s1 := locked LPtable s). erewrite get_proc_bind by exact Hp.
  unfold wakeup1. rewrite bind_modify.
  set (ps1 := wake (CProc <$> p_parent p) <$> k_procs s).
  assert (Hs1 : set k_procs (fmap (wake (CProc <$> p_parent p))) s1 = s1 <| k_procs := ps1 |>) by kst_eq.
  rewrite Hs1. destruct (reparent_loop cur s1 ps1 NPROC 0 false ps1) as (ps2 & Hloop & Hps2).
  { unfold ps1. by rewrite length_fmap. }
  { intros i. destruct (ps1 !! i); [| done]. done. }
  rewrite (bind_done _ _ _ _ _ Hloop). rewrite drop_0 in Hps2.
  assert (Hz : existsb (zombie_child cur) ps1 = existsb (zombie_child cur) (k_procs s)).
  { unfold ps1. generalize (k_procs s). induction l as [| q l IH]; [done |]. cbn. rewrite IH.
    unfold zombie_child. rewrite is_child_wake. by destruct (wake_fields (CProc <$> p_parent p) q) as (_ & -> & _). }
  rewrite Hz in Hps2. cbn [orb Nat.add] in Hps2.
  assert (Hnl : ∀ j q, k_procs s !! j = Some q → ps2 !! j = Some (bereaved cur (p_parent p)
    (initproc (k_pv s)) (existsb (zombie_child cur) (k_procs s)) q)).
  { intros j q Hq. rewrite Hps2. unfold ps1. rewrite list_lookup_fmap, Hq. cbn. f_equal.
    unfold adopted, bereaved. rewrite (proj2 (Nat.ltb_lt j NPROC)); [done |].
    rewrite <- Hlen. by eapply lookup_lt_Some. }
  assert (Hcur : ps2 !! cur = Some p).
  { rewrite (Hnl cur p Hp). f_equal. unfold bereaved.
    assert (Hw : ∀ ch, wake ch p = p) by (intros ch; apply wake_other; rewrite Hrun; by intros [? _]).
    rewrite Hw. unfold is_child. rewrite bool_decide_eq_false_2 by done. destruct (existsb _ _); [apply Hw | done]. }
  erewrite upd_proc_bind by exact Hcur.
  set (s2 := s1 <| k_procs := <[cur := p <| p_state := ZOMBIE |>]> ps2 |>).
  assert (Heq : set k_procs <[cur:=p <| p_state := ZOMBIE |>]> (s1 <| k_procs := ps2 |>) = s2) by kst_eq.
  rewrite Heq. pose proof (at_ease_lock _ _ Ha) as [Hh Hn Hif]. fold s1 in Hh, Hn, Hif.
  assert (Hc2 : k_procs s2 !! cur = Some (p <| p_state := ZOMBIE |>)).
  { cbn. apply list_lookup_insert_eq. by eapply lookup_lt_Some. }
  erewrite bind_switch.
  2: { rewrite (sched_run s2 cur (p <| p_state := ZOMBIE |>)); [| | exact (ae_cur _ _ Ha) | done].
       - change (k_held s2) with (k_held s1). rewrite Hh, bool_decide_eq_true_2 by left.
         change (k_cpu s2) with (k_cpu s1). rewrite Hn. cbn [Z.eqb]. rewrite bool_decide_eq_false_2 by done.
         reflexivity.
       - apply (holds_only_locks LPtable). by split. }
  eexists _, _. split; [done |]. split; [by split |]. split; [exact Hc2 |]. split.
  - intros j q Hj Hq. cbn. rewrite list_lookup_insert_ne by done. by apply Hnl.
  - intros s3. by eexists.
Qed.

(** C28: the end of a process.  init must not exit.  Any other process, once
    its files are closed, leaves the CPU as a ZOMBIE, for good: should it ever
    run again it panics.  Its parent is woken if it waits; every child gets
    init as its parent, and init is woken if one of them is a zombie; no other
    entry of the table changes. *)
Theorem exit_spec s cur :
  at_ease cur s →
  (initproc (k_pv s) = Some cur → exit (A := Z) s = Panic "init exiting" (ksync s)) ∧
  (initproc (k_pv s) ≠ Some cur → ∀ s1 p,
     exit_files cur (ksync s) = Done tt s1 → at_ease cur s1 → length (k_procs s1) = NPROC →
     k_procs s1 !! cur = Some p → p_state p = RUNNING → p_parent p ≠ Some cur →
     ∃ s2 k, exit (A := Z) s = Switch s2 k ∧ holds_only LPtable s2 ∧
       k_procs s2 !! cur = Some (p <| p_state := ZOMBIE |>) ∧
       (∀ j q, j ≠ cur → k_procs s1 !! j = Some q → k_procs s2 !! j =
          Some (bereaved cur (p_parent p) (initproc (k_pv s1)) (existsb (zombie_child cur) (k_procs s1)) q)) ∧
       ∀ s3, ∃ s4, k s3 = Panic "zombie exit" s4).
Proof.
  intros Ha. unfold exit. rewrite (curproc_bind cur) by (by apply (at_ease_ok cur) || apply Ha).
  rewrite bind_gets. change (k_pv (ksync s)) with (k_pv s). split.
  - intros Hi. by rewrite bool_decide_eq_true_2 by done.
  - intros Hi s1 p Hf Ha1 Hlen Hp Hrun Hpar. rewrite bool_decide_eq_false_2 by congruence.
    rewrite (bind_done _ _ _ _ _ Hf). by apply exit_rest_run.
Qed.

(** ** [wait] *)

(** C29: waiting for a child.  With a zombie child, the first one in the
    table is reaped at once: its pid is returned, its slot is empty, and its
    kernel stack and every page of its address space are free.  Without one,
    a process that has no child, or that has been killed, gets -1; any other
    gives up the CPU asleep on itself, and looks again when it is woken. *)
Theorem wait_spec fuel s cur me :
  at_ease cur s → k_procs s !! cur = Some me →
  match find_idx (zombie_child cur) (k_procs s) with
  | Some i => ∀ z T l, k_procs s !! i = Some z → space_ok s (p_pgdir z) T l →
      held_page s (p_pgdir z) T l (p_kstack z) →
      ∃ s' l', wait (S fuel) s = Done (p_pid z) s' ∧ k_held s' = [] ∧ kmem_inv s' l' ∧
        k_procs s' = <[i := reaped z]> (k_procs s) ∧
        ∀ p, p ∈ l' ↔ p ∈ l ∨ p = p_kstack z ∨ owns (k_mem s) (p_pgdir z) T p
  | None =>
      if (existsb (is_child cur) (k_procs s) && (p_killed me =? 0))%bool
      then ∃ s1 k, wait (S fuel) s = Switch s1 k ∧ holds_only LPtable s1 ∧
        k_procs s1 = <[cur := asleep (CProc cur) me]> (k_procs s) ∧
        ∀ s2 me2, holds_only LPtable s2 → k_procs s2 !! cur = Some me2 →
          ∃ s3, k s2 = wait_loop fuel cur s3 ∧ holds_only LPtable s3 ∧
            k_procs s3 = <[cur := me2 <| p_chan := None |>]> (k_procs s2)
      else ∃ s', wait (S fuel) s = Done (-1) s' ∧ k_held s' = [] ∧ k_procs s' = k_procs s
  end.
Proof.
  intros Ha Hme. unfold wait. rewrite (curproc_bind cur) by (by apply (at_ease_ok cur) || apply Ha).
  rewrite (at_ease_acquire cur) by (destruct Ha; by split). rewrite locked_ksync.
  pose proof (at_ease_lock _ _ Ha) as Hl. set (s1 := locked LPtable s) in *.
  cbn [wait_loop]. rewrite bind_gets. fold (zombie_child cur).
  change (k_procs s1) with (k_procs s).
  destruct (find_idx (zombie_child cur) (k_procs s)) as [i |] eqn:Hf.
  - intros z T l Hz Hs [Hv Hfr Ho]. apply (reap_run s1 i z T l); [done | done | | by split].
    pose proof (so_vm _ _ _ _ Hs) as [[? ? ?] [Hc Hk] _ _].
    apply (space_step s s1 (p_pgdir z) T l l); [done | done | by split | | done].
    destruct Hl as [Hh Hn Hif]. split; [split; [lia | by intros _] | rewrite Hh; by intros ?%list_elem_of_singleton].
  - erewrite get_proc_bind by exact Hme.
    destruct (existsb (is_child cur) (k_procs s)); cbn [negb orb andb].
    2: { erewrite bind_done by by apply holds_only_release. by eexists. }
    destruct (Z.eqb_spec (p_killed me) 0); cbn [negb].
    2: { erewrite bind_done by by apply holds_only_release. by eexists. }
    destruct (sleep_run (CProc cur) LPtable s1 cur me Hl (ae_cur _ _ Ha) Hme) as
      (s2 & k & Hs & Ho & Heq & Hk).
    eexists s2, _. split; [by apply bind_switch |]. split; [done |]. split; [by rewrite Heq |].
    intros s3 me3 H3 Hme3. destruct (Hk s3 me3 H3 Hme3) as (s4 & H4 & Ho4 & Heq4).
    exists s4. rewrite H4. split; [done |]. split; [done |]. by rewrite Heq4.
Qed.
End life.

(** ** Witnesses *)

(** Process 0 (pid 1) has the zombie child 1 (pid 7), whose kernel stack is at
    2 MB + 20480 and whose address space has one page; process 2 is init. *)
Definition zombie7 : proc :=
  proc0 <| p_state := ZOMBIE |> <| p_pid := 7 |> <| p_parent := Some 0%nat |>
        <| p_pgdir := dir_2M |> <| p_kstack := KERNBASE + 0x205000 |>.
Definition parent1 : proc :=
  proc0 <| p_state := RUNNING |> <| p_pid := 1 |> <| p_cwd := Some 0%nat |>.
Definition family : kst :=
  running <| k_mem := user_mem 3 |>
          <| k_procs ::= λ ps, <[1%nat := zombie7]> (<[0%nat := parent1]> ps) |>
          <| k_pv ::= λ v, v <| initproc := Some 2%nat |> |>.
Lemma family_at_ease : at_ease 0 family.
Proof. by split. Qed.

(** File operations that do nothing. *)
Definition no_files : FileApi.FileOps :=
  {| FileApi.filedup := λ _, mret tt; FileApi.fileclose := λ _, mret tt; FileApi.idup := λ _, mret tt;
     FileApi.iput := λ _, mret tt; FileApi.begin_op := mret tt; FileApi.end_op := mret tt;
     FileApi.namei := λ _, mret None |}.
Lemma exit_spec_witness :
  ∃ s2 k, @exit no_files Z family = Switch s2 k ∧ p_state <$> k_procs s2 !! 0%nat = Some ZOMBIE ∧
    p_parent <$> k_procs s2 !! 1%nat = Some (Some 2%nat).
Proof.
  destruct (@exit_spec no_files family 0 family_at_ease) as [_ H].
  destruct (H ltac:(by vm_compute) (ksync family <| k_procs ::= <[0%nat := parent1 <| p_cwd := None |>]> |>)
    (parent1 <| p_cwd := None |>)) as (s2 & k & Hrun & _ & Hcur & Hoth & _).
  - vm_compute. reflexivity.
  - by split.
  - reflexivity.
  - reflexivity.
  - reflexivity.
  - done.
  - exists s2, k. split; [exact Hrun |]. rewrite Hcur. split; [done |].
    rewrite (Hoth 1%nat zombie7) by done. vm_compute. reflexivity.
Defined.

Lemma wait_spec_witness :
  ∃ s' (l' : list Z), @wait linker_2M 1 family = Done 7 s' ∧ KERNBASE + 0x204000 ∈ l' ∧ KERNBASE + 0x205000 ∈ l'.
Proof.
  pose proof (@wait_spec linker_2M linker_2M_ok 0 family 0 parent1 family_at_ease eq_refl) as H.
  change (find_idx (zombie_child 0) (k_procs family)) with (Some 1%nat) in H. cbv iota beta in H.
  destruct (H zombie7 user_T [] eq_refl) as (s' & l' & Hrun & _ & _ & _ & Hl).
  - apply (space_step (running <| k_mem := user_mem 3 |>) family dir_2M user_T [] []);
      [apply user_space_ok; lia | done | split; [done | constructor | constructor] | | done].
    split; [split; [done | done] | by intros ?%elem_of_nil].
  - split; [repeat split; vm_compute; done | by intros ?%elem_of_nil |].
    intros [[H0 | [k [_ H0]%user_T_Some]] | (x & Hx%user_addr_u32 & Hp & H0)]; [done | done |].
    change (k_mem family) with (user_mem 3) in *. rewrite user_mem_pte in Hp, H0 by (done || lia).
    case_decide; [vm_compute in H0 |]; done.
  - exists s', l'. split; [exact Hrun |]. rewrite !Hl. split; [| right; by left].
    right. right. right. exists 0x3000. split; [split; vm_compute; done |]. split; vm_compute; reflexivity.
Defined.
