(* ===== verification/Sleeplock.v ===== *)
(** * sleeplock.c

    The sleep locks live in the inodes and the buffers; a [slockid] names one.
    Waiters sleep on the lock's address, [CSleep l], with its spin lock
    [LSleep l]. *)
From S2P Require Import Prelude Mmu Cstring Kstate Spinlock Kalloc Proc.

Definition get_slock (l : slockid) : K sleeplock :=
  match l with
  | SLInode i => x ← get_inode i; mret (i_lock x)
  | SLBuf i => x ← get_buf i; mret (b_lock x)
  end.
Definition set_slock (l : slockid) (v : sleeplock) : K unit :=
  match l with
  | SLInode i => upd_inode i (λ x, x <| i_lock := v |>)
  | SLBuf i => upd_buf i (λ x, x <| b_lock := v |>)
  end.

(** myproc()->pid *)
Definition cur_pid : K Z :=
  op ← myproc;
  i ← deref "myproc() == 0" op;
  p ← get_proc i;
  mret (p_pid p).

Section sleeplock.
Context {LK : Linker} {FU : Fuel}.

Definition initsleeplock (l : slockid) : K unit := set_slock l (mkSleeplock false 0).

Fixpoint acquiresleep_wait (fuel : nat) (l : slockid) : K unit :=
  match fuel with
  | O => fault "acquiresleep: out of fuel"
  | S fuel =>
      x ← get_slock l;
      if sl_locked x then sleep (CSleep l) (LSleep l);; acquiresleep_wait fuel l
      else mret tt
  end.
Definition acquiresleep (l : slockid) : K unit :=
  acquire (LSleep l);;
  acquiresleep_wait patience l;;
  x ← get_slock l;
  set_slock l (x <| sl_locked := true |>);;
  pid ← cur_pid;
  x ← get_slock l;
  set_slock l (x <| sl_pid := pid |>);;
  release (LSleep l).

Definition releasesleep (l : slockid) : K unit :=
  acquire (LSleep l);;
  set_slock l (mkSleeplock false 0);;
  wakeup (CSleep l);;
  release (LSleep l).

Definition holdingsleep (l : slockid) : K bool :=
  acquire (LSleep l);;
  x ← get_slock l;
  r ← (if sl_locked x then pid ← cur_pid; mret (sl_pid x =? pid) else mret false);
  release (LSleep l);;
  mret r.
End sleeplock.

(** ** Sleep locks as the state holds them *)
Definition slock_of (s : kst) (l : slockid) : option sleeplock :=
  match l with
  | SLInode i => i_lock <$> k_icache s !! i
  | SLBuf i => b_lock <$> k_bufs s !! i
  end.
Definition put_slock (l : slockid) (v : sleeplock) (s : kst) : kst :=
  match l with
  | SLInode i => s <| k_icache ::= alter (λ x, x <| i_lock := v |>) i |>
  | SLBuf i => s <| k_bufs ::= alter (λ x, x <| b_lock := v |>) i |>
  end.

(** A process [i] with pid [pid] runs, holding no spin lock. *)
Record calm (i : nat) (pid : Z) (s : kst) : Prop := {
  cm_cpu : cpu_ok (k_cpu s);
  cm_cur : c_proc (k_cpu s) = Some i;
  cm_held : k_held s = [];
  cm_pid : p_pid <$> k_procs s !! i = Some pid }.

Lemma insert_as_alter {A} (f : A → A) (l : list A) i x :
  l !! i = Some x → <[i := f x]> l = alter f i l.
Proof.
  intros Hx. apply list_eq. intros j. rewrite list_lookup_alter. case_decide as Hij.
  - subst j. rewrite Hx, list_lookup_insert_eq; [done | by eapply lookup_lt_Some].
  - by rewrite list_lookup_insert_ne.
Qed.

Lemma alter_twice {A} (f g : A → A) (l : list A) i :
  (∀ x, f (g x) = f x) → alter f i (alter g i l) = alter f i l.
Proof.
  intros Hf. apply list_eq. intros j. rewrite !list_lookup_alter.
  case_decide; [| done]. rewrite decide_True by done.
  destruct (l !! i) as [x |]; cbn; [by rewrite (Hf x) | done].
Qed.

Section sleeplock_spec.
Context {LK : Linker} {FU : Fuel}.
Implicit Types (l : slockid) (s : kst).

Lemma get_slock_bind {B} l (k : sleeplock → K B) v s :
  slock_of s l = Some v → (get_slock l ≫= k) s = k v s.
Proof.
  destruct l; cbn; intros (x & Hx & ->)%fmap_Some; apply bind_done; cbn.
  - by rewrite (get_inode_bind _ _ x).
  - by rewrite (get_buf_bind _ _ x).
Qed.
Lemma set_slock_bind {B} l v w (k : unit → K B) s :
  slock_of s l = Some v → (set_slock l w ≫= k) s = k tt (put_slock l w s).
Proof.
  destruct l; cbn [slock_of set_slock put_slock]; intros (x & Hx & ->)%fmap_Some;
    [rewrite (upd_inode_bind _ _ _ x) by done | rewrite (upd_buf_bind _ _ _ x) by done];
    f_equal; kst_eq; by rewrite (insert_as_alter _ _ _ x Hx).
Qed.
Lemma slock_of_put l v w s : slock_of s l = Some v → slock_of (put_slock l w s) l = Some w.
Proof. destruct l; cbn; intros (x & Hx & _)%fmap_Some; by rewrite list_lookup_alter, decide_True, Hx. Qed.
Lemma put_put l v w s : put_slock l w (put_slock l v s) = put_slock l w s.
Proof.
  destruct l; cbn [put_slock]; kst_eq; by apply alter_twice.
Qed.
Lemma put_slock_fields l v s :
  k_cpu (put_slock l v s) = k_cpu s ∧ k_held (put_slock l v s) = k_held s ∧
  k_procs (put_slock l v s) = k_procs s.
Proof. by destruct l. Qed.

Lemma cur_pid_bind {B} i pid (k : Z → K B) s :
  cpu_ok (k_cpu s) → c_proc (k_cpu s) = Some i → p_pid <$> k_procs s !! i = Some pid →
  (cur_pid ≫= k) s = k pid (ksync s).
Proof.
  intros Hc Hi (p & Hp & ->)%fmap_Some. apply bind_done. unfold cur_pid.
  rewrite myproc_bind, Hi by done. cbn [deref]. rewrite bind_ret.
  by rewrite (get_proc_bind _ _ p).
Qed.

(** [acquiresleep] after [acquire(&lk->lk)]. *)
Definition acquiresleep_tail (fuel : nat) (l : slockid) : K unit :=
  acquiresleep_wait fuel l;;
  x ← get_slock l;
  set_slock l (x <| sl_locked := true |>);;
  pid ← cur_pid;
  x ← get_slock l;
  set_slock l (x <| sl_pid := pid |>);;
  release (LSleep l).

Lemma acquiresleep_take i pid l v n c s :
  cpu_ok c → k_cpu s = push_cpu c → k_held s = [LSleep l] → c_proc c = Some i →
  p_pid <$> k_procs s !! i = Some pid → slock_of s l = Some v → sl_locked v = false →
  acquiresleep_tail (S n) l s =
    Done tt ((put_slock l (mkSleeplock true pid) s) <| k_cpu := sync_cpu c |> <| k_held := [] |>).
Proof.
  intros Hc Hcpu Hh Hi Hp Hl Hf. unfold acquiresleep_tail. cbn [acquiresleep_wait].
  rewrite bind_assoc, (get_slock_bind l _ v) by done. rewrite Hf, bind_ret.
  rewrite (get_slock_bind l _ v) by done. erewrite set_slock_bind by exact Hl.
  set (s1 := put_slock l (v <| sl_locked := true |>) s).
  destruct (put_slock_fields l (v <| sl_locked := true |>) s) as (Hpc & Hph & Hpp).
  assert (Hck : cpu_ok (k_cpu s1)) by (unfold s1; rewrite Hpc, Hcpu; by apply push_cpu_ok).
  rewrite (cur_pid_bind i pid) by (done || (unfold s1; rewrite ?Hpc, ?Hpp, ?Hcpu; done)).
  pose proof (slock_of_put l v (v <| sl_locked := true |>) s Hl) as Hl2.
  assert (Hl3 : slock_of (ksync s1) l = Some (v <| sl_locked := true |>)) by (by destruct l).
  rewrite (get_slock_bind l _ _ _ Hl3), (set_slock_bind l _ _ _ _ Hl3).
  destruct (put_slock_fields l (v <| sl_locked := true |> <| sl_pid := pid |>) (ksync s1))
    as (Hqc & Hqh & _).
  rewrite (release_run _ _ c []); [| done | | | by intros ?%elem_of_nil].
  - f_equal. unfold s1, ksync. destruct l; cbn [put_slock]; kst_eq; by apply alter_twice.
  - rewrite Hqc. change (k_cpu (ksync s1)) with (sync_cpu (k_cpu s1)).
    unfold s1. rewrite Hpc, Hcpu. by apply sync_push_cpu.
  - rewrite Hqh. change (k_held (ksync s1)) with (k_held s1). unfold s1. by rewrite Hph.
Qed.

(** Taking a free sleep lock. *)
Lemma acquiresleep_free i pid l v s :
  calm i pid s → slock_of s l = Some v → sl_locked v = false → (0 < patience)%nat →
  acquiresleep l s = Done tt (ksync (put_slock l (mkSleeplock true pid) s)).
Proof.
  intros [Hc Hi Hh Hp] Hl Hf Hfu. unfold acquiresleep.
  rewrite acquire_bind by (done || (rewrite Hh; by intros ?%elem_of_nil)).
  fold (acquiresleep_tail patience l). destruct patience as [| n]; [lia |].
  rewrite (acquiresleep_take i pid l v n (k_cpu s));
    [| done | done | cbn; by rewrite Hh | done | done | by destruct l | done].
  f_equal. unfold ksync, locked. destruct l; cbn [put_slock]; kst_eq; by rewrite Hh.
Qed.

Lemma releasesleep_run i pid l v s :
  calm i pid s → slock_of s l = Some v →
  releasesleep l s = Done tt (ksync ((put_slock l (mkSleeplock false 0) s)
    <| k_procs ::= fmap (wake (Some (CSleep l))) |>)).
Proof.
  intros [Hc Hi Hh Hp] Hl. unfold releasesleep.
  rewrite acquire_bind by (done || (rewrite Hh; set_solver)).
  assert (Hl1 : slock_of (locked (LSleep l) s) l = Some v) by (by destruct l).
  rewrite (set_slock_bind l _ _ _ _ Hl1).
  destruct (put_slock_fields l (mkSleeplock false 0) (locked (LSleep l) s)) as (Hpc & Hph & Hpp).
  rewrite wakeup_bind.
  2: { split; [rewrite Hpc; by apply push_cpu_ok |]. rewrite Hph. cbn. rewrite Hh. by intros ?%list_elem_of_singleton. }
  rewrite (release_run _ _ (k_cpu s) []); [| done | | | set_solver].
  - unfold ksync, locked. destruct l; cbn [put_slock]; kst_eq; symmetry; exact Hh.
  - cbn. rewrite Hpc. by apply sync_push_cpu.
  - cbn. rewrite Hph. cbn. by rewrite Hh.
Qed.

Lemma holdingsleep_run i pid l v s :
  calm i pid s → slock_of s l = Some v →
  holdingsleep l s = Done (sl_locked v && (sl_pid v =? pid))%bool (ksync s).
Proof.
  intros [Hc Hi Hh Hp] Hl. unfold holdingsleep.
  rewrite acquire_bind by (done || (rewrite Hh; set_solver)).
  assert (Hl1 : slock_of (locked (LSleep l) s) l = Some v) by (by destruct l).
  rewrite (get_slock_bind l _ v) by done. destruct (sl_locked v); cbn [andb].
  - rewrite bind_assoc, (cur_pid_bind i pid) by (done || by apply push_cpu_ok).
    rewrite bind_ret.
    rewrite (release_bind _ _ _ (k_cpu s) []); [| done | by apply sync_push_cpu | | set_solver].
    + unfold mret, M_ret, ksync, locked. kst_eq. by rewrite Hh.
    + cbn. by rewrite Hh.
  - rewrite bind_ret, (release_bind _ _ _ (k_cpu s) []); [| done | done | | set_solver].
    + unfold mret, M_ret, ksync, locked. kst_eq. by rewrite Hh.
    + cbn. by rewrite Hh.
Qed.

(** Having to wait: one round of the loop. *)
Lemma acquiresleep_waits i p l v n s :
  holds_only (LSleep l) s → c_proc (k_cpu s) = Some i → k_procs s !! i = Some p →
  slock_of s l = Some v → sl_locked v = true →
  ∃ s1 k, acquiresleep_tail (S n) l s = Switch s1 k ∧ holds_only LPtable s1 ∧
    k_procs s1 = <[i := asleep (CSleep l) p]> (k_procs s) ∧ slock_of s1 l = Some v ∧
    ∀ s2 p2, holds_only LPtable s2 → k_procs s2 !! i = Some p2 →
      ∃ s3, k s2 = acquiresleep_tail n l s3 ∧ holds_only (LSleep l) s3 ∧
        s3 = s2 <| k_cpu := (k_cpu s3) <| c_proc := c_proc (k_cpu s2) |> |>
                <| k_held := [LSleep l] |> <| k_procs ::= <[i := p2 <| p_chan := None |>]> |>.
Proof.
  intros Hh Hi Hp Hl Hv.
  destruct (sleep_run (CSleep l) (LSleep l) s i p Hh Hi Hp) as (s1 & k & Hs & Ho & Heq & Hk).
  assert (Hrun : ∀ (f : unit → K unit), (((sleep (CSleep l) (LSleep l);;
      acquiresleep_wait n l) : K unit) ≫= f) s
    = Switch s1 (λ s2, obind (λ _, acquiresleep_wait n l ≫= f) (k s2))).
  { intros f. rewrite bind_assoc. by apply bind_switch. }
  eexists s1, _. split.
  - unfold acquiresleep_tail. cbn [acquiresleep_wait].
    rewrite bind_assoc, (get_slock_bind l _ v) by done. rewrite Hv. apply Hrun.
  - split; [done |]. split; [by rewrite Heq |]. split; [rewrite Heq; by destruct l |].
    intros s2 p2 H2 Hp2. destruct (Hk s2 p2 H2 Hp2) as (s3 & H3 & Ho3 & Heq3).
    exists s3. by rewrite H3.
Qed.

(** C30: sleep locks exclude.  [acquiresleep] on a free lock takes it at once, in
    the caller's name.  On a lock that is taken the caller gives up the CPU,
    SLEEPING on the lock and leaving it as it is; the holder's [releasesleep]
    frees the lock and makes the caller RUNNABLE; when the caller is scheduled
    again it takes the lock if it is free then, and sleeps again if somebody
    else was faster: it never returns without owning the lock. *)
Theorem sleeplock_excludes i p l v s :
  calm i (p_pid p) s → ncli (k_cpu s) = 0 → k_procs s !! i = Some p →
  slock_of s l = Some v → (1 < patience)%nat →
  (sl_locked v = false → ∃ s', acquiresleep l s = Done tt s' ∧ k_held s' = [] ∧
     slock_of s' l = Some (mkSleeplock true (p_pid p)) ∧ k_procs s' = k_procs s) ∧
  (sl_locked v = true → ∃ s1 k, acquiresleep l s = Switch s1 k ∧ holds_only LPtable s1 ∧
     slock_of s1 l = Some v ∧ k_procs s1 = <[i := asleep (CSleep l) p]> (k_procs s) ∧
     (∀ j pid w s2, calm j pid s2 → k_procs s2 !! i = Some (asleep (CSleep l) p) →
        slock_of s2 l = Some w →
        ∃ s3, releasesleep l s2 = Done tt s3 ∧ slock_of s3 l = Some slock0 ∧
          k_procs s3 !! i = Some ((asleep (CSleep l) p) <| p_state := RUNNABLE |>)) ∧
     (∀ s2 p2 w, holds_only LPtable s2 → c_proc (k_cpu s2) = Some i →
        k_procs s2 !! i = Some p2 → slock_of s2 l = Some w →
        (sl_locked w = false → ∃ s3, k s2 = Done tt s3 ∧ k_held s3 = [] ∧
           slock_of s3 l = Some (mkSleeplock true (p_pid p2))) ∧
        (sl_locked w = true → ∃ s3 k', k s2 = Switch s3 k' ∧ slock_of s3 l = Some w))).
Proof.
  intros Hcm Hn0 Hp Hl Hfu. split; intros Hv.
  - eexists. split; [apply (acquiresleep_free i (p_pid p) l v); [done.. | lia] |].
    destruct (put_slock_fields l (mkSleeplock true (p_pid p)) s) as (_ & Hph & Hpp).
    split; [cbn; rewrite Hph; apply Hcm |]. split; [| by cbn; rewrite Hpp].
    pose proof (slock_of_put l v (mkSleeplock true (p_pid p)) s Hl) as H. by destruct l.
  - pose proof Hcm as [Hc Hi Hh Hpid].
    unfold acquiresleep. rewrite acquire_bind by (done || (rewrite Hh; by intros ?%elem_of_nil)).
    fold (acquiresleep_tail patience l). destruct patience as [| [| n]]; [lia | lia |].
    destruct (acquiresleep_waits i p l v (S n) (locked (LSleep l) s)) as
      (s1 & k & Hk & Ho & Hps & Hl1 & Hres);
      [by apply holds_only_acquire | done | done | by destruct l | done |].
    exists s1, k. split_and!; [done | done | done | done | |].
    + intros j pid w s2 Hcm2 Hp2 Hw. eexists.
      split; [by apply (releasesleep_run j pid l w) |]. split.
      * pose proof (slock_of_put l w slock0 s2 Hw) as H. by destruct l.
      * assert (Hps2 : k_procs (put_slock l slock0 s2) = k_procs s2) by (by destruct l).
        cbn. fold slock0. rewrite Hps2. erewrite wake_lookup by exact Hp2.
        by rewrite wake_asleep.
    + intros s2 p2 w H2 Hi2 Hp2 Hw. destruct (Hres s2 p2 H2 Hp2) as (s3 & -> & Ho3 & Heq).
      assert (Hi3 : c_proc (k_cpu s3) = Some i) by (rewrite Heq; exact Hi2).
      assert (Hp3 : k_procs s3 !! i = Some (p2 <| p_chan := None |>)).
      { rewrite Heq. cbn. apply list_lookup_insert_eq. by eapply lookup_lt_Some. }
      assert (Hw3 : slock_of s3 l = Some w) by (rewrite Heq; by destruct l).
      split; intros Hwl.
      * destruct (holds_only_push _ _ Ho3) as [Hc3 Hcp3]. eexists.
        split; [apply (acquiresleep_take i (p_pid p2) l w n _ _ Hc3 Hcp3);
          [apply Ho3 | exact Hi3 | by rewrite Hp3 | done | done] |].
        split; [done |].
        pose proof (slock_of_put l w (mkSleeplock true (p_pid p2)) s3 Hw3) as H. by destruct l.
      * destruct (acquiresleep_waits i _ l w n s3 Ho3 Hi3 Hp3 Hw3 Hwl)
          as (s4 & k' & Hk' & _ & _ & Hl4 & _). by exists s4, k'.
Qed.
End sleeplock_spec.

(** ** Witness *)
Lemma sleeplock_excludes_witness :
  ∃ s', @acquiresleep (2%nat : Fuel) (SLBuf 4) running = Done tt s' ∧
    slock_of s' (SLBuf 4) = Some (mkSleeplock true 1).
Proof.
  destruct (@sleeplock_excludes (2%nat : Fuel) 0
    (proc0 <| p_state := RUNNING |> <| p_pid := 1 |>) (SLBuf 4) slock0 running) as [H _].
  - by split.
  - reflexivity.
  - reflexivity.
  - reflexivity.
  - apply le_n.
  - destruct (H eq_refl) as (s' & Hr & _ & Hl & _). by exists s'.
Defined.
