(* ===== verification/Bio.v ===== *)
(** * bio.c: the buffer cache, and memide.c, the memory disk

    [k_bufs] are the buffers, [k_mru] the list [bcache.head.next ...] as buffer
    indices, most recently used first. *)
From stdpp Require Import functions.
From S2P Require Import Prelude Mmu Cstring Kstate Spinlock Kalloc Proc Sleeplock.

Definition BSIZE : nat := 512.

(** What the cache asks of a disk driver. *)
Class BlockDev := { iderw : nat → K unit }.

(** ** memide.c *)
Section memide.
Context {LK : Linker} {FU : Fuel}.

(** [disksize] is the size of the image linked into the kernel, in blocks;
    [k_disk] its contents (blocks that are not in the map are zero). *)
Class MemDisk := disksize : Z.
Context {MD : MemDisk}.

Definition disk_block (d : gmap Z (list Z)) (b : Z) : list Z :=
  default (replicate BSIZE 0) (d !! b).

Definition memide_iderw (i : nat) : K unit :=
  h ← holdingsleep (SLBuf i);
  if negb h then panic "iderw: buf not locked" else
  b ← get_buf i;
  if (b_valid b && negb (b_dirty b))%bool then panic "iderw: nothing to do" else
  if negb (b_dev b =? 1) then panic "iderw: request not for disk 1" else
  if b_blockno b >=? disksize then panic "iderw: block out of range" else
  (if b_dirty b then
     upd_buf i (λ b, b <| b_dirty := false |>);;
     modify (λ s, s <| k_disk ::= <[b_blockno b := b_data b]> |>
                    <| k_out ::= cons (DiskWrite (b_blockno b) (b_data b)) |>)
   else
     d ← gets k_disk;
     upd_buf i (λ x, x <| b_data := disk_block d (b_blockno b) |>));;
  upd_buf i (λ b, b <| b_valid := true |>).

#[export] Instance memide : BlockDev := { iderw := memide_iderw }.
End memide.

(** ** bio.c *)
Section bio.
Context {LK : Linker} {FU : Fuel} {BD : BlockDev}.

(** Each buffer in turn is put at the front of the list. *)
Definition binit : K unit :=
  modify (λ s, s <| k_mru := reverse (seq 0 NBUF) |>);;
  mforM (λ i, initsleeplock (SLBuf i)) (seq 0 NBUF).

(** The first buffer of [l] that satisfies [P]. *)
Fixpoint find_buf (P : buf → bool) (l : list nat) : K (option nat) :=
  match l with
  | [] => mret None
  | i :: l => b ← get_buf i; if P b then mret (Some i) else find_buf P l
  end.

Definition caches (dev blockno : Z) (b : buf) : bool :=
  ((b_dev b =? dev) && (b_blockno b =? blockno))%bool.
Definition recyclable (b : buf) : bool := ((b_refcnt b =? 0) && negb (b_dirty b))%bool.

Definition bget (dev blockno : Z) : K nat :=
  acquire LBcache;;
  mru ← gets k_mru;
  hit ← find_buf (caches dev blockno) mru;
  match hit with
  | Some i =>
      upd_buf i (λ b, b <| b_refcnt ::= λ n, u32 (n + 1) |>);;
      release LBcache;;
      acquiresleep (SLBuf i);;
      mret i
  | None =>
      free ← find_buf recyclable (reverse mru);
      match free with
      | Some i =>
          upd_buf i (λ b, b <| b_dev := dev |> <| b_blockno := blockno |>
            <| b_valid := false |> <| b_dirty := false |> <| b_refcnt := 1 |>);;
          release LBcache;;
          acquiresleep (SLBuf i);;
          mret i
      | None => panic "bget: no buffers"
      end
  end.

Definition bread (dev blockno : Z) : K nat :=
  i ← bget dev blockno;
  b ← get_buf i;
  mwhen (negb (b_valid b)) (iderw i);;
  mret i.

Definition bwrite (i : nat) : K unit :=
  h ← holdingsleep (SLBuf i);
  if negb h then panic "bwrite" else
  upd_buf i (λ b, b <| b_dirty := true |>);;
  iderw i.

Definition brelse (i : nat) : K unit :=
  h ← holdingsleep (SLBuf i);
  if negb h then panic "brelse" else
  releasesleep (SLBuf i);;
  acquire LBcache;;
  upd_buf i (λ b, b <| b_refcnt ::= λ n, u32 (n - 1) |>);;
  b ← get_buf i;
  mwhen (b_refcnt b =? 0)
    (modify (λ s, s <| k_mru ::= λ l, i :: filter (λ j, j ≠ i) l |>));;
  release LBcache.

(** ** Block contents as the rest of the file system uses them *)

(** [*(uint* )(b->data + off)], [*(short* )(b->data + off)], and storing bytes
    at an offset. *)
Definition blk_word (d : list Z) (off : nat) : Z := word_of (take 4 (drop off d)).
Definition blk_short (d : list Z) (off : nat) : Z := i16 (word_of (take 2 (drop off d))).
Definition blk_put (d : list Z) (off : nat) (l : list Z) : list Z :=
  take off d ++ l ++ drop (off + length l) d.
Definition upd_data (i : nat) (f : list Z → list Z) : K unit :=
  upd_buf i (λ b, b <| b_data ::= f |>).
End bio.

(** Storing into a block, and reading it back. *)
Lemma blk_put_length d off l :
  (off + length l ≤ length d)%nat → length (blk_put d off l) = length d.
Proof. intros H. unfold blk_put. rewrite !length_app, length_take, length_drop. lia. Qed.

(** What is read back at [off + k] after storing [l] at [off]. *)
Lemma blk_put_get d off l k n :
  (off + length l ≤ length d)%nat → (k + n ≤ length l)%nat →
  take n (drop (off + k) (blk_put d off l)) = take n (drop k l).
Proof.
  intros Hd Hk. unfold blk_put. rewrite drop_app_ge by (rewrite length_take; lia).
  rewrite length_take. replace (off + k - off `min` length d)%nat with k by lia.
  rewrite drop_app_le by lia. rewrite take_app_le by (rewrite length_drop; lia). done.
Qed.
Lemma blk_put_other d off l k :
  (off + length l ≤ length d)%nat → (k < off ∨ off + length l ≤ k)%nat →
  blk_put d off l !! k = d !! k.
Proof.
  intros Hd [Hk | Hk]; unfold blk_put.
  - rewrite lookup_app_l by (rewrite length_take; lia). by apply lookup_take_lt.
  - rewrite lookup_app_r by (rewrite length_take; lia).
    rewrite lookup_app_r by (rewrite length_take; lia).
    rewrite lookup_drop, length_take. f_equal. lia.
Qed.

Lemma blk_put_word d off v :
  is_u32 v → (off + 4 ≤ length d)%nat → blk_word (blk_put d off (word_bytes v)) off = v.
Proof.
  intros Hv Hd. unfold blk_word.
  replace off with (off + 0)%nat at 1 by lia. rewrite blk_put_get by (cbn; lia).
  rewrite drop_0, take_ge by (cbn; lia). by apply word_of_bytes.
Qed.
Lemma blk_put_word_other d off v k :
  (off + 4 ≤ length d)%nat → (k + 4 ≤ off ∨ off + 4 ≤ k)%nat →
  blk_word (blk_put d off (word_bytes v)) k = blk_word d k.
Proof.
  intros Hd Hk. unfold blk_word. f_equal. apply list_eq. intros j.
  destruct (decide (j < 4)%nat).
  - rewrite !lookup_take_lt, !lookup_drop by done. apply blk_put_other; cbn; lia.
  - by rewrite !lookup_take_ge by lia.
Qed.

(** ** The cache in front of the memory disk

    [io i pid V B H s]: process [i] runs and no other process is using the
    cache; the buffers of [H] are held by it.  [V blk] is the content the cache
    presents for block [blk] of disk 1, [B] the blocks whose buffer is dirty
    (pinned by the log): for the others, unless held, it is what the disk has. *)
Record buf_ok (pid : Z) (V : Z → list Z) (B : gset Z) (held : Prop) (b : buf) : Prop := {
  bo_data : b_dev b = 1 → b_valid b = true → b_data b = V (b_blockno b);
  bo_dirty : b_dirty b = true → b_dev b = 1 ∧ b_valid b = true ∧ b_blockno b ∈ B;
  bo_held : held → b_dev b = 1 ∧ b_valid b = true ∧
    b_lock b = mkSleeplock true pid ∧ b_refcnt b = 1;
  bo_free : ¬ held → sl_locked (b_lock b) = false ∧ b_refcnt b = 0 }.

Record io (i : nat) (pid : Z) (V : Z → list Z) (B : gset Z) (H : list nat) (s : kst)
    : Prop := {
  io_calm : calm i pid s;
  io_len : length (k_bufs s) = NBUF;
  io_mru : k_mru s ≡ₚ seq 0 NBUF;
  io_uniq : ∀ j k b c, k_bufs s !! j = Some b → k_bufs s !! k = Some c →
    b_dev b = 1 → b_dev c = 1 → b_blockno b = b_blockno c → j = k;
  io_buf : ∀ j b, k_bufs s !! j = Some b → buf_ok pid V B (j ∈ H) b;
  io_pinned : ∀ blk, blk ∈ B → ∃ j b, k_bufs s !! j = Some b ∧
    b_dev b = 1 ∧ b_blockno b = blk ∧ b_dirty b = true;
  io_clean : ∀ blk, blk ∉ B →
    (∀ j b, j ∈ H → k_bufs s !! j = Some b → b_blockno b ≠ blk) →
    V blk = disk_block (k_disk s) blk }.

(** What the cache operations leave alone. *)
Definition keeps (s s' : kst) : Prop :=
  k_log s' = k_log s ∧ k_disk s' = k_disk s ∧ k_out s' = k_out s.

(** What nothing below the buffer cache touches. *)
Record rest_same (s s' : kst) : Prop := {
  rs_mem : k_mem s' = k_mem s; rs_kmem : k_kmem s' = k_kmem s;
  rs_kpgdir : k_kpgdir s' = k_kpgdir s; rs_pv : k_pv s' = k_pv s;
  rs_conts : k_conts s' = k_conts s; rs_files : k_files s' = k_files s;
  rs_pipes : k_pipes s' = k_pipes s; rs_icache : k_icache s' = k_icache s;
  rs_sb : k_sb s' = k_sb s; rs_input : k_input s' = k_input s;
  rs_held : k_held s' = k_held s;
  rs_cr3 : cr3 (k_cpu s') = cr3 (k_cpu s) }.
#[export] Instance rest_same_preorder : PreOrder rest_same.
Proof.
  split; [by split |]. intros s1 s2 s3 [] []. split; by etransitivity.
Qed.

Section bio_spec.
Context {LK : Linker} {FU : Fuel} {MD : MemDisk}.
Implicit Types (V : Z → list Z) (B : gset Z) (H : list nat) (s : kst).

Lemma find_buf_spec P l s :
  (∀ j, j ∈ l → (j < length (k_bufs s))%nat) →
  ∃ r, find_buf P l s = Done r s ∧
    match r with
    | Some j => j ∈ l ∧ ∃ b, k_bufs s !! j = Some b ∧ P b = true
    | None => ∀ j b, j ∈ l → k_bufs s !! j = Some b → P b = false
    end.
Proof.
  induction l as [| j l IH]; intros Hl; cbn [find_buf].
  - exists None. split; [done |]. by intros j b ?%elem_of_nil.
  - destruct (lookup_lt_is_Some_2 (k_bufs s) j) as [b Hb]; [apply Hl; left |].
    rewrite (get_buf_bind _ _ b) by done. destruct (P b) eqn:HP.
    + exists (Some j). split; [done |]. split; [left | by exists b].
    + destruct IH as (r & Hr & H); [intros k Hk; apply Hl; by right |].
      exists r. split; [done |]. destruct r as [k |].
      * destruct H as [Hk H]. split; [by right | done].
      * intros k c [-> | Hk]%elem_of_cons Hc; [by simplify_eq | by apply (H k)].
Qed.

(** With fewer pinned and held buffers than buffers, one can be recycled. *)
Lemma recyclable_exists i pid V B H s :
  io i pid V B H s → (size B + length H < NBUF)%nat →
  ¬ ∀ j b, j ∈ seq 0 NBUF → k_bufs s !! j = Some b → recyclable b = false.
Proof.
  intros I Hsz Hall.
  set (L := filter (λ j, j ∉ H) (seq 0 NBUF)).
  set (no := λ j, default 0 (b_blockno <$> k_bufs s !! j)).
  assert (Hd : ∀ j, j ∈ L → ∃ b, k_bufs s !! j = Some b ∧ b_dev b = 1 ∧ b_blockno b ∈ B ∧
    no j = b_blockno b).
  { intros j [Hj Hin]%list_elem_of_filter. apply elem_of_seq in Hin as Hlt.
    destruct (lookup_lt_is_Some_2 (k_bufs s) j) as [b Hb]; [rewrite (io_len _ _ _ _ _ _ I); lia |].
    exists b. pose proof (io_buf _ _ _ _ _ _ I j b Hb) as Hok.
    specialize (Hall j b Hin Hb). unfold recyclable in Hall.
    destruct (bo_free _ _ _ _ _ Hok Hj) as [_ Hr]. rewrite Hr in Hall. cbn in Hall.
    apply negb_false_iff in Hall. apply (bo_dirty _ _ _ _ _ Hok) in Hall as (? & _ & ?).
    unfold no. by rewrite Hb. }
  assert (H1 : (length (seq 0 NBUF) ≤ length (L ++ H))%nat).
  { apply submseteq_length, NoDup_submseteq; [apply NoDup_seq |]. intros j Hj.
    apply elem_of_app. destruct (decide (j ∈ H)); [by right | left].
    by apply list_elem_of_filter. }
  assert (H2 : (length (no <$> L) ≤ size B)%nat).
  { change (size B) with (length (elements B)). apply submseteq_length, NoDup_submseteq.
    - apply NoDup_fmap_2_strong; [| apply NoDup_filter, NoDup_seq].
      intros j k Hj Hk Heq. destruct (Hd j Hj) as (b & Hb & Hb1 & _ & Hn).
      destruct (Hd k Hk) as (c & Hc & Hc1 & _ & Hm).
      apply (io_uniq _ _ _ _ _ _ I j k b c); congruence.
    - intros x (j & -> & Hj)%list_elem_of_fmap. destruct (Hd j Hj) as (b & _ & _ & Hb & ->).
      by apply elem_of_elements. }
  rewrite length_fmap in H2. rewrite length_app, length_seq in H1. lia.
Qed.

Lemma bget_tail i pid j f b s :
  calm i pid s → k_bufs s !! j = Some b → sl_locked (b_lock (f b)) = false →
  (0 < patience)%nat →
  (upd_buf j f;; release LBcache;; acquiresleep (SLBuf j);; mret j) (locked LBcache s)
    = Done j (ksync (s <| k_bufs ::= <[j := (f b) <| b_lock := mkSleeplock true pid |>]> |>)).
Proof.
  intros Hcm Hb Hl Hfu. pose proof Hcm as [Hc Hi Hh Hp].
  pose proof (lookup_lt_Some _ _ _ Hb) as Hlt.
  erewrite upd_buf_bind by exact Hb.
  rewrite (release_bind _ _ _ (k_cpu s) []);
    [| done | done | cbn; by rewrite Hh | by intros ?%elem_of_nil].
  erewrite bind_done.
  2: { apply (acquiresleep_free i pid _ (b_lock (f b))); [| | done | done].
       - split; [by apply sync_cpu_ok | done | done | done].
       - cbn. by rewrite list_lookup_insert_eq. }
  unfold mret, M_ret. f_equal. unfold ksync, locked. cbn [put_slock]. kst_eq.
  - apply sync_cpu_idem.
  - by rewrite Hh.
  - rewrite <- (insert_as_alter _ _ _ (f b)) by (by apply list_lookup_insert_eq).
    by rewrite list_insert_insert_eq.
Qed.

Lemma bget_run i pid V B H blk s :
  io i pid V B H s → (size B + length H < NBUF)%nat ∨ blk ∈ B → (0 < patience)%nat →
  (∀ j b, j ∈ H → k_bufs s !! j = Some b → b_blockno b ≠ blk) →
  ∃ j b b', (k_bufs s !! j = Some b) ∧ (j ∉ H) ∧
    bget 1 blk s = Done j (ksync (s <| k_bufs ::= <[j := b']> |>)) ∧
    ((b_dev b = 1 ∧ b_blockno b = blk ∧
        b' = b <| b_refcnt := 1 |> <| b_lock := mkSleeplock true pid |>) ∨
     (b_dirty b = false ∧ (∀ k c, k_bufs s !! k = Some c → b_dev c = 1 → b_blockno c ≠ blk) ∧
        b' = mkBuf false false 1 blk (mkSleeplock true pid) 1 (b_data b) (b_qnext b))).
Proof.
  intros I Hsz Hfu Hne. pose proof (io_calm _ _ _ _ _ _ I) as Hcm.
  pose proof Hcm as [Hc Hi Hh Hp].
  unfold bget. rewrite acquire_bind by (done || (rewrite Hh; by intros ?%elem_of_nil)).
  rewrite bind_gets. change (k_mru (locked LBcache s)) with (k_mru s).
  assert (Hmru : ∀ j, j ∈ k_mru s ↔ (j < NBUF)%nat).
  { intros j. rewrite (io_mru _ _ _ _ _ _ I), elem_of_seq. lia. }
  assert (Hlt : ∀ j, j ∈ k_mru s → (j < length (k_bufs (locked LBcache s)))%nat).
  { intros j Hj%Hmru. cbn. by rewrite (io_len _ _ _ _ _ _ I). }
  destruct (find_buf_spec (caches 1 blk) (k_mru s) (locked LBcache s) Hlt) as (r & Hr & Hspec).
  rewrite (bind_done _ _ _ _ _ Hr). destruct r as [j |].
  - destruct Hspec as (Hj & b & Hb & Hcb). cbn in Hb.
    unfold caches in Hcb. apply andb_true_iff in Hcb as [Hd%Z.eqb_eq Hbl%Z.eqb_eq].
    assert (HjH : j ∉ H) by (intros HH; by apply (Hne j b HH Hb)).
    pose proof (io_buf _ _ _ _ _ _ I j b Hb) as Hok.
    destruct (bo_free _ _ _ _ _ Hok HjH) as [Hfl Hrc].
    exists j, b. eexists. split_and!; [done | done | | by left].
    rewrite (bget_tail i pid _ _ b) by done. unfold set, set_b_refcnt. by rewrite Hrc.
  - assert (Hno : ∀ k c, k_bufs s !! k = Some c → b_dev c = 1 → b_blockno c ≠ blk).
    { intros k c Hk Hc1 Hc2. specialize (Hspec k c).
      rewrite Hmru in Hspec. unfold caches in Hspec.
      rewrite Hc1, Hc2, !Z.eqb_refl in Hspec. cbn in Hspec.
      assert (true = false); [| done]. apply Hspec; [| done].
      rewrite <- (io_len _ _ _ _ _ _ I). by eapply lookup_lt_Some. }
    destruct Hsz as [Hsz | Hin].
    2: { destruct (io_pinned _ _ _ _ _ _ I blk Hin) as (k & c & Hk & Hc1 & Hc2 & _).
         by destruct (Hno k c Hk Hc1). }
    destruct (find_buf_spec recyclable (reverse (k_mru s)) (locked LBcache s))
      as (r & Hr' & Hspec'); [intros j; rewrite reverse_Permutation; apply Hlt |].
    rewrite (bind_done _ _ _ _ _ Hr'). destruct r as [j |].
    + destruct Hspec' as (Hj & b & Hb & Hrb). cbn in Hb.
      unfold recyclable in Hrb. apply andb_true_iff in Hrb as [Hrc%Z.eqb_eq Hd%negb_true_iff].
      pose proof (io_buf _ _ _ _ _ _ I j b Hb) as Hok.
      assert (HjH : j ∉ H).
      { intros HH. apply (bo_held _ _ _ _ _ Hok) in HH as (_ & _ & _ & ?). lia. }
      destruct (bo_free _ _ _ _ _ Hok HjH) as [Hfl _].
      exists j, b. eexists. split_and!; [done | done | | right; split_and!; [done | | done]].
      * rewrite (bget_tail i pid _ _ b) by done. done.
      * done.
    + destruct (recyclable_exists i pid V B H s I Hsz). intros j b Hj Hb.
      apply (Hspec' j); [| done]. rewrite reverse_Permutation. apply Hmru.
      apply elem_of_seq in Hj. lia.
Qed.

(** One buffer changes. *)
Lemma io_update i pid V V' B B' H H' j b b' s s' :
  io i pid V B H s → k_bufs s !! j = Some b → calm i pid s' →
  k_bufs s' = <[j := b']> (k_bufs s) → k_mru s' ≡ₚ k_mru s →
  (b_dev b' = 1 → ∀ k c, k ≠ j → k_bufs s !! k = Some c → b_dev c = 1 →
     b_blockno c ≠ b_blockno b') →
  (∀ k c, k ≠ j → k_bufs s !! k = Some c → buf_ok pid V B (k ∈ H) c →
     buf_ok pid V' B' (k ∈ H') c) →
  buf_ok pid V' B' (j ∈ H') b' →
  (∀ blk, blk ∈ B' → blk ∈ B) →
  (b_dirty b = true → b_blockno b ∈ B' →
     b_dev b' = 1 ∧ b_blockno b' = b_blockno b ∧ b_dirty b' = true) →
  (∀ blk, blk ∉ B' → (∀ k c, k ∈ H' → k_bufs s' !! k = Some c → b_blockno c ≠ blk) →
     V' blk = disk_block (k_disk s') blk) →
  io i pid V' B' H' s'.
Proof.
  intros I Hb Hcm Hbufs Hmru Huq Hoth Hok HB Hpin Hcl.
  pose proof (lookup_lt_Some _ _ _ Hb) as Hlt.
  assert (Hcase : ∀ k c, k_bufs s' !! k = Some c →
    (k = j ∧ c = b') ∨ (k ≠ j ∧ k_bufs s !! k = Some c)).
  { intros k c. rewrite Hbufs. destruct (decide (k = j)) as [-> |].
    - rewrite list_lookup_insert_eq by done. intros. left. by simplify_eq.
    - rewrite list_lookup_insert_ne by done. by right. }
  split; [done | | | | | | done].
  - rewrite Hbufs, length_insert. apply I.
  - rewrite Hmru. apply I.
  - intros k l c d Hk Hl Hc Hd Heq.
    destruct (Hcase k c Hk) as [[-> ->] | [Hkj Hkc]], (Hcase l d Hl) as [[-> ->] | [Hlj Hld]];
      [done | | | by apply (io_uniq _ _ _ _ _ _ I k l c d)].
    + by destruct (Huq Hc l d Hlj Hld Hd).
    + by destruct (Huq Hd k c Hkj Hkc Hc).
  - intros k c Hk. destruct (Hcase k c Hk) as [[-> ->] | [Hkj Hkc]]; [done |].
    apply (Hoth k c Hkj Hkc), (io_buf _ _ _ _ _ _ I k c Hkc).
  - intros blk Hblk. destruct (io_pinned _ _ _ _ _ _ I blk (HB blk Hblk)) as (k & c & Hk & Hc & Hcb & Hd).
    destruct (decide (k = j)) as [-> | Hkj].
    + simplify_eq. destruct (Hpin Hd Hblk) as (? & ? & ?). exists j, b'.
      split; [rewrite Hbufs; by apply list_lookup_insert_eq | done].
    + exists k, c. split; [by rewrite Hbufs, list_lookup_insert_ne | done].
Qed.

(** A buffer other than [j] is not concerned by [j] being taken or released. *)
Lemma buf_ok_held pid V B (P Q : Prop) b :
  (P ↔ Q) → buf_ok pid V B P b → buf_ok pid V B Q b.
Proof. intros HPQ [? ? ? ?]. split; [done | done | |]; by rewrite <- HPQ. Qed.

Lemma calm_keep i pid s s' :
  calm i pid s → k_cpu s' = k_cpu s ∨ k_cpu s' = sync_cpu (k_cpu s) →
  k_held s' = k_held s →
  (k_procs s' = k_procs s ∨ ∃ ch, k_procs s' = wake ch <$> k_procs s) →
  calm i pid s'.
Proof.
  intros [Hc Hi Hh Hp] Hcpu Hheld Hprocs. split.
  - destruct Hcpu as [-> | ->]; [done | by apply sync_cpu_ok].
  - by destruct Hcpu as [-> | ->].
  - by rewrite Hheld.
  - destruct Hprocs as [-> | [ch ->]]; [done |].
    rewrite list_lookup_fmap. destruct (k_procs s !! i) as [p |]; [| done].
    cbn in *. unfold wake. by case_bool_decide.
Qed.

(** What a successful [bread] returns: a held, valid buffer with the block's
    content; the other held buffers are as they were. *)
Definition has_block (pid : Z) (V : Z → list Z) (blk : Z) (b : buf) : Prop :=
  b_dev b = 1 ∧ b_valid b = true ∧ b_blockno b = blk ∧ b_data b = V blk ∧
  b_lock b = mkSleeplock true pid ∧ b_refcnt b = 1.

Lemma memide_read i pid j b s :
  calm i pid s → k_bufs s !! j = Some b → b_lock b = mkSleeplock true pid →
  b_valid b = false → b_dirty b = false → b_dev b = 1 → b_blockno b < disksize →
  memide_iderw j s = Done tt (ksync (s <| k_bufs ::=
    <[j := b <| b_data := disk_block (k_disk s) (b_blockno b) |> <| b_valid := true |>]> |>)).
Proof.
  intros Hcm Hb Hl Hv Hd Hdev Hlt. unfold memide_iderw.
  pose proof (lookup_lt_Some _ _ _ Hb) as Hlen.
  assert (Hs : slock_of s (SLBuf j) = Some (mkSleeplock true pid)) by (cbn; by rewrite Hb; cbn; rewrite Hl).
  rewrite (bind_done _ _ _ _ _ (holdingsleep_run i pid _ _ s Hcm Hs)). cbn [sl_locked sl_pid].
  rewrite Z.eqb_refl. cbn [andb negb]. rewrite (get_buf_bind _ _ b) by done.
  rewrite Hv, Hdev. cbn [andb negb Z.eqb Pos.eqb].
  destruct (Z.geb_spec (b_blockno b) disksize); [lia |]. rewrite Hd.
  rewrite bind_assoc, bind_gets. rewrite (upd_buf_bind _ _ _ b) by done.
  erewrite upd_buf_run by (cbn; by apply list_lookup_insert_eq).
  kst_eq. by rewrite list_insert_insert_eq.
Qed.
Lemma memide_write i pid j b s :
  calm i pid s → k_bufs s !! j = Some b → b_lock b = mkSleeplock true pid →
  b_dirty b = true → b_dev b = 1 → b_blockno b < disksize →
  memide_iderw j s = Done tt (ksync (s <| k_bufs ::=
      <[j := b <| b_dirty := false |> <| b_valid := true |>]> |>
    <| k_disk ::= <[b_blockno b := b_data b]> |>
    <| k_out ::= cons (DiskWrite (b_blockno b) (b_data b)) |>)).
Proof.
  intros Hcm Hb Hl Hd Hdev Hlt. unfold memide_iderw.
  pose proof (lookup_lt_Some _ _ _ Hb) as Hlen.
  assert (Hs : slock_of s (SLBuf j) = Some (mkSleeplock true pid)) by (cbn; by rewrite Hb; cbn; rewrite Hl).
  rewrite (bind_done _ _ _ _ _ (holdingsleep_run i pid _ _ s Hcm Hs)). cbn [sl_locked sl_pid].
  rewrite Z.eqb_refl. cbn [andb negb]. rewrite (get_buf_bind _ _ b) by done.
  rewrite Hd, Hdev, andb_false_r. cbn [andb negb Z.eqb Pos.eqb].
  destruct (Z.geb_spec (b_blockno b) disksize); [lia |].
  rewrite bind_assoc, (upd_buf_bind _ _ _ b) by done. rewrite bind_modify.
  erewrite upd_buf_run by (cbn; by apply list_lookup_insert_eq).
  kst_eq. by rewrite list_insert_insert_eq.
Qed.

Lemma bread_spec i pid V B H blk s :
  io i pid V B H s → (size B + length H < NBUF)%nat ∨ blk ∈ B → (0 < patience)%nat →
  blk < disksize → (∀ j b, j ∈ H → k_bufs s !! j = Some b → b_blockno b ≠ blk) →
  ∃ j b s', bread (BD := memide) 1 blk s = Done j s' ∧ io i pid V B (j :: H) s' ∧ (j ∉ H) ∧
    k_bufs s' !! j = Some b ∧ has_block pid V blk b ∧ keeps s s' ∧
    (∀ k, k ≠ j → k_bufs s' !! k = k_bufs s !! k) ∧ rest_same s s'.
Proof.
  intros I Hsz Hfu Hblk Hne.
  destruct (bget_run i pid V B H blk s I Hsz Hfu Hne) as (j & b & b' & Hb & HjH & Hget & Hcase).
  pose proof (lookup_lt_Some _ _ _ Hb) as Hlt.
  pose proof (io_buf _ _ _ _ _ _ I j b Hb) as Hok.
  (* once the buffer is [c], everything follows *)
  assert (Hfin : ∀ c s', s' = ksync (s <| k_bufs ::= <[j := c]> |>) →
    has_block pid V blk c → (b_dirty c = true → blk ∈ B) →
    (b_dirty b = true → b_dev b = 1 ∧ b_blockno b = blk ∧ b_dirty c = true) →
    (∀ k d, k ≠ j → k_bufs s !! k = Some d → b_dev d = 1 → b_blockno d ≠ blk) →
    io i pid V B (j :: H) s' ∧ (j ∉ H) ∧ k_bufs s' !! j = Some c ∧ has_block pid V blk c ∧
      keeps s s' ∧ (∀ k, k ≠ j → k_bufs s' !! k = k_bufs s !! k) ∧ rest_same s s').
  { intros c s' -> Hc Hcd Hbd Huq. destruct Hc as (Hc1 & Hc2 & Hc3 & Hc4 & Hc5 & Hc6).
    split; [| split; [done | split; [cbn; by apply list_lookup_insert_eq |
      split; [done | split; [done | split; [intros k Hk; cbn; by apply list_lookup_insert_ne | by split]]]]]].
    apply (io_update i pid V V B B H (j :: H) j b c s); try done.
    - apply (calm_keep i pid s); [apply I | by right | done | by left].
    - intros _ k d Hk Hd Hd1. rewrite Hc3. by apply (Huq k).
    - intros k d Hk Hd. apply buf_ok_held. rewrite elem_of_cons. tauto.
    - split; [by rewrite Hc3 | by rewrite Hc3; auto | done |].
      intros Hn. destruct Hn. left.
    - intros Hd _. destruct (Hbd Hd) as (? & -> & ?). done.
    - intros x Hx Hh. apply (io_clean _ _ _ _ _ _ I x Hx).
      intros k d Hk Hd. assert (k ≠ j) by (by intros ->).
      apply (Hh k); [by right |]. cbn. by rewrite list_lookup_insert_ne. }
  assert (Huq1 : b_dev b = 1 → b_blockno b = blk →
    ∀ k d, k ≠ j → k_bufs s !! k = Some d → b_dev d = 1 → b_blockno d ≠ blk).
  { intros H1 H2 k d Hk Hd Hd1 Hd2. apply Hk.
    apply (io_uniq _ _ _ _ _ _ I k j d b Hd Hb); congruence. }
  unfold bread. rewrite (bind_done _ _ _ _ _ Hget).
  rewrite (get_buf_bind _ _ b') by (cbn; by apply list_lookup_insert_eq).
  set (s1 := ksync (s <| k_bufs ::= <[j := b']> |>)).
  assert (Hcm1 : calm i pid s1)
    by (apply (calm_keep i pid s); [apply I | by right | done | by left]).
  assert (Hb1 : k_bufs s1 !! j = Some b') by (cbn; by apply list_lookup_insert_eq).
  assert (Hs1 : ∀ c, ksync (s1 <| k_bufs ::= <[j := c]> |>) = ksync (s <| k_bufs ::= <[j := c]> |>)).
  { intros c. unfold s1, ksync. kst_eq; [apply sync_cpu_idem | by rewrite list_insert_insert_eq]. }
  destruct Hcase as [(Hdev & Hbl & ->) | (Hd & Hno & ->)].
  - destruct (b_valid b) eqn:Hv; cbn [b_valid set set_b_lock set_b_refcnt negb mwhen];
      rewrite Hv; cbn [negb mwhen].
    + rewrite bind_ret. eexists j, _, s1. split; [done |]. apply Hfin; try done.
      * split_and!; try done. cbn. by rewrite <- Hbl, (bo_data _ _ _ _ _ Hok).
      * cbn. intros (_ & _ & ?)%(bo_dirty _ _ _ _ _ Hok). by rewrite <- Hbl.
      * by apply Huq1.
    + assert (Hnd : b_dirty b = false).
      { destruct (b_dirty b) eqn:E; [| done]. apply (bo_dirty _ _ _ _ _ Hok) in E as (_ & E & _). congruence. }
      change (iderw j) with (memide_iderw j).
      erewrite bind_done by (apply (memide_read i pid j _ s1 Hcm1 Hb1); try done; cbn; by rewrite Hbl).
      rewrite Hs1. eexists j, _, _. split; [done |]. apply Hfin;
        [done | | intros Hx; exfalso; cbn in Hx; congruence | intros Hx; congruence | by apply Huq1].
      split_and!; try done. cbn. symmetry. rewrite Hbl. apply (io_clean _ _ _ _ _ _ I); [| done].
      intros Hin. destruct (io_pinned _ _ _ _ _ _ I blk Hin) as (k & c & Hk & Hc1 & Hc2 & Hc3).
      assert (k = j) as -> by (apply (io_uniq _ _ _ _ _ _ I k j c b); congruence).
      simplify_eq. congruence.
  - cbn [b_valid negb mwhen]. change (iderw j) with (memide_iderw j).
    erewrite bind_done by (by apply (memide_read i pid j _ s1 Hcm1 Hb1)).
    rewrite Hs1. eexists j, _, _. split; [done |]. apply Hfin; try done.
    + split_and!; try done. cbn. symmetry. apply (io_clean _ _ _ _ _ _ I); [| done].
      intros Hin. destruct (io_pinned _ _ _ _ _ _ I blk Hin) as (k & c & Hk & Hc1 & Hc2 & Hc3).
      by destruct (Hno k c Hk Hc1).
    + by rewrite Hd.
    + intros k d _. apply Hno.
Qed.

(** The held buffer of a block gets new content. *)
Lemma put_data_spec i pid V B H j b d s :
  io i pid V B H s → j ∈ H → k_bufs s !! j = Some b →
  let b' := b <| b_data := d |> in
  upd_buf j (λ b, b <| b_data := d |>) s = Done tt (s <| k_bufs ::= <[j := b']> |>) ∧
  io i pid (<[b_blockno b := d]> V) B H (s <| k_bufs ::= <[j := b']> |>).
Proof.
  intros I Hj Hb b'. split; [by apply upd_buf_run |].
  pose proof (io_buf _ _ _ _ _ _ I j b Hb) as Hok.
  destruct (bo_held _ _ _ _ _ Hok Hj) as (Hd & Hv & Hl & Hr).
  pose proof (lookup_lt_Some _ _ _ Hb) as Hlt.
  assert (Huq : ∀ k c, k ≠ j → k_bufs s !! k = Some c → b_dev c = 1 → b_blockno c ≠ b_blockno b).
  { intros k c Hk Hc Hc1 Heq. by apply Hk, (io_uniq _ _ _ _ _ _ I k j c b). }
  apply (io_update i pid V _ B B H H j b b' s); try done.
  - apply (calm_keep i pid s); [apply I | by left | done | by left].
  - intros k c Hk Hc [Hdat ? ? ?]. split; try done. intros Hc1 Hcv.
    rewrite fn_lookup_insert_ne by (apply not_eq_sym; by apply (Huq k)). by apply Hdat.
  - destruct Hok as [_ ? ? ?]. split; try done. intros _ _. by rewrite fn_lookup_insert.
  - intros x Hx Hh.
    assert (b_blockno b ≠ x).
    { apply (Hh j b' Hj). cbn. by apply list_lookup_insert_eq. }
    rewrite fn_lookup_insert_ne by done. apply (io_clean _ _ _ _ _ _ I x Hx).
    intros k c Hk Hc. destruct (decide (k = j)) as [-> |]; [by simplify_eq |].
    apply (Hh k); [done |]. cbn. by rewrite list_lookup_insert_ne.
Qed.

Lemma bwrite_spec i pid V B H j b s :
  io i pid V B H s → j ∈ H → k_bufs s !! j = Some b → b_blockno b < disksize →
  ∃ s', bwrite (BD := memide) j s = Done tt s' ∧
    io i pid V (B ∖ {[ b_blockno b ]}) H s' ∧ k_log s' = k_log s ∧
    k_disk s' = <[b_blockno b := V (b_blockno b)]> (k_disk s) ∧
    k_out s' = DiskWrite (b_blockno b) (V (b_blockno b)) :: k_out s ∧
    k_bufs s' = <[j := b <| b_dirty := false |>]> (k_bufs s).
Proof.
  intros I Hj Hb Hlt. pose proof (io_buf _ _ _ _ _ _ I j b Hb) as Hok.
  destruct (bo_held _ _ _ _ _ Hok Hj) as (Hd & Hv & Hl & Hr).
  pose proof (bo_data _ _ _ _ _ Hok Hd Hv) as HV.
  pose proof (lookup_lt_Some _ _ _ Hb) as Hlen.
  assert (Huq : ∀ k c, k ≠ j → k_bufs s !! k = Some c → b_dev c = 1 → b_blockno c ≠ b_blockno b).
  { intros k c Hk Hc Hc1 Heq. by apply Hk, (io_uniq _ _ _ _ _ _ I k j c b). }
  assert (Hbd : (b <| b_dirty := false |>) <| b_valid := true |> = b <| b_dirty := false |>)
    by (destruct b; cbn in Hv; by subst).
  eexists. split.
  - unfold bwrite.
    assert (Hs : slock_of s (SLBuf j) = Some (mkSleeplock true pid)) by (cbn; rewrite Hb; cbn; by rewrite Hl).
    rewrite (bind_done _ _ _ _ _ (holdingsleep_run i pid _ _ s (io_calm _ _ _ _ _ _ I) Hs)).
    cbn [sl_locked sl_pid]. rewrite Z.eqb_refl. cbn [andb negb].
    rewrite (upd_buf_bind _ _ _ b) by done. change (iderw j) with (memide_iderw j).
    apply (memide_write i pid j (b <| b_dirty := true |>)); try done.
    + apply (calm_keep i pid s); [apply I | by right | done | by left].
    + cbn. by apply list_lookup_insert_eq.
  - split_and!; [| done | cbn; by rewrite HV | cbn; by rewrite HV |
      cbn; rewrite list_insert_insert_eq; f_equal; destruct b; cbn in Hv |- *; by subst].
    apply (io_update i pid V V B _ H H j b (b <| b_dirty := false |>) s); try done.
    + apply (calm_keep i pid s); [apply I | right; cbn; apply sync_cpu_idem | done | by left].
    + cbn. rewrite list_insert_insert_eq. f_equal. destruct b; cbn in Hv |- *; by subst.
    + intros k c Hk Hc [? Hdt ? ?]. split; try done. intros (Hc1 & Hcv & Hin)%Hdt.
      split_and!; [done | done |]. apply elem_of_difference. split; [done |].
      rewrite elem_of_singleton. by apply (Huq k).
    + intros x. rewrite elem_of_difference. tauto.
    + intros _. rewrite elem_of_difference, elem_of_singleton. tauto.
    + intros x Hx Hh. cbn. unfold disk_block.
      destruct (decide (x = b_blockno b)) as [-> | Hne].
      * by rewrite lookup_insert_eq, HV.
      * rewrite lookup_insert_ne by done. apply (io_clean _ _ _ _ _ _ I x).
        { rewrite elem_of_difference, elem_of_singleton in Hx. tauto. }
        intros k c Hk Hc. destruct (decide (k = j)) as [-> |]; [simplify_eq; congruence |].
        apply (Hh k); [done |]. cbn. by rewrite !list_lookup_insert_ne.
Qed.

Lemma brelse_spec i pid V B H j b s :
  io i pid V B (j :: H) s → j ∉ H → k_bufs s !! j = Some b →
  (b_blockno b ∈ B ∨ V (b_blockno b) = disk_block (k_disk s) (b_blockno b)) →
  ∃ s', brelse j s = Done tt s' ∧ io i pid V B H s' ∧ keeps s s' ∧
    (∀ k, k ≠ j → k_bufs s' !! k = k_bufs s !! k) ∧ rest_same s s'.
Proof.
  intros I HjH Hb Hcl. pose proof (io_buf _ _ _ _ _ _ I j b Hb) as Hok.
  destruct (bo_held _ _ _ _ _ Hok ltac:(left)) as (Hd & Hv & Hl & Hr).
  pose proof (lookup_lt_Some _ _ _ Hb) as Hlen. pose proof (io_calm _ _ _ _ _ _ I) as Hcm.
  pose proof Hcm as [Hc Hi Hh Hp].
  assert (Hs : slock_of s (SLBuf j) = Some (mkSleeplock true pid)) by (cbn; rewrite Hb; cbn; by rewrite Hl).
  set (b' := b <| b_lock := slock0 |> <| b_refcnt := 0 |>).
  set (s' := ksync (s <| k_bufs ::= <[j := b']> |> <| k_mru ::= λ l, j :: filter (λ k, k ≠ j) l |>
    <| k_procs ::= fmap (wake (Some (CSleep (SLBuf j)))) |>)).
  assert (Hrun : brelse j s = Done tt s').
  { unfold brelse. rewrite (bind_done _ _ _ _ _ (holdingsleep_run i pid _ _ s Hcm Hs)).
    cbn [sl_locked sl_pid]. rewrite Z.eqb_refl. cbn [andb negb].
    assert (Hcm1 : calm i pid (ksync s)) by (apply (calm_keep i pid s); [done | by right | done | by left]).
    rewrite (bind_done _ _ _ _ _ (releasesleep_run i pid (SLBuf j) (mkSleeplock true pid) (ksync s) Hcm1 Hs)).
    rewrite acquire_bind; [| by apply sync_cpu_ok, sync_cpu_ok | cbn; rewrite Hh; by intros ?%elem_of_nil].
    erewrite upd_buf_bind by (cbn; rewrite list_lookup_alter, decide_True, Hb; done).
    erewrite get_buf_bind by (cbn; apply list_lookup_insert_eq; by rewrite length_alter).
    cbn [b_refcnt set set_b_refcnt set_b_lock]. rewrite Hr. change (u32 (1 - 1) =? 0) with true.
    cbn [mwhen]. rewrite bind_modify.
    rewrite (release_run _ _ (sync_cpu (sync_cpu (k_cpu s))) []);
      [| by apply sync_cpu_ok, sync_cpu_ok | done | cbn; by rewrite Hh | by intros ?%elem_of_nil].
    unfold s', ksync, locked. cbn [put_slock]. kst_eq.
    - by rewrite !sync_cpu_idem.
    - by rewrite Hh.
    - rewrite <- (insert_as_alter _ _ _ b) by done. rewrite list_insert_insert_eq.
      f_equal. unfold b'. destruct b; cbn in Hr |- *; by subst. }
  exists s'. split; [done |].
  split; [| split; [done | split; [intros k Hk; cbn; by apply list_lookup_insert_ne | by split]]].
  apply (io_update i pid V V B B (j :: H) H j b b' s); try done.
  - apply (calm_keep i pid s); [done | by right | done | right; by eexists].
  - cbn. assert (Hin : j ∈ k_mru s).
    { rewrite (io_mru _ _ _ _ _ _ I), elem_of_seq, <- (io_len _ _ _ _ _ _ I). lia. }
    assert (Hnd : NoDup (k_mru s)) by (rewrite (io_mru _ _ _ _ _ _ I); apply NoDup_seq).
    apply NoDup_Permutation; [| done |].
    + constructor; [rewrite list_elem_of_filter; tauto | by apply NoDup_filter].
    + intros k. rewrite elem_of_cons, list_elem_of_filter.
      destruct (decide (k = j)) as [-> |]; tauto.
  - intros _ k c Hk Hkc Hc1 Heq. by apply Hk, (io_uniq _ _ _ _ _ _ I k j c b).
  - intros k c Hk Hkc. apply buf_ok_held. rewrite elem_of_cons. tauto.
  - destruct Hok as [? ? _ _]. by split.
  - intros x Hx Hn. destruct (decide (x = b_blockno b)) as [-> | Hne]; [by destruct Hcl |].
    apply (io_clean _ _ _ _ _ _ I x Hx). intros k c [-> | Hk]%elem_of_cons Hk2; [simplify_eq; congruence |].
    apply (Hn k c Hk). cbn. rewrite list_lookup_insert_ne; [done |]. by intros ->.
Qed.

(** The order in which the held buffers are listed does not matter. *)
Lemma io_perm i pid V B H H' s :
  (∀ j, j ∈ H ↔ j ∈ H') → io i pid V B H s → io i pid V B H' s.
Proof.
  intros HH [? ? ? ? Hbuf ? Hcl]. split; try done.
  - intros j b Hb. apply (buf_ok_held _ _ _ (j ∈ H)); auto.
  - intros x Hx Hn. apply Hcl; [done |]. intros j b Hj. apply Hn. by apply HH.
Qed.

Lemma upd_data_spec i pid V B H j b f s :
  io i pid V B H s → j ∈ H → k_bufs s !! j = Some b →
  let b' := b <| b_data ::= f |> in
  upd_buf j (λ b, b <| b_data ::= f |>) s = Done tt (s <| k_bufs ::= <[j := b']> |>) ∧
  io i pid (<[b_blockno b := f (b_data b)]> V) B H (s <| k_bufs ::= <[j := b']> |>).
Proof.
  intros I Hj Hb b'. split; [by apply upd_buf_run |].
  exact (proj2 (put_data_spec i pid V B H j b (f (b_data b)) s I Hj Hb)).
Qed.

(** C25: the cache presents one consistent disk.  [bread] returns a buffer with the
    content of the block; after new content is put into it, written and the
    buffer released, the disk has that content at that block and nowhere else,
    reading the block again gives it back, the content of no other block has
    changed, and no block is ever in two buffers. *)
Theorem cache_coherent i pid V B blk d s :
  io i pid V B [] s → (size B < NBUF)%nat → (0 < patience)%nat → blk < disksize →
  ∃ j b s1 s2 k c s3,
    bread (BD := memide) 1 blk s = Done j s1 ∧ k_bufs s1 !! j = Some b ∧
    has_block pid V blk b ∧
    (upd_buf j (λ b, b <| b_data := d |>);; bwrite (BD := memide) j;; brelse j) s1 = Done tt s2 ∧
    k_disk s2 = <[blk := d]> (k_disk s) ∧
    bread (BD := memide) 1 blk s2 = Done k s3 ∧ k_bufs s3 !! k = Some c ∧ b_data c = d ∧
    io i pid (<[blk := d]> V) (B ∖ {[blk]}) [k] s3 ∧
    ∀ m e, k_bufs s3 !! m = Some e → b_dev e = 1 → b_blockno e = blk → m = k.
Proof.
  intros I Hsz Hfu Hblk.
  destruct (bread_spec i pid V B [] blk s I) as (j & b & s1 & R1 & I1 & _ & Hb1 & Hhas & (_ & Hd1 & _) & _);
    [left; cbn; lia | done | done | by intros j b ?%elem_of_nil |].
  pose proof Hhas as (Hdev & Hv & Hbl & _).
  destruct (put_data_spec i pid V B [j] j b d s1 I1 ltac:(left) Hb1) as [R2 I2]. rewrite Hbl in I2.
  set (s1' := s1 <| k_bufs ::= <[j := b <| b_data := d |>]> |>) in *.
  assert (Hb1' : k_bufs s1' !! j = Some (b <| b_data := d |>))
    by (apply list_lookup_insert_eq; by eapply lookup_lt_Some).
  destruct (bwrite_spec i pid _ B [j] j _ s1' I2 ltac:(left) Hb1') as (s2 & R3 & I3 & _ & Hd3 & _ & Hb3);
    [cbn; lia |].
  change (b_blockno (b <| b_data := d |>)) with (b_blockno b) in *. rewrite Hbl in I3, Hd3.
  rewrite fn_lookup_insert in Hd3.
  assert (Hb3' : k_bufs s2 !! j = Some (b <| b_data := d |> <| b_dirty := false |>))
    by (rewrite Hb3; apply list_lookup_insert_eq; by eapply lookup_lt_Some).
  destruct (brelse_spec i pid _ _ [] j _ s2 I3 ltac:(by intros ?%elem_of_nil) Hb3')
    as (s3 & R4 & I4 & (_ & Hd4 & _) & _).
  { right. change (b_blockno _) with (b_blockno b). rewrite Hbl, fn_lookup_insert, Hd3.
    unfold disk_block. by rewrite lookup_insert_eq. }
  assert (Hsz' : (size (B ∖ {[blk]}) < NBUF)%nat).
  { pose proof (subseteq_size (B ∖ {[blk]}) B
      ltac:(intros x; rewrite elem_of_difference; tauto)). lia. }
  destruct (bread_spec i pid _ _ [] blk s3 I4) as (k & c & s4 & R5 & I5 & _ & Hb5 & Hhas5 & _);
    [left; cbn; lia | done | done | by intros m e ?%elem_of_nil |].
  destruct Hhas5 as (Hc1 & _ & Hc2 & Hc3 & _). rewrite fn_lookup_insert in Hc3.
  exists j, b, s1, s3, k, c, s4. split_and!; try done.
  - by rewrite (bind_done _ _ _ _ _ R2), (bind_done _ _ _ _ _ R3).
  - rewrite Hd4, Hd3. cbn. by rewrite Hd1.
  - intros m e Hm He1 He2. apply (io_uniq _ _ _ _ _ _ I5 m k e c); congruence.
Qed.
End bio_spec.

(** ** Witness: an empty cache over an empty disk of 1000 blocks *)
Definition cold : kst := running <| k_mru := seq 0 NBUF |>.
Lemma cold_io : io 0 1 (disk_block ∅) ∅ [] cold.
Proof.
  assert (Hb : ∀ j b, k_bufs cold !! j = Some b → b = buf0).
  { intros j b H. change (replicate NBUF buf0 !! j = Some b) in H.
    by apply lookup_replicate in H as [-> _]. }
  split; try done.
  - intros j k b c Hj%Hb Hk%Hb. by subst b.
  - intros j b ->%Hb. split; try done. by intros ?%elem_of_nil.
Qed.

Lemma cache_coherent_witness :
  ∃ j s1 s2, bread (FU := 1%nat : Fuel) (BD := memide (MD := 1000)) 1 7 cold = Done j s1 ∧
    k_disk s2 = {[ 7 := replicate 512 9 ]}.
Proof.
  destruct (@cache_coherent (1%nat : Fuel) 1000 0 1 (disk_block ∅) ∅ 7 (replicate 512 9) cold)
    as (j & b & s1 & s2 & k & c & s3 & R & _ & _ & _ & Hd & _).
  - exact cold_io.
  - unfold NBUF. rewrite size_empty. lia.
  - apply le_n.
  - unfold disksize. lia.
  - exists j, s1, s2. split; [exact R | exact Hd].
Defined.
