(* ===== verification/Log.v ===== *)
(** * log.c: the write-ahead log

    A transaction's blocks are first written to the log area, then the header
    naming their homes (the commit point), then installed, then the header is
    cleared.  [readsb] (fs.c) is here because [initlog] uses it. *)
From Stdlib Require Import FunctionalExtensionality.
From stdpp Require Import functions.
From S2P Require Import Prelude Mmu Cstring Kstate Spinlock Kalloc Proc Sleeplock Bio.

Section log.
Context {LK : Linker} {FU : Fuel} {BD : BlockDev}.

Definition upd_log (f : logst → logst) : K unit := modify (λ s, s <| k_log ::= f |>).

(** fs.c: the superblock is block 1; seven words. *)
Definition sb_decode (d : list Z) : superblock :=
  mkSb (blk_word d 0) (blk_word d 4) (blk_word d 8) (blk_word d 12) (blk_word d 16)
    (blk_word d 20) (blk_word d 24).
Definition readsb (dev : Z) : K superblock :=
  bp ← bread dev 1;
  b ← get_buf bp;
  let sb := sb_decode (b_data b) in
  brelse bp;;
  mret sb.

(** The header block: [n] at 0, [block[i]] at [4 + 4*i]. *)
Definition hd_n (d : list Z) : Z := i32 (blk_word d 0).
Definition hd_block (d : list Z) (i : nat) : Z := i32 (blk_word d (4 + 4 * i)).

Definition get_lh_block (i : Z) : K Z :=
  l ← gets (λ s, lh_block (k_log s)); at_ "log.lh.block: index out of range" l i.
Definition set_lh_block (i v : Z) : K unit :=
  _ ← get_lh_block i;
  upd_log (λ l, l <| lh_block ::= <[Z.to_nat i := v]> |>).

(** for(tail = 0; tail < log.lh.n; tail++): [n] iterations are left. *)
Fixpoint install_loop (n : nat) (tail : Z) : K unit :=
  match n with
  | O => mret tt
  | S n =>
      l ← gets k_log;
      lbuf ← bread (lg_dev l) (u32 (lg_start l + tail + 1));
      home ← get_lh_block tail;
      dbuf ← bread (lg_dev l) (u32 home);
      lb ← get_buf lbuf;
      upd_buf dbuf (λ b, b <| b_data := b_data lb |>);;
      bwrite dbuf;;
      brelse lbuf;;
      brelse dbuf;;
      install_loop n (tail + 1)
  end.
Definition install_trans : K unit :=
  l ← gets k_log; install_loop (Z.to_nat (lh_n l)) 0.

Fixpoint read_head_loop (d : list Z) (n : nat) (i : Z) : K unit :=
  match n with
  | O => mret tt
  | S n => set_lh_block i (hd_block d (Z.to_nat i));; read_head_loop d n (i + 1)
  end.
Definition read_head : K unit :=
  l ← gets k_log;
  bp ← bread (lg_dev l) (u32 (lg_start l));
  b ← get_buf bp;
  upd_log (λ l, l <| lh_n := hd_n (b_data b) |>);;
  read_head_loop (b_data b) (Z.to_nat (hd_n (b_data b))) 0;;
  brelse bp.

Fixpoint write_head_loop (bp : nat) (n : nat) (i : Z) : K unit :=
  match n with
  | O => mret tt
  | S n =>
      v ← get_lh_block i;
      upd_buf bp (λ b, b <| b_data ::= λ d, blk_put d (4 + 4 * Z.to_nat i) (word_bytes v) |>);;
      write_head_loop bp n (i + 1)
  end.
Definition write_head : K unit :=
  l ← gets k_log;
  bp ← bread (lg_dev l) (u32 (lg_start l));
  l ← gets k_log;
  upd_buf bp (λ b, b <| b_data ::= λ d, blk_put d 0 (word_bytes (lh_n l)) |>);;
  write_head_loop bp (Z.to_nat (lh_n l)) 0;;
  bwrite bp;;
  brelse bp.

Definition recover_from_log : K unit :=
  read_head;;
  install_trans;;
  upd_log (λ l, l <| lh_n := 0 |>);;
  write_head.

Definition initlog (dev : Z) : K unit :=
  sb ← readsb dev;
  upd_log (λ l, l <| lg_start := i32 (sb_logstart sb) |> <| lg_size := i32 (sb_nlog sb) |>
                  <| lg_dev := dev |>);;
  recover_from_log.

Fixpoint begin_op_loop (fuel : nat) : K unit :=
  match fuel with
  | O => fault "begin_op: out of fuel"
  | S fuel =>
      l ← gets k_log;
      if lg_committing l then sleep CLog LLog;; begin_op_loop fuel
      else if lh_n l + (lg_outstanding l + 1) * MAXOPBLOCKS >? LOGSIZE
      then sleep CLog LLog;; begin_op_loop fuel
      else
        upd_log (λ l, l <| lg_outstanding ::= λ n, i32 (n + 1) |>);;
        release LLog
  end.
Definition begin_op : K unit := acquire LLog;; begin_op_loop patience.

Fixpoint write_log_loop (n : nat) (tail : Z) : K unit :=
  match n with
  | O => mret tt
  | S n =>
      l ← gets k_log;
      to ← bread (lg_dev l) (u32 (lg_start l + tail + 1));
      home ← get_lh_block tail;
      from ← bread (lg_dev l) (u32 home);
      fb ← get_buf from;
      upd_buf to (λ b, b <| b_data := b_data fb |>);;
      bwrite to;;
      brelse from;;
      brelse to;;
      write_log_loop n (tail + 1)
  end.
Definition write_log : K unit :=
  l ← gets k_log; write_log_loop (Z.to_nat (lh_n l)) 0.

Definition commit : K unit :=
  l ← gets k_log;
  mwhen (lh_n l >? 0)
    (write_log;;
     write_head;;
     install_trans;;
     upd_log (λ l, l <| lh_n := 0 |>);;
     write_head).

Definition end_op : K unit :=
  acquire LLog;;
  upd_log (λ l, l <| lg_outstanding ::= λ n, i32 (n - 1) |>);;
  l ← gets k_log;
  if lg_committing l then panic "log.committing" else
  let do_commit := lg_outstanding l =? 0 in
  (if do_commit then upd_log (λ l, l <| lg_committing := true |>) else wakeup CLog);;
  release LLog;;
  mwhen do_commit
    (commit;;
     acquire LLog;;
     upd_log (λ l, l <| lg_committing := false |>);;
     wakeup CLog;;
     release LLog).

(** Record block [b->blockno] in the transaction and pin the buffer. *)
Definition log_write (bp : nat) : K unit :=
  l ← gets k_log;
  if ((lh_n l >=? LOGSIZE) || (lh_n l >=? lg_size l - 1))%Z%bool
  then panic "too big a transaction" else
  if lg_outstanding l <? 1 then panic "log_write outside of trans" else
  acquire LLog;;
  b ← get_buf bp;
  l ← gets k_log;
  let n := Z.to_nat (lh_n l) in
  let i := default n (find_idx (λ x, u32 x =? b_blockno b) (take n (lh_block l))) in
  set_lh_block (Z.of_nat i) (i32 (b_blockno b));;
  mwhen (Nat.eqb i n) (upd_log (λ l, l <| lh_n ::= λ n, n + 1 |>));;
  upd_buf bp (λ b, b <| b_dirty := true |>);;
  release LLog.
End log.

(** ** Sequences of disk writes *)
Definition write := (Z * list Z)%type.
Definition apply_writes (ws : list write) (d : gmap Z (list Z)) : gmap Z (list Z) :=
  foldl (λ d w, <[w.1 := w.2]> d) d ws.
Definition view_writes (ws : list write) (V : Z → list Z) : Z → list Z :=
  foldl (λ V w, <[w.1 := w.2]> V) V ws.
Definition events (ws : list write) : list outev := reverse ((λ w, DiskWrite w.1 w.2) <$> ws).

(** The writes of [write_log] and [install_trans]: block by block, the log
    slots from [slot] on and the homes [hs]. *)
Fixpoint log_writes (V : Z → list Z) (slot : Z) (hs : list Z) : list write :=
  match hs with [] => [] | h :: hs => (slot, V h) :: log_writes V (slot + 1) hs end.
Fixpoint home_writes (V : Z → list Z) (slot : Z) (hs : list Z) : list write :=
  match hs with [] => [] | h :: hs => (h, V slot) :: home_writes V (slot + 1) hs end.

Lemma log_writes_ext V V' slot hs :
  (∀ h, h ∈ hs → V' h = V h) → log_writes V' slot hs = log_writes V slot hs.
Proof.
  revert slot. induction hs as [| h hs IH]; intros slot Hv; cbn; [done |].
  rewrite Hv by left. f_equal. apply IH. intros x Hx. apply Hv. by right.
Qed.
Lemma home_writes_ext V V' slot hs :
  (∀ b, slot ≤ b < slot + Z.of_nat (length hs) → V' b = V b) →
  home_writes V' slot hs = home_writes V slot hs.
Proof.
  revert slot. induction hs as [| h hs IH]; intros slot Hv; cbn [home_writes]; [done |].
  cbn in Hv. rewrite Hv by lia. f_equal. apply IH. intros x Hx. apply Hv. lia.
Qed.

Definition install_writes (V : Z → list Z) (hs : list Z) : list write := (λ h, (h, V h)) <$> hs.

Lemma view_writes_app ws ws' V : view_writes (ws ++ ws') V = view_writes ws' (view_writes ws V).
Proof. apply foldl_app. Qed.
Lemma apply_writes_app ws ws' d : apply_writes (ws ++ ws') d = apply_writes ws' (apply_writes ws d).
Proof. apply foldl_app. Qed.
Lemma view_writes_cons w ws V : view_writes (w :: ws) V = view_writes ws (<[w.1 := w.2]> V).
Proof. done. Qed.
Lemma apply_writes_cons w ws d : apply_writes (w :: ws) d = apply_writes ws (<[w.1 := w.2]> d).
Proof. done. Qed.
Lemma view_writes_other ws : ∀ V b, b ∉ ws.*1 → view_writes ws V b = V b.
Proof.
  induction ws as [| w ws IH]; intros V b Hb; [done |]. rewrite fmap_cons in Hb.
  apply not_elem_of_cons in Hb as [Hne Hb]. rewrite view_writes_cons, IH by done.
  by rewrite fn_lookup_insert_ne.
Qed.
(** The disk after some writes, block by block. *)
Lemma disk_block_writes ws : ∀ d b,
  disk_block (apply_writes ws d) b = view_writes ws (disk_block d) b.
Proof.
  induction ws as [| w ws IH]; intros d b; [done |].
  rewrite apply_writes_cons, view_writes_cons, IH. f_equal. apply functional_extensionality. intros y. unfold disk_block.
  destruct (decide (w.1 = y)) as [<- |].
  - by rewrite lookup_insert_eq, fn_lookup_insert.
  - by rewrite lookup_insert_ne, fn_lookup_insert_ne.
Qed.
Lemma events_app ws ws' : events (ws ++ ws') = events ws' ++ events ws.
Proof. unfold events. by rewrite fmap_app, reverse_app. Qed.

Lemma log_writes_fst V slot hs b :
  b ∈ (log_writes V slot hs).*1 → slot ≤ b < slot + Z.of_nat (length hs).
Proof.
  revert slot. induction hs as [| h hs IH]; intros slot; cbn; [by intros ?%elem_of_nil |].
  intros [-> | Hb%IH]%elem_of_cons; lia.
Qed.
Lemma log_writes_length V slot hs : length (log_writes V slot hs) = length hs.
Proof. revert slot. induction hs as [| h hs IH]; intros slot; cbn; [done | by rewrite IH]. Qed.
Lemma log_writes_at W hs : ∀ slot V i h,
  hs !! i = Some h → view_writes (log_writes W slot hs) V (slot + Z.of_nat i) = W h.
Proof.
  induction hs as [| x hs IH]; intros slot V i h Hi; [done |].
  cbn [log_writes]. rewrite view_writes_cons. destruct i as [| i].
  - cbn in Hi. simplify_eq. rewrite Z.add_0_r, view_writes_other; [by rewrite fn_lookup_insert |].
    intros ?%log_writes_fst. lia.
  - replace (slot + Z.of_nat (S i)) with (slot + 1 + Z.of_nat i) by lia. by apply IH.
Qed.
Lemma home_writes_fst V slot hs : (home_writes V slot hs).*1 = hs.
Proof. revert slot. induction hs as [| h hs IH]; intros slot; cbn; [done | by rewrite IH]. Qed.
(** What is installed is what was logged. *)
Lemma home_writes_logged V W hs slot :
  (∀ i h, hs !! i = Some h → W (slot + Z.of_nat i) = V h) →
  home_writes W slot hs = install_writes V hs.
Proof.
  revert slot. induction hs as [| h hs IH]; intros slot HW; cbn; [done |].
  pose proof (HW O h eq_refl) as H0. rewrite Z.add_0_r in H0. rewrite H0. f_equal.
  apply IH. intros i x Hi. rewrite <- (HW (S i) x Hi). f_equal. lia.
Qed.
Lemma install_writes_at V hs : ∀ W b,
  view_writes (install_writes V hs) W b = if decide (b ∈ hs) then V b else W b.
Proof.
  induction hs as [| h hs IH]; intros W b.
  - by rewrite decide_False by (by intros ?%elem_of_nil).
  - unfold install_writes. rewrite fmap_cons, view_writes_cons. fold (install_writes V hs).
    cbn [fst snd]. rewrite IH. destruct (decide (b ∈ hs)); [by rewrite decide_True by (by right) |].
    destruct (decide (h = b)) as [-> |].
    + by rewrite fn_lookup_insert, decide_True by left.
    + rewrite fn_lookup_insert_ne, decide_False; [done | | done].
      intros [? | ?]%elem_of_cons; congruence.
Qed.

(** The header block: what [write_head] makes of its old content [d]. *)
Fixpoint put_blocks (k : nat) (bs : list Z) (d : list Z) : list Z :=
  match bs with
  | [] => d
  | b :: bs => put_blocks (S k) bs (blk_put d (4 + 4 * k) (word_bytes b))
  end.
Definition header_data (hs : list Z) (d : list Z) : list Z :=
  put_blocks 0 hs (blk_put d 0 (word_bytes (Z.of_nat (length hs)))).

Lemma put_blocks_length bs : ∀ k d,
  (4 + 4 * (k + length bs) ≤ length d)%nat → length (put_blocks k bs d) = length d.
Proof.
  induction bs as [| b bs IH]; intros k d Hd; cbn [put_blocks length] in *; [done |].
  rewrite IH; rewrite blk_put_length by (cbn; lia); [done | lia].
Qed.
Lemma put_blocks_below bs : ∀ k d off,
  (4 + 4 * (k + length bs) ≤ length d)%nat → (off + 4 ≤ 4 + 4 * k)%nat →
  blk_word (put_blocks k bs d) off = blk_word d off.
Proof.
  induction bs as [| b bs IH]; intros k d off Hd Hoff; cbn [put_blocks length] in *; [done |].
  rewrite IH by (rewrite ?blk_put_length by (cbn; lia); lia).
  apply blk_put_word_other; lia.
Qed.
Lemma put_blocks_get bs : ∀ k d i b,
  (4 + 4 * (k + length bs) ≤ length d)%nat → Forall is_u32 bs → bs !! i = Some b →
  blk_word (put_blocks k bs d) (4 + 4 * (k + i)) = b.
Proof.
  induction bs as [| x bs IH]; intros k d i b Hd Hu Hi; cbn [put_blocks length] in *; [done |].
  apply Forall_cons_1 in Hu as [Hx Hu]. destruct i as [| i]; cbn in Hi.
  - simplify_eq. rewrite Nat.add_0_r, put_blocks_below by (rewrite ?blk_put_length by (cbn; lia); lia).
    apply blk_put_word; [done | lia].
  - rewrite <- Nat.add_succ_comm. apply IH; [rewrite blk_put_length by (cbn; lia); lia | done..].
Qed.

(** The header read back. *)
Lemma header_roundtrip hs d :
  length d = BSIZE → (length hs ≤ 30)%nat → Forall (λ h, 0 ≤ h < 2147483648) hs →
  length (header_data hs d) = BSIZE ∧ hd_n (header_data hs d) = Z.of_nat (length hs) ∧
  ∀ i h, hs !! i = Some h → hd_block (header_data hs d) i = h.
Proof.
  unfold BSIZE, header_data, hd_n, hd_block. intros Hd Hn Hh.
  assert (Hl : length (blk_put d 0 (word_bytes (Z.of_nat (length hs)))) = 512%nat)
    by (rewrite blk_put_length; cbn; lia).
  split_and!.
  - rewrite put_blocks_length; lia.
  - rewrite put_blocks_below by lia. rewrite blk_put_word by (unfold is_u32; lia).
    apply i32_id. unfold is_i32. lia.
  - intros i h Hi. rewrite (put_blocks_get hs 0 _ i h) by
      (done || lia || (eapply Forall_impl; [exact Hh | unfold is_u32; cbn; lia])).
    apply i32_id. apply (Forall_lookup_1 _ _ _ _ Hh) in Hi. unfold is_i32. lia.
Qed.

Lemma difference_singleton_id (B : gset Z) x : x ∉ B → B ∖ {[x]} = B.
Proof.
  intros Hx. apply set_eq. intros y. rewrite elem_of_difference, elem_of_singleton.
  split; [tauto |]. intros Hy. split; [done | by intros ->].
Qed.

Lemma size_list_to_set_le (l : list Z) : (size (list_to_set l : gset Z) ≤ length l)%nat.
Proof.
  induction l as [| x l IH]; [done |]. rewrite list_to_set_cons, size_union_alt, size_singleton.
  pose proof (subseteq_size (list_to_set l ∖ {[x]} : gset Z) (list_to_set l)
    ltac:(intros y; rewrite elem_of_difference; tauto)). cbn. lia.
Qed.

Section log_spec.
Context {LK : Linker} {FU : Fuel} {MD : MemDisk}.
Implicit Types (V : Z → list Z) (B : gset Z) (H : list nat) (s : kst).
#[local] Existing Instance memide.

(** The end of both copying loops: the held buffer [js] is copied into the
    held buffer [jd], which is written; both are released. *)
Lemma copy_tail {A} i pid V B js jd bs bd (k : K A) s :
  io i pid V B [jd; js] s → js ≠ jd → k_bufs s !! js = Some bs → k_bufs s !! jd = Some bd →
  b_data bs = V (b_blockno bs) → b_blockno bs ≠ b_blockno bd → b_blockno bd < disksize →
  (b_blockno bs ∈ B ∨ V (b_blockno bs) = disk_block (k_disk s) (b_blockno bs)) →
  let w := (b_blockno bd, V (b_blockno bs)) in
  ∃ s', (b ← get_buf js; upd_buf jd (λ x, x <| b_data := b_data b |>);; bwrite jd;;
         brelse js;; brelse jd;; k) s = k s' ∧
    io i pid (<[w.1 := w.2]> V) (B ∖ {[ w.1 ]}) [] s' ∧ k_log s' = k_log s ∧
    k_disk s' = <[w.1 := w.2]> (k_disk s) ∧ k_out s' = DiskWrite w.1 w.2 :: k_out s.
Proof.
  intros I Hne Hs Hd HV Hbl Hlt Hcl w. pose proof (lookup_lt_Some _ _ _ Hd) as Hlen.
  rewrite (get_buf_bind _ _ bs) by done.
  destruct (put_data_spec i pid V B [jd; js] jd bd (b_data bs) s I ltac:(left) Hd) as [H1 I1].
  rewrite (bind_done _ _ _ _ _ H1).
  set (s1 := s <| k_bufs ::= <[jd := bd <| b_data := b_data bs |>]> |>) in *.
  assert (Hd1 : k_bufs s1 !! jd = Some (bd <| b_data := b_data bs |>)) by (by apply list_lookup_insert_eq).
  assert (Hs1 : k_bufs s1 !! js = Some bs) by (cbn; by rewrite list_lookup_insert_ne).
  destruct (bwrite_spec i pid _ B [jd; js] jd _ s1 I1 ltac:(left) Hd1 Hlt)
    as (s2 & H2 & I2 & Hl2 & Hk2 & Ho2 & Hb2).
  change (b_blockno (bd <| b_data := b_data bs |>)) with (b_blockno bd) in *.
  rewrite fn_lookup_insert in Hk2, Ho2.
  rewrite (bind_done _ _ _ _ _ H2).
  assert (Hd2 : ∃ b, k_bufs s2 !! jd = Some b ∧ b_blockno b = b_blockno bd).
  { rewrite Hb2. eexists. split; [apply list_lookup_insert_eq; by eapply lookup_lt_Some | done]. }
  destruct Hd2 as (bd2 & Hd2 & Hbd2).
  assert (Hs2 : k_bufs s2 !! js = Some bs) by (by rewrite Hb2, list_lookup_insert_ne).
  apply (io_perm i pid _ _ _ [js; jd]) in I2; [| intros x; rewrite !elem_of_cons; tauto].
  destruct (brelse_spec i pid _ _ [jd] js bs s2 I2) as (s3 & H3 & I3 & (Hl3 & Hk3 & Ho3) & Hb3 & _).
  { by rewrite list_elem_of_singleton. }
  { done. }
  { rewrite fn_lookup_insert_ne, Hk2 by done. unfold disk_block in *.
    rewrite lookup_insert_ne by done.
    destruct Hcl as [Hin | ?]; [left | by right]. set_solver. }
  rewrite (bind_done _ _ _ _ _ H3).
  destruct (brelse_spec i pid _ _ [] jd bd2 s3 I3) as (s4 & H4 & I4 & (Hl4 & Hk4 & Ho4) & _).
  { by intros ?%elem_of_nil. }
  { rewrite Hb3; [done | by apply not_eq_sym]. }
  { right. rewrite Hbd2, fn_lookup_insert, Hk3, Hk2. unfold disk_block.
    by rewrite lookup_insert_eq. }
  rewrite (bind_done _ _ _ _ _ H4). exists s4. split; [done |].
  unfold w. cbn [fst snd]. rewrite <- HV.
  split; [done |]. split; [by rewrite Hl4, Hl3, Hl2 |].
  split; [by rewrite Hk4, Hk3, Hk2 | by rewrite Ho4, Ho3, Ho2].
Qed.

Lemma get_lh_block_bind {A} t h (k : Z → K A) s :
  0 ≤ t → lh_block (k_log s) !! Z.to_nat t = Some h → (get_lh_block t ≫= k) s = k h s.
Proof. intros Ht Hh. unfold get_lh_block. by rewrite bind_assoc, bind_gets, (at_bind _ _ _ _ h). Qed.

(** The room the log needs on the disk, and what is in it. *)
Record log_area (l : logst) (hs : list Z) : Prop := {
  la_dev : lg_dev l = 1;
  la_disk : disksize ≤ 2147483648;
  la_start : 0 ≤ lg_start l;
  la_end : lg_start l + Z.of_nat (length hs) < disksize;
  la_blocks : take (length hs) (lh_block l) = hs;
  la_home : ∀ h, h ∈ hs → 0 ≤ h < disksize;
  la_apart : ∀ h, h ∈ hs → h < lg_start l ∨ lg_start l + Z.of_nat (length hs) < h }.

Lemma la_lookup l hs k h : log_area l hs → hs !! k = Some h → lh_block l !! k = Some h.
Proof.
  intros A Hk. rewrite <- (la_blocks _ _ A) in Hk. rewrite lookup_take_Some in Hk. tauto.
Qed.

Lemma write_log_loop_spec i pid B l hs (A : log_area l hs) n : ∀ tail V s,
  length hs = (tail + n)%nat →
  io i pid V B [] s → k_log s = l → (∀ h, h ∈ hs → h ∈ B) →
  (∀ b, lg_start l ≤ b ≤ lg_start l + Z.of_nat (length hs) → b ∉ B) →
  (size B < NBUF)%nat → (0 < patience)%nat →
  let ws := log_writes V (lg_start l + Z.of_nat tail + 1) (drop tail hs) in
  ∃ s', write_log_loop n (Z.of_nat tail) s = Done tt s' ∧
    io i pid (view_writes ws V) B [] s' ∧ k_log s' = l ∧
    k_disk s' = apply_writes ws (k_disk s) ∧ k_out s' = events ws ++ k_out s.
Proof.
  induction n as [| n IH]; intros tail V s Hlen I Hlog HB HnB Hsz Hfu ws.
  - unfold ws. rewrite drop_ge by lia. exists s. done.
  - destruct (lookup_lt_is_Some_2 hs tail) as [h Hh]; [lia |].
    pose proof (list_elem_of_lookup_2 _ _ _ Hh) as Hin.
    pose proof (la_home _ _ A h Hin). pose proof (la_disk _ _ A). pose proof (la_start _ _ A).
    pose proof (la_end _ _ A). pose proof (la_apart _ _ A h Hin).
    cbn [write_log_loop]. rewrite bind_gets, Hlog, (la_dev _ _ A).
    rewrite u32_id by (unfold is_u32; lia).
    destruct (bread_spec i pid V B [] (lg_start l + Z.of_nat tail + 1) s I)
      as (j1 & b1 & s1 & R1 & I1 & _ & Hb1 & Hhas1 & (Hl1 & Hd1 & Ho1) & _);
      [left; cbn; lia | done | lia | by intros j b ?%elem_of_nil |].
    rewrite (bind_done _ _ _ _ _ R1).
    rewrite (get_lh_block_bind _ h) by first [lia |
      rewrite Hl1, Hlog, Nat2Z.id; by apply (la_lookup l hs)].
    rewrite u32_id by (unfold is_u32; lia).
    destruct Hhas1 as (? & ? & Hbl1 & Hdat1 & _).
    destruct (bread_spec i pid V B [j1] h s1 I1)
      as (j2 & b2 & s2 & R2 & I2 & Hj2 & Hb2 & Hhas2 & (Hl2 & Hd2 & Ho2) & Hoth & _);
      [right; by apply HB | done | lia | |].
    { intros j b ->%list_elem_of_singleton Hb. simplify_eq. lia. }
    rewrite (bind_done _ _ _ _ _ R2). destruct Hhas2 as (? & ? & Hbl2 & Hdat2 & _).
    rewrite list_elem_of_singleton in Hj2.
    destruct (copy_tail i pid V B j2 j1 b2 b1 (write_log_loop n (Z.of_nat tail + 1)) s2)
      as (s3 & R3 & I3 & Hl3 & Hd3 & Ho3).
    { apply (io_perm _ _ _ _ [j2; j1]); [intros x; rewrite !elem_of_cons; tauto | done]. }
    { done. }
    { done. }
    { rewrite Hoth; [done | congruence]. }
    { by rewrite Hbl2. }
    { rewrite Hbl1, Hbl2. lia. }
    { rewrite Hbl1. lia. }
    { left. rewrite Hbl2. by apply HB. }
    rewrite R3. rewrite Hbl1, Hbl2 in *. cbn [fst snd] in *.
    rewrite difference_singleton_id in I3 by (apply HnB; lia).
    replace (Z.of_nat tail + 1) with (Z.of_nat (S tail)) by lia.
    destruct (IH (S tail) _ s3 ltac:(lia) I3 ltac:(congruence) HB HnB Hsz Hfu)
      as (s4 & R4 & I4 & Hl4 & Hd4 & Ho4).
    assert (Hext : ∀ x, x ∈ drop (S tail) hs →
      <[lg_start l + Z.of_nat tail + 1 := V h]> V x = V x).
    { intros x Hx. apply fn_lookup_insert_ne. intros <-.
      assert (Hx' : lg_start l + Z.of_nat tail + 1 ∈ hs)
        by (rewrite <- (take_drop (S tail) hs); apply elem_of_app; by right).
      destruct (la_apart _ _ A _ Hx'); lia. }
    rewrite (log_writes_ext V _ _ _ Hext) in I4, Hd4, Ho4.
    replace (lg_start l + Z.of_nat (S tail) + 1) with (lg_start l + Z.of_nat tail + 1 + 1)
      in I4, Hd4, Ho4 by lia.
    exists s4. unfold ws. rewrite (drop_S _ _ _ Hh). cbn [log_writes view_writes apply_writes foldl].
    split_and!; [done | exact I4 | done | |].
    + rewrite Hd4, Hd3, Hd2, Hd1. done.
    + rewrite Ho4, Ho3, Ho2, Ho1. unfold events. by rewrite fmap_cons, reverse_cons, <- app_assoc.
Qed.

Lemma install_loop_spec i pid l hs (A : log_area l hs) n : ∀ tail V B s,
  length hs = (tail + n)%nat →
  io i pid V B [] s → k_log s = l →
  (∀ b, lg_start l ≤ b ≤ lg_start l + Z.of_nat (length hs) → b ∉ B) →
  (size B + 1 < NBUF)%nat ∨ (size B < NBUF)%nat ∧ (∀ h, h ∈ hs → h ∈ B) →
  (0 < patience)%nat →
  let ws := home_writes V (lg_start l + Z.of_nat tail + 1) (drop tail hs) in
  ∃ s', install_loop n (Z.of_nat tail) s = Done tt s' ∧
    io i pid (view_writes ws V) (B ∖ list_to_set (drop tail hs)) [] s' ∧ k_log s' = l ∧
    k_disk s' = apply_writes ws (k_disk s) ∧ k_out s' = events ws ++ k_out s.
Proof.
  induction n as [| n IH]; intros tail V B s Hlen I Hlog HnB Hsz Hfu ws.
  - unfold ws. rewrite drop_ge by lia. rewrite list_to_set_nil.
    rewrite difference_empty_L. by exists s.
  - destruct (lookup_lt_is_Some_2 hs tail) as [h Hh]; [lia |].
    pose proof (list_elem_of_lookup_2 _ _ _ Hh) as Hin.
    pose proof (la_home _ _ A h Hin). pose proof (la_disk _ _ A). pose proof (la_start _ _ A).
    pose proof (la_end _ _ A). pose proof (la_apart _ _ A h Hin).
    cbn [install_loop]. rewrite bind_gets, Hlog, (la_dev _ _ A).
    rewrite u32_id by (unfold is_u32; lia).
    destruct (bread_spec i pid V B [] (lg_start l + Z.of_nat tail + 1) s I)
      as (j1 & b1 & s1 & R1 & I1 & _ & Hb1 & Hhas1 & (Hl1 & Hd1 & Ho1) & _);
      [left; cbn; lia | done | lia | by intros j b ?%elem_of_nil |].
    rewrite (bind_done _ _ _ _ _ R1).
    rewrite (get_lh_block_bind _ h) by first [lia |
      rewrite Hl1, Hlog, Nat2Z.id; by apply (la_lookup l hs)].
    rewrite u32_id by (unfold is_u32; lia).
    destruct Hhas1 as (? & ? & Hbl1 & Hdat1 & _).
    destruct (bread_spec i pid V B [j1] h s1 I1)
      as (j2 & b2 & s2 & R2 & I2 & Hj2 & Hb2 & Hhas2 & (Hl2 & Hd2 & Ho2) & Hoth & _);
      [destruct Hsz as [? | [_ HB]]; [left; cbn; lia | right; by apply HB] | done | lia | |].
    { intros j b ->%list_elem_of_singleton Hb. simplify_eq. lia. }
    rewrite (bind_done _ _ _ _ _ R2). destruct Hhas2 as (? & ? & Hbl2 & Hdat2 & _).
    rewrite list_elem_of_singleton in Hj2.
    destruct (copy_tail i pid V B j1 j2 b1 b2 (install_loop n (Z.of_nat tail + 1)) s2)
      as (s3 & R3 & I3 & Hl3 & Hd3 & Ho3); try done.
    { rewrite Hoth; [done | congruence]. }
    { by rewrite Hbl1. }
    { rewrite Hbl1, Hbl2. lia. }
    { rewrite Hbl2. lia. }
    { right. rewrite Hbl1, Hd2, Hd1. apply (io_clean _ _ _ _ _ _ I); [apply HnB; lia |].
      by intros j b ?%elem_of_nil. }
    rewrite R3. rewrite Hbl1, Hbl2 in *. cbn [fst snd] in *.
    replace (Z.of_nat tail + 1) with (Z.of_nat (S tail)) by lia.
    destruct (IH (S tail) _ _ s3 ltac:(lia) I3 ltac:(congruence)) as (s4 & R4 & I4 & Hl4 & Hd4 & Ho4).
    { intros b Hb. rewrite elem_of_difference. intros [? _]. by apply (HnB b). }
    { left. pose proof (subseteq_size (B ∖ {[h]}) B
        ltac:(intros x; rewrite elem_of_difference; tauto)).
      destruct Hsz as [? | [? HB]]; [lia |].
      rewrite size_difference by (apply singleton_subseteq_l; by apply HB).
      rewrite size_singleton.
      assert (size B ≠ 0%nat); [| lia].
      rewrite size_non_empty_iff. intros Hemp. apply (not_elem_of_empty (C := gset Z) h), Hemp, HB, Hin. }
    { done. }
    assert (Hext : ∀ b, lg_start l + Z.of_nat tail + 1 + 1 ≤ b
        < lg_start l + Z.of_nat tail + 1 + 1 + Z.of_nat (length (drop (S tail) hs)) →
      <[h := V (lg_start l + Z.of_nat tail + 1)]> V b = V b).
    { intros b Hb. apply fn_lookup_insert_ne. rewrite length_drop in Hb. lia. }
    replace (lg_start l + Z.of_nat (S tail) + 1) with (lg_start l + Z.of_nat tail + 1 + 1)
      in I4, Hd4, Ho4 by lia.
    rewrite (home_writes_ext V _ _ _ Hext) in I4, Hd4, Ho4.
    exists s4. unfold ws. rewrite (drop_S _ _ _ Hh). cbn [home_writes view_writes apply_writes foldl].
    split_and!; [done | | done | |].
    + replace (B ∖ list_to_set (h :: drop (S tail) hs)) with (B ∖ {[h]} ∖ list_to_set (drop (S tail) hs));
        [exact I4 |]. rewrite list_to_set_cons. by rewrite difference_difference_l_L.
    + rewrite Hd4, Hd3, Hd2, Hd1. done.
    + rewrite Ho4, Ho3, Ho2, Ho1. unfold events. by rewrite fmap_cons, reverse_cons, <- app_assoc.
Qed.

Lemma io_log i pid V B H f s : io i pid V B H s → io i pid V B H (s <| k_log ::= f |>).
Proof. intros [[] ? ? ? ? ? ?]. by split. Qed.
Lemma fn_insert_twice V x a b : <[x := a]> (<[x := b]> V) = <[x := a]> V.
Proof.
  apply functional_extensionality. intros y. destruct (decide (x = y)) as [-> |].
  - by rewrite !fn_lookup_insert.
  - by rewrite !fn_lookup_insert_ne.
Qed.

Lemma write_head_loop_spec i pid B j l hs n : ∀ k V b s,
  length hs = (k + n)%nat → take (length hs) (lh_block l) = hs →
  io i pid V B [j] s → k_log s = l → k_bufs s !! j = Some b →
  ∃ b' s', write_head_loop j n (Z.of_nat k) s = Done tt s' ∧
    io i pid (<[b_blockno b := put_blocks k (drop k hs) (b_data b)]> V) B [j] s' ∧ keeps s s' ∧
    k_bufs s' !! j = Some b' ∧ b_blockno b' = b_blockno b ∧
    b_data b' = put_blocks k (drop k hs) (b_data b).
Proof.
  induction n as [| n IH]; intros k V b s Hlen Hbl I Hlog Hb.
  - rewrite drop_ge by lia. exists b, s. cbn. split; [done |]. split; [| done].
    pose proof (io_buf _ _ _ _ _ _ I j b Hb) as Hok.
    destruct (bo_held _ _ _ _ _ Hok ltac:(left)) as (Hd & Hv & _).
    rewrite (bo_data _ _ _ _ _ Hok Hd Hv).
    replace (<[b_blockno b := V (b_blockno b)]> V) with V; [done |].
    apply functional_extensionality. intros y.
    destruct (decide (b_blockno b = y)) as [<- |]; [by rewrite fn_lookup_insert | by rewrite fn_lookup_insert_ne].
  - destruct (lookup_lt_is_Some_2 hs k) as [h Hh]; [lia |]. cbn [write_head_loop].
    assert (Hh' : lh_block (k_log s) !! Z.to_nat (Z.of_nat k) = Some h).
    { rewrite Hlog, Nat2Z.id. rewrite <- Hbl, lookup_take_Some in Hh. tauto. }
    rewrite (get_lh_block_bind _ h) by (done || lia). rewrite Nat2Z.id.
    destruct (upd_data_spec i pid V B [j] j b (λ d, blk_put d (4 + 4 * k) (word_bytes h)) s I
      ltac:(left) Hb) as [R1 I1].
    rewrite (bind_done _ _ _ _ _ R1).
    replace (Z.of_nat k + 1) with (Z.of_nat (S k)) by lia.
    set (b1 := b <| b_data ::= λ d, blk_put d (4 + 4 * k) (word_bytes h) |>) in *.
    destruct (IH (S k) _ b1 (s <| k_bufs ::= <[j := b1]> |>) ltac:(lia) Hbl I1 Hlog)
      as (b' & s' & R2 & I2 & (? & ? & ?) & Hb' & Hn' & Hd').
    { cbn. apply list_lookup_insert_eq. by eapply lookup_lt_Some. }
    exists b', s'. rewrite (drop_S _ _ _ Hh). cbn [put_blocks].
    split; [done |]. split; [| by split_and!].
    rewrite fn_insert_twice in I2. exact I2.
Qed.

Lemma write_head_spec i pid V B l hs s :
  io i pid V B [] s → k_log s = l → lg_dev l = 1 → disksize ≤ 2147483648 →
  0 ≤ lg_start l < disksize → lh_n l = Z.of_nat (length hs) →
  take (length hs) (lh_block l) = hs → lg_start l ∉ B → (size B < NBUF)%nat → (0 < patience)%nat →
  let w := (lg_start l, header_data hs (V (lg_start l))) in
  ∃ s', write_head s = Done tt s' ∧ io i pid (<[w.1 := w.2]> V) B [] s' ∧ k_log s' = l ∧
    k_disk s' = <[w.1 := w.2]> (k_disk s) ∧ k_out s' = DiskWrite w.1 w.2 :: k_out s.
Proof.
  intros I Hlog Hdev Hds Hst Hn Hbl HnB Hsz Hfu w.
  unfold write_head. rewrite bind_gets, Hlog, Hdev, u32_id by (unfold is_u32; lia).
  destruct (bread_spec i pid V B [] (lg_start l) s I)
    as (j & b & s1 & R1 & I1 & _ & Hb1 & Hhas1 & (Hl1 & Hd1 & Ho1) & _);
    [left; cbn; lia | done | lia | by intros j b ?%elem_of_nil |].
  rewrite (bind_done _ _ _ _ _ R1), bind_gets, Hl1, Hlog, Hn.
  destruct Hhas1 as (_ & _ & Hbl1 & Hdat1 & _).
  destruct (upd_data_spec i pid V B [j] j b (λ d, blk_put d 0 (word_bytes (Z.of_nat (length hs)))) s1
    I1 ltac:(left) Hb1) as [R2 I2].
  rewrite (bind_done _ _ _ _ _ R2). rewrite Nat2Z.id.
  set (b2 := b <| b_data ::= λ d, blk_put d 0 (word_bytes (Z.of_nat (length hs))) |>) in *.
  destruct (write_head_loop_spec i pid B j l hs (length hs) 0 _ b2
      (s1 <| k_bufs ::= <[j := b2]> |>) ltac:(lia) Hbl I2) as
    (b3 & s3 & R3 & I3 & (Hl3 & Hd3 & Ho3) & Hb3 & Hbl3 & Hdat3);
    [cbn; congruence | cbn; apply list_lookup_insert_eq; by eapply lookup_lt_Some |].
  change (Z.of_nat 0) with 0 in R3.
  rewrite (bind_done _ _ _ _ _ R3).
  change (b_blockno b2) with (b_blockno b) in *.
  change (b_data b2) with (blk_put (b_data b) 0 (word_bytes (Z.of_nat (length hs)))) in *.
  rewrite fn_insert_twice, drop_0, Hdat1, Hbl1 in I3. change (put_blocks _ _ _) with w.2 in I3.
  change (lg_start l) with w.1 in I3 at 1.
  destruct (bwrite_spec i pid _ B [j] j b3 s3 I3 ltac:(left) Hb3) as (s4 & R4 & I4 & Hl4 & Hd4 & Ho4 & Hb4);
    [rewrite Hbl3, Hbl1; lia |].
  rewrite (bind_done _ _ _ _ _ R4). rewrite Hbl3, Hbl1 in *.
  change (lg_start l) with w.1 in Hd4, Ho4. rewrite fn_lookup_insert in Hd4, Ho4.
  rewrite difference_singleton_id in I4 by done.
  assert (Hb4' : k_bufs s4 !! j = Some (b3 <| b_dirty := false |>))
    by (rewrite Hb4; apply list_lookup_insert_eq; by eapply lookup_lt_Some).
  destruct (brelse_spec i pid _ B [] j _ s4 I4 ltac:(by intros ?%elem_of_nil) Hb4')
    as (s5 & R5 & I5 & (Hl5 & Hd5 & Ho5) & _).
  { right. change (b_blockno (b3 <| b_dirty := false |>)) with (b_blockno b3).
    rewrite Hbl3, Hd4. change (lg_start l) with w.1. rewrite fn_lookup_insert.
    unfold disk_block. by rewrite lookup_insert_eq. }
  exists s5. split; [done |]. split; [done |].
  split; [rewrite Hl5, Hl4, Hl3; cbn; by rewrite Hl1 |].
  split; [rewrite Hd5, Hd4, Hd3; cbn; by rewrite Hd1 | rewrite Ho5, Ho4, Ho3; cbn; by rewrite Ho1].
Qed.

(** All the writes of a commit, in order. *)
Definition commit_writes (V : Z → list Z) (start : Z) (hs : list Z) : list write :=
  log_writes V (start + 1) hs ++ [(start, header_data hs (V start))] ++
  install_writes V hs ++ [(start, header_data [] (header_data hs (V start)))].

Lemma commit_spec i pid V B l hs s :
  io i pid V B [] s → k_log s = l → log_area l hs → lh_n l = Z.of_nat (length hs) →
  hs ≠ [] → B = list_to_set hs → (size B < NBUF)%nat → (0 < patience)%nat →
  let ws := commit_writes V (lg_start l) hs in
  ∃ s', commit s = Done tt s' ∧ io i pid (view_writes ws V) ∅ [] s' ∧
    k_log s' = l <| lh_n := 0 |> ∧ k_disk s' = apply_writes ws (k_disk s) ∧
    k_out s' = events ws ++ k_out s.
Proof.
  intros I Hlog A Hn Hne HB Hsz Hfu ws. unfold commit. rewrite bind_gets, Hlog, Hn.
  pose proof (la_apart _ _ A) as Hap. pose proof (la_end _ _ A). pose proof (la_start _ _ A).
  pose proof (la_disk _ _ A).
  assert (HnB : ∀ b, lg_start l ≤ b ≤ lg_start l + Z.of_nat (length hs) → b ∉ B).
  { intros b Hb Hin. rewrite HB, elem_of_list_to_set in Hin. apply Hap in Hin. lia. }
  assert (HinB : ∀ h, h ∈ hs → h ∈ B) by (intros h Hh; by rewrite HB, elem_of_list_to_set).
  destruct (Z.gtb_spec (Z.of_nat (length hs)) 0); [| destruct hs; [done | cbn in *; lia]].
  cbn [mwhen]. unfold write_log, install_trans.
  rewrite bind_assoc, bind_gets, Hlog, Hn, Nat2Z.id.
  destruct (write_log_loop_spec i pid B l hs A (length hs) 0 V s eq_refl I Hlog HinB HnB Hsz Hfu)
    as (s1 & R1 & I1 & Hl1 & Hd1 & Ho1).
  rewrite drop_0, Z.add_0_r in *. change (Z.of_nat 0) with 0 in R1.
  rewrite (bind_done _ _ _ _ _ R1).
  set (ws1 := log_writes V (lg_start l + 1) hs) in *. set (V1 := view_writes ws1 V) in *.
  assert (HV1 : V1 (lg_start l) = V (lg_start l)).
  { apply view_writes_other. intros ?%log_writes_fst. lia. }
  destruct (write_head_spec i pid V1 B l hs s1 I1 Hl1 (la_dev _ _ A)) as (s2 & R2 & I2 & Hl2 & Hd2 & Ho2);
    [done | lia | done | apply (la_blocks _ _ A) | apply HnB; lia | done | done |].
  rewrite HV1 in I2, Hd2, Ho2. cbn [fst snd] in I2, Hd2, Ho2.
  rewrite (bind_done _ _ _ _ _ R2).
  rewrite bind_assoc, bind_gets, Hl2, Hn, Nat2Z.id.
  set (hd := header_data hs (V (lg_start l))) in *. set (V2 := <[lg_start l := hd]> V1) in *.
  destruct (install_loop_spec i pid l hs A (length hs) 0 V2 B s2 eq_refl I2 Hl2 HnB) as
    (s3 & R3 & I3 & Hl3 & Hd3 & Ho3); [right; by split | done |].
  rewrite drop_0, Z.add_0_r in *. change (Z.of_nat 0) with 0 in R3.
  rewrite (bind_done _ _ _ _ _ R3).
  assert (Hlogged : home_writes V2 (lg_start l + 1) hs = install_writes V hs).
  { apply home_writes_logged. intros k h Hk. unfold V2.
    rewrite fn_lookup_insert_ne by lia. by apply log_writes_at. }
  rewrite Hlogged in I3, Hd3, Ho3. rewrite HB, difference_diag_L in I3.
  unfold upd_log. rewrite bind_modify.
  set (V3 := view_writes (install_writes V hs) V2) in *.
  assert (HV3 : V3 (lg_start l) = hd).
  { unfold V3. rewrite install_writes_at, decide_False.
    - apply fn_lookup_insert.
    - intros Hin. apply Hap in Hin. lia. }
  destruct (write_head_spec i pid V3 ∅ (l <| lh_n := 0 |>) []
      (s3 <| k_log ::= λ l, l <| lh_n := 0 |> |>) (io_log _ _ _ _ _ _ _ I3))
    as (s4 & R4 & I4 & Hl4 & Hd4 & Ho4);
    [cbn; by rewrite Hl3 | by apply A | done | cbn; lia | done | done | set_solver | | done |].
  { rewrite size_empty. unfold NBUF. lia. }
  change (lg_start (l <| lh_n := 0 |>)) with (lg_start l) in *.
  rewrite HV3 in I4, Hd4, Ho4. cbn [fst snd] in I4, Hd4, Ho4.
  exists s4. unfold ws, commit_writes. fold ws1 hd.
  rewrite !view_writes_app, !apply_writes_app, !events_app.
  change (view_writes ws1 V) with V1.
  split; [done |]. split; [exact I4 |]. split; [done |]. split.
  - rewrite Hd4. cbn. by rewrite Hd3, Hd2, Hd1.
  - rewrite Ho4. cbn. by rewrite Ho3, Ho2, Ho1, <- !app_assoc.
Qed.

(** ** Recovery *)
Lemma read_head_loop_spec d hs n : ∀ k l s,
  length hs = (k + n)%nat → (length hs ≤ length (lh_block l))%nat → k_log s = l →
  take k (lh_block l) = take k hs → (∀ i h, hs !! i = Some h → hd_block d i = h) →
  ∃ bl, read_head_loop d n (Z.of_nat k) s = Done tt (s <| k_log := l <| lh_block := bl |> |>) ∧
    take (length hs) bl = hs ∧ length bl = length (lh_block l).
Proof.
  induction n as [| n IH]; intros k l s Hlen Hle Hlog Htk Hd; cbn [read_head_loop].
  - exists (lh_block l). split; [| split; [| done]].
    + unfold mret, M_ret. kst_eq. by destruct (k_log s); subst.
    + replace (length hs) with k by lia. rewrite Htk. apply take_ge. lia.
  - destruct (lookup_lt_is_Some_2 hs k) as [h Hh]; [lia |].
    destruct (lookup_lt_is_Some_2 (lh_block l) k) as [x Hx]; [lia |].
    rewrite Nat2Z.id, (Hd k h Hh). unfold set_lh_block, upd_log.
    rewrite bind_assoc, (get_lh_block_bind _ x) by (rewrite ?Hlog, ?Nat2Z.id; done || lia).
    rewrite bind_modify, Nat2Z.id. replace (Z.of_nat k + 1) with (Z.of_nat (S k)) by lia.
    destruct (IH (S k) (l <| lh_block ::= <[k := h]> |>)
      (s <| k_log ::= λ l, l <| lh_block ::= <[k := h]> |> |>)) as (bl & R & Hbl & Hl).
    + lia.
    + cbn. rewrite length_insert. lia.
    + cbn. by rewrite Hlog.
    + cbn. rewrite (take_S_r _ _ h) by (apply list_lookup_insert_eq; lia).
      rewrite (take_S_r hs _ h) by done. by rewrite take_insert_ge, Htk.
    + done.
    + exists bl. rewrite R. split; [f_equal; kst_eq; done | split; [done |]].
      rewrite Hl. cbn. apply length_insert.
Qed.

Lemma read_head_spec i pid V B l hs s :
  io i pid V B [] s → k_log s = l → lg_dev l = 1 → disksize ≤ 2147483648 →
  0 ≤ lg_start l < disksize → (length hs ≤ length (lh_block l))%nat →
  hd_n (V (lg_start l)) = Z.of_nat (length hs) →
  (∀ i h, hs !! i = Some h → hd_block (V (lg_start l)) i = h) →
  lg_start l ∉ B → (size B < NBUF)%nat → (0 < patience)%nat →
  ∃ s' bl, read_head s = Done tt s' ∧ io i pid V B [] s' ∧
    k_log s' = l <| lh_n := Z.of_nat (length hs) |> <| lh_block := bl |> ∧
    take (length hs) bl = hs ∧ length bl = length (lh_block l) ∧
    k_disk s' = k_disk s ∧ k_out s' = k_out s.
Proof.
  intros I Hlog Hdev Hds Hst Hle Hn Hblk HnB Hsz Hfu.
  unfold read_head. rewrite bind_gets, Hlog, Hdev, u32_id by (unfold is_u32; lia).
  destruct (bread_spec i pid V B [] (lg_start l) s I)
    as (j & b & s1 & R1 & I1 & _ & Hb1 & Hhas1 & (Hl1 & Hd1 & Ho1) & _);
    [left; cbn; lia | done | lia | by intros j b ?%elem_of_nil |].
  destruct Hhas1 as (_ & _ & Hbl1 & Hdat1 & _).
  rewrite (bind_done _ _ _ _ _ R1), (get_buf_bind _ _ b), Hdat1, Hn by done.
  unfold upd_log. rewrite bind_modify, Nat2Z.id.
  set (l1 := l <| lh_n := Z.of_nat (length hs) |>).
  set (s2 := s1 <| k_log ::= _ |>).
  assert (Hs2 : k_log s2 = l1) by (cbn; by rewrite Hl1, Hlog).
  destruct (read_head_loop_spec (V (lg_start l)) hs (length hs) 0 l1 s2 eq_refl Hle Hs2 eq_refl Hblk)
    as (bl & R2 & Htk & Hlb). change (Z.of_nat 0) with 0 in R2.
  rewrite (bind_done _ _ _ _ _ R2).
  set (s3 := s2 <| k_log := l1 <| lh_block := bl |> |>).
  assert (I3 : io i pid V B [j] s3) by (apply io_log, io_log, I1).
  destruct (brelse_spec i pid V B [] j b s3 I3 ltac:(by intros ?%elem_of_nil) Hb1)
    as (s4 & R4 & I4 & (Hl4 & Hd4 & Ho4) & _).
  { right. rewrite Hbl1. cbn. rewrite Hd1. apply (io_clean _ _ _ _ _ _ I); [done |].
    by intros k c ?%elem_of_nil. }
  exists s4, bl. split_and!; try done.
  - by rewrite Hd4, <- Hd1.
  - by rewrite Ho4, <- Ho1.
Qed.

(** All the writes of [recover_from_log] when the header on disk lists [hs]. *)
Definition recovery_writes (V : Z → list Z) (start : Z) (hs : list Z) : list write :=
  home_writes V (start + 1) hs ++ [(start, header_data [] (V start))].

Lemma recover_spec i pid V l hs s :
  io i pid V ∅ [] s → k_log s = l → lg_dev l = 1 →
  (∀ bl, take (length hs) bl = hs → log_area (l <| lh_n := Z.of_nat (length hs) |> <| lh_block := bl |>) hs) →
  (length hs ≤ length (lh_block l))%nat → hd_n (V (lg_start l)) = Z.of_nat (length hs) →
  (∀ i h, hs !! i = Some h → hd_block (V (lg_start l)) i = h) → (0 < patience)%nat →
  let ws := recovery_writes V (lg_start l) hs in
  ∃ s', recover_from_log s = Done tt s' ∧ io i pid (view_writes ws V) ∅ [] s' ∧
    lh_n (k_log s') = 0 ∧ k_disk s' = apply_writes ws (k_disk s).
Proof.
  intros I Hlog Hdev HA Hle Hn Hblk Hfu ws.
  assert (Hsz : (size (∅ : gset Z) + 1 < NBUF)%nat) by (rewrite size_empty; unfold NBUF; lia).
  pose proof (HA hs (take_ge hs _ (le_n _))) as A0.
  pose proof (la_disk _ _ A0). pose proof (la_start _ _ A0) as Hst0. cbn in Hst0.
  pose proof (la_end _ _ A0) as Hend. cbn in Hend.
  destruct (read_head_spec i pid V ∅ l hs s I Hlog Hdev) as
    (s1 & bl & R1 & I1 & Hl1 & Htk & Hlb & Hd1 & Ho1);
    [done | lia | done | done | done | apply not_elem_of_empty | lia | done |].
  pose proof (HA bl Htk) as A. set (l1 := l <| lh_n := _ |> <| lh_block := bl |>) in *.
  unfold recover_from_log, install_trans, upd_log.
  rewrite (bind_done _ _ _ _ _ R1), bind_assoc, bind_gets, Hl1.
  change (lh_n l1) with (Z.of_nat (length hs)). rewrite Nat2Z.id.
  destruct (install_loop_spec i pid l1 hs A (length hs) 0 V ∅ s1 eq_refl I1 Hl1) as
    (s2 & R2 & I2 & Hl2 & Hd2 & Ho2);
    [intros; apply not_elem_of_empty | by left | done |].
  assert (Hemp : ∀ X : gset Z, ∅ ∖ X = ∅) by (intros X; apply set_eq; intros x;
    rewrite elem_of_difference; split; [tauto | by intros ?%not_elem_of_empty]).
  rewrite drop_0, Z.add_0_r, Hemp in *. change (Z.of_nat 0) with 0 in R2.
  rewrite (bind_done _ _ _ _ _ R2), bind_modify.
  change (lg_start l1) with (lg_start l) in *.
  set (V2 := view_writes (home_writes V (lg_start l + 1) hs) V) in *.
  assert (HV2 : V2 (lg_start l) = V (lg_start l)).
  { apply view_writes_other. rewrite home_writes_fst. intros Hin.
    apply (la_apart _ _ A) in Hin. cbn in Hin. lia. }
  destruct (write_head_spec i pid V2 ∅ (l1 <| lh_n := 0 |>) []
      (s2 <| k_log ::= λ l, l <| lh_n := 0 |> |>) (io_log _ _ _ _ _ _ _ I2))
    as (s3 & R3 & I3 & Hl3 & Hd3 & Ho3);
    [cbn; by rewrite Hl2 | done | done | cbn; lia | done | done | apply not_elem_of_empty | lia | done |].
  change (lg_start (l1 <| lh_n := 0 |>)) with (lg_start l) in *.
  rewrite HV2 in I3, Hd3. cbn [fst snd] in I3, Hd3.
  exists s3. split; [done |]. unfold ws, recovery_writes.
  rewrite view_writes_app, apply_writes_app. split; [exact I3 |].
  split; [by rewrite Hl3 |]. rewrite Hd3. cbn. by rewrite Hd2, Hd1.
Qed.

Lemma initlog_spec i pid V l hs s :
  io i pid V ∅ [] s → V = disk_block (k_disk s) → log_area l hs →
  lg_start l = i32 (sb_logstart (sb_decode (V 1))) →
  (length hs ≤ length (lh_block (k_log s)))%nat → hd_n (V (lg_start l)) = Z.of_nat (length hs) →
  (∀ i h, hs !! i = Some h → hd_block (V (lg_start l)) i = h) → (0 < patience)%nat →
  1 < lg_start l →
  ∃ s', initlog 1 s = Done tt s' ∧ lh_n (k_log s') = 0 ∧
    k_disk s' = apply_writes (recovery_writes V (lg_start l) hs) (k_disk s).
Proof.
  intros I HV A Hst Hle Hn Hblk Hfu H1. pose proof (la_end _ _ A). unfold initlog, readsb.
  destruct (bread_spec i pid V ∅ [] 1 s I)
    as (j & b & s1 & R1 & I1 & _ & Hb1 & Hhas1 & (Hl1 & Hd1 & Ho1) & _);
    [left; rewrite size_empty; unfold NBUF; cbn; lia | done | lia | by intros j b ?%elem_of_nil |].
  destruct Hhas1 as (_ & _ & Hbl1 & Hdat1 & _).
  rewrite bind_assoc, (bind_done _ _ _ _ _ R1), bind_assoc, (get_buf_bind _ _ b), Hdat1 by done.
  destruct (brelse_spec i pid V ∅ [] j b s1 I1 ltac:(by intros ?%elem_of_nil) Hb1)
    as (s2 & R2 & I2 & (Hl2 & Hd2 & Ho2) & _); [right; by rewrite Hbl1, Hd1, HV |].
  rewrite bind_assoc, (bind_done _ _ _ _ _ R2), bind_ret. unfold upd_log. rewrite bind_modify, <- Hst.
  match goal with |- context [recover_from_log ?st] => set (s3 := st) end.
  destruct (recover_spec i pid V (k_log s3) hs s3) as (s4 & R4 & _ & Hl4 & Hd4); try done.
  - by apply io_log.
  - intros bl Hbl. destruct A. by split.
  - cbn. by rewrite Hl2, Hl1.
  - exists s4. split; [done |]. split; [done |]. rewrite Hd4. cbn. by rewrite Hd2, Hd1.
Qed.

Lemma log_area_nil l hs : log_area l hs → log_area l [].
Proof.
  intros []. split; try done; cbn; [lia | |]; by intros h ?%elem_of_nil.
Qed.

(** The blocks a recovery finds after the first [k] writes of a commit. *)
Lemma commit_prefix D V l hs k :
  log_area l hs → (∀ b, b ∉ hs → V b = D b) →
  let n := length hs in let start := lg_start l in
  let W := view_writes (take k (commit_writes V start hs)) D in
  (∀ b, b < start ∨ start + Z.of_nat n < b → b ∉ hs → W b = D b) ∧
  ((k ≤ n)%nat → W start = D start ∧ ∀ b, b < start ∨ start + Z.of_nat n < b → W b = D b) ∧
  ((n < k ≤ 2 * n + 1)%nat → W start = header_data hs (V start) ∧
     ∀ i h, hs !! i = Some h → W (start + 1 + Z.of_nat i) = V h) ∧
  ((2 * n + 1 < k)%nat → W start = header_data [] (header_data hs (V start)) ∧
     ∀ b, b < start ∨ start + Z.of_nat n < b → W b = V b).
Proof.
  intros A HVD n start W. pose proof (la_apart _ _ A) as Hap.
  set (ws1 := log_writes V (start + 1) hs) in *.
  assert (Hlen1 : length ws1 = n) by apply log_writes_length.
  assert (Hws1 : ∀ b, b ∈ ws1.*1 → start < b ≤ start + Z.of_nat n)
    by (intros b ?%log_writes_fst; lia).
  assert (Hsplit : (n < k)%nat → W = view_writes (take (k - n - 1)
    (install_writes V hs ++ [(start, header_data [] (header_data hs (V start)))]))
    (<[start := header_data hs (V start)]> (view_writes ws1 D))).
  { intros Hk. unfold W, commit_writes. fold ws1.
    rewrite take_app, take_ge, view_writes_app, Hlen1 by lia.
    destruct (k - n)%nat as [| m] eqn:E; [lia |]. cbn [take app].
    rewrite view_writes_cons. do 2 f_equal. lia. }
  assert (Hlen2 : length (install_writes V hs) = n) by apply length_fmap.
  assert (Hno : start ∉ hs) by (intros Hin; apply Hap in Hin; lia).
  split_and!.
  - intros b Hb Hbn. apply view_writes_other. intros Hin. rewrite fmap_take in Hin.
    apply elem_of_take in Hin as (m & Hin & _). apply list_elem_of_lookup_2 in Hin.
    unfold commit_writes in Hin. rewrite !fmap_app in Hin. fold ws1 in Hin.
    rewrite !elem_of_app in Hin. unfold install_writes in Hin.
    rewrite <- list_fmap_compose in Hin. cbn in Hin. rewrite !list_elem_of_singleton in Hin.
    destruct Hin as [?%Hws1 | [-> | [Hin | ->]]]; [lia | lia | | lia].
    rewrite list_fmap_id in Hin. done.
  - intros Hk. assert (HW : ∀ b, ¬ (start < b ≤ start + Z.of_nat n) → W b = D b).
    { intros b Hb. unfold W, commit_writes. fold ws1. rewrite take_app_le by lia.
      apply view_writes_other. rewrite fmap_take. intros (m & Hin & _)%elem_of_take.
      apply list_elem_of_lookup_2, Hws1 in Hin. lia. }
    split; [apply HW; lia | intros b Hb; apply HW; lia].
  - intros Hk. rewrite Hsplit by lia. rewrite take_app_le by lia.
    assert (Hoth : ∀ b, b ∉ hs → ∀ V0, view_writes (take (k - n - 1) (install_writes V hs)) V0 b = V0 b).
    { intros b Hb V0. apply view_writes_other. rewrite fmap_take. intros (m & Hin & _)%elem_of_take.
      apply list_elem_of_lookup_2 in Hin. unfold install_writes in Hin.
      rewrite <- list_fmap_compose in Hin. cbn in Hin. by rewrite list_fmap_id in Hin. }
    split; [by rewrite Hoth, fn_lookup_insert |].
    intros i h Hi. pose proof (lookup_lt_Some _ _ _ Hi) as Hlt. fold n in Hlt.
    rewrite Hoth by (intros Hin; apply Hap in Hin; lia).
    rewrite fn_lookup_insert_ne by lia. by apply log_writes_at.
  - intros Hk. rewrite Hsplit by lia. rewrite take_ge by (rewrite length_app, Hlen2; cbn; lia).
    rewrite view_writes_app, view_writes_cons. cbn [fst snd].
    split; [apply fn_lookup_insert |]. intros b Hb.
    change (view_writes [] ?X) with X. rewrite fn_lookup_insert_ne by lia.
    rewrite install_writes_at. case_decide as Hin; [done |].
    rewrite fn_lookup_insert_ne by lia. rewrite HVD by done.
    apply view_writes_other. intros ?%Hws1. lia.
Qed.

(** A transaction ready to be committed by process [i]: no other operation is
    outstanding, the cache shows content [V], the blocks [hs] are pinned and
    listed in the log header in memory; on disk the log is empty. *)
Record tx_ready (i : nat) (pid : Z) (V : Z → list Z) (hs : list Z) (s : kst) : Prop := {
  tr_io : io i pid V (list_to_set hs) [] s;
  tr_area : log_area (k_log s) hs;
  tr_n : lh_n (k_log s) = Z.of_nat (length hs);
  tr_some : hs ≠ [];
  tr_room : (length hs < NBUF)%nat;
  tr_sizes : ∀ b, length (disk_block (k_disk s) b) = BSIZE;
  tr_clear : hd_n (disk_block (k_disk s) (lg_start (k_log s))) = 0;
  tr_super : i32 (sb_logstart (sb_decode (disk_block (k_disk s) 1))) = lg_start (k_log s);
  tr_one : 1 < lg_start (k_log s) ∧ 1 ∉ hs }.

(** A machine that has just booted from the disk [d], about to call [initlog]. *)
Definition booted (j : nat) (q : Z) (d : gmap Z (list Z)) (r : kst) : Prop :=
  k_disk r = d ∧ io j q (disk_block d) ∅ [] r ∧ length (lh_block (k_log r)) = 30%nat.

Lemma tx_unpinned i pid V hs s b :
  tx_ready i pid V hs s → b ∉ hs → V b = disk_block (k_disk s) b.
Proof.
  intros T Hb. apply (io_clean _ _ _ _ _ _ (tr_io _ _ _ _ _ T)).
  - by rewrite elem_of_list_to_set.
  - by intros k c ?%elem_of_nil.
Qed.

(** Recovery when the header on disk says that the log is empty... *)
Lemma recover_empty_log j q W l r :
  io j q W ∅ [] r → W = disk_block (k_disk r) → log_area l [] →
  lg_start l = i32 (sb_logstart (sb_decode (W 1))) → 1 < lg_start l → (0 < patience)%nat →
  hd_n (W (lg_start l)) = 0 → length (W (lg_start l)) = BSIZE →
  ∃ r', initlog 1 r = Done tt r' ∧ lh_n (k_log r') = 0 ∧
    hd_n (disk_block (k_disk r') (lg_start l)) = 0 ∧
    ∀ b, b ≠ lg_start l → disk_block (k_disk r') b = W b.
Proof.
  intros I HW A Hst H1 Hfu H0 Hl.
  destruct (initlog_spec j q W l [] r I HW A Hst) as (r' & Rr & Hlr & Hdr); [cbn; lia | done.. |].
  destruct (header_roundtrip [] (W (lg_start l)) Hl ltac:(cbn; lia) ltac:(done)) as (_ & Hn0 & _).
  exists r'. split; [done |]. split; [done |]. rewrite Hdr.
  unfold recovery_writes. cbn [home_writes app]. rewrite apply_writes_cons.
  change (apply_writes [] ?d) with d. unfold disk_block. cbn [fst snd].
  rewrite lookup_insert_eq. split; [exact Hn0 |].
  intros b Hb. rewrite lookup_insert_ne by done. by rewrite HW.
Qed.

(** ... and when it lists the blocks [hs] whose new content [V] is in the log. *)
Lemma recover_full_log j q W V l hs d r :
  io j q W ∅ [] r → W = disk_block (k_disk r) → log_area l hs →
  lg_start l = i32 (sb_logstart (sb_decode (W 1))) → 1 < lg_start l → (0 < patience)%nat →
  (length hs < NBUF)%nat → (length hs ≤ length (lh_block (k_log r)))%nat →
  W (lg_start l) = header_data hs d → length d = BSIZE →
  (∀ i h, hs !! i = Some h → W (lg_start l + 1 + Z.of_nat i) = V h) →
  ∃ r', initlog 1 r = Done tt r' ∧ lh_n (k_log r') = 0 ∧
    hd_n (disk_block (k_disk r') (lg_start l)) = 0 ∧
    ∀ b, b ≠ lg_start l → disk_block (k_disk r') b = if decide (b ∈ hs) then V b else W b.
Proof.
  intros I HW A Hst H1 Hfu Hroom Hle HWs Hd HWl. unfold NBUF in Hroom.
  destruct (header_roundtrip hs d Hd) as (Hl1 & Hn1 & Hb1); [lia | |].
  { apply Forall_forall. intros h Hh. pose proof (la_home _ _ A h Hh).
    pose proof (la_disk _ _ A). lia. }
  rewrite <- HWs in Hl1, Hn1, Hb1.
  destruct (initlog_spec j q W l hs r I HW A Hst) as (r' & Rr & Hlr & Hdr); [done.. |].
  destruct (header_roundtrip [] (W (lg_start l)) Hl1 ltac:(cbn; lia) ltac:(done)) as (_ & Hn0 & _).
  exists r'. split; [done |]. split; [done |].
  assert (Hfin : ∀ b, disk_block (k_disk r') b = <[lg_start l := header_data [] (W (lg_start l))]>
    (view_writes (install_writes V hs) W) b).
  { intros b. rewrite Hdr. unfold recovery_writes. rewrite (home_writes_logged V) by done.
    by rewrite disk_block_writes, view_writes_app, <- HW. }
  split; [by rewrite Hfin, fn_lookup_insert |].
  intros b Hb. by rewrite Hfin, fn_lookup_insert_ne, install_writes_at.
Qed.

(** C1: crash safety of the log.  [commit] writes a fixed sequence of blocks and
    leaves the log empty.  If the machine stops after any number [k] of these
    writes and boots again, [initlog] on what is then on the disk terminates,
    leaves the log empty, and every block outside the log area is what it was
    before the transaction (when the header had not been written), or every
    block is what the transaction made it (when it had): nothing in between. *)
Theorem commit_crash_atomic i pid V hs s :
  tx_ready i pid V hs s → (0 < patience)%nat →
  let start := lg_start (k_log s) in
  let outside b := b < start ∨ start + Z.of_nat (length hs) < b in
  ∃ s' ws, commit s = Done tt s' ∧ lh_n (k_log s') = 0 ∧
    k_out s' = events ws ++ k_out s ∧ k_disk s' = apply_writes ws (k_disk s) ∧
    (∀ b, outside b → disk_block (k_disk s') b = V b) ∧
    ∀ k j q r, booted j q (apply_writes (take k ws) (k_disk s)) r →
      ∃ r', initlog 1 r = Done tt r' ∧ lh_n (k_log r') = 0 ∧
        hd_n (disk_block (k_disk r') start) = 0 ∧
        ∀ b, outside b → disk_block (k_disk r') b =
          if decide (k ≤ length hs)%nat then disk_block (k_disk s) b else V b.
Proof.
  intros T Hfu start outside. pose proof (tr_area _ _ _ _ _ T) as A.
  assert (HV : ∀ b, b ∉ hs → V b = disk_block (k_disk s) b) by (intros b; by apply (tx_unpinned i pid)).
  pose proof (la_apart _ _ A) as Hap. fold start in Hap.
  assert (Hno : start ∉ hs) by (intros Hin; apply Hap in Hin; lia).
  destruct (commit_spec i pid V _ (k_log s) hs s (tr_io _ _ _ _ _ T) eq_refl A
    (tr_n _ _ _ _ _ T) (tr_some _ _ _ _ _ T) eq_refl) as (s' & R & _ & Hl & Hd & Ho); [| done |].
  { pose proof (size_list_to_set_le hs). pose proof (tr_room _ _ _ _ _ T). lia. }
  fold start in Hd, Ho. set (ws := commit_writes V start hs) in *.
  exists s', ws. split; [done |]. split; [by rewrite Hl |]. split; [done |]. split; [done |].
  set (D := disk_block (k_disk s)) in *.
  assert (Hlen : length ws = (2 * length hs + 2)%nat).
  { unfold ws, commit_writes, install_writes.
    rewrite !length_app, log_writes_length, length_fmap. cbn. lia. }
  split.
  - intros b Hb. rewrite Hd, disk_block_writes. fold D.
    destruct (commit_prefix D V (k_log s) hs (length ws) A HV) as (_ & _ & _ & Hfin).
    fold start ws in Hfin. rewrite (take_ge ws (length ws)) in Hfin by done.
    destruct Hfin as [_ Hfin]; [lia |]. by apply Hfin.
  - intros k j q r (Hdr & Ir & Hlr).
    destruct (commit_prefix D V (k_log s) hs k A HV) as (Hout & Hold & Hmid & Hnew).
    set (W := disk_block (apply_writes (take k ws) (k_disk s))) in *.
    assert (HW : view_writes (take k (commit_writes V (lg_start (k_log s)) hs)) D = W).
    { apply functional_extensionality. intros b. unfold W. by rewrite disk_block_writes. }
    fold start in HW, Hout, Hold, Hmid, Hnew. rewrite HW in Hout, Hold, Hmid, Hnew.
    destruct (tr_one _ _ _ _ _ T) as [H1 H1n]. fold start in H1.
    assert (Hsup : start = i32 (sb_logstart (sb_decode (W 1)))).
    { rewrite Hout; [symmetry; exact (tr_super _ _ _ _ _ T) | by left | done]. }
    assert (HVs : length (V start) = BSIZE) by (rewrite HV by done; apply (tr_sizes _ _ _ _ _ T)).
    pose proof (tr_room _ _ _ _ _ T) as Hroom.
    destruct (header_roundtrip hs (V start) HVs) as (Hl1 & _ & _); [unfold NBUF in Hroom; lia | |].
    { apply Forall_forall. intros h Hh. pose proof (la_home _ _ A h Hh).
      pose proof (la_disk _ _ A). lia. }
    destruct (header_roundtrip [] _ Hl1 ltac:(cbn; lia) ltac:(done)) as (Hl0 & Hn0 & _).
    pose proof (recover_empty_log j q W (k_log s) r Ir ltac:(by rewrite Hdr) (log_area_nil _ _ A)
      Hsup H1 Hfu) as Hempty. fold start in Hempty.
    assert (Hne : ∀ b, outside b → b ≠ start) by (intros b [?|?]; lia).
    destruct (decide (k ≤ length hs)%nat) as [Hk | Hk].
    + destruct (Hold Hk) as [HWs HWb]. rewrite HWs in Hempty.
      destruct Hempty as (r' & ? & ? & ? & Hfin);
        [exact (tr_clear _ _ _ _ _ T) | apply (tr_sizes _ _ _ _ _ T) |].
      exists r'. split_and!; try done. intros b Hb. rewrite Hfin by auto. by apply HWb.
    + destruct (decide (k ≤ 2 * length hs + 1)%nat) as [Hk2 | Hk2].
      * destruct Hmid as [HWs HWl]; [lia |].
        destruct (recover_full_log j q W V (k_log s) hs (V start) r) as (r' & ? & ? & ? & Hfin);
          try done; [by rewrite Hdr | rewrite Hlr; unfold NBUF in Hroom; lia |].
        exists r'. split_and!; try done. intros b Hb. rewrite Hfin by auto.
        case_decide; [done |]. rewrite HV by done. by apply Hout.
      * destruct Hnew as [HWs HWb]; [lia |]. rewrite HWs in Hempty.
        destruct Hempty as (r' & ? & ? & ? & Hfin); [done | done |].
        exists r'. split_and!; try done. intros b Hb. rewrite Hfin by auto. by apply HWb.
Qed.
End log_spec.

(** ** Recording a block in the running transaction *)
Section log_write_spec.

(** The blocks of the running transaction. *)
Definition logged (l : logst) : list Z := take (Z.to_nat (lh_n l)) (lh_block l).

(** What [log_write] leaves in the log: slot [k] names the block, and the list
    has grown if [k] was its end. *)
Definition log_add (l : logst) (b : Z) : logst :=
  let n := Z.to_nat (lh_n l) in
  let k := default n (find_idx (λ x, u32 x =? b) (take n (lh_block l))) in
  l <| lh_block ::= <[k := b]> |> <| lh_n := if Nat.eqb k n then lh_n l + 1 else lh_n l |>.
Definition add_blk (hs : list Z) (b : Z) : list Z := if decide (b ∈ hs) then hs else hs ++ [b].

Lemma log_add_spec l b :
  0 ≤ lh_n l < LOGSIZE → length (lh_block l) = Z.to_nat LOGSIZE →
  0 ≤ b < 2147483648 → Forall (λ x, 0 ≤ x < 2147483648) (logged l) →
  logged (log_add l b) = add_blk (logged l) b ∧
  lh_n (log_add l b) = Z.of_nat (length (logged (log_add l b))) ∧
  length (lh_block (log_add l b)) = Z.to_nat LOGSIZE.
Proof.
  intros Hn Hlen Hb Hall.
  assert (Hlg : length (logged l) = Z.to_nat (lh_n l)) by (unfold logged; rewrite length_take; lia).
  assert (Hidx : ∀ x, x ∈ logged l → (u32 x =? b) = bool_decide (x = b)).
  { intros x Hx. rewrite Forall_forall in Hall. specialize (Hall x Hx).
    rewrite u32_id by (unfold is_u32; lia).
    destruct (Z.eqb_spec x b); [by rewrite bool_decide_eq_true_2 | by rewrite bool_decide_eq_false_2]. }
  unfold log_add, add_blk. fold (logged l).
  destruct (find_idx _ (logged l)) as [k |] eqn:Hf; cbn [default from_option id].
  - apply find_idx_Some in Hf as [(x & Hx & He) _].
    rewrite Hidx in He by (by eapply list_elem_of_lookup_2). apply bool_decide_eq_true in He as ->.
    pose proof (lookup_lt_Some _ _ _ Hx) as Hk. rewrite (proj2 (Nat.eqb_neq k _)) by lia.
    rewrite decide_True by (by eapply list_elem_of_lookup_2).
    assert (Heq : <[k := b]> (lh_block l) = lh_block l).
    { apply list_insert_id. unfold logged in Hx. rewrite lookup_take_Some in Hx. tauto. }
    unfold logged in *. cbn [lh_n lh_block set set_lh_n Kstate.set_lh_block]. rewrite Heq. split_and!; [done | lia | done].
  - rewrite Nat.eqb_refl, decide_False.
    2: { intros [k Hk]%list_elem_of_lookup_1. rewrite find_idx_None in Hf. pose proof (Hf k _ Hk) as Hno.
         rewrite Hidx, bool_decide_eq_true_2 in Hno by (done || by eapply list_elem_of_lookup_2). done. }
    assert (Htk : take (Z.to_nat (lh_n l + 1)) (<[Z.to_nat (lh_n l) := b]> (lh_block l)) = logged l ++ [b]).
    { replace (Z.to_nat (lh_n l + 1)) with (S (Z.to_nat (lh_n l))) by lia.
      rewrite (take_S_r _ _ b); [by rewrite take_insert_ge |].
      apply list_lookup_insert_eq. unfold LOGSIZE, MAXOPBLOCKS in *. lia. }
    unfold logged at 1 3. cbn [lh_n lh_block set set_lh_n Kstate.set_lh_block]. rewrite Htk.
    split; [done |]. split; [rewrite length_app; cbn; lia | by rewrite length_insert].
Qed.

Lemma log_write_run bp b s :
  let l := k_log s in
  cpu_ok (k_cpu s) → LLog ∉ k_held s → k_bufs s !! bp = Some b →
  0 ≤ lh_n l < LOGSIZE → lh_n l < lg_size l - 1 → 1 ≤ lg_outstanding l →
  length (lh_block l) = Z.to_nat LOGSIZE →
  0 ≤ b_blockno b < 2147483648 → Forall (λ x, 0 ≤ x < 2147483648) (logged l) →
  log_write bp s = Done tt (ksync (s <| k_bufs ::= <[bp := b <| b_dirty := true |>]> |>
    <| k_log := log_add l (b_blockno b) |>)).
Proof.
  intros l Hc Hl Hb Hn Hsz Hout Hlen Hbn Hall. unfold log_write. rewrite bind_gets. fold l.
  replace ((lh_n l >=? LOGSIZE) || (lh_n l >=? lg_size l - 1))%bool with false.
  2: { symmetry. rewrite orb_false_iff, !Z.geb_leb, !Z.leb_gt. lia. }
  rewrite (proj2 (Z.ltb_ge _ _)) by lia.
  rewrite acquire_bind by done. rewrite (get_buf_bind _ _ b), bind_gets by done.
  change (k_log (locked LLog s)) with l. rewrite i32_id by (unfold is_i32; lia). unfold log_add.
  set (k := default _ _).
  assert (Hk : (k < length (lh_block l))%nat).
  { unfold k. destruct (find_idx _ _) as [j |] eqn:Hf; cbn [default from_option id].
    - apply find_idx_Some in Hf as [(x & Hx & _) _]. rewrite lookup_take_Some in Hx.
      destruct Hx as [Hx _]. by eapply lookup_lt_Some.
    - unfold LOGSIZE, MAXOPBLOCKS in *. lia. }
  destruct (lookup_lt_is_Some_2 _ _ Hk) as [x Hx].
  unfold set_lh_block, upd_log. rewrite bind_assoc, (get_lh_block_bind _ x), Nat2Z.id
    by first [lia | cbn; by rewrite Nat2Z.id].
  rewrite bind_modify. destruct (Nat.eqb k _); cbn [mwhen]; [rewrite bind_modify | rewrite bind_ret];
    (erewrite upd_buf_bind by exact Hb);
    rewrite (release_run _ _ (k_cpu s) (k_held s)) by done; unfold ksync; kst_eq;
    unfold l; by destruct (k_log s).
Qed.

(** [log_write] refuses a block when the log is full, one slot before the log
    area is, and outside a transaction; otherwise it pins the buffer and the
    block is in the transaction's list once: added at the end if it was not
    there (absorption). *)
Theorem log_write_spec bp b s :
  let l := k_log s in
  cpu_ok (k_cpu s) → LLog ∉ k_held s → k_bufs s !! bp = Some b →
  0 ≤ lh_n l → length (lh_block l) = Z.to_nat LOGSIZE →
  0 ≤ b_blockno b < 2147483648 → Forall (λ x, 0 ≤ x < 2147483648) (logged l) →
  if decide (LOGSIZE ≤ lh_n l ∨ lg_size l - 1 ≤ lh_n l)
  then log_write bp s = Panic "too big a transaction" s
  else if decide (lg_outstanding l < 1)
  then log_write bp s = Panic "log_write outside of trans" s
  else ∃ s', log_write bp s = Done tt s' ∧ k_held s' = k_held s ∧
    k_bufs s' = <[bp := b <| b_dirty := true |>]> (k_bufs s) ∧ k_disk s' = k_disk s ∧
    logged (k_log s') = add_blk (logged l) (b_blockno b) ∧
    lh_n (k_log s') = Z.of_nat (length (logged (k_log s'))).
Proof.
  intros l Hc Hl Hb Hn Hlen Hbn Hall. case_decide as Hfull.
  { unfold log_write. rewrite bind_gets. fold l.
    replace ((lh_n l >=? LOGSIZE) || (lh_n l >=? lg_size l - 1))%bool with true; [done |].
    symmetry. rewrite orb_true_iff, !Z.geb_le. lia. }
  case_decide as Hout.
  { unfold log_write. rewrite bind_gets. fold l.
    replace ((lh_n l >=? LOGSIZE) || (lh_n l >=? lg_size l - 1))%bool with false.
    - by rewrite (proj2 (Z.ltb_lt _ _) Hout).
    - symmetry. rewrite orb_false_iff, !Z.geb_leb, !Z.leb_gt. lia. }
  destruct (log_add_spec l (b_blockno b)) as (H1 & H2 & _); [lia | done | done | done |].
  eexists. split; [apply log_write_run; subst l; first [done | lia] | by split_and!].
Qed.
End log_write_spec.

(** ** Witnesses: a disk of 1000 blocks with the log at block 2, and a
    transaction that changes block 40 *)
Definition super_block : list Z :=
  concat (word_bytes <$> [1000; 941; 200; 30; 2; 32; 58]) ++ replicate 484 0.
Definition tx_disk : gmap Z (list Z) := {[ 1 := super_block ]}.
Definition tx_view : Z → list Z := <[40 := replicate 512 7]> (disk_block tx_disk).
Definition tx_state : kst :=
  running <| k_bufs := mkBuf true true 1 40 slock0 0 (replicate 512 7) None :: replicate 29 buf0 |>
    <| k_mru := seq 0 NBUF |> <| k_disk := tx_disk |>
    <| k_log := mkLog 2 30 0 true 1 1 (40 :: replicate 29 0) |>.

Lemma tx_disk_size b : length (disk_block tx_disk b) = BSIZE.
Proof.
  unfold disk_block, tx_disk. destruct (decide (b = 1)) as [-> |].
  - by rewrite lookup_singleton_eq.
  - by rewrite lookup_singleton_ne by done.
Qed.
Lemma tx_state_bufs j b : k_bufs tx_state !! j = Some b →
  (j = O ∧ b = mkBuf true true 1 40 slock0 0 (replicate 512 7) None) ∨ b = buf0.
Proof.
  destruct j as [| j]; [intros [= <-]; by left |]. intros H. right.
  change (replicate 29 buf0 !! j = Some b) in H. by apply lookup_replicate in H as [-> _].
Qed.
Lemma tx_state_io : io 0 1 tx_view {[40]} [] tx_state.
Proof.
  split.
  - by split.
  - done.
  - done.
  - intros j k b c Hj%tx_state_bufs Hk%tx_state_bufs Hb Hc _.
    destruct Hj as [[-> ->] | ->]; [| done]. by destruct Hk as [[-> ->] | ->].
  - intros j b [[-> ->] | ->]%tx_state_bufs; split; try done.
    + by intros ?%elem_of_nil.
    + by intros ?%elem_of_nil.
  - intros blk ->%elem_of_singleton. by exists O, (mkBuf true true 1 40 slock0 0 (replicate 512 7) None).
  - intros blk Hblk _. rewrite elem_of_singleton in Hblk. unfold tx_view.
    by rewrite fn_lookup_insert_ne.
Qed.

Lemma commit_crash_atomic_witness :
  ∃ s' ws, @commit (1%nat : Fuel) (memide (MD := 1000)) tx_state = Done tt s' ∧
    k_out s' = events ws ++ [] ∧ disk_block (k_disk s') 40 = replicate 512 7.
Proof.
  destruct (@commit_crash_atomic (1%nat : Fuel) 1000 0 1 tx_view [40] tx_state)
    as (s' & ws & R & _ & Ho & _ & Hb & _).
  - split.
    + replace (list_to_set [40]) with ({[40]} : gset Z); [exact tx_state_io |].
      cbn. by rewrite union_empty_r_L.
    + split; cbn; try done; intros h ->%list_elem_of_singleton; unfold disksize; cbn; lia.
    + done.
    + done.
    + unfold NBUF. cbn. lia.
    + apply tx_disk_size.
    + vm_compute. done.
    + vm_compute. done.
    + split; [done |]. by intros ?%list_elem_of_singleton.
  - apply le_n.
  - exists s', ws. split; [exact R |]. split; [exact Ho |].
    rewrite (Hb 40); [by unfold tx_view; rewrite fn_lookup_insert | right; cbn; lia].
Defined.

Lemma log_write_spec_witness :
  ∃ s', log_write 5 (tx_state <| k_log ::= λ l, l <| lg_outstanding := 1 |> |>
      <| k_bufs ::= <[5%nat := buf0 <| b_blockno := 41 |>]> |>) = Done tt s' ∧
    logged (k_log s') = [40; 41].
Proof.
  pose proof (log_write_spec 5 (buf0 <| b_blockno := 41 |>)
    (tx_state <| k_log ::= λ l, l <| lg_outstanding := 1 |> |>
      <| k_bufs ::= <[5%nat := buf0 <| b_blockno := 41 |>]> |>)) as H.
  cbv zeta in H. destruct H as (s' & R & _ & _ & _ & Hl & _).
  - split; [done | done].
  - by intros ?%elem_of_nil.
  - done.
  - done.
  - done.
  - cbn. lia.
  - repeat constructor; lia.
  - exists s'. split; [exact R |]. exact Hl.
Defined.
