(* ===== verification/Fs.v ===== *)
(** * fs.c: blocks, inodes, directories, path names

    Inodes are named by their index in [icache].  [readi] and [writei] move
    bytes between an inode and either memory at an address or a variable of the
    caller ([place], [source]); path names are the bytes before the NUL. *)
From S2P Require Import Prelude Mmu Cstring Kstate Spinlock Kalloc Vm Proc Sleeplock Bio Log.

Definition ROOTINO : Z := 1.
Definition NDIRECT : nat := 12.
Definition NINDIRECT : nat := 128.
Definition MAXFILE : Z := 140.
Definition IPB : Z := 8.
Definition BPB : Z := 4096.
Definition DIRSIZ : nat := 14.
Definition T_DIR : Z := 1.
Definition T_FILE : Z := 2.
Definition T_DEV : Z := 3.
Definition sizeof_dinode : nat := 64.
Definition sizeof_dirent : nat := 16.
(** The C [BSIZE] as a number. *)
Definition ZBSIZE : Z := 512.

(** The device switch (file.h): readers and writers of device inodes. *)
Class DevSw := {
  devsw_read : Z → option (nat → Z → Z → K Z);
  devsw_write : Z → option (nat → Z → Z → K Z)
}.

Section fs.
Context {LK : Linker} {FU : Fuel} {BD : BlockDev} {DS : DevSw}.

Definition get_sb : K superblock := gets k_sb.
Definition IBLOCK (i : Z) (sb : superblock) : Z := u32 (i / IPB + sb_inodestart sb).
Definition BBLOCK (b : Z) (sb : superblock) : Z := u32 (b / BPB + sb_bmapstart sb).

(** ** Blocks *)
Definition bzero (dev bno : Z) : K unit :=
  bp ← bread dev bno;
  upd_data bp (λ _, replicate BSIZE 0);;
  log_write bp;;
  brelse bp.

Definition bit_set (d : list Z) (bi : nat) : bool :=
  negb (Z.land (nth (bi / 8) d 0) (Z.shiftl 1 (Z.of_nat (bi mod 8))) =? 0).
Definition set_bit (d : list Z) (bi : nat) : list Z :=
  alter (λ x, Z.lor x (Z.shiftl 1 (Z.of_nat (bi mod 8)))) (bi / 8)%nat d.
Definition clear_bit (d : list Z) (bi : nat) : list Z :=
  alter (λ x, Z.ldiff x (Z.shiftl 1 (Z.of_nat (bi mod 8)))) (bi / 8)%nat d.

(** for(bi = 0; bi < BPB && b + bi < sb.size; bi++): the first clear bit. *)
Definition scan_bitmap (d : list Z) (n : nat) : option nat :=
  find_idx (λ bi, negb (bit_set d bi)) (seq 0 n).

Fixpoint balloc_loop (fuel : nat) (dev b : Z) : K Z :=
  match fuel with
  | O => fault "balloc: out of fuel"
  | S fuel =>
      sb ← get_sb;
      if b <? sb_size sb then
        bp ← bread dev (BBLOCK b sb);
        x ← get_buf bp;
        match scan_bitmap (b_data x) (Z.to_nat (Z.min BPB (sb_size sb - b))) with
        | Some bi =>
            upd_data bp (λ d, set_bit d bi);;
            log_write bp;;
            brelse bp;;
            bzero dev (b + Z.of_nat bi);;
            mret (b + Z.of_nat bi)
        | None => brelse bp;; balloc_loop fuel dev (b + BPB)
        end
      else panic "balloc: out of blocks"
  end.
Definition balloc (dev : Z) : K Z :=
  sb ← get_sb; balloc_loop (S (Z.to_nat (sb_size sb / BPB + 1))) dev 0.

Definition bfree (dev b : Z) : K unit :=
  sb ← readsb dev;
  modify (λ s, s <| k_sb := sb |>);;
  bp ← bread dev (BBLOCK b sb);
  let bi := Z.to_nat (b mod BPB) in
  x ← get_buf bp;
  if negb (bit_set (b_data x) bi) then panic "freeing free block" else
  upd_data bp (λ d, clear_bit d bi);;
  log_write bp;;
  brelse bp.

(** ** Inodes *)
Definition iinit (dev : Z) : K unit :=
  mforM (λ i, initsleeplock (SLInode i)) (seq 0 NINODE);;
  sb ← readsb dev;
  modify (λ s, s <| k_sb := sb |>);;
  cprintf "sb: size %d nblocks %d ninodes %d nlog %d logstart %d inodestart %d bmap start %d\n"
    [PInt (sb_size sb); PInt (sb_nblocks sb); PInt (sb_ninodes sb); PInt (sb_nlog sb);
     PInt (sb_logstart sb); PInt (sb_inodestart sb); PInt (sb_bmapstart sb)].

Definition iget (dev inum : Z) : K nat :=
  acquire LIcache;;
  tb ← gets k_icache;
  match find_idx (λ ip, (i_ref ip >? 0) && (i_dev ip =? dev) && (i_inum ip =? inum))%bool tb with
  | Some i =>
      upd_inode i (λ ip, ip <| i_ref ::= λ r, i32 (r + 1) |>);;
      release LIcache;; mret i
  | None =>
      match find_idx (λ ip, i_ref ip =? 0) tb with
      | None => panic "iget: no inodes"
      | Some i =>
          upd_inode i (λ ip, ip <| i_dev := dev |> <| i_inum := inum |>
            <| i_ref := 1 |> <| i_valid := false |>);;
          release LIcache;; mret i
      end
  end.

(** Byte offset of inode [inum] in its block. *)
Definition dip_off (inum : Z) : nat := Z.to_nat (inum mod IPB) * sizeof_dinode.

Fixpoint ialloc_loop (n : nat) (dev type inum : Z) : K nat :=
  match n with
  | O => panic "ialloc: no inodes"
  | S n =>
      sb ← get_sb;
      if inum <? sb_ninodes sb then
        bp ← bread dev (IBLOCK inum sb);
        b ← get_buf bp;
        let dip := dip_off inum in
        if blk_short (b_data b) dip =? 0 then
          upd_data bp (λ d, blk_put d dip (replicate sizeof_dinode 0));;
          upd_data bp (λ d, blk_put d dip (half_bytes type));;
          log_write bp;;
          brelse bp;;
          iget dev inum
        else brelse bp;; ialloc_loop n dev type (inum + 1)
      else panic "ialloc: no inodes"
  end.
Definition ialloc (dev type : Z) : K nat :=
  sb ← get_sb; ialloc_loop (Z.to_nat (sb_ninodes sb)) dev type 1.

(** The on-disk form of an inode: four shorts, the size, thirteen addresses. *)
Definition encode_dinode (ip : inode) : list Z :=
  half_bytes (i_type ip) ++ half_bytes (i_major ip) ++ half_bytes (i_minor ip) ++
  half_bytes (i_nlink ip) ++ word_bytes (i_size ip) ++ concat (word_bytes <$> i_addrs ip).
Definition decode_dinode (d : list Z) (dip : nat) (ip : inode) : inode :=
  ip <| i_type := blk_short d dip |> <| i_major := blk_short d (dip + 2) |>
     <| i_minor := blk_short d (dip + 4) |> <| i_nlink := blk_short d (dip + 6) |>
     <| i_size := blk_word d (dip + 8) |>
     <| i_addrs := (λ k, blk_word d (dip + 12 + 4 * k)) <$> seq 0 (NDIRECT + 1) |>.

Definition iupdate (i : nat) : K unit :=
  ip ← get_inode i;
  sb ← get_sb;
  bp ← bread (i_dev ip) (IBLOCK (i_inum ip) sb);
  ip ← get_inode i;
  upd_data bp (λ d, blk_put d (dip_off (i_inum ip)) (encode_dinode ip));;
  log_write bp;;
  brelse bp.

Definition idup (i : nat) : K unit :=
  acquire LIcache;;
  upd_inode i (λ ip, ip <| i_ref ::= λ r, i32 (r + 1) |>);;
  release LIcache.

Definition ilock (i : nat) : K unit :=
  ip ← get_inode i;
  if i_ref ip <? 1 then panic "ilock" else
  acquiresleep (SLInode i);;
  ip ← get_inode i;
  if i_valid ip then mret tt else
  sb ← get_sb;
  bp ← bread (i_dev ip) (IBLOCK (i_inum ip) sb);
  b ← get_buf bp;
  upd_inode i (decode_dinode (b_data b) (dip_off (i_inum ip)));;
  brelse bp;;
  upd_inode i (λ ip, ip <| i_valid := true |>);;
  ip ← get_inode i;
  if i_type ip =? 0 then panic "ilock: no type" else mret tt.

Definition iunlock (i : nat) : K unit :=
  h ← holdingsleep (SLInode i);
  ip ← get_inode i;
  if (negb h || (i_ref ip <? 1))%Z%bool then panic "iunlock" else
  releasesleep (SLInode i).

(** ** Inode content *)
Definition bmap (i : nat) (bn : Z) : K Z :=
  ip ← get_inode i;
  if bn <? Z.of_nat NDIRECT then
    addr ← at_ "addrs[bn]" (i_addrs ip) bn;
    if addr =? 0 then
      addr ← balloc (i_dev ip);
      upd_inode i (λ ip, ip <| i_addrs ::= <[Z.to_nat bn := addr]> |>);;
      mret addr
    else mret addr
  else
  let bn := bn - Z.of_nat NDIRECT in
  if bn <? Z.of_nat NINDIRECT then
    addr ← at_ "addrs[NDIRECT]" (i_addrs ip) (Z.of_nat NDIRECT);
    addr ← (if addr =? 0 then
              addr ← balloc (i_dev ip);
              upd_inode i (λ ip, ip <| i_addrs ::= <[NDIRECT := addr]> |>);;
              mret addr
            else mret addr);
    bp ← bread (i_dev ip) addr;
    b ← get_buf bp;
    let addr := blk_word (b_data b) (4 * Z.to_nat bn) in
    addr ← (if addr =? 0 then
              addr ← balloc (i_dev ip);
              upd_data bp (λ d, blk_put d (4 * Z.to_nat bn) (word_bytes addr));;
              log_write bp;;
              mret addr
            else mret addr);
    brelse bp;;
    mret addr
  else panic "bmap: out of range".

Fixpoint itrunc_direct (i : nat) (k n : nat) : K unit :=
  match n with
  | O => mret tt
  | S n =>
      ip ← get_inode i;
      addr ← at_ "addrs[i]" (i_addrs ip) (Z.of_nat k);
      mwhen (negb (addr =? 0))
        (bfree (i_dev ip) addr;; upd_inode i (λ ip, ip <| i_addrs ::= <[k := 0]> |>));;
      itrunc_direct i (S k) n
  end.
Fixpoint itrunc_indirect (dev : Z) (bp : nat) (j n : nat) : K unit :=
  match n with
  | O => mret tt
  | S n =>
      b ← get_buf bp;
      let a := blk_word (b_data b) (4 * j) in
      mwhen (negb (a =? 0)) (bfree dev a);;
      itrunc_indirect dev bp (S j) n
  end.
Definition itrunc (i : nat) : K unit :=
  itrunc_direct i 0 NDIRECT;;
  ip ← get_inode i;
  addr ← at_ "addrs[NDIRECT]" (i_addrs ip) (Z.of_nat NDIRECT);
  mwhen (negb (addr =? 0))
    (bp ← bread (i_dev ip) addr;
     itrunc_indirect (i_dev ip) bp 0 NINDIRECT;;
     brelse bp;;
     bfree (i_dev ip) addr;;
     upd_inode i (λ ip, ip <| i_addrs ::= <[NDIRECT := 0]> |>));;
  upd_inode i (λ ip, ip <| i_size := 0 |>);;
  iupdate i.

Definition iput (i : nat) : K unit :=
  acquiresleep (SLInode i);;
  ip ← get_inode i;
  mwhen (i_valid ip && (i_nlink ip =? 0))%Z%bool
    (acquire LIcache;;
     ip ← get_inode i;
     let r := i_ref ip in
     release LIcache;;
     mwhen (r =? 1)
       (itrunc i;;
        upd_inode i (λ ip, ip <| i_type := 0 |>);;
        iupdate i;;
        upd_inode i (λ ip, ip <| i_valid := false |>)));;
  releasesleep (SLInode i);;
  acquire LIcache;;
  upd_inode i (λ ip, ip <| i_ref ::= λ r, i32 (r - 1) |>);;
  release LIcache.
Definition iunlockput (i : nat) : K unit := iunlock i;; iput i.

(** struct stat *)
Record stat := mkStat {
  st_type : Z; st_dev : Z; st_ino : Z; st_nlink : Z; st_size : Z; st_containerID : Z }.
Definition stati (i : nat) : K stat :=
  ip ← get_inode i;
  mret (mkStat (i_type ip) (i_dev ip) (i_inum ip) (i_nlink ip) (i_size ip)
          (i_containerID ip)).

Fixpoint readi_loop (fuel : nat) (i : nat) (dst : place) (off tot n : Z) : K (list Z) :=
  match fuel with
  | O => fault "readi: out of fuel"
  | S fuel =>
      if tot <? n then
        ip ← get_inode i;
        addr ← bmap i (off / ZBSIZE);
        bp ← bread (i_dev ip) addr;
        let m := Z.min (n - tot) (ZBSIZE - off mod ZBSIZE) in
        b ← get_buf bp;
        let l := take (Z.to_nat m) (drop (Z.to_nat (off mod ZBSIZE)) (b_data b)) in
        match dst with AtAddr a => st_bytes (u32 (a + tot)) l | ToLocal => mret tt end;;
        brelse bp;;
        rest ← readi_loop fuel i dst (u32 (off + m)) (tot + m) n;
        mret (l ++ rest)
      else mret []
  end.
(** The result of the C function and the bytes delivered. *)
Definition readi (i : nat) (dst : place) (off n : Z) : K (Z * list Z) :=
  ip ← get_inode i;
  if i_type ip =? T_DEV then
    if ((i_major ip <? 0) || (i_major ip >=? NDEV))%Z%bool then mret (-1, []) else
    match devsw_read (i_major ip), dst with
    | Some f, AtAddr a => r ← f i a n; mret (r, [])
    | Some _, ToLocal => fault "readi: device read into a kernel variable"
    | None, _ => mret (-1, [])
    end
  else
  if ((off >? i_size ip) || (u32 (off + n) <? off))%Z%bool then mret (-1, []) else
  let n := if u32 (off + n) >? i_size ip then i_size ip - off else n in
  l ← readi_loop (S (S (S (Z.to_nat (n / ZBSIZE))))) i dst off 0 n;
  mret (i32 n, l).

Fixpoint writei_loop (fuel : nat) (i : nat) (src : source) (off tot n : Z) : K Z :=
  match fuel with
  | O => fault "writei: out of fuel"
  | S fuel =>
      if tot <? n then
        ip ← get_inode i;
        addr ← bmap i (off / ZBSIZE);
        bp ← bread (i_dev ip) addr;
        let m := Z.min (n - tot) (ZBSIZE - off mod ZBSIZE) in
        l ← src_bytes src tot m;
        upd_data bp (λ d, blk_put d (Z.to_nat (off mod ZBSIZE)) l);;
        log_write bp;;
        brelse bp;;
        writei_loop fuel i src (u32 (off + m)) (tot + m) n
      else mret off
  end.
Definition writei (i : nat) (src : source) (off n : Z) : K Z :=
  ip ← get_inode i;
  if i_type ip =? T_DEV then
    if ((i_major ip <? 0) || (i_major ip >=? NDEV))%Z%bool then mret (-1) else
    match devsw_write (i_major ip), src with
    | Some f, FromAddr a => f i a n
    | Some _, FromLocal _ => fault "writei: device write from a kernel variable"
    | None, _ => mret (-1)
    end
  else
  if ((off >? i_size ip) || (u32 (off + n) <? off))%Z%bool then mret (-1) else
  if u32 (off + n) >? MAXFILE * ZBSIZE then mret (-1) else
  off' ← writei_loop (S (S (S (Z.to_nat (n / ZBSIZE))))) i src off 0 n;
  ip ← get_inode i;
  mwhen ((n >? 0) && (off' >? i_size ip))%Z%bool
    (upd_inode i (λ ip, ip <| i_size := off' |>);; iupdate i);;
  mret (i32 n).

(** ** Directories *)

(** A name is at most [DIRSIZ] bytes, none of them NUL. *)
Definition namecmp (name dename : list Z) : bool :=
  bool_decide (cstr DIRSIZ name = cstr DIRSIZ dename).
Definition de_inum (de : list Z) : Z := word_of (take 2 de).
Definition de_name (de : list Z) : list Z := drop 2 de.
(** strncpy(de.name, name, DIRSIZ) *)
Definition pad_name (name : list Z) : list Z :=
  let c := cstr DIRSIZ name in c ++ replicate (DIRSIZ - length c) 0.

Definition read_dirent (why : string) (dp : nat) (off : Z) : K (list Z) :=
  '(r, de) ← readi dp ToLocal off 16;
  if negb (r =? 16) then panic why else mret de.

Fixpoint dirlookup_loop (fuel : nat) (dp : nat) (name : list Z) (off : Z)
    : K (option (nat * Z)) :=
  match fuel with
  | O => fault "dirlookup: out of fuel"
  | S fuel =>
      ip ← get_inode dp;
      if off <? i_size ip then
        de ← read_dirent "dirlookup read" dp off;
        if de_inum de =? 0 then dirlookup_loop fuel dp name (u32 (off + 16)) else
        if namecmp name (de_name de) then
          i ← iget (i_dev ip) (de_inum de); mret (Some (i, off))
        else dirlookup_loop fuel dp name (u32 (off + 16))
      else mret None
  end.
(** The entry's inode and its byte offset ([*poff]). *)
Definition dirlookup (dp : nat) (name : list Z) : K (option (nat * Z)) :=
  ip ← get_inode dp;
  if negb (i_type ip =? T_DIR) then panic "dirlookup not DIR" else
  dirlookup_loop (S (S (Z.to_nat (i_size ip / 16)))) dp name 0.

Fixpoint dirlink_loop (fuel : nat) (dp : nat) (off : Z) : K Z :=
  match fuel with
  | O => fault "dirlink: out of fuel"
  | S fuel =>
      ip ← get_inode dp;
      if off <? i_size ip then
        de ← read_dirent "dirlink read" dp off;
        if de_inum de =? 0 then mret off else dirlink_loop fuel dp (off + 16)
      else mret off
  end.
Definition dirlink (dp : nat) (name : list Z) (inum : Z) : K Z :=
  r ← dirlookup dp name;
  match r with
  | Some (i, _) => iput i;; mret (-1)
  | None =>
      ip ← get_inode dp;
      off ← dirlink_loop (S (S (Z.to_nat (i_size ip / 16)))) dp 0;
      r ← writei dp (FromLocal (half_bytes inum ++ pad_name name)) off 16;
      if negb (r =? 16) then panic "dirlink" else mret 0
  end.

(** ** Paths *)
Definition slash : Z := 47.
Fixpoint skip_slashes (path : list Z) : list Z :=
  match path with
  | c :: path' => if c =? slash then skip_slashes path' else path
  | [] => []
  end.
(** Up to the next slash: the element and what follows it. *)
Fixpoint span_elem (path : list Z) : list Z * list Z :=
  match path with
  | c :: path' =>
      if c =? slash then ([], path)
      else let '(e, r) := span_elem path' in (c :: e, r)
  | [] => ([], [])
  end.
(** The next element (cut to [DIRSIZ] bytes) and the rest of the path. *)
Definition skipelem (path : list Z) : option (list Z * list Z) :=
  match skip_slashes path with
  | [] => None
  | p => let '(e, r) := span_elem p in Some (take DIRSIZ e, skip_slashes r)
  end.

Fixpoint namex_loop (fuel : nat) (i : nat) (path : list Z) (parent : bool)
    (name : list Z) : K (option (nat * list Z)) :=
  match fuel with
  | O => fault "namex: out of fuel"
  | S fuel =>
      match skipelem path with
      | None => if parent then iput i;; mret None else mret (Some (i, name))
      | Some (name, path) =>
          ilock i;;
          ip ← get_inode i;
          if negb (i_type ip =? T_DIR) then iunlockput i;; mret None else
          if (parent && bool_decide (path = []))%bool then
            iunlock i;; mret (Some (i, name))
          else
          next ← dirlookup i name;
          match next with
          | None => iunlockput i;; mret None
          | Some (next, _) => iunlockput i;; namex_loop fuel next path parent name
          end
      end
  end.
Definition namex (path : list Z) (parent : bool) : K (option (nat * list Z)) :=
  i ← (if bool_decide (head path = Some slash) then iget ROOTDEV ROOTINO
       else
         op ← myproc;
         c ← deref "myproc() == 0" op;
         p ← get_proc c;
         i ← deref "idup(0)" (p_cwd p);
         idup i;; mret i);
  namex_loop (S (length path)) i path parent [].

Definition namei (path : list Z) : K (option nat) :=
  r ← namex path false; mret (fst <$> r).
(** The parent directory and the last element of the path. *)
Definition nameiparent (path : list Z) : K (option (nat * list Z)) := namex path true.
End fs.

(** ** Encodings *)
Section fs_spec.

Lemma concat_words_drop (l : list Z) k w :
  l !! k = Some w → take 4 (drop (4 * k) (concat (word_bytes <$> l))) = word_bytes w.
Proof.
  revert k. induction l as [| x l IH]; intros [| k] Hk; try done.
  - cbn in Hk. by simplify_eq.
  - cbn in Hk. replace (4 * S k)%nat with (4 + 4 * k)%nat by lia. cbn [fmap list_fmap concat].
    rewrite <- drop_drop. by apply IH.
Qed.
Lemma concat_words_length (l : list Z) : length (concat (word_bytes <$> l)) = (4 * length l)%nat.
Proof. induction l as [| x l IH]; cbn in *; [done | rewrite IH; lia]. Qed.

(** The fields of an inode that live on disk fit their types. *)
Record inode_ok (ip : inode) : Prop := {
  io_type : -32768 ≤ i_type ip < 32768; io_major : -32768 ≤ i_major ip < 32768;
  io_minor : -32768 ≤ i_minor ip < 32768; io_nlink : -32768 ≤ i_nlink ip < 32768;
  io_size : is_u32 (i_size ip);
  io_addrs : length (i_addrs ip) = (NDIRECT + 1)%nat;
  io_addr : Forall is_u32 (i_addrs ip) }.

Lemma encode_dinode_length ip : inode_ok ip → length (encode_dinode ip) = sizeof_dinode.
Proof.
  intros H. unfold encode_dinode. rewrite !length_app, concat_words_length, (io_addrs _ H).
  done.
Qed.

(** writing an inode to its slot of a disk block ([iupdate]) and reading it
    back from there ([ilock]) restores its type, device numbers, link count,
    size and all thirteen block addresses; the other slots of the block are
    untouched. *)
Theorem dinode_roundtrip ip ip0 d inum :
  inode_ok ip → length d = BSIZE →
  let d' := blk_put d (dip_off inum) (encode_dinode ip) in
  let r := decode_dinode d' (dip_off inum) ip0 in
  length d' = BSIZE ∧
  i_type r = i_type ip ∧ i_major r = i_major ip ∧ i_minor r = i_minor ip ∧
  i_nlink r = i_nlink ip ∧ i_size r = i_size ip ∧ i_addrs r = i_addrs ip ∧
  (∀ inum' k, dip_off inum' ≠ dip_off inum → (k < sizeof_dinode)%nat →
     d' !! (dip_off inum' + k)%nat = d !! (dip_off inum' + k)%nat).
Proof.
  intros Hok Hd d' r.
  assert (Hoff : (dip_off inum + sizeof_dinode ≤ BSIZE)%nat).
  { unfold dip_off, IPB, sizeof_dinode, BSIZE. pose proof (Z.mod_pos_bound inum 8). lia. }
  pose proof (encode_dinode_length ip Hok) as Hlen.
  assert (Hget : ∀ k n, (k + n ≤ sizeof_dinode)%nat →
    take n (drop (dip_off inum + k) d') = take n (drop k (encode_dinode ip))).
  { intros k n Hk. apply blk_put_get; rewrite ?Hlen, ?Hd; done. }
  assert (Hshort : ∀ k v, (k + 2 ≤ sizeof_dinode)%nat →
    take 2 (drop k (encode_dinode ip)) = half_bytes v → -32768 ≤ v < 32768 →
    blk_short d' (dip_off inum + k) = v).
  { intros k v Hk Hv Hr. unfold blk_short. by rewrite Hget, Hv, word_of_half, i16_id. }
  assert (Hword : ∀ k v, (k + 4 ≤ sizeof_dinode)%nat →
    take 4 (drop k (encode_dinode ip)) = word_bytes v → is_u32 v →
    blk_word d' (dip_off inum + k) = v).
  { intros k v Hk Hv Hr. unfold blk_word. by rewrite Hget, Hv, word_of_bytes. }
  destruct Hok. unfold sizeof_dinode in *.
  split; [unfold d'; rewrite blk_put_length; rewrite ?Hlen, ?Hd; done |].
  split; [unfold r; cbn; rewrite <- (Nat.add_0_r (dip_off inum)); by apply Hshort; [lia | |] |].
  split; [by apply Hshort; [lia | |] |]. split; [by apply Hshort; [lia | |] |].
  split; [by apply Hshort; [lia | |] |]. split; [by apply Hword; [lia | |] |]. split.
  - apply list_eq. intros k. change (i_addrs r) with
      ((λ k, blk_word d' (dip_off inum + 12 + 4 * k)) <$> seq 0 (NDIRECT + 1)).
    rewrite list_lookup_fmap. destruct (decide (k < NDIRECT + 1)%nat) as [Hk | Hk].
    + rewrite lookup_seq_lt by done. cbn [fmap option_fmap option_map plus].
      destruct (lookup_lt_is_Some_2 (i_addrs ip) k) as [w Hw]; [lia |]. rewrite Hw. f_equal.
      rewrite <- Nat.add_assoc. unfold NDIRECT in *. apply Hword; [lia | |].
      * rewrite <- drop_drop. change (drop 12 (encode_dinode ip)) with
          (concat (word_bytes <$> i_addrs ip)). by apply concat_words_drop.
      * by apply (Forall_lookup_1 is_u32 (i_addrs ip) k).
    + rewrite lookup_seq_ge, lookup_ge_None_2 by lia. done.
  - intros inum' k Hne Hk. apply blk_put_other; [by rewrite Hlen, Hd |].
    rewrite Hlen. unfold dip_off, sizeof_dinode in *. lia.
Qed.
(** ** The free map *)
Lemma land_bit_zero x k : 0 ≤ k → (Z.land x (Z.shiftl 1 k) =? 0) = negb (Z.testbit x k).
Proof.
  intros Hk. destruct (Z.testbit x k) eqn:Hb; cbn.
  - apply Z.eqb_neq. intros H. assert (Ht : Z.testbit (Z.land x (Z.shiftl 1 k)) k = false)
      by (rewrite H; apply Z.bits_0).
    rewrite Z.land_spec, Hb, Z.shiftl_spec, Z.sub_diag in Ht by lia. done.
  - apply Z.eqb_eq. apply Z.bits_inj'. intros n Hn.
    rewrite Z.bits_0, Z.land_spec, Z.shiftl_spec by lia.
    destruct (decide (n = k)) as [-> | Hne]; [by rewrite Hb |].
    destruct (decide (n - k < 0)).
    + rewrite (Z.testbit_neg_r 1) by lia. apply andb_false_r.
    + rewrite (Z.bits_above_log2 1) by (cbn; lia). apply andb_false_r.
Qed.
Lemma bit_set_testbit d bi :
  bit_set d bi = Z.testbit (nth (bi / 8) d 0) (Z.of_nat (bi mod 8)).
Proof.
  unfold bit_set. rewrite land_bit_zero by lia. apply negb_involutive.
Qed.
Lemma shiftl1_testbit k n : 0 ≤ k → 0 ≤ n → Z.testbit (Z.shiftl 1 k) n = (n =? k).
Proof.
  intros Hk Hn. rewrite Z.shiftl_spec by lia. destruct (Z.eqb_spec n k) as [-> |].
  - by rewrite Z.sub_diag.
  - destruct (decide (n - k < 0)); [by rewrite Z.testbit_neg_r by lia |].
    apply Z.bits_above_log2; cbn; lia.
Qed.

Lemma bit_set_alter f d bi j :
  (bi / 8 < length d)%nat →
  bit_set (alter f (bi / 8)%nat d) j =
    if decide (j / 8 = bi / 8)%nat
    then Z.testbit (f (nth (bi / 8) d 0)) (Z.of_nat (j mod 8)) else bit_set d j.
Proof.
  intros Hlen. rewrite !bit_set_testbit, !nth_lookup, list_lookup_alter.
  destruct (lookup_lt_is_Some_2 d (bi / 8) Hlen) as [x Hx].
  destruct (decide (j / 8 = bi / 8)%nat) as [He | Hne].
  - by rewrite He, decide_True, Hx.
  - by rewrite decide_False by congruence.
Qed.

Lemma set_bit_get d bi j :
  (bi / 8 < length d)%nat → bit_set (set_bit d bi) j = (bool_decide (j = bi) || bit_set d j)%bool.
Proof.
  intros Hlen. unfold set_bit. rewrite bit_set_alter by done. case_decide as Hd.
  - rewrite Z.lor_spec, shiftl1_testbit, bit_set_testbit, Hd by lia.
    rewrite orb_comm. f_equal. pose proof (Nat.div_mod_eq j 8). pose proof (Nat.div_mod_eq bi 8).
    case_bool_decide; [subst; apply Z.eqb_refl | apply Z.eqb_neq; lia].
  - rewrite bool_decide_eq_false_2; [done | by intros ->].
Qed.
Lemma clear_bit_get d bi j :
  (bi / 8 < length d)%nat →
  bit_set (clear_bit d bi) j = (negb (bool_decide (j = bi)) && bit_set d j)%bool.
Proof.
  intros Hlen. unfold clear_bit. rewrite bit_set_alter by done. case_decide as Hd.
  - rewrite Z.ldiff_spec, shiftl1_testbit, bit_set_testbit, Hd by lia.
    rewrite andb_comm. f_equal. f_equal.
    pose proof (Nat.div_mod_eq j 8). pose proof (Nat.div_mod_eq bi 8).
    case_bool_decide; [subst; apply Z.eqb_refl | apply Z.eqb_neq; lia].
  - rewrite bool_decide_eq_false_2; [done | by intros ->].
Qed.

Lemma scan_bitmap_spec d n :
  match scan_bitmap d n with
  | Some bi => (bi < n)%nat ∧ bit_set d bi = false ∧ (∀ j, (j < bi)%nat → bit_set d j = true)
  | None => ∀ j, (j < n)%nat → bit_set d j = true
  end.
Proof.
  unfold scan_bitmap. destruct (find_idx _ _) as [k |] eqn:Hf.
  - apply find_idx_Some in Hf as [(bi & Hbi & Hfree) Hbefore].
    apply lookup_seq in Hbi as [-> Hk]. rewrite Nat.add_0_l in *.
    apply negb_true_iff in Hfree. split_and!; [done | done |].
    intros j Hj. specialize (Hbefore j j Hj). rewrite lookup_seq_lt in Hbefore by lia.
    specialize (Hbefore eq_refl). by apply negb_false_iff in Hbefore.
  - rewrite find_idx_None in Hf. intros j Hj.
    specialize (Hf j j). rewrite lookup_seq_lt in Hf by lia.
    specialize (Hf eq_refl). by apply negb_false_iff in Hf.
Qed.

(** the block free map.  The scan of [balloc] finds the first free block of
    the range, or none exactly when all are in use; marking a block changes
    its bit and no other; [bfree]'s clearing undoes it. *)
Theorem bitmap_alloc d n :
  (n ≤ 8 * length d)%nat →
  match scan_bitmap d n with
  | Some bi => (bi < n)%nat ∧ bit_set d bi = false ∧
      (∀ j, (j < bi)%nat → bit_set d j = true) ∧
      (∀ j, bit_set (set_bit d bi) j = (bool_decide (j = bi) || bit_set d j)%bool) ∧
      (∀ j, bit_set (clear_bit (set_bit d bi) bi) j = bit_set d j)
  | None => ∀ j, (j < n)%nat → bit_set d j = true
  end.
Proof.
  intros Hn. pose proof (scan_bitmap_spec d n) as H. destruct (scan_bitmap d n) as [bi |]; [| done].
  destruct H as (Hk & Hfree & Hbefore).
  assert (Hlen : (bi / 8 < length d)%nat) by (apply Nat.Div0.div_lt_upper_bound; lia).
  split_and!; [done | done | done | |].
  - intros j. by apply set_bit_get.
  - intros j. rewrite clear_bit_get by (unfold set_bit; by rewrite length_alter).
    rewrite set_bit_get by done. case_bool_decide; [subst; by rewrite Hfree | done].
Qed.

(** ** Directory entries *)

Lemma cstr_pad name : Forall (λ b, b ≠ 0) name → cstr DIRSIZ (pad_name name) = take DIRSIZ name.
Proof.
  intros Hn. unfold pad_name. rewrite (cstr_id _ name Hn).
  destruct (decide (length name < DIRSIZ)%nat) as [Hlt | Hge].
  - rewrite take_ge by lia.
    replace (DIRSIZ - length name)%nat with (S (DIRSIZ - length name - 1)) by lia.
    cbn [replicate]. by apply cstr_app_nul.
  - rewrite length_take, Nat.min_l, Nat.sub_diag by lia. cbn [replicate].
    rewrite app_nil_r, cstr_id by by apply Forall_take. by rewrite take_take, Nat.min_id.
Qed.
Lemma namecmp_pad name name' : Forall (λ b, b ≠ 0) name → Forall (λ b, b ≠ 0) name' →
  namecmp name' (pad_name name) = true ↔ take DIRSIZ name' = take DIRSIZ name.
Proof. intros Hn Hn'. unfold namecmp. by rewrite bool_decide_eq_true, cstr_pad, cstr_id. Qed.
Lemma pad_name_length name : length (pad_name name) = DIRSIZ.
Proof. unfold pad_name. rewrite length_app, length_replicate. pose proof (cstr_length DIRSIZ name). lia. Qed.
Lemma word_of_half_u16 inum : 0 ≤ inum < 65536 → word_of (half_bytes inum) = inum.
Proof.
  intros Hi. unfold word_of, half_bytes. cbn [foldr].
  unfold u8. rewrite Z.shiftr_div_pow2 by lia. change (2 ^ 8) with 256. zlia.
Qed.

(** a directory entry is 16 bytes; reading back the entry [dirlink] writes
    gives its inode number, and [namecmp] recognises exactly the names that
    agree with the linked one on their first [DIRSIZ] bytes. *)
Theorem dirent_roundtrip inum name name' :
  0 ≤ inum < 65536 → Forall (λ b, b ≠ 0) name → Forall (λ b, b ≠ 0) name' →
  let de := half_bytes inum ++ pad_name name in
  length de = sizeof_dirent ∧ de_inum de = inum ∧
  (namecmp name' (de_name de) = true ↔ take DIRSIZ name' = take DIRSIZ name).
Proof.
  intros Hi Hn Hn' de. split_and!.
  - unfold de. by rewrite length_app, pad_name_length.
  - by apply word_of_half_u16.
  - by apply namecmp_pad.
Qed.

(** ** Paths *)

(** The reference: the non-empty parts between slashes. *)
Fixpoint split_path (path : list Z) : list (list Z) :=
  match path with
  | [] => [[]]
  | c :: path =>
      if c =? slash then [] :: split_path path
      else match split_path path with
           | e :: es => (c :: e) :: es
           | [] => [[c]]
           end
  end.
Definition path_names (path : list Z) : list (list Z) :=
  filter (λ e, e ≠ []) (split_path path).

(** What repeated calls of [skipelem] deliver. *)
Fixpoint elems (fuel : nat) (path : list Z) : list (list Z) :=
  match fuel, skipelem path with
  | S fuel, Some (e, r) => e :: elems fuel r
  | _, _ => []
  end.

Lemma split_path_cons path : ∃ e es, split_path path = e :: es.
Proof.
  destruct path as [| c path]; cbn; [eauto |]. destruct (c =? slash); [eauto |].
  destruct (split_path path); eauto.
Qed.
Lemma path_names_skip path : path_names (skip_slashes path) = path_names path.
Proof.
  induction path as [| c path IH]; [done |]. cbn [skip_slashes].
  destruct (c =? slash) eqn:Hc; [| done]. rewrite IH. unfold path_names. cbn [split_path].
  rewrite Hc. by rewrite filter_cons_False by (intros []; done).
Qed.
Lemma skip_slashes_length path : (length (skip_slashes path) ≤ length path)%nat.
Proof. induction path as [| c path IH]; cbn; [done |]. destruct (c =? slash); cbn; lia. Qed.
Lemma skip_slashes_head path c r : skip_slashes path = c :: r → c ≠ slash.
Proof.
  induction path as [| x path IH]; cbn; [done |].
  destruct (Z.eqb_spec x slash); [done |]. by intros [= <- <-].
Qed.
Lemma span_elem_spec path : ∀ e r,
  span_elem path = (e, r) →
  path = e ++ r ∧ ∃ es, split_path path = e :: es ∧ split_path r = [] :: es.
Proof.
  induction path as [| c path IH]; intros e r; cbn [span_elem].
  { intros [= <- <-]. split; [done |]. by exists []. }
  destruct (c =? slash) eqn:Hc.
  - intros [= <- <-]. split; [done |]. exists (split_path path). cbn. by rewrite Hc.
  - destruct (span_elem path) as [e' r'] eqn:Hs. intros [= <- <-].
    destruct (IH e' r' eq_refl) as (-> & es & He & Hr). split; [done |].
    exists es. cbn. by rewrite Hc, He.
Qed.

Lemma skipelem_spec path :
  match skipelem path with
  | None => path_names path = []
  | Some (e, r) => ∃ e0, e = take DIRSIZ e0 ∧ path_names path = e0 :: path_names r ∧
      (length r < length path)%nat
  end.
Proof.
  unfold skipelem. rewrite <- (path_names_skip path).
  pose proof (skip_slashes_length path) as Hlen.
  destruct (skip_slashes path) as [| c p] eqn:Hp; [done |].
  pose proof (skip_slashes_head _ _ _ Hp) as Hc.
  destruct (span_elem (c :: p)) as [e r] eqn:Hs.
  destruct (span_elem_spec _ _ _ Hs) as (Heq & es & He & Hr).
  assert (Hne : e ≠ []).
  { intros ->. cbn in Hs. destruct (Z.eqb_spec c slash); [done |].
    destruct (span_elem p). done. }
  exists e. split; [done |]. split.
  - rewrite path_names_skip. unfold path_names. rewrite He, Hr.
    by rewrite filter_cons_True, (filter_cons_False _ []) by (done || (intros []; done)).
  - pose proof (skip_slashes_length r). rewrite Heq, length_app in Hlen.
    destruct e; [done |]. cbn in Hlen. lia.
Qed.

(** path names.  Repeated [skipelem] delivers exactly the non-empty parts
    of the path between slashes, in order, each cut to [DIRSIZ] bytes, and
    then stops: leading, trailing and repeated slashes make no difference,
    and [namex]'s loop over a path terminates. *)
Theorem skipelem_elems path :
  elems (S (length path)) path = take DIRSIZ <$> path_names path.
Proof.
  assert (Hgen : ∀ n path, (length path < n)%nat → elems n path = take DIRSIZ <$> path_names path).
  { clear path. induction n as [| n IH]; intros path Hn; [lia |]. cbn [elems].
    pose proof (skipelem_spec path) as H. destruct (skipelem path) as [[e r] |].
    - destruct H as (e0 & -> & Hp & Hlen). rewrite Hp. cbn. rewrite IH by lia. done.
    - by rewrite H. }
  apply Hgen. lia.
Qed.
End fs_spec.

(** ** Witnesses *)
Lemma dinode_roundtrip_witness :
  i_size (decode_dinode (blk_put (replicate 512 0) (dip_off 3)
    (encode_dinode (inode0 <| i_size := 70000 |>))) (dip_off 3) inode0) = 70000.
Proof.
  pose proof (dinode_roundtrip (inode0 <| i_size := 70000 |>) inode0 (replicate 512 0) 3) as H.
  cbv zeta in H. destruct H as (_ & _ & _ & _ & _ & H & _).
  - split; try (cbn; lia); [unfold is_u32; cbn; lia |].
    change (i_addrs _) with (replicate 13 0). apply Forall_replicate. unfold is_u32. lia.
  - apply length_replicate.
  - exact H.
Defined.

Lemma bitmap_alloc_witness :
  scan_bitmap [255; 3] 16 = Some 10%nat ∧ bit_set [255; 3] 10 = false.
Proof.
  split; [reflexivity |].
  pose proof (bitmap_alloc [255; 3] 16 ltac:(cbn; lia)) as H.
  change (scan_bitmap [255; 3] 16) with (Some 10%nat) in H. apply H.
Defined.

Lemma dirent_roundtrip_witness :
  de_inum (half_bytes 300 ++ pad_name (bytes "README")) = 300.
Proof.
  apply (dirent_roundtrip 300 (bytes "README") (bytes "x"));
    [lia | repeat constructor; done | repeat constructor; done].
Defined.
