(* ===== verification/Tx.v ===== *)
(** * Inside a transaction

    What fs.c does between [begin_op] and [end_op]: reading a block, changing
    one and recording it with [log_write], releasing it; and on top of that the
    allocation of disk blocks.  [tx V hs H s]: the transaction has logged the
    blocks [hs], holds the buffers [H], and sees the disk as [V]. *)
From stdpp Require Import functions.
From S2P Require Import Prelude Mmu Cstring Kstate Spinlock Kalloc Proc Sleeplock Bio Log Fs.

Definition is_byte (x : Z) : Prop := 0 ≤ x < 256.
(** A block as the disk has it. *)
Definition block_ok (d : list Z) : Prop := length d = BSIZE ∧ Forall is_byte d.

Lemma word_bytes_ok v : length (word_bytes v) = 4%nat ∧ Forall is_byte (word_bytes v).
Proof. split; [done |]. unfold word_bytes, u8, is_byte. repeat constructor; apply Z.mod_pos_bound; lia. Qed.
Lemma half_bytes_ok v : length (half_bytes v) = 2%nat ∧ Forall is_byte (half_bytes v).
Proof. split; [done |]. unfold half_bytes, u8, is_byte. repeat constructor; apply Z.mod_pos_bound; lia. Qed.
Lemma block_ok_zero : block_ok (replicate BSIZE 0).
Proof. split; [done |]. apply Forall_replicate. unfold is_byte. lia. Qed.
Lemma block_ok_put d off l :
  block_ok d → Forall is_byte l → (off + length l ≤ BSIZE)%nat → block_ok (blk_put d off l).
Proof.
  intros [Hlen Hd] Hl Hle. split; [rewrite blk_put_length; lia |]. unfold blk_put.
  apply Forall_app. split; [by apply Forall_take |]. apply Forall_app. split; [done |]. by apply Forall_drop.
Qed.
Lemma word_of_bound l : Forall is_byte l → 0 ≤ word_of l < 256 ^ Z.of_nat (length l).
Proof.
  induction 1 as [| x l [H1 H2] Hl IH]; [cbn; lia |]. unfold word_of in *. cbn [foldr length].
  rewrite Nat2Z.inj_succ, Z.pow_succ_r by lia. lia.
Qed.
Lemma blk_word_u32 d off : Forall is_byte d → is_u32 (blk_word d off).
Proof.
  intros Hd. unfold blk_word, is_u32.
  pose proof (word_of_bound (take 4 (drop off d)) ltac:(by apply Forall_take, Forall_drop)) as H.
  rewrite length_take in H.
  assert (256 ^ Z.of_nat (4 `min` length (drop off d)) ≤ 256 ^ 4) by (apply Z.pow_le_mono_r; lia). lia.
Qed.

(** What a step of a transaction leaves alone: all that is not the cache or the
    log; nothing is written to the disk. *)
Record tx_step (s s' : kst) : Prop := {
  ts_rest : rest_same s s';
  ts_disk : k_disk s' = k_disk s;
  ts_out : k_out s' = k_out s }.
#[export] Instance tx_step_preorder : PreOrder tx_step.
Proof.
  split; [intros s; by split |]. intros s1 s2 s3 [] []. split; by etransitivity.
Qed.

Section tx.
Context {LK : Linker} {FU : Fuel} {MD : MemDisk}.
Implicit Types (V : Z → list Z) (hs : list Z) (H : list nat) (s : kst).
(** Process [i] with pid [pid] runs the transaction, which may log [cap]
    blocks in all. *)
Context (i : nat) (pid : Z) (cap : nat).

Record tx V hs H s : Prop := {
  tx_io : io i pid V (list_to_set hs) H s;
  tx_logged : logged (k_log s) = hs;
  tx_n : lh_n (k_log s) = Z.of_nat (length hs);
  tx_slots : length (lh_block (k_log s)) = Z.to_nat LOGSIZE;
  tx_outstanding : 1 ≤ lg_outstanding (k_log s);
  tx_cap : (cap ≤ 27)%nat ∧ Z.of_nat cap ≤ lg_size (k_log s) - 1;
  tx_blocks : Forall (λ x, 0 ≤ x < disksize) hs ∧ disksize ≤ 2147483648;
  tx_len : (length hs ≤ cap)%nat;
  tx_view : ∀ b, block_ok (V b) }.

(** Block [blk] is in none of the buffers [H]. *)
Definition not_held (blk : Z) H s : Prop :=
  ∀ j b, j ∈ H → k_bufs s !! j = Some b → b_blockno b ≠ blk.
(** The content of block [blk] is in the log or on the disk. *)
Definition saved (blk : Z) V hs s : Prop := blk ∈ hs ∨ V blk = disk_block (k_disk s) blk.

Lemma not_held_nil blk s : not_held blk [] s.
Proof. by intros j b ?%elem_of_nil. Qed.

Lemma size_logged hs : (size (list_to_set hs : gset Z) ≤ length hs)%nat.
Proof.
  induction hs as [| b hs IH]; [done |]. cbn [list_to_set length]. rewrite size_union_alt, size_singleton.
  pose proof (subseteq_size (list_to_set hs ∖ {[b]} : gset Z) (list_to_set hs)
    ltac:(intros x; rewrite elem_of_difference; tauto)). lia.
Qed.

Lemma tx_bread V hs H blk s :
  tx V hs H s → (0 < patience)%nat → (length H ≤ 2)%nat → blk < disksize → not_held blk H s →
  ∃ j b s', bread (BD := memide) 1 blk s = Done j s' ∧ tx V hs (j :: H) s' ∧ (j ∉ H) ∧
    k_bufs s' !! j = Some b ∧ has_block pid V blk b ∧ saved blk V hs s' ∧ tx_step s s' ∧
    (∀ k, k ≠ j → k_bufs s' !! k = k_bufs s !! k) ∧ k_log s' = k_log s.
Proof.
  intros [I Hl Hn Hsl Ho Hc Hb Hlen HV] Hfu HH Hblk Hnh. pose proof (size_logged hs).
  destruct (bread_spec i pid V _ H blk s I) as (j & b & s' & R & I' & Hj & Hbj & Hhas & (Hkl & Hkd & Hko) & Hoth & Hr);
    [left; unfold NBUF; lia | done | done | done |].
  exists j, b, s'. split; [done |]. split; [by split; rewrite ?Hkl |]. split_and!; try done.
  destruct (decide (blk ∈ hs)) as [? | Hin]; [by left | right]. rewrite Hkd.
  apply (io_clean _ _ _ _ _ _ I); [by rewrite elem_of_list_to_set | done].
Qed.

Lemma tx_brelse V hs H j b s :
  tx V hs (j :: H) s → j ∉ H → k_bufs s !! j = Some b → saved (b_blockno b) V hs s →
  ∃ s', brelse j s = Done tt s' ∧ tx V hs H s' ∧ tx_step s s' ∧
    (∀ k, k ≠ j → k_bufs s' !! k = k_bufs s !! k) ∧ k_log s' = k_log s.
Proof.
  intros [I Hl Hn Hsl Ho Hc Hb Hlen HV] HjH Hbj Hsv.
  destruct (brelse_spec i pid V _ H j b s I HjH Hbj) as (s' & R & I' & (Hkl & Hkd & Hko) & Hoth & Hr).
  { destruct Hsv; [left; by rewrite elem_of_list_to_set | by right]. }
  exists s'. split; [done |]. split; [by split; rewrite ?Hkl |]. by split_and!.
Qed.

(** A held buffer whose content is already what the view says is pinned. *)
Lemma io_pin V (B : gset Z) H j b s s' :
  io i pid V B H s → j ∈ H → k_bufs s !! j = Some b → calm i pid s' →
  k_bufs s' = <[j := b <| b_dirty := true |>]> (k_bufs s) → k_mru s' = k_mru s → k_disk s' = k_disk s →
  io i pid V (B ∪ {[b_blockno b]}) H s'.
Proof.
  intros I Hj Hb Hcm Hbufs Hmru Hdisk. pose proof (lookup_lt_Some _ _ _ Hb) as Hlt.
  destruct (bo_held _ _ _ _ _ (io_buf _ _ _ _ _ _ I j b Hb) Hj) as (Hd & Hv & _).
  set (b' := b <| b_dirty := true |>) in *.
  assert (Hcase : ∀ k c, k_bufs s' !! k = Some c →
    ∃ c0, k_bufs s !! k = Some c0 ∧ ((k = j ∧ c0 = b ∧ c = b') ∨ (k ≠ j ∧ c = c0))).
  { intros k c. rewrite Hbufs. destruct (decide (k = j)) as [-> |].
    - rewrite list_lookup_insert_eq by done. intros [= <-]. exists b. split; [done | by left].
    - rewrite list_lookup_insert_ne by done. intros Hk. exists c. split; [done | by right]. }
  split; [done | | | | | |].
  - rewrite Hbufs, length_insert. apply I.
  - rewrite Hmru. apply I.
  - intros k l c d Hk Hl Hc1 Hd1 Heq.
    destruct (Hcase k c Hk) as (c0 & Hk0 & Hkc), (Hcase l d Hl) as (d0 & Hl0 & Hld).
    apply (io_uniq _ _ _ _ _ _ I k l c0 d0 Hk0 Hl0);
      destruct Hkc as [(-> & -> & ->) | (_ & ->)], Hld as [(-> & -> & ->) | (_ & ->)]; done.
  - intros k c Hk. destruct (Hcase k c Hk) as (c0 & Hk0 & [(-> & -> & ->) | (Hne & ->)]).
    + destruct (io_buf _ _ _ _ _ _ I j b Hk0) as [Hdat Hdt Hhd Hfr]. split; [done | | done | done].
      intros _. split_and!; [done | done |]. rewrite elem_of_union, elem_of_singleton. by right.
    + destruct (io_buf _ _ _ _ _ _ I k c0 Hk0) as [Hdat Hdt Hhd Hfr]. split; [done | | done | done].
      intros (? & ? & ?)%Hdt. split_and!; try done. rewrite elem_of_union. by left.
  - intros blk. rewrite elem_of_union, elem_of_singleton. intros [Hin | ->].
    + destruct (io_pinned _ _ _ _ _ _ I blk Hin) as (k & c & Hk & Hc1 & Hc2 & Hc3).
      destruct (decide (k = j)) as [-> | Hne].
      * simplify_eq. exists j, b'. split; [rewrite Hbufs; by apply list_lookup_insert_eq | done].
      * exists k, c. split; [by rewrite Hbufs, list_lookup_insert_ne | done].
    + exists j, b'. split; [rewrite Hbufs; by apply list_lookup_insert_eq | done].
  - intros blk. rewrite elem_of_union, elem_of_singleton, Hdisk. intros Hn Hh.
    apply (io_clean _ _ _ _ _ _ I); [tauto |]. intros k c Hk Hkc.
    destruct (decide (k = j)) as [-> | Hne]; [simplify_eq; intros <-; apply Hn; by right |].
    apply (Hh k c Hk). by rewrite Hbufs, list_lookup_insert_ne.
Qed.

Lemma add_blk_set hs b : (list_to_set (add_blk hs b) : gset Z) = list_to_set hs ∪ {[b]}.
Proof.
  unfold add_blk. case_decide as Hin.
  - apply set_eq. intros x. rewrite elem_of_union, elem_of_singleton, elem_of_list_to_set.
    split; [tauto |]. by intros [? | ->].
  - rewrite list_to_set_app_L. cbn. by rewrite union_empty_r_L.
Qed.
Lemma add_blk_length hs b : (length hs ≤ length (add_blk hs b) ≤ S (length hs))%nat.
Proof. unfold add_blk. case_decide; rewrite ?length_app; cbn; lia. Qed.
Lemma elem_of_add_blk hs b x : x ∈ add_blk hs b ↔ x ∈ hs ∨ x = b.
Proof.
  unfold add_blk. case_decide; rewrite ?elem_of_app, ?list_elem_of_singleton; [| done].
  split; [by left |]. by intros [? | ->].
Qed.

(** New content for a held block, recorded in the log. *)
Lemma tx_update V hs H j b f s :
  tx V hs H s → j ∈ H → k_bufs s !! j = Some b → 0 ≤ b_blockno b < disksize → (length hs < cap)%nat →
  (block_ok (b_data b) → block_ok (f (b_data b))) →
  let b' := b <| b_data ::= f |> <| b_dirty := true |> in
  ∃ s', (∀ A (k : K A), (upd_data j f;; log_write j;; k) s = k s') ∧
    tx (<[b_blockno b := f (V (b_blockno b))]> V) (add_blk hs (b_blockno b)) H s' ∧
    k_bufs s' = <[j := b']> (k_bufs s) ∧ tx_step s s' ∧ b_blockno b ∈ add_blk hs (b_blockno b).
Proof.
  intros [I Hl Hn Hsl Ho [Hc1 Hc2] [Hb Hds] Hlen HV] Hj Hbj Hblk Hroom Hf b'.
  pose proof (lookup_lt_Some _ _ _ Hbj) as Hlt.
  destruct (bo_held _ _ _ _ _ (io_buf _ _ _ _ _ _ I j b Hbj) Hj) as (Hdev & Hv & _).
  pose proof (bo_data _ _ _ _ _ (io_buf _ _ _ _ _ _ I j b Hbj) Hdev Hv) as Hdat.
  destruct (upd_data_spec i pid V _ H j b f s I Hj Hbj) as [R1 I1].
  set (b1 := b <| b_data ::= f |>) in *. set (s1 := s <| k_bufs ::= <[j := b1]> |>) in *.
  assert (Hb1 : k_bufs s1 !! j = Some b1) by (by apply list_lookup_insert_eq).
  pose proof (io_calm _ _ _ _ _ _ I) as Hcm. pose proof Hcm as [Hcpu Hcur Hheld Hp].
  assert (Hnn : lh_n (k_log s1) = Z.of_nat (length hs)) by exact Hn.
  assert (Hall : Forall (λ x, 0 ≤ x < 2147483648) (logged (k_log s1))).
  { change (k_log s1) with (k_log s). rewrite Hl. eapply Forall_impl; [exact Hb |]. cbn. intros. lia. }
  assert (R2 : log_write j s1 = Done tt (ksync (s1 <| k_bufs ::= <[j := b1 <| b_dirty := true |>]> |>
    <| k_log := log_add (k_log s1) (b_blockno b1) |>))).
  { apply log_write_run; first [done | exact Hall |
      (cbn [k_log set set_k_bufs s1]; unfold LOGSIZE, MAXOPBLOCKS; lia) | idtac].
    - cbn. rewrite Hheld. by intros ?%elem_of_nil.
    - cbn. lia. }
  set (s2 := ksync _) in R2. exists s2.
  destruct (log_add_spec (k_log s1) (b_blockno b1)) as (HL1 & HL2 & HL3);
    [unfold LOGSIZE, MAXOPBLOCKS; lia | exact Hsl | cbn; lia | exact Hall |].
  change (b_blockno b1) with (b_blockno b) in *. change (k_log s1) with (k_log s) in *. rewrite Hl in HL1.
  assert (Hbufs : k_bufs s2 = <[j := b']> (k_bufs s)).
  { cbn. by rewrite list_insert_insert_eq. }
  split; [| split; [| split; [done | split; [by repeat split |]]]].
  - intros A k. unfold upd_data. rewrite (bind_done _ _ _ _ _ R1). by rewrite (bind_done _ _ _ _ _ R2).
  - split.
    + rewrite add_blk_set, <- Hdat. apply (io_pin _ _ H j b1 s1 s2); try done.
    + exact HL1.
    + change (k_log s2) with (log_add (k_log s) (b_blockno b)). by rewrite HL2, HL1.
    + exact HL3.
    + exact Ho.
    + split; [done | exact Hc2].
    + split; [| done]. unfold add_blk. case_decide; [done |]. apply Forall_app. split; [done |]. by constructor.
    + pose proof (add_blk_length hs (b_blockno b)). lia.
    + intros x. destruct (decide (b_blockno b = x)) as [<- | Hne].
      * rewrite fn_lookup_insert, <- Hdat. apply Hf. rewrite Hdat. apply HV.
      * by rewrite fn_lookup_insert_ne.
  - apply elem_of_add_blk. by right.
Qed.

(** Reading, changing and releasing a block that nothing else holds. *)
Lemma tx_change V hs H blk f s :
  tx V hs H s → (0 < patience)%nat → (length H ≤ 2)%nat → 0 ≤ blk < disksize → not_held blk H s →
  (length hs < cap)%nat → (block_ok (V blk) → block_ok (f (V blk))) →
  ∃ j s1 s', bread (BD := memide) 1 blk s = Done j s1 ∧ (j ∉ H) ∧ tx_step s s1 ∧
    (∃ b, k_bufs s1 !! j = Some b ∧ has_block pid V blk b) ∧
    (upd_data j f;; log_write j;; brelse j) s1 = Done tt s' ∧
    (∀ A (k : K A), (upd_data j f;; log_write j;; brelse j;; k) s1 = k s') ∧
    tx (<[blk := f (V blk)]> V) (add_blk hs blk) H s' ∧ tx_step s s' ∧
    ∀ k, k ∈ H → k_bufs s' !! k = k_bufs s !! k.
Proof.
  intros T Hfu HH Hblk Hnh Hroom Hf.
  destruct (tx_bread V hs H blk s T Hfu HH ltac:(lia) Hnh)
    as (j & b & s1 & R1 & T1 & Hj & Hb1 & Hhas & Hsv & Hs1 & Hoth1 & _).
  pose proof Hhas as (_ & _ & Hbl & Hdat & _).
  destruct (tx_update V hs (j :: H) j b f s1 T1 ltac:(left) Hb1) as (s2 & R2 & T2 & Hb2 & Hs2 & Hin);
    [by rewrite Hbl | done | by rewrite Hdat |].
  rewrite Hbl in T2, Hin.
  assert (Hb2' : k_bufs s2 !! j = Some (b <| b_data ::= f |> <| b_dirty := true |>))
    by (rewrite Hb2; apply list_lookup_insert_eq; by eapply lookup_lt_Some).
  destruct (tx_brelse _ _ H j _ s2 T2 Hj Hb2') as (s3 & R3 & T3 & Hs3 & Hoth3 & _).
  { left. change (b_blockno (b <| b_data ::= f |> <| b_dirty := true |>)) with (b_blockno b). by rewrite Hbl. }
  exists j, s1, s3. split; [done |]. split; [done |]. split; [done |]. split; [by exists b |].
  split; [by rewrite R2 |]. split; [intros A k; rewrite R2; by rewrite (bind_done _ _ _ _ _ R3) |].
  split; [done |].
  split; [by etransitivity; [| etransitivity] |].
  intros k Hk. assert (k ≠ j) by congruence.
  by rewrite Hoth3, Hb2, list_lookup_insert_ne, Hoth1.
Qed.
End tx.
