(* ===== verification/Balloc.v ===== *)
(** * Block allocation inside a transaction

    What [balloc] and [bfree] do to the free map and to the blocks, over the
    buffer cache and the log. *)
From stdpp Require Import functions.
From S2P Require Import Prelude Mmu Cstring Kstate Spinlock Kalloc Proc Sleeplock Bio Log Fs Tx.

Section balloc.
Context {LK : Linker} {FU : Fuel} {MD : MemDisk}.
Implicit Types (V : Z → list Z) (hs : list Z) (H : list nat) (s : kst).

(** The superblock describes areas of the disk. *)
Record layout (sb : superblock) : Prop := {
  ly_disk : disksize ≤ 2147483648;
  ly_size : 0 < sb_size sb ≤ disksize;
  ly_bmap : 0 ≤ sb_bmapstart sb ∧ sb_bmapstart sb + (sb_size sb - 1) / BPB < disksize;
  ly_inode : 0 ≤ sb_inodestart sb ∧ 0 < sb_ninodes sb ∧
    sb_inodestart sb + (sb_ninodes sb - 1) / IPB < sb_bmapstart sb }.
(** Behind the free map, the blocks of the files. *)
Definition data_start (sb : superblock) : Z := sb_bmapstart sb + (sb_size sb - 1) / BPB + 1.
Definition data_block (sb : superblock) (a : Z) : Prop := data_start sb ≤ a < sb_size sb.

(** Block [b] is marked in the free map. *)
Definition in_use V (sb : superblock) (b : Z) : bool :=
  bit_set (V (BBLOCK b sb)) (Z.to_nat (b mod BPB)).
(** [b] is marked, its content becomes zeroes. *)
Definition allocated V (sb : superblock) (b : Z) : Z → list Z :=
  <[b := replicate BSIZE 0]>
    (<[BBLOCK b sb := set_bit (V (BBLOCK b sb)) (Z.to_nat (b mod BPB))]> V).
Definition freed V (sb : superblock) (b : Z) : Z → list Z :=
  <[BBLOCK b sb := clear_bit (V (BBLOCK b sb)) (Z.to_nat (b mod BPB))]> V.

Lemma BBLOCK_eq sb b : layout sb → 0 ≤ b < sb_size sb →
  BBLOCK b sb = b / BPB + sb_bmapstart sb ∧ 0 ≤ BBLOCK b sb < disksize.
Proof.
  intros L Hb. pose proof (ly_bmap _ L). pose proof (ly_disk _ L).
  assert (0 ≤ b / BPB) by (apply Z.div_pos; unfold BPB; lia).
  assert (b / BPB ≤ (sb_size sb - 1) / BPB) by (apply Z.div_le_mono; unfold BPB; lia).
  unfold BBLOCK. rewrite u32_id by (unfold is_u32; lia). lia.
Qed.

Lemma BBLOCK_meta sb b : layout sb → 0 ≤ b < sb_size sb → sb_bmapstart sb ≤ BBLOCK b sb < data_start sb.
Proof.
  intros L Hb. destruct (BBLOCK_eq sb b L Hb) as [-> _]. unfold data_start.
  assert (0 ≤ b / BPB) by (apply Z.div_pos; unfold BPB; lia).
  assert (b / BPB ≤ (sb_size sb - 1) / BPB) by (apply Z.div_le_mono; unfold BPB; lia). lia.
Qed.

(** The map after an allocation: one more block in use. *)
Lemma in_use_allocated V sb a c :
  layout sb → (∀ b, block_ok (V b)) → data_block sb a → 0 ≤ c < sb_size sb →
  in_use (allocated V sb a) sb c = (bool_decide (c = a) || in_use V sb c)%bool.
Proof.
  intros L HV Ha Hc. assert (Ha0 : 0 ≤ a < sb_size sb).
  { unfold data_block, data_start in Ha. pose proof (ly_bmap _ L). pose proof (ly_size _ L).
    assert (0 ≤ (sb_size sb - 1) / BPB) by (apply Z.div_pos; unfold BPB; lia). lia. }
  pose proof (BBLOCK_meta sb c L Hc). unfold in_use, allocated.
  rewrite fn_lookup_insert_ne by (unfold data_block in Ha; lia).
  pose proof (Z.mod_pos_bound c BPB ltac:(done)). pose proof (Z.mod_pos_bound a BPB ltac:(done)).
  destruct (decide (BBLOCK a sb = BBLOCK c sb)) as [He | Hne].
  - rewrite He, fn_lookup_insert, set_bit_get.
    2: { rewrite (proj1 (HV _)). unfold BPB, BSIZE in *.
         apply Nat.Div0.div_lt_upper_bound. lia. }
    f_equal. apply bool_decide_ext.
    destruct (BBLOCK_eq sb a L Ha0) as [Hae _], (BBLOCK_eq sb c L Hc) as [Hce _].
    pose proof (Z.div_mod a BPB ltac:(done)). pose proof (Z.div_mod c BPB ltac:(done)).
    unfold BPB in *. split; intros; lia.
  - rewrite fn_lookup_insert_ne by done. rewrite bool_decide_eq_false_2; [done |]. by intros ->.
Qed.

(** The free blocks, in order. *)
Definition free_blocks V (sb : superblock) : list Z :=
  filter (λ c, in_use V sb c = false) (seqZ 0 (sb_size sb)).
Lemma free_blocks_allocated V sb a :
  layout sb → (∀ b, block_ok (V b)) → data_block sb a → in_use V sb a = false →
  length (free_blocks V sb) = S (length (free_blocks (allocated V sb a) sb)).
Proof.
  intros L HV Ha Hfree.
  assert (Ha0 : 0 ≤ a < sb_size sb).
  { unfold data_block, data_start in Ha. pose proof (ly_bmap _ L). pose proof (ly_size _ L).
    assert (0 ≤ (sb_size sb - 1) / BPB) by (apply Z.div_pos; unfold BPB; lia). lia. }
  assert (Hp : free_blocks V sb ≡ₚ a :: free_blocks (allocated V sb a) sb).
  { apply NoDup_Permutation.
    - apply NoDup_filter, NoDup_seqZ.
    - constructor; [| apply NoDup_filter, NoDup_seqZ]. unfold free_blocks.
      rewrite list_elem_of_filter, in_use_allocated, bool_decide_eq_true_2 by done. by intros [? _].
    - intros c. rewrite elem_of_cons. unfold free_blocks. rewrite !list_elem_of_filter, elem_of_seqZ.
      split.
      + intros [Hc Hr]. rewrite in_use_allocated by (done || lia). case_bool_decide; [by left | right].
        split; [by rewrite Hc | done].
      + intros [-> | [Hc Hr]]; [split; [done | lia] |]. rewrite in_use_allocated in Hc by (done || lia).
        apply orb_false_iff in Hc as [_ ?]. by split. }
  by rewrite Hp.
Qed.

Lemma alter_byte_ok d k f :
  block_ok d → (∀ x, is_byte x → is_byte (f x)) → block_ok (alter f k d).
Proof.
  intros [Hlen Hd] Hf. split; [by rewrite length_alter |].
  apply Forall_lookup_2. intros j x. rewrite list_lookup_alter. case_decide; [subst j |].
  - destruct (d !! k) as [y |] eqn:E; [| done]. intros [= <-]. apply Hf. by eapply Forall_lookup_1.
  - intros. by eapply Forall_lookup_1.
Qed.
Lemma byte_bound x : 0 ≤ x → (∀ n, 8 ≤ n → Z.testbit x n = false) → is_byte x.
Proof.
  intros Hx Hb. split; [done |]. destruct (decide (x < 256)) as [| Hge]; [done |]. exfalso.
  assert (8 ≤ Z.log2 x) by (apply Z.log2_le_pow2; lia).
  pose proof (Z.bit_log2 x ltac:(lia)) as Ht. by rewrite Hb in Ht.
Qed.
Lemma byte_bits x n : is_byte x → 8 ≤ n → Z.testbit x n = false.
Proof.
  intros [H1 H2] Hn. destruct (decide (x = 0)) as [-> |]; [apply Z.bits_0 |].
  apply Z.bits_above_log2; [done |]. assert (Z.log2 x < 8); [| lia]. apply Z.log2_lt_pow2; lia.
Qed.
Lemma block_ok_set_bit d bi : block_ok d → block_ok (set_bit d bi).
Proof.
  intros Hd. apply alter_byte_ok; [done |]. intros x Hx. apply byte_bound.
  - apply Z.lor_nonneg. split; [apply Hx |]. apply Z.shiftl_nonneg. lia.
  - intros n Hn. rewrite Z.lor_spec, byte_bits, shiftl1_testbit by (done || lia). cbn. apply Z.eqb_neq.
    pose proof (Nat.mod_upper_bound bi 8). lia.
Qed.
Lemma block_ok_clear_bit d bi : block_ok d → block_ok (clear_bit d bi).
Proof.
  intros Hd. apply alter_byte_ok; [done |]. intros x Hx. apply byte_bound.
  - apply Z.ldiff_nonneg. left. apply Hx.
  - intros n Hn. by rewrite Z.ldiff_spec, byte_bits.
Qed.

Context (i : nat) (pid : Z) (cap : nat).
Lemma bzero_run V hs H b s :
  tx i pid cap V hs H s → (0 < patience)%nat → (length H ≤ 2)%nat → 0 ≤ b < disksize → not_held b H s →
  (length hs < cap)%nat →
  ∃ s', bzero (BD := memide) 1 b s = Done tt s' ∧
    tx i pid cap (<[b := replicate BSIZE 0]> V) (add_blk hs b) H s' ∧ tx_step s s' ∧
    ∀ k, k ∈ H → k_bufs s' !! k = k_bufs s !! k.
Proof.
  intros T Hfu HH Hb Hnh Hroom.
  destruct (tx_change i pid cap V hs H b (λ _, replicate BSIZE 0) s T Hfu HH Hb Hnh Hroom)
    as (j & s1 & s' & R1 & _ & _ & _ & R2 & _ & T2 & Hs & Hoth); [intros _; apply block_ok_zero |].
  exists s'. split; [| done]. unfold bzero. by rewrite (bind_done _ _ _ _ _ R1).
Qed.

Lemma not_held_same b H s s' :
  (∀ k, k ∈ H → k_bufs s' !! k = k_bufs s !! k) → not_held b H s → not_held b H s'.
Proof. intros Hs Hn j c Hj. rewrite Hs by done. by apply Hn. Qed.

(** The free map of an aligned range of blocks. *)
Lemma BBLOCK_same sb b c : BPB * (b / BPB) = b → b ≤ c < b + BPB → BBLOCK c sb = BBLOCK b sb ∧ c mod BPB = c - b.
Proof.
  intros Hb Hc. assert (c / BPB = b / BPB) as Hq.
  { symmetry. apply (Z.div_unique_pos _ _ _ (c - b)); unfold BPB in *; lia. }
  unfold BBLOCK. rewrite Hq. split; [done |]. pose proof (Z.div_mod c BPB). unfold BPB in *. lia.
Qed.

Lemma in_use_range V sb b c :
  BPB * (b / BPB) = b → b ≤ c < b + BPB →
  in_use V sb c = bit_set (V (BBLOCK b sb)) (Z.to_nat (c - b)).
Proof. intros Hal Hc. unfold in_use. by destruct (BBLOCK_same sb b c Hal Hc) as [-> ->]. Qed.

Lemma balloc_loop_spec sb fuel : ∀ V hs H b s,
  layout sb → k_sb s = sb → tx i pid cap V hs H s → (0 < patience)%nat → (length H ≤ 1)%nat →
  (length hs + 2 ≤ cap)%nat → 0 ≤ b < sb_size sb + BPB → BPB * (b / BPB) = b →
  sb_size sb ≤ b + BPB * (Z.of_nat fuel - 1) →
  (∀ c, 0 ≤ c < sb_size sb → not_held (BBLOCK c sb) H s ∧ (in_use V sb c = false → not_held c H s)) →
  (∀ c, 0 ≤ c < b → c < sb_size sb → in_use V sb c = true) →
  (∃ a s', 0 ≤ a < sb_size sb ∧ in_use V sb a = false ∧ (∀ c, 0 ≤ c < a → in_use V sb c = true) ∧
     balloc_loop (BD := memide) fuel 1 b s = Done a s' ∧
     tx i pid cap (allocated V sb a) (add_blk (add_blk hs (BBLOCK a sb)) a) H s' ∧ tx_step s s' ∧
     ∀ k, k ∈ H → k_bufs s' !! k = k_bufs s !! k) ∨
  ((∀ c, 0 ≤ c < sb_size sb → in_use V sb c = true) ∧
   ∃ s', balloc_loop (BD := memide) fuel 1 b s = Panic "balloc: out of blocks" s').
Proof.
  induction fuel as [| fuel IH]; intros V hs H b s L Hsb T Hfu HH Hroom Hb Hal Hf Hnh Hused;
    [unfold BPB in *; lia | cbn [balloc_loop]].
  unfold get_sb. rewrite bind_gets, Hsb. destruct (Z.ltb_spec b (sb_size sb)) as [Hlt | Hge].
  2: { right. split; [| by eexists]. intros c Hc. apply Hused; lia. }
  destruct (BBLOCK_eq sb b L ltac:(lia)) as [_ HBB].
  destruct (Hnh b ltac:(lia)) as [HnhB _].
  set (n := Z.to_nat (Z.min BPB (sb_size sb - b))).
  pose proof (scan_bitmap_spec (V (BBLOCK b sb)) n) as Hscan.
  destruct (scan_bitmap (V (BBLOCK b sb)) n) as [bi |] eqn:Hsc.
  - left. destruct Hscan as (Hbi & Hfree & Hbefore). set (a := b + Z.of_nat bi).
    destruct (BBLOCK_same sb b a Hal ltac:(unfold n, a in *; lia)) as [HBa Hma].
    assert (Hia : in_use V sb a = false).
    { rewrite (in_use_range V sb b a Hal) by (unfold n, a in *; lia).
      by replace (Z.to_nat (a - b)) with bi by (unfold a; lia). }
    destruct (tx_change i pid cap V hs H (BBLOCK b sb) (λ d, set_bit d bi) s T Hfu ltac:(lia) HBB HnhB)
      as (j & s1 & s2 & R1 & Hj & Hs1 & (x & Hx & _ & _ & _ & Hdat & _) & _ & R2 & T2 & Hs2 & Hoth);
      [lia | by apply block_ok_set_bit |].
    destruct (bzero_run _ _ H a s2 T2 Hfu ltac:(lia)) as (s3 & R3 & T3 & Hs3 & Hoth3).
    { pose proof (ly_size _ L). unfold n, a in *. lia. }
    { apply (not_held_same a H s s2 Hoth). apply Hnh; [unfold n, a in *; lia | done]. }
    { pose proof (add_blk_length hs (BBLOCK b sb)). lia. }
    exists a, s3. split; [unfold n, a in *; lia |]. split; [done |]. split; [| split; [| split; [| split]]].
    + intros c Hc. destruct (decide (c < b)); [apply Hused; lia |].
      rewrite (in_use_range V sb b c Hal) by (unfold n, a in *; lia). apply Hbefore. unfold a in *. lia.
    + rewrite (bind_done _ _ _ _ _ R1), (get_buf_bind _ _ x) by done. rewrite Hdat. fold n. rewrite Hsc, R2.
      fold a. by rewrite (bind_done _ _ _ _ _ R3).
    + unfold allocated. rewrite HBa, Hma. replace (Z.to_nat (a - b)) with bi by (unfold a; lia). exact T3.
    + by transitivity s2.
    + intros k Hk. by rewrite Hoth3, Hoth.
  - destruct (tx_bread i pid cap V hs H (BBLOCK b sb) s T Hfu ltac:(lia) ltac:(lia) HnhB)
      as (j & x & s1 & R1 & T1 & Hj & Hx & (_ & _ & Hbl & Hdat & _) & Hsv & Hs1 & Hoth1 & _).
    destruct (tx_brelse i pid cap V hs H j x s1 T1 Hj Hx) as (s2 & R2 & T2 & Hs2 & Hoth2 & _);
      [by rewrite Hbl |].
    rewrite (bind_done _ _ _ _ _ R1), (get_buf_bind _ _ x) by done. rewrite Hdat. fold n.
    rewrite Hsc, (bind_done _ _ _ _ _ R2).
    assert (Hoth : ∀ k, k ∈ H → k_bufs s2 !! k = k_bufs s !! k).
    { intros k Hk. rewrite Hoth2, Hoth1; [done | congruence..]. }
    destruct (IH V hs H (b + BPB) s2) as [(a & s3 & Ha & Hia & Hbef & R3 & T3 & Hs3 & Hoth3) | (Hall & s3 & R3)];
      try done.
    + rewrite (rs_sb _ _ (ts_rest _ _ Hs2)), (rs_sb _ _ (ts_rest _ _ Hs1)). done.
    + unfold BPB in *. lia.
    + replace ((b + BPB) / BPB) with (b / BPB + 1); [unfold BPB in *; lia |].
      apply (Z.div_unique_pos _ _ _ 0); unfold BPB in *; lia.
    + unfold BPB in *. lia.
    + intros c Hc. destruct (Hnh c Hc) as [H1 H2]. split; [by apply (not_held_same _ H s) |].
      intros Hu. by apply (not_held_same _ H s), H2.
    + intros c Hc1 Hc2. destruct (decide (c < b)); [apply Hused; lia |].
      rewrite (in_use_range V sb b c Hal) by lia. apply Hscan. unfold n. lia.
    + left. exists a, s3. split_and!; try done; [lia | lia | by rewrite Hs1, Hs2 |].
      intros k Hk. by rewrite Hoth3, Hoth.
    + right. split; [done | by exists s3].
Qed.

(** [balloc] takes the first block the map shows free, marks it and clears it;
    with no free block it panics. *)
Lemma balloc_run V hs H s :
  layout (k_sb s) → tx i pid cap V hs H s → (0 < patience)%nat → (length H ≤ 1)%nat →
  (length hs + 2 ≤ cap)%nat →
  (∀ c, 0 ≤ c < sb_size (k_sb s) →
     not_held (BBLOCK c (k_sb s)) H s ∧ (in_use V (k_sb s) c = false → not_held c H s)) →
  (∃ a s', 0 ≤ a < sb_size (k_sb s) ∧ in_use V (k_sb s) a = false ∧
     (∀ c, 0 ≤ c < a → in_use V (k_sb s) c = true) ∧
     balloc (BD := memide) 1 s = Done a s' ∧
     tx i pid cap (allocated V (k_sb s) a) (add_blk (add_blk hs (BBLOCK a (k_sb s))) a) H s' ∧
     tx_step s s' ∧ ∀ k, k ∈ H → k_bufs s' !! k = k_bufs s !! k) ∨
  ((∀ c, 0 ≤ c < sb_size (k_sb s) → in_use V (k_sb s) c = true) ∧
   ∃ s', balloc (BD := memide) 1 s = Panic "balloc: out of blocks" s').
Proof.
  intros L T Hfu HH Hroom Hnh. unfold balloc, get_sb. rewrite bind_gets.
  pose proof (ly_size _ L) as Hsz.
  assert (0 ≤ sb_size (k_sb s) / BPB) by (apply Z.div_pos; unfold BPB; lia).
  pose proof (Z.div_mod (sb_size (k_sb s)) BPB ltac:(done)).
  pose proof (Z.mod_pos_bound (sb_size (k_sb s)) BPB ltac:(done)).
  apply (balloc_loop_spec (k_sb s)); try done; [unfold BPB in *; lia.. |].
  intros c Hc. lia.
Qed.
End balloc.
