(* ===== verification/Inodes.v ===== *)
(** * The content of an inode

    [bmap] and [readi] over the buffer cache: the bytes of a file are those of
    the blocks its addresses name. *)
From stdpp Require Import functions.
From S2P Require Import Prelude Mmu Cstring Kstate Spinlock Kalloc Vm Proc Sleeplock Bio Log Fs Tx Balloc.

(** The address of block [bn] of an inode, 0 where it has none. *)
Definition ind_addr (ip : inode) : Z := nth NDIRECT (i_addrs ip) 0.
Definition blk_addr (V : Z → list Z) (ip : inode) (bn : nat) : Z :=
  if (bn <? NDIRECT)%nat then nth bn (i_addrs ip) 0
  else if ind_addr ip =? 0 then 0 else blk_word (V (ind_addr ip)) (4 * (bn - NDIRECT)).

(** The bytes of a file. *)
Definition file_byte (V : Z → list Z) (ip : inode) (o : nat) : Z :=
  nth (o mod BSIZE) (V (blk_addr V ip (o / BSIZE))) 0.
Definition file_bytes (V : Z → list Z) (ip : inode) (off n : nat) : list Z :=
  file_byte V ip <$> seq off n.
Definition content (V : Z → list Z) (ip : inode) : list Z := file_bytes V ip 0 (Z.to_nat (i_size ip)).

Lemma file_bytes_length V ip off n : length (file_bytes V ip off n) = n.
Proof. unfold file_bytes. by rewrite length_fmap, length_seq. Qed.
Lemma file_bytes_app V ip off n m :
  file_bytes V ip off (n + m) = file_bytes V ip off n ++ file_bytes V ip (off + n) m.
Proof. unfold file_bytes. by rewrite seq_app, fmap_app. Qed.
Lemma file_bytes_content V ip off n :
  (off + n ≤ Z.to_nat (i_size ip))%nat → file_bytes V ip off n = take n (drop off (content V ip)).
Proof.
  intros H. unfold content. replace (Z.to_nat (i_size ip)) with (off + (n + (Z.to_nat (i_size ip) - off - n)))%nat by lia.
  rewrite !file_bytes_app. rewrite drop_app_ge by (by rewrite file_bytes_length).
  rewrite file_bytes_length, Nat.sub_diag, drop_0, take_app_le by (by rewrite file_bytes_length).
  by rewrite take_ge by (by rewrite file_bytes_length).
Qed.
(** Bytes of one block. *)
Lemma file_bytes_block V ip off n :
  length (V (blk_addr V ip (off / BSIZE))) = BSIZE → (off mod BSIZE + n ≤ BSIZE)%nat →
  file_bytes V ip off n = take n (drop (off mod BSIZE) (V (blk_addr V ip (off / BSIZE)))).
Proof.
  intros Hlen Hn. apply list_eq. intros k. unfold file_bytes. rewrite list_lookup_fmap.
  destruct (decide (k < n)%nat) as [Hk | Hk].
  - rewrite lookup_seq_lt, lookup_take_lt, lookup_drop by done. cbn [fmap option_fmap option_map].
    assert (Hd : ((off + k) / BSIZE = off / BSIZE ∧ (off + k) mod BSIZE = off mod BSIZE + k)%nat).
    { pose proof (Nat.div_mod_eq off BSIZE). pose proof (Nat.div_mod_eq (off + k) BSIZE).
      pose proof (Nat.mod_upper_bound (off + k) BSIZE ltac:(done)). unfold BSIZE in *.
      assert ((off + k) / 512 = off / 512)%nat; [| lia]. symmetry. apply (Nat.div_unique _ _ _ (off mod 512 + k)); lia. }
    unfold file_byte. destruct Hd as [-> ->]. rewrite nth_lookup.
    destruct (lookup_lt_is_Some_2 (V (blk_addr V ip (off / BSIZE))) (off mod BSIZE + k)) as [x ->]; [lia | done].
  - rewrite lookup_seq_ge, lookup_take_ge by lia. done.
Qed.

Section inodes.
Context {LK : Linker} {FU : Fuel} {MD : MemDisk} {DS : DevSw}.
Implicit Types (V : Z → list Z) (B : gset Z) (H : list nat) (s : kst).
Context (i : nat) (pid : Z).

(** What reading changes: nothing but the cache. *)
Record read_step (s s' : kst) : Prop := {
  rd_keeps : keeps s s';
  rd_rest : rest_same s s' }.
#[export] Instance read_step_preorder : PreOrder read_step.
Proof.
  split; [intros s; by split |]. intros s1 s2 s3 [(? & ? & ?) ?] [(? & ? & ?) ?].
  split; [split_and!; by etransitivity | by etransitivity].
Qed.

(** [bread] and then [brelse], and what is seen in between. *)
Lemma io_peek V B H blk s :
  io i pid V B H s → (size B + length H < NBUF)%nat → (0 < patience)%nat → blk < disksize →
  not_held blk H s →
  ∃ j b s1 s', bread (BD := memide) 1 blk s = Done j s1 ∧ k_bufs s1 !! j = Some b ∧ b_data b = V blk ∧
    read_step s s1 ∧ brelse j s1 = Done tt s' ∧ io i pid V B H s' ∧ read_step s s' ∧
    ∀ k, k ∈ H → k_bufs s' !! k = k_bufs s !! k.
Proof.
  intros I Hsz Hfu Hblk Hnh.
  destruct (bread_spec i pid V B H blk s I) as (j & b & s1 & R1 & I1 & Hj & Hb & (Hd & Hv & Hbl & Hdat & _) & Hk1 & Hoth1 & Hr1);
    [by left | done | done | done |].
  destruct (brelse_spec i pid V B H j b s1 I1 Hj Hb) as (s2 & R2 & I2 & Hk2 & Hoth2 & Hr2).
  { rewrite Hbl. destruct (decide (blk ∈ B)); [by left | right].
    destruct Hk1 as (_ & -> & _). by apply (io_clean _ _ _ _ _ _ I). }
  assert (S1 : read_step s s1) by done. assert (S2 : read_step s1 s2) by done.
  exists j, b, s1, s2. split_and!; try done; [by rewrite S1 |].
  intros k Hk. rewrite Hoth2, Hoth1; [done | congruence..].
Qed.

(** The addresses of an inode that are in range: its indirect block, and the
    block a mapped address names. *)
Record ino_ok V (ip : inode) : Prop := {
  in_dev : i_dev ip = 1;
  in_addrs : length (i_addrs ip) = (NDIRECT + 1)%nat;
  in_ind : 0 ≤ ind_addr ip < disksize;
  in_blk : ∀ bn, (bn < NDIRECT + NINDIRECT)%nat → 0 ≤ blk_addr V ip bn < disksize }.

Lemma addrs_lookup V ip k : ino_ok V ip → (k < NDIRECT + 1)%nat → i_addrs ip !! k = Some (nth k (i_addrs ip) 0).
Proof.
  intros Hok Hk. destruct (lookup_lt_is_Some_2 (i_addrs ip) k) as [x Hx]; [by rewrite (in_addrs _ _ Hok) |].
  by rewrite nth_lookup, Hx.
Qed.

Lemma bmap_mapped V B H ii ip bn s :
  io i pid V B H s → (size B + length H < NBUF)%nat → (0 < patience)%nat →
  k_icache s !! ii = Some ip → ino_ok V ip → (bn < NDIRECT + NINDIRECT)%nat →
  blk_addr V ip bn ≠ 0 → ((NDIRECT ≤ bn)%nat → not_held (ind_addr ip) H s) →
  ∃ s', bmap (BD := memide) ii (Z.of_nat bn) s = Done (blk_addr V ip bn) s' ∧ io i pid V B H s' ∧
    read_step s s' ∧ ∀ k, k ∈ H → k_bufs s' !! k = k_bufs s !! k.
Proof.
  intros I Hsz Hfu Hi Hok Hbn Hmap Hnh. unfold bmap. rewrite (get_inode_bind _ _ ip) by done.
  unfold blk_addr in *. destruct (Nat.ltb_spec bn NDIRECT) as [Hlt | Hge].
  - rewrite (proj2 (Z.ltb_lt _ _)) by (unfold NDIRECT in *; lia).
    erewrite at_bind by first [lia | rewrite Nat2Z.id; apply (addrs_lookup V); [done | unfold NDIRECT in *; lia]].
    rewrite (proj2 (Z.eqb_neq _ _)) by done. exists s. by split_and!.
  - rewrite (proj2 (Z.ltb_ge _ _)) by (unfold NDIRECT in *; lia).
    rewrite (proj2 (Z.ltb_lt (_ - _) _)) by (unfold NDIRECT, NINDIRECT in *; lia).
    erewrite at_bind by first [lia | rewrite Nat2Z.id; apply (addrs_lookup V); [done | unfold NDIRECT in *; lia]].
    fold (ind_addr ip). destruct (Z.eqb_spec (ind_addr ip) 0) as [| Hind]; [done |].
    rewrite bind_ret.
    destruct (io_peek V B H (ind_addr ip) s I Hsz Hfu) as
      (j & b & s1 & s' & R1 & Hb & Hdat & _ & R2 & I2 & Hs & Hoth); [apply Hok | by apply Hnh |].
    rewrite (in_dev _ _ Hok), (bind_done _ _ _ _ _ R1), (get_buf_bind _ _ b), Hdat by done.
    replace (Z.to_nat (Z.of_nat bn - Z.of_nat NDIRECT)) with (bn - NDIRECT)%nat by lia.
    rewrite (proj2 (Z.eqb_neq _ _)) by done. rewrite bind_ret, (bind_done _ _ _ _ _ R2). by exists s'.
Qed.

(** The file up to its size is mapped. *)
Definition covered V (ip : inode) : Prop :=
  i_size ip ≤ MAXFILE * ZBSIZE ∧
  ∀ bn, (bn * BSIZE < Z.to_nat (i_size ip))%nat → blk_addr V ip bn ≠ 0.

Lemma off_block off : 0 ≤ off →
  Z.to_nat (off / ZBSIZE) = (Z.to_nat off / BSIZE)%nat ∧ Z.to_nat (off mod ZBSIZE) = (Z.to_nat off mod BSIZE)%nat ∧
  off / ZBSIZE = Z.of_nat (Z.to_nat off / BSIZE).
Proof.
  intros Ho. unfold ZBSIZE, BSIZE. rewrite Z2Nat.inj_div, Z2Nat.inj_mod by lia.
  change (Z.to_nat 512) with 512%nat. split_and!; [done | done |]. by rewrite Nat2Z.inj_div, Z2Nat.id by lia.
Qed.

Lemma readi_loop_spec V B ii ip fuel : ∀ off tot n s,
  io i pid V B [] s → (size B < NBUF)%nat → (0 < patience)%nat →
  k_icache s !! ii = Some ip → ino_ok V ip → covered V ip → (∀ b, length (V b) = BSIZE) →
  0 ≤ off → 0 ≤ tot → off + (n - tot) ≤ i_size ip →
  (tot < n → (n - tot + off mod ZBSIZE + ZBSIZE - 1) / ZBSIZE < Z.of_nat fuel) → (0 < fuel)%nat →
  ∃ s', readi_loop (BD := memide) fuel ii ToLocal off tot n s =
      Done (file_bytes V ip (Z.to_nat off) (Z.to_nat (n - tot))) s' ∧
    io i pid V B [] s' ∧ read_step s s'.
Proof.
  induction fuel as [| fuel IH]; intros off tot n s I Hsz Hfu Hi Hok [Hmax Hmap] Hlen Hoff Htot Hin Hf H0;
    [lia | cbn [readi_loop]].
  destruct (Z.ltb_spec tot n) as [Hlt | Hge].
  2: { exists s. replace (Z.to_nat (n - tot)) with O by lia. by split_and!. }
  specialize (Hf Hlt). rewrite (get_inode_bind _ _ ip) by done.
  destruct (off_block off Hoff) as (Hq1 & Hm1 & Hq). rewrite Hq.
  set (bn := (Z.to_nat off / BSIZE)%nat) in *.
  pose proof (Nat.div_mod_eq (Z.to_nat off) BSIZE) as Hdm. fold bn in Hdm.
  assert (Hbn : (bn * BSIZE < Z.to_nat (i_size ip))%nat) by lia.
  assert (Hbn2 : (bn < NDIRECT + NINDIRECT)%nat).
  { unfold MAXFILE, ZBSIZE, NDIRECT, NINDIRECT, BSIZE in *. lia. }
  destruct (bmap_mapped V B [] ii ip bn s) as (s1 & R1 & I1 & S1 & _);
    [done | cbn; lia | done | done | done | done | by apply Hmap | intros; apply not_held_nil |].
  rewrite (bind_done _ _ _ _ _ R1).
  destruct (io_peek V B [] (blk_addr V ip bn) s1 I1) as (j & b & s2 & s3 & R2 & Hb & Hdat & _ & R3 & I3 & S3 & _);
    [cbn; lia | done | by apply Hok | apply not_held_nil |].
  rewrite (in_dev _ _ Hok), (bind_done _ _ _ _ _ R2), (get_buf_bind _ _ b), Hdat by done.
  cbn [mret]. rewrite bind_ret, (bind_done _ _ _ _ _ R3).
  pose proof (Z.mod_pos_bound off ZBSIZE ltac:(done)) as Hmb.
  set (m := Z.min (n - tot) (ZBSIZE - off mod ZBSIZE)).
  assert (Hm : 0 < m) by (unfold m; lia).
  assert (Hu : u32 (off + m) = off + m).
  { apply u32_id. unfold is_u32, m, MAXFILE, ZBSIZE in *. lia. }
  rewrite Hu.
  assert (Hnext : tot + m < n → m = ZBSIZE - off mod ZBSIZE ∧ (off + m) mod ZBSIZE = 0).
  { intros H. assert (Hm' : m = ZBSIZE - off mod ZBSIZE) by (unfold m in *; lia). split; [done |].
    rewrite Hm'. replace (off + (ZBSIZE - off mod ZBSIZE)) with ((off / ZBSIZE + 1) * ZBSIZE).
    - by apply Z.mod_mul.
    - pose proof (Z.div_mod off ZBSIZE ltac:(done)). lia. }
  destruct (IH (off + m) (tot + m) n s3) as (s4 & R4 & I4 & S4); try done; [| lia | lia | lia | | |].
  - by rewrite (rs_icache _ _ (rd_rest _ _ S3)), (rs_icache _ _ (rd_rest _ _ S1)).
  - intros H. destruct (Hnext H) as [Hm' Hz]. rewrite Hz.
    replace (n - tot + off mod ZBSIZE + ZBSIZE - 1) with ((n - (tot + m) + 0 + ZBSIZE - 1) + 1 * ZBSIZE) in Hf by lia.
    rewrite Z.div_add in Hf by done. lia.
  - destruct fuel; [| lia]. exfalso. assert (1 ≤ (n - tot + off mod ZBSIZE + ZBSIZE - 1) / ZBSIZE); [| lia].
    apply Z.div_le_lower_bound; unfold ZBSIZE in *; lia.
  - rewrite (bind_done _ _ _ _ _ R4). exists s4. split; [| split; [done | by rewrite S1, S3]].
    unfold mret, M_ret. f_equal.
    replace (Z.to_nat (n - tot)) with (Z.to_nat m + Z.to_nat (n - (tot + m)))%nat by (unfold m; lia).
    rewrite file_bytes_app. f_equal.
    + rewrite Hm1. symmetry. apply file_bytes_block; [apply Hlen |]. rewrite <- Hm1.
      unfold m, ZBSIZE, BSIZE in *. lia.
    + f_equal. unfold m. lia.
Qed.

(** Reading [n] bytes from [off] into the kernel: the bytes of the file, as far
    as it goes. *)
Lemma readi_run V B ii ip off n s :
  io i pid V B [] s → (size B < NBUF)%nat → (0 < patience)%nat →
  k_icache s !! ii = Some ip → i_type ip ≠ T_DEV → ino_ok V ip → covered V ip →
  (∀ b, length (V b) = BSIZE) → is_u32 off → is_u32 n → is_u32 (i_size ip) →
  if decide (i_size ip < off ∨ 4294967296 ≤ off + n) then readi (BD := memide) ii ToLocal off n s = Done (-1, []) s
  else ∃ s', readi (BD := memide) ii ToLocal off n s =
      Done (Z.min n (i_size ip - off), take (Z.to_nat n) (drop (Z.to_nat off) (content V ip))) s' ∧
    io i pid V B [] s' ∧ read_step s s'.
Proof.
  intros I Hsz Hfu Hi Ht Hok Hmap Hlen Hoff Hn Hsize. unfold readi. rewrite (get_inode_bind _ _ ip) by done.
  rewrite (proj2 (Z.eqb_neq _ _)) by done. unfold is_u32 in *.
  assert (Hov : (u32 (off + n) <? off) = bool_decide (4294967296 ≤ off + n)).
  { unfold u32. case_bool_decide; [apply Z.ltb_lt | apply Z.ltb_ge]; [| rewrite Z.mod_small by lia; lia].
    rewrite <- (Z.mod_add _ (-1)), Z.mod_small by lia. lia. }
  rewrite Hov. pose proof Hmap as [Hmax _].
  destruct (decide (i_size ip < off ∨ 4294967296 ≤ off + n)) as [Hbad | Hbad].
  { destruct (Z.gtb_spec off (i_size ip)); [done |]. rewrite bool_decide_eq_true_2 by lia. done. }
  destruct (Z.gtb_spec off (i_size ip)); [lia |]. rewrite bool_decide_eq_false_2 by lia. cbn [orb].
  rewrite u32_id by (unfold is_u32; lia).
  set (n' := if off + n >? i_size ip then i_size ip - off else n).
  assert (Hn' : n' = Z.min n (i_size ip - off)).
  { unfold n'. destruct (Z.gtb_spec (off + n) (i_size ip)); lia. }
  destruct (readi_loop_spec V B ii ip (S (S (S (Z.to_nat (n' / ZBSIZE))))) off 0 n' s) as (s' & R & I' & S');
    try done; [lia | lia | | lia |].
  { intros _. pose proof (Z.mod_pos_bound off ZBSIZE ltac:(done)). pose proof (Z.mod_pos_bound n' ZBSIZE ltac:(done)).
    pose proof (Z.div_mod n' ZBSIZE ltac:(done)). assert (0 ≤ n' / ZBSIZE) by (apply Z.div_pos; [lia | done]).
    apply Z.div_lt_upper_bound; unfold ZBSIZE in *; lia. }
  rewrite (bind_done _ _ _ _ _ R), Z.sub_0_r. exists s'. split; [| done]. unfold mret, M_ret.
  rewrite i32_id by (unfold is_i32, MAXFILE, ZBSIZE in *; lia). rewrite Hn'. do 2 f_equal.
  rewrite file_bytes_content by lia.
  assert (Hc : length (content V ip) = Z.to_nat (i_size ip)) by apply file_bytes_length.
  destruct (decide (n ≤ i_size ip - off)); [by rewrite Z.min_l |].
  rewrite Z.min_r by lia. rewrite !take_ge; [done |..]; rewrite length_drop, Hc; lia.
Qed.
End inodes.
