(* ===== verification/Icache.v ===== *)
(** * The inode cache

    [iget], [ilock], [iunlock] and [iput] as long as nothing is removed: the cache
    counts the references to every inode, and a locked inode is what the disk
    has. *)
From S2P Require Import Prelude Mmu Cstring Kstate Spinlock Kalloc Vm Proc Sleeplock Bio Log Fs Tx Balloc Inodes.

(** ** The table *)
Definition tsum (f : inode → Z) (tb : list inode) : Z := foldr (λ ip n, f ip + n) 0 tb.
Definition refs_of (ino : Z) (ip : inode) : Z := if bool_decide (i_inum ip = ino) then i_ref ip else 0.
(** The references to inode [ino]; the free entries. *)
Definition refs (tb : list inode) (ino : Z) : Z := tsum (refs_of ino) tb.
Definition is_free (ip : inode) : Z := if bool_decide (i_ref ip = 0) then 1 else 0.
Definition free_slots (tb : list inode) : Z := tsum is_free tb.

Lemma tsum_insert f tb j ip ip' : tb !! j = Some ip → tsum f (<[j := ip']> tb) = tsum f tb - f ip + f ip'.
Proof.
  unfold tsum. revert j. induction tb as [| x tb IH]; intros [| j] Hj; try done.
  - injection Hj as ->. cbn. lia.
  - specialize (IH j Hj). change (<[S j := ip']> (x :: tb)) with (x :: <[j := ip']> tb). cbn [foldr]. lia.
Qed.
Lemma tsum_zero f tb : (∀ j ip, tb !! j = Some ip → f ip = 0) → tsum f tb = 0.
Proof.
  induction tb as [| x tb IH]; intros H; [done |]. change (f x + tsum f tb = 0). rewrite (H O x) by done.
  rewrite IH; [done |]. intros j ip Hj. by apply (H (S j)).
Qed.
Lemma tsum_nonneg f tb : (∀ ip, ip ∈ tb → 0 ≤ f ip) → 0 ≤ tsum f tb.
Proof.
  induction tb as [| x tb IH]; intros H; [done |]. change (0 ≤ f x + tsum f tb). pose proof (H x ltac:(left)).
  pose proof (IH ltac:(intros; apply H; by right)). lia.
Qed.

Section icache.
Context {LK : Linker} {FU : Fuel} {MD : MemDisk} {DS : DevSw}.
Context (i : nat) (pid : Z) (V : Z → list Z) (B : gset Z) (sb : superblock).

(** What the disk has of inode [ino]; [ip0] are the fields that are not on it. *)
Definition on_disk (ino : Z) (ip0 : inode) : inode := decode_dinode (V (IBLOCK ino sb)) (dip_off ino) ip0.

(** Entry [L] is locked by this process, the others are not; no inode has two
    entries. *)
Record table_ok (L : option nat) (tb : list inode) : Prop := {
  tk_ref : ∀ j ip, tb !! j = Some ip → 0 ≤ i_ref ip;
  tk_dev : ∀ j ip, tb !! j = Some ip → 0 < i_ref ip → i_dev ip = 1;
  tk_disk : ∀ j ip, tb !! j = Some ip → 0 < i_ref ip → i_valid ip = true → ip = on_disk (i_inum ip) ip;
  tk_lock : ∀ j ip, tb !! j = Some ip →
    if decide (L = Some j) then i_lock ip = mkSleeplock true pid else sl_locked (i_lock ip) = false;
  tk_uniq : ∀ j k ip iq, tb !! j = Some ip → tb !! k = Some iq → 0 < i_ref ip → 0 < i_ref iq →
    i_inum ip = i_inum iq → j = k }.

Lemma table_insert L L' tb j ip ip' :
  table_ok L tb → tb !! j = Some ip → 0 ≤ i_ref ip' → (0 < i_ref ip' → i_dev ip' = 1) →
  (0 < i_ref ip' → i_valid ip' = true → ip' = on_disk (i_inum ip') ip') →
  (if decide (L' = Some j) then i_lock ip' = mkSleeplock true pid else sl_locked (i_lock ip') = false) →
  (∀ k, k ≠ j → L' = Some k ↔ L = Some k) →
  (0 < i_ref ip' → ∀ k iq, k ≠ j → tb !! k = Some iq → 0 < i_ref iq → i_inum iq ≠ i_inum ip') →
  table_ok L' (<[j := ip']> tb).
Proof.
  intros [Tr Td Ts Tl Tu] Hj Hr Hd Hs Hl HL Hu.
  assert (Hlook : ∀ k iq, <[j := ip']> tb !! k = Some iq → k = j ∧ iq = ip' ∨ k ≠ j ∧ tb !! k = Some iq).
  { intros k iq Hk. destruct (decide (k = j)) as [-> | Hne].
    - left. rewrite list_lookup_insert_eq in Hk by (by eapply lookup_lt_Some). by injection Hk as ->.
    - right. by rewrite list_lookup_insert_ne in Hk. }
  split.
  - intros k iq [[-> ->] | [Hne Hk]]%Hlook; [done | by eapply Tr].
  - intros k iq [[-> ->] | [Hne Hk]]%Hlook; [done | by eapply Td].
  - intros k iq [[-> ->] | [Hne Hk]]%Hlook; [done | by eapply Ts].
  - intros k iq [[-> ->] | [Hne Hk]]%Hlook; [done |]. pose proof (Tl k iq Hk) as H. pose proof (HL k Hne).
    destruct (decide (L' = Some k)), (decide (L = Some k)); tauto.
  - intros k k' ip1 ip2 [[-> ->] | [Hne Hk]]%Hlook [[-> ->] | [Hne' Hk']]%Hlook H1 H2 He; [done | | | by eapply Tu].
    + destruct (Hu H1 k' ip2 Hne' Hk' H2); done.
    + destruct (Hu H2 k ip1 Hne Hk H1); done.
Qed.

(** The only entry of an inode counts its references. *)
Lemma refs_entry L tb j ip : table_ok L tb → tb !! j = Some ip → 0 < i_ref ip → refs tb (i_inum ip) = i_ref ip.
Proof.
  intros T Hj Hr. set (ip' := ip <| i_ref := 0 |>). set (ino := i_inum ip).
  pose proof (tsum_insert (refs_of ino) tb j ip ip' Hj) as H. unfold refs.
  assert (refs_of ino ip = i_ref ip) as Hip by (unfold refs_of; by rewrite bool_decide_eq_true_2).
  assert (refs_of ino ip' = 0) as Hip' by (unfold refs_of; by case_bool_decide). rewrite Hip, Hip' in H.
  assert (tsum (refs_of ino) (<[j := ip']> tb) = 0); [| lia].
  apply tsum_zero. intros k iq Hk. unfold refs_of. case_bool_decide as He; [| done].
  destruct (decide (k = j)) as [-> | Hne].
  - rewrite list_lookup_insert_eq in Hk by (by eapply lookup_lt_Some). by injection Hk as <-.
  - rewrite list_lookup_insert_ne in Hk by done. pose proof (tk_ref _ _ T k iq Hk).
    destruct (decide (i_ref iq = 0)); [done |]. destruct Hne. apply (tk_uniq _ _ T k j iq ip); (done || lia).
Qed.
Lemma refs_none L tb ino : table_ok L tb → (∀ j ip, tb !! j = Some ip → 0 < i_ref ip → i_inum ip ≠ ino) → refs tb ino = 0.
Proof.
  intros T H. apply tsum_zero. intros j ip Hj. unfold refs_of. case_bool_decide as He; [| done].
  pose proof (tk_ref _ _ T j ip Hj). destruct (decide (i_ref ip = 0)); [done |]. destruct (H j ip Hj); (done || lia).
Qed.
Lemma refs_insert tb j ip ip' ino : tb !! j = Some ip →
  refs (<[j := ip']> tb) ino = refs tb ino - refs_of ino ip + refs_of ino ip'.
Proof. apply tsum_insert. Qed.
Lemma free_insert tb j ip ip' : tb !! j = Some ip →
  free_slots (<[j := ip']> tb) = free_slots tb - is_free ip + is_free ip'.
Proof. apply tsum_insert. Qed.

(** ** The state *)
Record fstate (L : option nat) (s : kst) : Prop := {
  fs_io : io i pid V B [] s;
  fs_sb : k_sb s = sb;
  fs_table : table_ok L (k_icache s) }.

(** What the operations on the inode cache leave alone. *)
Record quiet (s s' : kst) : Prop := {
  qt_disk : k_disk s' = k_disk s; qt_log : k_log s' = k_log s; qt_out : k_out s' = k_out s;
  qt_mem : k_mem s' = k_mem s; qt_files : k_files s' = k_files s }.
#[export] Instance quiet_preorder : PreOrder quiet.
Proof. split; [by split |]. intros ? ? ? [] []. split; congruence. Qed.

Lemma io_same H s s' : io i pid V B H s → calm i pid s' → k_bufs s' = k_bufs s → k_mru s' = k_mru s →
  k_disk s' = k_disk s → io i pid V B H s'.
Proof.
  intros [Ic Il Im Iu Ib Ip Icl] C Hb Hm Hd. split; rewrite ?Hb, ?Hm, ?Hd; try done.
Qed.
Lemma fstate_calm L s : fstate L s → calm i pid s.
Proof. intros [[] _ _]. done. Qed.
Lemma fstate_table L s : fstate L s → table_ok L (k_icache s).
Proof. by intros []. Qed.

(** A state that differs in the inode cache and in who is awake. *)
Definition with_icache (tb : list inode) (f : proc → proc) (s : kst) : kst :=
  ksync (s <| k_icache := tb |> <| k_procs ::= fmap f |>).
Definition keeps_pid (f : proc → proc) : Prop := ∀ p, p_pid (f p) = p_pid p.
Lemma keeps_wake c : keeps_pid (wake c).
Proof. intros p. unfold wake. by case_bool_decide. Qed.
Lemma keeps_id : keeps_pid id.
Proof. done. Qed.
Lemma with_icache_ok L L' tb f s : fstate L s → keeps_pid f → table_ok L' tb →
  fstate L' (with_icache tb f s) ∧ quiet s (with_icache tb f s) ∧ k_icache (with_icache tb f s) = tb.
Proof.
  intros [I Hsb T] Hf T'. pose proof (io_calm _ _ _ _ _ _ I) as [Hc Hi Hh Hp]. split; [| by split].
  split; [| done | done]. apply (io_same [] s); try done. split; [by apply sync_cpu_ok | done | done |].
  cbn. rewrite list_lookup_fmap. rewrite <- Hp. destruct (k_procs s !! i); [| done]. cbn. by rewrite Hf.
Qed.
Lemma fmap_id_procs s tb : ksync (s <| k_icache := tb |>) = with_icache tb id s.
Proof. unfold with_icache, ksync. kst_eq. by rewrite list_fmap_id. Qed.

(** ** What the operations do to the table *)

(** Slot [j] holds inode [ino]. *)
Definition entry (j : nat) (ino : Z) (s : kst) : Prop :=
  ∃ ip, k_icache s !! j = Some ip ∧ i_inum ip = ino ∧ 0 < i_ref ip.
Definition one (P : Prop) `{Decision P} : Z := if bool_decide P then 1 else 0.
(** From [s] to [s'] the references change by [d], the free slots by [df]. *)
Record moved (s s' : kst) (d : Z → Z) (df : Z) : Prop := {
  mv_quiet : quiet s s';
  mv_refs : ∀ o, refs (k_icache s') o = refs (k_icache s) o + d o;
  mv_free : free_slots (k_icache s') = free_slots (k_icache s) + df }.
Lemma moved_refl s : moved s s (λ _, 0) 0.
Proof. split; [done | intros; lia | lia]. Qed.
Lemma moved_trans s1 s2 s3 d d' df df' : moved s1 s2 d df → moved s2 s3 d' df' → moved s1 s3 (λ o, d o + d' o) (df + df').
Proof.
  intros [Q1 R1 F1] [Q2 R2 F2]. split; [by etransitivity | | lia]. intros o. rewrite R2, R1. lia.
Qed.
Lemma moved_weaken s s' d df d' df' : moved s s' d df → (∀ o, d o = d' o) → df = df' → moved s s' d' df'.
Proof. intros [Q R F] H ->. split; [done | | done]. intros o. by rewrite R, H. Qed.

(** One slot changes. *)
Lemma table_step L L' j ip ip' f s :
  fstate L s → k_icache s !! j = Some ip → keeps_pid f → table_ok L' (<[j := ip']> (k_icache s)) →
  let s' := with_icache (<[j := ip']> (k_icache s)) f s in
  fstate L' s' ∧ moved s s' (λ o, refs_of o ip' - refs_of o ip) (is_free ip' - is_free ip) ∧
  k_icache s' !! j = Some ip' ∧ ∀ k o, k ≠ j → entry k o s → entry k o s'.
Proof.
  intros F Hj Hf T' s'. destruct (with_icache_ok L L' _ f s F Hf T') as (F' & Q & Ht). split; [done |].
  split; [| split; [by apply list_lookup_insert_eq, (lookup_lt_Some _ _ _ Hj) |]].
  - split; [done | |]; intros; unfold s'; rewrite Ht; [rewrite (refs_insert _ _ ip) by done; lia |
      rewrite (free_insert _ _ ip) by done; lia].
  - intros k o Hk (iq & Hq & Hi). exists iq. split; [| done]. unfold s'. by rewrite Ht, list_lookup_insert_ne.
Qed.
Lemma refs_of_same o ip ip' : i_inum ip' = i_inum ip → i_ref ip' = i_ref ip → refs_of o ip' = refs_of o ip.
Proof. unfold refs_of. by intros -> ->. Qed.
Lemma is_free_same ip ip' : i_ref ip' = i_ref ip → is_free ip' = is_free ip.
Proof. unfold is_free. by intros ->. Qed.
Lemma entry_refs L j ino s : fstate L s → entry j ino s → 0 < refs (k_icache s) ino.
Proof. intros F (ip & Hj & <- & Hr). by rewrite (refs_entry _ _ _ _ (fstate_table _ _ F) Hj). Qed.

(** ** iget *)
Definition got (ip : inode) (ino : Z) : inode :=
  if bool_decide (i_ref ip = 0) then ip <| i_dev := 1 |> <| i_inum := ino |> <| i_ref := 1 |> <| i_valid := false |>
  else ip <| i_ref := i_ref ip + 1 |>.

Lemma iget_step L s ino : fstate L s → refs (k_icache s) ino + 1 < 2147483648 →
  0 < refs (k_icache s) ino ∨ 0 < free_slots (k_icache s) →
  ∃ j ip, iget 1 ino s = Done j (with_icache (<[j := got ip ino]> (k_icache s)) id s) ∧
    k_icache s !! j = Some ip ∧
    if bool_decide (i_ref ip = 0) then refs (k_icache s) ino = 0 else i_inum ip = ino ∧ 0 < i_ref ip.
Proof.
  intros [I Hsb T] Hlt Hroom. pose proof (io_calm _ _ _ _ _ _ I) as [Hc Hi Hh Hp]. set (tb := k_icache s) in *.
  unfold iget. rewrite acquire_bind by (done || (rewrite Hh; by intros ?%elem_of_nil)). rewrite bind_gets.
  change (k_icache (locked LIcache s)) with tb.
  assert (Hrel : ∀ j x, (release LIcache;; mret j) ((locked LIcache s) <| k_icache ::= <[j := x]> |>) =
    Done j (with_icache (<[j := x]> tb) id s)).
  { intros j x. rewrite (release_bind _ _ _ (k_cpu s) []); [| done | done | cbn; by rewrite Hh | by intros ?%elem_of_nil].
    rewrite <- fmap_id_procs. unfold mret, M_ret, ksync. kst_eq. by rewrite Hh. }
  destruct (find_idx _ tb) as [j |] eqn:Hf.
  - apply find_idx_Some in Hf as [(ip & Hj & Hq) _]. rewrite !andb_true_iff in Hq. destruct Hq as [[H1 H2] H3].
    rewrite Z.gtb_lt in H1. apply Z.eqb_eq in H2, H3.
    assert (refs tb ino = i_ref ip) as Hrf by (rewrite <- H3; by eapply refs_entry).
    exists j, ip. erewrite upd_inode_bind by exact Hj. rewrite Hrel. unfold got.
    rewrite bool_decide_eq_false_2 by lia. split; [| done].
    do 3 f_equal. unfold set, set_i_ref. f_equal. apply i32_id. unfold is_i32. lia.
  - rewrite find_idx_None in Hf.
    assert (Hno : ∀ j ip, tb !! j = Some ip → 0 < i_ref ip → i_inum ip ≠ ino).
    { intros j ip Hj Hr He. specialize (Hf j ip Hj). cbv beta in Hf.
      rewrite (tk_dev _ _ T j ip Hj Hr), He, !Z.eqb_refl, (proj2 (Z.gtb_lt _ _)) in Hf by done. done. }
    assert (Hr0 : refs tb ino = 0) by (by apply (refs_none L)).
    destruct (find_idx (λ ip, i_ref ip =? 0) tb) as [j |] eqn:Hz.
    + apply find_idx_Some in Hz as [(ip & Hj & Hq) _]. apply Z.eqb_eq in Hq.
      exists j, ip. erewrite upd_inode_bind by exact Hj. rewrite Hrel. unfold got.
      by rewrite bool_decide_eq_true_2 by done.
    + exfalso. rewrite find_idx_None in Hz. destruct Hroom as [| Hroom]; [lia |].
      assert (free_slots tb = 0); [| lia]. apply tsum_zero. intros j ip Hj. specialize (Hz j ip Hj). cbv beta in Hz.
      unfold is_free. apply Z.eqb_neq in Hz. by rewrite bool_decide_eq_false_2.
Qed.

Lemma iget_spec L s ino : fstate L s → refs (k_icache s) ino + 1 < 2147483648 →
  0 < refs (k_icache s) ino ∨ 0 < free_slots (k_icache s) →
  ∃ j s', iget 1 ino s = Done j s' ∧ fstate L s' ∧ entry j ino s' ∧
    moved s s' (λ o, one (o = ino)) (- one (refs (k_icache s) ino = 0)) ∧
    ∀ k o, entry k o s → entry k o s'.
Proof.
  intros F Hlt Hroom. destruct (iget_step L s ino F Hlt Hroom) as (j & ip & R & Hj & Hc).
  pose proof (fstate_table _ _ F) as T. pose proof (tk_ref _ _ T j ip Hj) as Hr0.
  assert (Hrf : bool_decide (i_ref ip = 0) = false → refs (k_icache s) ino = i_ref ip).
  { intros E. rewrite E in Hc. destruct Hc as [<- Hr]. by eapply refs_entry. }
  assert (Hgot : i_inum (got ip ino) = ino ∧ 0 < i_ref (got ip ino)).
  { unfold got. destruct (bool_decide (i_ref ip = 0)); [by split |]. destruct Hc. split; [done | cbn; lia]. }
  destruct (table_step L L j ip (got ip ino) id s F Hj keeps_id) as (F' & M & Hj' & He).
  { apply (table_insert L L _ j ip); [done | done | lia | | | | done |].
    - intros _. unfold got. case_bool_decide; [done |]. cbn. apply (tk_dev _ _ T j ip Hj). lia.
    - intros _ Hv. unfold got in *. case_bool_decide; [done |]. cbn in Hv.
      rewrite (tk_disk _ _ T j ip Hj) at 1 by (done || lia). done.
    - pose proof (tk_lock _ _ T j ip Hj). unfold got. by case_bool_decide.
    - intros _ k iq Hk Hq Hrq. rewrite (proj1 Hgot). case_bool_decide as E.
      + intros Hi. pose proof (refs_entry _ _ _ _ T Hq Hrq) as H. rewrite Hi in H. lia.
      + destruct Hc as [<- Hr]. intros Hi. by apply Hk, (tk_uniq _ _ T k j iq ip). }
  exists j, (with_icache (<[j := got ip ino]> (k_icache s)) id s). split; [done |]. split; [done |].
  split; [by exists (got ip ino) |]. split.
  - apply (moved_weaken _ _ _ _ _ _ M).
    + intros o. unfold refs_of, one. destruct Hgot as [-> _]. unfold got. case_bool_decide as E.
      * rewrite E. repeat case_bool_decide; cbn; congruence || lia.
      * destruct Hc as [-> Hr]. repeat case_bool_decide; cbn; congruence || lia.
    + unfold is_free, one, got in *. destruct (bool_decide (i_ref ip = 0)) eqn:E; cbn.
      * by rewrite (bool_decide_eq_true_2 (refs _ _ = 0)).
      * destruct Hc as [_ Hr]. rewrite !bool_decide_eq_false_2; [done | |]; rewrite ?Hrf by done; lia.
  - intros k o (iq & Hq & Hi & Hrq). destruct (decide (k = j)) as [-> |]; [| apply He; [done | by exists iq]].
    rewrite Hj in Hq. injection Hq as <-. rewrite bool_decide_eq_false_2 in Hc by lia.
    exists (got ip ino). split; [done |]. destruct Hc as [<- _]. by rewrite Hi in Hgot |- *.
Qed.

(** ** ilock, iunlock, iput *)

(** Inode [ino] as the disk has it. *)
Definition dnode (ino : Z) : inode := on_disk ino (inode0 <| i_dev := 1 |>).
(** It is in use. *)
Record node_ok (ino : Z) : Prop := {
  nd_blk : IBLOCK ino sb < disksize;
  nd_type : i_type (dnode ino) ≠ 0;
  nd_nlink : i_nlink (dnode ino) ≠ 0 }.

(** Changing who holds the lock of a slot. *)
Lemma lock_step L L' j ip v f s :
  fstate L s → k_icache s !! j = Some ip → 0 < i_ref ip → keeps_pid f →
  (if decide (L' = Some j) then v = mkSleeplock true pid else sl_locked v = false) →
  (∀ k, k ≠ j → L' = Some k ↔ L = Some k) →
  let s' := with_icache (<[j := ip <| i_lock := v |>]> (k_icache s)) f s in
  fstate L' s' ∧ moved s s' (λ _, 0) 0 ∧ k_icache s' !! j = Some (ip <| i_lock := v |>) ∧
  ∀ k o, entry k o s → entry k o s'.
Proof.
  intros F Hj Hr Hf Hv HL s'. pose proof (fstate_table _ _ F) as T.
  destruct (table_step L L' j ip (ip <| i_lock := v |>) f s F Hj Hf) as (F' & M & Hj' & He).
  { apply (table_insert L L' _ j ip); try done; [cbn; lia | | | ].
    - intros _. by apply (tk_dev _ _ T j ip Hj).
    - intros _ Hval. cbn in Hval |- *. pose proof (tk_disk _ _ T j ip Hj Hr Hval) as E. rewrite E at 1. done.
    - intros _ k iq Hk Hq Hrq Hi. by apply Hk, (tk_uniq _ _ T k j iq ip). }
  split; [done |]. split; [| split; [done |]].
  - apply (moved_weaken _ _ _ _ _ _ M); [intros o |]; [rewrite (refs_of_same o ip) by done | rewrite (is_free_same ip) by done]; lia.
  - intros k o Hk. destruct (decide (k = j)) as [-> |]; [| by apply He]. destruct Hk as (iq & Hq & Hi & Hrq).
    rewrite Hj in Hq. injection Hq as <-. by exists (ip <| i_lock := v |>).
Qed.

Lemma acquire_slot L j ip s : fstate L s → (0 < patience)%nat → k_icache s !! j = Some ip → sl_locked (i_lock ip) = false →
  acquiresleep (SLInode j) s = Done tt (with_icache (<[j := ip <| i_lock := mkSleeplock true pid |>]> (k_icache s)) id s).
Proof.
  intros [I _ _] Hf Hj Hl. rewrite (acquiresleep_free i pid _ (i_lock ip)); [| apply I | cbn; by rewrite Hj | done..].
  rewrite <- fmap_id_procs. unfold ksync. cbn [put_slock]. kst_eq.
  by rewrite (insert_as_alter (λ x, x <| i_lock := mkSleeplock true pid |>)).
Qed.
Lemma release_slot L j ip s : fstate L s → k_icache s !! j = Some ip →
  releasesleep (SLInode j) s = Done tt (with_icache (<[j := ip <| i_lock := mkSleeplock false 0 |>]> (k_icache s))
    (wake (Some (CSleep (SLInode j)))) s).
Proof.
  intros [I _ _] Hj. rewrite (releasesleep_run i pid _ (i_lock ip)); [| apply I | cbn; by rewrite Hj].
  unfold with_icache, ksync. cbn [put_slock]. kst_eq.
  by rewrite (insert_as_alter (λ x, x <| i_lock := mkSleeplock false 0 |>)).
Qed.

Lemma calm_icache f s : calm i pid s → calm i pid (s <| k_icache ::= f |>).
Proof. intros []. by split. Qed.
(** The disk is read into a slot that is locked. *)
Lemma read_slot j ip s :
  fstate (Some j) s → (size B < NBUF)%nat → (0 < patience)%nat → k_icache s !! j = Some ip → 0 < i_ref ip →
  node_ok (i_inum ip) →
  let ip' := on_disk (i_inum ip) ip <| i_valid := true |> in
  ∃ s', (sb ← get_sb; bp ← bread (BD := memide) (i_dev ip) (IBLOCK (i_inum ip) sb);
         b ← get_buf bp; upd_inode j (decode_dinode (b_data b) (dip_off (i_inum ip)));;
         brelse bp;; upd_inode j (λ ip, ip <| i_valid := true |>);;
         ip ← get_inode j; if i_type ip =? 0 then panic "ilock: no type" else mret tt) s = Done tt s' ∧
    fstate (Some j) s' ∧ moved s s' (λ _, 0) 0 ∧ k_icache s' !! j = Some ip' ∧
    ∀ k o, entry k o s → entry k o s'.
Proof.
  intros F Hsz Hf Hj Hr [Hblk Hty Hnl] ip'. pose proof F as [I Hsb T].
  unfold get_sb. rewrite bind_gets, Hsb, (tk_dev _ _ T j ip Hj Hr).
  destruct (bread_spec i pid V B [] (IBLOCK (i_inum ip) sb) s I) as (jb & b & s1 & R1 & I1 & _ & Hb & (Hd & Hv & Hbl & Hdat & _) & (Hk1 & Hk2 & Hk3) & _ & Hr1);
    [left; cbn; lia | done | done | by intros ? ? ?%elem_of_nil |].
  rewrite (bind_done _ _ _ _ _ R1), (get_buf_bind _ _ b), Hdat by done.
  assert (Hj1 : k_icache s1 !! j = Some ip) by (by rewrite (rs_icache _ _ Hr1)).
  erewrite upd_inode_bind by exact Hj1. set (s2 := s1 <| k_icache ::= _ |>).
  destruct (brelse_spec i pid V B [] jb b s2) as (s3 & R3 & I3 & (Hk4 & Hk5 & Hk6) & _ & Hr3).
  - apply (io_same _ s1); try done. apply calm_icache, (io_calm _ _ _ _ _ _ I1).
  - by intros ?%elem_of_nil.
  - done.
  - rewrite Hbl. destruct (decide (IBLOCK (i_inum ip) sb ∈ B)); [by left | right].
    change (k_disk s2) with (k_disk s1). rewrite Hk2. apply (io_clean _ _ _ _ _ _ I); [done | by intros ? ? ?%elem_of_nil].
  - rewrite (bind_done _ _ _ _ _ R3). fold (on_disk (i_inum ip) ip) in s2.
    assert (Hic : k_icache s3 = <[j := on_disk (i_inum ip) ip]> (k_icache s)).
    { rewrite (rs_icache _ _ Hr3). unfold s2. cbn [k_icache set set_k_icache]. by rewrite (rs_icache _ _ Hr1). }
    assert (Hj3 : k_icache s3 !! j = Some (on_disk (i_inum ip) ip)).
    { rewrite Hic. by apply list_lookup_insert_eq, (lookup_lt_Some _ _ _ Hj). }
    erewrite upd_inode_bind by exact Hj3. set (s4 := s3 <| k_icache ::= _ |>).
    assert (Hic4 : k_icache s4 = <[j := ip']> (k_icache s)).
    { unfold s4. cbn [k_icache set set_k_icache]. by rewrite Hic, list_insert_insert_eq. }
    assert (Hj4 : k_icache s4 !! j = Some ip') by (rewrite Hic4; by apply list_lookup_insert_eq, (lookup_lt_Some _ _ _ Hj)).
    erewrite get_inode_bind by exact Hj4. change (i_type ip') with (i_type (dnode (i_inum ip))).
    rewrite (proj2 (Z.eqb_neq _ _)) by done. exists s4. split; [done |].
    split; [split | split; [split | split; [done |]]].
    + apply (io_same _ s3); try done. apply calm_icache, (io_calm _ _ _ _ _ _ I3).
    + change (k_sb s4) with (k_sb s3). rewrite (rs_sb _ _ Hr3). change (k_sb s2) with (k_sb s1). by rewrite (rs_sb _ _ Hr1).
    + rewrite Hic4. apply (table_insert (Some j) (Some j) _ j ip); try done.
      * change (0 ≤ i_ref ip). lia.
      * intros _. by apply (tk_dev _ _ T j ip Hj).
      * apply (tk_lock _ _ T j ip Hj).
      * intros _ k iq Hk Hq Hrq Hi. by apply Hk, (tk_uniq _ _ T k j iq ip).
    + split; [change (k_disk s4) with (k_disk s3) | change (k_log s4) with (k_log s3) | change (k_out s4) with (k_out s3)
          | change (k_mem s4) with (k_mem s3) | change (k_files s4) with (k_files s3)].
      * rewrite Hk5. exact Hk2.
      * rewrite Hk4. exact Hk1.
      * rewrite Hk6. exact Hk3.
      * rewrite (rs_mem _ _ Hr3). apply (rs_mem _ _ Hr1).
      * rewrite (rs_files _ _ Hr3). apply (rs_files _ _ Hr1).
    + intros o. rewrite Hic4, (refs_insert _ _ ip) by done. rewrite (refs_of_same o ip ip') by done. lia.
    + rewrite Hic4, (free_insert _ _ ip) by done. rewrite (is_free_same ip ip') by done. lia.
    + intros k o (iq & Hq & Hi & Hrq). unfold entry. rewrite Hic4. destruct (decide (k = j)) as [-> |].
      * rewrite Hj in Hq. injection Hq as <-. exists ip'. by rewrite list_lookup_insert_eq by (by eapply lookup_lt_Some).
      * exists iq. by rewrite list_lookup_insert_ne.
Qed.

Lemma ilock_spec j ino s :
  fstate None s → (size B < NBUF)%nat → (0 < patience)%nat → entry j ino s → node_ok ino →
  ∃ s' ip, ilock (BD := memide) j s = Done tt s' ∧ fstate (Some j) s' ∧ moved s s' (λ _, 0) 0 ∧
    k_icache s' !! j = Some ip ∧ i_inum ip = ino ∧ 0 < i_ref ip ∧ i_valid ip = true ∧
    ∀ k o, entry k o s → entry k o s'.
Proof.
  intros F Hsz Hf (ip & Hj & <- & Hr) N. pose proof (fstate_table _ _ F) as T.
  pose proof (tk_lock _ _ T j ip Hj) as Hl. cbn in Hl.
  unfold ilock. rewrite (get_inode_bind _ _ ip) by done. destruct (Z.ltb_spec (i_ref ip) 1); [lia |].
  rewrite (bind_done _ _ _ _ _ (acquire_slot None j ip s F Hf Hj Hl)).
  destruct (lock_step None (Some j) j ip (mkSleeplock true pid) id s F Hj Hr keeps_id) as (F1 & M1 & Hj1 & He1).
  { by rewrite decide_True. }
  { intros k Hk. split; [by intros [= ->] | done]. }
  set (s1 := with_icache _ _ _) in *. set (ip1 := ip <| i_lock := _ |>) in *.
  rewrite (get_inode_bind _ _ ip1) by done. change (i_valid ip1) with (i_valid ip).
  destruct (i_valid ip) eqn:Hv.
  - exists s1, ip1. by split_and!.
  - destruct (read_slot j ip1 s1 F1 Hsz Hf Hj1 Hr N) as (s2 & R2 & F2 & M2 & Hj2 & He2).
    exists s2, (on_disk (i_inum ip1) ip1 <| i_valid := true |>). split; [exact R2 |]. split; [done |].
    split; [by apply (moved_weaken _ _ _ _ _ _ (moved_trans _ _ _ _ _ _ _ M1 M2)) |]. split_and!; try done.
    intros k o Hk. by apply He2, He1.
Qed.

Lemma iunlock_releases j ip s :
  calm i pid s → k_icache s !! j = Some ip → i_lock ip = mkSleeplock true pid → 1 ≤ i_ref ip →
  iunlock j s = releasesleep (SLInode j) (ksync s).
Proof.
  intros Hs Hn Hlk Hr. unfold iunlock.
  assert (slock_of s (SLInode j) = Some (mkSleeplock true pid)) as Hl by (cbn; by rewrite Hn, <- Hlk).
  rewrite (bind_done _ _ _ _ _ (holdingsleep_run i pid _ _ s Hs Hl)).
  rewrite (get_inode_bind _ _ ip) by done. cbn [sl_locked sl_pid andb]. rewrite Z.eqb_refl.
  by destruct (Z.ltb_spec (i_ref ip) 1); [lia |].
Qed.
Lemma fstate_sync L s : fstate L s → fstate L (ksync s).
Proof.
  intros [I Hsb T]. split; [| done | done]. apply (io_same _ s); try done.
  destruct (io_calm _ _ _ _ _ _ I). split; [by apply sync_cpu_ok | done..].
Qed.
Lemma with_icache_sync tb f s : with_icache tb f (ksync s) = with_icache tb f s.
Proof. unfold with_icache, ksync. kst_eq. by rewrite sync_cpu_idem. Qed.

Lemma iunlock_spec j ip s : fstate (Some j) s → k_icache s !! j = Some ip → 0 < i_ref ip →
  ∃ s', iunlock j s = Done tt s' ∧ fstate None s' ∧ moved s s' (λ _, 0) 0 ∧
    (∃ lk, k_icache s' !! j = Some (ip <| i_lock := lk |>)) ∧ ∀ k o, entry k o s → entry k o s'.
Proof.
  intros F Hj Hr. pose proof (fstate_table _ _ F) as T. pose proof F as [I _ _].
  pose proof (tk_lock _ _ T j ip Hj) as Hl. rewrite decide_True in Hl by done.
  rewrite (iunlock_releases j ip) by (done || lia || apply I).
  rewrite (release_slot (Some j) j ip) by (done || by apply fstate_sync). rewrite with_icache_sync.
  destruct (lock_step (Some j) None j ip (mkSleeplock false 0) (wake (Some (CSleep (SLInode j)))) s F Hj Hr (keeps_wake _)) as (F1 & M1 & Hj1 & He1).
  { by rewrite decide_False. }
  { intros k Hk. split; [done | by intros [= ->]]. }
  eexists. split; [done |]. split_and!; try done. by eexists.
Qed.

Lemma ref_run L j ip g s : fstate L s → k_icache s !! j = Some ip →
  (acquire LIcache;; upd_inode j g;; release LIcache) s = Done tt (with_icache (<[j := g ip]> (k_icache s)) id s).
Proof.
  intros F Hj. destruct (fstate_calm _ _ F) as [Hc Hi Hh Hp].
  rewrite acquire_bind by (done || (rewrite Hh; by intros ?%elem_of_nil)). erewrite upd_inode_bind by exact Hj.
  rewrite (release_run _ _ (k_cpu s) []); [| done | done | cbn; by rewrite Hh | by intros ?%elem_of_nil].
  rewrite <- fmap_id_procs. f_equal. unfold ksync. kst_eq. by rewrite Hh.
Qed.

(** A reference more or less. *)
Lemma ref_step L j ip r s : fstate L s → k_icache s !! j = Some ip → 0 < i_ref ip → 0 ≤ r →
  let s' := with_icache (<[j := ip <| i_ref := r |>]> (k_icache s)) id s in
  fstate L s' ∧ moved s s' (λ o, (r - i_ref ip) * one (o = i_inum ip)) (one (r = 0)) ∧
  (∀ k o, k ≠ j ∨ (0 < r)%Z → entry k o s → entry k o s').
Proof.
  intros F Hj Hr Hr' s'. pose proof (fstate_table _ _ F) as T.
  destruct (table_step L L j ip (ip <| i_ref := r |>) id s F Hj keeps_id) as (F' & M & Hj' & He).
  { apply (table_insert L L _ j ip); try done.
    - intros _. by apply (tk_dev _ _ T j ip Hj).
    - intros _ Hval. cbn in Hval |- *. pose proof (tk_disk _ _ T j ip Hj Hr Hval) as E. rewrite E at 1. done.
    - apply (tk_lock _ _ T j ip Hj).
    - intros _ k iq Hk Hq Hrq Hi. by apply Hk, (tk_uniq _ _ T k j iq ip). }
  split; [done |]. split.
  - apply (moved_weaken _ _ _ _ _ _ M).
    + intros o. unfold refs_of, one. cbn. repeat case_bool_decide; congruence || lia.
    + unfold is_free, one. cbn. repeat case_bool_decide; congruence || lia.
  - intros k o Hk (iq & Hq & Hi & Hrq). destruct (decide (k = j)) as [-> |]; [| apply He; [done | by exists iq]].
    rewrite Hj in Hq. injection Hq as <-. exists (ip <| i_ref := r |>). split; [done |]. split; [done |]. cbn. lia.
Qed.

Lemma idup_spec L j ino s : fstate L s → entry j ino s → refs (k_icache s) ino + 1 < 2147483648 →
  ∃ s', idup j s = Done tt s' ∧ fstate L s' ∧ moved s s' (λ o, one (o = ino)) 0 ∧ ∀ k o, entry k o s → entry k o s'.
Proof.
  intros F (ip & Hj & <- & Hr) Hlt. rewrite (refs_entry _ _ _ _ (fstate_table _ _ F) Hj Hr) in Hlt.
  destruct (ref_step L j ip (i_ref ip + 1) s F Hj Hr ltac:(lia)) as (F' & M & He).
  eexists. split.
  { unfold idup. rewrite (ref_run L j ip) by done.
    unfold set, set_i_ref. rewrite i32_id by (unfold is_i32; lia). reflexivity. }
  split; [done |]. split; [| intros k o; apply He; lia].
  apply (moved_weaken _ _ _ _ _ _ M); [intros o; lia | unfold one; rewrite bool_decide_eq_false_2; lia].
Qed.

Lemma iput_spec j ino s : fstate None s → (0 < patience)%nat → entry j ino s → node_ok ino →
  refs (k_icache s) ino < 2147483648 →
  ∃ s', iput (BD := memide) j s = Done tt s' ∧ fstate None s' ∧
    moved s s' (λ o, - one (o = ino)) (one (refs (k_icache s) ino = 1)) ∧
    ∀ k o, k ≠ j ∨ (1 < refs (k_icache s) ino)%Z → entry k o s → entry k o s'.
Proof.
  intros F Hf (ip & Hj & <- & Hr) N Hlt. pose proof (fstate_table _ _ F) as T.
  rewrite (refs_entry _ _ _ _ T Hj Hr) in Hlt |- *.
  pose proof (tk_lock _ _ T j ip Hj) as Hl. cbn in Hl.
  unfold iput. rewrite (bind_done _ _ _ _ _ (acquire_slot None j ip s F Hf Hj Hl)).
  destruct (lock_step None (Some j) j ip (mkSleeplock true pid) id s F Hj Hr keeps_id) as (F1 & M1 & Hj1 & He1).
  { by rewrite decide_True. }
  { intros k Hk. split; [by intros [= ->] | done]. }
  set (s1 := with_icache _ _ _) in *. set (ip1 := ip <| i_lock := _ |>) in *.
  rewrite (get_inode_bind _ _ ip1) by done.
  assert ((i_valid ip1 && (i_nlink ip1 =? 0))%bool = false) as ->.
  { destruct (i_valid ip1) eqn:Hv; [| done]. cbn [andb]. apply Z.eqb_neq.
    change (i_nlink ip1) with (i_nlink ip). rewrite (tk_disk _ _ T j ip Hj Hr Hv). apply (nd_nlink _ N). }
  cbn [mwhen]. rewrite bind_ret, (bind_done _ _ _ _ _ (release_slot (Some j) j ip1 s1 F1 Hj1)).
  destruct (lock_step (Some j) None j ip1 (mkSleeplock false 0) (wake (Some (CSleep (SLInode j)))) s1 F1 Hj1 Hr (keeps_wake _)) as (F2 & M2 & Hj2 & He2).
  { by rewrite decide_False. }
  { intros k Hk. split; [done | by intros [= ->]]. }
  set (s2 := with_icache _ _ s1) in *. set (ip2 := ip1 <| i_lock := _ |>) in *.
  destruct (ref_step None j ip2 (i_ref ip - 1) s2 F2 Hj2 Hr ltac:(lia)) as (F3 & M3 & He3).
  eexists. split.
  { rewrite (ref_run None j ip2) by done.
    unfold set, set_i_ref. change (i_ref ip2) with (i_ref ip). rewrite i32_id by (unfold is_i32; lia). reflexivity. }
  split; [done |]. split.
  - apply (moved_weaken _ _ _ _ _ _ (moved_trans _ _ _ _ _ _ _ (moved_trans _ _ _ _ _ _ _ M1 M2) M3)).
    + intros o. change (i_ref ip2) with (i_ref ip). change (i_inum ip2) with (i_inum ip). lia.
    + unfold one. repeat case_bool_decide; lia.
  - intros k o Hk H. apply He3; [destruct Hk; [by left | right; lia] |]. by apply He2, He1.
Qed.

Lemma iunlockput_spec j ino s : fstate (Some j) s → (0 < patience)%nat → entry j ino s → node_ok ino →
  refs (k_icache s) ino < 2147483648 →
  ∃ s', iunlockput (BD := memide) j s = Done tt s' ∧ fstate None s' ∧
    moved s s' (λ o, - one (o = ino)) (one (refs (k_icache s) ino = 1)) ∧
    ∀ k o, k ≠ j ∨ (1 < refs (k_icache s) ino)%Z → entry k o s → entry k o s'.
Proof.
  intros F Hf He N Hlt. destruct He as (ip & Hj & Hi & Hr).
  destruct (iunlock_spec j ip s F Hj Hr) as (s1 & R1 & F1 & M1 & _ & He1).
  assert (Hrf : refs (k_icache s1) ino = refs (k_icache s) ino) by (rewrite (mv_refs _ _ _ _ M1); lia).
  destruct (iput_spec j ino s1 F1 Hf) as (s2 & R2 & F2 & M2 & He2); [by apply He1; exists ip | done | lia |].
  rewrite Hrf in M2, He2. exists s2. split; [unfold iunlockput; by rewrite (bind_done _ _ _ _ _ R1) |].
  split; [done |]. split; [by apply (moved_weaken _ _ _ _ _ _ (moved_trans _ _ _ _ _ _ _ M1 M2)) |].
  intros k o Hk H. by apply He2, He1.
Qed.

(** Reading blocks moves nothing. *)
Lemma read_moved L s s' : fstate L s → io i pid V B [] s' → read_step s s' →
  fstate L s' ∧ moved s s' (λ _, 0) 0 ∧ k_icache s' = k_icache s.
Proof.
  intros [I Hsb T] I' [(Hl & Hd & Ho) Hr]. pose proof (rs_icache _ _ Hr) as Hic.
  split; [split; [done | by rewrite (rs_sb _ _ Hr) | by rewrite Hic] |]. split; [| done].
  split; [split; [done | done | done | apply Hr | apply Hr] | |]; intros; rewrite Hic; lia.
Qed.
End icache.
