(* ===== verification/Writei.v ===== *)
(** * Writing to an inode

    [bmap] when it has to allocate, and [writei], inside a transaction. *)
From stdpp Require Import functions.
From S2P Require Import Prelude Mmu Cstring Kstate Spinlock Kalloc Vm Proc Sleeplock Bio Log Fs Tx Balloc Inodes.

(** A file whose blocks are its own: in use, in the data area, each named once. *)
Record file_ok {MD : MemDisk} (V : Z → list Z) (sb : superblock) (ip : inode) : Prop := {
  fo_ino : ino_ok V ip;
  fo_ind : ind_addr ip ≠ 0 → data_block sb (ind_addr ip) ∧ in_use V sb (ind_addr ip) = true;
  fo_blk : ∀ b, (b < NDIRECT + NINDIRECT)%nat → blk_addr V ip b ≠ 0 →
    data_block sb (blk_addr V ip b) ∧ in_use V sb (blk_addr V ip b) = true ∧ blk_addr V ip b ≠ ind_addr ip;
  fo_inj : ∀ b c, (b < NDIRECT + NINDIRECT)%nat → (c < NDIRECT + NINDIRECT)%nat →
    blk_addr V ip b ≠ 0 → blk_addr V ip b = blk_addr V ip c → b = c }.

(** What may change when a file grows: the blocks in [own], blocks that were
    free, and the free map, which loses at most [k] blocks.  The superblock,
    the log and the inodes are before the map. *)
Record fchange (sb : superblock) (own : Z → Prop) (k : nat) (V V' : Z → list Z) : Prop := {
  fc_keep : ∀ c, data_block sb c → in_use V sb c = true → ¬ own c → V' c = V c;
  fc_meta : ∀ c, c < sb_bmapstart sb → V' c = V c;
  fc_used : ∀ c, 0 ≤ c < sb_size sb → in_use V sb c = true → in_use V' sb c = true;
  fc_free : (length (free_blocks V sb) ≤ length (free_blocks V' sb) + k)%nat }.

(** Everything before the data area is in use. *)
Definition meta_used (V : Z → list Z) (sb : superblock) : Prop :=
  ∀ c, 0 ≤ c < data_start sb → c < sb_size sb → in_use V sb c = true.

Lemma filter_ext_elem {A} (P Q : A → Prop) `{∀ x, Decision (P x), ∀ x, Decision (Q x)} (l : list A) :
  (∀ x, x ∈ l → P x ↔ Q x) → filter P l = filter Q l.
Proof.
  induction l as [| x l IH]; intros Hl; [done |]. pose proof (Hl x ltac:(left)) as Hx.
  rewrite !filter_cons, IH by (intros y Hy; apply Hl; by right). repeat case_decide; tauto.
Qed.

(** Block [bn] of [ip] is at address [a] after [bmap]; it was there before, or
    it is a new block, all zeroes.  The other blocks are where they were. *)
Record bmapped {MD : MemDisk} (k : nat) (V : Z → list Z) (sb : superblock) (ip : inode) (bn : nat)
    (a : Z) (V' : Z → list Z) (ip' : inode) : Prop := {
  bm_change : fchange sb (λ c, c = ind_addr ip) k V V';
  bm_addr : blk_addr V' ip' bn = a;
  bm_nz : a ≠ 0;
  bm_same : ∀ b, (b < NDIRECT + NINDIRECT)%nat → b ≠ bn → blk_addr V' ip' b = blk_addr V ip b;
  bm_old : blk_addr V ip bn ≠ 0 → a = blk_addr V ip bn;
  bm_new : blk_addr V ip bn = 0 → V' a = replicate BSIZE 0 ∧ in_use V sb a = false;
  bm_ind : ind_addr ip' = ind_addr ip ∨ in_use V sb (ind_addr ip') = false;
  bm_ok : file_ok V' sb ip';
  bm_ip : ip' = ip <| i_addrs := i_addrs ip' |> }.

Section grow.
Context {LK : Linker} {FU : Fuel} {MD : MemDisk} {DS : DevSw}.
Implicit Types (V : Z → list Z) (hs : list Z) (H : list nat) (s : kst).

Lemma data_block_range sb a : layout sb → data_block sb a → 0 ≤ a < sb_size sb ∧ 0 < a < disksize.
Proof.
  intros L Ha. unfold data_block, data_start in Ha.
  pose proof (ly_bmap _ L). pose proof (ly_size _ L). pose proof (ly_inode _ L).
  assert (0 ≤ (sb_size sb - 1) / BPB) by (apply Z.div_pos; unfold BPB; lia). lia.
Qed.

Lemma fchange_refl sb own V : fchange sb own 0 V V.
Proof. split; try done. lia. Qed.
Lemma fchange_trans sb (own own' : Z → Prop) k k' V1 V2 V3 :
  layout sb → (∀ c, own' c → own c ∨ in_use V1 sb c = false) →
  fchange sb own k V1 V2 → fchange sb own' k' V2 V3 → fchange sb own (k + k') V1 V3.
Proof.
  intros L Ho [K1 M1 U1 F1] [K2 M2 U2 F2]. split.
  - intros c Hc Hu Hn. rewrite K2; [by apply K1 | done | |].
    + apply U1; [by apply data_block_range | done].
    + intros [? | ?]%Ho; [done | congruence].
  - intros c Hc. by rewrite M2, M1.
  - intros c Hc Hu. by apply U2, U1.
  - lia.
Qed.

Lemma fchange_alloc sb V a :
  layout sb → (∀ b, block_ok (V b)) → data_block sb a → in_use V sb a = false →
  fchange sb (λ _, False) 1 V (allocated V sb a).
Proof.
  intros L HV Ha Hf. destruct (data_block_range sb a L Ha) as [Ha0 _].
  pose proof (BBLOCK_meta sb a L Ha0) as HB. split.
  - intros c Hc Hu _. unfold allocated. unfold data_block in *.
    rewrite !fn_lookup_insert_ne; [done | lia |]. intros ->. congruence.
  - intros c Hc. unfold allocated. unfold data_block, data_start in *. pose proof (ly_bmap _ L).
    assert (0 ≤ (sb_size sb - 1) / BPB) by (apply Z.div_pos; [pose proof (ly_size _ L); lia | done]).
    rewrite !fn_lookup_insert_ne; [done | lia | lia].
  - intros c Hc Hu. rewrite in_use_allocated by done. by rewrite Hu, orb_true_r.
  - rewrite (free_blocks_allocated V sb a) by done. lia.
Qed.

(** A block of the data area gets new content: the map is as it was. *)
Lemma in_use_put sb V b d c :
  layout sb → data_block sb b → 0 ≤ c < sb_size sb → in_use (<[b := d]> V) sb c = in_use V sb c.
Proof.
  intros L Hb Hc. unfold in_use. pose proof (BBLOCK_meta sb c L Hc).
  rewrite fn_lookup_insert_ne; [done |]. unfold data_block in Hb. lia.
Qed.
Lemma fchange_put sb (own : Z → Prop) V b d :
  layout sb → data_block sb b → own b → fchange sb own 0 V (<[b := d]> V).
Proof.
  intros L Hb Ho. destruct (data_block_range sb b L Hb) as [Hb0 _]. split.
  - intros c Hc Hu Hn. apply fn_lookup_insert_ne. by intros <-.
  - intros c Hc. apply fn_lookup_insert_ne. unfold data_block, data_start in Hb. pose proof (ly_size _ L).
    assert (0 ≤ (sb_size sb - 1) / BPB) by (apply Z.div_pos; [lia | done]). lia.
  - intros c Hc Hu. by rewrite in_use_put.
  - assert (free_blocks (<[b := d]> V) sb = free_blocks V sb) as ->; [| lia].
    unfold free_blocks. apply filter_ext_elem. intros c Hc%elem_of_seqZ. by rewrite in_use_put by (done || lia).
Qed.

Lemma meta_used_change sb own k V V' : layout sb → fchange sb own k V V' → meta_used V sb → meta_used V' sb.
Proof. intros L [_ _ U _] HM c Hc Hs. apply U; [lia | by apply HM]. Qed.

Context (i : nat) (pid : Z) (cap : nat).

(** Reading inside a transaction. *)
Lemma tx_read V hs H s s' :
  tx i pid cap V hs H s → io i pid V (list_to_set hs) H s' → keeps s s' → tx i pid cap V hs H s'.
Proof. intros [] I (Hl & _ & _). by split; rewrite ?Hl. Qed.
Lemma read_step_tx s s' : read_step s s' → tx_step s s'.
Proof. by intros [(? & ? & ?) ?]. Qed.

Lemma balloc_free V hs H s :
  layout (k_sb s) → tx i pid cap V hs H s → (0 < patience)%nat → (length H ≤ 1)%nat →
  (length hs + 2 ≤ cap)%nat → meta_used V (k_sb s) → (1 ≤ length (free_blocks V (k_sb s)))%nat →
  (∀ c b j, j ∈ H → k_bufs s !! j = Some b → b_blockno b = c → data_block (k_sb s) c ∧ in_use V (k_sb s) c = true) →
  ∃ a s', data_block (k_sb s) a ∧ in_use V (k_sb s) a = false ∧
    balloc (BD := memide) 1 s = Done a s' ∧
    tx i pid cap (allocated V (k_sb s) a) (add_blk (add_blk hs (BBLOCK a (k_sb s))) a) H s' ∧
    tx_step s s' ∧ ∀ k, k ∈ H → k_bufs s' !! k = k_bufs s !! k.
Proof.
  intros L T Hfu HH Hroom HM Hfree Hheld.
  destruct (balloc_run i pid cap V hs H s L T Hfu HH Hroom) as
    [(a & s' & Ha & Hia & _ & R & T' & Hs & Hoth) | [Hall _]].
  - intros c Hc. split.
    + intros j b Hj Hb Heq. destruct (Hheld _ b j Hj Hb Heq) as [Hd _]. pose proof (BBLOCK_meta _ c L Hc).
      unfold data_block in Hd. lia.
    + intros Hu j b Hj Hb Heq. destruct (Hheld _ b j Hj Hb Heq) as [_ ?]. congruence.
  - exists a, s'. split; [| done]. unfold data_block. split; [| lia].
    destruct (decide (data_start (k_sb s) ≤ a)) as [| Hlt]; [done |]. rewrite HM in Hia; [done | lia | lia].
  - exfalso. destruct (free_blocks V (k_sb s)) as [| c l] eqn:E; [cbn in Hfree; lia |].
    assert (Hc : c ∈ free_blocks V (k_sb s)) by (rewrite E; left). unfold free_blocks in Hc.
    rewrite list_elem_of_filter, elem_of_seqZ in Hc. destruct Hc as [Hu Hc]. rewrite Hall in Hu by lia. done.
Qed.

(** A file with one more block, or one more indirect block, is a file. *)
Lemma file_ok_grow k own V V' sb ip ip' bn :
  layout sb → file_ok V sb ip → fchange sb own k V V' → i_dev ip' = 1 →
  length (i_addrs ip') = (NDIRECT + 1)%nat →
  (∀ b, (b < NDIRECT + NINDIRECT)%nat → blk_addr V' ip' b = blk_addr V ip b ∨
     (b = bn ∧ data_block sb (blk_addr V' ip' b) ∧ in_use V sb (blk_addr V' ip' b) = false ∧
      in_use V' sb (blk_addr V' ip' b) = true ∧ ind_addr ip' ≠ blk_addr V' ip' b)) →
  ind_addr ip' = ind_addr ip ∨
    (data_block sb (ind_addr ip') ∧ in_use V sb (ind_addr ip') = false ∧ in_use V' sb (ind_addr ip') = true) →
  file_ok V' sb ip'.
Proof.
  intros L [[Hdev Hal Hin Hib] Hfi Hfb Hinj] F Hd' Hl' Hblk Hind.
  assert (Hrange : ∀ c, data_block sb c → 0 ≤ c < disksize).
  { intros c Hc. pose proof (data_block_range sb c L Hc). lia. }
  assert (Huse : ∀ c, data_block sb c → in_use V sb c = true → in_use V' sb c = true).
  { intros c Hc. apply (fc_used _ _ _ _ _ F). by apply data_block_range. }
  split; [split; [done | done | |] | | |].
  - destruct Hind as [-> | (? & _)]; [done | by apply Hrange].
  - intros b Hb. destruct (Hblk b Hb) as [-> | (_ & ? & _)]; [by apply Hib | by apply Hrange].
  - intros Hnz. destruct Hind as [Heq | (? & _ & ?)]; [| done]. rewrite Heq in *.
    destruct (Hfi Hnz). split; [done | by apply Huse].
  - intros b Hb Hnz. destruct (Hblk b Hb) as [Heq | (-> & ? & _ & ? & ?)]; [| by split_and!].
    rewrite Heq in *. destruct (Hfb b Hb Hnz) as (H1 & H2 & H3).
    split_and!; [done | by apply Huse |]. destruct Hind as [-> | (_ & ? & _)]; [done | congruence].
  - intros b c Hb Hc Hnz Heq.
    destruct (Hblk b Hb) as [Hb1 | (-> & _ & Hb1 & _)], (Hblk c Hc) as [Hc1 | (-> & _ & Hc1 & _)]; [| | | done].
    + rewrite Hb1, Hc1 in *. by apply Hinj.
    + rewrite Hb1 in *. destruct (Hfb b Hb Hnz) as (_ & ? & _). congruence.
    + rewrite Heq, Hc1 in *. destruct (Hfb c Hc Hnz) as (_ & ? & _). congruence.
Qed.

Lemma nth_insert (l : list Z) j k x :
  (j < length l)%nat → nth k (<[j := x]> l) 0 = if decide (k = j) then x else nth k l 0.
Proof.
  intros Hj. rewrite !nth_lookup. case_decide as Hk.
  - subst. by rewrite list_lookup_insert_eq.
  - by rewrite list_lookup_insert_ne by congruence.
Qed.
Lemma keep_blk k own V V' sb ip b :
  file_ok V sb ip → fchange sb own k V V' → (b < NDIRECT + NINDIRECT)%nat → blk_addr V ip b ≠ 0 →
  ¬ own (blk_addr V ip b) → V' (blk_addr V ip b) = V (blk_addr V ip b).
Proof. intros F C Hb Hnz Ho. destruct (fo_blk _ _ _ F b Hb Hnz) as (? & ? & _). by apply (fc_keep _ _ _ _ _ C). Qed.

(** A direct block is added. *)
Lemma grow_direct V sb ip bn a :
  layout sb → (∀ b, block_ok (V b)) → file_ok V sb ip → data_block sb a → in_use V sb a = false →
  (bn < NDIRECT)%nat → blk_addr V ip bn = 0 →
  bmapped 2 V sb ip bn a (allocated V sb a) (ip <| i_addrs ::= <[bn := a]> |>).
Proof.
  intros L HV F Ha Hf Hbn Hz. pose proof (fo_ino _ _ _ F) as Ino.
  set (ip' := ip <| i_addrs ::= <[bn := a]> |>). set (V' := allocated V sb a).
  pose proof (fchange_alloc sb V a L HV Ha Hf) as C. fold V' in C.
  assert (Hlen : (bn < length (i_addrs ip))%nat) by (rewrite (in_addrs _ _ Ino); lia).
  destruct (data_block_range sb a L Ha) as [Ha0 Ha1].
  assert (Hind : ind_addr ip' = ind_addr ip).
  { unfold ind_addr, ip'. cbn. rewrite nth_insert by done. rewrite decide_False by (unfold NDIRECT in *; lia). done. }
  assert (Hblk : ∀ b, (b < NDIRECT + NINDIRECT)%nat → blk_addr V' ip' b = if decide (b = bn) then a else blk_addr V ip b).
  { intros b Hb. unfold blk_addr. rewrite Hind. destruct (Nat.ltb_spec b NDIRECT).
    - unfold ip'. cbn. by rewrite nth_insert.
    - rewrite decide_False by lia. destruct (Z.eqb_spec (ind_addr ip) 0) as [| Hnz]; [done |].
      destruct (fo_ind _ _ _ F Hnz). rewrite (fc_keep _ _ _ _ _ C); [done | done | done | tauto]. }
  assert (C' : fchange sb (λ c, c = ind_addr ip) 2 V V').
  { destruct C as [K M U Fr]. split; [| done | done | lia]. intros c Hc Hu _. apply K; tauto. }
  split.
  - done.
  - by rewrite Hblk, decide_True by (unfold NDIRECT, NINDIRECT in *; lia).
  - lia.
  - intros b Hb Hne. by rewrite Hblk, decide_False.
  - done.
  - intros _. split; [apply fn_lookup_insert | done].
  - by left.
  - apply (file_ok_grow 1 _ V V' sb ip ip' bn L F C).
    + apply Ino.
    + unfold ip'. cbn. rewrite length_insert. apply Ino.
    + intros b Hb. rewrite Hblk by done. case_decide as Heq; [right | by left]. split_and!; try done.
      * unfold V'. by rewrite in_use_allocated, bool_decide_eq_true_2.
      * rewrite Hind. destruct (decide (ind_addr ip = 0)) as [-> |]; [lia |].
        destruct (fo_ind _ _ _ F) as [_ ?]; [done | congruence].
    + by left.
  - by destruct ip.
Qed.

(** An indirect block is added: no block of the file moves. *)
Lemma grow_indirect V sb ip d :
  layout sb → (∀ b, block_ok (V b)) → file_ok V sb ip → data_block sb d → in_use V sb d = false →
  ind_addr ip = 0 →
  let V' := allocated V sb d in let ip' := ip <| i_addrs ::= <[NDIRECT := d]> |> in
  ind_addr ip' = d ∧ file_ok V' sb ip' ∧
  ∀ b, (b < NDIRECT + NINDIRECT)%nat → blk_addr V' ip' b = blk_addr V ip b.
Proof.
  intros L HV F Hd Hf Hz V' ip'. pose proof (fo_ino _ _ _ F) as Ino.
  pose proof (fchange_alloc sb V d L HV Hd Hf) as C. fold V' in C.
  destruct (data_block_range sb d L Hd) as [Hd0 Hd1].
  assert (Hlen : (NDIRECT < length (i_addrs ip))%nat) by (rewrite (in_addrs _ _ Ino); lia).
  assert (Hind : ind_addr ip' = d).
  { unfold ind_addr, ip'. cbn [i_addrs set set_i_addrs]. by rewrite nth_insert, decide_True. }
  assert (Hblk : ∀ b, (b < NDIRECT + NINDIRECT)%nat → blk_addr V' ip' b = blk_addr V ip b).
  { intros b Hb. unfold blk_addr. rewrite Hind, Hz. cbn [Z.eqb]. destruct (Nat.ltb_spec b NDIRECT).
    - unfold ip'. cbn [i_addrs set set_i_addrs]. rewrite nth_insert by done. by rewrite decide_False by lia.
    - rewrite (proj2 (Z.eqb_neq _ _)) by lia. unfold V', allocated. rewrite fn_lookup_insert.
      unfold blk_word. rewrite drop_replicate, take_replicate, Nat.min_l; [done |].
      unfold BSIZE, NDIRECT, NINDIRECT in *. lia. }
  split; [done |]. split; [| done].
  apply (file_ok_grow 1 _ V V' sb ip ip' O L F C).
  - apply Ino.
  - unfold ip'. cbn [i_addrs set set_i_addrs]. rewrite length_insert. apply Ino.
  - intros b Hb. left. by apply Hblk.
  - right. rewrite Hind. split_and!; [done | done |]. unfold V'. by rewrite in_use_allocated, bool_decide_eq_true_2.
Qed.

(** An entry of the indirect block is filled. *)
Lemma grow_entry V sb ip bn a :
  layout sb → (∀ b, block_ok (V b)) → file_ok V sb ip → data_block sb a → in_use V sb a = false →
  ind_addr ip ≠ 0 → (NDIRECT ≤ bn < NDIRECT + NINDIRECT)%nat → blk_addr V ip bn = 0 →
  bmapped 1 V sb ip bn a
    (<[ind_addr ip := blk_put (V (ind_addr ip)) (4 * (bn - NDIRECT)) (word_bytes a)]> (allocated V sb a)) ip.
Proof.
  intros L HV F Ha Hf Hind Hbn Hz. set (d := ind_addr ip) in *. set (V1 := allocated V sb a).
  set (V' := <[d := _]> V1). destruct (fo_ind _ _ _ F Hind) as [Hd Hu]. fold d in Hd, Hu.
  pose proof (fchange_alloc sb V a L HV Ha Hf) as C. fold V1 in C.
  destruct (data_block_range sb a L Ha) as [Ha0 Ha1]. pose proof (ly_disk _ L). pose proof (ly_size _ L).
  assert (Hne : a ≠ d) by (intros ->; congruence).
  assert (C' : fchange sb (λ c, c = d) 1 V V').
  { apply (fchange_trans sb (λ c, c = d) (λ c, c = d) 1 0 V V1 V' L); [by left | |].
    - destruct C as [K M U Fr]. split; [| done | done | done]. intros c Hc Hcu _. apply K; tauto.
    - by apply fchange_put. }
  assert (Hlen : length (V d) = BSIZE) by apply HV.
  assert (Hua : in_use V' sb a = true).
  { unfold V'. rewrite in_use_put by done. unfold V1. by rewrite in_use_allocated, bool_decide_eq_true_2. }
  assert (Hblk : ∀ b, (b < NDIRECT + NINDIRECT)%nat → blk_addr V' ip b = if decide (b = bn) then a else blk_addr V ip b).
  { intros b Hb. unfold blk_addr. fold d. destruct (Nat.ltb_spec b NDIRECT).
    - by rewrite decide_False by lia.
    - rewrite (proj2 (Z.eqb_neq _ _)) by done. unfold V'. rewrite fn_lookup_insert. case_decide as Hb'.
      + subst b. apply blk_put_word; [unfold is_u32; lia |]. rewrite Hlen. unfold BSIZE, NDIRECT, NINDIRECT in *. lia.
      + apply blk_put_word_other; [| lia]. rewrite Hlen. unfold BSIZE, NDIRECT, NINDIRECT in *. lia. }
  split.
  - done.
  - by rewrite Hblk, decide_True by lia.
  - lia.
  - intros b Hb Hb'. by rewrite Hblk, decide_False.
  - done.
  - intros _. split; [| done]. unfold V'. rewrite fn_lookup_insert_ne by done. apply fn_lookup_insert.
  - by left.
  - apply (file_ok_grow 1 _ V V' sb ip ip bn L F C').
    + apply (fo_ino _ _ _ F).
    + apply (fo_ino _ _ _ F).
    + intros b Hb. rewrite Hblk by done. case_decide; [right | by left]. by split_and!.
    + by left.
  - by destruct ip.
Qed.

(** The entry [k] of the indirect block [d] is empty: a block is allocated and
    its address stored there, while the buffer of [d] is held. *)
Lemma bmap_entry V hs d k s :
  layout (k_sb s) → tx i pid cap V hs [] s → (0 < patience)%nat → (length hs + 3 ≤ cap)%nat →
  meta_used V (k_sb s) → (1 ≤ length (free_blocks V (k_sb s)))%nat →
  data_block (k_sb s) d → in_use V (k_sb s) d = true → (k < NINDIRECT)%nat → blk_word (V d) (4 * k) = 0 →
  ∃ a s' hs', data_block (k_sb s) a ∧ in_use V (k_sb s) a = false ∧ a ≠ d ∧
    (bp ← bread (BD := memide) 1 d;
     b ← get_buf bp;
     let addr := blk_word (b_data b) (4 * k) in
     addr ← (if addr =? 0 then
               addr ← balloc (BD := memide) 1;
               upd_data bp (λ d, blk_put d (4 * k) (word_bytes addr));;
               log_write bp;;
               mret addr
             else mret addr);
     brelse bp;;
     mret addr) s = Done a s' ∧
    tx i pid cap (<[d := blk_put (V d) (4 * k) (word_bytes a)]> (allocated V (k_sb s) a)) hs' [] s' ∧
    tx_step s s' ∧ (length hs' ≤ length hs + 3)%nat.
Proof.
  intros L T Hfu Hroom HM Hfree Hd Hu Hk Hz.
  destruct (data_block_range _ d L Hd) as [Hd0 Hd1].
  destruct (tx_bread i pid cap V hs [] d s T Hfu ltac:(cbn; lia) ltac:(lia) ltac:(apply not_held_nil)) as
    (j & b & s1 & R1 & T1 & Hj & Hb & (Hb1 & Hb2 & Hbl & Hdat & _) & _ & S1 & _ & _).
  rewrite (bind_done _ _ _ _ _ R1), (get_buf_bind _ _ b), Hdat, Hz by done. cbn [Z.eqb].
  pose proof (rs_sb _ _ (ts_rest _ _ S1)) as Hsb.
  destruct (balloc_free V hs [j] s1) as (a & s2 & Ha & Hia & R2 & T2 & S2 & Hoth2);
    rewrite ?Hsb; try done; [lia | |].
  { intros c b' j' ->%list_elem_of_singleton Hb' Heq. assert (b' = b) as -> by congruence. by rewrite <- Heq, Hbl. }
  rewrite Hsb in *. set (V2 := allocated V (k_sb s) a) in *. set (hs2 := add_blk (add_blk hs _) a) in *.
  assert (Hne : a ≠ d) by (intros ->; congruence).
  assert (HV2 : V2 d = V d).
  { apply (fc_keep _ _ _ _ _ (fchange_alloc (k_sb s) V a L (tx_view _ _ _ _ _ _ _ T) Ha Hia)); [done | done | tauto]. }
  assert (Hb2' : k_bufs s2 !! j = Some b) by (rewrite Hoth2; [done | left]).
  assert (Hlen2 : (length hs2 ≤ length hs + 2)%nat).
  { unfold hs2. pose proof (add_blk_length hs (BBLOCK a (k_sb s))).
    pose proof (add_blk_length (add_blk hs (BBLOCK a (k_sb s))) a). lia. }
  destruct (tx_update i pid cap V2 hs2 [j] j b (λ d, blk_put d (4 * k) (word_bytes a)) s2 T2 ltac:(left) Hb2')
    as (s3 & R3 & T3 & Hb3 & S3 & Hin); [rewrite Hbl; lia | lia | |].
  { intros Hok. destruct (word_bytes_ok a). apply block_ok_put; [done | done |]. unfold BSIZE, NINDIRECT in *. cbn. lia. }
  rewrite Hbl, HV2 in T3. rewrite Hbl in Hin.
  destruct (tx_brelse i pid cap _ _ [] j (b <| b_data ::= λ d, blk_put d (4 * k) (word_bytes a) |> <| b_dirty := true |>)
    s3 T3 Hj) as (s4 & R4 & T4 & S4 & _).
  { rewrite Hb3. apply list_lookup_insert_eq. by eapply lookup_lt_Some. }
  { left. change (b_blockno _) with (b_blockno b). by rewrite Hbl. }
  exists a, s4, (add_blk hs2 d). split; [done |]. split; [done |]. split; [done |]. split; [| split; [done |]].
  - rewrite bind_assoc, (bind_done _ _ _ _ _ R2).
    erewrite bind_done by (rewrite R3; reflexivity). by rewrite (bind_done _ _ _ _ _ R4).
  - split; [by rewrite S1, S2, S3 |]. pose proof (add_blk_length hs2 d). lia.
Qed.

(** Running code that changes one inode of the cache. *)
Lemma tx_icache V hs H f s : tx i pid cap V hs H s → tx i pid cap V hs H (s <| k_icache ::= f |>).
Proof.
  intros [[[? ? ? ?] ? ? ? ? ? ?] ? ? ? ? ? ? ? ?]. split; [split; [by split | done..] | done..].
Qed.

(** What a step that may change inode [ii] leaves alone. *)
Record ino_step (ii : nat) (ip' : inode) (s s' : kst) : Prop := {
  is_sb : k_sb s' = k_sb s;
  is_icache : k_icache s' = <[ii := ip']> (k_icache s);
  is_mem : k_mem s' = k_mem s;
  is_disk : k_disk s' = k_disk s;
  is_out : k_out s' = k_out s;
  is_held : k_held s' = k_held s;
  is_cr3 : cr3 (k_cpu s') = cr3 (k_cpu s) }.
Lemma ino_step_tx ii ip s s1 s' :
  k_icache s !! ii = Some ip → tx_step s s' → ino_step ii ip s s'.
Proof.
  intros Hi [[] ? ?]. split; try done. rewrite list_insert_id; [done | congruence].
Qed.
Lemma ino_step_trans ii ip1 ip2 s1 s2 s3 :
  ino_step ii ip1 s1 s2 → ino_step ii ip2 s2 s3 → ino_step ii ip2 s1 s3.
Proof.
  intros [A1 A2 A3 A4 A5 A6 A7] [B1 B2 B3 B4 B5 B6 B7]. split; try congruence.
  rewrite B2, A2. by rewrite list_insert_insert_eq.
Qed.

Lemma bmap_run V hs ii ip bn s :
  layout (k_sb s) → tx i pid cap V hs [] s → (0 < patience)%nat → (length hs + 5 ≤ cap)%nat →
  meta_used V (k_sb s) → (2 ≤ length (free_blocks V (k_sb s)))%nat →
  k_icache s !! ii = Some ip → file_ok V (k_sb s) ip → (bn < NDIRECT + NINDIRECT)%nat →
  ∃ a s' V' hs' ip', bmap (BD := memide) ii (Z.of_nat bn) s = Done a s' ∧
    tx i pid cap V' hs' [] s' ∧ bmapped 2 V (k_sb s) ip bn a V' ip' ∧ ino_step ii ip' s s' ∧
    (length hs' ≤ length hs + 5)%nat.
Proof.
  intros L T Hfu Hroom HM Hfree Hi F Hbn. pose proof (fo_ino _ _ _ F) as Ino. set (sb := k_sb s) in *.
  pose proof (tx_view _ _ _ _ _ _ _ T) as HV.
  destruct (decide (blk_addr V ip bn = 0)) as [Hz | Hnz].
  2: { (* already there *)
    destruct (bmap_mapped i pid V (list_to_set hs) [] ii ip bn s) as (s' & R & I' & S' & _); try done.
    { apply (tx_io _ _ _ _ _ _ _ T). }
    { pose proof (size_logged hs). pose proof (tx_cap _ _ _ _ _ _ _ T). unfold NBUF. cbn [length]. lia. }
    { intros _. apply not_held_nil. }
    exists (blk_addr V ip bn), s', V, hs, ip. split; [done |]. split; [by apply (tx_read V hs [] s s' T I'), S' |].
    split; [| split; [by apply (ino_step_tx ii ip s s s' Hi), read_step_tx | lia]].
    split; try done; [| by left | by destruct ip].
    destruct (fchange_refl sb (λ c, c = ind_addr ip) V). split; try done. lia. }
  unfold bmap. rewrite (get_inode_bind _ _ ip) by done.
  destruct (decide (bn < NDIRECT)%nat) as [Hlt | Hge].
  { (* a direct block *)
    rewrite (proj2 (Z.ltb_lt _ _)) by lia.
    erewrite at_bind by first [lia | rewrite Nat2Z.id; apply (addrs_lookup V); [done | lia]].
    assert (Hz' : nth bn (i_addrs ip) 0 = 0).
    { unfold blk_addr in Hz. by rewrite (proj2 (Nat.ltb_lt _ _)) in Hz. }
    rewrite Hz'. cbn [Z.eqb].
    destruct (balloc_free V hs [] s L T Hfu ltac:(cbn; lia) ltac:(lia) HM ltac:(fold sb; lia)) as
      (a & s1 & Ha & Hia & R1 & T1 & S1 & _); [by intros c b j ?%elem_of_nil |]. fold sb in Ha, Hia, T1.
    rewrite (in_dev _ _ Ino), (bind_done _ _ _ _ _ R1).
    assert (Hi1 : k_icache s1 !! ii = Some ip) by (by rewrite (rs_icache _ _ (ts_rest _ _ S1))).
    rewrite (upd_inode_bind _ _ _ ip), Nat2Z.id by done.
    eexists a, _, _, _, _. split; [done |]. split; [by apply tx_icache |].
    split; [by apply grow_direct; first [done | apply HV] |]. split; [| pose proof (add_blk_length (add_blk hs (BBLOCK a sb)) a);
      pose proof (add_blk_length hs (BBLOCK a sb)); lia].
    apply (ino_step_trans ii ip _ s s1); [by apply (ino_step_tx ii ip s s s1) | by split]. }
  rewrite (proj2 (Z.ltb_ge _ _)) by lia. rewrite (proj2 (Z.ltb_lt (_ - _) _)) by lia.
  erewrite at_bind by first [lia | rewrite Nat2Z.id; apply (addrs_lookup V); [done | lia]].
  fold (ind_addr ip).
  replace (Z.to_nat (Z.of_nat bn - Z.of_nat NDIRECT)) with (bn - NDIRECT)%nat by lia.
  assert (Hk : (bn - NDIRECT < NINDIRECT)%nat) by lia.
  assert (Hword : ∀ V ip, ind_addr ip ≠ 0 → blk_addr V ip bn = 0 → blk_word (V (ind_addr ip)) (4 * (bn - NDIRECT)) = 0).
  { intros V0 ip0 Hn0 H0. unfold blk_addr in H0. rewrite (proj2 (Nat.ltb_ge _ _)) in H0 by lia.
    by rewrite (proj2 (Z.eqb_neq _ _)) in H0. }
  destruct (Z.eqb_spec (ind_addr ip) 0) as [Hi0 | Hi0].
  - (* the indirect block comes first *)
    destruct (balloc_free V hs [] s L T Hfu ltac:(cbn; lia) ltac:(lia) HM ltac:(fold sb; lia)) as
      (d & s1 & Hd & Hid & R1 & T1 & S1 & _); [by intros c b j ?%elem_of_nil |]. fold sb in Hd, Hid, T1.
    rewrite !bind_assoc, (in_dev _ _ Ino), (bind_done _ _ _ _ _ R1).
    assert (Hi1 : k_icache s1 !! ii = Some ip) by (by rewrite (rs_icache _ _ (ts_rest _ _ S1))).
    rewrite bind_assoc, (upd_inode_bind _ _ _ ip), bind_ret by done.
    destruct (grow_indirect V sb ip d L HV F Hd Hid Hi0) as (Hind & F1 & Hsame).
    set (V1 := allocated V sb d) in *. set (ip1 := ip <| i_addrs ::= <[NDIRECT := d]> |>) in *.
    set (s2 := s1 <| k_icache ::= _ |>).
    assert (Hsb2 : k_sb s2 = sb) by (exact (rs_sb _ _ (ts_rest _ _ S1))).
    pose proof (fchange_alloc sb V d L HV Hd Hid) as C1. fold V1 in C1.
    assert (Hz1 : blk_addr V1 ip1 bn = 0) by (by rewrite Hsame).
    destruct (data_block_range sb d L Hd) as [_ Hd1].
    pose proof (fo_ind _ _ _ F1 ltac:(rewrite Hind; lia)) as [_ Hdu]. rewrite Hind in Hdu.
    set (hs1 := add_blk (add_blk hs (BBLOCK d sb)) d) in *.
    assert (Hl1 : (length hs1 ≤ length hs + 2)%nat).
    { unfold hs1. pose proof (add_blk_length (add_blk hs (BBLOCK d sb)) d).
      pose proof (add_blk_length hs (BBLOCK d sb)). lia. }
    destruct (bmap_entry V1 hs1 d (bn - NDIRECT) s2) as (a & s3 & hs3 & Ha & Hia & Hne & R3 & T3 & S3 & Hl3);
      rewrite ?Hsb2; try done; [by apply tx_icache | lia | by apply (meta_used_change sb (λ _, False) 1 V) | | |].
    { pose proof (fc_free _ _ _ _ _ C1). lia. }
    { rewrite <- Hind. apply Hword; [rewrite Hind; lia | done]. }
    rewrite Hsb2 in *. cbv zeta in R3. rewrite R3.
    pose proof (grow_entry V1 sb ip1 bn a L (tx_view _ _ _ _ _ _ _ T1) F1 Ha Hia ltac:(rewrite Hind; lia) ltac:(lia) Hz1) as G.
    rewrite Hind in G. set (V3 := <[d := _]> _) in *.
    exists a, s3, V3, hs3, ip1. split; [done |]. split; [done |]. split; [| split; [| lia]].
    + destruct G as [G1 G2 G3 G4 G5 G6 G7 G8 G9]. split; [| done | done | | done | | | done | by destruct ip].
      * apply (fchange_trans sb _ (λ c, c = ind_addr ip1) 1 1 V V1 V3 L); [| | done].
        { intros c ->. right. by rewrite Hind. }
        { destruct C1 as [K M U Fr]. split; [| done | done | done]. intros c Hc Hcu _. apply K; tauto. }
      * intros b Hb Hb'. by rewrite G4, Hsame.
      * intros _. destruct (G6 Hz1) as [? Hf1]. split; [done |].
        destruct (in_use V sb a) eqn:E; [| done].
        rewrite (fc_used _ _ _ _ _ C1) in Hf1 by (done || by apply data_block_range). done.
      * right. by rewrite Hind.
    + apply (ino_step_trans ii ip1 _ s s2); [apply (ino_step_trans ii ip _ s s1); [by apply (ino_step_tx ii ip s s s1) | by split] |].
      apply (ino_step_tx ii ip1 s2 s2 s3); [| done]. apply list_lookup_insert_eq. by eapply lookup_lt_Some.
  - rewrite bind_ret, (in_dev _ _ Ino). destruct (fo_ind _ _ _ F Hi0) as [Hd Hdu].
    destruct (bmap_entry V hs (ind_addr ip) (bn - NDIRECT) s) as (a & s3 & hs3 & Ha & Hia & Hne & R3 & T3 & S3 & Hl3);
      try done; [lia | fold sb; lia | by apply Hword |].
    cbv zeta in R3. rewrite R3. eexists a, s3, _, hs3, ip. split; [done |]. split; [done |].
    split; [| split; [by apply (ino_step_tx ii ip s s s3) | lia]].
    destruct (grow_entry V sb ip bn a L HV F Ha Hia Hi0 ltac:(lia) Hz) as [[K M U Fr] ? ? ? ? ? ? ? ?].
    split; try done. split; try done. subst sb. lia.
Qed.
End grow.

(** ** Writing *)

(** The byte at offset [o], 0 in a block the file does not have. *)
Definition byte_at (V : Z → list Z) (ip : inode) (o : nat) : Z :=
  if blk_addr V ip (o / BSIZE) =? 0 then 0 else file_byte V ip o.
(** The blocks of a file, its indirect block included. *)
Definition owned (V : Z → list Z) (ip : inode) (c : Z) : Prop :=
  c ≠ 0 ∧ (c = ind_addr ip ∨ ∃ b, (b < NDIRECT + NINDIRECT)%nat ∧ c = blk_addr V ip b).
Definition FILEMAX : nat := (NDIRECT + NINDIRECT) * BSIZE.

(** What [writei_loop] has done to a file: [d] has been stored at [off]. *)
Record written {MD : MemDisk} (k : nat) (V : Z → list Z) (sb : superblock) (ip : inode) (off : nat) (d : list Z)
    (V' : Z → list Z) (ip' : inode) : Prop := {
  wr_range : (off + length d ≤ FILEMAX)%nat;
  wr_change : fchange sb (owned V ip) k V V';
  wr_byte : ∀ o, (o < FILEMAX)%nat → byte_at V' ip' o =
    if decide (off ≤ o < off + length d)%nat then nth (o - off) d 0 else byte_at V ip o;
  wr_addr : ∀ b, (b < NDIRECT + NINDIRECT)%nat → blk_addr V ip b ≠ 0 → blk_addr V' ip' b = blk_addr V ip b;
  wr_full : ∀ o, (off ≤ o < off + length d)%nat → blk_addr V' ip' (o / BSIZE) ≠ 0;
  wr_owned : ∀ c, owned V' ip' c → owned V ip c ∨ in_use V sb c = false;
  wr_ok : file_ok V' sb ip';
  wr_ip : ip' = ip <| i_addrs := i_addrs ip' |> }.

Section writei.
Context {LK : Linker} {FU : Fuel} {MD : MemDisk} {DS : DevSw}.
Implicit Types (V : Z → list Z) (hs : list Z) (H : list nat) (s : kst).

Lemma div_blk o bn : (bn * BSIZE ≤ o < (bn + 1) * BSIZE)%nat ↔ (o / BSIZE)%nat = bn.
Proof.
  pose proof (Nat.div_mod_eq o BSIZE). pose proof (Nat.mod_upper_bound o BSIZE ltac:(done)). unfold BSIZE in *.
  split; [| lia]. intros Ho. symmetry. apply (Nat.div_unique _ _ _ (o - bn * 512)); lia.
Qed.

Lemma off_blk o : (o < FILEMAX)%nat → (o / BSIZE < NDIRECT + NINDIRECT)%nat.
Proof. intros Ho. apply Nat.Div0.div_lt_upper_bound. unfold FILEMAX in Ho. lia. Qed.
Lemma owned_data V sb ip c : file_ok V sb ip → owned V ip c → data_block sb c ∧ in_use V sb c = true.
Proof.
  intros F [Hnz [-> | (b & Hb & ->)]]; [by apply (fo_ind _ _ _ F) |].
  by destruct (fo_blk _ _ _ F b Hb Hnz) as (? & ? & _).
Qed.
Lemma fchange_mono sb (own own' : Z → Prop) k k' V V' :
  (k ≤ k')%nat → (∀ c, data_block sb c → own c → own' c) → fchange sb own k V V' → fchange sb own' k' V V'.
Proof. intros Hk Ho [K M U F]. split; [| done | done | lia]. intros c Hc Hu Hn. apply K; auto. Qed.

Lemma written_nil V sb ip off : (off ≤ FILEMAX)%nat → file_ok V sb ip → written 0 V sb ip off [] V ip.
Proof.
  intros Hoff F. split; try done.
  - cbn [length]. lia.
  - apply fchange_refl.
  - intros o _. cbn [length]. by rewrite decide_False by lia.
  - cbn [length]. intros o. lia.
  - intros c. by left.
  - by destruct ip.
Qed.

Lemma written_app k k' V1 V2 V3 sb ip1 ip2 ip3 off d1 d2 :
  layout sb → written k V1 sb ip1 off d1 V2 ip2 → written k' V2 sb ip2 (off + length d1) d2 V3 ip3 →
  written (k + k') V1 sb ip1 off (d1 ++ d2) V3 ip3.
Proof.
  intros L W1 W2. pose proof (wr_range _ _ _ _ _ _ _ _ W2). split.
  - rewrite length_app. lia.
  - apply (fchange_trans sb _ (owned V2 ip2) k k' V1 V2 V3 L); [| apply W1 | apply W2]. apply (wr_owned _ _ _ _ _ _ _ _ W1).
  - intros o Ho. rewrite (wr_byte _ _ _ _ _ _ _ _ W2), (wr_byte _ _ _ _ _ _ _ _ W1), length_app by done.
    repeat case_decide; try lia; try done.
    + rewrite app_nth2 by lia. f_equal. lia.
    + by rewrite app_nth1 by lia.
  - intros b Hb Hnz. rewrite (wr_addr _ _ _ _ _ _ _ _ W2), (wr_addr _ _ _ _ _ _ _ _ W1); try done.
    by rewrite (wr_addr _ _ _ _ _ _ _ _ W1).
  - intros o. rewrite length_app. intros Ho. destruct (decide (o < off + length d1)%nat).
    + pose proof (wr_full _ _ _ _ _ _ _ _ W1 o ltac:(lia)) as Hnz.
      by rewrite (wr_addr _ _ _ _ _ _ _ _ W2) by (done || (apply off_blk; lia)).
    + apply (wr_full _ _ _ _ _ _ _ _ W2). lia.
  - intros c Hc. destruct (wr_owned _ _ _ _ _ _ _ _ W2 c Hc) as [Ho | Hf]; [by apply (wr_owned _ _ _ _ _ _ _ _ W1) |].
    right. destruct (owned_data _ _ _ _ (wr_ok _ _ _ _ _ _ _ _ W2) Hc) as [Hd _].
    destruct (in_use V1 sb c) eqn:E; [| done].
    rewrite (fc_used _ _ _ _ _ (wr_change _ _ _ _ _ _ _ _ W1)) in Hf by (done || by apply data_block_range). done.
  - apply W2.
  - rewrite (wr_ip _ _ _ _ _ _ _ _ W2), (wr_ip _ _ _ _ _ _ _ _ W1). by destruct ip1.
Qed.

(** Storing bytes into one block of the file. *)
Lemma written_block k V sb ip bn a V1 ip1 o l :
  layout sb → (∀ b, block_ok (V b)) → (∀ b, block_ok (V1 b)) → file_ok V sb ip → (bn < NDIRECT + NINDIRECT)%nat →
  bmapped k V sb ip bn a V1 ip1 → (o + length l ≤ BSIZE)%nat →
  written k V sb ip (bn * BSIZE + o) l (<[a := blk_put (V1 a) o l]> V1) ip1.
Proof.
  intros L HV HV1 F Hbn M Ho. set (V2 := <[a := _]> V1). pose proof (bm_ok _ _ _ _ _ _ _ _ M) as F1.
  destruct (fo_blk _ _ _ F1 bn Hbn) as (Hda & Hua & Hai); rewrite ?(bm_addr _ _ _ _ _ _ _ _ M); [by apply M |].
  rewrite (bm_addr _ _ _ _ _ _ _ _ M) in Hda, Hua, Hai.
  assert (Hblk : ∀ b, (b < NDIRECT + NINDIRECT)%nat → blk_addr V2 ip1 b = blk_addr V1 ip1 b).
  { intros b Hb. unfold blk_addr. destruct (b <? NDIRECT)%nat; [done |]. destruct (_ =? 0); [done |].
    unfold V2. by rewrite fn_lookup_insert_ne. }
  assert (Hold : ∀ b, (b < NDIRECT + NINDIRECT)%nat → b ≠ bn → blk_addr V ip b ≠ 0 → V2 (blk_addr V ip b) = V (blk_addr V ip b)).
  { intros b Hb Hne Hnz. unfold V2. rewrite fn_lookup_insert_ne.
    - apply (keep_blk k (λ c, c = ind_addr ip) V V1 sb); try done; [apply M |]. by apply (fo_blk _ _ _ F).
    - rewrite <- (bm_addr _ _ _ _ _ _ _ _ M), <- (bm_same _ _ _ _ _ _ _ _ M b Hb Hne). intros Heq.
      apply Hne. symmetry. apply (fo_inj _ _ _ F1); try done. rewrite (bm_addr _ _ _ _ _ _ _ _ M). apply M. }
  assert (Cput : fchange sb (λ c, c = a) 0 V1 V2) by (by apply fchange_put).
  assert (Hdiv : ∀ x, (o ≤ x < BSIZE)%nat → ((bn * BSIZE + x) / BSIZE)%nat = bn).
  { intros x Hx. apply div_blk. lia. }
  split.
  - unfold FILEMAX, BSIZE in *. lia.
  - apply (fchange_mono sb (owned V ip) (owned V ip) (k + 0) k); [lia | done |].
    apply (fchange_trans sb (owned V ip) (λ c, c = a) k 0 V V1 V2 L); [| | done].
    + intros c ->. destruct (decide (blk_addr V ip bn = 0)) as [Hz | Hnz].
      * right. by apply (bm_new _ _ _ _ _ _ _ _ M).
      * left. split; [apply M |]. right. exists bn. split; [done | by apply (bm_old _ _ _ _ _ _ _ _ M)].
    + apply (fchange_mono sb (λ c, c = ind_addr ip) _ k k); [done | | apply M].
      intros c Hc ->. split; [| by left]. pose proof (data_block_range sb _ L Hc). lia.
  - intros x Hx. pose proof (off_blk x Hx) as Hbx. unfold byte_at, file_byte. rewrite Hblk by done.
    destruct (decide (x / BSIZE = bn)%nat) as [Hxb | Hxb].
    + rewrite Hxb, (bm_addr _ _ _ _ _ _ _ _ M), (proj2 (Z.eqb_neq _ _)) by apply M. unfold V2.
      rewrite fn_lookup_insert. pose proof (Nat.div_mod_eq x BSIZE) as Hdm. rewrite Hxb in Hdm.
      pose proof (Nat.mod_upper_bound x BSIZE ltac:(done)) as Hmod. destruct (HV1 a) as [Hl1 _].
      rewrite nth_lookup. case_decide as Hr.
      * unfold blk_put. rewrite lookup_app_r by (rewrite length_take; lia).
        rewrite length_take, lookup_app_l, nth_lookup by lia. do 2 f_equal. lia.
      * rewrite blk_put_other by lia. rewrite <- nth_lookup. destruct (Z.eqb_spec (blk_addr V ip bn) 0) as [Hz | Hnz].
        { destruct (bm_new _ _ _ _ _ _ _ _ M Hz) as [-> _]. rewrite nth_lookup.
          destruct (replicate _ _ !! _) eqn:E; [by apply lookup_replicate in E as [-> _] | done]. }
        rewrite (bm_old _ _ _ _ _ _ _ _ M Hnz). f_equal.
        apply (keep_blk k (λ c, c = ind_addr ip) V V1 sb); try done; [apply M |]. by apply (fo_blk _ _ _ F).
    + rewrite (bm_same _ _ _ _ _ _ _ _ M) by done. rewrite decide_False.
      2: { intros Hr. apply Hxb, div_blk. lia. }
      destruct (Z.eqb_spec (blk_addr V ip (x / BSIZE)) 0) as [| Hnz]; [done |]. by rewrite Hold.
  - intros b Hb Hnz. rewrite Hblk by done. destruct (decide (b = bn)) as [-> | Hne].
    + rewrite (bm_addr _ _ _ _ _ _ _ _ M). by apply M.
    + by apply M.
  - intros x Hx. rewrite (proj1 (div_blk x bn)) by lia. rewrite Hblk, (bm_addr _ _ _ _ _ _ _ _ M) by done. apply M.
  - intros c [Hnz [-> | (b & Hb & ->)]].
    + destruct (bm_ind _ _ _ _ _ _ _ _ M) as [Heq | ?]; [| by right]. rewrite Heq in *. left. split; [done | by left].
    + rewrite Hblk in * by done. destruct (decide (b = bn)) as [-> | Hne].
      * rewrite (bm_addr _ _ _ _ _ _ _ _ M) in *. destruct (decide (blk_addr V ip bn = 0)) as [Hz | Hnz'].
        { right. by apply (bm_new _ _ _ _ _ _ _ _ M). }
        left. split; [done |]. right. exists bn. split; [done | by apply M].
      * rewrite (bm_same _ _ _ _ _ _ _ _ M) in * by done. left. split; [done |]. right. by exists b.
  - apply (file_ok_grow 0 (λ c, c = a) V1 V2 sb ip1 ip1 O L F1 Cput); [apply F1 | apply F1 | | by left].
    intros b Hb. left. by apply Hblk.
  - apply M.
Qed.
(** The caller's data: [src_bytes] delivers it as long as the memory and the
    address space stay what they are. *)
Definition supplies (src : source) (data : list Z) s : Prop :=
  ∀ tot m s', k_mem s' = k_mem s → cr3 (k_cpu s') = cr3 (k_cpu s) → 0 ≤ tot → 0 ≤ m →
    tot + m ≤ Z.of_nat (length data) →
    src_bytes src tot m s' = Done (take (Z.to_nat m) (drop (Z.to_nat tot) data)) s'.
Lemma supplies_local data s : supplies (FromLocal data) data s.
Proof. by intros tot m s'. Qed.
Lemma supplies_same src data s s' :
  k_mem s' = k_mem s → cr3 (k_cpu s') = cr3 (k_cpu s) → supplies src data s → supplies src data s'.
Proof. intros Hm Hc Hs tot m s'' ? ?. apply Hs; congruence. Qed.

Context (i : nat) (pid : Z) (cap : nat).

Lemma writei_loop_run src data ii fuel : ∀ off tot V hs ip N s,
  layout (k_sb s) → tx i pid cap V hs [] s → (0 < patience)%nat →
  let n := Z.of_nat (length data) in
  (tot < n → (n - tot + off mod ZBSIZE + ZBSIZE - 1) / ZBSIZE ≤ Z.of_nat N) → (N < fuel)%nat →
  (length hs + 6 * N ≤ cap)%nat → (2 * N ≤ length (free_blocks V (k_sb s)))%nat → meta_used V (k_sb s) →
  k_icache s !! ii = Some ip → file_ok V (k_sb s) ip → Forall is_byte data → supplies src data s →
  0 ≤ tot ≤ n → 0 ≤ off → off + (n - tot) ≤ MAXFILE * ZBSIZE →
  ∃ s' V' hs' ip', writei_loop (BD := memide) fuel ii src off tot n s = Done (off + (n - tot)) s' ∧
    tx i pid cap V' hs' [] s' ∧
    written (2 * N) V (k_sb s) ip (Z.to_nat off) (drop (Z.to_nat tot) data) V' ip' ∧ ino_step ii ip' s s' ∧
    (length hs' ≤ length hs + 6 * N)%nat.
Proof.
  induction fuel as [| fuel IH]; intros off tot V hs ip N s L T Hfu n HN HNf Hroom Hfree HM Hi F Hby Hsup Htot Hoff Hmax;
    [lia | cbn [writei_loop]].
  assert (Hmax' : (Z.to_nat off + (Z.to_nat n - Z.to_nat tot) ≤ FILEMAX)%nat).
  { unfold FILEMAX, MAXFILE, ZBSIZE, NDIRECT, NINDIRECT, BSIZE in *. lia. }
  set (sb := k_sb s) in *. pose proof (tx_view _ _ _ _ _ _ _ T) as HV.
  destruct (Z.ltb_spec tot n) as [Hlt | Hge].
  2: { exists s, V, hs, ip. rewrite drop_ge by (unfold n in *; lia). replace (off + (n - tot)) with off by lia.
       split; [done |]. split; [done |]. split; [| split; [| lia]].
       - pose proof (written_nil V sb ip (Z.to_nat off) ltac:(lia) F) as [? C ? ? ? ? ? ?].
         split; try done. by apply (fchange_mono sb (owned V ip) _ 0); [lia | |].
       - by apply (ino_step_tx ii ip s s s Hi). }
  specialize (HN Hlt). pose proof (Z.mod_pos_bound off ZBSIZE ltac:(done)) as Hmb.
  assert (HN1 : (1 ≤ N)%nat).
  { assert (1 ≤ (n - tot + off mod ZBSIZE + ZBSIZE - 1) / ZBSIZE); [| lia].
    apply Z.div_le_lower_bound; unfold ZBSIZE in *; lia. }
  destruct N as [| N]; [lia |].
  rewrite (get_inode_bind _ _ ip) by done.
  destruct (off_block off Hoff) as (Hq1 & Hm1 & Hq). rewrite Hq. set (bn := (Z.to_nat off / BSIZE)%nat) in *.
  assert (Hbn : (bn < NDIRECT + NINDIRECT)%nat) by (apply off_blk; unfold n in *; lia).
  destruct (bmap_run i pid cap V hs ii ip bn s L T Hfu ltac:(lia) HM ltac:(fold sb; lia) Hi F Hbn)
    as (a & s1 & V1 & hs1 & ip1 & R1 & T1 & M & S1 & Hl1). fold sb in M.
  rewrite (bind_done _ _ _ _ _ R1), (in_dev _ _ (fo_ino _ _ _ F)).
  pose proof (bm_ok _ _ _ _ _ _ _ _ M) as F1. pose proof (tx_view _ _ _ _ _ _ _ T1) as HV1.
  destruct (fo_blk _ _ _ F1 bn Hbn) as (Hda & _); rewrite ?(bm_addr _ _ _ _ _ _ _ _ M); [by apply M |].
  rewrite (bm_addr _ _ _ _ _ _ _ _ M) in Hda. destruct (data_block_range sb a L Hda) as [_ Ha].
  set (m := Z.min (n - tot) (ZBSIZE - off mod ZBSIZE)).
  set (l := take (Z.to_nat m) (drop (Z.to_nat tot) data)).
  assert (Hll : length l = Z.to_nat m) by (unfold l; rewrite length_take, length_drop; unfold n, m in *; lia).
  assert (Hfit : (Z.to_nat (off mod ZBSIZE) + length l ≤ BSIZE)%nat) by (rewrite Hll; unfold m, ZBSIZE, BSIZE in *; lia).
  destruct (tx_change i pid cap V1 hs1 [] a (λ d, blk_put d (Z.to_nat (off mod ZBSIZE)) l) s1 T1 Hfu ltac:(cbn; lia))
    as (j & s2 & s3 & R2 & _ & S2 & _ & _ & R3 & T3 & S3 & _); [lia | apply not_held_nil | lia | |].
  { intros Hok. apply block_ok_put; [done | | done]. unfold l. by apply Forall_take, Forall_drop. }
  rewrite (bind_done _ _ _ _ _ R2). fold m.
  assert (Hsrc : src_bytes src tot m s2 = Done l s2).
  { apply Hsup; [| | lia | unfold m; lia | fold n; unfold m; lia].
    - rewrite (rs_mem _ _ (ts_rest _ _ S2)). apply S1.
    - rewrite (rs_cr3 _ _ (ts_rest _ _ S2)). apply S1. }
  rewrite (bind_done _ _ _ _ _ Hsrc), R3.
  assert (Hu : u32 (off + m) = off + m).
  { apply u32_id. unfold is_u32, m, MAXFILE, ZBSIZE in *. lia. }
  rewrite Hu. set (V2 := <[a := _]> V1) in *.
  pose proof (written_block 2 V sb ip bn a V1 ip1 (Z.to_nat (off mod ZBSIZE)) l L HV HV1 F Hbn M Hfit) as W1.
  fold V2 in W1. replace (bn * BSIZE + Z.to_nat (off mod ZBSIZE))%nat with (Z.to_nat off) in W1.
  2: { rewrite Hm1. pose proof (Nat.div_mod_eq (Z.to_nat off) BSIZE). unfold bn. lia. }
  assert (I3 : ino_step ii ip1 s s3).
  { apply (ino_step_trans ii ip1 ip1 s s1); [done |]. apply (ino_step_tx ii ip1 s1 s1 s3); [| done].
    rewrite (is_icache _ _ _ _ S1). apply list_lookup_insert_eq. by eapply lookup_lt_Some. }
  assert (Hsb3 : k_sb s3 = sb) by apply I3.
  assert (Hi3 : k_icache s3 !! ii = Some ip1).
  { rewrite (is_icache _ _ _ _ I3). apply list_lookup_insert_eq. by eapply lookup_lt_Some. }
  pose proof (wr_change _ _ _ _ _ _ _ _ W1) as C1. pose proof (fc_free _ _ _ _ _ C1) as Hfr1.
  pose proof (add_blk_length hs1 a) as Hl2.
  destruct (IH (off + m) (tot + m) V2 (add_blk hs1 a) ip1 N s3) as (s4 & V4 & hs4 & ip4 & R4 & T4 & W4 & S4 & Hl4);
    rewrite ?Hsb3; try done; [| lia | lia | lia | by apply (meta_used_change sb (owned V ip) 2 V) | apply W1 | | unfold m; lia | unfold m; lia | fold n; unfold m; lia |].
  { fold n. intros Hn. assert (Hm' : m = ZBSIZE - off mod ZBSIZE) by (unfold m in *; lia).
    assert (Hz : (off + m) mod ZBSIZE = 0).
    { rewrite Hm'. replace (off + (ZBSIZE - off mod ZBSIZE)) with ((off / ZBSIZE + 1) * ZBSIZE); [by apply Z.mod_mul |].
      pose proof (Z.div_mod off ZBSIZE ltac:(done)). lia. }
    rewrite Hz. replace (n - tot + off mod ZBSIZE + ZBSIZE - 1) with ((n - (tot + m) + 0 + ZBSIZE - 1) + 1 * ZBSIZE) in HN by lia.
    rewrite Z.div_add in HN by done. lia. }
  { apply (supplies_same _ _ s); [apply I3 | apply I3 | done]. }
  rewrite Hsb3 in W4. exists s4, V4, hs4, ip4. fold n in R4. rewrite R4. split; [f_equal; lia |]. split; [done |].
  split; [| split; [by apply (ino_step_trans ii ip1 ip4 s s3) | lia]].
  replace (drop (Z.to_nat tot) data) with (l ++ drop (Z.to_nat (tot + m)) data).
  2: { unfold l. replace (Z.to_nat (tot + m)) with (Z.to_nat tot + Z.to_nat m)%nat by (unfold m; lia).
       rewrite <- drop_drop. apply take_drop. }
  replace (2 * S N)%nat with (2 + 2 * N)%nat by lia.
  apply (written_app 2 (2 * N) V V2 V4 sb ip ip1 ip4); [done | done |]. rewrite Hll.
  replace (Z.to_nat off + Z.to_nat m)%nat with (Z.to_nat (off + m)) by (unfold m; lia). done.
Qed.

(** ** The inode on disk *)

(** Views that agree from the free map on. *)
Definition same_data (sb : superblock) V V' : Prop := ∀ c, sb_bmapstart sb ≤ c → V' c = V c.

Lemma same_data_in_use sb V V' c :
  layout sb → same_data sb V V' → 0 ≤ c < sb_size sb → in_use V' sb c = in_use V sb c.
Proof. intros L Hs Hc. unfold in_use. pose proof (BBLOCK_meta sb c L Hc). by rewrite Hs by lia. Qed.
Lemma data_block_bmap sb c : layout sb → data_block sb c → sb_bmapstart sb ≤ c.
Proof.
  intros L Hc. unfold data_block, data_start in Hc. pose proof (ly_size _ L).
  assert (0 ≤ (sb_size sb - 1) / BPB) by (apply Z.div_pos; [lia | done]). lia.
Qed.
Lemma same_data_blk sb V V' ip b :
  layout sb → same_data sb V V' → file_ok V sb ip → blk_addr V' ip b = blk_addr V ip b.
Proof.
  intros L Hs F. unfold blk_addr. destruct (b <? NDIRECT)%nat; [done |].
  destruct (Z.eqb_spec (ind_addr ip) 0) as [| Hnz]; [done |].
  rewrite Hs; [done |]. by apply data_block_bmap, (fo_ind _ _ _ F).
Qed.
Lemma same_data_file sb V V' ip ip' :
  layout sb → same_data sb V V' → i_dev ip' = i_dev ip → i_addrs ip' = i_addrs ip → file_ok V sb ip → file_ok V' sb ip'.
Proof.
  intros L Hs Hd Ha F. pose proof F as [[? ? ? ?] Hi Hb Hj].
  assert (Hind : ind_addr ip' = ind_addr ip) by (unfold ind_addr; by rewrite Ha).
  assert (Hblk : ∀ b, blk_addr V' ip' b = blk_addr V ip b).
  { intros b. rewrite <- (same_data_blk sb V V' ip b L Hs F). unfold blk_addr, ind_addr. by rewrite Ha. }
  assert (Huse : ∀ c, data_block sb c → in_use V' sb c = in_use V sb c).
  { intros c Hc. apply same_data_in_use; [done | done |]. by apply data_block_range. }
  split; [split; [congruence | congruence | by rewrite Hind |] | | |].
  - intros b. rewrite Hblk. auto.
  - rewrite Hind. intros (? & ?)%Hi. by rewrite Huse.
  - intros b Hlt. rewrite Hblk, Hind. intros (? & ? & ?)%Hb; [| done]. by rewrite Huse.
  - intros b c. rewrite !Hblk. apply Hj.
Qed.

Lemma IBLOCK_meta sb inum : layout sb → 0 ≤ inum < sb_ninodes sb →
  0 ≤ IBLOCK inum sb < sb_bmapstart sb ∧ IBLOCK inum sb < disksize.
Proof.
  intros L Hn. destruct (ly_inode _ L) as (H1 & H2 & H3). pose proof (ly_disk _ L). pose proof (ly_bmap _ L).
  pose proof (ly_size _ L). assert (0 ≤ (sb_size sb - 1) / BPB) by (apply Z.div_pos; [lia | done]).
  assert (0 ≤ inum / IPB) by (apply Z.div_pos; [lia | done]).
  assert (inum / IPB ≤ (sb_ninodes sb - 1) / IPB) by (apply Z.div_le_mono; [done | lia]).
  unfold IBLOCK. rewrite u32_id by (unfold is_u32; lia). lia.
Qed.

Lemma encode_dinode_ok ip : length (i_addrs ip) = (NDIRECT + 1)%nat →
  length (encode_dinode ip) = sizeof_dinode ∧ Forall is_byte (encode_dinode ip).
Proof.
  intros Hl. unfold encode_dinode. split.
  - rewrite !length_app, concat_words_length, Hl. done.
  - repeat apply Forall_app_2; try apply half_bytes_ok; [apply word_bytes_ok |].
    apply Forall_concat, Forall_fmap, Forall_forall. intros x _. apply word_bytes_ok.
Qed.

(** Inode [ip] written to its slot of the disk. *)
Definition ino_stored V (sb : superblock) (ip : inode) : Z → list Z :=
  <[IBLOCK (i_inum ip) sb := blk_put (V (IBLOCK (i_inum ip) sb)) (dip_off (i_inum ip)) (encode_dinode ip)]> V.

Lemma iupdate_run V hs ii ip s :
  layout (k_sb s) → tx i pid cap V hs [] s → (0 < patience)%nat → (length hs < cap)%nat →
  k_icache s !! ii = Some ip → i_dev ip = 1 → length (i_addrs ip) = (NDIRECT + 1)%nat →
  0 ≤ i_inum ip < sb_ninodes (k_sb s) →
  ∃ s', iupdate (BD := memide) ii s = Done tt s' ∧
    tx i pid cap (ino_stored V (k_sb s) ip) (add_blk hs (IBLOCK (i_inum ip) (k_sb s))) [] s' ∧ tx_step s s'.
Proof.
  intros L T Hfu Hroom Hi Hd Ha Hn. destruct (IBLOCK_meta _ _ L Hn) as [HB1 HB2].
  destruct (encode_dinode_ok ip Ha) as [Hel Heb].
  destruct (tx_change i pid cap V hs [] (IBLOCK (i_inum ip) (k_sb s))
    (λ d, blk_put d (dip_off (i_inum ip)) (encode_dinode ip)) s T Hfu ltac:(cbn; lia) ltac:(lia))
    as (j & s1 & s2 & R1 & _ & S1 & _ & R2 & _ & T2 & S2 & _); [apply not_held_nil | lia | |].
  { intros Hok. apply block_ok_put; [done | done |]. rewrite Hel. unfold dip_off, IPB, sizeof_dinode, BSIZE.
    pose proof (Z.mod_pos_bound (i_inum ip) 8). lia. }
  exists s2. split; [| by split]. unfold iupdate, get_sb.
  rewrite (get_inode_bind _ _ ip), bind_gets, Hd, (bind_done _ _ _ _ _ R1) by done.
  rewrite (get_inode_bind _ _ ip); [done |]. by rewrite (rs_icache _ _ (ts_rest _ _ S1)).
Qed.

(** ** [writei] *)

(** A file whose blocks have not changed is as it was. *)
Lemma same_blk V V' ip b : (∀ c, owned V ip c → V' c = V c) → blk_addr V' ip b = blk_addr V ip b.
Proof.
  intros Hkeep. unfold blk_addr. destruct (b <? NDIRECT)%nat; [done |].
  destruct (Z.eqb_spec (ind_addr ip) 0); [done |]. rewrite Hkeep; [done |]. split; [done | by left].
Qed.
Lemma same_content V V' ip :
  (∀ c, owned V ip c → V' c = V c) → covered V ip → covered V' ip ∧ content V' ip = content V ip.
Proof.
  intros Hkeep [Hmax Hcov]. split; [split; [done |]; intros b Hb; rewrite (same_blk V) by done; by apply Hcov |].
  unfold content, file_bytes. apply list_fmap_ext. intros j o Ho%lookup_seq. destruct Ho as [-> Ho].
  unfold file_byte. rewrite (same_blk V) by done. cbn [plus] in *. rewrite Hkeep; [done |]. split.
  - apply Hcov. pose proof (Nat.div_mod_eq j BSIZE). lia.
  - right. exists (j / BSIZE)%nat. split; [| done]. apply off_blk.
    unfold FILEMAX, MAXFILE, ZBSIZE, NDIRECT, NINDIRECT, BSIZE in *. lia.
Qed.

(** A file that owns none of the changed blocks is as it was. *)
Lemma other_file sb own k V V' ip :
  layout sb → fchange sb own k V V' → file_ok V sb ip → covered V ip → (∀ c, owned V ip c → ¬ own c) →
  file_ok V' sb ip ∧ covered V' ip ∧ content V' ip = content V ip.
Proof.
  intros L C F Hcov Hown.
  assert (Hkeep : ∀ c, owned V ip c → V' c = V c).
  { intros c Hc. destruct (owned_data _ _ _ _ F Hc). by apply (fc_keep _ _ _ _ _ C), Hown. }
  split; [| by apply same_content].
  apply (file_ok_grow k own V V' sb ip ip O L F C); [apply F | apply F | | by left].
  intros b _. left. by apply same_blk.
Qed.

(** The content after [d] has been stored at [off]. *)
Lemma written_content k V sb ip off d V' ip' :
  written k V sb ip off d V' ip' → covered V ip → (off ≤ Z.to_nat (i_size ip))%nat →
  let sz := Nat.max (Z.to_nat (i_size ip)) (off + length d) in
  file_bytes V' ip' 0 sz = take off (content V ip) ++ d ++ drop (off + length d) (content V ip) ∧
  ∀ b, (b * BSIZE < sz)%nat → blk_addr V' ip' b ≠ 0.
Proof.
  intros W [Hmax Hcov] Hoff sz. pose proof (wr_range _ _ _ _ _ _ _ _ W) as Hr.
  assert (Hsz : (Z.to_nat (i_size ip) ≤ FILEMAX)%nat).
  { unfold FILEMAX, MAXFILE, ZBSIZE, NDIRECT, NINDIRECT, BSIZE in *. lia. }
  assert (Hlc : length (content V ip) = Z.to_nat (i_size ip)) by apply file_bytes_length.
  assert (Hnz : ∀ b, (b * BSIZE < sz)%nat → blk_addr V' ip' b ≠ 0).
  { intros b Hb. assert (Hbn : (b < NDIRECT + NINDIRECT)%nat) by (unfold FILEMAX in *; nia).
    destruct (decide (b * BSIZE < Z.to_nat (i_size ip))%nat) as [Hin |].
    - rewrite (wr_addr _ _ _ _ _ _ _ _ W) by auto. auto.
    - pose proof (wr_full _ _ _ _ _ _ _ _ W (b * BSIZE) ltac:(lia)) as H.
      by rewrite (Nat.div_mul b BSIZE) in H by done. }
  assert (Hzero : ∀ V ip o, blk_addr V ip (o / BSIZE) ≠ 0 → byte_at V ip o = file_byte V ip o).
  { intros V0 ip0 o H. unfold byte_at. by rewrite (proj2 (Z.eqb_neq _ _)). }
  split; [| done]. apply list_eq. intros o.
  destruct (decide (o < sz)%nat) as [Ho | Ho].
  2: { rewrite !lookup_ge_None_2; [done | |].
       - rewrite !length_app, length_take, length_drop, Hlc. lia.
       - rewrite file_bytes_length. lia. }
  unfold file_bytes. rewrite list_lookup_fmap, lookup_seq_lt by done. cbn [fmap option_fmap option_map plus].
  assert (Hq : (o / BSIZE * BSIZE ≤ o)%nat) by (pose proof (Nat.div_mod_eq o BSIZE); lia).
  rewrite <- Hzero by (apply Hnz; lia). rewrite (wr_byte _ _ _ _ _ _ _ _ W) by lia.
  assert (Hold : (o < Z.to_nat (i_size ip))%nat → content V ip !! o = Some (byte_at V ip o)).
  { intros Hlt. rewrite Hzero by (apply Hcov; lia). unfold content, file_bytes.
    by rewrite list_lookup_fmap, lookup_seq_lt. }
  case_decide as Hin.
  - rewrite lookup_app_r by (rewrite length_take; lia). rewrite length_take, lookup_app_l by lia.
    replace (o - off `min` length (content V ip))%nat with (o - off)%nat by lia.
    rewrite nth_lookup. destruct (lookup_lt_is_Some_2 d (o - off)) as [x ->]; [lia | done].
  - destruct (decide (o < off)%nat).
    + rewrite lookup_app_l by (rewrite length_take; lia). rewrite lookup_take_lt by lia. symmetry. apply Hold. lia.
    + rewrite lookup_app_r by (rewrite length_take; lia). rewrite length_take, lookup_app_r by lia.
      rewrite lookup_drop.
      replace (off + length d + (o - off `min` length (content V ip) - length d))%nat with o by lia.
      symmetry. apply Hold. lia.
Qed.

(** A transaction at work on inode [ii]: everything [writei] relies on. *)
Record ready V hs ii ip s : Prop := {
  rdy_layout : layout (k_sb s);
  rdy_tx : tx i pid cap V hs [] s;
  rdy_fuel : (0 < patience)%nat;
  rdy_meta : meta_used V (k_sb s);
  rdy_ip : k_icache s !! ii = Some ip;
  rdy_type : i_type ip ≠ T_DEV;
  rdy_inum : 0 ≤ i_inum ip < sb_ninodes (k_sb s);
  rdy_file : file_ok V (k_sb s) ip;
  rdy_covered : covered V ip;
  rdy_size : 0 ≤ i_size ip }.

(** The number of blocks a write of [n] bytes at [off] touches. *)
Definition touched (off n : Z) : nat := Z.to_nat ((n + off mod ZBSIZE + ZBSIZE - 1) / ZBSIZE).

Lemma writei_run src data ii ip V hs off s :
  ready V hs ii ip s → Forall is_byte data → supplies src data s → is_u32 off →
  let n := Z.of_nat (length data) in is_u32 n →
  let N := touched off n in
  (length hs + 6 * N + 1 ≤ cap)%nat → (2 * N ≤ length (free_blocks V (k_sb s)))%nat →
  if decide (i_size ip < off ∨ MAXFILE * ZBSIZE < off + n) then writei (BD := memide) ii src off n s = Done (-1) s
  else ∃ s' V' hs' ip', writei (BD := memide) ii src off n s = Done n s' ∧
    ready V' hs' ii ip' s' ∧ ino_step ii ip' s s' ∧ (length hs' ≤ length hs + 6 * N + 1)%nat ∧
    ip' = ip <| i_addrs := i_addrs ip' |> <| i_size := Z.max (i_size ip) (off + n) |> ∧
    content V' ip' = take (Z.to_nat off) (content V ip) ++ data ++ drop (Z.to_nat (off + n)) (content V ip) ∧
    (i_size ip < off + n → take sizeof_dinode (drop (dip_off (i_inum ip)) (V' (IBLOCK (i_inum ip) (k_sb s))))
       = encode_dinode ip') ∧
    (∀ ip2, file_ok V (k_sb s) ip2 → covered V ip2 → (∀ c, owned V ip2 c → ¬ owned V ip c) →
       file_ok V' (k_sb s) ip2 ∧ content V' ip2 = content V ip2) ∧
    (∀ c, c < sb_bmapstart (k_sb s) → c ≠ IBLOCK (i_inum ip) (k_sb s) → V' c = V c).
Proof.
  intros [L T Hfu HM Hi Hty Hin F Hcov Hs0] Hby Hsup Hoff n Hn N Hroom Hfree. set (sb := k_sb s) in *.
  unfold writei. rewrite (get_inode_bind _ _ ip) by done. rewrite (proj2 (Z.eqb_neq _ _)) by done.
  pose proof Hcov as [Hmax _]. unfold is_u32 in *.
  assert (Hmaxu : MAXFILE * ZBSIZE = 71680) by done.
  destruct (decide (i_size ip < off ∨ MAXFILE * ZBSIZE < off + n)) as [Hbad | Hok].
  { destruct (Z.gtb_spec off (i_size ip)); [done |]. destruct Hbad as [? | Hbad]; [lia |]. cbn [orb].
    destruct (Z.ltb_spec (u32 (off + n)) off); [done |].
    destruct (decide (off + n < 4294967296)).
    - rewrite u32_id by (unfold is_u32; lia). by rewrite (proj2 (Z.gtb_lt _ _)) by lia.
    - exfalso. unfold u32 in *. rewrite <- (Z.mod_add _ (-1)), Z.mod_small in * by lia. lia. }
  rewrite u32_id by (unfold is_u32; lia).
  destruct (Z.gtb_spec off (i_size ip)); [lia |]. rewrite (proj2 (Z.ltb_ge _ _)) by lia. cbn [orb].
  destruct (Z.gtb_spec (off + n) (MAXFILE * ZBSIZE)); [lia |].
  pose proof (Z.mod_pos_bound off ZBSIZE ltac:(done)) as Hmb.
  assert (HNz : 0 ≤ (n + off mod ZBSIZE + ZBSIZE - 1) / ZBSIZE) by (apply Z.div_pos; [unfold ZBSIZE in *; lia | done]).
  destruct (writei_loop_run src data ii (S (S (S (Z.to_nat (n / ZBSIZE))))) off 0 V hs ip N s L T Hfu)
    as (s1 & V1 & hs1 & ip1 & R1 & T1 & W & S1 & Hl1); try done; [| | lia | fold n; lia | lia | fold n; lia |].
  { intros _. fold n. rewrite Z.sub_0_r. unfold N, touched. lia. }
  { unfold N, touched. assert ((n + off mod ZBSIZE + ZBSIZE - 1) / ZBSIZE < n / ZBSIZE + 3).
    { pose proof (Z.div_mod n ZBSIZE ltac:(done)). pose proof (Z.mod_pos_bound n ZBSIZE ltac:(done)).
      apply Z.div_lt_upper_bound; unfold ZBSIZE in *; lia. }
    assert (0 ≤ n / ZBSIZE) by (apply Z.div_pos; [lia | done]). lia. }
  fold n in R1. rewrite Z.sub_0_r in R1. rewrite (bind_done _ _ _ _ _ R1).
  fold sb in W. cbn [Z.to_nat drop] in W. change (drop (Z.to_nat 0) data) with data in W.
  assert (Hi1 : k_icache s1 !! ii = Some ip1).
  { rewrite (is_icache _ _ _ _ S1). apply list_lookup_insert_eq. by eapply lookup_lt_Some. }
  rewrite (get_inode_bind _ _ ip1) by done.
  pose proof (wr_ip _ _ _ _ _ _ _ _ W) as Hip1.
  assert (Hsz1 : i_size ip1 = i_size ip) by (by rewrite Hip1).
  assert (Hdev1 : i_dev ip1 = 1) by apply (wr_ok _ _ _ _ _ _ _ _ W).
  assert (Hinum1 : i_inum ip1 = i_inum ip) by (by rewrite Hip1).
  pose proof (is_sb _ _ _ _ S1) as Hsb1. fold sb in Hsb1.
  pose proof (meta_used_change sb _ _ V V1 L (wr_change _ _ _ _ _ _ _ _ W) HM) as HM1.
  destruct (written_content _ _ _ _ _ _ _ _ W Hcov ltac:(lia)) as [Hcon Hnz].
  replace (Z.to_nat off + length data)%nat with (Z.to_nat (off + n)) in * by lia.
  assert (Hothers : ∀ ip2, file_ok V sb ip2 → covered V ip2 → (∀ c, owned V ip2 c → ¬ owned V ip c) →
    file_ok V1 sb ip2 ∧ covered V1 ip2 ∧ content V1 ip2 = content V ip2).
  { intros ip2 F2 Hc2 Ho. by apply (other_file sb (owned V ip) (2 * N) V V1 ip2 L); [apply W | | |]. }
  rewrite Hsz1. destruct (decide (i_size ip < off + n)) as [Hgrow | Hkeep].
  2: { (* within the file *)
    replace ((n >? 0) && (off + n >? i_size ip))%bool with false.
    2: { symmetry. apply andb_false_iff. right. rewrite Z.gtb_ltb. apply Z.ltb_ge. lia. }
    cbn [mwhen]. rewrite bind_ret, i32_id by (unfold is_i32; lia).
    exists s1, V1, hs1, ip1. split; [done |]. rewrite Z.max_l by lia.
    replace (Nat.max _ _) with (Z.to_nat (i_size ip)) in Hcon, Hnz by lia.
    split; [| split; [done | split; [lia | split; [rewrite Hip1; by destruct ip | split; [| split; [lia | split]]]]]].
    - split; rewrite ?Hsb1, ?Hinum1, ?Hsz1; try done; [by rewrite Hip1 | apply W |].
      split; [by rewrite Hsz1 | by rewrite Hsz1].
    - unfold content. by rewrite Hsz1.
    - intros ip2 F2 Hc2 Ho. by destruct (Hothers ip2 F2 Hc2 Ho) as (? & _ & ?).
    - intros c Hc _. by apply (fc_meta _ _ _ _ _ (wr_change _ _ _ _ _ _ _ _ W)). }
  replace ((n >? 0) && (off + n >? i_size ip))%bool with true.
  2: { symmetry. apply andb_true_iff. rewrite !Z.gtb_lt. lia. }
  cbn [mwhen]. rewrite bind_assoc, (upd_inode_bind _ _ _ ip1) by done.
  set (ip2 := ip1 <| i_size := off + n |>). set (s2 := s1 <| k_icache ::= _ |>).
  assert (I2 : ino_step ii ip2 s s2) by (apply (ino_step_trans ii ip1 ip2 s s1); [done | by split]).
  assert (Hi2 : k_icache s2 !! ii = Some ip2) by (apply list_lookup_insert_eq; by eapply lookup_lt_Some).
  assert (Hsb2 : k_sb s2 = sb) by apply I2.
  assert (Hal : length (i_addrs ip2) = (NDIRECT + 1)%nat) by apply (fo_ino _ _ _ (wr_ok _ _ _ _ _ _ _ _ W)).
  destruct (iupdate_run V1 hs1 ii ip2 s2) as (s3 & R3 & T3 & S3); rewrite ?Hsb2;
    [done | by apply tx_icache | done | lia | done | done | done | by change (i_inum ip2) with (i_inum ip1); rewrite Hinum1 |].
  rewrite (bind_done _ _ _ _ _ R3), i32_id by (unfold is_i32; lia).
  rewrite Hsb2 in T3. change (i_inum ip2) with (i_inum ip1) in T3. rewrite Hinum1 in T3.
  set (V3 := ino_stored V1 sb ip2) in *.
  assert (HV3 : V3 = <[IBLOCK (i_inum ip) sb := blk_put (V1 (IBLOCK (i_inum ip) sb)) (dip_off (i_inum ip)) (encode_dinode ip2)]> V1).
  { unfold V3, ino_stored. change (i_inum ip2) with (i_inum ip1). by rewrite Hinum1. }
  destruct (IBLOCK_meta sb (i_inum ip) L Hin) as [HB1 HB2].
  assert (Hsame : same_data sb V1 V3).
  { intros c Hc. rewrite HV3, fn_lookup_insert_ne by lia. done. }
  assert (Hdata : ∀ c, data_block sb c → V3 c = V1 c) by (intros c Hc; by apply Hsame, data_block_bmap).
  pose proof (wr_ok _ _ _ _ _ _ _ _ W) as F1.
  assert (F3 : file_ok V3 sb ip2) by (by apply (same_data_file sb V1 V3 ip1 ip2)).
  assert (Hblk3 : ∀ b, blk_addr V3 ip2 b = blk_addr V1 ip1 b).
  { intros b. rewrite <- (same_data_blk sb V1 V3 ip1 b L Hsame F1). done. }
  assert (Hown : ∀ ipx, file_ok V1 sb ipx → ∀ c, owned V1 ipx c → V3 c = V1 c).
  { intros ipx Fx c Hc. by apply Hdata, (owned_data V1 sb ipx c Fx Hc). }
  replace (Nat.max _ _) with (Z.to_nat (off + n)) in Hcon, Hnz by lia.
  exists s3, V3, (add_blk hs1 (IBLOCK (i_inum ip) sb)), ip2. split; [done |].
  split; [| split; [| split; [| split; [| split; [| split; [| split]]]]]].
  - assert (Hsb3 : k_sb s3 = sb) by (by rewrite (rs_sb _ _ (ts_rest _ _ S3))).
    split; rewrite ?Hsb3; try done.
    + intros c Hc Hcs. rewrite (same_data_in_use sb V1) by (done || lia). by apply HM1.
    + by rewrite (rs_icache _ _ (ts_rest _ _ S3)).
    + change (i_type ip2) with (i_type ip1). by rewrite Hip1.
    + change (i_inum ip2) with (i_inum ip1). by rewrite Hinum1.
    + split; [cbn; lia |]. intros b Hb. rewrite Hblk3. apply Hnz. exact Hb.
    + cbn. lia.
  - apply (ino_step_trans ii ip2 ip2 s s2); [done |]. by apply (ino_step_tx ii ip2 s2 s2 s3).
  - pose proof (add_blk_length hs1 (IBLOCK (i_inum ip) sb)). lia.
  - unfold ip2. rewrite Z.max_r by lia. rewrite Hip1. by destruct ip.
  - rewrite <- Hcon. unfold content. change (i_size ip2) with (off + n). unfold file_bytes.
    apply list_fmap_ext. intros j o Ho%lookup_seq. destruct Ho as [-> Ho]. cbn [plus] in *.
    unfold file_byte. rewrite Hblk3. rewrite (Hown ip1 F1); [done |]. split.
    + apply Hnz. pose proof (Nat.div_mod_eq j BSIZE). lia.
    + right. exists (j / BSIZE)%nat. split; [| done]. apply off_blk.
      unfold FILEMAX, MAXFILE, ZBSIZE, NDIRECT, NINDIRECT, BSIZE in *. lia.
  - intros _. rewrite HV3, fn_lookup_insert. destruct (encode_dinode_ok ip2 Hal) as [Hel _].
    rewrite <- (Nat.add_0_r (dip_off (i_inum ip))) at 1.
    rewrite blk_put_get by first [done | (rewrite Hel, (proj1 (tx_view _ _ _ _ _ _ _ T1 _)); unfold dip_off, IPB, sizeof_dinode, BSIZE;
      pose proof (Z.mod_pos_bound (i_inum ip) 8); lia) | (rewrite Hel; lia)].
    rewrite drop_0. apply take_ge. by rewrite Hel.
  - intros ipx Fx Hcx Ho. destruct (Hothers ipx Fx Hcx Ho) as (Fx1 & Hcx1 & Hx1).
    split; [by apply (same_data_file sb V1 V3 ipx ipx) |].
    rewrite <- Hx1. by apply same_content; [apply Hown |].
  - intros c Hc Hne. rewrite HV3, fn_lookup_insert_ne by (by apply not_eq_sym).
    by apply (fc_meta _ _ _ _ _ (wr_change _ _ _ _ _ _ _ _ W)).
Qed.
End writei.
