(* ===== verification/Content.v ===== *)
(** * Files: what reading and writing an inode means

    The theorems about [readi] and [writei], and a small disk on which they
    run: 1000 blocks, the log at 2, the inodes at 32, the free map at 58. *)
From stdpp Require Import functions.
From S2P Require Import Prelude Mmu Cstring Kstate Spinlock Kalloc Vm Proc Sleeplock Bio Log Fs Tx Balloc Inodes Writei.

(** What readi and writei refuse: an offset behind the end of the file, and a
    range that wraps around or exceeds the largest file. *)
Definition read_refused (ip : inode) (off n : Z) : Prop := i_size ip < off ∨ 4294967296 ≤ off + n.
#[export] Instance read_refused_dec ip off n : Decision (read_refused ip off n).
Proof. unfold read_refused. apply _. Defined.
Definition write_refused (ip : inode) (off n : Z) : Prop := i_size ip < off ∨ MAXFILE * ZBSIZE < off + n.
#[export] Instance write_refused_dec ip off n : Decision (write_refused ip off n).
Proof. unfold write_refused. apply _. Defined.

Section content.
Context {LK : Linker} {FU : Fuel} {MD : MemDisk} {DS : DevSw}.
Context (i : nat) (pid : Z) (cap : nat).

(** [readi] into the kernel delivers the bytes of the file from [off] on, at
    most [n] and no further than its end, and changes nothing but the cache; an
    offset behind the end and an offset that wraps around are refused. *)
Theorem readi_content V B ii ip off n s :
  io i pid V B [] s → (size B < NBUF)%nat → (0 < patience)%nat →
  k_icache s !! ii = Some ip → i_type ip ≠ T_DEV → ino_ok V ip → covered V ip →
  (∀ b, length (V b) = BSIZE) → is_u32 off → is_u32 n → is_u32 (i_size ip) →
  if decide (read_refused ip off n) then readi (BD := memide) ii ToLocal off n s = Done (-1, []) s
  else ∃ s', readi (BD := memide) ii ToLocal off n s =
      Done (Z.min n (i_size ip - off), take (Z.to_nat n) (drop (Z.to_nat off) (content V ip))) s' ∧
    io i pid V B [] s' ∧ keeps s s' ∧ rest_same s s'.
Proof.
  intros. pose proof (readi_run i pid V B ii ip off n s) as R.
  destruct (decide (read_refused ip off n)) as [Hd | Hd];
    [rewrite decide_True in R by exact Hd; by apply R | rewrite decide_False in R by exact Hd].
  destruct R as (s' & ? & ? & [? ?]); [done.. |]. by exists s'.
Qed.

(** C3: [writei] in a transaction with room in the log and on the disk: the file
    has the data at [off], is longer if it had to grow - then its inode is on
    the disk, too - and is otherwise what it was; no other file, no inode and no
    block before the free map is touched; every block that was in use still is.
    Offsets behind the end and sizes beyond the maximum are refused. *)
Theorem writei_stores src data ii ip V hs off s :
  let n := Z.of_nat (length data) in
  ready i pid cap V hs ii ip s → Forall is_byte data → supplies src data s → is_u32 off → is_u32 n →
  (length hs + 6 * touched off n + 1 ≤ cap)%nat →
  (2 * touched off n ≤ length (free_blocks V (k_sb s)))%nat →
  if decide (write_refused ip off n) then writei (BD := memide) ii src off n s = Done (-1) s
  else ∃ s' V' hs' ip', writei (BD := memide) ii src off n s = Done n s' ∧
    ready i pid cap V' hs' ii ip' s' ∧ ino_step ii ip' s s' ∧
    ip' = ip <| i_addrs := i_addrs ip' |> <| i_size := Z.max (i_size ip) (off + n) |> ∧
    content V' ip' = take (Z.to_nat off) (content V ip) ++ data ++ drop (Z.to_nat (off + n)) (content V ip) ∧
    (i_size ip < off + n → take sizeof_dinode (drop (dip_off (i_inum ip)) (V' (IBLOCK (i_inum ip) (k_sb s))))
       = encode_dinode ip') ∧
    (∀ ip2, file_ok V (k_sb s) ip2 → covered V ip2 → (∀ c, owned V ip2 c → ¬ owned V ip c) →
       file_ok V' (k_sb s) ip2 ∧ content V' ip2 = content V ip2) ∧
    (∀ c, c < sb_bmapstart (k_sb s) → c ≠ IBLOCK (i_inum ip) (k_sb s) → V' c = V c).
Proof.
  intros n R Hby Hsup Hoff Hn Hroom Hfree.
  pose proof (writei_run i pid cap src data ii ip V hs off s R Hby Hsup Hoff Hn Hroom Hfree) as W.
  fold n in W. destruct (decide (write_refused ip off n)) as [Hd | Hd];
    [by rewrite decide_True in W by exact Hd | rewrite decide_False in W by exact Hd].
  destruct W as (s' & V' & hs' & ip' & ? & ? & ? & _ & ? & ? & ? & ? & ?). exists s', V', hs', ip'. by split_and!.
Qed.

(** C9: What has been written is read back. *)
Theorem write_read_roundtrip src data ii ip V hs off s :
  let n := Z.of_nat (length data) in
  ready i pid cap V hs ii ip s → Forall is_byte data → supplies src data s → is_u32 off → is_u32 n →
  (length hs + 6 * touched off n + 1 ≤ cap)%nat →
  (2 * touched off n ≤ length (free_blocks V (k_sb s)))%nat →
  ¬ write_refused ip off n →
  ∃ s', (writei (BD := memide) ii src off n;; readi (BD := memide) ii ToLocal off n) s = Done (n, data) s'.
Proof.
  intros n R Hby Hsup Hoff Hn Hroom Hfree Hok. assert (off ≤ i_size ip ∧ off + n ≤ MAXFILE * ZBSIZE) as [Hle Hmax] by (unfold write_refused in Hok; lia).
  pose proof (writei_run i pid cap src data ii ip V hs off s R Hby Hsup Hoff Hn Hroom Hfree) as W.
  fold n in W. destruct (decide (i_size ip < off ∨ MAXFILE * ZBSIZE < off + n)); [lia |].
  destruct W as (s1 & V1 & hs1 & ip1 & W & [L T Hfu _ Hi Hty _ F Hcov Hs0] & _ & _ & Hip & Hcon & _).
  rewrite (bind_done _ _ _ _ _ W).
  assert (Hsz : i_size ip1 = Z.max (i_size ip) (off + n)) by (by rewrite Hip).
  assert (Hmaxu : MAXFILE * ZBSIZE = 71680) by done. destruct Hcov as [Hm Hc].
  pose proof (size_logged hs1) as Hl. pose proof (tx_cap _ _ _ _ _ _ _ T) as [Hcap _]. pose proof (tx_len _ _ _ _ _ _ _ T).
  pose proof (readi_run i pid V1 (list_to_set hs1) ii ip1 off n s1 (tx_io _ _ _ _ _ _ _ T)) as Rd.
  destruct (decide (i_size ip1 < off ∨ 4294967296 ≤ off + n)); [unfold is_u32 in *; lia |].
  destruct Rd as (s2 & Rd & _); try done.
  - unfold NBUF. lia.
  - apply F.
  - intros b. apply (tx_view _ _ _ _ _ _ _ T).
  - unfold is_u32. lia.
  - exists s2. rewrite Rd. f_equal. f_equal; [lia |]. rewrite Hcon.
    rewrite drop_app_ge by (rewrite length_take; lia). rewrite length_take.
    assert (Hlc : length (content V ip) = Z.to_nat (i_size ip)) by apply file_bytes_length.
    replace (Z.to_nat off - _)%nat with O by lia. rewrite drop_0. unfold n. rewrite Nat2Z.id. by rewrite take_app_length.
Qed.
End content.

(** ** Witnesses *)
Definition small_sb : superblock := mkSb 1000 941 200 30 2 32 58.
(** Blocks 0 to 58 are in use. *)
Definition small_map : list Z := replicate 7 255 ++ 7 :: replicate 504 0.
Definition small_disk : gmap Z (list Z) := {[ 1 := super_block; 58 := small_map ]}.
(** An empty file and an empty directory, in slots 0 and 1 of the cache. *)
Definition small_inode (t : Z) : inode := mkInode 1 t 1 slock0 true t 0 0 1 0 (replicate 13 0) 0.
Definition small_file : inode := small_inode T_FILE.
Definition small_dir : inode := small_inode T_DIR.
Definition small : kst :=
  cold <| k_disk := small_disk |> <| k_sb := small_sb |> <| k_icache := small_file :: small_dir :: replicate 48 small_file |>
    <| k_log := mkLog 2 30 1 false 1 0 (replicate 30 0) |>.
(** The device switch of the witnesses: no devices. *)
Definition no_devices : DevSw := {| devsw_read _ := None; devsw_write _ := None |}.
Definition small_view : Z → list Z := disk_block small_disk.

Lemma small_view_ok b : block_ok (small_view b).
Proof.
  unfold small_view, disk_block, small_disk. destruct (decide (b = 1)) as [-> |].
  { rewrite lookup_insert_eq. split; [done |]. cbn [default from_option id].
    unfold super_block. apply Forall_app_2; [| apply Forall_replicate; unfold is_byte; lia].
    apply Forall_concat, Forall_fmap, Forall_forall. intros x _. apply word_bytes_ok. }
  rewrite lookup_insert_ne by done. destruct (decide (b = 58)) as [-> |].
  { rewrite lookup_singleton_eq. split; [done |]. cbn [default from_option id]. unfold small_map.
    apply Forall_app_2; [apply Forall_replicate; unfold is_byte; lia |].
    constructor; [unfold is_byte; lia | apply Forall_replicate; unfold is_byte; lia]. }
  rewrite lookup_singleton_ne by done. apply block_ok_zero.
Qed.

Lemma small_io : io 0 1 small_view (list_to_set []) [] small.
Proof.
  assert (Hb : ∀ j b, k_bufs small !! j = Some b → b = buf0).
  { intros j b H. change (replicate NBUF buf0 !! j = Some b) in H. by apply lookup_replicate in H as [-> _]. }
  split; try done.
  - intros j k b c Hj%Hb Hk%Hb. by subst b.
  - intros j b ->%Hb. split; try done. by intros ?%elem_of_nil.
Qed.
Lemma small_layout : layout (MD := 1000) small_sb.
Proof. split; cbn; unfold disksize; vm_compute; repeat split; done. Qed.
Lemma small_ready ii t :
  t = T_FILE ∨ t = T_DIR → k_icache small !! ii = Some (small_inode t) →
  ready (FU := 1%nat : Fuel) (MD := 1000) 0 1 27 small_view [] ii (small_inode t) small.
Proof.
  intros Ht Hi. assert (Hz : ∀ b, blk_addr small_view (small_inode t) b = 0).
  { intros b. unfold blk_addr. destruct (b <? NDIRECT)%nat; [| done]. unfold small_inode. cbn [i_addrs].
    rewrite nth_lookup. destruct (replicate 13 0 !! b) eqn:E; [by apply lookup_replicate in E as [-> _] | done]. }
  split; try done.
  - split; try done; [apply small_io | cbn; lia | apply small_view_ok].
  - unfold patience. lia.
  - intros c Hc _. assert (Hd : data_start small_sb = 59) by (vm_compute; done).
    change (k_sb small) with small_sb in Hc |- *. rewrite Hd in Hc.
    assert (H : forallb (λ c, in_use small_view small_sb c) (seqZ 0 59) = true) by (vm_compute; done).
    rewrite forallb_forall in H. apply H. apply list_elem_of_In, elem_of_seqZ. lia.
  - by destruct Ht as [-> | ->].
  - by destruct Ht as [-> | ->].
  - split; [split; [done | done | cbn; unfold disksize; lia |] | done | |].
    + intros b _. rewrite Hz. unfold disksize. lia.
    + intros b _. by rewrite Hz.
    + intros b c _ _. by rewrite Hz.
  - split; [done |]. intros b Hb. change (i_size (small_inode t)) with 0 in Hb. lia.
Qed.

Lemma small_free : (3 ≤ length (free_blocks small_view small_sb))%nat.
Proof. assert (length (free_blocks small_view small_sb) = 941%nat) as -> by (vm_compute; done). lia. Qed.

Lemma readi_content_witness :
  ∃ s', readi (FU := 1%nat : Fuel) (BD := memide (MD := 1000)) (DS := no_devices)
    0 ToLocal 0 16 small = Done (0, []) s'.
Proof.
  pose proof (@readi_content (1%nat : Fuel) 1000 no_devices
    0 1 small_view (list_to_set []) 0 small_file 0 16 small) as H.
  rewrite decide_False in H by (intros [Hd | Hd]; vm_compute in Hd; done).
  destruct (small_ready 0 T_FILE ltac:(by left) eq_refl) as [_ _ _ _ _ _ _ F Hc _].
  destruct H as (s' & R & _); try done;
    [apply small_io | by vm_compute; lia | unfold patience; lia | apply F | apply small_view_ok |].
  exists s'. exact R.
Defined.

Lemma writei_stores_witness :
  ∃ s' ip', writei (FU := 1%nat : Fuel) (BD := memide (MD := 1000)) (DS := no_devices)
    0 (FromLocal [104; 105]) 0 2 small = Done 2 s' ∧ k_icache s' !! 0%nat = Some ip' ∧ i_size ip' = 2.
Proof.
  pose proof (@writei_stores (1%nat : Fuel) 1000 no_devices
    0 1 27 (FromLocal [104; 105]) [104; 105] 0 small_file small_view [] 0 small) as H.
  change (Z.of_nat (length [104; 105])) with 2 in H. cbv zeta in H.
  rewrite decide_False in H by (intros [Hd | Hd]; vm_compute in Hd; done).
  destruct H as (s' & V' & hs' & ip' & R & Rd & _ & Hip & _).
  - apply small_ready; [by left | done].
  - repeat constructor; done.
  - apply supplies_local.
  - done.
  - done.
  - change (touched 0 2) with 1%nat. cbn. lia.
  - pose proof small_free. change (touched 0 2) with 1%nat. change (k_sb small) with small_sb. lia.
  - exists s', ip'. split; [exact R |]. split; [apply Rd |]. by rewrite Hip.
Defined.

Lemma write_read_roundtrip_witness :
  ∃ s', (writei (FU := 1%nat : Fuel) (BD := memide (MD := 1000)) (DS := no_devices)
      0 (FromLocal [104; 105]) 0 2;;
    readi (FU := 1%nat : Fuel) (BD := memide (MD := 1000)) (DS := no_devices)
      0 ToLocal 0 2) small = Done (2, [104; 105]) s'.
Proof.
  apply (@write_read_roundtrip (1%nat : Fuel) 1000 no_devices
    0 1 27 (FromLocal [104; 105]) [104; 105] 0 small_file small_view [] 0 small).
  - apply small_ready; [by left | done].
  - repeat constructor; done.
  - apply supplies_local.
  - done.
  - done.
  - change (touched 0 (Z.of_nat (length [104; 105]))) with 1%nat. cbn. lia.
  - pose proof small_free. change (touched 0 (Z.of_nat (length [104; 105]))) with 1%nat.
    change (k_sb small) with small_sb. lia.
  - by intros [? | ?].
Defined.
