(* ===== verification/Dirs.v ===== *)
(** * Directories

    A directory is a file of 16-byte entries; [dirlookup] and [dirlink] on its
    content. *)
From stdpp Require Import functions.
From S2P Require Import Prelude Mmu Cstring Kstate Spinlock Kalloc Vm Proc Sleeplock Bio Log Fs Tx Balloc Inodes Writei Content.

(** Entry [k] of a directory, and all its entries. *)
Definition dirent (c : list Z) (k : nat) : list Z := take sizeof_dirent (drop (k * sizeof_dirent) c).
Definition dirents (c : list Z) : list (list Z) := dirent c <$> seq 0 (length c / sizeof_dirent).
(** Entry [de] is in use and names [name]. *)
Definition names (name de : list Z) : bool := (negb (de_inum de =? 0) && namecmp name (de_name de))%bool.

Section dirs.
Context {LK : Linker} {FU : Fuel} {MD : MemDisk} {DS : DevSw}.
Context (i : nat) (pid : Z) (cap : nat).

(** A directory that is being read. *)
Record dir V (B : gset Z) dp ip s : Prop := {
  dir_io : io i pid V B [] s;
  dir_bufs : (size B < NBUF)%nat;
  dir_fuel : (0 < patience)%nat;
  dir_ip : k_icache s !! dp = Some ip;
  dir_type : i_type ip = T_DIR;
  dir_ok : ino_ok V ip;
  dir_covered : covered V ip;
  dir_view : ∀ b, length (V b) = BSIZE;
  dir_size : 0 ≤ i_size ip ∧ i_size ip mod 16 = 0 }.

Lemma dir_step V B dp ip s s' : dir V B dp ip s → io i pid V B [] s' → read_step s s' → dir V B dp ip s'.
Proof. intros [] I [_ Hr]. split; try done. by rewrite (rs_icache _ _ Hr). Qed.

Lemma dir_length V B dp ip s : dir V B dp ip s →
  length (content V ip) = Z.to_nat (i_size ip) ∧ i_size ip = 16 * Z.of_nat (length (content V ip) / sizeof_dirent).
Proof.
  intros [_ _ _ _ _ _ _ _ [H0 Hm]]. assert (Hl : length (content V ip) = Z.to_nat (i_size ip)) by apply file_bytes_length.
  split; [done |]. rewrite Hl, Nat2Z.inj_div, Z2Nat.id by done. change (Z.of_nat sizeof_dirent) with 16.
  pose proof (Z.div_mod (i_size ip) 16). lia.
Qed.

Lemma read_dirent_run V B dp ip why k s :
  dir V B dp ip s → (k < length (content V ip) / sizeof_dirent)%nat →
  ∃ s', read_dirent (BD := memide) why dp (16 * Z.of_nat k) s = Done (dirent (content V ip) k) s' ∧
    dir V B dp ip s' ∧ read_step s s'.
Proof.
  intros D Hk. pose proof D as [I Hsz Hfu Hi Ht Hok Hcov Hlen [H0 _]]. pose proof Hcov as [Hmax _].
  destruct (dir_length _ _ _ _ _ D) as [Hl Hs]. assert (MAXFILE * ZBSIZE = 71680) by done.
  pose proof (readi_run i pid V B dp ip (16 * Z.of_nat k) 16 s I Hsz Hfu Hi) as R.
  destruct (decide (i_size ip < 16 * Z.of_nat k ∨ 4294967296 ≤ 16 * Z.of_nat k + 16)); [lia |].
  destruct R as (s' & R & I' & S'); try done; [by rewrite Ht | unfold is_u32; lia | unfold is_u32; lia |].
  exists s'. split; [| split; [by apply (dir_step _ _ _ _ s) | done]].
  unfold read_dirent. rewrite (bind_done _ _ _ _ _ R). replace (Z.min _ _) with 16 by lia. cbn [Z.eqb Pos.eqb negb].
  unfold mret, M_ret. f_equal. unfold dirent, sizeof_dirent.
  by replace (Z.to_nat (16 * Z.of_nat k)) with (k * 16)%nat by lia.
Qed.

Lemma dirlookup_loop_run V B dp ip name fuel : ∀ k s,
  dir V B dp ip s → (k ≤ length (content V ip) / sizeof_dirent)%nat →
  (length (content V ip) / sizeof_dirent - k < fuel)%nat →
  (∀ j, (j < k)%nat → names name (dirent (content V ip) j) = false) →
  match find_idx (names name) (dirents (content V ip)) with
  | None => ∃ s', dirlookup_loop (BD := memide) fuel dp name (16 * Z.of_nat k) s = Done None s' ∧
      dir V B dp ip s' ∧ read_step s s'
  | Some j => ∃ s', dirlookup_loop (BD := memide) fuel dp name (16 * Z.of_nat k) s =
      (i ← iget 1 (de_inum (dirent (content V ip) j)); mret (Some (i, 16 * Z.of_nat j))) s' ∧
      dir V B dp ip s' ∧ read_step s s'
  end.
Proof.
  set (n := (length (content V ip) / sizeof_dirent)%nat).
  induction fuel as [| fuel IH]; intros k s D Hk Hf Hbefore; [lia | cbn [dirlookup_loop]].
  destruct (dir_length _ _ _ _ _ D) as [Hl Hs]. fold n in Hs.
  rewrite (get_inode_bind _ _ ip) by apply D.
  destruct (Z.ltb_spec (16 * Z.of_nat k) (i_size ip)) as [Hlt | Hge].
  2: { assert (k = n) as -> by lia.
    assert (find_idx (names name) (dirents (content V ip)) = None) as ->; [| by exists s].
    apply find_idx_None. intros j e He. unfold dirents in He. fold n in He.
    rewrite list_lookup_fmap in He. destruct (seq 0 n !! j) eqn:E; [| done].
    apply lookup_seq in E as [-> Hj]. injection He as <-. by apply Hbefore. }
  destruct (read_dirent_run V B dp ip "dirlookup read" k s D ltac:(fold n; lia)) as (s1 & R1 & D1 & S1).
  rewrite (bind_done _ _ _ _ _ R1).
  assert (Hnext : u32 (16 * Z.of_nat k + 16) = 16 * Z.of_nat (S k)).
  { rewrite u32_id; [lia |]. pose proof (dir_covered _ _ _ _ _ D) as [Hmax _]. assert (MAXFILE * ZBSIZE = 71680) by done.
    unfold is_u32. lia. }
  assert (Hgo : names name (dirent (content V ip) k) = false → ∀ j, (j < S k)%nat → names name (dirent (content V ip) j) = false).
  { intros H j Hj. destruct (decide (j = k)) as [-> |]; [done | apply Hbefore; lia]. }
  rewrite Hnext. destruct (names name (dirent (content V ip) k)) eqn:Hn.
  - assert (find_idx (names name) (dirents (content V ip)) = Some k) as ->.
    { assert (He : dirents (content V ip) !! k = Some (dirent (content V ip) k)).
      { unfold dirents. fold n. by rewrite list_lookup_fmap, lookup_seq_lt by lia. }
      destruct (find_idx_is_Some (names name) _ _ _ He Hn) as (j & Hj & Hle). rewrite Hj. f_equal.
      apply find_idx_Some in Hj as [(x & Hx & Hnx) _]. unfold dirents in Hx. rewrite list_lookup_fmap in Hx.
      destruct (seq _ _ !! j) eqn:E; [| done]. apply lookup_seq in E as [-> _]. injection Hx as <-.
      destruct (decide (j = k)); [done |]. cbn [plus] in Hnx. rewrite Hbefore in Hnx by lia. done. }
    exists s1. split; [| done]. unfold names in Hn. apply andb_true_iff in Hn as [->%negb_true_iff ->].
    by rewrite (in_dev _ _ (dir_ok _ _ _ _ _ D)).
  - specialize (IH (S k) s1 D1 ltac:(lia) ltac:(fold n; lia) (Hgo eq_refl)).
    assert (Hif : ∀ A (x y : A), (if de_inum (dirent (content V ip) k) =? 0 then x else
      if namecmp name (de_name (dirent (content V ip) k)) then y else x) = x).
    { intros A x y. unfold names in Hn. destruct (_ =? 0); [done |]. cbn [negb andb] in Hn. by rewrite Hn. }
    rewrite Hif. destruct (find_idx _ _); destruct IH as (s2 & R2 & D2 & S2); exists s2; (split; [done |]);
      (split; [done | by transitivity s1]).
Qed.

Lemma dirlookup_run V B dp ip name s :
  dir V B dp ip s →
  match find_idx (names name) (dirents (content V ip)) with
  | None => ∃ s', dirlookup (BD := memide) dp name s = Done None s' ∧ dir V B dp ip s' ∧ read_step s s'
  | Some j => ∃ s', dirlookup (BD := memide) dp name s =
      (i ← iget 1 (de_inum (dirent (content V ip) j)); mret (Some (i, 16 * Z.of_nat j))) s' ∧
      dir V B dp ip s' ∧ read_step s s'
  end.
Proof.
  intros D. destruct (dir_length _ _ _ _ _ D) as [Hl Hs]. unfold dirlookup.
  rewrite (get_inode_bind _ _ ip) by apply D. rewrite (dir_type _ _ _ _ _ D). cbn [Z.eqb Pos.eqb T_DIR negb].
  pose proof (dirlookup_loop_run V B dp ip name (S (S (Z.to_nat (i_size ip / 16)))) 0 s D ltac:(lia)) as H.
  apply H; [| lia]. rewrite Hs, (Z.mul_comm 16), Z.div_mul by done. lia.
Qed.

(** ** Adding an entry *)

(** Where [dirlink] puts the new entry: at the first free one, or at the end. *)
Definition free_slot (c : list Z) : nat :=
  default (length c / sizeof_dirent)%nat (find_idx (λ e, de_inum e =? 0) (dirents c)).

Lemma dirents_lookup c k :
  dirents c !! k = if decide (k < length c / sizeof_dirent)%nat then Some (dirent c k) else None.
Proof.
  unfold dirents. rewrite list_lookup_fmap. case_decide; [by rewrite lookup_seq_lt |].
  by rewrite lookup_seq_ge by lia.
Qed.
Lemma dirents_length c : length (dirents c) = (length c / sizeof_dirent)%nat.
Proof. unfold dirents. by rewrite length_fmap, length_seq. Qed.

Lemma dirlink_loop_run V B dp ip fuel : ∀ k s,
  dir V B dp ip s → (k ≤ length (content V ip) / sizeof_dirent)%nat →
  (length (content V ip) / sizeof_dirent - k < fuel)%nat →
  (∀ j, (j < k)%nat → de_inum (dirent (content V ip) j) ≠ 0) →
  ∃ s', dirlink_loop (BD := memide) fuel dp (16 * Z.of_nat k) s = Done (16 * Z.of_nat (free_slot (content V ip))) s' ∧
    dir V B dp ip s' ∧ read_step s s'.
Proof.
  set (n := (length (content V ip) / sizeof_dirent)%nat).
  induction fuel as [| fuel IH]; intros k s D Hk Hf Hbefore; [lia | cbn [dirlink_loop]].
  destruct (dir_length _ _ _ _ _ D) as [Hl Hs]. fold n in Hs.
  rewrite (get_inode_bind _ _ ip) by apply D.
  destruct (Z.ltb_spec (16 * Z.of_nat k) (i_size ip)) as [Hlt | Hge].
  2: { assert (k = n) as -> by lia. exists s. split; [| by split]. unfold free_slot. fold n.
    assert (find_idx (λ e, de_inum e =? 0) (dirents (content V ip)) = None) as ->; [| done].
    apply find_idx_None. intros j e He. rewrite dirents_lookup in He. case_decide; [| done]. injection He as <-.
    by apply Z.eqb_neq, Hbefore. }
  destruct (read_dirent_run V B dp ip "dirlink read" k s D ltac:(fold n; lia)) as (s1 & R1 & D1 & S1).
  rewrite (bind_done _ _ _ _ _ R1). destruct (Z.eqb_spec (de_inum (dirent (content V ip) k)) 0) as [Hz | Hnz].
  - exists s1. split; [| done]. unfold mret, M_ret. do 3 f_equal. unfold free_slot. fold n.
    assert (He : dirents (content V ip) !! k = Some (dirent (content V ip) k)).
    { rewrite dirents_lookup, decide_True; [done | fold n; lia]. }
    destruct (find_idx_is_Some (λ e, de_inum e =? 0) _ _ _ He) as (j & Hj & Hle); [by apply Z.eqb_eq |].
    rewrite Hj. cbn [default from_option id]. apply find_idx_Some in Hj as [(x & Hx & Hxz) _].
    rewrite dirents_lookup in Hx. case_decide; [| done]. injection Hx as <-. apply Z.eqb_eq in Hxz.
    destruct (decide (j = k)); [done |]. by destruct (Hbefore j ltac:(lia)).
  - replace (16 * Z.of_nat k + 16) with (16 * Z.of_nat (S k)) by lia.
    destruct (IH (S k) s1 D1) as (s2 & R2 & D2 & S2); [lia | fold n; lia | |].
    + intros j Hj. destruct (decide (j = k)) as [-> |]; [done | apply Hbefore; lia].
    + exists s2. split; [done |]. split; [done | by transitivity s1].
Qed.

(** The entries after one has been stored. *)
Lemma dirents_put c d k :
  length d = sizeof_dirent → (length c mod sizeof_dirent = 0)%nat → (k ≤ length c / sizeof_dirent)%nat →
  let c' := take (k * sizeof_dirent) c ++ d ++ drop ((k + 1) * sizeof_dirent) c in
  dirents c' = if decide (k < length c / sizeof_dirent)%nat then <[k := d]> (dirents c) else dirents c ++ [d].
Proof.
  intros Hd Hm Hk c'. set (n := (length c / sizeof_dirent)%nat) in *.
  assert (Hlc : length c = (n * sizeof_dirent)%nat).
  { pose proof (Nat.div_mod_eq (length c) sizeof_dirent) as H. fold n in H. lia. }
  assert (Hlc' : length c' = (Nat.max n (k + 1) * sizeof_dirent)%nat).
  { unfold c'. rewrite !length_app, length_take, length_drop, Hd, Hlc. unfold sizeof_dirent. lia. }
  assert (Hn' : (length c' / sizeof_dirent)%nat = Nat.max n (k + 1)) by (rewrite Hlc'; by apply Nat.div_mul).
  assert (Hent : ∀ j, (j < Nat.max n (k + 1))%nat → dirent c' j = if decide (j = k) then d else dirent c j).
  { intros j Hj. unfold dirent, c'. assert (Hlt : length (take (k * sizeof_dirent) c) = (k * sizeof_dirent)%nat).
    { rewrite length_take, Hlc. unfold sizeof_dirent. lia. }
    destruct (decide (j = k)) as [-> | Hne]; [| destruct (decide (j < k)%nat)].
    - rewrite drop_app_ge, Hlt, Nat.sub_diag, drop_0 by lia. rewrite <- Hd. apply take_app_length.
    - rewrite drop_app_le by (rewrite Hlt; unfold sizeof_dirent; lia).
      rewrite take_app_le by (rewrite length_drop, Hlt; unfold sizeof_dirent; lia).
      rewrite skipn_firstn_comm, take_take. f_equal. unfold sizeof_dirent. lia.
    - rewrite drop_app_ge by (rewrite Hlt; unfold sizeof_dirent; lia). rewrite Hlt.
      rewrite drop_app_ge by (rewrite Hd; unfold sizeof_dirent; lia). rewrite Hd, drop_drop. do 2 f_equal.
      unfold sizeof_dirent. lia. }
  apply list_eq. intros j. rewrite dirents_lookup, Hn'. fold n.
  destruct (decide (k < n)%nat) as [Hkn | Hkn].
  - destruct (decide (j = k)) as [-> | Hne].
    + rewrite list_lookup_insert_eq by (by rewrite dirents_length). rewrite decide_True by lia.
      by rewrite Hent, decide_True by lia.
    + rewrite list_lookup_insert_ne by congruence. rewrite dirents_lookup. fold n.
      repeat case_decide; try lia; [| done]. by rewrite Hent, decide_False by lia.
  - assert (Hk' : k = n) by lia. rewrite lookup_app, dirents_lookup, dirents_length. fold n.
    destruct (decide (j < n)%nat).
    + rewrite decide_True by lia. by rewrite Hent, decide_False by lia.
    + destruct (decide (j = n)) as [-> |].
      * destruct (decide (n < Nat.max n (k + 1))%nat); [| lia]. rewrite Hent, Nat.sub_diag by lia.
        by destruct (decide (n = k)).
      * rewrite decide_False by lia. symmetry. apply lookup_ge_None_2. cbn [length]. lia.
Qed.

(** Reading a directory inside a transaction. *)
Lemma ready_dir V hs dp ip s :
  ready i pid cap V hs dp ip s → i_type ip = T_DIR → i_size ip mod 16 = 0 → dir V (list_to_set hs) dp ip s.
Proof.
  intros [L T Hfu HM Hi Hty Hn F Hc Hs] Ht Hm. pose proof (size_logged hs). pose proof (tx_cap _ _ _ _ _ _ _ T).
  pose proof (tx_len _ _ _ _ _ _ _ T). split; try done; [apply T | unfold NBUF; lia | apply F |].
  intros b. apply (tx_view _ _ _ _ _ _ _ T).
Qed.
Lemma ready_step V hs dp ip s s' :
  ready i pid cap V hs dp ip s → io i pid V (list_to_set hs) [] s' → read_step s s' → ready i pid cap V hs dp ip s'.
Proof.
  intros [L T Hfu HM Hi Hty Hn F Hc Hs] I [Hk Hr].
  assert (k_sb s' = k_sb s) as Hsb by apply Hr. split; rewrite ?Hsb; try done.
  - by apply (tx_read i pid cap V hs [] s).
  - by rewrite (rs_icache _ _ Hr).
Qed.

(** The entry [dirlink] writes. *)
Definition new_entry (inum : Z) (name : list Z) : list Z := half_bytes inum ++ pad_name name.
Lemma new_entry_ok inum name :
  Forall is_byte name → length (new_entry inum name) = sizeof_dirent ∧ Forall is_byte (new_entry inum name).
Proof.
  intros Hn. unfold new_entry. split; [by rewrite length_app, pad_name_length |].
  apply Forall_app_2; [apply half_bytes_ok |]. unfold pad_name.
  apply Forall_app_2; [| apply Forall_replicate; unfold is_byte; lia].
  assert (∀ m l, Forall is_byte l → Forall is_byte (cstr m l)) as Hc; [| by apply Hc].
  induction m as [| m IH]; intros [| x l] Hl; try constructor. cbn. apply Forall_cons in Hl as [? ?].
  destruct (x =? 0); constructor; [done | by apply IH].
Qed.
Lemma new_entry_names inum name name' :
  0 < inum < 65536 → Forall (λ b, b ≠ 0) name → Forall (λ b, b ≠ 0) name' →
  de_inum (new_entry inum name) = inum ∧
  names name' (new_entry inum name) = bool_decide (take DIRSIZ name' = take DIRSIZ name).
Proof.
  intros Hi Hn Hn'. assert (Hd : de_inum (new_entry inum name) = inum) by (apply word_of_half_u16; lia).
  split; [done |]. unfold names. rewrite Hd, (proj2 (Z.eqb_neq _ _)) by lia. cbn [negb andb].
  change (de_name (new_entry inum name)) with (pad_name name). apply eq_true_iff_eq.
  by rewrite namecmp_pad, bool_decide_eq_true.
Qed.

Lemma dirlink_run V hs dp ip name inum s :
  ready i pid cap V hs dp ip s → i_type ip = T_DIR → i_size ip mod 16 = 0 →
  i_size ip + 16 ≤ MAXFILE * ZBSIZE → (length hs + 7 ≤ cap)%nat → (2 ≤ length (free_blocks V (k_sb s)))%nat →
  0 < inum < 65536 → Forall is_byte name →
  find_idx (names name) (dirents (content V ip)) = None →
  let k := free_slot (content V ip) in
  ∃ s' V' hs' ip', dirlink (BD := memide) dp name inum s = Done 0 s' ∧ ready i pid cap V' hs' dp ip' s' ∧
    i_type ip' = T_DIR ∧ i_size ip' mod 16 = 0 ∧
    dirents (content V' ip') = if decide (k < length (content V ip) / sizeof_dirent)%nat
      then <[k := new_entry inum name]> (dirents (content V ip)) else dirents (content V ip) ++ [new_entry inum name].
Proof.
  intros R Ht Hm Hmax Hroom Hfree Hin Hby Hnone k.
  pose proof (ready_dir V hs dp ip s R Ht Hm) as D. pose proof (dirlookup_run V _ dp ip name s D) as L.
  rewrite Hnone in L. destruct L as (s1 & R1 & D1 & S1).
  unfold dirlink. rewrite (bind_done _ _ _ _ _ R1), (get_inode_bind _ _ ip) by apply D1.
  destruct (dir_length _ _ _ _ _ D) as [Hl Hs].
  destruct (dirlink_loop_run V _ dp ip (S (S (Z.to_nat (i_size ip / 16)))) 0 s1 D1 ltac:(lia)) as (s2 & R2 & D2 & S2).
  { rewrite Hs, (Z.mul_comm 16), Z.div_mul by done. lia. }
  { lia. }
  change (16 * Z.of_nat 0) with 0 in R2. fold k in R2. rewrite (bind_done _ _ _ _ _ R2).
  destruct (new_entry_ok inum name Hby) as [Hle Hbe]. fold (new_entry inum name).
  assert (Hk : (k ≤ length (content V ip) / sizeof_dirent)%nat).
  { unfold k, free_slot. destruct (find_idx (λ e, de_inum e =? 0) _) as [j |] eqn:E; cbn [default from_option id]; [| lia].
    apply find_idx_Some in E as [(x & Hx & _) _]. apply lookup_lt_Some in Hx. rewrite dirents_length in Hx. lia. }
  pose proof (ready_step _ _ _ _ _ s2 R (dir_io _ _ _ _ _ D2) (transitivity S1 S2)) as Rd.
  assert (k_sb s2 = k_sb s) as Hsb.
  { rewrite (rs_sb _ _ (rd_rest _ _ S2)). apply (rd_rest _ _ S1). }
  assert (HN : touched (16 * Z.of_nat k) 16 = 1%nat).
  { unfold touched, ZBSIZE. pose proof (Z.mod_pos_bound (16 * Z.of_nat k) 512 ltac:(done)).
    assert ((16 * Z.of_nat k) mod 512 mod 16 = 0).
    { pose proof (Z.div_mod (16 * Z.of_nat k) 512 ltac:(done)) as Hd.
      replace ((16 * Z.of_nat k) mod 512) with ((Z.of_nat k - 32 * (16 * Z.of_nat k / 512)) * 16) by lia.
      by apply Z.mod_mul. }
    assert ((16 + (16 * Z.of_nat k) mod 512 + 512 - 1) / 512 = 1); [| lia].
    symmetry. apply (Z.div_unique_pos _ _ _ (16 + (16 * Z.of_nat k) mod 512 - 1)); zlia. }
  pose proof (writei_run i pid cap (FromLocal (new_entry inum name)) (new_entry inum name) dp ip V hs
    (16 * Z.of_nat k) s2 Rd Hbe (supplies_local _ _)) as W.
  cbv zeta in W. rewrite Hle in W.
  change (Z.of_nat sizeof_dirent) with 16 in W. rewrite HN, Hsb in W.
  assert (Hmaxu : MAXFILE * ZBSIZE = 71680) by done.
  destruct (decide (i_size ip < 16 * Z.of_nat k ∨ MAXFILE * ZBSIZE < 16 * Z.of_nat k + 16)); [lia |].
  destruct W as (s3 & V3 & hs3 & ip3 & W & Rd3 & _ & _ & Hip & Hcon & _);
    [unfold is_u32; lia | done | lia | lia |].
  rewrite (bind_done _ _ _ _ _ W). exists s3, V3, hs3, ip3. split; [done |]. split; [done |].
  split; [by rewrite Hip |]. split.
  { rewrite Hip. cbn [i_size set set_i_size]. zlia. }
  assert (Hm' : (length (content V ip) mod sizeof_dirent = 0)%nat).
  { set (q := (length (content V ip) / sizeof_dirent)%nat) in *.
    assert (length (content V ip) = q * sizeof_dirent)%nat as -> by (unfold sizeof_dirent; lia).
    by apply Nat.Div0.mod_mul. }
  rewrite Hcon. rewrite <- dirents_put by done. do 2 f_equal.
  - f_equal. unfold sizeof_dirent. lia.
  - f_equal. f_equal. unfold sizeof_dirent. lia.
Qed.

Lemma put_lookup (l : list (list Z)) k d j :
  (k ≤ length l)%nat →
  (if decide (k < length l)%nat then <[k := d]> l else l ++ [d]) !! j = if decide (j = k) then Some d else l !! j.
Proof.
  intros Hk. destruct (decide (k < length l)%nat) as [Hlt | Hge].
  - destruct (decide (j = k)) as [-> |]; [by rewrite list_lookup_insert_eq | by rewrite list_lookup_insert_ne].
  - assert (k = length l) as -> by lia. rewrite lookup_app. destruct (decide (j = length l)) as [-> |].
    + by rewrite lookup_ge_None_2, Nat.sub_diag by lia.
    + destruct (l !! j) eqn:E; [done |]. apply lookup_ge_None_1 in E. apply lookup_ge_None_2. cbn [length]. lia.
Qed.
(** Looking for an entry after one has been stored at the free slot [k]. *)
Lemma find_put (P : list Z → bool) (l : list (list Z)) k d :
  (k ≤ length l)%nat → (∀ e, l !! k = Some e → P e = false) → (P d = true → find_idx P l = None) →
  find_idx P (if decide (k < length l)%nat then <[k := d]> l else l ++ [d]) = if P d then Some k else find_idx P l.
Proof.
  intros Hk Hold Hnew. set (l' := if decide _ then _ else _).
  assert (Hl' : ∀ j, l' !! j = if decide (j = k) then Some d else l !! j) by (intros j; by apply put_lookup).
  destruct (P d) eqn:Hd.
  - destruct (find_idx_is_Some P l' k d) as (j & Hj & Hle); [by rewrite Hl', decide_True | done |].
    rewrite Hj. f_equal. destruct (decide (j = k)); [done |].
    apply find_idx_Some in Hj as [(x & Hx & HPx) _]. rewrite Hl', decide_False in Hx by done.
    specialize (Hnew eq_refl). rewrite find_idx_None in Hnew. by rewrite (Hnew _ _ Hx) in HPx.
  - destruct (find_idx P l) as [j |] eqn:Hj.
    + pose proof Hj as [(x & Hx & HPx) Hbef]%find_idx_Some.
      assert (j ≠ k) by (intros ->; by rewrite (Hold _ Hx) in HPx).
      destruct (find_idx_is_Some P l' j x) as (m & Hm & Hle); [by rewrite Hl', decide_False | done |].
      rewrite Hm. f_equal. destruct (decide (m = j)); [done |].
      apply find_idx_Some in Hm as [(y & Hy & HPy) _]. rewrite Hl' in Hy. case_decide; [congruence |].
      rewrite (Hbef m y) in HPy by (done || lia). done.
    + rewrite find_idx_None in Hj |- *. intros j y Hy. rewrite Hl' in Hy. case_decide; [congruence | by apply (Hj j)].
Qed.
Lemma free_slot_spec c : (free_slot c ≤ length (dirents c))%nat ∧
  ∀ e name, dirents c !! free_slot c = Some e → names name e = false.
Proof.
  unfold free_slot. destruct (find_idx (λ e, de_inum e =? 0) (dirents c)) as [j |] eqn:E; cbn [default from_option id].
  - apply find_idx_Some in E as [(x & Hx & Hz) _]. split; [apply lookup_lt_Some in Hx; lia |].
    intros e name He. assert (e = x) as -> by congruence. unfold names. by rewrite Hz.
  - rewrite dirents_length. split; [done |]. intros e name He. apply lookup_lt_Some in He. rewrite dirents_length in He. lia.
Qed.

(** [dirlookup] delivers the inode of the first entry in use with that name, and
    its offset; nothing exactly when there is no such entry.  It changes nothing
    but the buffer cache and, by [iget], the inode cache. *)
Theorem dirlookup_finds V B dp ip name s :
  dir V B dp ip s →
  ∃ s', io i pid V B [] s' ∧ keeps s s' ∧ rest_same s s' ∧
    dirlookup (BD := memide) dp name s =
      match find_idx (names name) (dirents (content V ip)) with
      | None => Done None s'
      | Some j => (i ← iget 1 (de_inum (dirent (content V ip) j)); mret (Some (i, 16 * Z.of_nat j))) s'
      end.
Proof.
  intros D. pose proof (dirlookup_run V B dp ip name s D) as H.
  destruct (find_idx _ _); destruct H as (s' & R & D' & [? ?]); exists s'; split_and!; try done; apply D'.
Qed.

(** C4: [dirlink] adds a name: afterwards [dirlookup] finds the linked inode under
    it, at the first entry that was free or at the end, and under every other
    name (names count up to DIRSIZ bytes) what it found before. *)
Theorem dirlink_then_lookup V hs dp ip name name' inum s :
  ready i pid cap V hs dp ip s → i_type ip = T_DIR → i_size ip mod 16 = 0 →
  i_size ip + 16 ≤ MAXFILE * ZBSIZE → (length hs + 7 ≤ cap)%nat → (2 ≤ length (free_blocks V (k_sb s)))%nat →
  0 < inum < 65536 → Forall is_byte name → Forall (λ b, b ≠ 0) name → Forall (λ b, b ≠ 0) name' →
  find_idx (names name) (dirents (content V ip)) = None →
  ∃ s1 s2, dirlink (BD := memide) dp name inum s = Done 0 s1 ∧
    dirlookup (BD := memide) dp name' s1 =
      if decide (take DIRSIZ name' = take DIRSIZ name)
      then (i ← iget 1 inum; mret (Some (i, 16 * Z.of_nat (free_slot (content V ip))))) s2
      else match find_idx (names name') (dirents (content V ip)) with
           | None => Done None s2
           | Some j => (i ← iget 1 (de_inum (dirent (content V ip) j)); mret (Some (i, 16 * Z.of_nat j))) s2
           end.
Proof.
  intros R Ht Hm Hmax Hroom Hfree Hin Hby Hnz Hnz' Hnone.
  destruct (dirlink_run V hs dp ip name inum s R Ht Hm Hmax Hroom Hfree Hin Hby Hnone) as
    (s1 & V1 & hs1 & ip1 & R1 & Rd1 & Ht1 & Hm1 & Hents).
  set (k := free_slot (content V ip)) in *. set (l := dirents (content V ip)) in *.
  destruct (free_slot_spec (content V ip)) as [Hk Hfr]. fold k l in Hk, Hfr.
  destruct (new_entry_names inum name name' Hin Hnz Hnz') as [Hdi Hdn].
  rewrite <- (dirents_length (content V ip)) in Hents. fold l in Hents.
  assert (Hsame : take DIRSIZ name' = take DIRSIZ name → ∀ e, names name' e = names name e).
  { intros He e. unfold names, namecmp. f_equal. apply bool_decide_ext. by rewrite (cstr_id _ name' Hnz'), (cstr_id _ name Hnz), He. }
  assert (Hfind : find_idx (names name') (dirents (content V1 ip1)) =
    if names name' (new_entry inum name) then Some k else find_idx (names name') l).
  { rewrite Hents. apply find_put; [done | by intros e He; apply Hfr |]. intros Htrue.
    rewrite Hdn, bool_decide_eq_true in Htrue. rewrite find_idx_None in Hnone |- *. intros j y Hy.
    rewrite Hsame by done. by apply (Hnone j). }
  pose proof (dirlookup_run V1 _ dp ip1 name' s1 (ready_dir _ _ _ _ _ Rd1 Ht1 Hm1)) as L.
  rewrite Hfind, Hdn in L.
  assert (Hd1 : ∀ j e, dirents (content V1 ip1) !! j = Some e → dirent (content V1 ip1) j = e).
  { intros j e He. rewrite dirents_lookup in He. case_decide; [by injection He | done]. }
  assert (Hd0 : ∀ j e, l !! j = Some e → dirent (content V ip) j = e).
  { intros j e He. unfold l in He. rewrite dirents_lookup in He. case_decide; [by injection He | done]. }
  assert (Hlook : ∀ j, dirents (content V1 ip1) !! j = if decide (j = k) then Some (new_entry inum name) else l !! j).
  { intros j. rewrite Hents. by apply put_lookup. }
  exists s1. destruct (decide (take DIRSIZ name' = take DIRSIZ name)) as [He | Hne].
  - rewrite bool_decide_eq_true_2 in L by done. destruct L as (s2 & R2 & _). exists s2. split; [done |].
    rewrite R2. rewrite (Hd1 k (new_entry inum name)) by (by rewrite Hlook, decide_True). by rewrite Hdi.
  - rewrite bool_decide_eq_false_2 in L by done.
    destruct (find_idx (names name') l) as [j |] eqn:Hj; destruct L as (s2 & R2 & _); exists s2; (split; [done |]); [| done].
    rewrite R2. apply find_idx_Some in Hj as [(x & Hx & Hnx) _].
    assert (j ≠ k) by (intros ->; by rewrite (Hfr _ _ Hx) in Hnx).
    rewrite (Hd1 j x), (Hd0 j x); [done | done |]. by rewrite Hlook, decide_False.
Qed.
End dirs.

(** ** Witnesses: the empty directory of [small] *)
Lemma dirlookup_finds_witness :
  ∃ s', dirlookup (FU := 1%nat : Fuel) (BD := memide (MD := 1000)) (DS := no_devices) 1 [97] small = Done None s'.
Proof.
  destruct (@dirlookup_finds (1%nat : Fuel) 1000 no_devices 0 1 small_view (list_to_set []) 1 small_dir [97] small)
    as (s' & _ & _ & _ & R).
  - apply (@ready_dir (1%nat : Fuel) 1000 0 1 27 small_view []); [| done | done].
    apply small_ready; [by right | done].
  - exists s'. exact R.
Defined.

Lemma dirlink_then_lookup_witness :
  ∃ s1 s2, dirlink (FU := 1%nat : Fuel) (BD := memide (MD := 1000)) (DS := no_devices) 1 [97; 98] 7 small = Done 0 s1 ∧
    dirlookup (FU := 1%nat : Fuel) (BD := memide (MD := 1000)) (DS := no_devices) 1 [97; 98] s1 =
      (i ← iget 1 7; mret (Some (i, 0))) s2.
Proof.
  apply (@dirlink_then_lookup (1%nat : Fuel) 1000 no_devices 0 1 27 small_view [] 1 small_dir [97; 98] [97; 98] 7 small).
  - apply small_ready; [by right | done].
  - done.
  - done.
  - done.
  - cbn. lia.
  - pose proof small_free. change (k_sb small) with small_sb. lia.
  - lia.
  - repeat constructor; done.
  - repeat constructor; done.
  - repeat constructor; done.
  - done.
Defined.
