(* ===== verification/Paths.v ===== *)
(** * Path names

    What [namex] makes of a path, on a sound tree of directories: the inode its
    elements lead to, one reference to it more, and no other reference or lock
    kept. *)
From S2P Require Import Prelude Mmu Cstring Kstate Spinlock Kalloc Vm Proc Sleeplock Bio Log Fs Tx Balloc Inodes Writei Content Dirs Icache.

(** The elements of a path: its names, cut to [DIRSIZ] bytes. *)
Definition path_elems (path : list Z) : list (list Z) := take DIRSIZ <$> path_names path.
Lemma skip_slashes_fix path : skip_slashes (skip_slashes path) = skip_slashes path.
Proof.
  destruct (skip_slashes path) as [| c p] eqn:E; [done |]. pose proof (skip_slashes_head _ _ _ E).
  cbn. by rewrite (proj2 (Z.eqb_neq _ _)).
Qed.
Lemma skipelem_elem path :
  match skipelem path with
  | None => path_elems path = []
  | Some (nm, rest) => path_elems path = nm :: path_elems rest ∧ (length rest < length path)%nat ∧ (rest = [] ↔ path_elems rest = [])
  end.
Proof.
  pose proof (skipelem_spec path) as H. destruct (skipelem path) as [[nm rest] |] eqn:E.
  2: { unfold path_elems. by rewrite H. }
  destruct H as (e & -> & Hp & Hl). unfold path_elems. rewrite Hp. split; [done |]. split; [done |].
  split; [by intros -> |]. intros H0%fmap_nil_inv.
  assert (Hskip : skip_slashes rest = rest).
  { unfold skipelem in E. destruct (skip_slashes path); [done |]. destruct (span_elem _). injection E as _ <-. apply skip_slashes_fix. }
  pose proof (skipelem_spec rest) as Hr. unfold skipelem in Hr. rewrite Hskip in Hr.
  destruct rest; [done |]. destruct (span_elem _). destruct Hr as (e' & _ & Hr & _). by rewrite Hr in H0.
Qed.

Section paths.
Context {LK : Linker} {FU : Fuel} {MD : MemDisk} {DS : DevSw}.
Context (i : nat) (pid : Z) (V : Z → list Z) (B : gset Z) (sb : superblock).
#[local] Abbreviation dnode := (dnode V sb).
#[local] Abbreviation fstate := (fstate i pid V B sb).

(** ** What a path means *)
Definition is_dir (ino : Z) : bool := i_type (dnode ino) =? T_DIR.
(** The first entry of directory [ino] with this name. *)
Definition dir_find (ino : Z) (name : list Z) : option Z :=
  match find_idx (names name) (dirents (content V (dnode ino))) with
  | Some k => Some (de_inum (dirent (content V (dnode ino)) k))
  | None => None
  end.
Fixpoint resolve (ino : Z) (es : list (list Z)) : option Z :=
  match es with
  | [] => Some ino
  | e :: es => if is_dir ino then match dir_find ino e with Some n => resolve n es | None => None end else None
  end.
(** The directory that has the last element. *)
Fixpoint resolve_parent (ino : Z) (es : list (list Z)) : option Z :=
  match es with
  | [] => None
  | e :: es =>
      if is_dir ino then
        match es with
        | [] => Some ino
        | _ => match dir_find ino e with Some n => resolve_parent n es | None => None end
        end
      else None
  end.
Definition path_inode (parent : bool) (ino : Z) (path : list Z) : option Z :=
  if parent then resolve_parent ino (path_elems path) else resolve ino (path_elems path).

(** A set of inodes that are in use and that the directories among them do not
    lead out of. *)
Record tree (good : Z → Prop) : Prop := {
  tr_node : ∀ ino, good ino → node_ok V sb ino;
  tr_dir : ∀ ino, good ino → is_dir ino = true →
    ino_ok V (dnode ino) ∧ covered V (dnode ino) ∧ 0 ≤ i_size (dnode ino) ∧ i_size (dnode ino) mod 16 = 0;
  tr_entry : ∀ ino, good ino → is_dir ino = true →
    ∀ de, de ∈ dirents (content V (dnode ino)) → de_inum de ≠ 0 → good (de_inum de) }.

Context (good : Z → Prop) (Tr : tree good).
Context (Hview : ∀ b, length (V b) = BSIZE) (Hbufs : (size B < NBUF)%nat) (Hfuel : (0 < patience)%nat).

Lemma dir_find_good ino name n : good ino → is_dir ino = true → dir_find ino name = Some n → good n.
Proof.
  intros Hg Hd. unfold dir_find. destruct (find_idx _ _) as [k |] eqn:E; [| done]. intros [= <-].
  apply find_idx_Some in E as [(de & Hk & Hn) _].
  assert (de = dirent (content V (dnode ino)) k) as ->.
  { rewrite dirents_lookup in Hk. case_decide; by simplify_eq. }
  unfold names in Hn. apply andb_true_iff in Hn as [H0 _]. apply negb_true_iff, Z.eqb_neq in H0.
  apply (tr_entry _ Tr ino Hg Hd _); [by eapply list_elem_of_lookup_2 | done].
Qed.

(** A locked directory's entries. *)
Lemma lookup_locked j ino ip name s :
  fstate (Some j) s → good ino → is_dir ino = true → k_icache s !! j = Some ip → i_inum ip = ino →
  0 < i_ref ip → i_valid ip = true →
  ∃ s', fstate (Some j) s' ∧ moved s s' (λ _, 0) 0 ∧ k_icache s' = k_icache s ∧
    match dir_find ino name with
    | None => dirlookup (BD := memide) j name s = Done None s'
    | Some n => ∃ off, dirlookup (BD := memide) j name s = (k ← iget 1 n; mret (Some (k, off))) s'
    end.
Proof.
  intros F Hg Hd Hj <- Hr Hv. pose proof (fstate_table _ _ _ _ _ _ _ F) as T.
  pose proof (tk_disk _ _ _ _ _ T j ip Hj Hr Hv) as E. pose proof (tk_dev _ _ _ _ _ T j ip Hj Hr) as Hdev.
  assert (content V ip = content V (dnode (i_inum ip))) as Hcont by (by rewrite E at 1).
  destruct (tr_dir _ Tr _ Hg Hd) as (Hok & Hcov & Hs0 & Hs16).
  assert (dir i pid V B j ip s) as D.
  { split; [apply F | done | done | done | | | | done |].
    - rewrite E. by apply Z.eqb_eq in Hd.
    - destruct Hok. split; [done | by rewrite E | by rewrite E | by rewrite E].
    - rewrite E. exact Hcov.
    - rewrite E. by split. }
  pose proof (dirlookup_run i pid V B j ip name s D) as H. unfold dir_find. rewrite <- Hcont.
  destruct (find_idx _ _) as [k |].
  - destruct H as (s' & R & D' & S). destruct (read_moved i pid V B sb _ s s' F (dir_io _ _ _ _ _ _ _ D') S) as (F' & M & Hi).
    exists s'. split; [done |]. split; [done |]. split; [done |]. by eexists.
  - destruct H as (s' & R & D' & S). destruct (read_moved i pid V B sb _ s s' F (dir_io _ _ _ _ _ _ _ D') S) as (F' & M & Hi).
    by exists s'.
Qed.

(** ** Walking *)

(** What a walk from [ino] to [res] makes of the reference it holds. *)
Definition ref_to (res : option Z) (o : Z) : Z := match res with Some d => one (o = d) | None => 0 end.
Definition walk_refs (ino : Z) (res : option Z) (o : Z) : Z := ref_to res o - one (o = ino).
Definition walk_free (s : kst) (ino : Z) (res : option Z) : Z :=
  one (refs (k_icache s) ino = 1) -
  match res with Some d => one (refs (k_icache s) d - one (d = ino) = 0) | None => 0 end.
Record at_inode (j : nat) (ino : Z) (s : kst) : Prop := {
  ai_state : fstate None s;
  ai_entry : entry j ino s;
  ai_good : good ino;
  ai_room : 2 ≤ free_slots (k_icache s) + one (refs (k_icache s) ino = 1);
  ai_small : ∀ o, refs (k_icache s) o - one (o = ino) + 2 < 2147483648 }.
(** The result [res] of a walk that began in [s] with a reference to [ino]. *)
Definition walked (r : outcome kst (option (nat * list Z))) (s : kst) (ino : Z) (res : option Z) (name : list Z) : Prop :=
  ∃ s', fstate None s' ∧ moved s s' (walk_refs ino res) (walk_free s ino res) ∧
    match res with
    | Some d => ∃ k, r = Done (Some (k, name)) s' ∧ entry k d s'
    | None => r = Done None s'
    end.

Lemma leave j ino s s0 :
  fstate (Some j) s → entry j ino s → good ino → moved s0 s (λ _, 0) 0 → refs (k_icache s0) ino < 2147483648 →
  ∃ s', iunlockput (BD := memide) j s = Done tt s' ∧ fstate None s' ∧
    moved s0 s' (walk_refs ino None) (walk_free s0 ino None).
Proof.
  intros F He Hg M Hsm. pose proof (mv_refs _ _ _ _ M) as Hr.
  destruct (iunlockput_spec i pid V B sb j ino s F Hfuel He (tr_node _ Tr _ Hg)) as (s' & R & F' & M' & _).
  { rewrite Hr. lia. }
  exists s'. split; [done |]. split; [done |].
  apply (moved_weaken _ _ _ _ _ _ (moved_trans _ _ _ _ _ _ _ M M')).
  - intros o. unfold walk_refs, ref_to. lia.
  - unfold walk_free. rewrite Hr, Z.add_0_r. lia.
Qed.

(** From directory [j] to the entry of [n], whose reference is taken before the
    one of [j] is given back. *)
Lemma descend j ino n s0 s :
  fstate (Some j) s → entry j ino s → good ino → good n → moved s0 s (λ _, 0) 0 → at_inode j ino s0 →
  ∃ k s1 s2, iget 1 n s = Done k s1 ∧ iunlockput (BD := memide) j s1 = Done tt s2 ∧ at_inode k n s2 ∧
    moved s0 s2 (walk_refs ino (Some n)) (walk_free s0 ino (Some n)).
Proof.
  intros F He Hg Hgn M [_ _ _ Hroom Hsm]. pose proof (mv_refs _ _ _ _ M) as Hr. pose proof (mv_free _ _ _ _ M) as Hfr.
  assert (Hr' : ∀ o, refs (k_icache s) o = refs (k_icache s0) o) by (intros; rewrite Hr; lia).
  pose proof (entry_refs _ _ _ _ _ _ _ _ _ F He) as Hpos.
  destruct (iget_spec i pid V B sb (Some j) s n F) as (k & s1 & R1 & F1 & Hk & M1 & He1).
  { rewrite Hr'. specialize (Hsm n). unfold one in Hsm. case_bool_decide; lia. }
  { rewrite Hr', Hfr. unfold one in Hroom. rewrite Hr' in Hpos. case_bool_decide; [| lia]. right. lia. }
  destruct (iunlockput_spec i pid V B sb j ino s1 F1 Hfuel (He1 _ _ He) (tr_node _ Tr _ Hg)) as (s2 & R2 & F2 & M2 & He2).
  { rewrite (mv_refs _ _ _ _ M1), Hr'. specialize (Hsm ino). unfold one in *. repeat case_bool_decide; lia || congruence. }
  exists k, s1, s2. split; [done |]. split; [done |].
  pose proof (mv_refs _ _ _ _ M1) as Hr1. pose proof (mv_refs _ _ _ _ M2) as Hr2.
  pose proof (mv_free _ _ _ _ M1) as Hf1. pose proof (mv_free _ _ _ _ M2) as Hf2.
  rewrite Hr' in Hf1. rewrite Hr1, Hr' in Hf2. rewrite Hr' in Hpos.
  assert (Hboth : ∀ o, refs (k_icache s2) o = refs (k_icache s0) o + one (o = n) - one (o = ino)).
  { intros o. rewrite Hr2, Hr1, Hr'. lia. }
  split.
  - split; [done | | done | |].
    + apply He2; [| done]. destruct (decide (k = j)) as [-> | Hne]; [right | by left].
      rewrite Hr1, Hr'. assert (n = ino) as ->; [| unfold one; rewrite bool_decide_eq_true_2 by done; lia].
      destruct Hk as (ip & Hj & <- & _), (He1 _ _ He) as (iq & Hq & <- & _). by simplify_eq.
    + rewrite Hboth, Hf2, Hf1, Hfr. unfold one in *. repeat case_bool_decide; subst; try lia; try congruence.
    + intros o. rewrite Hboth. specialize (Hsm o). lia.
  - split.
    + etransitivity; [apply M | etransitivity; [apply M1 | apply M2]].
    + intros o. rewrite Hboth. unfold walk_refs, ref_to. lia.
    + rewrite Hf2, Hf1, Hfr. unfold walk_free, one. repeat case_bool_decide; subst; try lia; try congruence.
Qed.

Lemma walked_step r s0 s ino n res name :
  moved s0 s (walk_refs ino (Some n)) (walk_free s0 ino (Some n)) →
  walked r s n res name → walked r s0 ino res name.
Proof.
  intros M (s' & F & M' & H). exists s'. split; [done |]. split; [| done].
  pose proof (mv_refs _ _ _ _ M) as Hr.
  apply (moved_weaken _ _ _ _ _ _ (moved_trans _ _ _ _ _ _ _ M M')).
  - intros o. unfold walk_refs. cbn [ref_to]. lia.
  - unfold walk_free. rewrite Hr. unfold walk_refs. cbn [ref_to]. unfold one. destruct res as [d |].
    + rewrite Hr. unfold walk_refs. cbn [ref_to]. unfold one. repeat case_bool_decide; subst; lia || congruence.
    + repeat case_bool_decide; subst; lia || congruence.
Qed.
Lemma walked_here s0 s ino name j : fstate None s → entry j ino s → moved s0 s (λ _, 0) 0 →
  walked (Done (Some (j, name)) s) s0 ino (Some ino) name.
Proof.
  intros F He M. exists s. split; [done |]. split; [| by exists j]. apply (moved_weaken _ _ _ _ _ _ M).
  - intros o. unfold walk_refs. cbn [ref_to]. lia.
  - unfold walk_free, one. repeat case_bool_decide; lia.
Qed.

Lemma namex_loop_run parent fuel : ∀ path name j ino s,
  (length path < fuel)%nat → at_inode j ino s →
  walked (namex_loop (BD := memide) fuel j path parent name s) s ino (path_inode parent ino path)
    (default name (last (path_elems path))).
Proof.
  induction fuel as [| fuel IH]; intros path name j ino s Hf A; [lia |]. pose proof A as [F He Hg Hroom Hsm].
  assert (Hino : refs (k_icache s) ino < 2147483648) by (specialize (Hsm ino); unfold one in Hsm; case_bool_decide; lia).
  unfold path_inode. cbn [namex_loop]. pose proof (skipelem_elem path) as Hel. destruct (skipelem path) as [[nm rest] |].
  2: { rewrite Hel. destruct parent; cbn [resolve resolve_parent last default].
    - destruct (iput_spec i pid V B sb j ino s F Hfuel He (tr_node _ Tr _ Hg) Hino) as (s' & R & F' & M & _).
      exists s'. split; [done |]. split; [| by rewrite (bind_done _ _ _ _ _ R)].
      apply (moved_weaken _ _ _ _ _ _ M); unfold walk_refs, walk_free, ref_to; intros; lia.
    - apply (walked_here s s); [done | done | apply moved_refl]. }
  destruct Hel as (-> & Hlen & Hrest).
  assert (Hname : default name (last (nm :: path_elems rest)) = default nm (last (path_elems rest))).
  { rewrite last_cons. by destruct (last (path_elems rest)). }
  rewrite Hname.
  destruct (ilock_spec i pid V B sb j ino s F Hbufs Hfuel He (tr_node _ Tr _ Hg)) as (s1 & ip & R1 & F1 & M1 & Hj & Hi & Hr & Hv & He1).
  assert (Hty : (i_type ip =? T_DIR) = is_dir ino).
  { unfold is_dir. rewrite (tk_disk _ _ _ _ _ (fstate_table _ _ _ _ _ _ _ F1) j ip Hj Hr Hv). by rewrite <- Hi. }
  assert (Hout : ∀ s2, fstate (Some j) s2 → entry j ino s2 → moved s s2 (λ _, 0) 0 →
    walked ((iunlockput (BD := memide) j;; mret None) s2) s ino None (default nm (last (path_elems rest)))).
  { intros s2 F2 He2 M2. destruct (leave j ino s2 s F2 He2 Hg M2 Hino) as (s' & Rl & Fl & Ml).
    exists s'. split; [done |]. split; [done |]. by rewrite (bind_done _ _ _ _ _ Rl). }
  rewrite (bind_done _ _ _ _ _ R1), (get_inode_bind _ _ ip), Hty by done. cbn [resolve resolve_parent].
  destruct (is_dir ino) eqn:Hdir; cbn [negb].
  2: { assert ((if parent then None else None) = @None Z) as -> by (by destruct parent). by apply Hout; [| apply He1 |]. }
  destruct (parent && bool_decide (rest = []))%bool eqn:Hstop.
  { apply andb_true_iff in Hstop as [-> ->%bool_decide_eq_true]. rewrite (proj1 Hrest) by done. cbn [last default].
    destruct (iunlock_spec i pid V B sb j ip s1 F1 Hj Hr) as (s2 & R2 & F2 & M2 & _ & He2).
    rewrite (bind_done _ _ _ _ _ R2). apply (walked_here s s2); [done | by apply He2, He1 |].
    by apply (moved_weaken _ _ _ _ _ _ (moved_trans _ _ _ _ _ _ _ M1 M2)). }
  assert (Hres : (if parent then match path_elems rest with [] => Some ino | _ => match dir_find ino nm with Some n => resolve_parent n (path_elems rest) | None => None end end
    else match dir_find ino nm with Some n => resolve n (path_elems rest) | None => None end) =
    match dir_find ino nm with Some n => path_inode parent n rest | None => None end).
  { unfold path_inode. destruct parent; [| done]. destruct (path_elems rest) eqn:E; [| done].
    rewrite (proj2 Hrest) in Hstop by done. done. }
  rewrite Hres.
  destruct (lookup_locked j ino ip nm s1 F1 Hg Hdir Hj Hi Hr Hv) as (s2 & F2 & M2 & Hic & R2).
  assert (He2 : entry j ino s2) by (unfold entry; rewrite Hic; by exists ip).
  assert (M02 : moved s s2 (λ _, 0) 0) by (by apply (moved_weaken _ _ _ _ _ _ (moved_trans _ _ _ _ _ _ _ M1 M2))).
  destruct (dir_find ino nm) as [n |] eqn:Hfind.
  2: { rewrite (bind_done _ _ _ _ _ R2). by apply Hout. }
  destruct R2 as (off & R2). pose proof (dir_find_good _ _ _ Hg Hdir Hfind) as Hgn.
  destruct (descend j ino n s s2 F2 He2 Hg Hgn M02 A) as (k & s3 & s4 & R3 & R4 & A4 & M4).
  rewrite (bind_done (dirlookup j nm) _ s1 (Some (k, off)) s3) by (rewrite R2; by rewrite (bind_done _ _ _ _ _ R3)).
  rewrite (bind_done _ _ _ _ _ R4). apply (walked_step _ s s4 _ n); [done |].
  apply IH; [lia | done].
Qed.

(** Where a path starts: at the root or at the current directory. *)
Definition path_start (cwd : Z) (path : list Z) : Z := if bool_decide (head path = Some slash) then ROOTINO else cwd.

Lemma start_run {A} c cwd p path (k : nat → K A) s :
  fstate None s → k_procs s !! i = Some p → p_cwd p = Some c → entry c cwd s → good (path_start cwd path) →
  2 ≤ free_slots (k_icache s) → (∀ o, refs (k_icache s) o + 2 < 2147483648) →
  ∃ j s', ((i ← (if bool_decide (head path = Some slash) then iget ROOTDEV ROOTINO
       else
         op ← myproc;
         c ← deref "myproc() == 0" op;
         p ← get_proc c;
         i ← deref "idup(0)" (p_cwd p);
         idup i;; mret i); k i) s = k j s') ∧
    at_inode j (path_start cwd path) s' ∧
    moved s s' (λ o, one (o = path_start cwd path)) (- one (refs (k_icache s) (path_start cwd path) = 0)).
Proof.
  intros F Hp Hcwd He Hg Hroom Hsm. unfold path_start in *. case_bool_decide.
  - destruct (iget_spec i pid V B sb None s ROOTINO F) as (j & s' & R & F' & He' & M & _);
      [specialize (Hsm ROOTINO); lia | right; lia |].
    exists j, s'. split; [by apply bind_done |]. split; [| done]. split; try done.
    + rewrite (mv_refs _ _ _ _ M), (mv_free _ _ _ _ M). unfold one. repeat case_bool_decide; lia.
    + intros o. rewrite (mv_refs _ _ _ _ M). specialize (Hsm o). lia.
  - assert (He0 : entry c cwd (ksync s)) by exact He. pose proof (fstate_sync _ _ _ _ _ _ _ F) as F0.
    pose proof (entry_refs _ _ _ _ _ _ _ _ _ F He) as Hpos.
    destruct (idup_spec i pid V B sb None c cwd (ksync s) F0 He0) as (s' & R & F' & M & He').
    { change (k_icache (ksync s)) with (k_icache s). specialize (Hsm cwd). lia. }
    exists c, s'. split; [| split; [split |]].
    + apply bind_done. destruct (fstate_calm _ _ _ _ _ _ _ F) as [Hc Hi Hh _].
      rewrite myproc_bind, Hi by done. cbn [deref]. rewrite bind_ret.
      rewrite (get_proc_bind _ _ p) by done. rewrite Hcwd. cbn [deref]. by rewrite bind_ret, (bind_done _ _ _ _ _ R).
    + done.
    + by apply He'.
    + done.
    + rewrite (mv_refs _ _ _ _ M), (mv_free _ _ _ _ M). change (k_icache (ksync s)) with (k_icache s). unfold one.
      repeat case_bool_decide; lia.
    + intros o. rewrite (mv_refs _ _ _ _ M). change (k_icache (ksync s)) with (k_icache s). specialize (Hsm o). lia.
    + destruct M as [[] Mr Mf]. split; [by split | exact Mr |]. rewrite Mf. change (k_icache (ksync s)) with (k_icache s).
      unfold one. rewrite (bool_decide_eq_false_2 (refs _ _ = 0)) by lia. lia.
Qed.

(** What [namex] does. *)
Lemma namex_run parent path c cwd p s :
  fstate None s → k_procs s !! i = Some p → p_cwd p = Some c → entry c cwd s → good (path_start cwd path) →
  2 ≤ free_slots (k_icache s) → (∀ o, refs (k_icache s) o + 2 < 2147483648) →
  let res := path_inode parent (path_start cwd path) path in
  ∃ s', fstate None s' ∧ quiet s s' ∧ (∀ o, refs (k_icache s') o = refs (k_icache s) o + ref_to res o) ∧
    free_slots (k_icache s') = free_slots (k_icache s) -
      match res with Some d => one (refs (k_icache s) d = 0) | None => 0 end ∧
    match res with
    | Some d => ∃ k, namex (BD := memide) path parent s = Done (Some (k, default [] (last (path_elems path)))) s' ∧ entry k d s'
    | None => namex (BD := memide) path parent s = Done None s'
    end.
Proof.
  intros F Hp Hcwd He Hg Hroom Hsm res. set (st := path_start cwd path) in *.
  destruct (start_run c cwd p path (λ i, namex_loop (BD := memide) (S (length path)) i path parent []) s F Hp Hcwd He Hg Hroom Hsm)
    as (j & s1 & R & A & M). fold st in A, M.
  destruct (namex_loop_run parent (S (length path)) path [] j st s1 ltac:(lia) A) as (s' & F' & M' & H).
  fold res in H, M'. exists s'. split; [done |]. unfold namex. rewrite R.
  split; [by etransitivity; [apply M | apply M'] |]. split; [| split; [| done]].
  - intros o. rewrite (mv_refs _ _ _ _ M'), (mv_refs _ _ _ _ M). unfold walk_refs. lia.
  - rewrite (mv_free _ _ _ _ M'), (mv_free _ _ _ _ M). unfold walk_free. rewrite !(mv_refs _ _ _ _ M).
    pose proof (entry_refs _ _ _ _ _ _ _ _ _ F He).
    assert (0 ≤ refs (k_icache s) st).
    { apply tsum_nonneg. intros ip Hip. unfold refs_of. destruct (bool_decide (i_inum ip = st)); [| done].
      apply list_elem_of_lookup in Hip as [k Hk]. by apply (tk_ref _ _ _ _ _ (fstate_table _ _ _ _ _ _ _ F) k). }
    destruct res as [d |]; [rewrite !(mv_refs _ _ _ _ M) |]; unfold one; repeat case_bool_decide; subst; lia || congruence.
Qed.
End paths.

Section path_theorems.
Context {FU : Fuel} {MD : MemDisk} {DS : DevSw}.

(** C7: [namex] follows the path: on a sound tree of directories it ends and
    returns the inode the elements of the path lead to, "." and ".." and
    repeated slashes included, or for [nameiparent] the directory of the last
    element and that element, and None where a directory is missing; the result
    is referenced once more, every other count is as before, no inode stays
    locked. *)
Theorem namex_walks i pid V B sb good parent path c cwd p s :
  let start := path_start cwd path in
  let res := path_inode V sb parent start path in
  tree V sb good → (∀ b, length (V b) = BSIZE) → (size B < NBUF)%nat → (0 < patience)%nat →
  fstate i pid V B sb None s → k_procs s !! i = Some p → p_cwd p = Some c → entry c cwd s → good start →
  2 ≤ free_slots (k_icache s) → (∀ o, refs (k_icache s) o + 2 < 2147483648) →
  ∃ s', fstate i pid V B sb None s' ∧ quiet s s' ∧
    (∀ o, refs (k_icache s') o = refs (k_icache s) o + ref_to res o) ∧
    free_slots (k_icache s') = free_slots (k_icache s) -
      match res with Some d => one (refs (k_icache s) d = 0) | None => 0 end ∧
    match res with
    | Some d => ∃ k, namex (BD := memide) path parent s = Done (Some (k, default [] (last (path_elems path)))) s' ∧ entry k d s'
    | None => namex (BD := memide) path parent s = Done None s'
    end.
Proof. intros start res Tr Hv Hb Hf F Hp Hc He Hg Hroom Hsm. by apply (namex_run i pid V B sb good Tr Hv Hb Hf parent path c cwd p). Qed.
End path_theorems.

(** ** A kernel on a disk, its current directory the only inode in the cache *)
Definition on_cold (d : gmap Z (list Z)) (sb : superblock) (cwd : Z) : kst :=
  cold <| k_disk := d |> <| k_sb := sb |>
    <| k_icache := [inode0 <| i_dev := 1 |> <| i_inum := cwd |> <| i_ref := 1 |>; inode0; inode0] |>
    <| k_procs ::= alter (λ p, p <| p_cwd := Some 0%nat |>) 0%nat |>.
Lemma on_cold_state d sb cwd : fstate 0 1 (disk_block d) ∅ sb None (on_cold d sb cwd).
Proof.
  split; [| done |].
  - assert (Hb : ∀ j b, k_bufs (on_cold d sb cwd) !! j = Some b → b = buf0).
    { intros j b H. change (replicate NBUF buf0 !! j = Some b) in H. by apply lookup_replicate in H as [-> _]. }
    split; try done.
    + intros j k b c Hj%Hb Hk%Hb. by subst b.
    + intros j b ->%Hb. split; try done. by intros ?%elem_of_nil.
  - split.
    + intros [| [| [| j]]] ip [= <-]; cbn; lia.
    + by intros [| [| [| j]]] ip [= <-].
    + by intros [| [| [| j]]] ip [= <-].
    + by intros [| [| [| j]]] ip [= <-].
    + by intros [| [| [| j]]] [| [| [| k]]] ip iq [= <-] [= <-].
Qed.
Lemma on_cold_refs d sb cwd o : cwd ≠ 0 → refs (k_icache (on_cold d sb cwd)) o = one (o = cwd).
Proof. intros. unfold refs, refs_of, one. cbn. repeat case_bool_decide; cbn; congruence || lia. Qed.
Lemma on_cold_proc d sb cwd : ∃ p, k_procs (on_cold d sb cwd) !! 0%nat = Some p ∧ p_cwd p = Some 0%nat.
Proof. by eexists. Qed.
Lemma on_cold_entry d sb cwd : entry 0 cwd (on_cold d sb cwd).
Proof. by eexists. Qed.
Lemma on_cold_room d sb cwd : 2 ≤ free_slots (k_icache (on_cold d sb cwd)).
Proof. done. Qed.

(** ** Witness: a root with a directory d that holds a file f; from d, "../d//f" *)
Definition dir_at (size addr : Z) : inode := small_dir <| i_size := size |> <| i_addrs := addr :: replicate 12 0 |>.
Definition family_disk : gmap Z (list Z) :=
  {[ 32 := replicate 64 0 ++ encode_dinode (dir_at 32 59) ++ encode_dinode (dir_at 32 60) ++ encode_dinode small_file ++ replicate 256 0;
     59 := new_entry 1 (bytes ".") ++ new_entry 2 (bytes "d") ++ replicate 480 0;
     60 := new_entry 1 (bytes "..") ++ new_entry 3 (bytes "f") ++ replicate 480 0 ]}.
Definition family_view : Z → list Z := disk_block family_disk.
Lemma family_dir ino : ino ∈ [1; 2] →
  ino_ok (MD := 1000) family_view (dnode family_view small_sb ino) ∧ covered family_view (dnode family_view small_sb ino).
Proof.
  intros Hi. set (ip := dnode family_view small_sb ino).
  assert (Hall : forallb (λ bn, (0 <=? blk_addr family_view ip bn) && (blk_addr family_view ip bn <? 1000))%bool (seq 0 140) = true ∧
    i_size ip = 32 ∧ length (i_addrs ip) = 13%nat ∧ ind_addr ip = 0 ∧ blk_addr family_view ip 0 ≠ 0).
  { unfold ip. repeat (apply elem_of_cons in Hi as [-> | Hi]; [by vm_compute |]). by apply elem_of_nil in Hi. }
  destruct Hall as (Hall & Hs & Hl & Hind & H0). rewrite forallb_forall in Hall. split.
  - split; [done | done | rewrite Hind; done |]. intros bn Hbn.
    assert (In bn (seq 0 140)) as Hin by (apply in_seq; unfold NDIRECT, NINDIRECT in Hbn; lia).
    specialize (Hall bn Hin).
    apply andb_true_iff in Hall as [?%Z.leb_le ?%Z.ltb_lt]. by split.
  - split; [rewrite Hs; done |]. intros bn Hbn. rewrite Hs in Hbn. change (Z.to_nat 32) with 32%nat in Hbn.
    unfold BSIZE in Hbn. by assert (bn = O) as -> by lia.
Qed.
Lemma family_tree : tree (MD := 1000) family_view small_sb (λ ino, ino ∈ [1; 2; 3]).
Proof.
  assert (Hdir : ∀ ino, ino ∈ [1; 2; 3] → is_dir family_view small_sb ino = true → ino ∈ [1; 2]).
  { intros ino Hi Hd. apply elem_of_cons in Hi as [-> | Hi]; [by left |]. apply elem_of_cons in Hi as [-> | Hi]; [right; by left |].
    apply list_elem_of_singleton in Hi as ->. by vm_compute in Hd. }
  split.
  - intros ino Hi. repeat (apply elem_of_cons in Hi as [-> | Hi]; [split; by vm_compute |]). by apply elem_of_nil in Hi.
  - intros ino Hi Hd. apply (Hdir ino Hi) in Hd. destruct (family_dir ino Hd). split; [done |]. split; [done |].
    repeat (apply elem_of_cons in Hd as [-> | Hd]; [by vm_compute |]). by apply elem_of_nil in Hd.
  - intros ino Hi Hd de Hde Hn. apply (Hdir ino Hi) in Hd.
    assert (Hall : forallb (λ de, bool_decide (de_inum de ∈ [1; 2; 3])) (dirents (content family_view (dnode family_view small_sb ino))) = true).
    { repeat (apply elem_of_cons in Hd as [-> | Hd]; [by vm_compute |]). by apply elem_of_nil in Hd. }
    by apply (forallb_true_all _ _ de), bool_decide_eq_true in Hall.
Qed.
Lemma family_blocks b : length (family_view b) = BSIZE.
Proof.
  unfold family_view, disk_block, family_disk. destruct (decide (b = 32)) as [-> |]; [by vm_compute |].
  destruct (decide (b = 59)) as [-> |]; [by vm_compute |]. destruct (decide (b = 60)) as [-> |]; [by vm_compute |].
  by rewrite lookup_insert_ne, lookup_insert_ne, lookup_singleton_ne by done.
Qed.
Lemma family_path : path_inode family_view small_sb false (path_start 2 (bytes "../d//f")) (bytes "../d//f") = Some 3.
Proof. by vm_compute. Qed.
Lemma namex_walks_witness :
  ∃ k s', namex (FU := 1%nat : Fuel) (BD := memide (MD := 1000)) (DS := no_devices) (bytes "../d//f") false (on_cold family_disk small_sb 2) = Done (Some (k, bytes "f")) s' ∧
    entry k 3 s' ∧ refs (k_icache s') 3 = 1 ∧ refs (k_icache s') 2 = 1.
Proof.
  pose proof (namex_walks (FU := 1%nat : Fuel) (MD := 1000) (DS := no_devices) 0 1 family_view ∅ small_sb (λ ino, ino ∈ [1; 2; 3]) false (bytes "../d//f")
    0%nat 2) as H. cbv zeta in H. rewrite family_path in H. change (path_start 2 (bytes "../d//f")) with 2 in H.
  change (default [] (last (path_elems (bytes "../d//f")))) with (bytes "f") in H.
  pose proof (on_cold_refs family_disk small_sb 2) as Hr0.
  destruct (on_cold_proc family_disk small_sb 2) as (p & Hp & Hc).
  edestruct H as (s' & _ & _ & Hr & _ & k & R & He).
  - apply family_tree.
  - apply family_blocks.
  - rewrite size_empty. unfold NBUF. lia.
  - apply Nat.lt_0_succ.
  - apply on_cold_state.
  - exact Hp.
  - exact Hc.
  - apply on_cold_entry.
  - right. left.
  - apply on_cold_room.
  - intros o. rewrite Hr0 by done. unfold one. case_bool_decide; lia.
  - exists k, s'. split; [exact R |]. split; [exact He |]. split.
    + etransitivity; [apply Hr |]. by rewrite Hr0.
    + etransitivity; [apply Hr |]. by rewrite Hr0.
Defined.
