(* ===== verification/Itrunc.v ===== *)
(** * Giving the blocks of a file back

    [bfree] and [itrunc] inside a transaction. *)
From stdpp Require Import functions.
From S2P Require Import Prelude Mmu Cstring Kstate Spinlock Kalloc Vm Proc Sleeplock Bio Log Fs Tx Balloc Inodes Writei Content.

(** The map after the blocks [l] have been freed, one after the other. *)
Definition free_all (V : Z → list Z) (sb : superblock) (l : list Z) : Z → list Z :=
  foldl (λ V b, freed V sb b) V l.
Definition nonzero (l : list Z) : list Z := filter (λ a, a ≠ 0) l.

Section itrunc.
Context {LK : Linker} {FU : Fuel} {MD : MemDisk} {DS : DevSw}.
Implicit Types (V : Z → list Z) (hs : list Z) (H : list nat) (s : kst).
Context (i : nat) (pid : Z) (cap : nat).

(** The disk these operations need: one block of free map, and the superblock
    in block 1, as [readsb] reads it. *)
Record one_map V (sb : superblock) : Prop := {
  om_layout : layout sb;
  om_one : sb_size sb ≤ BPB;
  om_first : 1 < sb_bmapstart sb;
  om_sb : sb_decode (V 1) = sb }.

Lemma one_map_block V sb b : one_map V sb → data_block sb b → BBLOCK b sb = sb_bmapstart sb.
Proof.
  intros O Hb. pose proof (om_layout _ _ O) as L. destruct (data_block_range sb b L Hb) as [Hb0 _].
  destruct (BBLOCK_eq sb b L Hb0) as [-> _]. pose proof (om_one _ _ O).
  rewrite Z.div_small by lia. lia.
Qed.

Lemma in_use_freed V sb a c :
  layout sb → (∀ b, block_ok (V b)) → data_block sb a → 0 ≤ c < sb_size sb →
  in_use (freed V sb a) sb c = (negb (bool_decide (c = a)) && in_use V sb c)%bool.
Proof.
  intros L HV Ha Hc. destruct (data_block_range sb a L Ha) as [Ha0 _].
  pose proof (Z.mod_pos_bound c BPB ltac:(done)). pose proof (Z.mod_pos_bound a BPB ltac:(done)).
  unfold in_use, freed. destruct (decide (BBLOCK a sb = BBLOCK c sb)) as [He | Hne].
  - rewrite He, fn_lookup_insert, clear_bit_get.
    2: { rewrite (proj1 (HV _)). unfold BPB, BSIZE in *. apply Nat.Div0.div_lt_upper_bound. lia. }
    f_equal. f_equal. apply bool_decide_ext.
    destruct (BBLOCK_eq sb a L Ha0) as [Hae _], (BBLOCK_eq sb c L Hc) as [Hce _].
    pose proof (Z.div_mod a BPB ltac:(done)). pose proof (Z.div_mod c BPB ltac:(done)).
    unfold BPB in *. split; intros; lia.
  - rewrite fn_lookup_insert_ne by done. rewrite bool_decide_eq_false_2; [done |]. by intros ->.
Qed.
Lemma freed_ok V sb a : (∀ b, block_ok (V b)) → ∀ b, block_ok (freed V sb a b).
Proof.
  intros HV b. unfold freed. destruct (decide (BBLOCK a sb = b)) as [<- |].
  - rewrite fn_lookup_insert. by apply block_ok_clear_bit.
  - by rewrite fn_lookup_insert_ne.
Qed.

Lemma free_all_other V sb l : one_map V sb → Forall (data_block sb) l →
  ∀ c, c ≠ sb_bmapstart sb → free_all V sb l c = V c.
Proof.
  intros O Hl c Hc. revert V O. induction Hl as [| a l Ha Hl IH]; intros V O; [done |]. cbn [free_all foldl].
  fold (free_all (freed V sb a) sb l).
  assert (Hf : ∀ c, c ≠ sb_bmapstart sb → freed V sb a c = V c).
  { intros d Hd. unfold freed. rewrite (one_map_block V sb a O Ha). by rewrite fn_lookup_insert_ne by congruence. }
  rewrite IH; [by apply Hf |]. destruct O as [? ? ? Hs]. split; try done. rewrite Hf; [done | lia].
Qed.
Lemma free_all_one_map V sb l : one_map V sb → Forall (data_block sb) l → one_map (free_all V sb l) sb.
Proof.
  intros O Hl. pose proof O as [? ? ? Hs]. split; try done. rewrite (free_all_other V sb l O Hl); [done | lia].
Qed.
Lemma free_all_in_use V sb l c :
  layout sb → (∀ b, block_ok (V b)) → Forall (data_block sb) l → 0 ≤ c < sb_size sb →
  in_use (free_all V sb l) sb c = (negb (bool_decide (c ∈ l)) && in_use V sb c)%bool.
Proof.
  intros L HV Hl Hc. revert V HV. induction Hl as [| a l Ha Hl IH]; intros V HV; [done |].
  cbn [free_all foldl]. fold (free_all (freed V sb a) sb l). rewrite IH by (by apply freed_ok).
  rewrite in_use_freed by done. destruct (decide (c = a)) as [-> | Hne].
  - rewrite (bool_decide_eq_true_2 (a = a)) by done. rewrite (bool_decide_eq_true_2 (a ∈ a :: l)) by left.
    by rewrite !andb_false_r.
  - rewrite (bool_decide_eq_false_2 (c = a)) by done. cbn [negb andb]. f_equal. f_equal. apply bool_decide_ext.
    rewrite elem_of_cons. tauto.
Qed.
Lemma free_all_app V sb l l' : free_all V sb (l ++ l') = free_all (free_all V sb l) sb l'.
Proof. apply foldl_app. Qed.

Lemma add_blk_in hs b : b ∈ hs → add_blk hs b = hs.
Proof. intros H. unfold add_blk. by rewrite decide_True. Qed.
Lemma add_blk_idem hs b : add_blk (add_blk hs b) b = add_blk hs b.
Proof. apply add_blk_in, elem_of_add_blk. by right. Qed.

Lemma bfree_run V hs H b s :
  one_map V (k_sb s) → tx i pid cap V hs H s → (0 < patience)%nat → (length H ≤ 1)%nat → (length hs < cap)%nat →
  data_block (k_sb s) b → in_use V (k_sb s) b = true →
  (∀ j c, j ∈ H → k_bufs s !! j = Some c → data_block (k_sb s) (b_blockno c)) →
  ∃ s', bfree (BD := memide) 1 b s = Done tt s' ∧
    tx i pid cap (freed V (k_sb s) b) (add_blk hs (sb_bmapstart (k_sb s))) H s' ∧ tx_step s s' ∧
    ∀ k, k ∈ H → k_bufs s' !! k = k_bufs s !! k.
Proof.
  intros O T Hfu HH Hroom Hb Hu Hheld. pose proof (om_layout _ _ O) as L. pose proof (om_first _ _ O).
  destruct (data_block_range _ b L Hb) as [Hb0 Hb1]. pose proof (one_map_block V _ b O Hb) as HBB.
  destruct (BBLOCK_eq _ b L Hb0) as [_ HBr]. rewrite HBB in HBr.
  assert (Hnh : ∀ c, c < data_start (k_sb s) → not_held c H s).
  { intros c Hc j x Hj Hx Heq. specialize (Hheld j x Hj Hx). rewrite Heq in Hheld. unfold data_block in Hheld. lia. }
  pose proof (data_block_bmap _ _ L Hb) as Hbm.
  assert (Hds : sb_bmapstart (k_sb s) < data_start (k_sb s)).
  { unfold data_start. pose proof (ly_size _ L).
    assert (0 ≤ (sb_size (k_sb s) - 1) / BPB) by (apply Z.div_pos; [lia | done]). lia. }
  (* readsb *)
  destruct (tx_bread i pid cap V hs H 1 s T Hfu ltac:(lia) ltac:(lia) (Hnh 1 ltac:(lia)))
    as (j & x & s1 & R1 & T1 & Hj & Hx & (_ & _ & Hbl & Hdat & _) & Hsv & S1 & Ho1 & _).
  destruct (tx_brelse i pid cap V hs H j x s1 T1 Hj Hx) as (s2 & R2 & T2 & S2 & Ho2 & _); [by rewrite Hbl |].
  assert (Rsb : readsb (BD := memide) 1 s = Done (k_sb s) s2).
  { unfold readsb. rewrite (bind_done _ _ _ _ _ R1), (get_buf_bind _ _ x), (bind_done _ _ _ _ _ R2) by done.
    by rewrite Hdat, (om_sb _ _ O). }
  assert (Hoth : ∀ k, k ∈ H → k_bufs s2 !! k = k_bufs s !! k).
  { intros k Hk. rewrite Ho2, Ho1; [done | congruence..]. }
  assert (S12 : tx_step s s2) by (by transitivity s1).
  unfold bfree. rewrite (bind_done _ _ _ _ _ Rsb), bind_modify. set (s3 := s2 <| k_sb := k_sb s |>).
  assert (Hs3 : s3 = s2).
  { unfold s3. pose proof (rs_sb _ _ (ts_rest _ _ S12)) as Hsb. destruct s2; cbn in *. by rewrite <- Hsb. }
  rewrite Hs3, HBB.
  destruct (tx_change i pid cap V hs H (sb_bmapstart (k_sb s)) (λ d, clear_bit d (Z.to_nat (b mod BPB))) s2 T2 Hfu
    ltac:(lia) ltac:(lia)) as (k & s4 & s5 & R4 & _ & S4 & (y & Hy & _ & _ & _ & Hyd & _) & R5 & _ & T5 & S5 & Ho5).
  { by apply (not_held_same _ H s), Hnh. }
  { done. }
  { apply block_ok_clear_bit. }
  rewrite (bind_done _ _ _ _ _ R4), (get_buf_bind _ _ y), Hyd by done.
  unfold in_use in Hu. rewrite HBB in Hu. rewrite Hu. cbn [negb].
  exists s5. split; [done |]. split; [by unfold freed; rewrite HBB |]. split; [by transitivity s2 |].
  intros m Hm. by rewrite Ho5, Hoth.
Qed.

(** The blocks [l] can be freed. *)
Record freeable V (sb : superblock) (l : list Z) : Prop := {
  fr_data : Forall (data_block sb) l;
  fr_used : Forall (λ c, in_use V sb c = true) l;
  fr_nodup : NoDup l }.
Lemma freeable_app V sb l l' :
  layout sb → (∀ b, block_ok (V b)) → freeable V sb (l ++ l') → freeable V sb l ∧ freeable (free_all V sb l) sb l'.
Proof.
  intros L HV [Hd Hu Hn]. apply Forall_app in Hd as [Hd1 Hd2], Hu as [Hu1 Hu2].
  apply NoDup_app in Hn as (Hn1 & Hn2 & Hn3). split; [done |]. split; [done | | done].
  rewrite Forall_forall in Hu2, Hd2 |- *. intros c Hc. rewrite free_all_in_use; [| done | done | done |].
  - rewrite (Hu2 c Hc), bool_decide_eq_false_2; [done |]. intros Hin. by apply (Hn2 c).
  - by apply data_block_range, Hd2.
Qed.

(** What the log holds while blocks are freed: the free map is added once. *)
Definition map_logged (sb : superblock) hs hs' : Prop := hs' = hs ∨ hs' = add_blk hs (sb_bmapstart sb).
Lemma map_logged_len sb hs hs' :
  map_logged sb hs hs' → (length (add_blk hs (sb_bmapstart sb)) < cap)%nat → (length hs' < cap)%nat.
Proof. intros [-> | ->] H; [| done]. pose proof (add_blk_length hs (sb_bmapstart sb)). lia. Qed.
Lemma map_logged_add sb hs hs' : map_logged sb hs hs' → add_blk hs' (sb_bmapstart sb) = add_blk hs (sb_bmapstart sb).
Proof. intros [-> | ->]; [done | apply add_blk_idem]. Qed.

Lemma map_logged_trans sb hs0 hs hs' : map_logged sb hs0 hs → map_logged sb hs hs' → map_logged sb hs0 hs'.
Proof. intros H [-> | ->]; [done |]. right. by apply map_logged_add. Qed.

Lemma zero_more (l : list Z) k n :
  (k < length l)%nat →
  take (S k) (<[k := 0]> l) ++ replicate n 0 ++ drop (S k + n) (<[k := 0]> l) =
  take k l ++ replicate (S n) 0 ++ drop (k + S n) l.
Proof.
  intros Hk. rewrite (take_S_r _ _ 0) by (by apply list_lookup_insert_eq).
  rewrite take_insert_ge, drop_insert_lt by lia. rewrite <- app_assoc. cbn [app replicate]. do 3 f_equal. f_equal. lia.
Qed.

Lemma itrunc_direct_run n : ∀ k V hs hs0 ii ip s,
  (k + n = NDIRECT)%nat → one_map V (k_sb s) → tx i pid cap V hs [] s → (0 < patience)%nat →
  map_logged (k_sb s) hs0 hs → (length (add_blk hs0 (sb_bmapstart (k_sb s))) < cap)%nat →
  k_icache s !! ii = Some ip → i_dev ip = 1 → length (i_addrs ip) = (NDIRECT + 1)%nat →
  let l := nonzero (take n (drop k (i_addrs ip))) in
  freeable V (k_sb s) l →
  ∃ s' hs', itrunc_direct (BD := memide) ii k n s = Done tt s' ∧ tx i pid cap (free_all V (k_sb s) l) hs' [] s' ∧
    ino_step ii (ip <| i_addrs := take k (i_addrs ip) ++ replicate n 0 ++ drop (k + n) (i_addrs ip) |>) s s' ∧
    map_logged (k_sb s) hs0 hs'.
Proof.
  induction n as [| n IH]; intros k V hs hs0 ii ip s Hkn O T Hfu Hml Hroom Hi Hdev Hlen l Hl; cbn [itrunc_direct].
  { exists s, hs. split; [done |]. split; [done |]. split; [| done]. cbn [replicate app].
    rewrite Nat.add_0_r, take_drop. apply (ino_step_tx ii _ s s s); [by destruct ip | done]. }
  rewrite (get_inode_bind _ _ ip) by done.
  destruct (lookup_lt_is_Some_2 (i_addrs ip) k) as [a Ha]; [lia |].
  rewrite (at_bind _ _ _ _ a) by first [lia | by rewrite Nat2Z.id].
  set (ip1 := ip <| i_addrs := <[k := 0]> (i_addrs ip) |>).
  assert (Hl1 : take n (drop (S k) (i_addrs ip1)) = take n (drop (S k) (i_addrs ip))).
  { unfold ip1. cbn [i_addrs set set_i_addrs]. by rewrite drop_insert_lt by lia. }
  assert (Hstep : ∃ s1 hs1, mwhen (negb (a =? 0))
      (bfree (BD := memide) (i_dev ip) a;; upd_inode ii (λ ip, ip <| i_addrs ::= <[k := 0]> |>)) s = Done tt s1 ∧
    tx i pid cap (free_all V (k_sb s) (nonzero [a])) hs1 [] s1 ∧ ino_step ii ip1 s s1 ∧ map_logged (k_sb s) hs0 hs1 ∧
    l = nonzero [a] ++ nonzero (take n (drop (S k) (i_addrs ip)))).
  { unfold l. rewrite (drop_S _ _ _ Ha). cbn [take]. unfold nonzero. rewrite !filter_cons, filter_nil.
    destruct (Z.eqb_spec a 0) as [-> | Hnz]; cbn [negb mwhen].
    - rewrite decide_False by lia. exists s, hs. split; [done |]. split; [done |]. split; [| by split].
      apply (ino_step_tx ii ip1 s s s); [| done]. unfold ip1. rewrite list_insert_id by done. by destruct ip.
    - rewrite decide_True by done.
      assert (Hin : a ∈ l).
      { unfold l, nonzero. apply list_elem_of_filter. split; [done |]. rewrite (drop_S _ _ _ Ha). left. }
      destruct Hl as [Hd Hu _]. rewrite Forall_forall in Hd, Hu.
      destruct (bfree_run V hs [] a s O T Hfu ltac:(cbn; lia)) as (s1 & R1 & T1 & S1 & _);
        [by apply (map_logged_len (k_sb s) hs0) | by apply Hd | by apply Hu | by intros j c ?%elem_of_nil |].
      rewrite Hdev, (bind_done _ _ _ _ _ R1).
      assert (Hi1 : k_icache s1 !! ii = Some ip) by (by rewrite (rs_icache _ _ (ts_rest _ _ S1))).
      rewrite (upd_inode_run _ _ ip) by done. eexists _, _. split; [done |]. split; [by apply tx_icache |].
      split; [| split; [right; exact (map_logged_add _ hs0 hs Hml) | by rewrite decide_True]].
      apply (ino_step_trans ii ip _ s s1); [by apply (ino_step_tx ii ip s s s1) | by split]. }
  destruct Hstep as (s1 & hs1 & R1 & T1 & S1 & Hml1 & Hsplit). rewrite (bind_done _ _ _ _ _ R1).
  pose proof (om_layout _ _ O) as L. rewrite Hsplit in Hl.
  apply freeable_app in Hl as [Hla Hlb]; [| done | apply (tx_view _ _ _ _ _ _ _ T)].
  assert (Hsb : k_sb s1 = k_sb s) by apply S1.
  assert (Hi1 : k_icache s1 !! ii = Some ip1).
  { rewrite (is_icache _ _ _ _ S1). apply list_lookup_insert_eq. by eapply lookup_lt_Some. }
  destruct (IH (S k) (free_all V (k_sb s) (nonzero [a])) hs1 hs0 ii ip1 s1) as (s2 & hs2 & R2 & T2 & S2 & Hml2);
    rewrite ?Hsb, ?Hl1; try done; [lia | by apply free_all_one_map, Hla | |].
  { unfold ip1. cbn [i_addrs set set_i_addrs]. by rewrite length_insert. }
  rewrite Hsb, Hl1 in *. exists s2, hs2. split; [done |]. rewrite Hsplit, free_all_app. split; [done |]. split; [| done].
  apply (ino_step_trans ii ip1 _ s s1); [done |]. unfold ip1 in S2. cbn [i_addrs set set_i_addrs] in S2.
  by rewrite zero_more in S2 by lia.
Qed.

Lemma itrunc_indirect_run d bp n : ∀ j V hs hs0 b s,
  one_map V (k_sb s) → tx i pid cap V hs [bp] s → (0 < patience)%nat →
  map_logged (k_sb s) hs0 hs → (length (add_blk hs0 (sb_bmapstart (k_sb s))) < cap)%nat →
  k_bufs s !! bp = Some b → b_data b = d → data_block (k_sb s) (b_blockno b) →
  let l := nonzero ((λ j, blk_word d (4 * j)) <$> seq j n) in
  freeable V (k_sb s) l →
  ∃ s' hs', itrunc_indirect (BD := memide) 1 bp j n s = Done tt s' ∧ tx i pid cap (free_all V (k_sb s) l) hs' [bp] s' ∧
    tx_step s s' ∧ k_bufs s' !! bp = Some b ∧ map_logged (k_sb s) hs0 hs'.
Proof.
  induction n as [| n IH]; intros j V hs hs0 b s O T Hfu Hml Hroom Hb Hd Hdb l Hl; cbn [itrunc_indirect].
  { exists s, hs. split; [done |]. split; [done |]. by split. }
  rewrite (get_buf_bind _ _ b), Hd by done. set (a := blk_word d (4 * j)).
  assert (Hstep : ∃ s1 hs1, mwhen (negb (a =? 0)) (bfree (BD := memide) 1 a) s = Done tt s1 ∧
    tx i pid cap (free_all V (k_sb s) (nonzero [a])) hs1 [bp] s1 ∧ tx_step s s1 ∧ k_bufs s1 !! bp = Some b ∧
    map_logged (k_sb s) hs0 hs1 ∧ l = nonzero [a] ++ nonzero ((λ j, blk_word d (4 * j)) <$> seq (S j) n)).
  { unfold l. cbn [seq fmap list_fmap]. fold a. unfold nonzero. rewrite !filter_cons, filter_nil.
    destruct (Z.eqb_spec a 0) as [Hz | Hnz]; cbn [negb mwhen].
    - rewrite Hz. exists s, hs. by split_and!.
    - rewrite decide_True by done.
      assert (Hin : a ∈ l) by (unfold l, nonzero; apply list_elem_of_filter; split; [done | left]).
      destruct Hl as [Hdl Hu _]. rewrite Forall_forall in Hdl, Hu.
      destruct (bfree_run V hs [bp] a s O T Hfu ltac:(cbn; lia)) as (s1 & R1 & T1 & S1 & Ho1);
        [by apply (map_logged_len (k_sb s) hs0) | by apply Hdl | by apply Hu | |].
      { intros k c ->%list_elem_of_singleton Hc. assert (c = b) as -> by congruence. done. }
      exists s1, (add_blk hs (sb_bmapstart (k_sb s))). split_and!; try done.
      + rewrite Ho1; [done | left].
      + right. exact (map_logged_add _ hs0 hs Hml).
      + by rewrite decide_True. }
  destruct Hstep as (s1 & hs1 & R1 & T1 & S1 & Hb1 & Hml1 & Hsplit). rewrite (bind_done _ _ _ _ _ R1).
  rewrite Hsplit in Hl. apply freeable_app in Hl as [Hla Hlb]; [| apply O | apply (tx_view _ _ _ _ _ _ _ T)].
  assert (Hsb : k_sb s1 = k_sb s) by apply S1.
  destruct (IH (S j) (free_all V (k_sb s) (nonzero [a])) hs1 hs0 b s1) as (s2 & hs2 & R2 & T2 & S2 & Hb2 & Hml2);
    rewrite ?Hsb; try done; [by apply free_all_one_map, Hla |].
  rewrite Hsb in *. exists s2, hs2. split; [done |]. rewrite Hsplit, free_all_app. split; [done |].
  split; [by transitivity s1 | done].
Qed.

(** The blocks of a file, in the order [itrunc] frees them. *)
Definition blocks_of V (ip : inode) : list Z :=
  nonzero ((blk_addr V ip <$> seq 0 (NDIRECT + NINDIRECT)) ++ [ind_addr ip]).

Lemma blocks_owned V ip c : c ∈ blocks_of V ip ↔ owned V ip c.
Proof.
  unfold blocks_of, nonzero, owned. rewrite list_elem_of_filter, elem_of_app, list_elem_of_singleton, list_elem_of_fmap.
  split; intros [Hc H]; (split; [done |]).
  - destruct H as [(b & -> & Hb%elem_of_seq) | ->]; [right; exists b; split; [lia | done] | by left].
  - destruct H as [-> | (b & Hb & ->)]; [by right | left]. exists b. split; [done |]. apply elem_of_seq. lia.
Qed.
Lemma blocks_freeable V sb ip : file_ok V sb ip → freeable V sb (blocks_of V ip).
Proof.
  intros F. split.
  - apply Forall_forall. intros c Hc%blocks_owned. by apply (owned_data V sb ip).
  - apply Forall_forall. intros c Hc%blocks_owned. by apply (owned_data V sb ip).
  - unfold blocks_of, nonzero. rewrite filter_app. apply NoDup_app. split; [| split].
    + assert (∀ l, NoDup l → (∀ b, b ∈ l → (b < NDIRECT + NINDIRECT)%nat) →
        NoDup (filter (λ a, a ≠ 0) (blk_addr V ip <$> l))) as H.
      { induction l as [| b l IH]; intros Hn Hb; [constructor |]. apply NoDup_cons in Hn as [Hnin Hn].
        cbn [fmap list_fmap]. rewrite filter_cons. case_decide as Hnz; [| apply IH; [done | intros; apply Hb; by right]].
        constructor; [| apply IH; [done | intros; apply Hb; by right]].
        rewrite list_elem_of_filter, list_elem_of_fmap. intros [_ (c & Heq & Hc)].
        assert (b = c) as -> by (apply (fo_inj _ _ _ F); try done; [by apply Hb; left | by apply Hb; right]). done. }
      apply H; [apply NoDup_seq |]. intros b. rewrite elem_of_seq. lia.
    + intros c. rewrite !list_elem_of_filter, list_elem_of_singleton, list_elem_of_fmap.
      intros [Hnz (b & -> & Hb%elem_of_seq)] [_ Heq]. by apply (fo_blk _ _ _ F b ltac:(lia) Hnz).
    + apply NoDup_filter, NoDup_singleton.
Qed.

(** The three parts: direct blocks, the entries of the indirect block, the
    indirect block. *)
Lemma blocks_split V ip :
  length (i_addrs ip) = (NDIRECT + 1)%nat →
  blocks_of V ip = nonzero (take NDIRECT (i_addrs ip)) ++
    (if ind_addr ip =? 0 then [] else nonzero ((λ j, blk_word (V (ind_addr ip)) (4 * j)) <$> seq 0 NINDIRECT) ++ [ind_addr ip]).
Proof.
  intros Hlen. unfold blocks_of. rewrite seq_app, fmap_app, <- app_assoc. unfold nonzero. rewrite filter_app. f_equal.
  - f_equal. apply list_eq. intros b. rewrite list_lookup_fmap. destruct (decide (b < NDIRECT)%nat) as [Hb | Hb].
    + rewrite lookup_seq_lt, lookup_take_lt by done. cbn [fmap option_fmap option_map plus].
      unfold blk_addr. rewrite (proj2 (Nat.ltb_lt _ _)) by done.
      destruct (lookup_lt_is_Some_2 (i_addrs ip) b) as [x Hx]; [lia |]. by rewrite nth_lookup, Hx.
    + rewrite lookup_seq_ge, lookup_take_ge by lia. done.
  - rewrite filter_app. cbn [plus].
    assert (Hb : blk_addr V ip <$> seq NDIRECT NINDIRECT =
      (λ j, if ind_addr ip =? 0 then 0 else blk_word (V (ind_addr ip)) (4 * j)) <$> seq 0 NINDIRECT).
    { apply list_eq. intros j. rewrite !list_lookup_fmap. destruct (decide (j < NINDIRECT)%nat).
      - rewrite !lookup_seq_lt by done. cbn [fmap option_fmap option_map plus]. f_equal. unfold blk_addr.
        rewrite (proj2 (Nat.ltb_ge _ _)) by lia. by replace (NDIRECT + j - NDIRECT)%nat with j by lia.
      - by rewrite !lookup_seq_ge by lia. }
    rewrite Hb. destruct (Z.eqb_spec (ind_addr ip) 0) as [-> | Hnz].
    + rewrite (filter_cons_False _ 0) by lia. rewrite filter_nil, app_nil_r.
      clear. induction (seq 0 NINDIRECT) as [| j l IH]; [done |]. cbn [fmap list_fmap]. by rewrite filter_cons_False by lia.
    + by rewrite (filter_cons_True _ (ind_addr ip)) by done.
Qed.

(** The indirect block: its entries, then itself. *)
Lemma itrunc_ind_run V hs hs0 ii ip d s :
  one_map V (k_sb s) → tx i pid cap V hs [] s → (0 < patience)%nat →
  map_logged (k_sb s) hs0 hs → (length (add_blk hs0 (sb_bmapstart (k_sb s))) < cap)%nat →
  k_icache s !! ii = Some ip → i_dev ip = 1 →
  let l := nonzero ((λ j, blk_word (V d) (4 * j)) <$> seq 0 NINDIRECT) ++ [d] in
  freeable V (k_sb s) l →
  ∃ s' hs', (bp ← bread (BD := memide) (i_dev ip) d;
     itrunc_indirect (BD := memide) (i_dev ip) bp 0 NINDIRECT;;
     brelse bp;;
     bfree (BD := memide) (i_dev ip) d;;
     upd_inode ii (λ ip, ip <| i_addrs ::= <[NDIRECT := 0]> |>)) s = Done tt s' ∧
    tx i pid cap (free_all V (k_sb s) l) hs' [] s' ∧
    ino_step ii (ip <| i_addrs ::= <[NDIRECT := 0]> |>) s s' ∧ map_logged (k_sb s) hs0 hs'.
Proof.
  intros O T Hfu Hml Hroom Hi Hdev l Hl. pose proof (om_layout _ _ O) as L. rewrite Hdev.
  pose proof (tx_view _ _ _ _ _ _ _ T) as HV. unfold l in Hl.
  destruct (freeable_app _ _ _ _ L HV Hl) as [Hl1 [Hd2 Hu2 _]].
  assert (Hd : data_block (k_sb s) d) by (by apply Forall_cons in Hd2 as [? _]).
  destruct (data_block_range _ d L Hd) as [_ Hdr].
  destruct (tx_bread i pid cap V hs [] d s T Hfu ltac:(cbn; lia) ltac:(lia) ltac:(apply not_held_nil))
    as (j & b & s1 & R1 & T1 & Hj & Hb & (_ & _ & Hbl & Hdat & _) & Hsv & S1 & _).
  rewrite (bind_done _ _ _ _ _ R1). assert (Hsb1 : k_sb s1 = k_sb s) by apply S1.
  set (ws := nonzero ((λ j, blk_word (V d) (4 * j)) <$> seq 0 NINDIRECT)) in *.
  assert (Hroom' : (length (add_blk hs (sb_bmapstart (k_sb s))) < cap)%nat) by (by rewrite (map_logged_add _ hs0 hs Hml)).
  destruct (itrunc_indirect_run (V d) j NINDIRECT 0 V hs hs b s1) as (s2 & hs2 & R2 & T2 & S2 & Hb2 & Hml2);
    rewrite ?Hsb1; try done; [by left | by rewrite Hbl |].
  rewrite (bind_done _ _ _ _ _ R2). rewrite Hsb1 in *. fold ws in T2.
  assert (Hsb2 : k_sb s2 = k_sb s) by (rewrite <- Hsb1; apply S2).
  assert (HVd : free_all V (k_sb s) ws d = V d).
  { apply free_all_other; [done | apply Hl1 |]. destruct (data_block_range _ d L Hd) as [Hd0 _].
    pose proof (BBLOCK_meta _ d L Hd0) as HB.
    rewrite (one_map_block V _ d O Hd) in HB. unfold data_block in Hd. lia. }
  destruct (tx_brelse i pid cap _ hs2 [] j b s2 T2 Hj Hb2) as (s3 & R3 & T3 & S3 & _).
  { rewrite Hbl. destruct Hsv as [Hin | Hdk]; [left | right].
    - destruct Hml2 as [-> | ->]; [done |]. apply elem_of_add_blk. by left.
    - rewrite HVd, Hdk. by rewrite (ts_disk _ _ S2). }
  rewrite (bind_done _ _ _ _ _ R3). assert (Hsb3 : k_sb s3 = k_sb s) by (rewrite <- Hsb2; apply S3).
  destruct (bfree_run (free_all V (k_sb s) ws) hs2 [] d s3) as (s4 & R4 & T4 & S4 & _); rewrite ?Hsb3; try done.
  { by apply free_all_one_map, Hl1. }
  { cbn. lia. }
  { by apply (map_logged_len (k_sb s) hs). }
  { by apply Forall_cons in Hu2 as [? _]. }
  { by intros k c ?%elem_of_nil. }
  rewrite (bind_done _ _ _ _ _ R4). rewrite Hsb3 in *.
  assert (Hs4 : tx_step s s4) by (by rewrite S1, S2, S3).
  assert (Hi4 : k_icache s4 !! ii = Some ip) by (by rewrite (rs_icache _ _ (ts_rest _ _ Hs4))).
  rewrite (upd_inode_run _ _ ip) by done. eexists _, _. split; [done |].
  split; [apply tx_icache; unfold l; rewrite free_all_app; exact T4 |]. split.
  - apply (ino_step_trans ii ip _ s s4); [by apply (ino_step_tx ii ip s s s4) | by split].
  - apply (map_logged_trans _ hs0 hs); [done |]. apply (map_logged_trans _ hs hs2); [done | by right].
Qed.

Definition truncated (ip : inode) : inode := ip <| i_addrs := replicate (NDIRECT + 1) 0 |> <| i_size := 0 |>.

Lemma itrunc_run V hs ii ip s :
  ready i pid cap V hs ii ip s → one_map V (k_sb s) → (length hs + 2 ≤ cap)%nat →
  ∃ s' hs', itrunc (BD := memide) ii s = Done tt s' ∧
    tx i pid cap (ino_stored (free_all V (k_sb s) (blocks_of V ip)) (k_sb s) (truncated ip)) hs' [] s' ∧
    ino_step ii (truncated ip) s s' ∧ (length hs' ≤ length hs + 2)%nat.
Proof.
  intros [L T Hfu HM Hi Hty Hin F Hcov Hs0] O Hroom. set (sb := k_sb s) in *.
  pose proof (fo_ino _ _ _ F) as Ino. pose proof (in_addrs _ _ Ino) as Hlen.
  pose proof (blocks_freeable V sb ip F) as Hfr. pose proof (blocks_split V ip Hlen) as Hsplit.
  pose proof (add_blk_length hs (sb_bmapstart sb)) as Hadd. pose proof (tx_view _ _ _ _ _ _ _ T) as HV.
  rewrite Hsplit in Hfr. apply freeable_app in Hfr as [Hf1 Hf2]; [| done | done].
  set (l1 := nonzero (take NDIRECT (i_addrs ip))) in *.
  destruct (itrunc_direct_run NDIRECT 0 V hs hs ii ip s) as (s1 & hs1 & R1 & T1 & S1 & Hml1); try done.
  { by left. }
  { fold sb. lia. }
  { apply Ino. }
  fold sb in T1, Hml1. rewrite drop_0 in T1. fold l1 in T1. cbn [take app plus] in S1.
  set (ip1 := ip <| i_addrs := replicate NDIRECT 0 ++ drop NDIRECT (i_addrs ip) |>) in *.
  unfold itrunc. rewrite (bind_done _ _ _ _ _ R1).
  assert (Hi1 : k_icache s1 !! ii = Some ip1).
  { rewrite (is_icache _ _ _ _ S1). apply list_lookup_insert_eq. by eapply lookup_lt_Some. }
  assert (Hsb1 : k_sb s1 = sb) by apply S1.
  rewrite (get_inode_bind _ _ ip1) by done.
  assert (Hind : i_addrs ip1 !! NDIRECT = Some (ind_addr ip)).
  { unfold ip1. cbn [i_addrs set set_i_addrs]. rewrite lookup_app_r by (by rewrite length_replicate).
    rewrite length_replicate, Nat.sub_diag, lookup_drop, Nat.add_0_r. apply (addrs_lookup V); [done | lia]. }
  rewrite (at_bind _ _ _ _ (ind_addr ip)) by first [lia | by rewrite Nat2Z.id].
  assert (Hstep : ∃ s2 hs2, mwhen (negb (ind_addr ip =? 0))
     (bp ← bread (BD := memide) (i_dev ip1) (ind_addr ip);
      itrunc_indirect (BD := memide) (i_dev ip1) bp 0 NINDIRECT;;
      brelse bp;;
      bfree (BD := memide) (i_dev ip1) (ind_addr ip);;
      upd_inode ii (λ ip, ip <| i_addrs ::= <[NDIRECT := 0]> |>)) s1 = Done tt s2 ∧
    tx i pid cap (free_all V sb (blocks_of V ip)) hs2 [] s2 ∧
    ino_step ii (ip <| i_addrs := replicate (NDIRECT + 1) 0 |>) s s2 ∧ map_logged sb hs hs2).
  { assert (Hz : <[NDIRECT := 0]> (i_addrs ip1) = replicate (NDIRECT + 1) 0).
    { unfold ip1. cbn [i_addrs set set_i_addrs]. rewrite insert_app_r_alt by (by rewrite length_replicate).
      rewrite length_replicate, Nat.sub_diag. destruct (drop NDIRECT (i_addrs ip)) as [| x [| y m]] eqn:E.
      - apply (f_equal length) in E. rewrite length_drop in E. cbn [length] in E. lia.
      - done.
      - apply (f_equal length) in E. rewrite length_drop in E. cbn [length] in E. lia. }
    rewrite Hsplit. destruct (Z.eqb_spec (ind_addr ip) 0) as [H0 | Hnz]; cbn [negb mwhen].
    - exists s1, hs1. split; [done |]. rewrite app_nil_r. split; [done |]. split; [| done].
      rewrite <- Hz, list_insert_id by (by rewrite Hind, H0). done.
    - assert (HVd : free_all V sb l1 (ind_addr ip) = V (ind_addr ip)).
      { destruct (fo_ind _ _ _ F Hnz) as [Hd _]. apply free_all_other; [done | apply Hf1 |].
        destruct (data_block_range _ _ L Hd) as [Hd0 _]. pose proof (BBLOCK_meta _ _ L Hd0) as HB.
        rewrite (one_map_block V _ _ O Hd) in HB. unfold data_block in Hd. lia. }
      rewrite <- HVd in Hf2.
      destruct (itrunc_ind_run (free_all V sb l1) hs1 hs ii ip1 (ind_addr ip) s1) as (s2 & hs2 & R2 & T2 & S2 & Hml2);
        rewrite ?Hsb1; try done.
      { by apply free_all_one_map, Hf1. }
      { lia. }
      { apply Ino. }
      rewrite HVd, Hsb1 in *. exists s2, hs2. split; [done |]. rewrite free_all_app. split; [done |]. split; [| done].
      apply (ino_step_trans ii ip1 _ s s1); [done |].
      replace (ip <| i_addrs := replicate (NDIRECT + 1) 0 |>) with (ip1 <| i_addrs ::= <[NDIRECT := 0]> |>); [done |].
      unfold set, set_i_addrs. by rewrite Hz. }
  destruct Hstep as (s2 & hs2 & R2 & T2 & S2 & Hml2). rewrite (bind_done _ _ _ _ _ R2).
  assert (Hi2 : k_icache s2 !! ii = Some (ip <| i_addrs := replicate (NDIRECT + 1) 0 |>)).
  { rewrite (is_icache _ _ _ _ S2). apply list_lookup_insert_eq. by eapply lookup_lt_Some. }
  rewrite (upd_inode_bind _ _ _ (ip <| i_addrs := replicate (NDIRECT + 1) 0 |>)) by done.
  fold (truncated ip). set (s3 := s2 <| k_icache ::= _ |>).
  assert (S3 : ino_step ii (truncated ip) s s3) by (apply (ino_step_trans ii _ _ s s2 s3 S2); by split).
  assert (Hi3 : k_icache s3 !! ii = Some (truncated ip)).
  { rewrite (is_icache _ _ _ _ S3). apply list_lookup_insert_eq. by eapply lookup_lt_Some. }
  assert (Hsb3 : k_sb s3 = sb) by apply S3.
  assert (Hl2 : (length hs2 < cap)%nat) by (apply (map_logged_len sb hs); [done | lia]).
  destruct (iupdate_run i pid cap (free_all V sb (blocks_of V ip)) hs2 ii (truncated ip) s3) as (s4 & R4 & T4 & S4);
    rewrite ?Hsb3; try done; [by apply tx_icache | apply Ino |].
  rewrite Hsb3 in T4. eexists s4, _. split; [done |]. split; [done |]. split.
  - apply (ino_step_trans ii (truncated ip) _ s s3 s4 S3). by apply (ino_step_tx ii _ s3 s3 s4).
  - pose proof (add_blk_length hs2 (IBLOCK (i_inum (truncated ip)) sb)). destruct Hml2 as [-> | ->]; lia.
Qed.

(** C8: [itrunc] gives back exactly the blocks of the file: each of them is free
    afterwards, the indirect block included, and no other block is.  The inode
    is empty, in the cache and on disk; the other files are untouched. *)
Theorem itrunc_frees V hs ii ip s :
  ready i pid cap V hs ii ip s → one_map V (k_sb s) → (length hs + 2 ≤ cap)%nat →
  let sb := k_sb s in
  ∃ s' V' hs', itrunc (BD := memide) ii s = Done tt s' ∧ tx i pid cap V' hs' [] s' ∧
    k_icache s' = <[ii := truncated ip]> (k_icache s) ∧
    (∀ c, owned V ip c → in_use V' sb c = false) ∧
    (∀ c, 0 ≤ c < sb_size sb → ¬ owned V ip c → in_use V' sb c = in_use V sb c) ∧
    take sizeof_dinode (drop (dip_off (i_inum ip)) (V' (IBLOCK (i_inum ip) sb))) = encode_dinode (truncated ip) ∧
    ∀ ip2, file_ok V sb ip2 → covered V ip2 → covered V' ip2 ∧ content V' ip2 = content V ip2.
Proof.
  intros R O Hroom sb. destruct (itrunc_run V hs ii ip s R O Hroom) as (s' & hs' & Ri & T' & S' & _).
  destruct R as [L T Hfu HM Hi Hty Hin F Hcov Hs0]. fold sb in T', O, L, F, Hin.
  set (W := free_all V sb (blocks_of V ip)) in *. set (V' := ino_stored W sb (truncated ip)) in *.
  pose proof (blocks_freeable V sb ip F) as [Hdb _ _]. pose proof (tx_view _ _ _ _ _ _ _ T) as HV.
  destruct (IBLOCK_meta sb (i_inum ip) L Hin) as [HB1 HB2].
  assert (Hsame : same_data sb W V').
  { intros c Hc. unfold V', ino_stored. change (i_inum (truncated ip)) with (i_inum ip).
    by rewrite fn_lookup_insert_ne by lia. }
  assert (Huse : ∀ c, 0 ≤ c < sb_size sb → in_use V' sb c = (negb (bool_decide (c ∈ blocks_of V ip)) && in_use V sb c)%bool).
  { intros c Hc. rewrite (same_data_in_use sb W) by done. by apply free_all_in_use. }
  exists s', V', hs'. split; [done |]. split; [done |]. split; [apply S' |]. split; [| split; [| split]].
  - intros c Hc. destruct (owned_data V sb ip c F Hc) as [Hd _]. rewrite Huse by (by apply data_block_range).
    by rewrite bool_decide_eq_true_2 by (by apply blocks_owned).
  - intros c Hr Hc. rewrite Huse by done. by rewrite bool_decide_eq_false_2 by (by rewrite blocks_owned).
  - unfold V', ino_stored. change (i_inum (truncated ip)) with (i_inum ip). rewrite fn_lookup_insert.
    destruct (encode_dinode_ok (truncated ip) eq_refl) as [Hel _].
    assert (Hlen : length (W (IBLOCK (i_inum ip) sb)) = BSIZE).
    { unfold W. rewrite (free_all_other V sb _ O Hdb) by lia. apply HV. }
    rewrite <- (Nat.add_0_r (dip_off (i_inum ip))) at 1.
    rewrite blk_put_get by first [(rewrite Hel, Hlen; unfold dip_off, IPB, sizeof_dinode, BSIZE;
      pose proof (Z.mod_pos_bound (i_inum ip) 8); lia) | (rewrite Hel; lia)].
    rewrite drop_0. apply take_ge. by rewrite Hel.
  - intros ip2 F2 Hc2. apply same_content; [| done]. intros c Hc. destruct (owned_data V sb ip2 c F2 Hc) as [Hd _].
    rewrite Hsame by (by apply data_block_bmap). apply free_all_other; [done | done |].
    destruct (data_block_range sb c L Hd) as [Hd0 _]. pose proof (BBLOCK_meta sb c L Hd0) as HB.
    rewrite (one_map_block V sb c O Hd) in HB. unfold data_block in Hd. lia.
Qed.
End itrunc.

Lemma itrunc_frees_witness :
  ∃ s', itrunc (FU := 1%nat : Fuel) (BD := memide (MD := 1000)) 0 small = Done tt s' ∧
    k_icache s' !! 0%nat = Some (truncated small_file).
Proof.
  destruct (@itrunc_frees (1%nat : Fuel) 1000 0 1 27 small_view [] 0 small_file small)
    as (s' & V' & hs' & R & _ & Hi & _).
  - apply small_ready; [by left | done].
  - split; [apply small_layout | done | done | vm_compute; done].
  - cbn. lia.
  - exists s'. split; [exact R |]. by rewrite Hi.
Defined.
