(* ===== verification/Pipe.v ===== *)
(** * pipe.c: pipes

    [k_pipes] maps the page a pipe lives in to its contents.  [pipealloc] is in
    [File.v], with the file table.  The [fuel] arguments bound the number of
    times a blocked reader or writer is woken up. *)
From S2P Require Import Prelude Mmu Cstring Kstate Spinlock Kalloc Vm Proc.

(** p->data[p->nwrite++ % PIPESIZE] = b *)
Definition pipe_put (b : Z) (p : pipe) : pipe :=
  p <| pi_data ::= <[Z.to_nat (pi_nwrite p mod PIPESIZE) := b]> |>
    <| pi_nwrite := u32 (pi_nwrite p + 1) |>.
(** p->data[p->nread++ % PIPESIZE] *)
Definition pipe_head (p : pipe) : Z :=
  nth (Z.to_nat (pi_nread p mod PIPESIZE)) (pi_data p) 0.
Definition pipe_get (p : pipe) : pipe := p <| pi_nread := u32 (pi_nread p + 1) |>.
Definition pipe_full (p : pipe) : bool := pi_nwrite p =? u32 (pi_nread p + PIPESIZE).
Definition pipe_empty (p : pipe) : bool := pi_nread p =? pi_nwrite p.

Section pipe.
Context {LK : Linker}.

Definition pipeclose (pa : Z) (writable : bool) : K unit :=
  acquire (LPipe pa);;
  (if writable then
     upd_pipe pa (λ p, p <| pi_writeopen := false |>);; wakeup (CPipeR pa)
   else
     upd_pipe pa (λ p, p <| pi_readopen := false |>);; wakeup (CPipeW pa));;
  p ← get_pipe pa;
  if (negb (pi_readopen p) && negb (pi_writeopen p))%bool then
    release (LPipe pa);;
    modify (λ s, s <| k_pipes ::= delete pa |>);;
    kfree pa
  else release (LPipe pa).

(** myproc()->killed *)
Definition cur_killed : K bool :=
  op ← myproc;
  i ← deref "myproc() == 0" op;
  p ← get_proc i;
  mret (negb (p_killed p =? 0)).

(** Wait for room; [false]: the write is abandoned and the lock released. *)
Fixpoint pipewrite_wait (fuel : nat) (pa : Z) : K bool :=
  match fuel with
  | O => fault "pipewrite: out of fuel"
  | S fuel =>
      p ← get_pipe pa;
      if pipe_full p then
        (* p->readopen == 0 || myproc()->killed *)
        stop ← (if pi_readopen p then cur_killed else mret true);
        if stop : bool then release (LPipe pa);; mret false
        else
          wakeup (CPipeR pa);;
          sleep (CPipeW pa) (LPipe pa);;
          pipewrite_wait fuel pa
      else mret true
  end.
Fixpoint pipewrite_loop (fuel : nat) (pa addr : Z) (n : nat) : K bool :=
  match n with
  | O => mret true
  | S n =>
      ok ← pipewrite_wait fuel pa;
      if negb ok then mret false else
      b ← ldb addr;
      upd_pipe pa (pipe_put b);;
      pipewrite_loop fuel pa (u32 (addr + 1)) n
  end.
Definition pipewrite (fuel : nat) (pa addr n : Z) : K Z :=
  acquire (LPipe pa);;
  ok ← pipewrite_loop fuel pa addr (Z.to_nat n);
  if negb ok then mret (-1) else
  wakeup (CPipeR pa);;
  release (LPipe pa);;
  mret n.

(** Wait for data or the end of it; [false]: killed, the lock released. *)
Fixpoint piperead_wait (fuel : nat) (pa : Z) : K bool :=
  match fuel with
  | O => fault "piperead: out of fuel"
  | S fuel =>
      p ← get_pipe pa;
      if (pipe_empty p && pi_writeopen p)%bool then
        k ← cur_killed;
        if k : bool then release (LPipe pa);; mret false
        else sleep (CPipeR pa) (LPipe pa);; piperead_wait fuel pa
      else mret true
  end.
Fixpoint piperead_loop (pa addr : Z) (n : nat) (i : Z) : K Z :=
  match n with
  | O => mret i
  | S n =>
      p ← get_pipe pa;
      if pipe_empty p then mret i else
      upd_pipe pa pipe_get;;
      stb addr (pipe_head p);;
      piperead_loop pa (u32 (addr + 1)) n (i + 1)
  end.
Definition piperead (fuel : nat) (pa addr n : Z) : K Z :=
  acquire (LPipe pa);;
  ok ← piperead_wait fuel pa;
  if negb ok then mret (-1) else
  i ← piperead_loop pa addr (Z.to_nat n) 0;
  wakeup (CPipeW pa);;
  release (LPipe pa);;
  mret i.
End pipe.

(** ** A pipe is a bounded queue *)

(** How many bytes are waiting, and which. *)
Definition pipe_count (p : pipe) : Z := u32 (pi_nwrite p - pi_nread p).
Definition pipe_content (p : pipe) : list Z :=
  (λ k, nth (Z.to_nat ((pi_nread p + Z.of_nat k) mod PIPESIZE)) (pi_data p) 0)
    <$> seq 0 (Z.to_nat (pipe_count p)).
Record pipe_ok (p : pipe) : Prop := {
  po_data : length (pi_data p) = Z.to_nat PIPESIZE;
  po_r : is_u32 (pi_nread p);
  po_w : is_u32 (pi_nwrite p);
  po_count : pipe_count p ≤ PIPESIZE }.

Lemma pipe_full_iff p : pipe_ok p → pipe_full p = true ↔ pipe_count p = PIPESIZE.
Proof.
  intros [_ Hr Hw _]. unfold pipe_full, pipe_count, PIPESIZE, u32 in *.
  rewrite Z.eqb_eq. split; intros; zlia.
Qed.
Lemma pipe_empty_iff p : pipe_ok p → pipe_empty p = true ↔ pipe_content p = [].
Proof.
  intros [_ Hr Hw _]. unfold pipe_empty, pipe_content.
  rewrite Z.eqb_eq. transitivity (pipe_count p = 0).
  - unfold pipe_count, u32. split; intros; zlia.
  - pose proof (u32_range (pi_nwrite p - pi_nread p)) as Hc. fold (pipe_count p) in Hc.
    unfold is_u32 in Hc. split.
    + by intros ->.
    + destruct (Z.to_nat (pipe_count p)) eqn:E; [lia | done].
Qed.
Lemma pipe_content_length p : Z.of_nat (length (pipe_content p)) = pipe_count p.
Proof.
  unfold pipe_content. rewrite length_fmap, length_seq.
  pose proof (u32_range (pi_nwrite p - pi_nread p)) as Hc. fold (pipe_count p) in Hc.
  unfold is_u32 in Hc. lia.
Qed.

Lemma pipe_put_content b p :
  pipe_ok p → pipe_full p = false →
  pipe_ok (pipe_put b p) ∧ pipe_content (pipe_put b p) = pipe_content p ++ [b].
Proof.
  intros Hok Hf. pose proof Hok as [Hd Hr Hw Hc].
  assert (Hlt : pipe_count p < PIPESIZE).
  { destruct (decide (pipe_count p = PIPESIZE)) as [He |]; [| lia].
    apply (pipe_full_iff p Hok) in He. congruence. }
  assert (Hcnt : pipe_count (pipe_put b p) = pipe_count p + 1).
  { unfold pipe_count, PIPESIZE, u32 in *. cbn. unfold u32. zlia. }
  split.
  - split; [cbn; by rewrite length_insert | done | apply u32_range | lia].
  - unfold pipe_content at 1. rewrite Hcnt.
    assert (Hp0 : 0 ≤ pipe_count p) by apply u32_range.
    rewrite Z2Nat.inj_add by lia. rewrite seq_app, fmap_app.
    rewrite Nat.add_0_l. f_equal.
    + apply list_fmap_ext. intros k j Hk. apply lookup_seq in Hk as [-> Hk].
      cbn. rewrite nth_lookup, list_lookup_insert_ne, <- nth_lookup; [done |].
      unfold pipe_count, PIPESIZE, u32 in *. zlia.
    + change (Z.to_nat 1) with 1%nat. cbn [seq fmap list_fmap]. f_equal. cbn. rewrite nth_lookup.
      assert ((pi_nread p + Z.of_nat (Z.to_nat (pipe_count p))) mod PIPESIZE
              = pi_nwrite p mod PIPESIZE) as ->.
      { unfold pipe_count, PIPESIZE, u32 in *. zlia. }
      rewrite list_lookup_insert_eq; [done |].
      rewrite Hd. unfold PIPESIZE. zlia.
Qed.

Lemma pipe_get_content p :
  pipe_ok p → pipe_empty p = false →
  pipe_ok (pipe_get p) ∧ pipe_content p = pipe_head p :: pipe_content (pipe_get p).
Proof.
  intros Hok He. pose proof Hok as [Hd Hr Hw Hc].
  assert (Hpos : 0 < pipe_count p).
  { unfold pipe_empty in He. apply Z.eqb_neq in He. unfold pipe_count, u32. zlia. }
  assert (Hcnt : pipe_count (pipe_get p) = pipe_count p - 1).
  { unfold pipe_count, PIPESIZE, u32 in *. cbn. unfold u32. zlia. }
  split.
  - split; [done | apply u32_range | done | lia].
  - unfold pipe_content. rewrite Hcnt.
    replace (Z.to_nat (pipe_count p)) with (S (Z.to_nat (pipe_count p - 1))) by lia.
    cbn [seq fmap list_fmap]. f_equal.
    + unfold pipe_head. by rewrite Z.add_0_r.
    + rewrite <- fmap_S_seq, <- list_fmap_compose. apply list_fmap_ext. intros k j Hk.
      apply lookup_seq in Hk as [-> Hk]. cbn. do 2 f_equal.
      unfold PIPESIZE, u32 in *. zlia.
Qed.


Section pipe_spec.
Context {LK : Linker}.

Lemma piperead_loop_run fp pa n : ∀ addr ph i s p,
  is_u32 addr → k_pipes s !! pa = Some p → pipe_ok p → mapped s true addr n ph fp →
  ∃ p', piperead_loop pa addr n i s =
      Done (i + Z.of_nat (length (take n (pipe_content p))))
        (s <| k_pipes ::= <[pa := p']> |>
           <| k_mem ::= λ m, store_all m ph (take n (pipe_content p)) |>) ∧
    pipe_ok p' ∧ pipe_content p' = drop n (pipe_content p) ∧
    pi_readopen p' = pi_readopen p ∧ pi_writeopen p' = pi_writeopen p.
Proof.
  induction n as [| n IH]; intros addr ph i s p Ha Hp Hok Hm; cbn [piperead_loop].
  - exists p. split_and!; try done. cbn. rewrite Z.add_0_r. unfold mret, M_ret. kst_eq.
    by rewrite insert_id.
  - rewrite (get_pipe_bind _ _ p) by done.
    destruct (pipe_empty p) eqn:He.
    + apply (pipe_empty_iff p Hok) in He. exists p. rewrite He.
      split_and!; try done. cbn. rewrite Z.add_0_r. unfold mret, M_ret. kst_eq.
      by rewrite insert_id.
    + destruct (pipe_get_content p Hok He) as [Hok' Hc].
      erewrite upd_pipe_bind by exact Hp.
      pose proof (mapped_head _ _ _ _ _ _ Hm) as Hh. rewrite (u32_id addr Ha) in Hh.
      erewrite bind_done by (apply stb_run; exact Hh).
      match goal with |- context [piperead_loop _ _ _ _ ?st] => set (s1 := st) end.
      destruct (IH (u32 (addr + 1)) (λ k, ph (S k)) (i + 1) s1 (pipe_get p))
        as (p' & Hr & Hok2 & Hc2 & Hro & Hwo).
      * apply u32_range.
      * cbn. by rewrite lookup_insert_eq.
      * done.
      * apply (mapped_mem s); [| done | by apply mapped_tail].
        intros x Hx. apply load8_store8_ne. intros <-. apply Hx, (mp_in _ _ _ _ _ _ Hm). lia.
      * exists p'. rewrite Hr, Hc. split_and!; try done.
        unfold s1. cbn [take length]. f_equal; [lia |]. kst_eq.
        by rewrite insert_insert_eq.
Qed.

Lemma pipewrite_loop_run fp fuel pa n : ∀ addr ph s p,
  is_u32 addr → k_pipes s !! pa = Some p → pipe_ok p → mapped s false addr n ph fp →
  pipe_count p + Z.of_nat n ≤ PIPESIZE →
  ∃ p', pipewrite_loop (S fuel) pa addr n s = Done true (s <| k_pipes ::= <[pa := p']> |>) ∧
    pipe_ok p' ∧
    pipe_content p' = pipe_content p ++ ((λ i, load8 (k_mem s) (ph i)) <$> seq 0 n) ∧
    pi_readopen p' = pi_readopen p ∧ pi_writeopen p' = pi_writeopen p.
Proof.
  induction n as [| n IH]; intros addr ph s p Ha Hp Hok Hm Hc; cbn [pipewrite_loop].
  - exists p. rewrite app_nil_r. split_and!; try done. unfold mret, M_ret. kst_eq.
    by rewrite insert_id.
  - assert (Hf : pipe_full p = false).
    { apply not_true_is_false. rewrite (pipe_full_iff p Hok). lia. }
    cbn [pipewrite_wait]. rewrite bind_assoc, (get_pipe_bind _ _ p), Hf, bind_ret by done.
    cbn [negb].
    pose proof (mapped_head _ _ _ _ _ _ Hm) as Hh. rewrite (u32_id addr Ha) in Hh.
    erewrite bind_done by (apply ldb_run; exact Hh).
    erewrite upd_pipe_bind by exact Hp.
    destruct (pipe_put_content (load8 (k_mem s) (ph O)) p Hok Hf) as [Hok' Hc'].
    match goal with |- context [pipewrite_loop _ _ _ _ ?st] => set (s1 := st) end.
    destruct (IH (u32 (addr + 1)) (λ k, ph (S k)) s1 (pipe_put (load8 (k_mem s) (ph O)) p))
      as (p' & Hr & Hok2 & Hc2 & Hro & Hwo).
    + apply u32_range.
    + cbn. by rewrite lookup_insert_eq.
    + done.
    + apply (mapped_mem s); [done | done | by apply mapped_tail].
    + rewrite <- pipe_content_length, Hc', length_app, Nat2Z.inj_add, pipe_content_length.
      cbn. lia.
    + exists p'. rewrite Hr, Hc2, Hc'. split_and!; try done.
      * unfold s1. kst_eq. by rewrite insert_insert_eq.
      * rewrite <- app_assoc. f_equal. cbn [seq fmap list_fmap app]. f_equal.
        rewrite <- fmap_S_seq, <- list_fmap_compose. done.
Qed.

(** The locks that a pipe operation takes are free. *)
Record pipe_ready (pa : Z) (s : kst) : Prop := {
  pr_cpu : cpu_ok (k_cpu s);
  pr_pipe : LPipe pa ∉ k_held s;
  pr_ptable : LPtable ∉ k_held s }.

Lemma pipe_ready_wakeup pa s s' :
  pipe_ready pa s → k_cpu s' = push_cpu (k_cpu s) → k_held s' = LPipe pa :: k_held s →
  ptable_ready s'.
Proof.
  intros [Hc _ Ht] Hs Hh. split; [rewrite Hs; by apply push_cpu_ok |].
  rewrite Hh. by intros [? | ?]%elem_of_cons.
Qed.

(** [wakeup] and [release] at the end of a pipe operation. *)
Lemma pipe_finish {A} pa ch (r : A) s s' :
  pipe_ready pa s → k_cpu s' = push_cpu (k_cpu s) → k_held s' = LPipe pa :: k_held s →
  (wakeup ch;; release (LPipe pa);; mret r) s' =
  Done r (s' <| k_cpu := sync_cpu (k_cpu s) |> <| k_held := k_held s |>
             <| k_procs ::= fmap (wake (Some ch)) |>).
Proof.
  intros Hr Hcpu Hh. pose proof (pipe_ready_wakeup _ _ _ Hr Hcpu Hh) as Hw.
  rewrite (wakeup_bind ch _ _ Hw). destruct Hr as [Hc Hp _].
  rewrite (release_bind _ _ _ (k_cpu s) (k_held s)); [unfold mret, M_ret; kst_eq | done | | done | done].
  cbn. rewrite Hcpu. by apply sync_push_cpu.
Qed.

(** reading a pipe that is not empty takes from its front as many bytes as
    there are, at most [n], stores them at the caller's address in order,
    wakes the writers, returns their number and leaves every lock as it was. *)
Theorem piperead_takes fp fuel pa addr n ph s p :
  pipe_ready pa s → is_u32 addr → k_pipes s !! pa = Some p → pipe_ok p →
  pipe_content p ≠ [] → mapped s true addr (Z.to_nat n) ph fp →
  let l := take (Z.to_nat n) (pipe_content p) in
  ∃ p' s', piperead (S fuel) pa addr n s = Done (Z.of_nat (length l)) s' ∧
    k_pipes s' = <[pa := p']> (k_pipes s) ∧ pipe_ok p' ∧
    pipe_content p = l ++ pipe_content p' ∧
    k_mem s' = store_all (k_mem s) ph l ∧
    k_procs s' = wake (Some (CPipeW pa)) <$> k_procs s ∧ k_held s' = k_held s.
Proof.
  intros Hr Ha Hp Hok Hne Hm. pose proof Hr as [Hc Hl Ht]. unfold piperead.
  rewrite acquire_bind by done. cbn [piperead_wait].
  rewrite bind_assoc, (get_pipe_bind _ _ p) by done.
  assert (He : pipe_empty p = false).
  { apply not_true_is_false. by rewrite (pipe_empty_iff p Hok). }
  rewrite He. cbn [andb]. rewrite bind_ret. cbn [negb].
  destruct (piperead_loop_run fp pa (Z.to_nat n) addr ph 0 (locked (LPipe pa) s) p)
    as (p' & Hrun & Hok' & Hc' & _); try done.
  { by apply (mapped_mem s). }
  rewrite (bind_done _ _ _ _ _ Hrun), (pipe_finish _ _ _ s) by done.
  do 2 eexists. split; [by rewrite Z.add_0_l |]. split; [done |]. split; [done |].
  split; [by rewrite Hc', take_drop | done].
Qed.

(** C33: writing [n] bytes to a pipe that has room for them appends them in
    order, wakes the readers and returns [n], whatever the values of the two
    32-bit counters (they may wrap around). *)
Theorem pipewrite_appends fp fuel pa addr n ph s p :
  pipe_ready pa s → is_u32 addr → k_pipes s !! pa = Some p → pipe_ok p →
  0 ≤ n → pipe_count p + n ≤ PIPESIZE → mapped s false addr (Z.to_nat n) ph fp →
  ∃ p' s', pipewrite (S fuel) pa addr n s = Done n s' ∧
    k_pipes s' = <[pa := p']> (k_pipes s) ∧ pipe_ok p' ∧
    pipe_content p' =
      pipe_content p ++ ((λ i, load8 (k_mem s) (ph i)) <$> seq 0 (Z.to_nat n)) ∧
    k_procs s' = wake (Some (CPipeR pa)) <$> k_procs s ∧ k_held s' = k_held s.
Proof.
  intros Hr Ha Hp Hok Hn Hroom Hm. pose proof Hr as [Hc Hl Ht]. unfold pipewrite.
  rewrite acquire_bind by done.
  destruct (pipewrite_loop_run fp fuel pa (Z.to_nat n) addr ph (locked (LPipe pa) s) p)
    as (p' & Hrun & Hok' & Hc' & _); try done.
  { by apply (mapped_mem s). }
  { lia. }
  rewrite (bind_done _ _ _ _ _ Hrun). cbn [negb]. rewrite (pipe_finish _ _ _ s) by done.
  do 2 eexists. split; [done |]. split; [done |]. done.
Qed.
Lemma cur_killed_run s i q :
  cpu_ok (k_cpu s) → c_proc (k_cpu s) = Some i → k_procs s !! i = Some q →
  cur_killed s = Done (negb (p_killed q =? 0)) (ksync s).
Proof.
  intros Hc Hi Hq. unfold cur_killed. rewrite myproc_bind, Hi by done.
  cbn [deref]. rewrite bind_ret. by erewrite get_proc_bind by exact Hq.
Qed.

(** what a pipe does when it cannot transfer at once.  Reading an empty
    pipe returns 0 when no writer is left; a living reader otherwise gives up
    the CPU asleep on the pipe with the pipe's lock released, and a killed one
    returns -1.  Writing to a full pipe nobody reads any more returns -1; with
    a reader the writer wakes it and sleeps. *)
Theorem pipe_blocks fuel pa addr n s p i q :
  ncli (k_cpu s) = 0 → k_held s = [] → c_proc (k_cpu s) = Some i →
  k_procs s !! i = Some q → k_pipes s !! pa = Some p → pipe_ok p → 0 < n →
  (pipe_content p = [] → pi_writeopen p = false →
     ∃ s', piperead (S fuel) pa addr n s = Done 0 s' ∧ k_held s' = [] ∧
       k_pipes s' = k_pipes s) ∧
  (pipe_content p = [] → pi_writeopen p = true →
     (p_killed q = 0 → ∃ s' k, piperead (S fuel) pa addr n s = Switch s' k ∧
        holds_only LPtable s' ∧ k_procs s' !! i = Some (asleep (CPipeR pa) q)) ∧
     (p_killed q ≠ 0 → ∃ s', piperead (S fuel) pa addr n s = Done (-1) s' ∧ k_held s' = [])) ∧
  (pipe_count p = PIPESIZE → pi_readopen p = false →
     ∃ s', pipewrite (S fuel) pa addr n s = Done (-1) s' ∧ k_held s' = [] ∧
       k_pipes s' = k_pipes s) ∧
  (pipe_count p = PIPESIZE → pi_readopen p = true → p_killed q = 0 → p_state q ≠ SLEEPING →
     ∃ s' k, pipewrite (S fuel) pa addr n s = Switch s' k ∧ holds_only LPtable s' ∧
       k_procs s' = <[i := asleep (CPipeW pa) q]> (wake (Some (CPipeR pa)) <$> k_procs s)).
Proof.
  intros Hn Hh Hi Hq Hp Hok Hpos.
  assert (Hc : cpu_ok (k_cpu s)) by (split; lia).
  assert (Hl : LPipe pa ∉ k_held s) by (rewrite Hh; set_solver).
  assert (Hlk : holds_only (LPipe pa) (ksync (locked (LPipe pa) s))).
  { split; cbn; [by rewrite Hh | lia | done]. }
  assert (Hrel : ∀ A (r : A), (release (LPipe pa);; mret r) (locked (LPipe pa) s) =
    Done r ((locked (LPipe pa) s) <| k_cpu := sync_cpu (k_cpu s) |> <| k_held := k_held s |>)).
  { intros. by rewrite (release_bind _ _ _ (k_cpu s) (k_held s)). }
  assert (Hsync : ksync (locked (LPipe pa) s) = locked (LPipe pa) s).
  { unfold ksync, locked. kst_eq. by apply sync_push_cpu. }
  destruct (Z.to_nat n) as [| m] eqn:Em; [lia |].
  assert (Hr : pipe_ready pa s) by (split; [done | done | rewrite Hh; set_solver]).
  assert (Hk : (cur_killed (locked (LPipe pa) s)) = Done (negb (p_killed q =? 0)) (locked (LPipe pa) s)).
  { rewrite <- Hsync at 2. apply (cur_killed_run _ i); [by apply push_cpu_ok | done | done]. }
  rewrite Hsync in Hlk. unfold piperead, pipewrite. rewrite Em. rewrite !acquire_bind by done.
  cbn [piperead_wait pipewrite_loop pipewrite_wait].
  rewrite !bind_assoc, !(get_pipe_bind _ _ p) by done.
  split; [| split; [intros Hcont Hw; split; intros Hkl |]]; [intros Hcont Hw | | | split].
  - apply (pipe_empty_iff p Hok) in Hcont. rewrite Hcont, Hw. cbn [andb].
    rewrite bind_ret. cbn [negb piperead_loop]. rewrite bind_assoc, (get_pipe_bind _ _ p), Hcont by done.
    rewrite bind_ret, (pipe_finish _ _ _ s) by done. by eexists.
  - apply (pipe_empty_iff p Hok) in Hcont. rewrite Hcont, Hw. cbn [andb].
    rewrite bind_assoc, (bind_done _ _ _ _ _ Hk), Hkl. cbn [Z.eqb negb].
    destruct (sleep_run (CPipeR pa) (LPipe pa) _ i q Hlk Hi Hq) as (s1 & k & Hs & Ho & Heq & _).
    do 2 eexists. split; [rewrite bind_assoc; by apply bind_switch |]. split; [done |].
    rewrite Heq. cbn. apply list_lookup_insert_eq. by eapply lookup_lt_Some.
  - apply (pipe_empty_iff p Hok) in Hcont. rewrite Hcont, Hw. cbn [andb].
    rewrite bind_assoc, (bind_done _ _ _ _ _ Hk).
    destruct (Z.eqb_spec (p_killed q) 0); [done |]. cbn [negb].
    rewrite (bind_done _ _ _ _ _ (Hrel bool false)). by eexists.
  - intros Hfull Hro. apply (pipe_full_iff p Hok) in Hfull. rewrite Hfull, Hro.
    rewrite bind_assoc, bind_ret. cbv beta iota.
    rewrite (bind_done _ _ _ _ _ (Hrel bool false)). by eexists.
  - intros Hfull Hro Hkl Hst. apply (pipe_full_iff p Hok) in Hfull. rewrite Hfull, Hro.
    rewrite bind_assoc, (bind_done _ _ _ _ _ Hk), Hkl. cbn [Z.eqb negb].
    rewrite bind_assoc, wakeup_bind by (apply (pipe_ready_wakeup pa s); done).
    match goal with |- context [sleep _ _ ≫= _] => idtac end.
    set (s1 := ksync _).
    assert (Hl1 : holds_only (LPipe pa) s1) by (destruct Hlk; by split).
    assert (Hq1 : k_procs s1 !! i = Some q).
    { cbn. rewrite list_lookup_fmap, Hq. cbn. f_equal. apply wake_other. by intros [? _]. }
    destruct (sleep_run (CPipeW pa) (LPipe pa) s1 i q Hl1 Hi Hq1) as (s2 & k & Hs & Ho & Heq & _).
    do 2 eexists. split; [rewrite !bind_assoc; by apply bind_switch |]. split; [done |].
    by rewrite Heq.
Qed.
End pipe_spec.

(** ** Witnesses *)

(** A pipe whose counters are about to wrap, holding the byte 7. *)
Definition pipe_ex : pipe :=
  mkPipe (replicate 511 0 ++ [7]) 4294967295 0 true true.
Definition piping (p : pipe) : kst :=
  running <| k_pipes := {[ KERNBASE + 0x300000 := p ]} |>.
Lemma pipe_ex_ok : pipe_ok pipe_ex.
Proof. split; vm_compute; done. Qed.
Lemma piping_ready p : pipe_ready (KERNBASE + 0x300000) (piping p).
Proof. split; [done | set_solver | set_solver]. Qed.
Lemma piping_mapped p w n :
  (n ≤ 16)%nat →
  mapped (piping p) w (KERNBASE + 0x400000) n (λ i, KERNBASE + 0x400000 + Z.of_nat i)
    (λ _, True).
Proof. intros. apply mapped_kernel; [done | unfold KERNBASE; lia | done]. Qed.

Lemma piperead_takes_witness :
  ∃ s', piperead 1 (KERNBASE + 0x300000) (KERNBASE + 0x400000) 4 (piping pipe_ex)
    = Done 1 s'.
Proof.
  destruct (piperead_takes (λ _, True) 0 (KERNBASE + 0x300000) (KERNBASE + 0x400000) 4
    (λ i, KERNBASE + 0x400000 + Z.of_nat i) (piping pipe_ex) pipe_ex) as (p' & s' & H & _).
  - apply piping_ready.
  - vm_compute. split; done.
  - apply lookup_singleton_eq.
  - apply pipe_ex_ok.
  - vm_compute. done.
  - apply piping_mapped. vm_compute. lia.
  - exists s'. exact H.
Defined.

Lemma pipewrite_appends_witness :
  ∃ p' s', pipewrite 1 (KERNBASE + 0x300000) (KERNBASE + 0x400000) 2 (piping pipe_ex)
    = Done 2 s' ∧ pipe_content p' = [7; 0; 0].
Proof.
  destruct (pipewrite_appends (λ _, True) 0 (KERNBASE + 0x300000) (KERNBASE + 0x400000) 2
    (λ i, KERNBASE + 0x400000 + Z.of_nat i) (piping pipe_ex) pipe_ex)
    as (p' & s' & H & _ & _ & Hc & _).
  - apply piping_ready.
  - vm_compute. split; done.
  - apply lookup_singleton_eq.
  - apply pipe_ex_ok.
  - lia.
  - vm_compute. done.
  - apply piping_mapped. vm_compute. lia.
  - exists p', s'. split; [exact H |]. rewrite Hc. vm_compute. reflexivity.
Defined.

Lemma pipe_blocks_witness :
  ∃ s' k, piperead 1 (KERNBASE + 0x300000) 0 4
      (piping (mkPipe (replicate 512 0) 5 5 true true)) = Switch s' k ∧
    k_held s' = [LPtable].
Proof.
  destruct (pipe_blocks 0 (KERNBASE + 0x300000) 0 4
    (piping (mkPipe (replicate 512 0) 5 5 true true)) (mkPipe (replicate 512 0) 5 5 true true)
    0 (proc0 <| p_state := RUNNING |> <| p_pid := 1 |>)) as (_ & H & _).
  - reflexivity.
  - reflexivity.
  - reflexivity.
  - reflexivity.
  - apply lookup_singleton_eq.
  - split; vm_compute; done.
  - lia.
  - destruct (H eq_refl eq_refl) as [Hs _].
    destruct (Hs eq_refl) as (s' & k & Hr & Hh & _).
    exists s', k. split; [exact Hr | apply Hh].
Defined.
