(* ===== verification/File.v ===== *)
(** * file.c: the table of open files; pipe.c: pipealloc *)
From S2P Require Import Prelude Mmu Cstring Kstate Spinlock Kalloc Vm Proc Fork Sleeplock Bio Log Fs Pipe.

Section file.
Context {LK : Linker} {FU : Fuel} {BD : BlockDev} {DS : DevSw}.

Definition filealloc : K (option nat) :=
  acquire LFtable;;
  fs ← gets k_files;
  match find_idx (λ f, f_ref f =? 0) fs with
  | Some i => upd_file i (λ f, f <| f_ref := 1 |>);; release LFtable;; mret (Some i)
  | None => release LFtable;; mret None
  end.

Definition filedup (i : nat) : K unit :=
  acquire LFtable;;
  f ← get_file i;
  if f_ref f <? 1 then panic "filedup" else
  upd_file i (λ f, f <| f_ref ::= λ r, i32 (r + 1) |>);;
  release LFtable.

Definition fileclose (i : nat) : K unit :=
  acquire LFtable;;
  f ← get_file i;
  if f_ref f <? 1 then panic "fileclose" else
  upd_file i (λ f, f <| f_ref ::= λ r, r - 1 |>);;
  ff ← get_file i;
  if f_ref ff >? 0 then release LFtable else
  upd_file i (λ f, f <| f_ref := 0 |>);;
  upd_file i (λ f, f <| f_type := FD_NONE |>);;
  release LFtable;;
  match f_type ff with
  | FD_PIPE => pipeclose (f_pipe ff) (f_writable ff)
  | FD_INODE =>
      begin_op;;
      ip ← deref "fileclose: no inode" (f_ip ff);
      iput ip;;
      end_op
  | FD_NONE => mret tt
  end.

(** The fields of struct stat, stored at their offsets. *)
Definition store_stat (st : Z) (x : stat) : K unit :=
  stw (u32 (st + 4)) (st_dev x);;
  stw (u32 (st + 8)) (st_ino x);;
  st_bytes st (half_bytes (st_type x));;
  st_bytes (u32 (st + 12)) (half_bytes (st_nlink x));;
  stw (u32 (st + 16)) (st_size x);;
  stw (u32 (st + 20)) (st_containerID x).
Definition sizeof_stat : Z := 24.

Definition filestat (i : nat) (st : Z) : K Z :=
  f ← get_file i;
  match f_type f with
  | FD_INODE =>
      ip ← deref "filestat: no inode" (f_ip f);
      ilock ip;;
      x ← stati ip;
      store_stat st x;;
      iunlock ip;;
      mret 0
  | _ => mret (-1)
  end.

Definition fileread (i : nat) (addr n : Z) : K Z :=
  f ← get_file i;
  if negb (f_readable f) then mret (-1) else
  match f_type f with
  | FD_PIPE => piperead patience (f_pipe f) addr n
  | FD_INODE =>
      ip ← deref "fileread: no inode" (f_ip f);
      ilock ip;;
      f ← get_file i;
      '(r, _) ← readi ip (AtAddr addr) (f_off f) (u32 n);
      mwhen (r >? 0) (upd_file i (λ f, f <| f_off ::= λ o, u32 (o + r) |>));;
      iunlock ip;;
      mret r
  | FD_NONE => panic "fileread"
  end.

(** The most one transaction can write. *)
Definition write_max : Z := (MAXOPBLOCKS - 1 - 1 - 2) / 2 * 512.
Fixpoint filewrite_loop (fuel : nat) (i ip : nat) (addr n k : Z) : K Z :=
  match fuel with
  | O => fault "filewrite: out of fuel"
  | S fuel =>
      if k <? n then
        let n1 := if n - k >? write_max then write_max else n - k in
        begin_op;;
        ilock ip;;
        f ← get_file i;
        r ← writei ip (FromAddr (u32 (addr + k))) (f_off f) n1;
        mwhen (r >? 0) (upd_file i (λ f, f <| f_off ::= λ o, u32 (o + r) |>));;
        iunlock ip;;
        end_op;;
        if r <? 0 then mret (if k =? n then n else -1) else
        if negb (r =? n1) then panic "short filewrite" else
        filewrite_loop fuel i ip addr n (k + r)
      else mret (if k =? n then n else -1)
  end.
Definition filewrite (i : nat) (addr n : Z) : K Z :=
  f ← get_file i;
  if negb (f_writable f) then mret (-1) else
  match f_type f with
  | FD_PIPE => pipewrite patience (f_pipe f) addr n
  | FD_INODE =>
      ip ← deref "filewrite: no inode" (f_ip f);
      filewrite_loop (S (S (Z.to_nat (n / write_max)))) i ip addr n 0
  | FD_NONE => panic "filewrite"
  end.

(** pipe.c: [Some (f0, f1)] for success; on failure what was obtained is given
    back. *)
Definition pipealloc : K (option (nat * nat)) :=
  f0 ← filealloc;
  match f0 with
  | None => mret None
  | Some f0 =>
      f1 ← filealloc;
      match f1 with
      | None => fileclose f0;; mret None
      | Some f1 =>
          p ← kalloc;
          if p =? 0 then fileclose f0;; fileclose f1;; mret None else
          modify (λ s, s <| k_pipes ::= <[p :=
            mkPipe (replicate (Z.to_nat PIPESIZE) 0) 0 0 true true]> |>);;
          upd_file f0 (λ f, f <| f_type := FD_PIPE |> <| f_readable := true |>
            <| f_writable := false |> <| f_pipe := p |>);;
          upd_file f1 (λ f, f <| f_type := FD_PIPE |> <| f_readable := false |>
            <| f_writable := true |> <| f_pipe := p |>);;
          mret (Some (f0, f1))
      end
  end.

(** What the process code needs of the file system. *)
#[export] Instance fileops : FileApi.FileOps := {|
  FileApi.filedup := filedup;
  FileApi.fileclose := fileclose;
  FileApi.idup := idup;
  FileApi.iput := iput;
  FileApi.begin_op := begin_op;
  FileApi.end_op := end_op;
  FileApi.namei := namei
|}.
End file.
