(* ===== verification/Forking.v ===== *)
(** * fork, specified

    What the two processes that return from [fork] have: the parent all it had,
    the child a copy.  The file system's share is stated as an interface,
    [FileOpsOk], which the operations of file.c and fs.c satisfy. *)
From S2P Require Import Prelude Mmu Cstring Kstate Spinlock Kalloc Vm Proc Pagetable Uvm Copyuvm Fork Life Sleeplock Bio Log Fs Content Pipe File.

(** ** The interface *)

(** What [fork] needs to know of the file system: duplicating a reference to an
    open file or to an inode counts it, and does nothing else. *)
Class FileOpsOk (FO : FileApi.FileOps) : Prop := {
  filedup_ok f x s : cpu_ok (k_cpu s) → k_held s = [] → k_files s !! f = Some x →
    1 ≤ f_ref x < 2147483647 →
    FileApi.filedup f s =
      Done tt (ksync (s <| k_files ::= <[f := x <| f_ref := f_ref x + 1 |>]> |>));
  idup_ok i x s : cpu_ok (k_cpu s) → k_held s = [] → k_icache s !! i = Some x →
    1 ≤ i_ref x < 2147483647 →
    FileApi.idup i s =
      Done tt (ksync (s <| k_icache ::= <[i := x <| i_ref := i_ref x + 1 |>]> |>)) }.

#[export] Instance fileops_ok {LK : Linker} {FU : Fuel} {BD : BlockDev} {DS : DevSw} : FileOpsOk fileops.
Proof.
  split.
  - intros f x s Hc Hh Hx Hr. cbn [FileApi.filedup fileops]. unfold filedup.
    rewrite acquire_bind by (done || (rewrite Hh; by apply not_elem_of_nil)).
    rewrite (get_file_bind _ _ x) by done. destruct (Z.ltb_spec (f_ref x) 1); [lia |].
    rewrite (upd_file_bind _ _ _ x) by done.
    rewrite (release_run _ _ (k_cpu s) []); [| done | done | cbn; by rewrite Hh | by apply not_elem_of_nil].
    unfold ksync, locked. kst_eq; [by rewrite Hh |].
    unfold set, set_f_ref. by rewrite i32_id by (unfold is_i32; lia).
  - intros i x s Hc Hh Hx Hr. cbn [FileApi.idup fileops]. unfold idup.
    rewrite acquire_bind by (done || (rewrite Hh; by apply not_elem_of_nil)).
    rewrite (upd_inode_bind _ _ _ x) by done.
    rewrite (release_run _ _ (k_cpu s) []); [| done | done | cbn; by rewrite Hh | by apply not_elem_of_nil].
    unfold ksync, locked. kst_eq; [by rewrite Hh |].
    unfold set, set_i_ref. by rewrite i32_id by (unfold is_i32; lia).
Qed.

(** ** What the child inherits *)
Section forking.
Context {LK : Linker} {LO : LinkerOk} {FO : FileApi.FileOps} {FOK : FileOpsOk FO}.

(** The file table after every reference in [fs] was duplicated. *)
Definition refs_of (f : nat) (fs : list (option nat)) : Z :=
  Z.of_nat (length (filter (λ o, o = Some f) fs)).
#[local] Arguments refs_of : simpl never.
Lemma refs_of_cons f o fs :
  refs_of f (o :: fs) = (if decide (o = Some f) then 1 else 0) + refs_of f fs.
Proof.
  unfold refs_of. rewrite filter_cons. destruct (decide (o = Some f)); [cbn [length]; lia | done].
Qed.
Definition counted (files files' : list file) (fs : list (option nat)) : Prop :=
  ∀ f, files' !! f = (λ x, x <| f_ref := f_ref x + refs_of f fs |>) <$> files !! f.
(** Every open file of the list is in the table, with room for 16 more
    references. *)
Definition files_open (files : list file) (fs : list (option nat)) : Prop :=
  ∀ f, Some f ∈ fs → ∃ x, files !! f = Some x ∧ 1 ≤ f_ref x < 2147483647 - Z.of_nat NOFILE.

(** [s'] differs from [s] in the entry [np] of the process table, in the file
    table and in this CPU's record of the interrupt flag. *)
Definition inherits (np : nat) (c : proc) (s s' : kst) : Prop :=
  s' = s <| k_cpu := k_cpu s' |> <| k_files := k_files s' |> <| k_procs ::= <[np := c]> |>.

Lemma at_ease_ksync i s : at_ease i s → at_ease i (ksync s).
Proof. by intros [? ? ?]. Qed.

Fixpoint dup_ofile (i : nat) (fs l : list (option nat)) : list (option nat) :=
  match fs with
  | [] => l
  | Some f :: fs => dup_ofile (S i) fs (<[i := Some f]> l)
  | None :: fs => dup_ofile (S i) fs l
  end.
Lemma dup_ofile_all fs : ∀ l,
  dup_ofile (length l) fs (l ++ replicate (length fs) None) = l ++ fs.
Proof.
  induction fs as [| o fs IH]; intros l; [done |]. cbn [length replicate dup_ofile].
  assert (∀ x : option nat, l ++ x :: replicate (length fs) None = (l ++ [x]) ++ replicate (length fs) None) as Ha
    by (intros; by rewrite <- app_assoc).
  assert (∀ x : option nat, S (length l) = length (l ++ [x])) as Hl by (intros; rewrite length_app; cbn; lia).
  destruct o as [f |].
  - rewrite insert_app_r_alt, Nat.sub_diag by lia. cbn [insert list_insert].
    by rewrite Ha, (Hl (Some f)), IH, <- app_assoc.
  - by rewrite Ha, (Hl None), IH, <- app_assoc.
Qed.

Lemma dup_files_run cur np fs : ∀ i c s,
  at_ease cur s → k_procs s !! np = Some c →
  (∀ f, Some f ∈ fs → ∃ x, k_files s !! f = Some x ∧
     1 ≤ f_ref x < 2147483647 - Z.of_nat (length fs)) →
  ∃ s', dup_files np i fs s = Done tt s' ∧ at_ease cur s' ∧
    inherits np (c <| p_ofile := dup_ofile i fs (p_ofile c) |>) s s' ∧
    counted (k_files s) (k_files s') fs.
Proof.
  induction fs as [| o fs IH]; intros i c s Ha Hc Hf; cbn [dup_files].
  - exists s. split; [done |]. split; [done |]. split.
    + unfold inherits. kst_eq. rewrite list_insert_id; [done |]. rewrite Hc. by destruct c.
    + intros f. destruct (k_files s !! f) as [x |]; [| done]. cbn. f_equal. destruct x; cbn.
      unfold set, set_f_ref. cbn. f_equal. change (refs_of f []) with 0. lia.
  - destruct o as [f |].
    + destruct (Hf f) as (x & Hx & Hr); [by left |]. cbn [length] in Hr.
      rewrite bind_assoc.
      erewrite bind_done by (apply (filedup_ok f x); [by apply (at_ease_ok cur) | apply Ha | done | lia]).
      erewrite upd_proc_bind by exact Hc.
      match goal with |- context [dup_files np (S i) fs ?st] => set (s1 := st) end.
      destruct (IH (S i) (c <| p_ofile ::= <[i := Some f]> |>) s1) as (s' & Hrun & Ha' & Hin & Hct).
      * destruct Ha as [? ? ?]. by split.
      * cbn. apply list_lookup_insert_eq. by eapply lookup_lt_Some.
      * intros g Hg. destruct (Hf g) as (y & Hy & Hry); [by right |]. cbn [length] in Hry. cbn.
        destruct (decide (f = g)) as [<- | Hne].
        -- rewrite list_lookup_insert_eq by (by eapply lookup_lt_Some). eexists. split; [done |].
           cbn. lia.
        -- rewrite list_lookup_insert_ne by done. exists y. split; [done | lia].
      * exists s'. split; [exact Hrun |]. split; [done |]. split.
        -- unfold inherits in *. rewrite Hin. unfold s1. kst_eq. by rewrite list_insert_insert_eq.
        -- intros g. rewrite (Hct g). unfold s1. cbn. rewrite refs_of_cons.
           destruct (decide (f = g)) as [<- | Hne].
           ++ rewrite list_lookup_insert_eq by (by eapply lookup_lt_Some). rewrite Hx. cbn.
              rewrite decide_True by done. f_equal.
              destruct x; cbn. unfold set, set_f_ref. cbn. f_equal. lia.
           ++ rewrite list_lookup_insert_ne by done. by rewrite decide_False by congruence.
    + rewrite bind_ret. destruct (IH (S i) c s Ha Hc) as (s' & Hrun & Ha' & Hin & Hct).
      { intros g Hg. destruct (Hf g) as (y & Hy & Hry); [by right |]. cbn [length] in Hry.
        exists y. split; [done | lia]. }
      exists s'. split; [done |]. split; [done |]. split; [done |].
      intros g. rewrite (Hct g), refs_of_cons. by rewrite decide_False.
Qed.

(** The parent's references can be duplicated. *)
Record can_share (me : proc) (cwd : nat) (nd : inode) (s : kst) : Prop := {
  cs_ofile : length (p_ofile me) = NOFILE;
  cs_files : files_open (k_files s) (p_ofile me);
  cs_cwd : p_cwd me = Some cwd;
  cs_inode : k_icache s !! cwd = Some nd;
  cs_ref : 1 ≤ i_ref nd < 2147483647 }.

(** What [inherit] makes of the slot. *)
Definition heir (cur : nat) (me q : proc) (c : Z) : proc :=
  q <| p_sz := p_sz me |> <| p_parent := Some cur |>
    <| p_tf := (p_tf me) <| tf_eax := 0 |> |> <| p_containerID := c |>
    <| p_ofile := p_ofile me |> <| p_cwd := p_cwd me |>
    <| p_name := safestrcpy_into (p_name q) (p_name me) 16 |> <| p_state := RUNNABLE |>.

(** The child [fork] makes in the slot [p0], with the kernel stack [ks] and the
    page directory [d], of the parent [me] in slot [cur]. *)
Definition forked (cur : nat) (me p0 : proc) (pid ks d : Z) : proc :=
  heir cur me ((embryo pid ks p0) <| p_pgdir := d |>) (p_containerID me).
Lemma inherit_run cur np me q c cwd nd s :
  at_ease cur s → cur ≠ np → k_procs s !! cur = Some me → k_procs s !! np = Some q →
  p_ofile q = replicate NOFILE None → can_share me cwd nd s →
  ∃ s', inherit cur np c s = Done (p_pid q) s' ∧ at_ease cur s' ∧
    s' = s <| k_cpu := k_cpu s' |> <| k_files := k_files s' |>
           <| k_icache ::= <[cwd := nd <| i_ref := i_ref nd + 1 |>]> |>
           <| k_procs ::= <[np := heir cur me q c]> |> ∧
    counted (k_files s) (k_files s') (p_ofile me).
Proof.
  intros Ha Hne Hme Hq Hof [Hlen Hfs Hcwd Hnd Hr]. unfold inherit, heir.
  generalize safestrcpy_into. intros copy. rewrite (get_proc_bind _ _ me) by done.
  assert (np < length (k_procs s))%nat as Hlt by (by eapply lookup_lt_Some).
  erewrite upd_proc_bind by exact Hq.
  do 4 (erewrite upd_proc_bind by (cbn; rewrite ?list_insert_insert_eq; by apply list_lookup_insert_eq)).
  set (q1 := q <| p_sz := p_sz me |> <| p_parent := Some cur |> <| p_tf := (p_tf me) <| tf_eax := 0 |> |>
               <| p_containerID := c |>).
  match goal with |- ∃ _, (dup_files np 0 _ ≫= _) ?st = _ ∧ _ =>
    assert (st = s <| k_procs ::= <[np := q1]> |>) as -> by (kst_eq; by rewrite !list_insert_insert_eq) end.
  destruct (dup_files_run cur np (p_ofile me) 0 q1 (s <| k_procs ::= <[np := q1]> |>)) as
    (s2 & Hrun & Ha2 & Hin & Hct).
  { destruct Ha as [? ? ?]. by split. }
  { cbn. by apply list_lookup_insert_eq. }
  { rewrite Hlen. exact Hfs. }
  rewrite (bind_done _ _ _ _ _ Hrun), Hcwd. cbn [deref]. rewrite bind_ret.
  set (q2 := q1 <| p_ofile := dup_ofile 0 (p_ofile me) (p_ofile q1) |>) in *.
  assert (s2 = s <| k_cpu := k_cpu s2 |> <| k_files := k_files s2 |> <| k_procs ::= <[np := q2]> |>) as Hs2.
  { unfold inherits in Hin. rewrite Hin at 1. kst_eq. by rewrite list_insert_insert_eq. }
  clear Hin Hrun. change (k_files _) with (k_files s) in Hct at 1.
  rewrite Hs2 in Ha2 |- *. set (f2 := k_files s2) in *. set (c2 := k_cpu s2) in *. clear Hs2.
  erewrite bind_done by (apply (idup_ok cwd nd); [by apply (at_ease_ok cur) | apply Ha2 | done | done]).
  do 2 (erewrite upd_proc_bind by (cbn; rewrite ?list_insert_insert_eq; by apply list_lookup_insert_eq)).
  erewrite get_proc_bind by (cbn; rewrite !list_insert_insert_eq; by apply list_lookup_insert_eq).
  cbv zeta.
  rewrite (at_ease_acquire cur) by (destruct Ha2 as [? ? ?]; by split).
  erewrite upd_proc_bind by (cbn; rewrite !list_insert_insert_eq; by apply list_lookup_insert_eq).
  erewrite bind_done by (apply holds_only_release; destruct (at_ease_lock cur _ Ha2) as [? ? ?]; by split).
  eexists. split; [done |]. split; [| split].
  - destruct Ha2 as [? ? ?]. by split.
  - kst_eq; [symmetry; apply Ha |]. unfold locked, ksync. kfields.
    rewrite !list_insert_insert_eq. f_equal.
    assert (dup_ofile 0 (p_ofile me) (p_ofile q) = p_ofile me) as Ho
      by (rewrite Hof, <- Hlen; apply (dup_ofile_all (p_ofile me) [])).
    unfold q2. change (p_ofile q1) with (p_ofile q). rewrite Ho. reflexivity.
  - exact Hct.
Qed.

(** ** The pieces of [fork] *)

(** The entries and the bytes of an address space are as in [s]. *)
Definition space_kept (T : gmap Z Z) (s s' : kst) : Prop :=
  ∀ x, user_addr x → present (pte_of (k_mem s) T x) = true →
    pte_of (k_mem s') T x = pte_of (k_mem s) T x ∧
    load8 (k_mem s') (phys (k_mem s') T x) = load8 (k_mem s) (phys (k_mem s) T x).
Lemma space_kept_trans T s1 s2 s3 : space_kept T s1 s2 → space_kept T s2 s3 → space_kept T s1 s3.
Proof.
  intros H1 H2 x Hx Hp. destruct (H1 x Hx Hp) as [He Hb].
  destruct (H2 x Hx) as [He' Hb']; [by rewrite He |]. by rewrite He', He, Hb', Hb.
Qed.
Lemma space_kept_mem T s s1 s2 : k_mem s2 = k_mem s1 → space_kept T s s1 → space_kept T s s2.
Proof. unfold space_kept. by intros ->. Qed.
Lemma space_kept_refl T s s' : k_mem s' = k_mem s → space_kept T s s'.
Proof. intros Hm x _ _. by rewrite Hm. Qed.
Lemma copied_below_from sz T1 T' s s1 s' :
  (∀ x, user_addr x → from_to 0 sz x → present (pte_of (k_mem s) T1 x) = true) →
  space_kept T1 s s1 → copied_below sz s1 T1 s' T' → copied_below sz s T1 s' T'.
Proof.
  intros Hall Hk [Hc Hn]. split; [| done]. intros x Hx Hin.
  destruct (Hk x Hx) as [He Hb]; [by apply Hall |]. destruct (Hc x Hx Hin) as [Hpg Hv].
  rewrite He in Hpg. split; [done |]. by rewrite Hv, Hb.
Qed.

Lemma at_ease_vm_step i s s' : at_ease i s → vm_step s s' → at_ease i s'.
Proof.
  intros [Hc Hh Hn] [(c & km & m & ->) Hcpu]. cbn in Hcpu.
  destruct Hcpu as [-> | ->]; (split; [exact Hc | exact Hh | exact Hn]).
Qed.
Lemma at_ease_kmem i s : at_ease i s → kmem_ready s.
Proof. intros Ha. split; [by apply (at_ease_ok i) |]. rewrite (ae_held _ _ Ha). by intros ?%elem_of_nil. Qed.
Lemma at_ease_ptable i s : at_ease i s → ptable_ready s.
Proof. intros Ha. split; [by apply (at_ease_ok i) |]. rewrite (ae_held _ _ Ha). by intros ?%elem_of_nil. Qed.
Lemma space_ease i s s' d T l :
  space_ok s d T l → at_ease i s' → k_mem s' = k_mem s → k_kmem s' = k_kmem s → space_ok s' d T l.
Proof.
  intros Hs Ha Hm Hk. pose proof (vo_kmem _ _ _ _ (so_vm _ _ _ _ Hs)) as [Hl Hnd Hv].
  apply (space_step s s' d T l l); [done | done | | by apply (at_ease_kmem i) | done].
  split; rewrite ?Hm, ?Hk; done.
Qed.
Lemma held_step s s' d T l pg :
  k_mem s' = k_mem s → held_page s d T l pg → held_page s' d T l pg.
Proof. intros Hm [? ? Ho]. split; [done | done | by rewrite Hm]. Qed.

Section steps.
Context (cur np : nat) (d1 : Z) (T1 : gmap Z Z).

(** A kernel stack for the child, and what [trapret]'s address does to it. *)
Lemma alloc_run p0 pg l s :
  at_ease cur s → find_idx unused (k_procs s) = Some np → k_procs s !! np = Some p0 →
  allocFor (k_pv s) = 0 → space_ok s d1 T1 (pg :: l) →
  ∃ s', allocproc s = Done (Some np) s' ∧ at_ease cur s' ∧
    s' = s <| k_cpu := k_cpu s' |> <| k_mem := k_mem s' |> <| k_kmem := k_kmem s' |>
           <| k_pv ::= λ v, v <| nextpid := i32 (nextpid v + 1) |> |>
           <| k_procs ::= <[np := embryo (nextpid (k_pv s)) pg p0]> |> ∧
    space_ok s' d1 T1 l ∧ held_page s' d1 T1 l pg ∧ space_kept T1 s s' ∧
    load32 (k_mem s') (pg + (4096 - 76 - 4)) = u32 trapret_addr.
Proof.
  intros Ha Hf Hp Hfor Hs.
  pose proof (at_ease_ptable _ _ Ha) as Hpt.
  assert (Hac : at_ease cur (claimed np p0 s)) by (destruct Ha; by split).
  destruct (take_page (claimed np p0 s) d1 T1 (pg :: l)) as (s1 & Hk & Hs1 & Hst1 & Hm1 & Hh1);
    [by apply (space_ease cur s) |]. cbn [hd tl] in *.
  pose proof (hp_valid _ _ _ _ _ Hh1) as Hpg. pose proof (valid_page_pos pg Hpg) as Hpos.
  pose proof (valid_page_range pg Hpg) as Hrg. unfold KERNBASE, EXTMEM, PHYSTOP, PGSIZE in Hrg.
  pose proof (allocproc_some s np p0 pg s1 Hpt Hf Hp) as Hrun. rewrite Hfor in Hrun.
  specialize (Hrun Hk (vm_step_procs _ _ Hst1)). destruct (Z.eqb_spec pg 0); [lia |].
  assert (Hsp : u32 (u32 (pg + KSTACKSIZE - sizeof_trapframe) - 4) = pg + (4096 - 76 - 4)).
  { unfold KSTACKSIZE, sizeof_trapframe. rewrite u32_sub_l, u32_id by (unfold is_u32; lia). lia. }
  rewrite Hsp in Hrun. set (m2 := store32 (k_mem s1) (pg + (4096 - 76 - 4)) trapret_addr) in *.
  set (q := embryo (nextpid (k_pv s)) pg p0) in *. pose proof (at_ease_vm_step _ _ _ Hac Hst1) as Ha1.
  assert (Hm2 : same_but (λ p, p = pg) (k_mem s1) m2).
  { intros x Hx. apply load8_store32_ne. specialize (Hx pg eq_refl). unfold PGSIZE in Hx. lia. }
  destruct (space_frame (λ p, p = pg) s1 d1 T1 l m2 Hs1) as [Hs2 Hpte]; [| done |].
  { intros p ->. destruct Hh1 as [[_ [? _]] ? Ho]. split; [done |]. split; [| done]. intros ?. apply Ho. by left. }
  eexists. split; [exact Hrun |]. split; [destruct Ha1; by split |]. split; [| split; [| split; [| split]]].
  - destruct Hst1 as [(c & km & m & ->) _]. kst_eq. unfold claimed, ksync. kfields.
    by rewrite list_insert_insert_eq.
  - apply (space_ease cur (s1 <| k_mem := m2 |>)); [done | destruct Ha1; by split | done | done].
  - destruct Hh1 as [? ? Ho]. split; [done | done |]. intros [Hx | (x & Hx & Hxp & Heq)]; apply Ho;
      [by left | right]. exists x. change (k_mem _) with m2 in Hxp, Heq. by rewrite Hpte in Hxp, Heq.
  - intros x Hx Hxp. change (k_mem s) with (k_mem (claimed np p0 s)) in Hxp |- *. rewrite <- Hm1 in Hxp |- *.
    change (k_mem (set _ _ _)) with m2. unfold phys. rewrite Hpte. split; [done |].
    by apply (held_apart s1 d1 T1 l pg).
  - apply load32_store32_eq.
Qed.
Lemma alloc_none p0 s :
  at_ease cur s → find_idx unused (k_procs s) = Some np → k_procs s !! np = Some p0 →
  allocFor (k_pv s) = 0 → space_ok s d1 T1 [] →
  ∃ s' q, allocproc s = Done None s' ∧ at_ease cur s' ∧ p_state q = UNUSED ∧
    s' = s <| k_cpu := k_cpu s' |> <| k_kmem := k_kmem s' |>
           <| k_pv ::= λ v, v <| nextpid := i32 (nextpid v + 1) |> |>
           <| k_procs ::= <[np := q]> |> ∧
    space_ok s' d1 T1 [].
Proof.
  intros Ha Hf Hp Hfor Hs.
  pose proof (at_ease_ptable _ _ Ha) as Hpt.
  assert (Hac : at_ease cur (claimed np p0 s)) by (destruct Ha; by split).
  destruct (take_page (claimed np p0 s) d1 T1 []) as (s1 & Hk & Hs1 & Hst1 & Hm1 & _);
    [by apply (space_ease cur s) |]. cbn [hd tl] in *.
  pose proof (allocproc_some s np p0 0 s1 Hpt Hf Hp) as Hrun. rewrite Hfor in Hrun.
  specialize (Hrun Hk (vm_step_procs _ _ Hst1)). cbn [Z.eqb] in Hrun.
  pose proof (at_ease_vm_step _ _ _ Hac Hst1) as Ha1.
  eexists _, (p0 <| p_state := UNUSED |> <| p_pid := nextpid (k_pv s) |> <| p_kstack := 0 |>).
  split; [exact Hrun |]. split; [destruct Ha1; by split |]. split; [done | split].
  - destruct Hst1 as [(c & km & m & ->) _]. cbn in Hm1. subst m. kst_eq. unfold claimed, ksync. kfields.
    by rewrite list_insert_insert_eq.
  - apply (space_ease cur s1); [done | destruct Ha1; by split | done | done].
Qed.

(** Giving the child up. *)
Lemma drop_run q l s :
  at_ease cur s → k_procs s !! np = Some q → space_ok s d1 T1 l →
  held_page s d1 T1 l (p_kstack q) →
  ∃ s', drop_proc np s = Done tt s' ∧ at_ease cur s' ∧
    s' = s <| k_cpu := k_cpu s' |> <| k_mem := k_mem s' |> <| k_kmem := k_kmem s' |>
           <| k_procs ::= <[np := q <| p_kstack := 0 |> <| p_state := UNUSED |>]> |> ∧
    space_ok s' d1 T1 (p_kstack q :: l) ∧ space_kept T1 s s' ∧
    ∀ x, pte_of (k_mem s') T1 x = pte_of (k_mem s) T1 x.
Proof.
  intros Ha Hq Hs Hh. unfold drop_proc. rewrite (get_proc_bind _ _ q) by done.
  destruct (free_held s d1 T1 l (p_kstack q) Hs Hh) as (s1 & Hrun & Hs1 & Hst1 & Hm1 & Hpte).
  rewrite (bind_done _ _ _ _ _ Hrun). pose proof (at_ease_vm_step _ _ _ Ha Hst1) as Ha1.
  erewrite upd_proc_bind by (rewrite (vm_step_procs s s1 Hst1); exact Hq).
  pose proof (lookup_lt_Some _ _ _ Hq) as Hlt.
  erewrite upd_proc_run by (cbn; rewrite (vm_step_procs s s1 Hst1); by apply list_lookup_insert_eq).
  eexists. split; [reflexivity |]. split; [destruct Ha1; by split |]. split; [| split; [| split]].
  - destruct Hst1 as [(c & km & m & ->) _]. kst_eq. by rewrite list_insert_insert_eq.
  - apply (space_ease cur s1); [done | destruct Ha1; by split | done | done].
  - intros x Hx Hp. change (k_mem (set _ _ _)) with (k_mem s1). unfold phys. rewrite Hpte.
    split; [done |]. by apply (held_apart s d1 T1 l (p_kstack q)).
  - exact Hpte.
Qed.

(** The container's process list: the slot the child gets, if there is one. *)
Definition free_slot (x : container) : option nat :=
  find_idx (λ o, bool_decide (o = None)) (ct_process x).
Definition enter (k : nat) (x : container) : container :=
  x <| ct_process ::= <[k := Some np]> |> <| ct_generatedProcess ::= λ n, i32 (n + 1) |>.
Lemma enrol_run c x s :
  at_ease cur s → 0 ≤ c → k_conts s !! Z.to_nat c = Some x →
  ∃ s', add_to_container c np false s = Done (bool_decide (is_Some (free_slot x))) s' ∧ at_ease cur s' ∧
    s' = s <| k_cpu := k_cpu s' |> <| k_conts ::= <[Z.to_nat c := from_option (λ k, enter k x) x (free_slot x)]> |>.
Proof.
  intros Ha Hc Hx. unfold add_to_container. pose proof (lookup_lt_Some _ _ _ Hx) as Hlt.
  rewrite acquire_bind; [| by apply (at_ease_ok cur) | rewrite (ae_held _ _ Ha); by intros ?%elem_of_nil].
  rewrite (get_cont_bind _ _ x) by done. fold (free_slot x).
  pose proof (holds_only_acquire LCtable s (ae_ncli _ _ Ha) (ae_held _ _ Ha)) as Hl.
  destruct (free_slot x) as [k |] eqn:Hk; cbn [mwhen].
  - rewrite bind_assoc, bind_ret. rewrite bind_assoc. rewrite (upd_cont_bind _ _ _ x) by done.
    rewrite bind_assoc. erewrite upd_cont_bind by (done || (cbn; by apply list_lookup_insert_eq)).
    rewrite bind_ret.
    erewrite bind_done by (apply holds_only_release; destruct Hl; by split).
    eexists. split; [done |]. split; [destruct Ha; by split |].
    kst_eq; [by rewrite (ae_held _ _ Ha) |]. by rewrite list_insert_insert_eq.
  - rewrite bind_ret. erewrite bind_done by (apply holds_only_release; destruct Hl; by split).
    eexists. split; [done |]. split; [destruct Ha; by split |].
    kst_eq; [by rewrite (ae_held _ _ Ha) |]. symmetry. by apply list_insert_id.
Qed.
End steps.

(** The container table with the process entered, if there is room; container 0
    has no list. *)
Definition joined (c : Z) (np : nat) (cs : list container) : option (list container) :=
  if c =? 0 then Some cs else
  match cs !! Z.to_nat c with
  | Some x =>
      match free_slot x with
      | Some k => Some (<[Z.to_nat c := enter np k x]> cs)
      | None => None
      end
  | None => None
  end.
Lemma join_run cur np c s :
  at_ease cur s → c = 0 ∨ 0 ≤ c ∧ is_Some (k_conts s !! Z.to_nat c) →
  ∃ s', (if negb (c =? 0) then add_to_container c np (c =? 0) else mret true) s =
      Done (bool_decide (is_Some (joined c np (k_conts s)))) s' ∧ at_ease cur s' ∧
    s' = s <| k_cpu := k_cpu s' |> <| k_conts := default (k_conts s) (joined c np (k_conts s)) |>.
Proof.
  intros Ha Hc. unfold joined. destruct (Z.eqb_spec c 0) as [-> | Hnz]; cbn [negb].
  - exists s. split; [done |]. split; [done |]. by destruct s.
  - destruct Hc as [? | [Hc [x Hx]]]; [done |].
    destruct (enrol_run cur np c x s Ha Hc Hx) as (s' & Hrun & Ha' & Hs'). exists s'. rewrite Hrun, Hx.
    destruct (free_slot x) as [k |]; cbn [from_option] in Hs'; (split; [done |]; split; [done |]).
    + exact Hs'.
    + rewrite Hs' at 1. kst_eq. cbn. by apply list_insert_id.
Qed.

(** ** [fork] *)

(** A process that may call [fork]: it runs, its memory is mapped in full, its
    references can be duplicated, and free slots have no open files. *)
Record can_fork (cur : nat) (me : proc) (cwd : nat) (nd : inode) (T1 : gmap Z Z) (l : list Z)
    (s : kst) : Prop := {
  fk_ease : at_ease cur s;
  fk_me : k_procs s !! cur = Some me;
  fk_runs : p_state me = RUNNING;
  fk_for : allocFor (k_pv s) = 0;
  fk_space : space_ok s (p_pgdir me) T1 l;
  fk_sz : 0 ≤ p_sz me ≤ KERNBASE;
  fk_mapped : ∀ x, user_addr x → from_to 0 (p_sz me) x → present (pte_of (k_mem s) T1 x) = true;
  fk_share : can_share me cwd nd s;
  fk_closed : ∀ i q, k_procs s !! i = Some q → unused q = true → p_ofile q = replicate NOFILE None;
  fk_cont : p_containerID me = 0 ∨
    0 ≤ p_containerID me ∧ is_Some (k_conts s !! Z.to_nat (p_containerID me)) }.

(** The parent goes on as it was. *)
Definition parent_same (cur : nat) (me : proc) (T1 : gmap Z Z) (s s' : kst) : Prop :=
  at_ease cur s' ∧ k_procs s' !! cur = Some me ∧ space_kept T1 s s' ∧
  ∃ l', space_ok s' (p_pgdir me) T1 l'.

(** What [fork] may change when it made no child: slot [np], and what counts
    processes and manages pages. *)
Definition slot_only (np : nat) (q : proc) (s s' : kst) : Prop :=
  unused q = true ∧
  s' = s <| k_cpu := k_cpu s' |> <| k_mem := k_mem s' |> <| k_kmem := k_kmem s' |>
         <| k_pv ::= λ v, v <| nextpid := i32 (nextpid v + 1) |> |> <| k_out := k_out s' |>
         <| k_procs ::= <[np := q]> |>.

(** There is a child: its entry in the process table and in its container, its
    memory, its kernel stack and its share of the files. *)
Definition child_made (cur np : nat) (me p0 : proc) (cwd : nat) (nd : inode) (T1 : gmap Z Z)
    (l : list Z) (r : Z) (s s' : kst) : Prop :=
  ∃ ks d T' l' cs,
    r = nextpid (k_pv s) ∧ joined (p_containerID me) np (k_conts s) = Some cs ∧
    s' = s <| k_cpu := k_cpu s' |> <| k_mem := k_mem s' |> <| k_kmem := k_kmem s' |>
           <| k_pv ::= λ v, v <| nextpid := i32 (nextpid v + 1) |> |> <| k_files := k_files s' |>
           <| k_icache ::= <[cwd := nd <| i_ref := i_ref nd + 1 |>]> |> <| k_conts := cs |>
           <| k_procs ::= <[np := forked cur me p0 r ks d]> |> ∧
    counted (k_files s) (k_files s') (p_ofile me) ∧
    space_ok s' d T' l' ∧ copied_below (p_sz me) s T1 s' T' ∧
    load32 (k_mem s') (ks + (4096 - 76 - 4)) = u32 trapret_addr ∧
    (∀ p, p ∈ l' ∨ p = ks ∨ owns (k_mem s') d T' p ↔ p ∈ l).

(** The copy of the parent's memory, while the page [pg] is held. *)
Lemma copy_run cur d1 T1 pg l sz s :
  at_ease cur s → space_ok s d1 T1 l → held_page s d1 T1 l pg → 0 ≤ sz ≤ KERNBASE →
  (∀ x, user_addr x → from_to 0 sz x → present (pte_of (k_mem s) T1 x) = true) →
  ∃ d s' T' l', copyuvm d1 sz s = Done d s' ∧ vm_step s s' ∧ space_ok s' d1 T1 l' ∧
    held_page s' d1 T1 l' pg ∧ space_kept T1 s s' ∧
    load32 (k_mem s') (pg + (4096 - 76 - 4)) = load32 (k_mem s) (pg + (4096 - 76 - 4)) ∧
    (d ≠ 0 ∧ space_ok s' d T' l' ∧ held_page s' d T' l' pg ∧ copied_below sz s T1 s' T' ∧
       (∀ p, p ∈ l' ∨ owns (k_mem s') d T' p ↔ p ∈ l) ∨
     d = 0 ∧ (∀ p, p ∈ l' ↔ p ∈ l) ∧ Z.of_nat (length l) ≤ 1026 + sz / PGSIZE).
Proof.
  intros Ha Hs Hh Hsz Hall.
  destruct (copyuvm_run s d1 T1 l sz Hs Hsz Hall) as
    (d & s' & T' & l' & Hrun & Hst & Hm & Hs' & Hk & Hr).
  assert (Hsub : ∀ p, p ∈ l' → p ∈ l).
  { destruct Hr as [(_ & _ & Hp & _) | (_ & Hp & _)]; intros p Hin; apply Hp; auto. }
  pose proof (so_vm _ _ _ _ Hs') as [Hi Hr' _ _].
  destruct (space_untouched s s' d1 T1 l l' Hs Hm Hi Hr' Hsub) as (_ & Hpte & _).
  destruct Hh as [Hv Hf Ho]. exists d, s', T', l'. split; [done |]. split; [done |]. split; [done |].
  split; [| split; [| split]].
  - split; [done | by intros ?%Hsub |]. unfold owns. by rewrite (mapped_page_ext (k_mem s) T1).
  - exact Hk.
  - apply load32_ext. intros k Hk'. apply Hm. intros p Hp Hin.
    pose proof (vo_kmem _ _ _ _ (so_vm _ _ _ _ Hs)) as [_ _ Hvl]. rewrite Forall_forall in Hvl.
    destruct (Hvl p Hp) as (_ & Hal & _). destruct Hv as (_ & Hal' & _).
    destruct (pages_apart p pg Hal Hal'); [by intros -> | unfold PGSIZE in *; lia | unfold PGSIZE in *; lia].
  - destruct Hr as [(? & Hsc & Hp & Hc) | ?]; [left | by right].
    split; [done |]. split; [done |]. split; [| done].
    split; [done | by intros ?%Hsub |]. intros Hx. apply Hf, Hp. by right.
Qed.


Section cases.
Context (cur : nat) (me : proc) (cwd : nat) (nd : inode) (T1 : gmap Z Z) (s : kst) (np : nat) (p0 : proc).
Context (Hf : find_idx unused (k_procs s) = Some np) (Hp0 : k_procs s !! np = Some p0).

(** [fork] after the copying: the slot has a stack, [pg], and the directory [d]. *)
Definition with_copy (pg d : Z) : proc := (embryo (nextpid (k_pv s)) pg p0) <| p_pgdir := d |>.
Record half_made (pg d : Z) (l l' : list Z) (s' : kst) : Prop := {
  hm_ease : at_ease cur s';
  hm_frame : s' = s <| k_cpu := k_cpu s' |> <| k_mem := k_mem s' |> <| k_kmem := k_kmem s' |>
    <| k_pv ::= λ v, v <| nextpid := i32 (nextpid v + 1) |> |>
    <| k_procs ::= <[np := with_copy pg d]> |>;
  hm_space : space_ok s' (p_pgdir me) T1 l';
  hm_held : held_page s' (p_pgdir me) T1 l' pg;
  hm_kept : space_kept T1 s s';
  hm_stack : load32 (k_mem s') (pg + (4096 - 76 - 4)) = u32 trapret_addr }.

Lemma can_fork_other l : can_fork cur me cwd nd T1 l s → cur ≠ np.
Proof.
  intros [_ Hme Hr _ _ _ _ _ _ _] <-. destruct (find_idx_Some _ _ _ Hf) as [(q & Hq & Hun) _].
  rewrite Hme in Hq. injection Hq as <-. unfold unused in Hun. by rewrite Hr in Hun.
Qed.

Lemma fork_copies pg l :
  can_fork cur me cwd nd T1 (pg :: l) s →
  ∃ d s' T' l', half_made pg d l l' s' ∧
    fork s = (if d =? 0 then drop_proc np;; mret (-1) else
      ok ← (if negb (p_containerID me =? 0)
            then add_to_container (p_containerID me) np (p_containerID me =? 0) else mret true);
      if negb ok then
        drop_proc np;; cprintf "Container - FULL  %d \n" [PInt (p_containerID me)];; mret (-2)
      else inherit cur np (p_containerID me)) s' ∧
    (d ≠ 0 ∧ space_ok s' d T' l' ∧ held_page s' d T' l' pg ∧ copied_below (p_sz me) s T1 s' T' ∧
       (∀ p, p ∈ l' ∨ owns (k_mem s') d T' p ↔ p ∈ l) ∨
     d = 0 ∧ (∀ p, p ∈ l' ↔ p ∈ l) ∧ Z.of_nat (length l) ≤ 1026 + p_sz me / PGSIZE).
Proof.
  intros Hc. pose proof (can_fork_other _ Hc) as Hne.
  destruct Hc as [Ha Hme Hruns Hfor Hs Hsz Hall Hsh Hclosed Hcont]. unfold fork.
  rewrite (curproc_bind cur); [| by apply (at_ease_ok cur) | apply Ha].
  set (s0 := ksync s). pose proof (at_ease_ksync _ _ Ha : at_ease cur s0) as Ha0.
  destruct (alloc_run cur np (p_pgdir me) T1 p0 pg l s0) as
    (s1 & Hrun & Ha1 & Heq & Hs1 & Hh1 & Hk1 & Hst1); try done; [by apply (space_ease cur s) |].
  rewrite (bind_done _ _ _ _ _ Hrun). cbn match.
  erewrite get_proc_bind by (rewrite Heq; cbn; rewrite list_lookup_insert_ne by done; exact Hme).
  destruct (copy_run cur (p_pgdir me) T1 pg l (p_sz me) s1 Ha1 Hs1 Hh1 Hsz) as
    (d & s2 & T' & l2 & Hrun2 & Hvm & Hs2 & Hh2 & Hk2 & Hst2 & Hr).
  { intros x Hx Hin. destruct (Hk1 x Hx (Hall x Hx Hin)) as [-> _]. by apply Hall. }
  rewrite (bind_done _ _ _ _ _ Hrun2). pose proof (at_ease_vm_step _ _ _ Ha1 Hvm) as Ha2.
  pose proof (lookup_lt_Some _ _ _ Hp0) as Hlt.
  erewrite upd_proc_bind by (rewrite (vm_step_procs s1 s2 Hvm), Heq; cbn; by apply list_lookup_insert_eq).
  set (s3 := s2 <| k_procs ::= <[np := with_copy pg d]> |>).
  assert (Ha3 : at_ease cur s3) by (destruct Ha2; by split).
  exists d, s3, T', l2. split; [split | split].
  - exact Ha3.
  - destruct Hvm as [(c & km & m & ->) _]. unfold s3. rewrite Heq. unfold s0, ksync. kst_eq.
    by rewrite list_insert_insert_eq.
  - by apply (space_ease cur s2).
  - by apply (held_step s2).
  - by apply (space_kept_trans _ _ s1).
  - etrans; [exact Hst2 | exact Hst1].
  - reflexivity.
  - destruct Hr as [(? & ? & ? & Hcp & ?) | ?]; [left | by right]. split; [done |].
    split; [by apply (space_ease cur s2) |]. split; [by apply (held_step s2) |].
    split; [| done]. by apply (copied_below_from _ _ _ s s1).
Qed.

(** Giving up: the slot is free again, and the stack is on the free list. *)
Lemma half_dropped l0 pg d l l' s3 :
  can_fork cur me cwd nd T1 l0 s → half_made pg d l l' s3 →
  ∃ s' q, drop_proc np s3 = Done tt s' ∧ p_pgdir q = d ∧ slot_only np q s s' ∧ kmem_inv s' (pg :: l') ∧
    parent_same cur me T1 s s' ∧
    ∀ T', space_ok s3 d T' l' → held_page s3 d T' l' pg →
      space_ok s' d T' (pg :: l') ∧ ∀ p, owns (k_mem s') d T' p ↔ owns (k_mem s3) d T' p.
Proof.
  intros Hc [Ha Heq Hs Hh Hk _]. pose proof (can_fork_other _ Hc) as Hne.
  destruct Hc as [_ Hme _ _ _ _ _ _ _ _]. pose proof (lookup_lt_Some _ _ _ Hp0) as Hlt.
  assert (Hq : k_procs s3 !! np = Some (with_copy pg d)) by (rewrite Heq; cbn; by apply list_lookup_insert_eq).
  destruct (drop_run cur np (p_pgdir me) T1 (with_copy pg d) l' s3 Ha Hq Hs Hh) as
    (s' & Hrun & Ha' & Heq' & Hs' & Hk' & _).
  exists s', ((with_copy pg d) <| p_kstack := 0 |> <| p_state := UNUSED |>).
  split; [exact Hrun |]. split; [reflexivity |]. split; [split; [reflexivity |] | split; [apply Hs' | split]].
  - rewrite Heq' at 1. rewrite Heq. kst_eq; [by rewrite list_insert_insert_eq | by rewrite Heq', Heq].
  - split; [exact Ha' |]. split; [| split].
    + rewrite Heq', Heq. cbn. by rewrite !list_lookup_insert_ne.
    + by apply (space_kept_trans _ _ s3).
    + by exists (pg :: l').
  - intros T' Hsc Hhc.
    destruct (drop_run cur np d T' (with_copy pg d) l' s3 Ha Hq Hsc Hhc) as
      (s'' & Hrun' & _ & _ & Hsc' & _ & Hpte). rewrite Hrun in Hrun'. injection Hrun' as <-.
    split; [exact Hsc' |]. intros p. unfold owns. by rewrite (mapped_page_ext (k_mem s3) T').
Qed.

(** Locking and unlocking in between does not matter. *)
Lemma half_made_locked pg d l l' s3 s4 :
  half_made pg d l l' s3 → at_ease cur s4 → s4 = s3 <| k_cpu := k_cpu s4 |> → half_made pg d l l' s4.
Proof.
  intros [_ Hfr Hs Hh Hk Hst] Ha Heq.
  assert (Hm : k_mem s4 = k_mem s3) by (by rewrite Heq). assert (k_kmem s4 = k_kmem s3) by (by rewrite Heq).
  split; [done | | by apply (space_ease cur s3) | by apply (held_step s3) | by apply (space_kept_mem _ _ s3) |
    by rewrite Hm].
  rewrite Heq at 1. rewrite Hfr. kst_eq; by rewrite Heq, Hfr.
Qed.

Lemma fork_makes pg d T' l l' s3 cs :
  can_fork cur me cwd nd T1 (pg :: l) s → half_made pg d l l' s3 →
  joined (p_containerID me) np (k_conts s) = Some cs →
  space_ok s3 d T' l' → copied_below (p_sz me) s T1 s3 T' →
  (∀ p, p ∈ l' ∨ owns (k_mem s3) d T' p ↔ p ∈ l) →
  ∀ s4, at_ease cur s4 → s4 = s3 <| k_cpu := k_cpu s4 |> <| k_conts := cs |> →
  ∃ r s', inherit cur np (p_containerID me) s4 = Done r s' ∧ parent_same cur me T1 s s' ∧
    child_made cur np me p0 cwd nd T1 (pg :: l) r s s'.
Proof.
  intros Hc [_ Heq Hs Hh Hk Hst] Hj Hsc Hcp Hpg s4 Ha4 Heq4. pose proof (can_fork_other _ Hc) as Hne.
  destruct Hc as [_ Hme _ _ _ _ _ [Hlen Hfs Hcwd Hnd Hr] Hcl _]. pose proof (lookup_lt_Some _ _ _ Hp0) as Hlt.
  destruct (find_idx_Some _ _ _ Hf) as [(q & Hq & Hun) _]. rewrite Hp0 in Hq. injection Hq as <-.
  destruct (inherit_run cur np me (with_copy pg d) (p_containerID me) cwd nd s4) as
    (s' & Hrun & Ha' & Heq' & Hct); try done.
  { rewrite Heq4, Heq. cbn. by rewrite list_lookup_insert_ne. }
  { rewrite Heq4, Heq. cbn. by apply list_lookup_insert_eq. }
  { exact (Hcl np p0 Hp0 Hun). }
  { split; try done; by rewrite Heq4, Heq. }
  exists (nextpid (k_pv s)), s'. split; [exact Hrun |].
  assert (Hm : k_mem s' = k_mem s3) by (by rewrite Heq', Heq4).
  assert (Hkm : k_kmem s' = k_kmem s3) by (by rewrite Heq', Heq4).
  split; [split; [exact Ha' | split; [| split]] |].
  - rewrite Heq', Heq4, Heq. cbn. by rewrite !list_lookup_insert_ne.
  - by apply (space_kept_mem _ _ s3).
  - exists l'. by apply (space_ease cur s3).
  - exists pg, d, T', l', cs. split; [done |]. split; [done |]. split; [| split; [| split; [| split; [| split]]]].
    + rewrite Heq' at 1. rewrite Heq4, Heq. kst_eq; [by rewrite Heq', Heq4, Heq .. |].
      by rewrite list_insert_insert_eq.
    + intros g. rewrite (Hct g), Heq4, Heq. done.
    + by apply (space_ease cur s3).
    + destruct Hcp as [Hc1 Hc2]. split; by rewrite ?Hm.
    + by rewrite Hm.
    + intros p. rewrite Hm, elem_of_cons, <- Hpg. tauto.
Qed.

Lemma fork_full pg d T' l l' s3 s4 :
  can_fork cur me cwd nd T1 (pg :: l) s → half_made pg d l l' s3 →
  space_ok s3 d T' l' → held_page s3 d T' l' pg → (∀ p, p ∈ l' ∨ owns (k_mem s3) d T' p ↔ p ∈ l) →
  at_ease cur s4 → s4 = s3 <| k_cpu := k_cpu s4 |> →
  ∃ s' q, (drop_proc np;; cprintf "Container - FULL  %d \n" [PInt (p_containerID me)];; mret (-2)) s4 =
      Done (-2) s' ∧ parent_same cur me T1 s s' ∧ slot_only np q s s' ∧ p_pgdir q = d ∧
    space_ok s' d T' (pg :: l') ∧ ∀ p, p ∈ pg :: l' ∨ owns (k_mem s') d T' p ↔ p ∈ pg :: l.
Proof.
  intros Hc Hm Hsc Hhc Hpg Ha4 Heq. pose proof (half_made_locked _ _ _ _ _ _ Hm Ha4 Heq) as Hm4.
  destruct (half_dropped (pg :: l) pg d l l' s4 Hc Hm4) as
    (s6 & q6 & Hdrop6 & Hq6 & [Hun6 Heq6] & Hi6 & (Ha6 & Hme6 & Hk6 & l6 & Hs6) & Hlost6).
  rewrite (bind_done _ _ _ _ _ Hdrop6). unfold cprintf. rewrite bind_modify.
  match goal with |- context [mret (-2) ?st] => set (s7 := st) end.
  assert (Ha7 : at_ease cur s7) by (destruct Ha6; by split).
  assert (Hm3 : k_mem s4 = k_mem s3) by (by rewrite Heq).
  assert (Hk3 : k_kmem s4 = k_kmem s3) by (by rewrite Heq).
  destruct (Hlost6 T') as [Hsc6 Ho6]; [by apply (space_ease cur s3) | by apply (held_step s3) |].
  exists s7, q6. split; [done |]. split; [| split; [split; [done |] | split; [done | split]]].
  - split; [done |]. split; [done |]. split; [done |]. exists l6. by apply (space_ease cur s6).
  - unfold s7. rewrite Heq6 at 1. kst_eq.
  - by apply (space_ease cur s6).
  - intros p. change (k_mem s7) with (k_mem s6). rewrite Ho6, !elem_of_cons, <- Hpg, Hm3. tauto.
Qed.
End cases.

Lemma fork_no_slot cur me cwd nd T1 l s :
  can_fork cur me cwd nd T1 l s → find_idx unused (k_procs s) = None →
  ∃ s', fork s = Done (-1) s' ∧ parent_same cur me T1 s s' ∧ s' = s <| k_cpu := k_cpu s' |>.
Proof.
  intros [Ha Hme _ _ Hs _ _ _ _ _] Hf. unfold fork.
  rewrite (curproc_bind cur); [| by apply (at_ease_ok cur) | apply Ha].
  pose proof (at_ease_ksync _ _ Ha) as Ha0. pose proof (at_ease_ksync _ _ Ha0) as Ha1.
  rewrite (bind_done _ _ _ _ _ (allocproc_full (ksync s) (at_ease_ptable _ _ Ha0) Hf)).
  exists (ksync (ksync s)). split; [done |]. split; [| unfold ksync; kst_eq].
  split; [done |]. split; [done |]. split; [by apply space_kept_refl |].
  exists l. by apply (space_ease cur s).
Qed.
Lemma fork_no_page cur me cwd nd T1 s np p0 :
  can_fork cur me cwd nd T1 [] s → find_idx unused (k_procs s) = Some np → k_procs s !! np = Some p0 →
  ∃ s' q, fork s = Done (-1) s' ∧ parent_same cur me T1 s s' ∧ slot_only np q s s' ∧ kmem_inv s' [].
Proof.
  intros Hc Hf Hp. pose proof (can_fork_other cur me cwd nd T1 s np p0 Hf Hp [] Hc) as Hne.
  destruct Hc as [Ha Hme _ Hfor Hs _ _ _ _ _]. unfold fork.
  rewrite (curproc_bind cur); [| by apply (at_ease_ok cur) | apply Ha].
  pose proof (at_ease_ksync _ _ Ha) as Ha0.
  destruct (alloc_none cur np (p_pgdir me) T1 p0 (ksync s)) as (s1 & q & Hrun & Ha1 & Hq & Heq & Hs1); try done;
    [by apply (space_ease cur s) |].
  rewrite (bind_done _ _ _ _ _ Hrun). exists s1, q. split; [done |]. split; [| split; [split |]].
  - split; [done |]. split; [| split; [apply space_kept_refl; by rewrite Heq | by exists []]].
    rewrite Heq. cbn. by rewrite list_lookup_insert_ne.
  - by apply bool_decide_eq_true.
  - rewrite Heq at 1. unfold ksync. kst_eq; by rewrite Heq.
  - apply Hs1.
Qed.

(** C10: what [fork] does.  With no free slot it returns -1 and nothing happened.
    Otherwise it returns -1, the slot is free again and so is every page it took,
    which only happens when the free pages were no more than the caller's and
    1027 more; or -2, when the caller's container is full: the slot is free, but the pages
    of the copied memory are neither free nor in use; or the pid of a child, in
    the first free slot, entered in the caller's container: its memory is a copy
    of the caller's in pages of its own, its registers are the caller's but for
    %eax, it has the caller's open files and current directory, each counted
    once more, its kernel stack makes it return to user mode, it is RUNNABLE,
    and every page is free or the child's.  In all cases the caller goes on with
    its own entry, mapping and bytes untouched. *)
Theorem fork_spec cur me cwd nd T1 l s :
  can_fork cur me cwd nd T1 l s →
  ∃ r s', fork s = Done r s' ∧ parent_same cur me T1 s s' ∧
  match find_idx unused (k_procs s) with
  | None => r = -1 ∧ s' = s <| k_cpu := k_cpu s' |>
  | Some np => ∃ p0, k_procs s !! np = Some p0 ∧
      (r = -1 ∧ (∃ q, slot_only np q s s') ∧ (∃ l', kmem_inv s' l' ∧ ∀ p, p ∈ l' ↔ p ∈ l) ∧
         Z.of_nat (length l) ≤ 1027 + p_sz me / PGSIZE ∨
       r = -2 ∧ joined (p_containerID me) np (k_conts s) = None ∧
         (∃ q d T' l', slot_only np q s s' ∧ p_pgdir q = d ∧ space_ok s' d T' l' ∧
            ∀ p, p ∈ l' ∨ owns (k_mem s') d T' p ↔ p ∈ l) ∨
       child_made cur np me p0 cwd nd T1 l r s s')
  end.
Proof.
  intros Hc. destruct (find_idx unused (k_procs s)) as [np |] eqn:Hf.
  2: { destruct (fork_no_slot _ _ _ _ _ _ _ Hc Hf) as (s' & ? & ? & ?). by exists (-1), s'. }
  destruct (find_idx_Some _ _ _ Hf) as [(p0 & Hp & _) _]. destruct l as [| pg l].
  { destruct (fork_no_page _ _ _ _ _ _ np p0 Hc Hf Hp) as (s' & q & ? & ? & ? & ?). exists (-1), s'.
    split; [done |]. split; [done |]. exists p0. split; [done |]. left. split; [done |].
    split; [by exists q | split; [by exists [] |]]. destruct Hc as [_ _ _ _ _ [? _] _ _ _ _].
    cbn. unfold PGSIZE. zlia. }
  destruct (fork_copies cur me cwd nd T1 s np p0 Hf Hp pg l Hc) as (d & s3 & T' & l' & Hm & -> & Hr).
  pose proof (half_dropped cur me cwd nd T1 s np p0 Hf Hp (pg :: l) pg d l l' s3 Hc Hm) as
    (s5 & q0 & Hdrop & Hq & Hslot & Hi & Hpar & Hlost).
  destruct Hr as [(Hnz & Hsc & Hhc & Hcp & Hpg) | (-> & Hpg & Hfew)].
  2: { cbn [Z.eqb]. rewrite (bind_done _ _ _ _ _ Hdrop). exists (-1), s5. split; [done |].
       split; [done |]. exists p0. split; [done |]. left. split; [done |]. split; [by exists q0 |].
       split; [| cbn [length]; lia].
       exists (pg :: l'). split; [done |]. intros p. by rewrite !elem_of_cons, Hpg. }
  rewrite (proj2 (Z.eqb_neq _ _) Hnz).
  assert (Hcs : k_conts s3 = k_conts s) by (destruct Hm as [_ -> _ _ _ _]; done).
  destruct (join_run cur np (p_containerID me) s3) as (s4 & Hrun & Ha4 & Heq4).
  { apply Hm. }
  { rewrite Hcs. apply Hc. }
  rewrite (bind_done _ _ _ _ _ Hrun). rewrite Hcs in Heq4 |- *.
  destruct (joined (p_containerID me) np (k_conts s)) as [cs |] eqn:Hj; cbn [default from_option id] in *.
  - rewrite bool_decide_true by done. cbn [negb].
    destruct (fork_makes cur me cwd nd T1 s np p0 Hf Hp pg d T' l l' s3 cs Hc Hm Hj Hsc Hcp Hpg s4 Ha4 Heq4) as
      (r & s' & ? & ? & ?). exists r, s'. split; [done |]. split; [done |]. exists p0. split; [done |]. by right; right.
  - rewrite bool_decide_false by (by intros [? ?]). cbn [negb].
    assert (Heq : s4 = s3 <| k_cpu := k_cpu s4 |>) by (rewrite Heq4 at 1; kst_eq; by rewrite Hcs).
    destruct (fork_full cur me cwd nd T1 s np p0 Hf Hp pg d T' l l' s3 s4 Hc Hm Hsc Hhc Hpg Ha4 Heq) as
      (s' & q & -> & ? & ? & ? & ? & ?). exists (-2), s'. split; [done |]. split; [done |].
    exists p0. split; [done |]. right; left. split; [done |]. split; [done |]. by exists q, d, T', (pg :: l').
Qed.
End forking.

(** ** Witness: a process with one page and one open file, and 1100 free pages *)

Definition page_no (k : nat) : Z := KERNBASE + 0x300000 + PGSIZE * Z.of_nat k.
Fixpoint chained (n : nat) : list Z :=
  match n with O => [] | S n => page_no n :: chained n end.
Fixpoint chain (n : nat) (m : mem) : mem :=
  match n with O => m | S n => store32 (chain n m) (page_no n) (hd 0 (chained n)) end.

Lemma elem_of_chained n p : p ∈ chained n → ∃ k, (k < n)%nat ∧ p = page_no k.
Proof.
  induction n as [| n IH]; cbn [chained]; [by intros ?%elem_of_nil |].
  intros [-> | (k & ? & ->)%IH]%elem_of_cons; [exists n | exists k]; (split; [lia | done]).
Qed.
Lemma length_chained n : length (chained n) = n.
Proof. induction n; cbn; by f_equal. Qed.
Section chain.
#[local] Existing Instance linker_2M.
Lemma page_no_valid k : (k < 2000)%nat → valid_page (page_no k).
Proof.
  intros Hk. unfold page_no, valid_page, is_u32, page_aligned, V2P, KERNBASE, PGSIZE, PHYSTOP. cbn [kend linker_2M].
  unfold KERNBASE. rewrite u32_id by (unfold is_u32; lia). split; [lia |]. split; [zlia |]. lia.
Qed.
Lemma chained_valid n : (n ≤ 2000)%nat → Forall valid_page (chained n).
Proof.
  intros Hn. apply Forall_forall. intros p (k & Hk & ->)%elem_of_chained. apply page_no_valid. lia.
Qed.
Lemma chained_nodup n : NoDup (chained n).
Proof.
  induction n as [| n IH]; cbn [chained]; constructor; [| done].
  intros (k & Hk & Heq)%elem_of_chained. unfold page_no, PGSIZE in Heq. lia.
Qed.
Lemma chain_list n m : (n ≤ 2000)%nat → free_list (chain n m) (hd 0 (chained n)) (chained n).
Proof.
  induction n as [| n IH]; intros Hn; [done |]. cbn [chain chained hd]. split; [done |].
  rewrite load32_store32_eq. rewrite u32_id.
  - pose proof (chained_nodup (S n)) as [Hnin _]%NoDup_cons.
    apply (free_list_outside (page_no n) (chain n m)); [apply page_no_valid; lia | apply chained_valid; lia | done | |
      apply IH; lia].
    intros b Hb. apply load8_store32_ne. unfold PGSIZE in Hb. lia.
  - destruct n as [| n]; [done |]. cbn [chained hd]. apply page_no_valid. lia.
Qed.
Lemma chain_frame n m : same_but (λ p, p ∈ chained n) m (chain n m).
Proof.
  induction n as [| n IH]; cbn [chain chained]; [by intros ? |]. intros x Hx.
  rewrite load8_store32_ne; [apply IH; intros p Hp; apply Hx; by right |].
  specialize (Hx (page_no n) ltac:(left)). unfold PGSIZE in Hx. lia.
Qed.
End chain.

Definition shell1 : proc :=
  proc0 <| p_state := RUNNING |> <| p_pid := 1 |> <| p_pgdir := dir_2M |> <| p_sz := PGSIZE |>
        <| p_tf := tf0 <| tf_eip := 0x42 |> <| tf_eax := 1 |> |>
        <| p_ofile ::= <[0%nat := Some 0%nat]> |> <| p_cwd := Some 0%nat |>.
Definition roomy (n : nat) : kst :=
  running <| k_mem := chain n (user_mem 0) |> <| k_kmem ::= λ k, k <| freelist := hd 0 (chained n) |> |>
          <| k_procs ::= <[0%nat := shell1]> |> <| k_pv ::= λ v, v <| nextpid := 2 |> |>
          <| k_files ::= <[0%nat := file0 <| f_ref := 1 |>]> |>
          <| k_icache ::= <[0%nat := inode0 <| i_ref := 1 |>]> |>.
Section roomy.
#[local] Existing Instance linker_2M.
Lemma chained_apart n p :
  (n ≤ 2000)%nat → p ∈ chained n → page_aligned p ∧ KERNBASE + 0x300000 ≤ p ∧ ¬ pt_owns dir_2M user_T p.
Proof.
  intros Hn (k & Hk & ->)%elem_of_chained. split; [apply page_no_valid; lia |].
  assert (KERNBASE + 0x300000 ≤ page_no k) as Hge by (unfold page_no, PGSIZE; lia). split; [done |].
  revert Hge. generalize (page_no k). intros p Hge [-> | [i [_ ->]%user_T_Some]]; by vm_compute in Hge.
Qed.
Lemma roomy_space n : (n ≤ 2000)%nat → space_ok (roomy n) dir_2M user_T (chained n).
Proof.
  intros Hn. pose proof (user_space_ok 0 ltac:(lia)) as Hs.
  destruct (space_frame (λ p, p ∈ chained n) _ dir_2M user_T [] (chain n (user_mem 0)) Hs) as [Hs' Hpte].
  { intros p Hp. destruct (chained_apart n p Hn Hp) as (? & _ & ?). split; [done |].
    split; [done | by intros ?%elem_of_nil]. }
  { apply chain_frame. }
  destruct Hs' as [[_ _ Hpt _] Hpg Hinj]. split; [split | |].
  - split; [by apply chain_list | apply chained_nodup | by apply chained_valid].
  - split; [split; [done | done] | by intros ?%elem_of_nil].
  - exact Hpt.
  - intros p Hp (_ & _ & [])%chained_apart; done.
  - intros p Hp. destruct (Hpg p Hp) as (? & ? & _). split; [done |]. split; [done |]. intros (_ & Hin & _)%chained_apart; [| done].
    destruct Hp as (x & Hx & Hxp & ->). change (k_mem (roomy n)) with (chain n (user_mem 0)) in *.
    rewrite Hpte in Hin, Hxp. change (k_mem _) with (user_mem 0) in Hin, Hxp.
    rewrite user_mem_pte in Hin, Hxp by (lia || by apply user_addr_u32). case_decide; [| done].
    by vm_compute in Hin.
  - exact Hinj.
Qed.
Lemma roomy_pte n x : (n ≤ 2000)%nat → pte_of (chain n (user_mem 0)) user_T x = pte_of (user_mem 0) user_T x.
Proof.
  intros Hn. destruct (user_space_ok 0 ltac:(lia)) as [[_ _ Hpt0 _] _ _].
  destruct (pt_frame (λ p, p ∈ chained n) (user_mem 0) (chain n (user_mem 0)) dir_2M user_T) as [_ Hpte];
    [done | | apply chain_frame | done].
  intros p (? & _ & ?)%chained_apart; done.
Qed.
Lemma roomy_byte n a :
  (n ≤ 2000)%nat → a < KERNBASE + 0x300000 → load8 (chain n (user_mem 0)) a = load8 (user_mem 0) a.
Proof.
  intros Hn Ha. apply chain_frame. intros p (_ & Hp & _)%chained_apart Hin; [lia | done].
Qed.
Lemma roomy_can_fork n :
  (n ≤ 2000)%nat → can_fork 0 shell1 0 (inode0 <| i_ref := 1 |>) user_T (chained n) (roomy n).
Proof.
  intros Hn. split; try done.
  - by apply roomy_space.
  - intros x Hux [Hx0 Hin]. change (k_mem (roomy n)) with (chain n (user_mem 0)). rewrite roomy_pte by done.
    rewrite user_mem_pte by (lia || by apply user_addr_u32).
    rewrite decide_True by (change (p_sz shell1) with PGSIZE in Hin; unfold PGSIZE in *; zlia). reflexivity.
  - split; try done. intros f Hf. exists (file0 <| f_ref := 1 |>).
    assert (f = 0%nat) as ->; [| by repeat split].
    change (Some f ∈ Some 0%nat :: replicate 15 None) in Hf.
    apply elem_of_cons in Hf as [Hf | Hf]; [congruence | by apply elem_of_replicate in Hf as [? _]].
  - intros [| i] q Hq Hun; [by injection Hq as <- |].
    assert (q = proc0) as ->; [| done]. change (replicate (NPROC - 1) proc0 !! i = Some q) in Hq.
    by apply lookup_replicate in Hq as [-> _].
  - by left.
Qed.
End roomy.
Lemma fork_spec_witness :
  ∃ s' child T', @fork linker_2M (@fileops linker_2M (1%nat : Fuel) (memide (MD := 1000)) no_devices)
      (roomy 1100) = Done 2 s' ∧
    k_procs s' !! 1%nat = Some child ∧ p_state child = RUNNABLE ∧ p_parent child = Some 0%nat ∧
    tf_eax (p_tf child) = 0 ∧ tf_eip (p_tf child) = 0x42 ∧ p_ofile child !! 0%nat = Some (Some 0%nat) ∧
    f_ref <$> k_files s' !! 0%nat = Some 2 ∧
    load8 (k_mem s') (phys (k_mem s') T' 0x123) = load8 (user_mem 0) (phys (user_mem 0) user_T 0x123).
Proof.
  destruct (@fork_spec linker_2M linker_2M_ok (@fileops linker_2M (1%nat : Fuel) (memide (MD := 1000)) no_devices)
    fileops_ok _ _ _ _ _ _ _ (roomy_can_fork 1100 ltac:(lia))) as (r & s' & Hrun & _ & Hr).
  change (find_idx unused (k_procs (roomy 1100))) with (Some 1%nat) in Hr. cbv iota in Hr.
  destruct Hr as (p0 & _ & [(_ & _ & _ & Hfew) | [(_ & Hj & _) | Hmade]]).
  - exfalso. clear -Hfew. rewrite length_chained in Hfew. vm_compute in Hfew. done.
  - done.
  - destruct Hmade as (ks & d & T' & l' & cs & -> & _ & Heq & Hct & _ & Hcp & _).
    exists s', (@forked linker_2M 0 shell1 p0 2 ks d), T'. split; [exact Hrun |].
    split; [rewrite Heq; reflexivity |]. do 5 (split; [reflexivity |]). split.
    + rewrite (Hct 0%nat). reflexivity.
    + destruct Hcp as [Hcp _]. destruct (Hcp 0x123) as [_ ->]; [split; vm_compute; done .. |].
      change (k_mem (roomy 1100)) with (chain 1100 (user_mem 0)). unfold phys. rewrite roomy_pte by lia.
      apply roomy_byte; [lia | vm_compute; done].
Defined.
