(* ===== verification/Args.v ===== *)
(** * syscall.c: fetching system call arguments

    Arguments are on the user stack; every function checks the addresses it
    uses against the size of the process. *)
From S2P Require Import Prelude Mmu Cstring Kstate Spinlock Kalloc Vm Proc.

Section args.
Context {LK : Linker}.

(** The current process. *)
Definition this_proc : K proc :=
  op ← myproc; i ← deref "myproc() == 0" op; get_proc i.

(** [None]: the C function returns -1. *)
Definition fetchint (addr : Z) : K (option Z) :=
  p ← this_proc;
  if ((addr >=? p_sz p) || (u32 (addr + 4) >? p_sz p))%Z%bool then mret None else
  v ← ldw addr; mret (Some (i32 v)).

(** The bytes of the string at [s], up to the NUL; [n] addresses are left
    before the end of the process. *)
Fixpoint fetchstr_loop (n : nat) (s : Z) : K (option (list Z)) :=
  match n with
  | O => mret None
  | S n =>
      b ← ldb s;
      if b =? 0 then mret (Some [])
      else r ← fetchstr_loop n (s + 1); mret (cons b <$> r)
  end.
(** A string is its address and its bytes (the user cannot change them while
    the kernel runs on its behalf). *)
Definition fetchstr (addr : Z) : K (option (Z * list Z)) :=
  p ← this_proc;
  if addr >=? p_sz p then mret None else
  r ← fetchstr_loop (Z.to_nat (p_sz p - addr)) addr;
  mret (pair addr <$> r).

Definition argint (n : Z) : K (option Z) :=
  p ← this_proc;
  fetchint (u32 (u32 (tf_esp (p_tf p) + 4) + 4 * n)).

Definition argptr (n size : Z) : K (option Z) :=
  p ← this_proc;
  oi ← argint n;
  match oi with
  | None => mret None
  | Some i =>
      if ((size <? 0) || (u32 i >=? p_sz p) || (u32 (u32 i + size) >? p_sz p))%Z%bool
      then mret None else mret (Some (u32 i))
  end.

Definition argstr (n : Z) : K (option (Z * list Z)) :=
  oaddr ← argint n;
  match oaddr with
  | None => mret None
  | Some addr => fetchstr (u32 addr)
  end.

Definition argintar (n size : Z) : K (option Z) := argptr n size.
End args.

(** ** What a system call can make the kernel touch *)
Section args_spec.
Context {LK : Linker}.

(** [p] is the running process. *)
Record current (s : kst) (i : nat) (p : proc) : Prop := {
  cu_cpu : cpu_ok (k_cpu s);
  cu_proc : c_proc (k_cpu s) = Some i;
  cu_entry : k_procs s !! i = Some p }.

Lemma current_ksync s i p : current s i p → current (ksync s) i p.
Proof. intros [? ? ?]. split; [by apply sync_cpu_ok | done | done]. Qed.

Lemma this_proc_bind {B} (f : proc → K B) s i p :
  current s i p → (this_proc ≫= f) s = f p (ksync s).
Proof.
  intros [Hc Hi Hp]. apply bind_done. unfold this_proc. rewrite myproc_bind, Hi by done.
  cbn [deref]. rewrite bind_ret. by apply get_proc_run.
Qed.

Lemma ksync_idem s : ksync (ksync s) = ksync s.
Proof. unfold ksync. kst_eq. apply sync_cpu_idem. Qed.

Lemma fetchint_outside addr s i p :
  current s i p → is_u32 addr → 0 ≤ p_sz p ≤ KERNBASE → p_sz p < addr + 4 →
  fetchint addr s = Done None (ksync s).
Proof.
  intros Hcur Ha Hsz Hout. unfold fetchint. rewrite (this_proc_bind _ _ i p Hcur).
  destruct (_ || _)%bool eqn:Hb; [done |].
  apply orb_false_iff in Hb as [H1 H2]. unfold KERNBASE, is_u32 in *.
  rewrite Z.geb_leb, Z.leb_gt in H1. rewrite Z.gtb_ltb, Z.ltb_ge in H2.
  rewrite u32_id in H2 by (unfold is_u32; lia). lia.
Qed.

Lemma fetchint_inside fp addr ph s i p :
  current s i p → is_u32 addr → 0 ≤ p_sz p ≤ KERNBASE → addr + 4 ≤ p_sz p →
  mapped s false addr 4 ph fp →
  fetchint addr s =
    Done (Some (i32 (word_of ((λ k, load8 (k_mem s) (ph k)) <$> seq 0 4)))) (ksync s).
Proof.
  intros Hcur Ha Hsz Hin Hm. unfold fetchint. rewrite (this_proc_bind _ _ i p Hcur).
  unfold KERNBASE, is_u32 in *.
  destruct (_ || _)%bool eqn:Hb.
  - rewrite u32_id in Hb by (unfold is_u32; lia).
    rewrite Z.geb_leb, Z.gtb_ltb in Hb. apply orb_true_iff in Hb as [Hb | Hb]; lia.
  - unfold ldw. rewrite bind_assoc.
    rewrite (bind_done _ _ _ _ _ (ld_bytes_run fp 4 addr ph (ksync s) Ha
      ltac:(by apply (mapped_mem s)))). done.
Qed.

Lemma fetchstr_loop_inv n : ∀ a s l s',
  fetchstr_loop n a s = Done (Some l) s' →
  (length l < n)%nat ∧ Forall (λ b, b ≠ 0) l.
Proof.
  induction n as [| n IH]; intros a s l s' H; cbn [fetchstr_loop] in H; [done |].
  apply bind_inv_done in H as (b & s1 & Hb & H).
  destruct (Z.eqb_spec b 0) as [| Hb0].
  - unfold mret, M_ret in H. simplify_eq. split; [cbn; lia | done].
  - apply bind_inv_done in H as (r & s2 & Hr & H). unfold mret, M_ret in H.
    destruct r as [r |]; cbn in H; simplify_eq.
    destruct (IH _ _ _ _ Hr) as [Hlen Hnz]. split; [cbn; lia | by constructor].
Qed.

Lemma argint_current n s v s' i p :
  current s i p → argint n s = Done (Some v) s' → current s' i p.
Proof.
  intros Hcur H. unfold argint in H. rewrite (this_proc_bind _ _ i p Hcur) in H.
  unfold fetchint in H. rewrite (this_proc_bind _ _ i p) in H by by apply current_ksync.
  destruct (_ || _)%bool in H; [done |].
  apply bind_inv_done in H as (w & s2 & ->%ldw_inv & H). unfold mret, M_ret in H. simplify_eq.
  by apply current_ksync, current_ksync.
Qed.

(** C34: the kernel only follows user pointers that stay inside the process:
    an integer it fetches, a buffer of [size] bytes it is given and a string,
    its NUL included, lie between 0 and the size of the calling process, for
    every argument (sums that overflow 32 bits included); what it accepts as a
    string has no NUL before its end. *)
Theorem args_confined s i p :
  current s i p → 0 ≤ p_sz p ≤ KERNBASE →
  (∀ addr v s', is_u32 addr → fetchint addr s = Done (Some v) s' →
     0 ≤ addr ∧ addr + 4 ≤ p_sz p) ∧
  (∀ n size a s', is_i32 size → argptr n size s = Done (Some a) s' →
     0 ≤ size ∧ 0 ≤ a ∧ a + size ≤ p_sz p) ∧
  (∀ n a l s', argstr n s = Done (Some (a, l)) s' →
     0 ≤ a ∧ a + Z.of_nat (length l) + 1 ≤ p_sz p ∧ Forall (λ b, b ≠ 0) l).
Proof.
  intros Hcur Hsz. split_and!.
  - intros addr v s' Ha H. split; [apply Ha |].
    destruct (decide (addr + 4 ≤ p_sz p)); [done |].
    rewrite (fetchint_outside _ _ i p) in H by (done || lia). done.
  - intros n size a s' Hs H. unfold argptr in H. rewrite (this_proc_bind _ _ i p Hcur) in H.
    apply bind_inv_done in H as ([v |] & s1 & _ & H); [| done].
    destruct (_ || _)%bool eqn:Hb in H; [done |]. unfold mret, M_ret in H. simplify_eq.
    apply orb_false_iff in Hb as [Hb1 Hb2]. apply orb_false_iff in Hb1 as [Hb0 Hb1].
    rewrite Z.geb_leb in Hb1. rewrite Z.gtb_ltb in Hb2.
    pose proof (u32_range v) as Hv. unfold KERNBASE, is_u32, is_i32 in *.
    rewrite (u32_id (u32 v + size)) in Hb2 by (unfold is_u32; lia). lia.
  - intros n a l s' H. unfold argstr in H.
    apply bind_inv_done in H as ([v |] & s1 & Ha & H); [| done].
    assert (Hcur1 : current s1 i p) by (by apply (argint_current n s v)).
    unfold fetchstr in H. rewrite (this_proc_bind _ _ i p Hcur1) in H.
    destruct (Z.geb_spec (u32 v) (p_sz p)) as [| Hlt]; [done |].
    apply bind_inv_done in H as ([r |] & s2 & Hr & H);
      unfold mret, M_ret in H; cbn in H; simplify_eq.
    apply fetchstr_loop_inv in Hr as [Hlen Hnz].
    pose proof (u32_range v) as Hv. unfold is_u32 in Hv. split_and!; [lia | lia | done].
Qed.
End args_spec.

(** ** A process with one page of user memory

    Page directory, page table and page are at 4 MB, 4 MB + 4096 and
    4 MB + 8192; [l] is what the page holds from address 0. *)
Definition user_base : Z := KERNBASE + 0x402000.
Definition user_mem (l : list Z) : mem :=
  store_all (store32 (store32 ∅ (KERNBASE + 0x400000) (0x401000 + 7))
    (KERNBASE + 0x401000) (0x402000 + 7)) (λ i, user_base + Z.of_nat i) l.
Definition user_state (l : list Z) (p : proc) : kst :=
  running <| k_mem := user_mem l |> <| k_cpu ::= λ c, c <| cr3 := 0x400000 |> |>
    <| k_procs := [p <| p_sz := 4096 |> <| p_pgdir := KERNBASE + 0x400000 |>] |>.

(** A process whose stack pointer is 0: behind the return address it has the
    arguments 12 and 4094, and at 12 the string "hi". *)
Definition two_args : kst :=
  user_state (word_bytes 0 ++ word_bytes 12 ++ word_bytes 4094 ++ [104; 105; 0])
    (proc0 <| p_state := RUNNING |> <| p_pid := 1 |> <| p_tf := tf0 |>).
(** What is accepted lies inside; four bytes at 4094 do not, and are refused, as
    an integer and as a buffer. *)
Lemma args_confined_witness :
  (∃ s', fetchint 8 two_args = Done (Some 4094) s' ∧ 8 + 4 ≤ 4096) ∧
  (∃ s', argptr 0 4 two_args = Done (Some 12) s' ∧ 12 + 4 ≤ 4096) ∧
  (∃ s', argstr 0 two_args = Done (Some (12, [104; 105])) s' ∧ 12 + 2 + 1 ≤ 4096) ∧
  (∃ s', fetchint 4094 two_args = Done None s') ∧ (∃ s', argptr 1 4 two_args = Done None s').
Proof.
  destruct (args_confined two_args 0 (proc0 <| p_state := RUNNING |> <| p_pid := 1 |> <| p_tf := tf0 |>
    <| p_sz := 4096 |> <| p_pgdir := KERNBASE + 0x400000 |>)) as (Hint & Hptr & Hstr).
  - split; [by split | reflexivity | reflexivity].
  - cbn. unfold KERNBASE. lia.
  - cbn [p_sz set set_p_sz] in Hint, Hptr, Hstr.
    assert (∃ s', fetchint 8 two_args = Done (Some 4094) s') as [s1 H1] by (eexists; vm_compute; reflexivity).
    assert (∃ s', argptr 0 4 two_args = Done (Some 12) s') as [s2 H2] by (eexists; vm_compute; reflexivity).
    assert (∃ s', argstr 0 two_args = Done (Some (12, [104; 105])) s') as [s3 H3] by (eexists; vm_compute; reflexivity).
    split_and!.
    + exists s1. split; [exact H1 |]. apply (Hint 8 4094 s1); [unfold is_u32; lia | exact H1].
    + exists s2. split; [exact H2 |]. apply (Hptr 0 4 12 s2); [unfold is_i32; lia | exact H2].
    + exists s3. split; [exact H3 |]. apply (Hstr 0 12 [104; 105] s3 H3).
    + eexists. vm_compute. reflexivity.
    + eexists. vm_compute. reflexivity.
Defined.
