(* ===== verification/Exec.v ===== *)
(** * exec.c: replacing the program of a process *)
From S2P Require Import Prelude Mmu Cstring Kstate Spinlock Kalloc Vm Proc Fork Sleeplock Bio Log Fs File.

(** elf.h *)
Definition ELF_MAGIC : Z := 0x464C457F.
Definition ELF_PROG_LOAD : Z := 1.
Definition sizeof_elfhdr : Z := 52.
Definition sizeof_proghdr : Z := 32.
Record elfhdr := mkElf { e_magic : Z; e_entry : Z; e_phoff : Z; e_phnum : Z }.
Definition elf_decode (l : list Z) : elfhdr :=
  mkElf (blk_word l 0) (blk_word l 24) (blk_word l 28) (word_of (take 2 (drop 44 l))).
Record proghdr := mkPh {
  ph_type : Z; ph_off : Z; ph_vaddr : Z; ph_filesz : Z; ph_memsz : Z }.
Definition ph_decode (l : list Z) : proghdr :=
  mkPh (blk_word l 0) (blk_word l 4) (blk_word l 8) (blk_word l 16) (blk_word l 20).

Section exec.
Context {LK : Linker} {FU : Fuel} {BD : BlockDev} {DS : DevSw}.

Definition exec_readi (ip : nat) (dst off n : Z) : K Z :=
  r ← readi ip (AtAddr dst) off n; mret (fst r).

(** The loop over the program headers; the new size, [None] for [goto bad]. *)
Fixpoint exec_load (n : nat) (ip : nat) (pgdir off sz : Z) : K (option Z) :=
  match n with
  | O => mret (Some sz)
  | S n =>
      '(r, l) ← readi ip ToLocal (u32 off) sizeof_proghdr;
      if negb (r =? sizeof_proghdr) then mret None else
      let ph := ph_decode l in
      let off := i32 (off + sizeof_proghdr) in
      if negb (ph_type ph =? ELF_PROG_LOAD) then exec_load n ip pgdir off sz else
      if ph_memsz ph <? ph_filesz ph then mret None else
      if u32 (ph_vaddr ph + ph_memsz ph) <? ph_vaddr ph then mret None else
      sz ← allocuvm pgdir sz (u32 (ph_vaddr ph + ph_memsz ph));
      if sz =? 0 then mret None else
      if negb (ph_vaddr ph mod PGSIZE =? 0) then mret None else
      r ← loaduvm exec_readi pgdir (ph_vaddr ph) ip (ph_off ph) (ph_filesz ph);
      if r <? 0 then mret None else exec_load n ip pgdir off sz
  end.

(** Push the argument strings; the stack pointer and the addresses pushed. *)
Fixpoint exec_args (argv : list (Z * list Z)) (argc : nat) (pgdir sp : Z)
    (ustack : list Z) : K (option (Z * list Z)) :=
  match argv with
  | [] => mret (Some (sp, ustack))
  | (a, s) :: argv =>
      if Nat.leb MAXARG argc then mret None else
      let len := Z.of_nat (length s) + 1 in
      let sp := Z.land (u32 (sp - len)) (u32 (Z.lnot 3)) in
      r ← copyout pgdir sp (FromAddr a) len;
      if r <? 0 then mret None else
      exec_args argv (S argc) pgdir sp (ustack ++ [sp])
  end.

(** The part of [path] after its last slash. *)
Definition last_elem (path : list Z) : list Z :=
  foldl (λ acc c, if c =? slash then [] else acc ++ [c]) [] path.

(** Everything between a mapped page directory and the new image:
    [None] for [goto bad] with [ip == 0]. *)
Definition exec_stack (pgdir sz : Z) (argv : list (Z * list Z)) : K (option (Z * Z)) :=
  let sz := PGROUNDUP sz in
  sz ← allocuvm pgdir sz (u32 (sz + 2 * PGSIZE));
  if sz =? 0 then mret None else
  clearpteu pgdir (u32 (sz - 2 * PGSIZE));;
  r ← exec_args argv 0 pgdir sz [];
  match r with
  | None => mret None
  | Some (sp, addrs) =>
      let argc := Z.of_nat (length addrs) in
      let ustack := [0xffffffff; argc; u32 (sp - (argc + 1) * 4)] ++ addrs ++ [0] in
      let sp := u32 (sp - (3 + argc + 1) * 4) in
      r ← copyout pgdir sp (FromLocal (concat (word_bytes <$> ustack)))
            ((3 + argc + 1) * 4);
      if r <? 0 then mret None else mret (Some (sz, sp))
  end.

Definition exec_bad (pgdir : Z) (oip : option nat) : K Z :=
  mwhen (negb (pgdir =? 0)) (freevm pgdir);;
  match oip with Some ip => iunlockput ip;; end_op | None => mret tt end;;
  mret (-1).

Definition exec_commit (cur : nat) (path : list Z) (pgdir sz sp entry : Z) : K Z :=
  upd_proc cur (λ p, p <| p_name ::= λ n, safestrcpy_into n (last_elem path) 16 |>);;
  p ← get_proc cur;
  let oldpgdir := p_pgdir p in
  upd_proc cur (λ p, p <| p_pgdir := pgdir |>);;
  upd_proc cur (λ p, p <| p_sz := sz |>);;
  upd_proc cur (λ p, p <| p_tf ::= λ t, t <| tf_eip := entry |> |>);;
  upd_proc cur (λ p, p <| p_tf ::= λ t, t <| tf_esp := sp |> |>);;
  switchuvm (Some cur);;
  freevm oldpgdir;;
  mret 0.

(** [argv]: the strings before the null pointer, with their addresses. *)
Definition exec (path : list Z) (argv : list (Z * list Z)) : K Z :=
  cur ← curproc;
  begin_op;;
  oip ← namei path;
  match oip with
  | None => end_op;; cprintf "exec: fail\n" [];; mret (-1)
  | Some ip =>
      ilock ip;;
      '(r, l) ← readi ip ToLocal 0 sizeof_elfhdr;
      if negb (r =? sizeof_elfhdr) then exec_bad 0 (Some ip) else
      let elf := elf_decode l in
      if negb (e_magic elf =? ELF_MAGIC) then exec_bad 0 (Some ip) else
      pgdir ← setupkvm;
      if pgdir =? 0 then exec_bad 0 (Some ip) else
      osz ← exec_load (Z.to_nat (e_phnum elf)) ip pgdir (i32 (e_phoff elf)) 0;
      match osz with
      | None => exec_bad pgdir (Some ip)
      | Some sz =>
          iunlockput ip;;
          end_op;;
          r ← exec_stack pgdir sz argv;
          match r with
          | None => exec_bad pgdir None
          | Some (sz, sp) => exec_commit cur path pgdir sz sp (e_entry elf)
          end
      end
  end.
End exec.
