(* ===== verification/Sysfile.v ===== *)
(** * sysfile.c: the file system calls

    Every [sys_] function returns what ends up in the caller's %eax. *)
From S2P Require Import Prelude Mmu Cstring Kstate Spinlock Kalloc Vm Proc Fork Sleeplock Bio Log Fs Pipe File Args Exec.

Definition O_RDONLY : Z := 0x000.
Definition O_WRONLY : Z := 0x001.
Definition O_RDWR : Z := 0x002.
Definition O_CREATE : Z := 0x200.

Section sysfile.
Context {LK : Linker} {FU : Fuel} {BD : BlockDev} {DS : DevSw}.

Definition argfd (n : Z) : K (option (Z * nat)) :=
  ofd ← argint n;
  match ofd with
  | None => mret None
  | Some fd =>
      if ((fd <? 0) || (fd >=? Z.of_nat NOFILE))%Z%bool then mret None else
      p ← this_proc;
      f ← at_ "ofile[fd]" (p_ofile p) fd;
      mret (pair fd <$> f)
  end.

Definition fdalloc (f : nat) : K Z :=
  cur ← curproc;
  p ← get_proc cur;
  match find_idx (λ o, bool_decide (o = None)) (p_ofile p) with
  | Some fd => upd_proc cur (λ p, p <| p_ofile ::= <[fd := Some f]> |>);; mret (Z.of_nat fd)
  | None => mret (-1)
  end.

Definition sys_dup : K Z :=
  a ← argfd 0;
  match a with
  | None => mret (-1)
  | Some (_, f) =>
      fd ← fdalloc f;
      if fd <? 0 then mret (-1) else filedup f;; mret fd
  end.

(** The arguments of read and write. *)
Definition rw_args : K (option (nat * Z * Z)) :=
  a ← argfd 0;
  match a with
  | None => mret None
  | Some (_, f) =>
      on ← argint 2;
      match on with
      | None => mret None
      | Some n => op ← argptr 1 n; mret ((λ p, (f, p, n)) <$> op)
      end
  end.
Definition sys_read : K Z :=
  a ← rw_args;
  match a with None => mret (-1) | Some (f, p, n) => fileread f p n end.
Definition sys_write : K Z :=
  a ← rw_args;
  match a with None => mret (-1) | Some (f, p, n) => filewrite f p n end.

Definition sys_close : K Z :=
  a ← argfd 0;
  match a with
  | None => mret (-1)
  | Some (fd, f) =>
      cur ← curproc;
      upd_proc cur (λ p, p <| p_ofile ::= <[Z.to_nat fd := None]> |>);;
      fileclose f;;
      mret 0
  end.

Definition sys_fstat : K Z :=
  a ← argfd 0;
  match a with
  | None => mret (-1)
  | Some (_, f) =>
      ost ← argptr 1 sizeof_stat;
      match ost with None => mret (-1) | Some st => filestat f st end
  end.

Definition sys_link_bad (ip : nat) : K Z :=
  ilock ip;;
  upd_inode ip (λ x, x <| i_nlink ::= λ n, i16 (n - 1) |>);;
  iupdate ip;;
  iunlockput ip;;
  end_op;;
  mret (-1).
Definition do_link (old new : list Z) : K Z :=
  begin_op;;
  oip ← namei old;
  match oip with
  | None => end_op;; mret (-1)
  | Some ip =>
      ilock ip;;
      x ← get_inode ip;
      if i_type x =? T_DIR then iunlockput ip;; end_op;; mret (-1) else
      upd_inode ip (λ x, x <| i_nlink ::= λ n, i16 (n + 1) |>);;
      iupdate ip;;
      iunlock ip;;
      odp ← nameiparent new;
      match odp with
      | None => sys_link_bad ip
      | Some (dp, name) =>
          ilock dp;;
          d ← get_inode dp;
          x ← get_inode ip;
          r ← (if negb (i_dev d =? i_dev x) then mret (-1) else dirlink dp name (i_inum x));
          if r <? 0 then iunlockput dp;; sys_link_bad ip else
          iunlockput dp;;
          iput ip;;
          end_op;;
          mret 0
      end
  end.
Definition sys_link : K Z :=
  oold ← argstr 0;
  match oold with
  | None => mret (-1)
  | Some (_, old) =>
      onew ← argstr 1;
      match onew with None => mret (-1) | Some (_, new) => do_link old new end
  end.

Fixpoint isdirempty_loop (fuel : nat) (dp : nat) (off : Z) : K bool :=
  match fuel with
  | O => fault "isdirempty: out of fuel"
  | S fuel =>
      ip ← get_inode dp;
      if off <? i_size ip then
        de ← read_dirent "isdirempty: readi" dp off;
        if negb (de_inum de =? 0) then mret false else isdirempty_loop fuel dp (off + 16)
      else mret true
  end.
Definition isdirempty (dp : nat) : K bool :=
  ip ← get_inode dp; isdirempty_loop (S (S (Z.to_nat (i_size ip / 16)))) dp 32.

Definition sys_unlink_bad (dp : nat) : K Z := iunlockput dp;; end_op;; mret (-1).
Definition do_unlink (path : list Z) : K Z :=
  begin_op;;
  odp ← nameiparent path;
  match odp with
  | None => end_op;; mret (-1)
  | Some (dp, name) =>
      ilock dp;;
      if (namecmp name (bytes ".") || namecmp name (bytes ".."))%bool
      then sys_unlink_bad dp else
      r ← dirlookup dp name;
      match r with
      | None => sys_unlink_bad dp
      | Some (ip, off) =>
          ilock ip;;
          x ← get_inode ip;
          if i_nlink x <? 1 then panic "unlink: nlink < 1" else
          busy ← (if i_type x =? T_DIR then e ← isdirempty ip; mret (negb e)
                  else mret false);
          if busy : bool then iunlockput ip;; sys_unlink_bad dp else
          r ← writei dp (FromLocal (replicate 16 0)) off 16;
          if negb (r =? 16) then panic "unlink: writei" else
          x ← get_inode ip;
          mwhen (i_type x =? T_DIR)
            (upd_inode dp (λ d, d <| i_nlink ::= λ n, i16 (n - 1) |>);; iupdate dp);;
          iunlockput dp;;
          upd_inode ip (λ x, x <| i_nlink ::= λ n, i16 (n - 1) |>);;
          iupdate ip;;
          iunlockput ip;;
          end_op;;
          mret 0
      end
  end.
Definition sys_unlink : K Z :=
  op ← argstr 0;
  match op with None => mret (-1) | Some (_, path) => do_unlink path end.

(** The locked inode of the new (or existing regular) file; [None] for 0. *)
Definition create (path : list Z) (type major minor : Z) : K (option nat) :=
  me ← this_proc;
  cprintf "CReated file with %s  :: %d \n\n" [PStr path; PInt (p_containerID me)];;
  odp ← nameiparent path;
  match odp with
  | None => mret None
  | Some (dp, name) =>
      ilock dp;;
      r ← dirlookup dp name;
      match r with
      | Some (ip, _) =>
          iunlockput dp;;
          ilock ip;;
          x ← get_inode ip;
          if ((type =? T_FILE) && (i_type x =? T_FILE))%Z%bool then mret (Some ip)
          else iunlockput ip;; mret None
      | None =>
          d ← get_inode dp;
          ip ← ialloc (i_dev d) type;
          me ← this_proc;
          cprintf "CReated file with %s  :: %d \n\n" [PStr path; PInt (p_containerID me)];;
          ilock ip;;
          upd_inode ip (λ x, x <| i_major := i16 major |> <| i_minor := i16 minor |>
            <| i_nlink := 1 |> <| i_containerID := p_containerID me |>);;
          iupdate ip;;
          mwhen (type =? T_DIR)
            (upd_inode dp (λ d, d <| i_nlink ::= λ n, i16 (n + 1) |>);;
             iupdate dp;;
             x ← get_inode ip;
             r ← dirlink ip (bytes ".") (i_inum x);
             if r <? 0 then panic "create dots" else
             d ← get_inode dp;
             r ← dirlink ip (bytes "..") (i_inum d);
             if r <? 0 then panic "create dots" else mret tt);;
          x ← get_inode ip;
          r ← dirlink dp name (i_inum x);
          if r <? 0 then panic "create: dirlink" else
          iunlockput dp;;
          mret (Some ip)
      end
  end.

(** char newPath[30] = "cn"; the container's digit, a dash, the path copied
    without its NUL.  Writing past the end of the array is undefined. *)
Definition newPath_base (cid : Z) : list Z :=
  bytes "cn" ++
  [if cid =? 1 then 49 else if cid =? 2 then 50 else if cid =? 3 then 51 else 0;
   if cid >? 0 then 45 else 0] ++ replicate 26 0.
Definition newPath (cid : Z) (path : list Z) : K (list Z) :=
  if decide (length path ≤ 26)%nat then
    mret (take 4 (newPath_base cid) ++ path ++ drop (4 + length path) (newPath_base cid))
  else fault "sys_open: newPath overflow".
(** [newPath] read as a string: up to its NUL, which must be there. *)
Definition as_string (l : list Z) : K (list Z) :=
  let s := cstr (length l) l in
  if decide (length s < length l)%nat then mret s
  else fault "sys_open: newPath not terminated".

Definition open_inode (path : list Z) (omode : Z) : K (option nat) :=
  me ← this_proc;
  np ← newPath (p_containerID me) path;
  if negb (Z.land omode O_CREATE =? 0) then
    if p_containerID me =? 0 then create path T_FILE 0 0
    else np ← as_string np; create np T_FILE 0 0
  else
    oip ← namei path;
    match oip with
    | None => mret None
    | Some ip =>
        ilock ip;;
        x ← get_inode ip;
        if ((i_type x =? T_DIR) && negb (omode =? O_RDONLY))%Z%bool
        then iunlockput ip;; mret None else mret (Some ip)
    end.

(** Give the open inode a file and a descriptor. *)
Definition open_file (ip : nat) (omode : Z) : K Z :=
  ofl ← filealloc;
  ofd ← match ofl with
        | None => mret None
        | Some f =>
            fd ← fdalloc f;
            if fd <? 0 then fileclose f;; mret None else mret (Some (f, fd))
        end;
  match ofd with
  | None => iunlockput ip;; end_op;; mret (-1)
  | Some (f, fd) =>
      iunlock ip;;
      end_op;;
      upd_file f (λ f, f <| f_type := FD_INODE |> <| f_ip := Some ip |> <| f_off := 0 |>
        <| f_readable := Z.land omode O_WRONLY =? 0 |>
        <| f_writable := (negb (Z.land omode O_WRONLY =? 0)
                          || negb (Z.land omode O_RDWR =? 0))%bool |>);;
      mret fd
  end.

Definition sys_open : K Z :=
  op ← argstr 0;
  match op with
  | None => mret (-1)
  | Some (_, path) =>
      om ← argint 1;
      match om with
      | None => mret (-1)
      | Some omode =>
          begin_op;;
          oip ← open_inode path omode;
          match oip with
          | None => end_op;; mret (-1)
          | Some ip => open_file ip omode
          end
      end
  end.

(** The common tail of mkdir and mknod. *)
Definition create_and_put (path : list Z) (type major minor : Z) : K Z :=
  oip ← create path type major minor;
  match oip with
  | None => end_op;; mret (-1)
  | Some ip => iunlockput ip;; end_op;; mret 0
  end.
Definition sys_mkdir : K Z :=
  begin_op;;
  op ← argstr 0;
  match op with
  | None => end_op;; mret (-1)
  | Some (_, path) => create_and_put path T_DIR 0 0
  end.
Definition sys_mknod : K Z :=
  begin_op;;
  op ← argstr 0;
  match op with
  | None => end_op;; mret (-1)
  | Some (_, path) =>
      omaj ← argint 1;
      match omaj with
      | None => end_op;; mret (-1)
      | Some major =>
          omin ← argint 2;
          match omin with
          | None => end_op;; mret (-1)
          | Some minor => create_and_put path T_DEV (i16 major) (i16 minor)
          end
      end
  end.

Definition sys_chdir : K Z :=
  cur ← curproc;
  begin_op;;
  op ← argstr 0;
  oip ← match op with None => mret None | Some (_, path) => namei path end;
  match oip with
  | None => end_op;; mret (-1)
  | Some ip =>
      ilock ip;;
      x ← get_inode ip;
      if negb (i_type x =? T_DIR) then iunlockput ip;; end_op;; mret (-1) else
      iunlock ip;;
      me ← get_proc cur;
      old ← deref "iput(0)" (p_cwd me);
      iput old;;
      end_op;;
      upd_proc cur (λ p, p <| p_cwd := Some ip |>);;
      mret 0
  end.

(** Collect argv; [n] entries of the kernel's array are left. *)
Fixpoint exec_argv (n : nat) (uargv i : Z) : K (option (list (Z * list Z))) :=
  match n with
  | O => mret None
  | S n =>
      ou ← fetchint (u32 (uargv + 4 * i));
      match ou with
      | None => mret None
      | Some uarg =>
          if uarg =? 0 then mret (Some []) else
          os ← fetchstr (u32 uarg);
          match os with
          | None => mret None
          | Some s => rest ← exec_argv n uargv (i + 1); mret (cons s <$> rest)
          end
      end
  end.
Definition sys_exec : K Z :=
  op ← argstr 0;
  match op with
  | None => mret (-1)
  | Some (_, path) =>
      ou ← argint 1;
      match ou with
      | None => mret (-1)
      | Some uargv =>
          oargv ← exec_argv MAXARG (u32 uargv) 0;
          match oargv with None => mret (-1) | Some argv => exec path argv end
      end
  end.

Definition sys_pipe : K Z :=
  ofd ← argptr 0 8;
  match ofd with
  | None => mret (-1)
  | Some fd =>
      r ← pipealloc;
      match r with
      | None => mret (-1)
      | Some (rf, wf) =>
          fd0 ← fdalloc rf;
          fd1 ← (if fd0 <? 0 then mret (-1) else fdalloc wf);
          if ((fd0 <? 0) || (fd1 <? 0))%Z%bool then
            mwhen (fd0 >=? 0)
              (cur ← curproc;
               upd_proc cur (λ p, p <| p_ofile ::= <[Z.to_nat fd0 := None]> |>));;
            fileclose rf;;
            fileclose wf;;
            mret (-1)
          else
          stw fd fd0;;
          stw (u32 (fd + 4)) fd1;;
          mret 0
      end
  end.
End sysfile.

(** ** Where a contained process creates its files *)
Section open_spec.
Context {LK : Linker} {FU : Fuel} {BD : BlockDev} {DS : DevSw}.

(** The name [sys_open] makes for a new file. *)
Definition container_path (cid : Z) (path : list Z) : K (list Z) :=
  np ← newPath cid path; as_string np.

(** the name under which a contained process creates a file.  In the
    containers 1, 2 and 3 a path of at most 25 bytes gets the prefix "cn1-",
    "cn2-" or "cn3-", so two of these containers never share a name; in every
    later container all paths become the one name "cn"; a path of more than 26
    bytes overflows the 30-byte buffer, in any container and with or without
    [O_CREATE]. *)
Theorem newPath_spec cid path s :
  1 ≤ cid → Forall (λ b, b ≠ 0) path →
  (cid ≤ 3 → (length path ≤ 25)%nat →
     container_path cid path s = Done ([99; 110; 48 + cid; 45] ++ path) s) ∧
  (4 ≤ cid → (length path ≤ 26)%nat → container_path cid path s = Done [99; 110] s) ∧
  ((26 < length path)%nat → ∀ i p omode, current s i p →
     open_inode path omode s = Fault "sys_open: newPath overflow").
Proof.
  intros Hcid Hnz. split_and!.
  - intros Hle Hlen. unfold container_path, newPath, as_string.
    rewrite decide_True by lia. rewrite bind_ret.
    set (l := _ ++ path ++ _).
    assert (Hl : l = ([99; 110; 48 + cid; 45] ++ path) ++ 0 :: replicate (25 - length path) 0).
    { unfold l, newPath_base. rewrite <- app_assoc. f_equal.
      - assert (cid = 1 ∨ cid = 2 ∨ cid = 3) as [-> | [-> | ->]] by lia; done.
      - f_equal. cbn [bytes app drop plus]. rewrite drop_replicate.
        replace (26 - length path)%nat with (S (25 - length path)) by lia. done. }
    assert (Hc : cstr (length l) l = [99; 110; 48 + cid; 45] ++ path).
    { rewrite Hl. apply cstr_app_nul.
      - apply Forall_app. split; [repeat constructor; lia | done].
      - rewrite !length_app. cbn. lia. }
    rewrite Hc, decide_True; [done |]. rewrite Hl, !length_app. cbn. lia.
  - intros Hge Hlen. unfold container_path, newPath, as_string.
    rewrite decide_True by lia. rewrite bind_ret.
    set (l := _ ++ path ++ _).
    assert (Hl : ∃ r, l = [99; 110] ++ 0 :: r).
    { unfold l, newPath_base. destruct (Z.eqb_spec cid 1); [lia |].
      destruct (Z.eqb_spec cid 2); [lia |]. destruct (Z.eqb_spec cid 3); [lia |].
      by eexists. }
    destruct Hl as [r Hl].
    assert (Hc : cstr (length l) l = [99; 110]).
    { rewrite Hl. apply cstr_app_nul; [repeat constructor; lia | cbn; lia]. }
    rewrite Hc, decide_True; [done |]. rewrite Hl. cbn. lia.
  - intros Hlen i p omode Hcur. unfold open_inode.
    rewrite (this_proc_bind _ _ i p Hcur). apply bind_fault.
    unfold newPath. by rewrite decide_False by lia.
Qed.

(** sys_open smashes the kernel stack: for every process, container 0
    included, opening a path of 27 bytes or more writes past [newPath]. *)
Theorem sys_open_overflow s s1 s2 s3 i p a path omode :
  argstr 0 s = Done (Some (a, path)) s1 → argint 1 s1 = Done (Some omode) s2 →
  begin_op s2 = Done tt s3 → current s3 i p → (26 < length path)%nat →
  sys_open s = Fault "sys_open: newPath overflow".
Proof.
  intros Ha Hi Hb Hcur Hlen. unfold sys_open. rewrite (bind_done _ _ _ _ _ Ha).
  rewrite (bind_done _ _ _ _ _ Hi), (bind_done _ _ _ _ _ Hb). apply bind_fault.
  unfold open_inode. rewrite (this_proc_bind _ _ i p Hcur). apply bind_fault.
  unfold newPath. by rewrite decide_False by lia.
Qed.
End open_spec.

Lemma newPath_spec_witness :
  container_path 2 (bytes "ls") kst0 = Done (bytes "cn2-ls") kst0.
Proof.
  destruct (newPath_spec (FU := 1%nat) (BD := memide (MD := 1000))
    (DS := {| devsw_read _ := None; devsw_write _ := None |}) 2 (bytes "ls") kst0) as [H _].
  - lia.
  - repeat constructor; done.
  - apply H; [lia | cbn; lia].
Defined.

(** A process whose stack says open(100, 0), with 27 letters at address 100. *)
Definition opening : kst :=
  user_state (replicate 4 0 ++ word_bytes 100 ++ word_bytes 0 ++ replicate 88 0 ++
              replicate 27 97 ++ [0]) (proc0 <| p_state := RUNNING |> <| p_pid := 1 |>).
Lemma sys_open_overflow_witness :
  @sys_open linker_2M 1%nat (memide (MD := 1000))
    {| devsw_read _ := None; devsw_write _ := None |} opening
    = Fault "sys_open: newPath overflow".
Proof.
  assert (H1 : ∃ s1, argstr 0 opening = Done (Some (100, replicate 27 97)) s1 ∧
    ∃ s2, argint 1 s1 = Done (Some 0) s2 ∧
    ∃ s3, @begin_op 1%nat s2 = Done tt s3 ∧
      k_cpu s3 = sync_cpu (k_cpu opening) ∧ k_procs s3 = k_procs opening).
  { eexists. split; [vm_compute; reflexivity |].
    eexists. split; [vm_compute; reflexivity |].
    eexists. split; [vm_compute; reflexivity |]. split; vm_compute; reflexivity. }
  destruct H1 as (s1 & H1 & s2 & H2 & s3 & H3 & Hc & Hp).
  apply (sys_open_overflow (LK := linker_2M) (FU := 1%nat) (BD := memide (MD := 1000))
    (DS := {| devsw_read _ := None; devsw_write _ := None |}) opening s1 s2 s3 0
    (proc0 <| p_state := RUNNING |> <| p_pid := 1 |> <| p_sz := 4096 |>
       <| p_pgdir := KERNBASE + 0x400000 |>) 100 (replicate 27 97) 0).
  - exact H1.
  - exact H2.
  - exact H3.
  - split; [rewrite Hc; by split | by rewrite Hc | by rewrite Hp].
  - cbn. lia.
Defined.
