(* ===== verification/Sysproc.v ===== *)
(** * sysproc.c: the process and container system calls *)
From S2P Require Import Prelude Mmu Cstring Kstate Spinlock Kalloc Vm Proc Container Fork Sleeplock Bio Log Fs Pipe File Args.

Section sysproc.
Context {LK : Linker} {FU : Fuel} {BD : BlockDev} {DS : DevSw}.

Definition sys_fork : K Z := fork.
Definition sys_exit : K Z := exit.
Definition sys_wait : K Z := wait patience.
Definition sys_kill : K Z :=
  op ← argint 0;
  match op with None => mret (-1) | Some pid => kill pid end.
Definition sys_getpid : K Z := p ← this_proc; mret (p_pid p).
Definition sys_sbrk : K Z :=
  on ← argint 0;
  match on with
  | None => mret (-1)
  | Some n =>
      p ← this_proc;
      let addr := i32 (p_sz p) in
      r ← growproc n;
      if r <? 0 then mret (-1) else mret addr
  end.

(** while(ticks - ticks0 < n): an unsigned comparison. *)
Fixpoint sys_sleep_loop (fuel : nat) (ticks0 n : Z) : K Z :=
  match fuel with
  | O => fault "sys_sleep: out of fuel"
  | S fuel =>
      ticks ← gets k_ticks;
      if u32 (ticks - ticks0) <? u32 n then
        p ← this_proc;
        if negb (p_killed p =? 0) then release LTicks;; mret (-1) else
        sleep CTicks LTicks;;
        sys_sleep_loop fuel ticks0 n
      else release LTicks;; mret 0
  end.
Definition sys_sleep : K Z :=
  on ← argint 0;
  match on with
  | None => mret (-1)
  | Some n =>
      acquire LTicks;;
      ticks0 ← gets k_ticks;
      sys_sleep_loop patience ticks0 n
  end.
Definition sys_uptime : K Z :=
  acquire LTicks;;
  xticks ← gets k_ticks;
  release LTicks;;
  mret (i32 xticks).

Definition sys_toggle : K Z :=
  modify (λ s, s <| k_Trace ::= λ t, 1 - t |>);; mret 0.

(** syscall.c *)
Definition TotaleSysNum : nat := 37.
Definition clearCount : K unit := modify (λ s, s <| k_count := replicate TotaleSysNum 0 |>).
Definition syscall_names : list string :=
  ["sys_fork"; "sys_exit"; "sys_wait"; "sys_pipe"; "sys_read"; "sys_kill"; "sys_exec";
   "sys_fstat"; "sys_chdir"; "sys_dup"; "sys_getpid"; "sys_sbrk"; "sys_sleep";
   "sys_uptime"; "sys_open"; "sys_write"; "sys_mknod"; "sys_unlink"; "sys_link";
   "sys_mkdir"; "sys_close"; "sys_toggle"; "sys_print_count"; "sys_add"; "sys_ps";
   "sys_halt"; "sys_create_container"; "sys_destroy_container"; "sys_join_container";
   "sys_leave_container"; "sys_proc_container"; "sys_proc_container_num";
   "sys_scheduler_log_on"; "sys_containerProcessNum"; "sys_check_schedule_log";
   "sys_memory_log_on"; "sys_check_memory_log"]%string.
Definition countPrint : K unit :=
  counts ← gets k_count;
  mforM (λ '(name, c),
    mwhen (negb (c =? 0)) (cprintf "%s %d\n" [PStr (bytes name); PInt c]))
    (zip syscall_names counts).

Definition sys_print_count : K Z :=
  t ← gets k_Trace;
  if t =? 0 then mret 0 else
  countPrint;;
  cprintf "print_count" [];;
  mret 0.
Definition sys_add : K Z :=
  o1 ← argint 0;
  match o1 with
  | None => mret (-1)
  | Some num1 =>
      o2 ← argint 1;
      match o2 with None => mret (-2) | Some num2 => mret (i32 (num1 + num2)) end
  end.
Definition sys_ps : K Z := ps_print;; mret 0.
Definition sys_halt : K Z := outb 0xf4 0;; mret 0.

Definition sys_create_container : K Z :=
  addContainer;;
  n ← totaleContainers;
  cprintf "container created with id %d \n" [PInt (n - 1)];;
  n ← totaleContainers;
  mret (n - 1).
Definition sys_destroy_container : K Z := cprintf "Entered DESTROY\n" [];; mret 0.
Definition sys_join_container : K Z :=
  oc ← argint 0;
  match oc with
  | None => mret (-1)
  | Some containerID =>
      pid ← sys_getpid;
      cprintf "Entered JOIN with Pid %d and container %d\n" [PInt pid; PInt containerID];;
      joinContainer containerID
  end.
Definition sys_leave_container : K Z :=
  cprintf "Entered LEAVE\n" [];; joinContainer 0;; mret 0.
Definition sys_proc_container : K Z :=
  op ← argint 0;
  match op with None => mret (-1) | Some pid => proc_container pid end.
Definition sys_proc_container_num : K Z :=
  op ← argint 0;
  match op with None => mret (-1) | Some pid => proc_container_num pid end.
Definition sys_scheduler_log_on : K Z :=
  switch_scheduler_log;;
  upd_pv (λ v, v <| scheduler_history ::= λ n, i32 (n + 1) |>);; mret 0.
Definition sys_containerProcessNum : K Z :=
  oc ← argint 0;
  match oc with None => mret (-1) | Some c => containerProcessNum c end.
Definition sys_check_schedule_log : K Z :=
  oa ← argint 0;
  match oa with
  | None => mret (-1)
  | Some arg => r ← check_schedule_log arg; mret (if r =? 0 then 0 else 1)
  end.
(** The history counter it increments is the scheduler's. *)
Definition sys_memory_log_on : K Z :=
  switch_memory_log;;
  upd_pv (λ v, v <| scheduler_history ::= λ n, i32 (n + 1) |>);; mret 0.
Definition sys_check_memory_log : K Z :=
  oa ← argint 0;
  match oa with None => mret (-1) | Some arg => check_memory_log arg end.
End sysproc.
