(* ===== verification/Syscall.v ===== *)
(** * syscall.c: dispatch *)
From S2P Require Import Prelude Mmu Cstring Kstate Spinlock Kalloc Vm Proc Container Fork Sleeplock Bio Log Fs Pipe File Args Exec Sysfile Sysproc.

Section syscall.
Context {LK : Linker} {FU : Fuel} {BD : BlockDev} {DS : DevSw}.

(** The table [syscalls]; index 0 is empty. *)
Definition syscalls : list (option (K Z)) :=
  [None; Some sys_fork; Some sys_exit; Some sys_wait; Some sys_pipe; Some sys_read;
   Some sys_kill; Some sys_exec; Some sys_fstat; Some sys_chdir; Some sys_dup;
   Some sys_getpid; Some sys_sbrk; Some sys_sleep; Some sys_uptime; Some sys_open;
   Some sys_write; Some sys_mknod; Some sys_unlink; Some sys_link; Some sys_mkdir;
   Some sys_close; Some sys_toggle; Some sys_print_count; Some sys_add; Some sys_ps;
   Some sys_halt; Some sys_create_container; Some sys_destroy_container;
   Some sys_join_container; Some sys_leave_container; Some sys_proc_container;
   Some sys_proc_container_num; Some sys_scheduler_log_on;
   Some sys_containerProcessNum; Some sys_check_schedule_log; Some sys_memory_log_on;
   Some sys_check_memory_log].

(** [curproc->tf->eax = v] *)
Definition set_eax (cur : nat) (v : Z) : K unit :=
  upd_proc cur (λ p, p <| p_tf ::= λ t, t <| tf_eax := u32 v |> |>).

(** The call numbered [num], if there is one: [num > 0 && num < NELEM(syscalls)
    && syscalls[num]]. *)
Definition lookup_call (num : Z) : option (K Z) :=
  if 0 <? num then mjoin (syscalls !! Z.to_nat num) else None.

Definition syscall : K unit :=
  cur ← curproc;
  p ← get_proc cur;
  let num := i32 (tf_eax (p_tf p)) in
  match lookup_call num with
  | Some f =>
      modify (λ s, s <| k_count ::= alter (λ c, i32 (c + 1)) (Z.to_nat (num - 1)) |>);;
      r ← f;
      set_eax cur r;;
      mwhen (num =? 22) clearCount
  | None =>
      cprintf "%d %s: unknown sys call %d\n"
        [PInt (p_pid p); PStr (p_name p); PInt num];;
      set_eax cur (-1)
  end.
End syscall.

Section syscall_spec.
Context {LK : Linker} {FU : Fuel} {BD : BlockDev} {DS : DevSw}.

Lemma lookup_call_Some num :
  1 ≤ num ≤ 37 → ∃ f, lookup_call num = Some f.
Proof.
  intros Hn. unfold lookup_call. destruct (Z.ltb_spec 0 num); [| lia].
  assert (Hlt : (Z.to_nat num < 38)%nat) by lia. assert (Z.to_nat num ≠ 0%nat) by lia.
  destruct (Z.to_nat num) as [| k]; [done |].
  do 37 (destruct k as [| k]; [by eexists |]). lia.
Qed.
Lemma lookup_call_None num : num ≤ 0 ∨ 37 < num → lookup_call num = None.
Proof.
  intros Hn. unfold lookup_call. destruct (Z.ltb_spec 0 num); [| done].
  rewrite lookup_ge_None_2; [done |]. cbn. lia.
Qed.

Lemma set_eax_run cur v s p :
  k_procs s !! cur = Some p →
  set_eax cur v s = Done tt (s <| k_procs ::=
    <[cur := p <| p_tf ::= λ t, t <| tf_eax := u32 v |> |>]> |>).
Proof. intros Hp. unfold set_eax. by erewrite upd_proc_run by exact Hp. Qed.

(** dispatch.  A number outside 1..37 changes nothing but the caller's
    %eax, which becomes -1; a number in the table runs its function, after
    counting the call in its own counter and no other, and puts the function's
    result in the caller's %eax. *)
Theorem syscall_dispatch s i p :
  current s i p →
  let num := i32 (tf_eax (p_tf p)) in
  (num ≤ 0 ∨ 37 < num →
     ∃ s', syscall s = Done tt s' ∧ k_count s' = k_count s ∧ k_held s' = k_held s ∧
       k_mem s' = k_mem s ∧
       k_procs s' = <[i := p <| p_tf ::= λ t, t <| tf_eax := 4294967295 |> |>]> (k_procs s)) ∧
  (1 ≤ num ≤ 37 → ∃ f s1, lookup_call num = Some f ∧
     k_count s1 = alter (λ c, i32 (c + 1)) (Z.to_nat (num - 1)) (k_count s) ∧
     k_procs s1 = k_procs s ∧
     ∀ r s2 p2, f s1 = Done r s2 → k_procs s2 !! i = Some p2 →
       ∃ s3, syscall s = Done tt s3 ∧
         k_procs s3 = <[i := p2 <| p_tf ::= λ t, t <| tf_eax := u32 r |> |>]> (k_procs s2) ∧
         k_count s3 = if num =? 22 then replicate TotaleSysNum 0 else k_count s2).
Proof.
  intros [Hc Hi Hp] num. unfold syscall, curproc. rewrite bind_assoc, myproc_bind, Hi by done.
  cbn [deref]. rewrite bind_ret. rewrite (get_proc_bind _ _ p) by done. fold num. split.
  - intros Hn. rewrite (lookup_call_None num Hn). unfold cprintf. rewrite bind_modify.
    rewrite (set_eax_run i _ _ p) by done. eexists. split; [done |]. done.
  - intros Hn. destruct (lookup_call_Some num Hn) as [f Hf]. rewrite Hf.
    rewrite bind_modify. exists f.
    exists ((ksync s) <| k_count ::= alter (λ c, i32 (c + 1)) (Z.to_nat (num - 1)) |>).
    split; [done |].
    split; [reflexivity |]. split; [done |]. intros r s2 p2 Hr Hp2.
    rewrite (bind_done _ _ _ _ _ Hr). rewrite (bind_done _ _ _ _ _ (set_eax_run i _ _ p2 Hp2)).
    destruct (num =? 22); cbn [mwhen]; eexists; (split; [done |]); done.
Qed.
End syscall_spec.

(** A process calls number 99. *)
Lemma syscall_dispatch_witness (* closed: every interface instantiated *) :
  ∃ s', @syscall linker_2M 1%nat (@memide 1000)
      {| devsw_read _ := None; devsw_write _ := None |}
      (running <| k_procs ::= alter (λ p, p <| p_tf := tf0 <| tf_eax := 99 |> |>) 0%nat |>)
    = Done tt s' ∧ k_count s' = replicate 37 0.
Proof.
  destruct (@syscall_dispatch linker_2M 1%nat (@memide 1000)
      {| devsw_read _ := None; devsw_write _ := None |}
      (running <| k_procs ::= alter (λ p, p <| p_tf := tf0 <| tf_eax := 99 |> |>) 0%nat |>) 0
      (proc0 <| p_state := RUNNING |> <| p_pid := 1 |> <| p_tf := tf0 <| tf_eax := 99 |> |>))
    as [H _].
  - split; [by split | reflexivity | reflexivity].
  - destruct H as (s' & Hr & Hcnt & _); [right; reflexivity |].
    exists s'. split; [exact Hr |]. rewrite Hcnt. reflexivity.
Defined.
