(* ===== verification/Trap.v ===== *)
(** * trap.c

    Interrupt handlers of devices that are not modelled are arguments. *)
From S2P Require Import Prelude Mmu Cstring Kstate Spinlock Kalloc Vm Proc Container Fork Sleeplock Bio Log Fs Pipe File Args Exec Sysfile Sysproc Syscall.

Definition T_SYSCALL : Z := 64.
Definition T_IRQ0 : Z := 32.
Definition IRQ_TIMER : Z := 0.
Definition IRQ_KBD : Z := 1.
Definition IRQ_COM1 : Z := 4.
Definition IRQ_IDE : Z := 14.
Definition IRQ_SPURIOUS : Z := 31.

(** The interrupt handlers, the acknowledgement of the local APIC, the number
    of the executing CPU and the faulting address. *)
Class Irqs := {
  ideintr : K unit;
  kbdintr : K unit;
  uartintr : K unit;
  lapiceoi : K unit;
  cpuid : K Z;
  rcr2 : K Z
}.

(** tvinit: every vector is an interrupt gate of the kernel, except the one for
    system calls: a trap gate that users may enter. *)
Definition tvinit (vectors : Z → Z) : list gatedesc :=
  let idt := (λ i, SETGATE false (Z.shiftl SEG_KCODE 3) (vectors (Z.of_nat i)) 0)
               <$> seq 0 256 in
  <[Z.to_nat T_SYSCALL :=
     SETGATE true (Z.shiftl SEG_KCODE 3) (vectors T_SYSCALL) DPL_USER]> idt.

Section trap.
Context {LK : Linker} {FU : Fuel} {BD : BlockDev} {DS : DevSw} {IR : Irqs}.

(** [if(myproc()->killed) exit();] *)
Definition exit_if_killed : K unit :=
  p ← this_proc; if negb (p_killed p =? 0) then exit else mret tt.
(** [if(myproc() && myproc()->killed && (tf->cs&3) == DPL_USER) exit();] *)
Definition exit_if_killed_user (tf : trapframe) : K unit :=
  op ← myproc;
  match op with
  | None => mret tt
  | Some i =>
      p ← get_proc i;
      if (negb (p_killed p =? 0) && (Z.land (tf_cs tf) 3 =? DPL_USER))%Z%bool
      then exit else mret tt
  end.

Definition timer_tick : K unit :=
  c ← cpuid;
  mwhen (c =? 0)
    (acquire LTicks;;
     modify (λ s, s <| k_ticks ::= λ t, u32 (t + 1) |>);;
     wakeup CTicks;;
     release LTicks).

Definition unexpected (tf : trapframe) : K unit :=
  op ← myproc;
  c ← cpuid;
  a ← rcr2;
  match op with
  | Some i =>
      if Z.land (tf_cs tf) 3 =? 0 then
        cprintf "unexpected trap %d from cpu %d eip %x (cr2=0x%x)\n"
          [PInt (tf_trapno tf); PInt c; PInt (tf_eip tf); PInt a];;
        panic "trap"
      else
        p ← get_proc i;
        cprintf "pid %d %s: trap %d err %d on cpu %d eip 0x%x addr 0x%x--kill proc\n"
          [PInt (p_pid p); PStr (p_name p); PInt (tf_trapno tf); PInt (tf_err tf);
           PInt c; PInt (tf_eip tf); PInt a];;
        upd_proc i (λ p, p <| p_killed := 1 |>)
  | None =>
      cprintf "unexpected trap %d from cpu %d eip %x (cr2=0x%x)\n"
        [PInt (tf_trapno tf); PInt c; PInt (tf_eip tf); PInt a];;
      panic "trap"
  end.

(** The switch on the trap number. *)
Definition trap_dispatch (tf : trapframe) : K unit :=
  let n := tf_trapno tf in
  if n =? T_IRQ0 + IRQ_TIMER then timer_tick;; lapiceoi
  else if n =? T_IRQ0 + IRQ_IDE then ideintr;; lapiceoi
  else if n =? T_IRQ0 + IRQ_IDE + 1 then mret tt
  else if n =? T_IRQ0 + IRQ_KBD then kbdintr;; lapiceoi
  else if n =? T_IRQ0 + IRQ_COM1 then uartintr;; lapiceoi
  else if ((n =? T_IRQ0 + 7) || (n =? T_IRQ0 + IRQ_SPURIOUS))%Z%bool then
    c ← cpuid;
    cprintf "cpu%d: spurious interrupt at %x:%x\n"
      [PInt c; PInt (tf_cs tf); PInt (tf_eip tf)];;
    lapiceoi
  else unexpected tf.

Definition trap (tf : trapframe) : K unit :=
  if tf_trapno tf =? T_SYSCALL then
    exit_if_killed;;
    cur ← curproc;
    upd_proc cur (λ p, p <| p_tf := tf |>);;
    syscall;;
    exit_if_killed
  else
  trap_dispatch tf;;
  exit_if_killed_user tf;;
  op ← myproc;
  match op with
  | None => mret tt
  | Some i =>
      p ← get_proc i;
      mwhen (bool_decide (p_state p = RUNNING) && (tf_trapno tf =? T_IRQ0 + IRQ_TIMER))%Z%bool
        yield
  end;;
  exit_if_killed_user tf.
End trap.

(** the interrupt descriptor table sends every vector to its entry point in
    the kernel's code segment; user code can raise exactly one of them, the
    system call vector, and that one alone leaves interrupts enabled. *)
Theorem tvinit_gates vectors i :
  0 ≤ i < 256 → (∀ j, is_u32 (vectors j)) →
  ∃ g, tvinit vectors !! Z.to_nat i = Some g ∧ gate_offset g = vectors i ∧
    gate_cs g = Z.shiftl SEG_KCODE 3 ∧ gate_p g = 1 ∧
    (gate_dpl g = DPL_USER ↔ i = T_SYSCALL) ∧
    (gate_type g = STS_IG32 ↔ i ≠ T_SYSCALL).
Proof.
  intros Hi Hv. unfold tvinit.
  destruct (decide (i = T_SYSCALL)) as [-> | Hne].
  - eexists. split.
    { apply list_lookup_insert_eq. rewrite length_fmap, length_seq.
      unfold T_SYSCALL in *. lia. }
    destruct (SETGATE_handler true (Z.shiftl SEG_KCODE 3) (vectors T_SYSCALL) DPL_USER)
      as (Ho & Hd & Ht); [done | unfold DPL_USER; lia |].
    split_and!; [done | done | done | done |]. rewrite Ht. split; [done |]. by intros [].
  - eexists. split.
    { rewrite list_lookup_insert_ne by (unfold T_SYSCALL in *; lia).
      rewrite list_lookup_fmap, lookup_seq_lt by lia. done. }
    cbn [plus]. rewrite Z2Nat.id by lia.
    destruct (SETGATE_handler false (Z.shiftl SEG_KCODE 3) (vectors i) 0) as (Ho & Hd & Ht);
      [done | lia |].
    split_and!; [done | done | done | |].
    + rewrite Hd. unfold DPL_USER. split; [done | intros; done].
    + rewrite Ht. done.
Qed.

Lemma tvinit_gates_witness :
  ∃ g, tvinit (λ i, 0x80105000 + i mod 256) !! 14%nat = Some g ∧ gate_dpl g ≠ DPL_USER.
Proof.
  destruct (tvinit_gates (λ i, 0x80105000 + i mod 256) 14) as (g & Hg & _ & _ & _ & Hd & _).
  - lia.
  - intros j. unfold is_u32. zlia.
  - exists g. split; [exact Hg |]. rewrite Hd. unfold T_SYSCALL. lia.
Defined.
