(* ===== verification/Msg.v ===== *)
(** * Message queues (xv6/proc.c; the queue itself also in xv6-structured)

    A queue is a circular list of nodes, each a page of its own: eight bytes of
    message at offset 0, the link at offset 8. *)
From S2P Require Import Prelude Mmu Cstring Kstate Spinlock Kalloc Vm Proc Pagetable Uvm Fork Life.

Section msg.
Context {LK : Linker}.

Definition MSGSIZE : nat := 8.
(** offsetof(struct Node, link) *)
Definition off_link : Z := 8.

Definition get_queue (q : nat) : K queue :=
  l ← gets k_msgQueue; deref "msgQueue: index out of range" (l !! q).
Definition upd_queue (q : nat) (f : queue → queue) : K unit :=
  x ← get_queue q; modify (λ s, s <| k_msgQueue ::= <[q := f x]> |>).

(** temp->msg[loc] = msg[loc] for the eight bytes; the kernel's result of
    [kalloc] is not tested. *)
Definition enQueue (q : nat) (msg : Z) : K unit :=
  temp ← kalloc;
  l ← ld_bytes msg MSGSIZE;
  st_bytes temp l;;
  x ← get_queue q;
  (if q_front x =? 0 then upd_queue q (λ x, x <| q_front := temp |>)
   else stw (q_rear x + off_link) temp);;
  upd_queue q (λ x, x <| q_rear := temp |>);;
  x ← get_queue q;
  stw (q_rear x + off_link) (q_front x).

Definition deQueue (q : nat) (msg : Z) : K Z :=
  x ← get_queue q;
  if q_front x =? 0 then cprintf "Queue is empty" [];; mret (-1) else
  if q_front x =? q_rear x then
    l ← ld_bytes (q_front x) MSGSIZE;
    st_bytes msg l;;
    kfree (q_front x);;
    upd_queue q (λ x, x <| q_front := 0 |>);;
    upd_queue q (λ x, x <| q_rear := 0 |>);;
    mret 0
  else
    let temp := q_front x in
    l ← ld_bytes temp MSGSIZE;
    st_bytes msg l;;
    f ← ldw (q_front x + off_link);
    upd_queue q (λ x, x <| q_front := f |>);;
    stw (q_rear x + off_link) f;;
    kfree temp;;
    mret 0.

Definition get_request (i : nat) : K Z :=
  l ← gets k_request; deref "request: index out of range" (l !! i).
Definition set_request (i : nat) (v : Z) : K unit :=
  modify (λ s, s <| k_request ::= <[i := v]> |>).

Definition sending (rec_pid msg : Z) : K Z :=
  procId ← pidToProcid rec_pid;
  if procId <? 0 then mret (-1) else
  let q := Z.to_nat procId in
  acquire (LMsg q);;
  enQueue q msg;;
  release (LMsg q);;
  r ← get_request q;
  mwhen (negb (r =? 0)) (set_request q 0;; wakeup (CProc q));;
  mret 0.

(** [recv] up to the point where it knows that the queue was empty... *)
Definition recv_try (q : nat) (msg : Z) : K Z :=
  acquire (LMsg q);;
  error ← deQueue q msg;
  release (LMsg q);;
  mret error.
(** ... and what it does then. *)
Definition recv_block (q : nat) (msg : Z) : K unit :=
  set_request q 1;;
  acquire LPtable;;
  sleep (CProc q) LPtable;;
  release LPtable;;
  _ ← recv_try q msg;
  mret tt.
Definition recv (msg : Z) : K Z :=
  op ← myproc;
  i ← deref "recv: no current process" op;
  me ← get_proc i;
  procId ← pidToProcid (p_pid me);
  if procId <? 0 then mret (-1) else
  let q := Z.to_nat procId in
  error ← recv_try q msg;
  mwhen (error <? 0) (recv_block q msg);;
  mret 0.

Definition send_multi (ar msg num : Z) : K Z := mret 0.
End msg.

(** ** The queue, specified

    [queue_rep m x ns]: in memory [m] the queue [x] consists of the nodes [ns],
    front first, each linked to the next and the last to the front.  Its
    messages are the first eight bytes of the nodes. *)
Definition bytes_at (m : mem) (a : Z) (n : nat) : list Z := (λ i, load8 m (a + Z.of_nat i)) <$> seq 0 n.
Definition messages (m : mem) (ns : list Z) : list (list Z) := (λ p, bytes_at m p MSGSIZE) <$> ns.

Record queue_rep (m : mem) (x : queue) (ns : list Z) : Prop := {
  qr_front : q_front x = hd 0 ns;
  qr_rear : q_rear x = List.last ns 0;
  qr_link : ∀ i p, ns !! i = Some p → load32 m (p + off_link) = default (hd 0 ns) (ns !! S i) }.

Section msg_spec.
Context {LK : Linker} {LO : LinkerOk}.

(** The nodes are pages of their own. *)
Record queue_ok (s : kst) (q : nat) (ns l : list Z) : Prop := {
  qo_rep : ∃ x, k_msgQueue s !! q = Some x ∧ queue_rep (k_mem s) x ns;
  qo_kmem : kmem_inv s l;
  qo_ready : kmem_ready s;
  qo_nodes : Forall valid_page ns;
  qo_nodup : NoDup (ns ++ l) }.

Lemma kld_bytes a n s :
  KERNBASE ≤ a → a + Z.of_nat n ≤ 4294967296 → is_u32 a → ld_bytes a n s = Done (bytes_at (k_mem s) a n) s.
Proof.
  intros Ha Hn Hu. by apply (ld_bytes_run (λ _, True) n a (λ i, a + Z.of_nat i)), mapped_kernel.
Qed.
Lemma kldw a s : KERNBASE ≤ a → a + 4 ≤ 4294967296 → ldw a s = Done (load32 (k_mem s) a) s.
Proof.
  intros Ha Hn. unfold ldw. erewrite bind_done by (apply kld_bytes; unfold is_u32, KERNBASE in *; lia).
  unfold mret, M_ret. f_equal. unfold bytes_at, load32, word_of. cbn [seq fmap list_fmap foldr].
  rewrite Z.add_0_r. change (Z.of_nat 1) with 1. change (Z.of_nat 2) with 2. change (Z.of_nat 3) with 3. lia.
Qed.
Lemma store8_u8 m a v : store8 m a (u8 v) = store8 m a v.
Proof. unfold store8. f_equal. apply u8_id, u8_range. Qed.
Lemma kstw a v s : KERNBASE ≤ a → a + 4 ≤ 4294967296 →
  stw a v s = Done tt (s <| k_mem := store32 (k_mem s) a v |>).
Proof.
  intros Ha Hn. unfold stw. rewrite store_run by (unfold word_bytes, KERNBASE in *; cbn; lia).
  do 2 f_equal. unfold word_bytes, store32. cbn [store_all]. rewrite !store8_u8, Z.add_0_r. done.
Qed.

Lemma node_range p : valid_page p → KERNBASE ≤ p ∧ p + PGSIZE ≤ 4294967296 ∧ is_u32 p ∧ page_aligned p ∧ 0 < p.
Proof.
  intros Hv. pose proof (valid_page_range p Hv). pose proof (valid_page_pos p Hv). destruct Hv as (? & ? & _).
  unfold KERNBASE, EXTMEM, PHYSTOP in *. split_and!; try done; lia.
Qed.

(** What a write to page [p] leaves alone of another node. *)
Lemma other_node m p q a v :
  valid_page p → valid_page q → p ≠ q → p ≤ a → a + 4 ≤ p + PGSIZE →
  load32 (store32 m a v) (q + off_link) = load32 m (q + off_link) ∧
  bytes_at (store32 m a v) q MSGSIZE = bytes_at m q MSGSIZE.
Proof.
  intros (_ & Hp & _) (_ & Hq & _) Hne Ha Ha'. unfold off_link, MSGSIZE.
  split; [apply (load32_other_page m p q); unfold PGSIZE in *; done || lia |].
  apply list_fmap_ext. intros i j [-> Hj]%lookup_seq. apply load8_store32_ne.
  destruct (pages_apart p q Hp Hq Hne); unfold PGSIZE in *; lia.
Qed.
(** A node's link and its message do not overlap. *)
Lemma link_not_msg m p v : bytes_at (store32 m (p + off_link) v) p MSGSIZE = bytes_at m p MSGSIZE.
Proof.
  apply list_fmap_ext. intros i j [-> Hj]%lookup_seq. apply load8_store32_ne. unfold off_link, MSGSIZE in *. lia.
Qed.
Lemma payload_stored m p q l :
  valid_page p → valid_page q → length l = MSGSIZE → Forall (λ b, u8 b = b) l →
  let m' := store_all m (λ i, p + Z.of_nat i) l in
  (p = q → bytes_at m' q MSGSIZE = l) ∧
  (p ≠ q → load32 m' (q + off_link) = load32 m (q + off_link) ∧ bytes_at m' q MSGSIZE = bytes_at m q MSGSIZE) ∧
  same_but (λ x, x = p) m m'.
Proof.
  intros (_ & Hp & _) (_ & Hq & _) Hl Hb m'. unfold m'. rewrite Forall_forall in Hb. split; [| split].
  - intros <-. apply list_eq. intros i. unfold bytes_at. rewrite list_lookup_fmap.
    destruct (l !! i) as [b |] eqn:Hi.
    + rewrite lookup_seq_lt by (rewrite <- Hl; by eapply lookup_lt_Some). cbn. f_equal.
      rewrite (store_all_at l m (λ i, p + Z.of_nat i) i b); [| intros; lia | done].
      apply Hb. by eapply list_elem_of_lookup_2.
    + rewrite lookup_seq_ge; [done |]. rewrite <- Hl. by apply lookup_ge_None.
  - intros Hne. assert (Hoth : ∀ a, q ≤ a < q + PGSIZE → load8 m' a = load8 m a).
    { intros a Ha. apply store_all_other. intros i Hi. rewrite Hl in Hi.
      destruct (pages_apart p q Hp Hq Hne); unfold MSGSIZE, PGSIZE in *; lia. }
    split.
    + apply load32_ext. intros k Hk. apply Hoth. unfold off_link, PGSIZE. lia.
    + apply list_fmap_ext. intros i j [-> Hj]%lookup_seq. apply Hoth. unfold MSGSIZE, PGSIZE in *. lia.
  - intros a Ha. apply store_all_other. intros i Hi ->. rewrite Hl in Hi.
    apply (Ha p eq_refl). unfold MSGSIZE, PGSIZE in *. lia.
Qed.

Lemma messages_ext m m' ns :
  (∀ p, p ∈ ns → bytes_at m' p MSGSIZE = bytes_at m p MSGSIZE) → messages m' ns = messages m ns.
Proof.
  intros H. apply list_fmap_ext. intros i p Hp. apply H. by eapply list_elem_of_lookup_2.
Qed.

(** The memory after [enQueue]. *)
Definition enqueued (m : mem) (x : queue) (pg : Z) (l : list Z) : mem :=
  let m1 := store_all m (λ i, pg + Z.of_nat i) l in
  let m2 := if q_front x =? 0 then m1 else store32 m1 (q_rear x + off_link) pg in
  store32 m2 (pg + off_link) (if q_front x =? 0 then pg else q_front x).

Lemma enqueued_ok m x ns pg l :
  queue_rep m x ns → Forall valid_page (pg :: ns) → NoDup (pg :: ns) → length l = MSGSIZE →
  Forall (λ b, u8 b = b) l →
  queue_rep (enqueued m x pg l) (mkQueue (if q_front x =? 0 then pg else q_front x) pg) (ns ++ [pg]) ∧
  messages (enqueued m x pg l) (ns ++ [pg]) = messages m ns ++ [l] ∧
  same_but (λ p, p ∈ pg :: ns) m (enqueued m x pg l).
Proof.
  intros [Hf Hr Hlk] [Hv Hvs]%Forall_cons_1 [Hnin Hnd]%NoDup_cons Hl Hb.
  destruct (node_range pg Hv) as (Hk & Hke & Hu & Hal & Hpos).
  rewrite Forall_forall in Hvs. unfold enqueued.
  set (m1 := store_all m (λ i, pg + Z.of_nat i) l).
  destruct (payload_stored m pg pg l Hv Hv Hl Hb) as (Hpay & _ & Hm1). specialize (Hpay eq_refl). fold m1 in Hpay, Hm1.
  assert (Hother1 : ∀ q, q ∈ ns → load32 m1 (q + off_link) = load32 m (q + off_link) ∧
    bytes_at m1 q MSGSIZE = bytes_at m q MSGSIZE).
  { intros q Hq. apply (payload_stored m pg q l); auto. by intros <-. }
  assert (Hpgne : ∀ q, q ∈ ns → pg ≠ q) by (by intros q Hq <-).
  assert (Hlink : ∀ m p v, p = pg ∨ p ∈ ns → same_but (λ p, p ∈ pg :: ns) m (store32 m (p + off_link) v)).
  { intros m' p v Hp a Ha. apply load8_store32_ne. specialize (Ha p). unfold off_link, PGSIZE in Ha.
    rewrite elem_of_cons in Ha. specialize (Ha Hp). unfold off_link. lia. }
  assert (Hm1' : same_but (λ p, p ∈ pg :: ns) m m1).
  { intros a Ha. apply Hm1. intros p ->. apply Ha. left. }
  destruct (decide (ns = [])) as [-> | Hne].
  { rewrite Hf. cbn [hd Z.eqb app]. set (m3 := store32 m1 (pg + off_link) pg). split; [split | split].
    - done.
    - done.
    - intros [| i] p Hp; [| done]. cbn in Hp. simplify_eq. unfold m3. rewrite load32_store32_eq. by apply u32_id.
    - unfold messages. cbn [fmap list_fmap app]. f_equal. unfold m3. by rewrite link_not_msg.
    - apply (same_but_chain _ _ m1); [done | apply Hlink; by left]. }
  assert (Hfne : q_front x ≠ 0).
  { rewrite Hf. destruct ns as [| n0 ns0]; [done |]. cbn. apply Z.neq_sym, Z.lt_neq.
    by apply node_range, Hvs; left. }
  rewrite (proj2 (Z.eqb_neq _ _) Hfne). apply exists_last in Hne as (ns' & r & ->).
  rewrite last_last in Hr. rewrite Hr. set (fr := q_front x) in *.
  assert (Hrin : r ∈ ns' ++ [r]) by (apply elem_of_app; right; left).
  assert (Hfu : u32 fr = fr).
  { apply u32_id. rewrite Hf. destruct ns' as [| n0 ns0]; cbn; apply node_range, Hvs; [done |]. cbn. left. }
  assert (Hrne : ∀ p, p ∈ ns' → r ≠ p).
  { intros p Hp <-. apply NoDup_app in Hnd as (_ & Hd & _). apply (Hd r Hp). left. }
  set (m2 := store32 m1 (r + off_link) pg). set (m3 := store32 m2 (pg + off_link) fr).
  assert (Hoff : ∀ p : Z, p ≤ p + off_link ∧ p + off_link + 4 ≤ p + PGSIZE) by (unfold off_link, PGSIZE; lia).
  assert (H3 : ∀ q, q ∈ ns' ++ [r] → load32 m3 (q + off_link) = load32 m2 (q + off_link) ∧
    bytes_at m3 q MSGSIZE = bytes_at m q MSGSIZE).
  { intros q Hq. destruct (other_node m2 pg q (pg + off_link) fr Hv (Hvs q Hq) (Hpgne q Hq)) as [Hl3 Hb3];
      [apply Hoff.. |]. split; [exact Hl3 |]. unfold m3. rewrite Hb3.
    destruct (Hother1 q Hq) as [_ <-]. destruct (decide (r = q)) as [<- | Hne]; [apply link_not_msg |].
    apply (other_node m1 r q (r + off_link) pg); [by apply Hvs | by apply Hvs | done | apply Hoff | apply Hoff]. }
  split; [split | split].
  - cbn. rewrite Hf. by destruct ns'.
  - cbn. by rewrite last_last.
  - intros i p Hp. assert (Hhd : hd 0 ((ns' ++ [r]) ++ [pg]) = fr) by (rewrite Hf; by destruct ns').
    rewrite Hhd. apply lookup_app_Some in Hp as [Hp | [Hi Hp]].
    + destruct (H3 p) as [-> _]; [by eapply list_elem_of_lookup_2 |].
      rewrite lookup_app. pose proof (Hlk i p Hp) as Hold.
      apply lookup_app_Some in Hp as [Hp | [Hi Hp]].
      * assert (Hlt : (S i < length (ns' ++ [r]))%nat)
          by (rewrite length_app; cbn; apply lookup_lt_Some in Hp; lia).
        destruct (lookup_lt_is_Some_2 _ _ Hlt) as [y Hy]. rewrite Hy in Hold |- *. cbn in *.
        assert (p ∈ ns') as Hpin by (by eapply list_elem_of_lookup_2).
        destruct (other_node m1 r p (r + off_link) pg) as [Hl2 _];
          [by apply Hvs | apply Hvs; apply elem_of_app; by left | by apply Hrne | apply Hoff | apply Hoff |].
        unfold m2. rewrite Hl2. destruct (Hother1 p) as [-> _]; [apply elem_of_app; by left | done].
      * assert (i = length ns' ∧ p = r) as [-> ->].
        { apply list_lookup_singleton_Some in Hp as [? ->]. split; [lia | done]. }
        rewrite lookup_ge_None_2 by (rewrite length_app; cbn; lia).
        rewrite length_app. cbn. replace (S (length ns') - (length ns' + 1))%nat with 0%nat by lia. cbn.
        unfold m2. rewrite load32_store32_eq. by apply u32_id.
    + apply list_lookup_singleton_Some in Hp as [Hi' <-]. rewrite lookup_ge_None_2 by (rewrite length_app; cbn; lia).
      cbn. unfold m3. rewrite load32_store32_eq. exact Hfu.
  - unfold messages. rewrite fmap_app. cbn [fmap list_fmap]. f_equal.
    + apply messages_ext. intros p Hp. by apply H3.
    + f_equal. unfold m3. rewrite link_not_msg. unfold m2.
      destruct (other_node m1 r pg (r + off_link) pg) as [_ Hb2];
        [by apply Hvs | done | by apply not_eq_sym, Hpgne | apply Hoff | apply Hoff | by rewrite Hb2].
  - apply (same_but_chain _ _ m1); [done |].
    apply (same_but_chain _ _ m2); apply Hlink; [by right | by left].
Qed.

Lemma get_queue_bind {B} q (k : queue → K B) x s :
  k_msgQueue s !! q = Some x → (get_queue q ≫= k) s = k x s.
Proof. intros H. apply bind_done. unfold get_queue. by rewrite bind_gets, H. Qed.
Lemma upd_queue_run q g x s :
  k_msgQueue s !! q = Some x → upd_queue q g s = Done tt (s <| k_msgQueue ::= <[q := g x]> |>).
Proof. intros H. unfold upd_queue. by rewrite (get_queue_bind q _ x). Qed.
Lemma upd_queue_bind {B} q g (k : unit → K B) x s :
  k_msgQueue s !! q = Some x → (upd_queue q g ≫= k) s = k tt (s <| k_msgQueue ::= <[q := g x]> |>).
Proof. intros H. by apply bind_done, upd_queue_run. Qed.

(** Queue operations change nothing else of the state. *)
Definition queue_step (s s' : kst) : Prop := ∃ s1, vm_step s s1 ∧ s' = s1 <| k_msgQueue := k_msgQueue s' |>.
Lemma queue_step_vm s s1 m w : vm_step s s1 → queue_step s (s1 <| k_mem := m |> <| k_msgQueue := w |>).
Proof.
  intros H. exists (s1 <| k_mem := m |>). split; [| done].
  apply (vm_step_trans _ s1); [done |]. split; [| by left]. by exists (k_cpu s1), (k_kmem s1), m.
Qed.

Lemma bytes_are_u8 m (ph : nat → Z) n : Forall (λ b, u8 b = b) ((λ i, load8 m (ph i)) <$> seq 0 n).
Proof.
  apply Forall_forall. intros b (i & -> & _)%list_elem_of_fmap. apply u8_id, load8_range.
Qed.

Lemma enQueue_run s q ns pg l msg ph fp :
  queue_ok s q ns (pg :: l) → is_u32 msg → mapped s false msg MSGSIZE ph fp →
  ∃ s', enQueue q msg s = Done tt s' ∧ queue_ok s' q (ns ++ [pg]) l ∧ queue_step s s' ∧
    messages (k_mem s') (ns ++ [pg]) =
      messages (k_mem s) ns ++ [(λ i, load8 (k_mem s) (ph i)) <$> seq 0 MSGSIZE].
Proof.
  intros [(x & Hx & Hrep) Hi Hr Hvs Hnd] Hu Hmp.
  destruct (kalloc_frame s (pg :: l) Hi Hr) as (c & km & Hk & Hi1 & Hc & Hul). cbn [hd tl] in *.
  set (s1 := s <| k_cpu := c |> <| k_kmem := km |>) in *.
  assert (Hst : vm_step s s1).
  { split; [| exact Hc]. exists c, km, (k_mem s). unfold s1. kst_eq; reflexivity. }
  assert (Hr1 : kmem_ready s1).
  { destruct Hr as [Hc0 Hl0]. split; [| done]. destruct Hc as [-> | ->]; [done | by apply sync_cpu_ok]. }
  unfold enQueue. rewrite (bind_done _ _ _ _ _ Hk).
  assert (Hmp1 : mapped s1 false msg MSGSIZE ph fp).
  { apply (mapped_mem s); [done | | done]. cbn. by destruct Hc as [-> | ->]. }
  rewrite (bind_done _ _ _ _ _ (ld_bytes_run fp MSGSIZE msg ph s1 Hu Hmp1)).
  change (k_mem s1) with (k_mem s). set (pl := (λ i, load8 (k_mem s) (ph i)) <$> seq 0 MSGSIZE).
  assert (Hpl : length pl = MSGSIZE) by (unfold pl; by rewrite length_fmap, length_seq).
  assert (Hpgs : Forall valid_page (pg :: ns)).
  { constructor; [| done]. by destruct Hi as [_ _ [? _]%Forall_cons_1]. }
  assert (Hndn : NoDup (pg :: ns)).
  { apply NoDup_app in Hnd as (Hn & Hd & _). constructor; [| done]. intros Hin. apply (Hd pg Hin). left. }
  destruct (enqueued_ok (k_mem s) x ns pg pl Hrep Hpgs Hndn Hpl (bytes_are_u8 _ _ _)) as (Hrep' & Hmsgs & Hsb).
  apply Forall_cons_1 in Hpgs as [Hpv _]. destruct (node_range pg Hpv) as (Hk0 & Hke & Hpu & _ & _).
  erewrite bind_done.
  2: { apply store_run; [unfold KERNBASE, PGSIZE in *; lia |]. rewrite Hpl. unfold MSGSIZE, PGSIZE in *. lia. }
  set (m1 := store_all (k_mem s) (λ i, pg + Z.of_nat i) pl).
  assert (Hx1 : k_msgQueue (s1 <| k_mem := m1 |>) !! q = Some x) by done.
  rewrite (get_queue_bind q _ x) by done.
  set (fr := if q_front x =? 0 then pg else q_front x).
  set (m2 := if q_front x =? 0 then m1 else store32 m1 (q_rear x + off_link) pg).
  set (x1 := if q_front x =? 0 then x <| q_front := pg |> else x).
  set (s2 := s1 <| k_mem := m2 |> <| k_msgQueue ::= <[q := x1]> |>).
  assert (Hins : ∀ (y : queue) (w : list queue), w !! q = Some y → <[q := y]> w = w) by (intros; by apply list_insert_id).
  assert (H2 : (if q_front x =? 0 then upd_queue q (λ x, x <| q_front := pg |>)
                else stw (q_rear x + off_link) pg) (s1 <| k_mem := m1 |>) = Done tt s2).
  { unfold s2, x1, m2. destruct (Z.eqb_spec (q_front x) 0) as [H0 | H0].
    - rewrite (upd_queue_run q _ x) by done. f_equal.
    - assert (Hin : q_rear x ∈ ns).
      { rewrite (qr_rear _ _ _ Hrep). rewrite (qr_front _ _ _ Hrep) in H0.
        destruct (decide (ns = [])) as [-> | Hne]; [done |]. apply exists_last in Hne as (ns' & r & ->).
        rewrite last_last. apply elem_of_app. right. left. }
      rewrite Forall_forall in Hvs. destruct (node_range _ (Hvs _ Hin)) as (? & ? & _).
      rewrite kstw by (unfold off_link, PGSIZE in *; lia). f_equal. kst_eq; by rewrite Hins. }
  rewrite (bind_done _ _ _ _ _ H2).
  assert (Hq2 : k_msgQueue s2 !! q = Some x1).
  { cbn. apply list_lookup_insert_eq. by eapply lookup_lt_Some. }
  rewrite (upd_queue_bind q _ _ x1) by done.
  set (x2 := x1 <| q_rear := pg |>).
  assert (Hq3 : k_msgQueue (s2 <| k_msgQueue ::= <[q := x2]> |>) !! q = Some x2).
  { cbn. apply list_lookup_insert_eq. eapply lookup_lt_Some. exact Hq2. }
  rewrite (get_queue_bind q _ x2) by exact Hq3.
  assert (Hx2 : x2 = mkQueue fr pg) by (unfold x2, x1, fr; clear; destruct x as [qf qr]; cbn; by destruct (qf =? 0)).
  rewrite Hx2. cbn [q_rear q_front]. rewrite kstw by (unfold off_link, PGSIZE in *; lia).
  eexists. split; [reflexivity |].
  assert (Hmem : enqueued (k_mem s) x pg pl = store32 m2 (pg + off_link) fr) by done.
  rewrite Hmem in Hrep', Hmsgs, Hsb. split; [split | split].
  - exists (mkQueue fr pg). split; [cbn; apply list_lookup_insert_eq; rewrite length_insert; by eapply lookup_lt_Some |].
    exact Hrep'.
  - apply (kmem_inv_frame (λ p, p ∈ pg :: ns) s1 l (store32 m2 (pg + off_link) fr)) in Hi1; [| | exact Hsb].
    + by destruct Hi1 as [? ? ?].
    + intros p Hp. assert (Hvp : valid_page p).
      { apply elem_of_cons in Hp as [-> | Hp]; [done |]. rewrite Forall_forall in Hvs. by apply Hvs. }
      split; [apply Hvp |]. apply NoDup_app in Hnd as (_ & Hd & Hnl). apply NoDup_cons in Hnl as [Hnp _].
      apply elem_of_cons in Hp as [-> | Hp]; [done |]. intros Hin. apply (Hd p Hp). by right.
  - exact Hr1.
  - apply Forall_app. split; [done | by constructor].
  - rewrite <- app_assoc. exact Hnd.
  - apply (queue_step_vm s s1 (store32 m2 (pg + off_link) fr)
      (k_msgQueue (s2 <| k_msgQueue ::= <[q := mkQueue fr pg]> |>)) Hst).
  - exact Hmsgs.
Qed.

Lemma deQueue_empty s q l msg :
  queue_ok s q [] l → deQueue q msg s = Done (-1) (s <| k_out ::= cons (Cprintf "Queue is empty" []) |>).
Proof.
  intros [(x & Hx & [Hf _ _]) _ _ _ _]. unfold deQueue. rewrite (get_queue_bind q _ x) by done.
  by rewrite Hf.
Qed.

(** The memory after [deQueue], up to the freeing of the node. *)
Lemma unlinked_ok m x p p' ns v :
  queue_rep m x (p :: p' :: ns) → Forall valid_page (p :: p' :: ns) → NoDup (p :: p' :: ns) →
  v = p' → let m' := store32 m (q_rear x + off_link) v in
  queue_rep m' (mkQueue p' (q_rear x)) (p' :: ns) ∧ messages m' (p' :: ns) = messages m (p' :: ns).
Proof.
  intros [Hf Hr Hlk] [Hv Hvs]%Forall_cons_1 [Hnin Hnd]%NoDup_cons -> m'. rewrite Forall_forall in Hvs.
  set (r := q_rear x) in *. assert (Hr' : r = List.last (p' :: ns) 0) by exact Hr.
  destruct (exists_last (l := p' :: ns) ltac:(done)) as (ns0 & r0 & Hns).
  assert (r0 = r) as -> by (rewrite Hr', Hns, last_last; done).
  assert (Hrin : r ∈ p' :: ns) by (rewrite Hns; apply elem_of_app; right; left).
  assert (Hpu : u32 p' = p') by (apply u32_id, node_range, Hvs; left).
  assert (Hoth : ∀ q, q ∈ p' :: ns → bytes_at m' q MSGSIZE = bytes_at m q MSGSIZE ∧
    (r ≠ q → load32 m' (q + off_link) = load32 m (q + off_link))).
  { intros q Hq. destruct (decide (r = q)) as [<- | Hne]; [split; [apply link_not_msg | done] |].
    destruct (other_node m r q (r + off_link) p') as [? ?];
      [by apply Hvs | by apply Hvs | done | unfold off_link; lia | unfold off_link, PGSIZE; lia | done]. }
  split; [split |].
  - done.
  - exact Hr'.
  - intros i q Hq. cbn [hd]. assert (Hqin : q ∈ p' :: ns) by (by eapply list_elem_of_lookup_2).
    destruct (decide (r = q)) as [<- | Hne].
    + assert (Hi : (S i = length (p' :: ns))%nat).
      { rewrite Hns in Hq, Hnd |- *. rewrite length_app. cbn. apply lookup_app_Some in Hq as [Hq | [Hi Hq]].
        - apply NoDup_app in Hnd as (_ & Hd & _). exfalso. apply (Hd r); [by eapply list_elem_of_lookup_2 | left].
        - apply list_lookup_singleton_Some in Hq as [? _]. lia. }
      unfold m'. rewrite load32_store32_eq, lookup_ge_None_2 by lia. exact Hpu.
    + rewrite (proj2 (Hoth q Hqin) Hne). pose proof (Hlk (S i) q Hq) as Hold. rewrite Hold.
      change ((p :: p' :: ns) !! S (S i)) with ((p' :: ns) !! S i).
      destruct ((p' :: ns) !! S i) as [y |] eqn:Hy; [done |].
      exfalso. apply Hne. apply lookup_ge_None in Hy. rewrite Hns in Hq, Hy. rewrite length_app in Hy. cbn in Hy.
      apply lookup_app_Some in Hq as [Hq | [Hi Hq]]; [apply lookup_lt_Some in Hq; lia |].
      by apply list_lookup_singleton_Some in Hq as [_ <-].
  - apply messages_ext. intros q Hq. by apply Hoth.
Qed.

(** Writing elsewhere than in the pages [l]. *)
Definition pages_kept (l : list Z) (m m' : mem) : Prop :=
  ∀ p a, p ∈ l → p ≤ a < p + PGSIZE → load8 m' a = load8 m a.
Lemma pages_kept_trans l m1 m2 m3 : pages_kept l m1 m2 → pages_kept l m2 m3 → pages_kept l m1 m3.
Proof. intros H1 H2 p a Hp Ha. by rewrite (H2 p), (H1 p). Qed.
Lemma pages_kept_sub l l' m m' : (∀ p, p ∈ l' → p ∈ l) → pages_kept l m m' → pages_kept l' m m'.
Proof. intros Hl H p a Hp Ha. by apply (H p); [apply Hl |]. Qed.

Lemma queue_rep_ext m m' x ns :
  pages_kept ns m m' → queue_rep m x ns → queue_rep m' x ns ∧ messages m' ns = messages m ns.
Proof.
  intros Hk [Hf Hr Hl]. split; [split; [done | done |] |].
  - intros i p Hp. rewrite <- (Hl i p Hp). apply load32_ext. intros k Hk'.
    apply (Hk p); [by eapply list_elem_of_lookup_2 | unfold off_link, PGSIZE; lia].
  - apply messages_ext. intros p Hp. apply list_fmap_ext. intros i j [-> Hj]%lookup_seq.
    apply (Hk p); [done | unfold MSGSIZE, PGSIZE in *; lia].
Qed.
Lemma kmem_inv_kept s l m' :
  kmem_inv s l → pages_kept l (k_mem s) m' → kmem_inv (s <| k_mem := m' |>) l.
Proof.
  intros [Hl Hnd Hv] Hm. split; [| done | done]. cbn. apply (free_list_frame (k_mem s)); [done |].
  intros a Ha. apply load32_ext. intros k Hk. apply (Hm a); [done | unfold PGSIZE; lia].
Qed.
Lemma same_but_kept p l m m' :
  same_but (λ q, q = p) m m' → Forall valid_page (p :: l) → p ∉ l → pages_kept l m m'.
Proof.
  intros Hm [Hp Hl]%Forall_cons_1 Hn q a Hq Ha. apply Hm. intros ? ->. rewrite Forall_forall in Hl.
  destruct (Hl q Hq) as (_ & Hqa & _), Hp as (_ & Hpa & _).
  destruct (pages_apart p q Hpa Hqa) as [? | ?]; [by intros -> | lia | lia].
Qed.

(** Freeing the node [p] that has just been taken out of the queue. *)
Lemma free_node s x p ns l (fp : Z → Prop) :
  queue_rep (k_mem s) x ns → kmem_inv s l → kmem_ready s →
  Forall valid_page (p :: ns ++ l) → NoDup (p :: ns ++ l) →
  (∀ a, fp a → ¬ p ≤ a < p + PGSIZE) →
  ∃ s1, kfree p s = Done tt s1 ∧ vm_step s s1 ∧ kmem_inv s1 (p :: l) ∧ kmem_ready s1 ∧
    queue_rep (k_mem s1) x ns ∧ messages (k_mem s1) ns = messages (k_mem s) ns ∧
    ∀ a, fp a → load8 (k_mem s1) a = load8 (k_mem s) a.
Proof.
  intros Hrep Hi Hr Hv [Hn Hnd]%NoDup_cons Hfp.
  pose proof Hv as [Hpv _]%Forall_cons_1.
  destruct (kfree_table s l p (λ x, x = p) Hi Hr Hpv) as (s1 & Hrun & Hi1 & Hr1 & Hst1 & Hm1);
    [intros ?; apply Hn, elem_of_app; by right | done |].
  assert (Hk : pages_kept ns (k_mem s) (k_mem s1)).
  { apply (pages_kept_sub (ns ++ l)); [intros; apply elem_of_app; by left |]. by apply (same_but_kept p). }
  destruct (queue_rep_ext _ _ _ _ Hk Hrep) as [? ?].
  exists s1. split_and!; try done. intros a Ha. apply Hm1. intros ? ->. by apply Hfp.
Qed.

Lemma deQueue_run s q p ns l msg ph fp :
  queue_ok s q (p :: ns) l → is_u32 msg → mapped s true msg MSGSIZE ph fp →
  (∀ a r, fp a → r ∈ (p :: ns) ++ l → ¬ r ≤ a < r + PGSIZE) →
  ∃ s', deQueue q msg s = Done 0 s' ∧ queue_ok s' q ns (p :: l) ∧ queue_step s s' ∧
    messages (k_mem s') ns = messages (k_mem s) ns ∧
    ∀ i b, bytes_at (k_mem s) p MSGSIZE !! i = Some b → load8 (k_mem s') (ph i) = b.
Proof.
  intros [(x & Hx & Hrep) Hi Hr Hvs Hnd] Hu Hmp Hfp. unfold deQueue.
  pose proof (ki_valid _ _ Hi) as Hvl. pose proof Hvs as [Hpv _]%Forall_cons_1.
  destruct (node_range p Hpv) as (Hk0 & Hke & Hpu & _ & Hp0).
  rewrite (get_queue_bind q _ x) by done. rewrite (qr_front _ _ _ Hrep). cbn [hd].
  rewrite (proj2 (Z.eqb_neq p 0)) by lia.
  set (l0 := bytes_at (k_mem s) p MSGSIZE).
  assert (Hl0 : length l0 = MSGSIZE) by (unfold l0, bytes_at; by rewrite length_fmap, length_seq).
  set (m1 := store_all (k_mem s) ph l0). set (s1 := s <| k_mem := m1 |>).
  assert (Hld : ld_bytes p MSGSIZE s = Done l0 s) by (apply kld_bytes; unfold MSGSIZE, PGSIZE in *; lia || done).
  assert (Hst : st_bytes msg l0 s = Done tt s1) by (by rewrite (st_bytes_run fp l0 msg ph) by (done || by rewrite Hl0)).
  assert (Hm1 : ∀ a, ¬ fp a → load8 m1 a = load8 (k_mem s) a).
  { intros a Ha. apply store_all_other. intros i Hi' ->. apply Ha, (mp_in _ _ _ _ _ _ Hmp). by rewrite <- Hl0. }
  assert (Hpay : ∀ i b, l0 !! i = Some b → load8 m1 (ph i) = b ∧ fp (ph i)).
  { intros i b Hib. pose proof (lookup_lt_Some _ _ _ Hib) as Hlt. split.
    - unfold m1. rewrite (store_all_at l0 (k_mem s) ph i b); [| | done].
      + pose proof (bytes_are_u8 (k_mem s) (λ i, p + Z.of_nat i) MSGSIZE) as H. rewrite Forall_forall in H.
        apply H. by eapply list_elem_of_lookup_2.
      + rewrite Hl0. apply (mp_inj _ _ _ _ _ _ Hmp).
    - apply (mp_in _ _ _ _ _ _ Hmp). by rewrite <- Hl0. }
  assert (Hkept : pages_kept ((p :: ns) ++ l) (k_mem s) m1).
  { intros r a Hra Ha. apply Hm1. intros Hf. by apply (Hfp a r). }
  assert (Hi1 : kmem_inv s1 l).
  { apply kmem_inv_kept; [done |]. eapply pages_kept_sub; [| exact Hkept]. intros r ?. apply elem_of_app. by right. }
  destruct (queue_rep_ext (k_mem s) m1 x (p :: ns)) as [Hrep1 Hmsg1];
    [eapply pages_kept_sub; [| exact Hkept]; intros r ?; apply elem_of_app; by left | done |].
  assert (Hvst : vm_step s s1).
  { split; [| by left]. exists (k_cpu s), (k_kmem s), m1. unfold s1. kst_eq; reflexivity. }
  assert (Hvall : Forall valid_page (p :: ns ++ l)) by (by apply (Forall_app valid_page (p :: ns) l)).
  assert (Hpfp : ∀ a, fp a → ¬ p ≤ a < p + PGSIZE) by (intros a Ha; apply (Hfp a p Ha); left).
  assert (Hmsg1' : messages m1 ns = messages (k_mem s) ns).
  { unfold messages in Hmsg1. cbn [fmap list_fmap] in Hmsg1. by injection Hmsg1. }
  destruct ns as [| p' ns].
  - rewrite (qr_rear _ _ _ Hrep). cbn [List.last]. rewrite Z.eqb_refl.
    rewrite (bind_done _ _ _ _ _ Hld), (bind_done _ _ _ _ _ Hst).
    destruct (free_node s1 (mkQueue 0 0) p [] l fp) as (s2 & Hrun & Hst2 & Hi2 & Hr2 & Hrep2 & _ & Hfp2);
      try done.
    rewrite (bind_done _ _ _ _ _ Hrun).
    assert (Hq2 : k_msgQueue s2 !! q = Some x) by (destruct Hst2 as [(c & km & m & ->) _]; done).
    rewrite (upd_queue_bind q _ _ x) by done.
    rewrite (upd_queue_bind q _ _ (x <| q_front := 0 |>))
      by (cbn; apply list_lookup_insert_eq; by eapply lookup_lt_Some).
    eexists. split; [reflexivity |]. split; [split | split; [| split]]; try done.
    + exists (mkQueue 0 0). split; [| done]. cbn. rewrite list_insert_insert_eq.
      apply list_lookup_insert_eq. by eapply lookup_lt_Some.
    + by destruct Hi2.
    + eexists s2. split; [by apply (vm_step_trans _ s1) | done].
    + intros i b Hib. destruct (Hpay i b Hib) as [<- Hf]. apply (Hfp2 _ Hf).
  - set (r := q_rear x). assert (Hrr : r = List.last (p' :: ns) 0) by apply Hrep.
    assert (Hrin : r ∈ p' :: ns).
    { destruct (exists_last (l := p' :: ns) ltac:(done)) as (ns0 & r0 & Hns).
      rewrite Hrr, Hns, last_last. apply elem_of_app. right. left. }
    assert (Hpn : p ∉ (p' :: ns) ++ l) by (by apply NoDup_cons in Hnd as [? _]).
    assert (Hpr : p ≠ r) by (intros ->; apply Hpn, elem_of_app; by left).
    rewrite (proj2 (Z.eqb_neq p r)) by done.
    rewrite (bind_done _ _ _ _ _ Hld), (bind_done _ _ _ _ _ Hst).
    assert (Hlink : ldw (p + off_link) s1 = Done p' s1).
    { rewrite kldw by (unfold off_link, PGSIZE in *; lia). f_equal.
      change (k_mem s1) with m1. by rewrite (qr_link _ _ _ Hrep1 0%nat p eq_refl). }
    rewrite (bind_done _ _ _ _ _ Hlink).
    rewrite (upd_queue_bind q _ _ x) by done.
    destruct (node_range r) as (Hrk & Hre & _); [rewrite Forall_forall in Hvs; apply Hvs; by right |].
    erewrite bind_done by (apply kstw; unfold off_link, PGSIZE in *; lia).
    set (m2 := store32 m1 (r + off_link) p').
    destruct (unlinked_ok m1 x p p' ns p' Hrep1 Hvs) as [Hrep2 Hmsg2]; [| done |].
    { apply NoDup_app in Hnd. tauto. }
    fold r in Hrep2, Hmsg2. fold m2 in Hrep2, Hmsg2.
    set (s2 := (s1 <| k_mem := m2 |>) <| k_msgQueue ::= <[q := x <| q_front := p' |>]> |>).
    match goal with |- context [(kfree p ≫= _) ?s'] => assert (s' = s2) as -> by (unfold s2; kst_eq) end.
    assert (Hm2 : pages_kept l m1 m2).
    { assert (Hsb : same_but (λ x, x = r) m1 m2).
      { intros a Ha. apply load8_store32_ne. specialize (Ha r eq_refl). unfold off_link, PGSIZE in *. lia. }
      apply (same_but_kept r l m1 m2 Hsb).
      - constructor; [rewrite Forall_forall in Hvs; apply Hvs; by right | done].
      - apply NoDup_app in Hnd as (_ & Hd & _). apply Hd. by right. }
    assert (Hi2 : kmem_inv s2 l) by (destruct (kmem_inv_kept s1 l m2 Hi1 Hm2); by split).
    destruct (free_node s2 (mkQueue p' r) p (p' :: ns) l fp) as
      (s3 & Hrun & Hst3 & Hi3 & Hr3 & Hrep3 & Hmsg3 & Hfp3); try done.
    rewrite (bind_done _ _ _ _ _ Hrun).
    assert (Hq3 : k_msgQueue s3 = k_msgQueue s2) by (destruct Hst3 as [(c & km & m & ->) _]; done).
    eexists. split; [reflexivity |]. split; [split | split; [| split]]; try done.
    + exists (x <| q_front := p' |>). split; [rewrite Hq3; cbn; apply list_lookup_insert_eq; by eapply lookup_lt_Some |].
      unfold r in Hrep3. by destruct x.
    + by apply Forall_cons_1 in Hvs as [_ ?].
    + apply (NoDup_Permutation_proper ((p :: p' :: ns) ++ l)); [| done]. apply Permutation_middle.
    + exists (s3 <| k_msgQueue := k_msgQueue s |>). split; [| destruct s3; done].
      apply (vm_step_trans _ (s1 <| k_mem := m2 |>)).
      { apply (vm_step_trans _ s1); [done |]. split; [| by left]. by exists (k_cpu s1), (k_kmem s1), m2. }
      destruct Hst3 as [(c & km & m & ->) Hc]. split; [by exists c, km, m | exact Hc].
    + rewrite Hmsg3. change (k_mem s2) with m2. rewrite Hmsg2. exact Hmsg1'.
    + intros i b Hib. destruct (Hpay i b Hib) as [<- Hf]. rewrite (Hfp3 _ Hf). apply load8_store32_ne.
      pose proof (Hfp _ r Hf ltac:(apply elem_of_app; left; by right)). unfold off_link, PGSIZE in *. lia.
Qed.

(** C35: the message queue is a FIFO.  [enQueue] puts the eight bytes at the
    caller's address behind the messages already there, in a page taken from
    the allocator; [deQueue] delivers the first message to the caller's address
    and gives its page back, or returns -1 when there is none; nothing else of
    the state changes. *)
Theorem queue_fifo s q ns l msg ph fp :
  queue_ok s q ns l → is_u32 msg →
  (∀ pg l', l = pg :: l' → mapped s false msg MSGSIZE ph fp →
     ∃ s', enQueue q msg s = Done tt s' ∧ queue_ok s' q (ns ++ [pg]) l' ∧ queue_step s s' ∧
       messages (k_mem s') (ns ++ [pg]) =
         messages (k_mem s) ns ++ [(λ i, load8 (k_mem s) (ph i)) <$> seq 0 MSGSIZE]) ∧
  (ns = [] → deQueue q msg s = Done (-1) (s <| k_out ::= cons (Cprintf "Queue is empty" []) |>)) ∧
  (∀ p ns', ns = p :: ns' → mapped s true msg MSGSIZE ph fp →
     (∀ a r, fp a → r ∈ ns ++ l → ¬ r ≤ a < r + PGSIZE) →
     ∃ s', deQueue q msg s = Done 0 s' ∧ queue_ok s' q ns' (p :: l) ∧ queue_step s s' ∧
       messages (k_mem s') ns' = messages (k_mem s) ns' ∧
       ∀ i b, bytes_at (k_mem s) p MSGSIZE !! i = Some b → load8 (k_mem s') (ph i) = b).
Proof.
  intros Hq Hu. split_and!.
  - intros pg l' -> Hmp. by apply (enQueue_run s q ns pg l' msg ph fp).
  - intros ->. by apply (deQueue_empty s q l).
  - intros p ns' -> Hmp Hfp. by apply (deQueue_run s q p ns' l msg ph fp).
Qed.

Lemma queue_ok_step s s' q ns l :
  queue_ok s q ns l → k_msgQueue s' = k_msgQueue s → k_mem s' = k_mem s → k_kmem s' = k_kmem s →
  kmem_ready s' → queue_ok s' q ns l.
Proof.
  intros [Hr [Hl ? ?] _ ? ?] Hq Hm Hk Hr'. split; rewrite ?Hq, ?Hm; try done. split; rewrite ?Hm, ?Hk; done.
Qed.
Lemma holds_msg_ready q s : holds_only (LMsg q) s → kmem_ready s.
Proof.
  intros [Hh Hn Hif]. split; [split; [lia | by intros _] |]. rewrite Hh. by intros ?%list_elem_of_singleton.
Qed.
Lemma at_ease_acquire_msg {B} i q (k : unit → K B) s :
  at_ease i s → (acquire (LMsg q) ≫= k) s = k tt (locked (LMsg q) s) ∧ holds_only (LMsg q) (locked (LMsg q) s).
Proof.
  intros Ha. split.
  - apply acquire_bind; [by apply (at_ease_ok i) |]. rewrite (ae_held _ _ Ha). by intros ?%elem_of_nil.
  - apply holds_only_acquire; apply Ha.
Qed.
(** What [release] leaves of a CPU that held one lock. *)
Definition freed_cpu (c : cpu) : cpu := c <| ncli := 0 |> <| if_flag := intena c |>.

Lemma pidToProcid_run pid i s j :
  at_ease j s → find_idx (λ p, p_pid p =? pid) (k_procs s) = Some i →
  ∃ s', pidToProcid pid s = Done (Z.of_nat i) s' ∧ at_ease j s' ∧ s' = s <| k_cpu := k_cpu s' |>.
Proof.
  intros Ha Hi. unfold pidToProcid. rewrite (at_ease_acquire j) by done. rewrite bind_gets.
  change (k_procs (locked LPtable s)) with (k_procs s). rewrite Hi.
  erewrite bind_done by apply holds_only_release, (at_ease_lock j s Ha).
  eexists. split; [reflexivity |]. destruct Ha as [Hc Hh Hn]. split; [by split |].
  unfold locked. kst_eq. by rewrite Hh.
Qed.

Lemma recv_try_empty s i q l msg :
  at_ease i s → queue_ok s q [] l →
  ∃ s', recv_try q msg s = Done (-1) s' ∧ at_ease i s' ∧ queue_ok s' q [] l ∧
    k_procs s' = k_procs s ∧ k_request s' = k_request s ∧ k_mem s' = k_mem s ∧ cr3 (k_cpu s') = cr3 (k_cpu s).
Proof.
  intros Ha Hq. unfold recv_try. destruct (at_ease_acquire_msg i q (λ _, error ← deQueue q msg;
    release (LMsg q);; mret error) s Ha) as [-> Hl].
  assert (Hq1 : queue_ok (locked (LMsg q) s) q [] l)
    by (apply (queue_ok_step s); [done.. | by apply (holds_msg_ready q)]).
  rewrite (bind_done _ _ _ _ _ (deQueue_empty _ q l msg Hq1)).
  erewrite bind_done by (apply holds_only_release; destruct Hl; by split).
  eexists. split; [reflexivity |]. destruct Ha as [Hc Hh Hn].
  split; [by split |]. split; [| done].
  apply (queue_ok_step s); [done.. |]. split; [split; cbn; lia |]. cbn. by intros ?%elem_of_nil.
Qed.

Lemma mapped_cpu s s' w a n ph fp :
  mapped s w a n ph fp → k_mem s' = k_mem s → cr3 (k_cpu s') = cr3 (k_cpu s) → mapped s' w a n ph fp.
Proof. intros H Hm Hc. apply (mapped_mem s); [by rewrite Hm | done | done]. Qed.

(** [sending] to a process that has not asked for a message. *)
Lemma sending_run s j i pid pg l msg ph fp :
  at_ease j s → find_idx (λ p, p_pid p =? pid) (k_procs s) = Some i → queue_ok s i [] (pg :: l) →
  k_request s !! i = Some 0 → is_u32 msg → mapped s false msg MSGSIZE ph fp →
  ∃ s', sending pid msg s = Done 0 s' ∧ queue_ok s' i [pg] l ∧ k_procs s' = k_procs s ∧
    k_request s' = k_request s.
Proof.
  intros Ha Hi Hq Hreq Hu Hmp. unfold sending.
  destruct (pidToProcid_run pid i s j Ha Hi) as (s1 & Hrun & Ha1 & Heq).
  rewrite (bind_done _ _ _ _ _ Hrun). rewrite (proj2 (Z.ltb_ge _ _)) by lia. rewrite Nat2Z.id.
  destruct (at_ease_acquire_msg j i (λ _, enQueue i msg;; release (LMsg i);; r ← get_request i;
    mwhen (negb (r =? 0)) (set_request i 0;; wakeup (CProc i));; mret 0) s1 Ha1) as [-> Hl].
  assert (Hq1 : queue_ok (locked (LMsg i) s1) i [] (pg :: l)).
  { apply (queue_ok_step s); [done | by rewrite Heq.. | by apply (holds_msg_ready i)]. }
  destruct (enQueue_run _ i [] pg l msg ph fp Hq1 Hu) as (s2 & Hrun2 & Hq2 & (s2' & Hst2 & Heq2) & _).
  { apply (mapped_cpu s); [done | by rewrite Heq |].
    pose proof Hrun as Hr0. unfold pidToProcid in Hr0. rewrite (at_ease_acquire j) in Hr0 by done.
    rewrite bind_gets in Hr0. erewrite bind_done in Hr0 by apply holds_only_release, (at_ease_lock j s Ha).
    unfold mret, M_ret in Hr0. injection Hr0 as _ <-. done. }
  rewrite (bind_done _ _ _ _ _ Hrun2).
  assert (Hh2 : holds_only (LMsg i) s2).
  { pose proof (holds_only_vm_step _ _ _ Hl Hst2) as [? ? ?]. rewrite Heq2. by split. }
  erewrite bind_done by by apply holds_only_release.
  assert (Hreq2 : k_request s2 = k_request s).
  { rewrite Heq2. destruct Hst2 as [(c & km & m & ->) _]. by rewrite Heq. }
  assert (Hps2 : k_procs s2 = k_procs s).
  { rewrite Heq2. cbn. rewrite (vm_step_procs _ _ Hst2). by rewrite Heq. }
  erewrite bind_done.
  2: { unfold get_request. rewrite bind_gets. cbn. rewrite Hreq2, Hreq. reflexivity. }
  cbn [Z.eqb negb mwhen]. rewrite bind_ret. eexists. split; [reflexivity |].
  split; [| by split]. apply (queue_ok_step s2); [done.. |].
  split; [split; cbn; lia |]. by intros ?%elem_of_nil.
Qed.

(** C40: a lost wakeup in [recv].  Between the moment it finds its queue empty
    and the moment it records that it waits, it holds no lock.  A message sent
    in that window is put into the queue but wakes nobody, since [request] is
    still 0; [recv] then goes to sleep although its message is there. *)
Theorem recv_lost_wakeup s i j p pid pg l msg msg' ph fp c :
  at_ease i s → k_procs s !! i = Some p → queue_ok s i [] (pg :: l) →
  find_idx (λ p, p_pid p =? pid) (k_procs s) = Some i → k_request s !! i = Some 0 →
  c_proc c = Some j → ncli c = 0 → is_u32 msg' →
  mapped (s <| k_cpu := c |>) false msg' MSGSIZE ph fp →
  ∃ s1 s2 s3 k,
    recv_try i msg s = Done (-1) s1 ∧
    sending pid msg' (s1 <| k_cpu := c |>) = Done 0 s2 ∧ k_procs s2 = k_procs s ∧
    recv_block i msg (s2 <| k_cpu := k_cpu s1 |> <| k_held := [] |>) = Switch s3 k ∧
    k_procs s3 !! i = Some (asleep (CProc i) p) ∧ queue_ok s3 i [pg] l.
Proof.
  intros Ha Hp Hq Hi Hreq Hcj Hcn Hu Hmp.
  destruct (recv_try_empty s i i (pg :: l) msg Ha Hq) as (s1 & Hrun1 & Ha1 & Hq1 & Hps1 & Hreq1 & Hm1 & _).
  set (t := s1 <| k_cpu := c |>).
  assert (Hat : at_ease j t) by (split; [done | apply Ha1 | done]).
  destruct (sending_run t j i pid pg l msg' ph fp Hat) as (s2 & Hrun2 & Hq2 & Hps2 & Hreq2).
  { change (k_procs t) with (k_procs s1). by rewrite Hps1. }
  { apply (queue_ok_step s1); [done.. |]. split; [split; cbn; lia |].
    change (k_held t) with (k_held s1). rewrite (ae_held _ _ Ha1). by intros ?%elem_of_nil. }
  { change (k_request t) with (k_request s1). by rewrite Hreq1. }
  { done. }
  { apply (mapped_cpu (s <| k_cpu := c |>)); done. }
  set (u := s2 <| k_cpu := k_cpu s1 |> <| k_held := [] |>).
  assert (Hau : at_ease i u) by (destruct Ha1; by split).
  assert (Hblk : ∃ s3 k, recv_block i msg u = Switch s3 k ∧ k_procs s3 !! i = Some (asleep (CProc i) p) ∧
    queue_ok s3 i [pg] l).
  { unfold recv_block, set_request. rewrite bind_modify.
    set (v := set k_request <[i:=1]> u).
    assert (Hav : at_ease i v) by (destruct Hau; by split).
    rewrite (at_ease_acquire i) by done. pose proof (at_ease_lock i v Hav) as Hl.
    assert (Hpv : k_procs (locked LPtable v) !! i = Some p).
    { change (k_procs (locked LPtable v)) with (k_procs s2). rewrite Hps2.
      change (k_procs t) with (k_procs s1). by rewrite Hps1. }
    destruct (sleep_run (CProc i) LPtable (locked LPtable v) i p Hl (ae_cur _ _ Hav) Hpv) as
      (s3 & k & Hsl & Ho & Heq & _).
    eexists s3, _. split; [by apply bind_switch |]. split.
    - rewrite Heq. cbn. apply list_lookup_insert_eq. by eapply lookup_lt_Some.
    - apply (queue_ok_step s2); [done | by rewrite Heq.. |]. destruct Ho as [Hh Hn Hif].
      split; [split; [lia | by intros _] |]. rewrite Hh. by intros ?%list_elem_of_singleton. }
  destruct Hblk as (s3 & k & Hrun3 & Hp3 & Hq3). exists s1, s2, s3, k.
  split_and!; try done. rewrite Hps2. exact Hps1.
Qed.
End msg_spec.

(** ** Witnesses: an empty queue 0, two free pages, a message at KERNBASE + 3 MB *)
Definition msg_ready : kst := two_pages <| k_cpu := k_cpu running |> <| k_procs := k_procs running |>.
Lemma msg_ready_queue : @queue_ok linker_2M msg_ready 0 [] [KERNBASE + 0x201000; KERNBASE + 0x200000].
Proof.
  pose proof two_pages_inv as [H1 H2 H3]. split.
  - exists (mkQueue 0 0). split; [reflexivity |]. split; [done | done |]. by intros i p Hp.
  - by split.
  - split; [split; [done | intros H; vm_compute in H; done] |]. by intros ?%elem_of_nil.
  - constructor.
  - exact H2.
Qed.
Lemma queue_fifo_witness :
  ∃ s', enQueue 0 (KERNBASE + 0x300000) msg_ready = Done tt s' ∧
    messages (k_mem s') [KERNBASE + 0x201000] = [replicate 8 0].
Proof.
  destruct (@queue_fifo linker_2M linker_2M_ok msg_ready 0 [] _ (KERNBASE + 0x300000)
    (λ i, KERNBASE + 0x300000 + Z.of_nat i) (λ _, True) msg_ready_queue) as [H _].
  - vm_compute. done.
  - destruct (H _ _ eq_refl) as (s' & Hrun & _ & _ & Hm).
    + apply mapped_kernel; [lia | vm_compute; done | done].
    + exists s'. split; [exact Hrun |]. etransitivity; [exact Hm |]. vm_compute. reflexivity.
Defined.
Lemma recv_lost_wakeup_witness :
  ∃ s1 s2 s3 k, @recv_try linker_2M 0 0 msg_ready = Done (-1) s1 ∧
    sending 1 (KERNBASE + 0x300000) (s1 <| k_cpu := (k_cpu running) <| c_proc := Some 3%nat |> |>) = Done 0 s2 ∧
    @recv_block linker_2M 0 0 (s2 <| k_cpu := k_cpu s1 |> <| k_held := [] |>) = Switch s3 k ∧
    p_state <$> k_procs s3 !! 0%nat = Some SLEEPING.
Proof.
  destruct (@recv_lost_wakeup linker_2M linker_2M_ok msg_ready 0 3
    (proc0 <| p_state := RUNNING |> <| p_pid := 1 |>) 1 (KERNBASE + 0x201000) [KERNBASE + 0x200000] 0
    (KERNBASE + 0x300000) (λ i, KERNBASE + 0x300000 + Z.of_nat i) (λ _, True)
    ((k_cpu running) <| c_proc := Some 3%nat |>)) as (s1 & s2 & s3 & k & H1 & H2 & _ & H3 & H4 & _).
  - by split.
  - reflexivity.
  - exact msg_ready_queue.
  - reflexivity.
  - reflexivity.
  - reflexivity.
  - reflexivity.
  - vm_compute. done.
  - apply mapped_kernel; [lia | vm_compute; done | done].
  - exists s1, s2, s3, k. split; [exact H1 |]. split; [exact H2 |]. split; [exact H3 |]. by rewrite H4.
Defined.
