(* ===== verification/Ulib.v ===== *)
(** * ulib.c: the user library's string functions

    User strings are lists of byte values.  A pointer into a string is the
    suffix it points to; a C string ends at its first 0 or at the end of the
    list, where the terminator is. *)
From S2P Require Import Prelude.

Definition newline : Z := 10.

(** The string a pointer denotes: what comes before the terminator. *)
Fixpoint cstr (s : list Z) : list Z :=
  match s with
  | [] => []
  | x :: s => if x =? 0 then [] else x :: cstr s
  end.

(** for(n = 0; s[n]; n++) *)
Fixpoint strlen (s : list Z) : Z :=
  match s with
  | [] => 0
  | x :: s => if x =? 0 then 0 else 1 + strlen s
  end.

(** Advance both pointers over equal bytes; the difference of the bytes where they stop. *)
Fixpoint strcmp (p q : list Z) : Z :=
  match p, q with
  | x :: p', y :: q' => if negb (x =? 0) && (x =? y) then strcmp p' q' else x - y
  | x :: _, [] => x
  | [], y :: _ => - y
  | [], [] => 0
  end.

(** The offset of the first [c] before the terminator. *)
Fixpoint strchr (s : list Z) (c : Z) : option nat :=
  match s with
  | [] => None
  | x :: s => if x =? 0 then None else if x =? c then Some O else S <$> strchr s c
  end.

(** n = n*10 + the digit, over the leading digits of the string, in 32 bits. *)
Fixpoint atoi_loop (n : Z) (s : list Z) : Z :=
  match s with
  | [] => n
  | x :: s => if (48 <=? x) && (x <=? 57) then atoi_loop (i32 (n * 10 + x - 48)) s else n
  end.
Definition atoi (s : list Z) : Z := atoi_loop 0 s.

(** The bytes [gets] stores before the terminator, of what standard input
    delivers one byte at a time; and what is left of the input. *)
Fixpoint gets_loop (room : nat) (input : list Z) : list Z * list Z :=
  match room, input with
  | O, _ => ([], input)
  | S _, [] => ([], [])
  | S room, c :: input =>
      if (c =? 10) || (c =? 13) then ([c], input) else
      let '(l, rest) := gets_loop room input in (c :: l, rest)
  end.
Definition gets (max : Z) (input : list Z) : list Z * list Z := gets_loop (Z.to_nat (max - 1)) input.

(** ** Properties *)

Lemma strlen_cstr s : strlen s = Z.of_nat (length (cstr s)).
Proof. induction s as [| x s IH]; cbn; [done |]. destruct (x =? 0); [done |]. cbn. lia. Qed.

Lemma strchr_Some s c i :
  c ≠ 0 → strchr s c = Some i ↔
  s !! i = Some c ∧ ∀ j, (j < i)%nat → ∃ x, s !! j = Some x ∧ x ≠ 0 ∧ x ≠ c.
Proof.
  intros Hc. revert i. induction s as [| x s IH]; intros i; cbn; [split; [done | intros [? _]; done] |].
  destruct (Z.eqb_spec x 0) as [-> | Hx].
  { split; [done |]. intros [Hi Hj]. destruct i as [| i]; [by injection Hi |].
    destruct (Hj O) as (y & Hy & ? & _); [lia |]. cbn in Hy. by simplify_eq. }
  destruct (Z.eqb_spec x c) as [-> | Hxc].
  { split; [intros [= <-]; split; [done | lia] |]. intros [Hi Hj]. destruct i as [| i]; [done |].
    destruct (Hj O) as (y & Hy & _ & ?); [lia |]. cbn in Hy. by simplify_eq. }
  split.
  - intros (k & Hk & ->)%fmap_Some. apply IH in Hk as [Hk Hj]. split; [done |].
    intros [| j] Hlt; [by exists x |]. apply Hj. lia.
  - intros [Hi Hj]. destruct i as [| i]; [cbn in Hi; congruence |].
    assert (strchr s c = Some i) as ->; [| done]. apply IH. split; [done |].
    intros j Hlt. apply (Hj (S j)). lia.
Qed.
Lemma strchr_None s c : c ≠ 0 → strchr s c = None ↔ c ∉ cstr s.
Proof.
  intros Hc. induction s as [| x s IH]; cbn; [split; [by intros _ ?%elem_of_nil | done] |].
  destruct (Z.eqb_spec x 0); [split; [by intros _ ?%elem_of_nil | done] |].
  rewrite not_elem_of_cons. destruct (Z.eqb_spec x c) as [-> | Hne]; [split; [done | by intros [[] _]] |].
  rewrite <- IH. destruct (strchr s c); cbn; split; try done.
  by intros [_ ?].
Qed.

Lemma strcmp_spec p q :
  strcmp p q = 0 ↔ cstr p = cstr q.
Proof.
  revert q. induction p as [| x p IH]; intros [| y q]; cbn.
  - done.
  - destruct (Z.eqb_spec y 0); split; intros H; try done; lia.
  - destruct (Z.eqb_spec x 0); split; intros H; try done; lia.
  - destruct (Z.eqb_spec x 0) as [-> | Hx]; cbn [negb andb].
    + destruct (Z.eqb_spec y 0); split; intros H; try done; lia.
    + destruct (Z.eqb_spec x y) as [<- | Hne].
      * rewrite IH. destruct (Z.eqb_spec x 0); [done |]. split; [by intros -> | by intros [= ->]].
      * destruct (Z.eqb_spec y 0); (split; intros H; [lia | congruence]).
Qed.
