(* ===== verification/Umem.v ===== *)
(** * ulib.c: strcpy, memset and memmove

    The user library's functions that store into memory, on the memory of
    [Cstring].  Theorems: [strcpy] copies the string with its terminator;
    [memmove] copies upwards whatever the overlap, so that moving up by less than
    the length repeats the first bytes. *)
From S2P Require Import Prelude Mmu Cstring.

(** while(( *s++ = *t++ ) != 0); no result where the string does not end. *)
Fixpoint strcpy_loop (fuel : nat) (m : mem) (s t : Z) : option mem :=
  match fuel with
  | O => None
  | S fuel =>
      let c := load8 m t in
      let m := store8 m s c in
      if c =? 0 then Some m else strcpy_loop fuel m (s + 1) (t + 1)
  end.
Definition ustrcpy (fuel : nat) (m : mem) (s t : Z) : option mem := strcpy_loop fuel m s t.
Definition umemset (m : mem) (dst c n : Z) : mem := stosb m dst c (Z.to_nat n).
Definition umemmove (m : mem) (dst src n : Z) : mem := copy_up m dst src (Z.to_nat n).

Lemma strcpy_loop_run n : ∀ m s t fuel, (n < fuel)%nat →
  (∀ i, 0 ≤ i < Z.of_nat n → load8 m (t + i) ≠ 0) → load8 m (t + Z.of_nat n) = 0 →
  s + Z.of_nat n < t ∨ t + Z.of_nat n < s →
  ∃ m', strcpy_loop fuel m s t = Some m' ∧
    ∀ a, load8 m' a = if decide (s ≤ a ≤ s + Z.of_nat n) then load8 m (t + (a - s)) else load8 m a.
Proof.
  induction n as [| n IH]; intros m s t [| fuel] Hf Hnz Hz Hd; try lia; cbn [strcpy_loop].
  - rewrite Z.add_0_r in Hz. rewrite Hz. eexists. split; [done |]. intros a.
    case_decide as Ha; [assert (a = s) as -> by lia; rewrite load8_store8_eq, Z.sub_diag, Z.add_0_r, Hz; done |].
    apply load8_store8_ne. lia.
  - pose proof (Hnz 0 ltac:(lia)) as H0. rewrite Z.add_0_r in H0. rewrite (proj2 (Z.eqb_neq _ _)) by done.
    destruct (IH (store8 m s (load8 m t)) (s + 1) (t + 1) fuel) as (m' & R & Hm'); [lia | | | lia |].
    + intros i Hi. rewrite load8_store8_ne by lia. replace (t + 1 + i) with (t + (i + 1)) by lia. apply Hnz. lia.
    + rewrite load8_store8_ne by lia. rewrite <- Hz. f_equal. lia.
    + exists m'. split; [done |]. intros a. rewrite Hm'. repeat case_decide; try lia.
      * rewrite load8_store8_ne by lia. f_equal. lia.
      * assert (a = s) as -> by lia. rewrite load8_store8_eq, Z.sub_diag, Z.add_0_r. by rewrite u8_id by apply load8_range.
      * apply load8_store8_ne. lia.
Qed.

(** [strcpy] of a string of [n] characters to a place that does not overlap it. *)
Theorem ustrcpy_copies n m s t fuel : (n < fuel)%nat →
  (∀ i, 0 ≤ i < Z.of_nat n → load8 m (t + i) ≠ 0) → load8 m (t + Z.of_nat n) = 0 →
  s + Z.of_nat n < t ∨ t + Z.of_nat n < s →
  ∃ m', ustrcpy fuel m s t = Some m' ∧
    ∀ a, load8 m' a = if decide (s ≤ a ≤ s + Z.of_nat n) then load8 m (t + (a - s)) else load8 m a.
Proof. apply strcpy_loop_run. Qed.

(** [memset] fills the range, nothing else. *)
Theorem umemset_fills m d c n a : 0 ≤ n →
  load8 (umemset m d c n) a = if decide (d ≤ a < d + n) then u8 c else load8 m a.
Proof. intros Hn. unfold umemset. rewrite load8_stosb. by rewrite Z2Nat.id by lia. Qed.

Lemma copy_up_smears n : ∀ m d s a, s < d →
  load8 (copy_up m d s n) a =
    if decide (d ≤ a < d + Z.of_nat n) then load8 m (s + (a - d) mod (d - s)) else load8 m a.
Proof.
  induction n as [| n IH]; intros m d s a Hd; cbn [copy_up]; [rewrite decide_False by lia; done |].
  rewrite IH by lia. replace (d + 1 - (s + 1)) with (d - s) by lia.
  case_decide as H1.
  - rewrite decide_True by lia. pose proof (Z.mod_pos_bound (a - (d + 1)) (d - s) ltac:(lia)) as Hr.
    set (r := (a - (d + 1)) mod (d - s)) in *.
    assert (Hnext : (a - d) mod (d - s) = (r + 1) mod (d - s)).
    { unfold r. rewrite Zplus_mod_idemp_l. f_equal. lia. }
    rewrite Hnext. destruct (decide (r + 1 = d - s)) as [He | Hne].
    + rewrite He, Z_mod_same_full. replace (s + 1 + r) with d by lia.
      rewrite load8_store8_eq, Z.add_0_r. by rewrite u8_id by apply load8_range.
    + rewrite Z.mod_small by lia. rewrite load8_store8_ne by lia. f_equal. lia.
  - destruct (decide (a = d)) as [-> | Hne].
    + rewrite decide_True by lia. rewrite load8_store8_eq, Z.sub_diag, Zmod_0_l, Z.add_0_r. by rewrite u8_id by apply load8_range.
    + rewrite decide_False by lia. apply load8_store8_ne. lia.
Qed.

(** [memmove] is right when it moves down or the ranges are apart; moving up by
    less than [n] it repeats the first [dst - src] bytes instead. *)
Theorem umemmove_upwards m d s n a : 0 ≤ n →
  load8 (umemmove m d s n) a =
    if decide (d ≤ a < d + n)
    then if decide (d ≤ s ∨ s + n ≤ d) then load8 m (s + (a - d)) else load8 m (s + (a - d) mod (d - s))
    else load8 m a.
Proof.
  intros Hn. unfold umemmove. case_decide as Ha; [case_decide as Ho |].
  - rewrite load8_copy_up by (rewrite Z2Nat.id; lia). rewrite Z2Nat.id by lia. by rewrite decide_True.
  - rewrite copy_up_smears by lia. rewrite Z2Nat.id by lia. by rewrite decide_True.
  - destruct (decide (s < d)).
    + rewrite copy_up_smears by lia. rewrite Z2Nat.id by lia. by rewrite decide_False.
    + rewrite load8_copy_up by (rewrite Z2Nat.id; lia). rewrite Z2Nat.id by lia. by rewrite decide_False.
Qed.
