(* ===== verification/Printf.v ===== *)
(** * Formatted output: printint and cprintf of console.c, printint and printf of printf.c

    The two printers are separate copies of one idea: the kernel's sends its
    characters to the console, the user's writes them to a file descriptor one
    byte at a time.  Here each is the list of characters it sends, in order.
    The arguments after the format are 32-bit words; a word that points to a
    string is [PStr] with the characters there.  [None] is an access C leaves
    undefined: an argument that was not passed or is not a pointer, a write
    beyond [buf]. *)
From S2P Require Import Prelude Mmu Cstring Kstate Ulib.

(** ** printint *)

Definition kdigits : list Z := bytes "0123456789abcdef".
Definition udigits : list Z := bytes "0123456789ABCDEF".
Definition minus : Z := 45.
Definition percent : Z := 37.

(** [buf[i++] = c], for [char buf[16]]. *)
Definition put (c : Z) (buf : list Z) : option (list Z) :=
  if decide (length buf < 16)%nat then Some (buf ++ [c]) else None.

(** [do { buf[i++] = digits[x % base]; } while((x /= base) != 0);]  The room in
    [buf] bounds the rounds: 17 is always enough. *)
Fixpoint digit_loop (fuel : nat) (digits : list Z) (base x : Z) (buf : list Z) : option (list Z) :=
  match fuel with
  | O => None
  | S fuel =>
      if base =? 0 then None else
      d ← digits !! Z.to_nat (x mod base);
      buf ← put d buf;
      if x / base =? 0 then Some buf else digit_loop fuel digits base (x / base) buf
  end.

(** console.c *)
Definition printint (xx base sign : Z) : option (list Z) :=
  let neg := negb (sign =? 0) && (xx <? 0) in
  let x := if neg then u32 (- xx) else u32 xx in
  buf ← digit_loop 17 kdigits base x [];
  buf ← (if neg then put minus buf else Some buf);
  Some (rev buf).

(** printf.c *)
Definition uprintint (xx base sgn : Z) : option (list Z) :=
  let '(neg, x) :=
    if negb (sgn =? 0) && (xx <? 0) then (true, u32 (- xx)) else (false, u32 xx) in
  buf ← digit_loop 17 udigits base x [];
  buf ← (if neg : bool then put minus buf else Some buf);
  Some (rev buf).

(** ** The arguments *)
Definition next_word (args : list parg) : option (Z * list parg) :=
  match args with PInt z :: args => Some (u32 z, args) | _ => None end.
(** The string of a [%s]. *)
Definition next_str (args : list parg) : option (list Z * list parg) :=
  match args with
  | PStr s :: args => Some (cstr s, args)
  | PInt z :: args => if u32 z =? 0 then Some (bytes "(null)", args) else None
  | [] => None
  end.

(** ** The loops over the format *)

(** console.c: what [consputc] is called with. *)
Fixpoint cprintf_loop (fmt : list Z) (args : list parg) : option (list Z) :=
  match fmt with
  | [] => Some []
  | c :: fmt =>
      if c =? 0 then Some [] else
      if negb (c =? percent) then o ← cprintf_loop fmt args; Some (c :: o) else
      match fmt with
      | [] => Some []
      | c :: fmt =>
          if c =? 0 then Some [] else
          if c =? 100 then (* 'd' *)
            '(w, args) ← next_word args;
            p ← printint (i32 w) 10 1;
            o ← cprintf_loop fmt args; Some (p ++ o) else
          if (c =? 120) || (c =? 112) then (* 'x', 'p' *)
            '(w, args) ← next_word args;
            p ← printint (i32 w) 16 0;
            o ← cprintf_loop fmt args; Some (p ++ o) else
          if c =? 115 then (* 's' *)
            '(s, args) ← next_str args;
            o ← cprintf_loop fmt args; Some (s ++ o) else
          if c =? percent then o ← cprintf_loop fmt args; Some (percent :: o) else
          o ← cprintf_loop fmt args; Some (percent :: c :: o)
      end
  end.

(** printf.c: what [putc] is called with; [state] is 0 or ['%']. *)
Fixpoint printf_loop (state : Z) (fmt : list Z) (args : list parg) : option (list Z) :=
  match fmt with
  | [] => Some []
  | c :: fmt =>
      if c =? 0 then Some [] else
      if state =? 0 then
        if c =? percent then printf_loop percent fmt args
        else o ← printf_loop state fmt args; Some (c :: o)
      else if state =? percent then
        if c =? 100 then
          '(w, args) ← next_word args;
          p ← uprintint (i32 w) 10 1;
          o ← printf_loop 0 fmt args; Some (p ++ o) else
        if (c =? 120) || (c =? 112) then
          '(w, args) ← next_word args;
          p ← uprintint (i32 w) 16 0;
          o ← printf_loop 0 fmt args; Some (p ++ o) else
        if c =? 115 then
          '(s, args) ← next_str args;
          o ← printf_loop 0 fmt args; Some (s ++ o) else
        if c =? 99 then (* 'c' *)
          '(w, args) ← next_word args;
          o ← printf_loop 0 fmt args; Some (u8 w :: o) else
        if c =? percent then o ← printf_loop 0 fmt args; Some (c :: o) else
        o ← printf_loop 0 fmt args; Some (percent :: c :: o)
      else printf_loop state fmt args
  end.
Definition printf (fmt : string) (args : list parg) : option (list Z) :=
  printf_loop 0 (bytes fmt) args.
Definition cprintf_chars (fmt : string) (args : list parg) : option (list Z) :=
  cprintf_loop (bytes fmt) args.

(** ** What is printed denotes the number *)

(** The number a list of digits denotes, most significant first. *)
Definition numeral (base : Z) (ds : list Z) : Z := foldl (λ n d, n * base + d) 0 ds.

Lemma numeral_snoc base ds d : numeral base (ds ++ [d]) = numeral base ds * base + d.
Proof. unfold numeral. by rewrite foldl_app. Qed.

Definition digit_char (digits : list Z) (d : Z) : Z := nth (Z.to_nat d) digits 0.

(** The digits of [x], as the loop finds them: least significant first. *)
Definition digits_of (base x : Z) (ds : list Z) : Prop :=
  numeral base (rev ds) = x ∧ Forall (λ d, 0 ≤ d < base) ds ∧ ds ≠ [] ∧
  (last ds = Some 0 → ds = [0]).

Lemma digit_step digits base x fuel buf :
  2 ≤ base ≤ 16 → length digits = 16%nat → (length buf < 16)%nat →
  digit_loop (S fuel) digits base x buf =
    if x / base =? 0 then Some (buf ++ [digit_char digits (x mod base)])
    else digit_loop fuel digits base (x / base) (buf ++ [digit_char digits (x mod base)]).
Proof.
  intros Hb Hd Hl. cbn [digit_loop]. destruct (Z.eqb_spec base 0) as [| _]; [lia |].
  assert (0 ≤ x mod base < base) as Hm by (apply Z.mod_pos_bound; lia).
  destruct (lookup_lt_is_Some_2 digits (Z.to_nat (x mod base))) as [d E]; [lia |].
  unfold digit_char. rewrite (nth_lookup_Some _ _ 0 _ E), E. cbn [mbind option_bind].
  unfold put. by rewrite decide_True by lia.
Qed.

Lemma digit_loop_run base k fuel x :
  2 ≤ base ≤ 16 → 0 ≤ x < base ^ Z.of_nat (S k) → (k < fuel)%nat →
  ∃ ds, digits_of base x ds ∧ (length ds ≤ S k)%nat ∧
    ∀ digits buf, length digits = 16%nat → (length buf + S k ≤ 16)%nat →
      digit_loop fuel digits base x buf = Some (buf ++ (digit_char digits <$> ds)).
Proof.
  intros Hb. revert fuel x. induction k as [| k IH]; intros fuel x Hx Hf;
    (destruct fuel as [| fuel]; [lia |]).
  all: assert (0 ≤ x mod base < base) as Hm by (apply Z.mod_pos_bound; lia).
  all: pose proof (Z.div_mod x base ltac:(lia)) as Ex.
  all: destruct (decide (x / base = 0)) as [Hz | Hz].
  1, 3: exists [x mod base]; split;
    [split_and!; [cbn; rewrite Hz in Ex; lia | by constructor | done | by intros [= ->]]
    | split; [cbn; lia |]; intros digits buf Hd Hl; rewrite digit_step by (done || lia);
      by rewrite Hz].
  - destruct Hz. apply Z.div_small. change (Z.of_nat 1) with 1 in Hx. lia.
  - destruct (IH fuel (x / base)) as (ds & (Hv & Hr & Hne & Hz') & Hlen & Hrun); [| lia |].
    { split; [apply Z.div_pos; lia |]. apply Z.div_lt_upper_bound; [lia |].
      rewrite Nat2Z.inj_succ, Z.pow_succ_r in Hx by lia. lia. }
    exists (x mod base :: ds). split; [| split; [cbn; lia |]].
    + split_and!; [| by constructor | done |].
      * cbn [rev]. rewrite numeral_snoc, Hv. lia.
      * rewrite last_cons. destruct (last ds) as [z |] eqn:El; [| by apply last_None in El].
        intros [= ->]. specialize (Hz' eq_refl). subst ds. cbn in Hv. lia.
    + intros digits buf Hd Hl. rewrite digit_step by (done || lia).
      destruct (Z.eqb_spec (x / base) 0) as [| _]; [done |].
      rewrite Hrun; [by rewrite <- app_assoc | done | rewrite length_app; cbn; lia].
Qed.

Lemma fmap_rev {A B} (f : A → B) l : f <$> rev l = rev (f <$> l).
Proof. rewrite !rev_alt. apply fmap_reverse. Qed.

Lemma digits_of_rev base x ds :
  digits_of base x ds →
  numeral base (rev ds) = x ∧ Forall (λ d, 0 ≤ d < base) (rev ds) ∧ rev ds ≠ [] ∧
  (head (rev ds) = Some 0 → rev ds = [0]).
Proof.
  intros (Hv & Hr & Hne & Hz). split_and!; [done | | |].
  - by apply Forall_rev.
  - intros E. apply Hne. by rewrite <- (rev_involutive ds), E.
  - intros Hh. rewrite Hz; [done |].
    rewrite <- (rev_involutive ds). destruct (rev ds) as [| d l]; [done |]. injection Hh as ->.
    cbn [rev]. by rewrite last_snoc.
Qed.

(** Leading digits of a number do not exceed it. *)
Lemma numeral_mono base ds n :
  1 ≤ base → 0 ≤ n → Forall (λ d, 0 ≤ d < base) ds → n ≤ foldl (λ n d, n * base + d) n ds.
Proof.
  intros Hb Hn Hd. revert n Hn. induction Hd as [| d ds Hd _ IH]; intros n Hn; cbn; [lia |].
  specialize (IH (n * base + d)). nia.
Qed.

Lemma digit_char_dec digits d :
  take 10 digits = bytes "0123456789" → 0 ≤ d < 10 → digit_char digits d = 48 + d.
Proof.
  intros Ht Hd. unfold digit_char.
  assert (digits !! Z.to_nat d = Some (48 + d)) as E; [| by apply nth_lookup_Some].
  rewrite <- (lookup_take_lt _ 10), Ht by lia.
  assert (d = 0 ∨ d = 1 ∨ d = 2 ∨ d = 3 ∨ d = 4 ∨ d = 5 ∨ d = 6 ∨ d = 7 ∨ d = 8 ∨ d = 9)
    as Hc by lia.
  by repeat destruct Hc as [-> | Hc]; [..| subst].
Qed.

Lemma atoi_digits digits ds n :
  take 10 digits = bytes "0123456789" →
  Forall (λ d, 0 ≤ d < 10) ds → 0 ≤ n → foldl (λ n d, n * 10 + d) n ds < 2 ^ 31 →
  atoi_loop n (digit_char digits <$> ds) = foldl (λ n d, n * 10 + d) n ds.
Proof.
  intros Ht Hd. revert n. induction Hd as [| d ds Hd Hds IH]; intros n Hn Hlt; [done |].
  cbn [fmap list_fmap atoi_loop]. rewrite (digit_char_dec digits d) by done.
  destruct (Z.leb_spec 48 (48 + d)); [| lia]. destruct (Z.leb_spec (48 + d) 57); [| lia].
  cbn [andb foldl] in *.
  pose proof (numeral_mono 10 ds (n * 10 + d)) as Hm.
  replace (i32 (n * 10 + (48 + d) - 48)) with (n * 10 + d).
  - apply IH; [lia | done].
  - rewrite i32_id; [lia |]. unfold is_i32. cbn [foldl] in Hlt. specialize (Hm ltac:(lia) ltac:(lia) Hds). lia.
Qed.

(** What both [printint]s print, up to the table of digits. *)
Lemma printed xx base (neg : bool) :
  base = 10 ∨ base = 16 → is_i32 xx → (neg = true → xx < 0) →
  ∃ ds,
    (∀ digits, length digits = 16%nat →
      (buf ← digit_loop 17 digits base (if neg then u32 (- xx) else u32 xx) [];
       buf ← (if neg then put minus buf else Some buf);
       Some (rev buf)) = Some ((if neg then [minus] else []) ++ (digit_char digits <$> ds))) ∧
    numeral base ds = (if neg then - xx else u32 xx) ∧
    Forall (λ d, 0 ≤ d < base) ds ∧ ds ≠ [] ∧ (head ds = Some 0 → ds = [0]) ∧
    (length ds ≤ 10)%nat.
Proof.
  intros Hb Hxx Hneg.
  set (x := if neg then u32 (- xx) else u32 xx).
  assert (x = (if neg then - xx else u32 xx)) as Ex.
  { subst x. destruct neg; [| done]. specialize (Hneg eq_refl). rewrite u32_id; [done |].
    unfold is_i32, is_u32 in *. lia. }
  assert (0 ≤ x < 4294967296) as Hx.
  { subst x. pose proof (u32_range xx). pose proof (u32_range (- xx)). unfold is_u32 in *.
    by destruct neg. }
  assert (2 ≤ base ≤ 16 ∧ x < base ^ Z.of_nat 10) as [Hb' Hp].
  { destruct Hb as [-> | ->]; (split; [lia |]); cbn; lia. }
  destruct (digit_loop_run base 9 17 x) as (ds & Ho & Hl & Hrun); [done | lia | lia |].
  apply digits_of_rev in Ho as (Hv & Hr & Hne & Hz).
  exists (rev ds). split; [| split_and!; [by rewrite Hv | done.. | by rewrite length_rev]].
  intros digits Hd. rewrite Hrun by (done || cbn; lia).
  cbn [app mbind option_bind]. destruct neg; cbn [mbind option_bind].
  - unfold put. rewrite decide_True by (rewrite length_fmap; lia). cbn [mbind option_bind].
    by rewrite rev_app_distr, fmap_rev.
  - by rewrite fmap_rev.
Qed.

(** C36: printint never leaves its 16-byte buffer, and what it prints denotes the
    number: in base 10 or 16, signed or not, both printers send an optional minus
    sign and digits, no leading zero, that have the value of the number as an
    [int] or as an [unsigned int]; the user library's atoi reads a non-negative
    [%d] back. *)
Theorem printint_denotes xx base sign :
  base = 10 ∨ base = 16 → is_i32 xx →
  let neg := negb (sign =? 0) && (xx <? 0) in
  let spelled digits ds := (if neg then [minus] else []) ++ (digit_char digits <$> ds) in
  ∃ ds,
    printint xx base sign = Some (spelled kdigits ds) ∧
    uprintint xx base sign = Some (spelled udigits ds) ∧
    numeral base ds = (if neg then - xx else u32 xx) ∧
    Forall (λ d, 0 ≤ d < base) ds ∧ ds ≠ [] ∧ (head ds = Some 0 → ds = [0]) ∧
    (length ds ≤ 10)%nat ∧
    (base = 10 → 0 ≤ xx → atoi (spelled udigits ds) = xx).
Proof.
  intros Hb Hxx neg spelled.
  assert (neg = true → xx < 0) as Hneg by (subst neg; destruct (xx <? 0) eqn:E; [lia | by destruct (sign =? 0)]).
  destruct (printed xx base neg) as (ds & Hrun & Hv & Hr & Hne & Hz & Hl); [done.. |].
  exists ds. split; [by apply (Hrun kdigits) |]. split.
  { etrans; [| exact (Hrun udigits eq_refl)]. unfold uprintint. fold neg. by destruct neg. }
  split_and!; try done. intros -> Hpos. subst spelled. cbn beta.
  assert (neg = false) as -> by (subst neg; destruct (Z.ltb_spec xx 0); [lia | by destruct (sign =? 0)]).
  rewrite u32_id in Hv by (unfold is_i32, is_u32 in *; lia).
  unfold atoi. cbn [app]. rewrite (atoi_digits udigits); [exact Hv | done.. |].
  change (numeral 10 ds < 2 ^ 31). rewrite Hv. unfold is_i32 in Hxx. lia.
Qed.

(** ** The two printers against one reference *)

(** A format is a sequence of characters to copy and of conversions; a [%] at
    the end converts nothing. *)
Inductive piece := Lit (c : Z) | Conv (c : Z).
Fixpoint pieces (fmt : list Z) : list piece :=
  match fmt with
  | [] => []
  | c :: fmt =>
      if c =? 0 then [] else
      if negb (c =? percent) then Lit c :: pieces fmt else
      match fmt with
      | [] => []
      | c :: fmt => if c =? 0 then [] else Conv c :: pieces fmt
      end
  end.

(** A printer: the conversions of a word it knows, and how it prints them. *)
Record printer := mkPrinter { knows : Z → bool; prints : Z → Z → option (list Z) }.
Definition convert (P : printer) (c : Z) (args : list parg) : option (list Z * list parg) :=
  if c =? percent then Some ([percent], args) else
  if c =? 115 then next_str args else
  if negb (knows P c) then Some ([percent; c], args) else
  '(w, args) ← next_word args; p ← prints P c w; Some (p, args).
Fixpoint render (P : printer) (ps : list piece) (args : list parg) : option (list Z) :=
  match ps with
  | [] => Some []
  | Lit c :: ps => o ← render P ps args; Some (c :: o)
  | Conv c :: ps =>
      '(p, args) ← convert P c args;
      o ← render P ps args; Some (p ++ o)
  end.

(** [%d] in decimal, [%x] and [%p] in hexadecimal; [%c] only for users. *)
Definition is_num (c : Z) : bool := (c =? 100) || (c =? 120) || (c =? 112).
Definition kprinter : printer := mkPrinter is_num (λ c w,
  if c =? 100 then printint (i32 w) 10 1 else printint (i32 w) 16 0).
Definition uprinter : printer := mkPrinter (λ c, is_num c || (c =? 99)) (λ c w,
  if c =? 100 then uprintint (i32 w) 10 1 else
  if c =? 99 then Some [u8 w] else uprintint (i32 w) 16 0).

Lemma list_pair_ind {A} (P : list A → Prop) :
  P [] → (∀ x, P [x]) → (∀ x y l, P l → P (y :: l) → P (x :: y :: l)) → ∀ l, P l.
Proof.
  intros H0 H1 H2 l. enough (P l ∧ ∀ x, P (x :: l)) as [? _] by done.
  induction l as [| y l [IH1 IH2]]; [done |]. split; [done |]. intros x. by apply H2.
Qed.

#[local] Arguments printint : simpl never.
#[local] Arguments uprintint : simpl never.
#[local] Arguments next_word : simpl never.
#[local] Arguments next_str : simpl never.

Lemma cprintf_renders fmt args :
  cprintf_loop fmt args = render kprinter (pieces fmt) args.
Proof.
  revert args. induction fmt as [| c | c d fmt IH1 IH2] using list_pair_ind;
    intros args; [done | |].
  - cbn.
    destruct (Z.eqb_spec c 0); [done |]. by destruct (c =? percent).
  - cbn [cprintf_loop pieces]. destruct (Z.eqb_spec c 0); [done |].
    destruct (Z.eqb_spec c percent) as [-> | Hp]; cbn [negb].
    2: { cbn [render]. rewrite <- IH2. done. }
    destruct (Z.eqb_spec d 0); [done |].
    cbn [render]. unfold convert. cbn [knows prints kprinter]. unfold is_num.
    destruct (Z.eqb_spec d 100) as [-> |]; cbn.
    { destruct (next_word args) as [[w args'] |]; cbn; [| done].
      destruct (printint _ _ _); cbn; [by rewrite IH1 | done]. }
    destruct (Z.eqb_spec d 115) as [-> |]; cbn.
    { destruct (next_str args) as [[w args'] |]; cbn; [by rewrite IH1 | done]. }
    destruct ((d =? 120) || (d =? 112)) eqn:Ex.
    { destruct (Z.eqb_spec d percent) as [-> |]; [done |]. cbn.
      destruct (next_word args) as [[w args'] |]; cbn; [| done].
      destruct (printint _ _ _); cbn; [by rewrite IH1 | done]. }
    cbn. rewrite IH1. by destruct (Z.eqb_spec d percent).
Qed.

Lemma printf_renders fmt args :
  printf_loop 0 fmt args = render uprinter (pieces fmt) args.
Proof.
  revert args. induction fmt as [| c | c d fmt IH1 IH2] using list_pair_ind;
    intros args; [done | |].
  - cbn.
    destruct (Z.eqb_spec c 0); [done |]. by destruct (c =? percent).
  - cbn [printf_loop pieces]. destruct (Z.eqb_spec c 0); [done |]. cbn [Z.eqb].
    destruct (Z.eqb_spec c percent) as [-> | Hp]; cbn [negb].
    2: { cbn [render]. by rewrite <- IH2. }
    destruct (Z.eqb_spec d 0); [done |].
    cbn [render]. unfold convert. cbn [knows prints uprinter]. unfold is_num.
    destruct (Z.eqb_spec d 100) as [-> |]; cbn.
    { destruct (next_word args) as [[w args'] |]; cbn; [| done].
      destruct (uprintint _ _ _); cbn; [by rewrite IH1 | done]. }
    destruct (Z.eqb_spec d 115) as [-> |]; cbn.
    { destruct (next_str args) as [[w args'] |]; cbn; [by rewrite IH1 | done]. }
    destruct (Z.eqb_spec d 99) as [-> |]; cbn.
    { destruct (next_word args) as [[w args'] |]; cbn; [by rewrite IH1 | done]. }
    destruct ((d =? 120) || (d =? 112)) eqn:Ex.
    { destruct (Z.eqb_spec d percent) as [-> |]; [done |]. cbn.
      destruct (next_word args) as [[w args'] |]; cbn; [| done].
      destruct (uprintint _ _ _); cbn; [by rewrite IH1 | done]. }
    cbn. rewrite IH1. by destruct (Z.eqb_spec d percent) as [-> |].
Qed.

(** Up to the digits above 9 the two [printint]s are the same. *)
Lemma decimals_agree x : is_i32 x → uprintint x 10 1 = printint x 10 1.
Proof.
  intros Hx. unfold uprintint, printint. change (negb (1 =? 0)) with true. cbn [andb].
  destruct (printed x 10 (x <? 0)) as (ds & Hrun & _ & Hr & _); [by left | done | lia |].
  cbv zeta. rewrite (Hrun kdigits eq_refl).
  transitivity (Some ((if x <? 0 then [minus] else []) ++ (digit_char udigits <$> ds))).
  { rewrite <- (Hrun udigits eq_refl). by destruct (x <? 0). }
  do 2 f_equal. clear Hrun. induction Hr as [| d ds Hd _ IH]; [done |].
  cbn [fmap list_fmap]. f_equal; [| exact IH].
  transitivity (48 + d); [| symmetry]; by apply digit_char_dec.
Qed.

(** The conversions of a format that the printers do the same way. *)
Definition plain (p : piece) : Prop :=
  match p with Lit _ => True | Conv c => c ≠ 120 ∧ c ≠ 112 ∧ c ≠ 99 end.

Lemma render_agree ps args :
  Forall plain ps → render uprinter ps args = render kprinter ps args.
Proof.
  intros Hps. revert args. induction Hps as [| [c | c] ps Hc _ IH]; intros args; [done | |].
  - cbn [render]. by rewrite IH.
  - cbn [render]. enough (convert uprinter c args = convert kprinter c args) as ->.
    { destruct (convert kprinter c args) as [[p args'] |]; cbn; [by rewrite IH | done]. }
    destruct Hc as (H1 & H2 & H3). unfold convert. cbn [knows prints kprinter uprinter].
    unfold is_num. destruct (c =? percent); [done |]. destruct (c =? 115); [done |].
    apply Z.eqb_neq in H1, H2, H3. rewrite H1, H2, H3.
    destruct (Z.eqb_spec c 100); cbn [orb negb]; [| reflexivity].
    destruct (next_word args) as [[w args'] |]; cbn; [| reflexivity].
    rewrite decimals_agree by apply i32_range. reflexivity.
Qed.

(** the kernel's cprintf and the user library's printf, two separate loops
    (one looks ahead, the other keeps a state), print every format as the same
    reference does: characters are copied, [%d], [%x], [%p], [%s] and [%%]
    converted, [%c] only by printf, an unknown conversion shown as it is, a [%]
    at the end dropped; a format with none of [%x], [%p] and [%c] prints the same
    from both. *)
Theorem printers_agree fmt args :
  cprintf_chars fmt args = render kprinter (pieces (bytes fmt)) args ∧
  printf fmt args = render uprinter (pieces (bytes fmt)) args ∧
  (Forall plain (pieces (bytes fmt)) → printf fmt args = cprintf_chars fmt args).
Proof.
  unfold cprintf_chars, printf. rewrite cprintf_renders, printf_renders.
  split_and!; [done.. |]. apply render_agree.
Qed.

(** ** Witnesses *)
Lemma printint_denotes_witness :
  printint (-2147483648) 10 1 = Some (bytes "-2147483648") ∧
  numeral 10 [2; 1; 4; 7; 4; 8; 3; 6; 4; 8] = 2147483648 ∧
  ∃ ds, printint 48879 16 0 = Some (digit_char kdigits <$> ds) ∧
    uprintint 48879 16 0 = Some (digit_char udigits <$> ds) ∧ numeral 16 ds = 48879.
Proof.
  split; [reflexivity |]. split; [reflexivity |].
  destruct (printint_denotes 48879 16 0) as (ds & Hk & Hu & Hv & _).
  - by right.
  - unfold is_i32. lia.
  - exists ds. split; [exact Hk |]. split; [exact Hu |]. rewrite Hv. reflexivity.
Defined.
Lemma printers_agree_witness :
  printf "pid %d: %s %%" [PInt 7; PStr (bytes "sh")] = Some (bytes "pid 7: sh %") ∧
  printf "pid %d: %s %%" [PInt 7; PStr (bytes "sh")] =
    cprintf_chars "pid %d: %s %%" [PInt 7; PStr (bytes "sh")] ∧
  printf "%x %c %q" [PInt 175; PInt 65] = Some (bytes "AF A %q") ∧
  cprintf_chars "%x %c %q" [PInt 175; PInt 65] = Some (bytes "af %c %q").
Proof.
  split; [reflexivity |]. split; [| split; reflexivity].
  apply (printers_agree "pid %d: %s %%").
  repeat constructor; done.
Defined.
