(* ===== verification/Console.v ===== *)
(** * console.c and uart.c: what the kernel prints and where characters come from

    The hardware behind the I/O ports is a parameter: what reading a port
    delivers is any function of the port and of the input and output so far
    ([k_out]).  The screen is the CGA memory, part of [k_mem].

    [panicked] is not modelled: a [panic] ends the run ([Panic]), and no other
    CPU prints after it. *)
From S2P Require Import Prelude Mmu Cstring Kstate Spinlock Kalloc Vm Proc Sleeplock Bio Fs Pipe Printf Trap.

Class Ports := port_in : list outev → Z → Z.

Definition COM1 : Z := 0x3f8.
Definition CRTPORT : Z := 0x3d4.
Definition BACKSPACE : Z := 0x100.
Definition INPUT_BUF : Z := 128.
Definition CONSOLE : Z := 1.
(** [C('X')]: the control character of a letter. *)
Definition Ctl (c : Z) : Z := c - 64.
(** CGA memory *)
Definition crt : Z := P2V 0xb8000.

Section console.
Context {LK : Linker} {FU : Fuel} {BD : BlockDev} {HW : Ports}.

(** x86.h *)
Definition inb (port : Z) : K Z :=
  h ← gets k_out;
  let v := u8 (port_in h port) in
  modify (λ s, s <| k_out ::= cons (Inb port v) |>);;
  mret v.

(** ** ioapic.c *)
Definition ioapic : Z := 0xFEC00000.
Definition ioapicwrite (reg data : Z) : K unit :=
  modify (λ s, s <| k_out ::= cons (Outm ioapic reg) |>);;
  modify (λ s, s <| k_out ::= cons (Outm (ioapic + 16) data) |>).
Definition ioapicenable (irq cpunum : Z) : K unit :=
  ioapicwrite (0x10 + 2 * irq) (T_IRQ0 + irq);;
  ioapicwrite (0x10 + 2 * irq + 1) (u32 (Z.shiftl cpunum 24)).

(** ** uart.c *)

(** [for(i = 0; i < 128 && !(inb(COM1+5) & 0x20); i++) microdelay(10);], where
    [microdelay] (lapic.c) has an empty body. *)
Fixpoint uart_wait (n : nat) : K unit :=
  match n with
  | O => mret tt
  | S n =>
      st ← inb (COM1 + 5);
      if Z.land st 0x20 =? 0 then uart_wait n else mret tt
  end.
Definition uartputc (c : Z) : K unit :=
  uart ← gets (λ s, cn_uart (k_cons s));
  if negb uart then mret tt else
  uart_wait 128;;
  outb COM1 (u8 c).
Definition uartgetc : K Z :=
  uart ← gets (λ s, cn_uart (k_cons s));
  if negb uart then mret (-1) else
  st ← inb (COM1 + 5);
  if Z.land st 1 =? 0 then mret (-1) else inb COM1.

Definition uartinit : K unit :=
  outb (COM1 + 2) 0;;
  outb (COM1 + 3) 0x80;;
  outb (COM1 + 0) (115200 / 9600);;
  outb (COM1 + 1) 0;;
  outb (COM1 + 3) 3;;
  outb (COM1 + 4) 0;;
  outb (COM1 + 1) 1;;
  st ← inb (COM1 + 5);
  if st =? 0xFF then mret tt else
  modify (λ s, s <| k_cons ::= λ c, c <| cn_uart := true |> |>);;
  inb (COM1 + 2);; inb (COM1 + 0);;
  ioapicenable IRQ_COM1 0;;
  mforM uartputc (bytes "xv6..." ++ [10]).

(** ** The screen *)

(** [crt[pos] = v], for 16-bit cells. *)
Definition crt_put (pos v : Z) : K unit :=
  let a := crt + 2 * pos in
  modify (λ s, s <| k_mem ::= λ m, store8 (store8 m a v) (a + 1) (Z.shiftr v 8) |>).

(** cgaputc's reading of the cursor, its scrolling and its setting of the
    cursor. *)
Definition get_cursor : K Z :=
  outb CRTPORT 14;;
  hi ← inb (CRTPORT + 1);
  outb CRTPORT 15;;
  lo ← inb (CRTPORT + 1);
  mret (Z.lor (Z.shiftl hi 8) lo).
Definition scroll_up (pos : Z) : K Z :=
  if pos / 80 >=? 24 then
    modify (λ s, s <| k_mem ::= λ m, memmove m crt (crt + 2 * 80) (2 * 23 * 80) |>);;
    let pos := pos - 80 in
    modify (λ s, s <| k_mem ::= λ m, memset m (crt + 2 * pos) 0 (2 * (24 * 80 - pos)) |>);;
    mret pos
  else mret pos.
Definition set_cursor (pos : Z) : K unit :=
  outb CRTPORT 14;;
  outb (CRTPORT + 1) (u8 (Z.shiftr pos 8));;
  outb CRTPORT 15;;
  outb (CRTPORT + 1) (u8 pos).

Definition cgaputc (c : Z) : K unit :=
  pos ← get_cursor;
  pos ← (if c =? 10 then mret (pos + (80 - pos mod 80))
         else if c =? BACKSPACE then mret (if pos >? 0 then pos - 1 else pos)
         else crt_put pos (Z.lor (Z.land c 0xff) 0x0700);; mret (pos + 1));
  if (pos <? 0) || (pos >? 25 * 80) then panic "pos under/overflow" else
  pos ← scroll_up pos;
  set_cursor pos;;
  crt_put pos (Z.lor 32 0x0700).

Definition consputc (c : Z) : K unit :=
  (if c =? BACKSPACE then uartputc 8;; uartputc 32;; uartputc 8 else uartputc c);;
  cgaputc c.

(** cprintf, down to the devices: the characters of [Printf.cprintf_chars],
    sent one at a time under the console's lock.  (Elsewhere a call of cprintf
    is the event [Cprintf].) *)
Definition console_cprintf (fmt : string) (args : list parg) : K unit :=
  locking ← gets (λ s, cn_locking (k_cons s));
  mwhen locking (acquire LCons);;
  o ← deref "cprintf: bad argument" (cprintf_chars fmt args);
  mforM consputc o;;
  mwhen locking (release LCons).

(** ** Input: what is typed is edited in a ring until a line is complete *)

(** input.buf[i % INPUT_BUF] *)
Definition in_at (x : input_t) (i : Z) : Z := nth (Z.to_nat (i mod INPUT_BUF)) (in_buf x) 0.
Definition upd_input (f : input_t → input_t) : K unit := modify (λ s, s <| k_input ::= f |>).
Definition unput : K unit := upd_input (λ x, x <| in_e ::= λ e, u32 (e - 1) |>).

(** The loop of [C('U')]; [e - w] bounds its rounds. *)
Fixpoint kill_line (fuel : nat) : K unit :=
  x ← gets k_input;
  if negb (in_e x =? in_w x) && negb (in_at x (u32 (in_e x - 1)) =? 10) then
    match fuel with
    | O => fault "consoleintr: out of fuel"
    | S fuel => unput;; consputc BACKSPACE;; kill_line fuel
    end
  else mret tt.

(** The [switch] of consoleintr; [true]: list the processes afterwards. *)
Definition consolekey (c : Z) : K bool :=
  x ← gets k_input;
  if c =? Ctl 80 (* P *) then mret true else
  if c =? Ctl 85 (* U *) then kill_line (Z.to_nat (u32 (in_e x - in_w x)));; mret false else
  if (c =? Ctl 72 (* H *)) || (c =? 0x7f) then
    mwhen (negb (in_e x =? in_w x)) (unput;; consputc BACKSPACE);; mret false
  else
  if negb (c =? 0) && (u32 (in_e x - in_r x) <? INPUT_BUF) then
    let c := if c =? 13 then 10 else c in
    upd_input (λ x, x <| in_buf ::= <[Z.to_nat (in_e x mod INPUT_BUF) := u8 c]> |>
                      <| in_e ::= λ e, u32 (e + 1) |>);;
    consputc c;;
    x ← gets k_input;
    mwhen ((c =? 10) || (c =? Ctl 68 (* D *)) || (in_e x =? u32 (in_r x + INPUT_BUF)))
      (upd_input (λ x, x <| in_w := in_e x |>);; wakeup CInput);;
    mret false
  else mret false.

Fixpoint consoleintr_loop (fuel : nat) (getc : K Z) (doprocdump : bool) : K bool :=
  match fuel with
  | O => fault "consoleintr: out of fuel"
  | S fuel =>
      c ← getc;
      if c >=? 0 then
        d ← consolekey c;
        consoleintr_loop fuel getc (doprocdump || d)
      else mret doprocdump
  end.
Definition consoleintr (fuel : nat) (getc : K Z) : K unit :=
  acquire LCons;;
  doprocdump ← consoleintr_loop fuel getc false;
  release LCons;;
  mwhen doprocdump procdump.
Definition uartintr : K unit := consoleintr patience uartgetc.

(** ** Reading and writing the console as a device *)

(** Wait until there is a line; [false]: killed, the lock released and the
    inode locked again. *)
Fixpoint consoleread_wait (fuel : nat) (ip : nat) : K bool :=
  match fuel with
  | O => fault "consoleread: out of fuel"
  | S fuel =>
      x ← gets k_input;
      if in_r x =? in_w x then
        k ← cur_killed;
        if k : bool then release LCons;; ilock ip;; mret false
        else sleep CInput LCons;; consoleread_wait fuel ip
      else mret true
  end.
(** What is left of the count; [None]: killed. *)
Fixpoint consoleread_loop (fuel : nat) (ip : nat) (dst : Z) (n : nat) (target : Z) : K (option Z) :=
  match n with
  | O => mret (Some 0)
  | S n' =>
      ok ← consoleread_wait fuel ip;
      if negb ok then mret None else
      x ← gets k_input;
      let c := in_at x (in_r x) in
      upd_input (λ x, x <| in_r ::= λ r, u32 (r + 1) |>);;
      if c =? Ctl 68 then
        mwhen (Z.of_nat n <? target) (upd_input (λ x, x <| in_r ::= λ r, u32 (r - 1) |>));;
        mret (Some (Z.of_nat n))
      else
      stb dst c;;
      if c =? 10 then mret (Some (Z.of_nat n'))
      else consoleread_loop fuel ip (u32 (dst + 1)) n' target
  end.
Definition consoleread (ip : nat) (dst n : Z) : K Z :=
  iunlock ip;;
  let n := i32 n in
  let target := u32 n in
  acquire LCons;;
  left ← (if n >? 0 then consoleread_loop patience ip dst (Z.to_nat n) target
          else mret (Some n));
  match left with
  | None => mret (-1)
  | Some n =>
      release LCons;;
      ilock ip;;
      mret (i32 (target - n))
  end.

Fixpoint consolewrite_loop (buf : Z) (n : nat) : K unit :=
  match n with
  | O => mret tt
  | S n =>
      b ← ldb buf;
      consputc (Z.land b 0xff);;
      consolewrite_loop (u32 (buf + 1)) n
  end.
Definition consolewrite (ip : nat) (buf n : Z) : K Z :=
  iunlock ip;;
  acquire LCons;;
  consolewrite_loop buf (Z.to_nat (i32 n));;
  release LCons;;
  ilock ip;;
  mret (i32 n).

(** The statements of consoleinit after [initlock]; [devsw[CONSOLE]] is
    [console_devsw]. *)
Definition consoleinit : K unit :=
  modify (λ s, s <| k_cons ::= λ c, c <| cn_locking := true |> |>);;
  ioapicenable IRQ_KBD 0.
#[export] Instance console_devsw : DevSw := {|
  devsw_read m := if m =? CONSOLE then Some consoleread else None;
  devsw_write m := if m =? CONSOLE then Some consolewrite else None |}.
End console.

(** ** What reaches the serial line and the screen *)

(** The CGA controller: a register is selected at [CRTPORT] and read or written
    at [CRTPORT+1]; registers 14 and 15 hold the cursor's position.  [boot] is
    what the firmware left in them. *)
Fixpoint crt_index (h : list outev) : Z :=
  match h with
  | Outb p v :: h => if p =? CRTPORT then v else crt_index h
  | _ :: h => crt_index h
  | [] => 0
  end.
Fixpoint crt_reg (boot : Z → Z) (h : list outev) (r : Z) : Z :=
  match h with
  | Outb p v :: h =>
      if (p =? CRTPORT + 1) && (crt_index h =? r) then v else crt_reg boot h r
  | _ :: h => crt_reg boot h r
  | [] => boot r
  end.
Definition cursor (boot : Z → Z) (h : list outev) : Z :=
  u8 (crt_reg boot h 14) * 256 + u8 (crt_reg boot h 15).
(** Documented behaviour of the adapter: a register reads back as written. *)
Definition cga_law (boot : Z → Z) (P : Ports) : Prop :=
  ∀ h, port_in h (CRTPORT + 1) = crt_reg boot h (crt_index h).

(** The character in a cell of the screen. *)
Definition cell (m : mem) (k : Z) : Z := load8 m (crt + 2 * k).
Definition on_screen (a : Z) : Prop := crt ≤ a < crt + 2 * 25 * 80.

(** What was sent through the serial line, in order. *)
Definition sent (e : outev) : option Z :=
  match e with Outb p v => if p =? COM1 then Some v else None | _ => None end.
Definition serial (h : list outev) : list Z := rev (omap sent h).

(** The input and output of [consputc]. *)
Definition echo_ev (e : outev) : Prop :=
  match e with
  | Outb p _ => p = COM1 ∨ p = CRTPORT ∨ p = CRTPORT + 1
  | Inb p _ => p = COM1 + 5 ∨ p = CRTPORT + 1
  | _ => False
  end.

(** Where the cursor goes. *)
Definition cga_pos (c pos : Z) : Z :=
  let pos := if c =? 10 then pos + (80 - pos mod 80)
             else if c =? BACKSPACE then (if pos >? 0 then pos - 1 else pos)
             else pos + 1 in
  if pos / 80 >=? 24 then pos - 80 else pos.

#[global] Arguments serial : simpl never.
#[global] Arguments cursor : simpl never.

Lemma crt_data boot v h r :
  crt_reg boot (Outb (CRTPORT + 1) v :: h) r = if crt_index h =? r then v else crt_reg boot h r.
Proof. reflexivity. Qed.
Lemma crt_select boot v h r : crt_reg boot (Outb CRTPORT v :: h) r = crt_reg boot h r.
Proof. reflexivity. Qed.
Lemma crt_selected v h : crt_index (Outb CRTPORT v :: h) = v.
Proof. reflexivity. Qed.
Lemma crt_still v h : crt_index (Outb (CRTPORT + 1) v :: h) = crt_index h.
Proof. reflexivity. Qed.

Lemma serial_app o h : serial (o ++ h) = serial h ++ serial o.
Proof. unfold serial. by rewrite omap_app, rev_app_distr. Qed.

Lemma cga_pos_range c pos : 0 ≤ pos < 1920 → 0 ≤ cga_pos c pos < 1920.
Proof.
  intros Hp. unfold cga_pos. cbv zeta.
  set (p := if c =? 10 then _ else _).
  assert (0 ≤ p ≤ 1920) as Hr.
  { subst p. destruct (c =? 10); [zlia |]. destruct (c =? BACKSPACE); [| lia].
    destruct (pos >? 0) eqn:E; lia. }
  destruct (p / 80 >=? 24) eqn:E; zlia.
Qed.

Lemma cell_put m pos v k :
  cell (store8 (store8 m (crt + 2 * pos) v) (crt + 2 * pos + 1) (Z.shiftr v 8)) k =
    if decide (k = pos) then u8 v else cell m k.
Proof.
  unfold cell. rewrite load8_store8_ne by lia. case_decide as Hk.
  - subst. apply load8_store8_eq.
  - apply load8_store8_ne. lia.
Qed.

Section output.
Context {HW : Ports} (boot : Z → Z) (CGA : cga_law boot HW).

Lemma inb_run port s :
  inb port s =
    Done (u8 (port_in (k_out s) port))
      (s <| k_out ::= cons (Inb port (u8 (port_in (k_out s) port))) |>).
Proof. done. Qed.

Lemma read_reg {B} r (f : Z → K B) s :
  (outb CRTPORT r;; x ← inb (CRTPORT + 1); f x) s =
    f (u8 (crt_reg boot (k_out s) r))
      (s <| k_out ::= λ h, Inb (CRTPORT + 1) (u8 (crt_reg boot (k_out s) r)) :: Outb CRTPORT r :: h |>).
Proof.
  unfold outb. rewrite bind_modify. rewrite (bind_done _ _ _ _ _ (inb_run _ _)).
  cbn. by rewrite CGA.
Qed.

Lemma get_cursor_run s :
  ∃ o, get_cursor s = Done (cursor boot (k_out s)) (s <| k_out := o ++ k_out s |>) ∧
    Forall echo_ev o ∧ omap sent o = [].
Proof.
  set (hi := u8 (crt_reg boot (k_out s) 14)). set (lo := u8 (crt_reg boot (k_out s) 15)).
  exists [Inb (CRTPORT + 1) lo; Outb CRTPORT 15; Inb (CRTPORT + 1) hi; Outb CRTPORT 14].
  split; [| split; [repeat constructor; cbn; tauto | done]].
  unfold get_cursor. rewrite read_reg, read_reg. unfold mret, M_ret. f_equal.
  unfold cursor. rewrite Z.shiftl_mul_pow2 by lia. apply (lor_disjoint_add _ _ 8); [lia | |].
  - apply Z.mod_mul. lia.
  - apply u8_range.
Qed.

Lemma set_cursor_run pos s :
  0 ≤ pos < 2 ^ 16 →
  ∃ o, set_cursor pos s = Done tt (s <| k_out := o ++ k_out s |>) ∧
    cursor boot (o ++ k_out s) = pos ∧ Forall echo_ev o ∧ omap sent o = [].
Proof.
  intros Hp.
  exists [Outb (CRTPORT + 1) (u8 pos); Outb CRTPORT 15; Outb (CRTPORT + 1) (u8 (Z.shiftr pos 8));
          Outb CRTPORT 14].
  split; [done |]. split; [| split; [repeat constructor; cbn; tauto | done]].
  cbn [app]. unfold cursor.
  repeat rewrite ?crt_data, ?crt_select, ?crt_still, ?crt_selected.
  cbn [Z.eqb Pos.eqb]. rewrite Z.shiftr_div_pow2 by lia.
  change (2 ^ 16) with 65536 in Hp. change (2 ^ 8) with 256. unfold u8. zlia.
Qed.

Lemma scroll_up_run pos s :
  0 ≤ pos ≤ 1920 →
  let pos' := if pos / 80 >=? 24 then pos - 80 else pos in
  ∃ m, scroll_up pos s = Done pos' (s <| k_mem := m |>) ∧
    (∀ a, ¬ on_screen a → load8 m a = load8 (k_mem s) a) ∧
    (∀ k, pos - pos' ≤ k < pos → cell m (k - (pos - pos')) = cell (k_mem s) k).
Proof.
  intros Hp pos'. unfold scroll_up, pos'. destruct (pos / 80 >=? 24) eqn:E.
  - eexists. split; [unfold modify, mbind, M_bind, mret, M_ret; cbn; f_equal; kst_eq |].
    assert (pos = 1920) as -> by zlia. kproj k_mem. split.
    + intros a Ha. unfold on_screen in Ha. rewrite memset_load8 by lia.
      rewrite decide_False by lia. rewrite memmove_load8 by lia. by rewrite decide_False by lia.
    + intros k Hk. unfold cell. rewrite memset_load8 by lia.
      rewrite decide_False by lia. rewrite memmove_load8 by lia. rewrite decide_True by lia.
      f_equal. lia.
  - exists (k_mem s). split; [unfold mret, M_ret; f_equal; kst_eq |]. split; [done |].
    intros k _. f_equal. lia.
Qed.

(** One character on the screen: the cursor moves and stays on the screen; a
    character appears before it, after what was there; nothing but the screen's
    memory and the adapter's registers is touched. *)
Lemma cgaputc_run c s :
  let pos := cursor boot (k_out s) in
  let pos' := cga_pos c pos in
  pos < 1920 →
  ∃ m o, cgaputc c s = Done tt (s <| k_mem := m |> <| k_out := o ++ k_out s |>) ∧
    cursor boot (o ++ k_out s) = pos' ∧ Forall echo_ev o ∧ omap sent o = [] ∧
    (∀ a, ¬ on_screen a → load8 m a = load8 (k_mem s) a) ∧
    (c ≠ 10 → c ≠ BACKSPACE → ∀ k, pos + 1 - pos' ≤ k ≤ pos →
       cell m (k - (pos + 1 - pos')) = if decide (k = pos) then u8 c else cell (k_mem s) k).
Proof.
  intros pos pos' Hpos. unfold cgaputc.
  assert (0 ≤ pos) as Hpos0.
  { unfold pos, cursor. pose proof (u8_range (crt_reg boot (k_out s) 14)).
    pose proof (u8_range (crt_reg boot (k_out s) 15)). lia. }
  destruct (get_cursor_run s) as (o1 & Hg & He1 & Hs1). rewrite (bind_done _ _ _ _ _ Hg). fold pos.
  set (p := if c =? 10 then pos + (80 - pos mod 80)
             else if c =? BACKSPACE then (if pos >? 0 then pos - 1 else pos)
             else pos + 1).
  set (m1 := if (c =? 10) || (c =? BACKSPACE) then k_mem s else
    let v := Z.lor (Z.land c 0xff) 0x0700 in
    store8 (store8 (k_mem s) (crt + 2 * pos) v) (crt + 2 * pos + 1) (Z.shiftr v 8)).
  erewrite (bind_done _ _ _ p (s <| k_mem := m1 |> <| k_out := o1 ++ k_out s |>)).
  2: { subst p m1. destruct (c =? 10); [cbn [orb]; unfold mret, M_ret; f_equal; kst_eq |].
       destruct (c =? BACKSPACE); [cbn [orb]; unfold mret, M_ret; f_equal; kst_eq |].
       unfold crt_put, modify, mbind, M_bind, mret, M_ret. cbn. f_equal; kst_eq. }
  assert (0 ≤ p ≤ 1920) as Hp.
  { subst p. destruct (c =? 10); [zlia |]. destruct (c =? BACKSPACE); [| lia].
    destruct (pos >? 0) eqn:E; lia. }
  assert (∀ a, ¬ on_screen a → load8 m1 a = load8 (k_mem s) a) as Hm1.
  { intros a Ha. unfold on_screen in Ha. subst m1. destruct (_ || _); [done |].
    cbv zeta. by rewrite !load8_store8_ne by lia. }
  assert (c ≠ 10 → c ≠ BACKSPACE → p = pos + 1 ∧
    ∀ k, cell m1 k = if decide (k = pos) then u8 c else cell (k_mem s) k) as Hc1.
  { intros Hn Hb. apply Z.eqb_neq in Hn, Hb. subst p m1. rewrite Hn, Hb. split; [done |].
    intros k. cbn [orb]. cbv zeta. rewrite cell_put. case_decide; [| done].
    change 0xff with (2 ^ 8 - 1). rewrite land_low_mask by lia.
    rewrite Z.lor_comm, (lor_disjoint_add _ _ 8); [| lia | done | apply Z.mod_pos_bound; lia].
    unfold u8. change (2 ^ 8) with 256. zlia. }
  clearbody m1.
  destruct (Z.ltb_spec p 0); [lia |]. destruct (p >? 25 * 80) eqn:E; [lia |]. clear E. cbn [orb].
  destruct (scroll_up_run p (s <| k_mem := m1 |> <| k_out := o1 ++ k_out s |>) Hp)
    as (m2 & Hsc & Ho2 & Hc2). rewrite (bind_done _ _ _ _ _ Hsc).
  change (if p / 80 >=? 24 then p - 80 else p) with pos' in *.
  assert (0 ≤ pos' < 1920) as Hpos' by (by apply cga_pos_range).
  destruct (set_cursor_run pos' (s <| k_mem := m2 |> <| k_out := o1 ++ k_out s |>))
    as (o2 & Hset & Hcur & He2 & Hs2); [lia |].
  rewrite (bind_done _ _ _ _ _ Hset). cbn [k_out set set_k_out set_k_mem] in *.
  eexists _, (o2 ++ o1). split; [unfold crt_put, modify; f_equal; kst_eq; by rewrite app_assoc |].
  rewrite <- app_assoc. split; [done |]. split; [by apply Forall_app |].
  split; [by rewrite omap_app, Hs1, Hs2 |]. split.
  - intros a Ha. unfold on_screen in Ha. rewrite !load8_store8_ne by lia.
    rewrite Ho2 by done. by apply Hm1.
  - intros Hn Hb k Hk. destruct (Hc1 Hn Hb) as [Ep Hcell]. rewrite cell_put.
    rewrite decide_False by lia. rewrite <- Ep, Hc2 by lia. apply Hcell.
Qed.

(** ** The serial line *)
Definition serial_ev (e : outev) : Prop :=
  match e with Outb p _ => p = COM1 | Inb p _ => p = COM1 + 5 | _ => False end.
Lemma serial_echo o : Forall serial_ev o → Forall echo_ev o.
Proof. intros H. apply (Forall_impl _ _ _ H). intros []; cbn; tauto. Qed.
Lemma serial_cursor o h : Forall serial_ev o → cursor boot (o ++ h) = cursor boot h.
Proof.
  intros Ho. enough (∀ r, crt_reg boot (o ++ h) r = crt_reg boot h r) as E.
  { unfold cursor. by rewrite !E. }
  intros r. induction Ho as [| e o He _ IH]; [done |].
  destruct e; try done. cbn in He. subst. exact IH.
Qed.
Lemma uart_wait_run n s :
  ∃ o, uart_wait n s = Done tt (s <| k_out := o ++ k_out s |>) ∧
    Forall serial_ev o ∧ omap sent o = [].
Proof.
  revert s. induction n as [| n IH]; intros s; cbn [uart_wait].
  - exists []. split; [unfold mret, M_ret; f_equal; kst_eq | done].
  - rewrite (bind_done _ _ _ _ _ (inb_run _ _)).
    set (e := Inb _ _). destruct (Z.land _ _ =? 0).
    + destruct (IH (s <| k_out ::= cons e |>)) as (o & -> & He & Hs). exists (o ++ [e]).
      split; [f_equal; kst_eq; by rewrite <- app_assoc |]. rewrite omap_app, Hs.
      split; [| done]. apply Forall_app. split; [done |]. repeat constructor.
    + exists [e]. split; [unfold mret, M_ret; f_equal; kst_eq |]. split; [| done].
      repeat constructor.
Qed.

Lemma uartputc_run c s :
  ∃ o, uartputc c s = Done tt (s <| k_out := o ++ k_out s |>) ∧ Forall serial_ev o ∧
    serial o = if cn_uart (k_cons s) then [u8 c] else [].
Proof.
  unfold uartputc. rewrite bind_gets. destruct (cn_uart (k_cons s)); cbn [negb].
  - destruct (uart_wait_run 128 s) as (o & Hw & He & Hs). rewrite (bind_done _ _ _ _ _ Hw).
    exists (Outb COM1 (u8 c) :: o). split; [unfold outb, modify; f_equal; kst_eq |].
    split; [constructor; done |]. unfold serial. cbn. by rewrite Hs.
  - exists []. split; [unfold mret, M_ret; f_equal; kst_eq | done].
Qed.

(** ** The whole console *)

(** From [s] to [s'], the bytes [l] went to the console: through the serial
    line if there is one; of the state only the screen changed. *)
Record prints (s : kst) (l : list Z) (s' : kst) : Prop := {
  pr_state : s' = s <| k_mem := k_mem s' |> <| k_out := k_out s' |>;
  pr_out : ∃ o, k_out s' = o ++ k_out s ∧ Forall echo_ev o;
  pr_serial : serial (k_out s') = serial (k_out s) ++ if cn_uart (k_cons s) then l else [];
  pr_cursor : cursor boot (k_out s') < 1920;
  pr_mem : ∀ a, ¬ on_screen a → load8 (k_mem s') a = load8 (k_mem s) a }.

Lemma prints_refl s : cursor boot (k_out s) < 1920 → prints s [] s.
Proof.
  intros Hc. split; [kst_eq | exists []; done | | done | done].
  destruct (cn_uart _); by rewrite app_nil_r.
Qed.
Lemma prints_trans s1 s2 s3 l1 l2 :
  prints s1 l1 s2 → prints s2 l2 s3 → prints s1 (l1 ++ l2) s3.
Proof.
  intros [E1 (o1 & Ho1 & He1) S1 C1 M1] [E2 (o2 & Ho2 & He2) S2 C2 M2].
  assert (k_cons s2 = k_cons s1) as Hcons by (by rewrite E1). split.
  - rewrite E2, E1. kst_eq.
  - exists (o2 ++ o1). rewrite Ho2, Ho1, <- app_assoc. split; [done | by apply Forall_app].
  - rewrite S2, S1, Hcons, <- app_assoc. by destruct (cn_uart _).
  - done.
  - intros a Ha. by rewrite M2, M1.
Qed.

(** What a call of [consputc] sends. *)
Definition echo (c : Z) : list Z := if c =? BACKSPACE then [8; 32; 8] else [u8 c].

Lemma uartputc_prints c s :
  cursor boot (k_out s) < 1920 →
  ∃ s', uartputc c s = Done tt s' ∧ prints s [u8 c] s' ∧
    cursor boot (k_out s') = cursor boot (k_out s) ∧ k_mem s' = k_mem s.
Proof.
  intros Hc. destruct (uartputc_run c s) as (o & Hr & Ho & Hs). eexists. split; [exact Hr |].
  cbn. rewrite serial_cursor by done. split; [| done]. split; cbn.
  - kst_eq.
  - exists o. split; [done | by apply serial_echo].
  - by rewrite serial_app, Hs.
  - by rewrite serial_cursor.
  - done.
Qed.

(** The characters in the cells before the cursor. *)
Definition shown (s : kst) (l : list Z) : Prop :=
  let pos := cursor boot (k_out s) in
  Z.of_nat (length l) ≤ pos ∧
  ∀ i c, l !! i = Some c → cell (k_mem s) (pos - Z.of_nat (length l) + Z.of_nat i) = c.
(** A byte that takes a cell: not the end of a line. *)
Definition glyph (c : Z) : Prop := 0 ≤ c < 256 ∧ c ≠ 10.
(** From [s] to [s'], [l] was appended to what is shown; 23 lines stay. *)
Definition shows (s : kst) (l : list Z) (s' : kst) : Prop :=
  Forall glyph l → ∀ l0, shown s l0 → Z.of_nat (length l0 + length l) ≤ 1840 → shown s' (l0 ++ l).

Lemma cursor_nonneg h : 0 ≤ cursor boot h.
Proof.
  unfold cursor. pose proof (u8_range (crt_reg boot h 14)).
  pose proof (u8_range (crt_reg boot h 15)). lia.
Qed.

Lemma shown_same s s' l :
  cursor boot (k_out s') = cursor boot (k_out s) → k_mem s' = k_mem s → shown s l → shown s' l.
Proof. unfold shown. by intros -> ->. Qed.

Lemma cgaputc_prints c s :
  cursor boot (k_out s) < 1920 → ∃ s', cgaputc c s = Done tt s' ∧ prints s [] s' ∧ shows s [c] s'.
Proof.
  intros Hc. destruct (cgaputc_run c s Hc) as (m & o & Hr & Hcur & Ho & Hs & Hm & Hcell).
  pose proof (cursor_nonneg (k_out s)) as Hc0.
  eexists. split; [exact Hr |]. split; [split; cbn |].
  - kst_eq.
  - by exists o.
  - rewrite serial_app. unfold serial at 2. rewrite Hs. by destruct (cn_uart _).
  - rewrite Hcur. by apply cga_pos_range.
  - done.
  - intros Hg l0 [Hlen Hl0] Hroom. apply Forall_singleton in Hg as [Hb Hn].
    cbn [length] in Hroom. unfold shown. cbn. rewrite Hcur, length_app.
    set (pos := cursor boot (k_out s)) in *.
    assert (c ≠ BACKSPACE) as Hbs by (unfold BACKSPACE; lia).
    specialize (Hcell Hn Hbs).
    assert (pos + 1 - cga_pos c pos = 0 ∨ pos + 1 - cga_pos c pos = 80 ∧ pos = 1919) as Hd.
    { unfold cga_pos. cbv zeta. apply Z.eqb_neq in Hn, Hbs. rewrite Hn, Hbs.
      destruct ((pos + 1) / 80 >=? 24) eqn:E; [right | left]; zlia. }
    cbn [length]. split; [lia |]. intros i d Hi.
    replace (cga_pos c pos - Z.of_nat (length l0 + 1) + Z.of_nat i)
      with (pos - Z.of_nat (length l0) + Z.of_nat i - (pos + 1 - cga_pos c pos)) by lia.
    pose proof (lookup_lt_Some _ _ _ Hi) as Hlt. rewrite length_app in Hlt. cbn in Hlt.
    rewrite Hcell by lia. apply lookup_app_Some in Hi as [Hi | [Hge Hi]].
    + pose proof (lookup_lt_Some _ _ _ Hi). rewrite decide_False by lia. by apply Hl0.
    + apply list_lookup_singleton_Some in Hi as [Hi ->].
      rewrite decide_True by lia. by apply u8_id.
Qed.

Lemma consputc_prints c s :
  cursor boot (k_out s) < 1920 →
  ∃ s', consputc c s = Done tt s' ∧ prints s (echo c) s' ∧ shows s [c] s'.
Proof.
  intros Hc. unfold consputc, echo.
  assert (∃ s', (if c =? BACKSPACE then uartputc 8;; uartputc 32;; uartputc 8 else uartputc c) s
    = Done tt s' ∧ prints s (if c =? BACKSPACE then [8; 32; 8] else [u8 c]) s' ∧
    cursor boot (k_out s') = cursor boot (k_out s) ∧ k_mem s' = k_mem s)
    as (s1 & H1 & P1 & C1 & M1).
  { destruct (c =? BACKSPACE); [| by apply uartputc_prints].
    destruct (uartputc_prints 8 s) as (s1 & H1 & P1 & C1 & M1); [done |].
    destruct (uartputc_prints 32 s1) as (s2 & H2 & P2 & C2 & M2); [apply P1 |].
    destruct (uartputc_prints 8 s2) as (s3 & H3 & P3 & C3 & M3); [apply P2 |].
    exists s3. rewrite (bind_done _ _ _ _ _ H1), (bind_done _ _ _ _ _ H2). split; [done |].
    split; [exact (prints_trans _ _ _ _ _ P1 (prints_trans _ _ _ _ _ P2 P3)) |].
    by rewrite C3, C2, C1, M3, M2, M1. }
  rewrite (bind_done _ _ _ _ _ H1).
  destruct (cgaputc_prints c s1) as (s2 & H2 & P2 & S2); [apply P1 |]. exists s2.
  split; [done |]. split.
  - rewrite <- (app_nil_r (if _ =? _ then _ else _)). by apply (prints_trans _ s1).
  - intros Hg l0 Hl0 Hroom. apply S2; [done | by apply (shown_same s) | done].
Qed.

Lemma mforM_prints l s :
  cursor boot (k_out s) < 1920 →
  ∃ s', mforM consputc l s = Done tt s' ∧ prints s (concat (echo <$> l)) s' ∧ shows s l s'.
Proof.
  revert s. induction l as [| c l IH]; intros s Hc; cbn [mforM].
  - exists s. split; [done |]. split; [by apply prints_refl |].
    intros _ l0 Hl0 _. by rewrite app_nil_r.
  - destruct (consputc_prints c s Hc) as (s1 & H1 & P1 & S1). rewrite (bind_done _ _ _ _ _ H1).
    destruct (IH s1) as (s2 & H2 & P2 & S2); [apply P1 |]. exists s2. split; [done |].
    split; [by apply (prints_trans _ s1) |].
    intros [Hg Hgs]%Forall_cons l0 Hl0 Hroom. cbn [length] in Hroom.
    rewrite (cons_middle c l0 l), app_assoc.
    apply S2; [done | | rewrite length_app; cbn; lia].
    apply S1; [by constructor | done | cbn; lia].
Qed.

Lemma echo_bytes l : Forall (λ c, 0 ≤ c < 256) l → concat (echo <$> l) = l.
Proof.
  induction 1 as [| c l Hc _ IH]; [done |]. cbn. rewrite IH. unfold echo, BACKSPACE.
  destruct (Z.eqb_spec c 256); [lia |]. by rewrite u8_id.
Qed.

(** what cprintf formats is what comes out.  With the console's lock free and
    the cursor on the screen, the run ends normally, with every lock as it
    was; the serial line carries exactly the formatted bytes; on the screen
    the cursor stays, the text (up to 23 lines of it) stands before the cursor
    whatever scrolled, and no memory outside the screen's changes. *)
Theorem cprintf_comes_out fmt args s o :
  cpu_ok (k_cpu s) → LCons ∉ k_held s → cursor boot (k_out s) < 1920 →
  cprintf_chars fmt args = Some o → Forall (λ c, 0 ≤ c < 256) o →
  ∃ s', console_cprintf fmt args s = Done tt s' ∧ k_held s' = k_held s ∧
    k_procs s' = k_procs s ∧ ncli (k_cpu s') = ncli (k_cpu s) ∧
    serial (k_out s') = serial (k_out s) ++ (if cn_uart (k_cons s) then o else []) ∧
    cursor boot (k_out s') < 1920 ∧
    (∀ a, ¬ on_screen a → load8 (k_mem s') a = load8 (k_mem s) a) ∧
    (10 ∉ o → Z.of_nat (length o) ≤ 1840 → shown s' o).
Proof.
  intros Hcpu Hl Hcur Ho Hb. unfold console_cprintf. rewrite bind_gets.
  assert (Forall glyph o ∨ 10 ∈ o) as Hg.
  { destruct (decide (10 ∈ o)) as [| Hn]; [by right | left].
    apply Forall_forall. intros c Hc. split; [by eapply Forall_forall in Hb |]. congruence. }
  destruct (cn_locking (k_cons s)); cbn [mwhen].
  - rewrite acquire_bind, Ho by done. cbn [deref]. rewrite bind_ret.
    destruct (mforM_prints o (locked LCons s)) as (s2 & H2 & P2 & S2); [done |].
    rewrite (bind_done _ _ _ _ _ H2). rewrite echo_bytes in P2 by done.
    destruct P2 as [E2 _ Es2 Ec2 Em2].
    eexists. split; [apply (release_run _ _ (k_cpu s) (k_held s)); [done | by rewrite E2.. | done] |].
    split_and!; [done | by rewrite E2 | done | exact Es2 | exact Ec2 | exact Em2 |].
    intros Hn Hlen. destruct Hg as [Hg | Hg]; [| done].
    apply (shown_same s2); [done | done |].
    apply (S2 Hg []); [split; [apply cursor_nonneg | done] | done].
  - rewrite bind_ret, Ho. cbn [deref]. rewrite bind_ret.
    destruct (mforM_prints o s) as (s2 & H2 & P2 & S2); [done |].
    rewrite (bind_done _ _ _ _ _ H2). rewrite echo_bytes in P2 by done.
    destruct P2 as [E2 _ Es2 Ec2 Em2]. exists s2.
    split_and!; [done | by rewrite E2 | by rewrite E2 | by rewrite E2 | done..|].
    intros Hn Hlen. destruct Hg as [Hg | Hg]; [| done].
    apply (S2 Hg []); [split; [apply cursor_nonneg | done] | done].
Qed.
End output.

(** ** Witnesses *)

(** A PC on whose serial line the bytes [typed] arrive: the registers of the
    CGA, and of the 8250 the data register at [COM1] and the status at
    [COM1+5] (bit 5: ready to send; bit 0: data ready). *)
Fixpoint received (h : list outev) : nat :=
  match h with
  | [] => O
  | Inb p _ :: h => if p =? COM1 then S (received h) else received h
  | _ :: h => received h
  end.
Definition pc (boot : Z → Z) (typed : list Z) : Ports := λ h p,
  if p =? CRTPORT + 1 then crt_reg boot h (crt_index h) else
  let rest := drop (received h) typed in
  if p =? COM1 + 5 then (if bool_decide (rest = []) then 0x20 else 0x21) else
  if p =? COM1 then default 0 (head rest) else 0.
Lemma pc_cga boot typed : cga_law boot (pc boot typed).
Proof. done. Qed.

(** The console after boot, with a serial line. *)
Definition console_up : kst := kst0 <| k_cons := mkCons true true 0 |>.

Lemma cprintf_comes_out_witness :
  let HW := pc (λ _, 0) [] in
  ∃ s', console_cprintf "%d cpus %x" [PInt 2; PInt 255] console_up = Done tt s' ∧
    serial (k_out s') = bytes "2 cpus ff" ∧ shown (λ _, 0) s' (bytes "2 cpus ff").
Proof.
  destruct (cprintf_comes_out (HW := pc (λ _, 0) []) (λ _, 0) (pc_cga _ _) "%d cpus %x"
    [PInt 2; PInt 255] console_up (bytes "2 cpus ff")) as (s' & Hr & _ & _ & _ & Hs & _ & _ & Hsh).
  - split; [reflexivity | done].
  - by intros ?%elem_of_nil.
  - reflexivity.
  - reflexivity.
  - repeat constructor; done.
  - exists s'. split; [exact Hr |]. split; [exact Hs |]. apply Hsh; [| cbn; lia].
    by apply (bool_decide_unpack (10 ∉ bytes "2 cpus ff")).
Defined.
