(* ===== verification/Lined.v ===== *)
(** * The console's line discipline: consoleintr and consoleread

    What is typed can be edited until its line is complete; complete lines wait
    for a reader.  Here the ring of characters and its three counters are shown
    to be exactly that: an editor with the bytes ready to be read and the line
    being typed, whatever the counters' values (they wrap around). *)
From S2P Require Import Prelude Mmu Cstring Kstate Spinlock Kalloc Vm Proc Life Sleeplock Bio Fs Pipe Printf Trap Console Icache.

(** ** The editor *)

(** The bytes a reader can take, the line being typed, and what was echoed. *)
Record edit := mkEdit { ed_ready : list Z; ed_line : list Z; ed_echo : list Z }.
(** Backspace, space, backspace. *)
Definition erase : list Z := [8; 32; 8].

(** A character that takes room in the buffer; [\r] is read as [\n]. *)
Definition key_char (a : edit) (c : Z) : edit :=
  let c := if c =? 13 then 10 else c in
  let line := ed_line a ++ [c] in
  let out := ed_echo a ++ [c] in
  if decide (c = 10 ∨ c = 4 ∨ (length (ed_ready a) + length line = 128)%nat)
  then mkEdit (ed_ready a ++ line) [] out
  else mkEdit (ed_ready a) line out.
(** What a key does: [^P] nothing, [^U] drops the line, [^H] and DEL its last
    character; [^D] and newline complete the line, and so does a full buffer. *)
Definition key (a : edit) (c : Z) : edit :=
  if c =? 16 then a else
  if c =? 21 then
    mkEdit (ed_ready a) [] (ed_echo a ++ concat (replicate (length (ed_line a)) erase)) else
  if (c =? 8) || (c =? 127) then
    match ed_line a with
    | [] => a
    | _ => mkEdit (ed_ready a) (removelast (ed_line a)) (ed_echo a ++ erase)
    end else
  if decide (c ≠ 0 ∧ (length (ed_ready a) + length (ed_line a) < 128)%nat)
  then key_char a c else a.

(** What a reader of [n] bytes takes: up to a newline, or up to [^D], which is
    left for the next reader unless nothing precedes it; [None]: it has to
    wait. *)
Fixpoint take_line (first : bool) (n : nat) (q : list Z) : option (list Z * list Z) :=
  match n, q with
  | O, _ => Some ([], q)
  | S _, [] => None
  | S n, c :: q =>
      if c =? 4 then Some ([], if first then q else c :: q) else
      if c =? 10 then Some ([c], q) else
      '(l, rest) ← take_line false n q; Some (c :: l, rest)
  end.

(** ** The ring *)
Definition ring (x : input_t) (i : Z) (n : nat) : list Z :=
  (λ k, in_at x (i + Z.of_nat k)) <$> seq 0 n.

(** The buffer holds [q], ready to be read, and then [l]. *)
Record buffered (x : input_t) (q l : list Z) : Prop := {
  ei_len : length (in_buf x) = 128%nat;
  ei_r : is_u32 (in_r x);
  ei_w : in_w x = u32 (in_r x + Z.of_nat (length q));
  ei_e : in_e x = u32 (in_r x + Z.of_nat (length q + length l));
  ei_room : (length q + length l ≤ 128)%nat;
  ei_data : ring x (in_r x) (length q + length l) = q ++ l }.
(** ... where [l] is a line being typed. *)
Definition editing (x : input_t) (q l : list Z) : Prop := buffered x q l ∧ 10 ∉ l.

Lemma in_at_u32 x i : in_at x (u32 i) = in_at x i.
Proof. unfold in_at, INPUT_BUF, u32. do 2 f_equal. zlia. Qed.
Lemma ring_length x i n : length (ring x i n) = n.
Proof. unfold ring. by rewrite length_fmap, length_seq. Qed.
Lemma ring_snoc x i n : ring x i (S n) = ring x i n ++ [in_at x (i + Z.of_nat n)].
Proof. unfold ring. by rewrite seq_S, fmap_app. Qed.
Lemma ring_cons x i n : ring x i (S n) = in_at x i :: ring x (u32 (i + 1)) n.
Proof.
  unfold ring. cbn [seq fmap list_fmap]. rewrite Z.add_0_r. f_equal.
  rewrite <- fmap_S_seq, <- list_fmap_compose. apply list_fmap_ext. intros k j Hk.
  apply lookup_seq in Hk as [-> Hk]. cbn. rewrite <- in_at_u32, <- (in_at_u32 _ (u32 _ + _)).
  f_equal. unfold u32. zlia.
Qed.
Lemma ring_buf x y i n : in_buf x = in_buf y → ring x i n = ring y i n.
Proof. intros E. unfold ring, in_at. by rewrite E. Qed.

(** Storing a byte behind the last. *)
Lemma ring_put x i n c b :
  length (in_buf x) = 128%nat → (n < 128)%nat → b = u32 (i + Z.of_nat n) →
  ring (x <| in_buf ::= <[Z.to_nat (b mod INPUT_BUF) := c]> |>) i (S n) = ring x i n ++ [c].
Proof.
  intros Hl Hn ->. rewrite ring_snoc. unfold INPUT_BUF. f_equal.
  - unfold ring. apply list_fmap_ext. intros k j Hk. apply lookup_seq in Hk as [-> Hk].
    unfold in_at, INPUT_BUF. cbn. rewrite nth_lookup, list_lookup_insert_ne, <- nth_lookup; [done |].
    unfold u32. zlia.
  - f_equal. unfold in_at, INPUT_BUF. cbn. rewrite nth_lookup.
    replace (Z.to_nat ((i + Z.of_nat n) mod 128)) with (Z.to_nat (u32 (i + Z.of_nat n) mod 128))
      by (unfold u32; zlia).
    rewrite list_lookup_insert_eq; [done |]. rewrite Hl. zlia.
Qed.

Lemma ring_take x i n m : (n ≤ m)%nat → ring x i n = take n (ring x i m).
Proof. intros Hn. unfold ring. by rewrite <- fmap_take, take_seq, Nat.min_l. Qed.

Lemma buffered_empty x q l : buffered x q l → (in_e x =? in_w x) = bool_decide (l = []).
Proof.
  intros [_ _ Hw He Hr _]. rewrite Hw, He. destruct l as [| c l]; cbn [length].
  - rewrite Nat.add_0_r, Z.eqb_refl. done.
  - rewrite bool_decide_eq_false_2 by done. apply Z.eqb_neq. cbn in Hr. unfold u32. zlia.
Qed.
Lemma buffered_line x q l : buffered x q l → u32 (in_e x - in_w x) = Z.of_nat (length l).
Proof. intros [_ _ Hw He Hr _]. rewrite Hw, He. unfold u32. zlia. Qed.
Lemma buffered_used x q l :
  buffered x q l → u32 (in_e x - in_r x) = Z.of_nat (length q + length l).
Proof. intros [_ _ Hw He Hr _]. rewrite He. unfold u32. zlia. Qed.
Lemma buffered_full x q l :
  buffered x q l →
  (in_e x =? u32 (in_r x + INPUT_BUF)) = bool_decide (length q + length l = 128)%nat.
Proof.
  intros [_ _ Hw He Hr _]. rewrite He. unfold INPUT_BUF. case_bool_decide as Hd.
  - rewrite Hd. apply Z.eqb_refl.
  - apply Z.eqb_neq. unfold u32. zlia.
Qed.

(** Taking back the last character of the line. *)
Lemma buffered_unput x q l c :
  buffered x q (l ++ [c]) →
  in_at x (u32 (in_e x - 1)) = c ∧ buffered (x <| in_e ::= λ e, u32 (e - 1) |>) q l.
Proof.
  intros [Hl Hr Hw He Hroom Hd]. rewrite length_app in *. cbn [length] in *.
  replace (length q + (length l + 1))%nat with (S (length q + length l)) in * by lia.
  rewrite ring_snoc, app_assoc in Hd. apply app_inj_tail in Hd as [Hd Hc]. split.
  - rewrite <- Hc, He, <- (in_at_u32 _ (_ + _)). f_equal. unfold u32. zlia.
  - split; [done | done | done | | lia | done]. cbn. rewrite He. unfold u32. zlia.
Qed.
(** Typing a character. *)
Definition put_in (c : Z) (x : input_t) : input_t :=
  x <| in_buf ::= <[Z.to_nat (in_e x mod INPUT_BUF) := c]> |> <| in_e ::= λ e, u32 (e + 1) |>.
Lemma buffered_put x q l c :
  buffered x q l → (length q + length l < 128)%nat → buffered (put_in c x) q (l ++ [c]).
Proof.
  intros [Hl Hr Hw He Hroom Hd] Hlt. unfold put_in. split; cbn; rewrite ?length_app; cbn [length].
  - by rewrite length_insert.
  - done.
  - done.
  - rewrite He. unfold u32. zlia.
  - lia.
  - replace (length q + (length l + 1))%nat with (S (length q + length l)) by lia.
    rewrite app_assoc, <- Hd. by rewrite <- (ring_put x (in_r x) _ c (in_e x)).
Qed.
(** Completing the line. *)
Lemma buffered_commit x q l :
  buffered x q l → buffered (x <| in_w := in_e x |>) (q ++ l) [].
Proof.
  intros [Hl Hr Hw He Hroom Hd]. split; cbn; rewrite ?length_app, ?Nat.add_0_r, ?app_nil_r; done.
Qed.
(** Reading a character. *)
Lemma buffered_take x c q l :
  buffered x (c :: q) l →
  in_at x (in_r x) = c ∧ buffered (x <| in_r ::= λ r, u32 (r + 1) |>) q l.
Proof.
  intros [Hl Hr Hw He Hroom Hd]. cbn [length] in *. cbn [Nat.add] in *.
  rewrite ring_cons in Hd. injection Hd as Hc Hd. split; [done |]. split; cbn.
  - done.
  - apply u32_range.
  - rewrite Hw. unfold u32. zlia.
  - rewrite He. unfold u32. zlia.
  - lia.
  - done.
Qed.

Section lined.
Context {LK : Linker} {FU : Fuel} {BD : BlockDev} {HW : Ports}.
Context (boot : Z → Z) (CGA : cga_law boot HW).

(** ** One key *)

(** The effect of keys that turn the editor [a] into [b]: readers are woken when
    something became ready, the echo goes to the console, nothing else
    happens. *)
Record keyed (s : kst) (a b : edit) (s' : kst) : Prop := {
  kd_state : s' = s <| k_mem := k_mem s' |> <| k_out := k_out s' |> <| k_input := k_input s' |>
                    <| k_procs := k_procs s' |> <| k_cons := k_cons s' |>;
  kd_uart : cn_uart (k_cons s') = cn_uart (k_cons s);
  kd_edit : editing (k_input s') (ed_ready b) (ed_line b);
  kd_procs : ∃ m, ed_ready b = ed_ready a ++ m ∧
    k_procs s' = if decide (m = []) then k_procs s else wake (Some CInput) <$> k_procs s;
  kd_echo : ∃ e, ed_echo b = ed_echo a ++ e ∧
    serial (k_out s') = serial (k_out s) ++ if cn_uart (k_cons s) then e else [];
  kd_cursor : cursor boot (k_out s') < 1920;
  kd_mem : ∀ x, ¬ on_screen x → load8 (k_mem s') x = load8 (k_mem s) x }.

Lemma wake_twice ch (ps : list proc) : wake ch <$> (wake ch <$> ps) = wake ch <$> ps.
Proof.
  rewrite <- list_fmap_compose. apply list_fmap_ext. intros _ p _. apply wake_idem.
Qed.

Lemma keyed_trans s1 s2 s3 a b c : keyed s1 a b s2 → keyed s2 b c s3 → keyed s1 a c s3.
Proof.
  intros [E1 U1 I1 (m1 & R1 & P1) (e1 & X1 & S1) C1 M1] [E2 U2 I2 (m2 & R2 & P2) (e2 & X2 & S2) C2 M2].
  split.
  - rewrite E2, E1. kst_eq.
  - congruence.
  - done.
  - exists (m1 ++ m2). split; [by rewrite R2, R1, app_assoc |]. rewrite P2, P1.
    destruct (decide (m1 = [])) as [-> | H1]; [done |].
    destruct (decide (m1 ++ m2 = [])) as [[? _]%app_nil |]; [done |].
    destruct (decide (m2 = [])); [done | apply wake_twice].
  - exists (e1 ++ e2). split; [by rewrite X2, X1, app_assoc |].
    rewrite S2, S1, U1, <- app_assoc. destruct (cn_uart (k_cons s1)); reflexivity.
  - done.
  - intros x Hx. by rewrite M2, M1.
Qed.

Lemma keyed_prints s a x l e s' :
  prints boot (s <| k_input := x |>) e s' → editing x (ed_ready a) l →
  keyed s a (mkEdit (ed_ready a) l (ed_echo a ++ e)) s'.
Proof.
  intros [E _ S C M] Hx. split; cbn.
  - rewrite E. kst_eq.
  - by rewrite E.
  - by rewrite E.
  - exists []. split; [by rewrite app_nil_r |]. by rewrite E.
  - by exists e.
  - done.
  - exact M.
Qed.

Lemma keyed_refl s a :
  cursor boot (k_out s) < 1920 → editing (k_input s) (ed_ready a) (ed_line a) → keyed s a a s.
Proof.
  intros Hc He. split; try done.
  - kst_eq.
  - exists []. split; [by rewrite app_nil_r | done].
  - exists []. split; [by rewrite app_nil_r | by destruct (cn_uart _); rewrite app_nil_r].
Qed.

(** Only [consputc] talked to a device. *)
Definition quiet (s s' : kst) : Prop :=
  k_cons s' = k_cons s ∧ ∃ o, k_out s' = o ++ k_out s ∧ Forall echo_ev o.
Lemma quiet_refl s : quiet s s.
Proof. split; [done | by exists []]. Qed.
Lemma quiet_trans s1 s2 s3 : quiet s1 s2 → quiet s2 s3 → quiet s1 s3.
Proof.
  intros [E1 (o1 & H1 & F1)] [E2 (o2 & H2 & F2)]. split; [congruence |].
  exists (o2 ++ o1). rewrite H2, H1, app_assoc. split; [done | by apply Forall_app].
Qed.
Lemma prints_quiet s x l s' : prints boot (s <| k_input := x |>) l s' → quiet s s'.
Proof. intros [E Ho _ _ _]. split; [by rewrite E | exact Ho]. Qed.

Lemma kill_line_run a fuel s :
  editing (k_input s) (ed_ready a) (ed_line a) → cursor boot (k_out s) < 1920 →
  (length (ed_line a) ≤ fuel)%nat →
  ∃ s', kill_line fuel s = Done tt s' ∧ quiet s s' ∧
    keyed s a (mkEdit (ed_ready a) []
      (ed_echo a ++ concat (replicate (length (ed_line a)) erase))) s'.
Proof.
  revert a s. induction fuel as [| fuel IH]; intros a s [Hb Hl] Hc Hf;
    cbn [kill_line]; rewrite bind_gets, (buffered_empty _ _ _ Hb).
  - destruct a as [q l e]; cbn [ed_ready ed_line ed_echo] in *.
    destruct l; [| cbn in Hf; lia]. exists s. split; [done |]. split; [apply quiet_refl |].
    cbn. rewrite app_nil_r. by apply (keyed_refl s (mkEdit q [] e)).
  - destruct a as [q l e]; cbn [ed_ready ed_line ed_echo] in *.
    destruct l as [| c l _] using rev_ind.
    { exists s. split; [done |]. split; [apply quiet_refl |]. cbn. rewrite app_nil_r.
      by apply (keyed_refl s (mkEdit q [] e)). }
    destruct (buffered_unput _ _ _ _ Hb) as [Hat Hb'].
    rewrite bool_decide_eq_false_2 by (by intros [_ ?]%app_nil). rewrite Hat.
    destruct (Z.eqb_spec c 10) as [-> | Hne]; [destruct Hl; set_solver |]. cbn [negb andb].
    unfold unput, upd_input. rewrite bind_modify.
    set (x' := (k_input s) <| in_e ::= λ e, u32 (e - 1) |>) in *.
    destruct (consputc_prints boot CGA BACKSPACE (s <| k_input := x' |>)) as (s1 & H1 & P1 & _);
      [exact Hc |].
    change (s <| k_input ::= λ x, x <| in_e ::= λ e, u32 (e - 1) |> |>) with (s <| k_input := x' |>).
    rewrite (bind_done _ _ _ _ _ H1).
    assert (editing x' q l) as He by (split; [done | set_solver]).
    pose proof (keyed_prints s (mkEdit q (l ++ [c]) e) x' l _ s1 P1 He) as K1.
    destruct (IH (mkEdit q l (e ++ erase)) s1) as (s2 & H2 & Q2 & K2).
    + apply K1.
    + apply P1.
    + cbn. rewrite length_app in Hf. cbn in Hf. lia.
    + exists s2. split; [done |]. split; [by eapply quiet_trans; [eapply prints_quiet |] |].
      eapply keyed_trans; [exact K1 |]. cbn [ed_ready ed_line ed_echo] in K2.
      rewrite length_app, Nat.add_comm. cbn [length Nat.add replicate concat].
      by rewrite app_assoc.
Qed.

(** The state inside the console's lock. *)
Record in_lock (s : kst) : Prop := {
  il_cpu : cpu_ok (k_cpu s);
  il_sync : ksync s = s;
  il_ptable : LPtable ∉ k_held s;
  il_cursor : cursor boot (k_out s) < 1920 }.

Lemma in_lock_keyed s a b s' : in_lock s → keyed s a b s' → in_lock s'.
Proof.
  intros [Hc Hs Hp _] [E _ _ _ _ Hcur _]. split; [by rewrite E | | by rewrite E | done].
  rewrite E. unfold ksync in *. apply (f_equal k_cpu) in Hs. cbn in Hs. kst_eq. exact Hs.
Qed.

(** A character goes to the buffer and to the screen; a complete line wakes the
    readers. *)
Lemma key_char_run a c s :
  in_lock s → editing (k_input s) (ed_ready a) (ed_line a) → 0 ≤ c < 256 →
  (length (ed_ready a) + length (ed_line a) < 128)%nat →
  ∃ s', (let c := if c =? 13 then 10 else c in
    upd_input (put_in (u8 c));;
    consputc c;;
    x ← gets k_input;
    mwhen ((c =? 10) || (c =? Ctl 68) || (in_e x =? u32 (in_r x + INPUT_BUF)))
      (upd_input (λ x, x <| in_w := in_e x |>);; wakeup CInput);;
    mret false) s = Done false s' ∧ quiet s s' ∧ keyed s a (key_char a c) s'.
Proof.
  intros [Hcpu Hsync Hpt Hcur] [Hb Hl] Hc Hroom. cbv zeta. unfold key_char.
  set (d := if c =? 13 then 10 else c).
  assert (0 ≤ d < 256) as Hd by (subst d; destruct (c =? 13); lia).
  rewrite u8_id by done. unfold upd_input. rewrite bind_modify.
  pose proof (buffered_put _ _ _ d Hb Hroom) as Hb'.
  destruct (consputc_prints boot CGA d (s <| k_input ::= put_in d |>)) as (s1 & H1 & P1 & _);
    [exact Hcur |].
  rewrite (bind_done _ _ _ _ _ H1), bind_gets.
  assert (echo d = [d]) as Ed.
  { unfold echo, BACKSPACE. destruct (Z.eqb_spec d 256); [lia |]. by rewrite u8_id. }
  rewrite Ed in P1. change (s <| k_input ::= put_in d |>) with (s <| k_input := put_in d (k_input s) |>) in P1.
  assert (k_input s1 = put_in d (k_input s)) as Ei by (by rewrite (pr_state _ _ _ _ P1)).
  rewrite Ei, (buffered_full _ _ _ Hb').
  assert ((d =? 10) || (d =? Ctl 68) || bool_decide (length (ed_ready a) + length (ed_line a ++ [d]) = 128)%nat
    = bool_decide (d = 10 ∨ d = 4 ∨ (length (ed_ready a) + length (ed_line a ++ [d]) = 128)%nat)) as ->.
  { unfold Ctl. destruct (Z.eqb_spec d 10), (Z.eqb_spec d 4); cbn [orb];
      repeat case_bool_decide; tauto || lia. }
  destruct (decide _) as [Hdone | Hmore].
  - rewrite bool_decide_eq_true_2 by done. cbn [mwhen]. unfold upd_input.
    rewrite bind_assoc, bind_modify.
    rewrite wakeup_bind.
    2: { rewrite (pr_state _ _ _ _ P1). split; [exact Hcpu | exact Hpt]. }
    destruct P1 as [E1 Ho S1 C1 M1]. eexists. split; [reflexivity |]. split.
    + split; [cbn; by rewrite E1 | exact Ho].
    + split; cbn.
      * unfold ksync in *. apply (f_equal k_cpu) in Hsync. cbn in Hsync. rewrite E1. kst_eq. done.
      * by rewrite E1.
      * rewrite Ei. split; [by apply buffered_commit | apply not_elem_of_nil].
      * exists (ed_line a ++ [d]). split; [done |]. rewrite decide_False by (by intros [_ ?]%app_nil).
        by rewrite E1.
      * by exists [d].
      * done.
      * exact M1.
  - rewrite bool_decide_eq_false_2 by done. cbn [mwhen]. rewrite bind_ret.
    exists s1. split; [done |]. split; [by eapply prints_quiet |].
    apply (keyed_prints _ a _ _ _ _ P1). split; [done |].
    intros [? | Hd10%list_elem_of_singleton]%elem_of_app; [done |]. destruct Hmore. by left.
Qed.

Lemma consolekey_run a c s :
  in_lock s → editing (k_input s) (ed_ready a) (ed_line a) → 0 ≤ c < 256 →
  ∃ s', consolekey c s = Done (c =? 16) s' ∧ quiet s s' ∧ keyed s a (key a c) s'.
Proof.
  intros Hs He Hc. pose proof He as [Hb Hl]. pose proof (il_cursor _ Hs) as Hcur.
  unfold consolekey, key. rewrite bind_gets. change (Ctl 80) with 16.
  destruct (Z.eqb_spec c 16) as [-> | _].
  { exists s. split; [done |]. split; [apply quiet_refl | by apply keyed_refl]. }
  change (Ctl 85) with 21. destruct (c =? 21).
  { rewrite (buffered_line _ _ _ Hb), Nat2Z.id.
    destruct (kill_line_run a (length (ed_line a)) s He Hcur) as (s1 & H1 & Q1 & K1); [done |].
    rewrite (bind_done _ _ _ _ _ H1). by exists s1. }
  change (Ctl 72) with 8. destruct ((c =? 8) || (c =? 0x7f)).
  { rewrite (buffered_empty _ _ _ Hb). destruct a as [q l e]; cbn [ed_ready ed_line ed_echo] in *.
    destruct l as [| d l _] using rev_ind.
    { exists s. split; [done |]. split; [apply quiet_refl | by apply keyed_refl]. }
    destruct (buffered_unput _ _ _ _ Hb) as [_ Hb'].
    rewrite bool_decide_eq_false_2 by (by intros [_ ?]%app_nil). cbn [negb mwhen].
    unfold unput, upd_input. rewrite bind_assoc, bind_modify.
    destruct (consputc_prints boot CGA BACKSPACE
      (s <| k_input ::= λ x, x <| in_e ::= λ e, u32 (e - 1) |> |>)) as (s1 & H1 & P1 & _); [exact Hcur |].
    rewrite (bind_done _ _ _ _ _ H1). exists s1. split; [done |].
    change (s <| k_input ::= λ x, x <| in_e ::= λ e, u32 (e - 1) |> |>)
      with (s <| k_input := (k_input s) <| in_e ::= λ e, u32 (e - 1) |> |>) in P1.
    split; [by eapply prints_quiet |].
    destruct (l ++ [d]) as [| y l'] eqn:El; [by apply app_nil in El as [_ ?] |]. rewrite <- El.
    rewrite removelast_last. apply (keyed_prints s (mkEdit q (l ++ [d]) e) _ l _ _ P1).
    split; [exact Hb' |].
    rewrite <- El in Hl. intros ?. apply Hl, elem_of_app. by left. }
  rewrite (buffered_used _ _ _ Hb).
  destruct (decide _) as [[Hc0 Hroom] | Hno].
  - destruct (Z.eqb_spec c 0); [done |]. cbn [negb andb].
    destruct (Z.ltb_spec (Z.of_nat (length (ed_ready a) + length (ed_line a))) INPUT_BUF);
      [| unfold INPUT_BUF in *; lia].
    destruct (key_char_run a c s Hs He Hc Hroom) as (s1 & H1 & QK). exists s1.
    split; [exact H1 | exact QK].
  - assert (negb (c =? 0) && (Z.of_nat (length (ed_ready a) + length (ed_line a)) <? INPUT_BUF) = false) as ->.
    { destruct (Z.eqb_spec c 0); [done |]. cbn [negb andb]. apply Z.ltb_ge. unfold INPUT_BUF.
      apply not_and_l in Hno. destruct Hno; [done | lia]. }
    exists s. split; [done |]. split; [apply quiet_refl | by apply keyed_refl].
Qed.

(** ** The interrupt *)

(** A driver's [getc] reads ports; [pending] is what its device still has to
    deliver.  The echo does not disturb the device. *)
Definition input_ev (e : outev) : Prop := match e with Inb _ _ => True | _ => False end.
Class Source (getc : K Z) (pending : kst → list Z) : Prop := {
  src_get s : ∃ o sh,
    let s' := s <| k_out := o ++ k_out s |> <| k_cons ::= λ c, c <| cn_shift := sh |> |> in
    getc s = Done (default (-1) (head (pending s))) s' ∧ Forall input_ev o ∧
    pending s' = tail (pending s);
  src_byte s : Forall (λ c, 0 ≤ c < 256) (pending s);
  src_echo s s' : quiet s s' → pending s' = pending s }.

Lemma input_cursor o h : Forall input_ev o → cursor boot (o ++ h) = cursor boot h.
Proof.
  intros Ho. enough (∀ r, crt_reg boot (o ++ h) r = crt_reg boot h r) as E.
  { unfold cursor. by rewrite !E. }
  intros r. induction Ho as [| e o He _ IH]; [done |]. by destruct e.
Qed.
Lemma input_serial o h : Forall input_ev o → serial (o ++ h) = serial h.
Proof.
  intros Ho. rewrite serial_app. replace (serial o) with (@nil Z); [by rewrite app_nil_r |].
  unfold serial. induction Ho as [| e o He _ IH]; [done |]. by destruct e.
Qed.
Lemma cons_keyed s a o sh :
  cursor boot (k_out s) < 1920 → editing (k_input s) (ed_ready a) (ed_line a) → Forall input_ev o →
  keyed s a a (s <| k_out := o ++ k_out s |> <| k_cons ::= λ c, c <| cn_shift := sh |> |>).
Proof.
  intros Hc He Ho. split; cbn.
  - kst_eq.
  - done.
  - done.
  - exists []. split; [by rewrite app_nil_r | done].
  - exists []. rewrite input_serial by done. split; [by rewrite app_nil_r |].
    destruct (cn_uart (k_cons s)); by rewrite app_nil_r.
  - by rewrite input_cursor.
  - done.
Qed.

Lemma consoleintr_loop_run getc pending (SRC : Source getc pending) cs : ∀ fuel a s dump,
  in_lock s → editing (k_input s) (ed_ready a) (ed_line a) → pending s = cs →
  (length cs < fuel)%nat →
  ∃ s', consoleintr_loop fuel getc dump s = Done (dump || bool_decide (16 ∈ cs)) s' ∧
    keyed s a (foldl key a cs) s' ∧ pending s' = [].
Proof.
  induction cs as [| c cs IH]; intros fuel a s dump Hs He Hp Hf;
    (destruct fuel as [| fuel]; [cbn in Hf; lia |]); cbn [consoleintr_loop];
    destruct (src_get s) as (o & sh & Hg & Ho & Hp'); rewrite Hp in Hg, Hp'; cbn in Hg, Hp';
    rewrite (bind_done _ _ _ _ _ Hg).
  - cbn [Z.geb Z.compare]. eexists. split; [| split; [| exact Hp']].
    + rewrite (bool_decide_eq_false_2 (16 ∈ [])) by apply not_elem_of_nil. by rewrite orb_false_r.
    + apply cons_keyed; [apply Hs | done | done].
  - pose proof (src_byte s) as Hb. rewrite Hp in Hb. apply Forall_cons in Hb as [Hc _].
    destruct (c >=? 0) eqn:E; [| lia]. clear E.
    pose proof (cons_keyed s a o sh (il_cursor _ Hs) He Ho) as K0.
    set (s0 := s <| k_out := o ++ k_out s |> <| k_cons ::= λ c, c <| cn_shift := sh |> |>) in *.
    destruct (consolekey_run a c s0 (in_lock_keyed _ _ _ _ Hs K0) He Hc) as (s1 & H1 & Q1 & K1).
    rewrite (bind_done _ _ _ _ _ H1).
    pose proof (keyed_trans _ _ _ _ _ _ K0 K1) as K01.
    destruct (IH fuel (key a c) s1 (dump || (c =? 16))) as (s2 & H2 & K2 & P2).
    + by apply (in_lock_keyed s a (key a c)).
    + apply K1.
    + by rewrite (src_echo s0 s1 Q1).
    + cbn in Hf. lia.
    + exists s2. rewrite H2. split; [| split; [by eapply keyed_trans | done]].
      f_equal. rewrite <- orb_assoc. f_equal.
      destruct (Z.eqb_spec c 16) as [-> | Hne]; cbn [orb]; symmetry.
      * apply bool_decide_eq_true_2. by left.
      * apply bool_decide_ext. rewrite elem_of_cons. split; [by intros [<- |] | by right].
Qed.

Lemma consoleintr_run getc pending (SRC : Source getc pending) fuel q l s :
  let b := foldl key (mkEdit q l []) (pending s) in
  cpu_ok (k_cpu s) → LCons ∉ k_held s → LPtable ∉ k_held s → cursor boot (k_out s) < 1920 →
  editing (k_input s) q l → 16 ∉ pending s → (length (pending s) < fuel)%nat →
  ∃ s', consoleintr fuel getc s = Done tt s' ∧
    editing (k_input s') (ed_ready b) (ed_line b) ∧
    k_procs s' = (if decide (ed_ready b = q) then k_procs s
                  else wake (Some CInput) <$> k_procs s) ∧
    serial (k_out s') = serial (k_out s) ++ (if cn_uart (k_cons s) then ed_echo b else []) ∧
    pending s' = [] ∧ k_held s' = k_held s ∧ k_cpu s' = sync_cpu (k_cpu s) ∧
    cursor boot (k_out s') < 1920 ∧
    (∀ x, ¬ on_screen x → load8 (k_mem s') x = load8 (k_mem s) x).
Proof.
  intros b Hcpu Hlc Hlp Hcur He Hnp Hf. unfold consoleintr. rewrite acquire_bind by done.
  assert (pending (locked LCons s) = pending s) as Hpend.
  { apply src_echo. split; [done | by exists []]. }
  destruct (consoleintr_loop_run getc pending SRC (pending s) fuel (mkEdit q l [])
    (locked LCons s) false) as (s1 & H1 & K1 & P1).
  - split; [by apply push_cpu_ok | | | exact Hcur].
    + unfold ksync, locked. kst_eq. by apply sync_push_cpu.
    + cbn. by intros [? | ?]%elem_of_cons.
  - exact He.
  - exact Hpend.
  - exact Hf.
  - rewrite (bind_done _ _ _ _ _ H1). cbn [orb]. rewrite bool_decide_eq_false_2 by done.
    fold b in K1. destruct K1 as [E1 _ I1 (m & Rm & Pm) (e & Xe & Se) C1 M1].
    cbn [ed_ready ed_line ed_echo] in *.
    rewrite (release_bind _ _ _ (k_cpu s) (k_held s)); [| done | by rewrite E1.. | done].
    eexists. split; [reflexivity |].
    split_and!; cbn; [done | | by rewrite Se, Xe | | done..].
    + rewrite Pm, Rm. destruct (decide (m = [])) as [-> | Hm].
      * rewrite app_nil_r. by rewrite decide_True.
      * rewrite decide_False; [done |]. intros Hq. apply Hm.
        apply (app_inv_head q). by rewrite Hq, app_nil_r.
    + rewrite <- P1. apply src_echo. split; [done | by exists []].
Qed.

(** C23: the console's interrupt handler is the editor.  Whatever the values of
    the three counters, after the characters the device had were taken the
    buffer holds what the editor made of them: complete lines ready to be
    read, the line being typed behind them; readers are woken exactly when
    something became ready; what is echoed is what is edited; the device has
    nothing left, the locks are as they were and no memory but the screen's
    is touched. *)
Theorem consoleintr_edits getc pending (SRC : Source getc pending) fuel q l s :
  let b := foldl key (mkEdit q l []) (pending s) in
  cpu_ok (k_cpu s) → LCons ∉ k_held s → LPtable ∉ k_held s → cursor boot (k_out s) < 1920 →
  editing (k_input s) q l → 16 ∉ pending s → (length (pending s) < fuel)%nat →
  ∃ s', consoleintr fuel getc s = Done tt s' ∧
    editing (k_input s') (ed_ready b) (ed_line b) ∧
    k_procs s' = (if decide (ed_ready b = q) then k_procs s
                  else wake (Some CInput) <$> k_procs s) ∧
    serial (k_out s') = serial (k_out s) ++ (if cn_uart (k_cons s) then ed_echo b else []) ∧
    pending s' = [] ∧ k_held s' = k_held s ∧ k_cpu s' = sync_cpu (k_cpu s) ∧
    cursor boot (k_out s') < 1920 ∧
    (∀ x, ¬ on_screen x → load8 (k_mem s') x = load8 (k_mem s) x).
Proof. intros b. by apply consoleintr_run. Qed.

(** ** The serial line as a source *)

(** Documented behaviour of the 8250: the data register delivers the bytes
    [typed] one by one, and bit 0 of the status says whether there is one. *)
Record uart_law (typed : list Z) : Prop := {
  ul_bytes : Forall (λ c, 0 ≤ c < 256) typed;
  ul_status h : (Z.land (u8 (port_in h (COM1 + 5))) 1 =? 0) = bool_decide (drop (received h) typed = []);
  ul_data h c : head (drop (received h) typed) = Some c → port_in h COM1 = c }.
Definition uart_pending (typed : list Z) (s : kst) : list Z :=
  if cn_uart (k_cons s) then drop (received (k_out s)) typed else [].

Lemma received_app o h : received (o ++ h) = (received o + received h)%nat.
Proof.
  induction o as [| e o IH]; [done |]. destruct e; try done. cbn.
  destruct (port =? COM1); [cbn; by rewrite IH | done].
Qed.
Lemma received_echo o : Forall echo_ev o → received o = O.
Proof.
  induction 1 as [| e o He _ IH]; [done |]. destruct e; try done. cbn in *.
  by destruct He as [-> | ->].
Qed.

Lemma uart_source typed : uart_law typed → Source uartgetc (uart_pending typed).
Proof.
  intros [Hb Hst Hd]. split.
  - intros s. unfold uartgetc, uart_pending. cbn [k_cons k_out set set_k_cons set_k_out].
    rewrite bind_gets. cbn. destruct (cn_uart (k_cons s)) eqn:Hu; cbn [negb].
    2: { exists [], (cn_shift (k_cons s)). split; [| by split].
         unfold mret, M_ret. f_equal. destruct s as []; cbn in *. by destruct k_cons. }
    rewrite (bind_done _ _ _ _ _ (inb_run _ _)), Hst.
    destruct (drop (received (k_out s)) typed) as [| c rest] eqn:Er.
    + rewrite bool_decide_eq_true_2 by done.
      exists [Inb (COM1 + 5) (u8 (port_in (k_out s) (COM1 + 5)))], (cn_shift (k_cons s)).
      split; [| split; [by repeat constructor | exact Er]].
      unfold mret, M_ret. f_equal. destruct s as []; cbn in *. by destruct k_cons.
    + rewrite bool_decide_eq_false_2 by done.
      rewrite inb_run. cbn [k_out set set_k_out].
      set (e := Inb (COM1 + 5) _).
      assert (port_in (e :: k_out s) COM1 = c) as Ed.
      { apply Hd. change (received (e :: k_out s)) with (received (k_out s)). by rewrite Er. }
      rewrite Ed. exists [Inb COM1 (u8 c); e], (cn_shift (k_cons s)).
      assert (0 ≤ c < 256) as Hc.
      { apply (Forall_drop _ (received (k_out s))) in Hb. rewrite Er in Hb. by apply Forall_cons in Hb as [? _]. }
      split; [| split; [by repeat constructor |]].
      * rewrite u8_id by done. f_equal. destruct s as []; cbn in *. by destruct k_cons.
      * change (drop (S (received (k_out s))) typed = rest).
        by rewrite <- Nat.add_1_r, <- drop_drop, Er.
  - intros s. unfold uart_pending. destruct (cn_uart _); [by apply Forall_drop | done].
  - intros s s' [Ec (o & Eo & Ho)]. unfold uart_pending.
    by rewrite Ec, Eo, received_app, received_echo by done.
Qed.

(** ** The reader *)

Lemma consoleread_loop_run fp fuel ip target got rest : ∀ n first q l dst ph s,
  buffered (k_input s) q l → take_line first n q = Some (got, rest) →
  (Z.of_nat n <? target) = negb first → Z.of_nat n ≤ target → is_u32 dst →
  mapped s true dst (length got) ph fp →
  ∃ x, consoleread_loop (S fuel) ip dst n target s =
      Done (Some (Z.of_nat (n - length got)))
        (s <| k_input := x |> <| k_mem ::= λ m, store_all m ph got |>) ∧
    buffered x rest l.
Proof.
  revert got. intros got n. revert got. induction n as [| n IH];
    intros got first q l dst ph s Hb Ht Hfirst Hle Hdst Hm.
  { destruct q; injection Ht as <- <-; eexists; (split; [| exact Hb]);
      unfold mret, M_ret; cbn; f_equal; kst_eq. }
  destruct q as [| c q]; [done |]. destruct (buffered_take _ _ _ _ Hb) as [Hc Hb'].
  cbn [take_line] in Ht. cbn [consoleread_loop consoleread_wait].
  rewrite bind_assoc, bind_gets.
  assert ((in_r (k_input s) =? in_w (k_input s)) = false) as ->.
  { destruct Hb as [_ _ -> _ Hroom _]. apply Z.eqb_neq. cbn in Hroom. cbn. unfold u32. zlia. }
  rewrite bind_ret. cbn [negb]. rewrite bind_gets, Hc. unfold upd_input.
  rewrite bind_modify. set (x1 := (k_input s) <| in_r ::= λ r, u32 (r + 1) |>) in *.
  change (Ctl 68) with 4. destruct (c =? 4).
  - injection Ht as <- <-. rewrite Hfirst. destruct first; cbn [negb mwhen].
    + rewrite bind_ret. exists x1. split; [| done]. unfold mret, M_ret. kst_eq.
    + rewrite bind_modify. exists (k_input s). split; [| exact Hb].
      unfold mret, M_ret. kst_eq.
      destruct (ei_r _ _ _ Hb) as [H0 H1]. destruct (k_input s) as [buf r w e]. cbn in *.
      unfold set, set_in_r. cbn. f_equal. unfold u32. zlia.
  - assert (∃ got', got = c :: got' ∧
      ((c =? 10) = true ∧ got' = [] ∧ rest = q ∨
       (c =? 10) = false ∧ take_line false n q = Some (got', rest))) as (got' & -> & Hcase).
    { destruct (c =? 10); [injection Ht as <- <-; exists []; by eauto |].
      destruct (take_line false n q) as [[got' r] |]; [| done]. injection Ht as <- <-. eauto. }
    pose proof (mapped_head _ _ _ _ _ _ Hm) as Hh. rewrite (u32_id dst Hdst) in Hh.
    erewrite bind_done by (apply stb_run; exact Hh).
    destruct Hcase as [(-> & -> & ->) | [-> Ht']].
    + exists x1. split; [| done]. unfold mret, M_ret. cbn [length].
      rewrite Nat.sub_succ, Nat.sub_0_r. kst_eq.
    + set (s1 := set k_mem _ _).
      destruct (IH got' false q l (u32 (dst + 1)) (λ k, ph (S k)) s1) as (x & Hr & Hbx).
      * exact Hb'.
      * done.
      * cbn [negb]. apply Z.ltb_lt. lia.
      * lia.
      * apply u32_range.
      * apply (mapped_mem s); [| done | by apply mapped_tail].
        intros y Hy. apply load8_store8_ne. intros <-. apply Hy, (mp_in _ _ _ _ _ _ Hm). cbn. lia.
      * exists x. rewrite Hr. split; [| done]. subst s1. cbn [length store_all].
        by rewrite Nat.sub_succ.
Qed.

(** ** Unlocking and locking an inode that is in the cache *)

Lemma calm_ksync i pid s : calm i pid s → calm i pid (ksync s).
Proof. intros [Hc Hi Hh Hp]. split; [by apply sync_cpu_ok | done..]. Qed.

Lemma iunlock_run i pid ip nd s :
  calm i pid s → k_icache s !! ip = Some nd → i_lock nd = mkSleeplock true pid → 1 ≤ i_ref nd →
  iunlock ip s = Done tt (ksync ((put_slock (SLInode ip) (mkSleeplock false 0) s)
    <| k_procs ::= fmap (wake (Some (CSleep (SLInode ip)))) |>)).
Proof.
  intros Hs Hn Hlk Hr. rewrite (iunlock_releases i pid ip nd) by done.
  rewrite (releasesleep_run i pid _ (mkSleeplock true pid)); [| by apply calm_ksync | cbn; by rewrite Hn, <- Hlk].
  f_equal. unfold ksync. cbn [put_slock]. kst_eq. apply sync_cpu_idem.
Qed.

Lemma ilock_run i pid ip nd s :
  calm i pid s → k_icache s !! ip = Some nd → sl_locked (i_lock nd) = false → 1 ≤ i_ref nd →
  i_valid nd = true → (0 < patience)%nat →
  ilock ip s = Done tt (ksync (put_slock (SLInode ip) (mkSleeplock true pid) s)).
Proof.
  intros Hs Hn Hlk Hr Hv Hp. unfold ilock. rewrite (get_inode_bind _ _ nd) by done.
  destruct (Z.ltb_spec (i_ref nd) 1); [lia |].
  erewrite bind_done by (apply (acquiresleep_free i pid _ (i_lock nd)); [done | cbn; by rewrite Hn | done..]).
  erewrite get_inode_bind by (cbn; rewrite list_lookup_alter, decide_True, Hn by done; reflexivity).
  cbn [i_valid set set_i_lock]. by rewrite Hv.
Qed.

(** A process [i] reads the console through the inode [ip], which it has
    locked. *)
Record reading (i : nat) (pid : Z) (ip : nat) (nd : inode) (s : kst) : Prop := {
  rd_calm : calm i pid s;
  rd_inode : k_icache s !! ip = Some nd;
  rd_lock : i_lock nd = mkSleeplock true pid;
  rd_ref : 1 ≤ i_ref nd;
  rd_valid : i_valid nd = true }.

(** After the inode is unlocked and the console's lock taken. *)
Definition unlocked (ip : nat) (s : kst) : kst :=
  locked LCons (ksync ((put_slock (SLInode ip) (mkSleeplock false 0) s)
    <| k_procs ::= fmap (wake (Some (CSleep (SLInode ip)))) |>)).

Lemma consoleread_start {B} i pid ip nd (k : unit → K B) s :
  reading i pid ip nd s →
  (iunlock ip;; (λ _, acquire LCons ≫= k) tt) s = k tt (unlocked ip s).
Proof.
  intros [Hs Hn Hlk Hr Hv]. rewrite (bind_done _ _ _ _ _ (iunlock_run i pid ip nd s Hs Hn Hlk Hr)).
  apply acquire_bind; [| cbn; destruct Hs as [_ _ -> _]; by apply not_elem_of_nil].
  apply sync_cpu_ok. cbn. apply Hs.
Qed.

(** The end: the console's lock released, the inode locked again. *)
Lemma consoleread_end {B} i pid ip nd (k : K B) s x f :
  reading i pid ip nd s → (0 < patience)%nat →
  (release LCons;; ilock ip;; k) ((unlocked ip s) <| k_input := x |> <| k_mem ::= f |>) =
    k ((ksync s) <| k_input := x |> <| k_mem ::= f |>
            <| k_procs ::= fmap (wake (Some (CSleep (SLInode ip)))) |>).
Proof.
  intros [Hs Hn Hlk Hr Hv] Hp. set (s1 := set k_mem _ _). destruct Hs as [Hc Hi Hh Hpid] eqn:Es; clear Es.
  rewrite (release_bind _ _ _ (sync_cpu (k_cpu s)) []);
    [| by apply sync_cpu_ok | done | cbn; by rewrite Hh | by apply not_elem_of_nil].
  erewrite bind_done.
  2: { apply (ilock_run i pid ip (nd <| i_lock := mkSleeplock false 0 |>)); try done.
       - split; cbn; [by do 2 apply sync_cpu_ok | done | done |].
         rewrite list_lookup_fmap. destruct (k_procs s !! i); [| done]. cbn in *.
         rewrite <- Hpid. f_equal. unfold wake. by case_bool_decide.
       - cbn. by rewrite list_lookup_alter, decide_True, Hn by done. }
  f_equal. unfold ksync, s1, unlocked, locked. cbn [put_slock]. kst_eq.
  - by rewrite !sync_cpu_idem.
  - by rewrite Hh.
  - etrans; [by apply alter_twice |]. rewrite <- (insert_as_alter _ _ _ nd) by done.
    apply list_insert_id. rewrite Hn. f_equal. destruct nd; cbn in *. by subst.
Qed.

Lemma take_line_length first n q got rest :
  take_line first n q = Some (got, rest) → (length got ≤ n)%nat.
Proof.
  revert first q got. induction n as [| n IH]; intros first q got; cbn [take_line].
  - intros [= <- <-]. cbn. lia.
  - destruct q as [| c q]; [done |]. destruct (c =? 4); [intros [= <- <-]; cbn; lia |].
    destruct (c =? 10); [intros [= <- <-]; cbn; lia |].
    destruct (take_line false n q) as [[l r] |] eqn:E; [| done]. intros [= <- <-].
    specialize (IH _ _ _ E). cbn. lia.
Qed.

(** C24: a reader of the console gets lines.  When a line (or [n] bytes, or a
    [^D]) is ready, consoleread stores exactly the bytes the reader is due at
    its address, returns their number, leaves the rest for the next reader
    and holds the inode and no other lock, as before.  When nothing is
    ready a living reader gives up the CPU asleep on the console, with the
    console's lock and the inode released, so others can type and write. *)
Theorem consoleread_lines fp i pid ip nd p q l dst n s :
  reading i pid ip nd s → 0 < n < 2 ^ 31 → is_u32 dst → (0 < patience)%nat →
  buffered (k_input s) q l →
  (∀ got rest ph, take_line true (Z.to_nat n) q = Some (got, rest) →
     mapped s true dst (length got) ph fp →
     ∃ s', consoleread ip dst n s = Done (Z.of_nat (length got)) s' ∧
       buffered (k_input s') rest l ∧ k_mem s' = store_all (k_mem s) ph got ∧
       k_procs s' = wake (Some (CSleep (SLInode ip))) <$> k_procs s ∧
       k_icache s' = k_icache s ∧ k_held s' = [] ∧ k_out s' = k_out s) ∧
  (q = [] → ncli (k_cpu s) = 0 → k_procs s !! i = Some p → p_state p = RUNNING → p_killed p = 0 →
     ∃ s' k, consoleread ip dst n s = Switch s' k ∧ holds_only LPtable s' ∧
       k_procs s' !! i = Some (asleep CInput p) ∧
       slock_of s' (SLInode ip) = Some (mkSleeplock false 0)).
Proof.
  intros Hrd Hn Hdst Hp Hb. change (2 ^ 31) with 2147483648 in Hn.
  assert (i32 n = n) as Ei by (apply i32_id; unfold is_i32; lia).
  assert (u32 n = n) as Eu by (apply u32_id; unfold is_u32; lia).
  destruct patience as [| fuel] eqn:Epat; [lia |].
  split.
  - intros got rest ph Ht Hm. unfold consoleread. cbv zeta. rewrite Ei, Eu.
    rewrite (consoleread_start i pid ip nd) by done.
    destruct (n >? 0) eqn:E; [| lia]. clear E. rewrite Epat.
    destruct (consoleread_loop_run fp fuel ip n got rest (Z.to_nat n) true q l dst ph (unlocked ip s))
      as (x & Hr & Hbx).
    + exact Hb.
    + exact Ht.
    + rewrite Z2Nat.id by lia. apply Z.ltb_ge. lia.
    + lia.
    + done.
    + by apply (mapped_mem s).
    + rewrite (bind_done _ _ _ _ _ Hr).
      cbv beta iota. rewrite (consoleread_end i pid ip nd) by (done || lia).
      eexists. split; [unfold mret, M_ret; f_equal |].
      * pose proof (take_line_length _ _ _ _ _ Ht). rewrite i32_id; [lia |]. unfold is_i32. lia.
      * split_and!; [exact Hbx | done | done | done | | done].
        cbn. apply Hrd.
  - intros -> Hncli Hpi Hrun Hk. unfold consoleread. cbv zeta. rewrite Ei, Eu.
    rewrite (consoleread_start i pid ip nd) by done.
    destruct (n >? 0) eqn:E; [| lia]. clear E. rewrite Epat.
    destruct (Z.to_nat n) as [| n'] eqn:En; [lia |]. cbn [consoleread_loop consoleread_wait].
    assert ((in_r (k_input (unlocked ip s)) =? in_w (k_input (unlocked ip s))) = true) as Hrw.
    { cbn. destruct Hb as [_ Hr -> _ _ _]. cbn. rewrite Z.add_0_r, u32_id by done. apply Z.eqb_refl. }
    rewrite !bind_assoc, bind_gets, Hrw.
    destruct Hrd as [[Hc Hi Hh Hpid] Hnd Hlk _ _].
    assert (k_procs (unlocked ip s) !! i = Some p) as Hpi'.
    { cbn. rewrite list_lookup_fmap, Hpi. cbn. f_equal. apply wake_other. by rewrite Hrun; intros [? _]. }
    assert (holds_only LCons (unlocked ip s)) as Hlc.
    { split; cbn; [by rewrite Hh | by rewrite Hncli | done]. }
    assert (ksync (unlocked ip s) = unlocked ip s) as Hsync.
    { unfold unlocked, ksync, locked. kst_eq. apply sync_push_cpu, sync_cpu_ok, Hc. }
    assert (cur_killed (unlocked ip s) = Done false (unlocked ip s)) as Hck.
    { rewrite <- Hsync at 2. rewrite (cur_killed_run _ i p); [by rewrite Hk | | done | done].
      apply push_cpu_ok, sync_cpu_ok, Hc. }
    rewrite !bind_assoc, (bind_done _ _ _ _ _ Hck).
    destruct (sleep_run CInput LCons _ i p Hlc Hi Hpi') as (s1 & k & Hs & Ho & Heq & _).
    do 2 eexists. split; [rewrite !bind_assoc; by apply bind_switch |]. split; [done |].
    rewrite Heq. cbn. split.
    + apply list_lookup_insert_eq. rewrite length_fmap. by eapply lookup_lt_Some.
    + by rewrite list_lookup_alter, decide_True, Hnd by done.
Qed.
End lined.

(** ** Witnesses *)

(** Someone types "ab", a backspace, "c" and return; then "d". *)
Definition keys : list Z := [97; 98; 127; 99; 13; 100].
Lemma pc_uart boot : uart_law (HW := pc boot keys) keys.
Proof.
  split.
  - repeat constructor; lia.
  - intros h. unfold port_in, pc. change (COM1 + 5 =? CRTPORT + 1) with false.
    rewrite Z.eqb_refl. cbn [orb]. by case_bool_decide.
  - intros h c Hc. unfold port_in, pc. change (COM1 =? CRTPORT + 1) with false.
    change (COM1 =? COM1 + 5) with false. by rewrite Z.eqb_refl, Hc.
Qed.
(** An empty buffer whose counters are about to wrap around. *)
Definition input_wrap : input_t :=
  mkInput (replicate 128 0) 4294967294 4294967294 4294967294.
Definition typing : kst :=
  running <| k_cons := mkCons true true 0 |> <| k_input := input_wrap |>.

Lemma consoleintr_edits_witness :
  let HW := pc (λ _, 0) keys in
  ∃ s', consoleintr 10 uartgetc typing = Done tt s' ∧
    editing (k_input s') [97; 99; 10] [100] ∧
    serial (k_out s') = [97; 98; 8; 32; 8; 99; 10; 100].
Proof.
  destruct (consoleintr_edits (HW := pc (λ _, 0) keys) (λ _, 0) (pc_cga _ _) uartgetc
    (uart_pending keys) (uart_source (HW := pc (λ _, 0) keys) keys (pc_uart _)) 10 [] [] typing)
    as (s' & Hr & He & _ & Hs & _).
  - split; done.
  - by apply not_elem_of_nil.
  - by apply not_elem_of_nil.
  - reflexivity.
  - split; [| by apply not_elem_of_nil].
    split; [reflexivity | vm_compute; split; done | reflexivity | reflexivity | cbn; lia | reflexivity].
  - by apply (bool_decide_unpack (16 ∉ keys)).
  - cbn. lia.
  - exists s'. split; [exact Hr |]. split; [exact He | exact Hs].
Defined.

(** The same line being read, by a process that has locked the console's
    inode. *)
Definition line_ready : input_t :=
  mkInput ([10; 100] ++ replicate 124 0 ++ [97; 99]) 4294967294 1 2.
Definition console_inode : inode :=
  inode0 <| i_ref := 1 |> <| i_valid := true |> <| i_lock := mkSleeplock true 1 |>.
Definition at_console : kst :=
  running <| k_input := line_ready |> <| k_icache := [console_inode] |>.

Lemma consoleread_lines_witness :
  ∃ s', consoleread (FU := 1%nat : Fuel) (BD := memide (MD := 1000)) 0 (KERNBASE + 0x400000) 80 at_console
    = Done 3 s' ∧ k_mem s' = store_all ∅ (λ i, KERNBASE + 0x400000 + Z.of_nat i) [97; 99; 10] ∧
    buffered (k_input s') [] [100].
Proof.
  destruct (consoleread_lines (FU := 1%nat : Fuel) (BD := memide (MD := 1000)) (λ _, True) 0 1 0
    console_inode proc0 [97; 99; 10] [100] (KERNBASE + 0x400000) 80 at_console) as [H _].
  - split; try done.
  - lia.
  - vm_compute. split; done.
  - apply le_n.
  - split; [reflexivity | vm_compute; split; done | reflexivity | reflexivity | cbn; lia | reflexivity].
  - destruct (H [97; 99; 10] [] (λ i, KERNBASE + 0x400000 + Z.of_nat i)) as (s' & Hr & Hb & Hm & _).
    + reflexivity.
    + apply mapped_kernel; [done | unfold KERNBASE; cbn; lia | done].
    + exists s'. split; [exact Hr |]. split; [exact Hm | exact Hb].
Defined.
