(* ===== verification/Kbd.v ===== *)
(** * kbd.c: from the keyboard's scan codes to characters

    The tables of kbd.h, the decoder with its modifier keys, and what the driver
    makes of a controller that delivers a list of scan codes. *)
From S2P Require Import Prelude Mmu Cstring Kstate Spinlock Kalloc Vm Proc Sleeplock Bio Fs Pipe Printf Trap Console Lined.

(** ** kbd.h *)
Definition KBSTATP : Z := 0x64.
Definition KBS_DIB : Z := 1.
Definition KBDATAP : Z := 0x60.
Definition SHIFT : Z := 1.
Definition CTL : Z := 2.
Definition ALT : Z := 4.
Definition CAPSLOCK : Z := 8.
Definition NUMLOCK : Z := 16.
Definition SCROLLLOCK : Z := 32.
Definition E0ESC : Z := 64.

(** A [uchar] array of 256 with its first elements and its designated ones. *)
Definition table (l : list Z) (ds : list (Z * Z)) : list Z :=
  foldr (λ d, <[Z.to_nat d.1 := d.2]>) (l ++ replicate (256 - length l) 0) ds.
(** The designated elements of the three maps: KP_Enter and KP_Div, which differ,
    and the keys around the arrows. *)
Definition keypad (enter div : Z) : list (Z * Z) :=
  [(0x9C, enter); (0xB5, div); (0xC8, 0xE2); (0xD0, 0xE3); (0xC9, 0xE6); (0xD1, 0xE7);
   (0xCB, 0xE4); (0xCD, 0xE5); (0x97, 0xE0); (0xCF, 0xE1); (0xD2, 0xE8); (0xD3, 0xE9)].

Definition shiftcode : list Z :=
  table [] [(0x1D, CTL); (0x2A, SHIFT); (0x36, SHIFT); (0x38, ALT); (0x9D, CTL); (0xB8, ALT)].
Definition togglecode : list Z :=
  table [] [(0x3A, CAPSLOCK); (0x45, NUMLOCK); (0x46, SCROLLLOCK)].
Definition normalmap : list Z :=
  table ([0; 0x1B] ++ bytes "1234567890-=" ++ [8; 9] ++ bytes "qwertyuiop[]" ++ [10; 0]
         ++ bytes "asdfghjkl;'`" ++ [0; 92] ++ bytes "zxcvbnm,./" ++ [0; 42; 0; 32]
         ++ replicate 13 0 ++ bytes "789-456+1230.")
    (keypad 10 47).
Definition shiftmap : list Z :=
  table ([0; 0x1B] ++ bytes "!@#$%^&*()_+" ++ [8; 9] ++ bytes "QWERTYUIOP{}" ++ [10; 0]
         ++ bytes "ASDFGHJKL:" ++ [34; 126; 0; 124] ++ bytes "ZXCVBNM<>?" ++ [0; 42; 0; 32]
         ++ replicate 13 0 ++ bytes "789-456+1230.")
    (keypad 10 47).
Definition ctlmap : list Z :=
  table (replicate 16 0 ++ (Ctl <$> bytes "QWERTYUIOP") ++ [0; 0; 13; 0]
         ++ (Ctl <$> bytes "ASDFGHJKL") ++ [0; 0; 0; 0; Ctl 92] ++ (Ctl <$> bytes "ZXCVBNM")
         ++ [0; 0; u8 (Ctl 47); 0; 0])
    (keypad 13 (u8 (Ctl 47))).

(** ** kbd.c *)

Definition charcode (i : Z) : list Z :=
  if i =? 0 then normalmap else if i =? SHIFT then shiftmap else ctlmap.
Definition entry (t : list Z) (i : Z) : Z := nth (Z.to_nat i) t 0.

(** One scan code: the next [shift] and the character, 0 for none. *)
Definition kbd_step (shift data : Z) : Z * Z :=
  if data =? 0xE0 then (Z.lor shift E0ESC, 0) else
  if negb (Z.land data 0x80 =? 0) then
    let data := if negb (Z.land shift E0ESC =? 0) then data else Z.land data 0x7F in
    (Z.ldiff shift (Z.lor (entry shiftcode data) E0ESC), 0)
  else
  let '(shift, data) :=
    if negb (Z.land shift E0ESC =? 0) then (Z.ldiff shift E0ESC, Z.lor data 0x80)
    else (shift, data) in
  let shift := Z.lor shift (entry shiftcode data) in
  let shift := Z.lxor shift (entry togglecode data) in
  let c := entry (charcode (Z.land shift (Z.lor CTL SHIFT))) data in
  let c := if negb (Z.land shift CAPSLOCK =? 0) then
             if (97 <=? c) && (c <=? 122) then c + (65 - 97)
             else if (65 <=? c) && (c <=? 90) then c + (97 - 65) else c
           else c in
  (shift, c).

Section kbd.
Context {LK : Linker} {FU : Fuel} {BD : BlockDev} {HW : Ports}.

Definition kbdgetc : K Z :=
  st ← inb KBSTATP;
  if Z.land st KBS_DIB =? 0 then mret (-1) else
  data ← inb KBDATAP;
  shift ← gets (λ s, cn_shift (k_cons s));
  let '(shift, c) := kbd_step shift data in
  modify (λ s, s <| k_cons ::= λ x, x <| cn_shift := shift |> |>);;
  mret c.
Definition kbdintr : K unit := consoleintr patience kbdgetc.

(** The device handlers of a kernel on the memory disk, whose [ideintr] is
    empty (memide.c). *)
Definition device_irqs (eoi : K unit) (id cr2 : K Z) : Irqs := {|
  Trap.ideintr := mret tt;
  Trap.kbdintr := kbdintr;
  Trap.uartintr := uartintr;
  Trap.lapiceoi := eoi;
  Trap.cpuid := id;
  Trap.rcr2 := cr2 |}.
End kbd.

(** ** The keyboard as a source *)

(** The scan codes the driver has taken. *)
Fixpoint scanned (h : list outev) : nat :=
  match h with
  | [] => O
  | Inb p _ :: h => if p =? KBDATAP then S (scanned h) else scanned h
  | _ :: h => scanned h
  end.
(** What is still to come of the codes, decoded. *)
Fixpoint kbd_decode (shift : Z) (codes : list Z) : list Z :=
  match codes with
  | [] => []
  | d :: codes => let '(shift, c) := kbd_step shift d in c :: kbd_decode shift codes
  end.
Definition kbd_pending (codes : list Z) (s : kst) : list Z :=
  kbd_decode (cn_shift (k_cons s)) (drop (scanned (k_out s)) codes).

(** The modifiers and the characters after some codes. *)
Fixpoint kbd_run (shift : Z) (codes : list Z) : Z * list Z :=
  match codes with
  | [] => (shift, [])
  | d :: codes =>
      let '(shift, c) := kbd_step shift d in
      let '(shift, l) := kbd_run shift codes in (shift, c :: l)
  end.
Lemma kbd_decode_app codes rest shift :
  kbd_decode shift (codes ++ rest) =
    (kbd_run shift codes).2 ++ kbd_decode (kbd_run shift codes).1 rest.
Proof.
  revert shift. induction codes as [| d codes IH]; intros shift; [done |]. cbn [app kbd_decode kbd_run].
  destruct (kbd_step shift d) as [sh c]. rewrite IH. by destruct (kbd_run sh codes).
Qed.

(** Every character the decoder delivers is a byte. *)
Lemma entries_bytes : forallb (λ t, forallb (λ c, (0 <=? c) && (c <? 256)) t) [normalmap; shiftmap; ctlmap] = true.
Proof. vm_compute. reflexivity. Qed.
Lemma entry_byte i k : 0 ≤ entry (charcode i) k < 256.
Proof.
  pose proof entries_bytes as H. cbn [forallb] in H. rewrite !andb_true_iff in H.
  destruct H as (Hn & Hs & Hc & _). unfold charcode, entry.
  assert (∀ t, forallb (λ c, (0 <=? c) && (c <? 256)) t = true → 0 ≤ nth (Z.to_nat k) t 0 < 256) as Ht.
  { intros t Hf. destruct (nth_in_or_default (Z.to_nat k) t 0) as [Hin | ->]; [| lia].
    rewrite forallb_forall in Hf. specialize (Hf _ Hin). lia. }
  destruct (i =? 0); [by apply Ht |]. destruct (i =? SHIFT); by apply Ht.
Qed.
Lemma kbd_step_byte shift d : 0 ≤ (kbd_step shift d).2 < 256.
Proof.
  unfold kbd_step. destruct (d =? 0xE0); [cbn; lia |].
  destruct (negb (Z.land d 128 =? 0)); [cbn; lia |].
  destruct (if negb (Z.land shift E0ESC =? 0) then _ else _) as [sh dt]. cbv zeta. cbn [snd].
  set (i := Z.land _ (Z.lor CTL SHIFT)). pose proof (entry_byte i dt).
  destruct (negb _); [| done]. destruct (_ && _) eqn:E; [lia |].
  destruct ((65 <=? _) && _) eqn:E'; lia.
Qed.
Lemma kbd_decode_bytes codes shift : Forall (λ c, 0 ≤ c < 256) (kbd_decode shift codes).
Proof.
  revert shift. induction codes as [| d codes IH]; intros shift; [done |]. cbn.
  pose proof (kbd_step_byte shift d). destruct (kbd_step shift d). by constructor.
Qed.

Lemma scanned_app o h : scanned (o ++ h) = (scanned o + scanned h)%nat.
Proof.
  induction o as [| e o IH]; [done |]. destruct e; try done. cbn.
  destruct (port =? KBDATAP); [cbn; by rewrite IH | done].
Qed.
Lemma scanned_echo o : Forall echo_ev o → scanned o = O.
Proof.
  induction 1 as [| e o He _ IH]; [done |]. destruct e; try done. cbn in *.
  by destruct He as [-> | ->].
Qed.

Section kbd_spec.
Context {LK : Linker} {FU : Fuel} {BD : BlockDev} {HW : Ports}.
Context (boot : Z → Z) (CGA : cga_law boot HW).

(** Documented behaviour of the keyboard controller: bit 0 of the status says
    whether there is a code, and the data register delivers the next. *)
Record kbd_law (codes : list Z) : Prop := {
  kl_bytes : Forall (λ c, 0 ≤ c < 256) codes;
  kl_status h : (Z.land (u8 (port_in h KBSTATP)) KBS_DIB =? 0) = bool_decide (drop (scanned h) codes = []);
  kl_data h c : head (drop (scanned h) codes) = Some c → port_in h KBDATAP = c }.

Lemma kbd_source codes : kbd_law codes → Source kbdgetc (kbd_pending codes).
Proof.
  intros [Hb Hst Hd]. split.
  - intros s. unfold kbdgetc, kbd_pending. cbn [k_cons k_out set set_k_cons set_k_out].
    rewrite (bind_done _ _ _ _ _ (inb_run _ _)), Hst.
    set (e := Inb KBSTATP _).
    destruct (drop (scanned (k_out s)) codes) as [| d rest] eqn:Er.
    + rewrite bool_decide_eq_true_2 by done. exists [e], (cn_shift (k_cons s)).
      split; [| split; [by repeat constructor |]].
      * unfold mret, M_ret. f_equal. destruct s as []; cbn in *. by destruct k_cons.
      * change (scanned ([e] ++ k_out s)) with (scanned (k_out s)). by rewrite Er.
    + rewrite bool_decide_eq_false_2 by done.
      rewrite (bind_done _ _ _ _ _ (inb_run _ _)). cbn [k_out set set_k_out].
      assert (port_in (e :: k_out s) KBDATAP = d) as ->.
      { apply Hd. change (scanned (e :: k_out s)) with (scanned (k_out s)). by rewrite Er. }
      assert (0 ≤ d < 256) as Hd8.
      { apply (Forall_drop _ (scanned (k_out s))) in Hb. rewrite Er in Hb. by apply Forall_cons in Hb as [? _]. }
      rewrite u8_id by done. rewrite bind_gets. cbn [kbd_decode].
      change (cn_shift (k_cons (s <| k_out ::= cons e |> <| k_out ::= cons (Inb KBDATAP d) |>)))
        with (cn_shift (k_cons s)).
      destruct (kbd_step (cn_shift (k_cons s)) d) as [sh c] eqn:Es.
      exists [Inb KBDATAP d; e], sh. split; [| split; [by repeat constructor |]].
      * unfold modify, mbind, M_bind, mret, M_ret. cbn. f_equal.
      * change (scanned ([Inb KBDATAP d; e] ++ k_out s)) with (S (scanned (k_out s))).
        rewrite <- Nat.add_1_r, <- drop_drop, Er. done.
  - intros s. apply kbd_decode_bytes.
  - intros s s' [Ec (o & Eo & Ho)]. unfold kbd_pending.
    by rewrite Ec, Eo, scanned_app, scanned_echo by done.
Qed.
End kbd_spec.



(** ** What can be typed *)

(** The keys to press and release for a character: with the shift key held
    where needed. *)
Definition key_codes (c : Z) : list Z :=
  match find_idx (λ x, x =? c) (take 128 normalmap) with
  | Some k => [Z.of_nat k; Z.of_nat k + 128]
  | None =>
      match find_idx (λ x, x =? c) (take 128 shiftmap) with
      | Some k => [0x2A; Z.of_nat k; Z.of_nat k + 128; 0xAA]
      | None => []
      end
  end.
Definition printable (c : Z) : Prop := 32 ≤ c < 127 ∨ c = 10.
Lemma printable_codes :
  forallb (λ c, let '(sh, l) := kbd_run 0 (key_codes c) in
             (sh =? 0) && bool_decide (filter (λ x, x ≠ 0) l = [c]))
    (10 :: (Z.of_nat <$> seq 32 95)) = true.
Proof. vm_compute. reflexivity. Qed.
Lemma key_codes_run c :
  printable c → ∃ l, kbd_run 0 (key_codes c) = (0, l) ∧ filter (λ x, x ≠ 0) l = [c].
Proof.
  intros Hc. pose proof printable_codes as H. rewrite forallb_forall in H.
  specialize (H c). destruct (kbd_run 0 (key_codes c)) as [sh l]. exists l.
  rewrite andb_true_iff, Z.eqb_eq, bool_decide_eq_true in H.
  destruct H as [-> H]; [| by split].
  apply list_elem_of_In. destruct Hc as [Hc | ->]; [right | by left].
  apply list_elem_of_fmap. exists (Z.to_nat c). split; [lia |]. apply elem_of_seq. lia.
Qed.

(** Pressing the keys of [text] one after the other. *)
Definition type_codes (text : list Z) : list Z := concat (key_codes <$> text).
Lemma type_codes_decode text :
  Forall printable text → filter (λ x, x ≠ 0) (kbd_decode 0 (type_codes text)) = text.
Proof.
  unfold type_codes. induction 1 as [| c text Hc _ IH]; [done |]. cbn [fmap list_fmap concat].
  rewrite kbd_decode_app. destruct (key_codes_run c Hc) as (l & -> & Hl). cbn [fst snd].
  by rewrite filter_app, Hl, IH.
Qed.

(** A code that makes no character changes nothing. *)
Lemma key_zeros cs a : foldl key a cs = foldl key a (filter (λ x, x ≠ 0) cs).
Proof.
  revert a. induction cs as [| c cs IH]; intros a; [done |].
  destruct (decide (c = 0)) as [-> | Hc].
  - rewrite filter_cons_False by tauto. cbn [foldl]. by rewrite IH.
  - rewrite filter_cons_True by done. apply IH.
Qed.

Section keyboard.
Context {LK : Linker} {FU : Fuel} {BD : BlockDev} {HW : Ports}.
Context (boot : Z → Z) (CGA : cga_law boot HW).

(** every printable character can be typed, and what is typed is what is
    read.  When the keyboard delivers the scan codes of the keys of a text
    (with the shift key pressed and released around the characters that need
    it), its interrupt leaves the console's buffer as if the text's characters
    had been edited in one by one, and the modifiers as they were. *)
Theorem keyboard_types text q l s fuel :
  let codes := type_codes text in
  let b := foldl key (mkEdit q l []) text in
  Forall printable text → kbd_law codes → cn_shift (k_cons s) = 0 → scanned (k_out s) = O →
  cpu_ok (k_cpu s) → LCons ∉ k_held s → LPtable ∉ k_held s → cursor boot (k_out s) < 1920 →
  editing (k_input s) q l → (length codes < fuel)%nat →
  ∃ s', consoleintr fuel kbdgetc s = Done tt s' ∧
    editing (k_input s') (ed_ready b) (ed_line b) ∧
    k_procs s' = (if decide (ed_ready b = q) then k_procs s
                  else wake (Some CInput) <$> k_procs s) ∧
    k_held s' = k_held s.
Proof.
  intros codes b Ht Hk Hsh Hsc Hcpu Hc Hp Hcur He Hf.
  assert (kbd_pending codes s = kbd_decode 0 codes) as Epend by (unfold kbd_pending; by rewrite Hsh, Hsc).
  assert (length (kbd_decode 0 codes) = length codes) as Elen.
  { clear. generalize 0. induction codes as [| d cs IH]; intros sh; [done |]. cbn.
    destruct (kbd_step sh d). cbn. by rewrite IH. }
  assert (b = foldl key (mkEdit q l []) (kbd_pending codes s)) as Eb.
  { rewrite Epend, key_zeros. unfold codes. by rewrite type_codes_decode. }
  assert (16 ∉ kbd_pending codes s) as Hn.
  { rewrite Epend. intros Hin. assert (16 ∈ filter (λ x, x ≠ 0) (kbd_decode 0 codes)) as Hin'.
    { by apply list_elem_of_filter. }
    unfold codes in Hin'. rewrite type_codes_decode in Hin' by done.
    rewrite Forall_forall in Ht. destruct (Ht 16 Hin'); lia. }
  destruct (consoleintr_run boot CGA kbdgetc _ (kbd_source codes Hk) fuel q l s)
    as (s' & Hr & He' & Hps & _ & _ & Hh & _); try done.
  - by rewrite Epend, Elen.
  - exists s'. by rewrite <- Eb in *.
Qed.
End keyboard.

(** ** Witness *)

(** A PC whose keyboard delivers [codes]. *)
Definition pc_kbd (boot : Z → Z) (codes : list Z) : Ports := λ h p,
  if p =? CRTPORT + 1 then crt_reg boot h (crt_index h) else
  let rest := drop (scanned h) codes in
  if p =? KBSTATP then (if bool_decide (rest = []) then 0 else 1) else
  if p =? KBDATAP then default 0 (head rest) else 0.
Lemma pc_kbd_law boot codes :
  Forall (λ c, 0 ≤ c < 256) codes → kbd_law (HW := pc_kbd boot codes) codes.
Proof.
  intros Hb. split; [done | |].
  - intros h. unfold port_in, pc_kbd. change (KBSTATP =? CRTPORT + 1) with false.
    rewrite Z.eqb_refl. by case_bool_decide.
  - intros h c Hc. unfold port_in, pc_kbd. change (KBDATAP =? CRTPORT + 1) with false.
    change (KBDATAP =? KBSTATP) with false. by rewrite Z.eqb_refl, Hc.
Qed.
Definition hello : list Z := bytes "Hi!" ++ [10].

Lemma keyboard_types_witness :
  let HW := pc_kbd (λ _, 0) (type_codes hello) in
  ∃ s', consoleintr 20 kbdgetc typing = Done tt s' ∧ editing (k_input s') hello [].
Proof.
  destruct (keyboard_types (HW := pc_kbd (λ _, 0) (type_codes hello)) (λ _, 0) (λ _, eq_refl)
    hello [] [] typing 20) as (s' & Hr & He & _).
  - repeat constructor; done.
  - apply pc_kbd_law. vm_compute. repeat constructor; done.
  - reflexivity.
  - reflexivity.
  - split; done.
  - by apply not_elem_of_nil.
  - by apply not_elem_of_nil.
  - reflexivity.
  - split; [| by apply not_elem_of_nil].
    split; [reflexivity | vm_compute; split; done | reflexivity | reflexivity | cbn; lia | reflexivity].
  - vm_compute. lia.
  - exists s'. split; [exact Hr | exact He].
Defined.
