(* ===== verification/Ide.v ===== *)
(** * ide.c: the driver of the IDE disk

    Requests wait in a queue linked through the buffers; the first is the one
    the controller works on.  [iderw] appends a buffer and sleeps until the
    interrupt handler has completed it; the handler starts the next.

    The controller is a parameter: [Ports] says what its status register reads,
    [PortStrings] what a string read delivers.  [Ata] states the documented
    behaviour of an ATA disk in terms of the port accesses so far. *)
From S2P Require Import Prelude Mmu Cstring Kstate Spinlock Kalloc Vm Proc Sleeplock Bio Trap Console.

(** What [rep insl] delivers: the bytes of [n] words read from a port. *)
Class PortStrings := port_insl : list outev → Z → nat → list Z.

Definition SECTOR_SIZE : Z := 512.
Definition IDE_BSY : Z := 0x80.
Definition IDE_DRDY : Z := 0x40.
Definition IDE_DF : Z := 0x20.
Definition IDE_ERR : Z := 0x01.
Definition IDE_CMD_READ : Z := 0x20.
Definition IDE_CMD_WRITE : Z := 0x30.
Definition IDE_CMD_RDMUL : Z := 0xc4.
Definition IDE_CMD_WRMUL : Z := 0xc5.

Section ide.
Context {LK : Linker} {FU : Fuel} {HW : Ports} {HS : PortStrings}.

(** x86.h; the destination of every [insl] and the source of every [outsl] is
    the data of a buffer. *)
Definition insl (port : Z) (i cnt : nat) : K unit :=
  h ← gets k_out;
  let d := resize (4 * cnt) 0 (u8 <$> port_insl h port cnt) in
  modify (λ s, s <| k_out ::= cons (Insl port d) |>);;
  upd_buf i (λ b, b <| b_data ::= λ old, d ++ drop (4 * cnt) old |>).
Definition outsl (port : Z) (data : list Z) (cnt : nat) : K unit :=
  modify (λ s, s <| k_out ::= cons (Outsl port (take (4 * cnt) data)) |>).

(** Wait for the disk to become ready; [fuel] bounds the polling. *)
Fixpoint idewait_loop (fuel : nat) (checkerr : bool) : K Z :=
  match fuel with
  | O => fault "idewait: the disk stays busy"
  | S fuel =>
      r ← inb 0x1f7;
      if negb (Z.land r (Z.lor IDE_BSY IDE_DRDY) =? IDE_DRDY) then idewait_loop fuel checkerr else
      if (checkerr && negb (Z.land r (Z.lor IDE_DF IDE_ERR) =? 0))%bool then mret (-1) else mret 0
  end.
Definition idewait (checkerr : bool) : K Z := idewait_loop patience checkerr.

(** for(i=0; i<1000; i++) if(inb(0x1f7) != 0){ havedisk1 = 1; break; } *)
Fixpoint find_disk1 (n : nat) : K unit :=
  match n with
  | O => mret tt
  | S n =>
      r ← inb 0x1f7;
      if negb (r =? 0) then modify (λ s, s <| k_ide ::= λ d, d <| id_disk1 := true |> |>)
      else find_disk1 n
  end.
Definition ideinit : K unit :=
  ncpu ← gets (λ s, mp_ncpu (k_mp s));
  ioapicenable IRQ_IDE (ncpu - 1);;
  idewait false;;
  outb 0x1f6 (Z.lor 0xe0 (Z.shiftl 1 4));;
  find_disk1 1000;;
  outb 0x1f6 (Z.lor 0xe0 (Z.shiftl 0 4)).

(** Start the request for a buffer. *)
Definition idestart (ob : option nat) : K unit :=
  match ob with
  | None => panic "idestart"
  | Some i =>
      b ← get_buf i;
      if b_blockno b >=? FSSIZE then panic "incorrect blockno" else
      let sector_per_block := Z.of_nat BSIZE / SECTOR_SIZE in
      let sector := i32 (u32 (b_blockno b * sector_per_block)) in
      let read_cmd := if sector_per_block =? 1 then IDE_CMD_READ else IDE_CMD_RDMUL in
      let write_cmd := if sector_per_block =? 1 then IDE_CMD_WRITE else IDE_CMD_WRMUL in
      if sector_per_block >? 7 then panic "idestart" else
      idewait false;;
      outb 0x3f6 0;;
      outb 0x1f2 (u8 sector_per_block);;
      outb 0x1f3 (Z.land sector 0xff);;
      outb 0x1f4 (Z.land (Z.shiftr sector 8) 0xff);;
      outb 0x1f5 (Z.land (Z.shiftr sector 16) 0xff);;
      outb 0x1f6 (u8 (Z.lor (Z.lor 0xe0 (Z.shiftl (Z.land (b_dev b) 1) 4))
                        (Z.land (Z.shiftr sector 24) 0x0f)));;
      if b_dirty b then
        outb 0x1f7 write_cmd;;
        outsl 0x1f0 (b_data b) (BSIZE / 4)
      else outb 0x1f7 read_cmd
  end.

Definition set_queue (q : option nat) : K unit :=
  modify (λ s, s <| k_ide ::= λ d, d <| id_queue := q |> |>).

(** The interrupt handler. *)
Definition ide_intr : K unit :=
  acquire LIde;;
  q ← gets (λ s, id_queue (k_ide s));
  match q with
  | None => release LIde
  | Some i =>
      b ← get_buf i;
      set_queue (b_qnext b);;
      (if negb (b_dirty b) then
         r ← idewait true;
         mwhen (r >=? 0) (insl 0x1f0 i (BSIZE / 4))
       else mret tt);;
      upd_buf i (λ b, b <| b_valid := true |>);;
      upd_buf i (λ b, b <| b_dirty := false |>);;
      wakeup (CBuf i);;
      q ← gets (λ s, id_queue (k_ide s));
      mwhen (negb (bool_decide (q = None))) (idestart q);;
      release LIde
  end.

(** [for(pp=&idequeue; *pp; pp=&( *pp)->qnext) ; *pp = b;]: the buffers are
    fewer than the fuel. *)
Fixpoint append_at (fuel : nat) (j i : nat) : K unit :=
  match fuel with
  | O => fault "iderw: the queue is circular"
  | S fuel =>
      b ← get_buf j;
      match b_qnext b with
      | None => upd_buf j (λ b, b <| b_qnext := Some i |>)
      | Some j => append_at fuel j i
      end
  end.
(** The first half of [iderw]: append the buffer and start the disk if it is
    idle. *)
Definition enqueue (i : nat) : K unit :=
  upd_buf i (λ b, b <| b_qnext := None |>);;
  q ← gets (λ s, id_queue (k_ide s));
  match q with
  | None => set_queue (Some i)
  | Some j => append_at NBUF j i
  end;;
  q ← gets (λ s, id_queue (k_ide s));
  mwhen (bool_decide (q = Some i)) (idestart (Some i)).

(** (b->flags & (B_VALID|B_DIRTY)) == B_VALID *)
Definition synced (b : buf) : bool := (b_valid b && negb (b_dirty b))%bool.

(** The second half: wait for the request to finish. *)
Fixpoint iderw_wait (fuel : nat) (i : nat) : K unit :=
  match fuel with
  | O => fault "iderw: out of fuel"
  | S fuel =>
      b ← get_buf i;
      if synced b then mret tt else sleep (CBuf i) LIde;; iderw_wait fuel i
  end.

Definition ide_iderw (i : nat) : K unit :=
  h ← holdingsleep (SLBuf i);
  if negb h then panic "iderw: buf not locked" else
  b ← get_buf i;
  if synced b then panic "iderw: nothing to do" else
  disk1 ← gets (λ s, id_disk1 (k_ide s));
  if (negb (b_dev b =? 0) && negb disk1)%bool then panic "iderw: ide disk 1 not present" else
  acquire LIde;;
  enqueue i;;
  iderw_wait patience i;;
  release LIde.
End ide.
#[export] Instance ide {LK : Linker} {FU : Fuel} {HW : Ports} {HS : PortStrings} : BlockDev :=
  { iderw := ide_iderw }.

(** ** The controller

    What a disk makes of the port accesses: registers, a command and the two
    disks' sectors.  A sector not in the map is zero. *)
Inductive ata_cmd := Idle | Reading (k : Z * Z) | Writing (k : Z * Z).
Record ata := mkAta {
  at_cnt : Z; at_lba0 : Z; at_lba1 : Z; at_lba2 : Z; at_dh : Z;
  at_cmd : ata_cmd; at_disk : gmap (Z * Z) (list Z) }.
Definition sector_of (D : gmap (Z * Z) (list Z)) (k : Z * Z) : list Z :=
  default (replicate BSIZE 0) (D !! k).
(** The disk (0 or 1) and the sector that the registers select (LBA28). *)
Definition selected (a : ata) : Z * Z :=
  (Z.land (Z.shiftr (at_dh a) 4) 1,
   at_lba0 a + 256 * at_lba1 a + 65536 * at_lba2 a + 16777216 * Z.land (at_dh a) 15).
Definition ata_out (a : ata) (p v : Z) : ata :=
  match a with
  | mkAta c l0 l1 l2 dh cmd D =>
      if p =? 0x1f2 then mkAta v l0 l1 l2 dh cmd D
      else if p =? 0x1f3 then mkAta c v l1 l2 dh cmd D
      else if p =? 0x1f4 then mkAta c l0 v l2 dh cmd D
      else if p =? 0x1f5 then mkAta c l0 l1 v dh cmd D
      else if p =? 0x1f6 then mkAta c l0 l1 l2 v cmd D
      else if p =? 0x1f7 then
        let cmd := if negb (c =? 1) then Idle
                   else if v =? IDE_CMD_READ then Reading (selected a)
                   else if v =? IDE_CMD_WRITE then Writing (selected a) else Idle in
        mkAta c l0 l1 l2 dh cmd D
      else a
  end.
Definition ata_step (a : ata) (e : outev) : ata :=
  match e with
  | Outb p v => ata_out a p v
  | Outsl p d =>
      match a with
      | mkAta c l0 l1 l2 dh (Writing k) D =>
          if p =? 0x1f0 then mkAta c l0 l1 l2 dh Idle (<[k := d]> D) else a
      | _ => a
      end
  | Insl p _ =>
      match a with
      | mkAta c l0 l1 l2 dh (Reading _) D => if p =? 0x1f0 then mkAta c l0 l1 l2 dh Idle D else a
      | _ => a
      end
  | _ => a
  end.
(** After the accesses [h], most recent first, of disks that held [D]. *)
Definition ata_of (D : gmap (Z * Z) (list Z)) (h : list outev) : ata :=
  foldr (λ e a, ata_step a e) (mkAta 0 0 0 0 0 Idle D) h.

Section ata.
Context {FU : Fuel} {HW : Ports} {HS : PortStrings}.

(** The disk becomes ready, without an error, within [n] readings of its status. *)
Fixpoint ready_within (n : nat) (h : list outev) : Prop :=
  match n with
  | O => False
  | S n =>
      let r := u8 (port_in h 0x1f7) in
      if Z.land r (Z.lor IDE_BSY IDE_DRDY) =? IDE_DRDY
      then Z.land r (Z.lor IDE_DF IDE_ERR) = 0
      else ready_within n (Inb 0x1f7 r :: h)
  end.
(** A disk that held [D0] at first: it becomes ready, and delivers the sector it
    was asked for. *)
Class AtaOk (D0 : gmap (Z * Z) (list Z)) : Prop := {
  ata_ready h : ready_within patience h;
  ata_reads h k : at_cmd (ata_of D0 h) = Reading k →
    port_insl h 0x1f0 (BSIZE / 4) = sector_of (at_disk (ata_of D0 h)) k }.
End ata.

(** ** Requests, in the abstract *)

(** The sector of a buffer. *)
Definition place (b : buf) : Z * Z := (Z.land (b_dev b) 1, b_blockno b).
(** What starting the request of [b] makes of the disk, and what finishing it
    makes of [b]. *)
Definition started (D : gmap (Z * Z) (list Z)) (b : buf) : gmap (Z * Z) (list Z) :=
  if b_dirty b then <[place b := b_data b]> D else D.
Definition finished (D : gmap (Z * Z) (list Z)) (b : buf) : buf :=
  b <| b_data := if b_dirty b then b_data b else sector_of D (place b) |>
    <| b_valid := true |> <| b_dirty := false |>.

(** A request the driver accepts. *)
Record request (b : buf) : Prop := {
  rq_work : synced b = false;
  rq_block : 0 ≤ b_blockno b < FSSIZE;
  rq_dev : 0 ≤ b_dev b;
  rq_bytes : Forall (λ x, 0 ≤ x < 256) (b_data b);
  rq_data : length (b_data b) = BSIZE }.

Section driver.
Context {LK : Linker} {FU : Fuel} {HW : Ports} {HS : PortStrings}.
Context (D0 : gmap (Z * Z) (list Z)) {HA : AtaOk D0}.

(** Reading the status changes nothing. *)
Definition polls (l : list outev) : Prop := Forall (λ e, ∃ p v, e = Inb p v) l.
Lemma ata_polls l h : polls l → ata_of D0 (l ++ h) = ata_of D0 h.
Proof.
  induction 1 as [| e l (p & v & ->) _ IH]; [done |]. exact IH.
Qed.
Lemma idewait_loop_run chk n : ∀ s, ready_within n (k_out s) →
  ∃ l, polls l ∧ idewait_loop n chk s = Done 0 (s <| k_out ::= app l |>).
Proof.
  induction n as [| n IH]; intros s Hr; [done |]. cbn [idewait_loop ready_within] in *.
  unfold inb. rewrite bind_assoc, bind_gets, bind_assoc, bind_modify, bind_ret. cbv zeta in *.
  set (r := u8 (port_in (k_out s) 0x1f7)) in *.
  destruct (Z.land r (Z.lor IDE_BSY IDE_DRDY) =? IDE_DRDY) eqn:He; cbn [negb].
  - rewrite Hr. exists [Inb 0x1f7 r]. split; [repeat constructor; by eexists _, _ |].
    rewrite andb_false_r. reflexivity.
  - destruct (IH (s <| k_out ::= cons (Inb 0x1f7 r) |>)) as (l & Hl & ->); [exact Hr |].
    exists (l ++ [Inb 0x1f7 r]). split; [apply Forall_app; split; [done | repeat constructor; by eexists _, _] |].
    kst_eq. by rewrite <- app_assoc.
Qed.
Lemma idewait_run chk s : ∃ l, polls l ∧ idewait chk s = Done 0 (s <| k_out ::= app l |>).
Proof. apply idewait_loop_run, ata_ready. Qed.

(** What [idestart] tells the controller is the request. *)
Lemma selected_decodes c dev blk cmd D :
  0 ≤ dev → 0 ≤ blk < FSSIZE →
  selected (mkAta c (Z.land blk 0xff) (Z.land (Z.shiftr blk 8) 0xff) (Z.land (Z.shiftr blk 16) 0xff)
    (u8 (Z.lor (Z.lor 0xe0 (Z.shiftl (Z.land dev 1) 4)) (Z.land (Z.shiftr blk 24) 0x0f))) cmd D) =
  (Z.land dev 1, blk).
Proof.
  intros Hd Hb. unfold FSSIZE in Hb. unfold selected. cbn [at_dh at_lba0 at_lba1 at_lba2].
  change 0xff with (Z.ones 8). change 0x0f with (Z.ones 4). rewrite !Z.land_ones, !Z.shiftr_div_pow2 by lia.
  rewrite (Z.div_small blk (2 ^ 24)) by lia. rewrite (Z.div_small blk (2 ^ 16)) by lia.
  change (0 mod 2 ^ 4) with 0. rewrite Z.lor_0_r.
  assert (Z.land dev 1 = dev mod 2) as Hm by exact (Z.land_ones dev 1 ltac:(lia)).
  assert (Z.land dev 1 = 0 ∨ Z.land dev 1 = 1) as [-> | ->] by (rewrite Hm; zlia).
  - change (Z.land (u8 (Z.lor 224 (Z.shiftl 0 4)) / 2 ^ 4) 1) with 0.
    change (u8 (Z.lor 224 (Z.shiftl 0 4)) mod 2 ^ 4) with 0. change (0 mod 2 ^ 8) with 0.
    change (2 ^ 8) with 256. f_equal. zlia.
  - change (Z.land (u8 (Z.lor 224 (Z.shiftl 1 4)) / 2 ^ 4) 1) with 1.
    change (u8 (Z.lor 224 (Z.shiftl 1 4)) mod 2 ^ 4) with 0. change (0 mod 2 ^ 8) with 0.
    change (2 ^ 8) with 256. f_equal. zlia.
Qed.

(** Starting a request: a write is on the disk, a read is under way. *)
Lemma idestart_run i b s :
  k_bufs s !! i = Some b → request b →
  ∃ l, idestart (Some i) s = Done tt (s <| k_out ::= app l |>) ∧
    at_disk (ata_of D0 (l ++ k_out s)) = started (at_disk (ata_of D0 (k_out s))) b ∧
    (b_dirty b = false → at_cmd (ata_of D0 (l ++ k_out s)) = Reading (place b)).
Proof.
  intros Hb [_ Hblk Hdev _ Hlen]. unfold idestart. rewrite (get_buf_bind _ _ b) by done.
  rewrite Z.geb_leb, (proj2 (Z.leb_gt _ _)) by lia.
  change (Z.of_nat BSIZE / SECTOR_SIZE) with 1. change (1 =? 1) with true. change (1 >? 7) with false.
  cbv zeta iota. assert (i32 (u32 (b_blockno b * 1)) = b_blockno b) as ->.
  { unfold FSSIZE in Hblk. rewrite Z.mul_1_r, u32_id, i32_id by (unfold is_u32, is_i32; lia). done. }
  destruct (idewait_run false s) as (l & Hl & Hrun). rewrite (bind_done _ _ _ _ _ Hrun).
  pose proof (ata_polls l (k_out s) Hl) as Hp.
  pose proof (λ c cmd D, selected_decodes c (b_dev b) (b_blockno b) cmd D Hdev Hblk) as Hsel.
  set (x3 := Z.land (b_blockno b) 0xff) in *.
  set (x4 := Z.land (Z.shiftr (b_blockno b) 8) 0xff) in *.
  set (x5 := Z.land (Z.shiftr (b_blockno b) 16) 0xff) in *.
  set (x6 := u8 (Z.lor (Z.lor 0xe0 _) _)) in *. unfold outb, outsl. rewrite !bind_modify.
  destruct (ata_of D0 (k_out s)) as [c l0 l1 l2 dh cmd D] eqn:Ha.
  change (u8 1) with 1. unfold started. destruct (b_dirty b).
  - exists ([Outsl 0x1f0 (b_data b); Outb 0x1f7 IDE_CMD_WRITE; Outb 0x1f6 x6; Outb 0x1f5 x5; Outb 0x1f4 x4;
             Outb 0x1f3 x3; Outb 0x1f2 1; Outb 0x3f6 0] ++ l). split; [| split; [| done]].
    + rewrite bind_modify. unfold modify. kst_eq. rewrite take_ge by (rewrite Hlen; done). done.
    + rewrite <- app_assoc. cbn [app ata_of foldr]. fold (ata_of D0 (l ++ k_out s)). rewrite Hp.
      cbn [ata_step ata_out Z.eqb Pos.eqb negb IDE_CMD_WRITE IDE_CMD_READ]. rewrite Hsel. done.
  - exists ([Outb 0x1f7 IDE_CMD_READ; Outb 0x1f6 x6; Outb 0x1f5 x5; Outb 0x1f4 x4;
             Outb 0x1f3 x3; Outb 0x1f2 1; Outb 0x3f6 0] ++ l). split; [| split].
    + unfold modify. kst_eq.
    + rewrite <- app_assoc. cbn [app ata_of foldr]. fold (ata_of D0 (l ++ k_out s)). rewrite Hp. done.
    + intros _. rewrite <- app_assoc. cbn [app ata_of foldr]. fold (ata_of D0 (l ++ k_out s)). rewrite Hp.
      cbn [ata_step ata_out Z.eqb Pos.eqb negb IDE_CMD_WRITE IDE_CMD_READ]. rewrite Hsel. done.
Qed.

(** Sectors hold [BSIZE] bytes. *)
Definition block_ok (d : list Z) : Prop := length d = BSIZE ∧ Forall (λ x, 0 ≤ x < 256) d.
Definition disk_ok (D : gmap (Z * Z) (list Z)) : Prop := map_Forall (λ _ d, block_ok d) D.
Lemma sector_ok D k : disk_ok D → block_ok (sector_of D k).
Proof.
  intros HD. unfold sector_of. destruct (D !! k) as [d |] eqn:Hk; [by apply (HD k) |]. cbn [default].
  split; [apply length_replicate |]. apply Forall_replicate. lia.
Qed.
Lemma started_ok D b : disk_ok D → request b → disk_ok (started D b).
Proof.
  intros HD [_ _ _ Hb Hl]. unfold started. destruct (b_dirty b); [| done].
  by apply map_Forall_insert_2.
Qed.
Lemma u8_bytes d : Forall (λ x, 0 ≤ x < 256) d → u8 <$> d = d.
Proof.
  induction 1 as [| x d Hx _ IH]; [done |]. rewrite fmap_cons, IH, u8_id by exact Hx. done.
Qed.

(** Completing the request the disk has worked on. *)
Lemma finish_run i b s (k : unit → K unit) :
  k_bufs s !! i = Some b → request b → disk_ok (at_disk (ata_of D0 (k_out s))) →
  (b_dirty b = false → at_cmd (ata_of D0 (k_out s)) = Reading (place b)) →
  ∃ l, ((if negb (b_dirty b) then
           r ← idewait true;
           mwhen (r >=? 0) (insl 0x1f0 i (BSIZE / 4))
         else mret tt);;
        upd_buf i (λ b, b <| b_valid := true |>);;
        upd_buf i (λ b, b <| b_dirty := false |>) ≫= k) s =
      k tt (s <| k_out ::= app l |> <| k_bufs ::= <[i := finished (at_disk (ata_of D0 (k_out s))) b]> |>) ∧
    at_disk (ata_of D0 (l ++ k_out s)) = at_disk (ata_of D0 (k_out s)).
Proof.
  intros Hb [_ _ _ _ Hlen] HD Hcmd. pose proof (lookup_lt_Some _ _ _ Hb) as Hlt.
  unfold finished. destruct (b_dirty b) eqn:Hdirty; cbn [negb].
  - exists []. split; [| done]. rewrite bind_ret. erewrite upd_buf_bind by exact Hb.
    erewrite upd_buf_bind by (cbn; by apply list_lookup_insert_eq). f_equal. kst_eq.
    by rewrite list_insert_insert_eq.
  - destruct (idewait_run true s) as (l & Hl & Hrun). rewrite bind_assoc, (bind_done _ _ _ _ _ Hrun).
    change (0 >=? 0) with true. cbn [mwhen]. unfold insl. rewrite bind_assoc, bind_gets.
    change (k_out (set k_out _ _)) with (l ++ k_out s).
    pose proof (ata_polls l (k_out s) Hl) as Hp. specialize (Hcmd eq_refl).
    rewrite (ata_reads _ (place b)) by (by rewrite Hp). rewrite Hp.
    set (D := at_disk (ata_of D0 (k_out s))) in *.
    destruct (sector_ok D (place b) HD) as [Hsl Hsb]. rewrite (u8_bytes _ Hsb).
    change (4 * (BSIZE / 4))%nat with BSIZE. rewrite resize_all_alt by done.
    exists (Insl 0x1f0 (sector_of D (place b)) :: l). split.
    + rewrite bind_assoc, bind_modify. erewrite upd_buf_bind by exact Hb.
      do 2 (erewrite upd_buf_bind by (cbn; rewrite ?list_insert_insert_eq; by apply list_lookup_insert_eq)).
      f_equal. kst_eq. rewrite !list_insert_insert_eq.
      assert (b <| b_data ::= λ old, sector_of D (place b) ++ drop BSIZE old |> =
        b <| b_data := sector_of D (place b) |>) as Hd.
      { unfold set, set_b_data. rewrite drop_ge by (by rewrite Hlen). by rewrite app_nil_r. }
      f_equal. change 512%nat with BSIZE. by rewrite Hd.
    + cbn [app ata_of foldr]. fold (ata_of D0 (l ++ k_out s)). rewrite Hp. unfold D.
      by destruct (ata_of D0 (k_out s)) as [? ? ? ? ? [| |] ?].
Qed.

(** ** The queue *)

(** The buffers of [q], in order, linked from [h]. *)
Fixpoint linked (bufs : list buf) (h : option nat) (q : list nat) : Prop :=
  match q with
  | [] => h = None
  | i :: q => h = Some i ∧ ∃ b, bufs !! i = Some b ∧ linked bufs (b_qnext b) q
  end.
Lemma linked_ext bufs bufs' q : ∀ h,
  (∀ j, j ∈ q → b_qnext <$> bufs' !! j = b_qnext <$> bufs !! j) → linked bufs h q → linked bufs' h q.
Proof.
  induction q as [| i q IH]; intros h He; [done |]. intros (-> & b & Hb & Hq). split; [done |].
  pose proof (He i ltac:(left)) as Hi. rewrite Hb in Hi. apply fmap_Some in Hi as (b' & Hb' & Heq).
  exists b'. split; [done |]. rewrite <- Heq. apply IH; [| done]. intros j Hj. apply He. by right.
Qed.
Lemma linked_snoc bufs z b i bi q : ∀ h,
  linked bufs h q → NoDup q → last q = Some z → bufs !! z = Some b → i ∉ q → bufs !! i = Some bi →
  b_qnext bi = None →
  linked (<[z := b <| b_qnext := Some i |>]> bufs) h (q ++ [i]).
Proof.
  induction q as [| j q IH]; intros h Hq Hnd Hz Hb Hi Hbi Hn; [done |].
  destruct Hq as (-> & c & Hc & Hq). apply NoDup_cons in Hnd as [Hj Hnd]. apply not_elem_of_cons in Hi as [Hij Hi].
  pose proof (lookup_lt_Some _ _ _ Hb) as Hlt. cbn [app linked]. split; [done |]. destruct q as [| k q].
  - injection Hz as ->. rewrite Hc in Hb. injection Hb as ->. rewrite list_lookup_insert_eq by done.
    eexists. split; [done |]. cbn [app linked]. split; [done |].
    rewrite list_lookup_insert_ne by done. by exists bi.
  - assert (j ≠ z) as Hjz.
    { intros ->. apply Hj. rewrite last_cons_cons in Hz. by apply last_Some_elem_of. }
    rewrite list_lookup_insert_ne by done. exists c. split; [done |]. by apply IH.
Qed.
Lemma append_at_run i fuel : ∀ q j s,
  linked (k_bufs s) (Some j) (j :: q) → (length q < fuel)%nat →
  ∃ z b, last (j :: q) = Some z ∧ k_bufs s !! z = Some b ∧ b_qnext b = None ∧
    append_at fuel j i s = Done tt (s <| k_bufs ::= <[z := b <| b_qnext := Some i |>]> |>).
Proof.
  induction fuel as [| fuel IH]; intros q j s Hq Hf; [lia |].
  destruct Hq as (_ & b & Hb & Hq). cbn [append_at]. rewrite (get_buf_bind _ _ b) by done.
  destruct q as [| k q].
  - cbn in Hq. rewrite Hq. exists j, b. split; [done |]. split; [done |]. split; [done |].
    by apply upd_buf_run.
  - destruct Hq as (Hk & Hq'). rewrite Hk. cbn [length] in Hf.
    destruct (IH q k s) as (z & c & Hz & Hc & Hn & Hrun); [done | lia |].
    exists z, c. split; [done |]. by split.
Qed.

(** What a buffer holds beside its link. *)
Definition core (b : buf) : buf := b <| b_qnext := None |>.
Definition same_cores (s s' : kst) : Prop := ∀ j, core <$> k_bufs s' !! j = core <$> k_bufs s !! j.
Lemma request_core b b' : core b = core b' → request b → request b'.
Proof.
  destruct b, b'. unfold core. kunfold. cbn. intros [=]. subst. intros [? ? ? ? ?]. by split.
Qed.
Lemma core_fields b b' :
  core b = core b' → b_dirty b = b_dirty b' ∧ b_valid b = b_valid b' ∧ place b = place b' ∧
    b_data b = b_data b' ∧ b_lock b = b_lock b'.
Proof. destruct b, b'. unfold core. kunfold. cbn. intros [=]. by subst. Qed.
Lemma started_core D b b' : core b = core b' → started D b = started D b'.
Proof. destruct b, b'. unfold core. kunfold. cbn. intros [=]. by subst. Qed.
Lemma finished_core D b b' : core b = core b' → core (finished D b) = core (finished D b').
Proof. destruct b, b'. unfold core. kunfold. cbn. intros [=]. by subst. Qed.

(** ** The driver's invariant: the disk holds [D], the requests [q] wait in
    order, the disk works on the first. *)
Record driver (D : gmap (Z * Z) (list Z)) (q : list nat) (s : kst) : Prop := {
  dv_len : length (k_bufs s) = NBUF;
  dv_linked : linked (k_bufs s) (id_queue (k_ide s)) q;
  dv_nodup : NoDup q;
  dv_request : ∀ i b, i ∈ q → k_bufs s !! i = Some b → request b;
  dv_disk : at_disk (ata_of D0 (k_out s)) = D;
  dv_ok : disk_ok D;
  dv_busy : ∀ i b, head q = Some i → k_bufs s !! i = Some b → b_dirty b = false →
    at_cmd (ata_of D0 (k_out s)) = Reading (place b) }.

Lemma linked_lt bufs q : ∀ h, linked bufs h q → Forall (λ i, i < length bufs)%nat q.
Proof.
  induction q as [| i q IH]; intros h Hq; [done |]. destruct Hq as (_ & b & Hb & Hq).
  constructor; [by eapply lookup_lt_Some | by eapply IH].
Qed.
Lemma short_nodup n (q : list nat) : Forall (λ i, i < n)%nat q → NoDup q → (length q ≤ n)%nat.
Proof.
  intros Hq Hnd. transitivity (length (seq 0 n)); [| by rewrite length_seq].
  apply submseteq_length, NoDup_submseteq; [done |]. intros i Hi. rewrite Forall_forall in Hq.
  apply elem_of_seq. specialize (Hq i Hi). lia.
Qed.

(** [idestart] on the head of the queue makes the invariant complete. *)
Lemma start_head D i b q s :
  k_bufs s !! i = Some b → length (k_bufs s) = NBUF →
  linked (k_bufs s) (id_queue (k_ide s)) (i :: q) → NoDup (i :: q) →
  (∀ j c, j ∈ i :: q → k_bufs s !! j = Some c → request c) →
  at_disk (ata_of D0 (k_out s)) = D → disk_ok D →
  ∃ s', idestart (Some i) s = Done tt s' ∧ driver (started D b) (i :: q) s' ∧
    s' = s <| k_out := k_out s' |>.
Proof.
  intros Hb Hlen Hq Hnd Hreq HD Hok.
  assert (Hrb : request b) by (apply (Hreq i); [by left | done]).
  destruct (idestart_run i b s Hb Hrb) as (l & Hrun & HD' & Hcmd).
  eexists. split; [exact Hrun |]. split; [| kst_eq]. rewrite HD in HD'.
  split; cbn [k_bufs k_ide k_out set set_k_out]; try done.
  - by apply started_ok.
  - intros j c [= <-] Hc Hdirty. change (k_bufs s !! i = Some c) in Hc. rewrite Hb in Hc.
    injection Hc as <-. by apply Hcmd.
Qed.

Lemma enqueue_run D q i b s :
  driver D q s → i ∉ q → k_bufs s !! i = Some b → request b →
  ∃ s', enqueue i s = Done tt s' ∧
    driver (if decide (q = []) then started D b else D) (q ++ [i]) s' ∧ same_cores s s' ∧
    s' = s <| k_out := k_out s' |> <| k_bufs := k_bufs s' |> <| k_ide := k_ide s' |>.
Proof.
  intros [Hlen Hq Hnd Hreq HD Hok Hbusy] Hi Hb Hrb. unfold enqueue.
  erewrite upd_buf_bind by exact Hb. rewrite bind_gets.
  set (b1 := b <| b_qnext := None |>). set (s1 := s <| k_bufs ::= <[i := b1]> |>).
  change (id_queue (k_ide s1)) with (id_queue (k_ide s)).
  pose proof (lookup_lt_Some _ _ _ Hb) as Hlt.
  assert (Hb1 : k_bufs s1 !! i = Some b1) by (cbn; by apply list_lookup_insert_eq).
  assert (Hne : ∀ j, j ∈ q → i ≠ j) by (intros j Hj ->; done).
  assert (Hsame1 : same_cores s s1).
  { intros j. unfold s1. cbn. destruct (decide (i = j)) as [<- |]; [| by rewrite list_lookup_insert_ne].
    rewrite list_lookup_insert_eq, Hb by done. done. }
  assert (Hr1 : ∀ j c, j ∈ q ++ [i] → k_bufs s1 !! j = Some c → request c).
  { intros j c Hj Hc. specialize (Hsame1 j). rewrite Hc in Hsame1. symmetry in Hsame1.
    apply fmap_Some in Hsame1 as (c' & Hc' & Heq). apply (request_core c'); [done |].
    apply elem_of_app in Hj as [Hj | ->%list_elem_of_singleton]; [by apply (Hreq j) |].
    rewrite Hb in Hc'. by injection Hc' as <-. }
  destruct q as [| j q].
  - cbn in Hq. rewrite Hq. unfold set_queue. rewrite bind_modify, bind_gets.
    match goal with |- context [mwhen _ _ ?st] => set (s2 := st) end.
    change (id_queue (k_ide s2)) with (Some i). rewrite bool_decide_true by done. cbn [mwhen].
    destruct (start_head D i b1 [] s2) as (s3 & Hrun & Hdv & Heq); try done.
    { cbn. by rewrite length_insert. }
    { split; [done |]. by exists b1. }
    { apply NoDup_singleton. }
    exists s3. split; [exact Hrun |]. split; [exact Hdv |]. split.
    + intros k. rewrite Heq. apply Hsame1.
    + rewrite Heq. unfold s2, s1. kst_eq.
  - assert (Hq1 : linked (k_bufs s1) (id_queue (k_ide s)) (j :: q)).
    { apply (linked_ext (k_bufs s)); [| done]. intros k Hk. cbn. by rewrite list_lookup_insert_ne by auto. }
    pose proof Hq1 as [Hh _]. rewrite Hh in Hq1 |- *.
    destruct (append_at_run i NBUF q j s1 Hq1) as (z & c & Hz & Hc & Hcn & Hrun).
    { pose proof (short_nodup NBUF (i :: j :: q)) as Hle. cbn [length] in Hle.
      assert (S (S (length q)) ≤ NBUF)%nat; [apply Hle | lia].
      - rewrite <- Hlen. constructor; [done |]. by eapply linked_lt.
      - by constructor. }
    rewrite (bind_done _ _ _ _ _ Hrun), bind_gets.
    match goal with |- context [mwhen _ _ ?st] => set (s2 := st) end.
    change (id_queue (k_ide s2)) with (id_queue (k_ide s)). rewrite Hh.
    rewrite bool_decide_false by (intros [= ->]; apply Hi; by left). cbn [mwhen].
    assert (Hsame2 : same_cores s s2).
    { intros k. rewrite <- (Hsame1 k). unfold s2. cbn. pose proof (lookup_lt_Some _ _ _ Hc).
      destruct (decide (z = k)) as [<- |]; [| by rewrite list_lookup_insert_ne].
      rewrite list_lookup_insert_eq by done. change (k_bufs s1 !! z = Some c) in Hc. cbn in Hc. by rewrite Hc. }
    exists s2. split; [done |]. split; [| split; [done | unfold s2, s1; kst_eq]].
    rewrite decide_False by done. split.
    + unfold s2, s1. cbn. by rewrite !length_insert.
    + change (id_queue (k_ide s2)) with (id_queue (k_ide s)). rewrite Hh.
      apply (linked_snoc (k_bufs s1) z c i b1); done.
    + apply NoDup_app. split; [done |]. split; [| apply NoDup_singleton].
      intros k Hk ->%list_elem_of_singleton. done.
    + intros k d Hk Hd. specialize (Hsame2 k). rewrite Hd in Hsame2. symmetry in Hsame2.
      apply fmap_Some in Hsame2 as (d' & Hd' & Heq). apply (request_core d'); [done |].
      apply elem_of_app in Hk as [Hk | ->%list_elem_of_singleton]; [by apply (Hreq k) |].
      rewrite Hb in Hd'. by injection Hd' as <-.
    + exact HD.
    + exact Hok.
    + intros k d Hk Hd Hdirty. specialize (Hsame2 k). rewrite Hd in Hsame2. symmetry in Hsame2.
      apply fmap_Some in Hsame2 as (d' & Hd' & (Hdd & _ & -> & _)%core_fields). rewrite Hdd in Hdirty.
      by apply (Hbusy k).
Qed.

Lemma intr_idle D s :
  driver D [] s → cpu_ok (k_cpu s) → LIde ∉ k_held s → ide_intr s = Done tt (ksync s).
Proof.
  intros [_ Hq _ _ _ _ _] Hc Hl. unfold ide_intr. rewrite acquire_bind by done. rewrite bind_gets.
  change (id_queue (k_ide (locked LIde s))) with (id_queue (k_ide s)). cbn in Hq. rewrite Hq.
  rewrite (release_run _ _ (k_cpu s) (k_held s)) by done. unfold ksync. kst_eq.
Qed.

(** What the handler leaves in the buffers when it completes [b], in [i]. *)
Definition completes (D : gmap (Z * Z) (list Z)) (i : nat) (b : buf) (s s' : kst) : Prop :=
  core <$> k_bufs s' !! i = Some (core (finished D b)) ∧
  ∀ j, j ≠ i → core <$> k_bufs s' !! j = core <$> k_bufs s !! j.
(** The disk once the next request has been started. *)
Definition next_disk (D : gmap (Z * Z) (list Z)) (q : list nat) (s : kst) : gmap (Z * Z) (list Z) :=
  match q with
  | [] => D
  | j :: _ => from_option (started D) D (k_bufs s !! j)
  end.

Lemma intr_run D i q b s :
  driver D (i :: q) s → k_bufs s !! i = Some b → cpu_ok (k_cpu s) → k_held s = [] →
  ∃ s', ide_intr s = Done tt s' ∧ driver (next_disk D q s) q s' ∧ completes D i b s s' ∧
    s' = s <| k_cpu := sync_cpu (k_cpu s) |> <| k_out := k_out s' |> <| k_bufs := k_bufs s' |>
           <| k_ide := k_ide s' |> <| k_procs ::= fmap (wake (Some (CBuf i))) |>.
Proof.
  intros [Hlen Hq Hnd Hreq HD Hok Hbusy] Hb Hc Hh. unfold ide_intr.
  rewrite acquire_bind by (done || (rewrite Hh; by intros ?%elem_of_nil)). rewrite bind_gets.
  destruct Hq as (Hhd & b' & Hb' & Hq). rewrite Hb in Hb'. injection Hb' as <-.
  change (id_queue (k_ide (locked LIde s))) with (id_queue (k_ide s)). rewrite Hhd.
  rewrite (get_buf_bind _ _ b) by done. unfold set_queue at 1. rewrite bind_modify.
  match goal with |- ∃ _, (_ ≫= _) ?st = _ ∧ _ => set (s1 := st) end.
  apply NoDup_cons in Hnd as [Hni Hnd]. pose proof (lookup_lt_Some _ _ _ Hb) as Hlt.
  edestruct (finish_run i b s1) as (l & Hrun & HD'); [exact Hb | by apply (Hreq i); [left |] | | | rewrite Hrun; clear Hrun].
  { change (k_out s1) with (k_out s). by rewrite HD. }
  { intros Hd. by apply (Hbusy i). }
  change (k_out s1) with (k_out s) in HD' |- *. rewrite HD in HD' |- *.
  rewrite wakeup_bind.
  2: { split; [by apply push_cpu_ok |]. cbn. rewrite Hh. by intros ?%list_elem_of_singleton. }
  rewrite bind_gets. match goal with |- ∃ _, (_ ≫= _) ?st = _ ∧ _ => set (s2 := st) end.
  change (id_queue (k_ide s2)) with (b_qnext b).
  assert (Hcpu2 : k_cpu s2 = push_cpu (k_cpu s)) by (by apply sync_push_cpu).
  assert (Hcmp : completes D i b s s2).
  { split; [cbn; by rewrite list_lookup_insert_eq |]. intros j Hj. cbn. by rewrite list_lookup_insert_ne by done. }
  assert (Hq2 : linked (k_bufs s2) (b_qnext b) q).
  { apply (linked_ext (k_bufs s)); [| done]. intros j Hj. cbn. rewrite list_lookup_insert_ne; [done |]. by intros ->. }
  assert (Hr2 : ∀ j c, j ∈ q → k_bufs s2 !! j = Some c → request c).
  { intros j c Hj Hcj. apply (Hreq j); [by right |]. cbn in Hcj.
    rewrite list_lookup_insert_ne in Hcj; [done |]. by intros ->. }
  assert (∃ s3, mwhen (negb (bool_decide (b_qnext b = None))) (idestart (b_qnext b)) s2 = Done tt s3 ∧
    driver (next_disk D q s) q s3 ∧ s3 = s2 <| k_out := k_out s3 |>) as (s3 & Hrun & Hdv & Heq).
  { destruct q as [| j q].
    - cbn in Hq2. rewrite Hq2. exists s2. split; [done |]. split; [| by destruct s2].
      split; try done. cbn. by rewrite length_insert.
    - pose proof Hq2 as (Hj & c & Hcj & _). rewrite Hj. rewrite bool_decide_false by done. cbn [negb mwhen].
      destruct (start_head D j c q s2) as (s3 & ? & Hdv & ?); try done.
      { cbn. by rewrite length_insert. }
      exists s3. split; [done |]. split; [| done]. cbn [next_disk].
      cbn in Hcj. rewrite list_lookup_insert_ne in Hcj by (intros ->; apply Hni; by left). by rewrite Hcj. }
  rewrite (bind_done _ _ _ _ _ Hrun).
  assert (Hcpu3 : k_cpu s3 = push_cpu (k_cpu s)) by (by rewrite Heq).
  rewrite (release_run _ _ (k_cpu s) []);
    [| done | done | rewrite Heq; cbn; by rewrite Hh | by intros ?%elem_of_nil].
  eexists. split; [done |]. split; [by destruct Hdv; split |]. split.
  - rewrite Heq. exact Hcmp.
  - rewrite Heq. kst_eq. by rewrite Hh.
Qed.

Lemma driver_ext D q s s' :
  k_bufs s' = k_bufs s → k_ide s' = k_ide s → k_out s' = k_out s → driver D q s → driver D q s'.
Proof. intros Hb Hi Ho [? ? ? ? ? ? ?]. split; rewrite ?Hb, ?Hi, ?Ho; done. Qed.

(** ** Requests and interrupts in any order *)

(** A process calls [iderw] (up to its waiting), or the disk interrupts. *)
Inductive ide_op := Submit (i : nat) | Interrupt.
Definition submit (i : nat) : K unit := acquire LIde;; enqueue i;; release LIde.
Fixpoint run_ide (ops : list ide_op) : K unit :=
  match ops with
  | [] => mret tt
  | Submit i :: ops => submit i;; run_ide ops
  | Interrupt :: ops => ide_intr;; run_ide ops
  end.
Definition submitted (ops : list ide_op) : list nat :=
  omap (λ o, match o with Submit i => Some i | Interrupt => None end) ops.
(** How many of the requests were completed: an interrupt completes one if there
    is one. *)
Fixpoint served (pending : nat) (ops : list ide_op) : nat :=
  match ops with
  | [] => 0
  | Submit _ :: ops => served (S pending) ops
  | Interrupt :: ops => match pending with O => served O ops | S p => S (served p ops) end
  end.
Definition buf_at (s : kst) (i : nat) : buf := default buf0 (k_bufs s !! i).
(** The disk after the first [k] requests of [rs] one after another. *)
Definition disk_after (s : kst) (D : gmap (Z * Z) (list Z)) (rs : list nat) (k : nat) : gmap (Z * Z) (list Z) :=
  foldl (λ D i, started D (buf_at s i)) D (take k rs).

Section trace.
Context (s0 : kst) (D : gmap (Z * Z) (list Z)).
Record progress (rs : list nat) (n : nat) (s : kst) : Prop := {
  pg_n : (n ≤ length rs)%nat;
  pg_nodup : NoDup rs;
  pg_cpu : cpu_ok (k_cpu s);
  pg_held : k_held s = [];
  pg_driver : driver (disk_after s0 D rs (S n)) (drop n rs) s;
  pg_done : ∀ j i, rs !! j = Some i → (j < n)%nat →
    core <$> k_bufs s !! i = Some (core (finished (disk_after s0 D rs (S j)) (buf_at s0 i)));
  pg_rest : ∀ i, i ∉ take n rs → core <$> k_bufs s !! i = core <$> k_bufs s0 !! i;
  pg_procs : k_procs s = foldl (λ ps i, wake (Some (CBuf i)) <$> ps) (k_procs s0) (take n rs) }.

Lemma disk_after_app rs i k : (k ≤ length rs)%nat → disk_after s0 D (rs ++ [i]) k = disk_after s0 D rs k.
Proof. intros Hk. unfold disk_after. by rewrite take_app_le. Qed.
Lemma disk_after_snoc rs i n : (n ≤ length rs)%nat →
  disk_after s0 D (rs ++ [i]) (S n) =
    if decide (drop n rs = []) then started (disk_after s0 D rs (S n)) (buf_at s0 i)
    else disk_after s0 D rs (S n).
Proof.
  intros Hn. pose proof (length_drop rs n) as Hl. case_decide as Hd.
  - rewrite Hd in Hl. cbn in Hl. unfold disk_after. rewrite !take_ge by (rewrite ?length_app; cbn; lia).
    by rewrite foldl_app.
  - apply disk_after_app. destruct (drop n rs); [done |]. cbn in Hl. lia.
Qed.
(** A buffer not yet served is as it was. *)
Lemma waiting rs n s i : progress rs n s → i ∉ take n rs → is_Some (k_bufs s0 !! i) →
  ∃ b, k_bufs s !! i = Some b ∧ core b = core (buf_at s0 i).
Proof.
  intros P Hi [b0 Hb0]. pose proof (pg_rest _ _ _ P i Hi) as Hc. rewrite Hb0 in Hc.
  apply fmap_Some in Hc as (b & Hb & Heq). exists b. split; [done |]. unfold buf_at. by rewrite Hb0.
Qed.

Lemma submit_progress rs n s i :
  progress rs n s → i ∉ rs → (∃ b, k_bufs s0 !! i = Some b ∧ request b) →
  ∃ s', submit i s = Done tt s' ∧ progress (rs ++ [i]) n s'.
Proof.
  intros P Hi (b0 & Hb0 & Hr0). pose proof P as [Hn Hnd Hc Hh Hdv Hdone Hrest Hps].
  assert (Hit : ∀ k, i ∉ take k rs) by (intros k Hin; by apply subseteq_take in Hin).
  assert (Hid : i ∉ drop n rs) by (intros Hin; by apply subseteq_drop in Hin).
  destruct (waiting rs n s i P (Hit n)) as (b & Hb & Hcore); [by eexists |].
  assert (Hrb : request b).
  { apply (request_core b0); [| done]. rewrite Hcore. unfold buf_at. by rewrite Hb0. }
  unfold submit. rewrite acquire_bind by (done || (rewrite Hh; by intros ?%elem_of_nil)).
  destruct (enqueue_run _ _ i b (locked LIde s) (driver_ext _ _ s (locked LIde s) eq_refl eq_refl eq_refl Hdv) Hid Hb Hrb)
    as (s1 & Hrun & Hdv1 & Hsame & Heq).
  rewrite (bind_done _ _ _ _ _ Hrun).
  rewrite (release_run _ _ (k_cpu s) []); [| done | by rewrite Heq | rewrite Heq; cbn; by rewrite Hh |
    by intros ?%elem_of_nil].
  eexists. split; [done |]. split.
  - rewrite length_app. lia.
  - apply NoDup_app. split; [done |]. split; [| apply NoDup_singleton].
    intros j Hj ->%list_elem_of_singleton. done.
  - by apply sync_cpu_ok.
  - done.
  - rewrite disk_after_snoc, drop_app_le by done. rewrite <- (started_core _ b) by done.
    by apply (driver_ext _ _ s1).
  - intros j k Hj Hjn. rewrite lookup_app_l in Hj by lia. rewrite disk_after_app by lia.
    cbn. rewrite Hsame. by apply Hdone.
  - intros j Hj. cbn. rewrite Hsame. apply Hrest. by rewrite take_app_le in Hj.
  - cbn. rewrite Heq. cbn. by rewrite take_app_le.
Qed.
Lemma next_disk_after rs n s i q :
  progress rs n s → drop n rs = i :: q → (∀ j, j ∈ rs → is_Some (k_bufs s0 !! j)) →
  next_disk (disk_after s0 D rs (S n)) q s = disk_after s0 D rs (S (S n)) ∧ drop (S n) rs = q.
Proof.
  intros P Hd Hs. assert (Hd' : drop (S n) rs = q) by (rewrite <- Nat.add_1_r, <- drop_drop, Hd; done).
  split; [| done]. destruct q as [| j q]; cbn [next_disk].
  - unfold disk_after. apply (f_equal length) in Hd'. rewrite length_drop in Hd'. cbn in Hd'.
    by rewrite !take_ge by lia.
  - assert (Hj : rs !! S n = Some j) by (rewrite <- (Nat.add_0_r (S n)), <- lookup_drop, Hd'; done).
    unfold disk_after. rewrite (take_S_r _ _ _ Hj), foldl_app. cbn.
    destruct (waiting rs n s j P) as (b & -> & Hcore).
    + intros (k & Hk & Hlt)%elem_of_take. pose proof (NoDup_lookup _ _ _ _ (pg_nodup _ _ _ P) Hj Hk). lia.
    + apply Hs. by eapply list_elem_of_lookup_2.
    + by apply started_core.
Qed.
Lemma interrupt_progress rs n s :
  progress rs n s → (∀ j, j ∈ rs → is_Some (k_bufs s0 !! j)) →
  ∃ s', ide_intr s = Done tt s' ∧ progress rs (if decide (drop n rs = []) then n else S n) s'.
Proof.
  intros P Hs. pose proof P as [Hn Hnd Hc Hh Hdv Hdone Hrest Hps].
  destruct (drop n rs) as [| i q] eqn:Hd; [rewrite decide_True by done | rewrite decide_False by done].
  - exists (ksync s). split; [apply (intr_idle _ _ Hdv Hc); rewrite Hh; by intros ?%elem_of_nil |].
    split; try done. rewrite Hd. by apply (driver_ext _ _ s).
  - assert (Hi : rs !! n = Some i) by (rewrite <- (Nat.add_0_r n), <- lookup_drop, Hd; done).
    assert (Hin : i ∉ take n rs).
    { intros (k & Hk & Hlt)%elem_of_take. pose proof (NoDup_lookup _ _ _ _ Hnd Hi Hk). lia. }
    destruct (waiting rs n s i P Hin) as (b & Hb & Hcore); [apply Hs; by eapply list_elem_of_lookup_2 |].
    destruct (intr_run _ i q b s Hdv Hb Hc Hh) as (s' & Hrun & Hdv' & [Hci Hco] & Heq).
    destruct (next_disk_after rs n s i q P Hd Hs) as [Hnd' Hdr]. rewrite Hnd' in Hdv'.
    pose proof (take_S_r _ _ _ Hi) as Ht.
    exists s'. split; [done |]. split.
    + apply (f_equal length) in Hd. rewrite length_drop in Hd. cbn in Hd. lia.
    + done.
    + rewrite Heq. by apply sync_cpu_ok.
    + by rewrite Heq.
    + by rewrite Hdr.
    + intros j k Hj Hlt. destruct (decide (k = i)) as [-> | Hne].
      * assert (j = n) as -> by (eapply NoDup_lookup; done). rewrite Hci. f_equal. by apply finished_core.
      * rewrite Hco by done. apply Hdone; [done |]. assert (j ≠ n) by (intros ->; congruence). lia.
    + intros j Hj. rewrite Ht, elem_of_app, list_elem_of_singleton in Hj. rewrite Hco by tauto. apply Hrest. tauto.
    + rewrite Heq. cbn. by rewrite Hps, Ht, foldl_app.
Qed.

Lemma run_ide_progress ops : ∀ rs n s,
  progress rs n s → NoDup (rs ++ submitted ops) →
  (∀ j, j ∈ rs ++ submitted ops → ∃ b, k_bufs s0 !! j = Some b ∧ request b) →
  ∃ s', run_ide ops s = Done tt s' ∧ progress (rs ++ submitted ops) (n + served (length rs - n) ops) s'.
Proof.
  induction ops as [| [i |] ops IH]; intros rs n s P Hnd Hb; cbn [run_ide submitted omap list_omap served].
  - exists s. by rewrite app_nil_r, Nat.add_0_r.
  - change (omap _ ops) with (submitted ops).
    change (submitted (Submit i :: ops)) with ([i] ++ submitted ops) in Hnd, Hb.
    destruct (submit_progress rs n s i P) as (s1 & Hrun & P1).
    { apply NoDup_app in Hnd as (_ & Hd & _). intros Hin. apply (Hd i Hin). by left. }
    { apply Hb. apply elem_of_app. right. by left. }
    rewrite (bind_done _ _ _ _ _ Hrun). rewrite app_assoc in Hnd, Hb.
    destruct (IH _ n s1 P1 Hnd Hb) as (s2 & Hrun2 & P2). exists s2. split; [done |].
    pose proof (pg_n _ _ _ P). rewrite length_app in P2. cbn [length] in P2.
    replace (length rs + 1 - n)%nat with (S (length rs - n)) in P2 by lia. by rewrite <- app_assoc in P2.
  - change (omap _ ops) with (submitted ops).
    destruct (interrupt_progress rs n s P) as (s1 & Hrun & P1).
    { intros j Hj. destruct (Hb j) as (b & Hbj & _); [apply elem_of_app; by left | by eexists]. }
    rewrite (bind_done _ _ _ _ _ Hrun). pose proof (pg_n _ _ _ P) as Hn. pose proof (length_drop rs n) as Hl.
    destruct (IH _ _ s1 P1 Hnd Hb) as (s2 & Hrun2 & P2). exists s2. split; [done |].
    case_decide as Hd; [rewrite Hd in Hl | destruct (drop n rs); [done |]]; cbn [length] in Hl.
    + by replace (length rs - n)%nat with O in * by lia.
    + replace (length rs - n)%nat with (S (length rs - S n)) by lia. by rewrite Nat.add_succ_r.
Qed.
End trace.

(** C11: the disk driver executes the requests in the order they came, whatever
    the interrupts' times.  Let processes call iderw and the disk interrupt in
    any order, from an idle driver: nothing panics; the requests completed are
    the first ones, as many as there were interrupts with a request waiting; each
    buffer completed holds what executing the requests one after another up to
    it would have given, is valid and clean, and who slept on it is awake; the
    disk is what the completed requests and the one under way make of it; the
    others wait in order, their buffers untouched. *)
Theorem ide_in_order ops D s :
  driver D [] s → cpu_ok (k_cpu s) → k_held s = [] → NoDup (submitted ops) →
  (∀ i, i ∈ submitted ops → ∃ b, k_bufs s !! i = Some b ∧ request b) →
  ∃ s', run_ide ops s = Done tt s' ∧ progress s D (submitted ops) (served 0 ops) s'.
Proof.
  intros Hdv Hc Hh Hnd Hb. apply (run_ide_progress s D ops [] 0 s); [| done | done].
  split; try done; [apply NoDup_nil_2].
Qed.

(** A process that [iderw] has put to sleep on buffer [i], [k] its continuation:
    woken with the buffer completed it returns, with no lock held and nothing
    else changed; woken too early it sleeps again, and so on, [n] times. *)
Fixpoint waits (n : nat) (j i : nat) (k : kst → outcome kst unit) : Prop :=
  ∀ s2 p2 b2, holds_only LPtable s2 → k_procs s2 !! j = Some p2 → k_bufs s2 !! i = Some b2 →
    if synced b2 then
      ∃ s3, k s2 = Done tt s3 ∧
        s3 = s2 <| k_cpu := k_cpu s3 |> <| k_held := [] |> <| k_procs ::= <[j := p2 <| p_chan := None |>]> |>
    else
      c_proc (k_cpu s2) = Some j →
      match n with
      | O => True
      | S n => ∃ s3 k', k s2 = Switch s3 k' ∧ holds_only LPtable s3 ∧
          s3 = s2 <| k_cpu := k_cpu s3 |> <| k_procs ::= <[j := asleep (CBuf i) p2]> |> ∧ waits n j i k'
      end.

(** The rest of [iderw], after a call of [sleep]. *)
Definition iderw_rest (fuel i : nat) : K unit := iderw_wait fuel i;; release LIde.
Lemma waits_run n j i : ∀ (k : kst → outcome kst unit),
  (∀ s2 p2, holds_only LPtable s2 → k_procs s2 !! j = Some p2 →
    ∃ s3, k s2 = iderw_rest (S n) i s3 ∧ holds_only LIde s3 ∧
      s3 = s2 <| k_cpu := (k_cpu s3) <| c_proc := c_proc (k_cpu s2) |> |> <| k_held := [LIde] |>
              <| k_procs ::= <[j := p2 <| p_chan := None |>]> |>) →
  waits n j i k.
Proof.
  induction n as [| n IH]; intros k Hk; cbn [waits]; intros s2 p2 b2 Hl Hp Hb;
    destruct (Hk s2 p2 Hl Hp) as (s3 & -> & Hl3 & Heq); unfold iderw_rest; cbn [iderw_wait];
    rewrite bind_assoc, (get_buf_bind _ _ b2) by (by rewrite Heq); destruct (synced b2) eqn:Hsy.
  - rewrite bind_ret, (holds_only_release _ _ Hl3). eexists. split; [done |]. rewrite Heq. kst_eq.
  - done.
  - rewrite bind_ret, (holds_only_release _ _ Hl3). eexists. split; [done |]. rewrite Heq. kst_eq.
  - intros Hcur. pose proof (lookup_lt_Some _ _ _ Hp) as Hlt.
    assert (k_procs s3 !! j = Some (p2 <| p_chan := None |>)) as Hp3.
    { rewrite Heq. cbn. by apply list_lookup_insert_eq. }
    destruct (sleep_run (CBuf i) LIde s3 j _ Hl3 ltac:(by rewrite Heq) Hp3) as (s4 & k4 & Hsl & Ho4 & Heq4 & Hk4).
    rewrite bind_assoc, (bind_switch _ _ _ _ _ Hsl). eexists _, _. split; [done |]. split; [done |]. split.
    + rewrite Heq4, Heq. kst_eq; [by rewrite (ho_held _ _ Hl) | by rewrite list_insert_insert_eq].
    + apply IH. intros s5 p5 Hl5 Hp5. destruct (Hk4 s5 p5 Hl5 Hp5) as (s6 & H6 & Ho6 & Heq6).
      exists s6. by rewrite H6.
Qed.

(** C12: iderw.  It panics on a buffer the caller has not locked, on one with
    nothing to do and on the second disk when it is absent.  Otherwise the
    request is appended, started when the disk was idle, and the process
    sleeps on the buffer without the driver's lock; whenever it is resumed it looks
    again: when the buffer has been completed it returns, with no lock held and
    nothing else changed, and otherwise it sleeps again ([waits]). *)
Theorem iderw_spec j pid p i b D q s :
  calm j pid s → ncli (k_cpu s) = 0 → k_procs s !! j = Some p → k_bufs s !! i = Some b →
  (2 ≤ patience)%nat →
  (¬ (sl_locked (b_lock b) = true ∧ sl_pid (b_lock b) = pid) →
     ∃ s', ide_iderw i s = Panic "iderw: buf not locked" s') ∧
  (sl_locked (b_lock b) = true → sl_pid (b_lock b) = pid →
     (synced b = true → ∃ s', ide_iderw i s = Panic "iderw: nothing to do" s') ∧
     (synced b = false → b_dev b ≠ 0 → id_disk1 (k_ide s) = false →
        ∃ s', ide_iderw i s = Panic "iderw: ide disk 1 not present" s') ∧
     (request b → b_dev b = 0 ∨ id_disk1 (k_ide s) = true → driver D q s → i ∉ q →
        ∃ s1 k, ide_iderw i s = Switch s1 k ∧ holds_only LPtable s1 ∧
          driver (if decide (q = []) then started D b else D) (q ++ [i]) s1 ∧ same_cores s s1 ∧
          k_procs s1 = <[j := asleep (CBuf i) p]> (k_procs s) ∧
          waits (patience - 2) j i k)).
Proof.
  intros Hcm Hn Hp Hb Hpat. pose proof Hcm as [Hc Hcur Hh Hpid]. unfold ide_iderw.
  rewrite (bind_done _ _ _ _ _ (holdingsleep_run j pid (SLBuf i) (b_lock b) s Hcm ltac:(cbn; by rewrite Hb))).
  destruct (sl_locked (b_lock b) && (sl_pid (b_lock b) =? pid))%bool eqn:Hl; cbn [negb].
  2: { split; [by eexists |]. intros H1 H2. rewrite H1, H2, Z.eqb_refl in Hl. done. }
  apply andb_true_iff in Hl as [Hl1 Hl2%Z.eqb_eq]. split; [tauto |]. intros _ _.
  rewrite (get_buf_bind _ _ b) by done. split; [| split].
  - intros ->. by eexists.
  - intros -> Hd Hn1. rewrite bind_gets. change (id_disk1 (k_ide (ksync s))) with (id_disk1 (k_ide s)).
    rewrite Hn1, (proj2 (Z.eqb_neq _ _) Hd). by eexists.
  - intros Hr Hdev Hdv Hi. rewrite (rq_work _ Hr), bind_gets.
    change (id_disk1 (k_ide (ksync s))) with (id_disk1 (k_ide s)).
    assert ((negb (b_dev b =? 0) && negb (id_disk1 (k_ide s)))%bool = false) as ->.
    { destruct Hdev as [-> | ->]; [done | by rewrite andb_false_r]. }
    rewrite acquire_bind; [| by apply sync_cpu_ok | cbn; rewrite Hh; by intros ?%elem_of_nil].
    assert (Hdv0 : driver D q (locked LIde (ksync s))) by (by apply (driver_ext _ _ s)).
    destruct (enqueue_run _ _ i b _ Hdv0 Hi Hb Hr) as (s1 & Hrun & Hdv1 & Hsame & Heq).
    rewrite (bind_done _ _ _ _ _ Hrun).
    assert (Hl : holds_only LIde s1).
    { destruct (holds_only_acquire LIde (ksync s)) as [? ? ?]; [done | done |]. rewrite Heq. by split. }
    pose proof (Hsame i) as Hbi. change (k_bufs (locked LIde (ksync s)) !! i) with (k_bufs s !! i) in Hbi.
    rewrite Hb in Hbi. apply fmap_Some in Hbi as (b1 & Hb1 & (Hd1 & Hv1 & _)%core_fields).
    destruct (sleep_run (CBuf i) LIde s1 j p) as (s2 & k & Hsl & Hlk2 & Heq2 & Hk); [done | by rewrite Heq | by rewrite Heq |].
    destruct patience as [| [| n]]; [lia | lia |]. cbn [iderw_wait].
    rewrite bind_assoc, (get_buf_bind _ _ b1) by done.
    assert (synced b1 = false) as -> by (rewrite <- (rq_work _ Hr); unfold synced; by rewrite Hd1, Hv1).
    rewrite bind_assoc. rewrite (bind_switch (sleep (CBuf i) LIde) _ s1 s2 k Hsl). eexists _, _. split; [done |]. split; [done |].
    split; [apply (driver_ext _ _ s1); [by rewrite Heq2 .. | done] |]. split; [intros x; by rewrite Heq2 |].
    split; [by rewrite Heq2, Heq |].
    replace (S (S n) - 2)%nat with n by lia. apply waits_run. intros s3 p3 Hl3 Hp3.
    destruct (Hk s3 p3 Hl3 Hp3) as (s4 & Hk4 & Hl4 & Heq4). exists s4. by rewrite Hk4.
Qed.
End driver.

Section error.
Context {LK : Linker} {FU : Fuel} {HW : Ports} {HS : PortStrings}.

(** A read that the disk reports as failed: the handler skips the transfer and
    marks the buffer valid all the same, so [iderw], and with it [bread],
    succeeds with the buffer's old bytes. *)
Theorem read_error_hidden i b s :
  let r := u8 (port_in (k_out s) 0x1f7) in
  Z.land r (Z.lor IDE_BSY IDE_DRDY) = IDE_DRDY → Z.land r (Z.lor IDE_DF IDE_ERR) ≠ 0 →
  (0 < patience)%nat → cpu_ok (k_cpu s) → k_held s = [] →
  id_queue (k_ide s) = Some i → k_bufs s !! i = Some b → b_qnext b = None → b_dirty b = false →
  ∃ s', ide_intr s = Done tt s' ∧ k_bufs s' = <[i := b <| b_valid := true |>]> (k_bufs s) ∧
    k_procs s' = wake (Some (CBuf i)) <$> k_procs s.
Proof.
  intros r Hrdy Herr Hpat Hc Hh Hq Hb Hn Hd. unfold ide_intr. pose proof (lookup_lt_Some _ _ _ Hb) as Hlt.
  rewrite acquire_bind by (done || (rewrite Hh; by intros ?%elem_of_nil)). rewrite bind_gets.
  change (id_queue (k_ide (locked LIde s))) with (id_queue (k_ide s)). rewrite Hq.
  rewrite (get_buf_bind _ _ b) by done. unfold set_queue at 1. rewrite bind_modify, Hd. cbn [negb].
  rewrite bind_assoc. unfold idewait. destruct patience as [| n]; [lia |]. cbn [idewait_loop].
  unfold inb. rewrite !bind_assoc, bind_gets, bind_assoc, bind_modify, bind_ret. fold r. cbv zeta.
  change (u8 (port_in (k_out _) 503)) with r. rewrite Hrdy, Z.eqb_refl. cbn [negb].
  rewrite (proj2 (Z.eqb_neq _ _) Herr). cbn [negb andb]. rewrite bind_ret. change (-1 >=? 0) with false. cbn [mwhen].
  rewrite bind_ret. erewrite upd_buf_bind by exact Hb.
  erewrite upd_buf_bind by (cbn; by apply list_lookup_insert_eq).
  rewrite wakeup_bind.
  2: { split; [by apply push_cpu_ok |]. cbn. rewrite Hh. by intros ?%list_elem_of_singleton. }
  rewrite bind_gets. match goal with |- ∃ _, (mwhen _ _ ≫= _) ?st = _ ∧ _ => set (s2 := st) end.
  change (id_queue (k_ide s2)) with (b_qnext b). rewrite Hn, bool_decide_true by done. cbn [negb mwhen].
  rewrite bind_ret. rewrite (release_run _ _ (k_cpu s) []);
    [| done | by apply sync_push_cpu | cbn; by rewrite Hh | by intros ?%elem_of_nil].
  eexists. split; [done |]. split; [| done]. cbn. rewrite list_insert_insert_eq. f_equal.
  destruct b; unfold set, set_b_valid, set_b_dirty; cbn in *. by rewrite Hd.
Qed.
End error.

(** ** Witnesses *)

(** A disk that is always ready. *)
Definition ready_disk : Ports := λ _ p, if p =? 0x1f7 then IDE_DRDY else 0.
Definition disk_data (D0 : gmap (Z * Z) (list Z)) : PortStrings := λ h p n,
  match at_cmd (ata_of D0 h) with
  | Reading k => sector_of (at_disk (ata_of D0 h)) k
  | _ => []
  end.
Lemma ready_disk_ok n D0 : AtaOk (FU := S n : Fuel) (HW := ready_disk) (HS := disk_data D0) D0.
Proof. split; [done |]. intros h k Hk. unfold port_insl, disk_data. by rewrite Hk. Qed.
Lemma disk_data_ok D0 : AtaOk (FU := 2%nat : Fuel) (HW := ready_disk) (HS := disk_data D0) D0.
Proof. apply ready_disk_ok. Qed.

(** Buffer 0 is to be written to block 5, buffer 1 to be read from it; process 0
    has locked buffer 1. *)
Definition two_requests : kst :=
  running <| k_bufs ::= λ bs, <[1%nat := buf0 <| b_blockno := 5 |> <| b_lock := mkSleeplock true 1 |>]>
      (<[0%nat := buf0 <| b_blockno := 5 |> <| b_dirty := true |> <| b_data := replicate 512 7 |>]> bs) |>.
Lemma two_requests_idle : driver ∅ ∅ [] two_requests.
Proof.
  split; [done | done | constructor | by intros ? ? ?%elem_of_nil | done | apply map_Forall_empty | done].
Qed.
Lemma two_requests_good i b :
  i ∈ [0%nat; 1%nat] → k_bufs two_requests !! i = Some b → request b.
Proof.
  assert (∀ x, 0 ≤ x < 256 → Forall (λ y, 0 ≤ y < 256) (replicate 512 x)) as Hf by (intros; by apply Forall_replicate).
  intros [-> | [-> | ?%elem_of_nil]%elem_of_cons]%elem_of_cons Hb; [| | done];
    injection Hb as <-; (split; [done | cbn; unfold FSSIZE; lia | done | apply Hf; lia | done]).
Qed.

Lemma ide_in_order_witness :
  ∃ s', run_ide (FU := 2%nat : Fuel) (HW := ready_disk) (HS := disk_data ∅)
      [Submit 0; Submit 1; Interrupt; Interrupt] two_requests = Done tt s' ∧
    b_data <$> k_bufs s' !! 1%nat = Some (replicate 512 7) ∧ b_valid <$> k_bufs s' !! 1%nat = Some true.
Proof.
  destruct (ide_in_order (FU := 2%nat : Fuel) (HW := ready_disk) (HS := disk_data ∅) ∅ (HA := disk_data_ok ∅)
    [Submit 0; Submit 1; Interrupt; Interrupt] ∅ two_requests) as (s' & Hrun & P).
  - exact two_requests_idle.
  - split; done.
  - done.
  - refine (bool_decide_unpack _ _). reflexivity.
  - intros i Hi. assert (∃ b, k_bufs two_requests !! i = Some b) as [b Hb].
    { apply elem_of_cons in Hi as [-> | [-> | ?%elem_of_nil]%elem_of_cons]; [by eexists .. | done]. }
    exists b. split; [done | by apply (two_requests_good i)].
  - exists s'. split; [exact Hrun |].
    pose proof (pg_done _ _ _ _ _ _ P 1%nat 1%nat eq_refl ltac:(cbn; lia)) as Hb.
    apply fmap_Some in Hb as (b & -> & (_ & Hv & _ & Hd & _)%core_fields). cbn. rewrite <- Hv, <- Hd.
    split; reflexivity.
Defined.

(** The scheduler comes back to process 0: too early, and with the read done. *)
Definition too_early : kst := locked LPtable two_requests.
Definition in_time : kst := too_early <| k_bufs ::= alter (λ b, b <| b_valid := true |>) 1%nat |>.
Lemma iderw_spec_witness :
  ∃ s1 k, ide_iderw (FU := 3%nat : Fuel) (HW := ready_disk) 1 two_requests = Switch s1 k ∧
    p_state <$> k_procs s1 !! 0%nat = Some SLEEPING ∧ driver ∅ ∅ [1%nat] s1 ∧
    (∃ s3, k in_time = Done tt s3 ∧ k_held s3 = []) ∧
    ∃ s3 k', k too_early = Switch s3 k' ∧ p_state <$> k_procs s3 !! 0%nat = Some SLEEPING ∧
      ∃ s4, k' in_time = Done tt s4.
Proof.
  destruct (iderw_spec (FU := 3%nat : Fuel) (HW := ready_disk) (HS := disk_data ∅) ∅ (HA := ready_disk_ok 2 ∅) 0 1
    (proc0 <| p_state := RUNNING |> <| p_pid := 1 |>) 1
    (buf0 <| b_blockno := 5 |> <| b_lock := mkSleeplock true 1 |>) ∅ [] two_requests) as [_ H];
    [split; try done; by split | done | done | done | unfold patience; lia |].
  destruct (H eq_refl eq_refl) as (_ & _ & H').
  destruct H' as (s1 & k & Hrun & _ & Hdv & _ & Hps & Hw).
  - apply (two_requests_good 1); [right; left | reflexivity].
  - by left.
  - exact two_requests_idle.
  - by intros ?%elem_of_nil.
  - exists s1, k. split; [exact Hrun |]. split; [rewrite Hps; reflexivity |]. split; [exact Hdv |].
    change (patience - 2)%nat with 1%nat in Hw. cbn [waits] in Hw. split.
    + destruct (Hw in_time _ _ ltac:(by split) eq_refl eq_refl) as (s3 & Hk & Heq). exists s3. split; [exact Hk |]. by rewrite Heq.
    + destruct (Hw too_early _ _ ltac:(by split) eq_refl eq_refl eq_refl) as (s3 & k' & Hk & _ & Heq & Hw').
      exists s3, k'. split; [exact Hk |]. split; [rewrite Heq; reflexivity |].
      destruct (Hw' in_time _ _ ltac:(by split) eq_refl eq_refl) as (s4 & Hk' & _). by exists s4.
Defined.

Lemma read_error_hidden_witness :
  ∃ s', ide_intr (FU := 1%nat : Fuel) (HW := λ _ _, 0x41) (HS := disk_data ∅)
      (running <| k_ide := mkIde (Some 0%nat) false |>) = Done tt s' ∧
    b_valid <$> k_bufs s' !! 0%nat = Some true.
Proof.
  destruct (read_error_hidden (FU := 1%nat : Fuel) (HW := λ _ _, 0x41) (HS := disk_data ∅) 0 buf0
    (running <| k_ide := mkIde (Some 0%nat) false |>)) as (s' & Hrun & Hb & _); try done; [by apply Nat.lt_0_succ |].
  exists s'. split; [exact Hrun |]. rewrite Hb. reflexivity.
Defined.
