(* ===== verification/Boot.v ===== *)
(** * bootmain.c: loading the kernel

    The boot block reads the ELF file of the kernel from the first disk, behind
    the boot sector, puts its segments where their program headers say and jumps
    to the entry point.  It runs before the kernel does and on the same machine:
    [k_mem] here is the physical memory (paging is off), and the disk is the
    controller that [Ide] states. *)
From S2P Require Import Prelude Mmu Cstring Kstate Spinlock Kalloc Vm Proc Exec Console Ide.

Definition SECTSIZE : Z := 512.
(** Where the first page of the file is read to. *)
Definition elf_scratch : Z := 0x10000.

Section boot.
Context {FU : Fuel} {HW : Ports} {HS : PortStrings}.

(** insl of x86.h to memory. *)
Definition insl_mem (port addr : Z) (cnt : nat) : K unit :=
  h ← gets k_out;
  let d := resize (4 * cnt) 0 (u8 <$> port_insl h port cnt) in
  modify (λ s, s <| k_out ::= cons (Insl port d) |>);;
  modify (λ s, s <| k_mem ::= λ m, store_all m (λ i, addr + Z.of_nat i) d |>).

(** while((inb(0x1F7) & 0xC0) != 0x40) ; *)
Fixpoint waitdisk_loop (fuel : nat) : K unit :=
  match fuel with
  | O => fault "waitdisk: the disk stays busy"
  | S fuel =>
      r ← inb 0x1f7;
      if negb (Z.land r 0xC0 =? 0x40) then waitdisk_loop fuel else mret tt
  end.
Definition waitdisk : K unit := waitdisk_loop patience.

Definition readsect (dst offset : Z) : K unit :=
  waitdisk;;
  outb 0x1f2 1;;
  outb 0x1f3 (u8 offset);;
  outb 0x1f4 (u8 (Z.shiftr offset 8));;
  outb 0x1f5 (u8 (Z.shiftr offset 16));;
  outb 0x1f6 (u8 (Z.lor (Z.shiftr offset 24) 0xE0));;
  outb 0x1f7 0x20;;
  waitdisk;;
  insl_mem 0x1f0 dst (Z.to_nat (SECTSIZE / 4)).

(** for(; pa < epa; pa += SECTSIZE, offset++) *)
Fixpoint readseg_loop (fuel : nat) (pa epa offset : Z) : K unit :=
  match fuel with
  | O => fault "readseg: the address wraps around"
  | S fuel =>
      if pa <? epa then
        readsect pa offset;;
        readseg_loop fuel (u32 (pa + SECTSIZE)) epa (u32 (offset + 1))
      else mret tt
  end.
Definition readseg (pa count offset : Z) : K unit :=
  let epa := u32 (pa + count) in
  let pa := u32 (pa - offset mod SECTSIZE) in
  let offset := u32 (offset / SECTSIZE + 1) in
  readseg_loop (S (S (Z.to_nat ((epa - pa) / SECTSIZE)))) pa epa offset.

(** A field of a header in memory. *)
Definition field (a : Z) : K Z := gets (λ s, load32 (k_mem s) a).
Definition field_half (a : Z) : K Z := gets (λ s, load8 (k_mem s) a + 256 * load8 (k_mem s) (a + 1)).

(** for(; ph < eph; ph++) *)
Fixpoint load_segs (fuel : nat) (ph eph : Z) : K unit :=
  match fuel with
  | O => fault "bootmain: the headers wrap around"
  | S fuel =>
      if ph <? eph then
        pa ← field (ph + 12);
        filesz ← field (ph + 16);
        off ← field (ph + 4);
        readseg pa filesz off;;
        memsz ← field (ph + 20);
        filesz ← field (ph + 16);
        mwhen (memsz >? filesz)
          (modify (λ s, s <| k_mem ::= λ m, stosb m (u32 (pa + filesz)) 0 (Z.to_nat (memsz - filesz)) |>));;
        load_segs fuel (u32 (ph + sizeof_proghdr)) eph
      else mret tt
  end.

(** [None]: return to bootasm.S; [Some e]: jump to [e]. *)
Definition bootmain : K (option Z) :=
  let elf := elf_scratch in
  readseg elf 4096 0;;
  magic ← field elf;
  if negb (magic =? ELF_MAGIC) then mret None else
  phoff ← field (elf + 28);
  let ph := u32 (elf + phoff) in
  phnum ← field_half (elf + 44);
  let eph := u32 (ph + sizeof_proghdr * phnum) in
  load_segs (S (Z.to_nat phnum)) ph eph;;
  entry ← field (elf + 24);
  mret (Some entry).
End boot.

(** ** The file on the disk *)

(** Byte [k] of the kernel's file: the file starts at sector 1 of disk 0. *)
Definition kbyte (D : gmap (Z * Z) (list Z)) (k : Z) : Z :=
  u8 (nth (Z.to_nat (k mod 512)) (sector_of D (0, k / 512 + 1)) 0).
Definition kword (D : gmap (Z * Z) (list Z)) (k : Z) : Z :=
  kbyte D k + 256 * kbyte D (k + 1) + 65536 * kbyte D (k + 2) + 16777216 * kbyte D (k + 3).

(** Its headers. *)
Record segment := mkSeg { sg_pa : Z; sg_off : Z; sg_filesz : Z; sg_memsz : Z }.
Definition kphnum (D : gmap (Z * Z) (list Z)) : Z := kbyte D 44 + 256 * kbyte D 45.
Definition kseg (D : gmap (Z * Z) (list Z)) (i : Z) : segment :=
  let p := kword D 28 + 32 * i in
  mkSeg (kword D (p + 12)) (kword D (p + 4)) (kword D (p + 16)) (kword D (p + 20)).

(** The first address that reading [count] bytes at [off] to [pa] writes, and
    the first behind. *)
Definition span_lo (pa off : Z) : Z := pa - off mod 512.
Definition span_hi (pa count off : Z) : Z :=
  span_lo pa off + 512 * ((count + off mod 512 + 511) / 512).
(** The addresses a segment changes. *)
Definition seg_lo (g : segment) : Z := span_lo (sg_pa g) (sg_off g).
Definition seg_hi (g : segment) : Z :=
  span_hi (sg_pa g) (sg_filesz g) (sg_off g) `max` (sg_pa g + sg_memsz g).
(** What the program headers promise: byte [k] of segment [g] in memory. *)
Definition seg_len (g : segment) : Z := sg_filesz g `max` sg_memsz g.
Definition seg_byte (D : gmap (Z * Z) (list Z)) (g : segment) (k : Z) : Z :=
  if k <? sg_filesz g then kbyte D (sg_off g + k) else 0.

(** A kernel the loader can load: the headers lie on the first page of the file
    and no segment is read over that page; the addresses do not wrap; the
    segments come in increasing order, none read over the end of an earlier
    one. *)
Record bootable (D : gmap (Z * Z) (list Z)) : Prop := {
  bo_headers : kword D 28 + 32 * kphnum D ≤ 4096;
  bo_range i : 0 ≤ i < kphnum D → 0 ≤ seg_lo (kseg D i) ∧ seg_hi (kseg D i) < 4294967296;
  bo_scratch i : 0 ≤ i < kphnum D →
    seg_hi (kseg D i) ≤ elf_scratch ∨ elf_scratch + 4096 ≤ seg_lo (kseg D i);
  bo_order i j : 0 ≤ i < j → j < kphnum D →
    sg_pa (kseg D i) + seg_len (kseg D i) ≤ seg_lo (kseg D j) }.

Section loader.
Context {FU : Fuel} {HW : Ports} {HS : PortStrings}.
Context (D0 : gmap (Z * Z) (list Z)) {HA : AtaOk D0}.

(** The disks' contents; the loader changes memory alone. *)
Definition disks (s : kst) : gmap (Z * Z) (list Z) := at_disk (ata_of D0 (k_out s)).
Record loads_only (s s' : kst) : Prop := {
  qu_disk : disks s' = disks s;
  qu_rest : s' = s <| k_mem := k_mem s' |> <| k_out := k_out s' |> }.
#[local] Instance loads_only_preorder : PreOrder loads_only.
Proof.
  split; [intros s; by split; [| destruct s] |].
  intros s1 s2 s3 [Hd1 Hr1] [Hd2 Hr2]. split; [congruence |]. rewrite Hr2, Hr1. by destruct s1.
Qed.

Lemma waitdisk_loop_run n : ∀ s, ready_within n (k_out s) →
  ∃ l, polls l ∧ waitdisk_loop n s = Done tt (s <| k_out ::= app l |>).
Proof.
  induction n as [| n IH]; intros s Hr; [done |]. cbn [waitdisk_loop ready_within] in *.
  unfold inb. rewrite bind_assoc, bind_gets, bind_assoc, bind_modify, bind_ret. cbv zeta in *.
  set (r := u8 (port_in (k_out s) 0x1f7)) in *. change (Z.lor IDE_BSY IDE_DRDY) with 0xC0 in Hr.
  change IDE_DRDY with 0x40 in Hr. destruct (Z.land r 0xC0 =? 0x40); cbn [negb].
  - exists [Inb 0x1f7 r]. split; [repeat constructor; by eexists _, _ | done].
  - destruct (IH (s <| k_out ::= cons (Inb 0x1f7 r) |>)) as (l & Hl & ->); [exact Hr |].
    exists (l ++ [Inb 0x1f7 r]). split; [apply Forall_app; split; [done | repeat constructor; by eexists _, _] |].
    kst_eq. by rewrite <- app_assoc.
Qed.
Lemma waitdisk_run s : ∃ l, polls l ∧ waitdisk s = Done tt (s <| k_out ::= app l |>).
Proof. apply waitdisk_loop_run, ata_ready. Qed.

(** The registers hold the number of the sector, of the first disk. *)
Lemma sector_selected c off cmd D :
  0 ≤ off < 268435456 →
  selected (mkAta c (u8 off) (u8 (Z.shiftr off 8)) (u8 (Z.shiftr off 16))
    (u8 (Z.lor (Z.shiftr off 24) 0xE0)) cmd D) = (0, off).
Proof.
  intros Ho. unfold selected. cbn [at_dh at_lba0 at_lba1 at_lba2].
  rewrite !Z.shiftr_div_pow2 by lia. change (2 ^ 8) with 256. change (2 ^ 16) with 65536. change (2 ^ 24) with 16777216.
  assert (0 ≤ off / 16777216 < 16) as Hx by zlia.
  rewrite Z.lor_comm, (lor_disjoint_add 0xE0 _ 4) by (done || lia).
  change 15 with (Z.ones 4). rewrite (Z.land_ones (u8 _) 4), (Z.land_ones _ 1) by lia.
  unfold u8. change (2 ^ 4) with 16. change (2 ^ 1) with 2. f_equal; zlia.
Qed.

Lemma load8_store_list m a l x :
  load8 (store_all m (λ i, a + Z.of_nat i) l) x =
    if decide (a ≤ x < a + Z.of_nat (length l)) then u8 (nth (Z.to_nat (x - a)) l 0) else load8 m x.
Proof.
  case_decide as Hx.
  - destruct (lookup_lt_is_Some_2 l (Z.to_nat (x - a))) as [b Hb]; [lia |].
    replace x with (a + Z.of_nat (Z.to_nat (x - a))) at 1 by lia.
    rewrite (store_all_at l m (λ i, a + Z.of_nat i) _ b) by (done || intros; lia).
    rewrite nth_lookup, Hb. done.
  - apply store_all_other. intros i Hi ->. lia.
Qed.

Lemma readsect_run dst off s :
  0 ≤ off < 268435456 →
  ∃ s', readsect dst off s = Done tt s' ∧ loads_only s s' ∧
    ∀ a, load8 (k_mem s') a = if decide (dst ≤ a < dst + 512)
      then u8 (nth (Z.to_nat (a - dst)) (sector_of (disks s) (0, off)) 0) else load8 (k_mem s) a.
Proof.
  intros Ho. unfold readsect. destruct (waitdisk_run s) as (l & Hl & Hrun). rewrite (bind_done _ _ _ _ _ Hrun).
  pose proof (λ c cmd D, sector_selected c off cmd D Ho) as Hsel.
  set (x3 := u8 off) in *. set (x4 := u8 (Z.shiftr off 8)) in *. set (x5 := u8 (Z.shiftr off 16)) in *.
  set (x6 := u8 (Z.lor _ 0xE0)) in *. unfold outb. rewrite !bind_modify.
  match goal with |- ∃ _, (waitdisk ≫= _) ?st = _ ∧ _ => set (s1 := st) end.
  destruct (waitdisk_run s1) as (l1 & Hl1 & Hrun1). rewrite (bind_done _ _ _ _ _ Hrun1).
  unfold insl_mem. rewrite bind_gets, bind_modify. cbv zeta. set (h := k_out (s1 <| k_out ::= app l1 |>)).
  pose proof (ata_polls D0 l (k_out s) Hl) as Hp. pose proof (ata_polls D0 l1 (k_out s1) Hl1) as Hp1.
  assert (at_cmd (ata_of D0 h) = Reading (0, off) ∧ at_disk (ata_of D0 h) = disks s) as [Hcmd Hdisk].
  { change h with (l1 ++ k_out s1). rewrite Hp1. unfold disks. rewrite <- Hp.
    change (k_out s1) with ([Outb 0x1f7 0x20; Outb 0x1f6 x6; Outb 0x1f5 x5; Outb 0x1f4 x4; Outb 0x1f3 x3; Outb 0x1f2 1] ++ (l ++ k_out s)).
    cbn [app ata_of foldr]. fold (ata_of D0 (l ++ k_out s)). destruct (ata_of D0 (l ++ k_out s)) as [c l0 l2 l3 dh cmd D].
    cbn [ata_step ata_out Z.eqb Pos.eqb negb IDE_CMD_WRITE IDE_CMD_READ at_cmd at_disk]. rewrite Hsel. done. }
  assert (port_insl h 0x1f0 (Z.to_nat (SECTSIZE / 4)) = sector_of (disks s) (0, off)) as ->.
  { rewrite <- Hdisk. exact (ata_reads h (0, off) Hcmd). }
  eexists. split; [done |]. split.
  - split; [| destruct s; done]. unfold disks at 1. cbn [k_out]. unfold set at 1, set_k_mem. cbn.
    change (l1 ++ _) with h. fold (ata_of D0 h). revert Hdisk. clear. destruct (ata_of D0 h) as [c l0 l2 l3 dh [] D]; done.
  - intros a. cbn [k_mem set set_k_mem set_k_out]. rewrite load8_store_list, length_resize.
    change (Z.of_nat (4 * _)) with 512. unfold s1. cbn. case_decide as Ha; [| done].
    assert (Z.to_nat (a - dst) < 4 * Z.to_nat (SECTSIZE / 4))%nat as Hi by (change (Z.to_nat (SECTSIZE / 4)) with 128%nat; lia).
    rewrite !nth_lookup. destruct (decide (Z.to_nat (a - dst) < length (sector_of (disks s) (0%Z, off)))%nat) as [Hlt | Hge].
    + rewrite lookup_resize, list_lookup_fmap by (rewrite ?length_fmap; lia).
      destruct (sector_of (disks s) (0, off) !! Z.to_nat (a - dst)) as [b |]; cbn; [| done]. unfold u8. by rewrite Z.mod_mod by lia.
    + rewrite lookup_resize_new, lookup_ge_None_2 by (rewrite ?length_fmap; lia). done.
Qed.

Lemma readseg_loop_run n : ∀ fuel pa epa off s,
  (n < fuel)%nat → 0 ≤ pa → pa + 512 * Z.of_nat n < 4294967296 →
  pa + 512 * Z.of_nat n < epa + 512 → (epa ≤ pa + 512 * Z.of_nat n) →
  1 ≤ off → off + Z.of_nat n < 268435456 →
  ∃ s', readseg_loop fuel pa epa off s = Done tt s' ∧ loads_only s s' ∧
    ∀ a, load8 (k_mem s') a = if decide (pa ≤ a < pa + 512 * Z.of_nat n)
      then kbyte (disks s) (a - pa + 512 * (off - 1)) else load8 (k_mem s) a.
Proof.
  induction n as [| n IH]; intros [| fuel] pa epa off s Hf Hpa Hmax Hlo Hhi Ho Hon; [lia | | lia |]; cbn [readseg_loop].
  - rewrite (proj2 (Z.ltb_ge _ _)) by lia. exists s. split; [done |]. split; [done |].
    intros a. case_decide; [lia | done].
  - rewrite (proj2 (Z.ltb_lt _ _)) by lia.
    destruct (readsect_run pa off s) as (s1 & Hrun & Hq & Hm); [lia |]. rewrite (bind_done _ _ _ _ _ Hrun).
    unfold SECTSIZE. rewrite !u32_id by (unfold is_u32; lia).
    destruct (IH fuel (pa + 512) epa (off + 1) s1) as (s2 & Hrun2 & Hq2 & Hm2); [lia .. |].
    exists s2. split; [done |]. split; [by transitivity s1 |]. intros a. rewrite Hm2, Hm, (qu_disk _ _ Hq).
    destruct (decide (pa ≤ a < pa + 512)) as [Ha | Ha].
    + rewrite decide_False, decide_True by lia. unfold kbyte.
      replace ((a - pa + 512 * (off - 1)) / 512 + 1) with off by zlia.
      by replace ((a - pa + 512 * (off - 1)) mod 512) with (a - pa) by zlia.
    + repeat case_decide; try lia; try done. f_equal. lia.
Qed.
(** [readseg] delivers the bytes asked for and what shares their sectors. *)
Lemma readseg_run pa count off s :
  is_u32 off → is_u32 count → 0 ≤ span_lo pa off → span_hi pa count off < 4294967296 →
  ∃ s', readseg pa count off s = Done tt s' ∧ loads_only s s' ∧
    ∀ a, load8 (k_mem s') a = if decide (span_lo pa off ≤ a < span_hi pa count off)
      then kbyte (disks s) (a - pa + off) else load8 (k_mem s) a.
Proof.
  unfold readseg, span_hi, span_lo, SECTSIZE, is_u32. intros Ho Hc Hlo Hhi.
  set (n := (count + off mod 512 + 511) / 512) in *. assert (0 ≤ n ≤ 8388609) as Hn by (unfold n; zlia).
  rewrite !u32_id by (unfold is_u32, n in *; zlia).
  destruct (readseg_loop_run (Z.to_nat n) (S (S (Z.to_nat ((pa + count - (pa - off mod 512)) / 512))))
    (pa - off mod 512) (pa + count) (off / 512 + 1) s) as (s' & Hrun & Hq & Hm); [unfold n in *; zlia .. |].
  exists s'. split; [done |]. split; [done |]. intros a. rewrite Hm, Z2Nat.id by lia.
  case_decide; [| done]. f_equal. zlia.
Qed.

(** ** The segments *)
Definition header_read (s : kst) : Prop :=
  ∀ k, 0 ≤ k < 4096 → load8 (k_mem s) (elf_scratch + k) = kbyte (disks s) k.
Lemma header_word s k :
  header_read s → 0 ≤ k → k + 4 ≤ 4096 → load32 (k_mem s) (elf_scratch + k) = kword (disks s) k.
Proof. intros Hh H0 H4. unfold load32, kword. rewrite <- !Z.add_assoc, !Hh by lia. done. Qed.

Definition seg_loaded (D : gmap (Z * Z) (list Z)) (s : kst) (g : segment) : Prop :=
  ∀ k, 0 ≤ k < seg_len g → load8 (k_mem s) (sg_pa g + k) = seg_byte D g k.

Lemma kbyte_range D k : 0 ≤ kbyte D k < 256.
Proof. apply u8_range. Qed.
Lemma kword_range D k : is_u32 (kword D k).
Proof.
  unfold is_u32, kword. pose proof (kbyte_range D k). pose proof (kbyte_range D (k + 1)).
  pose proof (kbyte_range D (k + 2)). pose proof (kbyte_range D (k + 3)). lia.
Qed.

(** Reading a segment and clearing the rest of it. *)
Lemma load_seg_run g s :
  is_u32 (sg_off g) → is_u32 (sg_filesz g) → 0 ≤ seg_lo g → seg_hi g < 4294967296 →
  ∃ s1, readseg (sg_pa g) (sg_filesz g) (sg_off g) s = Done tt s1 ∧
    ∃ s2, mwhen (sg_memsz g >? sg_filesz g) (modify (λ s, s <| k_mem ::= λ m,
        stosb m (u32 (sg_pa g + sg_filesz g)) 0 (Z.to_nat (sg_memsz g - sg_filesz g)) |>)) s1 = Done tt s2 ∧
      loads_only s s1 ∧ loads_only s s2 ∧ seg_loaded (disks s) s2 g ∧
      (∀ a, ¬ (seg_lo g ≤ a < seg_hi g) → load8 (k_mem s1) a = load8 (k_mem s) a ∧ load8 (k_mem s2) a = load8 (k_mem s) a).
Proof.
  intros Ho Hf Hlo Hhi. unfold seg_lo, seg_hi in *.
  assert (span_lo (sg_pa g) (sg_off g) ≤ sg_pa g ∧ sg_pa g + sg_filesz g ≤ span_hi (sg_pa g) (sg_filesz g) (sg_off g)) as [Hl Hh].
  { unfold span_hi, span_lo. zlia. }
  destruct (readseg_run (sg_pa g) (sg_filesz g) (sg_off g) s) as (s1 & Hrun & Hq & Hm); [done | done | done | lia |].
  exists s1. split; [done |]. unfold is_u32 in Hf. rewrite u32_id by (unfold is_u32; lia).
  destruct (Z.gtb_spec (sg_memsz g) (sg_filesz g)) as [Hg | Hg]; cbn [mwhen].
  - eexists. split; [done |]. split; [done |]. split; [| split].
    + transitivity s1; [done |]. by split; [| destruct s1].
    + intros k Hk. unfold seg_len in Hk. cbn [k_mem set set_k_mem]. rewrite load8_stosb, Hm. unfold seg_byte.
      repeat case_decide; destruct (Z.ltb_spec k (sg_filesz g)); try lia; [done |]. f_equal. lia.
    + intros a Ha. cbn [k_mem set set_k_mem]. rewrite load8_stosb, Hm. split; repeat case_decide; done || lia.
  - exists s1. split; [done |]. split; [done |]. split; [done |]. split.
    + intros k Hk. unfold seg_len in Hk. rewrite Hm. unfold seg_byte.
      destruct (Z.ltb_spec k (sg_filesz g)); [| lia]. rewrite decide_True by lia. f_equal. lia.
    + intros a Ha. rewrite Hm. split; (case_decide; [lia | done]).
Qed.

(** A change outside the header page keeps the header. *)
Lemma header_kept s s' :
  header_read s → loads_only s s' →
  (∀ k, 0 ≤ k < 4096 → load8 (k_mem s') (elf_scratch + k) = load8 (k_mem s) (elf_scratch + k)) → header_read s'.
Proof. intros Hh Hq Hm k Hk. rewrite Hm, (qu_disk _ _ Hq) by done. by apply Hh. Qed.

(** From segment [i] on: [n] segments are loaded. *)
Record loaded (s : kst) (i n : Z) (s' : kst) : Prop := {
  ld_quiet : loads_only s s';
  ld_header : header_read s';
  ld_segs j : i ≤ j < i + n → seg_loaded (disks s) s' (kseg (disks s) j);
  ld_rest a : (∀ j, i ≤ j < i + n → ¬ (seg_lo (kseg (disks s) j) ≤ a < seg_hi (kseg (disks s) j))) →
    load8 (k_mem s') a = load8 (k_mem s) a }.

Lemma kphnum_range D : 0 ≤ kphnum D < 65536.
Proof. unfold kphnum. pose proof (kbyte_range D 44). pose proof (kbyte_range D 45). lia. Qed.

Lemma load_segs_run n : ∀ fuel i s,
  (n < fuel)%nat → bootable (disks s) → header_read s → 0 ≤ i → i + Z.of_nat n = kphnum (disks s) →
  ∃ s', load_segs fuel (elf_scratch + (kword (disks s) 28 + 32 * i))
      (elf_scratch + (kword (disks s) 28 + 32 * kphnum (disks s))) s = Done tt s' ∧ loaded s i (Z.of_nat n) s'.
Proof.
  induction n as [| n IH]; intros [| fuel] i s Hf Hb Hh Hi Hn; [lia | | lia |]; cbn [load_segs].
  - rewrite (proj2 (Z.ltb_ge _ _)) by lia. exists s. split; [done |]. split; [done | done | intros; lia | done].
  - rewrite (proj2 (Z.ltb_lt _ _)) by lia. pose proof Hb as [Hbh Hbr Hbs Hbo]. set (D := disks s) in *.
    specialize (Hbr i ltac:(lia)) as [Hlo Hhi]. specialize (Hbs i ltac:(lia)) as Hsc.
    pose proof (kword_range D 28) as Hp. unfold is_u32 in Hp.
    unfold field. rewrite !bind_gets, <- !Z.add_assoc, !header_word by (done || lia). rewrite !Z.add_assoc. fold D.
    destruct (load_seg_run (kseg D i) s) as (s1 & Hrun & s2 & Hrun2 & Hq1 & Hq2 & Hld & Hout);
      [apply kword_range | apply kword_range | done | done |].
    assert (header_read s1 ∧ header_read s2) as [Hh1 Hh2].
    { split; [apply (header_kept s) | apply (header_kept s)]; try done; intros k Hk; apply Hout; lia. }
    cbn [sg_pa sg_off sg_filesz sg_memsz kseg] in Hrun, Hrun2.
    rewrite (bind_done _ _ _ _ _ Hrun), !bind_gets, <- !Z.add_assoc, !header_word by (done || lia).
    rewrite (qu_disk _ _ Hq1). fold D. rewrite !Z.add_assoc. rewrite (bind_done _ _ _ _ _ Hrun2).
    pose proof (qu_disk _ _ Hq2) as Hd2. fold D in Hd2.
    rewrite u32_id by (unfold is_u32, elf_scratch, sizeof_proghdr; lia).
    destruct (IH fuel (i + 1) s2) as (s3 & Hrun3 & [Hq3 Hh3 Hl3 Hr3]); rewrite ?Hd2; [lia | done | done | lia | lia |].
    rewrite Hd2 in Hrun3, Hl3, Hr3.
    exists s3. split.
    { etransitivity; [| exact Hrun3]. f_equal; unfold sizeof_proghdr; lia. }
    split; [by transitivity s2 | done | |]; fold D.
    + intros j Hj. destruct (decide (j = i)) as [-> | Hne]; [| apply Hl3; lia].
      intros k Hk. rewrite Hr3; [by apply Hld |]. intros j Hj'. specialize (Hbo i j ltac:(lia) ltac:(lia)). lia.
    + intros a Ha. rewrite Hr3; [| intros j Hj; apply Ha; lia]. apply Hout, Ha. lia.
Qed.

(** C31: What the boot loader makes of a disk.  A file that is not ELF is refused
    with nothing but its first page read.  A kernel that fits is loaded: every
    segment stands at its address, its bytes from the file first and zeroes
    behind, memory outside the segments and the scratch page is as it was, the
    disks are, and the loader jumps to the entry point of the header.  It ends:
    its fuel is not used up. *)
Theorem bootmain_loads s :
  let D := disks s in
  (kword D 0 ≠ ELF_MAGIC → ∃ s', bootmain s = Done None s' ∧ loads_only s s' ∧
     ∀ a, ¬ (elf_scratch ≤ a < elf_scratch + 4096) → load8 (k_mem s') a = load8 (k_mem s) a) ∧
  (kword D 0 = ELF_MAGIC → bootable D →
     ∃ s', bootmain s = Done (Some (kword D 24)) s' ∧ loads_only s s' ∧
       (∀ i, 0 ≤ i < kphnum D → seg_loaded D s' (kseg D i)) ∧
       (∀ a, ¬ (elf_scratch ≤ a < elf_scratch + 4096) →
          (∀ i, 0 ≤ i < kphnum D → ¬ (seg_lo (kseg D i) ≤ a < seg_hi (kseg D i))) →
          load8 (k_mem s') a = load8 (k_mem s) a)).
Proof.
  intros D. destruct (readseg_run elf_scratch 4096 0 s) as (s1 & Hrun & Hq & Hm); [done .. |].
  change (span_lo elf_scratch 0) with elf_scratch in Hm.
  change (span_hi elf_scratch 4096 0) with (elf_scratch + 4096) in Hm. pose proof (qu_disk _ _ Hq) as Hd. fold D in Hd, Hm.
  assert (header_read s1) as Hh.
  { intros k Hk. rewrite Hm, decide_True, Hd by lia. f_equal. lia. }
  assert (∀ a, ¬ (elf_scratch ≤ a < elf_scratch + 4096) → load8 (k_mem s1) a = load8 (k_mem s) a) as Hout.
  { intros a Ha. by rewrite Hm, decide_False. }
  unfold bootmain. rewrite (bind_done _ _ _ _ _ Hrun). unfold field, field_half. rewrite bind_gets.
  assert (load32 (k_mem s1) elf_scratch = kword D 0) as ->.
  { rewrite <- (Z.add_0_r elf_scratch), header_word, Hd by (done || lia). done. }
  split.
  - intros He. rewrite (proj2 (Z.eqb_neq _ _) He). by exists s1.
  - intros He Hb. rewrite He, Z.eqb_refl. cbn [negb]. rewrite !bind_gets, header_word, Hd by (done || lia).
    rewrite <- Z.add_assoc, !Hh, Hd by lia. change (44 + 1) with 45. fold (kphnum D).
    pose proof (kphnum_range D) as Hn. pose proof (bo_headers _ Hb). pose proof (kword_range D 28) as Hp. unfold is_u32 in Hp.
    unfold sizeof_proghdr. rewrite (u32_id (elf_scratch + kword D 28)) by (unfold is_u32, elf_scratch; lia).
    rewrite u32_id by (unfold is_u32, elf_scratch; lia).
    destruct (load_segs_run (Z.to_nat (kphnum D)) (S (Z.to_nat (kphnum D))) 0 s1) as (s2 & Hrun2 & [Hq2 Hh2 Hl2 Hr2]);
      rewrite ?Hd; [lia | done | done | done | lia |].
    rewrite Hd in *. rewrite Z.mul_0_r, Z.add_0_r in Hrun2. rewrite Z.add_assoc in Hrun2.
    rewrite (bind_done _ _ _ _ _ Hrun2), bind_gets, header_word by (done || lia).
    rewrite (qu_disk _ _ Hq2), Hd. exists s2. split; [done |]. split; [by transitivity s1 |]. split.
    + intros i Hi. apply Hl2. lia.
    + intros a Ha Hs. rewrite Hr2; [by apply Hout |]. intros j Hj. apply Hs. lia.
Qed.
End loader.

(** ** Witness

    A file with one segment: five bytes at offset 0x1000, for 0x100000, and five
    more to clear; the entry point is 0x10000c. *)
Definition tiny_kernel : gmap (Z * Z) (list Z) :=
  {[ (0, 1) := word_bytes ELF_MAGIC ++ replicate 20 0 ++ word_bytes 0x10000c ++ word_bytes 52 ++ replicate 12 0
                 ++ half_bytes 1 ++ replicate 6 0
                 ++ word_bytes 1 ++ word_bytes 0x1000 ++ word_bytes 0x80100000 ++ word_bytes 0x100000
                 ++ word_bytes 5 ++ word_bytes 10 ++ replicate 8 0;
     (0, 9) := [1; 2; 3; 4; 5; 6] ]}.
Lemma tiny_bootable : bootable tiny_kernel.
Proof.
  assert (kseg tiny_kernel 0 = mkSeg 0x100000 0x1000 5 10) as Hg by (vm_compute; reflexivity).
  assert (kphnum tiny_kernel = 1) as Hn by (vm_compute; reflexivity).
  split; rewrite Hn.
  - vm_compute. discriminate.
  - intros i Hi. assert (i = 0) as -> by lia. rewrite Hg. vm_compute. split; [discriminate | reflexivity].
  - intros i Hi. assert (i = 0) as -> by lia. rewrite Hg. right. vm_compute. discriminate.
  - intros i j ??. lia.
Qed.
Lemma bootmain_loads_witness :
  ∃ s', bootmain (FU := 2%nat : Fuel) (HW := ready_disk) (HS := disk_data tiny_kernel) kst0 = Done (Some 0x10000c) s' ∧
    (λ k, load8 (k_mem s') (0x100000 + k)) <$> [0; 1; 2; 3; 4; 5; 6; 7; 8; 9] = [1; 2; 3; 4; 5; 0; 0; 0; 0; 0].
Proof.
  destruct (bootmain_loads (FU := 2%nat : Fuel) (HW := ready_disk) (HS := disk_data tiny_kernel) tiny_kernel
    (HA := disk_data_ok tiny_kernel) kst0) as [_ H].
  change (disks tiny_kernel kst0) with tiny_kernel in H.
  destruct H as (s' & Hrun & _ & Hseg & _); [vm_compute; reflexivity | exact tiny_bootable |].
  exists s'. split; [rewrite Hrun; f_equal; vm_compute; reflexivity |].
  specialize (Hseg 0). assert (kphnum tiny_kernel = 1) as Hn by (vm_compute; reflexivity). rewrite Hn in Hseg.
  specialize (Hseg ltac:(lia)). assert (kseg tiny_kernel 0 = mkSeg 0x100000 0x1000 5 10) as Hg by (vm_compute; reflexivity).
  rewrite Hg in Hseg. unfold seg_loaded, seg_len in Hseg. cbn [sg_pa sg_filesz sg_memsz] in Hseg.
  cbn [fmap list_fmap]. rewrite !Hseg by lia. vm_compute. reflexivity.
Defined.
