(* ===== verification/Mp.v ===== *)
(** * mp.c: finding the processors

    The BIOS leaves a table of the machine's processors in memory; [mpsearch]
    looks for the structure that points to it, [mpinit] reads it. *)
From S2P Require Import Prelude Mmu Cstring Kstate Spinlock Kalloc Vm Proc Sleeplock Bio Trap Console.

Definition NCPU : Z := 8.

(** struct mp and struct mpconf: their sizes and the fields that are used. *)
Definition sizeof_mp : Z := 16.
Definition mp_physaddr (m : mem) (p : Z) : Z := load32 m (p + 4).
Definition mp_imcrp (m : mem) (p : Z) : Z := load8 m (p + 12).
Definition sizeof_mpconf : Z := 44.
Definition mpconf_length (m : mem) (p : Z) : Z := load8 m (p + 4) + 256 * load8 m (p + 5).
Definition mpconf_version (m : mem) (p : Z) : Z := load8 m (p + 6).
Definition mpconf_lapicaddr (m : mem) (p : Z) : Z := load32 m (p + 36).
(** struct mpproc and struct mpioapic. *)
Definition sizeof_mpproc : Z := 20.
Definition sizeof_mpioapic : Z := 8.
Definition MPPROC : Z := 0.
Definition MPBUS : Z := 1.
Definition MPIOAPIC : Z := 2.
Definition MPIOINTR : Z := 3.
Definition MPLINTR : Z := 4.

(** The [n] bytes at [a]; memcmp with a string literal is 0. *)
Definition mem_bytes (m : mem) (a : Z) (n : nat) : list Z := (λ k, load8 m (a + Z.of_nat k)) <$> seq 0 n.
Definition signed_by (m : mem) (p : Z) (lit : string) : bool :=
  bool_decide (mem_bytes m p (length (bytes lit)) = bytes lit).

Fixpoint sum_loop (m : mem) (addr : Z) (n : nat) (acc : Z) : Z :=
  match n with
  | O => acc
  | S n => sum_loop m (addr + 1) n (i32 (acc + load8 m addr))
  end.
Definition sum (m : mem) (addr len : Z) : Z := u8 (sum_loop m addr (Z.to_nat len) 0).

(** for(p = addr; p < e; p += sizeof(struct mp)); at most [n] rounds. *)
Fixpoint mpsearch1_loop (n : nat) (m : mem) (p e : Z) : Z :=
  match n with
  | O => 0
  | S n =>
      if p <? e then
        if (signed_by m p "_MP_" && (sum m p sizeof_mp =? 0))%bool then p else mpsearch1_loop n m (p + sizeof_mp) e
      else 0
  end.
Definition mpsearch1 (m : mem) (a len : Z) : Z :=
  let addr := P2V a in mpsearch1_loop (Z.to_nat len) m addr (addr + len).

Definition mpsearch (m : mem) : Z :=
  let bda := P2V 0x400 in
  let p := Z.shiftl (Z.lor (Z.shiftl (load8 m (bda + 0x0F)) 8) (load8 m (bda + 0x0E))) 4 in
  let found :=
    if negb (p =? 0) then mpsearch1 m p 1024
    else
      let p := Z.lor (Z.shiftl (load8 m (bda + 0x14)) 8) (load8 m (bda + 0x13)) * 1024 in
      mpsearch1 m (u32 (p - 1024)) 1024 in
  if negb (found =? 0) then found else mpsearch1 m 0xF0000 0x10000.

(** The structure and the table it points to. *)
Definition mpconfig (m : mem) : option (Z * Z) :=
  let mp := mpsearch m in
  if ((mp =? 0) || (mp_physaddr m mp =? 0))%bool then None else
  let conf := P2V (mp_physaddr m mp) in
  if negb (signed_by m conf "PCMP") then None else
  if (negb (mpconf_version m conf =? 1) && negb (mpconf_version m conf =? 4))%bool then None else
  if negb (sum m conf (mpconf_length m conf) =? 0) then None else
  Some (mp, conf).

Section mp.
Context {LK : Linker} {FU : Fuel} {HW : Ports}.

Definition upd_mp (f : mp_t → mp_t) : K unit := modify (λ s, s <| k_mp ::= f |>).

(** The loop over the entries.  The [break] of the default case leaves the
    switch, not the loop: [p] stays where it is. *)
Fixpoint mpinit_loop (fuel : nat) (p e : Z) (ismp : bool) : K bool :=
  match fuel with
  | O => fault "mpinit: does not end"
  | S fuel =>
      if negb (p <? e) then mret ismp else
      m ← gets k_mem;
      let type := load8 m p in
      if type =? MPPROC then
        ncpu ← gets (λ s, mp_ncpu (k_mp s));
        mwhen (ncpu <? NCPU)
          (upd_mp (λ x, x <| mp_apicids ::= <[Z.to_nat ncpu := load8 m (p + 1)]> |>);;
           upd_mp (λ x, x <| mp_ncpu := ncpu + 1 |>));;
        mpinit_loop fuel (p + sizeof_mpproc) e ismp
      else if type =? MPIOAPIC then
        upd_mp (λ x, x <| mp_ioapicid := load8 m (p + 1) |>);;
        mpinit_loop fuel (p + sizeof_mpioapic) e ismp
      else if ((type =? MPBUS) || (type =? MPIOINTR) || (type =? MPLINTR))%bool then
        mpinit_loop fuel (p + 8) e ismp
      else mpinit_loop fuel p e false
  end.

Definition mpinit : K unit :=
  m ← gets k_mem;
  match mpconfig m with
  | None => panic "Expect to run on an SMP"
  | Some (mp, conf) =>
      upd_mp (λ x, x <| mp_lapic := mpconf_lapicaddr m conf |>);;
      ismp ← mpinit_loop patience (conf + sizeof_mpconf) (conf + mpconf_length m conf) true;
      if negb ismp then panic "Didn't find a suitable machine" else
      mwhen (negb (mp_imcrp m mp =? 0))
        (outb 0x22 0x70;;
         v ← inb 0x23;
         outb 0x23 (Z.lor v 1))
  end.
End mp.

(** ** The entries of a table *)
Inductive mpent :=
  | EProc (apicid : Z) (rest : list Z)
  | EIoapic (apicno : Z) (rest : list Z)
  | EOther (type : Z) (rest : list Z).
Definition ent_bytes (e : mpent) : list Z :=
  match e with
  | EProc a rest => MPPROC :: a :: rest
  | EIoapic a rest => MPIOAPIC :: a :: rest
  | EOther t rest => t :: rest
  end.
Definition ent_ok (e : mpent) : Prop :=
  match e with
  | EProc _ rest => length rest = 18%nat
  | EIoapic _ rest => length rest = 6%nat
  | EOther t rest => t ∈ [MPBUS; MPIOINTR; MPLINTR] ∧ length rest = 7%nat
  end.
Definition processors (es : list mpent) : list Z :=
  omap (λ e, match e with EProc a _ => Some a | _ => None end) es.
Definition ioapics (es : list mpent) : list Z :=
  omap (λ e, match e with EIoapic a _ => Some a | _ => None end) es.
#[local] Arguments processors : simpl never.
#[local] Arguments ioapics : simpl never.
Definition table_bytes (es : list mpent) : list Z := concat (ent_bytes <$> es).

(** What reading them makes of the variables: the first processors there is room
    for, the last I/O APIC. *)
Definition after_table (es : list mpent) (x : mp_t) : mp_t :=
  let k := Z.to_nat (mp_ncpu x) in
  let new := take (8 - k) (processors es) in
  mkMp (take k (mp_apicids x) ++ new ++ drop (k + length new) (mp_apicids x))
    (mp_ncpu x + Z.of_nat (length new)) (default (mp_ioapicid x) (last (ioapics es))) (mp_lapic x).

Lemma mem_bytes_app m a n k : mem_bytes m a (n + k) = mem_bytes m a n ++ mem_bytes m (a + Z.of_nat n) k.
Proof.
  unfold mem_bytes. rewrite seq_app, fmap_app. f_equal. apply list_eq. intros j. rewrite !list_lookup_fmap.
  destruct (decide (j < k)%nat); [| by rewrite !lookup_seq_ge by lia].
  rewrite !lookup_seq_lt by done. cbn. do 2 f_equal. lia.
Qed.
Lemma mem_bytes_cons m a n x l : mem_bytes m a n = x :: l → load8 m a = x ∧ ∃ k, n = S k ∧ mem_bytes m (a + 1) k = l.
Proof.
  destruct n as [| n]; [done |]. change (S n) with (1 + n)%nat. rewrite mem_bytes_app. cbn. rewrite Z.add_0_r.
  intros [= <- <-]. split; [done |]. by exists n.
Qed.
Lemma mem_bytes_length m a n : length (mem_bytes m a n) = n.
Proof. unfold mem_bytes. by rewrite length_fmap, length_seq. Qed.
Lemma mem_bytes_split m a l1 l2 : mem_bytes m a (length (l1 ++ l2)) = l1 ++ l2 →
  mem_bytes m a (length l1) = l1 ∧ mem_bytes m (a + Z.of_nat (length l1)) (length l2) = l2.
Proof. rewrite length_app, mem_bytes_app. intros H. apply app_inj_1 in H; [done | by rewrite mem_bytes_length]. Qed.

Section mp_spec.
Context {LK : Linker} {HW : Ports}.
Implicit Types (s : kst).

Lemma after_nil x : 0 ≤ mp_ncpu x ≤ 8 → length (mp_apicids x) = 8%nat → after_table [] x = x.
Proof.
  intros Hn Hl. unfold after_table. change (processors []) with (@nil Z). rewrite take_nil. cbn [length app last].
  rewrite Nat.add_0_r, take_drop, Z.add_0_r. by destruct x.
Qed.
Lemma after_table_start es x : mp_ncpu x = 0 → length (mp_apicids x) = 8%nat →
  after_table es x = mkMp (take 8 (processors es) ++ drop (length (processors es)) (mp_apicids x))
    (Z.min NCPU (Z.of_nat (length (processors es)))) (default (mp_ioapicid x) (last (ioapics es))) (mp_lapic x).
Proof.
  intros Hn Hl. unfold after_table, NCPU. rewrite Hn. change (Z.to_nat 0) with O. rewrite Nat.sub_0_r, Nat.add_0_l, length_take.
  f_equal; [| lia]. rewrite take_0. cbn [app]. f_equal.
  destruct (decide (length (processors es) ≤ 8)%nat); [f_equal; lia |]. by rewrite !drop_ge by lia.
Qed.
(** One entry. *)
Lemma mpinit_entry fuel e es p end_ ok s :
  0 ≤ mp_ncpu (k_mp s) ≤ 8 → length (mp_apicids (k_mp s)) = 8%nat → ent_ok e → p < end_ →
  mem_bytes (k_mem s) p (length (ent_bytes e)) = ent_bytes e →
  ∃ x, mpinit_loop (S fuel) p end_ ok s = mpinit_loop fuel (p + Z.of_nat (length (ent_bytes e))) end_ ok (s <| k_mp := x |>) ∧
    0 ≤ mp_ncpu x ≤ 8 ∧ length (mp_apicids x) = 8%nat ∧ after_table es x = after_table (e :: es) (k_mp s).
Proof.
  intros Hn Hl He Hp Hb. cbn [mpinit_loop]. rewrite (proj2 (Z.ltb_lt p end_)) by done. cbn [negb].
  rewrite bind_gets. destruct e as [a rest | a rest | t rest]; cbn [ent_bytes ent_ok] in *.
  - apply mem_bytes_cons in Hb as (Ht & k & Hk & Hb). injection Hk as <-.
    apply mem_bytes_cons in Hb as (Ha & _). cbv zeta. rewrite Ht, Ha.
    change (MPPROC =? MPPROC) with true. cbv iota.
    rewrite bind_gets. cbn [length]. rewrite He. change (Z.of_nat 20) with sizeof_mpproc.
    destruct (Z.ltb_spec (mp_ncpu (k_mp s)) NCPU) as [Hlt | Hge]; unfold NCPU in *; cbn [mwhen].
    + unfold upd_mp. rewrite bind_assoc, !bind_modify. eexists. split; [by destruct s |]. cbn.
      rewrite length_insert. split; [lia |]. split; [done |].
      unfold after_table. cbn. set (n := mp_ncpu (k_mp s)) in *. set (ids := mp_apicids (k_mp s)) in *.
      replace (Z.to_nat (n + 1)) with (S (Z.to_nat n)) by lia. replace (8 - Z.to_nat n)%nat with (S (8 - S (Z.to_nat n))) by lia.
      change (processors (EProc a rest :: es)) with (a :: processors es).
      change (ioapics (EProc a rest :: es)) with (ioapics es). cbn [take length].
      set (new := take (8 - S (Z.to_nat n)) (processors es)). f_equal; [| lia].
      rewrite take_S_r with (x := a) by (apply list_lookup_insert_eq; lia). rewrite take_insert_ge by lia.
      rewrite <- app_assoc. cbn [app]. f_equal. f_equal. f_equal.
      rewrite drop_insert_lt by lia. f_equal. lia.
    + rewrite bind_ret. exists (k_mp s). split; [by destruct s |]. split; [done |]. split; [done |].
      unfold after_table. change (ioapics (EProc a rest :: es)) with (ioapics es).
      by replace (8 - Z.to_nat (mp_ncpu (k_mp s)))%nat with O by lia.
  - apply mem_bytes_cons in Hb as (Ht & k & Hk & Hb). injection Hk as <-.
    apply mem_bytes_cons in Hb as (Ha & _). cbv zeta. rewrite Ht, Ha.
    change (MPIOAPIC =? MPPROC) with false. change (MPIOAPIC =? MPIOAPIC) with true. cbv iota.
    unfold upd_mp. rewrite bind_modify. cbn [length]. rewrite He. change (Z.of_nat 8) with sizeof_mpioapic.
    eexists. split; [by destruct s |]. cbn. split; [done |]. split; [done |].
    unfold after_table. change (ioapics (EIoapic a rest :: es)) with (a :: ioapics es).
    change (processors (EIoapic a rest :: es)) with (processors es). cbn. rewrite last_cons.
    by destruct (last (ioapics es)).
  - apply mem_bytes_cons in Hb as (Ht & _). cbv zeta. rewrite Ht. destruct He as [Hty He]. cbn [length]. rewrite He.
    exists (k_mp s). split; [| done]. rewrite !elem_of_cons in Hty.
    destruct Hty as [-> | [-> | [-> | Hty%elem_of_nil]]]; by destruct s.
Qed.

Lemma mpinit_entries fuel es end_ ok : ∀ p s,
  0 ≤ mp_ncpu (k_mp s) ≤ 8 → length (mp_apicids (k_mp s)) = 8%nat → Forall ent_ok es →
  p + Z.of_nat (length (table_bytes es)) ≤ end_ →
  mem_bytes (k_mem s) p (length (table_bytes es)) = table_bytes es →
  mpinit_loop (length es + fuel) p end_ ok s =
    mpinit_loop fuel (p + Z.of_nat (length (table_bytes es))) end_ ok (s <| k_mp := after_table es (k_mp s) |>).
Proof.
  induction es as [| e es IH]; intros p s Hn Hl Hes Hp Hb.
  { rewrite after_nil by done. cbn. rewrite Z.add_0_r. by destruct s. }
  apply Forall_cons in Hes as [He Hes]. change (table_bytes (e :: es)) with (ent_bytes e ++ table_bytes es) in *.
  apply mem_bytes_split in Hb as [Hb1 Hb2]. rewrite length_app in Hp |- *.
  assert (Hpos : (0 < length (ent_bytes e))%nat) by (destruct e; cbn; lia).
  destruct (mpinit_entry (length es + fuel) e es p end_ ok s Hn Hl He ltac:(lia) Hb1) as (x & R & Hn' & Hl' & Ha).
  cbn [length plus]. rewrite R, IH; [| done | done | done | lia | done].
  rewrite Nat2Z.inj_add, Z.add_assoc. cbn [k_mp set set_k_mp]. by rewrite Ha.
Qed.

(** A type that is not in the table: the loop does not move on. *)
Lemma mpinit_stuck fuel p end_ ok s : p < end_ →
  load8 (k_mem s) p ∉ [MPPROC; MPIOAPIC; MPBUS; MPIOINTR; MPLINTR] →
  mpinit_loop fuel p end_ ok s = Fault "mpinit: does not end".
Proof.
  intros Hp Ht. rewrite !not_elem_of_cons in Ht. destruct Ht as (H1 & H2 & H3 & H4 & H5 & _).
  revert ok. induction fuel as [| fuel IH]; intros ok; [done |]. cbn [mpinit_loop].
  rewrite (proj2 (Z.ltb_lt p end_)) by done. cbn [negb]. rewrite bind_gets. cbv zeta.
  rewrite !(proj2 (Z.eqb_neq (load8 _ _) _)) by done. apply IH.
Qed.
End mp_spec.

Section mp_theorems.
Context {LK : Linker} {FU : Fuel} {HW : Ports}.

(** C39: [mpinit] reads the BIOS's table.  From a table of known entries it takes the
    APIC numbers of the first NCPU processors, the number of the last I/O APIC
    and the address of the local one, and ends; behind an entry of an unknown
    type it looks for nothing, but never ends either, however long one waits: the
    [break] meant for the loop leaves the switch, and the panic for machines that
    are not suitable cannot be reached. *)
Theorem mpinit_reads mp conf es tail s :
  let m := k_mem s in
  let ids := mp_apicids (k_mp s) in
  mpconfig m = Some (mp, conf) → mp_ncpu (k_mp s) = 0 → length ids = 8%nat →
  Forall ent_ok es → mpconf_length m conf = sizeof_mpconf + Z.of_nat (length (table_bytes es ++ tail)) →
  mem_bytes m (conf + sizeof_mpconf) (length (table_bytes es ++ tail)) = table_bytes es ++ tail →
  match tail with
  | [] =>
      (length es < patience)%nat →
      mpinit s = mwhen (negb (mp_imcrp m mp =? 0)) (outb 0x22 0x70;; v ← inb 0x23; outb 0x23 (Z.lor v 1))
        (s <| k_mp := mkMp (take 8 (processors es) ++ drop (length (processors es)) ids)
                           (Z.min NCPU (Z.of_nat (length (processors es))))
                           (default (mp_ioapicid (k_mp s)) (last (ioapics es))) (mpconf_lapicaddr m conf) |>)
  | t :: _ =>
      t ∉ [MPPROC; MPIOAPIC; MPBUS; MPIOINTR; MPLINTR] → (length es ≤ patience)%nat →
      mpinit s = Fault "mpinit: does not end"
  end.
Proof.
  intros m ids Hc Hn Hl Hes Hlen Hb. apply mem_bytes_split in Hb as [Hb Ht]. rewrite length_app in Hlen.
  set (s1 := s <| k_mp ::= λ x, x <| mp_lapic := mpconf_lapicaddr m conf |> |>).
  assert (Hent : ∀ fuel, mpinit_loop (length es + fuel) (conf + sizeof_mpconf) (conf + mpconf_length m conf) true s1 =
    mpinit_loop fuel (conf + sizeof_mpconf + Z.of_nat (length (table_bytes es))) (conf + mpconf_length m conf) true
      (s1 <| k_mp := after_table es (k_mp s1) |>)).
  { intros fuel. apply mpinit_entries; try done; [cbn; lia |]. rewrite Hlen. lia. }
  unfold mpinit. rewrite bind_gets. fold m. rewrite Hc. unfold upd_mp. rewrite bind_modify. fold s1.
  destruct tail as [| t tail]; [intros Hf | intros Hty Hf].
  - replace patience with (length es + S (patience - length es - 1))%nat by lia. unfold mbind at 1, M_bind at 1.
    rewrite Hent. cbn [mpinit_loop]. rewrite Hlen. cbn [length]. rewrite (proj2 (Z.ltb_ge _ _)) by lia.
    cbn [negb obind mret M_ret].
    f_equal. rewrite (after_table_start es (k_mp s1)) by done. by destruct s.
  - apply mem_bytes_cons in Ht as (Ht & _).
    apply bind_fault. replace patience with (length es + (patience - length es))%nat by lia. rewrite Hent. apply mpinit_stuck.
    + rewrite Hlen. cbn [length]. lia.
    + by change (load8 m (conf + sizeof_mpconf + Z.of_nat (length (table_bytes es))) ∉
        [MPPROC; MPIOAPIC; MPBUS; MPIOINTR; MPLINTR]); rewrite Ht.
Qed.

(** [mpsearch1] finds the first structure, at a multiple of 16 bytes, with the
    signature and bytes that add up to 0. *)
Theorem mpsearch1_finds m a len :
  let addr := P2V a in
  let ok k := (signed_by m (addr + sizeof_mp * Z.of_nat k) "_MP_" && (sum m (addr + sizeof_mp * Z.of_nat k) sizeof_mp =? 0))%bool in
  let n := Z.to_nat ((len + 15) / 16) in
  0 ≤ len →
  mpsearch1 m a len = match find_idx ok (seq 0 n) with Some k => addr + sizeof_mp * Z.of_nat k | None => 0 end.
Proof.
  intros addr ok n Hlen. unfold mpsearch1. fold addr.
  assert (H : ∀ fuel k, (n ≤ k + fuel)%nat → (k ≤ n)%nat →
    mpsearch1_loop fuel m (addr + sizeof_mp * Z.of_nat k) (addr + len) =
      match find_idx ok (seq k (n - k)) with Some j => addr + sizeof_mp * Z.of_nat (k + j) | None => 0 end).
  { induction fuel as [| fuel IH]; intros k Hf Hk.
    { by replace (n - k)%nat with O by lia. }
    cbn [mpsearch1_loop]. destruct (Z.ltb_spec (addr + sizeof_mp * Z.of_nat k) (addr + len)) as [Hlt | Hge].
    - assert (k < n)%nat by (unfold n, sizeof_mp in *; zlia). replace (n - k)%nat with (S (n - S k)) by lia. cbn [seq find_idx].
      change (signed_by _ _ _ && _)%bool with (ok k). destruct (ok k); [by rewrite Nat.add_0_r |].
      replace (addr + sizeof_mp * Z.of_nat k + sizeof_mp) with (addr + sizeof_mp * Z.of_nat (S k)) by (unfold sizeof_mp; lia).
      rewrite IH by lia. destruct (find_idx ok _) as [j |]; cbn; [do 3 f_equal; lia | done].
    - assert (n ≤ k)%nat by (unfold n, sizeof_mp in *; zlia). by replace (n - k)%nat with O by lia. }
  specialize (H (Z.to_nat len) 0%nat). rewrite Z.mul_0_r, Z.add_0_r, Nat.sub_0_r in H. apply H; [unfold n; zlia | lia].
Qed.
End mp_theorems.

(** ** Witnesses: a machine with two processors, and one whose table has an entry
    of type 9 *)
Definition balance (l1 l2 : list Z) : list Z := l1 ++ [u8 (- foldr Z.add 0 (l1 ++ l2))] ++ l2.
Definition two_cpus : list mpent := [EProc 0 (replicate 18 0); EProc 1 (replicate 18 0); EIoapic 2 (replicate 6 0)].
Definition bios_table (tail : list Z) : list Z :=
  let entries := table_bytes two_cpus ++ tail in
  balance (bytes "PCMP" ++ half_bytes (44 + Z.of_nat (length entries)) ++ [4])
    (replicate 28 0 ++ word_bytes 0xFEE00000 ++ replicate 4 0 ++ entries).
Definition bios (tail : list Z) : mem :=
  map_seqZ 0x80001000 (bios_table tail) ∪
  map_seqZ 0x800F0000 (balance (bytes "_MP_" ++ word_bytes 0x1000 ++ [1; 4]) (replicate 5 0)).
Definition machine (tail : list Z) : kst := running <| k_mem := bios tail |>.

Lemma mpinit_reads_witness :
  (∃ s', mpinit (FU := 4%nat : Fuel) (HW := λ _ _, 0) (machine []) = Done tt s' ∧
     k_mp s' = mkMp [0; 1; 0; 0; 0; 0; 0; 0] 2 2 0xFEE00000) ∧
  mpinit (FU := 1000%nat : Fuel) (HW := λ _ _, 0) (machine [9]) = Fault "mpinit: does not end".
Proof.
  assert (Hes : Forall ent_ok two_cpus) by (repeat constructor).
  split.
  - pose proof (mpinit_reads (FU := 4%nat : Fuel) (HW := λ _ _, 0) 0x800F0000 0x80001000 two_cpus [] (machine [])) as H.
    cbv zeta in H. eexists. split; [refine (H _ _ _ Hes _ _ _); try (vm_compute; reflexivity) | vm_compute; reflexivity].
  - pose proof (mpinit_reads (FU := 1000%nat : Fuel) (HW := λ _ _, 0) 0x800F0000 0x80001000 two_cpus [9] (machine [9])) as H.
    cbv zeta in H. refine (H _ _ _ Hes _ _ _ _); try (vm_compute; reflexivity); [| by apply Nat.leb_le].
    by apply (bool_decide_unpack _); vm_compute.
Defined.

Lemma mpsearch1_finds_witness : mpsearch1 (bios []) 0xF0000 0x10000 = 0x800F0000.
Proof.
  pose proof (mpsearch1_finds (bios []) 0xF0000 0x10000 ltac:(lia)) as H. rewrite H. vm_compute. reflexivity.
Defined.
