(* ===== verification/Apic.v ===== *)
(** * lapic.c, ioapic.c, picirq.c: the interrupt controllers and the clock

    The controllers' registers are memory of their own: a store is an event of
    the output, what a load delivers is the parameter [Mmio].  The handlers that
    trap.c calls are put together here.  Theorem: [cmostime] returns the time the
    clock shows. *)
From S2P Require Import Prelude Mmu Cstring Kstate Spinlock Kalloc Vm Proc Sleeplock Bio Fs Pipe Printf Trap Console Kbd Ide Mp.

Class Mmio := mm_in : list outev → Z → Z.

Definition IRQ_ERROR : Z := 19.
(** Registers of the local APIC, as indices of words. *)
Definition ID : Z := 0x20 / 4.
Definition VER : Z := 0x30 / 4.
Definition TPR : Z := 0x80 / 4.
Definition EOI : Z := 0xB0 / 4.
Definition SVR : Z := 0xF0 / 4.
Definition ENABLE : Z := 0x100.
Definition ESR : Z := 0x280 / 4.
Definition ICRLO : Z := 0x300 / 4.
Definition INIT : Z := 0x500.
Definition STARTUP : Z := 0x600.
Definition DELIVS : Z := 0x1000.
Definition ASSERT : Z := 0x4000.
Definition LEVEL : Z := 0x8000.
Definition BCAST : Z := 0x80000.
Definition ICRHI : Z := 0x310 / 4.
Definition TIMER : Z := 0x320 / 4.
Definition X1 : Z := 0xB.
Definition PERIODIC : Z := 0x20000.
Definition PCINT : Z := 0x340 / 4.
Definition LINT0 : Z := 0x350 / 4.
Definition LINT1 : Z := 0x360 / 4.
Definition ERROR : Z := 0x370 / 4.
Definition MASKED : Z := 0x10000.
Definition TICR : Z := 0x380 / 4.
Definition TDCR : Z := 0x3E0 / 4.
(** Registers of the clock. *)
Definition CMOS_PORT : Z := 0x70.
Definition CMOS_RETURN : Z := 0x71.
Definition CMOS_STATA : Z := 0x0a.
Definition CMOS_STATB : Z := 0x0b.
Definition CMOS_UIP : Z := Z.shiftl 1 7.
Definition SECS : Z := 0.
Definition MINS : Z := 2.
Definition HOURS : Z := 4.
Definition DAY : Z := 7.
Definition MONTH : Z := 8.
Definition YEAR : Z := 9.
(** The I/O APIC. *)
Definition REG_ID : Z := 0.
Definition REG_VER : Z := 1.
Definition REG_TABLE : Z := 0x10.
Definition INT_DISABLED : Z := 0x10000.

Record rtcdate := mkDate { second : Z; minute : Z; hour : Z; day : Z; month : Z; year : Z }.
#[export] Instance rtcdate_eq : EqDecision rtcdate.
Proof. solve_decision. Defined.

Section apic.
Context {LK : Linker} {FU : Fuel} {BD : BlockDev} {HW : Ports} {HS : PortStrings} {MM : Mmio}.

Definition mm_read (addr : Z) : K Z :=
  h ← gets k_out;
  let v := u32 (mm_in h addr) in
  modify (λ s, s <| k_out ::= cons (Inm addr v) |>);;
  mret v.
Definition mm_write (addr v : Z) : K unit :=
  modify (λ s, s <| k_out ::= cons (Outm addr v) |>).

(** ** picirq.c *)
Definition IO_PIC1 : Z := 0x20.
Definition IO_PIC2 : Z := 0xA0.
Definition picinit : K unit := outb (IO_PIC1 + 1) 0xFF;; outb (IO_PIC2 + 1) 0xFF.

(** ** ioapic.c *)
Definition ioapicread (reg : Z) : K Z := mm_write ioapic reg;; mm_read (ioapic + 16).
(** for(i = 0; i <= maxintr; i++) *)
Fixpoint ioapic_loop (n : nat) (i : Z) : K unit :=
  match n with
  | O => mret tt
  | S n =>
      ioapicwrite (REG_TABLE + 2 * i) (Z.lor INT_DISABLED (T_IRQ0 + i));;
      ioapicwrite (REG_TABLE + 2 * i + 1) 0;;
      ioapic_loop n (i + 1)
  end.
Definition ioapicinit : K unit :=
  v ← ioapicread REG_VER;
  let maxintr := Z.land (Z.shiftr v 16) 0xFF in
  v ← ioapicread REG_ID;
  let id := Z.shiftr v 24 in
  ioapicid ← gets (λ s, mp_ioapicid (k_mp s));
  mwhen (negb (id =? ioapicid)) (cprintf "ioapicinit: id isn't equal to ioapicid; not a MP\n" []);;
  ioapic_loop (Z.to_nat (maxintr + 1)) 0.

(** ** lapic.c *)
Definition get_lapic : K Z := gets (λ s, mp_lapic (k_mp s)).
Definition lapicr (index : Z) : K Z := lapic ← get_lapic; mm_read (u32 (lapic + 4 * index)).
Definition lapicw (index value : Z) : K unit :=
  lapic ← get_lapic;
  mm_write (u32 (lapic + 4 * index)) value;;
  _ ← lapicr ID;
  mret tt.
(** while(lapic[ICRLO] & DELIVS) ; *)
Fixpoint delivery_loop (fuel : nat) : K unit :=
  match fuel with
  | O => fault "lapicinit: delivery does not end"
  | S fuel => v ← lapicr ICRLO; if negb (Z.land v DELIVS =? 0) then delivery_loop fuel else mret tt
  end.
Definition lapicinit : K unit :=
  lapic ← get_lapic;
  if lapic =? 0 then mret tt else
  lapicw SVR (Z.lor ENABLE (T_IRQ0 + IRQ_SPURIOUS));;
  lapicw TDCR X1;;
  lapicw TIMER (Z.lor PERIODIC (T_IRQ0 + IRQ_TIMER));;
  lapicw TICR 10000000;;
  lapicw LINT0 MASKED;;
  lapicw LINT1 MASKED;;
  v ← lapicr VER;
  mwhen (Z.land (Z.shiftr v 16) 0xFF >=? 4) (lapicw PCINT MASKED);;
  lapicw ERROR (T_IRQ0 + IRQ_ERROR);;
  lapicw ESR 0;;
  lapicw ESR 0;;
  lapicw EOI 0;;
  lapicw ICRHI 0;;
  lapicw ICRLO (Z.lor (Z.lor BCAST INIT) LEVEL);;
  delivery_loop patience;;
  lapicw TPR 0.
Definition lapicid : K Z :=
  lapic ← get_lapic;
  if lapic =? 0 then mret 0 else v ← lapicr ID; mret (Z.shiftr v 24).
Definition lapiceoi : K unit :=
  lapic ← get_lapic;
  mwhen (negb (lapic =? 0)) (lapicw EOI 0).
Definition microdelay (us : Z) : K unit := mret tt.

Definition st16 (a v : Z) : K unit := modify (λ s, s <| k_mem ::= λ m, store8 (store8 m a (u8 v)) (a + 1) (u8 (Z.shiftr v 8)) |>).
(** for(i = 0; i < 2; i++) *)
Fixpoint startup_loop (n : nat) (apicid addr : Z) : K unit :=
  match n with
  | O => mret tt
  | S n =>
      lapicw ICRHI (u32 (Z.shiftl apicid 24));;
      lapicw ICRLO (Z.lor STARTUP (Z.shiftr addr 12));;
      microdelay 200;;
      startup_loop n apicid addr
  end.
Definition lapicstartap (apicid addr : Z) : K unit :=
  outb CMOS_PORT 0xF;;
  outb (CMOS_PORT + 1) 0x0A;;
  let wrv := P2V (Z.lor (Z.shiftl 0x40 4) 0x67) in
  st16 wrv 0;;
  st16 (wrv + 2) (u16 (Z.shiftr addr 4));;
  lapicw ICRHI (u32 (Z.shiftl apicid 24));;
  lapicw ICRLO (Z.lor (Z.lor INIT LEVEL) ASSERT);;
  microdelay 200;;
  lapicw ICRLO (Z.lor INIT LEVEL);;
  microdelay 100;;
  startup_loop 2 apicid addr.

Definition cmos_read (reg : Z) : K Z := outb CMOS_PORT reg;; microdelay 200;; inb CMOS_RETURN.
Definition fill_rtcdate : K rtcdate :=
  s ← cmos_read SECS;
  m ← cmos_read MINS;
  h ← cmos_read HOURS;
  d ← cmos_read DAY;
  mo ← cmos_read MONTH;
  y ← cmos_read YEAR;
  mret (mkDate s m h d mo y).
(** The time, read twice without a change in between. *)
Fixpoint read_twice (fuel : nat) : K rtcdate :=
  match fuel with
  | O => fault "cmostime: the clock does not come to rest"
  | S fuel =>
      t1 ← fill_rtcdate;
      a ← cmos_read CMOS_STATA;
      if negb (Z.land a CMOS_UIP =? 0) then read_twice fuel else
      t2 ← fill_rtcdate;
      if bool_decide (t1 = t2) then mret t1 else read_twice fuel
  end.
Definition CONV (x : Z) : Z := Z.shiftr x 4 * 10 + Z.land x 0xf.
Definition conv_date (t : rtcdate) : rtcdate :=
  mkDate (CONV (second t)) (CONV (minute t)) (CONV (hour t)) (CONV (day t)) (CONV (month t)) (CONV (year t)).
Definition cmostime : K rtcdate :=
  sb ← cmos_read CMOS_STATB;
  let bcd := Z.land sb (Z.shiftl 1 2) =? 0 in
  t1 ← read_twice patience;
  let t1 := if bcd then conv_date t1 else t1 in
  mret (mkDate (second t1) (minute t1) (hour t1) (day t1) (month t1) (u32 (year t1 + 2000))).

(** ** proc.c: which CPU this is *)
Definition cpu_index (ids : list Z) (apicid : Z) : option nat := find_idx (λ a, a =? apicid) ids.
Definition lapic_mycpu : K nat :=
  c ← gets k_cpu;
  if if_flag c then panic "mycpu called with interrupts enabled\n" else
  apicid ← lapicid;
  x ← gets k_mp;
  match cpu_index (take (Z.to_nat (mp_ncpu x)) (mp_apicids x)) apicid with
  | Some i => mret i
  | None => panic "unknown apicid\n"
  end.
Definition lapic_cpuid : K Z := i ← lapic_mycpu; mret (Z.of_nat i).

(** The device handlers of a kernel on the IDE disk; [rcr2] is an instruction. *)
Definition hardware_irqs (cr2 : K Z) : Irqs := {|
  Trap.ideintr := ide_intr;
  Trap.kbdintr := kbdintr;
  Trap.uartintr := uartintr;
  Trap.lapiceoi := lapiceoi;
  Trap.cpuid := lapic_cpuid;
  Trap.rcr2 := cr2 |}.
End apic.

(** ** The clock

    A clock that shows [now], as binary numbers or decimal digits in half bytes
    as bit 2 of its status register B says; [busy] is when it reports an update in
    progress. *)
Section rtc.
Context {HW : Ports} (now : rtcdate) (statb : Z) (busy : list outev → bool).

Definition encoded (x : Z) : Z := if Z.land statb 4 =? 0 then 16 * (x / 10) + x mod 10 else x.
Definition clock_reg (r : Z) : option Z :=
  if r =? SECS then Some (encoded (second now)) else if r =? MINS then Some (encoded (minute now))
  else if r =? HOURS then Some (encoded (hour now)) else if r =? DAY then Some (encoded (day now))
  else if r =? MONTH then Some (encoded (month now)) else if r =? YEAR then Some (encoded (year now))
  else if r =? CMOS_STATB then Some statb else None.
Record RtcOk : Prop := {
  rtc_reg h r v : clock_reg r = Some v → u8 (port_in (Outb CMOS_PORT r :: h) CMOS_RETURN) = v;
  rtc_busy h : Z.land (u8 (port_in (Outb CMOS_PORT CMOS_STATA :: h) CMOS_RETURN)) CMOS_UIP =
    if busy h then CMOS_UIP else 0 }.

(** The accesses so far after reading a register, and after reading the time. *)
Definition after_read (h : list outev) (r : Z) : list outev :=
  Inb CMOS_RETURN (u8 (port_in (Outb CMOS_PORT r :: h) CMOS_RETURN)) :: Outb CMOS_PORT r :: h.
Definition after_fill (h : list outev) : list outev :=
  foldl after_read h [SECS; MINS; HOURS; DAY; MONTH; YEAR].
(** One of the next [n] times the clock is not busy. *)
Fixpoint settles (n : nat) (h : list outev) : Prop :=
  match n with
  | O => False
  | S n => if busy (after_fill h) then settles n (after_read (after_fill h) CMOS_STATA) else True
  end.
Record date_ok (t : rtcdate) : Prop := {
  dt_second : 0 ≤ second t < 60; dt_minute : 0 ≤ minute t < 60; dt_hour : 0 ≤ hour t < 24;
  dt_day : 0 ≤ day t < 32; dt_month : 0 ≤ month t < 13; dt_year : 0 ≤ year t < 100 }.

Lemma cmos_read_run r s : cmos_read r s = Done (u8 (port_in (Outb CMOS_PORT r :: k_out s) CMOS_RETURN))
  (s <| k_out := after_read (k_out s) r |>).
Proof. by destruct s. Qed.

Definition shown : rtcdate :=
  mkDate (encoded (second now)) (encoded (minute now)) (encoded (hour now)) (encoded (day now))
    (encoded (month now)) (encoded (year now)).
Lemma fill_run s : RtcOk → fill_rtcdate s = Done shown (s <| k_out := after_fill (k_out s) |>).
Proof.
  intros [Hr _]. unfold fill_rtcdate.
  rewrite (bind_done _ _ _ _ _ (cmos_read_run SECS s)), (Hr _ SECS (encoded (second now)) eq_refl).
  set (s1 := s <| k_out := _ |>).
  rewrite (bind_done _ _ _ _ _ (cmos_read_run MINS s1)), (Hr _ MINS (encoded (minute now)) eq_refl).
  set (s2 := s1 <| k_out := _ |>).
  rewrite (bind_done _ _ _ _ _ (cmos_read_run HOURS s2)), (Hr _ HOURS (encoded (hour now)) eq_refl).
  set (s3 := s2 <| k_out := _ |>).
  rewrite (bind_done _ _ _ _ _ (cmos_read_run DAY s3)), (Hr _ DAY (encoded (day now)) eq_refl).
  set (s4 := s3 <| k_out := _ |>).
  rewrite (bind_done _ _ _ _ _ (cmos_read_run MONTH s4)), (Hr _ MONTH (encoded (month now)) eq_refl).
  set (s5 := s4 <| k_out := _ |>).
  rewrite (bind_done _ _ _ _ _ (cmos_read_run YEAR s5)), (Hr _ YEAR (encoded (year now)) eq_refl). by destruct s.
Qed.
Lemma read_twice_run fuel : ∀ s, RtcOk → settles fuel (k_out s) →
  ∃ h, read_twice fuel s = Done shown (s <| k_out := h |>).
Proof.
  induction fuel as [| fuel IH]; intros s R Hs; [done |]. cbn [read_twice settles] in *.
  rewrite (bind_done _ _ _ _ _ (fill_run s R)). set (s1 := s <| k_out := _ |>).
  rewrite (bind_done _ _ _ _ _ (cmos_read_run CMOS_STATA s1)), (rtc_busy R).
  change (k_out s1) with (after_fill (k_out s)). set (s2 := s1 <| k_out := _ |>).
  destruct (busy (after_fill (k_out s))).
  - change (negb (CMOS_UIP =? 0)) with true. cbv iota. destruct (IH s2 R Hs) as (h & ->). exists h. by destruct s.
  - change (negb (0 =? 0)) with false. cbv iota. rewrite (bind_done _ _ _ _ _ (fill_run s2 R)).
    rewrite bool_decide_eq_true_2 by done. eexists. by destruct s.
Qed.
Lemma encoded_conv x : 0 ≤ x < 100 → (if Z.land statb 4 =? 0 then CONV (encoded x) else encoded x) = x.
Proof.
  intros Hx. unfold encoded, CONV. destruct (Z.land statb 4 =? 0); [| done].
  rewrite Z.shiftr_div_pow2 by lia. change 0xf with (Z.ones 4). rewrite Z.land_ones by lia. change (2 ^ 4) with 16. zlia.
Qed.
End rtc.

Section clock.
Context {FU : Fuel} {HW : Ports}.

(** [cmostime] returns the time the clock shows, in whichever of its two
    formats, with the century added, as soon as the clock is not busy. *)
Theorem cmostime_reads now statb busy s :
  RtcOk now statb busy → date_ok now → settles busy patience (after_read (k_out s) CMOS_STATB) →
  ∃ h, cmostime s = Done (mkDate (second now) (minute now) (hour now) (day now) (month now) (2000 + year now)) (s <| k_out := h |>).
Proof.
  intros R [] Hs. unfold cmostime.
  rewrite (bind_done _ _ _ _ _ (cmos_read_run CMOS_STATB s)), (rtc_reg _ _ _ R _ CMOS_STATB statb eq_refl).
  set (s1 := s <| k_out := _ |>). destruct (read_twice_run now statb busy patience s1 R Hs) as (h & Rd).
  rewrite (bind_done _ _ _ _ _ Rd). cbv zeta. change (Z.shiftl 1 2) with 4. exists h. unfold mret, M_ret.
  pose proof (encoded_conv statb) as E. destruct (Z.land statb 4 =? 0); unfold shown; cbn;
    rewrite !E by lia; rewrite u32_id by (unfold is_u32; lia); rewrite Z.add_comm; by destruct s.
Qed.
End clock.

(** ** Witness: half past eleven, in decimal digits, once busy *)
Definition lunch : rtcdate := mkDate 0 30 11 24 12 99.
Definition rtc_port (h : list outev) : Z :=
  match h with
  | Outb _ r :: h =>
      if r =? CMOS_STATA then if (length h <? 20)%nat then 0x80 else 0
      else default 0 (clock_reg lunch 0 r)
  | _ => 0
  end.
Lemma cmostime_reads_witness :
  ∃ s', cmostime (FU := 2%nat : Fuel) (HW := λ h _, rtc_port h) running = Done (mkDate 0 30 11 24 12 2099) s'.
Proof.
  destruct (cmostime_reads (FU := 2%nat : Fuel) (HW := λ h _, rtc_port h) lunch 0 (λ h, length h <? 20)%nat running) as (h & R).
  - split.
    + intros h r v. unfold clock_reg. repeat case_match; intros [= <-]; repeat match goal with H : (_ =? _) = true |- _ => apply Z.eqb_eq in H as -> end; reflexivity.
    + intros h. unfold port_in, rtc_port. change (CMOS_STATA =? CMOS_STATA) with true. cbv iota. by destruct (length h <? 20)%nat.
  - by split.
  - vm_compute. exact I.
  - by eexists.
Defined.
