(* ===== verification/Mkfs.v ===== *)
(** * mkfs.c: the program of the build host that makes the file system image

    The image is a file of the host, a list of blocks; [mkfs_main] builds it from
    the files named on its command line.  What the host's files deliver, and
    which operations on the image fail, is a parameter.  An [exit(1)] and a failed
    assertion are [Panic]; the host is little-endian, as the target. *)
From stdpp Require Import functions.
From S2P Require Import Prelude Mmu Cstring Kstate Spinlock Kalloc Vm Proc Sleeplock Bio Log Fs Tx Balloc Inodes Writei Content Dirs.

(** The host: which files can be created and which sectors of an image written;
    what the successive reads of a file deliver ([None]: it cannot be opened). *)
Class Host := {
  can_create : list Z → bool;
  can_write : list (list Z) → Z → bool;
  host_open : list Z → option (list (list Z)) }.

Record dinode := mkDin {
  di_type : Z; di_major : Z; di_minor : Z; di_nlink : Z; di_size : Z; di_addrs : list Z }.
#[export] Instance set_di_size : Setter di_size := λ g x,
  mkDin (di_type x) (di_major x) (di_minor x) (di_nlink x) (g (di_size x)) (di_addrs x).
#[export] Instance set_di_addrs : Setter di_addrs := λ g x,
  mkDin (di_type x) (di_major x) (di_minor x) (di_nlink x) (di_size x) (g (di_addrs x)).
Definition din0 : dinode := mkDin 0 0 0 0 0 (replicate (NDIRECT + 1) 0).

(** A struct dinode in memory, and the one at an offset of a buffer. *)
Definition din_bytes (d : dinode) : list Z :=
  half_bytes (di_type d) ++ half_bytes (di_major d) ++ half_bytes (di_minor d) ++
  half_bytes (di_nlink d) ++ word_bytes (di_size d) ++ concat (word_bytes <$> di_addrs d).
Definition din_at (buf : list Z) (o : nat) : dinode :=
  mkDin (blk_short buf o) (blk_short buf (o + 2)) (blk_short buf (o + 4)) (blk_short buf (o + 6))
    (blk_word buf (o + 8)) ((λ k, blk_word buf (o + 12 + 4 * k)) <$> seq 0 (NDIRECT + 1)).

(** The image and the global variables. *)
Record mkfs_t := mkMkfs {
  mk_img : list (list Z); mk_sb : superblock; mk_freeinode : Z; mk_freeblock : Z }.
#[export] Instance set_mk_img : Setter mk_img := λ g x,
  mkMkfs (g (mk_img x)) (mk_sb x) (mk_freeinode x) (mk_freeblock x).
#[export] Instance set_mk_sb : Setter mk_sb := λ g x,
  mkMkfs (mk_img x) (g (mk_sb x)) (mk_freeinode x) (mk_freeblock x).
#[export] Instance set_mk_freeinode : Setter mk_freeinode := λ g x,
  mkMkfs (mk_img x) (mk_sb x) (g (mk_freeinode x)) (mk_freeblock x).
#[export] Instance set_mk_freeblock : Setter mk_freeblock := λ g x,
  mkMkfs (mk_img x) (mk_sb x) (mk_freeinode x) (g (mk_freeblock x)).

Definition NINODES : Z := 200.
Definition nbitmap : Z := FSSIZE / (ZBSIZE * 8) + 1.
Definition ninodeblocks : Z := NINODES / IPB + 1.
Definition nlog : Z := LOGSIZE.
Definition nmeta : Z := 2 + nlog + ninodeblocks + nbitmap.
Definition nblocks : Z := FSSIZE - nmeta.

(** The bytes a[0], a[1], ... stored, read as an integer of the host. *)
Definition xshort (x : Z) : Z := word_of (half_bytes x).
Definition xint (x : Z) : Z := word_of (word_bytes x).

(** struct superblock, in memory. *)
Definition sb_bytes (sb : superblock) : list Z :=
  concat (word_bytes <$> [sb_size sb; sb_nblocks sb; sb_ninodes sb; sb_nlog sb; sb_logstart sb;
                          sb_inodestart sb; sb_bmapstart sb]).
(** struct dirent after bzero and strncpy (or the strcpy of a short name). *)
Definition de_bytes (inum : Z) (name : list Z) : list Z := half_bytes (xshort inum) ++ pad_name name.

Section mkfs.
Context {HO : Host}.

(** A write behind the end of a file leaves a hole of zeroes. *)
Definition file_put (img : list (list Z)) (k : nat) (b : list Z) : list (list Z) :=
  if decide (k < length img)%nat then <[k := b]> img
  else img ++ replicate (k - length img) (replicate BSIZE 0) ++ [b].
(** Where lseek(fsfd, sec * BSIZE, 0) goes, in blocks. *)
Definition seek (sec : Z) : nat := Z.to_nat (u32 (sec * ZBSIZE) / ZBSIZE).
Definition wsect (sec : Z) (buf : list Z) : M mkfs_t unit :=
  img ← gets mk_img;
  if negb (can_write img sec) then panic "write" else
  modify (λ s, s <| mk_img ::= λ img, file_put img (seek sec) buf |>).
Definition rsect (sec : Z) : M mkfs_t (list Z) :=
  img ← gets mk_img;
  match img !! seek sec with
  | Some b => mret b
  | None => panic "read"
  end.

Definition winode (inum : Z) (ip : dinode) : M mkfs_t unit :=
  sb ← gets mk_sb;
  let bn := IBLOCK inum sb in
  buf ← rsect bn;
  wsect bn (blk_put buf (dip_off inum) (din_bytes ip)).
Definition rinode (inum : Z) : M mkfs_t dinode :=
  sb ← gets mk_sb;
  let bn := IBLOCK inum sb in
  buf ← rsect bn;
  mret (din_at buf (dip_off inum)).

Definition mk_ialloc (type : Z) : M mkfs_t Z :=
  inum ← gets mk_freeinode;
  modify (λ s, s <| mk_freeinode ::= λ n, u32 (n + 1) |>);;
  winode inum (mkDin (i16 (xshort type)) 0 0 (i16 (xshort 1)) (xint 0) (replicate (NDIRECT + 1) 0));;
  mret inum.

Definition mk_balloc (used : Z) : M mkfs_t unit :=
  if negb (used <? ZBSIZE * 8) then panic "assert(used < BSIZE*8)" else
  let buf := foldl set_bit (replicate BSIZE 0) (seq 0 (Z.to_nat used)) in
  sb ← gets mk_sb;
  wsect (sb_bmapstart sb) buf.

(** freeblock++ *)
Definition take_block : M mkfs_t Z :=
  b ← gets mk_freeblock;
  modify (λ s, s <| mk_freeblock ::= λ n, u32 (n + 1) |>);;
  mret b.
(** The block [fbn] of the file, allocated if need be. *)
Definition map_block (din : dinode) (fbn : Z) : M mkfs_t (dinode * Z) :=
  if fbn <? Z.of_nat NDIRECT then
    let k := Z.to_nat fbn in
    din ← (if xint (nth k (di_addrs din) 0) =? 0 then
             b ← take_block; mret (din <| di_addrs ::= <[k := xint b]> |>)
           else mret din);
    mret (din, xint (nth k (di_addrs din) 0))
  else
    din ← (if xint (nth NDIRECT (di_addrs din) 0) =? 0 then
             b ← take_block; mret (din <| di_addrs ::= <[NDIRECT := xint b]> |>)
           else mret din);
    let k := (Z.to_nat fbn - NDIRECT)%nat in
    indirect ← rsect (xint (nth NDIRECT (di_addrs din) 0));
    indirect ← (if blk_word indirect (4 * k) =? 0 then
                  b ← take_block;
                  let indirect := blk_put indirect (4 * k) (word_bytes (xint b)) in
                  wsect (xint (nth NDIRECT (di_addrs din) 0)) indirect;;
                  mret indirect
                else mret indirect);
    mret (din, xint (blk_word indirect (4 * k))).
(** while(n > 0): [p] is what is left to append; an iteration takes at least a
    byte of it. *)
Fixpoint iappend_loop (fuel : nat) (din : dinode) (off : Z) (p : list Z) : M mkfs_t (dinode * Z) :=
  match fuel with
  | O => fault "iappend: out of fuel"
  | S fuel =>
      if bool_decide (p = []) then mret (din, off) else
      let fbn := off / ZBSIZE in
      if negb (fbn <? MAXFILE) then panic "assert(fbn < MAXFILE)" else
      '(din, x) ← map_block din fbn;
      let n1 := Nat.min (length p) (Z.to_nat ((fbn + 1) * ZBSIZE - off)) in
      buf ← rsect x;
      wsect x (blk_put buf (Z.to_nat (off - fbn * ZBSIZE)) (take n1 p));;
      iappend_loop fuel din (u32 (off + Z.of_nat n1)) (drop n1 p)
  end.
Definition iappend (inum : Z) (p : list Z) : M mkfs_t unit :=
  din ← rinode inum;
  '(din, off) ← iappend_loop (S (length p)) din (xint (di_size din)) p;
  winode inum (din <| di_size := xint off |>).

Fixpoint zero_loop (n : nat) (i : Z) : M mkfs_t unit :=
  match n with
  | O => mret tt
  | S n => wsect i (replicate BSIZE 0);; zero_loop n (i + 1)
  end.
Fixpoint append_all (inum : Z) (chunks : list (list Z)) : M mkfs_t unit :=
  match chunks with
  | [] => mret tt
  | c :: chunks => iappend inum c;; append_all inum chunks
  end.
Definition host_name (arg : list Z) : list Z :=
  match arg with c :: name => if c =? 95 then name else arg | [] => [] end.
Fixpoint files_loop (rootino : Z) (args : list (list Z)) : M mkfs_t unit :=
  match args with
  | [] => mret tt
  | arg :: args =>
      if bool_decide (slash ∈ arg) then panic "assert(index(argv[i], '/') == 0)" else
      match host_open arg with
      | None => panic "open"
      | Some chunks =>
          inum ← mk_ialloc T_FILE;
          iappend rootino (de_bytes inum (host_name arg));;
          append_all inum chunks;;
          files_loop rootino args
      end
  end.

Definition mkfs_main (argv : list (list Z)) : M mkfs_t unit :=
  match argv with
  | _ :: img :: args =>
      if negb (can_create img) then panic "create" else
      modify (λ s, s <| mk_sb := mkSb (xint FSSIZE) (xint nblocks) (xint NINODES) (xint nlog)
        (xint 2) (xint (2 + nlog)) (xint (2 + nlog + ninodeblocks)) |>
        <| mk_freeblock := nmeta |>);;
      zero_loop (Z.to_nat FSSIZE) 0;;
      sb ← gets mk_sb;
      wsect 1 (blk_put (replicate BSIZE 0) 0 (sb_bytes sb));;
      rootino ← mk_ialloc T_DIR;
      if negb (rootino =? ROOTINO) then panic "assert(rootino == ROOTINO)" else
      iappend rootino (de_bytes rootino (bytes "."));;
      iappend rootino (de_bytes rootino (bytes ".."));;
      files_loop rootino args;;
      din ← rinode rootino;
      let off := xint (di_size din) in
      let off := u32 ((off / ZBSIZE + 1) * ZBSIZE) in
      winode rootino (din <| di_size := xint off |>);;
      used ← gets mk_freeblock;
      mk_balloc used
  | _ => panic "Usage: mkfs fs.img files..."
  end.
End mkfs.

(** The variables at the start; the image is created empty. *)
Definition mkfs_start : mkfs_t := mkMkfs [] (mkSb 0 0 0 0 0 0 0) 1 0.
