(* ===== verification/Image.v ===== *)
(** * What mkfs makes: an image the kernel can use

    Every block of the data area that has been handed out belongs to one slot of
    one file: a ghost map [own] says to which.  From it follow that files do not
    share blocks and that none is lost. *)
From stdpp Require Import functions.
From S2P Require Import Prelude Mmu Cstring Kstate Spinlock Kalloc Vm Proc Sleeplock Bio Log Fs Tx Balloc Inodes Writei Content Dirs Mkfs.

(** An image as a disk of the kernel, and what it has in a block. *)
Definition image (img : list (list Z)) : gmap Z (list Z) := map_seqZ 0 img.
Definition view (s : mkfs_t) : Z → list Z := disk_block (image (mk_img s)).

Lemma view_at s c : 0 ≤ c < Z.of_nat (length (mk_img s)) → mk_img s !! Z.to_nat c = Some (view s c).
Proof.
  intros Hc. unfold view, disk_block, image. rewrite lookup_map_seqZ_0 by lia.
  by destruct (lookup_lt_is_Some_2 (mk_img s) (Z.to_nat c)) as [b ->]; [lia |].
Qed.
Lemma view_put s k b c : 0 ≤ k < Z.of_nat (length (mk_img s)) →
  view (s <| mk_img ::= <[Z.to_nat k := b]> |>) c = if decide (c = k) then b else view s c.
Proof.
  intros Hk. unfold view, disk_block, image. cbn. rewrite !lookup_map_seqZ. case_decide as Hd.
  - subst c. rewrite option_guard_True, Z.sub_0_r by lia. cbn. by rewrite list_lookup_insert_eq by lia.
  - destruct (decide (0 ≤ c)); [| by rewrite !option_guard_False]. rewrite !option_guard_True by done. cbn.
    by rewrite list_lookup_insert_ne by lia.
Qed.

(** The superblock mkfs writes. *)
Definition mkfs_sb : superblock := mkSb 1000 941 200 30 2 32 58.

(** The state of the image: [own] are the owners of the blocks handed out; those
    behind them are zero. *)
Record image_ok (own : gmap Z (Z * nat)) (s : mkfs_t) : Prop := {
  im_len : length (mk_img s) = 1000%nat;
  im_block : Forall block_ok (mk_img s);
  im_sb : mk_sb s = mkfs_sb;
  im_free : 59 ≤ mk_freeblock s ≤ 1000;
  im_own : ∀ c, is_Some (own !! c) ↔ 59 ≤ c < mk_freeblock s;
  im_zero : ∀ c, mk_freeblock s ≤ c → view s c = replicate BSIZE 0 }.

Class HostOk {HO : Host} : Prop := host_writes : ∀ img k, can_write img k = true.

Section runs.
Context {HO : Host} {OK : HostOk}.

Lemma seek_id k : 0 ≤ k < 1000 → seek k = Z.to_nat k.
Proof. intros Hk. unfold seek, ZBSIZE. rewrite u32_id by (unfold is_u32; lia). by rewrite Z.div_mul. Qed.
Lemma wsect_run k b s : length (mk_img s) = 1000%nat → 0 ≤ k < 1000 →
  wsect k b s = Done tt (s <| mk_img ::= <[Z.to_nat k := b]> |>).
Proof.
  intros Hl Hk. unfold wsect. rewrite bind_gets, host_writes. cbn [negb]. unfold modify, set, set_mk_img, file_put.
  by rewrite seek_id, decide_True by lia.
Qed.
Lemma rsect_run k s : length (mk_img s) = 1000%nat → 0 ≤ k < 1000 → rsect k s = Done (view s k) s.
Proof. intros Hl Hk. unfold rsect. by rewrite bind_gets, seek_id, view_at by lia. Qed.

Lemma image_view own s c : image_ok own s → block_ok (view s c).
Proof.
  intros I. unfold view, disk_block, image. rewrite lookup_map_seqZ.
  case_guard; [| apply block_ok_zero]. cbn. destruct (mk_img s !! _) as [b |] eqn:Hb; [| apply block_ok_zero].
  by apply (Forall_lookup_1 _ _ _ _ (im_block _ _ I) Hb).
Qed.
Lemma image_put own s k b :
  image_ok own s → 0 ≤ k < mk_freeblock s → block_ok b → image_ok own (s <| mk_img ::= <[Z.to_nat k := b]> |>).
Proof.
  intros I Hk Hb. pose proof I as [Hl Hbs Hsb Hf Ho Hz]. split; try done.
  - cbn. by rewrite length_insert.
  - by apply Forall_insert.
  - intros c Hc. rewrite view_put by lia. rewrite decide_False by (cbn in Hc; lia). by apply Hz.
Qed.
Lemma take_block_run own s x :
  image_ok own s → mk_freeblock s < 1000 →
  let s' := s <| mk_freeblock := mk_freeblock s + 1 |> in
  take_block s = Done (mk_freeblock s) s' ∧ image_ok (<[mk_freeblock s := x]> own) s'.
Proof.
  intros I Hlt s'. pose proof I as [Hl Hbs Hsb Hf Ho Hz]. split.
  - unfold take_block. rewrite bind_gets, bind_modify. unfold set, set_mk_freeblock.
    rewrite u32_id by (unfold is_u32; lia). done.
  - split; try done; cbn; [lia | |].
    + intros c. destruct (decide (c = mk_freeblock s)) as [-> | Hne].
      * rewrite lookup_insert_eq. split; [lia | by eexists].
      * rewrite lookup_insert_ne by done. rewrite Ho. lia.
    + intros c Hc. apply Hz. lia.
Qed.
Lemma xint_id x : is_u32 x → xint x = x.
Proof. apply word_of_bytes. Qed.
End runs.

(** ** The blocks of a file *)

(** What the kernel makes of a struct dinode. *)
Definition as_inode (i : Z) (d : dinode) : inode :=
  mkInode 1 i 1 slock0 true (di_type d) (di_major d) (di_minor d) (di_nlink d) (di_size d) (di_addrs d) 0.
Definition ind_slot : nat := 140.
Definition slot_addr (V : Z → list Z) (d : dinode) (sl : nat) : Z :=
  if decide (sl = ind_slot) then ind_addr (as_inode 0 d) else blk_addr V (as_inode 0 d) sl.

(** File [i] has [k] blocks and, if [h], an indirect block; they are its own. *)
Record mapped (V : Z → list Z) (own : gmap Z (Z * nat)) (i : Z) (d : dinode) (k : nat) (h : bool) : Prop := {
  mp_len : length (di_addrs d) = 13%nat;
  mp_slot : ∀ sl, (sl ≤ ind_slot)%nat →
    slot_addr V d sl ≠ 0 ↔ if decide (sl = ind_slot) then h = true else (sl < k)%nat;
  mp_own : ∀ c sl, own !! c = Some (i, sl) ↔ (sl ≤ ind_slot)%nat ∧ c ≠ 0 ∧ slot_addr V d sl = c }.

(** File [i] got blocks and its blocks were written. *)
Record grows (i : Z) (own : gmap Z (Z * nat)) (V : Z → list Z) (own' : gmap Z (Z * nat)) (V' : Z → list Z) : Prop := {
  gr_own : own ⊆ own';
  gr_new : ∀ c j sl, own' !! c = Some (j, sl) → j ≠ i → own !! c = Some (j, sl);
  gr_view : ∀ c, (∀ sl, own' !! c ≠ Some (i, sl)) → V' c = V c }.

Lemma grows_refl i own V : grows i own V own V.
Proof. by split. Qed.
Lemma grows_trans i own1 V1 own2 V2 own3 V3 :
  grows i own1 V1 own2 V2 → grows i own2 V2 own3 V3 → grows i own1 V1 own3 V3.
Proof.
  intros [S1 N1 W1] [S2 N2 W2]. split; [by etransitivity | |].
  - intros c j sl Hc Hj. apply N1; [| done]. by apply N2.
  - intros c Hc. rewrite W2 by done. apply W1. intros sl Hs. apply (Hc sl). by eapply lookup_weaken.
Qed.

Lemma ind_addr_slot V d : slot_addr V d ind_slot = ind_addr (as_inode 0 d).
Proof. done. Qed.
Lemma blk_slot V d bn : (bn < 140)%nat → slot_addr V d bn = blk_addr V (as_inode 0 d) bn.
Proof. intros Hb. unfold slot_addr, ind_slot. by rewrite decide_False by lia. Qed.

(** The addresses depend on the indirect block only. *)
Lemma slot_addr_view V V' d sl :
  (ind_addr (as_inode 0 d) ≠ 0 → V' (ind_addr (as_inode 0 d)) = V (ind_addr (as_inode 0 d))) →
  slot_addr V' d sl = slot_addr V d sl.
Proof.
  intros Hv. unfold slot_addr, blk_addr. case_decide; [done |]. destruct (sl <? NDIRECT)%nat; [done |].
  destruct (Z.eqb_spec (ind_addr (as_inode 0 d)) 0); [done |]. by rewrite Hv.
Qed.

(** A block [b] for the slot [sl0]. *)
Lemma mapped_add V V' own i d d' k h k' h' sl0 b :
  mapped V own i d k h → length (di_addrs d') = 13%nat → (sl0 ≤ ind_slot)%nat → b ≠ 0 → own !! b = None →
  slot_addr V d sl0 = 0 →
  (∀ sl, (sl ≤ ind_slot)%nat → slot_addr V' d' sl = if decide (sl = sl0) then b else slot_addr V d sl) →
  (∀ sl, (sl ≤ ind_slot)%nat → (if decide (sl = ind_slot) then h' = true else (sl < k')%nat) ↔
    sl = sl0 ∨ if decide (sl = ind_slot) then h = true else (sl < k)%nat) →
  mapped V' (<[b := (i, sl0)]> own) i d' k' h'.
Proof.
  intros [Hl Hs Ho] Hl' Hle Hb Hnb Hz Heq Hk. split; [done | |].
  - intros sl Hsl. rewrite Heq, Hk by done. case_decide; [subst; split; [by left | done] |].
    rewrite Hs by done. tauto.
  - intros c sl. destruct (decide (c = b)) as [-> | Hne].
    + rewrite lookup_insert_eq. split.
      * intros [= <-]. by rewrite Heq, decide_True by done.
      * intros (Hsl & _ & Hc). rewrite Heq in Hc by done. case_decide; [by subst |].
        assert (own !! b = Some (i, sl)) by (by apply Ho). congruence.
    + rewrite lookup_insert_ne by done. rewrite Ho. split; intros (Hsl & Hc & Hcs); split_and!; try done.
      * rewrite Heq by done. case_decide; [subst; by rewrite Hz in Hc | done].
      * rewrite Heq in Hcs by done. by case_decide; [subst |].
Qed.
Lemma grows_add i own V V' b sl :
  own !! b = None → (∀ c, (∀ sl', <[b := (i, sl)]> own !! c ≠ Some (i, sl')) → V' c = V c) →
  grows i own V (<[b := (i, sl)]> own) V'.
Proof.
  intros Hb Hv. split; [by apply insert_subseteq | | done].
  intros c j sl' Hc Hj. destruct (decide (c = b)) as [-> | Hne]; [rewrite lookup_insert_eq in Hc; congruence |].
  by rewrite lookup_insert_ne in Hc.
Qed.
(** An address of the inode is replaced. *)
Lemma slot_insert V d k b sl : length (di_addrs d) = 13%nat → (k < 13)%nat → (sl ≤ ind_slot)%nat →
  (k = NDIRECT → ind_addr (as_inode 0 d) = 0 ∧ V b = replicate BSIZE 0) →
  slot_addr V (d <| di_addrs ::= <[k := b]> |>) sl =
    if decide (sl = if decide (k = NDIRECT) then ind_slot else k) then b else slot_addr V d sl.
Proof.
  intros Hl Hk Hsl Hind. unfold slot_addr, blk_addr, ind_addr, as_inode in *. cbn [i_addrs di_addrs set set_di_addrs] in *.
  rewrite !nth_insert by lia. destruct (decide (k = NDIRECT)) as [-> | Hkn].
  - destruct (Hind eq_refl) as [Hz Hv]. rewrite (decide_True (P := NDIRECT = NDIRECT)) by done. case_decide as H1; [done |].
    destruct (Nat.ltb_spec sl NDIRECT); [rewrite decide_False by lia; done |].
    rewrite Hz. cbn [Z.eqb]. destruct (b =? 0); [done |]. rewrite Hv.
    unfold blk_word. rewrite drop_replicate, take_replicate. generalize (4 `min` (BSIZE - 4 * (sl - NDIRECT)))%nat as n.
    intros n. unfold word_of. induction n as [| n IH]; [done |]. cbn [replicate foldr]. rewrite IH. done.
  - unfold ind_slot, NDIRECT in *. rewrite (decide_False (P := 12%nat = k)) by lia.
    case_decide as H1; [by rewrite decide_False by lia |].
    destruct (Nat.ltb_spec sl 12); [done |]. by rewrite decide_False by lia.
Qed.
(** An entry of the indirect block is written. *)
Lemma slot_entry V V' d k b sl : let ind := ind_addr (as_inode 0 d) in
  ind ≠ 0 → is_u32 b → (k < 128)%nat → (sl ≤ ind_slot)%nat → length (V ind) = BSIZE →
  V' ind = blk_put (V ind) (4 * k) (word_bytes b) →
  slot_addr V' d sl = if decide (sl = 12 + k)%nat then b else slot_addr V d sl.
Proof.
  intros ind Hnz Hb Hk Hsl Hl Hv. unfold slot_addr, blk_addr. fold ind. unfold ind_slot, NDIRECT, BSIZE in *.
  destruct (decide (sl = 140%nat)); [by rewrite decide_False by lia |].
  destruct (Nat.ltb_spec sl 12); [by rewrite decide_False by lia |].
  rewrite (proj2 (Z.eqb_neq ind 0)), Hv by done. case_decide as Hd.
  - replace (sl - 12)%nat with k by lia. by apply blk_put_word; [| lia].
  - apply blk_put_word_other; lia.
Qed.

(** The blocks that [k] blocks of content take. *)
Definition cost (k : nat) : Z := Z.of_nat k + if (12 <? k)%nat then 1 else 0.
Definition has_ind (k : nat) : bool := (12 <? k)%nat.
Lemma has_ind_true k : has_ind k = true ↔ (12 < k)%nat.
Proof. apply Nat.ltb_lt. Qed.

Section appending.
Context {HO : Host} {OK : HostOk}.

Lemma slot_range own s d i k h sl :
  image_ok own s → mapped (view s) own i d k h → (sl ≤ ind_slot)%nat → slot_addr (view s) d sl ≠ 0 →
  59 ≤ slot_addr (view s) d sl < mk_freeblock s.
Proof.
  intros I M Hsl Hnz. apply (im_own _ _ I). exists (i, sl). by apply (mp_own _ _ _ _ _ _ M).
Qed.
Lemma slot_free own s d i k h sl :
  image_ok own s → mapped (view s) own i d k h → (sl < 140)%nat → (k ≤ sl)%nat →
  slot_addr (view s) d sl = 0 ∧ own !! mk_freeblock s = None.
Proof.
  intros I M Hsl Hk. split.
  - destruct (decide (slot_addr (view s) d sl = 0)) as [| Hnz]; [done |].
    apply (mp_slot _ _ _ _ _ _ M) in Hnz; [| unfold ind_slot; lia]. rewrite decide_False in Hnz by (unfold ind_slot; lia). lia.
  - apply eq_None_not_Some. rewrite (im_own _ _ I). lia.
Qed.

Record map_post (i : Z) (d : dinode) (k fbn : nat) (own : gmap Z (Z * nat)) (s : mkfs_t)
    (d' : dinode) (own' : gmap Z (Z * nat)) (s' : mkfs_t) : Prop := {
  mo_ok : image_ok own' s';
  mo_map : mapped (view s') own' i d' (Nat.max k (S fbn)) (has_ind (Nat.max k (S fbn)));
  mo_grows : grows i own (view s) own' (view s');
  mo_addr : ∀ bn, (bn < k)%nat → slot_addr (view s') d' bn = slot_addr (view s) d bn;
  mo_data : ∀ c, own' !! c ≠ Some (i, ind_slot) → view s' c = view s c;
  mo_free : mk_freeblock s' = mk_freeblock s + cost (Nat.max k (S fbn)) - cost k;
  mo_din : d' = d <| di_addrs := di_addrs d' |>;
  mo_ino : mk_freeinode s' = mk_freeinode s }.

Lemma map_direct i d k fbn own s :
  image_ok own s → mapped (view s) own i d k (has_ind k) → (fbn ≤ k)%nat → (fbn < 12)%nat →
  mk_freeblock s + cost (Nat.max k (S fbn)) - cost k ≤ 1000 →
  ∃ s' own' d', map_block d (Z.of_nat fbn) s = Done (d', slot_addr (view s') d' fbn) s' ∧
    map_post i d k fbn own s d' own' s'.
Proof.
  intros I M Hle Hlt Hcost. pose proof (im_free _ _ I). unfold map_block. rewrite (proj2 (Z.ltb_lt _ _)) by (unfold NDIRECT; lia).
  rewrite Nat2Z.id. assert (Ha : ∀ V d, nth fbn (di_addrs d) 0 = slot_addr V d fbn).
  { intros V d1. unfold slot_addr, ind_slot, blk_addr, NDIRECT. rewrite decide_False by lia.
    by rewrite (proj2 (Nat.ltb_lt _ _)) by lia. }
  rewrite (Ha (view s)). destruct (decide (fbn = k)) as [-> | Hne].
  - destruct (slot_free _ _ _ _ _ _ k I M) as [Hz Hn]; [lia.. |]. rewrite Hz. change (xint 0 =? 0) with true. cbv iota.
    rewrite Nat.max_r in Hcost by lia. assert (Hc : cost (S k) = cost k + 1).
    { unfold cost. destruct (Nat.ltb_spec 12 (S k)), (Nat.ltb_spec 12 k); lia. }
    destruct (take_block_run own s (i, k) I ltac:(lia)) as [R I'].
    rewrite !bind_assoc, (bind_done _ _ _ _ _ R). set (s' := s <| mk_freeblock := _ |>) in *.
    rewrite bind_ret, xint_id by (unfold is_u32; lia). set (d' := d <| di_addrs ::= _ |>).
    change (view s') with (view s) in *.
    assert (Hsl : ∀ sl, (sl ≤ ind_slot)%nat → slot_addr (view s) d' sl = if decide (sl = k) then mk_freeblock s else slot_addr (view s) d sl).
    { intros sl Hsl. unfold d'. rewrite slot_insert; try done; try lia; [| apply M | unfold NDIRECT; lia].
      by rewrite (decide_False (P := k = NDIRECT)) by (unfold NDIRECT; lia). }
    exists s', (<[mk_freeblock s := (i, k)]> own), d'. split.
    { rewrite (Ha (view s)). change (view s') with (view s).
      rewrite xint_id; [done |]. rewrite Hsl, decide_True by (done || unfold ind_slot; lia). unfold is_u32. lia. }
    split; try done; rewrite ?Nat.max_r by lia.
    + change (view s') with (view s). eapply mapped_add; [done | | | | done | exact Hz | done |]; [| unfold ind_slot; lia | lia |].
      { cbn. rewrite length_insert. apply M. }
      intros sl Hs. unfold ind_slot in *. case_decide; rewrite ?has_ind_true; lia.
    + change (view s') with (view s). by apply grows_add.
    + intros bn Hbn. change (view s') with (view s). rewrite Hsl by (unfold ind_slot; lia). by rewrite decide_False by lia.
    + cbn. lia.
  - assert (Hk : (fbn < k)%nat) by lia. assert (Hnz : slot_addr (view s) d fbn ≠ 0).
    { apply (mp_slot _ _ _ _ _ _ M); [unfold ind_slot; lia |]. by rewrite decide_False by (unfold ind_slot; lia). }
    assert (Hr : 59 ≤ slot_addr (view s) d fbn < mk_freeblock s).
    { eapply slot_range; try done. unfold ind_slot. lia. }
    rewrite xint_id by (unfold is_u32; lia). rewrite (proj2 (Z.eqb_neq _ _)) by done. rewrite bind_ret, (Ha (view s)).
    rewrite xint_id by (unfold is_u32; lia).
    exists s, own, d. split; [done |]. split; rewrite ?Nat.max_l by lia; try done; [lia | by destruct d].
Qed.

(** The indirect block exists now. *)
Lemma map_ind i d k fbn own s :
  image_ok own s → mapped (view s) own i d k (has_ind k) → (12 ≤ fbn ≤ k)%nat →
  mk_freeblock s + cost (Nat.max k (S fbn)) - cost k ≤ 1000 →
  let h := (if has_ind k then 0 else 1) in
  ∃ own' d', let s' := s <| mk_freeblock := mk_freeblock s + h |> in
    (if xint (nth NDIRECT (di_addrs d) 0) =? 0 then
       b ← take_block; mret (d <| di_addrs ::= <[NDIRECT := xint b]> |>)
     else mret d) s = Done d' s' ∧
    image_ok own' s' ∧ mapped (view s) own' i d' k true ∧ grows i own (view s) own' (view s) ∧
    (∀ bn, (bn < k)%nat → slot_addr (view s) d' bn = slot_addr (view s) d bn) ∧
    d' = d <| di_addrs := di_addrs d' |>.
Proof.
  intros I M Hle Hcost. pose proof (im_free _ _ I).
  change (nth NDIRECT (di_addrs d) 0) with (slot_addr (view s) d ind_slot).
  pose proof (mp_slot _ _ _ _ _ _ M ind_slot ltac:(done)) as Hsl. rewrite decide_True in Hsl by done.
  destruct (has_ind k) eqn:Hk; cbv zeta.
  - assert (Hnz : slot_addr (view s) d ind_slot ≠ 0) by (by apply Hsl).
    pose proof (slot_range _ _ _ _ _ _ ind_slot I M ltac:(done) Hnz).
    rewrite xint_id, (proj2 (Z.eqb_neq _ _)) by (done || (unfold is_u32; lia)).
    rewrite Z.add_0_r. exists own, d.
    split; [by destruct s | split; [by destruct s, I | split; [done | split; [apply grows_refl | split; [done | by destruct d]]]]].
  - assert (k = 12%nat) as -> by (apply Nat.ltb_ge in Hk; lia).
    assert (Hz : slot_addr (view s) d ind_slot = 0).
    { destruct (decide (slot_addr (view s) d ind_slot = 0)); [done |]. by apply Hsl in n. }
    rewrite Hz. change (xint 0 =? 0) with true. cbv iota.
    assert (Hlt : mk_freeblock s < 1000).
    { assert (fbn = 12%nat) as -> by lia. change (cost (12 `max` 13)) with 14 in Hcost. change (cost 12) with 12 in Hcost. lia. }
    destruct (take_block_run own s (i, ind_slot) I Hlt) as [R I'].
    rewrite (bind_done _ _ _ _ _ R), xint_id by (unfold is_u32; lia).
    assert (Hn : own !! mk_freeblock s = None) by (apply eq_None_not_Some; rewrite (im_own _ _ I); lia).
    assert (Hs : ∀ sl, (sl ≤ ind_slot)%nat → slot_addr (view s) (d <| di_addrs ::= <[NDIRECT := mk_freeblock s]> |>) sl =
      if decide (sl = ind_slot) then mk_freeblock s else slot_addr (view s) d sl).
    { intros sl Hsl'. rewrite slot_insert; [by rewrite (decide_True (P := NDIRECT = NDIRECT)) | apply M | unfold NDIRECT; lia | done |].
      intros _. split; [done |]. by apply (im_zero _ _ I). }
    eexists _, _. split; [done |]. split; [done |]. split; [| split; [by apply grows_add | split; [| done]]].
    + eapply mapped_add; [done | | done | lia | done | done | done |].
      { cbn. rewrite length_insert. apply M. }
      intros sl Hs'. case_decide; [tauto |]. split; [by right | by intros [|]].
    + intros bn Hbn. rewrite Hs by (unfold ind_slot; lia). by rewrite decide_False by (unfold ind_slot; lia).
Qed.

Lemma map_indirect i d k fbn own s :
  image_ok own s → mapped (view s) own i d k (has_ind k) → (12 ≤ fbn ≤ k)%nat → (fbn < 140)%nat →
  mk_freeblock s + cost (Nat.max k (S fbn)) - cost k ≤ 1000 →
  ∃ s' own' d', map_block d (Z.of_nat fbn) s = Done (d', slot_addr (view s') d' fbn) s' ∧
    map_post i d k fbn own s d' own' s'.
Proof.
  intros I M Hle Hlt Hcost. pose proof (im_free _ _ I) as Hfree. unfold map_block.
  rewrite (proj2 (Z.ltb_ge _ _)) by (unfold NDIRECT; lia). rewrite Nat2Z.id.
  destruct (map_ind i d k fbn own s I M Hle Hcost) as (own1 & d1 & R1 & I1 & M1 & G1 & Ha1 & Hd1).
  set (h := if has_ind k then 0 else 1) in *. rewrite (bind_done _ _ _ _ _ R1).
  set (s1 := s <| mk_freeblock := _ |>) in *. change (view s) with (view s1) in M1, G1, Ha1.
  change (nth NDIRECT (di_addrs d1) 0) with (slot_addr (view s1) d1 ind_slot).
  assert (Hind : slot_addr (view s1) d1 ind_slot ≠ 0) by (by apply (mp_slot _ _ _ _ _ _ M1)).
  pose proof (slot_range _ _ _ _ _ _ ind_slot I1 M1 ltac:(done) Hind) as Hr. pose proof (im_free _ _ I1) as Hfree1.
  rewrite !xint_id by (unfold is_u32; lia). set (ind := slot_addr (view s1) d1 ind_slot) in *.
  rewrite (bind_done _ _ _ _ _ (rsect_run ind s1 (im_len _ _ I1) ltac:(lia))).
  assert (Hslot : ∀ V, V ind = view s1 ind → blk_word (V ind) (4 * (fbn - NDIRECT)) = slot_addr V d1 fbn).
  { intros V _. unfold slot_addr, blk_addr, ind_slot, NDIRECT. rewrite decide_False by lia.
    rewrite (proj2 (Nat.ltb_ge _ _)) by lia. by rewrite (proj2 (Z.eqb_neq (ind_addr (as_inode 0 d1)) 0)). }
  rewrite (Hslot (view s1)) by done.
  destruct (decide (fbn = k)) as [-> | Hne].
  - destruct (slot_free _ _ _ _ _ _ k I1 M1 ltac:(lia) ltac:(done)) as [Hz Hn].
    rewrite Hz. cbn [Z.eqb]. rewrite Nat.max_r in Hcost by lia.
    assert (Hc : cost (S k) = cost k + h + 1).
    { unfold cost, h, has_ind. destruct (Nat.ltb_spec 12 (S k)), (Nat.ltb_spec 12 k); lia. }
    assert (Hf1 : mk_freeblock s1 = mk_freeblock s + h) by done.
    destruct (take_block_run own1 s1 (i, k) I1 ltac:(lia)) as [R2 I2].
    rewrite !bind_assoc, (bind_done _ _ _ _ _ R2). set (s2 := s1 <| mk_freeblock := _ |>) in *. cbv zeta.
    rewrite xint_id by (unfold is_u32; lia). set (b := mk_freeblock s1) in *.
    set (d2 := blk_put (view s1 ind) (4 * (k - NDIRECT)) (word_bytes b)).
    rewrite bind_assoc, (bind_done _ _ _ _ _ (wsect_run ind d2 s2 (im_len _ _ I2) ltac:(lia))), bind_ret.
    set (s3 := s2 <| mk_img ::= _ |>).
    assert (Hview : ∀ c, view s3 c = if decide (c = ind) then d2 else view s1 c).
    { intros c. unfold s3. rewrite view_put; [done |]. rewrite (im_len _ _ I2). lia. }
    destruct (image_view _ _ ind I1) as [Hlen Hby].
    assert (Hd2 : block_ok d2).
    { apply block_ok_put; [by split | apply word_bytes_ok |].
      rewrite (proj1 (word_bytes_ok b)). unfold NDIRECT, BSIZE. lia. }
    assert (I3 : image_ok (<[b := (i, k)]> own1) s3).
    { apply image_put; [done | | done]. unfold s2. cbn. fold b. lia. }
    assert (Hs : ∀ sl, (sl ≤ ind_slot)%nat → slot_addr (view s3) d1 sl = if decide (sl = k) then b else slot_addr (view s1) d1 sl).
    { intros sl Hsl. pose proof (slot_entry (view s1) (view s3) d1 (k - 12) b sl) as E.
      replace (12 + (k - 12))%nat with k in E by lia. apply E; [done | unfold is_u32; lia | lia | done | done |].
      change (ind_addr (as_inode 0 d1)) with ind. by rewrite Hview, decide_True by done. }
    exists s3, (<[b := (i, k)]> own1), d1. split.
    { rewrite Hs, decide_True by (done || unfold ind_slot; lia). f_equal. f_equal.
      unfold d2. rewrite blk_put_word; [apply xint_id; unfold is_u32; lia | unfold is_u32; lia |]. rewrite Hlen. unfold NDIRECT, BSIZE. lia. }
    split; rewrite ?Nat.max_r by lia.
    + done.
    + eapply mapped_add; [exact M1 | apply M1 | unfold ind_slot; lia | lia | done | exact Hz | done |].
      intros sl Hsl. unfold ind_slot in *. case_decide; rewrite ?has_ind_true; [split; [by right | intros; lia] | lia].
    + eapply grows_trans; [exact G1 |]. apply grows_add; [done |]. intros c Hnc. rewrite Hview.
      rewrite decide_False; [done |]. intros ->. apply (Hnc ind_slot). rewrite lookup_insert_ne by lia.
      by apply (mp_own _ _ _ _ _ _ M1).
    + intros bn Hbn. rewrite Hs by (unfold ind_slot; lia). rewrite decide_False by lia. by apply Ha1.
    + intros c Hnc. rewrite Hview, decide_False; [done |]. intros ->. apply Hnc. rewrite lookup_insert_ne by lia.
      by apply (mp_own _ _ _ _ _ _ M1).
    + unfold s3, s2. cbn. lia.
    + done.
    + done.
  - assert (Hk : (fbn < k)%nat) by lia. assert (Hh : has_ind k = true) by (apply has_ind_true; lia).
    assert (Hnz : slot_addr (view s1) d1 fbn ≠ 0).
    { apply (mp_slot _ _ _ _ _ _ M1); [unfold ind_slot; lia |]. by rewrite decide_False by (unfold ind_slot; lia). }
    pose proof (slot_range _ _ _ _ _ _ fbn I1 M1 ltac:(unfold ind_slot; lia) Hnz).
    rewrite (proj2 (Z.eqb_neq _ _)), bind_ret, (Hslot (view s1)), xint_id by (done || (unfold is_u32; lia)).
    exists s1, own1, d1. split; [done |]. split; rewrite ?Nat.max_l by lia; try done; [by rewrite Hh |].
    unfold s1, h. rewrite Hh. cbn. lia.
Qed.

Lemma map_block_run i d k fbn own s :
  image_ok own s → mapped (view s) own i d k (has_ind k) → (fbn ≤ k)%nat → (fbn < 140)%nat →
  mk_freeblock s + cost (Nat.max k (S fbn)) - cost k ≤ 1000 →
  ∃ s' own' d', map_block d (Z.of_nat fbn) s = Done (d', slot_addr (view s') d' fbn) s' ∧
    map_post i d k fbn own s d' own' s'.
Proof.
  intros. destruct (decide (fbn < 12)%nat); [by apply map_direct | apply map_indirect; [done.. | lia | done | done]].
Qed.

(** ** The bytes of a file *)

Definition blks (n : nat) : nat := ((n + 511) / 512)%nat.
Lemma blks_spec n : (n ≤ blks n * 512 ∧ blks n * 512 < n + 512)%nat.
Proof.
  unfold blks. pose proof (Nat.div_mod_eq (n + 511) 512). pose proof (Nat.mod_upper_bound (n + 511) 512 ltac:(done)). lia.
Qed.
Lemma blks_unique n k : (n ≤ k * 512 ∧ k * 512 < n + 512)%nat → blks n = k.
Proof. intros H. pose proof (blks_spec n). lia. Qed.
Lemma blks_mono n m : (n ≤ m)%nat → (blks n ≤ blks m)%nat.
Proof. intros H. apply Nat.Div0.div_le_mono. lia. Qed.
Lemma cost_mono k k' : (k ≤ k')%nat → cost k ≤ cost k'.
Proof. intros H. unfold cost. destruct (Nat.ltb_spec 12 k), (Nat.ltb_spec 12 k'); lia. Qed.

Lemma write_slot own s i d k h fbn b :
  image_ok own s → mapped (view s) own i d k h → (fbn < k)%nat → (fbn < 140)%nat → block_ok b →
  let x := slot_addr (view s) d fbn in let s' := s <| mk_img ::= <[Z.to_nat x := b]> |> in
  (0 ≤ x < 1000 ∧ image_ok own s') ∧ mapped (view s') own i d k h ∧ grows i own (view s) own (view s') ∧
  (∀ c, view s' c = if decide (c = x) then b else view s c) ∧
  ∀ bn, (bn < k)%nat → (bn < 140)%nat → slot_addr (view s') d bn = slot_addr (view s) d bn ∧
    (slot_addr (view s) d bn = x → bn = fbn).
Proof.
  intros I M Hk Hb Hok x s'. pose proof (im_free _ _ I).
  assert (Hnz : ∀ bn, (bn < k)%nat → (bn < 140)%nat → slot_addr (view s) d bn ≠ 0).
  { intros bn Hbn Hlt. apply (mp_slot _ _ _ _ _ _ M); [unfold ind_slot; lia |]. by rewrite decide_False by (unfold ind_slot; lia). }
  assert (Hown : ∀ bn, (bn < k)%nat → (bn < 140)%nat → own !! slot_addr (view s) d bn = Some (i, bn)).
  { intros bn Hbn Hlt. apply (mp_own _ _ _ _ _ _ M). split; [unfold ind_slot; lia |]. split; [by apply Hnz | done]. }
  pose proof (Hown fbn Hk Hb) as Hx. fold x in Hx.
  pose proof (slot_range _ _ _ _ _ _ fbn I M ltac:(unfold ind_slot; lia) (Hnz _ Hk Hb)) as Hr. fold x in Hr.
  assert (Hv : ∀ c, view s' c = if decide (c = x) then b else view s c).
  { intros c. unfold s'. rewrite view_put; [done |]. rewrite (im_len _ _ I). lia. }
  assert (Hs : ∀ sl, slot_addr (view s') d sl = slot_addr (view s) d sl).
  { intros sl. apply slot_addr_view. intros Hi. rewrite Hv, decide_False; [done |]. intros He.
    assert (own !! x = Some (i, ind_slot)) as Hx'; [| rewrite Hx in Hx'; injection Hx' as Hx'; unfold ind_slot in Hx'; lia].
    apply (mp_own _ _ _ _ _ _ M). split; [done |]. split; [lia |]. by rewrite ind_addr_slot. }
  split; [split; [lia | apply image_put; [done | lia | done]] |]. split; [| split; [| split; [done |]]].
  - destruct M as [Hl Hsl Ho]. split; [done | |].
    + intros sl Hle. rewrite Hs. by apply Hsl.
    + intros c sl. rewrite Hs. apply Ho.
  - split; [done | done |]. intros c Hc. rewrite Hv, decide_False; [done |]. intros ->. by apply (Hc fbn).
  - intros bn Hbn Hlt. split; [apply Hs |]. intros He. pose proof (Hown bn Hbn Hlt) as Hc. rewrite He in Hc. congruence.
Qed.

Lemma blk_offset n : ((n / 512) * 512 ≤ n ∧ n < (n / 512) * 512 + 512 ∧ n mod 512 = n - (n / 512) * 512)%nat.
Proof. pose proof (Nat.div_mod_eq n 512). pose proof (Nat.mod_upper_bound n 512 ltac:(done)). lia. Qed.

(** The first [k] blocks hold [data] and zeroes. *)
Definition holds (V : Z → list Z) (d : dinode) (k : nat) (data : list Z) : Prop :=
  ∀ o, (o < k * 512)%nat → file_byte V (as_inode 0 d) o = nth o data 0.

Lemma nth_zeroes n j : nth j (replicate n 0) 0 = 0.
Proof. rewrite nth_lookup. destruct (_ !! j) eqn:H; [by apply lookup_replicate in H as [-> _] | done]. Qed.
Lemma nth_blk_put B o q j : (o + length q ≤ length B)%nat →
  nth j (blk_put B o q) 0 = if decide (o ≤ j < o + length q)%nat then nth (j - o) q 0 else nth j B 0.
Proof.
  intros Hle. rewrite !nth_lookup. case_decide as Hd.
  - f_equal. unfold blk_put. rewrite lookup_app_r by (rewrite length_take; lia). rewrite length_take.
    rewrite lookup_app_l by lia. f_equal. lia.
  - f_equal. apply blk_put_other; [done | lia].
Qed.

(** An iteration: the block at the end of the file gets the bytes [q]. *)
Lemma append_bytes own s i d k data q :
  let n := length data in let fbn := (n / 512)%nat in
  image_ok own s → mapped (view s) own i d k (has_ind k) → (fbn < k ≤ 140)%nat →
  holds (view s) d k data → (n mod 512 + length q ≤ 512)%nat → Forall is_byte q →
  let x := slot_addr (view s) d fbn in
  let s' := s <| mk_img ::= <[Z.to_nat x := blk_put (view s x) (n mod 512) q]> |> in
  (0 ≤ x < 1000 ∧ image_ok own s') ∧ mapped (view s') own i d k (has_ind k) ∧ grows i own (view s) own (view s') ∧
  holds (view s') d k (data ++ q).
Proof.
  intros n fbn I M Hk Hdata Hq Hby x s'.
  destruct (image_view _ _ x I) as [Hlen Hbx].
  assert (Hok : block_ok (blk_put (view s x) (n mod 512) q)) by (apply block_ok_put; [by split | done | unfold BSIZE; lia]).
  destruct (write_slot own s i d k _ fbn _ I M ltac:(lia) ltac:(lia) Hok) as (Hx & M' & G & Hv & Hs). fold x s' in Hx, M', G, Hv.
  split; [done |]. split; [done |]. split; [done |].
  pose proof (blk_offset n) as Hn. fold fbn in Hn. intros o Ho. pose proof (blk_offset o) as Hoo.
  specialize (Hdata o Ho). unfold file_byte, BSIZE in *. destruct (Hs (o / 512)%nat) as [Ha Hinj]; [lia | lia |].
  fold x s' in Ha, Hinj. rewrite <- blk_slot in Hdata |- * by lia. rewrite Ha, Hv. case_decide as Hd.
  - apply Hinj in Hd as Hof. rewrite nth_blk_put by (rewrite Hlen; unfold BSIZE; lia). rewrite Hd in Hdata. rewrite Hdata.
    rewrite Hof in Hoo. case_decide as Hc; [rewrite app_nth2 by (fold n; lia); f_equal; fold n; lia |].
    destruct (decide (o < n)%nat); [by rewrite app_nth1 |].
    rewrite app_nth2 by (fold n; lia). by rewrite !nth_overflow by (fold n; lia).
  - rewrite Hdata. destruct (decide (o < n)%nat); [by rewrite app_nth1 |].
    assert (o / 512 ≠ fbn)%nat by (intros He; apply Hd; by rewrite He).
    assert (fbn ≤ o / 512)%nat by (apply Nat.Div0.div_le_mono; lia).
    rewrite app_nth2 by (fold n; lia). by rewrite !nth_overflow by (fold n; lia).
Qed.

Record append_post (i : Z) (d : dinode) (data p : list Z) (own : gmap Z (Z * nat)) (s : mkfs_t)
    (d' : dinode) (own' : gmap Z (Z * nat)) (s' : mkfs_t) : Prop := {
  ap_ok : image_ok own' s';
  ap_map : mapped (view s') own' i d' (blks (length (data ++ p))) (has_ind (blks (length (data ++ p))));
  ap_grows : grows i own (view s) own' (view s');
  ap_data : holds (view s') d' (blks (length (data ++ p))) (data ++ p);
  ap_free : mk_freeblock s' = mk_freeblock s + cost (blks (length (data ++ p))) - cost (blks (length data));
  ap_din : d' = d <| di_addrs := di_addrs d' |>;
  ap_ino : mk_freeinode s' = mk_freeinode s }.

Lemma iappend_loop_run i fuel : ∀ d data p own s,
  image_ok own s → mapped (view s) own i d (blks (length data)) (has_ind (blks (length data))) →
  holds (view s) d (blks (length data)) data → Forall is_byte p → (length p < fuel)%nat →
  Z.of_nat (length (data ++ p)) ≤ MAXFILE * ZBSIZE →
  mk_freeblock s + cost (blks (length (data ++ p))) - cost (blks (length data)) ≤ 1000 →
  ∃ s' own' d', iappend_loop fuel d (Z.of_nat (length data)) p s = Done (d', Z.of_nat (length (data ++ p))) s' ∧
    append_post i d data p own s d' own' s'.
Proof.
  induction fuel as [| fuel IH]; intros d data p own s I M Hdata Hby Hfuel Hmax Hcost; [lia |].
  cbn [iappend_loop]. case_bool_decide as Hp.
  { subst p. rewrite app_nil_r. exists s, own, d. split; [done |].
    split; rewrite ?app_nil_r; try done; [lia | by destruct d]. }
  assert (Hlp : (0 < length p)%nat) by (destruct p; [done | cbn; lia]).
  set (n := length data) in *. pose proof (blk_offset n) as Hn. set (fbn := (n / 512)%nat) in *.
  assert (Hdiv : Z.of_nat n / ZBSIZE = Z.of_nat fbn) by (unfold ZBSIZE, fbn; by rewrite Nat2Z.inj_div).
  rewrite Hdiv. rewrite length_app in Hmax, Hcost. fold n in Hmax, Hcost.
  assert (Hfbn : (fbn < 140)%nat) by (unfold MAXFILE, ZBSIZE in Hmax; lia).
  rewrite (proj2 (Z.ltb_lt (Z.of_nat fbn) MAXFILE)) by (unfold MAXFILE; lia). cbn [negb].
  pose proof (blks_spec n) as Hbn.
  set (n1 := (length p `min` Z.to_nat ((Z.of_nat fbn + 1) * ZBSIZE - Z.of_nat n))%nat).
  assert (Hn1 : (n1 = length p `min` (fbn * 512 + 512 - n))%nat) by (unfold n1, ZBSIZE; lia).
  assert (Hk1 : Nat.max (blks n) (S fbn) = blks (n + n1)) by (symmetry; apply blks_unique; lia).
  pose proof (cost_mono (blks (n + n1)) (blks (n + length p)) ltac:(apply blks_mono; lia)) as Hcm.
  destruct (map_block_run i d (blks n) fbn own s I M ltac:(lia) Hfbn ltac:(rewrite Hk1; lia)) as (s1 & own1 & d1 & R1 & P1).
  destruct P1 as [I1 M1 G1 Ha1 Hv1 Hf1 Hd1 Hi1]. rewrite Hk1 in M1, Hf1.
  rewrite (bind_done _ _ _ _ _ R1). fold n1. cbv zeta.
  assert (Hb140 : (n + n1 ≤ blks (n + n1) * 512 ∧ blks (n + n1) ≤ 140)%nat) by (pose proof (blks_spec (n + n1)); unfold MAXFILE, ZBSIZE in *; lia).
  assert (Hdata1 : holds (view s1) d1 (blks (n + n1)) data).
  { intros o Ho. unfold file_byte, BSIZE. pose proof (blk_offset o) as Hoo. rewrite <- blk_slot by lia.
    assert (own1 !! slot_addr (view s1) d1 (o / 512) = Some (i, (o / 512)%nat)) as Hown.
    { apply (mp_own _ _ _ _ _ _ M1). split; [unfold ind_slot; lia |]. split; [| done].
      apply (mp_slot _ _ _ _ _ _ M1); [unfold ind_slot; lia |]. rewrite decide_False by (unfold ind_slot; lia). lia. }
    rewrite Hv1 by (rewrite Hown; intros Hc; assert ((o / 512)%nat = ind_slot) by congruence; unfold ind_slot in *; lia).
    destruct (decide (o < blks n * 512)%nat) as [Hlo |].
    - rewrite <- Hdata by done. unfold file_byte, BSIZE. by rewrite Ha1, blk_slot by lia.
    - rewrite (im_zero _ _ I); [rewrite (nth_overflow data) by (fold n; lia); apply nth_zeroes |].
      destruct (decide (mk_freeblock s ≤ slot_addr (view s1) d1 (o / 512))); [done |].
      assert (is_Some (own !! slot_addr (view s1) d1 (o / 512))) as [[j sl] Hj].
      { apply (im_own _ _ I). pose proof (proj1 (im_own _ _ I1 _) ltac:(by eexists; exact Hown)). lia. }
      pose proof (lookup_weaken _ _ _ _ Hj (gr_own _ _ _ _ _ G1)) as Hj'. assert (j = i ∧ sl = (o / 512)%nat) as [-> ->] by (split; congruence).
      apply (mp_own _ _ _ _ _ _ M) in Hj as (_ & Hnz & Hj). rewrite <- Hj in Hnz.
      apply (mp_slot _ _ _ _ _ _ M) in Hnz; [| unfold ind_slot; lia]. rewrite decide_False in Hnz by (unfold ind_slot; lia). lia. }
  assert (Hlt : length (take n1 p) = n1) by (rewrite length_take; lia).
  destruct (append_bytes own1 s1 i d1 (blks (n + n1)) data (take n1 p) I1 M1) as ([Hx I2] & M2 & G2 & Hdata2);
    fold n fbn; try lia; [done | by apply Forall_take |]. fold n fbn in Hx, I2, M2, G2, Hdata2.
  set (x := slot_addr (view s1) d1 fbn) in *.
  rewrite (bind_done _ _ _ _ _ (rsect_run x s1 (im_len _ _ I1) Hx)).
  replace (Z.to_nat (Z.of_nat n - Z.of_nat fbn * ZBSIZE)) with (n mod 512)%nat by (unfold ZBSIZE; lia).
  rewrite (bind_done _ _ _ _ _ (wsect_run x _ s1 (im_len _ _ I1) Hx)).
  set (s2 := s1 <| mk_img ::= _ |>) in *.
  rewrite u32_id by (unfold is_u32, MAXFILE, ZBSIZE in *; lia).
  assert (Hln : length (data ++ take n1 p) = (n + n1)%nat) by (rewrite length_app; lia).
  assert (Hls : length ((data ++ take n1 p) ++ drop n1 p) = (n + length p)%nat) by (rewrite !length_app, length_drop; lia).
  rewrite <- Hln in M2, Hdata2. replace (Z.of_nat n + Z.of_nat n1) with (Z.of_nat (length (data ++ take n1 p))) by lia.
  destruct (IH d1 (data ++ take n1 p) (drop n1 p) own1 s2) as (s3 & own3 & d3 & R3 & [I3 M3 G3 Hdata3 Hf3 Hd3 Hi3]); try done.
  - by apply Forall_drop.
  - rewrite length_drop. lia.
  - rewrite Hls. lia.
  - rewrite Hls, Hln. change (mk_freeblock s2) with (mk_freeblock s1). lia.
  - exists s3, own3, d3. rewrite <- app_assoc, take_drop in R3, M3, Hdata3, Hf3. split; [done |]. split; try done.
    + eapply grows_trans; [exact G1 | by eapply grows_trans].
    + rewrite Hf3, Hln. change (mk_freeblock s2) with (mk_freeblock s1). fold n. lia.
    + rewrite Hd3, Hd1. by destruct d.
    + by rewrite Hi3.
Qed.

(** ** Inodes on the image *)

Lemma din_roundtrip i d buf : inode_ok (as_inode i d) → length buf = BSIZE →
  din_at (blk_put buf (dip_off i) (din_bytes d)) (dip_off i) = d.
Proof.
  intros Hok Hl. destruct (dinode_roundtrip (as_inode i d) inode0 buf i Hok Hl) as (_ & H1 & H2 & H3 & H4 & H5 & H6 & _).
  change (encode_dinode (as_inode i d)) with (din_bytes d) in *. unfold din_at. cbn in *.
  rewrite H1, H2, H3, H4, H5. destruct d; cbn in *. f_equal. exact H6.
Qed.
Lemma din_bytes_length i d : inode_ok (as_inode i d) → length (din_bytes d) = 64%nat.
Proof. intros Hok. by apply (encode_dinode_length (as_inode i d)). Qed.
Lemma din_bytes_ok d : Forall is_byte (din_bytes d).
Proof.
  unfold din_bytes. rewrite !Forall_app. split_and!; try (by apply half_bytes_ok); [by apply word_bytes_ok |].
  induction (di_addrs d) as [| a l IH]; [constructor |]. change (Forall is_byte (word_bytes a ++ concat (word_bytes <$> l))). apply Forall_app. split; [by apply word_bytes_ok | done].
Qed.
Lemma window_ext (d d' : list Z) o n : (∀ k, (k < n)%nat → d !! (o + k)%nat = d' !! (o + k)%nat) →
  take n (drop o d) = take n (drop o d').
Proof.
  intros H. apply list_eq. intros k. destruct (decide (k < n)%nat).
  - by rewrite !lookup_take_lt, !lookup_drop, H by done.
  - by rewrite !lookup_take_ge by lia.
Qed.
Lemma din_at_ext d d' o : (∀ k, (k < 64)%nat → d !! (o + k)%nat = d' !! (o + k)%nat) → din_at d o = din_at d' o.
Proof.
  intros H. assert (Hw : ∀ j n, (j + n ≤ 64)%nat → take n (drop (o + j) d) = take n (drop (o + j) d')).
  { intros j n Hj. apply window_ext. intros k Hk. rewrite <- Nat.add_assoc. apply H. lia. }
  pose proof (Hw 0%nat 2%nat ltac:(lia)) as H0. rewrite Nat.add_0_r in H0.
  unfold din_at, blk_short, blk_word. rewrite H0, !Hw by lia. f_equal. apply list_fmap_ext. intros j k Hk.
  apply lookup_seq in Hk as [-> Hk]. unfold NDIRECT in Hk. by rewrite <- Nat.add_assoc, Hw by lia.
Qed.

(** The block of an inode, and the place of an inode on the disk. *)
Lemma IBLOCK_id i : 0 ≤ i < 200 → IBLOCK i mkfs_sb = 32 + i / 8 ∧ 32 ≤ IBLOCK i mkfs_sb < 58.
Proof. intros Hi. unfold IBLOCK, IPB. cbn [sb_inodestart mkfs_sb]. rewrite u32_id by zlia. zlia. Qed.
Lemma dip_distinct i j : i ≠ j → IBLOCK i mkfs_sb = IBLOCK j mkfs_sb → 0 ≤ i < 200 → 0 ≤ j < 200 →
  dip_off i ≠ dip_off j.
Proof.
  intros Hne He Hi Hj. rewrite (proj1 (IBLOCK_id i Hi)), (proj1 (IBLOCK_id j Hj)) in He.
  unfold dip_off, IPB, sizeof_dinode. zlia.
Qed.
Lemma dip_off_le i : (dip_off i + 64 ≤ 512)%nat.
Proof. unfold dip_off, IPB, sizeof_dinode. pose proof (Z.mod_pos_bound i 8 ltac:(lia)). lia. Qed.

(** Inode [i] is a file with the content [data]. *)
Record has_file (V : Z → list Z) (own : gmap Z (Z * nat)) (i : Z) (d : dinode) (data : list Z) : Prop := {
  hf_ok : inode_ok (as_inode i d);
  hf_map : mapped V own i d (blks (length data)) (has_ind (blks (length data)));
  hf_size : di_size d = Z.of_nat (length data);
  hf_max : Z.of_nat (length data) ≤ MAXFILE * ZBSIZE;
  hf_data : holds V d (blks (length data)) data }.

(** The files on the image: [T] are the inodes, [F] the contents. *)
Record files_ok (own : gmap Z (Z * nat)) (T : Z → dinode) (F : Z → list Z) (s : mkfs_t) : Prop := {
  fi_image : image_ok own s;
  fi_ino : 1 ≤ mk_freeinode s ≤ 200;
  fi_table : ∀ i, 0 ≤ i < 200 → din_at (view s (IBLOCK i mkfs_sb)) (dip_off i) = T i;
  fi_unused : ∀ i, i < 1 ∨ mk_freeinode s ≤ i → T i = din0;
  fi_file : ∀ i, 1 ≤ i < mk_freeinode s → has_file (view s) own i (T i) (F i);
  fi_own : ∀ c i sl, own !! c = Some (i, sl) → 1 ≤ i < mk_freeinode s;
  fi_super : view s 1 = blk_put (replicate BSIZE 0) 0 (sb_bytes mkfs_sb);
  fi_zero : ∀ c, 2 ≤ c < 32 ∨ c = 58 → view s c = replicate BSIZE 0 }.

Lemma has_file_ext V V' own own' i d data :
  (∀ c sl, own' !! c = Some (i, sl) ↔ own !! c = Some (i, sl)) →
  (∀ c sl, own !! c = Some (i, sl) → V' c = V c) → has_file V own i d data → has_file V' own' i d data.
Proof.
  intros Ho Hv [Hok M Hsz Hmax Hd].
  assert (Hc : ∀ sl, (sl ≤ ind_slot)%nat → slot_addr V d sl ≠ 0 → V' (slot_addr V d sl) = V (slot_addr V d sl)).
  { intros sl Hsl Hnz. apply (Hv _ sl). by apply (mp_own _ _ _ _ _ _ M). }
  assert (Hs : ∀ sl, slot_addr V' d sl = slot_addr V d sl).
  { intros sl. apply slot_addr_view. intros Hnz. by apply (Hc ind_slot). }
  split; try done.
  - split; [apply M | |].
    + intros sl Hsl. rewrite Hs. by apply (mp_slot _ _ _ _ _ _ M).
    + intros c sl. rewrite Hs, Ho. apply (mp_own _ _ _ _ _ _ M).
  - intros o Hlt. rewrite <- Hd by done. unfold file_byte, BSIZE. pose proof (blk_offset o).
    pose proof (blks_spec (length data)). unfold MAXFILE, ZBSIZE in Hmax.
    rewrite <- !blk_slot, Hs by lia. rewrite Hc; [done | unfold ind_slot; lia |].
    apply (mp_slot _ _ _ _ _ _ M); [unfold ind_slot; lia |]. rewrite decide_False by (unfold ind_slot; lia). lia.
Qed.

Lemma rinode_run own T F s i : files_ok own T F s → 1 ≤ i < 200 → rinode i s = Done (T i) s.
Proof.
  intros [I _ Ht _ _ _ _ _] Hi. unfold rinode. rewrite bind_gets, (im_sb _ _ I).
  destruct (IBLOCK_id i) as [_ Hb]; [lia |].
  rewrite (bind_done _ _ _ _ _ (rsect_run (IBLOCK i mkfs_sb) s (im_len _ _ I) ltac:(lia))). by rewrite Ht by lia.
Qed.
Lemma winode_run own s i d : image_ok own s → 1 ≤ i < 200 → inode_ok (as_inode i d) →
  ∃ s', winode i d s = Done tt s' ∧ image_ok own s' ∧ mk_freeblock s' = mk_freeblock s ∧ mk_freeinode s' = mk_freeinode s ∧
    din_at (view s' (IBLOCK i mkfs_sb)) (dip_off i) = d ∧
    (∀ j, 0 ≤ j < 200 → j ≠ i → din_at (view s' (IBLOCK j mkfs_sb)) (dip_off j) = din_at (view s (IBLOCK j mkfs_sb)) (dip_off j)) ∧
    ∀ c, ¬ 32 ≤ c < 58 → view s' c = view s c.
Proof.
  intros I Hi Hok. unfold winode. rewrite bind_gets, (im_sb _ _ I).
  destruct (IBLOCK_id i) as [_ Hb]; [lia |]. set (bn := IBLOCK i mkfs_sb) in *.
  rewrite (bind_done _ _ _ _ _ (rsect_run bn s (im_len _ _ I) ltac:(lia))), wsect_run by (apply I || lia).
  set (s' := s <| mk_img ::= _ |>). destruct (image_view _ _ bn I) as [Hlen Hby].
  pose proof (im_free _ _ I). pose proof (dip_off_le i). pose proof (din_bytes_length i d Hok) as Hdl.
  assert (Hv : ∀ c, view s' c = if decide (c = bn) then blk_put (view s bn) (dip_off i) (din_bytes d) else view s c).
  { intros c. unfold s'. rewrite view_put; [done |]. rewrite (im_len _ _ I). lia. }
  exists s'. split; [done |]. split.
  { apply image_put; [done | lia |]. apply block_ok_put; [by split | apply din_bytes_ok | rewrite Hdl; unfold BSIZE; lia]. }
  split; [done |]. split; [done |]. split; [rewrite Hv, decide_True by done; by apply (din_roundtrip i) |]. split.
  - intros j Hj Hne. rewrite Hv. case_decide as Hd; [| done]. rewrite Hd.
    pose proof (dip_distinct i j ltac:(done) ltac:(by rewrite Hd) ltac:(lia) Hj) as Hdd. apply din_at_ext. intros k Hk.
    pose proof (dip_off_le j). apply blk_put_other; rewrite Hdl, ?Hlen; [unfold BSIZE; lia |].
    unfold dip_off, IPB, sizeof_dinode in *. lia.
  - intros c Hc. rewrite Hv, decide_False; [done |]. lia.
Qed.

Lemma kind_ok i d a n : inode_ok (as_inode i d) → length a = 13%nat → Forall is_u32 a → is_u32 n →
  inode_ok (as_inode i (d <| di_addrs := a |> <| di_size := n |>)).
Proof. intros [] ? ? ?. by split. Qed.
(** The addresses of a file of the image are numbers of blocks. *)
Lemma addrs_u32 own s i d k h : image_ok own s → mapped (view s) own i d k h → Forall is_u32 (di_addrs d).
Proof.
  intros I M. pose proof (im_free _ _ I). apply Forall_lookup. intros j a Ha. pose proof (lookup_lt_Some _ _ _ Ha) as Hj.
  rewrite (mp_len _ _ _ _ _ _ M) in Hj. destruct (decide (a = 0)) as [-> | Hnz]; [unfold is_u32; lia |].
  assert (∃ sl, (sl ≤ ind_slot)%nat ∧ slot_addr (view s) d sl = a) as (sl & Hsl & <-).
  { assert (Hn : nth j (di_addrs d) 0 = a) by (by rewrite nth_lookup, Ha). destruct (decide (j = 12%nat)) as [-> |].
    - exists ind_slot. by split.
    - exists j. split; [unfold ind_slot; lia |]. rewrite blk_slot by lia. unfold blk_addr, NDIRECT.
      by rewrite (proj2 (Nat.ltb_lt _ _)) by lia. }
  pose proof (slot_range _ _ _ _ _ _ sl I M Hsl Hnz). unfold is_u32. lia.
Qed.

Definition kind (d : dinode) : Z * Z * Z * Z := (di_type d, di_major d, di_minor d, di_nlink d).

Lemma iappend_run own T F s i p :
  files_ok own T F s → 1 ≤ i < mk_freeinode s → Forall is_byte p →
  Z.of_nat (length (F i ++ p)) ≤ MAXFILE * ZBSIZE →
  mk_freeblock s + cost (blks (length (F i ++ p))) - cost (blks (length (F i))) ≤ 1000 →
  ∃ s' own' d', iappend i p s = Done tt s' ∧ files_ok own' (<[i := d']> T) (<[i := F i ++ p]> F) s' ∧
    mk_freeblock s' = mk_freeblock s + cost (blks (length (F i ++ p))) - cost (blks (length (F i))) ∧
    mk_freeinode s' = mk_freeinode s ∧ kind d' = kind (T i).
Proof.
  intros FO Hi Hby Hmax Hcost. pose proof FO as [I Hfi Ht Hun Hf Ho Hsup Hz].
  unfold iappend. rewrite (bind_done _ _ _ _ _ (rinode_run own T F s i FO ltac:(lia))).
  pose proof (Hf i Hi) as [Hok M Hsz _ Hd].
  rewrite Hsz, xint_id by (unfold is_u32, MAXFILE, ZBSIZE in *; rewrite length_app in Hmax; lia).
  destruct (iappend_loop_run i (S (length p)) (T i) (F i) p own s I M Hd Hby ltac:(lia) Hmax Hcost)
    as (s1 & own1 & d1 & R1 & [I1 M1 G1 Hd1 Hf1 He1 Hi1]).
  rewrite (bind_done _ _ _ _ _ R1). cbv beta iota. rewrite xint_id by (unfold is_u32, MAXFILE, ZBSIZE in *; lia).
  set (n := Z.of_nat (length (F i ++ p))) in *. set (d2 := d1 <| di_size := n |>).
  assert (Hok2 : inode_ok (as_inode i d2)).
  { unfold d2. rewrite He1. apply kind_ok; [done | apply M1 | by eapply addrs_u32 | unfold is_u32, MAXFILE, ZBSIZE in *; lia]. }
  destruct (winode_run own1 s1 i d2 I1 ltac:(lia) Hok2) as (s2 & R2 & I2 & Hb2 & Hi2 & Hdi & Hdo & Hv2).
  pose proof (im_free _ _ I) as Hfree. pose proof (im_free _ _ I1) as Hfree1.
  assert (Hlow : ∀ c, c < 59 → view s1 c = view s c).
  { intros c Hc. apply (gr_view _ _ _ _ _ G1). intros sl Hsl.
    pose proof (proj1 (im_own _ _ I1 c) ltac:(by eexists)). lia. }
  assert (Hhigh : ∀ c j sl, own1 !! c = Some (j, sl) → view s2 c = view s1 c).
  { intros c j sl Hc. apply Hv2. pose proof (proj1 (im_own _ _ I1 c) ltac:(by eexists)). lia. }
  exists s2, own1, d2. split; [done |]. split; [| split; [lia | split; [lia | unfold d2; by rewrite He1]]].
  split; [done | lia | | | | | |].
  - intros j Hj. destruct (decide (j = i)) as [-> | Hne]; [by rewrite fn_lookup_insert |].
    rewrite fn_lookup_insert_ne by done. rewrite Hdo by done. rewrite <- Ht by done.
    destruct (IBLOCK_id j) as [_ Hbj]; [lia |]. by rewrite Hlow by lia.
  - intros j Hj. rewrite fn_lookup_insert_ne by lia. apply Hun. lia.
  - intros j Hj. destruct (decide (j = i)) as [-> | Hne].
    + rewrite !fn_lookup_insert. apply (has_file_ext (view s1) _ own1); [done | by intros c sl; apply Hhigh |].
      split; [done | | done | done | done]. destruct M1. by split.
    + rewrite !fn_lookup_insert_ne by done.
      apply (has_file_ext (view s) _ own); [| | apply Hf; lia].
      * intros c sl. split; intros Hc; [by apply (gr_new _ _ _ _ _ G1) | by eapply lookup_weaken, (gr_own _ _ _ _ _ G1)].
      * intros c sl Hc. pose proof (lookup_weaken _ _ _ _ Hc (gr_own _ _ _ _ _ G1)) as Hc1.
        rewrite (Hhigh c j sl) by done. apply (gr_view _ _ _ _ _ G1). intros sl' Hc'. congruence.
  - intros c j sl Hc. destruct (decide (j = i)) as [-> |]; [lia |].
    rewrite Hi2, Hi1. by eapply Ho, (gr_new _ _ _ _ _ G1).
  - rewrite Hv2, Hlow by lia. done.
  - intros c Hc. rewrite Hv2, Hlow by lia. by apply Hz.
Qed.

Definition new_din (t : Z) : dinode := mkDin t 0 0 1 0 (replicate 13 0).
Lemma ialloc_run own T F s t :
  files_ok own T F s → mk_freeinode s < 200 → 0 ≤ t < 32768 →
  let i := mk_freeinode s in
  ∃ s', mk_ialloc t s = Done i s' ∧ files_ok own (<[i := new_din t]> T) (<[i := []]> F) s' ∧
    mk_freeblock s' = mk_freeblock s ∧ mk_freeinode s' = i + 1.
Proof.
  intros FO Hlt Htt i. pose proof FO as [I Hfi Ht Hun Hf Ho Hsup Hz].
  unfold mk_ialloc. rewrite bind_gets, bind_modify. fold i.
  assert (Hs : i16 (xshort t) = t).
  { unfold xshort. rewrite word_of_half. unfold i16. rewrite Z.mod_small; lia. }
  rewrite Hs. change (i16 (xshort 1)) with 1. change (xint 0) with 0. change (mkDin t 0 0 1 0 _) with (new_din t).
  set (s1 := s <| mk_freeinode ::= _ |>).
  assert (Hs1 : mk_freeinode s1 = i + 1).
  { unfold s1. cbn. fold i. apply u32_id. unfold is_u32. lia. }
  assert (I1 : image_ok own s1) by (by destruct I).
  assert (Hok : inode_ok (as_inode i (new_din t))).
  { split; cbn; try lia; [unfold is_u32; lia |]. repeat constructor; unfold is_u32; lia. }
  destruct (winode_run own s1 i (new_din t) I1 ltac:(lia) Hok) as (s2 & R2 & I2 & Hb2 & Hi2 & Hdi & Hdo & Hv2).
  rewrite (bind_done _ _ _ _ _ R2). exists s2. split; [done |]. split; [| split; [done | lia]].
  change (view s1) with (view s) in *.
  split; [done | lia | | | | | |].
  - intros j Hj. destruct (decide (j = i)) as [-> | Hne]; [by rewrite fn_lookup_insert |].
    rewrite fn_lookup_insert_ne by done. rewrite Hdo by done. by apply Ht.
  - intros j Hj. rewrite fn_lookup_insert_ne by lia. apply Hun. lia.
  - intros j Hj. destruct (decide (j = i)) as [-> | Hne].
    + rewrite !fn_lookup_insert. split; [done | | done | done | intros o Hlo; cbn in Hlo; lia].
      assert (Hsl : ∀ V sl, slot_addr V (new_din t) sl = 0).
      { intros V sl. unfold slot_addr, blk_addr, ind_addr.
        change (i_addrs (as_inode 0 (new_din t))) with (replicate 13 0). rewrite !nth_zeroes.
        case_decide; [done |]. by destruct (sl <? NDIRECT)%nat. }
      split; [done | |].
      * intros sl Hsl'. rewrite Hsl. cbn. case_decide; [done | lia].
      * intros c sl. rewrite Hsl. split; [intros Hc; apply Ho in Hc; lia | intros (_ & Hnz & <-); done].
    + rewrite !fn_lookup_insert_ne by done. apply (has_file_ext (view s) _ own); [done | | apply Hf; lia].
      intros c sl Hc. apply Hv2. pose proof (proj1 (im_own _ _ I c) ltac:(by eexists)). lia.
  - intros c j sl Hc. apply Ho in Hc. lia.
  - rewrite Hv2 by lia. done.
  - intros c Hc. rewrite Hv2 by lia. by apply Hz.
Qed.
End appending.
