(* ===== verification/Built.v ===== *)
(** * The program mkfs and its image

    What a run of mkfs leaves, and what the kernel finds there: the composition of
    the tool of the build host with the file system. *)
From stdpp Require Import functions.
From S2P Require Import Prelude Mmu Cstring Kstate Spinlock Kalloc Vm Proc Sleeplock Bio Log Fs Tx Balloc Inodes Writei Content Dirs Mkfs Image.

Section building.
Context {HO : Host} {OK : HostOk}.

(** ** The program *)

(** [T'] and [F'] are [T] and [F] but for file [i], which has [data] now. *)
Record only (i : Z) (T : Z → dinode) (F : Z → list Z) (T' : Z → dinode) (F' : Z → list Z) (data : list Z) : Prop := {
  on_data : F' i = data;
  on_kind : kind (T' i) = kind (T i);
  on_rest : ∀ j, j ≠ i → T' j = T j ∧ F' j = F j }.
Lemma only_insert i T F d data : kind d = kind (T i) → only i T F (<[i := d]> T) (<[i := data]> F) data.
Proof. intros Hk. split; [by rewrite fn_lookup_insert.. |]. intros j Hj. by rewrite !fn_lookup_insert_ne. Qed.

Lemma append_all_run i chunks : ∀ own T F s,
  files_ok own T F s → 1 ≤ i < mk_freeinode s → Forall is_byte (concat chunks) →
  Z.of_nat (length (F i ++ concat chunks)) ≤ MAXFILE * ZBSIZE →
  mk_freeblock s + cost (blks (length (F i ++ concat chunks))) - cost (blks (length (F i))) ≤ 1000 →
  ∃ s' own' T' F', append_all i chunks s = Done tt s' ∧ files_ok own' T' F' s' ∧
    only i T F T' F' (F i ++ concat chunks) ∧
    mk_freeblock s' = mk_freeblock s + cost (blks (length (F i ++ concat chunks))) - cost (blks (length (F i))) ∧
    mk_freeinode s' = mk_freeinode s.
Proof.
  induction chunks as [| c chunks IH]; intros own T F s FO Hi Hby Hmax Hcost.
  { exists s, own, T, F. cbn. rewrite app_nil_r. split; [done |]. split; [done |]. split; [by split |]. lia. }
  cbn [append_all concat] in *. apply Forall_app in Hby as [Hc Hcs]. rewrite app_assoc in Hmax, Hcost |- *.
  assert (Hle : (length (F i ++ c) ≤ length ((F i ++ c) ++ concat chunks))%nat) by (rewrite (length_app (F i ++ c)); lia).
  pose proof (cost_mono _ _ (blks_mono _ _ Hle)).
  destruct (iappend_run own T F s i c FO Hi Hc ltac:(lia) ltac:(lia)) as (s1 & own1 & d1 & R1 & FO1 & Hb1 & Hi1 & Hk1).
  rewrite (bind_done _ _ _ _ _ R1).
  destruct (IH own1 _ _ s1 FO1 ltac:(lia) Hcs) as (s2 & own2 & T2 & F2 & R2 & FO2 & [Hd2 Hk2 Ho2] & Hb2 & Hi2);
    rewrite ?fn_lookup_insert in *; [done | lia |].
  exists s2, own2, T2, F2. split; [done |]. split; [done |]. split; [| lia]. split; [done | congruence |].
  intros j Hj. destruct (Ho2 j Hj) as [-> ->]. by rewrite !fn_lookup_insert_ne.
Qed.

(** What the host's file [arg] holds, and what mkfs demands of it. *)
Definition file_of (arg : list Z) : list Z := concat (default [] (host_open arg)).
Record arg_ok (arg : list Z) : Prop := {
  ar_slash : slash ∉ arg;
  ar_opens : is_Some (host_open arg);
  ar_name : Forall (λ b, 0 < b < 256) arg;
  ar_data : Forall is_byte (file_of arg);
  ar_size : Z.of_nat (length (file_of arg)) ≤ MAXFILE * ZBSIZE }.
Fixpoint entries (i : Z) (args : list (list Z)) : list Z :=
  match args with
  | [] => []
  | arg :: args => new_entry i (host_name arg) ++ entries (i + 1) args
  end.
Definition files_cost (args : list (list Z)) : Z := foldr (λ arg n, cost (blks (length (file_of arg))) + n) 0 args.

Lemma cost_nonneg k : 0 ≤ cost k.
Proof. unfold cost. destruct (12 <? k)%nat; lia. Qed.
Lemma files_cost_nonneg args : 0 ≤ files_cost args.
Proof.
  induction args as [| a args IH]; [done |]. cbn [files_cost foldr]. fold (files_cost args).
  pose proof (cost_nonneg (blks (length (file_of a)))). lia.
Qed.
Lemma de_bytes_entry i name : 0 ≤ i < 65536 → Forall is_byte name →
  de_bytes i name = new_entry i name ∧ length (new_entry i name) = 16%nat ∧ Forall is_byte (new_entry i name).
Proof.
  intros Hi Hn. unfold de_bytes, xshort. rewrite word_of_half_u16 by done. split; [done |].
  by apply new_entry_ok.
Qed.
Lemma entries_length i args : length (entries i args) = (16 * length args)%nat.
Proof.
  revert i. induction args as [| a args IH]; intros i; [done |].
  cbn [entries length]. unfold new_entry. rewrite !length_app, IH, pad_name_length. unfold DIRSIZ. cbn [length half_bytes]. lia.
Qed.
Lemma host_name_bytes arg : Forall (λ b, 0 < b < 256) arg →
  Forall is_byte (host_name arg) ∧ Forall (λ b, b ≠ 0) (host_name arg).
Proof.
  intros H. assert (Hn : Forall (λ b, 0 < b < 256) (host_name arg)).
  { unfold host_name. destruct H; [constructor |]. by destruct (x =? 95); [| constructor]. }
  split; (eapply Forall_impl; [exact Hn |]); intros b Hb; unfold is_byte in *; lia.
Qed.

Lemma files_loop_run args : ∀ own T F s,
  files_ok own T F s → 2 ≤ mk_freeinode s → mk_freeinode s + Z.of_nat (length args) ≤ 200 → Forall arg_ok args →
  (length (F 1%Z) + 16 * length args ≤ 4000)%nat →
  mk_freeblock s + cost (blks (length (F 1%Z) + 16 * length args)) - cost (blks (length (F 1%Z))) + files_cost args ≤ 1000 →
  ∃ s' own' T' F', files_loop 1 args s = Done tt s' ∧ files_ok own' T' F' s' ∧
    mk_freeinode s' = mk_freeinode s + Z.of_nat (length args) ∧
    F' 1 = F 1 ++ entries (mk_freeinode s) args ∧ kind (T' 1) = kind (T 1) ∧
    (∀ j, 2 ≤ j < mk_freeinode s → T' j = T j ∧ F' j = F j) ∧
    (∀ k arg, args !! k = Some arg → let i := mk_freeinode s + Z.of_nat k in
       F' i = file_of arg ∧ kind (T' i) = (T_FILE, 0, 0, 1)).
Proof.
  induction args as [| arg args IH]; intros own T F s FO Hi2 Hi200 Hargs Hroot Hcost.
  { exists s, own, T, F. cbn. rewrite app_nil_r. split_and!; try done; lia. }
  cbn [files_loop length files_cost foldr entries] in *. change (foldr _ 0 args) with (files_cost args) in Hcost.
  apply Forall_cons in Hargs as [[Hsl [chunks Hop] Hnm Hdat Hsz] Hargs].
  rewrite bool_decide_eq_false_2, Hop by done. pose proof (fi_image _ _ _ _ FO) as I. set (i := mk_freeinode s) in *.
  assert (Hfo : file_of arg = concat chunks) by (unfold file_of; by rewrite Hop). rewrite Hfo in *.
  destruct (ialloc_run own T F s T_FILE FO ltac:(fold i; lia) ltac:(unfold T_FILE; lia)) as (s1 & R1 & FO1 & Hb1 & Hi1).
  fold i in R1, FO1, Hi1. rewrite (bind_done _ _ _ _ _ R1). set (T1 := <[i := _]> T) in *. set (F1 := <[i := []]> F) in *.
  destruct (de_bytes_entry i (host_name arg) ltac:(lia) (proj1 (host_name_bytes _ Hnm))) as (-> & Hel & Heb).
  set (e := new_entry i (host_name arg)) in *.
  assert (HF1 : F1 1 = F 1) by (unfold F1; by rewrite fn_lookup_insert_ne by lia).
  assert (Hle1 : length (F1 1%Z ++ e) = (length (F 1%Z) + 16)%nat) by (rewrite length_app, HF1, Hel; done).
  pose proof (cost_mono _ _ (blks_mono (length (F 1%Z) + 16) (length (F 1%Z) + 16 * S (length args)) ltac:(lia))) as Hcm.
  pose proof (files_cost_nonneg args) as Hfc. pose proof (cost_nonneg (blks (length (concat chunks)))) as Hcc.
  destruct (iappend_run own T1 F1 s1 1 e FO1 ltac:(lia) Heb) as (s2 & own2 & d2 & R2 & FO2 & Hb2 & Hi2' & Hk2).
  { unfold MAXFILE, ZBSIZE. lia. }
  { rewrite Hle1, HF1. lia. }
  rewrite (bind_done _ _ _ _ _ R2). set (T2 := <[1 := d2]> T1) in *. set (F2 := <[1 := F1 1 ++ e]> F1) in *.
  assert (HF2 : F2 i = []) by (unfold F2, F1; rewrite fn_lookup_insert_ne by lia; by rewrite fn_lookup_insert).
  destruct (append_all_run i chunks own2 T2 F2 s2 FO2 ltac:(lia)) as (s3 & own3 & T3 & F3 & R3 & FO3 & [Hd3 Hk3 Ho3] & Hb3 & Hi3);
    rewrite ?HF2, ?app_nil_l in *; [done | done | |].
  { rewrite Hb2, Hle1, HF1. change (cost (blks (length []))) with 0. lia. }
  rewrite (bind_done _ _ _ _ _ R3). change (cost (blks (length []))) with 0 in Hb3.
  destruct (Ho3 1 ltac:(lia)) as [HT31 HF31]. unfold F2, T2 in HT31, HF31. rewrite fn_lookup_insert in HT31. rewrite fn_lookup_insert in HF31.
  assert (Hl3 : length (F3 1%Z) = (length (F 1%Z) + 16)%nat) by (by rewrite HF31).
  destruct (IH own3 T3 F3 s3 FO3 ltac:(lia) ltac:(lia) Hargs ltac:(lia)) as
    (s4 & own4 & T4 & F4 & R4 & FO4 & Hi4 & HF4 & Hk4 & Hold & Hnew).
  { rewrite Hb3, Hb2, Hle1, HF1, Hl3, Hb1. replace (length (F 1%Z) + 16 + 16 * length args)%nat with (length (F 1%Z) + 16 * S (length args))%nat by lia. lia. }
  assert (Hi3' : mk_freeinode s3 = i + 1) by lia. rewrite Hi3' in *.
  exists s4, own4, T4, F4. split; [done |]. split; [done |]. split; [lia |]. split.
  { by rewrite HF4, HF31, HF1, <- app_assoc. }
  split; [rewrite Hk4, HT31, Hk2; unfold T1; by rewrite fn_lookup_insert_ne by lia |]. split.
  - intros j Hj. destruct (Hold j ltac:(lia)) as [-> ->]. destruct (Ho3 j ltac:(lia)) as [-> ->].
    unfold T2, F2, T1, F1. by rewrite !fn_lookup_insert_ne by lia.
  - intros [| k] arg' Hk; cbn in Hk; cbv zeta.
    + injection Hk as <-. rewrite Z.add_0_r. destruct (Hold i ltac:(lia)) as [-> ->]. rewrite Hd3. split; [done |].
      rewrite Hk3. unfold T2, T1. rewrite fn_lookup_insert_ne by lia. by rewrite fn_lookup_insert.
    + specialize (Hnew k arg' Hk). cbv zeta in Hnew. by replace (i + Z.of_nat (S k)) with (i + 1 + Z.of_nat k) by lia.
Qed.

Lemma zero_loop_run n : ∀ i s, length (mk_img s) = i → (i + n ≤ 1000)%nat →
  zero_loop n (Z.of_nat i) s = Done tt (s <| mk_img ::= λ l, l ++ replicate n (replicate BSIZE 0) |>).
Proof.
  induction n as [| n IH]; intros i s Hl Hle; cbn [zero_loop].
  { unfold mret, M_ret. f_equal. destruct s. unfold set, set_mk_img. cbn. by rewrite app_nil_r. }
  unfold wsect. rewrite bind_assoc, bind_gets, host_writes. cbn [negb]. rewrite bind_modify, seek_id by lia. rewrite Nat2Z.id.
  replace (Z.of_nat i + 1) with (Z.of_nat (S i)) by lia. rewrite IH.
  - f_equal. unfold set, set_mk_img, file_put. cbn [mk_img mk_sb mk_freeinode mk_freeblock].
    rewrite decide_False by lia. replace (i - length (mk_img s))%nat with O by lia. cbn [replicate app]. by rewrite <- app_assoc.
  - unfold set, set_mk_img, file_put. cbn. rewrite decide_False by lia. rewrite !length_app, length_replicate. cbn. lia.
  - lia.
Qed.

(** The image before the first inode. *)
Definition blank : mkfs_t :=
  mkMkfs (<[1%nat := blk_put (replicate BSIZE 0) 0 (sb_bytes mkfs_sb)]> (replicate 1000 (replicate BSIZE 0))) mkfs_sb 1 59.
Lemma blank_view c : view blank c = if decide (c = 1) then blk_put (replicate BSIZE 0) 0 (sb_bytes mkfs_sb) else replicate BSIZE 0.
Proof.
  set (s0 := mkMkfs (replicate 1000 (replicate BSIZE 0)) mkfs_sb 1 59).
  change (view blank c) with (view (s0 <| mk_img ::= <[Z.to_nat 1 := blk_put (replicate BSIZE 0) 0 (sb_bytes mkfs_sb)]> |>) c).
  rewrite view_put by (cbn [s0 mk_img]; rewrite length_replicate; lia). case_decide; [done |].
  unfold view, disk_block, image. rewrite lookup_map_seqZ. case_guard; [| done]. cbn [mk_img s0 mbind option_bind].
  destruct (replicate 1000 (replicate BSIZE 0) !! Z.to_nat (c - 0)) as [b |] eqn:Hb; [| done].
  by apply lookup_replicate in Hb as [-> _].
Qed.
Lemma blank_ok : files_ok ∅ (λ _, din0) (λ _, []) blank.
Proof.
  split.
  - split.
    + unfold blank. cbn [mk_img]. by rewrite length_insert, length_replicate.
    + unfold blank. cbn [mk_img]. apply Forall_insert; [apply Forall_replicate, block_ok_zero |].
      apply block_ok_put; [apply block_ok_zero | apply (bool_decide_unpack _); vm_compute; exact I | vm_compute; lia].
    + done.
    + cbn. lia.
    + intros c. rewrite lookup_empty. cbn [mk_freeblock blank]. split; [by intros [] | lia].
    + intros c Hc. cbn [mk_freeblock blank] in Hc. rewrite blank_view. by rewrite decide_False by lia.
  - cbn. lia.
  - intros i Hi. destruct (IBLOCK_id i Hi) as [_ Hb]. rewrite blank_view, decide_False by lia.
    unfold dip_off, IPB. pose proof (Z.mod_pos_bound i 8 ltac:(lia)).
    assert (Z.to_nat (i mod 8) < 8)%nat as Hr by lia. revert Hr. generalize (Z.to_nat (i mod 8)) as r. intros r Hr.
    do 8 (destruct r as [| r]; [vm_compute; reflexivity |]). lia.
  - done.
  - cbn. lia.
  - intros c i sl Hc. by rewrite lookup_empty in Hc.
  - by rewrite blank_view.
  - intros c Hc. rewrite blank_view, decide_False by lia. done.
Qed.

(** The size of the root directory in the end: up to the next block boundary, of
    which there is always a next one. *)
Definition padded (n : nat) : Z := (Z.of_nat n / ZBSIZE + 1) * ZBSIZE.
Definition dots : list Z := new_entry 1 (bytes ".") ++ new_entry 1 (bytes "..").

(** The image in the end. *)
Record built (args : list (list Z)) (own : gmap Z (Z * nat)) (T : Z → dinode) (F : Z → list Z) (s : mkfs_t) : Prop := {
  bu_len : length (mk_img s) = 1000%nat;
  bu_block : ∀ c, block_ok (view s c);
  bu_super : view s 1 = blk_put (replicate BSIZE 0) 0 (sb_bytes mkfs_sb);
  bu_log : ∀ c, 2 ≤ c < 32 → view s c = replicate BSIZE 0;
  bu_map : ∀ c, 0 ≤ c < 1000 → bit_set (view s 58) (Z.to_nat c) = bool_decide (c < mk_freeblock s);
  bu_free : 59 ≤ mk_freeblock s ≤ 1000;
  bu_own : ∀ c, is_Some (own !! c) ↔ 59 ≤ c < mk_freeblock s;
  bu_table : ∀ i, 0 ≤ i < 200 → din_at (view s (IBLOCK i mkfs_sb)) (dip_off i) =
    if decide (i = 1) then (T 1) <| di_size := padded (length (F 1%Z)) |> else T i;
  bu_file : ∀ i, 1 ≤ i < 2 + Z.of_nat (length args) → has_file (view s) own i (T i) (F i);
  bu_owner : ∀ c i sl, own !! c = Some (i, sl) → 1 ≤ i < 2 + Z.of_nat (length args);
  bu_unused : ∀ i, i < 1 ∨ 2 + Z.of_nat (length args) ≤ i → T i = din0;
  bu_root : F 1 = dots ++ entries 2 args ∧ kind (T 1) = (T_DIR, 0, 0, 1);
  bu_args : ∀ k arg, args !! k = Some arg →
    F (2 + Z.of_nat k) = file_of arg ∧ kind (T (2 + Z.of_nat k)) = (T_FILE, 0, 0, 1) }.

Lemma set_bits n : (n ≤ 4096)%nat →
  block_ok (foldl set_bit (replicate BSIZE 0) (seq 0 n)) ∧
  ∀ j, bit_set (foldl set_bit (replicate BSIZE 0) (seq 0 n)) j = bool_decide (j < n)%nat.
Proof.
  induction n as [| n IH]; intros Hn.
  - split; [apply block_ok_zero |]. intros j. cbn [seq foldl]. unfold bit_set. by rewrite nth_zeroes.
  - rewrite seq_S, foldl_app. cbn [foldl plus]. destruct IH as [Hok Hb]; [lia |].
    split; [by apply block_ok_set_bit |]. intros j. rewrite set_bit_get, Hb.
    + apply eq_true_iff_eq. rewrite orb_true_iff, !bool_decide_eq_true. lia.
    + rewrite (proj1 Hok). apply Nat.Div0.div_lt_upper_bound. unfold BSIZE. lia.
Qed.

(** What fits on the image. *)
Record fits (args : list (list Z)) : Prop := {
  ft_args : Forall arg_ok args;
  ft_inodes : (length args ≤ 198)%nat;
  ft_blocks : 59 + cost (blks (32 + 16 * length args)) + files_cost args ≤ 1000 }.

(** What is left after the files: the size of the root directory and the map of
    the blocks in use. *)
Lemma finish_image_run args own T F s4 :
  files_ok own T F s4 → mk_freeinode s4 = 2 + Z.of_nat (length args) → (length (F 1%Z) ≤ 4000)%nat →
  F 1 = dots ++ entries 2 args → kind (T 1) = (T_DIR, 0, 0, 1) →
  (∀ k arg, args !! k = Some arg → F (2 + Z.of_nat k) = file_of arg ∧ kind (T (2 + Z.of_nat k)) = (T_FILE, 0, 0, 1)) →
  ∃ s, (din ← rinode 1;
        let off := xint (di_size din) in
        let off := u32 ((off / ZBSIZE + 1) * ZBSIZE) in
        winode 1 (din <| di_size := xint off |>);;
        used ← gets mk_freeblock;
        mk_balloc used) s4 = Done tt s ∧ built args own T F s.
Proof.
  intros FO4 Hi4 Hlen1 HF4 Hk4 Hnew.
  pose proof FO4 as [I4 Hfi4 Ht4 Hun4 Hf4 Ho4 Hsup4 Hz4]. pose proof (im_free _ _ I4) as Hfree.
  rewrite (bind_done _ _ _ _ _ (rinode_run own T F s4 1 FO4 ltac:(lia))). cbv zeta.
  pose proof (Hf4 1 ltac:(lia)) as [Hok1 M1 Hsz1 Hmax1 _].
  rewrite Hsz1, (xint_id (Z.of_nat _)) by (unfold is_u32; lia).
  assert (Hpad : is_u32 (padded (length (F 1%Z)))).
  { unfold padded, ZBSIZE, is_u32. pose proof (Z.div_le_mono (Z.of_nat (length (F 1%Z))) 4000 512 ltac:(lia) ltac:(lia)).
    change (4000 / 512) with 7 in *. pose proof (Z.div_pos (Z.of_nat (length (F 1%Z))) 512 ltac:(lia) ltac:(lia)). lia. }
  change ((Z.of_nat (length (F 1)) / ZBSIZE + 1) * ZBSIZE) with (padded (length (F 1))).
  rewrite (u32_id _ Hpad), (xint_id _ Hpad).
  assert (Hok1' : inode_ok (as_inode 1 ((T 1) <| di_size := padded (length (F 1)) |>))).
  { destruct Hok1. by split. }
  destruct (winode_run own s4 1 _ I4 ltac:(lia) Hok1') as (s5 & R5 & I5 & Hb5 & Hi5 & Hdi5 & Hdo5 & Hv5).
  rewrite (bind_done _ _ _ _ _ R5), bind_gets. unfold mk_balloc.
  rewrite (proj2 (Z.ltb_lt _ _)) by (unfold ZBSIZE; lia). cbn [negb]. cbv zeta.
  rewrite bind_gets, (im_sb _ _ I5). cbn [sb_bmapstart mkfs_sb]. rewrite wsect_run by (apply I5 || lia).
  destruct (set_bits (Z.to_nat (mk_freeblock s5)) ltac:(lia)) as [Hbok Hbits].
  set (bm := foldl set_bit _ _) in *. set (s6 := s5 <| mk_img ::= _ |>).
  assert (Hv6 : ∀ c, view s6 c = if decide (c = 58) then bm else view s5 c).
  { intros c. unfold s6. apply (view_put s5 58). rewrite (im_len _ _ I5). lia. }
  assert (Hv : ∀ c, ¬ 32 ≤ c < 59 → view s6 c = view s4 c).
  { intros c Hc. rewrite Hv6, decide_False, Hv5 by lia. done. }
  assert (Hino : ∀ i, 0 ≤ i < 200 → view s6 (IBLOCK i mkfs_sb) = view s5 (IBLOCK i mkfs_sb)).
  { intros i Hi. destruct (IBLOCK_id i Hi) as [_ ?]. by rewrite Hv6, decide_False by lia. }
  exists s6. split; [done |]. split.
  - unfold s6. cbn. rewrite length_insert. apply I5.
  - intros c. rewrite Hv6. case_decide; [done | by eapply image_view].
  - rewrite Hv by lia. done.
  - intros c Hc. rewrite Hv by lia. apply Hz4. lia.
  - intros c Hc. rewrite Hv6, decide_True, Hbits by done. apply bool_decide_ext.
    change (mk_freeblock s6) with (mk_freeblock s5). lia.
  - change (mk_freeblock s6) with (mk_freeblock s5). lia.
  - intros c. change (mk_freeblock s6) with (mk_freeblock s5). rewrite Hb5. apply (im_own _ _ I4).
  - intros i Hi. rewrite Hino by done. case_decide as Hd; [by subst i |]. by rewrite Hdo5, Ht4 by done.
  - intros i Hi. apply (has_file_ext (view s4) _ own); [done | | apply Hf4; lia].
    intros c sl Hc. apply Hv. pose proof (proj1 (im_own _ _ I4 c) ltac:(by eexists)). lia.
  - intros c i sl Hc. apply Ho4 in Hc. lia.
  - intros i Hi. apply Hun4. lia.
  - done.
  - exact Hnew.
Qed.

Lemma mkfs_run prog img args :
  can_create img = true → fits args →
  ∃ s own T F, mkfs_main (prog :: img :: args) mkfs_start = Done tt s ∧ built args own T F s.
Proof.
  intros Hcr [Hargs Hn Hcost]. unfold mkfs_main. rewrite Hcr. cbn [negb]. rewrite bind_modify.
  change (zero_loop (Z.to_nat FSSIZE) 0) with (zero_loop 1000 (Z.of_nat 0)).
  erewrite bind_done by (apply zero_loop_run; [done | lia]). rewrite bind_gets.
  erewrite bind_done by (apply wsect_run; [cbn [mk_img set set_mk_img set_mk_sb set_mk_freeblock mkfs_start app]; by rewrite length_replicate | lia]).
  match goal with |- ∃ s _ _ _, _ ?st = _ ∧ _ => change st with blank end.
  destruct (ialloc_run ∅ _ _ blank T_DIR blank_ok ltac:(cbn; lia) ltac:(unfold T_DIR; lia)) as (s1 & R1 & FO1 & Hb1 & Hi1).
  change (mk_freeinode blank) with 1 in *. change (mk_freeblock blank) with 59 in *.
  rewrite (bind_done _ _ _ _ _ R1). change (negb (1 =? ROOTINO)) with false. cbv iota.
  set (T1 := <[1 := new_din T_DIR]> (λ _ : Z, din0)) in *. set (F1 := <[1 := []]> (λ _ : Z, @nil Z)) in *.
  assert (HF1 : F1 1 = []) by (by unfold F1; rewrite fn_lookup_insert).
  assert (Hdot : ∀ name, Forall is_byte name → de_bytes 1 name = new_entry 1 name ∧ length (new_entry 1 name) = 16%nat ∧ Forall is_byte (new_entry 1 name))
    by (intros; by apply de_bytes_entry; [lia |]).
  destruct (Hdot (bytes ".")) as (Hd1 & Hl1 & Hy1); [apply (bool_decide_unpack _); vm_compute; exact I |].
  destruct (Hdot (bytes "..")) as (Hd2 & Hl2 & Hy2); [apply (bool_decide_unpack _); vm_compute; exact I |].
  rewrite Hd1, Hd2. clear Hdot Hd1 Hd2. unfold dots.
  set (e1 := new_entry 1 (bytes ".")) in *. set (e2 := new_entry 1 (bytes "..")) in *.
  pose proof (cost_mono _ _ (blks_mono 32 (32 + 16 * length args) ltac:(lia))) as Hc32.
  pose proof (files_cost_nonneg args) as Hfc.
  destruct (iappend_run _ _ _ s1 1 e1 FO1 ltac:(lia) Hy1) as (s2 & own2 & d2 & R2 & FO2 & Hb2 & Hi2 & Hk2);
    rewrite ?HF1, ?app_nil_l, ?Hl1 in *; [unfold MAXFILE, ZBSIZE; lia | change (cost (blks 16)) with 1; change (cost (blks (length []))) with 0; lia |].
  change (cost (blks 16)) with 1 in *. change (cost (blks (length []))) with 0 in *.
  rewrite (bind_done _ _ _ _ _ R2). set (T2 := <[1 := d2]> T1) in *. set (F2 := <[1 := e1]> F1) in *.
  assert (HF2 : F2 1 = e1) by (by unfold F2; rewrite fn_lookup_insert).
  assert (Hl12 : length (e1 ++ e2) = 32%nat) by (rewrite length_app; lia).
  destruct (iappend_run _ _ _ s2 1 e2 FO2 ltac:(lia) Hy2) as (s3 & own3 & d3 & R3 & FO3 & Hb3 & Hi3 & Hk3);
    rewrite ?HF2, ?Hl12, ?Hl1 in *; [unfold MAXFILE, ZBSIZE; lia | change (cost (blks 32)) with 1; change (cost (blks 16)) with 1; lia |].
  change (cost (blks 32)) with 1 in *. change (cost (blks 16)) with 1 in *.
  rewrite (bind_done _ _ _ _ _ R3). set (T3 := <[1 := d3]> T2) in *. set (F3 := <[1 := e1 ++ e2]> F2) in *.
  assert (HF3 : F3 1 = e1 ++ e2) by (by unfold F3; rewrite fn_lookup_insert).
  destruct (files_loop_run args _ _ _ s3 FO3 ltac:(lia) ltac:(lia) Hargs) as
    (s4 & own & T & F & R4 & FO4 & Hi4 & HF4 & Hk4 & _ & Hnew); rewrite ?HF3, ?Hl12 in *; [lia | change (cost (blks 32)) with 1; lia |].
  rewrite (bind_done _ _ _ _ _ R4). assert (Hi3' : mk_freeinode s3 = 2) by lia. rewrite Hi3' in *.

  destruct (finish_image_run args own T F s4 FO4 Hi4) as (s & R & B); [| | | exact Hnew | by exists s, own, T, F].
  - rewrite HF4, length_app, Hl12, entries_length. lia.
  - done.
  - rewrite Hk4. unfold T3. rewrite fn_lookup_insert, Hk3.
    unfold T2. rewrite fn_lookup_insert, Hk2. unfold T1. by rewrite fn_lookup_insert.
Qed.
End building.

(** ** The image in the eyes of the kernel *)

(** What [ilock] makes of inode [i] of a disk. *)
Definition inode_at (V : Z → list Z) (i : Z) : inode :=
  decode_dinode (V (IBLOCK i mkfs_sb)) (dip_off i) (as_inode i din0).

(** The entries of the root directory, and its content. *)
Definition root_names (args : list (list Z)) : list (list Z * Z) :=
  (bytes ".", 1) :: (bytes "..", 1) :: imap (λ k arg, (host_name arg, 2 + Z.of_nat k)) args.
Definition root_entries (args : list (list Z)) : list (list Z) :=
  (λ p, new_entry p.2 p.1) <$> root_names args.
Definition root_slots (args : list (list Z)) : nat := ((2 + length args) / 32 + 1) * 32.
Definition root_content (args : list (list Z)) : list Z :=
  concat (root_entries args ++ replicate (root_slots args - length (root_entries args)) (replicate 16 0)).

Lemma entries_concat i args : entries i args = concat (imap (λ k arg, new_entry (i + Z.of_nat k) (host_name arg)) args).
Proof.
  revert i. induction args as [| a args IH]; intros i; [done |]. cbn [entries imap concat].
  rewrite Z.add_0_r. f_equal. rewrite IH. f_equal. apply imap_ext. intros k x _. cbn. by replace (i + 1 + Z.of_nat k) with (i + Z.of_nat (S k)) by lia.
Qed.
Lemma concat_zeroes m : concat (replicate m (replicate 16 0)) = replicate (m * 16) 0.
Proof.
  induction m as [| m IH]; [done |]. rewrite replicate_S. cbn [concat]. by rewrite IH, <- replicate_add.
Qed.
Lemma root_entries_length args : length (root_entries args) = S (S (length args)).
Proof. unfold root_entries. rewrite length_fmap. unfold root_names. cbn [length]. by rewrite length_imap. Qed.
Lemma root_slots_spec args : (length (root_entries args) < root_slots args ≤ length (root_entries args) + 32)%nat.
Proof.
  rewrite root_entries_length. unfold root_slots. pose proof (Nat.div_mod_eq (2 + length args) 32).
  pose proof (Nat.mod_upper_bound (2 + length args) 32 ltac:(done)). lia.
Qed.
Lemma padded_slots args n : n = (32 + 16 * length args)%nat → padded n = Z.of_nat (16 * root_slots args).
Proof.
  intros ->. unfold padded, ZBSIZE, root_slots. change 512 with (Z.of_nat 512). rewrite <- Nat2Z.inj_div.
  replace ((32 + 16 * length args) / 512)%nat with ((2 + length args) / 32)%nat; [lia |].
  replace (32 + 16 * length args)%nat with (16 * (2 + length args))%nat by lia. change 512%nat with (16 * 32)%nat.
  by rewrite Nat.Div0.div_mul_cancel_l.
Qed.
Lemma root_content_eq args :
  root_content args = (dots ++ entries 2 args) ++ replicate ((root_slots args - length (root_entries args)) * 16) 0.
Proof.
  unfold root_content, root_entries, dots. rewrite concat_app, concat_zeroes. f_equal. unfold root_names.
  rewrite !fmap_cons, fmap_imap. cbn [concat fst snd]. by rewrite entries_concat, app_assoc.
Qed.

(** Reading [n] bytes, when the file holds [data] and zeroes. *)
Lemma holds_bytes V d k data n ip : holds V d k data → i_addrs ip = di_addrs d →
  (n ≤ k * 512)%nat → (length data ≤ n)%nat → file_bytes V ip 0 n = data ++ replicate (n - length data) 0.
Proof.
  intros H Ha Hn Hl. apply list_eq. intros o. unfold file_bytes. rewrite list_lookup_fmap.
  destruct (decide (o < n)%nat) as [Ho | Ho].
  - rewrite lookup_seq_lt by done. cbn [fmap option_fmap option_map plus].
    assert (file_byte V ip o = nth o data 0) as ->.
    { rewrite <- H by lia. unfold file_byte, blk_addr, ind_addr. by rewrite Ha. }
    destruct (decide (o < length data)%nat) as [Hd | Hd].
    + rewrite lookup_app_l by done. rewrite nth_lookup. by destruct (lookup_lt_is_Some_2 data o Hd) as [x ->].
    + rewrite nth_overflow, lookup_app_r by lia. symmetry. apply lookup_replicate. split; [done | lia].
  - rewrite lookup_seq_ge by lia. cbn. symmetry. apply lookup_ge_None. rewrite length_app, length_replicate. lia.
Qed.

Section kernel.
Context {MD : MemDisk} {HO : Host} {OK : HostOk}.
Context (args : list (list Z)) (own : gmap Z (Z * nat)) (T : Z → dinode) (F : Z → list Z) (s : mkfs_t).
Context (B : built args own T F s) (HMD : 1000 ≤ disksize).
Let V := view s.
Let n := Z.of_nat (length args).

(** An inode read from the image, whatever the fields that are not on the disk. *)
Lemma decoded i ip0 : 0 ≤ i < 200 → let ip := decode_dinode (V (IBLOCK i mkfs_sb)) (dip_off i) ip0 in
  i_addrs ip = di_addrs (T i) ∧ i_type ip = di_type (T i) ∧ i_nlink ip = di_nlink (T i) ∧
  i_size ip = if decide (i = 1) then padded (length (F 1)) else di_size (T i).
Proof.
  intros Hi ip. pose proof (bu_table _ _ _ _ _ B i Hi) as Ht.
  change (i_addrs ip) with (di_addrs (din_at (V (IBLOCK i mkfs_sb)) (dip_off i))).
  change (i_type ip) with (di_type (din_at (V (IBLOCK i mkfs_sb)) (dip_off i))).
  change (i_nlink ip) with (di_nlink (din_at (V (IBLOCK i mkfs_sb)) (dip_off i))).
  change (i_size ip) with (di_size (din_at (V (IBLOCK i mkfs_sb)) (dip_off i))).
  unfold V. rewrite Ht. case_decide; [by subst i | done].
Qed.

Lemma addr_slot d ip : i_addrs ip = di_addrs d →
  ind_addr ip = slot_addr V d ind_slot ∧ ∀ bn, (bn < 140)%nat → blk_addr V ip bn = slot_addr V d bn.
Proof.
  intros Ha. split; [unfold slot_addr; rewrite decide_True by done; unfold ind_addr; by rewrite Ha |].
  intros bn Hbn. rewrite blk_slot by done. unfold blk_addr, ind_addr. by rewrite Ha.
Qed.
Lemma owned_own i ip c : 1 ≤ i < 2 + n → i_addrs ip = di_addrs (T i) → owned V ip c ↔ ∃ sl, own !! c = Some (i, sl).
Proof.
  intros Hi Ha. destruct (addr_slot _ _ Ha) as [Hind Hblk].
  pose proof (hf_map _ _ _ _ _ (bu_file _ _ _ _ _ B i Hi)) as M. split.
  - intros [Hnz [Hc | (bn & Hbn & Hc)]].
    + exists ind_slot. apply (mp_own _ _ _ _ _ _ M). fold V. by rewrite <- Hind.
    + exists bn. unfold NDIRECT, NINDIRECT in Hbn. apply (mp_own _ _ _ _ _ _ M). fold V.
      rewrite <- Hblk by lia. unfold ind_slot. split_and!; [lia | done | done].
  - intros (sl & Hsl). apply (mp_own _ _ _ _ _ _ M) in Hsl as (Hle & Hnz & Hc). split; [done |].
    destruct (decide (sl = ind_slot)) as [-> |]; [left; by rewrite Hind |].
    right. exists sl. unfold ind_slot, NDIRECT, NINDIRECT in *. split; [lia |]. by rewrite Hblk by lia.
Qed.
Lemma in_use_map c : 0 ≤ c < 1000 → in_use V mkfs_sb c = bool_decide (c < mk_freeblock s).
Proof.
  intros Hc. unfold in_use, BBLOCK, BPB. cbn [sb_bmapstart mkfs_sb]. change (512 * 8) with 4096.
  rewrite Z.div_small, Z.mod_small, u32_id by (unfold is_u32; lia). by apply (bu_map _ _ _ _ _ B).
Qed.
Lemma slot_in_use i sl : 1 ≤ i < 2 + n → (sl ≤ ind_slot)%nat → slot_addr V (T i) sl ≠ 0 →
  (data_block mkfs_sb (slot_addr V (T i) sl) ∧ in_use V mkfs_sb (slot_addr V (T i) sl) = true) ∧
  own !! slot_addr V (T i) sl = Some (i, sl).
Proof.
  intros Hi Hsl Hnz. pose proof (hf_map _ _ _ _ _ (bu_file _ _ _ _ _ B i Hi)) as M.
  assert (own !! slot_addr V (T i) sl = Some (i, sl)) as Ho by (by apply (mp_own _ _ _ _ _ _ M)). split; [| done].
  pose proof (proj1 (bu_own _ _ _ _ _ B _) ltac:(by eexists; exact Ho)). pose proof (bu_free _ _ _ _ _ B).
  split; [unfold data_block; change (data_start mkfs_sb) with 59; cbn [sb_size mkfs_sb]; lia |].
  rewrite in_use_map by lia. apply bool_decide_eq_true. lia.
Qed.
Lemma built_file_ok i ip : 1 ≤ i < 2 + n → i_dev ip = 1 → i_addrs ip = di_addrs (T i) → file_ok V mkfs_sb ip.
Proof.
  intros Hi Hdev Ha. destruct (addr_slot _ _ Ha) as [Hind Hblk].
  assert (Hlt : ∀ sl, (sl ≤ ind_slot)%nat → 0 ≤ slot_addr V (T i) sl < disksize).
  { intros sl Hsl. destruct (decide (slot_addr V (T i) sl = 0)) as [-> | Hnz]; [lia |].
    destruct (slot_in_use i sl Hi Hsl Hnz) as [[[H1 H2] _] _]. change (data_start mkfs_sb) with 59 in H1. cbn in H2. lia. }
  pose proof (hf_map _ _ _ _ _ (bu_file _ _ _ _ _ B i Hi)) as M.
  assert (Hbn : ∀ b, (b < NDIRECT + NINDIRECT)%nat → (b < 140)%nat ∧ (b ≤ ind_slot)%nat ∧ b ≠ ind_slot)
    by (unfold NDIRECT, NINDIRECT, ind_slot; lia).
  split.
  - split; [done | rewrite Ha; apply M | rewrite Hind; by apply Hlt |]. intros b Hb. destruct (Hbn b Hb) as (? & ? & _).
    rewrite Hblk by done. by apply Hlt.
  - rewrite Hind. intros Hnz. by apply (slot_in_use i ind_slot Hi).
  - intros b Hb. destruct (Hbn b Hb) as (? & Hle & Hne). rewrite Hblk, Hind by done. intros Hnz.
    destruct (slot_in_use i b Hi Hle Hnz) as [[H1 H2] H3]. split_and!; [done | done |]. intros He. rewrite He in H3.
    assert (own !! slot_addr V (T i) ind_slot = Some (i, ind_slot)) by (apply (mp_own _ _ _ _ _ _ M); by rewrite <- He). congruence.
  - intros b c Hb Hc. destruct (Hbn b Hb) as (? & Hle & _), (Hbn c Hc) as (? & Hle' & _). rewrite !Hblk by done. intros Hnz He.
    destruct (slot_in_use i b Hi Hle Hnz) as [_ H3]. rewrite He in Hnz, H3.
    destruct (slot_in_use i c Hi Hle' Hnz) as [_ H4]. congruence.
Qed.
Lemma built_covered i ip : 1 ≤ i < 2 + n → i_addrs ip = di_addrs (T i) →
  i_size ip ≤ MAXFILE * ZBSIZE → covered V ip ↔ i_size ip ≤ Z.of_nat (blks (length (F i)) * 512).
Proof.
  intros Hi Ha Hmax. destruct (addr_slot _ _ Ha) as [_ Hblk].
  destruct (bu_file _ _ _ _ _ B i Hi) as [_ M _ Hfm _]. pose proof (blks_spec (length (F i))).
  set (k := blks (length (F i))) in *. unfold MAXFILE, ZBSIZE, BSIZE in *.
  assert (Hnz : ∀ bn, (bn < 140)%nat → blk_addr V ip bn ≠ 0 ↔ (bn < k)%nat).
  { intros bn Hbn. rewrite Hblk by done. etransitivity; [apply (mp_slot _ _ _ _ _ _ M); unfold ind_slot; lia |].
    by rewrite decide_False by (unfold ind_slot; lia). }
  split.
  - intros [_ Hc]. destruct (decide (i_size ip ≤ Z.of_nat (k * 512))) as [| Hgt]; [done |]. exfalso.
    specialize (Hc k ltac:(unfold BSIZE; lia)). apply Hnz in Hc; lia.
  - intros Hle. split; [done |]. intros bn Hbn. unfold BSIZE in Hbn. apply Hnz; lia.
Qed.
End kernel.

(** ** The theorems *)
Lemma concat_entry (L : list (list Z)) k e : Forall (λ e, length e = 16%nat) L → L !! k = Some e →
  take 16 (drop (k * 16) (concat L)) = e.
Proof.
  intros HL. revert k. induction HL as [| x L Hx HL IH]; intros [| k] Hk; try done; cbn [concat].
  - injection Hk as <-. cbn [Nat.mul]. by rewrite drop_0, <- Hx, take_app_length.
  - cbn [Nat.mul]. rewrite drop_app_ge by lia. replace (16 + k * 16 - length x)%nat with (k * 16)%nat by lia. by apply IH.
Qed.
Lemma concat_length (L : list (list Z)) : Forall (λ e, length e = 16%nat) L → length (concat L) = (length L * 16)%nat.
Proof. induction 1 as [| x L Hx HL IH]; [done |]. cbn [concat length]. rewrite length_app, IH, Hx. lia. Qed.
Lemma dirents_concat L : Forall (λ e, length e = 16%nat) L → dirents (concat L) = L.
Proof.
  intros HL. apply list_eq. intros k. rewrite dirents_lookup, concat_length by done. unfold sizeof_dirent.
  rewrite Nat.div_mul by done. case_decide as Hk.
  - destruct (lookup_lt_is_Some_2 L k Hk) as [e He]. rewrite He. f_equal. by apply concat_entry.
  - symmetry. apply lookup_ge_None. lia.
Qed.
Lemma find_idx_map_app {A B} (P : B → bool) (Q : A → bool) (g : A → B) l r :
  (∀ x, x ∈ l → P (g x) = Q x) → (∀ y, y ∈ r → P y = false) → find_idx P ((g <$> l) ++ r) = find_idx Q l.
Proof.
  intros Hl Hr. induction l as [| x l IH].
  - cbn. apply find_idx_None. intros j y Hj. apply Hr. by eapply list_elem_of_lookup_2.
  - cbn. rewrite Hl by (by left). destruct (Q x); [done |]. rewrite IH; [done |]. intros y Hy. apply Hl. by right.
Qed.

Section theorems.
Context {LK : Linker} {FU : Fuel} {MD : MemDisk} {DS : DevSw} {HO : Host} {OK : HostOk}.

Lemma root_names_range args nm ino : Forall arg_ok args → (length args ≤ 198)%nat → (nm, ino) ∈ root_names args →
  0 < ino < 65536 ∧ Forall (λ b, b ≠ 0) nm.
Proof.
  intros Hargs Hn Hin. unfold root_names in Hin. rewrite !elem_of_cons in Hin. destruct Hin as [H | [H | H]].
  - injection H as -> ->. split; [lia |]. repeat constructor; done.
  - injection H as -> ->. split; [lia |]. repeat constructor; done.
  - apply elem_of_lookup_imap in H as (k & arg & H & Hk). injection H as -> ->.
    pose proof (lookup_lt_Some _ _ _ Hk). split; [lia |].
    apply host_name_bytes. by apply (ar_name _ (Forall_lookup_1 _ _ _ _ Hargs Hk)).
Qed.

(** What the kernel finds under a name in the root directory. *)
Lemma root_lookup args name : Forall arg_ok args → (length args ≤ 198)%nat → Forall (λ b, b ≠ 0) name →
  find_idx (names name) (dirents (root_content args)) =
    find_idx (λ p, bool_decide (take DIRSIZ name = take DIRSIZ p.1)) (root_names args) ∧
  ∀ j p, root_names args !! j = Some p → de_inum (dirent (root_content args) j) = p.2.
Proof.
  intros Hargs Hn Hname.
  assert (Hlen : Forall (λ e, length e = 16%nat)
    (root_entries args ++ replicate (root_slots args - length (root_entries args)) (replicate 16 0))).
  { apply Forall_app_2; [| by apply Forall_replicate]. unfold root_entries. apply Forall_fmap, Forall_true.
    intros [nm ino]. change (length (new_entry ino nm) = 16%nat). unfold new_entry. by rewrite length_app, pad_name_length. }
  unfold root_content. rewrite dirents_concat by done. split.
  - apply find_idx_map_app.
    + intros [nm ino] Hin. destruct (root_names_range args nm ino Hargs Hn Hin) as [Hi Hnm].
      by apply new_entry_names.
    + intros y [-> _]%elem_of_replicate. done.
  - intros j [nm ino] Hj. unfold dirent, sizeof_dirent. rewrite (concat_entry _ j (new_entry ino nm) Hlen).
    + destruct (root_names_range args nm ino Hargs Hn) as [Hi Hnm]; [by eapply list_elem_of_lookup_2 |].
      by apply (new_entry_names ino nm []).
    + apply lookup_app_l_Some. unfold root_entries. by rewrite list_lookup_fmap, Hj.
Qed.

Context (HMD : 1000 ≤ disksize).

(** The root directory and the files of an image. *)
Lemma built_root args own T F s ip0 : built args own T F s → fits args → i_dev ip0 = 1 →
  let ip := decode_dinode (view s (IBLOCK 1 mkfs_sb)) (dip_off 1) ip0 in
  i_type ip = T_DIR ∧ i_nlink ip = 1 ∧ file_ok (view s) mkfs_sb ip ∧ i_size ip = Z.of_nat (16 * root_slots args) ∧
  if decide ((2 + length args) mod 32 = 0)%nat then ¬ covered (view s) ip
  else covered (view s) ip ∧ content (view s) ip = root_content args.
Proof.
  intros B Hf Hdev ip. pose proof (ft_inodes _ Hf) as Hn. destruct (decoded args own T F s B 1 ip0 ltac:(lia)) as (Ha & Ht & Hl & Hs).
  fold ip in Ha, Ht, Hl, Hs. cbn [decide decide_rel] in Hs. rewrite decide_True in Hs by done.
  destruct (bu_root _ _ _ _ _ B) as [HF HK]. injection HK as HK1 _ _ HK2.
  assert (Hlen : length (F 1) = (32 + 16 * length args)%nat).
  { rewrite HF. unfold dots, new_entry. rewrite !length_app, entries_length, !pad_name_length. unfold DIRSIZ. cbn [length half_bytes]. lia. }
  rewrite (padded_slots args _ Hlen) in Hs. pose proof (root_slots_spec args) as Hsl. rewrite root_entries_length in Hsl.
  split; [by rewrite Ht |]. split; [by rewrite Hl |].
  split; [apply (built_file_ok args own T F s B HMD 1); [lia | done | done] |]. split; [done |].
  pose proof (built_covered args own T F s B 1 ip ltac:(lia) Ha) as Hcov. rewrite Hs in Hcov.
  specialize (Hcov ltac:(unfold MAXFILE, ZBSIZE; lia)). rewrite Hlen in Hcov.
  pose proof (blks_spec (32 + 16 * length args)). unfold root_slots in Hsl, Hcov, Hs.
  pose proof (Nat.div_mod_eq (2 + length args) 32). pose proof (Nat.mod_upper_bound (2 + length args) 32 ltac:(done)).
  case_decide as Hd.
  - rewrite Hcov. lia.
  - split; [apply Hcov; lia |]. unfold content. rewrite Hs.
    pose proof (hf_data _ _ _ _ _ (bu_file _ _ _ _ _ B 1 ltac:(lia))) as Hh. rewrite Hlen in Hh.
    rewrite Nat2Z.id, (holds_bytes _ _ _ _ _ _ Hh Ha) by lia.
    rewrite root_content_eq, HF. f_equal. f_equal. rewrite <- HF, Hlen, root_entries_length. unfold root_slots. lia.
Qed.
Lemma built_arg args own T F s ip0 k arg : built args own T F s → fits args → args !! k = Some arg → i_dev ip0 = 1 →
  let i := 2 + Z.of_nat k in
  let ip := decode_dinode (view s (IBLOCK i mkfs_sb)) (dip_off i) ip0 in
  i_type ip = T_FILE ∧ i_nlink ip = 1 ∧ file_ok (view s) mkfs_sb ip ∧ i_size ip = Z.of_nat (length (file_of arg)) ∧
  covered (view s) ip ∧ content (view s) ip = file_of arg.
Proof.
  intros B Hf Hk Hdev i ip. pose proof (ft_inodes _ Hf) as Hn. pose proof (lookup_lt_Some _ _ _ Hk) as Hlt.
  destruct (decoded args own T F s B i ip0 ltac:(lia)) as (Ha & Ht & Hl & Hs).
  fold ip in Ha, Ht, Hl, Hs. rewrite decide_False in Hs by lia.
  destruct (bu_args _ _ _ _ _ B k arg Hk) as [HF HK]. fold i in HF, HK. injection HK as HK1 _ _ HK2.
  destruct (bu_file _ _ _ _ _ B i ltac:(lia)) as [_ _ Hsz Hmax Hh]. rewrite HF in Hsz, Hmax, Hh. rewrite Hsz in Hs.
  pose proof (blks_spec (length (file_of arg))).
  split; [by rewrite Ht |]. split; [by rewrite Hl |].
  split; [apply (built_file_ok args own T F s B HMD i); [lia | done | done] |]. split; [done |]. split.
  - apply (built_covered args own T F s B i ip ltac:(lia) Ha); rewrite Hs, ?HF; lia.
  - unfold content. rewrite Hs, Nat2Z.id, (holds_bytes _ _ _ _ _ _ Hh Ha) by lia.
    by rewrite Nat.sub_diag, app_nil_r.
Qed.

(** C5: mkfs makes a sound file system.  When the files fit, it ends without an
    error; its superblock is decoded as the layout says, the log is empty; every
    inode handed out is a directory or a file whose blocks are its own, and reads
    back as what it was made of: the root directory the entries, file k the bytes
    of the host's file; other inodes are free; the map marks exactly the blocks
    before the data area and those of the files, and no block has two files.  One
    defect: when the entries fill their last block the root directory's size
    includes a block it does not have. *)
Theorem mkfs_image prog img args :
  can_create img = true → fits args →
  ∃ s, mkfs_main (prog :: img :: args) mkfs_start = Done tt s ∧ let V := view s in
    (length (mk_img s) = 1000%nat ∧ ∀ c, block_ok (V c)) ∧ sb_decode (V 1) = mkfs_sb ∧ hd_n (V 2) = 0 ∧
    (let root := inode_at V 1 in
     i_type root = T_DIR ∧ i_nlink root = 1 ∧ file_ok V mkfs_sb root ∧
     if decide ((2 + length args) mod 32 = 0)%nat then ¬ covered V root
     else covered V root ∧ content V root = root_content args) ∧
    (∀ k arg, args !! k = Some arg → let ip := inode_at V (2 + Z.of_nat k) in
       i_type ip = T_FILE ∧ i_nlink ip = 1 ∧ file_ok V mkfs_sb ip ∧ covered V ip ∧ content V ip = file_of arg) ∧
    (∀ i, 2 + Z.of_nat (length args) ≤ i < 200 → i_type (inode_at V i) = 0) ∧
    (∀ c, 0 ≤ c < 1000 → in_use V mkfs_sb c = true ↔
       c < 59 ∨ ∃ i, 1 ≤ i < 2 + Z.of_nat (length args) ∧ owned V (inode_at V i) c) ∧
    (∀ i j c, 1 ≤ i < 2 + Z.of_nat (length args) → 1 ≤ j < 2 + Z.of_nat (length args) →
       owned V (inode_at V i) c → owned V (inode_at V j) c → i = j).
Proof.
  intros Hcr Hf. destruct (mkfs_run prog img args Hcr Hf) as (s & own & T & F & R & B).
  exists s. split; [done |]. intros V. pose proof (ft_inodes _ Hf) as Hn.
  assert (Haddr : ∀ i, 0 ≤ i < 200 → i_addrs (inode_at V i) = di_addrs (T i)) by (intros i Hi; by apply (decoded args own T F s B)).
  split; [split; [apply B | apply B] |].
  split; [unfold V; rewrite (bu_super _ _ _ _ _ B); vm_compute; reflexivity |].
  split; [unfold V; rewrite (bu_log _ _ _ _ _ B) by lia; vm_compute; reflexivity |].
  split; [destruct (built_root args own T F s (as_inode 1 din0) B Hf eq_refl) as (? & ? & ? & _ & ?); by split_and! |].
  split; [| split; [| split]].
  - intros k arg Hk. destruct (built_arg args own T F s (as_inode (2 + Z.of_nat k) din0) k arg B Hf Hk eq_refl)
      as (? & ? & ? & _ & ? & ?). by split_and!.
  - intros i Hi. destruct (decoded args own T F s B i (as_inode i din0) ltac:(lia)) as (_ & Ht & _).
    etransitivity; [exact Ht |]. by rewrite (bu_unused _ _ _ _ _ B) by lia.
  - intros c Hc. unfold V. rewrite (in_use_map args own T F s B c Hc), bool_decide_eq_true. split.
    + intros Hlt. destruct (decide (c < 59)) as [| Hge]; [by left |]. right.
      destruct (proj2 (bu_own _ _ _ _ _ B c) ltac:(lia)) as [[i sl] Ho]. pose proof (bu_owner _ _ _ _ _ B _ _ _ Ho) as Hi.
      exists i. split; [done |]. apply (owned_own args own T F s B i); [done | apply Haddr; lia | by exists sl].
    + pose proof (bu_free _ _ _ _ _ B). intros [| (i & Hi & Ho)]; [lia |].
      apply (owned_own args own T F s B i) in Ho as [sl Ho]; [| done | apply Haddr; lia].
      pose proof (proj1 (bu_own _ _ _ _ _ B c) ltac:(by eexists)). lia.
  - intros i j c Hi Hj Hoi Hoj.
    apply (owned_own args own T F s B i) in Hoi as [sl Hoi]; [| done | apply Haddr; lia].
    apply (owned_own args own T F s B j) in Hoj as [sl' Hoj]; [| done | apply Haddr; lia]. congruence.
Qed.

(** The kernel finds on the image what mkfs put there.  In a kernel whose
    buffer cache presents the image, [dirlookup] in the root directory delivers
    for a name the inode of the first of the entries - ".", ".." and the files in
    the order of the command line, names counting up to DIRSIZ bytes - and nothing
    for other names; [readi] of the k-th file delivers its bytes. *)
Theorem mkfs_found prog img args s i pid B ks :
  can_create img = true → fits args → mkfs_main (prog :: img :: args) mkfs_start = Done tt s →
  io i pid (view s) B [] ks → (size B < NBUF)%nat → (0 < patience)%nat →
  (∀ dp ip0 name, ((2 + length args) mod 32 ≠ 0)%nat → i_dev ip0 = 1 → Forall (λ b, b ≠ 0) name →
     k_icache ks !! dp = Some (decode_dinode (view s (IBLOCK 1 mkfs_sb)) (dip_off 1) ip0) →
     ∃ ks', io i pid (view s) B [] ks' ∧ dirlookup (BD := memide) dp name ks =
       match find_idx (λ p, bool_decide (take DIRSIZ name = take DIRSIZ p.1)) (root_names args) with
       | Some j => (c ← iget 1 (default 0 (snd <$> root_names args !! j)); mret (Some (c, 16 * Z.of_nat j))) ks'
       | None => Done None ks'
       end) ∧
  (∀ k arg fp ip0, args !! k = Some arg → i_dev ip0 = 1 → let ino := 2 + Z.of_nat k in
     k_icache ks !! fp = Some (decode_dinode (view s (IBLOCK ino mkfs_sb)) (dip_off ino) ip0) →
     let n := Z.of_nat (length (file_of arg)) in
     ∃ ks', readi (BD := memide) fp ToLocal 0 n ks = Done (n, file_of arg) ks' ∧ io i pid (view s) B [] ks').
Proof.
  intros Hcr Hf R Io HB Hfu. destruct (mkfs_run prog img args Hcr Hf) as (s' & own & T & F & R' & Bu).
  assert (s' = s) as -> by congruence. clear R'. pose proof (ft_args _ Hf) as Hargs. pose proof (ft_inodes _ Hf) as Hn.
  assert (Hlen : ∀ c, length (view s c) = BSIZE) by (intros c; apply (bu_block _ _ _ _ _ Bu)). split.
  - intros dp ip0 name Hm Hdev Hname Hdp.
    destruct (built_root args own T F s ip0 Bu Hf Hdev) as (Ht & _ & Hok & Hsz & Hc). rewrite decide_False in Hc by done.
    destruct Hc as [Hcov Hcont]. set (ip := decode_dinode _ _ ip0) in *.
    assert (D : dir i pid (view s) B dp ip ks).
    { split; try done; [apply Hok |]. rewrite Hsz. split; [lia |]. rewrite Nat2Z.inj_mul, Z.mul_comm. apply Z_mod_mult. }
    destruct (dirlookup_finds i pid (view s) B dp ip name ks D) as (ks' & Io' & _ & _ & Hl).
    destruct (root_lookup args name Hargs Hn Hname) as [Hfind Hent].
    exists ks'. split; [done |]. rewrite Hl, Hcont, Hfind.
    set (Q := λ p : list Z * Z, bool_decide (take DIRSIZ name = take DIRSIZ p.1)).
    destruct (find_idx Q (root_names args)) as [j |] eqn:Hj; [| done].
    apply find_idx_Some in Hj as [(p & Hp & _) _]. by rewrite (Hent j p Hp), Hp.
  - intros k arg fp ip0 Hk Hdev ino Hfp n.
    destruct (built_arg args own T F s ip0 k arg Bu Hf Hk Hdev) as (Ht & _ & Hok & Hsz & Hcov & Hcont).
    fold ino n in Ht, Hok, Hsz, Hcov, Hcont. set (ip := decode_dinode _ _ ip0) in *.
    pose proof (ar_size _ (Forall_lookup_1 _ _ _ _ Hargs Hk)) as Hmax. unfold MAXFILE, ZBSIZE in Hmax. fold n in Hmax.
    pose proof (readi_content i pid (view s) B fp ip 0 n ks Io HB Hfu Hfp) as Rd.
    rewrite decide_False in Rd by (unfold read_refused; lia).
    destruct Rd as (ks' & Rd & Io' & _); try done; try (rewrite ?Hsz; unfold is_u32; lia); [by rewrite Ht | apply Hok |].
    exists ks'. split; [| done]. rewrite Rd, Hcont, Hsz, drop_0, Z.sub_0_r, Z.min_id. f_equal. f_equal.
    unfold n. by rewrite Nat2Z.id, take_ge by lia.
Qed.
End theorems.

(** ** Witnesses: an image of two files *)
Definition two_files : Host := {|
  can_create _ := true;
  can_write _ _ := true;
  host_open name := if bool_decide (name = bytes "_cat") then Some [[1; 2]; [3]] else Some [] |}.
Definition two_args : list (list Z) := [bytes "_cat"; bytes "README"].
Lemma two_files_ok : HostOk (HO := two_files).
Proof. done. Qed.
Lemma two_fit : fits (HO := two_files) two_args.
Proof.
  split; [| cbn; lia | vm_compute; done].
  unfold two_args. repeat constructor; try (apply (bool_decide_unpack _); vm_compute; exact I); try by eexists.
Qed.

Lemma mkfs_image_witness :
  ∃ s, mkfs_main (HO := two_files) ([] :: [] :: two_args) mkfs_start = Done tt s ∧
    content (view s) (inode_at (view s) 2) = [1; 2; 3] ∧
    i_type (inode_at (view s) 4) = 0.
Proof.
  destruct (mkfs_image (MD := 1000) (HO := two_files) (OK := two_files_ok) ltac:(unfold disksize; lia) [] [] two_args eq_refl two_fit)
    as (s & R & _ & _ & _ & _ & Hfile & Hfree & _).
  exists s. split; [exact R |]. split.
  - destruct (Hfile O (bytes "_cat") eq_refl) as (_ & _ & _ & _ & Hc). exact Hc.
  - apply Hfree. cbn. lia.
Defined.

(** A kernel with a cold cache over an image, and the inodes 1 and 2 in its cache. *)
Definition over_image (s : mkfs_t) : kst :=
  cold <| k_disk := image (mk_img s) |> <| k_icache := [inode_at (view s) 1; inode_at (view s) 2] |>.
Lemma over_image_io s : io 0 1 (view s) ∅ [] (over_image s).
Proof.
  assert (Hb : ∀ j b, k_bufs (over_image s) !! j = Some b → b = buf0).
  { intros j b H. change (replicate NBUF buf0 !! j = Some b) in H. by apply lookup_replicate in H as [-> _]. }
  split; try done.
  - intros j k b c Hj%Hb Hk%Hb. by subst b.
  - intros j b ->%Hb. split; try done. by intros ?%elem_of_nil.
Qed.

Lemma mkfs_found_witness :
  ∃ s ks ks', mkfs_main (HO := two_files) ([] :: [] :: two_args) mkfs_start = Done tt s ∧
    dirlookup (FU := 1%nat : Fuel) (BD := memide (MD := 1000)) (DS := no_devices) 0 (bytes "README") (over_image s) =
      (c ← iget 1 3; mret (Some (c, 48))) ks ∧
    readi (FU := 1%nat : Fuel) (BD := memide (MD := 1000)) (DS := no_devices) 1 ToLocal 0 3 (over_image s) = Done (3, [1; 2; 3]) ks'.
Proof.
  destruct (mkfs_run (HO := two_files) (OK := two_files_ok) [] [] two_args eq_refl two_fit) as (s & own & T & F & R & _).
  destruct (mkfs_found (FU := 1%nat : Fuel) (MD := 1000) (DS := no_devices) (HO := two_files) (OK := two_files_ok) ltac:(unfold disksize; lia)
    [] [] two_args s 0 1 ∅ (over_image s) eq_refl two_fit R (over_image_io s)) as [Hl Hr]; [rewrite size_empty; unfold NBUF; lia | by apply Nat.lt_0_succ |].
  destruct (Hl 0%nat (as_inode 1 din0) (bytes "README")) as (ks & _ & Rl); [done | done | | done |].
  { repeat constructor; done. }
  destruct (Hr 0%nat (bytes "_cat") 1%nat (as_inode 2 din0) eq_refl eq_refl eq_refl) as (ks' & Rr & _).
  exists s, ks, ks'. split; [exact R |]. split; [exact Rl | exact Rr].
Defined.
