(* ===== verification/Rootfs.v ===== *)
(** * Path names on the image of mkfs

    The directory tree that mkfs builds is sound, and [namei] of "/name" followed
    by [ilock] and [readi] delivers the bytes of the host's file. *)
From S2P Require Import Prelude Mmu Cstring Kstate Spinlock Kalloc Vm Proc Sleeplock Bio Log Fs Tx Balloc Inodes Icache Writei Content Dirs Paths Mkfs Image Built.

Section rootfs.
Context {LK : Linker} {FU : Fuel} {MD : MemDisk} {DS : DevSw} {HO : Host} {OK : HostOk}.
Context (HMD : 1000 ≤ disksize).
Context (args : list (list Z)) (own : gmap Z (Z * nat)) (T : Z → dinode) (F : Z → list Z) (s : mkfs_t).
Context (Bu : built args own T F s) (Hf : fits args) (Hm : ((2 + length args) mod 32 ≠ 0)%nat).

Definition installed (ino : Z) : Prop := 1 ≤ ino < 2 + Z.of_nat (length args).

Lemma installed_entry de : de ∈ dirents (root_content args) → de_inum de ≠ 0 → installed (de_inum de).
Proof.
  pose proof (ft_args _ Hf) as Hargs. pose proof (ft_inodes _ Hf) as Hn. intros Hde H0.
  unfold root_content in Hde. rewrite dirents_concat in Hde.
  2: { apply Forall_app_2; [| by apply Forall_replicate]. unfold root_entries. apply Forall_fmap, Forall_true.
    intros [nm ino]. change (length (new_entry ino nm) = 16%nat). unfold new_entry. by rewrite length_app, pad_name_length. }
  apply elem_of_app in Hde as [Hde | [-> _]%elem_of_replicate]; [| by destruct H0].
  unfold root_entries in Hde. apply list_elem_of_fmap in Hde as ([nm ino] & -> & Hin). cbn [fst snd] in *.
  destruct (root_names_range args nm ino Hargs Hn Hin) as [Hi Hnm].
  assert (de_inum (new_entry ino nm) = ino) as -> by (by apply (new_entry_names ino nm [])).
  unfold installed. split; [lia |]. unfold root_names in Hin. rewrite !elem_of_cons in Hin. destruct Hin as [H | [H | H]].
  - injection H as _ ->. lia.
  - injection H as _ ->. lia.
  - apply elem_of_lookup_imap in H as (k & arg & H & Hk). injection H as _ ->. pose proof (lookup_lt_Some _ _ _ Hk). lia.
Qed.

(** The inodes that mkfs handed out. *)
Lemma installed_cases ino : installed ino → ino = 1 ∨ ∃ k arg, args !! k = Some arg ∧ ino = 2 + Z.of_nat k.
Proof.
  intros [H1 H2]. destruct (decide (ino = 1)) as [| Hne]; [by left | right].
  destruct (lookup_lt_is_Some_2 args (Z.to_nat (ino - 2))) as [arg Ha]; [lia |]. exists (Z.to_nat (ino - 2)), arg. split; [done | lia].
Qed.
Lemma installed_root : let ip := dnode (view s) mkfs_sb 1 in
  i_type ip = T_DIR ∧ i_nlink ip = 1 ∧ ino_ok (view s) ip ∧ covered (view s) ip ∧
  i_size ip = 16 * Z.of_nat (root_slots args) ∧ content (view s) ip = root_content args.
Proof.
  destruct (built_root HMD args own T F s (inode0 <| i_dev := 1 |>) Bu Hf ltac:(done)) as (Ht & Hl & Hok & Hs & Hc).
  rewrite decide_False in Hc by done. destruct Hc as [Hcov Hcont]. split_and!; [done | done | apply Hok | done | | done].
  etransitivity; [exact Hs | lia].
Qed.
Lemma installed_file k arg : args !! k = Some arg → let ip := dnode (view s) mkfs_sb (2 + Z.of_nat k) in
  i_type ip = T_FILE ∧ i_nlink ip = 1 ∧ ino_ok (view s) ip ∧ covered (view s) ip ∧
  i_size ip = Z.of_nat (length (file_of arg)) ∧ content (view s) ip = file_of arg.
Proof.
  intros Hk. destruct (built_arg HMD args own T F s (inode0 <| i_dev := 1 |>) k arg Bu Hf Hk ltac:(done)) as (Ht & Hl & Hok & Hs & Hcov & Hcont).
  split_and!; try done. apply Hok.
Qed.

Lemma installed_tree : tree (view s) mkfs_sb installed.
Proof.
  pose proof (ft_inodes _ Hf) as Hn. destruct installed_root as (Ht & Hl & Hok & Hcov & Hs & Hcont).
  assert (Hdir : ∀ ino, installed ino → is_dir (view s) mkfs_sb ino = true → ino = 1).
  { intros ino [-> | (k & arg & Hk & ->)]%installed_cases Hd; [done |].
    destruct (installed_file k arg Hk) as (Hty & _). unfold is_dir in Hd. by rewrite Hty in Hd. }
  split.
  - intros ino Hi. split.
    + destruct Hi. unfold IBLOCK, IPB. change (sb_inodestart mkfs_sb) with 32.
      rewrite u32_id by (unfold is_u32; zlia). zlia.
    + apply installed_cases in Hi as [-> | (k & arg & Hk & ->)]; [by rewrite Ht |]. by rewrite (proj1 (installed_file k arg Hk)).
    + apply installed_cases in Hi as [-> | (k & arg & Hk & ->)]; [by rewrite Hl |]. by rewrite (proj1 (proj2 (installed_file k arg Hk))).
  - intros ino Hi Hd. rewrite (Hdir ino Hi Hd). split; [done |]. split; [done |]. rewrite Hs. split; [lia |].
    rewrite Z.mul_comm. apply Z_mod_mult.
  - intros ino Hi Hd. rewrite (Hdir ino Hi Hd), Hcont. apply installed_entry.
Qed.

(** "/name" names the first entry with this name. *)
Lemma installed_name path arg k :
  args !! k = Some arg → path_elems path = [take DIRSIZ (host_name arg)] →
  (∀ j p, root_names args !! j = Some p → take DIRSIZ p.1 = take DIRSIZ (host_name arg) → (2 + k ≤ j)%nat) →
  path_inode (view s) mkfs_sb false 1 path = Some (2 + Z.of_nat k).
Proof.
  intros Hk Hel Hfirst. pose proof (ft_args _ Hf) as Hargs. pose proof (ft_inodes _ Hf) as Hn.
  destruct installed_root as (Ht & _ & _ & _ & _ & Hcont). unfold path_inode. rewrite Hel. cbn [resolve].
  unfold is_dir. rewrite Ht. change (T_DIR =? T_DIR) with true. cbv iota. unfold dir_find. rewrite Hcont.
  set (name := take DIRSIZ (host_name arg)).
  assert (Hnm : Forall (λ b, b ≠ 0) name).
  { apply Forall_take. apply host_name_bytes. by apply (ar_name _ (Forall_lookup_1 _ _ _ _ Hargs Hk)). }
  destruct (root_lookup args name Hargs Hn Hnm) as [Hfind Hent].
  assert (Hroot : root_names args !! (2 + k)%nat = Some (host_name arg, 2 + Z.of_nat k)).
  { unfold root_names. change (2 + k)%nat with (S (S k)). etransitivity; [apply list_lookup_imap | by rewrite Hk]. }
  assert (Hsame : take DIRSIZ name = name) by (unfold name; by rewrite take_take, Nat.min_id).
  destruct (find_idx_is_Some (λ p, bool_decide (take DIRSIZ name = take DIRSIZ p.1)) (root_names args) _ _ Hroot) as (j & Hj & Hle).
  { apply bool_decide_eq_true. by rewrite Hsame. }
  rewrite Hfind, Hj. apply find_idx_Some in Hj as [(p & Hp & Heq) _].
  apply bool_decide_eq_true in Heq. rewrite Hsame in Heq. pose proof (Hfirst j p Hp (eq_sym Heq)).
  assert (j = 2 + k)%nat as -> by lia. rewrite (Hent _ _ Hp). rewrite Hroot in Hp. by injection Hp as <-.
Qed.
End rootfs.

Section rootfs_theorems.
Context {LK : Linker} {FU : Fuel} {MD : MemDisk} {DS : DevSw} {HO : Host} {OK : HostOk}.

(** C6: What goes into the image comes out of the running kernel.  On the image
    that mkfs made of the files of its command line, in a kernel whose caches are
    in order, a path "/name" - with any number of slashes - that names the k-th
    file is found by [namei], and [ilock], [readi] and [iunlockput] deliver exactly
    the bytes of the host's file; no reference and no lock is left behind. *)
Theorem installed_read prog img args s i pid B c cwd p k arg path ks :
  1000 ≤ disksize → can_create img = true → fits args → ((2 + length args) mod 32 ≠ 0)%nat →
  mkfs_main (prog :: img :: args) mkfs_start = Done tt s →
  fstate i pid (view s) B mkfs_sb None ks → (size B < NBUF)%nat → (0 < patience)%nat →
  k_procs ks !! i = Some p → p_cwd p = Some c → entry c cwd ks → 2 ≤ free_slots (k_icache ks) →
  (∀ o, refs (k_icache ks) o + 2 < 2147483648) →
  args !! k = Some arg → head path = Some slash → path_elems path = [take DIRSIZ (host_name arg)] →
  (∀ j q, root_names args !! j = Some q → take DIRSIZ q.1 = take DIRSIZ (host_name arg) → (2 + k ≤ j)%nat) →
  let n := Z.of_nat (length (file_of arg)) in
  ∃ ks', (ip ← namei (BD := memide) path;
          match ip with
          | None => mret None
          | Some ip => ilock (BD := memide) ip;; r ← readi (BD := memide) ip ToLocal 0 n; iunlockput (BD := memide) ip;; mret (Some r)
          end) ks = Done (Some (n, file_of arg)) ks' ∧
    fstate i pid (view s) B mkfs_sb None ks' ∧ quiet ks ks' ∧ ∀ o, refs (k_icache ks') o = refs (k_icache ks) o.
Proof.
  intros HMD Hcr Hf Hm R Fs HB Hfu Hp Hcwd He Hroom Hsm Hk Hhead Hel Hfirst n.
  destruct (mkfs_run prog img args Hcr Hf) as (s' & own & T & F & R' & Bu). assert (s' = s) as -> by congruence. clear R'.
  assert (Hlen : ∀ c, length (view s c) = BSIZE) by (intros b; apply (bu_block _ _ _ _ _ Bu)).
  pose proof (installed_tree HMD args own T F s Bu Hf Hm) as Tr. pose proof (lookup_lt_Some _ _ _ Hk) as Hlt.
  set (ino := 2 + Z.of_nat k). assert (Hin : installed args ino) by (unfold installed, ino; lia).
  assert (Hst : path_start cwd path = 1) by (unfold path_start; by rewrite bool_decide_eq_true_2).
  destruct (namex_run i pid (view s) B mkfs_sb (installed args) Tr Hlen HB Hfu false path c cwd p ks Fs Hp Hcwd He) as (s1 & F1 & Q1 & Hr1 & _ & H);
    [rewrite Hst; unfold installed; lia | done | done |].
  rewrite Hst, (installed_name HMD args own T F s Bu Hf Hm path arg k Hk Hel Hfirst) in H, Hr1. fold ino in H, Hr1.
  destruct H as (j & Rn & He1). cbn [ref_to] in Hr1.
  destruct (ilock_spec i pid (view s) B mkfs_sb j ino s1 F1 HB Hfu He1 (tr_node _ _ _ Tr ino Hin)) as (s2 & ip & R2 & F2 & M2 & Hj & Hi & Hrf & Hv & He2).
  pose proof (tk_disk _ _ _ _ _ (fstate_table _ _ _ _ _ _ _ F2) j ip Hj Hrf Hv) as E. rewrite Hi in E.
  pose proof (tk_dev _ _ _ _ _ (fstate_table _ _ _ _ _ _ _ F2) j ip Hj Hrf) as Hdev.
  destruct (installed_file HMD args own T F s Bu Hf k arg Hk) as (Ht & _ & Hok & Hcov & Hsz & Hcont). fold ino in Ht, Hok, Hcov, Hsz, Hcont.
  pose proof (ar_size _ (Forall_lookup_1 _ _ _ _ (ft_args _ Hf) Hk)) as Hmax. unfold MAXFILE, ZBSIZE in Hmax. fold n in Hmax, Hsz.
  assert (Hsz' : i_size ip = n) by (by rewrite E).
  assert (Hino : ino_ok (view s) ip) by (destruct Hok; split; [done | by rewrite E | by rewrite E | by rewrite E]).
  pose proof (readi_run i pid (view s) B j ip 0 n s2 (fs_io _ _ _ _ _ _ _ F2) HB Hfu Hj) as Rd.
  rewrite decide_False in Rd by lia.
  destruct Rd as (s3 & R3 & I3 & S3); [by rewrite E; change (i_type (dnode (view s) mkfs_sb ino) ≠ T_DEV); rewrite Ht | done |
    by rewrite E | done | unfold is_u32; lia | unfold is_u32; lia | unfold is_u32; lia |].
  destruct (read_moved i pid (view s) B mkfs_sb _ s2 s3 F2 I3 S3) as (F3 & M3 & Hic).
  pose proof (mv_refs _ _ _ _ M2) as Hr2. pose proof (mv_refs _ _ _ _ M3) as Hr3.
  destruct (iunlockput_spec i pid (view s) B mkfs_sb j ino s3 F3 Hfu) as (s4 & R4 & F4 & M4 & _).
  { exists ip. by rewrite Hic. }
  { apply (tr_node _ _ _ Tr ino Hin). }
  { rewrite Hr3, Hr2, Hr1. specialize (Hsm ino). unfold one. case_bool_decide; lia. }
  exists s4. split.
  - unfold namei. rewrite bind_assoc, (bind_done _ _ _ _ _ Rn), bind_ret. cbn [fmap option_fmap option_map fst].
    rewrite (bind_done _ _ _ _ _ R2), (bind_done _ _ _ _ _ R3), (bind_done _ _ _ _ _ R4).
    unfold mret, M_ret. f_equal. f_equal. rewrite Hsz', Z.sub_0_r, Z.min_id, drop_0.
    assert (content (view s) ip = file_of arg) as -> by (by rewrite E).
    f_equal. unfold n. by rewrite Nat2Z.id, take_ge by lia.
  - split; [done |]. split.
    + etransitivity; [exact Q1 |]. etransitivity; [apply M2 |]. etransitivity; [apply M3 | apply M4].
    + intros o. rewrite (mv_refs _ _ _ _ M4), Hr3, Hr2, Hr1. lia.
Qed.
End rootfs_theorems.

(** ** Witness: "//cat" on the image of two files *)
Lemma installed_read_witness :
  ∃ s ks', mkfs_main (HO := two_files) ([] :: [] :: two_args) mkfs_start = Done tt s ∧
    (ip ← namei (FU := 1%nat : Fuel) (BD := memide (MD := 1000)) (DS := no_devices) (bytes "//cat");
     match ip with
     | None => mret None
     | Some ip => ilock (FU := 1%nat : Fuel) (BD := memide (MD := 1000)) ip;;
         r ← readi (FU := 1%nat : Fuel) (BD := memide (MD := 1000)) (DS := no_devices) ip ToLocal 0 3;
         iunlockput (FU := 1%nat : Fuel) (BD := memide (MD := 1000)) ip;; mret (Some r)
     end) (on_cold (image (mk_img s)) mkfs_sb 1) = Done (Some (3, [1; 2; 3])) ks'.
Proof.
  destruct (mkfs_run (HO := two_files) (OK := two_files_ok) [] [] two_args eq_refl two_fit) as (s & own & T & F & R & _).
  destruct (on_cold_proc (image (mk_img s)) mkfs_sb 1) as (p & Hp & Hc).
  edestruct (installed_read (FU := 1%nat : Fuel) (MD := 1000) (DS := no_devices) (HO := two_files) (OK := two_files_ok)
    [] [] two_args s 0 1 ∅ 0%nat 1 p 0%nat (bytes "_cat") (bytes "//cat") (on_cold (image (mk_img s)) mkfs_sb 1)) as (ks' & H & _).
  - unfold disksize. lia.
  - reflexivity.
  - apply two_fit.
  - by vm_compute.
  - exact R.
  - apply on_cold_state.
  - rewrite size_empty. unfold NBUF. lia.
  - apply Nat.lt_0_succ.
  - exact Hp.
  - exact Hc.
  - apply on_cold_entry.
  - apply on_cold_room.
  - intros o. rewrite on_cold_refs by done. unfold one. case_bool_decide; lia.
  - reflexivity.
  - reflexivity.
  - by vm_compute.
  - intros j q Hq. destruct j as [| [| [| [| j]]]]; [..| done]; injection Hq as <-; intros He; [by vm_compute in He.. | lia].
  - exists s, ks'. split; [exact R | exact H].
Defined.
