(* ===== verification/Grep.v ===== *)
(** * grep.c: Kernighan and Pike's matcher, and the loop over the input

    The matcher works on C strings without the terminator: the end of the list
    is the terminator the code looks for. *)
From S2P Require Import Prelude Ulib.

Definition caret : Z := 94.
Definition dollar : Z := 36.
Definition star : Z := 42.
Definition dot : Z := 46.

(** [matchstar(c, re, text)], given [matchhere(re, .)]. *)
Fixpoint matchstar_with (here : list Z → bool) (c : Z) (text : list Z) : bool :=
  here text ||
  match text with
  | [] => false
  | t :: text => ((t =? c) || (c =? dot)) && matchstar_with here c text
  end.

Fixpoint matchhere (re text : list Z) : bool :=
  match re with
  | [] => true
  | c :: re1 =>
      let plain :=
        if (c =? dollar) && bool_decide (re1 = []) then bool_decide (text = []) else
        match text with
        | [] => false
        | t :: text1 => ((c =? dot) || (c =? t)) && matchhere re1 text1
        end in
      match re1 with
      | s :: re2 => if s =? star then matchstar_with (matchhere re2) c text else plain
      | [] => plain
      end
  end.
Definition matchstar (c : Z) (re text : list Z) : bool := matchstar_with (matchhere re) c text.

(** [matchhere] at every position of the text, the terminator included. *)
Fixpoint match_loop (re text : list Z) : bool :=
  matchhere re text || match text with [] => false | _ :: text => match_loop re text end.
Definition grep_match (re text : list Z) : bool :=
  match re with
  | c :: re1 => if c =? caret then matchhere re1 text else match_loop re text
  | [] => match_loop re text
  end.

(** ** The loop over the input

    What the descriptor still delivers: its bytes, and how much the next reads
    hand over at most, as a pipe or the console does.  A regular file has no
    such limits: [caps] is empty. *)
Record input := { in_data : list Z; in_caps : list nat }.

(** read(fd, buf, room): the bytes delivered and what is left. *)
Definition read_input (room : nat) (i : input) : list Z * input :=
  let n := Nat.min room (hd room (in_caps i)) in
  (take n (in_data i), {| in_data := drop n (in_data i); in_caps := tail (in_caps i) |}).

Definition BUFSZ : nat := 1024.

(** The inner loop: the lines of [p] up to the last newline, of which those
    that match are written; and the rest [p] points to in the end.  [fuel]
    counts the lines. *)
Fixpoint grep_lines (fuel : nat) (pattern p : list Z) : list Z * list Z :=
  match fuel, strchr p newline with
  | S fuel, Some q =>
      let out := if grep_match pattern (take q p) then take (S q) p else [] in
      let '(more, rest) := grep_lines fuel pattern (drop (S q) p) in
      (out ++ more, rest)
  | _, _ => ([], p)
  end.

(** The outer loop: [kept] is what the first m bytes of [buf] hold when read is
    called, the result what is written to descriptor 1.  When no line ended in
    the buffer (p == buf) its bytes are dropped. *)
Fixpoint grep_loop (fuel : nat) (pattern kept : list Z) (i : input) : list Z :=
  match fuel with
  | O => []
  | S fuel =>
      let '(new, i) := read_input (BUFSZ - length kept - 1) i in
      if bool_decide (new = []) then [] else
      let p := kept ++ new in
      let '(out, rest) := grep_lines (length p) pattern p in
      let kept := if bool_decide (length rest = length p) then [] else rest in
      out ++ grep_loop fuel pattern kept i
  end.
Definition grep (pattern : list Z) (i : input) : list Z :=
  grep_loop (S (length (in_data i))) pattern [] i.

(** ** What a pattern means *)

(** The character [c] of a pattern accepts the character [x]. *)
Definition accepts (c x : Z) : Prop := c = dot ∨ c = x.

(** Some prefix of the text is in the language of the pattern: [c*] stands for
    any number of accepted characters, a final [$] for the end of the text. *)
Inductive matches : list Z → list Z → Prop :=
  | matches_nil t : matches [] t
  | matches_star c re t1 t2 : Forall (accepts c) t1 → matches re t2 → matches (c :: star :: re) (t1 ++ t2)
  | matches_end : matches [dollar] []
  | matches_char c re x t :
      hd 0 re ≠ star → ¬ (c = dollar ∧ re = []) → accepts c x → matches re t → matches (c :: re) (x :: t).

Lemma accepts_true c x : ((c =? dot) || (c =? x)) = true ↔ accepts c x.
Proof. unfold accepts. rewrite orb_true_iff, !Z.eqb_eq. done. Qed.

Lemma matchstar_with_spec here c text :
  matchstar_with here c text = true ↔
  ∃ t1 t2, text = t1 ++ t2 ∧ Forall (accepts c) t1 ∧ here t2 = true.
Proof.
  induction text as [| x text IH]; cbn [matchstar_with].
  - rewrite orb_false_r. split.
    + intros H. by exists [], [].
    + intros (t1 & t2 & Heq & _ & H). symmetry in Heq. by apply app_eq_nil in Heq as [-> ->].
  - rewrite orb_true_iff, andb_true_iff, IH. rewrite orb_comm, (Z.eqb_sym x c), accepts_true. split.
    + intros [H | [Hx (t1 & t2 & -> & Ht & H)]]; [by exists [], (x :: text) |].
      exists (x :: t1), t2. split; [done |]. split; [by constructor | done].
    + intros ([| y t1] & t2 & Heq & Ht & H); [left; by rewrite Heq |]. right.
      injection Heq as -> ->. apply Forall_cons in Ht as [Hy Ht]. split; [done |]. by exists t1, t2.
Qed.

Lemma matchhere_spec re : ∀ text, matchhere re text = true ↔ matches re text.
Proof.
  induction re as [re IH] using (well_founded_induction (well_founded_ltof _ (@length Z))).
  unfold ltof in IH. intros text. destruct re as [| c re1]; [split; [constructor | done] |].
  assert (Hplain : hd 0 re1 ≠ star →
    (if (c =? dollar) && bool_decide (re1 = []) then bool_decide (text = []) else
     match text with [] => false | t :: text1 => ((c =? dot) || (c =? t)) && matchhere re1 text1 end) = true
    ↔ matches (c :: re1) text).
  { intros Hns. case_bool_decide as Hnil; [subst re1; rewrite andb_true_r | rewrite andb_false_r].
    - destruct (Z.eqb_spec c dollar) as [-> | Hc].
      + rewrite bool_decide_eq_true. split; [intros ->; constructor |]. intros H. inversion H; [done |].
        subst. destruct H3. by split.
      + destruct text as [| x text]; [split; [done |]; intros H; by inversion H |].
        rewrite andb_true_iff, accepts_true. cbn [matchhere]. split.
        * intros [Hx _]. constructor; [done | by intros [? _] | done | constructor].
        * intros H. inversion H; subst. by split.
    - destruct text as [| x text].
      + split; [done |]. intros H. inversion H; subst; [| done]. done.
      + rewrite andb_true_iff, accepts_true, IH by (cbn; lia). split.
        * intros [Hx Ht]. constructor; [done | by intros [_ ?] | done | done].
        * intros H. inversion H; subst; [done | by split]. }
  destruct re1 as [| s re2]; [by apply Hplain |]. cbn [matchhere].
  destruct (Z.eqb_spec s star) as [-> | Hs].
  - rewrite matchstar_with_spec. split.
    + intros (t1 & t2 & -> & Ht & H). apply IH in H; [| cbn; lia]. by constructor.
    + intros H. inversion H; subst; [| done]. exists t1, t2. split; [done |]. split; [done |].
      apply IH; [cbn; lia | done].
  - by apply Hplain.
Qed.

(** C37: the matcher decides the language of the pattern: with a leading [^]
    whether the rest of the pattern matches at the start of the text, otherwise
    whether it matches at some position, the end included. *)
Theorem match_correct re text :
  grep_match re text = true ↔
  match re with
  | c :: re1 => if c =? caret then matches re1 text else ∃ s t, text = s ++ t ∧ matches re t
  | [] => True
  end.
Proof.
  assert (Hloop : ∀ re, match_loop re text = true ↔ ∃ s t, text = s ++ t ∧ matches re t).
  { clear re. intros re. induction text as [| x text IH]; cbn [match_loop].
    - rewrite orb_false_r, matchhere_spec. split; [intros H; by exists [], [] |].
      intros (s & t & Heq & H). symmetry in Heq. by apply app_eq_nil in Heq as [-> ->].
    - rewrite orb_true_iff, matchhere_spec, IH. split.
      + intros [H | (s & t & -> & H)]; [by exists [], (x :: text) | by exists (x :: s), t].
      + intros ([| y s] & t & Heq & H); [left; by rewrite Heq |]. right. injection Heq as -> ->. by exists s, t. }
  unfold grep_match. destruct re as [| c re1].
  - rewrite Hloop. split; [done |]. intros _. exists [], text. split; [done | constructor].
  - destruct (c =? caret); [apply matchhere_spec | apply Hloop].
Qed.

(** ** The loop *)

(** A line as [grep] sees it: no newline and no terminator inside. *)
Definition plain_line (l : list Z) : Prop := (newline ∉ l) ∧ (0 ∉ l).
Definition unlines (ls : list (list Z)) : list Z := concat ((λ l, l ++ [newline]) <$> ls).

Lemma strchr_line l p :
  plain_line l → strchr (l ++ newline :: p) newline = Some (length l).
Proof.
  intros [Hn H0]. apply strchr_Some; [done |]. split; [by rewrite lookup_app_r, Nat.sub_diag by lia |].
  intros j Hj. destruct (lookup_lt_is_Some_2 l j Hj) as [x Hx]. exists x.
  rewrite lookup_app_l by done. split; [done |]. apply list_elem_of_lookup_2 in Hx.
  split; intros ->; contradiction.
Qed.
Lemma strchr_no_line p : newline ∉ p → strchr p newline = None.
Proof.
  intros H. destruct (strchr p newline) as [i |] eqn:E; [| done].
  apply strchr_Some in E as [E _]; [| done]. by apply list_elem_of_lookup_2 in E.
Qed.

(** Whole lines followed by text without a newline: the matching lines are
    written, the text is the rest. *)
Lemma grep_lines_run pattern ls : ∀ fuel p,
  Forall plain_line ls → newline ∉ p → (length ls ≤ fuel)%nat →
  grep_lines fuel pattern (unlines ls ++ p) =
  (unlines (filter (λ l, grep_match pattern l = true) ls), p).
Proof.
  induction ls as [| l ls IH]; intros fuel p Hls Hp Hf.
  - cbn [unlines fmap list_fmap concat app filter list_filter]. destruct fuel; cbn [grep_lines]; [done |]. by rewrite strchr_no_line.
  - apply Forall_cons in Hls as [Hl Hls]. destruct fuel as [| fuel]; [cbn in Hf; lia |].
    unfold unlines. cbn [fmap list_fmap concat]. fold (unlines ls).
    rewrite <- !app_assoc. cbn [app grep_lines]. rewrite strchr_line by done.
    rewrite take_app_length. replace (S (length l)) with (length (l ++ [newline]))
      by (rewrite length_app; cbn; lia).
    replace (l ++ newline :: unlines ls ++ p) with ((l ++ [newline]) ++ unlines ls ++ p)
      by (by rewrite <- app_assoc).
    rewrite take_app_length, drop_app_length, IH by (done || (cbn in Hf; lia)).
    rewrite filter_cons. destruct (grep_match pattern l) eqn:E; case_decide; try done.
Qed.

(** Cutting a text of whole lines after [n] bytes. *)
Lemma cut_lines ls tl : ∀ n,
  Forall plain_line ls → newline ∉ tl →
  ∃ ls1 ls2 p, ls = ls1 ++ ls2 ∧ take n (unlines ls ++ tl) = unlines ls1 ++ p ∧
    (newline ∉ p) ∧ p ++ drop n (unlines ls ++ tl) = unlines ls2 ++ tl ∧
    (ls1 = [] → (n ≤ length (hd [] ls))%nat ∨ ls = []).
Proof.
  induction ls as [| l ls IH]; intros n Hls Ht.
  { exists [], [], (take n tl). cbn [unlines fmap list_fmap concat app]. rewrite take_drop.
    split_and!; try done; [| by right].
    intros H. apply Ht. rewrite <- (take_drop n tl). set_solver. }
  apply Forall_cons in Hls as [Hl Hls].
  assert (Hcons : unlines (l :: ls) ++ tl = (l ++ [newline]) ++ unlines ls ++ tl).
  { unfold unlines. cbn [fmap list_fmap concat]. by rewrite <- !app_assoc. }
  rewrite Hcons. destruct (decide (n ≤ length l)%nat) as [Hn | Hn].
  - exists [], (l :: ls), (take n l). rewrite Hcons. rewrite <- !app_assoc.
    rewrite take_app_le, drop_app_le by lia. rewrite app_assoc, take_drop. split_and!; try done; [| by left].
    intros H. apply (proj1 Hl). rewrite <- (take_drop n l). set_solver.
  - destruct (IH (n - length (l ++ [newline]))%nat Hls Ht) as (ls1 & ls2 & p & -> & Htake & Hp & Hdrop & _).
    exists (l :: ls1), ls2, p. rewrite take_app_ge, drop_app_ge, Htake by (rewrite length_app; cbn; lia).
    split_and!; try done. unfold unlines. cbn [fmap list_fmap concat]. by rewrite <- !app_assoc.
Qed.

(** Text without a newline produces no output, in whatever pieces it comes. *)
Lemma grep_loop_no_line pattern : ∀ fuel kept i,
  newline ∉ kept ++ in_data i → grep_loop fuel pattern kept i = [].
Proof.
  induction fuel as [| fuel IH]; intros kept [data caps] H; [done |]. cbn [grep_loop read_input in_data in_caps] in *.
  set (n := Nat.min _ _). rewrite <- (take_drop n data) in H. case_bool_decide; [done |].
  rewrite app_assoc in H. apply not_elem_of_app in H as [Hp Hd].
  assert (∀ f, grep_lines f pattern (kept ++ take n data) = ([], kept ++ take n data)) as ->.
  { intros [| f]; cbn [grep_lines]; [done |]. by rewrite strchr_no_line. }
  rewrite bool_decide_true by done. cbn [app]. apply IH. done.
Qed.

(** The loop ends when the input does: more fuel changes nothing. *)
Lemma grep_loop_fuel pattern : ∀ f1 f2 kept i,
  (length (in_data i) < f1)%nat → (length (in_data i) < f2)%nat →
  grep_loop f1 pattern kept i = grep_loop f2 pattern kept i.
Proof.
  induction f1 as [| f1 IH]; intros [| f2] kept [data caps] H1 H2; cbn [in_data] in *; try lia.
  cbn [grep_loop read_input in_data in_caps]. set (n := Nat.min _ _). case_bool_decide as Hn; [done |].
  assert (length (drop n data) < length data)%nat as Hd.
  { rewrite length_drop. destruct n, data; cbn in *; try done; lia. }
  destruct (grep_lines _ _ _) as [out rest]. f_equal. apply IH; cbn [in_data]; lia.
Qed.

Lemma kept_short kept data l r :
  kept ++ data = l ++ newline :: r → newline ∉ kept → (length kept ≤ length l)%nat.
Proof.
  intros Heq Hk. destruct (decide (length kept ≤ length l)%nat) as [| Hlt]; [done |]. exfalso. apply Hk.
  apply (list_elem_of_lookup_2 _ (length l)). rewrite <- (lookup_app_l _ data) by lia.
  rewrite Heq. by rewrite lookup_app_r, Nat.sub_diag by lia.
Qed.

Lemma grep_loop_lines pattern tl : newline ∉ tl → ∀ fuel ls kept data,
  kept ++ data = unlines ls ++ tl → newline ∉ kept → (length data < fuel)%nat →
  Forall plain_line ls → Forall (λ l, (length l < BUFSZ - 1)%nat) ls →
  grep_loop fuel pattern kept {| in_data := data; in_caps := [] |} =
  unlines (filter (λ l, grep_match pattern l = true) ls).
Proof.
  intros Ht. induction fuel as [| fuel IH]; intros ls kept data Heq Hkept Hf Hls Hlen; [lia |].
  destruct ls as [| l ls']. { apply grep_loop_no_line. cbn [in_data]. by rewrite Heq. }
  set (ls := l :: ls') in *. cbn [grep_loop read_input in_data in_caps hd tail].
  set (n := (BUFSZ - length kept - 1)%nat). rewrite Nat.min_id.
  assert (Hl : (length l < BUFSZ - 1)%nat) by (by apply Forall_cons in Hlen as [? _]).
  assert (Hkl : (length kept ≤ length l)%nat).
  { apply (kept_short kept data l (unlines ls' ++ tl)); [| done]. rewrite Heq. unfold ls, unlines.
    cbn [fmap list_fmap concat]. by rewrite <- !app_assoc. }
  assert (Hp : kept ++ take n data = take (BUFSZ - 1) (unlines ls ++ tl)).
  { rewrite <- Heq, take_app_ge by lia. do 2 f_equal. lia. }
  assert (Hd : drop n data = drop (BUFSZ - 1) (unlines ls ++ tl)).
  { rewrite <- Heq, drop_app_ge by lia. f_equal. lia. }
  destruct (cut_lines ls tl (BUFSZ - 1) Hls Ht) as (ls1 & ls2 & p & Hsplit & Htake & Hnp & Hdrop & Hfirst).
  assert (Hls1 : ls1 ≠ []).
  { intros ->. destruct (Hfirst eq_refl) as [H | H]; [cbn [ls hd] in H; lia | done]. }
  rewrite Hp, Hd, Htake.
  assert (Hne : take n data ≠ []).
  { intros H. rewrite H, app_nil_r, Htake in Hp. apply Hkept. rewrite Hp.
    destruct ls1 as [| l1 ls1]; [done |]. unfold unlines. cbn [fmap list_fmap concat].
    rewrite !elem_of_app, list_elem_of_singleton. tauto. }
  rewrite bool_decide_false by done.
  assert (Hlen1 : (length p < length (unlines ls1 ++ p))%nat ∧ (length ls1 ≤ length (unlines ls1 ++ p))%nat).
  { assert (Hu : ∀ m, (length m ≤ length (unlines m))%nat).
    { induction m as [| x m IHm]; [done |]. unfold unlines in *. cbn [fmap list_fmap concat].
      rewrite !length_app. cbn [length]. lia. }
    rewrite length_app. specialize (Hu ls1). destruct ls1; [done |]. cbn [length] in *. lia. }
  rewrite Hsplit in Hls, Hlen. apply Forall_app in Hls as [Hp1 Hp2], Hlen as [_ Hlen2].
  rewrite grep_lines_run by (done || apply Hlen1). cbv beta iota zeta.
  rewrite bool_decide_false by lia.
  rewrite (IH ls2) by (done || (rewrite <- Hd, length_drop; destruct n, data; cbn in *; try done; lia)).
  rewrite Hsplit, filter_app. unfold unlines. by rewrite fmap_app, concat_app.
Qed.

(** [grep] on a regular file whose lines fit the buffer: the matching lines in
    order, each with its newline; text after the last newline is not looked at. *)
Theorem grep_file pattern ls tl :
  newline ∉ tl → Forall plain_line ls → Forall (λ l, (length l < 1023)%nat) ls →
  grep pattern {| in_data := unlines ls ++ tl; in_caps := [] |} =
  unlines (filter (λ l, grep_match pattern l = true) ls).
Proof.
  intros Ht Hls Hlen. apply (grep_loop_lines pattern tl Ht); try done; [by intros ?%elem_of_nil |].
  cbn [in_data]. lia.
Qed.

(** A read that delivers part of a line: those bytes are lost, the rest of the
    line is searched as a line of its own. *)
Theorem grep_drops_partial pattern pre data caps :
  newline ∉ pre → pre ≠ [] → (length pre ≤ 1023)%nat →
  grep pattern {| in_data := pre ++ data; in_caps := length pre :: caps |} =
  grep pattern {| in_data := data; in_caps := caps |}.
Proof.
  intros Hn Hne Hlen. unfold grep at 1. cbn [grep_loop read_input in_data in_caps hd tail length].
  rewrite Nat.min_r by (unfold BUFSZ; lia). rewrite take_app_length, drop_app_length.
  rewrite bool_decide_false by done. cbn [app].
  assert (∀ f, grep_lines f pattern pre = ([], pre)) as ->.
  { intros [| f]; cbn [grep_lines]; [done |]. by rewrite strchr_no_line. }
  rewrite bool_decide_true by done. cbn [app]. apply grep_loop_fuel; cbn [in_data]; [| lia].
  rewrite length_app. destruct pre; cbn; [done | lia].
Qed.

(** Two lines, "abc" and "xcx", and the unterminated "c". *)
Lemma grep_file_witness :
  (newline ∉ [99]) ∧ grep [97; star; 98] {| in_data := [97; 98; 99; 10; 120; 99; 120; 10; 99]; in_caps := [] |}
  = [97; 98; 99; 10].
Proof.
  split; [by intros ?%list_elem_of_singleton |].
  assert (Hp : ∀ l, bool_decide (newline ∉ l) && bool_decide (0 ∉ l) = true → plain_line l).
  { intros l H. apply andb_true_iff in H as [H1 H2]. split; by eapply bool_decide_eq_true_1. }
  etransitivity; [apply (grep_file [97; star; 98] [[97; 98; 99]; [120; 99; 120]] [99]) | reflexivity].
  - by intros ?%list_elem_of_singleton.
  - repeat constructor; apply Hp; reflexivity.
  - repeat constructor; cbn; lia.
Defined.

(** "ab" arrives first and then "c" with its newline: the pattern "^c" finds a
    line "c" that the input does not have. *)
Lemma grep_drops_partial_witness :
  grep [caret; 99] {| in_data := [97; 98; 99; 10]; in_caps := [2%nat] |} = [99; 10] ∧
  grep [caret; 99] {| in_data := [97; 98; 99; 10]; in_caps := [] |} = [].
Proof.
  split; [| reflexivity].
  etransitivity; [apply (grep_drops_partial [caret; 99] [97; 98] [99; 10] []) | reflexivity].
  - rewrite not_elem_of_cons. split; [done |]. by intros ?%list_elem_of_singleton.
  - done.
  - cbn. lia.
Defined.
