(* ===== verification/Programs.v ===== *)
(** * The user programs: cat, wc, echo, ls, ls_new, init, kill, ln, mkdir, rm, zombie, cm and the assignment's commands

    A program is an interaction tree whose events are system calls, so that the
    loops that may run for ever - init, the barriers of cm - are the code's own
    loops without a bound.  printf writes its characters one by one, as in
    printf.c.  [Undef] is where C says nothing. *)
From Paco Require Import paco.
From ITree Require Import ITree ITreeFacts Events.State Events.StateFacts.
From S2P Require Import Prelude Mmu Cstring Kstate Ulib Printf Fs Grep.

Inductive sysE : Type → Type :=
  | Fork : sysE Z
  | Exit : sysE void
  | Wait : sysE Z
  | Read (fd n : Z) : sysE (Z * list Z)
  | Kill (pid : Z) : sysE Z
  | Exec (path : list Z) (argv : list (list Z)) : sysE Z
  | Fstat (fd : Z) : sysE (Z * stat)
  | Dup (fd : Z) : sysE Z
  | Getpid : sysE Z
  | Sleep (n : Z) : sysE Z
  | Open (path : list Z) (mode : Z) : sysE Z
  | Write (fd : Z) (l : list Z) : sysE Z
  | Mknod (path : list Z) (major minor : Z) : sysE Z
  | Unlink (path : list Z) : sysE Z
  | Link (old new : list Z) : sysE Z
  | Mkdir (path : list Z) : sysE Z
  | Close (fd : Z) : sysE Z
  | Toggle : sysE Z
  | Add (a b : Z) : sysE Z
  | Ps : sysE Z
  | Print_count : sysE Z
  | Halt : sysE Z
  | Create_container : sysE Z
  | Join_container (id : Z) : sysE Z
  | Proc_container (pid : Z) : sysE Z
  | Proc_container_num (pid : Z) : sysE Z
  | ContainerProcessNum (id : Z) : sysE Z
  | Scheduler_log_on : sysE Z
  | Check_schedule_log (x : Z) : sysE Z
  | Undef (why : string) : sysE void.
#[global] Arguments sysE _ : clear implicits.

Declare Scope user_scope.
Notation "x <~ t ; k" := (ITree.bind t (λ x, k)) (at level 20, t at level 100, k at level 200) : user_scope.
Notation "' x <~ t ; k" := (ITree.bind t (λ y, let ' x := y in k))
  (at level 20, x pattern, t at level 100, k at level 200, only parsing) : user_scope.
Notation "t ;~ k" := (ITree.bind t (λ _, k)) (at level 100, right associativity) : user_scope.
Open Scope user_scope.

Abbreviation prog := (itree sysE).
Abbreviation sys := ITree.trigger.
Definition never {A} (v : void) : prog A := match v with end.
Definition exit {A} : prog A := v <~ sys Exit; never v.
Definition undef {A} (why : string) : prog A := v <~ sys (Undef why); never v.

(** putc for every character. *)
Fixpoint puts (fd : Z) (l : list Z) : prog unit :=
  match l with
  | [] => Ret tt
  | c :: l => _ <~ sys (Write fd [c]); puts fd l
  end.
Definition say (fd : Z) (fmt : string) (args : list parg) : prog unit :=
  match printf fmt args with
  | Some l => puts fd l
  | None => undef "printf"
  end.
(** The last character of a format that ends the line. *)
Definition nl : string := String (Ascii.ascii_of_nat 10) EmptyString.

(** while(cond) body, with a state. *)
Definition while {S R} (body : S → prog (S + R)) (s : S) : prog R := ITree.iter body s.

(** ulib.c: stat *)
Definition stat_path (n : list Z) : prog (Z * option stat) :=
  fd <~ sys (Open n 0);
  if fd <? 0 then Ret (-1, None) else
  '(r, st) <~ sys (Fstat fd);
  _ <~ sys (Close fd);
  Ret (r, Some st).

(** ** cat.c *)
Definition cat_buf : Z := 512.
Definition cat (fd : Z) : prog unit :=
  n <~ while (λ _ : unit,
      '(n, buf) <~ sys (Read fd cat_buf);
      if n >? 0 then
        r <~ sys (Write 1 buf);
        if negb (r =? n) then say 1 ("cat: write error" ++ nl) [];~ exit else Ret (inl tt)
      else Ret (inr n)) tt;
  if n <? 0 then say 1 ("cat: read error" ++ nl) [];~ exit else Ret tt.
(** for(i = 1; i < argc; i++) *)
Fixpoint each (f : list Z → prog unit) (argv : list (list Z)) : prog unit :=
  match argv with
  | [] => Ret tt
  | arg :: argv => f arg;~ each f argv
  end.
Definition cat_main (argv : list (list Z)) : prog void :=
  if (length argv <=? 1)%nat then cat 0;~ exit else
  each (λ arg,
    fd <~ sys (Open arg 0);
    if fd <? 0 then say 1 ("cat: cannot open %s" ++ nl) [PStr arg];~ exit else
    cat fd;~ sys (Close fd);~ Ret tt) (tail argv);~
  exit.

(** ** wc.c *)
Record counts := mkCounts { l_count : Z; w_count : Z; c_count : Z; inword : bool }.
Definition space_chars : list Z := [32; 13; 9; 10; 11].
Definition wc_char (x : counts) (ch : Z) : counts :=
  let c := i32 (c_count x + 1) in
  let l := if ch =? newline then i32 (l_count x + 1) else l_count x in
  match strchr space_chars ch with
  | Some _ => mkCounts l (w_count x) c false
  | None => if inword x then mkCounts l (w_count x) c true else mkCounts l (i32 (w_count x + 1)) c true
  end.
Definition wc (fd : Z) (name : list Z) : prog unit :=
  '(n, x) <~ while (λ x,
      '(n, buf) <~ sys (Read fd cat_buf);
      if n >? 0 then Ret (inl (foldl wc_char x buf)) else Ret (inr (n, x))) (mkCounts 0 0 0 false);
  if n <? 0 then say 1 ("wc: read error" ++ nl) [];~ exit else
  say 1 ("%d %d %d %s" ++ nl) [PInt (l_count x); PInt (w_count x); PInt (c_count x); PStr name].
Definition wc_main (argv : list (list Z)) : prog void :=
  if (length argv <=? 1)%nat then wc 0 [];~ exit else
  each (λ arg,
    fd <~ sys (Open arg 0);
    if fd <? 0 then say 1 ("wc: cannot open %s" ++ nl) [PStr arg];~ exit else
    wc fd arg;~ sys (Close fd);~ Ret tt) (tail argv);~
  exit.

(** ** echo.c *)
Fixpoint echo_loop (argv : list (list Z)) : prog unit :=
  match argv with
  | [] => Ret tt
  | arg :: argv =>
      say 1 "%s%s" [PStr arg; PStr (match argv with [] => bytes nl | _ => bytes " " end)];~
      echo_loop argv
  end.
Definition echo_main (argv : list (list Z)) : prog void := echo_loop (tail argv);~ exit.

(** ** kill.c, ln.c, mkdir.c, rm.c *)
Definition kill_main (argv : list (list Z)) : prog void :=
  if (length argv <? 2)%nat then say 2 ("usage: kill pid..." ++ nl) [];~ exit else
  each (λ arg, sys (Kill (atoi arg));~ Ret tt) (tail argv);~
  exit.
Definition ln_main (argv : list (list Z)) : prog void :=
  match argv with
  | [_; old; new] =>
      r <~ sys (Link old new);
      (if r <? 0 then say 2 ("link %s %s: failed" ++ nl) [PStr old; PStr new] else Ret tt);~ exit
  | _ => say 2 ("Usage: ln old new" ++ nl) [];~ exit
  end.
(** A loop with [break]. *)
Fixpoint each_until (f : list Z → prog bool) (argv : list (list Z)) : prog unit :=
  match argv with
  | [] => Ret tt
  | arg :: argv => go_on <~ f arg; if go_on : bool then each_until f argv else Ret tt
  end.
Definition mkdir_main (argv : list (list Z)) : prog void :=
  if (length argv <? 2)%nat then say 2 ("Usage: mkdir files..." ++ nl) [];~ exit else
  each_until (λ arg,
    r <~ sys (Mkdir arg);
    if r <? 0 then say 2 ("mkdir: %s failed to create" ++ nl) [PStr arg];~ Ret false
    else say 2 ("mkdir with %s " ++ nl) [PStr arg];~ Ret true) (tail argv);~
  exit.
Definition rm_main (argv : list (list Z)) : prog void :=
  if (length argv <? 2)%nat then say 2 ("Usage: rm files..." ++ nl) [];~ exit else
  each_until (λ arg,
    r <~ sys (Unlink arg);
    if r <? 0 then say 2 ("rm: %s failed to delete" ++ nl) [PStr arg];~ Ret false
    else Ret true) (tail argv);~
  exit.

(** ** zombie.c, init.c *)
Definition zombie_main : prog void :=
  pid <~ sys Fork;
  (if pid >? 0 then sys (Sleep 5);~ Ret tt else Ret tt);~ exit.

Definition console : list Z := bytes "console".
Definition O_RDWR : Z := 2.
(** while((wpid=wait()) >= 0 && wpid != pid) *)
Definition reap_zombies (pid : Z) : prog unit :=
  while (λ _ : unit,
    wpid <~ sys Wait;
    if (wpid >=? 0) && negb (wpid =? pid) then say 1 ("zombie!" ++ nl) [];~ Ret (inl tt)
    else Ret (inr tt)) tt.
Definition init_round : prog void :=
  while (λ _ : unit,
    say 1 ("init: starting sh" ++ nl) [];~
    pid <~ sys Fork;
    if pid <? 0 then say 1 ("init: fork failed" ++ nl) [];~ exit else
    if pid =? 0 then
      sys (Exec (bytes "sh") [bytes "sh"]);~
      say 1 ("init: exec sh failed" ++ nl) [];~ exit
    else reap_zombies pid;~ Ret (inl tt)) tt.
Definition init_main : prog void :=
  fd <~ sys (Open console O_RDWR);
  (if fd <? 0 then sys (Mknod console 1 1);~ sys (Open console O_RDWR);~ Ret tt else Ret tt);~
  sys (Dup 0);~
  sys (Dup 0);~
  init_round.

(** ** ls.c and ls_new.c *)

(** The index behind the last slash, [n] being one more than where to look first. *)
Fixpoint name_start (path : list Z) (n : nat) : nat :=
  match n with
  | O => O
  | S m => if nth m path 0 =? slash then n else name_start path m
  end.
(** [buf] has the name padded to DIRSIZ, and is static: the byte behind is 0. *)
Definition fmtname (path : list Z) : list Z :=
  let p := drop (name_start path (S (length path))) path in
  if (DIRSIZ <=? length p)%nat then p else p ++ replicate (DIRSIZ - length p) 32.
Definition ls_bufsize : nat := 512.
Definition ls_line : string := "%s %d %d %d" ++ nl.
Definition ls_args (path : list Z) (st : stat) : list parg :=
  [PStr (fmtname path); PInt (st_type st); PInt (st_ino st); PInt (st_size st)].
(** One entry: its line. *)
Definition ls_entry (path de : list Z) (line : list Z → stat → prog unit) : prog unit :=
  let buf := path ++ [slash] ++ Ulib.cstr (de_name de) in
  '(r, st) <~ stat_path buf;
  match st with
  | Some st => if r <? 0 then say 1 ("ls: cannot stat %s" ++ nl) [PStr buf] else line buf st
  | None => say 1 ("ls: cannot stat %s" ++ nl) [PStr buf]
  end.
Definition ls_dir (fd : Z) (skip : list Z → bool) (path : list Z) (line : list Z → stat → prog unit) : prog unit :=
  while (λ _ : unit,
    '(r, de) <~ sys (Read fd 16);
    if negb (r =? 16) then Ret (inr tt) else
    if (de_inum de =? 0) || skip de then Ret (inl tt) else
    ls_entry path de line;~ Ret (inl tt)) tt.
Definition ls_with (skip : list Z → bool) (line : list Z → stat → prog unit) (path : list Z) : prog unit :=
  fd <~ sys (Open path 0);
  if fd <? 0 then say 2 ("ls: cannot open %s" ++ nl) [PStr path] else
  '(r, st) <~ sys (Fstat fd);
  if r <? 0 then say 2 ("ls: cannot stat %s" ++ nl) [PStr path];~ sys (Close fd);~ Ret tt else
  (if st_type st =? T_FILE then say 1 ls_line (ls_args path st)
   else if st_type st =? T_DIR then
     if (ls_bufsize <? length path + 1 + DIRSIZ + 1)%nat then say 1 ("ls: path too long" ++ nl) []
     else ls_dir fd skip path line
   else Ret tt);~
  sys (Close fd);~ Ret tt.
Definition ls : list Z → prog unit := ls_with (λ _, false) (λ buf st, say 1 ls_line (ls_args buf st)).
Definition ls_main (argv : list (list Z)) : prog void :=
  say 1 ("argc for ls is : %d " ++ nl) [PInt (Z.of_nat (length argv))];~
  (if (length argv <? 2)%nat then ls (bytes ".") else each ls (tail argv));~ exit.
Definition hidden (de : list Z) : bool :=
  (strcmp (de_name de) (bytes "container_1") =? 0) || (strcmp (de_name de) (bytes "container_2") =? 0) ||
  (strcmp (de_name de) (bytes "container_3") =? 0).
Definition ls_new (path : list Z) : prog unit :=
  pid <~ sys Getpid;
  c <~ sys (Proc_container pid);
  say 1 ("container ls by id : %d" ++ nl) [PInt c];~
  ls_with hidden (λ buf st, say 1 ("%s %d %d %d %d" ++ nl) (ls_args buf st ++ [PInt (st_containerID st)])) path.
Definition ls_new_main (argv : list (list Z)) : prog void :=
  say 1 ("argc for ls is : %d  %s" ++ nl) [PInt (Z.of_nat (length argv)); PStr (hd [] argv)];~
  (if (length argv <? 2)%nat then ls_new (bytes ".") else each ls_new (tail argv));~ exit.

(** ** The assignment's commands *)
Definition add_main : prog void :=
  r <~ sys (Add 3 7);
  say 1 "sum of num1 :%d and num2:%d is %d" [PInt 3; PInt 7; PInt r];~ exit.
Definition ps_main : prog void := sys Ps;~ exit.
Definition toggle_main : prog void := say 1 (nl ++ nl ++ " Toggle called " ++ nl) [];~ sys Toggle;~ exit.
Definition print_count_main : prog void := sys Print_count;~ exit.
Definition shutdown_main : prog void := sys Halt;~ exit.

(** ** cm.c: the container manager *)

(** The number of decimal digits; pid is a 32-bit number, 11 rounds are enough. *)
Fixpoint digits_loop (fuel : nat) (pid size : Z) : Z :=
  match fuel with
  | O => size
  | S fuel => if pid =? 0 then size else digits_loop fuel (Z.quot pid 10) (size + 1)
  end.
(** for(itr = 0; itr < size; itr++), [n] rounds to go. *)
Fixpoint write_digits (n : nat) (itr size pid : Z) (ar : list Z) : list Z :=
  match n with
  | O => ar
  | S n => write_digits n (itr + 1) size (Z.quot pid 10) (<[Z.to_nat (4 + size - itr) := 48 + Z.rem pid 10]> ar)
  end.
(** The array [ar] after the call; the code stores no terminator. *)
Definition fileNameWithPid (pid : Z) (ar : list Z) : list Z :=
  let ar := foldr (λ p ar, <[fst p := snd p]> ar) ar (zip (seq 0 5) (bytes "file_")) in
  let size := digits_loop 11 pid 0 in
  write_digits (Z.to_nat size) 0 size pid ar.
Definition containerWithId (id : Z) (ar : list Z) : list Z :=
  if id =? 0 then bytes " ." ++ [0] ++ drop 3 ar
  else if id >? 0 then
    bytes "container_" ++ [if id =? 1 then 49 else if id =? 2 then 50 else 51; 0] ++ drop 12 ar
  else ar.

(** for(;;) if(check_schedule_log(x)) break; *)
Definition until_logged (x : Z) : prog unit :=
  while (λ _ : unit, r <~ sys (Check_schedule_log x); if negb (r =? 0) then Ret (inr tt) else Ret (inl tt)) tt.
(** for(itr = 0; itr < 3; itr++): a child leaves the loop. *)
Fixpoint fork_three (n : nat) (id : Z) : prog unit :=
  match n with
  | O => Ret tt
  | S n =>
      pid <~ sys Fork;
      if pid =? 0 then sys (Join_container id);~ sys Wait;~ Ret tt else fork_three n id
  end.
(** if(parentPid == getpid()) { fork, the child joins [id] } *)
Definition fork_into (parent id : Z) : prog unit :=
  pid <~ sys Getpid;
  if parent =? pid then
    pid <~ sys Fork;
    if pid =? 0 then sys (Join_container id);~ sys Wait;~ Ret tt else Ret tt
  else Ret tt.
(** while(containerProcessNum(id) != 3 || ...) ; each count is asked for only
    when those before it are as expected. *)
Definition until_joined (id id2 id3 : Z) : prog unit :=
  while (λ _ : unit,
    a <~ sys (ContainerProcessNum id);
    if negb (a =? 3) then Ret (inl tt) else
    b <~ sys (ContainerProcessNum id2);
    if negb (b =? 1) then Ret (inl tt) else
    c <~ sys (ContainerProcessNum id3);
    if negb (c =? 1) then Ret (inl tt) else Ret (inr tt)) tt.
(** A process in a container, up to printf("start ls\n"), whose descriptor is the
    format and whose format was not passed.  [s] is what the array holds; open
    looks for a terminator behind the digits. *)
Definition contained (pid : Z) (s : list Z) : prog void :=
  c <~ sys (Proc_container pid);
  n <~ sys (Proc_container_num pid);
  (if (n =? 3) && (c =? 1) then sys Ps;~ Ret tt
   else
     n <~ sys (Proc_container_num pid);
     if (n =? 1) && negb (c =? 1) then sys Ps;~ Ret tt else Ret tt);~
  until_logged 1;~
  until_logged 0;~
  say 1 ("pid of process %d of Container %d " ++ nl) [PInt pid; PInt c];~
  (let s := fileNameWithPid pid s in
   if bool_decide (0 ∈ s) then sys (Open (Ulib.cstr s) 0x202);~ Ret tt else undef "open: no terminator");~
  undef "printf: no descriptor".
Definition cm_main (s : list Z) : prog void :=
  say 1 (nl ++ nl ++ " Started Container Manager " ++ nl) [];~
  id <~ sys Create_container;
  id2 <~ sys Create_container;
  id3 <~ sys Create_container;
  parent <~ sys Getpid;
  say 1 ("Parets PID: %d " ++ nl) [PInt parent];~
  fork_three 3 id;~
  fork_into parent id2;~
  fork_into parent id3;~
  pid <~ sys Getpid;
  if negb (parent =? pid) then contained pid s
  else
    _ <~ sys (Proc_container pid);
    until_joined id id2 id3;~
    a <~ sys (ContainerProcessNum id3);
    b <~ sys (ContainerProcessNum id2);
    c <~ sys (ContainerProcessNum id);
    say 1 ("proc counts :: %d  :  %d  :  %d " ++ nl) [PInt c; PInt b; PInt a];~
    sys Scheduler_log_on;~
    until_logged 0;~
    sys Wait;~
    exit.

(** ** A world for the programs

    Files with what stat says of them, the descriptors' table (the lowest free
    one is opened), what was written to which descriptor.  Programs that are not
    alone - they fork, wait, change directories - are not run in it: those calls
    fail. *)
Record file := mkFile { f_stat : stat; f_input : input }.
Record world := mkWorld {
  w_files : list Z → option file;
  w_fds : list (option file);
  w_out : list (Z * Z) }.
#[export] Instance set_w_fds : Setter w_fds := λ g w, mkWorld (w_files w) (g (w_fds w)) (w_out w).
#[export] Instance set_w_out : Setter w_out := λ g w, mkWorld (w_files w) (w_fds w) (g (w_out w)).

Definition fd_file (w : world) (fd : Z) : option file := if fd <? 0 then None else w_fds w !! Z.to_nat fd ≫= id.
Definition free_fd (w : world) : option nat := find_idx (λ o : option file, match o with None => true | _ => false end) (w_fds w).
(** What a call answers, if it returns. *)
Definition answer {T} (e : sysE T) (w : world) : option (world * T) :=
  match e in sysE T return option (world * T) with
  | Read fd n =>
      match fd_file w fd with
      | None => Some (w, (-1, []))
      | Some f =>
          let '(l, i) := read_input (Z.to_nat n) (f_input f) in
          Some (w <| w_fds ::= <[Z.to_nat fd := Some (mkFile (f_stat f) i)]> |>, (Z.of_nat (length l), l))
      end
  | Write fd l => Some (w <| w_out ::= λ o, o ++ ((λ c, (fd, c)) <$> l) |>, Z.of_nat (length l))
  | Open path mode =>
      match w_files w path, free_fd w with
      | Some f, Some fd => Some (w <| w_fds ::= <[fd := Some f]> |>, Z.of_nat fd)
      | _, _ => Some (w, -1)
      end
  | Close fd => Some (w <| w_fds ::= <[Z.to_nat fd := None]> |>, 0)
  | Fstat fd =>
      match fd_file w fd with
      | None => Some (w, (-1, mkStat 0 0 0 0 0 0))
      | Some f => Some (w, (0, f_stat f))
      end
  | Exit | Undef _ => None
  | Getpid => Some (w, 1)
  | Proc_container _ => Some (w, 0)
  | _ => Some (w, -1)
  end.

(** The end of a process: what it left. *)
Inductive endE : Type → Type := Exited (w : world) : endE void | Wrong (why : string) : endE void.
Definition ended {A} (w : world) : itree endE A := v <~ ITree.trigger (Exited w); match v : void with end.
Definition wrong {A} (why : string) : itree endE A := v <~ ITree.trigger (Wrong why); match v : void with end.
Definition handle : ∀ T, sysE T → world → itree endE (world * T) := λ T e w,
  match answer e w with
  | Some r => Ret r
  | None => match e with Undef why => wrong why | _ => ended w end
  end.
Definition run {A} (t : prog A) (w : world) : itree endE (world * A) := interp_state handle t w.
(** The program comes to [exit] in world [w']. *)
Definition exits {A} (t : prog A) (w w' : world) : Prop := eutt eq (run t w) (ended w').
(** A part of a program returns [x] in [w']. *)
Definition returns {A} (t : prog A) (w w' : world) (x : A) : Prop := eutt eq (run t w) (Ret (w', x)).

Lemma run_bind {A B} (t : prog A) (k : A → prog B) w w' x : returns t w w' x → eutt eq (run (ITree.bind t k) w) (run (k x) w').
Proof.
  intros H. unfold run, returns in *. rewrite interp_state_bind, H, bind_ret_l. reflexivity.
Qed.
Lemma returns_sys {T} (e : sysE T) w w' x : answer e w = Some (w', x) → returns (sys e) w w' x.
Proof.
  intros H. unfold returns, run. rewrite interp_state_trigger. unfold handle. rewrite H. reflexivity.
Qed.
Lemma returns_ret {A} (x : A) w : returns (Ret x) w w x.
Proof. unfold returns, run. rewrite interp_state_ret. reflexivity. Qed.
Lemma returns_bind {A B} (t : prog A) (k : A → prog B) w w1 w2 x y :
  returns t w w1 x → returns (k x) w1 w2 y → returns (ITree.bind t k) w w2 y.
Proof. intros H1 H2. unfold returns. rewrite (run_bind _ _ _ _ _ H1). exact H2. Qed.
Lemma exits_bind {A B} (t : prog A) (k : A → prog B) w w1 w2 x :
  returns t w w1 x → exits (k x) w1 w2 → exits (ITree.bind t k) w w2.
Proof. intros H1 H2. unfold exits. rewrite (run_bind _ _ _ _ _ H1). exact H2. Qed.
Lemma exits_exit {A} w : exits (@exit A) w w.
Proof.
  unfold exits, run, exit. rewrite interp_state_bind, interp_state_trigger. unfold handle. cbn [answer].
  unfold ended. rewrite bind_bind. apply eutt_eq_bind. intros [].
Qed.
(** One round of a loop. *)
Lemma returns_while {S R} (body : S → prog (S + R)) s w w' w'' s' x :
  returns (body s) w w' (inl s') → returns (while body s') w' w'' x → returns (while body s) w w'' x.
Proof.
  intros H1 H2. unfold returns, while in *. unfold run in *. rewrite unfold_iter, interp_state_bind, H1, bind_ret_l.
  cbn. rewrite interp_state_tau, tau_eutt. exact H2.
Qed.
Lemma returns_while_end {S R} (body : S → prog (S + R)) s w w' x :
  returns (body s) w w' (inr x) → returns (while body s) w w' x.
Proof.
  intros H1. unfold returns, while in *. unfold run in *. rewrite unfold_iter, interp_state_bind, H1, bind_ret_l.
  cbn. rewrite interp_state_ret. reflexivity.
Qed.

(** ** What the formats print *)
Definition udec (x : Z) : list Z := default [] (uprintint x 10 1).
Lemma udec_some x : is_i32 x → uprintint x 10 1 = Some (udec x).
Proof.
  intros Hx. unfold udec. unfold uprintint. change (negb (1 =? 0)) with true. cbn [andb].
  destruct (printed x 10 (x <? 0)) as (ds & Hrun & _); [by left | done | lia |]. specialize (Hrun udigits eq_refl).
  destruct (x <? 0); cbv zeta beta iota in *; by rewrite Hrun.
Qed.
Lemma word_i32 x : is_i32 x → i32 (u32 x) = x.
Proof. unfold i32, u32. intros Hx. zlia. Qed.
Definition cannot_open (prog arg : list Z) : list Z := prog ++ bytes ": cannot open " ++ Ulib.cstr arg ++ [newline].
Lemma cat_cannot arg : printf ("cat: cannot open %s" ++ nl) [PStr arg] = Some (cannot_open (bytes "cat") arg).
Proof. unfold printf. cbn - [Ulib.cstr]. done. Qed.
Lemma wc_cannot arg : printf ("wc: cannot open %s" ++ nl) [PStr arg] = Some (cannot_open (bytes "wc") arg).
Proof. unfold printf. cbn - [Ulib.cstr]. done. Qed.
Lemma wc_format l w c name : is_i32 l → is_i32 w → is_i32 c →
  printf ("%d %d %d %s" ++ nl) [PInt l; PInt w; PInt c; PStr name] =
    Some (udec l ++ [32] ++ udec w ++ [32] ++ udec c ++ [32] ++ Ulib.cstr name ++ [newline]).
Proof.
  intros Hl Hw Hc. unfold printf. change (bytes ("%d %d %d %s" ++ nl)) with [37; 100; 32; 37; 100; 32; 37; 100; 32; 37; 115; 10].
  cbn - [Ulib.cstr uprintint u32 i32].
  rewrite !word_i32 by done. rewrite !udec_some by done. cbn. done.
Qed.

#[local] Opaque printf.

(** ** Writing *)
Definition to_fd (fd : Z) (l : list Z) : list (Z * Z) := (λ c, (fd, c)) <$> l.
(** The world after [l] was written. *)
Definition with_out (l : list (Z * Z)) (w : world) : world := w <| w_out ::= λ o, o ++ l |>.
Lemma with_out_nil w : with_out [] w = w.
Proof. destruct w. unfold with_out, set, set_w_out. cbn. by rewrite app_nil_r. Qed.
Lemma with_out_app l1 l2 w : with_out l2 (with_out l1 w) = with_out (l1 ++ l2) w.
Proof. destruct w. unfold with_out, set, set_w_out. cbn. by rewrite app_assoc. Qed.
Lemma returns_write fd l w : returns (sys (Write fd l)) w (with_out (to_fd fd l) w) (Z.of_nat (length l)).
Proof. by apply returns_sys. Qed.
Lemma returns_puts fd l : ∀ w, returns (puts fd l) w (with_out (to_fd fd l) w) tt.
Proof.
  induction l as [| c l IH]; intros w; [rewrite with_out_nil; apply returns_ret |].
  eapply returns_bind; [apply returns_write |]. cbn beta.
  change (to_fd fd (c :: l)) with (to_fd fd [c] ++ to_fd fd l). rewrite <- with_out_app. apply IH.
Qed.
Lemma returns_say fd fmt args l w : printf fmt args = Some l → returns (say fd fmt args) w (with_out (to_fd fd l) w) tt.
Proof. intros H. unfold say. rewrite H. apply returns_puts. Qed.
Lemma to_fd_app fd l1 l2 : to_fd fd (l1 ++ l2) = to_fd fd l1 ++ to_fd fd l2.
Proof. apply fmap_app. Qed.

(** ** Reading a file to its end *)
Definition put_file (fd : Z) (f : option file) (w : world) : world := w <| w_fds ::= <[Z.to_nat fd := f]> |>.
Lemma put_file_twice fd f g w : put_file fd f (put_file fd g w) = put_file fd f w.
Proof. destruct w. unfold put_file, set, set_w_fds. cbn. by rewrite list_insert_insert_eq. Qed.
Lemma put_out fd f l w : put_file fd f (with_out l w) = with_out l (put_file fd f w).
Proof. by destruct w. Qed.
Lemma fd_file_put fd f g w : fd_file w fd = Some g → fd_file (put_file fd f w) fd = f.
Proof.
  unfold fd_file. destruct (fd <? 0); [done |]. destruct (w_fds w !! Z.to_nat fd) as [x |] eqn:E; [| done]. intros _.
  unfold put_file. cbn. by rewrite list_lookup_insert_eq by (by eapply lookup_lt_Some).
Qed.
Lemma fd_file_out fd l w : fd_file (with_out l w) fd = fd_file w fd.
Proof. by destruct w. Qed.

(** One read of [n] bytes: the first bytes and what is left, or the end. *)
Lemma returns_read fd n w st i : fd_file w fd = Some (mkFile st i) → 0 < n → Forall (λ c, (0 < c)%nat) (in_caps i) →
  ∃ l i', returns (sys (Read fd n)) w (put_file fd (Some (mkFile st i')) w) (Z.of_nat (length l), l) ∧
    in_data i = l ++ in_data i' ∧ (l = [] ↔ in_data i = []) ∧ Forall (λ c, (0 < c)%nat) (in_caps i').
Proof.
  intros Hf Hn Hc. destruct (read_input (Z.to_nat n) i) as [l i'] eqn:E. exists l, i'. split.
  - apply returns_sys. cbn [answer]. rewrite Hf. cbn [f_input f_stat]. by rewrite E.
  - unfold read_input in E. injection E as <- <-. cbn [in_data in_caps].
    set (k := Nat.min (Z.to_nat n) (hd (Z.to_nat n) (in_caps i))).
    assert (0 < k)%nat by (unfold k; destruct Hc as [| c cs ? ?]; cbn; lia).
    split; [by rewrite take_drop |]. split; [| by destruct Hc].
    destruct (in_data i); [by rewrite take_nil |]. destruct k; [lia | done].
Qed.

(** A loop that reads to the end, folding [f] over the state and writing [o]. *)
Lemma drain {S R} fd (body : S → Z → list Z → prog (S + R)) (f : S → list Z → S) (o : list Z → list (Z * Z)) (fin : S → R) :
  (∀ s l w, l ≠ [] → returns (body s (Z.of_nat (length l)) l) w (with_out (o l) w) (inl (f s l))) →
  (∀ s w, returns (body s 0 []) w w (inr (fin s))) →
  (∀ l1 l2, o (l1 ++ l2) = o l1 ++ o l2) → (∀ s l1 l2, f s (l1 ++ l2) = f (f s l1) l2) → o [] = [] → (∀ s, f s [] = s) →
  ∀ m s w st i, (length (in_data i) ≤ m)%nat → fd_file w fd = Some (mkFile st i) → Forall (λ c, (0 < c)%nat) (in_caps i) →
  ∃ i', returns (while (λ s, '(n, buf) <~ sys (Read fd cat_buf); body s n buf) s) w
      (with_out (o (in_data i)) (put_file fd (Some (mkFile st i')) w)) (fin (f s (in_data i))) ∧ in_data i' = [].
Proof.
  intros Hon Hoff Ho Hf Ho0 Hf0. induction m as [| m IH]; intros s w st i Hm Hi Hc;
    destruct (returns_read fd cat_buf w st i Hi ltac:(done) Hc) as (l & i1 & R1 & Hd & Hnil & Hc1).
  - assert (in_data i = []) as Hz by (destruct (in_data i); [done | cbn in Hm; lia]).
    rewrite (proj2 Hnil Hz) in *. exists i1. rewrite Hz in *. rewrite Ho0, Hf0, with_out_nil. split; [| done].
    apply returns_while_end. eapply returns_bind; [exact R1 | apply Hoff].
  - destruct (decide (l = [])) as [-> | Hl].
    + rewrite (proj1 Hnil eq_refl) in *. exists i1. rewrite Ho0, Hf0, with_out_nil. split; [| done].
      apply returns_while_end. eapply returns_bind; [exact R1 | apply Hoff].
    + set (w1 := put_file fd (Some (mkFile st i1)) w) in *.
      destruct (IH (f s l) (with_out (o l) w1) st i1) as (i2 & R2 & Hz2); [| | done |].
      * rewrite Hd, length_app in Hm. destruct l; [done | cbn in Hm; lia].
      * rewrite fd_file_out. by apply (fd_file_put _ _ _ _ Hi).
      * exists i2. split; [| done]. eapply returns_while.
        -- eapply returns_bind; [exact R1 |]. by apply Hon.
        -- rewrite Hd, Ho, Hf, <- with_out_app. unfold w1 in R2. by rewrite put_out, put_file_twice in R2.
Qed.

Lemma cat_run fd w st i : fd_file w fd = Some (mkFile st i) → Forall (λ c, (0 < c)%nat) (in_caps i) →
  ∃ i', returns (cat fd) w (with_out (to_fd 1 (in_data i)) (put_file fd (Some (mkFile st i')) w)) tt ∧ in_data i' = [].
Proof.
  intros Hf Hc.
  destruct (drain fd (λ _ n buf, if n >? 0 then
        r <~ sys (Write 1 buf);
        if negb (r =? n) then say 1 ("cat: write error" ++ nl) [];~ exit else Ret (inl tt)
      else Ret (inr n)) (λ s _, s) (to_fd 1) (λ _, 0)) with (m := length (in_data i)) (s := tt) (w := w) (st := st) (i := i)
    as (i' & R & Hz); try done.
  - intros s l w1 Hl. rewrite (proj2 (Z.gtb_lt _ _)) by (destruct l; [done | cbn; lia]).
    eapply returns_bind; [apply returns_write |]. cbn beta. rewrite Z.eqb_refl. destruct s. apply returns_ret.
  - intros s w1. apply returns_ret.
  - apply to_fd_app.
  - exists i'. split; [| done]. eapply returns_bind; [exact R | apply returns_ret].
Qed.

(** What wc prints of a file. *)
Definition wc_counts (data : list Z) : counts := foldl wc_char (mkCounts 0 0 0 false) data.
Definition wc_line (name data : list Z) : option (list Z) :=
  let x := wc_counts data in
  printf ("%d %d %d %s" ++ nl) [PInt (l_count x); PInt (w_count x); PInt (c_count x); PStr name].
Lemma wc_run fd name w st i out : fd_file w fd = Some (mkFile st i) → Forall (λ c, (0 < c)%nat) (in_caps i) →
  wc_line name (in_data i) = Some out →
  ∃ i', returns (wc fd name) w (with_out (to_fd 1 out) (put_file fd (Some (mkFile st i')) w)) tt ∧ in_data i' = [].
Proof.
  intros Hf Hc Hout.
  destruct (drain fd (λ x n buf, if n >? 0 then Ret (inl (foldl wc_char x buf)) else Ret (inr (n, x)))
    (λ x l, foldl wc_char x l) (λ _, []) (λ x, (0, x))) with (m := length (in_data i)) (s := mkCounts 0 0 0 false) (w := w) (st := st) (i := i)
    as (i' & R & Hz); try done.
  - intros s l w1 Hl. rewrite (proj2 (Z.gtb_lt _ _)) by (destruct l; [done | cbn; lia]). cbv beta iota. rewrite (with_out_nil w1). exact (returns_ret (inl (foldl wc_char s l)) w1).
  - intros s w1. apply returns_ret.
  - intros. by rewrite foldl_app.
  - exists i'. split; [| done]. eapply returns_bind; [exact R |]. cbv beta iota. rewrite (with_out_nil (put_file _ _ _)).
    unfold wc_line, wc_counts in Hout. cbv zeta in Hout. apply returns_say. exact Hout.

Qed.

(** ** Counting *)
Definition is_space (c : Z) : bool := bool_decide (c ∈ space_chars).
(** The stretches between the spaces; a word is one that is not empty. *)
Fixpoint fields (l : list Z) : list (list Z) :=
  match l with
  | [] => [[]]
  | c :: l =>
      if is_space c then [] :: fields l
      else match fields l with [] => [[c]] | e :: es => (c :: e) :: es end
  end.
Definition words (l : list Z) : list (list Z) := filter (λ e, e ≠ []) (fields l).
Definition lines (l : list Z) : Z := Z.of_nat (length (filter (λ c, c = newline) l)).

Lemma strchr_elem l c : 0 ∉ l → match strchr l c with Some _ => true | None => false end = bool_decide (c ∈ l).
Proof.
  induction l as [| x l IH]; intros H0; [done |]. apply not_elem_of_cons in H0 as [Hx H0]. cbn.
  rewrite (proj2 (Z.eqb_neq x 0)) by congruence. destruct (Z.eqb_spec x c) as [-> | Hne].
  - symmetry. apply bool_decide_eq_true. left.
  - specialize (IH H0). destruct (strchr l c); cbn in *; rewrite IH; apply bool_decide_ext; rewrite elem_of_cons;
      (split; [by right | intros [|]; congruence]).
Qed.
Lemma strchr_space c : match strchr space_chars c with Some _ => true | None => false end = is_space c.
Proof. apply strchr_elem. unfold space_chars. rewrite !not_elem_of_cons. repeat split; try done. apply not_elem_of_nil. Qed.
Lemma fields_cons l : ∃ e es, fields l = e :: es.
Proof. destruct l as [| c l]; cbn; [by do 2 eexists |]. destruct (is_space c); [by do 2 eexists |]. destruct (fields l); by do 2 eexists. Qed.

Lemma words_length l : (length (words l) ≤ length l)%nat.
Proof.
  unfold words. induction l as [| c l IH]; [done |]. cbn [fields]. destruct (is_space c).
  - rewrite (filter_cons_False (λ e, e ≠ []) []) by (intros H; exact (H eq_refl)). cbn [length]. lia.
  - destruct (fields_cons l) as (e & es & He). rewrite He in *. rewrite (filter_cons_True (λ e, e ≠ []) (c :: e)) by done.
    cbn [length]. pose proof (filter_cons (λ e : list Z, e ≠ []) e es) as Hc. cbn beta in Hc. rewrite Hc in IH. destruct (decide (e ≠ [])); cbn in IH; lia.
Qed.
(** The word that is being read counts once. *)
Definition open_word (inw : bool) (l : list Z) : Z :=
  if inw then match fields l with [] :: _ => 0 | _ => 1 end else 0.
Lemma wc_fold data : ∀ x,
  0 ≤ l_count x → 0 ≤ w_count x → 0 ≤ c_count x →
  c_count x + Z.of_nat (length data) < 2147483648 → l_count x ≤ c_count x → w_count x ≤ c_count x →
  foldl wc_char x data = mkCounts (l_count x + lines data)
    (w_count x + Z.of_nat (length (words data)) - open_word (inword x) data) (c_count x + Z.of_nat (length data))
    (match last data with Some c => negb (is_space c) | None => inword x end).
Proof.
  induction data as [| ch data IH]; intros x Hl Hw Hc Hb Hlc Hwc.
  { destruct x as [l w c b]. assert (words [] = []) as -> by done. assert (open_word b [] = 0) as Ho by (by destruct b).
    unfold lines. cbn [inword l_count w_count c_count foldl length filter last]. rewrite Ho. cbn. f_equal; lia. }
  cbn [length] in Hb. rewrite last_cons. cbn [foldl].
  assert (Hi : ∀ z, 0 ≤ z ≤ c_count x → i32 (z + 1) = z + 1) by (intros; apply i32_id; unfold is_i32; lia).
  assert (Hlines : lines (ch :: data) = lines data + if ch =? newline then 1 else 0).
  { unfold lines. rewrite filter_cons. destruct (Z.eqb_spec ch newline); [rewrite decide_True by done; cbn; lia | rewrite decide_False by done; lia]. }
  assert (Hx : wc_char x ch = mkCounts (l_count x + if ch =? newline then 1 else 0)
    (w_count x + if is_space ch || inword x then 0 else 1) (c_count x + 1) (negb (is_space ch))).
  { unfold wc_char. rewrite !Hi by lia. pose proof (strchr_space ch) as Hs.
    assert (Hl0 : (if ch =? newline then l_count x + 1 else l_count x) = l_count x + if ch =? newline then 1 else 0)
      by (destruct (ch =? newline); lia). rewrite Hl0.
    destruct (strchr space_chars ch); rewrite <- Hs; cbn [orb negb]; [| destruct (inword x)]; f_equal; lia. }
  rewrite Hx, IH; cbn [l_count w_count c_count inword]; [| (destruct (ch =? newline), (is_space ch || inword x)%bool; lia)..].
  rewrite Hlines. destruct (fields_cons data) as (e & es & He).
  f_equal; [lia | | cbn [length]; lia | by destruct (last data)].
  unfold words, open_word. cbn [fields]. rewrite He. destruct (is_space ch) eqn:Es; cbn [negb orb].
  - rewrite (filter_cons_False (λ e, e ≠ []) []) by (intros H; exact (H eq_refl)). destruct (inword x); lia.
  - rewrite (filter_cons_True (λ e, e ≠ []) (ch :: e)) by done. destruct e as [| y e].
    + rewrite (filter_cons_False (λ e, e ≠ []) []) by (intros H; exact (H eq_refl)). cbn [length]. destruct (inword x); lia.
    + rewrite (filter_cons_True (λ e, e ≠ []) (y :: e)) by done. cbn [length]. destruct (inword x); lia.
Qed.

Lemma wc_counted data : Z.of_nat (length data) < 2147483648 →
  let x := wc_counts data in
  l_count x = lines data ∧ w_count x = Z.of_nat (length (words data)) ∧ c_count x = Z.of_nat (length data).
Proof.
  intros H x. unfold x, wc_counts. rewrite wc_fold by (cbn; lia). cbn. unfold lines, open_word. split_and!; lia.
Qed.

(** ** A program that treats one file after the other *)

(** What is written: the output for each file up to the first that cannot be
    opened, then the message about that one. *)
Fixpoint outputs (one : list Z → option (list Z)) (bad : list Z → list Z) (args : list (list Z)) : list Z :=
  match args with
  | [] => []
  | arg :: args => match one arg with Some o => o ++ outputs one bad args | None => bad arg end
  end.
Lemma exits_bind_exit {A B} (t : prog A) (k : A → prog B) w w' : exits t w w' → exits (ITree.bind t k) w w'.
Proof.
  intros H. unfold exits, run in *. rewrite interp_state_bind, H. unfold ended. rewrite bind_bind.
  apply eutt_eq_bind. intros [].
Qed.
Lemma each_exits f one bad w : (∀ arg l,
    match one arg with
    | Some o => returns (f arg) (with_out l w) (with_out (l ++ to_fd 1 o) w) tt
    | None => exits (f arg) (with_out l w) (with_out (l ++ to_fd 1 (bad arg)) w)
    end) → ∀ args l, exits (each f args;~ @exit void) (with_out l w) (with_out (l ++ to_fd 1 (outputs one bad args)) w).
Proof.
  intros Hf. induction args as [| arg args IH]; intros l; cbn [each outputs].
  - rewrite app_nil_r. eapply exits_bind; [apply returns_ret | apply exits_exit].
  - specialize (Hf arg l). destruct (one arg) as [o |].
    + unfold exits. unfold run. rewrite bind_bind. change (exits (f arg;~ each f args;~ @exit void) (with_out l w)
        (with_out (l ++ to_fd 1 (o ++ outputs one bad args)) w)).
      eapply exits_bind; [exact Hf |]. cbn beta. rewrite to_fd_app, app_assoc. apply IH.
    + apply exits_bind_exit, exits_bind_exit. exact Hf.
Qed.

Corollary each_all f one bad w args : (∀ arg l,
    match one arg with
    | Some o => returns (f arg) (with_out l w) (with_out (to_fd 1 o) (with_out l w)) tt
    | None => exits (f arg) (with_out l w) (with_out (to_fd 1 (bad arg)) (with_out l w))
    end) → exits (each f args;~ @exit void) w (with_out (to_fd 1 (outputs one bad args)) w).
Proof.
  intros Hf. rewrite <- (with_out_nil w) at 1. apply (each_exits f one bad w) with (l := []).
  intros arg l. specialize (Hf arg l). destruct (one arg); by rewrite with_out_app in Hf.
Qed.

Lemma fd_free w k : free_fd w = Some k → w_fds w !! k = Some None.
Proof. intros H. apply find_idx_Some in H as [([x |] & Hx & ?) _]; done. Qed.
Lemma open_each (body : Z → prog unit) (bad : prog unit) arg f f' k out w :
  w_files w arg = Some f → free_fd w = Some k →
  returns (body (Z.of_nat k)) (put_file (Z.of_nat k) (Some f) w)
    (with_out out (put_file (Z.of_nat k) (Some f') (put_file (Z.of_nat k) (Some f) w))) tt →
  returns (fd <~ sys (Open arg 0); if fd <? 0 then bad else body fd;~ sys (Close fd);~ Ret tt) w (with_out out w) tt.
Proof.
  intros Ha Hk Hb. eapply returns_bind.
  { apply returns_sys. cbn [answer]. rewrite Ha, Hk. reflexivity. }
  cbn beta. rewrite (proj2 (Z.ltb_ge _ _)) by lia.
  assert (Hput : set w_fds <[k := Some f]> w = put_file (Z.of_nat k) (Some f) w) by (unfold put_file; by rewrite Nat2Z.id).
  rewrite Hput. eapply returns_bind; [exact Hb |]. cbn beta.
  eapply returns_bind; [apply returns_sys; reflexivity |]. cbn beta.
  match goal with |- returns _ ?x _ _ => assert (x = with_out out w) as -> end; [| apply returns_ret].
  change (put_file (Z.of_nat k) None (with_out out (put_file (Z.of_nat k) (Some f') (put_file (Z.of_nat k) (Some f) w))) = with_out out w).
  rewrite put_out, !put_file_twice. f_equal. unfold put_file, set, set_w_fds. destruct w as [fs fds o]. cbn. f_equal.
  rewrite Nat2Z.id. apply list_insert_id. by apply (fd_free (mkWorld fs fds o)).
Qed.
Lemma fd_file_opened f k w : free_fd w = Some k → fd_file (put_file (Z.of_nat k) (Some f) w) (Z.of_nat k) = Some f.
Proof.
  intros Hk%fd_free. unfold fd_file. rewrite (proj2 (Z.ltb_ge _ _)) by lia. unfold put_file. cbn. rewrite Nat2Z.id.
  by rewrite list_lookup_insert_eq by (by eapply lookup_lt_Some).
Qed.
Lemma exits_cannot arg (rest : Z → prog unit) fmt msg w : w_files w arg = None → printf fmt [PStr arg] = Some msg →
  exits (fd <~ sys (Open arg 0); if fd <? 0 then say 1 fmt [PStr arg];~ exit else rest fd) w (with_out (to_fd 1 msg) w).
Proof.
  intros Ha Hm. eapply exits_bind. { apply returns_sys. cbn [answer]. by rewrite Ha. }
  cbn beta. change (-1 <? 0) with true. cbv iota. eapply exits_bind; [apply returns_say; exact Hm | apply exits_exit].
Qed.

(** Every open file delivers something at every read before its end. *)
Definition flowing (w : world) : Prop := ∀ arg f, w_files w arg = Some f → Forall (λ c, (0 < c)%nat) (in_caps (f_input f)).

(** cat writes the files named on its command line one after the other to
    descriptor 1, every byte once and in order, however the reads split them; at
    the first that cannot be opened it says so and exits.  All descriptors are
    closed again. *)
Theorem cat_files prog args w k :
  args ≠ [] → free_fd w = Some k → flowing w →
  exits (cat_main (prog :: args)) w
    (with_out (to_fd 1 (outputs (λ arg, in_data ∘ f_input <$> w_files w arg) (cannot_open (bytes "cat")) args)) w).
Proof.
  intros Hargs Hk Hflow. unfold cat_main. destruct args as [| a args]; [done |]. cbn [length Nat.leb tail].
  apply each_all. intros arg l.
  destruct (w_files w arg) as [[st i] |] eqn:Ha; cbn [fmap option_fmap option_map].
  - set (w1 := with_out l w).
    destruct (cat_run (Z.of_nat k) (put_file (Z.of_nat k) (Some (mkFile st i)) w1) st i) as (i' & R & _).
    + by apply fd_file_opened.
    + apply (Hflow arg _ Ha).
    + eapply open_each; [exact Ha | exact Hk | exact R].
  - apply exits_cannot; [exact Ha | apply cat_cannot].
Qed.

(** C32: wc prints for every file the number of newlines, of words - the stretches
    between blanks, tabs, returns, newlines and vertical tabs that are not empty -
    and of bytes, however the reads split the text, words included. *)
Theorem wc_files prog args w k :
  args ≠ [] → free_fd w = Some k → flowing w →
  (∀ arg f, w_files w arg = Some f → Z.of_nat (length (in_data (f_input f))) < 2147483648) →
  exits (wc_main (prog :: args)) w
    (with_out (to_fd 1 (outputs (λ arg, (λ f, let data := in_data (f_input f) in
        udec (lines data) ++ [32] ++ udec (Z.of_nat (length (words data))) ++ [32] ++
        udec (Z.of_nat (length data)) ++ [32] ++ Ulib.cstr arg ++ [newline]) <$> w_files w arg)
      (cannot_open (bytes "wc")) args)) w).
Proof.
  intros Hargs Hk Hflow Hlen. unfold wc_main. destruct args as [| a args]; [done |]. cbn [length Nat.leb tail].
  apply each_all. intros arg l.
  destruct (w_files w arg) as [[st i] |] eqn:Ha; cbn [fmap option_fmap option_map].
  - set (w1 := with_out l w). specialize (Hlen arg _ Ha). cbn [f_input] in Hlen |- *.
    destruct (wc_counted (in_data i) Hlen) as (Hl & Hw & Hc).
    destruct (wc_run (Z.of_nat k) arg (put_file (Z.of_nat k) (Some (mkFile st i)) w1) st i
      (udec (lines (in_data i)) ++ [32] ++ udec (Z.of_nat (length (words (in_data i)))) ++ [32] ++
        udec (Z.of_nat (length (in_data i))) ++ [32] ++ Ulib.cstr arg ++ [newline])) as (i' & R & _).
    + by apply fd_file_opened.
    + apply (Hflow arg _ Ha).
    + unfold wc_line. cbv zeta. rewrite Hl, Hw, Hc.
      assert (Hlines : 0 ≤ lines (in_data i) ≤ Z.of_nat (length (in_data i))).
      { unfold lines. pose proof (length_filter (λ c, c = newline) (in_data i)). lia. }
      apply wc_format; unfold is_i32; [lia | | lia].
      pose proof (words_length (in_data i)). lia.
    + eapply open_each; [exact Ha | exact Hk | exact R].
  - apply exits_cannot; [exact Ha | apply wc_cannot].
Qed.

(** ** init *)
Definition harmless {T} (e : sysE T) : Prop := match e with Exit | Undef _ | Fork => False | _ => True end.
Inductive aliveF (r : prog void → Prop) : itree' sysE void → Prop :=
  | alive_tau t : r t → aliveF r (TauF t)
  | alive_fork k : (∀ pid, 0 < pid → r (k pid)) → aliveF r (VisF Fork k)
  | alive_vis T (e : sysE T) k : harmless e → (∀ x, r (k x)) → aliveF r (VisF e k).
Definition alive_gen (r : prog void → Prop) (t : prog void) : Prop := aliveF r (observe t).
Definition alive (t : prog void) : Prop := paco1 alive_gen bot1 t.
Lemma alive_gen_mon : monotone1 alive_gen.
Proof. intros t r r' H LE. unfold alive_gen in *. destruct H; constructor; auto. Qed.
#[local] Hint Resolve alive_gen_mon : paco.


(** A principle: [X] is a set of programs, taken up to strong bisimulation, each
    of which makes a step and comes back to the set after finitely many. *)
Inductive unroll (X : prog void → Prop) : prog void → Prop :=
  | un_here t t' : eq_itree eq t t' → X t' → unroll X t
  | un_tau t t' : eq_itree eq t (Tau t') → unroll X t' → unroll X t
  | un_fork t k : eq_itree eq t (ITree.bind (sys Fork) k) → (∀ pid, 0 < pid → unroll X (k pid)) → unroll X t
  | un_sys t T (e : sysE T) k : eq_itree eq t (ITree.bind (sys e) k) → harmless e → (∀ x, unroll X (k x)) → unroll X t.
Lemma unroll_eq X t t' : eq_itree eq t t' → unroll X t' → unroll X t.
Proof.
  intros H U. destruct U as [t' t0 E ? | t' t0 E ? | t' k E ? | t' T e k E ? ?].
  - eapply un_here; [by rewrite H | done].
  - eapply un_tau; [by rewrite H | done].
  - eapply un_fork; [by rewrite H | done].
  - eapply un_sys; [by rewrite H | done | done].
Qed.
Lemma observe_sys {T} (e : sysE T) (k : T → prog void) (t : prog void) : eq_itree eq t (ITree.bind (sys e) k) →
  ∃ k', observe t = VisF e k' ∧ ∀ x, eq_itree eq (k' x) (k x).
Proof.
  intros H. assert (eq_itree eq t (Vis e k)) as H' by (rewrite H; apply bind_trigger).
  apply eqitree_inv_Vis_r in H' as (k' & Ht & Hk). exists k'. by split.
Qed.
Definition stepping (X : prog void → Prop) (t : prog void) : Prop :=
  ∃ T (e : sysE T) k, eq_itree eq t (ITree.bind (sys e) k) ∧ harmless e ∧ ∀ x, unroll X (k x).
Lemma alive_unroll X : (∀ t, X t → stepping X t) → ∀ t, unroll X t → alive t.
Proof.
  intros HX. unfold alive. pcofix CIH. intros t U. pfold. unfold alive_gen.
  assert (Hsys : ∀ T (e : sysE T) k, eq_itree eq t (ITree.bind (sys e) k) → harmless e → (∀ x, unroll X (k x)) →
    aliveF (upaco1 alive_gen r) (observe t)).
  { intros T e k E He Hk. destruct (observe_sys _ _ _ E) as (k' & -> & Hk'). apply alive_vis; [done |]. intros x. right.
    apply CIH. apply (unroll_eq _ _ (k x)); [apply Hk' | apply Hk]. }
  destruct U as [t t' E HXt | t t' E U | t k E Hk | t T e k E He Hk].
  - destruct (HX _ HXt) as (T & e & k & E' & He & Hk). apply (Hsys T e k); [by rewrite E | done | done].
  - apply eqitree_inv_Tau_r in E as (t1 & -> & E). constructor. right. apply CIH. exact (unroll_eq _ _ _ E U).
  - destruct (observe_sys _ _ _ E) as (k' & -> & Hk'). apply alive_fork. intros pid Hp. right. apply CIH.
    eapply unroll_eq; [apply Hk' | by apply Hk].
  - by apply (Hsys T e k).
Qed.

Lemma unroll_sys X {T} (e : sysE T) k : harmless e → (∀ x, unroll X (k x)) → unroll X (ITree.bind (sys e) k).
Proof. intros He Hk. by apply (un_sys X _ T e k). Qed.
Lemma unroll_puts X fd l k : unroll X (k tt) → unroll X (ITree.bind (puts fd l) k).
Proof.
  intros H. induction l as [| c l IH]; cbn [puts].
  - apply (unroll_eq _ _ (k tt)); [apply bind_ret_l | done].
  - eapply unroll_eq; [apply bind_bind |]. by apply unroll_sys.
Qed.
Lemma unroll_say X fd fmt args l k : printf fmt args = Some l → unroll X (k tt) → unroll X (ITree.bind (say fd fmt args) k).
Proof. intros H Hk. unfold say. rewrite H. by apply unroll_puts. Qed.

(** Where init can be: before it starts the shell, and waiting for its children. *)
Definition init_at (t : prog void) : Prop :=
  t = init_round ∨ ∃ pid, t = (reap_zombies pid;~ Tau init_round).

Lemma stepping_write (X : prog void → Prop) fd c l f (K : unit + void → prog void) t :
  eq_itree eq t (ITree.bind (ITree.bind (puts fd (c :: l)) f) K) → unroll X (ITree.bind (f tt) K) → stepping X t.
Proof.
  intros E H. exists Z, (Write fd [c]), (λ _, ITree.bind (puts fd l) (λ x, ITree.bind (f x) K)).
  split; [| split; [done |]].
  - rewrite E. cbn [puts]. rewrite !bind_bind. reflexivity.
  - intros _. by apply unroll_puts.
Qed.
Lemma starting : ∃ l, printf ("init: starting sh" ++ nl) [] = Some (105 :: l).
Proof. eexists. vm_compute. reflexivity. Qed.
Lemma zombie : ∃ l, printf ("zombie!" ++ nl) [] = Some l.
Proof. eexists. vm_compute. reflexivity. Qed.

Lemma init_steps t : init_at t → stepping init_at t.
Proof.
  intros [-> | (pid & ->)].
  - destruct starting as (l & Hl). eapply (stepping_write init_at 1 105 l).
    { unfold init_round, while. rewrite unfold_iter. unfold say at 1. rewrite Hl. reflexivity. }
    eapply unroll_eq; [apply bind_bind |]. eapply un_fork; [reflexivity |]. intros pid Hpid.
    cbn beta. rewrite (proj2 (Z.ltb_ge pid 0)), (proj2 (Z.eqb_neq pid 0)) by lia.
    eapply un_here; [| right; exists pid; reflexivity].
    rewrite bind_bind. apply eqit_bind; [reflexivity |]. intros []. rewrite bind_ret_l. reflexivity.
  - exists Z, Wait. eexists. split; [| split; [done |]].
    { unfold reap_zombies at 1, while. rewrite unfold_iter, !bind_bind. reflexivity. }
    intros wpid. cbn beta. destruct ((wpid >=? 0) && negb (wpid =? pid))%bool.
    + destruct zombie as (l & Hl). eapply unroll_eq; [rewrite !bind_bind; reflexivity |].
      eapply unroll_say; [exact Hl |]. eapply un_tau.
      { rewrite !bind_ret_l, bind_tau. reflexivity. }
      eapply un_here; [reflexivity | right; by exists pid].
    + eapply un_tau; [rewrite !bind_ret_l; reflexivity |]. eapply un_here; [reflexivity | by left].
Qed.

(** C22: init never ends.  As long as fork delivers process numbers, there is no
    run of init - whatever the other calls answer, whichever and however many
    children it is told of - that comes to exit or to something undefined. *)
Theorem init_alive : alive init_main.
Proof.
  apply (alive_unroll init_at init_steps). unfold init_main. apply unroll_sys; [done |]. intros fd.
  assert (H : unroll init_at (sys (Dup 0);~ sys (Dup 0);~ init_round)).
  { do 2 (apply unroll_sys; [done |]; intros _). eapply un_here; [reflexivity | by left]. }
  destruct (fd <? 0).
  - eapply unroll_eq; [rewrite !bind_bind; reflexivity |]. apply unroll_sys; [done |]. intros _.
    eapply unroll_eq; [rewrite !bind_bind; reflexivity |]. apply unroll_sys; [done |]. intros _.
    eapply unroll_eq; [apply bind_ret_l | exact H].
  - eapply unroll_eq; [apply bind_ret_l | exact H].
Qed.

(** ** ls *)
Lemma name_start_spec path : ∀ n, (n ≤ S (length path))%nat →
  let k := name_start path n in
  (k ≤ n)%nat ∧ (0 < k → path !! (k - 1)%nat = Some slash)%nat ∧ ∀ j, (k ≤ j < n)%nat → nth j path 0 ≠ slash.
Proof.
  induction n as [| n IH]; intros Hn; cbn [name_start]; [split_and!; [lia | lia | intros; lia] |].
  destruct (Z.eqb_spec (nth n path 0) slash) as [He | Hne].
  - split; [done |]. split; [| intros; lia]. intros _. rewrite Nat.sub_succ, Nat.sub_0_r. rewrite nth_lookup in He.
    destruct (path !! n); cbn in He; [by subst | done].
  - destruct (IH ltac:(lia)) as (H1 & H2 & H3). split; [lia |]. split; [done |]. intros j Hj.
    destruct (decide (j = n)) as [-> |]; [done | apply H3; lia].
Qed.

(** fmtname gives what follows the last slash, with blanks up to 14 characters. *)
Theorem fmtname_spec dir name : slash ∉ name → dir = [] ∨ last dir = Some slash →
  fmtname (dir ++ name) = name ++ replicate (DIRSIZ - length name) 32.
Proof.
  intros Hname Hdir. unfold fmtname. set (path := dir ++ name).
  destruct (name_start_spec path (S (length path)) ltac:(lia)) as (H1 & H2 & H3). set (k := name_start _ _) in *.
  assert (k = length dir) as Hk.
  { destruct (Nat.lt_trichotomy k (length dir)) as [Hlt | [Heq | Hgt]]; [| done |].
    - exfalso. destruct Hdir as [-> | Hl]; [cbn in Hlt; lia |]. apply (H3 (length dir - 1)%nat).
      + unfold path. rewrite length_app. lia.
      + rewrite last_lookup in Hl. rewrite nth_lookup. unfold path. rewrite lookup_app_l by lia.
        replace (length dir - 1)%nat with (pred (length dir)) by lia. by rewrite Hl.
    - exfalso. specialize (H2 ltac:(lia)). unfold path in H2. rewrite lookup_app_r in H2 by lia.
      apply Hname. by eapply list_elem_of_lookup_2. }
  rewrite Hk. unfold path. rewrite drop_app_length. destruct (Nat.leb_spec DIRSIZ (length name)) as [Hl | Hl]; [| done].
  replace (DIRSIZ - length name)%nat with O by lia. by rewrite app_nil_r.
Qed.

(** ** cm *)
Fixpoint dec (n : nat) (pid : Z) : list Z :=
  match n with O => [] | S n => dec n (pid / 10) ++ [48 + pid mod 10] end.
Lemma dec_length n : ∀ pid, length (dec n pid) = n.
Proof. induction n as [| n IH]; intros pid; [done |]. cbn [dec]. rewrite length_app, IH. cbn. lia. Qed.
Lemma dec_numeral n : ∀ pid, 0 ≤ pid → numeral 10 ((λ c, c - 48) <$> dec n pid) = pid mod 10 ^ Z.of_nat n.
Proof.
  induction n as [| n IH]; intros pid Hp; cbn [dec]; [by rewrite Z.mod_1_r |].
  rewrite fmap_app. cbn [fmap list_fmap]. rewrite numeral_snoc, IH by (apply Z.div_pos; lia).
  rewrite Nat2Z.inj_succ, Z.pow_succ_r by lia. rewrite Z.rem_mul_r by lia. lia.
Qed.
Lemma write_digits_run n : ∀ itr size pid ar, 0 ≤ pid → size - itr = Z.of_nat n → (5 + n ≤ length ar)%nat →
  write_digits n itr size pid ar = take 5 ar ++ dec n pid ++ drop (5 + n) ar.
Proof.
  induction n as [| n IH]; intros itr size pid ar Hp Hs Hl; cbn [write_digits dec]; [change (ar = take 5 ar ++ drop 5 ar); by rewrite take_drop |].
  replace (Z.to_nat (4 + size - itr)) with (5 + n)%nat by lia.
  rewrite IH by (rewrite ?length_insert; first [lia | (rewrite Z.quot_div_nonneg by lia; apply Z.div_pos; lia)]).
  rewrite Z.quot_div_nonneg, Z.rem_mod_nonneg by lia. rewrite take_insert_ge by lia. f_equal. rewrite <- app_assoc. f_equal.
  rewrite (drop_S _ (48 + pid mod 10) (5 + n)) by (apply list_lookup_insert_eq; lia). cbn [app]. f_equal.
  by rewrite drop_insert_lt by lia.
Qed.
Lemma digits_loop_run fuel : ∀ pid size, 0 ≤ pid < 10 ^ Z.of_nat fuel →
  ∃ n, digits_loop fuel pid size = size + Z.of_nat n ∧ pid < 10 ^ Z.of_nat n ∧ (n ≤ fuel)%nat.
Proof.
  induction fuel as [| fuel IH]; intros pid size Hp; cbn [digits_loop]; [exists O; cbn in *; lia |].
  destruct (Z.eqb_spec pid 0) as [-> | Hne]; [exists O; cbn; lia |].
  rewrite Nat2Z.inj_succ, Z.pow_succ_r in Hp by lia. rewrite Z.quot_div_nonneg by lia.
  destruct (IH (pid / 10) (size + 1)) as (n & -> & Hn & Hle); [split; [apply Z.div_pos; lia | apply Z.div_lt_upper_bound; lia] |].
  exists (S n). split; [lia |]. split; [| lia]. rewrite Nat2Z.inj_succ, Z.pow_succ_r by lia.
  pose proof (Z.div_mod pid 10). pose proof (Z.mod_pos_bound pid 10). lia.
Qed.

(** The name cm makes: file_ and the decimal digits of the process number; the
    array is not terminated behind them. *)
Theorem fileNameWithPid_spec pid ar : 0 ≤ pid < 2147483648 → length ar = 20%nat →
  ∃ ds, fileNameWithPid pid ar = bytes "file_" ++ ds ++ drop (5 + length ds) ar ∧
    numeral 10 ((λ c, c - 48) <$> ds) = pid ∧ (length ds ≤ 11)%nat.
Proof.
  intros Hp Hl. unfold fileNameWithPid. destruct (digits_loop_run 11 pid 0) as (n & -> & Hn & Hle); [lia |].
  do 20 (destruct ar as [| ? ar]; [done |]). destruct ar; [| done]. rewrite Z.add_0_l, Nat2Z.id.
  exists (dec n pid). rewrite dec_length. split; [| split; [| done]].
  - rewrite write_digits_run by (cbn; lia). cbn. done.
  - rewrite dec_numeral by lia. apply Z.mod_small. lia.
Qed.

(** ** Witnesses: a file that is read one, two and then more bytes at a time, and
    a name that is no file *)
Definition hi : file := mkFile (mkStat 2 1 7 1 6 0) {| in_data := bytes "a bc" ++ [10; 100]; in_caps := [1%nat; 2%nat] |}.
Definition desk : world := mkWorld (λ name, if bool_decide (name = bytes "hi") then Some hi else None)
  [Some hi; Some hi; Some hi; None; None] [].
Lemma desk_flowing : flowing desk.
Proof. intros arg f. cbn. case_bool_decide; [| done]. intros [= <-]. repeat constructor. Qed.

Lemma cat_files_witness :
  exits (cat_main [bytes "cat"; bytes "hi"; bytes "ho"]) desk
    (with_out (to_fd 1 (bytes "a bc" ++ [10; 100] ++ bytes "cat: cannot open ho" ++ [10])) desk).
Proof. exact (cat_files (bytes "cat") [bytes "hi"; bytes "ho"] desk 3 ltac:(done) eq_refl desk_flowing). Defined.

Lemma wc_files_witness :
  exits (wc_main [bytes "wc"; bytes "hi"; bytes "ho"]) desk
    (with_out (to_fd 1 (bytes "1 3 6 hi" ++ [10] ++ bytes "wc: cannot open ho" ++ [10])) desk).
Proof.
  refine (wc_files (bytes "wc") [bytes "hi"; bytes "ho"] desk 3 ltac:(done) eq_refl desk_flowing _).
  intros arg f. cbn. case_bool_decide; [| done]. by intros [= <-].
Defined.
Lemma fmtname_spec_witness : fmtname (bytes "a/b/cat") = bytes "cat           ".
Proof. exact (fmtname_spec (bytes "a/b/") (bytes "cat") ltac:(unfold bytes; cbn; rewrite !not_elem_of_cons; repeat split; try done; apply not_elem_of_nil) (or_intror eq_refl)). Defined.
