(* ===== verification/Sh.v ===== *)
(** * sh.c: the parser of the shell

    The text is the shell's line buffer; [s], [q] and [eq] of the code are
    offsets into it.  The parser is a program of the monad [M] over the position
    [*ps]; [Panic] is the shell's [panic], which prints the message and exits
    ("leftovers": [parsecmd] prints the rest of the text, then calls
    panic("syntax")).  A node is
    allocated with malloc, whose result the code does not test; the nodes are
    the constructors of a tree, and the chain of redirections [parseredirs]
    wraps around the command [parseexec] is still filling in is the list of
    redirections, applied when the arguments are complete. *)
From S2P Require Import Ulib Prelude.

Definition MAXARGS : nat := 10.
(** " \t\r\n\v" and "<|>&;()" *)
Definition whitespace : list Z := [32; 9; 13; 10; 11].
Definition symbols : list Z := [60; 124; 62; 38; 59; 40; 41].
Definition c_bar : Z := 124.
Definition c_open : Z := 40.
Definition c_close : Z := 41.
Definition c_semi : Z := 59.
Definition c_and : Z := 38.
Definition c_lt : Z := 60.
Definition c_gt : Z := 62.
(** The token kinds 'a' (a word) and '+' (>>). *)
Definition tok_word : Z := 97.
Definition tok_append : Z := 43.

(** Commands, with the words they mention: pairs of offsets in the parser,
    strings for the programs that are run. *)
Inductive cmd (W : Type) : Type :=
  | EXEC (argv : list W)
  | REDIR (c : cmd W) (file : W) (mode fd : Z)
  | PIPE (left right : cmd W)
  | LIST (left right : cmd W)
  | BACK (c : cmd W).
Arguments EXEC {W} argv.
Arguments REDIR {W} c file mode fd.
Arguments PIPE {W} left right.
Arguments LIST {W} left right.
Arguments BACK {W} c.

Fixpoint cmd_map {V W} (f : V → W) (c : cmd V) : cmd W :=
  match c with
  | EXEC argv => EXEC (f <$> argv)
  | REDIR c file mode fd => REDIR (cmd_map f c) (f file) mode fd
  | PIPE l r => PIPE (cmd_map f l) (cmd_map f r)
  | LIST l r => LIST (cmd_map f l) (cmd_map f r)
  | BACK c => BACK (cmd_map f c)
  end.

(** The redirections of a command, innermost first. *)
Definition redir (W : Type) : Type := W * Z * Z.
Definition redirs_on {W} (c : cmd W) (l : list (redir W)) : cmd W :=
  foldl (λ c '(file, mode, fd), REDIR c file mode fd) c l.

Definition read_mode : Z := 0x000.
Definition write_mode : Z := 0x201.

(** strchr(set, c) != 0 *)
Definition is_in (set : list Z) (c : Z) : bool :=
  match strchr set c with Some _ => true | None => false end.
Definition word_char (c : Z) : bool := negb (is_in whitespace c) && negb (is_in symbols c).

Section parser.
(** The buffer and the end of its string. *)
Context (buf : list Z) (es : nat).

Definition chr (s : nat) : Z := nth s buf 0.
Fixpoint span (p : Z → bool) (n s : nat) : nat :=
  match n with
  | O => s
  | S n => if p (chr s) then span p n (S s) else s
  end.
(** while(s < es && p of the character at s) s++; *)
Definition advance (p : Z → bool) (s : nat) : nat := span p (es - s) s.

(** The token's kind, its start and its end. *)
Definition gettoken : M nat (Z * (nat * nat)) :=
  s ← gets id;
  let q := advance (is_in whitespace) s in
  let c := chr q in
  let '(ret, eq) :=
    if c =? 0 then (0, q)
    else if is_in [c_bar; c_open; c_close; c_semi; c_and; c_lt] c then (c, S q)
    else if c =? c_gt then
      if chr (S q) =? c_gt then (tok_append, S (S q)) else (c_gt, S q)
    else (tok_word, advance word_char q) in
  modify (λ _, advance (is_in whitespace) eq);;
  mret (ret, (q, eq)).

Definition peek (toks : list Z) : M nat bool :=
  s ← gets id;
  let s := advance (is_in whitespace) s in
  modify (λ _, s);;
  mret (negb (chr s =? 0) && is_in toks (chr s)).

Fixpoint parseredirs (fuel : nat) : M nat (list (redir (nat * nat))) :=
  match fuel with
  | O => fault "parseredirs: out of fuel"
  | S fuel =>
      b ← peek [c_lt; c_gt];
      if b : bool then
        '(tok, _) ← gettoken;
        '(t, file) ← gettoken;
        if negb (t =? tok_word) then panic "missing file for redirection" else
        rest ← parseredirs fuel;
        mret (if tok =? c_lt then (file, read_mode, 0) :: rest
              else if (tok =? c_gt) || (tok =? tok_append) then (file, write_mode, 1) :: rest
              else rest)
      else mret []
  end.

(** The arguments from number [argc] on, and the redirections between them. *)
Fixpoint parseargs (fuel argc : nat) : M nat (list (nat * nat) * list (redir (nat * nat))) :=
  match fuel with
  | O => fault "parseexec: out of fuel"
  | S fuel =>
      b ← peek [c_bar; c_close; c_and; c_semi];
      if b : bool then mret ([], []) else
      '(tok, w) ← gettoken;
      if tok =? 0 then mret ([], []) else
      if negb (tok =? tok_word) then panic "syntax" else
      if (MAXARGS <=? S argc)%nat then panic "too many args" else
      rs ← parseredirs fuel;
      '(ws, rs') ← parseargs fuel (S argc);
      mret (w :: ws, rs ++ rs')
  end.

(** while(peek(ps, es, "&")) ... *)
Fixpoint parseback (fuel : nat) (c : cmd (nat * nat)) : M nat (cmd (nat * nat)) :=
  match fuel with
  | O => fault "parseline: out of fuel"
  | S fuel =>
      b ← peek [c_and];
      if b : bool then gettoken;; parseback fuel (BACK c) else mret c
  end.

Fixpoint parseline (fuel : nat) : M nat (cmd (nat * nat)) :=
  match fuel with
  | O => fault "parseline: out of fuel"
  | S fuel =>
      c ← parsepipe fuel;
      c ← parseback fuel c;
      b ← peek [c_semi];
      if b : bool then gettoken;; r ← parseline fuel; mret (LIST c r) else mret c
  end
with parsepipe (fuel : nat) : M nat (cmd (nat * nat)) :=
  match fuel with
  | O => fault "parsepipe: out of fuel"
  | S fuel =>
      c ← parseexec fuel;
      b ← peek [c_bar];
      if b : bool then gettoken;; r ← parsepipe fuel; mret (PIPE c r) else mret c
  end
with parseexec (fuel : nat) : M nat (cmd (nat * nat)) :=
  match fuel with
  | O => fault "parseexec: out of fuel"
  | S fuel =>
      b ← peek [c_open];
      if b : bool then parseblock fuel else
      rs ← parseredirs fuel;
      '(ws, rs') ← parseargs fuel 0;
      mret (redirs_on (EXEC ws) (rs ++ rs'))
  end
with parseblock (fuel : nat) : M nat (cmd (nat * nat)) :=
  match fuel with
  | O => fault "parseblock: out of fuel"
  | S fuel =>
      b ← peek [c_open];
      if negb b then panic "parseblock" else
      gettoken;;
      c ← parseline fuel;
      b ← peek [c_close];
      if negb b then panic "syntax - missing )" else
      gettoken;;
      rs ← parseredirs fuel;
      mret (redirs_on c rs)
  end.

Definition parse_all : M nat (cmd (nat * nat)) :=
  c ← parseline (4 * es + 4);
  peek [];;
  s ← gets id;
  if bool_decide (s = es) then mret c else panic "leftovers".
End parser.

(** *eq = 0 for every word of the command *)
Fixpoint nulterminate (c : cmd (nat * nat)) (mem : list Z) : list Z :=
  match c with
  | EXEC argv => foldl (λ mem '(_, eq), <[eq := 0]> mem) mem argv
  | REDIR c (_, efile) _ _ => <[efile := 0]> (nulterminate c mem)
  | PIPE l r => nulterminate r (nulterminate l mem)
  | LIST l r => nulterminate r (nulterminate l mem)
  | BACK c => nulterminate c mem
  end.

(** The tree, and the buffer afterwards. *)
Definition parsecmd (buf : list Z) : outcome nat (cmd (nat * nat) * list Z) :=
  (c ← parse_all buf (Z.to_nat (strlen buf)); mret (c, nulterminate c buf)) O.
(** The strings the pointers of the tree denote. *)
Definition strings (mem : list Z) (c : cmd (nat * nat)) : cmd (list Z) :=
  cmd_map (λ '(q, _), cstr (drop q mem)) c.
