(* ===== verification/Shparse.v ===== *)
(** * The shell's parser: it ends, and its words survive nulterminate *)
From S2P Require Import Ulib Prelude Sh.

Fixpoint cmd_words {W} (c : cmd W) : list W :=
  match c with
  | EXEC argv => argv
  | REDIR c file _ _ => cmd_words c ++ [file]
  | PIPE l r => cmd_words l ++ cmd_words r
  | LIST l r => cmd_words l ++ cmd_words r
  | BACK c => cmd_words c
  end.
Lemma cmd_words_redirs {W} (c : cmd W) l :
  cmd_words (redirs_on c l) = cmd_words c ++ ((λ x, x.1.1) <$> l).
Proof.
  revert c. induction l as [| [[f m] d] l IH]; intros c; [by rewrite app_nil_r |].
  cbn [redirs_on foldl]. fold (redirs_on (REDIR c f m d) l). rewrite IH. cbn. by rewrite <- app_assoc.
Qed.
Lemma cmd_map_ext {V W} (f g : V → W) c :
  (∀ w, w ∈ cmd_words c → f w = g w) → cmd_map f c = cmd_map g c.
Proof.
  induction c as [argv | c IH file m d | l IHl r IHr | l IHl r IHr | c IH]; cbn; intros H.
  - f_equal. apply list_fmap_ext. intros i w Hw. apply H. by eapply list_elem_of_lookup_2.
  - f_equal; [apply IH; intros w Hw | ]; apply H, elem_of_app; [by left | right; by apply list_elem_of_singleton].
  - f_equal; [apply IHl | apply IHr]; intros w Hw; apply H, elem_of_app; auto.
  - f_equal; [apply IHl | apply IHr]; intros w Hw; apply H, elem_of_app; auto.
  - f_equal. by apply IH.
Qed.

(** The messages with which the parser gives up. *)
Definition syntax_errors : list string :=
  ["missing file for redirection"; "syntax"; "too many args"; "syntax - missing )"; "leftovers"]%string.

(** A run that delivers what [P] says or reports an error, and in particular
    does not run out of fuel. *)
Definition good {A} (P : A → nat → Prop) (o : outcome nat A) : Prop :=
  match o with
  | Done a s => P a s
  | Panic msg _ => msg ∈ syntax_errors
  | _ => False
  end.
Lemma good_bind {A B} (P : A → nat → Prop) (Q : B → nat → Prop) (m : M nat A) (k : A → M nat B) s :
  good P (m s) → (∀ a s', P a s' → good Q (k a s')) → good Q ((m ≫= k) s).
Proof. intros H Hk. unfold mbind, M_bind. destruct (m s); cbn in *; auto. Qed.
Lemma good_mono {A} (P Q : A → nat → Prop) o : good P o → (∀ a s, P a s → Q a s) → good Q o.
Proof. destruct o; cbn; auto. Qed.
Lemma good_panic {A} (P : A → nat → Prop) msg (s : nat) : msg ∈ syntax_errors → good P (panic msg s).
Proof. done. Qed.

Section parser.
Context (buf : list Z) (es : nat).

(** [es] is the end of the buffer's string. *)
Record text : Prop := {
  tx_nonzero : ∀ i, (i < es)%nat → chr buf i ≠ 0;
  tx_end : chr buf es = 0 }.

(** A word: a maximal stretch of word characters. *)
Definition tok_ok (t : nat * nat) : Prop :=
  (t.1 < t.2 ≤ es)%nat ∧ (∀ i, (t.1 ≤ i < t.2)%nat → word_char (chr buf i) = true) ∧
  (t.2 = es ∨ word_char (chr buf t.2) = false).
Definition tree_ok (c : cmd (nat * nat)) : Prop := Forall tok_ok (cmd_words c).

Lemma span_spec p n : ∀ s, let s' := span buf p n s in
  (s ≤ s' ≤ s + n)%nat ∧ (∀ i, (s ≤ i < s')%nat → p (chr buf i) = true) ∧
  (s' = (s + n)%nat ∨ p (chr buf s') = false).
Proof.
  induction n as [| n IH]; intros s; cbn; [split_and!; [lia | lia | lia | left; lia] |].
  destruct (p (chr buf s)) eqn:E; [| split_and!; [lia | lia | lia | by right]].
  destruct (IH (S s)) as (? & Hp & He). split_and!; [lia | lia | |].
  - intros i Hi. destruct (decide (i = s)) as [-> |]; [done | apply Hp; lia].
  - destruct He; [left; lia | by right].
Qed.
Lemma advance_spec p s : (s ≤ es)%nat → let s' := advance buf es p s in
  (s ≤ s' ≤ es)%nat ∧ (∀ i, (s ≤ i < s')%nat → p (chr buf i) = true) ∧ (s' = es ∨ p (chr buf s') = false).
Proof.
  intros Hs s'. destruct (span_spec p (es - s) s) as (? & ? & He). fold (advance buf es p s) in *. fold s' in He, H, H0.
  split_and!; [lia | lia | done |]. destruct He; [left; lia | by right].
Qed.

Lemma is_in_spec l c : Forall (λ x, x ≠ 0) l → is_in l c = bool_decide (c ∈ l).
Proof.
  intros Hl. unfold is_in. destruct (decide (c = 0)) as [-> | Hc].
  - rewrite bool_decide_eq_false_2 by (intros H; by eapply Forall_forall in Hl).
    induction l as [| x l IH]; [done |]. apply Forall_cons in Hl as [? ?]. cbn.
    destruct (Z.eqb_spec x 0); [done |]. specialize (IH ltac:(done)). by destruct (strchr l 0).
  - assert (Hcs : Ulib.cstr l = l).
    { induction l as [| x l IH]; [done |]. apply Forall_cons in Hl as [? ?]. cbn.
      destruct (Z.eqb_spec x 0); [done |]. by rewrite IH. }
    destruct (strchr l c) eqn:E.
    + rewrite bool_decide_eq_true_2; [done |]. apply strchr_Some in E as [E _]; [| done]. by eapply list_elem_of_lookup_2.
    + rewrite bool_decide_eq_false_2; [done |]. apply strchr_None in E; [| done]. by rewrite Hcs in E.
Qed.

Context (T : text).

Lemma chr_zero s : (s ≤ es)%nat → chr buf s = 0 → s = es.
Proof. intros Hs H. destruct (decide (s < es)%nat) as [Hlt |]; [by apply (tx_nonzero T) in Hlt | lia]. Qed.
Lemma chr_nonzero s : (s ≤ es)%nat → chr buf s ≠ 0 → (s < es)%nat.
Proof. intros Hs H. destruct (decide (s = es)) as [-> |]; [by rewrite (tx_end T) in H | lia]. Qed.

(** What a token is. *)
Definition token_post (s : nat) (r : Z * (nat * nat)) (s' : nat) : Prop :=
  (s ≤ s' ≤ es)%nat ∧ (r.1 ≠ 0 → (s < s')%nat) ∧ (r.1 = tok_word → tok_ok r.2).
Lemma gettoken_good s : (s ≤ es)%nat → good (token_post s) (gettoken buf es s).
Proof.
  intros Hs. unfold gettoken. rewrite bind_gets. cbn [id].
  destruct (advance_spec (is_in whitespace) s Hs) as (Hq & _ & Hws).
  set (q := advance buf es (is_in whitespace) s) in *.
  assert (Hskip : ∀ eq ret, (q ≤ eq ≤ es)%nat → (ret ≠ 0 → (q < eq)%nat) → (ret = tok_word → tok_ok (q, eq)) →
    good (token_post s) ((modify (λ _, advance buf es (is_in whitespace) eq);; mret (ret, (q, eq))) s)).
  { intros eq ret ? ? ?. rewrite bind_modify. destruct (advance_spec (is_in whitespace) eq) as ([? ?] & _); [lia |].
    unfold token_post. cbn. split_and!; [lia | lia | intros; lia | done]. }
  destruct (Z.eqb_spec (chr buf q) 0) as [H0 | H0]; [apply Hskip; [lia | done | done] |].
  assert (Hlt : (q < es)%nat) by (apply chr_nonzero; lia).
  destruct (is_in [c_bar; _; _; _; _; _] (chr buf q)) eqn:E6.
  { apply Hskip; [lia | lia |]. intros Hw. rewrite Hw in E6. done. }
  destruct (Z.eqb_spec (chr buf q) c_gt) as [Hg | Hg].
  { destruct (Z.eqb_spec (chr buf (S q)) c_gt) as [Hg' | _]; apply Hskip; try done; try lia.
    assert (S q < es)%nat by (apply chr_nonzero; [lia | by rewrite Hg']). lia. }
  assert (Hw : word_char (chr buf q) = true).
  { destruct Hws as [-> | Hws]; [lia |]. unfold word_char. rewrite Hws. cbn [negb andb]. apply negb_true_iff.
    rewrite is_in_spec in E6 |- * by (repeat constructor; done). rewrite bool_decide_eq_false in E6 |- *.
    rewrite !not_elem_of_cons in E6. unfold symbols. rewrite !not_elem_of_cons.
    destruct_and! E6. split_and!; done || apply not_elem_of_nil. }
  destruct (advance_spec word_char q) as (Hr & Hall & Hend); [lia |].
  assert (Hpos : (q < advance buf es word_char q)%nat).
  { destruct Hend as [-> | Hend]; [lia |]. destruct (decide (advance buf es word_char q = q)) as [He | ]; [| lia].
    rewrite He in Hend. congruence. }
  apply Hskip; [lia | lia |]. intros _. unfold tok_ok. cbn [fst snd]. split_and!; [lia | lia | done | done].
Qed.

Definition peek_post (toks : list Z) (s : nat) (b : bool) (s' : nat) : Prop :=
  (s ≤ s' ≤ es)%nat ∧ (b = true → (s' < es)%nat ∧ chr buf s' ≠ 0 ∧ is_in toks (chr buf s') = true ∧ is_in whitespace (chr buf s') = false).
Lemma peek_good toks s : (s ≤ es)%nat → good (peek_post toks s) (peek buf es toks s).
Proof.
  intros Hs. unfold peek. rewrite bind_gets, bind_modify. cbn [id].
  destruct (advance_spec (is_in whitespace) s Hs) as (Hq & _ & Hend). split; [lia |].
  intros [H0%negb_true_iff ?]%andb_true_iff. apply Z.eqb_neq in H0.
  assert (advance buf es (is_in whitespace) s < es)%nat by (apply chr_nonzero; [lia | done]).
  split_and!; try done. destruct Hend; [lia | done].
Qed.
(** At a character that is not white space: peek does not move, and a token is
    not the end. *)
Lemma peek_at toks s :
  (s < es)%nat → is_in whitespace (chr buf s) = false → peek buf es toks s = Done (is_in toks (chr buf s)) s.
Proof.
  intros Hs Hw. unfold peek. rewrite bind_gets, bind_modify. cbn [id].
  assert (advance buf es (is_in whitespace) s = s) as ->.
  { unfold advance. destruct (es - s)%nat eqn:E; [lia |]. cbn. by rewrite Hw. }
  by rewrite (proj2 (Z.eqb_neq _ _) (tx_nonzero T s Hs)).
Qed.
Lemma gettoken_at s :
  (s < es)%nat → is_in whitespace (chr buf s) = false →
  good (λ r s', token_post s r s' ∧ r.1 ≠ 0) (gettoken buf es s).
Proof.
  intros Hs Hw. pose proof (gettoken_good s ltac:(lia)) as G. revert G. unfold gettoken. rewrite bind_gets. cbn [id].
  assert (Hq : advance buf es (is_in whitespace) s = s).
  { unfold advance. destruct (es - s)%nat eqn:E; [lia |]. cbn. by rewrite Hw. }
  rewrite Hq. pose proof (tx_nonzero T s Hs) as H0. rewrite (proj2 (Z.eqb_neq _ _) H0).
  destruct (is_in [c_bar; _; _; _; _; _] (chr buf s)); [| destruct (chr buf s =? c_gt); [destruct (chr buf (S s) =? c_gt) |]];
    cbv beta iota zeta; rewrite bind_modify; cbn; intros G; (split; [done |]); done.
Qed.
(** peek, then gettoken: the position moves on. *)
Lemma peek_gettoken {B} toks (d : B) (Q : B → nat → Prop) (m : Z * (nat * nat) → M nat B) s :
  (s ≤ es)%nat →
  (∀ s', (s ≤ s' ≤ es)%nat → Q d s') →
  (∀ r s', (s < s' ≤ es)%nat → good Q (m r s')) →
  good Q ((b ← peek buf es toks; if b : bool then r ← gettoken buf es; m r else mret d) s).
Proof.
  intros Hs Hn Hy. apply (good_bind (peek_post toks s)); [by apply peek_good |].
  intros [] s1 [H1 Hb]; [| by apply Hn]. destruct (Hb eq_refl) as (Hlt1 & _ & _ & Hw1).
  apply (good_bind (λ r s', token_post s1 r s' ∧ r.1 ≠ 0)); [by apply gettoken_at |].
  intros r s2 [(? & Hlt & _) H0]. apply Hy. specialize (Hlt H0). lia.
Qed.

Lemma parseredirs_good fuel : ∀ s, (s ≤ es)%nat → (es - s < fuel)%nat →
  good (λ l s', (s ≤ s' ≤ es)%nat ∧ Forall tok_ok ((λ x, x.1.1) <$> l)) (parseredirs buf es fuel s).
Proof.
  induction fuel as [| fuel IH]; intros s Hs Hf; [lia |]. cbn [parseredirs].
  apply peek_gettoken; [done | |].
  { intros s' ?. split; [lia | constructor]. }
  intros [tok w] s1 ?. eapply good_bind; [apply gettoken_good; lia |].
  intros [t file] s2 (H2 & _ & Hw). cbn [fst snd] in Hw. destruct (Z.eqb_spec t tok_word) as [Ht |]; cbn [negb]; [| by left].
  eapply good_bind; [apply IH; lia |]. intros rest s3 [? Hr]. split; [lia |]. specialize (Hw Ht).
  destruct (tok =? c_lt); [by constructor |]. destruct (_ || _); [by constructor | done].
Qed.

Lemma parseargs_good fuel : ∀ argc s, (s ≤ es)%nat → (es - s < fuel)%nat →
  good (λ r s', (s ≤ s' ≤ es)%nat ∧ Forall tok_ok (r.1 ++ ((λ x, x.1.1) <$> r.2))) (parseargs buf es fuel argc s).
Proof.
  induction fuel as [| fuel IH]; intros argc s Hs Hf; [lia |]. cbn [parseargs].
  eapply good_bind; [by apply peek_good |].
  intros [] s1 [H1 _]; [split; [lia | constructor] |].
  eapply good_bind; [apply gettoken_good; lia |].
  intros [tok w] s2 (H2 & Hlt & Hw). cbn [fst snd] in *.
  destruct (Z.eqb_spec tok 0) as [-> | H0]; [split; [lia | constructor] |]. specialize (Hlt H0).
  destruct (Z.eqb_spec tok tok_word) as [Ht |]; cbn [negb]; [| by right; left].
  destruct (Nat.leb_spec MAXARGS (S argc)); [by do 2 right; left |].
  eapply good_bind; [apply parseredirs_good; lia |]. intros rs s3 [? Hrs].
  eapply good_bind; [apply IH; lia |]. intros [ws rs'] s4 [? Hr]. split; [lia |]. cbn [fst snd] in *.
  rewrite fmap_app. cbn. apply Forall_app in Hr as [? ?]. constructor; [by apply Hw |]. by repeat apply Forall_app_2.
Qed.

Lemma parseback_good fuel : ∀ c s, (s ≤ es)%nat → (es - s < fuel)%nat → tree_ok c →
  good (λ c s', (s ≤ s' ≤ es)%nat ∧ tree_ok c) (parseback buf es fuel c s).
Proof.
  induction fuel as [| fuel IH]; intros c s Hs Hf Hc; [lia |]. cbn [parseback].
  apply peek_gettoken; [done | done |].
  intros _ s1 ?. eapply good_mono; [by apply IH; [lia | lia |] |]. intros ? ? [? ?]. split; [lia | done].
Qed.

(** The four functions, whose fuel is four times what is left and a bit. *)
Definition parses (k fuel : nat) (f : M nat (cmd (nat * nat))) : Prop :=
  ∀ s, (s ≤ es)%nat → (4 * (es - s) + k ≤ fuel)%nat → good (λ c s', (s ≤ s' ≤ es)%nat ∧ tree_ok c) (f s).
Lemma parse_good fuel :
  parses 4 fuel (parseline buf es fuel) ∧ parses 3 fuel (parsepipe buf es fuel) ∧
  parses 2 fuel (parseexec buf es fuel) ∧
  (∀ s, (s < es)%nat → (4 * (es - s) + 1 ≤ fuel)%nat → is_in whitespace (chr buf s) = false → chr buf s = c_open →
    good (λ c s', (s ≤ s' ≤ es)%nat ∧ tree_ok c) (parseblock buf es fuel s)).
Proof.
  induction fuel as [| fuel (IHl & IHp & IHe & IHb)].
  { split_and!; intros s ? ?; lia. }
  split_and!; intros s Hs Hf.
  - cbn [parseline]. eapply good_bind; [apply IHp; lia |]. intros c1 s1 [? Hc1].
    eapply good_bind; [apply parseback_good; [lia | lia | done] |]. intros c2 s2 [? Hc2].
    apply peek_gettoken; [lia | intros; split; [lia | done] |].
    intros _ s3 ?. eapply good_bind; [apply IHl; lia |]. intros r s4 [? Hr]. split; [lia |]. by apply Forall_app_2.
  - cbn [parsepipe]. eapply good_bind; [apply IHe; lia |]. intros c1 s1 [? Hc1].
    apply peek_gettoken; [lia | intros; split; [lia | done] |].
    intros _ s3 ?. eapply good_bind; [apply IHp; lia |]. intros r s4 [? Hr]. split; [lia |]. by apply Forall_app_2.
  - cbn [parseexec]. eapply good_bind; [by apply peek_good |]. intros [] s1 [? Hb].
    { destruct (Hb eq_refl) as (? & H0 & Hin & ?). rewrite is_in_spec in Hin by (repeat constructor; done).
      apply bool_decide_eq_true, list_elem_of_singleton in Hin.
      eapply good_mono; [apply IHb; try done; lia |]. intros ? ? [? ?]. split; [lia | done]. }
    eapply good_bind; [apply parseredirs_good; lia |]. intros rs s2 [? Hrs].
    eapply good_bind; [apply parseargs_good; lia |]. intros [ws rs'] s3 [? Hr]. split; [lia |].
    unfold tree_ok. rewrite cmd_words_redirs, fmap_app. cbn [fst snd cmd_words] in *.
    apply Forall_app in Hr as [? ?]. by repeat apply Forall_app_2.
  - intros Hw Ho. cbn [parseblock]. rewrite (bind_done _ _ _ _ _ (peek_at [c_open] s Hs Hw)), Ho. cbn [negb].
    eapply good_bind; [by apply gettoken_at |]. intros r s1 [(? & Hlt & _) H0]. specialize (Hlt H0).
    eapply good_bind; [apply IHl; lia |]. intros c s2 [? Hc].
    eapply good_bind; [apply peek_good; lia |].
    intros [] s3 [? Hb]; [| by do 3 right; left]. destruct (Hb eq_refl) as (? & ? & _ & ?). cbn [negb].
    eapply good_bind; [by apply gettoken_at |]. intros r' s4 [(? & ? & _) _].
    eapply good_bind; [apply parseredirs_good; lia |]. intros rs s5 [? Hrs]. split; [lia |].
    unfold tree_ok. rewrite cmd_words_redirs. by apply Forall_app_2.
Qed.

Lemma parse_all_good : good (λ c s', tree_ok c) (parse_all buf es O).
Proof.
  unfold parse_all. eapply good_bind; [apply parse_good; lia |]. intros c s1 [? Hc].
  eapply good_bind; [apply peek_good; lia |]. intros b s2 [? _]. rewrite bind_gets. cbn [id].
  destruct (bool_decide _); [done |]. by do 4 right; left.
Qed.
End parser.

(** ** nulterminate *)

(** The characters between two offsets. *)
Definition slice (buf : list Z) (t : nat * nat) : list Z := take (t.2 - t.1) (drop t.1 buf).
Definition cut_at (mem : list Z) (ws : list (nat * nat)) : list Z := foldl (λ mem '(_, eq), <[eq := 0]> mem) mem ws.
Lemma cut_at_app mem l l' : cut_at mem (l ++ l') = cut_at (cut_at mem l) l'.
Proof. apply foldl_app. Qed.
Lemma nulterminate_cut c : ∀ mem, nulterminate c mem = cut_at mem (cmd_words c).
Proof.
  induction c as [argv | c IH [q eq] m d | l IHl r IHr | l IHl r IHr | c IH]; intros mem; cbn [nulterminate cmd_words];
    rewrite ?cut_at_app, ?IHl, ?IHr, ?IH; done.
Qed.
Lemma cut_at_other ws i : ∀ mem, (∀ w, w ∈ ws → w.2 ≠ i) → cut_at mem ws !! i = mem !! i.
Proof.
  induction ws as [| [q eq] ws IH]; intros mem H; [done |]. cbn [cut_at foldl]. fold (cut_at (<[eq := 0]> mem) ws).
  rewrite IH by (intros w Hw; apply H; by right). apply list_lookup_insert_ne. apply (H (q, eq)). by left.
Qed.
Lemma cut_at_here ws i : ∀ mem, i ∈ ws.*2 → (i < length mem)%nat → cut_at mem ws !! i = Some 0.
Proof.
  induction ws as [| [q eq] ws IH]; intros mem H Hl; [by apply elem_of_nil in H |]. cbn [cut_at foldl].
  fold (cut_at (<[eq := 0]> mem) ws). destruct (decide (i ∈ ws.*2)) as [Hin | Hnin].
  { apply IH; [done |]. by rewrite length_insert. }
  apply elem_of_cons in H as [-> | H]; [| done]. cbn [snd]. rewrite cut_at_other; [by apply list_lookup_insert_eq |].
  intros w Hw He. apply Hnin, list_elem_of_fmap. by exists w.
Qed.

Lemma cstr_slice mem buf n : ∀ q,
  (∀ i, (q ≤ i < q + n)%nat → mem !! i = buf !! i ∧ ∃ x, buf !! i = Some x ∧ x ≠ 0) →
  mem !! (q + n)%nat = Some 0 →
  cstr (drop q mem) = take n (drop q buf).
Proof.
  induction n as [| n IH]; intros q H H0.
  - rewrite Nat.add_0_r in H0. by rewrite (drop_S _ _ _ H0).
  - destruct (H q) as (Hq & x & Hx & Hnz); [lia |]. rewrite (drop_S _ _ _ Hx). rewrite Hx in Hq.
    rewrite (drop_S _ _ _ Hq). cbn [cstr take]. rewrite (proj2 (Z.eqb_neq _ _) Hnz). f_equal.
    apply IH; [intros i Hi; apply H; lia | by rewrite <- Nat.add_succ_comm in H0].
Qed.

(** Writing the terminators behind the words damages no other word. *)
Lemma cut_words buf es ws w :
  text buf es → (es < length buf)%nat → Forall (tok_ok buf es) ws → w ∈ ws →
  cstr (drop w.1 (cut_at buf ws)) = slice buf w.
Proof.
  intros T Hl Hws Hw. rewrite Forall_forall in Hws. destruct (Hws w Hw) as ([Hlt Hle] & Hchars & Hend).
  apply cstr_slice; [| replace (w.1 + (w.2 - w.1))%nat with w.2 by lia; apply cut_at_here; [| lia]].
  - intros i Hi. split.
    + apply cut_at_other. intros w' Hw' He. destruct (Hws w' Hw') as (_ & _ & [H | H]); [lia |].
      rewrite He, Hchars in H by lia. done.
    + destruct (lookup_lt_is_Some_2 buf i) as [x Hx]; [lia |]. exists x. split; [done |].
      pose proof (tx_nonzero _ _ T i ltac:(lia)) as Hnz. unfold chr in Hnz. by rewrite nth_lookup, Hx in Hnz.
  - apply list_elem_of_fmap. by exists w.
Qed.

Lemma strlen_text buf : text buf (Z.to_nat (strlen buf)).
Proof.
  split.
  - induction buf as [| x buf IH]; intros i Hi; cbn in *; [lia |]. destruct (Z.eqb_spec x 0) as [| Hx]; [lia |].
    destruct i as [| i]; [done |]. apply IH. rewrite strlen_cstr in *. lia.
  - induction buf as [| x buf IH]; [done |]. cbn [strlen]. destruct (Z.eqb_spec x 0) as [-> | Hx]; [done |].
    rewrite strlen_cstr in *. rewrite Z2Nat.inj_add by lia. exact IH.
Qed.

(** The parser ends on every line: with one of its messages, or with a command
    whose pointers, after [nulterminate] has written the terminators into the
    line, denote exactly the words of the line that it recognised. *)
Theorem parsecmd_words buf :
  strlen buf < Z.of_nat (length buf) →
  good (λ '(c, mem) _, strings mem c = cmd_map (slice buf) c ∧
    Forall (tok_ok buf (Z.to_nat (strlen buf))) (cmd_words c)) (parsecmd buf).
Proof.
  intros Hl. pose proof (strlen_text buf) as T. unfold parsecmd.
  eapply good_bind; [by apply parse_all_good |]. intros c s' Hc. split; [| done].
  apply cmd_map_ext. intros [q eq] Hw. rewrite nulterminate_cut.
  apply (cut_words buf (Z.to_nat (strlen buf)) (cmd_words c) (q, eq)); try done.
  pose proof (strlen_cstr buf). lia.
Qed.
