(* ===== verification/Shprint.v ===== *)
(** * The shell's parser inverts the grammar

    Commands have a token sequence; a line spells tokens when it is those
    tokens with white space between and behind them, needed only between words.
    The parser reads every line that spells the tokens of a command as that
    command. *)
From S2P Require Import Ulib Prelude Sh Shparse.

Inductive token := TSym (c : Z) | TWord (w : list Z).

Definition word_ok (w : list Z) : Prop := w ≠ [] ∧ Forall (λ c, c ≠ 0 ∧ word_char c = true) w.
Definition spaces (l : list Z) : Prop := Forall (λ c, is_in whitespace c = true) l.
Definition sym_ok (c : Z) : Prop := c ∈ symbols.

(** The line [l], which starts with no white space, spells [ts]. *)
Inductive spells : list Z → list token → Prop :=
  | spells_nil : spells [] []
  | spells_sym c ws l ts :
      sym_ok c → spaces ws → (c = c_gt → hd 0 (ws ++ l) ≠ c_gt) → spells l ts →
      spells (c :: ws ++ l) (TSym c :: ts)
  | spells_word w ws l ts :
      word_ok w → spaces ws → (ws = [] → l = [] ∨ sym_ok (hd 0 l)) → spells l ts →
      spells (w ++ ws ++ l) (TWord w :: ts).

(** ** The grammar

    [line := back [; line]], [back := pipe & ... &], [pipe := exec [| pipe]],
    [exec := words and redirections, or ( line ) and redirections]; [lvl]
    numbers them 0 to 3. *)
Definition redir_toks (r : redir (list Z)) : list token :=
  let '(file, mode, _) := r in [TSym (if mode =? read_mode then c_lt else c_gt); TWord file].
Definition paren (b : bool) (ts : list token) : list token := if b then TSym c_open :: ts ++ [TSym c_close] else ts.
Fixpoint toks (lvl : nat) (a : cmd (list Z)) : list token :=
  match a with
  | EXEC argv => TWord <$> argv
  | REDIR c file mode fd => toks 3 c ++ redir_toks (file, mode, fd)
  | PIPE l r => paren (2 <? lvl)%nat (toks 3 l ++ TSym c_bar :: toks 2 r)
  | LIST l r => paren (0 <? lvl)%nat (toks 1 l ++ TSym c_semi :: toks 0 r)
  | BACK c => paren (1 <? lvl)%nat (toks 1 c ++ [TSym c_and])
  end.

(** The commands that can be written: fewer than MAXARGS words each, and the
    two kinds of redirection the parser builds. *)
Definition redir_ok (r : redir (list Z)) : Prop :=
  let '(file, mode, fd) := r in word_ok file ∧ ((mode = read_mode ∧ fd = 0) ∨ (mode = write_mode ∧ fd = 1)).
Fixpoint cmd_ok (a : cmd (list Z)) : Prop :=
  match a with
  | EXEC argv => Forall word_ok argv ∧ (length argv < MAXARGS)%nat
  | REDIR c file mode fd => cmd_ok c ∧ redir_ok (file, mode, fd)
  | PIPE l r => cmd_ok l ∧ cmd_ok r
  | LIST l r => cmd_ok l ∧ cmd_ok r
  | BACK c => cmd_ok c
  end.

Lemma redirs_on_app {W} (c : cmd W) l l' : redirs_on c (l ++ l') = redirs_on (redirs_on c l) l'.
Proof. apply foldl_app. Qed.
Lemma cmd_map_redirs {V W} (f : V → W) (c : cmd V) l :
  cmd_map f (redirs_on c l) = redirs_on (cmd_map f c) ((λ '(file, m, d), (f file, m, d)) <$> l).
Proof.
  revert c. induction l as [| [[w m] d] l IH]; intros c; [done |].
  cbn [redirs_on foldl]. fold (redirs_on (REDIR c w m d) l). by rewrite IH.
Qed.

Lemma sym_nonzero c : sym_ok c → c ≠ 0.
Proof. intros H ->. unfold sym_ok, symbols in H. set_unfold. lia. Qed.
Lemma sym_not_space c : sym_ok c → is_in whitespace c = false.
Proof. intros H. rewrite is_in_spec by (repeat constructor; done). unfold sym_ok, symbols in H.
  apply bool_decide_eq_false. unfold whitespace. set_unfold. lia. Qed.
Lemma sym_not_word c : sym_ok c → word_char c = false.
Proof. intros H. unfold word_char. rewrite (is_in_spec symbols) by (repeat constructor; done).
  rewrite bool_decide_eq_true_2 by done. apply andb_false_r. Qed.
Lemma word_not_space c : word_char c = true → is_in whitespace c = false.
Proof. unfold word_char. by intros [?%negb_true_iff _]%andb_true_iff. Qed.
Lemma word_not_sym c : word_char c = true → ¬ sym_ok c.
Proof. intros H Hs%sym_not_word. congruence. Qed.
Lemma space_not_word c : is_in whitespace c = true → word_char c = false.
Proof. intros H. unfold word_char. by rewrite H. Qed.
Lemma spells_head l ts : spells l ts → l = [] ∨ (is_in whitespace (hd 0 l) = false).
Proof.
  destruct 1 as [| c ws l ts Hc | w ws l ts [Hne Hw] Hs]; [by left | right | right].
  - by apply sym_not_space.
  - destruct w as [| x w]; [done |]. apply Forall_cons in Hw as [[_ Hx] _]. by apply word_not_space.
Qed.

Section on.
Context (buf : list Z) (es : nat) (T : text buf es) (Hes : (es ≤ length buf)%nat).

(** What is left of the line at an offset. *)
Definition at_pos (s : nat) (l : list Z) : Prop := (s ≤ es)%nat ∧ drop s (take es buf) = l.
Lemma at_cons s x l : at_pos s (x :: l) → (s < es)%nat ∧ chr buf s = x ∧ at_pos (S s) l.
Proof.
  intros [Hs H]. assert (Hlt : (s < es)%nat).
  { assert (length (drop s (take es buf)) = S (length l)) as Hl by (by rewrite H).
    rewrite length_drop, length_take in Hl. lia. }
  destruct (lookup_lt_is_Some_2 (take es buf) s) as [y Hy]; [rewrite length_take; lia |].
  rewrite (drop_S _ _ _ Hy) in H. injection H as -> H. split; [done | split; [| by split; [lia |]]].
  rewrite lookup_take_lt in Hy by done. unfold chr. by rewrite nth_lookup, Hy.
Qed.
Lemma at_nil s : at_pos s [] → s = es.
Proof.
  intros [Hs H]. assert (length (drop s (take es buf)) = 0%nat) as Hl by (by rewrite H).
  rewrite length_drop, length_take in Hl. lia.
Qed.
Lemma at_chr s l : at_pos s l → chr buf s = hd 0 l.
Proof.
  intros H. destruct l as [| x l].
  - apply at_nil in H as ->. apply T.
  - by apply at_cons in H as (_ & ? & _).
Qed.
Lemma at_app pre : ∀ s l, at_pos s (pre ++ l) →
  at_pos (s + length pre) l ∧ slice buf (s, (s + length pre)%nat) = pre.
Proof.
  induction pre as [| x pre IH]; intros s l H.
  - rewrite Nat.add_0_r. split; [done |]. unfold slice. cbn. by rewrite Nat.sub_diag.
  - apply at_cons in H as (Hlt & Hx & H). destruct (IH _ _ H) as [H' Hsl]. cbn [length].
    rewrite <- Nat.add_succ_comm. split; [done |]. unfold slice in *. cbn [fst snd] in *.
    destruct (lookup_lt_is_Some_2 buf s) as [y Hy]; [lia |]. rewrite (drop_S _ _ _ Hy).
    unfold chr in Hx. rewrite nth_lookup, Hy in Hx. cbn in Hx. subst y.
    replace (S s + length pre - s)%nat with (S (S s + length pre - S s)) by lia. cbn [take]. by rewrite Hsl.
Qed.
Lemma advance_at p pre : ∀ s l, at_pos s (pre ++ l) → Forall (λ c, p c = true) pre →
  (l = [] ∨ p (hd 0 l) = false) → advance buf es p s = (s + length pre)%nat.
Proof.
  unfold advance. induction pre as [| x pre IH]; intros s l H Hp Hl.
  - rewrite Nat.add_0_r. cbn [app] in H. destruct Hl as [-> | Hl]; [apply at_nil in H as ->; by rewrite Nat.sub_diag |].
    rewrite <- (at_chr _ _ H) in Hl. destruct (es - s)%nat; [done |]. cbn. by rewrite Hl.
  - apply Forall_cons in Hp as [Hx Hp]. cbn [app] in H. apply at_cons in H as (Hlt & Hc & H).
    replace (es - s)%nat with (S (es - S s)) by lia. cbn [span]. rewrite Hc, Hx.
    rewrite (IH _ _ H Hp Hl). cbn. lia.
Qed.

(** At [s] the line goes on with the tokens [ts]. *)
Definition on (s : nat) (ts : list token) : Prop := ∃ l, at_pos s l ∧ spells l ts.

Lemma on_stay s ts : on s ts → advance buf es (is_in whitespace) s = s.
Proof.
  intros (l & Hat & Hl). rewrite (advance_at _ [] s l Hat); [by rewrite Nat.add_0_r | constructor |].
  by apply spells_head in Hl.
Qed.
Lemma on_le s ts : on s ts → (s ≤ es)%nat.
Proof. by intros (l & [? _] & _). Qed.

Definition starts (set : list Z) (ts : list token) : bool :=
  match ts with TSym c :: _ => is_in set c | _ => false end.
Lemma peek_on set s ts : Forall sym_ok set → on s ts → peek buf es set s = Done (starts set ts) s.
Proof.
  intros Hset Hon. unfold peek. rewrite bind_gets, bind_modify. cbn [id]. rewrite (on_stay _ _ Hon).
  destruct Hon as (l & Hat & Hl). rewrite (at_chr _ _ Hat).
  assert (Hnz : Forall (λ x, x ≠ 0) set).
  { eapply Forall_impl; [exact Hset |]. by intros c ?%sym_nonzero. }
  destruct Hl as [| c ws l ts Hc | w ws l ts [Hne Hw] Hs]; cbn [hd app starts]; [done | |].
  - pose proof (sym_nonzero _ Hc) as Hc0.
    by rewrite (proj2 (Z.eqb_neq _ _) Hc0).
  - destruct w as [| x w]; [done |]. apply Forall_cons in Hw as [[Hx0 Hx] _]. cbn [hd app].
    rewrite is_in_spec by done. rewrite bool_decide_eq_false_2; [by rewrite andb_false_r |].
    intros Hin. rewrite Forall_forall in Hset. apply (word_not_sym x); [done | by apply Hset].
Qed.

(** A token is taken off the line. *)
Lemma skip_on s ws l ts : at_pos s (ws ++ l) → spaces ws → spells l ts →
  on (advance buf es (is_in whitespace) s) ts ∧ (s ≤ advance buf es (is_in whitespace) s)%nat.
Proof.
  intros Hat Hws Hl. rewrite (advance_at _ ws s l Hat Hws) by (by apply spells_head in Hl).
  split; [| lia]. exists l. split; [by apply at_app | done].
Qed.
Lemma gettoken_sym s c ts : on s (TSym c :: ts) →
  ∃ w s', gettoken buf es s = Done (c, w) s' ∧ on s' ts ∧ (s < s')%nat.
Proof.
  intros Hon. unfold gettoken. rewrite bind_gets. cbn [id]. rewrite (on_stay _ _ Hon).
  destruct Hon as (l & Hat & Hl). inversion Hl as [| c' ws l' ts' Hc Hws Hgt Hl' |]; subst.
  apply at_cons in Hat as (Hlt & Hch & Hat). rewrite Hch.
  destruct (skip_on _ _ _ _ Hat Hws Hl') as [Hon' Hle].
  pose proof (sym_nonzero _ Hc) as Hc0.
  rewrite (proj2 (Z.eqb_neq _ _) Hc0), is_in_spec by (repeat constructor; done).
  destruct (bool_decide (c ∈ _)) eqn:E.
  - eexists _, _. rewrite bind_modify. split; [done |]. split; [done | lia].
  - assert (c = c_gt) as ->.
    { apply bool_decide_eq_false in E. unfold sym_ok, symbols in Hc. unfold c_gt, c_bar, c_open, c_close, c_semi, c_and, c_lt in *.
      rewrite !not_elem_of_cons in E. rewrite !elem_of_cons in Hc. destruct_and! E.
      by destruct_or! Hc. }
    rewrite Z.eqb_refl. rewrite (at_chr _ _ Hat). rewrite (proj2 (Z.eqb_neq _ _) (Hgt eq_refl)).
    eexists _, _. rewrite bind_modify. split; [done |]. split; [done | lia].
Qed.
Lemma gettoken_word s w ts : on s (TWord w :: ts) →
  ∃ q s', gettoken buf es s = Done (tok_word, q) s' ∧ on s' ts ∧ (s < s')%nat ∧ slice buf q = w.
Proof.
  intros Hon. unfold gettoken. rewrite bind_gets. cbn [id]. rewrite (on_stay _ _ Hon).
  destruct Hon as (l & Hat & Hl). inversion Hl as [| | w' ws l' ts' [Hne Hw] Hws Hsep Hl']; subst.
  rewrite (at_chr _ _ Hat). destruct (at_app _ _ _ Hat) as [Hat' Hsl].
  destruct (skip_on _ _ _ _ Hat' Hws Hl') as [Hon' Hle].
  assert (Hadv : advance buf es word_char s = (s + length w)%nat).
  { apply (advance_at _ _ _ _ Hat); [eapply Forall_impl; [exact Hw |]; by intros ? [_ ?] |].
    destruct ws as [| x ws]; [destruct (Hsep eq_refl) as [-> | ?]; [by left | right; by apply sym_not_word] |].
    right. apply Forall_cons in Hws as [? _]. by apply space_not_word. }
  destruct w as [| x w]; [done |]. apply Forall_cons in Hw as [[Hx0 Hx] _]. cbn [app hd].
  rewrite (proj2 (Z.eqb_neq _ _) Hx0), is_in_spec by (repeat constructor; done).
  pose proof (word_not_sym _ Hx) as Hns. unfold sym_ok, symbols in Hns. rewrite !not_elem_of_cons in Hns. destruct_and! Hns.
  rewrite bool_decide_eq_false_2 by (rewrite !not_elem_of_cons; split_and!; done || apply not_elem_of_nil).
  rewrite (proj2 (Z.eqb_neq x c_gt)) by done. rewrite Hadv.
  eexists _, _. rewrite bind_modify. split; [done |]. split; [done |]. split; [cbn in Hle; cbn; lia | done].
Qed.
Lemma gettoken_end s : on s [] → ∃ w, gettoken buf es s = Done (0, w) s.
Proof.
  intros Hon. unfold gettoken. rewrite bind_gets. cbn [id]. rewrite (on_stay _ _ Hon).
  pose proof Hon as (l & Hat & Hl). rewrite (at_chr _ _ Hat). inversion Hl; subst. cbn [hd]. rewrite Z.eqb_refl.
  eexists. rewrite bind_modify. by rewrite (on_stay _ _ Hon).
Qed.

(** ** The parser's functions on a line that spells their tokens *)

Definition redir_slice (r : redir (nat * nat)) : redir (list Z) := let '(f, m, d) := r in (slice buf f, m, d).
Definition ends (set : list Z) (ts : list token) : Prop := ts = [] ∨ starts set ts = true.
Definition all_redirs (rs : list (redir (list Z))) : list token := concat (redir_toks <$> rs).

Lemma ends_not set set' ts : ends set ts → (∀ c, is_in set c = true → is_in set' c = false) → starts set' ts = false.
Proof. intros [-> | H] Hd; [done |]. destruct ts as [| [c | w] ts]; try done. by apply Hd. Qed.
Lemma in_disjoint set set' :
  Forall (λ x, x ≠ 0) set → forallb (λ x, negb (is_in set' x)) set = true → ∀ c, is_in set c = true → is_in set' c = false.
Proof.
  intros Hnz H c Hc. rewrite is_in_spec in Hc by done. apply bool_decide_eq_true in Hc.
  rewrite forallb_forall in H. apply negb_true_iff, H. by apply list_elem_of_In.
Qed.
Ltac disjoint := eapply ends_not; [eassumption | apply in_disjoint; [repeat constructor; done | reflexivity]].
Ltac syms := repeat constructor; apply (bool_decide_unpack _); reflexivity.

Lemma parseredirs_on rs ts fuel : ∀ s,
  Forall redir_ok rs → on s (all_redirs rs ++ ts) → starts [c_lt; c_gt] ts = false → (es - s < fuel)%nat →
  ∃ rs' s', parseredirs buf es fuel s = Done rs' s' ∧ on s' ts ∧ (s ≤ s')%nat ∧ redir_slice <$> rs' = rs.
Proof.
  revert fuel. induction rs as [| [[f m] d] rs IH]; intros [| fuel] s Hok Hon Hts Hf; try lia; cbn [parseredirs].
  - rewrite (bind_done _ _ _ _ _ (peek_on [c_lt; c_gt] s _ ltac:(syms) Hon)). cbn [all_redirs fmap list_fmap concat app].
    rewrite Hts. by exists [], s.
  - apply Forall_cons in Hok as [[Hf' Hmd] Hok]. unfold all_redirs in Hon. cbn [fmap list_fmap concat app redir_toks] in Hon.
    fold (all_redirs rs) in Hon.
    rewrite (bind_done _ _ _ _ _ (peek_on [c_lt; c_gt] s _ ltac:(syms) Hon)).
    assert (starts [c_lt; c_gt] (TSym (if m =? read_mode then c_lt else c_gt) :: TWord f :: all_redirs rs ++ ts) = true) as Hst
      by (by destruct (m =? read_mode)).
    cbn [app starts] in *. rewrite Hst. destruct (gettoken_sym _ _ _ Hon) as (w & s1 & R1 & Hon1 & Hlt1).
    rewrite (bind_done _ _ _ _ _ R1). destruct (gettoken_word _ _ _ Hon1) as (q & s2 & R2 & Hon2 & Hlt2 & Hsl).
    rewrite (bind_done _ _ _ _ _ R2), Z.eqb_refl. cbn [negb].
    pose proof (on_le _ _ Hon2). destruct (IH fuel s2) as (rs' & s3 & R3 & Hon3 & Hle & Hrs); try done; [lia |].
    rewrite (bind_done _ _ _ _ _ R3).
    assert (∃ r, (if (if m =? read_mode then c_lt else c_gt) =? c_lt then (q, read_mode, 0) :: rs'
        else if ((if m =? read_mode then c_lt else c_gt) =? c_gt) || ((if m =? read_mode then c_lt else c_gt) =? tok_append)
             then (q, write_mode, 1) :: rs' else rs') = r :: rs' ∧ redir_slice r = (f, m, d)) as (r & -> & Hr).
    { destruct Hmd as [[-> ->] | [-> ->]]; eexists; (split; [done |]); cbn; by rewrite Hsl. }
    exists (r :: rs'), s3. split; [done |]. split; [done |]. split; [lia |]. cbn. by rewrite Hr, Hrs.
Qed.

Definition exec_end : list Z := [c_bar; c_close; c_and; c_semi].
Lemma parseargs_on ws ts : ∀ rs fuel argc s,
  Forall word_ok ws → (argc + length ws < MAXARGS)%nat → Forall redir_ok rs → (ws = [] → rs = []) →
  on s ((TWord <$> ws) ++ all_redirs rs ++ ts) → ends exec_end ts → (es - s < fuel)%nat →
  ∃ ws' rs' s', parseargs buf es fuel argc s = Done (ws', rs') s' ∧ on s' ts ∧ (s ≤ s')%nat ∧
    slice buf <$> ws' = ws ∧ redir_slice <$> rs' = rs.
Proof.
  induction ws as [| w ws IH]; intros rs [| fuel] argc s Hok Hlen Hrs Hnil Hon Hend Hf; try lia; cbn [parseargs].
  - rewrite (Hnil eq_refl) in Hon |- *. cbn in Hon.
    rewrite (bind_done _ _ _ _ _ (peek_on exec_end s _ ltac:(syms) Hon)).
    destruct Hend as [-> | ->]; [| by exists [], [], s]. cbn [starts].
    destruct (gettoken_end _ Hon) as [w R]. rewrite (bind_done _ _ _ _ _ R). cbn. by exists [], [], s.
  - cbn [fmap list_fmap app] in Hon. rewrite (bind_done _ _ _ _ _ (peek_on exec_end s _ ltac:(syms) Hon)). cbn [starts].
    destruct (gettoken_word _ _ _ Hon) as (q & s1 & R1 & Hon1 & Hlt1 & Hsl). rewrite (bind_done _ _ _ _ _ R1).
    apply Forall_cons in Hok as [Hw Hok]. cbn [length] in Hlen. rewrite (proj2 (Nat.leb_gt _ _)) by lia. cbn [negb].
    change (tok_word =? 0) with false. rewrite Z.eqb_refl. cbn [negb]. pose proof (on_le _ _ Hon1).
    (* the redirections follow the last word *)
    assert (∃ r1 r2, rs = r1 ++ r2 ∧ (ws = [] → r2 = []) ∧ on s1 (all_redirs r1 ++ (TWord <$> ws) ++ all_redirs r2 ++ ts) ∧
      starts [c_lt; c_gt] ((TWord <$> ws) ++ all_redirs r2 ++ ts) = false) as (r1 & r2 & -> & Hr2 & Hon1' & Hst).
    { destruct ws as [| w2 ws]; [exists rs, []; rewrite app_nil_r; split_and!; try done; disjoint | by exists [], rs]. }
    apply Forall_app in Hrs as [Hr1 Hrs2].
    destruct (parseredirs_on r1 _ fuel s1 Hr1 Hon1' Hst) as (rs1 & s2 & R2 & Hon2 & Hle & Hrs1); [lia |].
    rewrite (bind_done _ _ _ _ _ R2). pose proof (on_le _ _ Hon2).
    destruct (IH r2 fuel (S argc) s2) as (ws3 & rs3 & s3 & R3 & Hon3 & Hle3 & Hws3 & Hrs3); try done; try lia.
    rewrite (bind_done _ _ _ _ _ R3). exists (q :: ws3), (rs1 ++ rs3), s3. split_and!; try done; [lia | |].
    + cbn. by rewrite Hsl, Hws3.
    + by rewrite fmap_app, Hrs1, Hrs3.
Qed.

(** What each function makes of the tokens of a command. *)
Definition line_end : list Z := [c_close].
Definition back_end : list Z := [c_close; c_semi].
Definition pipe_end : list Z := [c_close; c_semi; c_and].
Definition delivers (o : outcome nat (cmd (nat * nat))) (s : nat) (a : cmd (list Z)) (ts : list token) : Prop :=
  ∃ c s', o = Done c s' ∧ on s' ts ∧ (s ≤ s')%nat ∧ cmd_map (slice buf) c = a.
Definition line_parses a := ∀ ts fuel s,
  on s (toks 0 a ++ ts) → ends line_end ts → (4 * (es - s) + 4 ≤ fuel)%nat → delivers (parseline buf es fuel s) s a ts.
Definition back_parses a := ∀ ts f1 f2 s,
  on s (toks 1 a ++ ts) → ends pipe_end ts → (4 * (es - s) + 3 ≤ f1)%nat → (es - s < f2)%nat →
  ∃ c s' f3, (c ← parsepipe buf es f1; parseback buf es f2 c) s = parseback buf es f3 c s' ∧
    on s' ts ∧ (s ≤ s')%nat ∧ cmd_map (slice buf) c = a ∧ (es - s' < f3)%nat.
Definition pipe_parses a := ∀ ts fuel s,
  on s (toks 2 a ++ ts) → ends pipe_end ts → (4 * (es - s) + 3 ≤ fuel)%nat → delivers (parsepipe buf es fuel s) s a ts.
Definition exec_parses a := ∀ rs ts fuel s,
  Forall redir_ok rs → on s (toks 3 a ++ all_redirs rs ++ ts) → ends exec_end ts → (4 * (es - s) + 2 ≤ fuel)%nat →
  delivers (parseexec buf es fuel s) s (redirs_on a rs) ts.

Lemma ends_mono set set' ts : ends set ts → Forall (λ x, x ≠ 0) set → Forall (λ x, x ≠ 0) set' → (∀ c, c ∈ set → c ∈ set') → ends set' ts.
Proof.
  intros [-> | H] Hnz Hnz' Hsub; [by left | right]. destruct ts as [| [c | w] ts]; try done. cbn in *.
  rewrite is_in_spec in H |- * by done. apply bool_decide_eq_true in H. by apply bool_decide_eq_true, Hsub.
Qed.
Ltac more_ends := eapply ends_mono; [eassumption | repeat constructor; done | repeat constructor; done |];
  intros ?; unfold line_end, back_end, pipe_end, exec_end; rewrite !elem_of_cons; tauto.

Lemma pipe_of_exec a : toks 2 a = toks 3 a → exec_parses a → pipe_parses a.
Proof.
  intros Heq He ts [| fuel] s Hon Hend Hf; [lia |]. cbn [parsepipe]. rewrite Heq in Hon.
  destruct (He [] ts fuel s) as (c & s1 & R & Hon1 & Hle & Hc); try done; [more_ends | lia |].
  rewrite (bind_done _ _ _ _ _ R), (bind_done _ _ _ _ _ (peek_on [c_bar] s1 _ ltac:(syms) Hon1)).
  assert (starts [c_bar] ts = false) as -> by disjoint. by exists c, s1.
Qed.
Lemma back_of_pipe a : toks 1 a = toks 2 a → pipe_parses a → back_parses a.
Proof.
  intros Heq Hp ts f1 f2 s Hon Hend Hf1 Hf2. rewrite Heq in Hon.
  destruct (Hp ts f1 s) as (c & s1 & R & Hon1 & Hle & Hc); try done.
  rewrite (bind_done _ _ _ _ _ R). exists c, s1, f2. split_and!; try done. lia.
Qed.
Lemma parseback_stop s c ts fuel : on s ts → ends back_end ts → (es - s < fuel)%nat → parseback buf es fuel c s = Done c s.
Proof.
  intros Hon Hend Hf. destruct fuel; [lia |]. cbn [parseback].
  rewrite (bind_done _ _ _ _ _ (peek_on [c_and] s _ ltac:(syms) Hon)).
  by assert (starts [c_and] ts = false) as -> by disjoint.
Qed.
Lemma parseline_back a ts fuel s :
  back_parses a → on s (toks 1 a ++ ts) → ends back_end ts → (4 * (es - s) + 4 ≤ S fuel)%nat →
  ∃ c s', (c ← parsepipe buf es fuel; parseback buf es fuel c) s = Done c s' ∧ on s' ts ∧ (s ≤ s')%nat ∧ cmd_map (slice buf) c = a.
Proof.
  intros Hb Hon Hend Hf. destruct (Hb ts fuel fuel s) as (c & s1 & f3 & R & Hon1 & Hle & Hc & Hf3); try done; [more_ends | lia | lia |].
  rewrite R. rewrite (parseback_stop _ _ _ _ Hon1 Hend Hf3). by exists c, s1.
Qed.
Lemma line_of_back a : toks 0 a = toks 1 a → back_parses a → line_parses a.
Proof.
  intros Heq Hb ts [| fuel] s Hon Hend Hf; [lia |]. rewrite Heq in Hon.
  destruct (parseline_back a ts fuel s Hb Hon) as (c & s1 & R & Hon1 & Hle & Hc); [more_ends | lia |].
  cbn [parseline]. rewrite <- bind_assoc, (bind_done _ _ _ _ _ R).
  rewrite (bind_done _ _ _ _ _ (peek_on [c_semi] s1 _ ltac:(syms) Hon1)).
  assert (starts [c_semi] ts = false) as -> by disjoint. by exists c, s1.
Qed.
Lemma exec_of_line a : toks 3 a = TSym c_open :: toks 0 a ++ [TSym c_close] → line_parses a → exec_parses a.
Proof.
  intros Heq Hl rs ts [| [| fuel]] s Hrs Hon Hend Hf; [lia | lia |]. rewrite Heq in Hon. cbn [app] in Hon.
  rewrite <- app_assoc in Hon. cbn [app] in Hon.
  cbn [parseexec]. rewrite (bind_done _ _ _ _ _ (peek_on [c_open] s _ ltac:(syms) Hon)). cbn [starts].
  change (is_in [c_open] c_open) with true. cbv iota. cbn [parseblock]. rewrite (bind_done _ _ _ _ _ (peek_on [c_open] s _ ltac:(syms) Hon)). cbn [starts].
  change (is_in [c_open] c_open) with true. cbn [negb].
  destruct (gettoken_sym _ _ _ Hon) as (w & s1 & R1 & Hon1 & Hlt1). rewrite (bind_done _ _ _ _ _ R1). pose proof (on_le _ _ Hon1).
  destruct (Hl (TSym c_close :: all_redirs rs ++ ts) fuel s1) as (c & s2 & R2 & Hon2 & Hle2 & Hc); [done | by right | lia |].
  rewrite (bind_done _ _ _ _ _ R2), (bind_done _ _ _ _ _ (peek_on [c_close] s2 _ ltac:(syms) Hon2)). cbn [starts].
  change (is_in [c_close] c_close) with true. cbn [negb].
  destruct (gettoken_sym _ _ _ Hon2) as (w' & s3 & R3 & Hon3 & Hlt3). rewrite (bind_done _ _ _ _ _ R3). pose proof (on_le _ _ Hon3).
  destruct (parseredirs_on rs ts fuel s3) as (rs' & s4 & R4 & Hon4 & Hle4 & Hrs'); try done; [disjoint | lia |].
  rewrite (bind_done _ _ _ _ _ R4). exists (redirs_on c rs'), s4. split; [done |]. split; [done |]. split; [lia |].
  rewrite cmd_map_redirs, Hc. by rewrite <- Hrs'.
Qed.

Lemma exec_exec argv : Forall word_ok argv → (length argv < MAXARGS)%nat → exec_parses (EXEC argv).
Proof.
  intros Hok Hlen rs ts [| fuel] s Hrs Hon Hend Hf; [lia |]. cbn [toks] in Hon. cbn [parseexec].
  assert (starts [c_open] ((TWord <$> argv) ++ all_redirs rs ++ ts) = false) as Hst.
  { destruct argv; [| done]. destruct rs as [| [[f m] d] rs]; [cbn; disjoint |]. cbn. by destruct (m =? read_mode). }
  rewrite (bind_done _ _ _ _ _ (peek_on [c_open] s _ ltac:(syms) Hon)), Hst.
  assert (∃ r1 r2, rs = r1 ++ r2 ∧ (argv = [] → r2 = []) ∧ on s (all_redirs r1 ++ (TWord <$> argv) ++ all_redirs r2 ++ ts) ∧
    starts [c_lt; c_gt] ((TWord <$> argv) ++ all_redirs r2 ++ ts) = false) as (r1 & r2 & -> & Hr2 & Hon' & Hst').
  { destruct argv as [| w2 ws]; [exists rs, []; rewrite app_nil_r; split_and!; try done; disjoint | by exists [], rs]. }
  apply Forall_app in Hrs as [Hr1 Hrs2].
  destruct (parseredirs_on r1 _ fuel s Hr1 Hon' Hst') as (rs1 & s1 & R1 & Hon1 & Hle1 & Hrs1); [lia |].
  rewrite (bind_done _ _ _ _ _ R1).
  destruct (parseargs_on argv ts r2 fuel 0 s1) as (ws & rs2 & s2 & R2 & Hon2 & Hle2 & Hws & Hrs2'); try done; [lia |].
  rewrite (bind_done _ _ _ _ _ R2). exists (redirs_on (EXEC ws) (rs1 ++ rs2)), s2.
  split; [done |]. split; [done |]. split; [lia |]. rewrite cmd_map_redirs. cbn [cmd_map]. rewrite Hws. f_equal.
  change (redir_slice <$> (rs1 ++ rs2) = r1 ++ r2). by rewrite fmap_app, Hrs1, Hrs2'.
Qed.
Lemma exec_redir a f m d : redir_ok (f, m, d) → exec_parses a → exec_parses (REDIR a f m d).
Proof.
  intros Hr Ha rs ts fuel s Hrs Hon Hend Hf. apply (Ha ((f, m, d) :: rs) ts fuel s); try done; [by constructor |].
  cbn [toks] in Hon. by rewrite <- app_assoc in Hon.
Qed.
Lemma pipe_pipe l r : exec_parses l → pipe_parses r → pipe_parses (PIPE l r).
Proof.
  intros Hl Hr ts [| fuel] s Hon Hend Hf; [lia |]. cbn [toks paren Nat.ltb Nat.leb] in Hon. rewrite <- app_assoc in Hon. cbn [app] in Hon.
  cbn [parsepipe]. destruct (Hl [] (TSym c_bar :: toks 2 r ++ ts) fuel s) as (c & s1 & R1 & Hon1 & Hle1 & Hc); [done | done | by right | lia |].
  rewrite (bind_done _ _ _ _ _ R1), (bind_done _ _ _ _ _ (peek_on [c_bar] s1 _ ltac:(syms) Hon1)). cbn [starts].
  change (is_in [c_bar] c_bar) with true. cbv iota.
  destruct (gettoken_sym _ _ _ Hon1) as (w & s2 & R2 & Hon2 & Hlt2). rewrite (bind_done _ _ _ _ _ R2). pose proof (on_le _ _ Hon2).
  destruct (Hr ts fuel s2) as (c' & s3 & R3 & Hon3 & Hle3 & Hc'); try done; [lia |].
  rewrite (bind_done _ _ _ _ _ R3). exists (PIPE c c'), s3. split; [done |]. split; [done |]. split; [lia |]. cbn. by rewrite Hc, Hc'.
Qed.
Lemma line_list l r : back_parses l → line_parses r → line_parses (LIST l r).
Proof.
  intros Hl Hr ts [| fuel] s Hon Hend Hf; [lia |]. cbn [toks paren Nat.ltb Nat.leb] in Hon. rewrite <- app_assoc in Hon. cbn [app] in Hon.
  destruct (parseline_back l _ fuel s Hl Hon) as (c & s1 & R1 & Hon1 & Hle1 & Hc); [by right | lia |].
  cbn [parseline]. rewrite <- bind_assoc, (bind_done _ _ _ _ _ R1).
  rewrite (bind_done _ _ _ _ _ (peek_on [c_semi] s1 _ ltac:(syms) Hon1)). cbn [starts].
  change (is_in [c_semi] c_semi) with true. cbv iota.
  destruct (gettoken_sym _ _ _ Hon1) as (w & s2 & R2 & Hon2 & Hlt2). rewrite (bind_done _ _ _ _ _ R2). pose proof (on_le _ _ Hon2).
  destruct (Hr ts fuel s2) as (c' & s3 & R3 & Hon3 & Hle3 & Hc'); try done; [lia |].
  rewrite (bind_done _ _ _ _ _ R3). exists (LIST c c'), s3. split; [done |]. split; [done |]. split; [lia |]. cbn. by rewrite Hc, Hc'.
Qed.
Lemma back_back a : back_parses a → back_parses (BACK a).
Proof.
  intros Ha ts f1 f2 s Hon Hend Hf1 Hf2. cbn [toks paren Nat.ltb Nat.leb] in Hon. rewrite <- app_assoc in Hon. cbn [app] in Hon.
  destruct (Ha (TSym c_and :: ts) f1 f2 s) as (c & s1 & f3 & R1 & Hon1 & Hle1 & Hc & Hf3); try done; [by right |].
  rewrite R1. destruct f3 as [| f3]; [lia |]. cbn [parseback].
  rewrite (bind_done _ _ _ _ _ (peek_on [c_and] s1 _ ltac:(syms) Hon1)). cbn [starts].
  change (is_in [c_and] c_and) with true. cbv iota.
  destruct (gettoken_sym _ _ _ Hon1) as (w & s2 & R2 & Hon2 & Hlt2). rewrite (bind_done _ _ _ _ _ R2). pose proof (on_le _ _ Hon2).
  exists (BACK c), s2, f3. split; [done |]. split; [done |]. split; [lia |]. split; [cbn; by rewrite Hc | lia].
Qed.

Lemma cmd_parses a : cmd_ok a → line_parses a ∧ back_parses a ∧ pipe_parses a ∧ exec_parses a.
Proof.
  assert (∀ a, toks 2 a = toks 3 a → toks 1 a = toks 2 a → toks 0 a = toks 1 a → exec_parses a →
    line_parses a ∧ back_parses a ∧ pipe_parses a ∧ exec_parses a) as Hexec.
  { intros b H2 H1 H0 He. pose proof (pipe_of_exec _ H2 He) as Hp. pose proof (back_of_pipe _ H1 Hp) as Hb.
    pose proof (line_of_back _ H0 Hb). done. }
  induction a as [argv | c IH f m d | l IHl r IHr | l IHl r IHr | c IH]; cbn [cmd_ok].
  - intros [? ?]. by apply Hexec, exec_exec.
  - intros [Hc Hr]. apply Hexec; try done. apply exec_redir; [done |]. by apply IH.
  - intros [Hl Hr]. assert (Hp : pipe_parses (PIPE l r)) by (apply pipe_pipe; [by apply IHl | by apply IHr]).
    pose proof (back_of_pipe (PIPE l r) eq_refl Hp) as Hb. pose proof (line_of_back (PIPE l r) eq_refl Hb) as Hline.
    pose proof (exec_of_line (PIPE l r) eq_refl Hline). done.
  - intros [Hl Hr]. assert (Hline : line_parses (LIST l r)) by (apply line_list; [by apply IHl | by apply IHr]).
    pose proof (exec_of_line (LIST l r) eq_refl Hline) as He. pose proof (pipe_of_exec (LIST l r) eq_refl He) as Hp.
    pose proof (back_of_pipe (LIST l r) eq_refl Hp). done.
  - intros Hc. assert (Hb : back_parses (BACK c)) by (apply back_back; by apply IH).
    pose proof (line_of_back (BACK c) eq_refl Hb) as Hline. pose proof (exec_of_line (BACK c) eq_refl Hline) as He.
    pose proof (pipe_of_exec (BACK c) eq_refl He). done.
Qed.
End on.

Lemma spells_nonzero l ts : spells l ts → Forall (λ c, c ≠ 0) l.
Proof.
  assert (Hsp : ∀ ws, spaces ws → Forall (λ c, c ≠ 0) ws).
  { intros ws H. eapply Forall_impl; [exact H |]. by intros c Hc ->. }
  induction 1 as [| c ws l ts Hc Hws _ _ IH | w ws l ts [_ Hw] Hws _ _ IH]; [constructor | |].
  - constructor; [by apply sym_nonzero |]. apply Forall_app_2; auto.
  - apply Forall_app_2; [| apply Forall_app_2; auto]. eapply Forall_impl; [exact Hw |]. by intros c [? _].
Qed.
Lemma strlen_app l rest : Forall (λ c, c ≠ 0) l → Z.to_nat (strlen (l ++ 0 :: rest)) = length l.
Proof.
  intros H. rewrite strlen_cstr, Nat2Z.id. induction H as [| x l Hx _ IH]; [done |].
  cbn. rewrite (proj2 (Z.eqb_neq _ _) Hx). cbn. by rewrite IH.
Qed.

Section lead.
Context (buf : list Z) (es : nat).
Lemma bind_same {A B} (m : M nat A) (k : A → M nat B) s s' : m s = m s' → (m ≫= k) s = (m ≫= k) s'.
Proof. intros H. unfold mbind, M_bind. by rewrite H. Qed.
(** White space before a command does not matter. *)
Lemma advance_twice p s : (s ≤ es)%nat → advance buf es p (advance buf es p s) = advance buf es p s.
Proof.
  intros Hs. destruct (advance_spec buf es p s Hs) as (Hr & _ & Hend). set (s1 := advance buf es p s) in *.
  unfold advance. destruct Hend as [-> | Hend]; [by rewrite Nat.sub_diag |].
  destruct (es - s1)%nat; [done |]. cbn. by rewrite Hend.
Qed.
Lemma parseline_lead fuel s : (s ≤ es)%nat →
  parseline buf es (S (S (S fuel))) s = parseline buf es (S (S (S fuel))) (advance buf es (is_in whitespace) s).
Proof.
  intros Hs. set (s1 := advance buf es (is_in whitespace) s).
  assert (∀ set, peek buf es set s = peek buf es set s1) as Hp.
  { intros set. unfold peek. rewrite !bind_gets, !bind_modify. cbn [id]. unfold s1. by rewrite advance_twice. }
  apply (bind_same (parsepipe buf es (S (S fuel)))), (bind_same (parseexec buf es (S fuel))),
    (bind_same (peek buf es [c_open])), Hp.
Qed.
End lead.

Lemma parsecmd_reads a lead l rest :
  cmd_ok a → spaces lead → spells l (toks 0 a) →
  ∃ c mem s, parsecmd (lead ++ l ++ 0 :: rest) = Done (c, mem) s ∧ strings mem c = a.
Proof.
  intros Ha Hlead Hl. set (buf := lead ++ l ++ 0 :: rest).
  assert (Hnz : Forall (λ c, c ≠ 0) (lead ++ l)).
  { apply Forall_app_2; [| by eapply spells_nonzero]. eapply Forall_impl; [exact Hlead |]. by intros c Hc ->. }
  assert (Hes : Z.to_nat (strlen buf) = length (lead ++ l)).
  { unfold buf. rewrite app_assoc. by apply strlen_app. }
  assert (Hlen : (length (lead ++ l) < length buf)%nat) by (unfold buf; rewrite !length_app; cbn; lia).
  pose proof (strlen_text buf) as T. rewrite Hes in T. set (es := length (lead ++ l)) in *.
  assert (Hat : at_pos buf es 0 (lead ++ l)).
  { split; [lia |]. rewrite drop_0. unfold buf. rewrite app_assoc. apply take_app_length. }
  pose proof (advance_at buf es T ltac:(lia) (is_in whitespace) lead 0 l Hat Hlead (spells_head _ _ Hl)) as Hadv.
  assert (Hon : on buf es (length lead) (toks 0 a ++ [])).
  { rewrite app_nil_r. exists l. split; [| done]. by apply (at_app buf es ltac:(lia)) in Hat as [? _]. }
  destruct (cmd_parses buf es T ltac:(lia) a Ha) as (Hline & _).
  destruct (Hline [] (4 * es + 4)%nat (length lead) Hon) as (c & s' & R & Hon' & _ & Hc); [by left | lia |].
  assert (Hall : parse_all buf es O = Done c es).
  { unfold parse_all. replace (4 * es + 4)%nat with (S (S (S (4 * es + 1))))%nat in R |- * by lia.
    cbn [plus] in Hadv. rewrite <- Hadv, <- parseline_lead in R by lia. rewrite (bind_done _ _ _ _ _ R).
    rewrite (bind_done _ _ _ _ _ (peek_on buf es T ltac:(lia) [] s' [] ltac:(constructor) Hon')), bind_gets.
    assert (s' = es) as ->. { destruct Hon' as (l' & Hat' & Hl'). inversion Hl'; subst. by eapply at_nil; [| exact Hat']; lia. }
    by rewrite bool_decide_eq_true_2. }
  exists c, (nulterminate c buf), es. unfold parsecmd. rewrite Hes, (bind_done _ _ _ _ _ Hall). split; [done |].
  rewrite <- Hc. apply cmd_map_ext. intros [q eq] Hw. rewrite nulterminate_cut.
  apply (cut_words buf es (cmd_words c) (q, eq)); try done; try lia.
  pose proof (parse_all_good buf es T) as G. by rewrite Hall in G.
Qed.

(** C21: A line that spells the tokens of a command, with any white space, is
    parsed as that command, and after [nulterminate] the tree's pointers denote
    its words: the parser inverts the grammar. *)
Theorem parsecmd_inverts a lead l rest :
  cmd_ok a → spaces lead → spells l (toks 0 a) →
  ∃ c mem s, parsecmd (lead ++ l ++ 0 :: rest) = Done (c, mem) s ∧ strings mem c = a.
Proof. apply parsecmd_reads. Qed.
