(* ===== verification/Shrun.v ===== *)
(** * sh.c: running commands

    [runcmd] and [main] as programs of system calls; fork's continuation is run
    twice, with 0 and with the child's number.  A call that does not return
    (exit, a successful exec) has no continuation.  The commands are given with
    the strings of their words. *)
From S2P Require Import Mmu Cstring Kstate Ulib Prelude Sh.

Inductive prog : Type :=
  | Exit
  | Exec (path : list Z) (argv : list (list Z)) (k : prog)
  | Open (file : list Z) (mode : Z) (k : Z → prog)
  | Close (fd : Z) (k : prog)
  | Dup (fd : Z) (k : prog)
  | Pipe (k : option (Z * Z) → prog)
  | Fork (k : Z → prog)
  | Wait (k : prog)
  | Chdir (path : list Z) (k : Z → prog)
  | Gets (max : Z) (k : list Z → prog)
  | Printf (fmt : string) (args : list (list Z)) (k : prog)
  | Stuck.

(** panic(s); the messages go to descriptor 2. *)
Definition sh_panic (msg : string) : prog := Printf "%s\n" [bytes msg] Exit.
Definition fork1 (k : Z → prog) : prog := Fork (λ pid, if pid =? -1 then sh_panic "fork" else k pid).

Fixpoint runcmd (c : cmd (list Z)) : prog :=
  match c with
  | EXEC argv =>
      match argv with
      | [] => Exit
      | path :: _ => Exec path argv (Printf "exec %s failed\n" [path] Exit)
      end
  | REDIR c file mode fd =>
      Close fd (Open file mode (λ r,
        if r <? 0 then Printf "open %s failed\n" [file] Exit else runcmd c))
  | LIST l r => fork1 (λ pid, if pid =? 0 then runcmd l else Wait (runcmd r))
  | PIPE l r =>
      Pipe (λ p,
        match p with
        | None => sh_panic "pipe"
        | Some (p0, p1) =>
            fork1 (λ pid,
              if pid =? 0 then Close 1 (Dup p1 (Close p0 (Close p1 (runcmd l)))) else
              fork1 (λ pid,
                if pid =? 0 then Close 0 (Dup p0 (Close p0 (Close p1 (runcmd r)))) else
                Close p0 (Close p1 (Wait (Wait Exit)))))
        end)
  | BACK c => fork1 (λ pid, if pid =? 0 then runcmd c else Exit)
  end.

(** runcmd(parsecmd(buf)), in the child. *)
Definition run_line (buf : list Z) : prog :=
  match parsecmd buf with
  | Done (c, mem) _ => runcmd (strings mem c)
  | Panic msg s =>
      if decide (msg = "leftovers"%string)
      then Printf "leftovers: %s\n" [cstr (drop s buf)] (sh_panic "syntax")
      else sh_panic msg
  | _ => Stuck
  end.

Definition bufsize : nat := 100.
Definition console : list Z := bytes "console".
Definition rdwr_mode : Z := 0x002.

(** Ensure that three file descriptors are open. *)
Fixpoint open_three (fuel : nat) (k : prog) : prog :=
  match fuel with
  | O => Stuck
  | S fuel => Open console rdwr_mode (λ fd,
      if fd >=? 0 then if fd >=? 3 then Close fd k else open_three fuel k else k)
  end.

(** buf after memset and gets: the line and the terminators behind it. *)
Definition line_buf (l : list Z) : list Z := l ++ replicate (bufsize - length l) 0.
Definition is_cd (buf : list Z) : bool := bool_decide (take 3 buf = [99; 100; 32]).
(** buf[strlen(buf)-1] = 0; buf+3 *)
Definition cd_arg (buf : list Z) : list Z := cstr (drop 3 (<[Z.to_nat (strlen buf - 1) := 0]> buf)).

Fixpoint sh_loop (fuel : nat) : prog :=
  match fuel with
  | O => Stuck
  | S fuel =>
      Printf "$ " [] (Gets (Z.of_nat bufsize) (λ l,
        let buf := line_buf l in
        if nth 0 buf 0 =? 0 then Exit else
        if is_cd buf then
          Chdir (cd_arg buf) (λ r,
            if r <? 0 then Printf "cannot cd %s\n" [cd_arg buf] (sh_loop fuel) else sh_loop fuel)
        else
        fork1 (λ pid, if pid =? 0 then run_line buf else Wait (sh_loop fuel))))
  end.
Definition sh_main (fuel : nat) : prog := open_three 4 (sh_loop fuel).

(** ** What the calls do

    A process's descriptors are a table of what is open ([None]: free); open,
    dup and pipe take the lowest free ones, as [fdalloc] does.  Which files can
    be opened, which programs run and which directories exist is given. *)
Inductive obj := Terminal | File (name : list Z) (mode : Z) | RdEnd (p : nat) | WrEnd (p : nat).
Abbreviation fdtab := (list (option obj)).

Inductive event :=
  | Ran (argv : list (list Z)) (fds : fdtab)
  | Said (fmt : string) (args : list (list Z))
  | Waited
  | Went (dir : list Z)
  | Hung.

Section interp.
Context (opens : list Z → Z → bool) (runs enters : list Z → bool).

(** The lowest free descriptor. *)
Definition free_fd (fds : fdtab) : option nat := find_idx (λ o, bool_decide (o = None)) fds.
Definition fd_get (fds : fdtab) (fd : Z) : option obj := fds !! Z.to_nat fd ≫= id.
Definition fd_close (fds : fdtab) (fd : Z) : fdtab := <[Z.to_nat fd := None]> fds.

(** The events of a process and its children (a child's first), the number of
    pipes made so far and the input that is left.  Children do not read it. *)
Fixpoint run (p : prog) (fds : fdtab) (st : nat * list Z) : list event * (nat * list Z) :=
  match p with
  | Exit => ([], st)
  | Exec path argv k => if runs path then ([Ran argv fds], st) else run k fds st
  | Open file mode k =>
      match (if opens file mode then free_fd fds else None) with
      | Some fd => run (k (Z.of_nat fd)) (<[fd := Some (if decide (file = console) then Terminal else File file mode)]> fds) st
      | None => run (k (-1)) fds st
      end
  | Close fd k => run k (fd_close fds fd) st
  | Dup fd k =>
      match free_fd fds with
      | Some new => run k (<[new := fd_get fds fd]> fds) st
      | None => run k fds st
      end
  | Pipe k =>
      match free_fd fds with
      | None => run (k None) fds st
      | Some p0 =>
          let fds0 := <[p0 := Some (RdEnd st.1)]> fds in
          match free_fd fds0 with
          | None => run (k None) fds st
          | Some p1 =>
              run (k (Some (Z.of_nat p0, Z.of_nat p1))) (<[p1 := Some (WrEnd st.1)]> fds0) (S st.1, st.2)
          end
      end
  | Fork k =>
      let '(child, st1) := run (k 0) fds st in
      let '(parent, st2) := run (k 1) fds st1 in
      (child ++ parent, st2)
  | Wait k => let '(es, st') := run k fds st in (Waited :: es, st')
  | Chdir dir k =>
      if enters dir then let '(es, st') := run (k 0) fds st in (Went dir :: es, st')
      else run (k (-1)) fds st
  | Gets max k => let '(l, rest) := Ulib.gets max st.2 in run (k l) fds (st.1, rest)
  | Printf fmt args k => let '(es, st') := run k fds st in (Said fmt args :: es, st')
  | Stuck => ([Hung], st)
  end.
End interp.

(** ** What running a command means *)
Section spec.
Context (opens : list Z → Z → bool) (runs enters : list Z → bool).

(** The programs a command runs, each with the descriptors it gets: a
    redirection replaces one descriptor by a file, a pipe the output of the left
    and the input of the right command by its ends, which nobody else holds. *)
Fixpoint cmd_runs (c : cmd (list Z)) (fds : fdtab) (np : nat) : list event * nat :=
  match c with
  | EXEC [] => ([], np)
  | EXEC ((path :: _) as argv) =>
      if runs path then ([Ran argv fds], np) else ([Said "exec %s failed\n" [path]], np)
  | REDIR c file mode fd =>
      if opens file mode
      then cmd_runs c (<[Z.to_nat fd := Some (if decide (file = console) then Terminal else File file mode)]> fds) np
      else ([Said "open %s failed\n" [file]], np)
  | LIST l r =>
      let '(el, np) := cmd_runs l fds np in
      let '(er, np) := cmd_runs r fds np in (el ++ Waited :: er, np)
  | PIPE l r =>
      let '(el, np') := cmd_runs l (<[1%nat := Some (WrEnd np)]> fds) (S np) in
      let '(er, np') := cmd_runs r (<[0%nat := Some (RdEnd np)]> fds) np' in
      (el ++ er ++ [Waited; Waited], np')
  | BACK c => cmd_runs c fds np
  end.

(** Redirections concern the standard input or output. *)
Fixpoint redirs_std (c : cmd (list Z)) : Prop :=
  match c with
  | EXEC _ => True
  | REDIR c _ _ fd => (fd = 0 ∨ fd = 1) ∧ redirs_std c
  | PIPE l r => redirs_std l ∧ redirs_std r
  | LIST l r => redirs_std l ∧ redirs_std r
  | BACK c => redirs_std c
  end.

(** The three standard descriptors are open and two others are free. *)
Record std_fds (fds : fdtab) : Prop := {
  std_open : ∀ i, (i < 3)%nat → ∃ o, fds !! i = Some (Some o);
  std_room : ∃ p0 p1, (p0 < p1)%nat ∧ fds !! p0 = Some None ∧ fds !! p1 = Some None ∧
    ∀ j, (j < p1)%nat → j ≠ p0 → ∃ o, fds !! j = Some (Some o) }.

Lemma free_fd_first fds i : fds !! i = Some None → (∀ j, (j < i)%nat → ∃ o, fds !! j = Some (Some o)) → free_fd fds = Some i.
Proof.
  intros Hi Hj. unfold free_fd. destruct (find_idx_is_Some (λ o, bool_decide (o = None)) fds i None Hi) as (k & Hk & Hle); [done |].
  rewrite Hk. f_equal. destruct (decide (k = i)); [done |]. apply find_idx_Some in Hk as [(y & Hy & Hn) _].
  destruct (Hj k) as [o Ho]; [lia |]. assert (y = Some o) as -> by congruence. done.
Qed.

Lemma free_fd_Some (fds : fdtab) i : free_fd fds = Some i → fds !! i = Some None.
Proof. unfold free_fd. intros [(y & Hy & Hn) _]%find_idx_Some. by apply bool_decide_eq_true in Hn as ->. Qed.

Lemma std_insert fds i o : std_fds fds → (i < 3)%nat → std_fds (<[i := Some o]> fds).
Proof.
  intros [Ho (p0 & p1 & Hlt & H0 & H1 & Hj)] Hi.
  assert (Hin : ∀ j x, fds !! j = Some (Some x) → ∃ y, <[i := Some o]> fds !! j = Some (Some y)).
  { intros j x Hx. destruct (decide (j = i)) as [-> |]; [| rewrite list_lookup_insert_ne by done; by exists x].
    exists o. apply list_lookup_insert_eq. by eapply lookup_lt_Some. }
  assert (Hne : ∀ p, fds !! p = Some None → p ≠ i).
  { intros p Hp ->. destruct (Ho i Hi) as [x Hx]. congruence. }
  split.
  - intros j Hj3. destruct (Ho j Hj3) as [x Hx]. by eapply Hin.
  - exists p0, p1. rewrite !list_lookup_insert_ne by (apply not_eq_sym; by apply Hne). split_and!; try done.
    intros j Hj1 Hj2. destruct (Hj j Hj1 Hj2) as [x Hx]. by eapply Hin.
Qed.

(** Close, then open or dup: descriptor 0 or 1 is the lowest free one. *)
Lemma free_closed fds fd : std_fds fds → fd = 0 ∨ fd = 1 → free_fd (fd_close fds fd) = Some (Z.to_nat fd).
Proof.
  intros [Ho _] Hfd. unfold fd_close. apply free_fd_first.
  - destruct (Ho (Z.to_nat fd)) as [x Hx]; [lia |]. apply list_lookup_insert_eq. by eapply lookup_lt_Some.
  - intros j Hj. destruct (Ho j) as [x Hx]; [lia |]. exists x. rewrite list_lookup_insert_ne by lia. done.
Qed.
Lemma reopen (fds : fdtab) fd x : <[Z.to_nat fd := x]> (fd_close fds fd) = <[Z.to_nat fd := x]> fds.
Proof. unfold fd_close. apply list_insert_insert_eq. Qed.

(** The two ends of a pipe. *)
Lemma pipe_fds fds np : std_fds fds → ∃ p0 p1, (3 ≤ p0 < p1)%nat ∧ fds !! p0 = Some None ∧ fds !! p1 = Some None ∧
  free_fd fds = Some p0 ∧ free_fd (<[p0 := Some (RdEnd np)]> fds) = Some p1.
Proof.
  intros [Ho (p0 & p1 & Hlt & H0 & H1 & Hj)]. exists p0, p1.
  assert (3 ≤ p0)%nat. { destruct (decide (3 ≤ p0)%nat); [done |]. destruct (Ho p0) as [x Hx]; [lia | congruence]. }
  split; [done |]. split; [done |]. split; [done |]. split.
  - apply free_fd_first; [done |]. intros j Hjp. apply Hj; lia.
  - apply free_fd_first; [by rewrite list_lookup_insert_ne by lia |]. intros j Hjp.
    destruct (decide (j = p0)) as [-> |].
    + exists (RdEnd np). apply list_lookup_insert_eq. by eapply lookup_lt_Some.
    + rewrite list_lookup_insert_ne by done. by apply Hj.
Qed.
Lemma insert_back (fds : fdtab) (p : nat) (x : option obj) : fds !! p = Some None → <[p := None]> (<[p := x]> fds) = fds.
Proof. intros H. rewrite list_insert_insert_eq. by apply list_insert_id. Qed.

Lemma run_fork1 k (fds : fdtab) st :
  run opens runs enters (fork1 k) fds st =
  let '(child, st1) := run opens runs enters (k 0) fds st in
  let '(parent, st2) := run opens runs enters (k 1) fds st1 in (child ++ parent, st2).
Proof. done. Qed.

(** Closing both ends of a pipe, in a table in which another descriptor may
    have been replaced. *)
Lemma close_ends (fds : fdtab) i (x a b : option obj) (p0 p1 : nat) :
  (i < p0 < p1)%nat → fds !! p0 = Some None → fds !! p1 = Some None →
  fd_close (fd_close (<[i := x]> (<[p1 := b]> (<[p0 := a]> fds))) (Z.of_nat p0)) (Z.of_nat p1) = <[i := x]> fds.
Proof.
  intros Hi H0 H1. unfold fd_close. rewrite !Nat2Z.id. apply list_eq. intros j.
  pose proof (lookup_lt_Some _ _ _ H0). pose proof (lookup_lt_Some _ _ _ H1).
  destruct (decide (j = p1)) as [-> |].
  { rewrite list_lookup_insert_eq by (by rewrite !length_insert). by rewrite list_lookup_insert_ne by lia. }
  rewrite (list_lookup_insert_ne _ p1) by done. destruct (decide (j = p0)) as [-> |].
  { rewrite list_lookup_insert_eq by (by rewrite !length_insert). by rewrite list_lookup_insert_ne by lia. }
  rewrite (list_lookup_insert_ne _ p0) by done. destruct (decide (j = i)) as [-> |].
  { by rewrite !list_lookup_insert_eq by (rewrite ?length_insert; lia). }
  by rewrite !(list_lookup_insert_ne _ i), !list_lookup_insert_ne by done.
Qed.
(** What a child of a pipeline does before it runs its command: [fd] becomes
    the end [p] of the pipe, and both ends are closed. *)
Lemma run_end (fds : fdtab) fd (p p0 p1 : nat) (o a b : obj) k st :
  std_fds fds → fd = 0 ∨ fd = 1 → (3 ≤ p0 < p1)%nat → fds !! p0 = Some None → fds !! p1 = Some None →
  <[p1 := Some b]> (<[p0 := Some a]> fds) !! p = Some (Some o) → (3 ≤ p)%nat →
  run opens runs enters (Close fd (Dup (Z.of_nat p) (Close (Z.of_nat p0) (Close (Z.of_nat p1) k))))
    (<[p1 := Some b]> (<[p0 := Some a]> fds)) st
  = run opens runs enters k (<[Z.to_nat fd := Some o]> fds) st.
Proof.
  intros Hf Hfd Hp H0 H1 Hpo Hp3. cbn [run]. destruct Hf as [Ho _].
  set (t := <[p1 := Some b]> (<[p0 := Some a]> fds)) in *.
  assert (Hfree : free_fd (fd_close t fd) = Some (Z.to_nat fd)).
  { unfold fd_close, t. apply free_fd_first.
    - destruct (Ho (Z.to_nat fd)) as [x Hx]; [lia |]. apply list_lookup_insert_eq. rewrite !length_insert.
      by eapply lookup_lt_Some.
    - intros j Hj. destruct (Ho j) as [x Hx]; [lia |]. exists x. by rewrite !list_lookup_insert_ne by lia. }
  assert (Hget : fd_get (fd_close t fd) (Z.of_nat p) = Some o).
  { unfold fd_get, fd_close. rewrite Nat2Z.id, list_lookup_insert_ne, Hpo by lia. done. }
  rewrite Hfree, Hget, reopen. unfold t. by rewrite close_ends by (lia || done).
Qed.

Lemma run_cmd c (fds : fdtab) (st : nat * list Z) :
  std_fds fds → redirs_std c →
  run opens runs enters (runcmd c) fds st = let '(es, np) := cmd_runs c fds st.1 in (es, (np, st.2)).
Proof.
  revert fds st. induction c as [argv | c IH file m fd | l IHl r IHr | l IHl r IHr | c IH]; intros fds [np inp] Hf Hc;
    cbn [redirs_std] in Hc.
  - destruct argv as [| path argv]; [done |]. cbn. by destruct (runs path).
  - destruct Hc as [Hfd Hc]. cbn [runcmd cmd_runs run fst snd]. destruct (opens file m); [| done].
    rewrite free_closed, reopen by done.
    rewrite (proj2 (Z.ltb_ge _ _)) by lia. by apply IH; [apply std_insert; [| lia] |].
  - destruct Hc as [Hl Hr]. cbn [runcmd cmd_runs fst snd].
    destruct (pipe_fds fds np Hf) as (p0 & p1 & Hp & H0 & H1 & Hf0 & Hf1).
    pose proof (lookup_lt_Some _ _ _ H0). pose proof (lookup_lt_Some _ _ _ H1).
    cbn [run]. cbn [fst snd]. rewrite Hf0, Hf1. rewrite !run_fork1. cbv beta. change (0 =? 0) with true. change (1 =? 0) with false. cbv iota.
    rewrite (run_end fds 1 p1 p0 p1 (WrEnd np)); [| done | by right | done.. | | lia].
    2: { apply list_lookup_insert_eq. by rewrite length_insert. }
    rewrite IHl by (done || (apply std_insert; [done | lia])). cbn [fst snd].
    change (Z.to_nat 1) with 1%nat. destruct (cmd_runs l _ (S np)) as [el np1]. rewrite run_fork1. cbv beta.
    change (0 =? 0) with true. change (1 =? 0) with false. cbv iota.
    rewrite (run_end fds 0 p0 p0 p1 (RdEnd np)); [| done | by left | done.. | | lia].
    2: { rewrite list_lookup_insert_ne by lia. by apply list_lookup_insert_eq. }
    rewrite IHr by (done || (apply std_insert; [done | lia])). cbn [fst snd].
    change (Z.to_nat 0) with 0%nat. destruct (cmd_runs r _ np1) as [er np2]. cbn. done.
  - destruct Hc as [Hl Hr]. cbn [runcmd cmd_runs]. rewrite run_fork1. cbv beta. change (0 =? 0) with true. change (1 =? 0) with false. cbv iota.
    rewrite IHl by done. cbn [fst snd]. destruct (cmd_runs l fds np) as [el np1]. cbn [run].
    rewrite IHr by done. cbn [fst snd]. by destruct (cmd_runs r fds np1) as [er np2].
  - cbn [runcmd cmd_runs]. rewrite run_fork1. cbv beta. change (0 =? 0) with true. change (1 =? 0) with false. cbv iota.
    rewrite IH by done. cbn [fst snd]. destruct (cmd_runs c fds np) as [el np1]. cbn. by rewrite app_nil_r.
Qed.
End spec.
