(* ===== verification/Shmain.v ===== *)
(** * The shell at work: lines in, programs run

    [sh_main] on the lines of an input, each of which spells a command or is a
    cd line. *)
From S2P Require Import Mmu Cstring Kstate Ulib Prelude Sh Shparse Shprint Shrun.

Inductive entry := Command (a : cmd (list Z)) | Cd (dir : list Z).
Definition newline_free (l : list Z) : Prop := Forall (λ c, c ≠ 10 ∧ c ≠ 13) l.
Definition cd_prefix : list Z := [99; 100; 32].

(** The line [l] of fewer than 100 characters that enters [e]. *)
Record typed (e : entry) (l : list Z) : Prop := {
  ty_line : ∃ body, l = body ++ [10] ∧ newline_free body;
  ty_room : (length l < bufsize)%nat;
  ty_entry : match e with
    | Command a => cmd_ok a ∧ is_cd (line_buf l) = false ∧
        ∃ lead l', l = lead ++ l' ∧ spaces lead ∧ spells l' (toks 0 a)
    | Cd dir => l = cd_prefix ++ dir ++ [10] ∧ Forall (λ c, c ≠ 0) dir
    end }.

Section session.
Context (opens : list Z → Z → bool) (runs enters : list Z → bool).

(** What a session does: for every command its programs run, in order, and the
    shell waits; for every cd it changes the directory itself. *)
Fixpoint session (fds : fdtab) (es : list entry) (np : nat) : list event :=
  Said "$ " [] ::
  match es with
  | [] => []
  | Command a :: es => let '(ev, np) := cmd_runs opens runs a fds np in ev ++ Waited :: session fds es np
  | Cd dir :: es => (if enters dir then Went dir else Said "cannot cd %s\n" [dir]) :: session fds es np
  end.

Lemma cmd_ok_std a : cmd_ok a → redirs_std a.
Proof.
  induction a as [argv | c IH f m d | l IHl r IHr | l IHl r IHr | c IH]; cbn; tauto.
Qed.

Lemma gets_line body rest n : newline_free body → (length body < n)%nat →
  gets_loop n (body ++ 10 :: rest) = (body ++ [10], rest).
Proof.
  revert n. induction body as [| c body IH]; intros [| n] Hb Hn; cbn in Hn; try lia; [done |].
  apply Forall_cons in Hb as [[H10 H13] Hb]. cbn [app gets_loop].
  rewrite (proj2 (Z.eqb_neq _ _) H10), (proj2 (Z.eqb_neq _ _) H13). cbn [orb].
  by rewrite IH by (done || lia).
Qed.
Lemma gets_typed e l rest : typed e l → Ulib.gets (Z.of_nat bufsize) (l ++ rest) = (l, rest).
Proof.
  intros [(body & -> & Hb) Hr _]. unfold Ulib.gets. rewrite <- app_assoc. apply gets_line; [done |].
  rewrite length_app in Hr. cbn in Hr. unfold bufsize in *. lia.
Qed.
Lemma line_buf_split l : (length l < bufsize)%nat → ∃ rest, line_buf l = l ++ 0 :: rest.
Proof.
  intros H. unfold line_buf. destruct (bufsize - length l)%nat as [| n] eqn:E; [lia |]. by exists (replicate n 0).
Qed.

Lemma run_line_command a l : typed (Command a) l → run_line (line_buf l) = runcmd a.
Proof.
  intros [_ Hr (Hok & _ & lead & l' & -> & Hlead & Hl)]. destruct (line_buf_split _ Hr) as [rest ->].
  rewrite <- app_assoc. destruct (parsecmd_reads a lead l' rest Hok Hlead Hl) as (c & mem & s & R & Hc).
  unfold run_line. by rewrite R, Hc.
Qed.

Lemma typed_nonzero e l : typed e l → Forall (λ c, c ≠ 0) l ∧ nth 0 (line_buf l) 0 ≠ 0.
Proof.
  intros [(body & Hl & _) Hr He].
  assert (Forall (λ c, c ≠ 0) l) as Hnz.
  { destruct e as [a | dir].
    - destruct He as (_ & _ & lead & l' & -> & Hlead & Hsp). apply Forall_app_2; [| by eapply spells_nonzero].
      eapply Forall_impl; [exact Hlead |]. by intros c Hc ->.
    - destruct He as [-> Hd]. unfold cd_prefix. repeat (constructor; [done |]). apply Forall_app_2; [done |]. by constructor. }
  split; [done |]. destruct (line_buf_split _ Hr) as [rest ->]. destruct l as [| x l]; [by destruct body |].
  by apply Forall_cons in Hnz as [? _].
Qed.

Lemma cd_arg_typed dir l : typed (Cd dir) l → is_cd (line_buf l) = true ∧ cd_arg (line_buf l) = dir.
Proof.
  intros H. pose proof (typed_nonzero _ _ H) as [Hnz _]. destruct H as [_ Hr [Hl Hd]].
  destruct (line_buf_split _ Hr) as [rest Hb]. rewrite Hb. subst l. split; [done |].
  unfold cd_arg. rewrite strlen_cstr.
  assert (Hc : length (cstr ((cd_prefix ++ dir ++ [10]) ++ 0 :: rest)) = (4 + length dir)%nat).
  { pose proof (strlen_app _ rest Hnz) as Hs. rewrite strlen_cstr, Nat2Z.id in Hs. rewrite Hs, !length_app. cbn. lia. }
  rewrite Hc. replace (Z.to_nat (Z.of_nat (4 + length dir) - 1)) with (length (cd_prefix ++ dir) + 0)%nat by (rewrite length_app; cbn; lia).
  replace ((cd_prefix ++ dir ++ [10]) ++ 0 :: rest) with ((cd_prefix ++ dir) ++ [10] ++ 0 :: rest) by (by rewrite <- !app_assoc).
  rewrite insert_app_r. cbn [app insert list_insert]. rewrite <- app_assoc.
  change (drop 3 (cd_prefix ++ dir ++ 0 :: 0 :: rest)) with (dir ++ 0 :: 0 :: rest).
  clear -Hd. induction Hd as [| c dir Hc0 _ IH]; [done |]. cbn. rewrite (proj2 (Z.eqb_neq _ _) Hc0). by rewrite IH.
Qed.

(** ** The three descriptors *)

Lemma run_open_three a b c rest k n st :
  opens console rdwr_mode = true → free_fd rest = Some n →
  run opens runs enters (open_three 4 k) (a :: b :: c :: rest) st =
  run opens runs enters k (Some (default Terminal a) :: Some (default Terminal b) :: Some (default Terminal c) :: rest) st.
Proof.
  intros Ho Hn.
  assert (Hlast : ∀ x y z m, run opens runs enters (open_three (S m) k) (Some x :: Some y :: Some z :: rest) st =
    run opens runs enters k (Some x :: Some y :: Some z :: rest) st).
  { intros x y z m. cbn [open_three run]. rewrite Ho.
    assert (free_fd (Some x :: Some y :: Some z :: rest) = Some (S (S (S n)))) as ->.
    { unfold free_fd in *. cbn. by rewrite Hn. }
    rewrite !(proj2 (Z.geb_le _ _)) by lia. cbn [run]. f_equal. unfold fd_close. rewrite Nat2Z.id, list_insert_insert_eq.
    apply list_insert_id. cbn. by apply free_fd_Some. }
  assert (Hdec : (if decide (console = console) then Terminal else File console rdwr_mode) = Terminal) by (by rewrite decide_True).
  assert (Hopen : ∀ fds i m, free_fd fds = Some i → (i < 3)%nat →
    run opens runs enters (open_three (S m) k) fds st = run opens runs enters (open_three m k) (<[i := Some Terminal]> fds) st).
  { intros fds i m Hi Hi3. cbn [open_three run]. rewrite Ho, Hi, Hdec.
    rewrite (proj2 (Z.geb_le _ _)) by lia. destruct (Z.geb_spec (Z.of_nat i) 3); [lia | done]. }
  destruct a as [a |], b as [b |], c as [c |]; cbn [default from_option id];
    rewrite ?(Hopen _ 0%nat) by (done || lia); cbn [insert list_insert];
    rewrite ?(Hopen _ 1%nat) by (done || lia); cbn [insert list_insert];
    rewrite ?(Hopen _ 2%nat) by (done || lia); cbn [insert list_insert]; apply Hlast.
Qed.

Lemma std_three x y z rest n m :
  rest !! n = Some None → rest !! m = Some None → (n < m)%nat →
  (∀ j, (j < m)%nat → j ≠ n → ∃ o, rest !! j = Some (Some o)) → std_fds (Some x :: Some y :: Some z :: rest).
Proof.
  intros Hn Hm Hlt Hj. split.
  - intros [| [| [| i]]] Hi; cbn; eauto; lia.
  - exists (3 + n)%nat, (3 + m)%nat. cbn [plus lookup list_lookup]. split_and!; [lia | done | done |].
    intros [| [| [| j]]] Hj1 Hj2; cbn; eauto. apply Hj; lia.
Qed.

(** ** The loop *)
Lemma sh_loop_run fds es ls : ∀ np, std_fds fds → Forall2 typed es ls →
  ∃ np', run opens runs enters (sh_loop (S (length es))) fds (np, concat ls) = (session fds es np, (np', [])).
Proof.
  intros np Hf H. revert np. induction H as [| e l es ls He _ IH]; intros np.
  - exists np. done.
  - pose proof (typed_nonzero _ _ He) as [_ Hnz].
    change (sh_loop (S (length (e :: es)))) with (sh_loop (S (S (length es)))).
    remember (S (length es)) as n eqn:En. cbn [sh_loop concat run fst snd]. rewrite (gets_typed _ _ _ He).
    rewrite (proj2 (Z.eqb_neq _ _) Hnz). destruct e as [a | dir].
    + assert (is_cd (line_buf l) = false) as ->.
      { by destruct He as [_ _ (_ & Hcd & _)]. }
      rewrite run_fork1. cbv beta. change (0 =? 0) with true. change (1 =? 0) with false. cbv iota.
      rewrite (run_line_command _ _ He), run_cmd; [| done | destruct He as [_ _ [? _]]; by apply cmd_ok_std].
      cbn [fst snd session]. destruct (cmd_runs opens runs a fds np) as [ev np1]. cbn [run].
      destruct (IH np1) as [np' ->]. exists np'. done.
    + destruct (cd_arg_typed _ _ He) as [-> ->]. cbn [run session]. destruct (enters dir).
      * change (0 <? 0) with false. cbv iota. destruct (IH np) as [np' ->]. by exists np'.
      * change (-1 <? 0) with true. cbn [run]. destruct (IH np) as [np' ->]. by exists np'.
Qed.

(** C20: The shell, started with any three of its standard descriptors open or not,
    makes sure that they are and then does what its lines say, and ends when
    they do: every command runs its programs with its redirections and pipes,
    the shell waits for it and stays where it was; cd is its own. *)
Theorem sh_session a b c rest n m es ls np :
  opens console rdwr_mode = true →
  rest !! n = Some None → rest !! m = Some None → (n < m)%nat →
  (∀ j, (j < m)%nat → j ≠ n → ∃ o, rest !! j = Some (Some o)) →
  Forall2 typed es ls →
  let fds := Some (default Terminal a) :: Some (default Terminal b) :: Some (default Terminal c) :: rest in
  ∃ np', run opens runs enters (sh_main (S (length es))) (a :: b :: c :: rest) (np, concat ls) =
    (session fds es np, (np', [])).
Proof.
  intros Ho Hn Hm Hlt Hj Hes fds. unfold sh_main. rewrite (run_open_three a b c rest _ n); [| done |].
  - apply sh_loop_run; [by apply (std_three _ _ _ rest n m) | done].
  - apply free_fd_first; [done |]. intros j Hjn. apply Hj; lia.
Qed.

End session.

(** ** Witnesses *)

(** ls -l | wc > f *)
Definition sample : cmd (list Z) :=
  PIPE (EXEC [bytes "ls"; bytes "-l"]) (REDIR (EXEC [bytes "wc"]) (bytes "f") write_mode 1).
Definition sample_line : list Z := bytes "ls -l|wc >f" ++ [10].
(** Descriptors 0 to 2 closed or open, the others free. *)
Definition some_fds : fdtab := [Some Terminal; None; Some Terminal].
Definition free_fds : fdtab := replicate 13 None.

Definition wordb (w : list Z) : bool := (bool_decide (w ≠ []) && forallb (λ c, negb (c =? 0) && word_char c) w)%bool.
Lemma word_ok_dec w : wordb w = true → word_ok w.
Proof.
  unfold wordb.
  intros [H1%bool_decide_eq_true H2]%andb_true_iff. split; [done |]. rewrite forallb_forall in H2. apply Forall_forall.
  intros c Hc%list_elem_of_In%H2. apply andb_true_iff in Hc as [Hc ?]. by apply negb_true_iff, Z.eqb_neq in Hc.
Qed.
Lemma words_ok_dec ws : forallb wordb ws = true → Forall word_ok ws.
Proof. rewrite forallb_forall. intros H. apply Forall_forall. intros w Hw. by apply word_ok_dec, H, list_elem_of_In. Qed.
Lemma sample_ok : cmd_ok sample.
Proof.
  assert (∀ ws, forallb wordb ws = true → (length ws < MAXARGS)%nat → cmd_ok (EXEC ws)) as He.
  { intros ws H Hl. split; [by apply words_ok_dec | done]. }
  split; [apply He; [done | cbn; unfold MAXARGS; lia] |]. split; [apply He; [done | cbn; unfold MAXARGS; lia] |].
  split; [by apply word_ok_dec | by right].
Qed.
Lemma sample_spells : spells sample_line (toks 0 sample).
Proof.
  change (toks 0 sample) with [TWord (bytes "ls"); TWord (bytes "-l"); TSym c_bar; TWord (bytes "wc"); TSym c_gt; TWord (bytes "f")].
  assert (Hsym : ∀ c, is_in symbols c = true → sym_ok c).
  { intros c Hc. rewrite is_in_spec in Hc by (repeat constructor; done). by apply bool_decide_eq_true in Hc. }
  refine (spells_word (bytes "ls") [32] _ _ _ _ _ _); [by apply word_ok_dec | by repeat constructor | done |].
  refine (spells_word (bytes "-l") [] _ _ _ _ _ _); [by apply word_ok_dec | constructor | right; by apply Hsym |].
  refine (spells_sym c_bar [] _ _ _ _ _ _); [by apply Hsym | constructor | done |].
  refine (spells_word (bytes "wc") [32] _ _ _ _ _ _); [by apply word_ok_dec | by repeat constructor | done |].
  refine (spells_sym c_gt [] _ _ _ _ _ _); [by apply Hsym | constructor | done |].
  refine (spells_word (bytes "f") [10] [] _ _ _ _ _); [by apply word_ok_dec | by repeat constructor | by left | constructor].
Qed.
Lemma sample_typed : typed (Command sample) sample_line.
Proof.
  split.
  - exists (bytes "ls -l|wc >f"). split; [done |]. repeat constructor; done.
  - cbn. unfold bufsize. lia.
  - split; [apply sample_ok |]. split; [done |]. exists [], sample_line. split; [done |]. split; [constructor | apply sample_spells].
Qed.
Lemma cd_typed : typed (Cd (bytes "d")) (bytes "cd d" ++ [10]).
Proof.
  split.
  - exists (bytes "cd d"). split; [done |]. repeat constructor; done.
  - cbn. unfold bufsize. lia.
  - split; [done |]. by repeat constructor.
Qed.

Lemma sh_session_witness :
  ∃ np, run (λ _ _, true) (λ _, true) (λ _, true) (sh_main 3) (some_fds ++ free_fds) (0%nat, sample_line ++ bytes "cd d" ++ [10] ++ []) =
    ([Said "$ " [];
      Ran [bytes "ls"; bytes "-l"] ([Some Terminal; Some (WrEnd 0); Some Terminal] ++ free_fds);
      Ran [bytes "wc"] ([Some (RdEnd 0); Some (File (bytes "f") write_mode); Some Terminal] ++ free_fds);
      Waited; Waited; Waited; Said "$ " []; Went (bytes "d"); Said "$ " []], (np, [])).
Proof.
  apply (sh_session (λ _ _, true) (λ _, true) (λ _, true) (Some Terminal) None (Some Terminal) free_fds 0 1
    [Command sample; Cd (bytes "d")] [sample_line; bytes "cd d" ++ [10]] 0); try done.
  - lia.
  - intros [| j] Hj1 Hj2; lia.
  - constructor; [apply sample_typed | constructor; [apply cd_typed | constructor]].
Defined.

Lemma parsecmd_inverts_witness :
  ∃ c mem s, parsecmd ([32; 9] ++ sample_line ++ 0 :: []) = Done (c, mem) s ∧ strings mem c = sample.
Proof. apply (parsecmd_inverts sample [32; 9] sample_line []); [apply sample_ok | by repeat constructor | apply sample_spells]. Defined.

Lemma parsecmd_words_witness :
  good (λ '(c, mem) _, strings mem c = cmd_map (slice (sample_line ++ [0])) c ∧
    Forall (tok_ok (sample_line ++ [0]) 12) (cmd_words c)) (parsecmd (sample_line ++ [0])).
Proof. apply (parsecmd_words (sample_line ++ [0])). vm_compute. done. Defined.
