(* ===== verification/Umalloc.v ===== *)
(** * umalloc.c: the memory allocator of user programs

    Kernighan and Ritchie's: a circular list of free blocks in the order of
    their addresses, threaded through their headers.  A Header is two words,
    the pointer at its address and the size, in Headers, behind it.  The
    program's memory is byte addressed; [base] is where the linker put the
    static header, [h_brk] the end of the process, and sbrk grants what stays
    below [h_limit]. *)
From S2P Require Import Prelude Cstring.

Record heap := mkHeap { h_mem : mem; h_freep : Z; h_brk : Z; h_limit : Z }.
#[export] Instance set_h_mem : Setter h_mem := λ g x, mkHeap (g (h_mem x)) (h_freep x) (h_brk x) (h_limit x).
#[export] Instance set_h_freep : Setter h_freep := λ g x, mkHeap (h_mem x) (g (h_freep x)) (h_brk x) (h_limit x).
#[export] Instance set_h_brk : Setter h_brk := λ g x, mkHeap (h_mem x) (h_freep x) (g (h_brk x)) (h_limit x).

Definition sizeof_Header : Z := 8.

(** p->s.ptr and p->s.size *)
Definition s_ptr (p : Z) : M heap Z := gets (λ h, load32 (h_mem h) p).
Definition s_size (p : Z) : M heap Z := gets (λ h, load32 (h_mem h) (p + 4)).
Definition set_ptr (p v : Z) : M heap unit := modify (λ h, h <| h_mem ::= λ m, store32 m p v |>).
Definition set_size (p v : Z) : M heap unit := modify (λ h, h <| h_mem ::= λ m, store32 m (p + 4) v |>).
(** p + n, for a pointer to Headers *)
Definition hplus (p n : Z) : Z := u32 (p + sizeof_Header * n).

(** sbrk(n): the old end of the process, or (char* )-1 *)
Definition sbrk (n : Z) : M heap Z :=
  h ← gets id;
  let n := i32 n in
  if (0 <=? h_brk h + n) && (h_brk h + n <=? h_limit h)
  then modify (λ h, h <| h_brk := h_brk h + n |>);; mret (h_brk h)
  else mret (u32 (-1)).

(** The free list has at most one block per Header below the end of the process. *)
Definition list_fuel (h : heap) : nat := Z.to_nat (h_brk h / sizeof_Header).

Section umalloc.
Context (base : Z).

(** The block of the list behind which [bp] belongs. *)
Fixpoint free_loop (fuel : nat) (bp p : Z) : M heap Z :=
  match fuel with
  | O => fault "free: out of fuel"
  | S fuel =>
      q ← s_ptr p;
      if (bp >? p) && (bp <? q) then mret p else
      if (p >=? q) && ((bp >? p) || (bp <? q)) then mret p else
      free_loop fuel bp q
  end.
(** Join [bp] with the block behind it, or link it to that block. *)
Definition join_next (bp q : Z) : M heap unit :=
  n ← s_size bp;
  if hplus bp n =? q then
    m ← s_size q;
    set_size bp (u32 (n + m));;
    r ← s_ptr q;
    set_ptr bp r
  else set_ptr bp q.
(** Join [bp] with the block before it, or link that block to [bp]. *)
Definition join_prev (p bp : Z) : M heap unit :=
  m ← s_size p;
  if hplus p m =? bp then
    n ← s_size bp;
    set_size p (u32 (m + n));;
    r ← s_ptr bp;
    set_ptr p r
  else set_ptr p bp.
Definition free (ap : Z) : M heap unit :=
  let bp := ap - sizeof_Header in
  h ← gets id;
  p ← free_loop (list_fuel h + 2) bp (h_freep h);
  q ← s_ptr p;
  join_next bp q;;
  join_prev p bp;;
  modify (λ h, h <| h_freep := p |>).

Definition morecore (nu : Z) : M heap Z :=
  let nu := if nu <? 4096 then 4096 else nu in
  p ← sbrk (u32 (nu * sizeof_Header));
  if p =? u32 (-1) then mret 0 else
  set_size p nu;;
  free (p + sizeof_Header);;
  gets h_freep.

(** The block [p] of [size] Headers is large enough: all of it, or its end. *)
Definition grab (nunits prevp p size : Z) : M heap Z :=
  r ← (if size =? nunits then
         q ← s_ptr p; set_ptr prevp q;; mret p
       else
         set_size p (size - nunits);;
         let p := hplus p (size - nunits) in
         set_size p nunits;; mret p);
  modify (λ h, h <| h_freep := prevp |>);;
  mret (r + sizeof_Header).

Fixpoint malloc_loop (fuel : nat) (nunits prevp p : Z) : M heap Z :=
  match fuel with
  | O => fault "malloc: out of fuel"
  | S fuel =>
      size ← s_size p;
      if size >=? nunits then
        grab nunits prevp p size
      else
      f ← gets h_freep;
      if p =? f then
        p ← morecore nunits;
        if p =? 0 then mret 0 else
        q ← s_ptr p;
        malloc_loop fuel nunits p q
      else
        q ← s_ptr p;
        malloc_loop fuel nunits p q
  end.
Definition malloc (nbytes : Z) : M heap Z :=
  let nunits := u32 (u32 (nbytes + sizeof_Header - 1) / sizeof_Header + 1) in
  h ← gets id;
  prevp ← (if h_freep h =? 0 then
             modify (λ h, h <| h_freep := base |>);;
             set_ptr base base;;
             set_size base 0;;
             mret base
           else mret (h_freep h));
  p ← s_ptr prevp;
  malloc_loop (2 * list_fuel h + 6) nunits prevp p.
End umalloc.
