(* ===== verification/Uheap.v ===== *)
(** * The user allocator's heap

    The free list as a list of blocks (address, size in Headers), and what
    [free] and [malloc] make of it. *)
From stdpp Require Import sorting.
From S2P Require Import Prelude Cstring Umalloc.

Abbreviation block := (Z * Z)%type.

(** The Headers a block consists of. *)
Definition units (b : block) : list Z := (λ k, b.1 + 8 * Z.of_nat k) <$> seq 0 (Z.to_nat b.2).
Definition cells (l : list block) : list Z := concat (units <$> l).

Definition head_addr (l : list block) (e : Z) : Z := match l with [] => e | b :: _ => b.1 end.
(** The blocks [l] are linked, the last one to [e]. *)
Fixpoint chain (m : mem) (l : list block) (e : Z) : Prop :=
  match l with
  | [] => True
  | b :: l => load32 m b.1 = head_addr l e ∧ load32 m (b.1 + 4) = b.2 ∧ chain m l e
  end.
(** In address order, and with a gap: neighbours have been joined. *)
Definition gap (b c : block) : Prop := b.1 + 8 * b.2 < c.1.
(** Two headers do not overlap. *)
Definition apart (x y : Z) : Prop := x + 8 ≤ y ∨ y + 8 ≤ x.

Lemma s_ptr_bind {B} x (k : Z → M heap B) h : (s_ptr x ≫= k) h = k (load32 (h_mem h) x) h.
Proof. done. Qed.
Lemma s_size_bind {B} x (k : Z → M heap B) h : (s_size x ≫= k) h = k (load32 (h_mem h) (x + 4)) h.
Proof. done. Qed.
Lemma set_size_bind {B} x v (k : unit → M heap B) h :
  (set_size x v ≫= k) h = k tt (h <| h_mem ::= λ m, store32 m (x + 4) v |>).
Proof. done. Qed.

Lemma chain_app m l1 l2 e : chain m (l1 ++ l2) e ↔ chain m l1 (head_addr l2 e) ∧ chain m l2 e.
Proof.
  induction l1 as [| b l1 IH]; cbn; [tauto |]. rewrite IH.
  assert (head_addr (l1 ++ l2) e = head_addr l1 (head_addr l2 e)) as -> by (by destruct l1). tauto.
Qed.
Lemma chain_store m l e x y v :
  (∀ b, b ∈ l → apart b.1 x) → y = x ∨ y = x + 4 → chain m l e → chain (store32 m y v) l e.
Proof.
  intros Hap Hy. induction l as [| b l IH]; [done |]. intros (Hp & Hs & Hc).
  pose proof (Hap b ltac:(by left)) as Hb. unfold apart in Hb. cbn [chain].
  rewrite !load32_store32_ne by lia. split_and!; [done | done |]. apply IH; [| done]. intros c ?. apply Hap. by right.
Qed.

Lemma units_split a n k : 0 ≤ k ≤ n → units (a, n) = units (a, k) ++ units (a + 8 * k, n - k).
Proof.
  intros Hk. unfold units. cbn [fst snd]. replace (Z.to_nat n) with (Z.to_nat k + Z.to_nat (n - k))%nat by lia.
  rewrite seq_app, fmap_app. f_equal. cbn [plus].
  apply list_eq. intros i. rewrite !list_lookup_fmap. destruct (decide (i < Z.to_nat (n - k))%nat).
  - rewrite !lookup_seq_lt by done. cbn. f_equal. lia.
  - by rewrite !lookup_seq_ge by lia.
Qed.
Lemma elem_of_units b x : x ∈ units b ↔ ∃ k, 0 ≤ k < b.2 ∧ x = b.1 + 8 * k.
Proof.
  unfold units. rewrite list_elem_of_fmap. split.
  - intros (k & -> & Hk%elem_of_seq). exists (Z.of_nat k). lia.
  - intros (k & Hk & ->). exists (Z.to_nat k). split; [lia |]. apply elem_of_seq. lia.
Qed.
Lemma cells_app l l' : cells (l ++ l') = cells l ++ cells l'.
Proof. unfold cells. by rewrite fmap_app, concat_app. Qed.
Lemma cells_cons b l : cells (b :: l) = units b ++ cells l.
Proof. done. Qed.
Lemma elem_of_cells l x : x ∈ cells l ↔ ∃ b, b ∈ l ∧ x ∈ units b.
Proof.
  induction l as [| c l IH]; [split; [by intros ?%elem_of_nil | intros (b & H%elem_of_nil & _); done] |].
  rewrite cells_cons, elem_of_app, IH. split.
  - intros [H | (b & Hb & Hx)]; [exists c; split; [by left | done] | exists b; split; [by right | done]].
  - intros (b & [-> | Hb]%elem_of_cons & Hx); [by left | right; eauto].
Qed.
#[export] Instance cells_perm : Proper (Permutation ==> Permutation) cells.
Proof.
  induction 1; cbn; rewrite ?cells_cons; [done | by f_equiv | | by etrans].
  by rewrite !app_assoc, (Permutation_app_comm (units y)).
Qed.

Section heap.
(** The static header and the start of the heap. *)
Context (base lo : Z).

Record block_in (brk : Z) (b : block) : Prop := {
  bi_lo : lo ≤ b.1;
  bi_align : b.1 mod 8 = 0;
  bi_size : 1 ≤ b.2;
  bi_end : b.1 + 8 * b.2 ≤ brk }.

(** The heap with the free blocks [fl], in order, and the allocated ones [al]. *)
Record heap_ok (h : heap) (fl al : list block) : Prop := {
  hk_base : 0 < base ∧ base + 8 ≤ lo;
  hk_brk : lo ≤ h_brk h ≤ h_limit h ∧ h_brk h mod 8 = 0 ∧ h_limit h ≤ 2147483648;
  hk_chain : chain (h_mem h) ((base, 0) :: fl) base;
  hk_sorted : StronglySorted gap ((base, 0) :: fl);
  hk_freep : h_freep h ∈ ((base, 0) :: fl).*1;
  hk_alloc : Forall (λ b, load32 (h_mem h) (b.1 + 4) = b.2) al;
  hk_blocks : Forall (block_in (h_brk h)) (fl ++ al);
  hk_nodup : NoDup (cells (fl ++ al)) }.

(** Bytes of the allocated blocks, their headers' sizes included, are kept. *)
Definition keeps_blocks (h h' : heap) (al : list block) : Prop :=
  ∀ b x, b ∈ al → b.1 + 4 ≤ x < b.1 + 8 * b.2 → load8 (h_mem h') x = load8 (h_mem h) x.

Lemma block_apart brk b c : block_in brk b → block_in brk c → b.1 ≠ c.1 → apart b.1 c.1.
Proof. intros [? ? ? ?] [? ? ? ?] Hne. unfold apart. zlia. Qed.

(** Blocks with different Headers do not overlap. *)
Lemma cells_disjoint brk b c : block_in brk b → block_in brk c →
  (∀ x, x ∈ units b → x ∈ units c → False) → b.1 + 8 * b.2 ≤ c.1 ∨ c.1 + 8 * c.2 ≤ b.1.
Proof.
  intros [Hl Ha Hs He] [Hl' Ha' Hs' He'] Hd. destruct (decide (b.1 ≤ c.1)).
  - destruct (decide (b.1 + 8 * b.2 ≤ c.1)); [by left |]. exfalso. apply (Hd c.1); apply elem_of_units.
    + exists ((c.1 - b.1) / 8). zlia.
    + exists 0. lia.
  - destruct (decide (c.1 + 8 * c.2 ≤ b.1)); [by right |]. exfalso. apply (Hd b.1); apply elem_of_units.
    + exists 0. lia.
    + exists ((b.1 - c.1) / 8). zlia.
Qed.
Lemma nodup_apart brk l1 l2 b c : NoDup (cells (l1 ++ l2)) → Forall (block_in brk) (l1 ++ l2) → b ∈ l1 → c ∈ l2 →
  b.1 + 8 * b.2 ≤ c.1 ∨ c.1 + 8 * c.2 ≤ b.1.
Proof.
  rewrite cells_app, NoDup_app, Forall_app, !Forall_forall. intros (_ & Hd & _) [H1 H2] Hb Hc.
  apply (cells_disjoint brk); auto. intros x Hx Hx'. apply (Hd x); apply elem_of_cells; eauto.
Qed.

(** Where a block belongs in the list. *)
Lemma pred_split (l : list block) x a :
  StronglySorted gap (x :: l) → x.1 < a → (∀ b, b ∈ x :: l → b.1 ≠ a ∧ 0 ≤ b.2) →
  ∃ L p R, x :: l = L ++ p :: R ∧ p.1 < a ∧ (∀ b, b ∈ L → gap b p) ∧ (∀ b, b ∈ R → a < b.1).
Proof.
  revert x. induction l as [| y l IH]; intros x Hs Hx Hne.
  { exists [], x, []. split_and!; try done; by intros b ?%elem_of_nil. }
  apply StronglySorted_inv in Hs as [Hs Hf]. destruct (decide (y.1 < a)) as [Hy | Hy].
  - destruct (IH y Hs Hy) as (L & p & R & Heq & Hp & HL & HR); [intros b ?; apply Hne; by right |].
    exists (x :: L), p, R. rewrite Heq in Hf |- *. split_and!; try done.
    intros b [-> | Hb]%elem_of_cons; [| by apply HL]. rewrite Forall_forall in Hf. apply Hf, elem_of_app. right. by left.
  - exists [], x, (y :: l). split_and!; try done; [by intros b ?%elem_of_nil |].
    assert (a < y.1). { destruct (Hne y) as [? _]; [right; by left | lia]. }
    intros b [-> | Hb]%elem_of_cons; [done |]. apply StronglySorted_inv in Hs as [_ Hs].
    rewrite Forall_forall in Hs. specialize (Hs b Hb). unfold gap in Hs. destruct (Hne y) as [_ ?]; [right; by left | lia].
Qed.

(** ** free: finding the place *)
Section place.
Context (h : heap) (a : Z) (p : block) (R : list block).
Context (Hpa : p.1 < a) (HR : ∀ b, b ∈ R → a < b.1) (Hba : base ≤ p.1).

Lemma s_ptr_run x l e : chain (h_mem h) (x :: l) e → s_ptr x.1 h = Done (head_addr l e) h.
Proof. intros (Hx & _). unfold s_ptr, gets. by rewrite Hx. Qed.

Lemma free_loop_up X : ∀ fuel,
  chain (h_mem h) (X ++ p :: R) base → StronglySorted gap (X ++ p :: R) → (∀ b, b ∈ X → 0 ≤ b.2) →
  (length X < fuel)%nat → free_loop fuel a (head_addr (X ++ p :: R) base) h = Done p.1 h.
Proof.
  induction X as [| x X IH]; intros [| fuel] Hc Hs Hn Hf; cbn [length] in Hf; try lia; cbn [app head_addr free_loop].
  - cbn [app] in Hc. rewrite (bind_done _ _ _ _ _ (s_ptr_run _ _ _ Hc)). destruct R as [| r R']; cbn [head_addr].
    + rewrite (proj2 (Z.gtb_lt _ _)) by lia. destruct (Z.ltb_spec a base); [lia |]. cbn [andb].
      by rewrite (proj2 (Z.geb_le _ _)) by lia.
    + pose proof (HR r ltac:(by left)). rewrite (proj2 (Z.gtb_lt _ _)), (proj2 (Z.ltb_lt _ _)) by lia. done.
  - cbn [app] in Hc, Hs. rewrite (bind_done _ _ _ _ _ (s_ptr_run _ _ _ Hc)).
    apply StronglySorted_cons in Hs as [Hx Hs]. destruct Hc as (_ & _ & Hc). rewrite Forall_forall in Hx.
    assert (x.1 < head_addr (X ++ p :: R) base ≤ p.1) as [H1 H2].
    { pose proof (Hn x ltac:(by left)). destruct X as [| y X]; cbn [app head_addr].
      - specialize (Hx p ltac:(by left)). unfold gap in Hx. lia.
      - specialize (Hx y ltac:(by left)). unfold gap in Hx. apply StronglySorted_cons in Hs as [Hy _].
        rewrite Forall_forall in Hy. specialize (Hy p). pose proof (Hn y ltac:(right; by left)).
        assert (gap y p) as Hyp by (apply Hy, elem_of_app; right; by left). unfold gap in Hyp. lia. }
    destruct (Z.ltb_spec a (head_addr (X ++ p :: R) base)); [lia |]. rewrite andb_false_r.
    destruct (Z.geb_spec x.1 (head_addr (X ++ p :: R) base)); [lia |]. cbn [andb].
    apply IH; [done | done | intros b ?; apply Hn; by right | lia].
Qed.
Lemma free_loop_wrap L R2 : ∀ R1 x fuel,
  R = R1 ++ x :: R2 → base = head_addr (L ++ p :: R) base →
  chain (h_mem h) (L ++ p :: R) base → StronglySorted gap (L ++ p :: R) → (∀ b, b ∈ L ++ p :: R → 0 ≤ b.2) →
  (length L + length R2 + 1 < fuel)%nat → free_loop fuel a x.1 h = Done p.1 h.
Proof.
  induction R2 as [| y R2 IH]; intros R1 x [| fuel] HeqR Hb Hc Hs Hn Hf; try lia; cbn [free_loop].
  all: assert (Hx : a < x.1) by (apply HR; rewrite HeqR; apply elem_of_app; right; by left).
  all: pose proof Hc as Hc'; apply chain_app in Hc' as [_ Hc']; apply (chain_app _ [p]) in Hc' as [_ Hc'];
       rewrite HeqR in Hc'; apply chain_app in Hc' as [_ Hc'].
  all: rewrite (bind_done _ _ _ _ _ (s_ptr_run _ _ _ Hc')); cbn [head_addr].
  - destruct (Z.gtb_spec a x.1); [lia |]. cbn [andb orb]. destruct (Z.ltb_spec a base); [lia |]. rewrite andb_false_r.
    rewrite Hb at 1. apply free_loop_up; [done | done | intros b ?; apply Hn, elem_of_app; by left | cbn in Hf; lia].
  - destruct (Z.gtb_spec a x.1); [lia |]. cbn [andb orb].
    assert (x.1 < y.1).
    { apply StronglySorted_app in Hs as (_ & _ & Hs). apply StronglySorted_cons in Hs as [_ Hs]. rewrite HeqR in Hs.
      apply StronglySorted_app in Hs as (_ & _ & Hs). apply StronglySorted_cons in Hs as [Hs _].
      rewrite Forall_forall in Hs. specialize (Hs y ltac:(by left)). unfold gap in Hs.
      assert (0 ≤ x.2); [| lia]. apply Hn. rewrite HeqR. apply elem_of_app; right; right. apply elem_of_app; right. by left. }
    destruct (Z.geb_spec x.1 y.1); [lia |]. cbn [andb].
    apply (IH (R1 ++ [x]) y fuel); try done; [by rewrite <- app_assoc | cbn in Hf; lia].
Qed.
Lemma free_loop_run L f fuel :
  base = head_addr (L ++ p :: R) base → f ∈ (L ++ p :: R).*1 →
  chain (h_mem h) (L ++ p :: R) base → StronglySorted gap (L ++ p :: R) → (∀ b, b ∈ L ++ p :: R → 0 ≤ b.2) →
  (length (L ++ p :: R) < fuel)%nat → free_loop fuel a f h = Done p.1 h.
Proof.
  intros Hb Hf Hc Hs Hn Hfuel. rewrite length_app in Hfuel. cbn in Hfuel.
  apply list_elem_of_fmap in Hf as (x & -> & Hx). apply elem_of_app in Hx as [Hx | [-> | Hx]%elem_of_cons].
  - apply list_elem_of_split in Hx as (L1 & L2 & ->). rewrite <- app_assoc in Hc, Hs.
    apply chain_app in Hc as [_ Hc]. apply StronglySorted_app in Hs as (_ & _ & Hs).
    apply (free_loop_up (x :: L2) fuel Hc Hs); [| rewrite length_app in Hfuel; cbn in *; lia].
    intros b Hb'. apply Hn. rewrite <- app_assoc. apply elem_of_app. right. apply elem_of_app. by left.
  - apply chain_app in Hc as [_ Hc]. apply StronglySorted_app in Hs as (_ & _ & Hs).
    apply (free_loop_up [] fuel Hc Hs); [by intros b ?%elem_of_nil | cbn; lia].
  - apply list_elem_of_split in Hx as (R1 & R2 & HeqR).
    apply (free_loop_wrap L R2 R1 x); try done. rewrite HeqR, length_app in Hfuel. cbn in Hfuel. lia.
Qed.
End place.

(** ** free: joining *)

(** Only the header at [x] has changed. *)
Definition header_only (x : Z) (m m' : mem) : Prop := ∀ y, y < x ∨ x + 8 ≤ y → load8 m' y = load8 m y.
Lemma header_store x y v m : y = x ∨ y = x + 4 → header_only x m (store32 m y v).
Proof. intros Hy z Hz. apply load8_store32_ne. lia. Qed.
Lemma header_trans x m1 m2 m3 : header_only x m1 m2 → header_only x m2 m3 → header_only x m1 m3.
Proof. intros H1 H2 y Hy. rewrite H2 by done. by apply H1. Qed.
Lemma header_load x m m' y : header_only x m m' → y + 4 ≤ x ∨ x + 8 ≤ y → load32 m' y = load32 m y.
Proof. intros H Hy. apply load32_ext. intros i Hi. apply H. lia. Qed.
Lemma header_chain x m m' l e : header_only x m m' → (∀ b, b ∈ l → apart b.1 x) → chain m l e → chain m' l e.
Proof.
  intros H Hap. induction l as [| b l IH]; [done |]. intros (Hp & Hs & Hc).
  pose proof (Hap b ltac:(by left)) as Hb. unfold apart in Hb. cbn [chain].
  rewrite !(header_load x m m') by (done || lia). split_and!; [done | done |]. apply IH; [| done]. intros c ?. apply Hap. by right.
Qed.
(** A header written in full. *)
Lemma header_written m x p n :
  is_u32 p → is_u32 n → let m' := store32 (store32 m (x + 4) n) x p in load32 m' x = p ∧ load32 m' (x + 4) = n.
Proof.
  intros Hp Hn m'. unfold m'. rewrite load32_store32_eq, u32_id by done. split; [done |].
  rewrite load32_store32_ne by lia. by rewrite load32_store32_eq, u32_id.
Qed.

Lemma join_next_run h a n R brk :
  chain (h_mem h) R base → load32 (h_mem h) (a + 4) = n → block_in brk (a, n) → Forall (block_in brk) R →
  (∀ b, b ∈ R → gap (a, 0) b ∧ a + 8 * n ≤ b.1 ∧ a < b.1) → StronglySorted gap R →
  0 < base → base + 8 ≤ lo → brk ≤ 2147483648 →
  ∃ m bp R', join_next a (head_addr R base) h = Done tt (h <| h_mem := m |>) ∧ header_only a (h_mem h) m ∧
    chain m (bp :: R') base ∧ bp.1 = a ∧ n ≤ bp.2 ∧ units bp ++ cells R' = units (a, n) ++ cells R ∧
    StronglySorted gap (bp :: R') ∧ Forall (block_in brk) (bp :: R') ∧ (length R' ≤ length R)%nat.
Proof.
  intros Hc Hn Hbi HR Hgap Hs Hb0 Hblo Hbrk. pose proof Hbi as [Hlo Hal Hsz Hend]. cbn [fst snd] in *.
  assert (Hap : ∀ b, b ∈ R → apart b.1 a).
  { intros b Hb. destruct (Hgap b Hb) as (_ & ? & _). unfold apart. lia. }
  unfold join_next. rewrite s_size_bind, Hn. unfold hplus, sizeof_Header.
  rewrite u32_id by (unfold is_u32; lia). destruct (Z.eqb_spec (a + 8 * n) (head_addr R base)) as [He | He].
  - destruct R as [| [q nq] R']; cbn [head_addr fst] in He; [lia |].
    apply Forall_cons in HR as [Hq HR]. pose proof Hq as [? ? ? ?]. cbn [fst snd] in *.
    destruct Hc as (Hqp & Hqs & Hc). cbn [fst snd head_addr] in *.
    rewrite s_size_bind, Hqs, set_size_bind, s_ptr_bind. cbn [h_mem set set_h_mem].
    rewrite load32_store32_ne by lia. rewrite Hqp, (u32_id (n + nq)) by (unfold is_u32; lia).
    set (m := store32 (store32 (h_mem h) (a + 4) (n + nq)) a (head_addr R' base)).
    assert (Hho : header_only a (h_mem h) m) by (eapply header_trans; apply header_store; auto).
    destruct (header_written (h_mem h) a (head_addr R' base) (n + nq)) as [Hm1 Hm2].
    { destruct R' as [| r R']; cbn; [unfold is_u32; lia |]. apply Forall_cons in HR as [[] _]. unfold is_u32. lia. }
    { unfold is_u32. lia. }
    exists m, (a, n + nq), R'. split; [done |]. split; [done |]. cbn [fst snd]. split; [| split_and!; try done; try lia].
    + cbn [chain fst snd]. split_and!; [done | done |]. apply (header_chain a (h_mem h)); [done | | done].
      intros b Hb. apply Hap. by right.
    + rewrite cells_cons, app_assoc. f_equal. rewrite (units_split a (n + nq) n) by lia. do 3 f_equal; lia.
    + apply StronglySorted_cons in Hs as [Hq' Hs]. apply StronglySorted_cons. split; [| done].
      eapply Forall_impl; [exact Hq' |]. unfold gap. cbn. intros b ?. lia.
    + constructor; [| done]. split; cbn; lia.
    + cbn. lia.
  - unfold set_ptr, modify. exists (store32 (h_mem h) a (head_addr R base)), (a, n), R. split; [done |].
    assert (Hho : header_only a (h_mem h) (store32 (h_mem h) a (head_addr R base))) by (apply header_store; auto).
    split; [done |]. cbn [fst snd]. split; [| split_and!; try done].
    + cbn [chain fst snd]. rewrite load32_store32_eq, load32_store32_ne by lia. split_and!; [| done | by eapply header_chain].
      apply u32_id. destruct R as [| r R']; cbn; [unfold is_u32; lia |]. apply Forall_cons in HR as [[] _]. unfold is_u32. lia.
    + apply StronglySorted_cons. split; [| done]. destruct R as [| r R']; [constructor |].
      destruct (Hgap r ltac:(by left)) as (_ & ? & _). cbn in He. apply StronglySorted_cons in Hs as [Hr Hs].
      apply Forall_cons in HR as [[] HR]. constructor; [unfold gap; cbn; lia |].
      eapply Forall_impl; [exact Hr |]. unfold gap. cbn. intros b ?. lia.
    + by constructor.
Qed.

Lemma join_prev_run h p bp R brk :
  chain (h_mem h) (bp :: R) base → load32 (h_mem h) (p.1 + 4) = p.2 →
  p = (base, 0) ∨ block_in brk p → p.1 + 8 ≤ bp.1 → p.1 + 8 * p.2 ≤ bp.1 →
  StronglySorted gap (bp :: R) → Forall (block_in brk) (bp :: R) → 0 < base → base + 8 ≤ lo → brk ≤ 2147483648 →
  ∃ m p' T, join_prev p.1 bp.1 h = Done tt (h <| h_mem := m |>) ∧ header_only p.1 (h_mem h) m ∧
    chain m (p' :: T) base ∧ p'.1 = p.1 ∧ cells (p' :: T) = units p ++ units bp ++ cells R ∧
    StronglySorted gap (p' :: T) ∧ (p = (base, 0) → p' = p) ∧ (block_in brk p → block_in brk p') ∧
    Forall (block_in brk) T ∧ (∃ b, (b = p' ∨ b ∈ T) ∧ bp.2 ≤ b.2) ∧ (length T ≤ S (length R))%nat.
Proof.
  intros Hc Hps Hp Hp8 Hpe Hs Hbi Hb0 Hblo Hbrk. apply Forall_cons in Hbi as [Hbp HR]. pose proof Hbp as [Hlo Hal Hsz Hend].
  assert (Hp0 : 0 < p.1 ∧ 0 ≤ p.2) by (destruct Hp as [-> | []]; cbn; lia).
  assert (Hap : ∀ b, b ∈ bp :: R → apart b.1 p.1).
  { intros b [-> | Hb]%elem_of_cons; [unfold apart; lia |]. apply StronglySorted_cons in Hs as [Hg _].
    rewrite Forall_forall in Hg. specialize (Hg b Hb). unfold gap in Hg. unfold apart. lia. }
  unfold join_prev. rewrite s_size_bind, Hps. unfold hplus, sizeof_Header. rewrite u32_id by (unfold is_u32; lia).
  destruct (Z.eqb_spec (p.1 + 8 * p.2) bp.1) as [He | He].
  - destruct Hc as (Hbpp & Hbps & Hc). rewrite s_size_bind, Hbps, set_size_bind, s_ptr_bind. cbn [h_mem set set_h_mem].
    rewrite load32_store32_ne by lia. rewrite Hbpp, (u32_id (p.2 + bp.2)) by (unfold is_u32; lia).
    set (m := store32 (store32 (h_mem h) (p.1 + 4) (p.2 + bp.2)) p.1 (head_addr R base)).
    assert (Hho : header_only p.1 (h_mem h) m) by (eapply header_trans; apply header_store; auto).
    destruct (header_written (h_mem h) p.1 (head_addr R base) (p.2 + bp.2)) as [Hm1 Hm2].
    { destruct R as [| r R]; cbn; [unfold is_u32; lia |]. apply Forall_cons in HR as [[] _]. unfold is_u32. lia. }
    { unfold is_u32. lia. }
    exists m, (p.1, p.2 + bp.2), R. split; [done |]. split; [done |]. cbn [fst snd]. split; [| split_and!; try done].
    + cbn [chain fst snd]. split_and!; [done | done |]. apply (header_chain p.1 (h_mem h)); [done | | done].
      intros b Hb. apply Hap. by right.
    + rewrite cells_cons. rewrite (units_split p.1 (p.2 + bp.2) p.2) by lia. rewrite <- app_assoc, He.
      destruct p as [p ps], bp as [b bs]. cbn [fst snd] in *. by replace (ps + bs - ps) with bs by lia.
    + apply StronglySorted_cons in Hs as [Hg Hs]. apply StronglySorted_cons. split; [| done].
      eapply Forall_impl; [exact Hg |]. unfold gap. cbn. intros b ?. lia.
    + intros ->. cbn in He. lia.
    + intros []. split; cbn; lia.
    + exists (p.1, p.2 + bp.2). split; [by left | cbn; lia].
    + lia.
  - unfold set_ptr, modify. exists (store32 (h_mem h) p.1 bp.1), p, (bp :: R). split; [done |].
    assert (Hho : header_only p.1 (h_mem h) (store32 (h_mem h) p.1 bp.1)) by (apply header_store; auto).
    split; [done |]. split; [| split_and!; try done].
    + split; [rewrite load32_store32_eq; cbn [head_addr]; apply u32_id; unfold is_u32; lia |].
      split; [by rewrite load32_store32_ne by lia |]. by apply (header_chain p.1 (h_mem h)).
    + apply StronglySorted_cons. split; [| done]. constructor; [unfold gap; lia |].
      apply StronglySorted_cons in Hs as [Hg _]. eapply Forall_impl; [exact Hg |]. unfold gap. intros b ?. lia.
    + by constructor.
    + exists bp. split; [right; by left | lia].
Qed.

(** ** free *)
Lemma nodes_sizes h fl al b : heap_ok h fl al → b ∈ (base, 0) :: fl → 0 ≤ b.2 ∧ base ≤ b.1 ∧ b.1 + 8 * b.2 < 2147483648 + 1.
Proof.
  intros H [-> | Hb]%elem_of_cons; [pose proof (hk_base _ _ _ H); pose proof (hk_brk _ _ _ H); cbn; lia |].
  pose proof (hk_blocks _ _ _ H) as Hbl. apply Forall_app in Hbl as [Hbl _]. rewrite Forall_forall in Hbl.
  destruct (Hbl b Hb). pose proof (hk_base _ _ _ H). pose proof (hk_brk _ _ _ H). lia.
Qed.
(** A free block and one that is to be freed. *)
Lemma free_apart h fl al a n b : heap_ok h fl ((a, n) :: al) → b ∈ (base, 0) :: fl →
  b.1 ≠ a ∧ (b.1 < a → b.1 + 8 ≤ a ∧ b.1 + 8 * b.2 ≤ a) ∧ (a < b.1 → a + 8 * n ≤ b.1).
Proof.
  intros H Hb. pose proof (hk_base _ _ _ H) as [? ?]. pose proof (hk_blocks _ _ _ H) as Hbl.
  assert (Ha : block_in (h_brk h) (a, n)).
  { rewrite Forall_forall in Hbl. apply Hbl, elem_of_app. right. by left. }
  pose proof Ha as [? ? ? ?]. cbn [fst snd] in *. apply elem_of_cons in Hb as [-> | Hb]; [cbn; lia |].
  assert (Hbb : block_in (h_brk h) b) by (rewrite Forall_forall in Hbl; apply Hbl, elem_of_app; by left).
  pose proof Hbb as [? ? ? ?]. destruct (nodup_apart _ _ _ b (a, n) (hk_nodup _ _ _ H) Hbl Hb ltac:(by left)); cbn in *; lia.
Qed.
Lemma list_fuel_ok h fl al : heap_ok h fl al → (length fl ≤ list_fuel h)%nat.
Proof.
  intros H. pose proof (hk_base _ _ _ H) as [Hb0 Hlo]. pose proof (hk_blocks _ _ _ H) as Hbl. apply Forall_app in Hbl as [Hbl _].
  rewrite Forall_forall in Hbl. unfold list_fuel, sizeof_Header.
  rewrite <- (length_seq (Z.to_nat (h_brk h / 8)) 0), <- (length_fmap (λ b : block, Z.to_nat (b.1 / 8)) fl).
  apply submseteq_length, NoDup_submseteq.
  - pose proof (hk_sorted _ _ _ H) as Hs. apply StronglySorted_cons in Hs as [_ Hs].
    clear -Hs Hbl Hb0 Hlo. induction Hs as [| b fl Hs IH Hf]; [constructor |]. cbn. constructor.
    + intros (c & Hc & Hin)%list_elem_of_fmap. rewrite Forall_forall in Hf. specialize (Hf c Hin). unfold gap in Hf.
      destruct (Hbl b ltac:(by left)), (Hbl c ltac:(by right)). zlia.
    + apply IH. intros c Hc. apply Hbl. by right.
  - intros x (b & -> & Hb)%list_elem_of_fmap. destruct (Hbl b Hb). apply elem_of_seq. zlia.
Qed.

(** The nodes before and from [p] on, with [p]'s part replaced. *)
Lemma nodes_split L p T fl :
  (base, 0) :: fl = L ++ p :: T → (L = [] ∧ p = (base, 0) ∧ fl = T) ∨ ∃ L', L = (base, 0) :: L' ∧ fl = L' ++ p :: T.
Proof. destruct L as [| x L]; intros [= -> ->]; [by left | right; by exists L]. Qed.
Lemma chain_base m L p T : chain m (L ++ p :: T) base ↔ chain m L p.1 ∧ chain m (p :: T) base.
Proof. apply chain_app. Qed.

Lemma keeps_store h h' m al x :
  h_mem h' = m → header_only x (h_mem h) m → (∀ b, b ∈ al → b.1 + 8 * b.2 ≤ x ∨ x + 8 ≤ b.1 + 4) → keeps_blocks h h' al.
Proof. intros <- Hm Hal b y Hb Hy. apply Hm. specialize (Hal b Hb). lia. Qed.

Lemma free_run h fl al a n : heap_ok h fl ((a, n) :: al) →
  ∃ h' fl', free (a + 8) h = Done tt h' ∧ heap_ok h' fl' al ∧ cells fl' ≡ₚ units (a, n) ++ cells fl ∧
    h_brk h' = h_brk h ∧ h_limit h' = h_limit h ∧ keeps_blocks h h' al ∧ (∃ b, b ∈ fl' ∧ n ≤ b.2) ∧ (length fl' ≤ S (length fl))%nat.
Proof.
  intros H. pose proof (hk_base _ _ _ H) as [Hb0 Hblo]. pose proof (hk_brk _ _ _ H) as (Hbrk & Hbal & Hlim).
  pose proof (hk_blocks _ _ _ H) as Hbl. pose proof Hbl as [Hfl Hal]%Forall_app. apply Forall_cons in Hal as [Ha Hal].
  pose proof Ha as [Hlo Hali Hsz Hend]. cbn [fst snd] in *.
  destruct (pred_split fl (base, 0) a (hk_sorted _ _ _ H)) as (L & p & R & Heq & Hpa & HL & HR); [cbn; lia | |].
  { intros b Hb. destruct (free_apart _ _ _ _ _ b H Hb) as [? _]. by destruct (nodes_sizes _ _ _ b H Hb). }
  pose proof (hk_chain _ _ _ H) as Hc. pose proof (hk_sorted _ _ _ H) as Hs. pose proof (hk_freep _ _ _ H) as Hfp.
  assert (Hin : ∀ b, b ∈ L ++ p :: R → 0 ≤ b.2 ∧ base ≤ b.1 ∧ (b.1 < a → b.1 + 8 ≤ a ∧ b.1 + 8 * b.2 ≤ a) ∧ (a < b.1 → a + 8 * n ≤ b.1)).
  { intros b Hb. rewrite <- Heq in Hb. destruct (nodes_sizes _ _ _ b H Hb) as (? & ? & _).
    by destruct (free_apart _ _ _ _ _ b H Hb) as (_ & ? & ?). }
  assert (Hpin : p ∈ L ++ p :: R) by (apply elem_of_app; right; by left).
  assert (HinL : ∀ b, b ∈ L → b ∈ L ++ p :: R) by (intros b ?; apply elem_of_app; by left).
  assert (HinR : ∀ b, b ∈ R → b ∈ L ++ p :: R) by (intros b ?; apply elem_of_app; right; by right).
  destruct (Hin p Hpin) as (Hp2 & Hpb & Hp3 & _). destruct (Hp3 Hpa) as [Hp8 Hpe].
  assert (HflR : Forall (block_in (h_brk h)) R).
  { apply nodes_split in Heq as [(-> & -> & ->) | (L' & -> & ->)]; [done |]. apply Forall_app in Hfl as [_ Hfl]. by apply Forall_cons in Hfl as [_ ?]. }
  rewrite Heq in Hc, Hs, Hfp. pose proof Hc as Hc'. apply chain_base in Hc' as [HcL HcR]. destruct HcR as (Hpp & Hps & HcR).
  pose proof Hs as (_ & _ & [_ HsR]%StronglySorted_cons)%StronglySorted_app.
  unfold free. cbv zeta. change sizeof_Header with 8. replace (a + 8 - 8) with a by lia. rewrite bind_gets. cbn [id].
  assert (Hloop : free_loop (list_fuel h + 2) a (h_freep h) h = Done p.1 h).
  { apply (free_loop_run h a p R Hpa HR Hpb L); try done; [| intros b ?; by apply Hin |].
    - rewrite <- Heq. done.
    - rewrite <- Heq. pose proof (list_fuel_ok _ _ _ H). cbn. lia. }
  rewrite (bind_done _ _ _ _ _ Hloop), s_ptr_bind, Hpp.
  destruct (join_next_run h a n R (h_brk h)) as (m1 & bp & R' & R1 & Hm1 & Hc1 & Hbp & Hn & Hcells1 & Hs1 & Hbi1 & Hlen1); try done; try lia.
  { pose proof (hk_alloc _ _ _ H) as Hall. by apply Forall_cons in Hall as [? _]. }
  { intros b Hb. destruct (Hin b (HinR b Hb)) as (_ & _ & _ & Hgt). specialize (HR b Hb). unfold gap. cbn. lia. }
  rewrite (bind_done _ _ _ _ _ R1). set (h1 := h <| h_mem := m1 |>) in *.
  destruct (join_prev_run h1 p bp R' (h_brk h)) as (m2 & p' & T & R2 & Hm2 & Hc2 & Hp' & Hcells2 & Hs2 & Hpbase & Hpbi & HT & Hbig & Hlen2); try done; try lia.
  { change (h_mem h1) with m1. by rewrite (header_load a (h_mem h)) by (done || lia). }
  { apply nodes_split in Heq as [(_ & -> & _) | (L' & _ & ->)]; [by left | right].
    apply Forall_app in Hfl as [_ Hfl]. by apply Forall_cons in Hfl as [? _]. }
  rewrite Hbp in R2. rewrite (bind_done _ _ _ _ _ R2). change (h_mem h1) with m1 in Hm2.
  set (h2 := h1 <| h_mem := m2 |> <| h_freep := p.1 |>).
  (* the new list *)
  assert (∃ fl', (base, 0) :: fl' = L ++ p' :: T ∧ cells fl' ≡ₚ units (a, n) ++ cells fl ∧ Forall (block_in (h_brk h)) fl' ∧
    (∃ b, b ∈ fl' ∧ n ≤ b.2) ∧ (length fl' ≤ S (length fl))%nat) as (fl' & Heq' & Hperm & Hfl' & Hbig' & Hlen').
  { rewrite cells_cons in Hcells2. destruct Hbig as (b & Hb & Hbn).
    apply nodes_split in Heq as [(-> & -> & ->) | (L' & -> & ->)].
    - exists T. rewrite (Hpbase eq_refl) in *. split; [done |].
      change (units (base, 0)) with (@nil Z) in Hcells2. cbn [app] in Hcells2. rewrite Hcells2, Hcells1. split; [done |]. split; [done |].
      split; [| lia].
      destruct Hb as [-> | Hb]; [| exists b; split; [done | lia]]. cbn in Hbn. lia.
    - exists (L' ++ p' :: T). split; [done |]. apply Forall_app in Hfl as [HL' Hfl]. apply Forall_cons in Hfl as [Hpi _].
      split; [| split; [| split]].
      + rewrite !cells_app, !cells_cons, Hcells2, Hcells1.
        by rewrite (Permutation_app_swap_app (units p)), (Permutation_app_swap_app (cells L')).
      + apply Forall_app_2; [done |]. constructor; auto.
      + exists b. split; [| lia]. apply elem_of_app. right. destruct Hb as [-> | Hb]; [by left | by right].
      + rewrite !length_app. cbn. lia. }
  assert (Hal8 : ∀ b, b ∈ al → lo ≤ b.1 ∧ 1 ≤ b.2 ∧ (b.1 + 8 * b.2 ≤ a ∨ a + 8 ≤ b.1) ∧ (b.1 + 8 * b.2 ≤ p.1 ∨ p.1 + 8 ≤ b.1)).
  { intros b Hb. pose proof (hk_nodup _ _ _ H) as Hnd. rewrite Forall_forall in Hal. destruct (Hal b Hb). split; [done |]. split; [done |]. split.
    - replace (fl ++ (a, n) :: al) with ((fl ++ [(a, n)]) ++ al) in Hnd, Hbl by (by rewrite <- app_assoc).
      destruct (nodup_apart _ _ _ (a, n) b Hnd Hbl); [apply elem_of_app; right; by left | done | cbn in *; lia..].
    - rewrite <- Heq in Hpin. apply elem_of_cons in Hpin as [-> | Hpin]; [cbn; lia |].
      rewrite Forall_forall in Hfl. destruct (Hfl p Hpin).
      destruct (nodup_apart _ _ _ p b Hnd Hbl Hpin ltac:(by right)); lia. }
  exists h2, fl'. split; [done |]. split; [| split_and!; try done].
  2: { intros b x Hb Hx. destruct (Hal8 b Hb) as (? & ? & ? & ?). change (h_mem h2) with m2.
       rewrite Hm2, Hm1 by lia. done. }
  assert (HLp : ∀ b, b ∈ L → apart b.1 a ∧ apart b.1 p.1).
  { intros b Hb. destruct (Hin b (HinL b Hb)) as (? & ? & Hlt & _). specialize (HL b Hb). unfold gap in HL.
    destruct (Hlt ltac:(lia)). split; [unfold apart; lia |].
    apply nodes_split in Heq as [(-> & _) | (L' & -> & ->)]; [by apply elem_of_nil in Hb |].
    apply Forall_app in Hfl as [HL' Hfl]. apply Forall_cons in Hfl as [Hpi _]. rewrite Forall_forall in HL'. pose proof Hpi as [].
    apply elem_of_cons in Hb as [-> | Hb]; [unfold apart; cbn; lia |]. destruct (HL' b Hb). unfold apart. lia. }
  split; [done | done | | | | | |]; change (h_mem h2) with m2.
  - rewrite Heq'. apply chain_base. rewrite Hp'. split; [| done].
    apply (header_chain p.1 m1 m2); [done | by intros b ?; apply HLp |]. apply (header_chain a (h_mem h)); [done | by intros b ?; apply HLp | done].
  - rewrite Heq'. apply StronglySorted_app. split; [| split; [by apply StronglySorted_app in Hs as (_ & ? & _) | done]].
    intros b c Hb Hcc. specialize (HL b Hb). unfold gap in HL |- *. apply elem_of_cons in Hcc as [-> | Hcc]; [lia |].
    apply StronglySorted_cons in Hs2 as [Hg _]. rewrite Forall_forall in Hg. specialize (Hg c Hcc). unfold gap in Hg.
    assert (0 ≤ p'.2); [| lia]. rewrite Forall_forall in Hfl'.
    assert (p' ∈ (base, 0) :: fl') as [-> | Hp'in]%elem_of_cons by (rewrite Heq'; apply elem_of_app; right; by left); [done |].
    destruct (Hfl' p' Hp'in). lia.
  - change (h_freep h2) with p.1. rewrite Heq', fmap_app. apply elem_of_app. right. cbn. rewrite Hp'. by left.
  - apply Forall_forall. intros b Hb. destruct (Hal8 b Hb) as (? & ? & ? & ?).
    rewrite (header_load p.1 m1), (header_load a (h_mem h)) by (done || lia).
    pose proof (hk_alloc _ _ _ H) as Hall. apply Forall_cons in Hall as [_ Hall]. rewrite Forall_forall in Hall. by apply Hall.
  - apply Forall_app. by split.
  - rewrite cells_app, Hperm, <- app_assoc. pose proof (hk_nodup _ _ _ H) as Hnd. rewrite cells_app, cells_cons in Hnd.
    by rewrite Permutation_app_swap_app.
Qed.

(** ** Taking a block *)
Lemma nodes_nodup h fl al : heap_ok h fl al → NoDup ((base, 0) :: fl).*1.
Proof.
  intros H. pose proof (hk_sorted _ _ _ H) as Hs. pose proof (λ b, nodes_sizes _ _ _ b H) as Hn.
  revert Hs Hn. generalize ((base, 0) :: fl). intros l. induction l as [| b l IH]; intros Hs Hn; [constructor |].
  apply StronglySorted_cons in Hs as [Hg Hs]. cbn. constructor; [| apply IH; [done | intros c ?; apply Hn; by right]].
  intros (c & Hc & Hin)%list_elem_of_fmap. rewrite Forall_forall in Hg. specialize (Hg c Hin). unfold gap in Hg.
  destruct (Hn b ltac:(by left)). lia.
Qed.
Lemma nodes_apart h fl al b c : heap_ok h fl al → b ∈ (base, 0) :: fl → c ∈ (base, 0) :: fl → b.1 ≠ c.1 → apart b.1 c.1.
Proof.
  intros H Hb Hc Hne. pose proof (hk_base _ _ _ H). pose proof (hk_blocks _ _ _ H) as Hbl. apply Forall_app in Hbl as [Hbl _].
  rewrite Forall_forall in Hbl. apply elem_of_cons in Hb as [-> | Hb], Hc as [-> | Hc]; [done | | |].
  - destruct (Hbl c Hc). unfold apart. cbn in *. lia.
  - destruct (Hbl b Hb). unfold apart. cbn in *. lia.
  - apply (block_apart (h_brk h)); auto.
Qed.
(** The node whose pointer leads to [b]. *)
Lemma pred_unique h fl al X pr b Y prev :
  heap_ok h fl al → (base, 0) :: fl = X ++ pr :: b :: Y → prev ∈ ((base, 0) :: fl).*1 → load32 (h_mem h) prev = b.1 → prev = pr.1.
Proof.
  intros H Heq Hprev Hl. pose proof (nodes_nodup _ _ _ H) as Hnd. pose proof (hk_chain _ _ _ H) as Hc.
  apply list_elem_of_fmap in Hprev as (x & -> & Hx). apply list_elem_of_split in Hx as (A & B & HeqA).
  pose proof Hc as Hc'. rewrite HeqA in Hc'. apply chain_app in Hc' as [_ (Hx & _)]. rewrite Hl in Hx.
  assert (Hbb : b.1 ≠ base).
  { pose proof (hk_base _ _ _ H). pose proof (hk_blocks _ _ _ H) as [Hbl _]%Forall_app.
    replace (X ++ pr :: b :: Y) with ((X ++ [pr]) ++ b :: Y) in Heq by (by rewrite <- app_assoc).
    apply nodes_split in Heq as [(Hn & _) | (L' & _ & ->)]; [by destruct X |].
    apply Forall_app in Hbl as [_ Hbl]. apply Forall_cons in Hbl as [[] _]. lia. }
  destruct B as [| c B]; [done |]. cbn [head_addr] in Hx.
  assert (Hi : ((base, 0) :: fl).*1 !! (S (length A)) = Some b.1).
  { rewrite HeqA, fmap_app, lookup_app_r by (rewrite length_fmap; lia). rewrite length_fmap.
    replace (S (length A) - length A)%nat with 1%nat by lia. cbn. by rewrite Hx. }
  assert (Hj : ((base, 0) :: fl).*1 !! (S (length X)) = Some b.1).
  { rewrite Heq, fmap_app, lookup_app_r by (rewrite length_fmap; lia). rewrite length_fmap.
    by replace (S (length X) - length X)%nat with 1%nat by lia. }
  pose proof (NoDup_lookup _ _ _ _ Hnd Hi Hj) as Hij. injection Hij as Hij.
  assert (((base, 0) :: fl) !! length A = Some x) as Hax by (rewrite HeqA; by apply list_lookup_middle).
  assert (((base, 0) :: fl) !! length X = Some pr) as Hxp by (rewrite Heq; by apply list_lookup_middle).
  rewrite Hij in Hax. congruence.
Qed.

(** Every free block has a predecessor in the list. *)
Lemma pred_of (fl : list block) b : b ∈ fl → ∃ X pr Y, (base, 0) :: fl = X ++ pr :: b :: Y.
Proof.
  intros (F & Y & ->)%list_elem_of_split. destruct (exists_last (l := (base, 0) :: F)) as (X & pr & Heq); [done |].
  exists X, pr, Y. change ((base, 0) :: F ++ b :: Y) with (((base, 0) :: F) ++ b :: Y). by rewrite Heq, <- app_assoc.
Qed.

(** The heap after the block [b] between [pr] and [Y] has been replaced by [Z],
    the allocated block [(a, nu)] being the rest. *)
Lemma grab_rebuild h al F pr b Y Z X m a nu :
  heap_ok h (F ++ b :: Y) al → (base, 0) :: F = X ++ [pr] →
  chain m (X ++ [pr]) (head_addr Z base) → chain m Z base → StronglySorted gap Z →
  (∀ c, c ∈ Z → b.1 ≤ c.1) → Forall (block_in (h_brk h)) Z → block_in (h_brk h) (a, nu) →
  units b ++ cells Y ≡ₚ units (a, nu) ++ cells Z → load32 m (a + 4) = nu →
  (∀ c, c ∈ al → load32 m (c.1 + 4) = load32 (h_mem h) (c.1 + 4)) →
  heap_ok (h <| h_mem := m |> <| h_freep := pr.1 |>) (F ++ Z) ((a, nu) :: al).
Proof.
  intros H HX HcX HcZ HsZ HZ HbZ Hab Hperm Ha Hal. destruct H as [Hba Hbrk _ Hs Hfp Hall Hbl Hnd].
  change ((base, 0) :: F ++ b :: Y) with (((base, 0) :: F) ++ b :: Y) in Hs.
  apply Forall_app in Hbl as [Hbl Hbal]. apply Forall_app in Hbl as [HbF HbY]. apply Forall_cons in HbY as [Hbi HbY].
  apply StronglySorted_app in Hs as (Hlt & HsF & _).
  split; try done; cbn [h_mem h_freep h_brk set set_h_mem set_h_freep].
  - change ((base, 0) :: F ++ Z) with (((base, 0) :: F) ++ Z). rewrite HX. by apply chain_app.
  - change ((base, 0) :: F ++ Z) with (((base, 0) :: F) ++ Z). apply StronglySorted_app. split; [| done].
    intros x c Hx Hc. specialize (Hlt x b Hx ltac:(by left)). specialize (HZ c Hc). unfold gap in *. lia.
  - change ((base, 0) :: F ++ Z) with (((base, 0) :: F) ++ Z). rewrite HX, !fmap_app. apply elem_of_app. left.
    apply elem_of_app. right. by left.
  - constructor; [done |]. rewrite Forall_forall in Hall |- *. intros c Hc. rewrite Hal by done. by apply Hall.
  - apply Forall_app. split; [by apply Forall_app | by constructor].
  - rewrite <- app_assoc in Hnd |- *. rewrite !cells_app, !cells_cons in *.
    rewrite (app_assoc (cells Z)), (Permutation_app_comm (cells Z)), <- Hperm. exact Hnd.
Qed.

Lemma grab_run h fl al b prev nu :
  heap_ok h fl al → b ∈ fl → 1 ≤ nu ≤ b.2 → prev ∈ ((base, 0) :: fl).*1 → load32 (h_mem h) prev = b.1 →
  ∃ a h' fl', grab nu prev b.1 b.2 h = Done (a + 8) h' ∧ heap_ok h' fl' ((a, nu) :: al) ∧
    cells fl ≡ₚ units (a, nu) ++ cells fl' ∧ h_brk h' = h_brk h ∧ h_limit h' = h_limit h ∧ keeps_blocks h h' al.
Proof.
  intros H Hb Hnu Hprev Hl. destruct (pred_of fl b Hb) as (X & pr & Y & Heq).
  rewrite (pred_unique h fl al X pr b Y prev H Heq Hprev Hl) in *. clear prev Hprev Hl.
  assert (∃ F, fl = F ++ b :: Y ∧ (base, 0) :: F = X ++ [pr]) as (F & -> & HX).
  { replace (X ++ pr :: b :: Y) with ((X ++ [pr]) ++ b :: Y) in Heq by (by rewrite <- app_assoc).
    destruct (X ++ [pr]) as [| x L] eqn:E; [by destruct X |]. injection Heq as <- ->. by exists L. }
  pose proof (hk_base _ _ _ H) as [Hb0 Hblo]. pose proof (hk_brk _ _ _ H) as (Hbrk & Hbal & Hlim).
  pose proof (hk_blocks _ _ _ H) as Hbl. pose proof (hk_nodup _ _ _ H) as Hnd.
  assert (Hbi : block_in (h_brk h) b) by (rewrite Forall_forall in Hbl; by apply Hbl, elem_of_app; left).
  assert (HbY : Forall (block_in (h_brk h)) Y).
  { apply Forall_app in Hbl as [Hbl _]. apply Forall_app in Hbl as [_ Hbl]. by apply Forall_cons in Hbl as [_ ?]. }
  pose proof Hbi as [Hlo Hali Hsz Hend].
  pose proof (hk_chain _ _ _ H) as Hc. pose proof (hk_sorted _ _ _ H) as Hs. rewrite Heq in Hc, Hs.
  apply chain_app in Hc as [HcX (Hpp & Hps & Hbp & Hbs & HcY)].
  apply StronglySorted_app in Hs as (HsX & _ & Hs). apply StronglySorted_cons in Hs as [Hspr Hs].
  apply StronglySorted_cons in Hs as [Hsb HsY]. rewrite Forall_forall in Hspr, Hsb.
  assert (Hprb : pr.1 + 8 ≤ b.1 ∧ 0 ≤ pr.2).
  { destruct (nodes_sizes h _ al pr H) as (? & ? & _); [rewrite Heq; apply elem_of_app; right; by left |].
    pose proof (nodes_apart h _ al pr b H) as Ha. specialize (Hspr b ltac:(by left)). unfold gap in Hspr. unfold apart in Ha.
    rewrite Heq in Ha. specialize (Ha ltac:(apply elem_of_app; right; by left) ltac:(apply elem_of_app; right; right; by left)). lia. }
  assert (HapX : ∀ c, c ∈ X → c.1 + 8 ≤ pr.1).
  { intros c Hcc. specialize (HsX c pr Hcc ltac:(by left)). unfold gap in HsX.
    destruct (nodes_sizes h _ al c H) as (? & _); [rewrite Heq; apply elem_of_app; by left |].
    pose proof (nodes_apart h _ al c pr H) as Ha. unfold apart in Ha. rewrite Heq in Ha.
    specialize (Ha ltac:(apply elem_of_app; by left) ltac:(apply elem_of_app; right; by left)). lia. }
  assert (HapY : ∀ c, c ∈ Y → b.1 + 8 * b.2 < c.1) by (intros c Hcc; by apply Hsb).
  assert (Hal : ∀ c, c ∈ al → lo ≤ c.1 ∧ 1 ≤ c.2 ∧ (b.1 + 8 * b.2 ≤ c.1 ∨ c.1 + 8 * c.2 ≤ b.1) ∧ (pr.1 + 8 ≤ c.1 ∨ c.1 + 8 * c.2 ≤ pr.1)).
  { intros c Hcc. assert (Hci : block_in (h_brk h) c) by (rewrite Forall_forall in Hbl; by apply Hbl, elem_of_app; right).
    destruct Hci. split; [done |]. split; [done |]. split; [by apply (nodup_apart _ _ _ b c Hnd Hbl) |].
    assert (pr ∈ (base, 0) :: F) as [-> | Hpf]%elem_of_cons by (rewrite HX; apply elem_of_app; right; by left); [cbn; lia |].
    assert (Hpf' : pr ∈ F ++ b :: Y) by (apply elem_of_app; by left). 
    assert (Hpi : block_in (h_brk h) pr) by (rewrite Forall_forall in Hbl; by apply Hbl, elem_of_app; left). destruct Hpi.
    destruct (nodup_apart _ _ _ pr c Hnd Hbl Hpf' Hcc); lia. }
  unfold grab. destruct (Z.eqb_spec b.2 nu) as [He | He].
  - set (m := store32 (h_mem h) pr.1 (head_addr Y base)).
    assert (Hho : header_only pr.1 (h_mem h) m) by (apply header_store; auto).
    exists b.1, (h <| h_mem := m |> <| h_freep := pr.1 |>), (F ++ Y).
    split; [by rewrite bind_assoc, s_ptr_bind, Hbp |].
    assert (Hbeq : (b.1, nu) = b) by (destruct b; cbn in *; congruence). rewrite Hbeq.
    split; [| split_and!; try done].
    + rewrite <- Hbeq. apply (grab_rebuild h al F pr b Y Y X); try done; rewrite ?Hbeq; try done.
      * apply chain_app. cbn [head_addr]. split; [apply (header_chain pr.1 (h_mem h)); [done | | done] |].
        { intros c Hcc. left. by apply HapX. }
        cbn [chain head_addr]. unfold m at 1. rewrite load32_store32_eq, u32_id.
        { split_and!; try done. by unfold m; rewrite load32_store32_ne by lia. }
        destruct Y as [| y Y]; cbn; [unfold is_u32; lia |]. apply Forall_cons in HbY as [[] _]. unfold is_u32. lia.
      * apply (header_chain pr.1 (h_mem h)); [done | | done]. intros c Hcc. specialize (HapY c Hcc). right. lia.
      * intros c Hcc. specialize (HapY c Hcc). lia.
      * cbn. unfold m. rewrite load32_store32_ne by lia. by rewrite Hbs.
      * intros c Hcc. destruct (Hal c Hcc) as (? & ? & _ & ?). by rewrite (header_load pr.1 (h_mem h)) by (done || lia).
    + rewrite !cells_app, cells_cons. apply Permutation_app_swap_app.
    + apply (keeps_store h _ m al pr.1); [done | done |]. intros c Hcc. destruct (Hal c Hcc) as (? & ? & _ & ?). lia.
  - set (k := b.2 - nu). set (a := b.1 + 8 * k).
    set (m := store32 (store32 (h_mem h) (b.1 + 4) k) (a + 4) nu).
    assert (Hm : ∀ x, x < b.1 + 4 ∨ b.1 + 8 * b.2 ≤ x → load8 m x = load8 (h_mem h) x).
    { intros x Hx. unfold m. rewrite !load8_store32_ne by lia. done. }
    assert (Hml : ∀ x, x + 4 ≤ b.1 + 4 ∨ b.1 + 8 * b.2 ≤ x → load32 m x = load32 (h_mem h) x).
    { intros x Hx. apply load32_ext. intros i Hi. apply Hm. lia. }
    exists a, (h <| h_mem := m |> <| h_freep := pr.1 |>), (F ++ (b.1, k) :: Y).
    assert (Hcells : units b ++ cells Y ≡ₚ units (a, nu) ++ cells ((b.1, k) :: Y)).
    { rewrite cells_cons, (app_assoc (units (a, nu))), (Permutation_app_comm (units (a, nu))). f_equiv.
      pose proof (units_split b.1 b.2 k ltac:(lia)) as Hu. replace (b.2 - k) with nu in Hu by lia. fold a in Hu.
      rewrite <- Hu. by destruct b. }
    split; [| split; [| split_and!; try done]].
    + rewrite bind_assoc, set_size_bind. unfold hplus, sizeof_Header. rewrite u32_id by (unfold is_u32; lia).
      cbv zeta. rewrite bind_assoc, set_size_bind. done.
    + apply (grab_rebuild h al F pr b Y ((b.1, k) :: Y) X); try done.
      * apply chain_app. cbn [head_addr fst]. split.
        { clear -HcX HapX Hml Hprb. induction X as [| c X IH]; [done |]. destruct HcX as (Hp & Hsz & Hc).
          pose proof (HapX c ltac:(by left)). cbn [chain]. rewrite !Hml by lia. split_and!; try done.
          apply IH; [done | intros c' ?; apply HapX; by right]. }
        cbn [chain head_addr]. rewrite !Hml by lia. done.
      * cbn [chain fst snd head_addr]. rewrite Hml by lia. split; [done |]. split.
        { unfold m. rewrite load32_store32_ne by lia. rewrite load32_store32_eq. apply u32_id. unfold is_u32. lia. }
        clear -HcY HapY Hml. induction Y as [| c Y IH]; [done |]. destruct HcY as (Hp & Hsz & Hc).
        pose proof (HapY c ltac:(by left)). cbn [chain]. rewrite !Hml by lia. split_and!; try done.
        apply IH; [done | intros c' ?; apply HapY; by right].
      * apply StronglySorted_cons. split; [| done]. apply Forall_forall. intros c Hcc. specialize (HapY c Hcc). unfold gap. cbn. lia.
      * intros c [-> | Hcc]%elem_of_cons; [done |]. specialize (HapY c Hcc). lia.
      * constructor; [| done]. split; cbn; lia.
      * split; cbn; [lia | unfold a; zlia | lia | lia].
      * unfold m. rewrite load32_store32_eq. apply u32_id. unfold is_u32. lia.
      * intros c Hcc. destruct (Hal c Hcc) as (? & ? & ? & _). apply Hml. lia.
    + rewrite !cells_app, cells_cons, Hcells. apply Permutation_app_swap_app.
    + intros c x Hcc Hx. change (load8 m x = load8 (h_mem h) x). destruct (Hal c Hcc) as (? & ? & ? & _). apply Hm. lia.
Qed.

(** ** malloc: going round *)

(** From [x] the pointers lead through the nodes [l]. *)
Fixpoint links (m : mem) (x : Z) (l : list block) : Prop :=
  match l with
  | [] => True
  | b :: l => load32 m x = b.1 ∧ load32 m (b.1 + 4) = b.2 ∧ links m b.1 l
  end.
Lemma links_chain m x l e ne : chain m (x :: l) e → load32 m (e + 4) = ne → links m x.1 (l ++ [(e, ne)]).
Proof.
  revert x. induction l as [| b l IH]; intros x (Hp & _ & Hc) He; cbn; [done |].
  split; [done |]. split; [apply Hc |]. by apply IH.
Qed.
Lemma links_join m x l b t : links m x (l ++ [b]) → links m b.1 t → links m x (l ++ b :: t).
Proof.
  revert x. induction l as [| c l IH]; intros x; cbn; [tauto |]. intros (? & ? & ?) ?. split_and!; [done | done |]. by apply IH.
Qed.
(** All the way round, from a node to itself. *)
Lemma ring_links m L f R : chain m (L ++ f :: R) (head_addr (L ++ f :: R) base) → links m f.1 (R ++ L ++ [f]).
Proof.
  intros [HL HR]%chain_app. pose proof HR as (_ & Hf & _). destruct L as [| y L]; cbn [app head_addr] in *.
  - apply (links_chain _ _ _ _ f.2) in HR; [| done]. by destruct f.
  - pose proof HL as (_ & Hy & _). apply (links_chain _ _ _ _ y.2) in HR; [| done]. apply (links_chain _ _ _ _ f.2) in HL; [| done].
    apply links_join; [by destruct y | by destruct f].
Qed.
(** The last node of [t], or [x]. *)
Fixpoint end_of (x : Z) (t : list block) : Z := match t with [] => x | c :: t => end_of c.1 t end.
Lemma end_of_in x t : end_of x t = x ∨ end_of x t ∈ t.*1.
Proof.
  revert x. induction t as [| c t IH]; intros x; [by left | right]. cbn. destruct (IH c.1) as [-> | H]; [by left | by right].
Qed.

Lemma first_fit nu (l : list block) :
  (∃ t b rest, l = t ++ b :: rest ∧ Forall (λ c, c.2 < nu) t ∧ nu ≤ b.2) ∨ Forall (λ c, c.2 < nu) l.
Proof.
  induction l as [| c l IH]; [by right |]. destruct (decide (c.2 < nu)).
  - destruct IH as [(t & b & rest & -> & Ht & Hb) | H]; [left; exists (c :: t), b, rest; by split_and!; [| constructor |] | right; by constructor].
  - left. exists [], c, l. split_and!; [done | constructor | lia].
Qed.

Lemma scan_fit h nu b rest t : ∀ x fuel,
  links (h_mem h) x (t ++ b :: rest) → Forall (λ c, c.2 < nu ∧ c.1 ≠ h_freep h) t → nu ≤ b.2 → (length t < fuel)%nat →
  malloc_loop fuel nu x (head_addr (t ++ b :: rest) 0) h = grab nu (end_of x t) b.1 b.2 h ∧
  load32 (h_mem h) (end_of x t) = b.1.
Proof.
  induction t as [| c t IH]; intros x [| fuel] Hl Ht Hb Hf; cbn [length] in Hf; try lia; cbn [app head_addr malloc_loop end_of].
  - destruct Hl as (Hx & Hs & _). rewrite s_size_bind, Hs. by rewrite (proj2 (Z.geb_le _ _)).
  - apply Forall_cons in Ht as [[Hc Hne] Ht]. cbn [app links] in Hl. destruct Hl as (Hx & Hs & Hl).
    rewrite s_size_bind, Hs. destruct (Z.geb_spec c.2 nu); [lia |]. rewrite bind_gets.
    destruct (Z.eqb_spec c.1 (h_freep h)) as [|]; [done |]. rewrite s_ptr_bind.
    assert (load32 (h_mem h) c.1 = head_addr (t ++ b :: rest) 0) as ->.
    { destruct t; cbn in Hl |- *; apply Hl. }
    apply IH; [done | done | done | lia].
Qed.
Lemma scan_none h nu f t : ∀ x fuel,
  links (h_mem h) x (t ++ [f]) → Forall (λ c, c.2 < nu ∧ c.1 ≠ h_freep h) t → f.2 < nu → f.1 = h_freep h → (length t < fuel)%nat →
  malloc_loop fuel nu x (head_addr (t ++ [f]) 0) h =
  (p ← morecore nu; if p =? 0 then mret 0 else q ← s_ptr p; malloc_loop (fuel - S (length t)) nu p q) h.
Proof.
  induction t as [| c t IH]; intros x [| fuel] Hl Ht Hb Hf Hfuel; cbn [length] in Hfuel; try lia; cbn [app head_addr malloc_loop].
  - destruct Hl as (Hx & Hs & _). rewrite s_size_bind, Hs. destruct (Z.geb_spec f.2 nu); [lia |]. rewrite bind_gets, Hf, Z.eqb_refl.
    cbn [length]. by replace (S fuel - 1)%nat with fuel by lia.
  - apply Forall_cons in Ht as [[Hc Hne] Ht]. cbn [app links] in Hl. destruct Hl as (Hx & Hs & Hl).
    rewrite s_size_bind, Hs. destruct (Z.geb_spec c.2 nu); [lia |]. rewrite bind_gets.
    destruct (Z.eqb_spec c.1 (h_freep h)) as [|]; [done |]. rewrite s_ptr_bind.
    assert (load32 (h_mem h) c.1 = head_addr (t ++ [f]) 0) as ->.
    { destruct t; cbn in Hl |- *; apply Hl. }
    rewrite (IH _ fuel Hl Ht Hb Hf) by lia. done.
Qed.

(** The nodes in the order in which [malloc] looks at them. *)
Lemma ring_of h fl al : heap_ok h fl al →
  ∃ t f, links (h_mem h) (h_freep h) (t ++ [f]) ∧ f.1 = h_freep h ∧ (∀ c, c ∈ t ++ [f] ↔ c ∈ (base, 0) :: fl) ∧
    (∀ c, c ∈ t → c.1 ≠ f.1) ∧ length t = length fl.
Proof.
  intros H. pose proof (hk_freep _ _ _ H) as (f & Hf & Hin)%list_elem_of_fmap. apply list_elem_of_split in Hin as (L & R & Heq).
  pose proof (hk_chain _ _ _ H) as Hc. exists (R ++ L), f. split_and!.
  - rewrite Hf, <- app_assoc. apply ring_links. by rewrite <- Heq.
  - done.
  - intros c. rewrite Heq, !elem_of_app, !elem_of_cons, elem_of_nil. tauto.
  - intros c Hcc He. pose proof (nodes_nodup _ _ _ H) as Hnd. rewrite Heq, fmap_app in Hnd. cbn in Hnd.
    apply NoDup_app in Hnd as (_ & Hd & [Hnin _]%NoDup_cons). apply elem_of_app in Hcc as [Hcc | Hcc].
    + apply Hnin. rewrite <- He. apply list_elem_of_fmap. by exists c.
    + apply (Hd c.1); [apply list_elem_of_fmap; by exists c | rewrite He; by left].
  - apply (f_equal length) in Heq. rewrite length_app in Heq |- *. cbn in Heq. lia.
Qed.

(** A block that is large enough is found. *)
Lemma malloc_found h fl al nu fuel : heap_ok h fl al → 1 ≤ nu → (∃ b, b ∈ fl ∧ nu ≤ b.2) → (S (length fl) < fuel)%nat →
  ∃ a h' fl', malloc_loop fuel nu (h_freep h) (load32 (h_mem h) (h_freep h)) h = Done (a + 8) h' ∧ heap_ok h' fl' ((a, nu) :: al) ∧
    cells fl ≡ₚ units (a, nu) ++ cells fl' ∧ h_brk h' = h_brk h ∧ h_limit h' = h_limit h ∧ keeps_blocks h h' al.
Proof.
  intros H Hnu (b0 & Hb0 & Hnb0) Hfuel. destruct (ring_of h fl al H) as (t & f & Hl & Hf & Hin & Hne & Hlen).
  destruct (first_fit nu (t ++ [f])) as [(t1 & b & rest & Heq & Ht1 & Hb) | Hall].
  2: { rewrite Forall_forall in Hall. specialize (Hall b0). rewrite Hin in Hall. specialize (Hall ltac:(by right)). cbn in Hall. lia. }
  assert (Hbfl : b ∈ fl).
  { assert (b ∈ (base, 0) :: fl) as [-> | ?]%elem_of_cons; [| cbn in Hb; lia | done].
    rewrite <- Hin, Heq. apply elem_of_app. right. by left. }
  assert (Ht1' : Forall (λ c, c.2 < nu ∧ c.1 ≠ h_freep h) t1).
  { rewrite Forall_forall in Ht1 |- *. intros c Hc. split; [by apply Ht1 |]. rewrite <- Hf. apply Hne.
    destruct rest as [| r rest].
    - apply app_inj_tail in Heq as [-> _]. done.
    - destruct (exists_last (l := r :: rest)) as (rest' & z & Hr); [done |]. rewrite Hr in Heq.
      replace (t1 ++ b :: rest' ++ [z]) with ((t1 ++ b :: rest') ++ [z]) in Heq by (by rewrite <- app_assoc).
      apply app_inj_tail in Heq as [-> _]. apply elem_of_app. by left. }
  assert (Hlen1 : (length t1 < fuel)%nat).
  { apply (f_equal length) in Heq. rewrite !length_app in Heq. cbn in Heq. lia. }
  rewrite Heq in Hl. destruct (scan_fit h nu b rest t1 (h_freep h) fuel Hl Ht1' Hb Hlen1) as [R Hprev].
  assert (load32 (h_mem h) (h_freep h) = head_addr (t1 ++ b :: rest) 0) as ->.
  { destruct t1; cbn in Hl |- *; apply Hl. }
  rewrite R. apply grab_run; try done.
  destruct (end_of_in (h_freep h) t1) as [-> | He]; [apply (hk_freep _ _ _ H) |].
  apply list_elem_of_fmap in He as (c & -> & Hc). apply list_elem_of_fmap. exists c. split; [done |].
  rewrite <- Hin, Heq. apply elem_of_app. by left.
Qed.

(** ** malloc: asking for more *)
Definition more (nu : Z) : Z := if nu <? 4096 then 4096 else nu.

Lemma units_nodup b : NoDup (units b).
Proof. unfold units. apply NoDup_fmap; [intros x y ?; lia | apply NoDup_seq]. Qed.

(** The new memory, as a block to be freed. *)
Lemma grown_ok h fl al k :
  heap_ok h fl al → 1 ≤ k → h_brk h + 8 * k ≤ h_limit h →
  heap_ok (h <| h_brk := h_brk h + 8 * k |> <| h_mem ::= λ m, store32 m (h_brk h + 4) k |>) fl ((h_brk h, k) :: al).
Proof.
  intros H Hk Hroom. pose proof (hk_base _ _ _ H) as [Hb0 Hblo]. pose proof (hk_brk _ _ _ H) as (Hbrk & Hbal & Hlim).
  pose proof (hk_blocks _ _ _ H) as Hbl.
  assert (Hin : ∀ b, b ∈ fl ++ al → block_in (h_brk h) b) by (by apply Forall_forall).
  split; cbn [h_mem h_freep h_brk h_limit set set_h_mem set_h_brk]; try apply H.
  - zlia.
  - apply (chain_store _ _ _ (h_brk h)); [| auto | apply H]. intros b [-> | Hb]%elem_of_cons; [left; cbn; lia |].
    destruct (Hin b); [apply elem_of_app; by left |]. left. lia.
  - constructor; [cbn; rewrite load32_store32_eq; apply u32_id; unfold is_u32; lia |].
    pose proof (hk_alloc _ _ _ H) as Hal. rewrite Forall_forall in Hal |- *. intros b Hb.
    destruct (Hin b); [apply elem_of_app; by right |]. rewrite load32_store32_ne by lia. by apply Hal.
  - assert (∀ b, block_in (h_brk h) b → block_in (h_brk h + 8 * k) b) as Hup by (intros b []; split; lia).
    apply Forall_app in Hbl as [Hf Ha]. apply Forall_app. split; [by eapply Forall_impl |].
    constructor; [split; cbn; lia | by eapply Forall_impl].
  - rewrite cells_app, cells_cons, Permutation_app_swap_app. apply NoDup_app. split; [apply units_nodup |].
    split; [| rewrite <- cells_app; apply H]. intros x (j & Hj & ->)%elem_of_units. rewrite <- cells_app.
    intros (b & Hb & (i & Hi & Hx)%elem_of_units)%elem_of_cells. destruct (Hin b Hb). cbn in *. lia.
Qed.

Lemma morecore_run h fl al nu :
  heap_ok h fl al → 1 ≤ nu → 8 * more nu < 2147483648 →
  if decide (h_brk h + 8 * more nu ≤ h_limit h)
  then ∃ h' fl', morecore nu h = Done (h_freep h') h' ∧ h_freep h' ≠ 0 ∧ heap_ok h' fl' al ∧
    cells fl' ≡ₚ units (h_brk h, more nu) ++ cells fl ∧ h_brk h' = h_brk h + 8 * more nu ∧ h_limit h' = h_limit h ∧
    keeps_blocks h h' al ∧ (∃ b, b ∈ fl' ∧ nu ≤ b.2) ∧ (length fl' ≤ S (length fl))%nat
  else morecore nu h = Done 0 h.
Proof.
  intros H Hnu Hmore. unfold morecore. fold (more nu).
  assert (Hk : nu ≤ more nu ∧ 1 ≤ more nu) by (unfold more; destruct (Z.ltb_spec nu 4096); lia).
  pose proof (hk_base _ _ _ H) as [Hb0 Hblo]. pose proof (hk_brk _ _ _ H) as (Hbrk & Hbal & Hlim).
  assert (Hs : sbrk (u32 (more nu * sizeof_Header)) h =
    if decide (h_brk h + 8 * more nu ≤ h_limit h) then Done (h_brk h) (h <| h_brk := h_brk h + 8 * more nu |>)
    else Done (u32 (-1)) h).
  { unfold sbrk. rewrite bind_gets. cbn [id]. unfold sizeof_Header. rewrite u32_id by (unfold is_u32; lia).
    assert (i32 (more nu * 8) = 8 * more nu) as -> by (unfold i32; rewrite Z.mod_small; lia).
    rewrite (proj2 (Z.leb_le 0 _)) by lia. cbn [andb]. case_decide as Hd; destruct (Z.leb_spec (h_brk h + 8 * more nu) (h_limit h)); done || lia. }
  case_decide as Hroom; rewrite (bind_done _ _ _ _ _ Hs); [| done].
  destruct (Z.eqb_spec (h_brk h) (u32 (-1))) as [Hx | _]; [change (u32 (-1)) with 4294967295 in Hx; lia |].
  rewrite set_size_bind. pose proof (grown_ok h fl al (more nu) H ltac:(lia) Hroom) as Hg.
  destruct (free_run _ _ _ _ _ Hg) as (h' & fl' & R & H' & Hperm & Hb & Hl & Hkeep & (b & Hbin & Hbn) & Hlen).
  unfold sizeof_Header. rewrite (bind_done _ _ _ _ _ R). exists h', fl'. split; [done |]. split.
  { pose proof (hk_freep _ _ _ H') as (f & -> & Hf)%list_elem_of_fmap. destruct (nodes_sizes _ _ _ f H' Hf). lia. }
  split; [done |]. split; [done |]. split; [done |]. split; [done |]. split; [| split; [exists b; split; [done | lia] | done]].
  intros c x Hc Hx. rewrite (Hkeep c x Hc Hx). pose proof (hk_blocks _ _ _ H) as Hbl. rewrite Forall_forall in Hbl.
  destruct (Hbl c); [apply elem_of_app; by right |]. cbn. apply load8_store32_ne. lia.
Qed.

(** ** The allocator's contract *)

(** Before the first call. *)
Record fresh (h : heap) : Prop := {
  fr_base : 0 < base ∧ base + 8 ≤ lo;
  fr_brk : lo ≤ h_brk h ≤ h_limit h ∧ h_brk h mod 8 = 0 ∧ h_limit h ≤ 2147483648;
  fr_freep : h_freep h = 0 }.
Definition heap_inv (h : heap) (fl al : list block) : Prop := heap_ok h fl al ∨ (fresh h ∧ fl = [] ∧ al = []).

(** How many Headers a request takes. *)
Definition wanted (nbytes : Z) : Z := (nbytes + 7) / 8 + 1.

Lemma malloc_init h : fresh h →
  heap_ok (h <| h_freep := base |> <| h_mem ::= λ m, store32 m base base |> <| h_mem ::= λ m, store32 m (base + 4) 0 |>) [] [].
Proof.
  intros [[Hb0 Hblo] (Hbrk & Hbal & Hlim) Hf].
  split; cbn [h_mem h_freep h_brk h_limit set set_h_mem set_h_brk set_h_freep]; try done.
  - cbn [chain head_addr fst snd]. rewrite load32_store32_ne, !load32_store32_eq by lia.
    split; [apply u32_id; unfold is_u32; lia | done].
  - constructor; [constructor | constructor].
  - by left.
  - constructor.
Qed.

Lemma malloc_run h fl al nbytes :
  heap_inv h fl al → 0 ≤ nbytes ≤ 2147483616 →
  ∃ r h', malloc base nbytes h = Done r h' ∧ h_limit h' = h_limit h ∧ keeps_blocks h h' al ∧
    ((r = 0 ∧ h_limit h < h_brk h + 8 * more (wanted nbytes) ∧ Forall (λ b, b.2 < wanted nbytes) fl ∧
        h_brk h' = h_brk h ∧ heap_ok h' fl al) ∨
     (∃ a fl', r = a + 8 ∧ heap_ok h' fl' ((a, wanted nbytes) :: al) ∧
        cells fl ++ units (h_brk h, (h_brk h' - h_brk h) / 8) ≡ₚ units (a, wanted nbytes) ++ cells fl')).
Proof.
  intros Hinv Hn. unfold malloc. cbv zeta.
  assert (Hw : u32 (u32 (nbytes + sizeof_Header - 1) / sizeof_Header + 1) = wanted nbytes).
  { unfold sizeof_Header, wanted. replace (nbytes + 8 - 1) with (nbytes + 7) by lia.
    rewrite (u32_id (nbytes + 7)) by (unfold is_u32; lia). apply u32_id. zlia. }
  rewrite Hw. set (nu := wanted nbytes). assert (Hnu : 1 ≤ nu ∧ 8 * nu ≤ nbytes + 15) by (unfold nu, wanted; zlia).
  assert (Hmore : 8 * more nu < 2147483648) by (unfold more; destruct (Z.ltb_spec nu 4096); lia).
  rewrite bind_gets. cbn [id].
  (* after the initialisation *)
  assert (∃ h1, (prevp ← (if h_freep h =? 0 then
             modify (λ h, h <| h_freep := base |>);; set_ptr base base;; set_size base 0;; mret base
           else mret (h_freep h));
      p ← s_ptr prevp; malloc_loop (2 * list_fuel h + 6) nu prevp p) h =
    malloc_loop (2 * list_fuel h + 6) nu (h_freep h1) (load32 (h_mem h1) (h_freep h1)) h1 ∧
    heap_ok h1 fl al ∧ h_brk h1 = h_brk h ∧ h_limit h1 = h_limit h ∧ keeps_blocks h h1 al) as (h1 & -> & H1 & Hb1 & Hl1 & Hk1).
  { destruct Hinv as [H | (Hf & -> & ->)].
    - exists h. assert (h_freep h ≠ 0).
      { pose proof (hk_freep _ _ _ H) as (f & -> & Hf)%list_elem_of_fmap. destruct (nodes_sizes _ _ _ f H Hf).
        pose proof (hk_base _ _ _ H). lia. }
      rewrite (proj2 (Z.eqb_neq _ _)) by done. done.
    - pose proof (malloc_init h Hf) as Hi. rewrite (fr_freep _ Hf). eexists. split; [| split; [exact Hi | split_and!; try done]].
      + done.
      + intros b x Hb. by apply elem_of_nil in Hb. }
  assert (Hfuel : list_fuel h = list_fuel h1) by (unfold list_fuel; by rewrite Hb1). rewrite Hfuel.
  pose proof (list_fuel_ok _ _ _ H1) as Hlf. rewrite <- Hb1, <- Hl1.
  destruct (first_fit nu fl) as [(t0 & b0 & rest0 & Hfl & _ & Hfit) | Hsmall].
  { destruct (malloc_found h1 fl al nu (2 * list_fuel h1 + 6) H1) as (a & h' & fl' & R & H' & Hperm & Hb & Hl & Hk); [lia | | lia |].
    { exists b0. split; [rewrite Hfl; apply elem_of_app; right; by left | done]. }
    exists (a + 8), h'. split; [done |]. split; [done |]. split; [intros c x Hc Hx; by rewrite (Hk c x), (Hk1 c x) |].
    right. exists a, fl'. split; [done |]. split; [done |]. rewrite Hb, Z.sub_diag. change (units (h_brk h1, 0 / 8)) with (@nil Z).
    by rewrite app_nil_r. }
  destruct (ring_of h1 fl al H1) as (t & f & Hl & Hf & Hin & Hne & Hlen).
  assert (Hall : ∀ c, c ∈ t ++ [f] → c.2 < nu).
  { intros c [-> | Hc]%Hin%elem_of_cons; [cbn; lia |]. rewrite Forall_forall in Hsmall. by apply Hsmall. }
  assert (load32 (h_mem h1) (h_freep h1) = head_addr (t ++ [f]) 0) as -> by (destruct t; cbn in Hl |- *; apply Hl).
  rewrite (scan_none h1 nu f t); [| done | | | done | lia].
  2: { apply Forall_forall. intros c Hc. rewrite <- Hf. split; [apply Hall, elem_of_app; by left | by apply Hne]. }
  2: { apply Hall, elem_of_app. right. by left. }
  pose proof (morecore_run h1 fl al nu H1 ltac:(lia) Hmore) as Hmc. case_decide as Hroom.
  - destruct Hmc as (h2 & fl2 & R & Hf0 & H2 & Hperm & Hb2 & Hl2 & Hk2 & Hbig & Hlen2).
    rewrite (bind_done _ _ _ _ _ R), (proj2 (Z.eqb_neq _ _) Hf0), s_ptr_bind.
    destruct (malloc_found h2 fl2 al nu (2 * list_fuel h1 + 6 - S (length t)) H2) as (a & h' & fl' & R' & H' & Hperm' & Hb & Hl' & Hk); [lia | done | lia |].
    exists (a + 8), h'. split; [done |]. split; [by rewrite Hl' |]. split; [intros c x Hc Hx; by rewrite (Hk c x), (Hk2 c x), (Hk1 c x) |].
    right. exists a, fl'. split; [done |]. split; [done |]. rewrite Hb, Hb2.
    replace ((h_brk h1 + 8 * more nu - h_brk h1) / 8) with (more nu) by zlia. by rewrite Permutation_app_comm, <- Hperm, Hperm'.
  - rewrite (bind_done _ _ _ _ _ Hmc). exists 0, h1. split; [done |]. split; [done |]. split; [done |]. left. split_and!; done || lia.
Qed.

(** C19: [malloc], whatever was done before: it returns, with a block of the wanted
    size made of Headers that were free or are new - none is lost - or with 0
    when no free block is large enough and the process cannot grow; the other
    blocks keep their bytes.  Free neighbours are always joined. *)
Theorem malloc_spec h fl al nbytes :
  heap_inv h fl al → 0 ≤ nbytes ≤ 2147483616 →
  ∃ r h', malloc base nbytes h = Done r h' ∧ h_limit h' = h_limit h ∧ keeps_blocks h h' al ∧
    ((r = 0 ∧ h_limit h < h_brk h + 8 * more (wanted nbytes) ∧ Forall (λ b, b.2 < wanted nbytes) fl ∧
        h_brk h' = h_brk h ∧ heap_ok h' fl al) ∨
     (∃ a fl', r = a + 8 ∧ heap_ok h' fl' ((a, wanted nbytes) :: al) ∧
        cells fl ++ units (h_brk h, (h_brk h' - h_brk h) / 8) ≡ₚ units (a, wanted nbytes) ++ cells fl')).
Proof. apply malloc_run. Qed.

(** ** A well-behaved client *)
Inductive client : heap * list block → heap * list block → Prop :=
  | client_malloc h al n r h' :
      0 ≤ n ≤ 2147483616 → malloc base n h = Done r h' →
      client (h, al) (h', if decide (r = 0) then al else (r - 8, wanted n) :: al)
  | client_free h al a n al' h' :
      al ≡ₚ (a, n) :: al' → free (a + 8) h = Done tt h' → client (h, al) (h', al')
  | client_write h al m :
      (∀ x, (∀ b, b ∈ al → x < b.1 + 8 ∨ b.1 + 8 * b.2 ≤ x) → load8 m x = load8 (h_mem h) x) →
      client (h, al) (h <| h_mem := m |>, al).

Lemma heap_ok_perm h fl al al' : al ≡ₚ al' → heap_ok h fl al → heap_ok h fl al'.
Proof.
  intros Hp []. split; try done; by rewrite <- Hp.
Qed.
(** The client's writes stay inside its blocks. *)
Lemma heap_ok_write h fl al m :
  (∀ x, (∀ b, b ∈ al → x < b.1 + 8 ∨ b.1 + 8 * b.2 ≤ x) → load8 m x = load8 (h_mem h) x) →
  heap_ok h fl al → heap_ok (h <| h_mem := m |>) fl al.
Proof.
  intros Hm H. pose proof (hk_blocks _ _ _ H) as Hbl. pose proof (hk_nodup _ _ _ H) as Hnd. pose proof (hk_base _ _ _ H).
  assert (Hin : ∀ b, b ∈ fl ++ al → block_in (h_brk h) b) by (by apply Forall_forall).
  assert (Hl : ∀ y, (∀ b, b ∈ al → y + 4 ≤ b.1 + 8 ∨ b.1 + 8 * b.2 ≤ y) → load32 m y = load32 (h_mem h) y).
  { intros y Hy. apply load32_ext. intros i Hi. apply Hm. intros b Hb. destruct (Hy b Hb); [left | right]; lia. }
  split; cbn [h_mem h_freep h_brk h_limit set set_h_mem]; try apply H.
  - pose proof (hk_chain _ _ _ H) as Hc.
    assert (Hn : ∀ c, c ∈ (base, 0) :: fl → load32 m c.1 = load32 (h_mem h) c.1 ∧ load32 m (c.1 + 4) = load32 (h_mem h) (c.1 + 4)).
    { intros c Hc'. assert (∀ b, b ∈ al → c.1 + 8 ≤ b.1 ∨ b.1 + 8 * b.2 ≤ c.1) as Hd.
      { intros b Hb. apply elem_of_cons in Hc' as [-> | Hc'].
        - destruct (Hin b); [apply elem_of_app; by right |]. cbn. lia.
        - destruct (Hin c); [apply elem_of_app; by left |]. destruct (nodup_apart _ _ _ c b Hnd Hbl Hc' Hb); lia. }
      split; apply Hl; intros b Hb; specialize (Hd b Hb); lia. }
    revert Hc Hn. generalize ((base, 0) :: fl). intros l. induction l as [| c l IH]; [done |]. intros (Hp & Hs & Hc) Hn.
    destruct (Hn c ltac:(by left)) as [Hn1 Hn2]. cbn [chain]. rewrite Hn1, Hn2. split_and!; [done | done |].
    apply IH; [done | intros d ?; apply Hn; by right].
  - pose proof (hk_alloc _ _ _ H) as Hal. rewrite Forall_forall in Hal |- *. intros b Hb. rewrite <- (Hal b Hb). apply Hl.
    intros c Hc. destruct (decide (b = c)) as [-> |]; [lia |].
    apply list_elem_of_split in Hb as (A & B & ->).
    assert (c ∈ A ++ B) as Hc'.
    { apply elem_of_app in Hc as [Hc | [-> | Hc]%elem_of_cons]; [apply elem_of_app; by left | done | apply elem_of_app; by right]. }
    rewrite cells_app, NoDup_app in Hnd. destruct Hnd as (_ & _ & Hnd).
    rewrite (Permutation_app_comm A (b :: B)) in Hnd. cbn [app] in Hnd. rewrite (Permutation_app_comm B A) in Hnd.
    apply Forall_app in Hbl as [_ Hbl]. assert (Hbl' : Forall (block_in (h_brk h)) ([b] ++ (A ++ B))).
    { apply Forall_app in Hbl as [HA HB]. apply Forall_cons in HB as [? ?]. constructor; [done |]. by apply Forall_app_2. }
    destruct (Hin b); [apply elem_of_app; right; apply elem_of_app; right; by left |].
    destruct (Hin c); [by apply elem_of_app; right |].
    destruct (nodup_apart _ [b] (A ++ B) b c Hnd Hbl' ltac:(by left) Hc'); lia.
Qed.
Lemma fresh_write h m : fresh h → fresh (h <| h_mem := m |>).
Proof. by intros []. Qed.

Lemma client_inv h al h' al' : client (h, al) (h', al') → (∃ fl, heap_inv h fl al) → ∃ fl, heap_inv h' fl al'.
Proof.
  inversion 1 as [? ? n r ? Hn R | ? ? a n ? ? Hp R | ? ? m Hm]; subst; intros [fl Hi].
  - destruct (malloc_run h fl al n Hi Hn) as (r0 & h1 & R0 & _ & _ & [(-> & _ & _ & _ & Hok) | (a & fl' & -> & Hok & _)]); rewrite R in R0; injection R0 as -> ->.
    + exists fl. left. by rewrite decide_True.
    + exists fl'. left. destruct (hk_base _ _ _ Hok). pose proof (hk_blocks _ _ _ Hok) as [_ [[] _]%Forall_cons]%Forall_app. cbn in *.
      rewrite decide_False by lia. by replace (a + 8 - 8) with a by lia.
  - destruct Hi as [Hok | (_ & _ & ->)]; [| by apply Permutation_nil in Hp].
    apply (heap_ok_perm _ _ _ _ Hp) in Hok. destruct (free_run _ _ _ _ _ Hok) as (h1 & fl' & R0 & Hok' & _).
    rewrite R in R0. injection R0 as ->. exists fl'. by left.
  - exists fl. destruct Hi as [Hok | (Hf & -> & ->)]; [left; by apply heap_ok_write | right; by split; [apply fresh_write |]].
Qed.
Lemma client_reach h0 h al : fresh h0 → rtc client (h0, []) (h, al) → ∃ fl, heap_inv h fl al.
Proof.
  intros Hf Hr. assert (∀ x y, rtc client x y → (∃ fl, heap_inv x.1 fl x.2) → ∃ fl, heap_inv y.1 fl y.2) as Hind.
  { induction 1 as [| x y z Hxy _ IH]; [done |]. intros Hi. apply IH. destruct x, y. by apply (client_inv _ _ _ _ Hxy). }
  apply (Hind _ _ Hr). exists []. right. done.
Qed.

(** C18: However a program mallocs, frees what it was given and writes into it: its
    blocks never overlap, each lies inside the process, every further malloc and
    free returns, and neither touches the bytes of another block. *)
Theorem umalloc_safe h0 h al :
  fresh h0 → rtc client (h0, []) (h, al) →
  NoDup (cells al) ∧ Forall (block_in (h_brk h)) al ∧
  (∀ nbytes, 0 ≤ nbytes ≤ 2147483616 → ∃ r h', malloc base nbytes h = Done r h' ∧ keeps_blocks h h' al ∧
     (r = 0 ∨ nbytes ≤ 8 * (wanted nbytes - 1) ∧ block_in (h_brk h') (r - 8, wanted nbytes) ∧
       NoDup (cells ((r - 8, wanted nbytes) :: al)))) ∧
  (∀ a n al', al ≡ₚ (a, n) :: al' → ∃ h', free (a + 8) h = Done tt h' ∧ keeps_blocks h h' al').
Proof.
  intros Hf Hr. destruct (client_reach h0 h al Hf Hr) as [fl Hi]. split; [| split; [| split]].
  - destruct Hi as [Hok | (_ & _ & ->)]; [| constructor]. pose proof (hk_nodup _ _ _ Hok) as Hnd.
    rewrite cells_app, NoDup_app in Hnd. apply Hnd.
  - destruct Hi as [Hok | (_ & _ & ->)]; [| constructor]. pose proof (hk_blocks _ _ _ Hok) as Hbl. by apply Forall_app in Hbl as [_ ?].
  - intros nbytes Hn. destruct (malloc_run h fl al nbytes Hi Hn) as (r & h' & R & _ & Hk & Hres). exists r, h'. split; [done |]. split; [done |].
    destruct Hres as [(-> & _) | (a & fl' & -> & Hok & _)]; [by left | right]. replace (a + 8 - 8) with a by lia.
    split; [unfold wanted; zlia |]. pose proof (hk_blocks _ _ _ Hok) as [_ [Ha _]%Forall_cons]%Forall_app. split; [done |].
    pose proof (hk_nodup _ _ _ Hok) as Hnd. rewrite cells_app, NoDup_app in Hnd. apply Hnd.
  - intros a n al' Hp. destruct Hi as [Hok | (_ & _ & ->)]; [| by apply Permutation_nil in Hp].
    apply (heap_ok_perm _ _ _ _ Hp) in Hok. destruct (free_run _ _ _ _ _ Hok) as (h' & fl' & R & _ & _ & _ & _ & Hk & _).
    by exists h'.
Qed.
End heap.

(** ** Witnesses *)
Definition young : heap := mkHeap ∅ 0 16384 262144.
Lemma young_fresh : fresh 4096 8192 young.
Proof. split; cbn; done || lia. Qed.

Lemma malloc_spec_witness :
  ∃ r h', malloc 4096 100 young = Done r h' ∧ r = 49048 ∧ keeps_blocks young h' [].
Proof.
  destruct (malloc_spec 4096 8192 young [] [] 100) as (r & h' & R & _ & Hk & _);
    [right; split; [apply young_fresh | done] | lia |].
  exists r, h'. split; [done |]. split; [| done]. vm_compute in R. by injection R.
Defined.

Lemma umalloc_safe_witness :
  ∃ h al, rtc (client 4096) (young, []) (h, al) ∧ al = [(49040, 14)] ∧ NoDup (cells al).
Proof.
  destruct (malloc 4096 100 young) as [r h | | |] eqn:R; try (by vm_compute in R).
  exists h, [(49040, 14)]. assert (r = 49048) as -> by (vm_compute in R; by injection R).
  assert (Hr : rtc (client 4096) (young, []) (h, [(49040, 14)])).
  { apply rtc_once. exact (client_malloc 4096 young [] 100 _ h ltac:(lia) R). }
  split; [done |]. split; [done |]. apply (umalloc_safe 4096 8192 young h _ young_fresh Hr).
Defined.

(** Sizes near the end of the address space wrap around: malloc(0xffffffff)
    succeeds with a block of no bytes. *)
Lemma malloc_overflow : ∃ h', malloc 4096 4294967295 young = Done 49152 h' ∧ load32 (h_mem h') (49152 - 4) = 1 ∧ h_brk h' = 49152.
Proof. destruct (malloc 4096 4294967295 young) as [r h' | | |] eqn:R; vm_compute in R; try done. injection R as <- <-. by eexists. Qed.
